(* ===== verification/_CoqProject ===== *)
-Q . S2P
Prelude.v
PyStr.v
PyVal.v
Digest.v
Serialization.v
Identity.v
Conditions.v
SchemaEvolution.v
Plan.v
PlanGraph.v
PlanLaws.v
Parallel.v
Events.v
EventPayload.v
EventStore.v
Retention.v
Projection.v
SideEffects.v
SideEffectAuth.v
Ownership.v
OwnershipReservation.v
OwnershipLaws.v
ProviderBudgets.v
ProviderBinding.v
KeyRing.v
Envelope.v
Authorization.v
Checkpoint.v
Streaming.v
Slots.v
QueueReservations.v
CheckpointBindings.v
LegacyRequest.v
Invocation.v
NativeGraph.v
NativeLaws.v
CommandContract.v
Commands.v
CommandSamples.v
TemporalContracts.v
TemporalLaws.v
Records.v
RetryProfiles.v
Reasons.v
ProbeWorkflows.v
Workflow.v
WorkflowCommands.v
WorkflowRun.v
WorkflowFrame.v
WorkflowInv.v
WorkflowSteps.v
WorkflowDistance.v
WorkflowMoves.v
WorkflowAuthority.v
WorkflowLaws.v
WorkflowSamples.v
Components.v
ComponentCompiler.v
ComponentLaws.v
ComponentOrder.v
ComponentSamples.v
