(* ===== verification/Prelude.v ===== *)
(** * Verification of the Ananta workflow runtime

    Ananta is a hub that plans work and delegates it to workers.  Its workflow
    runtime (src/agent/services/workflow_runtime/) decides what may run, hands
    steps out under leases, records what happened, and keeps effects from
    running twice; its Temporal worker (src/worker/temporal/) runs a plan as a
    durable workflow.  This library models that core as it is written, and
    proves what it promises.

    ** Files

    Every file requires this prelude and the files it calls.

    - Prelude: results with the code's exceptions, the state and error monad
      [action] (a method is [S → result A * S], so an exception keeps the state
      it was raised in), states reachable by calls, counting along runs, stable
      sorting, sums over maps; errors.py.
    - PyStr, PyVal: Python strings (Latin-1), exact binary64 floats with their
      [repr], JSON-like values with Python's truth, equality, [int], [float],
      [str] and dict semantics.
    - Digest: the interface [Digest] of hashing; SHA-256 is an instance, and so
      is a cheap checksum that witnesses evaluate.
    - Serialization: _serialization.py (canonical JSON, digests, redaction).
    - Identity: services/identity_validation.py.
    - Conditions: condition_evaluator.py; the evaluator with its shared node
      counter and depth limit against an unlimited big-step semantics.
    - SchemaEvolution: schema_evolution.py and compatibility.py; the checked
      migration loop, quarantine and the default upcasters.
    - Plan, PlanGraph, PlanLaws: execution_plan.py; parsing, each validation
      rule, the cycle check with its queue, the plan hash.
    - Parallel: parallel.py; selection of ready nodes under all limits, merge of
      branch results.
    - Events, EventPayload, EventStore, Projection: events.py; the event
      contract, strict loading with the JSON budget, InMemoryEventStore with
      its two indexes, the run projection and the adapter of older events.
    - Retention: retention.py; the policy and the hash-chained attestation of the
      ordered events of a run.
    - Streaming: streaming.py; requests, cursors, pages and the waiting loop of
      the event stream over the event store.
    - SideEffects, SideEffectAuth: side_effects.py and
      ananta_contracts/workflow_operation.py; the effect ledger with its status
      machine, and the atomic authorization with its append-only receipts.
    - Ownership, OwnershipReservation, OwnershipLaws: ownership.py and the retry
      categories of ananta_contracts/hub_task_gateway.py; leases, fencing tokens,
      accepted results, the retry budget shared by a run, the reservations of
      transitions, and the theorems over all calls of both kinds.
    - ProviderBudgets: provider_budgets.py; reservation and reconciliation of
      token and cost budgets and of profile attempts.
    - ProviderBinding: ananta_contracts/provider_execution.py; the contract that
      binds a provider call to its run, model, endpoint and budgets.
    - KeyRing, Envelope, Authorization, Checkpoint: security.py; signing keys
      (class [KeyRing], with HMAC-SHA256 and its rotation as an instance), the
      signed execution envelope, issuing, verifying and spending it once at the
      gate, and signed checkpoints.
    - Slots: the write-once record both reservation stores share (class [Slot]
      and the laws of claiming one); QueueReservations, CheckpointBindings:
      queue_reservations.py and checkpoint_bindings.py, its two instances.
    - LegacyRequest: agent/services/workflow_backend.py and the adapter of
      execution_plan.py; the older workflow requests and the plan each becomes.
    - Invocation, NativeGraph, NativeLaws: ananta_contracts/provider_invocation.py
      and native_graph_contracts.py; the contexts of provider calls, and the
      command that hands one node of a plan to the native graph runtime.
    - CommandContract, TemporalContracts, TemporalLaws:
      ananta_contracts/temporal_workflow.py; the neutral command, and what else
      crosses the boundary to the Temporal worker.
    - Records: updates of single record fields.  Reasons: the reason codes of the
      Temporal contracts are not empty.
    - RetryProfiles, ProbeWorkflows: worker/temporal/retry_profiles.py and the
      two probe workflows of worker/temporal/workflows.py.
    - Workflow, WorkflowCommands, WorkflowRun: AnantaWorkflow of workflows.py; its
      state and bookkeeping, its commands and signals, and the coroutine [run]
      with both schedulers as a machine driven by events.
    - WorkflowFrame, WorkflowInv, WorkflowSteps, WorkflowDistance, WorkflowMoves:
      what each operation changes, the invariant of a run, the scheduler's moves
      and the measure they lower; WorkflowAuthority, WorkflowLaws: the theorems;
      WorkflowSamples: sample runs.
    - Commands, CommandSamples: commands.py; signed operator commands, issued,
      verified and spent once, over the class [KeyRing] and the nonce store of
      Authorization.
    - Components, ComponentCompiler, ComponentLaws, ComponentOrder,
      ComponentSamples: components.py; the registry of versioned components and
      the compiler that inlines them into a plan.

    ** How the code is translated

    A store is a record of maps, a method an [action] on it with its checks and
    writes in source order, and an exception a value [Err].  Each store holds
    an RLock around every public method, so concurrent callers are sequences of
    calls; [reachable] is the set of states such sequences reach, and the
    theorems about stores quantify over all of them.  The clock and the random
    part of an identifier ([time.time], [uuid4]) are arguments.  A workflow is a
    coroutine that runs without interruption between two waits, so a run is a
    sequence of events (WorkflowRun.event): its start, a wake-up when its
    condition holds, the end of the awaited activity, a command, a reply of the
    command authority, a signal; the theorems hold for every sequence.  The calls
    a workflow makes on the engine are kept in order ([aw_calls]), so that they
    can speak of what was started and applied, and when.  Strings are
    Latin-1, the range in which Python's case and white space rules are
    modelled; integers are unbounded as in Python, with the code's own bounds
    checked where the code checks them; floats are IEEE binary64.

    Recursion that is not structural carries fuel, and what fuel is enough is
    proved: one step per node for the cycle check (plan_cycle_check_exact), one
    per registered edge for the migration loop (migration_terminates), the
    nesting of a condition for its validation (validate_condition_fuel), the
    depth limit itself for the evaluator (evaluate_sound), one more than the
    depth limit for the component compiler (compile_fuel).  A workflow needs no
    fuel: each event is one move, and run_bounded counts them.  SHA-256 runs through
    its fixed schedule, and a float is printed with at most 17 digits, which
    read back as the float.

    ** What is proved

    - Plans: a plan that passes validation is well formed and has no cycle; the
      check is exact; two plans of one hash are one plan or their two canonical
      texts collide, and loading refuses a plan whose hash does not match.
    - Serialization: canonical JSON is injective on normal forms; redaction
      removes what it means to and keeps the rest.
    - Conditions: whatever the limited evaluator answers the unlimited semantics
      answers, and within the limits they agree.
    - Migrations end; an upcast authorization never grants anything.
    - Scheduling stays within every limit; the merge does not depend on the
      order of the branches and loses none.
    - Events: streams are gapless, an append either raises and changes nothing,
      replays, or adds one event; the indexes are exact; projections converge
      whatever the delivery, and catch up from any cursor.
    - Effects: at most one execution per recorded failure, in every
      interleaving of ledger calls and authorizations; a committed
      authorization is found again by every retry; tokens and revisions never
      go back.
    - Ownership: an acquired claim fences off every earlier attempt for good; an
      accepted result is final; retries never exceed the budget; a step whose
      worker died is acquired by the next claim.  All of it holds whatever
      claims, heartbeats, acknowledgements and reservations run in between.
    - Provider budgets: aggregates equal the sum of their reservations and stay
      within the limits; a reservation is all or nothing and its replay is free.
    - Security: an envelope that was issued verifies; what verifies was signed
      by a key of the ring that is not revoked and binds tenant, run, task,
      resource, budgets and policy; the gate lets an envelope through exactly
      when every check holds, and through one nonce at most once until it
      expires; a checkpoint loads back as it was signed.
    - Streaming delivers every event after the cursor exactly once and in order,
      and its waiting ends.
    - A queue or checkpoint slot is bound once; every later call replays it or
      fails.
    - Components: a registered version never changes; a compiled plan has exactly
      the steps of its components, runs them in the order the plan and the
      components prescribe, and grants nothing their nodes were not granted.
    - Commands: an issued command loads back and is accepted exactly for its own
      bindings and dates; it is spent once; its signature binds all of it.
    - Across contracts: a request of the older contract becomes a plan with its
      steps, gates and dependencies and the hub's tenant and policy; a native
      command confines its worker to the envelope it carries; an envelope read
      and written by the Temporal worker keeps the payload the hub signed; a
      workflow input that loads is ordered, bounded and authorized step by step.
    - Workflow runs: only what may run is started, once, in order, behind its
      approved gate and within its attempts; commands are applied one per
      revision, only when the hub's authority accepts them and they are valid; a
      run ends after a bounded number of moves, waits for nobody but an operator,
      and is completed only when every step is.

    A theorem that is a property of the manifest starts its comment with its
    identifier.  A theorem with hypotheses has a witness that applies it to a
    concrete input, at the end of its file or in the Samples file beside it.

    ** Parameters

    [Digest] is a parameter where a theorem holds for every hash; a statement on
    integrity has the case that the two texts it names, the very ones that were
    hashed, differ and have one digest ([Digest.clash]).  The pydantic model
    of model routing (Plan), registered upcasters (SchemaEvolution), the
    capacity port (Parallel), the endpoint normalizer (ProviderBinding) and JSON
    Schema validation (Components) are arguments, since they are not code of the
    runtime.  So are clocks, random tokens, what each poll of a store returns, and
    what the Temporal engine decides: the order of the events, the replies of
    activities, and which patches a run has ([patched]).

    ** Not modelled, and next

    CPython refuses to convert integers of more than 4300 digits to and from
    text; [py_int] and [z_str] do not.  The SQLite and SQLAlchemy stores repeat
    the in-memory stores over a database and are left to their conformance
    tests; telemetry, drills, release evidence and its gate collect and judge
    data from outside the runtime.  Of the Temporal worker, the activities, the
    Ed25519 verification, the configuration and the process around the workflow
    are not modelled.  Outside workflow_runtime and the worker, routes,
    clients, providers, retrieval, voice and the front ends are not modelled. *)
From Stdlib Require Export ZArith Lia.
From stdpp Require Export base tactics option list strings gmap sorting.

#[global] Open Scope Z_scope.

(** The lemmas that automate the common cases of the runtime components. *)
Create HintDb runtime.

(** ** Exceptions

    One constructor per exception class the modelled code raises
    (errors.py, identity_validation.py, and the stores' own classes), carrying
    the reason code the code passes to the constructor. *)

Record ContractIssue := {
  ci_code : string;
  ci_path : string;
  ci_message : string;
}.

Inductive exn : Type :=
| ValueError (code : string)
| TypeError (code : string)
| KeyError (code : string)
| IndexError (code : string)
| OverflowError (code : string)
| AttributeError (code : string)
| ContractValidationError (issues : list ContractIssue)
| OptimisticConcurrencyError (code : string)
| FencingTokenError (code : string)
| InvalidTransitionError (code : string)
| SignatureValidationError (code : string)
| UnsupportedSchemaVersion (code : string)
| IdentityValidationError (reason_code field_name : string)
| ProviderBudgetError (reason_code : string)
| ProviderExecutionBindingError (reason_code : string)
| RuntimeAuthorizationCryptoError (reason_code : string)
| TemporalContractError (reason_code : string)
| ProviderInvocationBlocked (reason_code : string)
| ReservationError (code : string)
| ReservationConflict (code : string)
| ReservationStale (code : string)
| ReservationHeld (code : string)
| StreamError (reason_code : string).

#[global] Instance ContractIssue_eq_dec : EqDecision ContractIssue.
Proof. solve_decision. Defined.
#[global] Instance exn_eq_dec : EqDecision exn.
Proof. solve_decision. Defined.

(** A [ContractValidationError] built from one bare reason code. *)
Definition contract_error (code : string) : exn :=
  ContractValidationError [{| ci_code := code; ci_path := ""; ci_message := "" |}].

Definition issue (code path : string) : ContractIssue :=
  {| ci_code := code; ci_path := path; ci_message := "" |}.

(** [str(exc)] *)
Definition exn_message (e : exn) : string :=
  match e with
  | ContractValidationError issues =>
      match issues with
      | [] => "contract_invalid"
      | _ => String.concat ", " (map ci_code issues)
      end
  | ValueError c | TypeError c | KeyError c | IndexError c | OverflowError c | AttributeError c
  | OptimisticConcurrencyError c | FencingTokenError c | InvalidTransitionError c
  | SignatureValidationError c | UnsupportedSchemaVersion c | IdentityValidationError c _
  | ProviderBudgetError c | ProviderExecutionBindingError c | RuntimeAuthorizationCryptoError c
  | TemporalContractError c | ProviderInvocationBlocked c
  | ReservationError c | ReservationConflict c
  | ReservationStale c | ReservationHeld c | StreamError c => c
  end.

(** [except (TypeError, ValueError)], with the subclasses of [ValueError]. *)
Definition is_value_or_type_error (e : exn) : bool :=
  match e with
  | ValueError _ | TypeError _ | ContractValidationError _ | IdentityValidationError _ _
  | ProviderExecutionBindingError _ | RuntimeAuthorizationCryptoError _
  | TemporalContractError _ | StreamError _ => true
  | _ => false
  end.

(** ** Results and stateful actions

    A call either returns or raises.  A method of a store is an [action]: it
    returns or raises {e and} leaves a state, because a Python method that
    raises keeps the mutations made before the [raise]. *)

Inductive result (A : Type) : Type :=
| Ok (a : A)
| Err (e : exn).
Arguments Ok {_} _.
Arguments Err {_} _.

#[global] Instance result_eq_dec {A} `{EqDecision A} : EqDecision (result A).
Proof. solve_decision. Defined.

#[global] Instance result_ret : MRet result := @Ok.
#[global] Instance result_bind : MBind result := λ A B f r,
  match r with Ok a => f a | Err e => Err e end.
#[global] Instance result_throw : MThrow exn result := λ A e, Err e.

Definition raise_when (b : bool) (e : exn) : result unit :=
  if b then Err e else Ok tt.

(** [try: r except: raise e]. *)
Definition or_raise {A} (r : result A) (e : exn) : result A :=
  match r with Ok a => Ok a | Err _ => Err e end.

(** [for x in l: f(x)], stopping at the first exception. *)
Fixpoint for_each {A} (f : A → result unit) (l : list A) : result unit :=
  match l with
  | [] => Ok tt
  | x :: l => f x ;; for_each f l
  end.

(** [[f(x) for x in l]], stopping at the first exception. *)
Fixpoint map_result {A B} (f : A → result B) (l : list A) : result (list B) :=
  match l with
  | [] => Ok []
  | x :: l => y ← f x; ys ← map_result f l; Ok (y :: ys)
  end.

(** [for x in l: s = f(s, x)], stopping at the first exception. *)
Fixpoint fold_result {S A} (f : S → A → result S) (s : S) (l : list A) : result S :=
  match l with
  | [] => Ok s
  | x :: l => s ← f s x; fold_result f s l
  end.

Definition action (S A : Type) : Type := S → result A * S.

#[global] Instance action_ret {S} : MRet (action S) := λ A a s, (Ok a, s).
#[global] Instance action_bind {S} : MBind (action S) := λ A B f m s,
  match m s with
  | (Ok a, s') => f a s'
  | (Err e, s') => (Err e, s')
  end.
#[global] Instance action_throw {S} : MThrow exn (action S) := λ A e s, (Err e, s).

Definition lift {S A} (r : result A) : action S A := λ s, (r, s).
Definition get {S} : action S S := λ s, (Ok s, s).
Definition put {S} (s : S) : action S unit := λ _, (Ok tt, s).
Definition modify {S} (f : S → S) : action S unit := λ s, (Ok tt, f s).

Definition is_ok {A} (r : result A) : bool :=
  match r with Ok _ => true | Err _ => false end.

Definition error_of {A} (r : result A) : option exn :=
  match r with Ok _ => None | Err e => Some e end.

(** ** Run equations *)

Lemma surjective_pairing_eq {A B} (p : A * B) a : p.1 = a → p = (a, p.2).
Proof. by destruct p; intros [= ->]. Qed.

Lemma result_bind_Ok {A B} (r : result A) (f : A → result B) b :
  r ≫= f = Ok b ↔ ∃ a, r = Ok a ∧ f a = Ok b.
Proof. destruct r; naive_solver. Qed.

Lemma raise_when_Ok b e u : raise_when b e = Ok u ↔ b = false.
Proof. destruct b, u; naive_solver. Qed.

Lemma or_raise_Ok {A} (r : result A) e a : or_raise r e = Ok a ↔ r = Ok a.
Proof. destruct r; naive_solver. Qed.

Lemma for_each_Ok {A} (f : A → result unit) l u :
  for_each f l = Ok u ↔ Forall (λ x, f x = Ok tt) l.
Proof.
  destruct u. induction l as [|x l IH]; cbn; [naive_solver|].
  rewrite Forall_cons, <- IH. destruct (f x) as [[]|]; naive_solver.
Qed.

Lemma map_result_Ok {A B} (f : A → result B) l l' :
  map_result f l = Ok l' ↔ Forall2 (λ x y, f x = Ok y) l l'.
Proof.
  revert l'; induction l as [|x l IH]; intros l'; cbn.
  - split; [intros [= <-]; constructor | by inversion_clear 1].
  - rewrite result_bind_Ok. setoid_rewrite result_bind_Ok. setoid_rewrite IH. split.
    + intros (y & ? & ys & ? & [= <-]). by constructor.
    + inversion_clear 1. eauto.
Qed.

(** Induction over a loop that ends: an invariant indexed by the elements seen. *)
Lemma fold_result_ind {S A} (f : S → A → result S) (P : list A → S → Prop) s l s' :
  P [] s →
  (∀ seen x rest t t', l = seen ++ x :: rest → P seen t → f t x = Ok t' → P (seen ++ [x]) t') →
  fold_result f s l = Ok s' → P l s'.
Proof.
  assert (∀ seen l s, P seen s →
    (∀ prefix x rest t t', l = prefix ++ x :: rest → P (seen ++ prefix) t → f t x = Ok t' →
      P (seen ++ prefix ++ [x]) t') →
    fold_result f s l = Ok s' → P (seen ++ l) s') as Hgen;
    [|intros H0 Hstep; apply (Hgen [] l s H0 Hstep)].
  clear s l. intros seen l. revert seen. induction l as [|x l IH]; intros seen s H0 Hstep; cbn.
  { intros [= <-]. by rewrite app_nil_r. }
  intros (t & Ht & Hl)%result_bind_Ok. pose proof (Hstep [] x l s t eq_refl) as H1.
  rewrite app_nil_r in H1. specialize (H1 H0 Ht). cbn in H1.
  replace (seen ++ x :: l) with ((seen ++ [x]) ++ l) by by rewrite <- app_assoc.
  apply (IH _ t H1); [|done]. intros prefix y rest u u' ->. rewrite <- !app_assoc. cbn.
  apply (Hstep (x :: prefix) y rest u u'). done.
Qed.

Lemma map_result_elem {A B} (f : A → result B) l ys x :
  map_result f l = Ok ys → x ∈ l → ∃ y, f x = Ok y ∧ y ∈ ys.
Proof.
  rewrite map_result_Ok. induction 1 as [|z y l ys Hy _ IH]; [by intros ?%elem_of_nil|].
  intros [->|Hx]%elem_of_cons; [exists y; split; [done|by left]|].
  destruct (IH Hx) as (w & ? & ?). exists w. split; [done|by right].
Qed.

Lemma action_bind_Ok {S A B} (m : action S A) (f : A → action S B) s b s' :
  (m ≫= f) s = (Ok b, s') ↔ ∃ a s1, m s = (Ok a, s1) ∧ f a s1 = (Ok b, s').
Proof. unfold mbind, action_bind. destruct (m s) as [[a|e] s1]; naive_solver. Qed.

Lemma action_bind_Err {S A B} (m : action S A) (f : A → action S B) s e s' :
  (m ≫= f) s = (Err e, s') ↔
  m s = (Err e, s') ∨ ∃ a s1, m s = (Ok a, s1) ∧ f a s1 = (Err e, s').
Proof. unfold mbind, action_bind. destruct (m s) as [[a|e'] s1]; naive_solver. Qed.

(** Splits a hypothesis [run = Ok _] or [run s = (Ok _, _)] into the facts of
    its steps. *)
Ltac result_inv :=
  repeat match goal with
  | H : _ ≫= _ = Ok _ |- _ =>
      let a := fresh "a" in let Ha := fresh "Hrun" in
      apply result_bind_Ok in H as (a & Ha & H)
  | H : raise_when _ _ = Ok _ |- _ => apply raise_when_Ok in H
  | H : or_raise _ _ = Ok _ |- _ => apply or_raise_Ok in H
  | H : for_each _ _ = Ok _ |- _ => apply for_each_Ok in H
  | H : mret _ = Ok _ |- _ => apply (inj Ok) in H
  | H : Ok _ = Ok _ |- _ => injection H; clear H; intros H
  | H : Err _ = Ok _ |- _ => discriminate H
  | H : Ok _ = Err _ |- _ => discriminate H
  end.

(** Reduces the run of an action to its nested case analysis. *)
Ltac unfold_run :=
  unfold mbind, mret, mthrow, action_bind, action_ret, action_throw,
    result_bind, result_ret, result_throw, lift, get, put, modify in *.

(** Explores every branch of a run, closing the ones that contradict the
    hypotheses. *)
Ltac run_cases :=
  repeat (case_match; simplify_eq/=; try done).

(** Runs of an action whose first step is a check, a read or a write. *)

Lemma lift_bind_run {S A B} (x : result A) (f : A → action S B) s out :
  (lift x ≫= f) s = out →
  (∃ e, x = Err e ∧ (Err e, s) = out) ∨ (∃ a, x = Ok a ∧ f a s = out).
Proof. destruct x as [a|e]; cbn; naive_solver. Qed.

Lemma get_bind_run {S B} (f : S → action S B) s out :
  (get ≫= f) s = out → f s s = out.
Proof. done. Qed.

Lemma modify_bind_run {S B} (g : S → S) (f : unit → action S B) s out :
  (modify g ≫= f) s = out → f tt (g s) = out.
Proof. done. Qed.

Lemma put_bind_run {S B} (s1 : S) (f : unit → action S B) s out :
  (put s1 ≫= f) s = out → f tt s1 = out.
Proof. done. Qed.

Lemma ret_bind_run {S A B} (a : A) (f : A → action S B) s out :
  ((mret a : action S A) ≫= f) s = out → f a s = out.
Proof. done. Qed.

Lemma throw_bind_run {S A B} e (f : A → action S B) s out :
  ((mthrow e : action S A) ≫= f) s = out → (Err e, s) = out.
Proof. done. Qed.

Lemma bind_assoc_run {S A B C} (m : action S A) (f : A → action S B)
    (g : B → action S C) s out :
  ((m ≫= f) ≫= g) s = out → (m ≫= (λ a, f a ≫= g)) s = out.
Proof. unfold mbind, action_bind. by destruct (m s) as [[a|e] s1]. Qed.

(** The first call of a run, as a fact of its own. *)
Lemma call_bind_run {S A B} (m : action S A) (f : A → action S B) s out :
  (m ≫= f) s = out →
  (∃ e s1, m s = (Err e, s1) ∧ (Err e, s1) = out) ∨
  (∃ a s1, m s = (Ok a, s1) ∧ f a s1 = out).
Proof. unfold mbind, action_bind. destruct (m s) as [[a|e] s1]; eauto 6. Qed.

(** Forward execution of a run whose checks are known to pass. *)

Lemma run_lift {S A B} (x : result A) a (f : A → action S B) s :
  x = Ok a → (lift x ≫= f) s = f a s.
Proof. by intros ->. Qed.

Lemma run_guard {S B} b e (f : unit → action S B) s :
  b = false → (lift (raise_when b e) ≫= f) s = f tt s.
Proof. by intros ->. Qed.

Lemma run_bind {S A B} (m : action S A) (f : A → action S B) s a s1 :
  m s = (Ok a, s1) → (m ≫= f) s = f a s1.
Proof. unfold mbind, action_bind. by intros ->. Qed.

Lemma run_assoc {S A B C} (m : action S A) (f : A → action S B) (g : B → action S C) s :
  ((m ≫= f) ≫= g) s = (m ≫= (λ a, f a ≫= g)) s.
Proof. unfold mbind, action_bind. by destruct (m s) as [[a|e] s1]. Qed.

Lemma run_get {S B} (f : S → action S B) s : (get ≫= f) s = f s s.
Proof. done. Qed.

Lemma run_ret {S A B} (a : A) (f : A → action S B) s :
  ((mret a : action S A) ≫= f) s = f a s.
Proof. done. Qed.

Lemma run_modify {S B} g (f : unit → action S B) s : (modify g ≫= f) s = f tt (g s).
Proof. done. Qed.

(** [run_step H] executes the first step of the run [H : m s = (_, _)];
    [run_all H] executes it to the end, one goal per path. *)
Ltac run_step H :=
  lazymatch type of H with
  | ((_ ≫= _) ≫= _) _ = _ => apply bind_assoc_run in H
  | (lift _ ≫= _) _ = _ =>
      let e := fresh "e" in let a := fresh "a" in let Hchk := fresh "Hchk" in
      apply lift_bind_run in H as [(e & Hchk & H)|(a & Hchk & H)]
  | (get ≫= _) _ = _ => apply get_bind_run in H; cbn beta zeta in H
  | (modify _ ≫= _) _ = _ => apply modify_bind_run in H
  | (put _ ≫= _) _ = _ => apply put_bind_run in H
  | (mret _ ≫= _) _ = _ => apply ret_bind_run in H
  | (mthrow _ ≫= _) _ = _ => apply throw_bind_run in H
  | (match ?x with _ => _ end ≫= _) _ = _ => let E := fresh "E" in destruct x eqn:E
  | (match ?x with _ => _ end) _ = _ => let E := fresh "E" in destruct x eqn:E
  | mret _ _ = _ => progress unfold mret, action_ret in H
  | mthrow _ _ = _ => progress unfold mthrow, action_throw in H
  | lift _ _ = _ => progress unfold lift in H
  | modify _ _ = _ => progress unfold modify in H
  end; cbn beta zeta in H.

Ltac run_all H := repeat run_step H; simplify_eq.

(** Splits [H : (m ≫= f) s = _] at the call [m]. *)
Tactic Notation "run_call" hyp(H) "as" ident(Hcall) :=
  let e := fresh "e" in let a := fresh "a" in let s1 := fresh "s" in
  apply call_bind_run in H as [(e & s1 & Hcall & H)|(a & s1 & Hcall & H)]; cbn beta zeta in H.

(** ** Invariants of a state machine made of actions *)

Definition preserves {S A} (P : S → Prop) (m : action S A) : Prop :=
  ∀ s, P s → P (m s).2.

(** States reachable from [s0] by running operations of a family [step],
    whether they return or raise. *)
Inductive reachable {S Op} (run : Op → S → S) (s0 : S) : S → Prop :=
| reachable_init : reachable run s0 s0
| reachable_step s op : reachable run s0 s → reachable run s0 (run op s).

Lemma reachable_invariant {S Op} (run : Op → S → S) (s0 : S) (P : S → Prop) :
  P s0 → (∀ op s, P s → P (run op s)) → ∀ s, reachable run s0 s → P s.
Proof. intros H0 Hstep s. induction 1; auto. Qed.

(** The state after a sequence of operations is reachable, and conversely. *)
Lemma reachable_foldl {S Op} (run : Op → S → S) (s0 : S) ops :
  reachable run s0 (foldl (λ s op, run op s) s0 ops).
Proof.
  induction ops as [|op ops IH] using rev_ind; [constructor|].
  rewrite foldl_app. by constructor.
Qed.

Lemma reachable_trans {S Op} (run : Op → S → S) (s0 s1 s2 : S) :
  reachable run s0 s1 → reachable run s1 s2 → reachable run s0 s2.
Proof. intros H1; induction 1; [done | by constructor]. Qed.

Lemma reachable_step_many {S Op} (run : Op → S → S) (s : S) op : reachable run s (run op s).
Proof. apply reachable_step, reachable_init. Qed.

(** How often a call satisfies [p] along a run. *)
Section count_along.
Context {S Op : Type} (run : Op → S → S).

Fixpoint count_along (p : Op → S → bool) (ops : list Op) (s : S) : Z :=
  match ops with
  | [] => 0
  | op :: ops => (if p op s then 1 else 0) + count_along p ops (run op s)
  end.

Definition run_all_calls (ops : list Op) (s : S) : S := foldl (λ s op, run op s) s ops.

(** A potential that pays for every [p] with a [q] bounds their numbers. *)
Lemma count_along_potential (p q : Op → S → bool) (w : S → Z) ops s :
  (∀ op s, w s + (if p op s then 1 else 0) ≤ (if q op s then 1 else 0) + w (run op s)) →
  w s + count_along p ops s ≤ count_along q ops s + w (run_all_calls ops s).
Proof.
  intros Hstep. revert s. induction ops as [|op ops IH]; intros s; cbn [count_along]; [cbn; lia|].
  pose proof (Hstep op s). specialize (IH (run op s)).
  change (run_all_calls (op :: ops) s) with (run_all_calls ops (run op s)). lia.
Qed.

Lemma count_along_growth (p : Op → S → bool) (w : S → Z) (P : S → Prop) ops s :
  P s → (∀ op s, P s → P (run op s)) →
  (∀ op s, P s → w s + (if p op s then 1 else 0) ≤ w (run op s)) →
  w s + count_along p ops s ≤ w (run_all_calls ops s).
Proof.
  intros Hs Hinv Hstep. revert s Hs. induction ops as [|op ops IH]; intros s Hs;
    cbn [count_along]; [cbn; lia|].
  pose proof (Hstep op s Hs). specialize (IH (run op s) (Hinv op s Hs)).
  change (run_all_calls (op :: ops) s) with (run_all_calls ops (run op s)). lia.
Qed.
End count_along.

(** ** Python's stable [sorted] *)

Section sort_by.
Context {A : Type} (le : A → A → bool).

Fixpoint insert_by (x : A) (l : list A) : list A :=
  match l with
  | [] => [x]
  | y :: l' => if le x y then x :: l else y :: insert_by x l'
  end.

Definition sort_by (l : list A) : list A := foldr insert_by [] l.

Lemma insert_by_perm x l : insert_by x l ≡ₚ x :: l.
Proof.
  induction l as [|y l IH]; cbn; [done|].
  case_match; [done|]. rewrite IH. apply Permutation_swap.
Qed.

Lemma sort_by_perm l : sort_by l ≡ₚ l.
Proof. induction l as [|x l IH]; cbn; [done|]. by rewrite insert_by_perm, IH. Qed.

Lemma elem_of_sort_by x l : x ∈ sort_by l ↔ x ∈ l.
Proof. by rewrite sort_by_perm. Qed.

Lemma length_sort_by l : length (sort_by l) = length l.
Proof. by rewrite sort_by_perm. Qed.

Context (le_trans : ∀ x y z, le x y = true → le y z = true → le x z = true)
  (le_total : ∀ x y, le x y = true ∨ le y x = true).

Lemma insert_by_sorted x l :
  StronglySorted (λ a b, le a b = true) l →
  StronglySorted (λ a b, le a b = true) (insert_by x l).
Proof using le_trans le_total.
  induction 1 as [|y l Hl IH Hy]; cbn; [repeat constructor|].
  destruct (le x y) eqn:Hxy.
  - constructor; [by constructor|]. constructor; [done|].
    eapply Forall_impl; [exact Hy|]. intros z; cbn. by apply le_trans.
  - constructor; [done|]. rewrite insert_by_perm. constructor; [|done].
    destruct (le_total x y); congruence.
Qed.

Lemma sort_by_sorted l : StronglySorted (λ a b, le a b = true) (sort_by l).
Proof using le_trans le_total.
  induction l; cbn; [constructor | by apply insert_by_sorted].
Qed.
End sort_by.

(** Sorting a list that is already sorted changes nothing. *)
Lemma sort_by_id {A} (le : A → A → bool) l :
  StronglySorted (λ a b, le a b = true) l → sort_by le l = l.
Proof.
  induction 1 as [|x l Hl IH Hx]; [done|]. unfold sort_by in *; cbn. rewrite IH.
  destruct Hx as [|y l' Hxy _]; cbn; [done|]. by rewrite Hxy.
Qed.

(** Sorting two permutations of a list by a key that is antisymmetric on its
    elements gives the same list. *)
Lemma sort_by_perm_eq {A} (le : A → A → bool) (l1 l2 : list A)
    (le_trans : ∀ x y z, le x y = true → le y z = true → le x z = true)
    (le_total : ∀ x y, le x y = true ∨ le y x = true)
    (le_antisym : ∀ x y, x ∈ l1 → y ∈ l1 → le x y = true → le y x = true → x = y) :
  l1 ≡ₚ l2 → sort_by le l1 = sort_by le l2.
Proof.
  intros Hperm.
  eapply (StronglySorted_unique_strong (λ a b, le a b = true));
    [ | by apply sort_by_sorted | by apply sort_by_sorted
      | by rewrite !sort_by_perm ].
  intros x y. rewrite !elem_of_sort_by. intros Hx Hy. apply le_antisym; [done|].
  by rewrite Hperm.
Qed.

(** Sorting commutes with a map that respects the orders. *)
Lemma sort_by_map {A B} (g : A → B) (leA : A → A → bool) (leB : B → B → bool) l :
  (∀ x y, leB (g x) (g y) = leA x y) → sort_by leB (map g l) = map g (sort_by leA l).
Proof.
  intros Hg. unfold sort_by. induction l as [|x l IH]; cbn; [done|]. rewrite IH.
  generalize (foldr (insert_by leA) [] l). intros l'.
  induction l' as [|y l' IHl]; cbn; [done|]. rewrite Hg.
  destruct (leA x y); cbn; [done|]. by rewrite IHl.
Qed.

Lemma map_result_total {A B} (f : A → result B) (g : A → B) l :
  Forall (λ x, f x = Ok (g x)) l → map_result f l = Ok (map g l).
Proof. induction 1 as [|x l Hx Hl IH]; cbn; [done|]. by rewrite Hx; cbn; rewrite IH. Qed.

Lemma filter_ext_elem {A} (P Q : A → Prop) `{!∀ x, Decision (P x), !∀ x, Decision (Q x)}
    (l : list A) :
  (∀ x, x ∈ l → P x ↔ Q x) → filter P l = filter Q l.
Proof.
  induction l as [|x l IH]; intros Heq; [done|]. rewrite !filter_cons.
  rewrite IH by (intros y Hy; apply Heq; by right).
  destruct (decide (P x)) as [HP|HP].
  - rewrite decide_True; [done|]. apply Heq; [by left|done].
  - rewrite decide_False; [done|]. intros HQ. apply HP, Heq; [by left|done].
Qed.

Lemma StronglySorted_filter {A} (R : relation A) (P : A → Prop) `{!∀ x, Decision (P x)}
    (l : list A) : StronglySorted R l → StronglySorted R (filter P l).
Proof.
  induction 1 as [|x l Hl IH Hx]; [constructor|]. rewrite filter_cons.
  case_decide; [|done]. constructor; [done|]. rewrite Forall_forall in Hx |- *.
  intros y [_ Hy]%list_elem_of_filter. by apply Hx.
Qed.

(** Elements that a list names apart. *)
Lemma NoDup_map_inj {A B} (f : A → B) l x y :
  NoDup (map f l) → x ∈ l → y ∈ l → f x = f y → x = y.
Proof.
  induction l as [|z l IH]; cbn; [by intros _ ?%elem_of_nil|].
  intros [Hz Hnd]%NoDup_cons Hx Hy Hxy.
  apply elem_of_cons in Hx as [->|Hx], Hy as [->|Hy]; [done| | |by apply IH];
    destruct Hz; apply list_elem_of_fmap; eauto.
Qed.

(** A list with a repetition. *)
Lemma not_NoDup_split {A} `{EqDecision A} (l : list A) :
  ¬ NoDup l → ∃ l1 x l2 l3, l = l1 ++ x :: l2 ++ x :: l3.
Proof.
  induction l as [|x l IH]; [intros H; by destruct H; constructor|].
  destruct (decide (x ∈ l)) as [Hx|Hx].
  - intros _. apply list_elem_of_split in Hx as (l2 & l3 & ->). by exists [], x, l2, l3.
  - intros Hnd. destruct IH as (l1 & y & l2 & l3 & ->); [by intros ?; apply Hnd; constructor|].
    by exists (x :: l1), y, l2, l3.
Qed.

Lemma tc_last {A} (R : relation A) x y : tc R x y → R x y ∨ ∃ z, tc R x z ∧ R z y.
Proof.
  induction 1 as [x y Hxy|x y z Hxy Hyz IH]; [by left|right].
  destruct IH as [IH|(w & Hyw & Hwz)]; [by exists y; split; [apply tc_once|]|].
  exists w. split; [by eapply tc_l|done].
Qed.

(** What is accessible is on no cycle. *)
Lemma Acc_no_cycle {A} (R : relation A) x : Acc R x → ¬ tc R x x.
Proof.
  induction 1 as [x _ IH]. intros Hc. apply tc_last in Hc as [Hx|(y & Hxy & Hyx)].
  - by apply (IH x Hx), tc_once.
  - apply (IH y Hyx). by eapply tc_l.
Qed.

Lemma forallb_perm {A} (p : A → bool) l1 l2 : l1 ≡ₚ l2 → forallb p l1 = forallb p l2.
Proof. induction 1; cbn; try congruence. by destruct (p x), (p y). Qed.

(** ** Sums of integers over lists and maps *)

Definition sum_by {A} (f : A → Z) (l : list A) : Z := foldr (λ x s, f x + s) 0 l.

Lemma sum_by_cons {A} (f : A → Z) x l : sum_by f (x :: l) = f x + sum_by f l.
Proof. done. Qed.

Lemma sum_by_perm {A} (f : A → Z) l1 l2 : l1 ≡ₚ l2 → sum_by f l1 = sum_by f l2.
Proof. induction 1; rewrite ?sum_by_cons; lia. Qed.

#[global] Instance sum_by_Permutation {A} (f : A → Z) :
  Proper ((≡ₚ) ==> (=)) (sum_by f).
Proof. intros ???. by apply sum_by_perm. Qed.

Lemma sum_by_nonneg {A} (f : A → Z) l : (∀ x, x ∈ l → 0 ≤ f x) → 0 ≤ sum_by f l.
Proof.
  induction l as [|x l IH]; intros Hf; [done|]. rewrite sum_by_cons.
  assert (0 ≤ f x) by (apply Hf; left).
  assert (0 ≤ sum_by f l) by (apply IH; intros y Hy; apply Hf; by right). lia.
Qed.

(** The sum of a weight over the values of a map, weighted by key and value. *)
Definition map_sum `{Countable K} {V} (f : K → V → Z) (m : gmap K V) : Z :=
  sum_by (λ kv, f kv.1 kv.2) (map_to_list m).

Lemma map_sum_empty `{Countable K} {V} (f : K → V → Z) : map_sum f ∅ = 0.
Proof. unfold map_sum. by rewrite map_to_list_empty. Qed.

Lemma map_sum_insert_new `{Countable K} {V} (f : K → V → Z) m k v :
  m !! k = None → map_sum f (<[k:=v]> m) = f k v + map_sum f m.
Proof. intros Hk. unfold map_sum. by rewrite (map_to_list_insert m k v Hk). Qed.

Lemma map_sum_delete `{Countable K} {V} (f : K → V → Z) m k v :
  m !! k = Some v → map_sum f m = f k v + map_sum f (delete k m).
Proof.
  intros Hk. rewrite <- (map_sum_insert_new _ (delete k m)) by apply lookup_delete_eq.
  by rewrite insert_delete_id.
Qed.

Lemma map_sum_insert_old `{Countable K} {V} (f : K → V → Z) m k v v' :
  m !! k = Some v → map_sum f (<[k:=v']> m) = f k v' - f k v + map_sum f m.
Proof.
  intros Hk. rewrite (map_sum_delete f m k v Hk), <- (insert_delete_eq m k v').
  rewrite map_sum_insert_new by apply lookup_delete_eq. lia.
Qed.

Lemma map_sum_lookup_le `{Countable K} {V} (f : K → V → Z) m k v :
  (∀ k v, m !! k = Some v → 0 ≤ f k v) → m !! k = Some v → f k v ≤ map_sum f m.
Proof.
  intros Hpos Hk. rewrite (map_sum_delete f m k v Hk).
  enough (0 ≤ map_sum f (delete k m)) by lia.
  apply sum_by_nonneg. intros [k' v'] Hin%elem_of_map_to_list.
  apply lookup_delete_Some in Hin as [_ Hin]. by apply Hpos.
Qed.

(** ** Association lists *)

(** [d[k] = v] on a dict kept as an association list *)
Fixpoint alist_set {V} (k : string) (v : V) (l : list (string * V)) : list (string * V) :=
  match l with
  | [] => [(k, v)]
  | (k', v') :: l => if bool_decide (k' = k) then (k', v) :: l else (k', v') :: alist_set k v l
  end.

Lemma alist_set_new {V} k (v : V) l : k ∉ l.*1 → alist_set k v l = l ++ [(k, v)].
Proof.
  induction l as [|[k' v'] l IH]; cbn; [done|]. rewrite not_elem_of_cons. intros [Hk Hl].
  rewrite bool_decide_false by congruence. by rewrite IH.
Qed.

Lemma alist_set_elem {V} k (v : V) l k' v' :
(k', v') ∈ alist_set k v l → (k' = k ∧ v' = v) ∨ (k', v') ∈ l.
Proof.
induction l as [|[k0 v0] l IH]; cbn; [rewrite list_elem_of_singleton; intros [= -> ->]; by left|].
case_bool_decide as Hk; rewrite !elem_of_cons; [subst; intros [[= -> ->]|Hl]; auto|].
intros [Heq|Hl]; [by right; left|]. destruct (IH Hl); auto.
Qed.

(** ** Sorted lists *)

Lemma StronglySorted_snoc {A} (R : relation A) `{!Transitive R} l x :
  StronglySorted R l → (∀ y, last l = Some y → R y x) → StronglySorted R (l ++ [x]).
Proof.
  induction 1 as [|z l Hl IH Hz]; intros Hlast; cbn; [by repeat constructor|].
  constructor.
  - apply IH. intros y Hy. apply Hlast. destruct l; [done|exact Hy].
  - apply Forall_app. split; [done|]. constructor; [|done].
    destruct (last l) as [y|] eqn:Hy.
    + transitivity y; [|apply Hlast; destruct l; [done|exact Hy]].
      rewrite Forall_forall in Hz. apply Hz. by apply last_Some_elem_of.
    + apply last_None in Hy as ->. by apply Hlast.
Qed.
