(* ===== verification/PyStr.v ===== *)
(** * Python strings

    The [str] operations the workflow runtime uses.  A Python string is a
    sequence of code points; this library models the strings whose code points
    are below 256 (one [ascii] per code point, Latin-1), on which [strip],
    [lower], [isdigit] and UTF-8 encoding are Python's. *)
From Stdlib Require Import Ascii DecimalString.
From S2P Require Import Prelude.

(** ** Characters *)

Definition code_point (c : ascii) : Z := Z.of_N (N_of_ascii c).

(** [str.isspace] on one code point. *)
Definition is_space (c : ascii) : bool :=
  let n := code_point c in
  (9 <=? n) && (n <=? 13) || (28 <=? n) && (n <=? 32) || (n =? 133) || (n =? 160).

Definition is_upper_ascii (c : ascii) : bool :=
  let n := code_point c in (65 <=? n) && (n <=? 90).
Definition is_lower_ascii (c : ascii) : bool :=
  let n := code_point c in (97 <=? n) && (n <=? 122).
Definition is_digit_ascii (c : ascii) : bool :=
  let n := code_point c in (48 <=? n) && (n <=? 57).
Definition is_alnum_ascii (c : ascii) : bool :=
  is_upper_ascii c || is_lower_ascii c || is_digit_ascii c.

(** [str.isdigit] accepts the superscripts two, three and one of Latin-1. *)
Definition is_digit_unicode (c : ascii) : bool :=
  let n := code_point c in
  is_digit_ascii c || (n =? 178) || (n =? 179) || (n =? 185).

Definition lower_char (c : ascii) : ascii :=
  let n := code_point c in
  if (65 <=? n) && (n <=? 90) || (192 <=? n) && (n <=? 222) && negb (n =? 215)
  then ascii_of_N (Z.to_N (n + 32)) else c.

(** ** Strings *)

Definition str_len (s : string) : Z := Z.of_nat (String.length s).

(** Truthiness of a [str]. *)
Definition str_true (s : string) : bool := negb (bool_decide (s = "")).

(** [a or b] on strings. *)
Definition str_or (a b : string) : string := if str_true a then a else b.

Fixpoint str_map (f : ascii → ascii) (s : string) : string :=
  match s with EmptyString => "" | String c s => String (f c) (str_map f s) end.

Fixpoint str_exists (p : ascii → bool) (s : string) : bool :=
  match s with EmptyString => false | String c s => p c || str_exists p s end.

Definition str_forall (p : ascii → bool) (s : string) : bool :=
  negb (str_exists (λ c, negb (p c)) s).

Definition has_nul (s : string) : bool := str_exists (λ c, code_point c =? 0) s.

Definition lower (s : string) : string := str_map lower_char s.

Fixpoint lstrip (s : string) : string :=
  match s with
  | EmptyString => ""
  | String c s' => if is_space c then lstrip s' else s
  end.

Fixpoint rstrip (s : string) : string :=
  match s with
  | EmptyString => ""
  | String c s' =>
      match rstrip s' with
      | EmptyString => if is_space c then "" else String c ""
      | r => String c r
      end
  end.

Definition strip (s : string) : string := rstrip (lstrip s).

Definition starts_with (p s : string) : bool := String.prefix p s.

Fixpoint contains (sub s : string) : bool :=
  String.prefix sub s ||
  match s with EmptyString => false | String _ s' => contains sub s' end.

Fixpoint ends_with (suf s : string) : bool :=
  bool_decide (s = suf) ||
  match s with EmptyString => false | String _ s' => ends_with suf s' end.

(** [s] without the prefix [p]. *)
Fixpoint strip_prefix (p s : string) : option string :=
  match p, s with
  | EmptyString, _ => Some s
  | String c p, String d s => if bool_decide (c = d) then strip_prefix p s else None
  | _, _ => None
  end.

(** [s[:n]] *)
Definition str_take (n : nat) (s : string) : string := String.substring 0 n s.

(** [s.rsplit(c, 1)[-1]]: what follows the last [c]. *)
Fixpoint after_last (c : ascii) (s : string) : string :=
  match s with
  | EmptyString => ""
  | String d s' =>
      if bool_decide (d = c) && negb (str_exists (λ e, bool_decide (e = c)) s')
      then s' else if str_exists (λ e, bool_decide (e = c)) s'
      then after_last c s' else s
  end.

(** [s.split(c)] *)
Fixpoint split_on (c : ascii) (s : string) : list string :=
  match s with
  | EmptyString => [""]
  | String d s' =>
      if bool_decide (d = c) then "" :: split_on c s'
      else match split_on c s' with
           | w :: ws => String d w :: ws
           | [] => [String d ""]
           end
  end.

(** [sep.join(l)] *)
Fixpoint join (sep : string) (l : list string) : string :=
  match l with
  | [] => ""
  | [x] => x
  | x :: l => x +:+ sep +:+ join sep l
  end.

(** [str(n)] for an [int]. *)
Definition z_str (n : Z) : string := NilZero.string_of_int (Z.to_int n).

(** Code-point order, the order of [sorted] on strings. *)
Fixpoint str_leb (a b : string) : bool :=
  match a, b with
  | EmptyString, _ => true
  | String _ _, EmptyString => false
  | String c a, String d b =>
      (code_point c <? code_point d) || bool_decide (c = d) && str_leb a b
  end.

Definition sorted_strings (l : list string) : list string := sort_by str_leb l.

(** [s.encode("utf-8")] on code points below 256. *)
Fixpoint utf8 (s : string) : list Z :=
  match s with
  | EmptyString => []
  | String c s =>
      let n := code_point c in
      (if n <? 128 then [n] else [192 + n / 64; 128 + n mod 64]) ++ utf8 s
  end.

(** [_IDENTITY_RE]: [[A-Za-z0-9][A-Za-z0-9_.:/-]{0,255}]. *)
Definition identity_char (c : ascii) : bool :=
  is_alnum_ascii c || bool_decide (c ∈ ["_"; "."; ":"; "/"; "-"]%char).

Definition identity_re (s : string) : bool :=
  match s with
  | EmptyString => false
  | String c s' =>
      is_alnum_ascii c && str_forall identity_char s' && (str_len s' <=? 255)
  end.

(** [_SHA256_RE]: [[a-f0-9]{64}]. *)
Definition hex_char (c : ascii) : bool :=
  let n := code_point c in is_digit_ascii c || (97 <=? n) && (n <=? 102).

Definition sha256_re (s : string) : bool :=
  (str_len s =? 64) && str_forall hex_char s.

(** ** Laws *)

(** A property of characters, checked on all of them. *)
Definition all_chars : list ascii := map ascii_of_nat (seq 0 256).

Lemma elem_of_all_chars c : In c all_chars.
Proof.
  apply in_map_iff. exists (nat_of_ascii c).
  split; [apply ascii_nat_embedding|]. apply in_seq.
  pose proof (nat_ascii_bounded c). lia.
Qed.

Lemma all_chars_spec (p : ascii → bool) : forallb p all_chars = true → ∀ c, p c = true.
Proof. rewrite forallb_forall. intros Hp c. apply Hp, elem_of_all_chars. Qed.

Lemma str_app_cons c s t : String c s +:+ t = String c (s +:+ t).
Proof. done. Qed.

Lemma str_app_assoc s t u : (s +:+ t) +:+ u = s +:+ (t +:+ u).
Proof. induction s as [|c s IH]; [done|]. by rewrite !str_app_cons, IH. Qed.

Lemma str_app_nil s : s +:+ "" = s.
Proof. induction s as [|c s IH]; [done|]. by rewrite str_app_cons, IH. Qed.

(** A joined list is its first element and the separated rest. *)
Definition join_tail (sep : string) (l : list string) : string :=
  foldr (λ x s, sep +:+ x +:+ s) "" l.

Lemma join_cons sep x l : join sep (x :: l) = x +:+ join_tail sep l.
Proof.
  revert x; induction l as [|y l IH]; intros x; cbn; [by rewrite str_app_nil|].
  do 2 f_equal. apply IH.
Qed.

Lemma str_forall_String p c s :
  str_forall p (String c s) = p c && str_forall p s.
Proof. unfold str_forall. cbn. by rewrite negb_orb, negb_involutive. Qed.

Lemma str_forall_app p s t : str_forall p (s +:+ t) = str_forall p s && str_forall p t.
Proof.
  induction s as [|c s IH]; [done|].
  by rewrite str_app_cons, !str_forall_String, IH, andb_assoc.
Qed.

Lemma str_forall_impl (p q : ascii → bool) s :
  (∀ c, p c = true → q c = true) → str_forall p s = true → str_forall q s = true.
Proof.
  intros Hpq. induction s as [|c s IH]; [done|]. rewrite !str_forall_String, !andb_true_iff.
  naive_solver.
Qed.

Lemma code_point_inj c d : code_point c = code_point d → c = d.
Proof.
  unfold code_point. intros H%(inj Z.of_N).
  by rewrite <- (ascii_N_embedding c), <- (ascii_N_embedding d), H.
Qed.

Lemma utf8_inj s t : utf8 s = utf8 t → s = t.
Proof.
  revert t. induction s as [|c s IH]; intros [|d t]; cbn.
  - done.
  - by destruct (code_point d <? 128).
  - by destruct (code_point c <? 128).
  - assert (∀ e, 0 ≤ code_point e < 256) as Hcp.
    { intros e. unfold code_point. pose proof (N_ascii_bounded e). lia. }
    pose proof (Hcp c). pose proof (Hcp d).
    destruct (Z.ltb_spec (code_point c) 128), (Z.ltb_spec (code_point d) 128); cbn.
    + intros [= Hc Hs]. f_equal; [by apply code_point_inj|by apply IH].
    + intros [= Hc _]. pose proof (Z.div_pos (code_point d) 64). lia.
    + intros [= Hc _]. pose proof (Z.div_pos (code_point c) 64). lia.
    + intros [= Hq Hr Hs]. f_equal; [|by apply IH]. apply code_point_inj.
      rewrite (Z.div_mod (code_point c) 64), (Z.div_mod (code_point d) 64) by done. lia.
Qed.

Definition head_is (p : ascii → bool) (s : string) : bool :=
  match s with EmptyString => false | String c _ => p c end.

(** Two words over [p] before rests that do not continue them are equal. *)
Lemma span_unique p a b r1 r2 :
  str_forall p a = true → str_forall p b = true →
  head_is p r1 = false → head_is p r2 = false →
  a +:+ r1 = b +:+ r2 → a = b ∧ r1 = r2.
Proof.
  revert b. induction a as [|c a IH]; intros [|d b];
    rewrite ?str_forall_String, ?andb_true_iff, ?str_app_cons.
  - done.
  - intros _ [Hd _] Hr _ Heq. change (r1 = String d (b +:+ r2)) in Heq.
    rewrite Heq in Hr. cbn in Hr. congruence.
  - intros [Hc _] _ _ Hr Heq. change (String c (a +:+ r1) = r2) in Heq.
    rewrite <- Heq in Hr. cbn in Hr. congruence.
  - intros [_ Ha] [_ Hb] Hr1 Hr2 [= -> Heq].
    destruct (IH b Ha Hb Hr1 Hr2 Heq) as [-> ->]. done.
Qed.

Lemma str_true_spec s : str_true s = true ↔ s ≠ "".
Proof. unfold str_true. by rewrite negb_true_iff, bool_decide_eq_false. Qed.

Lemma str_true_false s : str_true s = false ↔ s = "".
Proof. unfold str_true. by rewrite negb_false_iff, bool_decide_eq_true. Qed.


Lemma rstrip_idemp s : rstrip (rstrip s) = rstrip s.
Proof.
  induction s as [|c s IH]; [done|]. cbn.
  destruct (rstrip s) as [|d r] eqn:Hr.
  - destruct (is_space c) eqn:Hc; cbn; [done|]. by rewrite Hc.
  - cbn in *. by rewrite IH.
Qed.

Lemma lstrip_rstrip_lstrip s : lstrip (rstrip (lstrip s)) = rstrip (lstrip s).
Proof.
  induction s as [|c s IH]; [done|]. cbn.
  destruct (is_space c) eqn:Hc; [done|]. cbn.
  destruct (rstrip s) as [|d r]; rewrite ?Hc; cbn; by rewrite Hc.
Qed.

Lemma strip_idemp s : strip (strip s) = strip s.
Proof. unfold strip. by rewrite lstrip_rstrip_lstrip, rstrip_idemp. Qed.

Lemma strip_no_space s : str_forall (λ c, negb (is_space c)) s = true → strip s = s.
Proof.
  unfold strip. intros Hs. assert (lstrip s = s) as ->.
  { destruct s as [|c s]; [done|]. rewrite str_forall_String in Hs. cbn.
    by destruct (is_space c). }
  induction s as [|c s IH]; [done|]. rewrite str_forall_String, andb_true_iff in Hs.
  destruct Hs as [Hc Hs]. cbn. rewrite IH by done. destruct s; [|done].
  by apply negb_true_iff in Hc as ->.
Qed.

Lemma strip_prefix_spec p s r : strip_prefix p s = Some r ↔ s = p +:+ r.
Proof.
  revert s. induction p as [|c p IH]; intros s; cbn.
  - split; [by intros [= ->]|by intros ->].
  - rewrite str_app_cons. destruct s as [|d s]; [done|]. case_bool_decide as Hd.
    + subst d. rewrite IH. split; [by intros ->|by intros [= ->]].
    + split; [done|]. intros [= -> _]. done.
Qed.

Lemma str_app_inj p s t : p +:+ s = p +:+ t → s = t.
Proof. induction p as [|c p IH]; [done|]. rewrite !str_app_cons. intros [= H]. auto. Qed.

Lemma str_leb_trans x y z :
  str_leb x y = true → str_leb y z = true → str_leb x z = true.
Proof.
  revert y z; induction x as [|c x IH]; intros [|d y] [|e z]; cbn; try done.
  rewrite !orb_true_iff, !andb_true_iff, !bool_decide_eq_true, !Z.ltb_lt.
  intros [H1|[<- H1]] [H2|[<- H2]]; eauto using Z.lt_trans.
Qed.

Lemma str_leb_total x y : str_leb x y = true ∨ str_leb y x = true.
Proof.
  revert y; induction x as [|c x IH]; intros [|d y]; cbn; auto.
  rewrite !orb_true_iff, !andb_true_iff, !bool_decide_eq_true, !Z.ltb_lt.
  destruct (Z.lt_trichotomy (code_point c) (code_point d)) as [?|[?|?]]; auto.
  assert (c = d) as <- by (by apply code_point_inj). destruct (IH y); auto.
Qed.

Lemma str_leb_antisym x y : str_leb x y = true → str_leb y x = true → x = y.
Proof.
  revert y; induction x as [|c x IH]; intros [|d y]; cbn; try done.
  rewrite !orb_true_iff, !andb_true_iff, !bool_decide_eq_true, !Z.ltb_lt.
  intros [H1|[<- H1]] [H2|[? H2]]; try lia.
  - subst; lia.
  - f_equal; auto.
Qed.

Lemma sorted_strings_perm l1 l2 :
  l1 ≡ₚ l2 → sorted_strings l1 = sorted_strings l2.
Proof.
  apply sort_by_perm_eq; eauto using str_leb_trans, str_leb_total, str_leb_antisym.
Qed.

#[export] Hint Resolve str_leb_trans str_leb_total str_leb_antisym : runtime.

Lemma sha256_re_identity s : sha256_re s = true → identity_re s = true.
Proof.
  unfold sha256_re, identity_re. rewrite andb_true_iff, Z.eqb_eq.
  destruct s as [|c s]; intros [Hlen Hs]; [done|].
  unfold str_forall, str_len in *. cbn in *.
  rewrite negb_orb, negb_involutive, andb_true_iff in Hs. destruct Hs as [Hc Hs].
  assert (∀ d, hex_char d = true → is_alnum_ascii d = true) as Hhex.
  { intros d. unfold hex_char, is_alnum_ascii, is_lower_ascii.
    rewrite !orb_true_iff, !andb_true_iff, !Z.leb_le. intuition lia. }
  rewrite (Hhex c Hc). cbn. apply andb_true_iff; split; [|apply Z.leb_le; lia].
  clear Hc Hlen c. rewrite negb_true_iff in *.
  induction s as [|d s IH]; [done|]. cbn in *.
  apply orb_false_iff in Hs as [Hd Hs]. rewrite IH by done.
  apply negb_false_iff in Hd. unfold identity_char. by rewrite (Hhex d Hd).
Qed.

(** ** Examples *)

Example strip_ex : strip "  a b " = "a b". Proof. reflexivity. Qed.
Example lower_ex : lower "API_Key" = "api_key". Proof. reflexivity. Qed.
Example after_last_ex : after_last "."%char "workflow.run.completed" = "completed".
Proof. reflexivity. Qed.
Example split_ex : split_on "."%char "a.b.c" = ["a"; "b"; "c"]. Proof. reflexivity. Qed.
Example z_str_ex : z_str (-120) = "-120" ∧ z_str 0 = "0". Proof. done. Qed.
Example identity_ex : identity_re "run-1:a/b" = true ∧ identity_re "-x" = false.
Proof. done. Qed.
