(* ===== verification/PyVal.v ===== *)
(** * Python values

    The JSON-shaped values the workflow runtime stores, compares and hashes:
    numbers (unbounded ints and binary64 floats, compared exactly as Python
    compares them), strings, lists, tuples and dicts.  A dict keeps its
    insertion order and has string keys, which is what every payload of the
    runtime has. *)
From Stdlib Require Export Ascii Floats.SpecFloat.
From S2P Require Import Prelude PyStr.

(** ** Floats *)

Notation float := spec_float.

#[global] Instance float_eq_dec : EqDecision float.
Proof. solve_decision. Defined.

Definition prec : Z := 53.
Definition emax : Z := 1024.

Definition float_add (x y : float) : float := SFadd prec emax x y.
Definition float_sub (x y : float) : float := SFsub prec emax x y.

Definition is_finite (x : float) : bool :=
  match x with S754_zero _ | S754_finite _ _ _ => true | _ => false end.

(** [float(n)]; [OverflowError] is the [None] case. *)
Definition float_of_int (n : Z) : option float :=
  let x := binary_normalize prec emax n 0 false in
  if is_finite x then Some x else None.

(** A number as Python compares it: a finite one is the dyadic [m * 2^e]. *)
Inductive num : Type :=
| Dyadic (m e : Z)
| Infinite (negative : bool)
| NaN.

Definition num_of_float (x : float) : num :=
  match x with
  | S754_zero _ => Dyadic 0 0
  | S754_finite s m e => Dyadic (if s then Zneg m else Zpos m) e
  | S754_infinity s => Infinite s
  | S754_nan => NaN
  end.

(** Exact comparison; [None] when one side is NaN. *)
Definition num_compare (x y : num) : option comparison :=
  match x, y with
  | NaN, _ | _, NaN => None
  | Dyadic m1 e1, Dyadic m2 e2 =>
      let e := Z.min e1 e2 in
      Some (Z.compare (m1 * 2 ^ (e1 - e)) (m2 * 2 ^ (e2 - e)))
  | Infinite s1, Infinite s2 =>
      Some (if Bool.eqb s1 s2 then Eq else if s1 then Lt else Gt)
  | Infinite s, _ => Some (if s then Lt else Gt)
  | _, Infinite s => Some (if s then Gt else Lt)
  end.

Definition num_eqb (x y : num) : bool :=
  match num_compare x y with Some Eq => true | _ => false end.
Definition num_ltb (x y : num) : bool :=
  match num_compare x y with Some Lt => true | _ => false end.
Definition num_leb (x y : num) : bool :=
  match num_compare x y with Some Lt | Some Eq => true | _ => false end.

Definition float_ltb (x y : float) : bool := num_ltb (num_of_float x) (num_of_float y).
Definition float_leb (x y : float) : bool := num_leb (num_of_float x) (num_of_float y).
Definition float_eqb (x y : float) : bool := num_eqb (num_of_float x) (num_of_float y).

(** *** [float.__repr__]: the shortest decimal that reads back *)

(** The nearest float of [d * 10^k], ties to even. *)
Definition float_of_decimal (d k : Z) : float :=
  if 0 <=? k then binary_normalize prec emax (d * 10 ^ k) 0 false
  else
    match d, 10 ^ (- k) with
    | Zpos a, Zpos b =>
        let '(q, e', l) := SFdiv_core_binary prec emax (Zpos a) 0 (Zpos b) 0 in
        binary_round_aux prec emax false q e' l
    | _, _ => S754_zero false
    end.

(** [(digits, exponent)] of a positive finite float [m * 2^e] to [n] significant
    digits, ties to even. *)
Definition ratio_of (m : positive) (e : Z) : Z * Z :=
  if 0 <=? e then (Zpos m * 2 ^ e, 1) else (Zpos m, 2 ^ (- e)).

(** [round_half_even (a * 10^j / b)] *)
Definition scaled (a b j : Z) : Z :=
  let '(a, b) := if 0 <=? j then (a * 10 ^ j, b) else (a, b * 10 ^ (- j)) in
  let q := a / b in let r := a mod b in
  if 2 * r <? b then q else if b <? 2 * r then q + 1
  else if Z.even q then q else q + 1.

(** [floor(log10(a / b))] *)
Definition log10_floor (a b : Z) : Z :=
  let fix up (fuel : nat) (k : Z) :=
    match fuel with
    | O => k
    | S fuel =>
        if (if 0 <=? k + 1 then b * 10 ^ (k + 1) <=? a else b <=? a * 10 ^ (- (k + 1)))
        then up fuel (k + 1) else k
    end in
  up 5%nat ((Z.log2 a - Z.log2 b - 1) * 30103 / 100000 - 1).

(** The first number of digits [n] whose rounding reads back as the float. *)
Definition shortest (m : positive) (e : Z) : Z * Z :=
  let '(a, b) := ratio_of m e in
  let k := log10_floor a b in
  let fix go (fuel : nat) (n : Z) :=
    let d := scaled a b (n - 1 - k) in
    match fuel with
    | O => (d, k - (n - 1))
    | S fuel =>
        if bool_decide (float_of_decimal d (k - (n - 1)) = S754_finite false m e)
        then (d, k - (n - 1)) else go fuel (n + 1)
    end in
  go 16%nat 1.

Definition zeros (n : Z) : string := String.concat "" (replicate (Z.to_nat n) "0").

(** Digits [ds] with the decimal point after [point] of them, in the style of
    [repr]: positional for exponents from -4 to 15, scientific otherwise. *)
Definition strip_zeros (d k : Z) : Z * Z :=
  let fix go (fuel : nat) (d k : Z) :=
    match fuel with
    | O => (d, k)
    | S fuel => if d mod 10 =? 0 then go fuel (d / 10) (k + 1) else (d, k)
    end in
  go 20%nat d k.

Definition format_digits (d k : Z) : string :=
  let '(d, k) := strip_zeros d k in
  let ds := z_str d in
  let n := str_len ds in
  let point := n + k in
  if (-4 <? point) && (point <=? 16) then
    if point <=? 0 then "0." +:+ zeros (- point) +:+ ds
    else if n <=? point then ds +:+ zeros (point - n) +:+ ".0"
    else str_take (Z.to_nat point) ds +:+ "."
         +:+ String.substring (Z.to_nat point) (Z.to_nat (n - point)) ds
  else
    let e := point - 1 in
    let mant := if n =? 1 then ds
                else str_take 1 ds +:+ "." +:+ String.substring 1 (Z.to_nat (n - 1)) ds in
    let es := z_str (Z.abs e) in
    mant +:+ "e" +:+ (if e <? 0 then "-" else "+")
      +:+ (if str_len es =? 1 then "0" +:+ es else es).

Definition float_repr (x : float) : string :=
  match x with
  | S754_zero s => if s then "-0.0" else "0.0"
  | S754_infinity s => if s then "-inf" else "inf"
  | S754_nan => "nan"
  | S754_finite s m e =>
      let '(d, k) := shortest m e in
      (if s then "-" else "") +:+ format_digits d k
  end.

(** The float a decimal literal of a source file denotes. *)
Definition lit (d k : Z) : float := float_of_decimal d k.

Example float_repr_ex :
  map float_repr [lit 3000 (-1); lit 1 (-1); lit 15 (-1); lit 1 22; lit 123 (-7);
                  float_add (lit 1 (-1)) (lit 2 (-1))]
  = ["300.0"; "0.1"; "1.5"; "1e+22"; "1.23e-05"; "0.30000000000000004"].
Proof. vm_compute. reflexivity. Qed.

(** ** Values *)

Inductive pyval : Type :=
| PNone
| PBool (b : bool)
| PInt (n : Z)
| PFloat (x : float)
| PStr (s : string)
| PList (l : list pyval)
| PTuple (l : list pyval)
| PDict (d : list (string * pyval)).

Definition dict : Type := list (string * pyval).

(** Induction that reaches the elements of lists, tuples and dicts. *)
Section pyval_induction.
Context (P : pyval → Prop)
  (HNone : P PNone) (HBool : ∀ b, P (PBool b)) (HInt : ∀ n, P (PInt n))
  (HFloat : ∀ x, P (PFloat x)) (HStr : ∀ s, P (PStr s))
  (HList : ∀ l, Forall P l → P (PList l)) (HTuple : ∀ l, Forall P l → P (PTuple l))
  (HDict : ∀ d, Forall (λ kv, P kv.2) d → P (PDict d)).

Fixpoint pyval_nested_ind (v : pyval) : P v :=
  match v with
  | PNone => HNone
  | PBool b => HBool b
  | PInt n => HInt n
  | PFloat x => HFloat x
  | PStr s => HStr s
  | PList l => HList l ((fix go l := match l return Forall P l with
        | [] => Forall_nil_2 _ | x :: l => Forall_cons_2 _ _ _ (pyval_nested_ind x) (go l)
        end) l)
  | PTuple l => HTuple l ((fix go l := match l return Forall P l with
        | [] => Forall_nil_2 _ | x :: l => Forall_cons_2 _ _ _ (pyval_nested_ind x) (go l)
        end) l)
  | PDict d => HDict d ((fix go d := match d return Forall (λ kv, P kv.2) d with
        | [] => Forall_nil_2 _
        | kv :: d => Forall_cons_2 _ _ _ (pyval_nested_ind kv.2) (go d)
        end) d)
  end.
End pyval_induction.

#[global] Instance pyval_eq_dec : EqDecision pyval.
Proof.
  refine (fix go v w {struct v} :=
    match v, w with
    | PNone, PNone => left eq_refl
    | PBool a, PBool b => cast_if (decide (a = b))
    | PInt a, PInt b => cast_if (decide (a = b))
    | PFloat a, PFloat b => cast_if (decide (a = b))
    | PStr a, PStr b => cast_if (decide (a = b))
    | PList a, PList b => cast_if (@list_eq_dec _ go a b)
    | PTuple a, PTuple b => cast_if (@list_eq_dec _ go a b)
    | PDict a, PDict b => cast_if (@list_eq_dec _ (@prod_eq_dec _ _ _ go) a b)
    | _, _ => right _
    end); congruence.
Defined.

(** *** Dicts *)

(** [d.get(k)] *)
Fixpoint dict_get (k : string) (d : dict) : option pyval :=
  match d with
  | [] => None
  | (k', v) :: d => if bool_decide (k = k') then Some v else dict_get k d
  end.

(** [k in d] *)
Definition dict_has (k : string) (d : dict) : bool := bool_decide (is_Some (dict_get k d)).

(** [d.get(k)] where a missing key and [None] are the same. *)
Definition dget (k : string) (d : dict) : pyval := default PNone (dict_get k d).

(** [d[k] = v] *)
Fixpoint dict_set (k : string) (v : pyval) (d : dict) : dict :=
  match d with
  | [] => [(k, v)]
  | (k', v') :: d => if bool_decide (k = k') then (k, v) :: d else (k', v') :: dict_set k v d
  end.

(** [d.pop(k, None)] *)
Definition dict_del (k : string) (d : dict) : dict := filter (λ kv, kv.1 ≠ k) d.

Definition dict_keys (d : dict) : list string := d.*1.

(** [{**d, **e}] *)
Definition dict_update (d e : dict) : dict := foldl (λ d kv, dict_set kv.1 kv.2 d) d e.

Definition dict_wf (d : dict) : Prop := NoDup (dict_keys d).

(** Every dict inside a value has distinct keys. *)
Inductive wf : pyval → Prop :=
| wf_None : wf PNone
| wf_Bool b : wf (PBool b)
| wf_Int n : wf (PInt n)
| wf_Float x : wf (PFloat x)
| wf_Str s : wf (PStr s)
| wf_List l : Forall wf l → wf (PList l)
| wf_Tuple l : Forall wf l → wf (PTuple l)
| wf_Dict d : dict_wf d → Forall (λ kv, wf kv.2) d → wf (PDict d).

(** *** Types, truth and equality *)

Inductive pytype := TNone | TBool | TInt | TFloat | TStr | TList | TTuple | TDict.
#[global] Instance pytype_eq_dec : EqDecision pytype.
Proof. solve_decision. Defined.

(** [type(v)] *)
Definition type_of (v : pyval) : pytype :=
  match v with
  | PNone => TNone | PBool _ => TBool | PInt _ => TInt | PFloat _ => TFloat
  | PStr _ => TStr | PList _ => TList | PTuple _ => TTuple | PDict _ => TDict
  end.

(** [isinstance(v, int)]: [bool] is a subclass of [int]. *)
Definition is_int (v : pyval) : bool :=
  match v with PInt _ | PBool _ => true | _ => false end.

(** [bool(v)] *)
Definition truthy (v : pyval) : bool :=
  match v with
  | PNone => false
  | PBool b => b
  | PInt n => negb (n =? 0)
  | PFloat (S754_zero _) => false
  | PFloat _ => true
  | PStr s => str_true s
  | PList l | PTuple l => match l with [] => false | _ => true end
  | PDict d => match d with [] => false | _ => true end
  end.

(** [a or b] *)
Definition por (a b : pyval) : pyval := if truthy a then a else b.

Definition num_of (v : pyval) : option num :=
  match v with
  | PBool b => Some (Dyadic (if b then 1 else 0) 0)
  | PInt n => Some (Dyadic n 0)
  | PFloat x => Some (num_of_float x)
  | _ => None
  end.

Fixpoint list_eqb {A} (eqb : A → A → bool) (l m : list A) : bool :=
  match l, m with
  | [], [] => true
  | x :: l, y :: m => eqb x y && list_eqb eqb l m
  | _, _ => false
  end.

(** [a == b].  Containers compare their elements with [is] before [==], which
    is observable only for NaN: [same] says whether equal positions hold the
    same NaN object. *)
Fixpoint py_eqb (same : bool) (a b : pyval) : bool :=
  match a, b with
  | PNone, PNone => true
  | PStr s, PStr t => bool_decide (s = t)
  | PList l, PList m | PTuple l, PTuple m => list_eqb (py_eqb same) l m
  | PDict d, PDict e =>
      (Nat.eqb (length d) (length e)) &&
      forallb (λ kv, match dict_get kv.1 e with
                     | Some w => py_eqb same kv.2 w
                     | None => false
                     end) d
  | PFloat S754_nan, PFloat S754_nan => same
  | PBool _, _ | PInt _, _ | PFloat _, _ =>
      match num_of a, num_of b with Some x, Some y => num_eqb x y | _, _ => false end
  | _, _ => false
  end.

(** *** Conversions *)

(** Characters [repr] escapes. *)
Definition printable (c : ascii) : bool :=
  let n := code_point c in
  (32 <=? n) && (n <=? 126) || (161 <=? n) && negb (n =? 173).

Definition hex_digit (n : Z) : ascii :=
  ascii_of_N (Z.to_N (if n <? 10 then 48 + n else 87 + n)).

Definition quote_char : ascii := "034"%char.
Definition str1 (c : ascii) : string := String c "".

Fixpoint repr_chars (q : ascii) (s : string) : string :=
  match s with
  | EmptyString => ""
  | String c s =>
      let n := code_point c in
      (if bool_decide (c = q) then String "\" (str1 c)
       else if n =? 92 then "\\"
       else if n =? 9 then "\t" else if n =? 10 then "\n" else if n =? 13 then "\r"
       else if printable c then str1 c
       else "\x" +:+ str1 (hex_digit (n / 16)) +:+ str1 (hex_digit (n mod 16)))
      +:+ repr_chars q s
  end.

Definition repr_str (s : string) : string :=
  let has c := str_exists (λ d, bool_decide (d = c)) s in
  let q := if has "'"%char && negb (has quote_char) then quote_char else "'"%char in
  str1 q +:+ repr_chars q s +:+ str1 q.

(** [repr(v)] *)
Fixpoint py_repr (v : pyval) : string :=
  match v with
  | PNone => "None"
  | PBool b => if b then "True" else "False"
  | PInt n => z_str n
  | PFloat x => float_repr x
  | PStr s => repr_str s
  | PList l => "[" +:+ join ", " (map py_repr l) +:+ "]"
  | PTuple l =>
      match l with
      | [x] => "(" +:+ py_repr x +:+ ",)"
      | _ => "(" +:+ join ", " (map py_repr l) +:+ ")"
      end
  | PDict d =>
      "{" +:+ join ", " (map (λ kv, repr_str kv.1 +:+ ": " +:+ py_repr kv.2) d) +:+ "}"
  end.

(** [str(v)] *)
Definition py_str (v : pyval) : string :=
  match v with PStr s => s | _ => py_repr v end.

(** Decimal digits with single underscores between them. *)
Fixpoint digits_value (acc : Z) (s : string) : option Z :=
  match s with
  | EmptyString => Some acc
  | String c s' =>
      if is_digit_ascii c then digits_value (10 * acc + (code_point c - 48)) s'
      else match c, s' with
           | "_"%char, String d s'' =>
               if is_digit_ascii d
               then digits_value (10 * acc + (code_point d - 48)) s'' else None
           | _, _ => None
           end
  end.

Definition digits (s : string) : option Z :=
  match s with
  | String c s' => if is_digit_ascii c then digits_value (code_point c - 48) s' else None
  | EmptyString => None
  end.

Definition split_sign (s : string) : bool * string :=
  match s with
  | String "-" s => (true, s)
  | String "+" s => (false, s)
  | _ => (false, s)
  end.

(** [int(v)] *)
Definition py_int (v : pyval) : result Z :=
  match v with
  | PInt n => Ok n
  | PBool b => Ok (if b then 1 else 0)
  | PFloat (S754_zero _) => Ok 0
  | PFloat (S754_finite s m e) =>
      let a := if 0 <=? e then Zpos m * 2 ^ e else Zpos m / 2 ^ (- e) in
      Ok (if s then - a else a)
  | PFloat S754_nan => Err (ValueError "cannot convert float NaN to integer")
  | PFloat (S754_infinity _) => Err (OverflowError "cannot convert float infinity to integer")
  | PStr s =>
      let '(neg, ds) := split_sign (strip s) in
      match digits ds with
      | Some n => Ok (if neg then - n else n)
      | None => Err (ValueError "invalid literal for int()")
      end
  | _ => Err (TypeError "int() argument")
  end.

Definition float_neg (x : float) : float := SFopp x.

(** The decimal literal [ip.fp e ex]. *)
Definition float_literal (s : string) : option float :=
  let s := lower s in
  let '(mant, ex) :=
    match split_on "e"%char s with
    | [m] => (m, Some 0)
    | [m; x] => let '(neg, ds) := split_sign x in
                (m, (λ n, if neg then - n else n) <$> digits ds)
    | _ => ("", None)
    end in
  ex ← ex;
  match split_on "."%char mant with
  | [i] => n ← digits i; Some (float_of_decimal n ex)
  | [i; f] =>
      let nf := Z.of_nat (String.length (String.concat "" (split_on "_"%char f))) in
      match i, f with
      | EmptyString, EmptyString => None
      | EmptyString, _ => n ← digits f; Some (float_of_decimal n (ex - nf))
      | _, EmptyString => n ← digits i; Some (float_of_decimal n ex)
      | _, _ => a ← digits i; b ← digits f;
                Some (float_of_decimal (a * 10 ^ nf + b) (ex - nf))
      end
  | _ => None
  end.

(** [float(v)] *)
Definition py_float (v : pyval) : result float :=
  match v with
  | PFloat x => Ok x
  | PInt _ | PBool _ =>
      n ← py_int v;
      match float_of_int n with
      | Some x => Ok x
      | None => Err (OverflowError "int too large to convert to float")
      end
  | PStr s =>
      let '(neg, t) := split_sign (strip s) in
      let sign x := if neg then float_neg x else x in
      if bool_decide (lower t ∈ ["inf"; "infinity"]) then Ok (sign (S754_infinity false))
      else if bool_decide (lower t = "nan") then Ok S754_nan
      else match float_literal t with
           | Some x => Ok (sign x)
           | None => Err (ValueError "could not convert string to float")
           end
  | _ => Err (TypeError "float() argument")
  end.

(** [for x in v]: the elements of a list, the keys of a dict, the characters of
    a string. *)
Definition iterate (v : pyval) : result (list pyval) :=
  match v with
  | PList l | PTuple l => Ok l
  | PDict d => Ok (PStr <$> dict_keys d)
  | PStr s => Ok ((λ c, PStr (str1 c)) <$> String.list_ascii_of_string s)
  | _ => Err (TypeError "object is not iterable")
  end.

(** [list(v)] *)
Definition py_list (v : pyval) : result pyval := l ← iterate v; Ok (PList l).

(** One element of a sequence of key and value pairs given to [dict]; the model
    has string keys only. *)
Definition dict_item (v : pyval) : result (string * pyval) :=
  kv ← iterate v;
  match kv with
  | [PStr k; x] => Ok (k, x)
  | [_; _] => Err (TypeError "dict key outside the model")
  | _ => Err (ValueError "dictionary update sequence element")
  end.

(** [dict(v)] *)
Definition py_dict (v : pyval) : result dict :=
  match v with
  | PDict d => Ok d
  | _ => l ← iterate v; kvs ← map_result dict_item l; Ok (dict_update [] kvs)
  end.

(** [d.get(k) or default], as a [str]. *)
Definition str_or_default (v : pyval) (default : string) : string :=
  py_str (por v (PStr default)).

(** ** Laws *)

Lemma list_eqb_refl {A} (eqb : A → A → bool) l :
  Forall (λ x, eqb x x = true) l → list_eqb eqb l l = true.
Proof. induction 1 as [|x l Hx Hl IH]; cbn; [done|]. by rewrite Hx. Qed.

Lemma dict_get_set_eq k v d : dict_get k (dict_set k v d) = Some v.
Proof.
  induction d as [|[k' v'] d IH]; cbn; [by rewrite bool_decide_true|].
  case_bool_decide as H; cbn; [by rewrite bool_decide_true|].
  by rewrite bool_decide_false.
Qed.

Lemma dict_get_set_ne k k' v d : k ≠ k' → dict_get k (dict_set k' v d) = dict_get k d.
Proof.
  intros Hne. induction d as [|[k'' v'] d IH]; cbn; [by rewrite bool_decide_false|].
  case_bool_decide as H; cbn; [|by rewrite IH]. subst.
  by rewrite !bool_decide_false by done.
Qed.

Lemma dict_get_elem k v d : dict_get k d = Some v → (k, v) ∈ d.
Proof.
  induction d as [|[k' v'] d IH]; cbn; [done|]. case_bool_decide as H.
  - intros [= <-]. subst. left.
  - intros Hin. right. by apply IH.
Qed.

Lemma dict_get_NoDup k v d : dict_wf d → (k, v) ∈ d → dict_get k d = Some v.
Proof.
  unfold dict_wf, dict_keys. induction d as [|[k' v'] d IH]; cbn; [by intros _ ?%elem_of_nil|].
  rewrite NoDup_cons, elem_of_cons. intros [Hnin Hnd] [[= <- <-]|Hin].
  - by rewrite bool_decide_true.
  - rewrite bool_decide_false; [by apply IH|]. intros ->. apply Hnin.
    by apply list_elem_of_fmap_2 with (f := fst) in Hin.
Qed.

(** A lookup does not depend on the order of the entries. *)
Lemma dict_get_perm d d' k : dict_wf d → d ≡ₚ d' → dict_get k d = dict_get k d'.
Proof.
  intros Hwf Hp. assert (dict_wf d') as Hwf' by (unfold dict_wf, dict_keys in *; by rewrite <- Hp).
  destruct (dict_get k d) as [v|] eqn:Hd.
  - symmetry. apply dict_get_NoDup; [done|]. rewrite <- Hp. by apply dict_get_elem.
  - destruct (dict_get k d') as [v|] eqn:Hd'; [|done]. apply dict_get_elem in Hd'.
    rewrite <- Hp in Hd'. apply dict_get_NoDup in Hd'; [congruence|done].
Qed.

Lemma dict_keys_set k v d :
  dict_keys (dict_set k v d) = dict_keys d ∨
  (k ∉ dict_keys d ∧ dict_keys (dict_set k v d) = dict_keys d ++ [k]).
Proof.
  unfold dict_keys. induction d as [|[k' v'] d IH]; cbn; [right; set_solver|].
  case_bool_decide as H; cbn; [left; by subst|]. destruct IH as [->|[? ->]]; [by left|].
  right. split; [set_solver|done].
Qed.

Lemma dict_set_wf k v d : dict_wf d → dict_wf (dict_set k v d).
Proof.
  unfold dict_wf. intros Hd. destruct (dict_keys_set k v d) as [->|[Hk ->]]; [done|].
  apply NoDup_app; split_and!; [done|set_solver|apply NoDup_singleton].
Qed.

Lemma digit_not_space c : is_digit_ascii c = true → negb (is_space c) = true.
Proof.
  pose proof (all_chars_spec (λ c, negb (is_digit_ascii c) || negb (is_space c)) eq_refl c) as Hc.
  cbn beta in Hc. intros Hd. by rewrite Hd in Hc.
Qed.

Lemma digits_unsigned s : str_forall is_digit_ascii s = true → split_sign s = (false, s).
Proof.
  destruct s as [|c s]; [done|]. rewrite str_forall_String. intros [Hc _]%andb_true_iff.
  pose proof (all_chars_spec (λ c, negb (is_digit_ascii c)
    || bool_decide (c ≠ "-"%char) && bool_decide (c ≠ "+"%char)) eq_refl c) as Hs.
  cbn beta in Hs. rewrite Hc in Hs. cbn [negb orb] in Hs.
  apply andb_true_iff in Hs as [Hm%bool_decide_eq_true Hp%bool_decide_eq_true].
  unfold split_sign. destruct c as [[] [] [] [] [] [] [] []]; done.
Qed.

Lemma strip_digits s : str_forall is_digit_ascii s = true → strip s = s.
Proof. intros Hs. apply strip_no_space. eapply str_forall_impl; [apply digit_not_space|exact Hs]. Qed.

Lemma digits_value_total acc s :
  str_forall is_digit_ascii s = true → is_Some (digits_value acc s).
Proof.
  revert acc. induction s as [|c s IH]; intros acc; cbn [digits_value]; [eauto|].
  rewrite str_forall_String. intros [Hc Hs]%andb_prop. rewrite Hc. by apply IH.
Qed.

(** Decimal digits are read as an integer. *)
Lemma py_int_digits s :
  str_forall is_digit_ascii s = true → s ≠ "" → ∃ n, py_int (PStr s) = Ok n.
Proof.
  intros Hs Hne. cbn [py_int]. rewrite strip_digits, digits_unsigned by done.
  destruct s as [|c s]; [done|]. rewrite str_forall_String in Hs.
  apply andb_prop in Hs as [Hc Hs]. cbn [digits]. rewrite Hc.
  destruct (digits_value_total (code_point c - 48) s Hs) as [n ->]. eauto.
Qed.

Example py_int_ex : map py_int [PStr " 1_0 "; PBool true; PFloat (lit (-0) 0)] =
  [Ok 10; Ok 1; Ok 0] ∧ py_float (PStr "1.5e1") = Ok (lit 15 0).
Proof. split; vm_compute; reflexivity. Qed.
Example py_repr_ex : py_repr (PDict [("a", PList [PInt 1; PStr "x'y"])]) =
  String.concat "" ["{'a': [1, "; str1 quote_char; "x'y"; str1 quote_char; "]}"].
Proof. vm_compute. reflexivity. Qed.
