(* ===== verification/Digest.v ===== *)
(** * SHA-256

    [hashlib.sha256(data).hexdigest()] on byte lists (FIPS 180-4), on 32-bit
    words written as integers modulo 2^32, and the interface [Digest] the
    contracts are verified against. *)
From Stdlib Require Import Ascii.
From S2P Require Import Prelude PyStr.

(** What the contracts rely on: a hexadecimal digest of 64 characters. *)
Class Digest := {
  hexdigest : list Z → string;
  hexdigest_re : ∀ data, sha256_re (hexdigest data) = true;
}.

(** These two inputs differ and have one digest. *)
Definition clash `{Digest} (a b : list Z) : Prop := a ≠ b ∧ hexdigest a = hexdigest b.

Module Sha256.

(** ** Words *)

Definition word : Z := 2 ^ 32.
Definition add32 (a b : Z) : Z := (a + b) mod word.
Definition rotr (n x : Z) : Z := Z.lor (Z.shiftr x n) (Z.shiftl x (32 - n) mod word).
Definition not32 (x : Z) : Z := word - 1 - x.

Definition ch (x y z : Z) : Z := Z.lxor (Z.land x y) (Z.land (not32 x) z).
Definition maj (x y z : Z) : Z :=
  Z.lxor (Z.lxor (Z.land x y) (Z.land x z)) (Z.land y z).
Definition big_sigma0 (x : Z) : Z := Z.lxor (Z.lxor (rotr 2 x) (rotr 13 x)) (rotr 22 x).
Definition big_sigma1 (x : Z) : Z := Z.lxor (Z.lxor (rotr 6 x) (rotr 11 x)) (rotr 25 x).
Definition sigma0 (x : Z) : Z :=
  Z.lxor (Z.lxor (rotr 7 x) (rotr 18 x)) (Z.shiftr x 3).
Definition sigma1 (x : Z) : Z :=
  Z.lxor (Z.lxor (rotr 17 x) (rotr 19 x)) (Z.shiftr x 10).

(** The first 32 bits of the fractional part of the cube (square) root. *)
Definition primes : list Z :=
  [2;3;5;7;11;13;17;19;23;29;31;37;41;43;47;53;59;61;67;71;73;79;83;89;97;101;103;107;
   109;113;127;131;137;139;149;151;157;163;167;173;179;181;191;193;197;199;211;223;227;
   229;233;239;241;251;257;263;269;271;277;281;283;293;307;311].

Fixpoint root_search (power : Z) (fuel : nat) (bit n root : Z) : Z :=
  match fuel with
  | O => root
  | S fuel =>
      let r := root + bit in
      root_search power fuel (bit / 2) n (if r ^ power <=? n then r else root)
  end.

Definition root_fraction (power p : Z) : Z :=
  root_search power 40 (2 ^ 39) (p * 2 ^ (32 * power)) 0 mod word.

Definition round_constants : list Z := Eval vm_compute in root_fraction 3 <$> primes.
Definition initial_state : list Z := Eval vm_compute in root_fraction 2 <$> take 8 primes.

(** ** Padding *)

Fixpoint be_bytes (n : nat) (x : Z) : list Z :=
  match n with
  | O => []
  | S n => (x / 256 ^ Z.of_nat n) mod 256 :: be_bytes n x
  end.

Definition pad (data : list Z) : list Z :=
  let n := Z.of_nat (length data) in
  data ++ [128] ++ replicate (Z.to_nat ((55 - n) mod 64)) 0 ++ be_bytes 8 (8 * n).

Fixpoint words (bytes : list Z) : list Z :=
  match bytes with
  | a :: b :: c :: d :: bytes => (((a * 256 + b) * 256 + c) * 256 + d) :: words bytes
  | _ => []
  end.

Fixpoint blocks (fuel : nat) (ws : list Z) : list (list Z) :=
  match fuel, ws with
  | O, _ | _, [] => []
  | S fuel, _ => take 16 ws :: blocks fuel (drop 16 ws)
  end.

(** ** Compression *)

(** The last sixteen words of the schedule, most recent first, and the words
    already produced. *)
Fixpoint schedule (fuel : nat) (recent : list Z) : list Z :=
  match fuel with
  | O => []
  | S fuel =>
      let w := add32 (add32 (sigma1 (nth 1 recent 0)) (nth 6 recent 0))
                 (add32 (sigma0 (nth 14 recent 0)) (nth 15 recent 0)) in
      w :: schedule fuel (w :: take 15 recent)
  end.

Definition round (st : list Z) (kw : Z * Z) : list Z :=
  match st with
  | [a; b; c; d; e; f; g; h] =>
      let t1 := add32 (add32 (add32 h (big_sigma1 e)) (add32 (ch e f g) kw.1)) kw.2 in
      let t2 := add32 (big_sigma0 a) (maj a b c) in
      [add32 t1 t2; a; b; c; add32 d t1; e; f; g]
  | _ => st
  end.

Definition compress (st block : list Z) : list Z :=
  let ws := block ++ schedule 48 (reverse block) in
  zip_with add32 st (foldl round st (zip round_constants ws)).

Definition sha256 (data : list Z) : list Z :=
  let ws := words (pad data) in
  foldl compress initial_state (blocks (length ws) ws).

(** ** Hexadecimal output *)

Definition nibble (n : Z) : ascii :=
  ascii_of_N (Z.to_N (if n <? 10 then 48 + n else 87 + n)).

Fixpoint hex_digits (n : nat) (x : Z) : string :=
  match n with
  | O => ""
  | S n => String (nibble ((x / 16 ^ Z.of_nat n) mod 16)) (hex_digits n x)
  end.

Definition hex_words (ws : list Z) : string :=
  foldr (λ w s, hex_digits 8 w +:+ s) "" ws.

Definition sha256_hexdigest (data : list Z) : string := hex_words (sha256 data).

Example sha256_abc : sha256_hexdigest (utf8 "abc") =
  "ba7816bf8f01cfea414140de5dae2223b00361a396177a9cb410ff61f20015ad".
Proof. vm_compute. reflexivity. Qed.

(** ** The digest is always 64 hexadecimal characters *)

Lemma length_round st kw : length (round st kw) = length st.
Proof. do 9 (destruct st as [|? st]; try done). Qed.

Lemma length_rounds st kws : length (foldl round st kws) = length st.
Proof.
  revert st; induction kws as [|kw kws IH]; intros st; [done|].
  cbn. by rewrite IH, length_round.
Qed.

Lemma length_sha256 data : length (sha256 data) = 8%nat.
Proof.
  unfold sha256. generalize (blocks (length (words (pad data))) (words (pad data))).
  intros bs. assert (length initial_state = 8%nat) as H by done.
  revert H. generalize initial_state. induction bs as [|b bs IH]; intros st Hst; [done|].
  cbn. apply IH. unfold compress. by rewrite length_zip_with, length_rounds, Hst.
Qed.

Lemma nibble_hex n : 0 ≤ n < 16 → hex_char (nibble n) = true.
Proof.
  intros Hn. assert (forallb (λ n, hex_char (nibble n)) (seqZ 0 16) = true) as H by done.
  rewrite forallb_forall in H. apply H. rewrite <- list_elem_of_In, elem_of_seqZ. lia.
Qed.

Lemma hex_digits_hex n x : str_forall hex_char (hex_digits n x) = true.
Proof.
  induction n as [|n IH]; cbn; [done|]. rewrite str_forall_String, IH, andb_true_r.
  apply nibble_hex, Z.mod_pos_bound. lia.
Qed.

Lemma str_len_app s t : str_len (s +:+ t) = str_len s + str_len t.
Proof.
  unfold str_len. induction s as [|c s IH]; [done|].
  change (String c s +:+ t) with (String c (s +:+ t)). cbn [String.length]. lia.
Qed.

Lemma hex_digits_len n x : str_len (hex_digits n x) = Z.of_nat n.
Proof. unfold str_len. f_equal. induction n; cbn; auto. Qed.

Lemma sha256_hexdigest_re data : sha256_re (sha256_hexdigest data) = true.
Proof.
  unfold sha256_hexdigest, sha256_re.
  assert (∀ ws, str_len (hex_words ws) = 8 * Z.of_nat (length ws) ∧
    str_forall hex_char (hex_words ws) = true) as H.
  { induction ws as [|w ws [IH1 IH2]]; [done|]. cbn [hex_words foldr length].
    fold (hex_words ws). rewrite str_len_app, str_forall_app, hex_digits_len,
      hex_digits_hex, IH1, IH2. split; [lia|done]. }
  destruct (H (sha256 data)) as [-> ->]. by rewrite length_sha256.
Qed.

End Sha256.

(** The digest the program uses, and a cheap one with the same shape, on which
    concrete inputs are evaluated. *)
Definition sha256_digest : Digest :=
  {| hexdigest := Sha256.sha256_hexdigest; hexdigest_re := Sha256.sha256_hexdigest_re |}.

(** [a1 * 1 + a2 * 2 + ...], in hexadecimal. *)
Definition checksum (data : list Z) : Z :=
  foldl (λ s b, (s * 257 + b + 1) mod 2 ^ 61) 7 data.

Lemma checksum_re data : sha256_re (Sha256.hex_digits 64 (checksum data)) = true.
Proof. unfold sha256_re. by rewrite Sha256.hex_digits_len, Sha256.hex_digits_hex. Qed.

Definition checksum_digest : Digest :=
  {| hexdigest := λ data, Sha256.hex_digits 64 (checksum data); hexdigest_re := checksum_re |}.
