(* ===== verification/Serialization.v ===== *)
(** * Canonical JSON (workflow_runtime/_serialization.py)

    The serialization every hash and signature of the runtime is computed on,
    and the redaction of credential-like keys. *)
From Stdlib Require Import Ascii DecimalString DecimalPos DecimalZ.
From S2P Require Import Prelude PyStr PyVal Digest.

(** ** Serialization *)

(** A character inside a JSON string with [ensure_ascii=False]. *)
Definition escape_char (c : ascii) : string :=
  let n := code_point c in
  if n =? 34 then String "\" (str1 c)
  else if n =? 92 then "\\"
  else if n =? 10 then "\n" else if n =? 13 then "\r" else if n =? 9 then "\t"
  else if n =? 8 then "\b" else if n =? 12 then "\f"
  else if n <? 32
  then "\u00" +:+ str1 (hex_digit (n / 16)) +:+ str1 (hex_digit (n mod 16))
  else str1 c.

Fixpoint escape (s : string) : string :=
  match s with
  | EmptyString => ""
  | String c s => escape_char c +:+ escape s
  end.

Definition json_string (s : string) : string :=
  String quote_char (escape s +:+ str1 quote_char).

Definition key_leb {A} (x y : string * A) : bool := str_leb x.1 y.1.

(** [json.dumps(value, sort_keys=True, separators=(",", ":"),
    ensure_ascii=False, allow_nan=False)] *)
Fixpoint canonical_json (value : pyval) : result string :=
  match value with
  | PNone => Ok "null"
  | PBool b => Ok (if b then "true" else "false")
  | PInt n => Ok (z_str n)
  | PFloat x =>
      if is_finite x then Ok (float_repr x)
      else Err (ValueError "Out of range float values are not JSON compliant")
  | PStr s => Ok (json_string s)
  | PList l | PTuple l =>
      items ← map_result canonical_json l;
      Ok ("[" +:+ join "," items +:+ "]")
  | PDict d =>
      items ← map_result
        (λ kv, s ← canonical_json kv.2; Ok (kv.1, json_string kv.1 +:+ ":" +:+ s)) d;
      Ok ("{" +:+ join "," (sort_by key_leb items).*2 +:+ "}")
  end.

Definition sha256_json `{Digest} (value : pyval) : result string :=
  s ← canonical_json value; Ok (hexdigest (utf8 s)).

(** ** Redaction *)

Definition _SENSITIVE_PARTS : list string :=
  ["api_key"; "authorization"; "credential"; "password"; "private_key"; "secret";
   "token"].

Definition _SAFE_TOKEN_KEYS : list string :=
  ["cached_tokens"; "fencing_token"; "input_tokens"; "max_tokens"; "output_tokens";
   "reasoning_tokens"; "token_count"; "token_usage"].

Definition is_sensitive (key : string) : bool :=
  let lowered := lower key in
  bool_decide (lowered ∉ _SAFE_TOKEN_KEYS) &&
  existsb (λ part, bool_decide (lowered = part) || ends_with ("_" +:+ part) lowered
                   || starts_with (part +:+ "_") lowered) _SENSITIVE_PARTS.

Definition REDACTED : pyval := PStr "[REDACTED]".

Fixpoint redact_json (value : pyval) : pyval :=
  match value with
  | PDict d =>
      PDict (map (λ kv, (kv.1, if is_sensitive kv.1 then REDACTED
                               else redact_json kv.2)) d)
  | PList l | PTuple l => PList (map redact_json l)
  | _ => value
  end.

(** [bool(redact_json(value) != value)]: inside a container the two sides hold
    the same NaN object, at the top a NaN differs from itself. *)
Definition contains_sensitive_keys (value : pyval) : bool :=
  match value with
  | PFloat x => negb (float_eqb x x)
  | _ => negb (py_eqb true (redact_json value) value)
  end.

(** ** Normal forms

    What the canonical form determines: tuples are lists, dicts are sorted. *)

Fixpoint norm (v : pyval) : pyval :=
  match v with
  | PList l | PTuple l => PList (map norm l)
  | PDict d => PDict (sort_by key_leb (map (λ kv, (kv.1, norm kv.2)) d))
  | _ => v
  end.

(** The text of a normal form. *)
Fixpoint print (v : pyval) : string :=
  match v with
  | PNone => "null"
  | PBool b => if b then "true" else "false"
  | PInt n => z_str n
  | PFloat x => float_repr x
  | PStr s => json_string s
  | PList l | PTuple l => "[" +:+ join "," (map print l) +:+ "]"
  | PDict d =>
      "{" +:+ join "," (map (λ kv, json_string kv.1 +:+ ":" +:+ print kv.2) d) +:+ "}"
  end.

Definition number_char (c : ascii) : bool :=
  is_digit_ascii c || bool_decide (c ∈ ["-"; "+"; "."; "e"]%char).

(** A finite float whose [repr] has the shape of a float literal and reads back
    as the float, as Python documents for every finite float. *)
Definition float_ok (x : float) : bool :=
  is_finite x && bool_decide (py_float (PStr (float_repr x)) = Ok x) &&
  str_forall number_char (float_repr x) &&
  str_exists (λ c, bool_decide (c ∈ ["."; "e"]%char)) (float_repr x).

(** Values with only such floats. *)
Fixpoint json_ok (v : pyval) : bool :=
  match v with
  | PFloat x => float_ok x
  | PList l | PTuple l => forallb json_ok l
  | PDict d => forallb (λ kv, json_ok kv.2) d
  | _ => true
  end.

(** ** The canonical form is the text of the normal form *)

Lemma canonical_json_print v :
  json_ok v = true → canonical_json v = Ok (print (norm v)).
Proof.
  induction v as [|b|n|x|s|l IH|l IH|d IH] using pyval_nested_ind; try done.
  - cbn. unfold float_ok. rewrite !andb_true_iff. by intros [[[-> _] _] _].
  - cbn [json_ok norm print canonical_json]. intros Hok.
    rewrite (map_result_total _ (λ v, print (norm v))); [by rewrite map_map|].
    rewrite forallb_forall in Hok. rewrite Forall_forall in IH |- *.
    intros x Hx. apply IH; [done|]. by apply Hok, list_elem_of_In.
  - cbn [json_ok norm print canonical_json]. intros Hok.
    rewrite (map_result_total _ (λ v, print (norm v))); [by rewrite map_map|].
    rewrite forallb_forall in Hok. rewrite Forall_forall in IH |- *.
    intros x Hx. apply IH; [done|]. by apply Hok, list_elem_of_In.
  - cbn [json_ok norm print canonical_json]. intros Hok.
    set (g := λ kv : string * pyval,
      (kv.1, json_string kv.1 +:+ ":" +:+ print kv.2)).
    rewrite (map_result_total _ (λ kv, g (kv.1, norm kv.2))).
    + cbn [mbind result_bind].
      rewrite <- (map_map (λ kv, (kv.1, norm kv.2)) g).
      rewrite (sort_by_map g key_leb key_leb) by done.
      rewrite <- list_fmap_compose. done.
    + rewrite forallb_forall in Hok. rewrite Forall_forall in IH |- *.
      intros kv Hx. rewrite (IH kv); [done|done|].
      by apply Hok, list_elem_of_In.
Qed.

(** Serialization fails only on a float that is not finite. *)
Fixpoint floats_finite (v : pyval) : bool :=
  match v with
  | PFloat x => is_finite x
  | PList l | PTuple l => forallb floats_finite l
  | PDict d => forallb (λ kv, floats_finite kv.2) d
  | _ => true
  end.

Lemma map_result_is_ok {A B} (f : A → result B) l :
  forallb (λ x, is_ok (f x)) l = true → is_ok (map_result f l) = true.
Proof.
  induction l as [|x l IH]; cbn; [done|]. rewrite andb_true_iff. intros [Hx Hl].
  destruct (f x); [|done]. cbn. specialize (IH Hl). by destruct (map_result f l).
Qed.

Lemma canonical_json_total v : floats_finite v = true → is_ok (canonical_json v) = true.
Proof.
  assert (∀ {A B} (r : result A) (f : A → B), is_ok (x ← r; Ok (f x)) = is_ok r) as Hbind
    by (by intros ? ? []).
  induction v as [|b|n|x|s|l IH|l IH|d IH] using pyval_nested_ind; cbn; try done.
  - by destruct (is_finite x).
  - rewrite forallb_forall, Forall_forall in *. intros Hl. rewrite Hbind.
    apply map_result_is_ok, forallb_forall. intros x Hx.
    apply IH; [by apply list_elem_of_In|by apply Hl].
  - rewrite forallb_forall, Forall_forall in *. intros Hl. rewrite Hbind.
    apply map_result_is_ok, forallb_forall. intros x Hx.
    apply IH; [by apply list_elem_of_In|by apply Hl].
  - rewrite forallb_forall, Forall_forall in *. intros Hl. rewrite Hbind.
    apply map_result_is_ok, forallb_forall. intros x Hx. rewrite Hbind.
    apply IH; [by apply list_elem_of_In|by apply Hl].
Qed.

(** The only exception, and the order of the entries does not matter. *)
Definition not_compliant : exn := ValueError "Out of range float values are not JSON compliant".

Lemma map_result_err {A B} (f : A → result B) l e :
  (∀ x e', x ∈ l → f x = Err e' → e' = e) → ∀ e', map_result f l = Err e' → e' = e.
Proof.
  induction l as [|x l IH]; intros Hf e'; cbn; [done|].
  destruct (f x) as [y|e1] eqn:Hx; cbn; [|intros [= <-]; eapply Hf; [by left|done]].
  destruct (map_result f l) as [ys|e2] eqn:Hl; cbn; [done|]. intros [= <-].
  apply IH; [|done]. intros z e3 Hz. apply Hf. by right.
Qed.

Lemma canonical_json_err v e : canonical_json v = Err e → e = not_compliant.
Proof.
  revert e. induction v as [|b|n|x|s|l IH|l IH|d IH] using pyval_nested_ind; intros e; cbn; try done.
  1: destruct (is_finite x); [done|]; by intros [= <-].
  3: rename d into l; set (f := λ kv : string * pyval, _).
  3: assert (∀ e, map_result f l = Err e → e = not_compliant) as Hm;
       [|destruct (map_result f l); cbn; [done|]; intros [= <-]; by apply Hm].
  3: apply map_result_err; intros kv e' Hin; unfold f;
       rewrite Forall_forall in IH; specialize (IH kv Hin);
       destruct (canonical_json kv.2); cbn; [done|]; intros [= <-]; by apply IH.
  all: assert (∀ e, map_result canonical_json l = Err e → e = not_compliant) as Hm
    by (apply map_result_err; intros y e' Hin; rewrite Forall_forall in IH; by apply IH).
  all: destruct (map_result canonical_json l); cbn; [done|]; intros [= <-]; by apply Hm.
Qed.

Lemma map_result_perm {A B} (f : A → result B) l l' e :
  (∀ x e', f x = Err e' → e' = e) → l ≡ₚ l' →
  (∃ ys ys', map_result f l = Ok ys ∧ map_result f l' = Ok ys' ∧ ys ≡ₚ ys') ∨
  (map_result f l = Err e ∧ map_result f l' = Err e).
Proof.
  intros Hf. induction 1 as [|x l l' _ IH|x y l|l1 l2 l3 _ IH1 _ IH2]; cbn.
  - left. by exists [], [].
  - destruct (f x) as [b|e'] eqn:Hx; cbn; [|right; by rewrite (Hf _ _ Hx)].
    destruct IH as [(ys & ys' & -> & -> & Hp)|[-> ->]]; cbn; [left|by right].
    exists (b :: ys), (b :: ys'). split_and!; [done..|by apply perm_skip].
  - destruct (f x) as [b|e'] eqn:Hx, (f y) as [c|e''] eqn:Hy; cbn;
      try (rewrite (Hf _ _ Hx)); try (rewrite (Hf _ _ Hy)); try (by right).
    destruct (map_result f l) as [ys|e'] eqn:Hl; cbn.
    + left. exists (c :: b :: ys), (b :: c :: ys). split_and!; [done..|]. apply perm_swap.
    + right. pose proof (map_result_err f l e) as He. rewrite (He ltac:(by intros ? ? _; apply Hf) _ Hl).
      done.
  - destruct IH1 as [(ys & ys' & H1 & H2 & Hp)|[H1 H2]], IH2 as [(zs & zs' & H3 & H4 & Hq)|[H3 H4]];
      rewrite H2 in H3; try discriminate H3; [left|by right].
    injection H3 as <-. exists ys, zs'. split_and!; [done..|by etrans].
Qed.

(** The order of the entries of a dict does not show in its text. *)
Lemma canonical_json_perm d e :
  dict_wf d → d ≡ₚ e → canonical_json (PDict d) = canonical_json (PDict e).
Proof.
  intros Hwf Hp. cbn [canonical_json]. set (f := λ kv : string * pyval, _).
  assert (∀ kv e', f kv = Err e' → e' = not_compliant) as Hf.
  { intros kv e'. unfold f. destruct (canonical_json kv.2) eqn:Hc; cbn; [done|]. intros [= <-].
    by eapply canonical_json_err. }
  destruct (map_result_perm f d e _ Hf Hp) as [(ys & ys' & Hd & -> & Hys)|[-> ->]]; [|done].
  rewrite Hd. cbn [mbind result_bind].
  rewrite (sort_by_perm_eq key_leb ys ys'); [done| | | |done].
  - intros x y z. apply str_leb_trans.
  - intros x y. apply str_leb_total.
  - assert (ys.*1 = d.*1) as Hkeys.
    { apply map_result_Ok in Hd. clear -Hd. induction Hd as [|kv y d ys Hy _ IH]; cbn; [done|].
      f_equal; [|done]. unfold f in Hy. destruct (canonical_json kv.2); [|done].
      by injection Hy as <-. }
    intros [k x] [k' x'] Hx Hx' H1 H2. unfold key_leb in *. cbn in *.
    assert (k = k') as <- by by apply str_leb_antisym.
    unfold dict_wf, dict_keys in Hwf. rewrite <- Hkeys in Hwf.
    by rewrite (NoDup_map_inj fst ys (k, x) (k, x')).
Qed.

(** ** The text determines the normal form *)

(** No escaped character is the start of another one, or a quote. *)
Lemma escape_char_prefix_free c d :
  String.prefix (escape_char c) (escape_char d) = true → c = d.
Proof.
  assert (forallb (λ c, forallb (λ d, negb (String.prefix (escape_char c) (escape_char d))
    || bool_decide (c = d)) all_chars) all_chars = true) as H by (vm_compute; reflexivity).
  rewrite forallb_forall in H. specialize (H c (elem_of_all_chars c)).
  rewrite forallb_forall in H. specialize (H d (elem_of_all_chars d)).
  intros Hp. rewrite Hp in H. by apply bool_decide_eq_true in H.
Qed.

Lemma escape_char_head c : head_is (λ d, bool_decide (d ≠ quote_char)) (escape_char c) = true.
Proof.
  assert (forallb (λ c, head_is (λ d, bool_decide (d ≠ quote_char)) (escape_char c))
    all_chars = true) as H by (vm_compute; reflexivity).
  rewrite forallb_forall in H. apply H, elem_of_all_chars.
Qed.

Lemma app_prefix a b x y :
  a +:+ x = b +:+ y → String.prefix a b = true ∨ String.prefix b a = true.
Proof.
  revert b. induction a as [|c a IH]; intros [|d b]; auto.
  rewrite !str_app_cons. intros [= -> Heq]. cbn.
  destruct (ascii_dec d d); [|done]. by apply IH.
Qed.

Lemma escape_char_unique c d x y :
  escape_char c +:+ x = escape_char d +:+ y → c = d ∧ x = y.
Proof.
  intros Heq. assert (c = d) as ->.
  { destruct (app_prefix _ _ _ _ Heq) as [H|H]; [|symmetry]; by apply escape_char_prefix_free. }
  split; [done|]. revert Heq. generalize (escape_char d). intros s.
  induction s as [|e s IH]; [done|]. rewrite !str_app_cons. intros [= Heq]. auto.
Qed.

Lemma escape_unique s t x y :
  escape s +:+ String quote_char x = escape t +:+ String quote_char y → s = t ∧ x = y.
Proof.
  revert t. induction s as [|c s IH]; intros [|d t]; cbn [escape]; rewrite ?str_app_assoc.
  - by intros [= ->].
  - intros Heq. pose proof (escape_char_head d) as Hd.
    destruct (escape_char d); [done|]. rewrite str_app_cons in Heq. by injection Heq as <- _.
  - intros Heq. pose proof (escape_char_head c) as Hc.
    destruct (escape_char c); [done|]. rewrite str_app_cons in Heq. by injection Heq as -> _.
  - intros [-> Heq]%escape_char_unique. by destruct (IH _ Heq) as [-> ->].
Qed.

Lemma json_string_unique s t x y :
  json_string s +:+ x = json_string t +:+ y → s = t ∧ x = y.
Proof.
  unfold json_string. rewrite !str_app_cons, !str_app_assoc. intros [= Heq].
  by apply escape_unique.
Qed.

(** Numbers. *)

Definition int_char (c : ascii) : bool := is_digit_ascii c || bool_decide (c = "-"%char).

Lemma z_str_chars n : str_forall int_char (z_str n) = true.
Proof.
  assert (∀ u, str_forall int_char (NilEmpty.string_of_uint u) = true) as Hu.
  { induction u; [done|..]; cbn -[str_forall]; by rewrite str_forall_String, IHu. }
  assert (∀ u, str_forall int_char (NilZero.string_of_uint u) = true) as Hz
    by (intros []; done || apply Hu).
  unfold z_str. destruct (Z.to_int n) as [u|u]; cbn -[str_forall].
  - apply Hz.
  - by rewrite str_forall_String, Hz.
Qed.

Lemma z_str_inj n m : z_str n = z_str m → n = m.
Proof.
  unfold z_str. intros H. apply (f_equal NilZero.int_of_string) in H.
  assert (∀ n, Z.to_int n ≠ Decimal.Pos Decimal.Nil ∧ Z.to_int n ≠ Decimal.Neg Decimal.Nil)
    as Hnil.
  { intros [|p|p]; cbn; split; try done; intros [= Hp];
      by eapply DecimalPos.Unsigned.to_uint_nonnil. }
  rewrite !NilZero.isi in H by apply Hnil.
  injection H as H. by apply DecimalZ.to_int_inj.
Qed.

(** A separated list of self-delimiting texts before a closing bracket. *)
Section join_unique.
Context {A : Type} (text : A → string) (ok : A → bool) (close : ascii).
Context (close_num : number_char close = false) (close_comma : close ≠ ","%char)
  (head_open : ∀ x r, ok x = true →
    head_is (λ c, bool_decide (c ≠ close)) (text x +:+ r) = true).

Definition unique_at (x : A) : Prop := ∀ y r1 r2,
  ok y = true → head_is number_char r1 = false → head_is number_char r2 = false →
  text x +:+ r1 = text y +:+ r2 → x = y ∧ r1 = r2.

Lemma tail_rest l r : head_is number_char (join_tail "," (map text l) +:+ String close r) = false.
Proof using close_num. destruct l; [exact close_num|done]. Qed.

Lemma join_tail_unique l m r1 r2 :
  Forall unique_at l → Forall (λ y, ok y = true) m →
  join_tail "," (map text l) +:+ String close r1
  = join_tail "," (map text m) +:+ String close r2 →
  l = m ∧ r1 = r2.
Proof using close_num close_comma.
  intros Hl Hm. revert l Hl. induction Hm as [|y m Hy Hm IH]; intros l Hl Heq.
  - destruct Hl as [|x l Hx Hl]; [by injection Heq as ->|].
    cbn [map join_tail foldr] in Heq. rewrite str_app_assoc in Heq.
    injection Heq as Heq _. by destruct close_comma.
  - destruct Hl as [|x l Hx Hl].
    { cbn [map join_tail foldr] in Heq. rewrite str_app_assoc in Heq.
      injection Heq as Heq _. by destruct close_comma. }
    cbn [map join_tail foldr] in Heq. fold (join_tail "," (map text l)) in Heq.
    fold (join_tail "," (map text m)) in Heq. rewrite !str_app_assoc in Heq.
    injection Heq as Heq. apply Hx in Heq as [-> Heq]; [|done|apply tail_rest..].
    by apply IH in Heq as [-> ->].
Qed.

Lemma join_unique l m r1 r2 :
  Forall unique_at l → Forall (λ x, ok x = true) l → Forall (λ y, ok y = true) m →
  join "," (map text l) +:+ String close r1
  = join "," (map text m) +:+ String close r2 →
  l = m ∧ r1 = r2.
Proof using close_num close_comma head_open.
  intros Hl Hok Hm. destruct Hl as [|x l Hx Hl], Hm as [|y m Hy Hm];
    cbn [map]; rewrite ?join_cons, ?str_app_assoc; intros Heq;
    repeat change (join "," [] +:+ ?r) with r in Heq.
  - by injection Heq as ->.
  - pose proof (head_open y (join_tail "," (map text m) +:+ String close r2) Hy) as Hh.
    rewrite <- Heq in Hh. cbn in Hh. by case_bool_decide.
  - inversion_clear Hok as [|?? Hx' _].
    pose proof (head_open x (join_tail "," (map text l) +:+ String close r1) Hx') as Hh.
    rewrite Heq in Hh. cbn in Hh. by case_bool_decide.
  - apply Hx in Heq as [-> Heq]; [|done|apply tail_rest..].
    by apply join_tail_unique in Heq as [-> ->].
Qed.
End join_unique.

(** The first character of a text tells the kind of the value. *)
Definition head_class (v : pyval) (c : ascii) : bool :=
  match v with
  | PNone => bool_decide (c = "n"%char)
  | PBool b => bool_decide (c = if b then "t"%char else "f"%char)
  | PInt _ | PFloat _ => number_char c
  | PStr _ => bool_decide (c = quote_char)
  | PList _ | PTuple _ => bool_decide (c = "["%char)
  | PDict _ => bool_decide (c = "{"%char)
  end.

Lemma z_str_number_chars n : str_forall number_char (z_str n) = true.
Proof.
  eapply str_forall_impl; [|apply z_str_chars]. intros c. unfold int_char, number_char.
  rewrite !orb_true_iff, !bool_decide_eq_true. set_solver.
Qed.

Lemma z_str_nonempty n : z_str n ≠ "".
Proof.
  unfold z_str. destruct (Z.to_int n) as [u|u]; [|done]. by destruct u.
Qed.

Lemma head_is_forall p s r : str_forall p s = true → s ≠ "" → head_is p (s +:+ r) = true.
Proof. destruct s; [done|]. rewrite str_forall_String, andb_true_iff. naive_solver. Qed.

Lemma float_ok_spec x :
  float_ok x = true →
  py_float (PStr (float_repr x)) = Ok x ∧
  str_forall number_char (float_repr x) = true ∧
  str_exists (λ c, bool_decide (c ∈ ["."; "e"]%char)) (float_repr x) = true.
Proof.
  unfold float_ok. rewrite !andb_true_iff, bool_decide_eq_true. tauto.
Qed.

Lemma print_head v r : json_ok v = true → head_is (head_class v) (print v +:+ r) = true.
Proof.
  destruct v as [|[]|n|x|s|l|l|d]; cbn [json_ok]; try done.
  - intros _. apply head_is_forall; [apply z_str_number_chars|apply z_str_nonempty].
  - intros (_ & Hn & He)%float_ok_spec. apply head_is_forall; [done|].
    cbn. by destruct (float_repr x).
Qed.

Lemma int_not_float n x : float_ok x = true → z_str n ≠ float_repr x.
Proof.
  intros (_ & _ & He)%float_ok_spec Heq. rewrite <- Heq in He. clear Heq.
  pose proof (z_str_chars n) as Hn. induction (z_str n) as [|c s IH]; [done|].
  rewrite str_forall_String, andb_true_iff in Hn. destruct Hn as [Hc Hs].
  cbn in He. apply orb_true_iff in He as [He|He]; [|auto].
  apply bool_decide_eq_true in He. unfold int_char in Hc. set_unfold.
  destruct He as [->|[->|[]]]; discriminate.
Qed.

Fixpoint no_tuple (v : pyval) : bool :=
  match v with
  | PTuple _ => false
  | PList l => forallb no_tuple l
  | PDict d => forallb (λ kv, no_tuple kv.2) d
  | _ => true
  end.

Definition printable_value (v : pyval) : bool := json_ok v && no_tuple v.

Lemma number_head_class v w c :
  head_class v c = true → head_class w c = true →
  match v, w with
  | PNone, PNone | PBool _, PBool _ | PStr _, PStr _ | PDict _, PDict _ => True
  | (PInt _ | PFloat _), (PInt _ | PFloat _) => True
  | (PList _ | PTuple _), (PList _ | PTuple _) => True
  | _, _ => False
  end.
Proof.
  destruct v as [|[]|n|x|s|l|l|d], w as [|[]|m|y|t|l'|l'|d']; cbn; try done;
    rewrite ?bool_decide_eq_true; intros; subst; try done.
Qed.

Definition entry_text (kv : string * pyval) : string :=
  json_string kv.1 +:+ ":" +:+ print kv.2.

Lemma print_open v r c :
  json_ok v = true → c ∈ ["]"; "}"]%char →
  head_is (λ d, bool_decide (d ≠ c)) (print v +:+ r) = true.
Proof.
  intros Hv Hc. pose proof (print_head v r Hv) as Hh.
  destruct (print v +:+ r) as [|d s]; [done|]. cbn in *.
  apply bool_decide_eq_true. intros ->. set_unfold.
  destruct Hc as [->|[->|[]]]; by destruct v as [|[]| | | | | |].
Qed.

Lemma print_int_unique n s r1 r2 :
  str_forall number_char s = true →
  head_is number_char r1 = false → head_is number_char r2 = false →
  z_str n +:+ r1 = s +:+ r2 → z_str n = s ∧ r1 = r2.
Proof. intros. apply (span_unique number_char); auto using z_str_number_chars. Qed.

Lemma forallb_and {A} (p q : A → bool) l :
  forallb p l && forallb q l = true ↔ Forall (λ x, p x && q x = true) l.
Proof.
  rewrite andb_true_iff, !forallb_forall, Forall_forall.
  setoid_rewrite list_elem_of_In. setoid_rewrite andb_true_iff. naive_solver.
Qed.

Lemma print_unique v :
  printable_value v = true → unique_at print printable_value v.
Proof.
  unfold unique_at, printable_value.
  induction v as [|b|n|x|s|l IH|l IH|d IH] using pyval_nested_ind;
    intros Hv w r1 r2 Hw Hr1 Hr2 Heq;
    apply andb_true_iff in Hv as [Hv Hvt], Hw as [Hw Hwt];
    pose proof (print_head _ r1 Hv) as Hh1; pose proof (print_head _ r2 Hw) as Hh2;
    rewrite Heq in Hh1; destruct (print w +:+ r2) as [|c s'] eqn:Hs; try done;
    pose proof (number_head_class _ _ _ Hh1 Hh2) as Hc; destruct w; try done;
    rewrite <- Hs in Heq; clear Hs Hc; cbn [print] in Heq.
  - split; [done|]. by injection Heq.
  - destruct b, b0; cbn in Hh1, Hh2; apply bool_decide_eq_true in Hh1, Hh2; subst;
      try done; (split; [done|by injection Heq]).
  - apply print_int_unique in Heq as [Heq ->]; [|apply z_str_number_chars|done..].
    by apply z_str_inj in Heq as ->.
  - apply print_int_unique in Heq as [Heq ->]; [|by apply float_ok_spec|done..].
    by apply int_not_float in Heq.
  - symmetry in Heq. apply print_int_unique in Heq as [Heq ->];
      [|by apply float_ok_spec|done..]. by apply int_not_float in Heq.
  - destruct (float_ok_spec x Hv) as (Hx1 & Hx2 & _), (float_ok_spec x0 Hw) as (Hy1 & Hy2 & _).
    apply (span_unique number_char) in Heq as [Heq ->]; try done.
    rewrite Heq, Hy1 in Hx1. by injection Hx1 as ->.
  - by apply json_string_unique in Heq as [-> ->].
  - rewrite !str_app_cons, !str_app_assoc in Heq. injection Heq as Heq.
    apply (join_unique print printable_value "]") in Heq as [-> ->]; try done.
    + intros y r [Hy _]%andb_true_iff. apply print_open; [done|set_solver].
    + assert (Forall (λ y, printable_value y = true) l) as Hl
        by (apply forallb_and; by rewrite andb_true_iff).
      rewrite Forall_forall in IH, Hl |- *. intros y Hy.
      exact (IH y Hy (Hl y Hy)).
    + apply forallb_and. by rewrite andb_true_iff.
    + apply forallb_and. by rewrite andb_true_iff.
  - rewrite !str_app_cons, !str_app_assoc in Heq. injection Heq as Heq.
    apply (join_unique entry_text (λ kv, printable_value kv.2) "}") in Heq as [-> ->];
      try done.
    + assert (Forall (λ kv, printable_value kv.2 = true) d) as Hd
        by (apply (forallb_and (λ kv, json_ok kv.2)); by rewrite andb_true_iff).
      rewrite Forall_forall in IH, Hd |- *. intros kv Hkv [k y] s1 s2 Hy Hs1 Hs2.
      unfold entry_text. cbn [fst snd]. rewrite !str_app_assoc.
      intros [Hk Hrest]%json_string_unique. rewrite !str_app_cons in Hrest.
      injection Hrest as Hrest. apply (IH kv Hkv (Hd kv Hkv)) in Hrest as [Hx ->]; try done.
      destruct kv; cbn in *. by subst.
    + apply (forallb_and (λ kv, json_ok kv.2)). by rewrite andb_true_iff.
    + apply (forallb_and (λ kv, json_ok kv.2)). by rewrite andb_true_iff.
Qed.

(** ** Normal forms are printable, and insensitive to the order of keys *)

Lemma json_ok_norm v : json_ok (norm v) = json_ok v.
Proof.
  induction v as [|b|n|x|s|l IH|l IH|d IH] using pyval_nested_ind; cbn [norm json_ok];
    try done.
  - induction IH as [|x l Hx Hl IHl]; cbn; [done|]. by rewrite Hx, IHl.
  - induction IH as [|x l Hx Hl IHl]; cbn; [done|]. by rewrite Hx, IHl.
  - rewrite (forallb_perm (λ kv, json_ok kv.2) _ _ (sort_by_perm _ _)).
    induction IH as [|x l Hx Hl IHl]; cbn; [done|]. by rewrite Hx, IHl.
Qed.

Lemma no_tuple_norm v : no_tuple (norm v) = true.
Proof.
  induction v as [|b|n|x|s|l IH|l IH|d IH] using pyval_nested_ind; cbn [norm no_tuple];
    try done.
  - induction IH as [|x l Hx Hl IHl]; cbn; [done|]. by rewrite Hx, IHl.
  - induction IH as [|x l Hx Hl IHl]; cbn; [done|]. by rewrite Hx, IHl.
  - rewrite (forallb_perm (λ kv, no_tuple kv.2) _ _ (sort_by_perm _ _)).
    induction IH as [|x l Hx Hl IHl]; cbn; [done|]. by rewrite Hx, IHl.
Qed.

Lemma printable_norm v : json_ok v = true → printable_value (norm v) = true.
Proof. intros Hv. unfold printable_value. by rewrite json_ok_norm, Hv, no_tuple_norm. Qed.

Lemma norm_dict_perm d e : dict_wf d → d ≡ₚ e → norm (PDict d) = norm (PDict e).
Proof.
  intros Hwf Hperm. cbn. f_equal. apply sort_by_perm_eq; unfold key_leb.
  - intros x y z. apply str_leb_trans.
  - intros x y. apply str_leb_total.
  - intros [k x] [k' y] Hx Hy H1 H2. cbn in *.
    assert (k = k') as <- by (by apply str_leb_antisym).
    apply list_elem_of_fmap in Hx as ([k1 x'] & [= <- ->] & Hx).
    apply list_elem_of_fmap in Hy as ([k1 y'] & [= <- ->] & Hy).
    apply dict_get_NoDup in Hx, Hy; [|done..]. congruence.
  - by apply Permutation_map.
Qed.

(** ** Redaction *)

(** A credential-like key somewhere inside, whose value is not redacted. *)
Fixpoint leaks (v : pyval) : bool :=
  match v with
  | PDict d =>
      existsb (λ kv, if is_sensitive kv.1 then negb (bool_decide (kv.2 = REDACTED))
                     else leaks kv.2) d
  | PList l | PTuple l => existsb leaks l
  | _ => false
  end.

Lemma redact_json_no_leak v : leaks (redact_json v) = false.
Proof.
  induction v as [|b|n|x|s|l IH|l IH|d IH] using pyval_nested_ind; try done.
  - cbn. induction IH as [|x l Hx Hl IHl]; cbn; [done|]. by rewrite Hx, IHl.
  - cbn. induction IH as [|x l Hx Hl IHl]; cbn; [done|]. by rewrite Hx, IHl.
  - cbn. induction IH as [|[k x] l Hx Hl IHl]; cbn; [done|]. rewrite IHl.
    destruct (is_sensitive k); cbn in *; [done|]. by rewrite Hx.
Qed.

Lemma redact_json_no_tuple v : no_tuple (redact_json v) = true.
Proof.
  induction v as [|b|n|x|s|l IH|l IH|d IH] using pyval_nested_ind; try done.
  - cbn. induction IH as [|x l Hx Hl IHl]; cbn; [done|]. by rewrite Hx, IHl.
  - cbn. induction IH as [|x l Hx Hl IHl]; cbn; [done|]. by rewrite Hx, IHl.
  - cbn. induction IH as [|[k x] l Hx Hl IHl]; cbn; [done|]. rewrite IHl.
    destruct (is_sensitive k); cbn in *; [done|]. by rewrite Hx.
Qed.

Lemma redact_json_id v : leaks v = false → no_tuple v = true → redact_json v = v.
Proof.
  induction v as [|b|n|x|s|l IH|l IH|d IH] using pyval_nested_ind; try done; cbn.
  - intros Hl Ht. f_equal. induction IH as [|x l Hx _ IHl]; cbn in *; [done|].
    apply orb_false_iff in Hl as [Hlx Hl]. apply andb_true_iff in Ht as [Htx Ht].
    by rewrite Hx, IHl.
  - intros Hl Ht. f_equal. induction IH as [|[k x] d Hx _ IHl]; cbn in *; [done|].
    apply orb_false_iff in Hl as [Hlx Hl]. apply andb_true_iff in Ht as [Htx Ht].
    rewrite IHl by done. destruct (is_sensitive k).
    + apply negb_false_iff, bool_decide_eq_true in Hlx as ->. done.
    + by rewrite Hx.
Qed.

Lemma float_eqb_refl x : x ≠ S754_nan → float_eqb x x = true.
Proof.
  intros Hx. unfold float_eqb, num_eqb. destruct x as [s|s| |s m e]; try done;
    cbn; [by destruct s|]. by rewrite Z.compare_refl.
Qed.

Lemma py_eqb_refl v : wf v → py_eqb true v v = true.
Proof.
  induction v as [|b|n|x|s|l IH|l IH|d IH] using pyval_nested_ind; intros Hwf.
  - done.
  - by destruct b.
  - unfold py_eqb, num_of, num_eqb, num_compare. by rewrite Z.compare_refl.
  - cbn. destruct x as [s|s| |s m e]; try done; [by destruct s|].
    by apply float_eqb_refl.
  - cbn. by rewrite bool_decide_true.
  - inversion_clear Hwf as [| | | | |? Hl| |]. cbn. apply list_eqb_refl.
    eapply Forall_impl; [by apply Forall_and; split; [exact IH|exact Hl]|].
    cbn. tauto.
  - inversion_clear Hwf as [| | | | | |? Hl|]. cbn. apply list_eqb_refl.
    eapply Forall_impl; [by apply Forall_and; split; [exact IH|exact Hl]|].
    cbn. tauto.
  - inversion_clear Hwf as [| | | | | | |? Hd Hl]. cbn. rewrite Nat.eqb_refl. cbn.
    apply forallb_forall. intros [k x] Hx%list_elem_of_In.
    rewrite Forall_forall in IH, Hl. cbn. rewrite (dict_get_NoDup k x d Hd Hx).
    by apply (IH _ Hx), (Hl _ Hx).
Qed.

(** A redacted copy that equals the value is the value: the comparison of
    [contains_sensitive_keys] only differs from [leaks] on tuples. *)
Lemma redact_py_eqb v :
  wf v → no_tuple v = true → py_eqb true (redact_json v) v = negb (leaks v).
Proof.
  induction v as [|b|n|x|s|l IH|l IH|d IH] using pyval_nested_ind; intros Hwf Ht;
    try (by apply py_eqb_refl); try done.
  - inversion_clear Hwf as [| | | | |? Hl| |]. cbn in *.
    induction IH as [|x l Hx _ IHl]; cbn in *; [done|]. inversion_clear Hl as [|?? Hwx Hwl].
    apply andb_true_iff in Ht as [Htx Ht]. by rewrite Hx, IHl, negb_orb.
  - inversion_clear Hwf as [| | | | | | |? Hd Hl]. cbn. rewrite length_map, Nat.eqb_refl.
    cbn. cbn in Ht. rewrite forallb_forall in Ht. rewrite Forall_forall in IH, Hl.
    assert (∀ kv, kv ∈ d → match dict_get kv.1 d with
      | Some w => py_eqb true (if is_sensitive kv.1 then REDACTED else redact_json kv.2) w
      | None => false end =
      negb (if is_sensitive kv.1 then negb (bool_decide (kv.2 = REDACTED)) else leaks kv.2))
      as Heq.
    { intros [k x] Hx. cbn. rewrite (dict_get_NoDup k x d Hd Hx).
      destruct (is_sensitive k).
      - rewrite negb_involutive. destruct x; cbn; try done.
        apply bool_decide_ext. unfold REDACTED. naive_solver.
      - apply (IH _ Hx); [by apply (Hl _ Hx)|]. apply Ht. by apply list_elem_of_In. }
    clear IH Ht Hl Hd. revert Heq. generalize d at 2 3. intros e Heq.
    induction d as [|kv d IHd]; cbn in *; [done|]. rewrite negb_orb, IHd.
    + f_equal. apply Heq. left.
    + intros kv' Hin. apply Heq. by right.
Qed.

(** ** Properties *)

(** Values with one canonical text have one normal form. *)
Lemma canonical_text_norm v w x :
  json_ok v = true → json_ok w = true →
  canonical_json v = Ok x → canonical_json w = Ok x → norm v = norm w.
Proof.
  intros Hv Hw. rewrite !canonical_json_print by done. intros [= <-] [= Heq].
  apply (print_unique (norm v) (printable_norm v Hv) (norm w) "" "");
    [by apply printable_norm|done|done|]. by rewrite Heq.
Qed.

(** C4: the canonical form of a value determines the value up to what JSON
    cannot express: two values whose floats are finite and read back from
    their text ([json_ok]) have the same canonical text (so the same hash input)
    exactly when they are equal after turning tuples into lists and sorting the
    keys of every dict. *)
Theorem canonical_json_injective v w :
  json_ok v = true → json_ok w = true →
  canonical_json v = canonical_json w ↔ norm v = norm w.
Proof.
  intros Hv Hw. split; [|rewrite !canonical_json_print by done; by intros ->].
  intros Heq. apply (canonical_text_norm v w (print (norm v))); [done..| |rewrite <- Heq];
    by apply canonical_json_print.
Qed.

(** The canonical texts of these two values differ and have one digest. *)
Definition json_clash `{Digest} (v w : pyval) : Prop :=
  ∃ x y, canonical_json v = Ok x ∧ canonical_json w = Ok y ∧ clash (utf8 x) (utf8 y).

(** Two values with the same digest have the same normal form, or their texts
    clash. *)
Lemma sha256_json_binds `{Digest} v w h :
  json_ok v = true → json_ok w = true →
  sha256_json v = Ok h → sha256_json w = Ok h →
  norm v = norm w ∨ json_clash v w.
Proof.
  intros Hv Hw. unfold sha256_json. rewrite !canonical_json_print by done. cbn.
  intros [= H1] [= H2].
  destruct (decide (print (norm v) = print (norm w))) as [Heq|Hne]; [left|right].
  - apply (print_unique (norm v) (printable_norm v Hv) (norm w) "" "");
      [by apply printable_norm|done|done|]. by rewrite Heq.
  - exists (print (norm v)), (print (norm w)). rewrite !canonical_json_print by done.
    split_and!; [done|done|]. split; [by intros ?%utf8_inj|congruence].
Qed.

(** The entries of a dict are determined by its normal form. *)
Lemma norm_dict_get d e k :
  dict_wf d → dict_wf e → norm (PDict d) = norm (PDict e) →
  norm <$> dict_get k d = norm <$> dict_get k e.
Proof.
  intros Hd He. cbn. intros [= Heq].
  assert (map (λ kv : string * pyval, (kv.1, norm kv.2)) d ≡ₚ
    map (λ kv, (kv.1, norm kv.2)) e) as Hp
    by (rewrite <- (sort_by_perm key_leb (map _ d)), Heq; apply sort_by_perm).
  assert (∀ (d : dict) k, norm <$> dict_get k d =
    dict_get k (map (λ kv, (kv.1, norm kv.2)) d)) as Hmap.
  { clear. intros d k. induction d as [|[k' x] d IH]; cbn; [done|]. by case_bool_decide. }
  rewrite !Hmap.
  assert (∀ (d : dict), dict_wf d → dict_wf (map (λ kv, (kv.1, norm kv.2)) d)) as Hwf.
  { clear. intros d. unfold dict_wf, dict_keys.
    assert ((map (λ kv : string * pyval, (kv.1, norm kv.2)) d).*1 = d.*1) as ->; [|done].
    induction d as [|[k x] d IH]; cbn; [done|]. by rewrite IH. }
  destruct (dict_get k (map _ d)) as [x|] eqn:Hx.
  - symmetry. apply dict_get_NoDup; [by apply Hwf|]. rewrite <- Hp. by apply dict_get_elem.
  - destruct (dict_get k (map _ e)) as [y|] eqn:Hy; [|done].
    apply dict_get_elem in Hy. rewrite <- Hp in Hy.
    apply dict_get_NoDup in Hy; [congruence|by apply Hwf].
Qed.

(** The order in which a dict was filled does not change its hash. *)
Theorem sha256_json_key_order `{Digest} d e :
  dict_wf d → d ≡ₚ e → json_ok (PDict d) = true →
  sha256_json (PDict d) = sha256_json (PDict e).
Proof.
  intros Hwf Hperm Hd. unfold sha256_json.
  assert (json_ok (PDict e) = true) as He
    by (cbn in *; by rewrite <- (forallb_perm _ _ _ Hperm)).
  rewrite !canonical_json_print by done. by rewrite (norm_dict_perm d e).
Qed.

(** Redaction leaves no credential-like key with its value, keeps a value
    that has none, and is idempotent. *)
Theorem redact_json_correct v :
  leaks (redact_json v) = false ∧
  redact_json (redact_json v) = redact_json v ∧
  (leaks v = false → no_tuple v = true → redact_json v = v).
Proof.
  split_and!; [apply redact_json_no_leak| |apply redact_json_id].
  apply redact_json_id; [apply redact_json_no_leak|apply redact_json_no_tuple].
Qed.

(** On JSON values the sensitivity test is exactly the presence of a
    credential-like key that is not redacted. *)
Theorem contains_sensitive_keys_exact v :
  wf v → no_tuple v = true → type_of v ≠ TFloat →
  contains_sensitive_keys v = leaks v.
Proof.
  intros Hwf Ht Hf. assert (contains_sensitive_keys v = negb (py_eqb true (redact_json v) v))
    as -> by by destruct v.
  by rewrite redact_py_eqb, negb_involutive.
Qed.

(** A tuple is always reported as sensitive, whatever it holds, because the
    redacted copy is a list. *)
Theorem contains_sensitive_keys_tuple l :
  contains_sensitive_keys (PTuple l) = true ∧
  (∀ k, contains_sensitive_keys (PDict [(k, PTuple l)]) = true).
Proof.
  split; [done|]. intros k. unfold contains_sensitive_keys. cbn.
  rewrite bool_decide_true by done. by destruct (is_sensitive k).
Qed.

(** *** Witnesses *)

Definition sample : dict := [("b", PFloat (lit 3000 (-1))); ("a", PTuple [PInt 1; PNone])].
Definition sample' : dict := [("a", PList [PInt 1; PNone]); ("b", PFloat (lit 300 0))].

Lemma canonical_json_injective_witness :
  canonical_json (PDict sample) = canonical_json (PDict sample').
Proof.
  apply (canonical_json_injective (PDict sample) (PDict sample'));
    vm_compute; reflexivity.
Defined.

Lemma sha256_json_key_order_witness :
  @sha256_json checksum_digest (PDict sample) = @sha256_json checksum_digest (PDict (reverse sample)).
Proof.
  apply (@sha256_json_key_order checksum_digest sample (reverse sample)).
  - unfold dict_wf. by vm_compute; repeat constructor; set_solver.
  - symmetry. apply reverse_Permutation.
  - vm_compute. reflexivity.
Defined.

Lemma contains_sensitive_keys_exact_witness :
  contains_sensitive_keys (PDict [("user", PDict [("api_key", PStr "x")])]) = true ∧
  contains_sensitive_keys (PDict [("token_count", PInt 3)]) = false.
Proof.
  split.
  - rewrite (contains_sensitive_keys_exact (PDict [("user", PDict [("api_key", PStr "x")])]));
      [reflexivity|repeat constructor; set_solver|reflexivity|discriminate].
  - rewrite (contains_sensitive_keys_exact (PDict [("token_count", PInt 3)]));
      [reflexivity|repeat constructor; set_solver|reflexivity|discriminate].
Defined.
