(* ===== verification/Identity.v ===== *)
(** * Identity values (services/identity_validation.py)

    The exact-value policy for tenant, run, worker and resource identifiers:
    accepted values are returned unchanged, nothing is normalised. *)
From S2P Require Import Prelude PyStr PyVal.

Definition DEFAULT_IDENTITY_MAX_LENGTH : Z := 160.

Definition control_char (c : ascii) : bool :=
  (code_point c <? 32) || (code_point c =? 127).

Definition require_canonical_identity (value : pyval) (field_name : string)
    (required : bool) (max_length : Z) : result string :=
  let error suffix := IdentityValidationError (field_name +:+ suffix) field_name in
  match value with
  | PNone | PStr EmptyString => if required then Err (error "_required") else Ok ""
  | PStr s =>
      raise_when (bool_decide (s ≠ strip s)) (error "_not_canonical") ;;
      raise_when (max_length <? str_len s) (error "_too_long") ;;
      raise_when (str_exists control_char s) (error "_not_canonical") ;;
      Ok s
  | _ => Err (error "_not_canonical")
  end.

(** Accepted identities. *)
Record canonical (max_length : Z) (s : string) : Prop := {
  can_nonempty : s ≠ "";
  can_strip : strip s = s;
  can_length : str_len s ≤ max_length;
  can_chars : str_exists control_char s = false;
}.

Lemma require_canonical_identity_ok max_length field_name s :
  canonical max_length s →
  require_canonical_identity (PStr s) field_name true max_length = Ok s.
Proof.
  intros [Hne Hstrip Hlen Hchars]. destruct s as [|c s]; [done|].
  cbn -[strip str_exists]. rewrite bool_decide_false by (intros Hc; apply Hc; by rewrite Hstrip).
  cbn -[str_exists]. rewrite (proj2 (Z.ltb_ge _ _)) by done. cbn -[str_exists].
  by rewrite Hchars.
Qed.

(** A required identity is accepted exactly when it is a canonical string,
    and then it is returned unchanged: no two distinct values are ever mapped
    to the same identity, and no other JSON type is coerced. *)
Theorem require_canonical_identity_exact value field_name max_length s :
  require_canonical_identity value field_name true max_length = Ok s ↔
  value = PStr s ∧ canonical max_length s.
Proof.
  split.
  - destruct value as [| | | |[|c t]| | |]; try done. cbn -[strip str_exists].
    intros H. result_inv. destruct a, a0, a1.
    apply bool_decide_eq_false, dec_stable in Hrun.
    apply Z.ltb_ge in Hrun0. subst s. by repeat split.
  - intros [-> Hs]. by apply require_canonical_identity_ok.
Qed.

(** Every failure names the field it is about. *)
Lemma require_canonical_identity_error value field_name required max_length e :
  require_canonical_identity value field_name required max_length = Err e →
  ∃ suffix, e = IdentityValidationError (field_name +:+ suffix) field_name ∧
    suffix ∈ ["_required"; "_not_canonical"; "_too_long"].
Proof.
  destruct value as [| | | |[|c s]| | |]; cbn -[strip str_exists]; unfold raise_when;
    repeat case_match; intros [= <-]; eexists; (split; [done|set_solver]).
Qed.

Example identity_examples :
  map (λ v, is_ok (require_canonical_identity v "tenant_id" true 160))
    [PStr "tenant-1"; PStr " tenant-1"; PNone; PInt 3; PStr (str1 "007"%char)]
  = [true; false; false; false; false].
Proof. vm_compute. reflexivity. Qed.
