(* ===== verification/Conditions.v ===== *)
(** * Routing conditions (workflow_runtime/condition_evaluator.py)

    The three-valued evaluator of the condition DSL, with its depth and node
    limits, and a big-step semantics without limits it is proved against. *)
From S2P Require Import Prelude PyStr PyVal.

(** ** Data *)

Record ConditionResult := { cr_value : option bool; cr_reason_code : string }.

#[global] Instance ConditionResult_eq_dec : EqDecision ConditionResult.
Proof. solve_decision. Defined.

Definition matches (r : ConditionResult) : bool := bool_decide (cr_value r = Some true).

Definition known (b : bool) (reason : string) : ConditionResult :=
  {| cr_value := Some b; cr_reason_code := reason |}.
Definition unknown (reason : string) : ConditionResult :=
  {| cr_value := None; cr_reason_code := reason |}.

Record DeclarativeConditionEvaluator := { _maximum_depth : Z; _maximum_nodes : Z }.

Definition new_evaluator (maximum_depth maximum_nodes : Z)
    : DeclarativeConditionEvaluator :=
  {| _maximum_depth := Z.max 1 (Z.min maximum_depth 64);
     _maximum_nodes := Z.max 1 (Z.min maximum_nodes 4096) |}.

(** ** Field paths *)

Definition is_alpha_ascii (c : ascii) : bool := is_upper_ascii c || is_lower_ascii c.

Definition segment_char (c : ascii) : bool :=
  is_alnum_ascii c || bool_decide (c ∈ ["_"; "-"]%char).

Definition segment_re (s : string) : bool :=
  match s with
  | EmptyString => false
  | String c s => is_alpha_ascii c && str_forall segment_char s
  end.

(** [_FIELD_PATH.fullmatch]: segments separated by single dots. *)
Definition _FIELD_PATH (s : string) : bool := forallb segment_re (split_on "."%char s).

Fixpoint resolve_segments (current : pyval) (segments : list string) : option pyval :=
  match segments with
  | [] => Some current
  | segment :: segments =>
      match current with
      | PDict d =>
          match dict_get segment d with
          | Some v => resolve_segments v segments
          | None => None
          end
      | _ => None
      end
  end.

(** [None] is the code's [_UNKNOWN]. *)
Definition _resolve (state : pyval) (field_name : string) : option pyval :=
  resolve_segments state (split_on "."%char field_name).

(** ** Evaluation *)

Definition depth_exceeded : ConditionResult := unknown "condition_depth_exceeded".
Definition node_limit_exceeded : ConditionResult := unknown "condition_node_limit_exceeded".

(** A result that only says a limit was hit. *)
Definition bounded_failure (r : ConditionResult) : bool :=
  bool_decide (cr_reason_code r ∈
    ["condition_depth_exceeded"; "condition_node_limit_exceeded"]).

Definition any_value (v : option bool) (results : list ConditionResult) : bool :=
  existsb (λ r, bool_decide (cr_value r = v)) results.

(** The combination of the children of [all] and [any]. *)
Definition combine (operator : string) (results : list ConditionResult) : ConditionResult :=
  match find bounded_failure results with
  | Some r => r
  | None =>
      if bool_decide (operator = "all") then
        if any_value (Some false) results then known false "condition_all_false"
        else if any_value None results then unknown "condition_all_unknown"
        else known true "condition_all_true"
      else
        if any_value (Some true) results then known true "condition_any_true"
        else if any_value None results then unknown "condition_any_unknown"
        else known false "condition_any_false"
  end.

Definition negate (result : ConditionResult) : ConditionResult :=
  match cr_value result with
  | None => if bounded_failure result then result else unknown "condition_not_unknown"
  | Some b => known (negb b) "condition_not_evaluated"
  end.

(** The operators on one field. *)
Definition evaluate_field (operator : string) (condition : dict) (state : pyval)
    : ConditionResult :=
  let field_name := strip (py_str (por (dget "field" condition) (PStr ""))) in
  if negb (_FIELD_PATH field_name) then unknown "condition_field_invalid"
  else
    let actual := _resolve state field_name in
    if bool_decide (operator = "exists")
    then known (bool_decide (is_Some actual)) "condition_exists_evaluated"
    else
      match actual with
      | None => unknown "condition_field_unknown"
      | Some actual =>
          match dict_get "value" condition with
          | None => unknown "condition_value_required"
          | Some expected =>
              if bool_decide (operator = "in") then
                match expected with
                | PList items =>
                    if existsb (λ item, negb (bool_decide (type_of item = type_of actual)))
                         items
                    then unknown "condition_type_mismatch"
                    else known (existsb (λ item, py_eqb false actual item) items)
                           "condition_in_evaluated"
                | _ => unknown "condition_in_collection_required"
                end
              else if negb (bool_decide (type_of actual = type_of expected))
              then unknown "condition_type_mismatch"
              else if bool_decide (operator = "eq")
              then known (py_eqb false actual expected) "condition_eq_evaluated"
              else known (negb (py_eqb false actual expected)) "condition_ne_evaluated"
          end
      end.

Definition operator_of (condition : dict) : string :=
  strip (py_str (por (dget "op" condition) (PStr ""))).

(** [[self._evaluate(child) for child in children]] with the shared counter. *)
Fixpoint evaluate_children (eval : pyval → Z → ConditionResult * Z)
    (children : list pyval) (remaining : Z) : list ConditionResult * Z :=
  match children with
  | [] => ([], remaining)
  | child :: children =>
      let '(r, remaining) := eval child remaining in
      let '(rs, remaining) := evaluate_children eval children remaining in
      (r :: rs, remaining)
  end.

(** [levels] is [maximum_depth + 1 - depth], so no level left is the code's
    [depth > maximum_depth]. *)
Fixpoint _evaluate (levels : nat) (state condition : pyval) (remaining : Z)
    : ConditionResult * Z :=
  match condition with
  | PDict d =>
      match levels with
      | O => (depth_exceeded, remaining)
      | S levels =>
          let remaining := remaining - 1 in
          if remaining <? 0 then (node_limit_exceeded, remaining)
          else
            let operator := operator_of d in
            if bool_decide (operator = "always") then (known true "condition_always", remaining)
            else if bool_decide (operator ∈ ["all"; "any"]) then
              match dict_get "conditions" d with
              | Some (PList (child :: children)) =>
                  let '(results, remaining) :=
                    evaluate_children (_evaluate levels state) (child :: children) remaining in
                  (combine operator results, remaining)
              | _ => (unknown "condition_children_required", remaining)
              end
            else if bool_decide (operator = "not") then
              match dict_get "condition" d with
              | Some (PDict child) =>
                  let '(result, remaining) :=
                    _evaluate levels state (PDict child) remaining in
                  (negate result, remaining)
              | _ => (unknown "condition_child_required", remaining)
              end
            else if bool_decide (operator ∈ ["eq"; "ne"; "in"; "exists"])
            then (evaluate_field operator d state, remaining)
            else (unknown "condition_operator_invalid", remaining)
      end
  | _ => (unknown "condition_mapping_required", remaining)
  end.

Definition evaluate (self : DeclarativeConditionEvaluator) (condition state : pyval)
    : ConditionResult :=
  (_evaluate (Z.to_nat (_maximum_depth self + 1)) state condition
     (_maximum_nodes self)).1.

(** ** Semantics without limits

    [evaluates state c r depth nodes]: the condition has the value [r], its
    evaluation nests [depth] operators and visits [nodes] of them. *)

(** A condition that is decided without evaluating another one. *)
Definition leaf (d : dict) (state : pyval) : option ConditionResult :=
  let operator := operator_of d in
  if bool_decide (operator = "always") then Some (known true "condition_always")
  else if bool_decide (operator ∈ ["all"; "any"]) then
    match dict_get "conditions" d with
    | Some (PList (_ :: _)) => None
    | _ => Some (unknown "condition_children_required")
    end
  else if bool_decide (operator = "not") then
    match dict_get "condition" d with
    | Some (PDict _) => None
    | _ => Some (unknown "condition_child_required")
    end
  else if bool_decide (operator ∈ ["eq"; "ne"; "in"; "exists"])
  then Some (evaluate_field operator d state)
  else Some (unknown "condition_operator_invalid").

Inductive evaluates (state : pyval) : pyval → ConditionResult → nat → Z → Prop :=
| ev_not_mapping c :
    type_of c ≠ TDict →
    evaluates state c (unknown "condition_mapping_required") 0 0
| ev_leaf d r :
    leaf d state = Some r → evaluates state (PDict d) r 1 1
| ev_children d children results depth nodes :
    operator_of d ∈ ["all"; "any"] →
    dict_get "conditions" d = Some (PList children) → children ≠ [] →
    evaluates_all state children results depth nodes →
    evaluates state (PDict d) (combine (operator_of d) results) (S depth) (1 + nodes)
| ev_not d child r depth nodes :
    operator_of d = "not" → dict_get "condition" d = Some (PDict child) →
    evaluates state (PDict child) r depth nodes →
    evaluates state (PDict d) (negate r) (S depth) (1 + nodes)
with evaluates_all (state : pyval) : list pyval → list ConditionResult → nat → Z → Prop :=
| ev_nil : evaluates_all state [] [] 0 0
| ev_cons c cs r rs depth depths nodes nodess :
    evaluates state c r depth nodes → evaluates_all state cs rs depths nodess →
    evaluates_all state (c :: cs) (r :: rs) (Nat.max depth depths) (nodes + nodess).

Scheme evaluates_mut := Minimality for evaluates Sort Prop
  with evaluates_all_mut := Minimality for evaluates_all Sort Prop.
Combined Scheme evaluates_ind_both from evaluates_mut, evaluates_all_mut.

(** ** Results of the semantics never report a limit *)

Lemma bounded_failure_known b s : s ∉ ["condition_depth_exceeded"; "condition_node_limit_exceeded"] →
  bounded_failure (known b s) = false.
Proof. intros. by apply bool_decide_eq_false. Qed.

Lemma evaluate_field_unbounded op d state : bounded_failure (evaluate_field op d state) = false.
Proof. unfold evaluate_field. repeat case_match; reflexivity. Qed.

Lemma leaf_unbounded d state r : leaf d state = Some r → bounded_failure r = false.
Proof.
  unfold leaf. repeat case_match; intros [= <-]; try reflexivity.
  apply evaluate_field_unbounded.
Qed.

Lemma find_bounded_None rs :
  Forall (λ r, bounded_failure r = false) rs → find bounded_failure rs = None.
Proof. induction 1 as [|r rs Hr Hrs IH]; cbn; [done|]. by rewrite Hr. Qed.

Lemma combine_unbounded op rs :
  bounded_failure (combine op rs) = false ↔ Forall (λ r, bounded_failure r = false) rs.
Proof.
  split.
  - unfold combine. destruct (find bounded_failure rs) as [r|] eqn:Hf.
    + apply find_some in Hf as [_ ->]. done.
    + intros _. apply Forall_forall. intros r Hr%list_elem_of_In.
      by apply (find_none _ _ Hf).
  - intros Hrs. unfold combine. rewrite find_bounded_None by done.
    repeat case_match; reflexivity.
Qed.

Lemma negate_unbounded r : bounded_failure (negate r) = false ↔ bounded_failure r = false ∨ cr_value r ≠ None.
Proof.
  unfold negate. destruct (cr_value r) as [b|] eqn:Hv.
  - split; [by right|done].
  - destruct (bounded_failure r) eqn:Hb; [rewrite Hb|].
    + naive_solver.
    + split; [by left|done].
Qed.

Lemma evaluates_unbounded state :
  (∀ c r depth nodes, evaluates state c r depth nodes →
     bounded_failure r = false ∧ 0 ≤ nodes) ∧
  (∀ cs rs depth nodes, evaluates_all state cs rs depth nodes →
     Forall (λ r, bounded_failure r = false) rs ∧ 0 ≤ nodes).
Proof.
  apply evaluates_ind_both.
  - done.
  - intros. split; [by eapply leaf_unbounded|done].
  - intros d children results depth nodes Hop Hc Hne Hall [IH ?]. split; [|lia].
    by apply combine_unbounded.
  - intros d child r depth nodes Hop Hc Hr [IH ?]. split; [|lia].
    apply negate_unbounded. by left.
  - by split.
  - intros c cs r rs depth depths nodes nodess _ [Hr ?] _ [Hrs ?]. split; [by constructor|lia].
Qed.

(** ** The evaluator against the semantics *)

(** The result is the one of the semantics, and the counter paid for it. *)
Definition answered (state : pyval) (levels : nat) (c : pyval) (remaining : Z)
    (out : ConditionResult * Z) : Prop :=
  ∃ depth nodes, evaluates state c out.1 depth nodes ∧ (depth ≤ levels)%nat ∧
    out.2 = remaining - nodes ∧ (nodes ≤ remaining ∨ nodes = 0).

(** The result says a limit was hit, and claims nothing else. *)
Definition gave_up (r : ConditionResult) : Prop :=
  bounded_failure r = true ∧ cr_value r = None.

Lemma leaf_None d state :
  leaf d state = None →
  (operator_of d ∈ ["all"; "any"] ∧ ∃ child children,
     dict_get "conditions" d = Some (PList (child :: children))) ∨
  (operator_of d = "not" ∧ ∃ child, dict_get "condition" d = Some (PDict child)).
Proof.
  unfold leaf. intros H.
  case_bool_decide; [done|]. case_bool_decide as Hop.
  { left. split; [done|]. repeat case_match; try done. eauto. }
  case_bool_decide as Hn; [|by case_bool_decide].
  right. split; [done|]. repeat case_match; try done. eauto.
Qed.

(** One step of [_evaluate], in terms of [leaf]. *)
Lemma evaluate_step levels state d remaining :
  remaining - 1 <? 0 = false →
  _evaluate (S levels) state (PDict d) remaining =
    match leaf d state with
    | Some r => (r, remaining - 1)
    | None =>
        if bool_decide (operator_of d ∈ ["all"; "any"]) then
          match dict_get "conditions" d with
          | Some (PList children) =>
              let '(results, remaining) :=
                evaluate_children (_evaluate levels state) children (remaining - 1) in
              (combine (operator_of d) results, remaining)
          | _ => (node_limit_exceeded, remaining)
          end
        else match dict_get "condition" d with
             | Some child =>
                 let '(result, remaining) := _evaluate levels state child (remaining - 1) in
                 (negate result, remaining)
             | None => (node_limit_exceeded, remaining)
             end
    end.
Proof.
  intros Hr. cbn [_evaluate]. rewrite Hr. unfold leaf.
  case_bool_decide; [done|]. case_bool_decide; [by repeat case_match|].
  case_bool_decide; [by repeat case_match|]. by case_bool_decide.
Qed.

Section soundness.
Context (state : pyval) (levels : nat).
Context (IH : ∀ c remaining, gave_up (_evaluate levels state c remaining).1 ∨
    answered state levels c remaining (_evaluate levels state c remaining)).

Lemma children_cases cs remaining :
  let out := evaluate_children (_evaluate levels state) cs remaining in
  (∃ r, find bounded_failure out.1 = Some r ∧ gave_up r) ∨
  (∃ depth nodes, evaluates_all state cs out.1 depth nodes ∧ (depth ≤ levels)%nat ∧
    out.2 = remaining - nodes ∧ (nodes ≤ remaining ∨ nodes = 0)).
Proof using IH.
  revert remaining. induction cs as [|c cs IHcs]; intros remaining; cbn.
  { right. exists 0%nat, 0. split_and!; [constructor|lia..]. }
  specialize (IH c remaining). destruct (_evaluate levels state c remaining) as [r rem] eqn:Hr.
  specialize (IHcs rem).
  destruct (evaluate_children (_evaluate levels state) cs rem) as [rs rem'] eqn:Hrs.
  unfold answered in IH. cbn in *. destruct IH as [Hg|(d1 & n1 & He1 & Hd1 & -> & Hn1)].
  - left. exists r. by rewrite (proj1 Hg).
  - pose proof (proj1 (evaluates_unbounded state) _ _ _ _ He1) as [Hb1 ?]. cbn in *.
    rewrite Hb1. destruct IHcs as [Hg|(d2 & n2 & He2 & Hd2 & -> & Hn2)]; [by left|right].
    pose proof (proj2 (evaluates_unbounded state) _ _ _ _ He2) as [_ ?].
    exists (Nat.max d1 d2), (n1 + n2). split_and!; [by constructor|lia..].
Qed.
End soundness.

Lemma evaluate_cases levels state c remaining :
  gave_up (_evaluate levels state c remaining).1 ∨
  answered state levels c remaining (_evaluate levels state c remaining).
Proof.
  assert (∀ lv c rem, type_of c ≠ TDict → answered state lv c rem (_evaluate lv state c rem))
    as Hnd.
  { intros lv c' rem Hc. exists 0%nat, 0. destruct lv, c'; try done;
      (split_and!; [by constructor|lia|cbn; lia|by right]). }
  revert c remaining. induction levels as [|levels IH]; intros c remaining;
    (destruct (decide (type_of c = TDict)) as [Hc|Hc]; [|right; by apply Hnd]);
    destruct c; try done; [by left|].
  destruct (remaining - 1 <? 0) eqn:Hrem; [left; cbn; by rewrite Hrem|].
  rewrite evaluate_step by done. apply Z.ltb_ge in Hrem.
  destruct (leaf d state) as [r|] eqn:Hl.
  { right. exists 1%nat, 1. split_and!; [by constructor|lia|done|left; lia]. }
  apply leaf_None in Hl as [(Hop & x & xs & Hx)|(Hop & x & Hx)].
  - rewrite bool_decide_true, Hx by done.
    pose proof (children_cases state levels IH (x :: xs) (remaining - 1)) as Hcs.
    destruct (evaluate_children _ _ _) as [rs rem] eqn:Hrs. cbn zeta in Hcs. cbn [fst snd] in *.
    destruct Hcs as [(r & Hf & Hg)|(dp & n & He & Hd & -> & Hn)].
    + left. unfold combine. by rewrite Hf.
    + right. pose proof (proj2 (evaluates_unbounded state) _ _ _ _ He) as [_ ?].
      exists (S dp), (1 + n). cbn. split_and!; [by econstructor|lia..].
  - rewrite bool_decide_false by (rewrite Hop; set_solver). rewrite Hx.
    specialize (IH (PDict x) (remaining - 1)).
    destruct (_evaluate levels state (PDict x) (remaining - 1)) as [r rem].
    cbn [fst snd] in *. destruct IH as [[Hg1 Hg2]|(dp & n & He & Hd & Hn1 & Hn)].
    + left. unfold negate. rewrite Hg2, Hg1. by split.
    + right. pose proof (proj1 (evaluates_unbounded state) _ _ _ _ He) as [_ ?]. cbn in *.
      exists (S dp), (1 + n). cbn. split_and!; [by econstructor|lia..].
Qed.

Lemma evaluates_complete state :
  (∀ c r depth nodes, evaluates state c r depth nodes → ∀ levels remaining,
     (depth ≤ levels)%nat → nodes ≤ remaining →
     _evaluate levels state c remaining = (r, remaining - nodes)) ∧
  (∀ cs rs depth nodes, evaluates_all state cs rs depth nodes → ∀ levels remaining,
     (depth ≤ levels)%nat → nodes ≤ remaining →
     evaluate_children (_evaluate levels state) cs remaining = (rs, remaining - nodes)).
Proof.
  assert (∀ lv rem, 1 ≤ rem → (1 ≤ lv)%nat → ∃ l, lv = S l ∧ rem - 1 <? 0 = false) as Hpos.
  { intros [|l] rem H1 H2; [lia|]. exists l. split; [done|]. apply Z.ltb_ge. lia. }
  apply evaluates_ind_both.
  - intros c Hc levels remaining _ _. rewrite Z.sub_0_r. by destruct levels, c.
  - intros d r Hl levels remaining Hlv Hrem.
    destruct (Hpos levels remaining) as (l & -> & Hr); [lia..|].
    by rewrite evaluate_step, Hl.
  - intros d cs rs depth nodes Hop Hcs Hne Hall IH levels remaining Hlv Hrem.
    pose proof (proj2 (evaluates_unbounded state) _ _ _ _ Hall) as [_ ?].
    destruct (Hpos levels remaining) as (l & -> & Hr); [lia..|].
    rewrite evaluate_step by done. destruct (leaf d state) eqn:Hl.
    { exfalso. unfold leaf in Hl. rewrite Hcs in Hl. destruct cs; [done|].
      rewrite bool_decide_false in Hl by (intros Heq; rewrite Heq in Hop; set_solver).
      by rewrite bool_decide_true in Hl. }
    rewrite bool_decide_true, Hcs by done. rewrite IH by lia. f_equal. lia.
  - intros d child r depth nodes Hop Hc He IH levels remaining Hlv Hrem.
    pose proof (proj1 (evaluates_unbounded state) _ _ _ _ He) as [_ ?].
    destruct (Hpos levels remaining) as (l & -> & Hr); [lia..|].
    rewrite evaluate_step by done.
    assert (leaf d state = None) as ->.
    { unfold leaf. rewrite Hop, Hc. reflexivity. }
    rewrite bool_decide_false by (rewrite Hop; set_solver). rewrite Hc.
    rewrite IH by lia. f_equal. lia.
  - intros levels remaining _ _. cbn. by rewrite Z.sub_0_r.
  - intros c cs r rs depth depths nodes nodess Hc IHc Hcs IHcs levels remaining Hlv Hrem.
    pose proof (proj1 (evaluates_unbounded state) _ _ _ _ Hc) as [_ ?].
    pose proof (proj2 (evaluates_unbounded state) _ _ _ _ Hcs) as [_ ?].
    cbn. rewrite IHc by lia. rewrite IHcs by lia. f_equal. lia.
Qed.

(** Every condition has a value in the semantics. *)
Fixpoint val_size (v : pyval) : nat :=
  match v with
  | PList l | PTuple l => S (list_sum (map val_size l))
  | PDict d => S (list_sum (map (λ kv, val_size kv.2) d))
  | _ => 1
  end.

Lemma list_sum_elem {A} (f : A → nat) x l : x ∈ l → (f x ≤ list_sum (map f l))%nat.
Proof.
  induction l as [|y l IH]; [by intros ?%elem_of_nil|].
  rewrite elem_of_cons. simpl. intros [->|Hx]; [lia|]. specialize (IH Hx). lia.
Qed.

Lemma evaluates_total state c : ∃ r depth nodes, evaluates state c r depth nodes.
Proof.
  remember (val_size c) as n eqn:Hn. revert c Hn.
  induction (lt_wf n) as [n _ IH]. intros c ->.
  destruct (decide (type_of c = TDict)) as [Hc|Hc];
    [|do 3 eexists; by apply ev_not_mapping].
  destruct c as [| | | | | | |d]; try done.
  destruct (leaf d state) as [r|] eqn:Hl; [do 3 eexists; by apply ev_leaf|].
  apply leaf_None in Hl as [(Hop & x & xs & Hx)|(Hop & x & Hx)];
    pose proof (list_sum_elem (λ kv : string * pyval, val_size kv.2) _ _ (dict_get_elem _ _ _ Hx))
      as Hsz; cbn in Hsz.
  - assert (Forall (λ c, (val_size c < val_size (PDict d))%nat) (x :: xs)) as Hcs.
    { apply Forall_forall. intros y Hy.
      pose proof (list_sum_elem val_size y (x :: xs) Hy). cbn in *. lia. }
    assert (∃ rs depth nodes, evaluates_all state (x :: xs) rs depth nodes)
      as (rs & dp & ns & Hall).
    { clear Hx Hsz. induction Hcs as [|y ys Hy _ (rs & dp & ns & Hall)];
        [do 3 eexists; constructor|].
      destruct (IH _ Hy y eq_refl) as (r & dp' & ns' & Hr). do 3 eexists. by constructor. }
    do 3 eexists. by eapply ev_children.
  - destruct (IH (val_size (PDict x)) ltac:(cbn; lia) (PDict x) eq_refl) as (r & dp & ns & Hr).
    do 3 eexists. by eapply ev_not.
Qed.

(** The evaluator answers exactly when a condition fits its limits: every
    condition has a unique value in the unlimited three-valued semantics; when
    that evaluation nests at most [maximum_depth + 1] operators and visits at
    most [maximum_nodes] of them, the evaluator returns that value. *)
Theorem evaluate_within_limits self condition state r depth nodes :
  evaluates state condition r depth nodes →
  Z.of_nat depth ≤ _maximum_depth self + 1 → nodes ≤ _maximum_nodes self →
  evaluate self condition state = r.
Proof.
  intros He Hd Hn. unfold evaluate.
  by rewrite (proj1 (evaluates_complete state) _ _ _ _ He) by lia.
Qed.

(** C29: a limit never changes an answer: whatever the limits, the evaluator
    either returns the value of the unlimited semantics or says, with an unknown
    value that [matches] rejects, that a limit was hit. *)
Theorem evaluate_sound self condition state :
  let r := evaluate self condition state in
  (∃ depth nodes, evaluates state condition r depth nodes) ∨
  (r.(cr_value) = None ∧ bounded_failure r = true ∧ matches r = false).
Proof.
  cbn zeta. unfold evaluate.
  destruct (evaluate_cases (Z.to_nat (_maximum_depth self + 1)) state condition
    (_maximum_nodes self)) as [[Hb Hv]|(dp & ns & He & _)]; [right|left; by eauto].
  split_and!; [done..|]. unfold matches. by rewrite Hv.
Qed.

(** The semantics is a function. *)
Lemma evaluates_deterministic state c r1 r2 d1 d2 n1 n2 :
  evaluates state c r1 d1 n1 → evaluates state c r2 d2 n2 → r1 = r2.
Proof.
  intros H1 H2.
  pose proof (proj1 (evaluates_complete state) _ _ _ _ H1 (Nat.max d1 d2) (Z.max n1 n2)
    ltac:(lia) ltac:(lia)) as E1.
  rewrite (proj1 (evaluates_complete state) _ _ _ _ H2) in E1 by lia. by injection E1.
Qed.

(** *** Witness *)

Definition sample_state : pyval := PDict [("a", PDict [("b", PInt 3)]); ("ok", PBool true)].
Definition sample_condition : dict :=
  [("op", PStr "all"); ("conditions", PList [
    PDict [("op", PStr "eq"); ("field", PStr "a.b"); ("value", PInt 3)];
    PDict [("op", PStr "not"); ("condition",
      PDict [("op", PStr "in"); ("field", PStr "ok"); ("value", PList [PBool false])])]])].

Lemma evaluate_within_limits_witness :
  evaluate (new_evaluator 16 256) (PDict sample_condition) sample_state =
    known true "condition_all_true".
Proof.
  assert (evaluates sample_state (PDict sample_condition)
    (known true "condition_all_true") 3 4) as He.
  { refine (ev_children sample_state sample_condition _
      [known true "condition_eq_evaluated"; negate (known false "condition_in_evaluated")]
      2 3 _ eq_refl _ _); [left|discriminate|].
    apply (ev_cons _ _ _ _ _ 1 2 1 2); [by apply ev_leaf|].
    apply (ev_cons _ _ _ _ _ 2 0 2 0); [|constructor].
    apply (ev_not sample_state _ [("op", PStr "in"); ("field", PStr "ok");
      ("value", PList [PBool false])] (known false "condition_in_evaluated") 1 1);
      [reflexivity..|]. by apply ev_leaf. }
  apply (evaluate_within_limits (new_evaluator 16 256) (PDict sample_condition) sample_state
    (known true "condition_all_true") 3 4); [exact He|cbn; lia|cbn; lia].
Defined.
