(* ===== verification/SchemaEvolution.v ===== *)
(** * Schema migration (workflow_runtime/schema_evolution.py, compatibility.py)

    The registry of one-step upcasters, the migration loop with its checks, the
    quarantine, and the default v0 to v1 upcasters.  An upcaster is arbitrary
    injected code: it may answer differently on each call and mutate the copy it
    is given, so it is a function of the number of the call that returns the
    mutated input with its result. *)
From S2P Require Import Prelude PyStr PyVal Digest Serialization.

(** ** Data *)

Definition Upcaster : Type := Z → dict → dict * result pyval.

Record _RegisteredUpcaster := {
  ru_contract_type : string;
  ru_source_schema : string;
  ru_target_schema : string;
  ru_function : Upcaster;
}.

Record QuarantinedContract := {
  qc_contract_type : string;
  qc_source_schema : string;
  qc_target_schema : string;
  qc_reason : string;
  qc_payload_hash : string;
  qc_payload : pyval;
}.

Definition UpcasterRegistry : Type := gmap (string * string) _RegisteredUpcaster.

(** ** Registration *)

Definition register (contract_type source_schema target_schema : string)
    (upcaster : Upcaster) : action UpcasterRegistry unit :=
  lift (raise_when
    (negb (str_true contract_type && str_true source_schema && str_true target_schema))
    (ValueError "upcaster_schema_required")) ;;
  lift (raise_when (bool_decide (source_schema = target_schema))
    (ValueError "upcaster_self_transition_denied")) ;;
  s ← get;
  lift (raise_when (bool_decide (is_Some (s !! (contract_type, source_schema))))
    (ValueError "upcaster_already_registered")) ;;
  put (<[(contract_type, source_schema) :=
    {| ru_contract_type := contract_type; ru_source_schema := source_schema;
       ru_target_schema := target_schema; ru_function := upcaster |}]> s).

(** ** Migration *)

Definition same_text (a b : result string) : bool := bool_decide (a = b).

(** One registered step: two calls on independent copies, compared. *)
Definition upcast_step (registration : _RegisteredUpcaster) (calls : Z) (current : dict)
    : result dict :=
  before ← canonical_json (PDict current);
  let '(first_input, first) := ru_function registration calls current in
  first ← first;
  let '(second_input, second) := ru_function registration (calls + 1) current in
  second ← second;
  first_text ← canonical_json (PDict first_input);
  changed ← (if bool_decide (first_text ≠ before) then Ok true
             else second_text ← canonical_json (PDict second_input);
                  Ok (bool_decide (second_text ≠ before)));
  raise_when changed (UnsupportedSchemaVersion "upcaster_mutated_input") ;;
  match first, second with
  | PDict first, PDict second =>
      a ← canonical_json (PDict first);
      b ← canonical_json (PDict second);
      raise_when (bool_decide (a ≠ b))
        (UnsupportedSchemaVersion "upcaster_non_deterministic") ;;
      raise_when (bool_decide
          (str_or_default (dget "schema" first) "" ≠ ru_target_schema registration))
        (UnsupportedSchemaVersion "upcaster_target_schema_mismatch") ;;
      Ok first
  | _, _ => Err (UnsupportedSchemaVersion "upcaster_result_mapping_required")
  end.

(** The [while] loop of [upcast]; [None] when the fuel runs out. *)
Fixpoint upcast_loop (fuel : nat) (registry : UpcasterRegistry)
    (contract_type target_schema : string) (visited : gset string) (calls : Z)
    (source_schema : string) (current : dict) : option (result dict) :=
  match fuel with
  | O => None
  | S fuel =>
      if bool_decide (source_schema = target_schema) then Some (Ok current)
      else if bool_decide (source_schema ∈ visited)
      then Some (Err (UnsupportedSchemaVersion "upcaster_cycle"))
      else
        match registry !! (contract_type, source_schema) with
        | None => Some (Err (UnsupportedSchemaVersion
            ("upcaster_missing:" +:+ contract_type +:+ ":" +:+ source_schema +:+ ":"
             +:+ target_schema)))
        | Some registration =>
            match upcast_step registration calls current with
            | Err e => Some (Err e)
            | Ok next =>
                upcast_loop fuel registry contract_type target_schema
                  ({[source_schema]} ∪ visited) (calls + 2)
                  (ru_target_schema registration) next
            end
        end
  end.

(** Enough for every registered step, the target and one more turn. *)
Definition loop_fuel (registry : UpcasterRegistry) : nat := 2 + size registry.

Definition out_of_fuel : exn := UnsupportedSchemaVersion "".

Definition upcast (registry : UpcasterRegistry) (payload : dict)
    (contract_type target_schema : string) : result dict :=
  let source_schema := str_or_default (dget "schema" payload) "" in
  raise_when (negb (str_true source_schema))
    (UnsupportedSchemaVersion "source_schema_missing") ;;
  default (Err out_of_fuel)
    (upcast_loop (loop_fuel registry) registry contract_type target_schema ∅ 0
       source_schema payload).

Section with_digest.
Context `{Digest}.

Definition quarantine (payload : dict) (contract_type target reason : string)
  : result QuarantinedContract :=
  payload_hash ← sha256_json (PDict payload);
  Ok {| qc_contract_type := contract_type;
    qc_source_schema := str_or_default (dget "schema" payload) "unknown";
    qc_target_schema := target;
    qc_reason := reason;
    qc_payload_hash := payload_hash;
    qc_payload := redact_json (PDict payload) |}.

Definition upcast_or_quarantine (registry : UpcasterRegistry) (payload : dict)
  (contract_type target_schema : string) : result (dict + QuarantinedContract) :=
  match upcast registry payload contract_type target_schema with
  | Ok d => Ok (inl d)
  | Err e =>
      if is_value_or_type_error e || match e with UnsupportedSchemaVersion _ => true | _ => false end
      then q ← quarantine payload contract_type target_schema (exn_message e); Ok (inr q)
      else Err e
  end.
End with_digest.

Fixpoint migration_loop (fuel : nat) (registry : UpcasterRegistry)
    (contract_type target_schema : string) (visited : gset string) (last : string)
    : option (result (list string)) :=
  match fuel with
  | O => None
  | S fuel =>
      if bool_decide (last = target_schema) then Some (Ok [])
      else if bool_decide (last ∈ visited)
      then Some (Err (UnsupportedSchemaVersion "upcaster_cycle"))
      else
        match registry !! (contract_type, last) with
        | None => Some (Err (UnsupportedSchemaVersion "upcaster_path_missing"))
        | Some registration =>
            let next := ru_target_schema registration in
            match migration_loop fuel registry contract_type target_schema
                    ({[last]} ∪ visited) next with
            | Some (Ok path) => Some (Ok (next :: path))
            | other => other
            end
        end
  end.

Definition migration_path (registry : UpcasterRegistry)
    (contract_type source_schema target_schema : string) : result (list string) :=
  path ← default (Err out_of_fuel)
    (migration_loop (loop_fuel registry) registry contract_type target_schema ∅
       source_schema);
  Ok (source_schema :: path).

(** ** The default upcasters *)

Definition RUNTIME_CONTRACT_TARGETS (contract_type : string) : option string :=
  if bool_decide (contract_type = "plan") then Some "ananta.execution_plan.v1"
  else if bool_decide (contract_type = "state") then Some "ananta.workflow_state.v1"
  else if bool_decide (contract_type = "checkpoint") then Some "ananta.workflow_checkpoint.v1"
  else if bool_decide (contract_type = "event") then Some "ananta.workflow_event.v1"
  else if bool_decide (contract_type = "authorization")
  then Some "ananta.runtime_authorization.v1"
  else None.

(** [list(raw.get(k) or [])] and [dict(raw.get(k) or {})] *)
Definition list_of (raw : dict) (k : string) : result pyval :=
  py_list (por (dget k raw) (PList [])).
Definition dict_of (raw : dict) (k : string) : result pyval :=
  d ← py_dict (por (dget k raw) (PDict [])); Ok (PDict d).

Definition _upcast_plan_v0 (raw : dict) : result pyval :=
  capabilities ← list_of raw "capabilities";
  gates ← list_of raw "gates";
  artifacts ← py_list (por (por (dget "artifacts" raw) (dget "artifact_contracts" raw))
                         (PList []));
  Ok (PDict (dict_del "artifact_contracts" (dict_del "plan_hash"
    (dict_update raw
       [("schema", PStr "ananta.execution_plan.v1"); ("capabilities", capabilities);
        ("gates", gates); ("artifacts", artifacts)])))).

Definition _upcast_state_v0 (raw : dict) : result pyval :=
  business_data ← dict_of raw "business_data";
  runtime_metadata ← dict_of raw "runtime_metadata";
  secret_refs ← list_of raw "secret_refs";
  artifact_refs ← list_of raw "artifact_refs";
  open_gates ← list_of raw "open_gates";
  Ok (PDict (dict_update raw
    [("schema", PStr "ananta.workflow_state.v1"); ("business_data", business_data);
     ("runtime_metadata", runtime_metadata); ("secret_refs", secret_refs);
     ("artifact_refs", artifact_refs); ("open_gates", open_gates)])).

Definition _upcast_checkpoint_v0 (raw : dict) : result pyval :=
  state ← py_dict (por (dget "state" raw) (PDict []));
  state ← (if py_eqb false (dget "schema" state) (PStr "ananta.workflow_state.v0")
           then _upcast_state_v0 state else Ok (PDict state));
  Ok (PDict (dict_update raw
    [("schema", PStr "ananta.workflow_checkpoint.v1"); ("state", state)])).

Definition _upcast_event_v0 (raw : dict) : result pyval :=
  attempt ← py_int (por (dget "attempt" raw) (PInt 0));
  payload ← dict_of raw "payload";
  Ok (PDict (dict_update raw
    [("schema", PStr "ananta.workflow_event.v1");
     ("step_id", PStr (str_or_default (dget "step_id" raw) ""));
     ("attempt", PInt attempt);
     ("actor", PStr (str_or_default (dget "actor" raw) "system"));
     ("dedupe_key", PStr (py_str (por (por (dget "dedupe_key" raw) (dget "event_id" raw))
                                    (PStr ""))));
     ("payload", payload)])).

Definition _upcast_authorization_v0 (raw : dict) : result pyval :=
  allowed_tools ← list_of raw "allowed_tools";
  allowed_artifacts ← list_of raw "allowed_artifacts";
  budgets ← dict_of raw "budgets";
  Ok (PDict (dict_update raw
    [("schema", PStr "ananta.runtime_authorization.v1"); ("allowed_tools", allowed_tools);
     ("allowed_artifacts", allowed_artifacts); ("budgets", budgets)])).

(** A Python function that does not mutate its argument. *)
Definition pure (f : dict → result pyval) : Upcaster := λ _ d, (d, f d).

Definition build_default_runtime_upcaster_registry : UpcasterRegistry :=
  let add t src dst f s :=
    (register t src dst (pure f) s).2 in
  add "authorization" "ananta.runtime_authorization.v0" "ananta.runtime_authorization.v1"
    _upcast_authorization_v0
  (add "event" "ananta.workflow_event.v0" "ananta.workflow_event.v1" _upcast_event_v0
  (add "checkpoint" "ananta.workflow_checkpoint.v0" "ananta.workflow_checkpoint.v1"
    _upcast_checkpoint_v0
  (add "state" "ananta.workflow_state.v0" "ananta.workflow_state.v1" _upcast_state_v0
  (add "plan" "ananta.execution_plan.v0" "ananta.execution_plan.v1" _upcast_plan_v0
    ∅))))%string.

Section with_digest.
Context `{Digest}.

Definition upcast_runtime_contract_for_loading (raw : dict) (contract_type : string)
  : result dict :=
  match RUNTIME_CONTRACT_TARGETS contract_type with
  | None => Err (UnsupportedSchemaVersion "runtime_contract_type_unknown")
  | Some target =>
      let source := str_or_default (dget "schema" raw) "" in
      if negb (str_true source) || bool_decide (source = target) then Ok raw
      else
      migrated ← upcast_or_quarantine build_default_runtime_upcaster_registry raw
      contract_type target;
      match migrated with
    | inl d => Ok d
    | inr q => Err (UnsupportedSchemaVersion
        ("runtime_contract_quarantined:" +:+ qc_contract_type q +:+ ":"
          +:+ qc_source_schema q +:+ ":" +:+ qc_payload_hash q +:+ ":"
          +:+ qc_reason q))
    end
  end.

(** [RuntimeContractMigrationService.migrate] with an injected validator, which
    returns or raises; [exception_name] is [type(exc).__name__]. *)
Definition migrate (exception_name : exn → string) (registry : UpcasterRegistry)
  (payload : dict) (contract_type : string) (validator : dict → result unit)
  : result (dict + QuarantinedContract) :=
  match RUNTIME_CONTRACT_TARGETS contract_type with
  | None =>
      q ← quarantine payload contract_type "unknown" "contract_type_unknown"; Ok (inr q)
  | Some target =>
      migrated ← upcast_or_quarantine registry payload contract_type target;
      match migrated with
    | inr q => Ok (inr q)
    | inl d =>
        match validator d with
      | Ok _ => Ok (inl d)
      | Err e =>
          q ← quarantine d contract_type target
          ("target_validation_failed:" +:+ exception_name e);
          Ok (inr q)
      end
    end
  end.
End with_digest.

(** ** Termination *)

(** The registered source schemas of a contract type. *)
Definition sources (registry : UpcasterRegistry) : gset string :=
  set_map snd (dom registry : gset (string * string)).

Lemma elem_of_sources registry t s ru :
  registry !! (t, s) = Some ru → s ∈ sources registry.
Proof.
  intros H. unfold sources. rewrite elem_of_map. exists (t, s). split; [done|].
  by apply elem_of_dom_2 with ru.
Qed.

Lemma size_set_map_snd (X : gset (string * string)) :
  (size (set_map snd X : gset string) ≤ size X)%nat.
Proof.
  induction X as [|x X Hx IH] using set_ind_L; [by rewrite set_map_empty, !size_empty|].
  rewrite set_map_union_L, set_map_singleton_L.
  assert (size ({[x]} ∪ X) = S (size X)) as ->
    by (rewrite size_union by set_solver; by rewrite size_singleton).
  rewrite (size_union_alt {[x.2]} (set_map snd X)), size_singleton.
  assert (size ((set_map snd X : gset string) ∖ {[x.2]})
    ≤ size (set_map snd X : gset string))%nat by (apply subseteq_size; set_solver). lia.
Qed.

Lemma size_sources registry : (size (sources registry) ≤ size registry)%nat.
Proof. etrans; [apply size_set_map_snd|]. apply Nat.eq_le_incl, size_dom. Qed.

Lemma visited_grows registry visited (s : string) :
  visited ⊆ sources registry → s ∈ sources registry → s ∉ visited →
  {[s]} ∪ visited ⊆ sources registry ∧
  size ({[s]} ∪ visited : gset string) = S (size visited).
Proof.
  intros Hsub Hs Hnin. split; [set_solver|].
  rewrite size_union by set_solver. by rewrite size_singleton.
Qed.

Lemma upcast_loop_total fuel registry t target visited calls s current :
  visited ⊆ sources registry → (S (size (sources registry)) < fuel + size visited)%nat →
  is_Some (upcast_loop fuel registry t target visited calls s current).
Proof.
  revert visited calls s current.
  induction fuel as [|fuel IH]; intros visited calls s current Hsub Hfuel.
  { apply subseteq_size in Hsub. lia. }
  cbn [upcast_loop migration_loop]. case_bool_decide; [by eexists|]. case_bool_decide; [by eexists|].
  destruct (registry !! (t, s)) as [ru|] eqn:Hru; [|by eexists].
  destruct (upcast_step ru calls current); [|by eexists].
  destruct (visited_grows registry visited s) as [Hsub' Hsize];
    [done|by eapply elem_of_sources|done|]. apply IH; [done|lia].
Qed.

Lemma migration_loop_total fuel registry t target visited s :
  visited ⊆ sources registry → (S (size (sources registry)) < fuel + size visited)%nat →
  is_Some (migration_loop fuel registry t target visited s).
Proof.
  revert visited s. induction fuel as [|fuel IH]; intros visited s Hsub Hfuel.
  { apply subseteq_size in Hsub. lia. }
  cbn [upcast_loop migration_loop]. case_bool_decide; [by eexists|]. case_bool_decide; [by eexists|].
  destruct (registry !! (t, s)) as [ru|] eqn:Hru; [|by eexists].
  destruct (visited_grows registry visited s) as [Hsub' Hsize];
    [done|by eapply elem_of_sources|done|].
  destruct (IH ({[s]} ∪ visited) (ru_target_schema ru)) as [r Hr]; [done|lia|].
  rewrite Hr. destruct r; eauto.
Qed.

Lemma loop_fuel_enough registry :
  (S (size (sources registry)) < loop_fuel registry + size (∅ : gset string))%nat.
Proof. pose proof (size_sources registry). rewrite size_empty. unfold loop_fuel. lia. Qed.

(** ** What a successful migration returns *)

Lemma upcast_step_target ru calls current next :
  upcast_step ru calls current = Ok next →
  str_or_default (dget "schema" next) "" = ru_target_schema ru.
Proof.
  unfold upcast_step. intros H. apply result_bind_Ok in H as (before & _ & H).
  destruct (ru_function ru calls current) as [i1 r1].
  apply result_bind_Ok in H as (first & _ & H).
  destruct (ru_function ru (calls + 1) current) as [i2 r2].
  result_inv. destruct first as [| | | | | | |d1], a as [| | | | | | |d2]; try done.
  result_inv. subst.
  match goal with Hs : bool_decide (str_or_default _ _ ≠ _) = false |- _ =>
    by apply bool_decide_eq_false, dec_stable in Hs end.
Qed.

Lemma upcast_loop_target fuel registry t target visited calls s current d :
  str_or_default (dget "schema" current) "" = s →
  upcast_loop fuel registry t target visited calls s current = Some (Ok d) →
  str_or_default (dget "schema" d) "" = target.
Proof.
  revert visited calls s current. induction fuel as [|fuel IH];
    intros visited calls s current Hs; [done|]. cbn [upcast_loop].
  case_bool_decide; [by intros [= <-]; subst|]. case_bool_decide; [done|].
  destruct (registry !! (t, s)) as [ru|]; [|done].
  destruct (upcast_step ru calls current) as [next|] eqn:Hstep; [|done].
  apply IH. by eapply upcast_step_target.
Qed.

(** One step by a pure upcaster is that function. *)
Lemma upcast_step_pure f t s tgt calls current next :
  upcast_step {| ru_contract_type := t; ru_source_schema := s; ru_target_schema := tgt;
                 ru_function := pure f |} calls current = Ok next →
  f current = Ok (PDict next).
Proof.
  unfold upcast_step, pure. cbn. intros H. result_inv.
  destruct a0 as [| | | | | | |d1], a1 as [| | | | | | |d2]; try done.
  result_inv. by subst.
Qed.

(** *** The default registry *)

Definition registered (t s tgt : string) (f : dict → result pyval) : _RegisteredUpcaster :=
  {| ru_contract_type := t; ru_source_schema := s; ru_target_schema := tgt;
     ru_function := pure f |}.

Definition default_entry (t s : string) (ru : _RegisteredUpcaster) : Prop :=
  (t = "plan" ∧ s = "ananta.execution_plan.v0" ∧
   ru = registered t s "ananta.execution_plan.v1" _upcast_plan_v0) ∨
  (t = "state" ∧ s = "ananta.workflow_state.v0" ∧
   ru = registered t s "ananta.workflow_state.v1" _upcast_state_v0) ∨
  (t = "checkpoint" ∧ s = "ananta.workflow_checkpoint.v0" ∧
   ru = registered t s "ananta.workflow_checkpoint.v1" _upcast_checkpoint_v0) ∨
  (t = "event" ∧ s = "ananta.workflow_event.v0" ∧
   ru = registered t s "ananta.workflow_event.v1" _upcast_event_v0) ∨
  (t = "authorization" ∧ s = "ananta.runtime_authorization.v0" ∧
   ru = registered t s "ananta.runtime_authorization.v1" _upcast_authorization_v0).

Lemma register_run t s tgt f reg :
  t ≠ "" → s ≠ "" → tgt ≠ "" → s ≠ tgt → reg !! (t, s) = None →
  (register t s tgt (pure f) reg).2 = <[(t, s) := registered t s tgt f]> reg.
Proof.
  intros Ht Hs Htgt Hne Hreg. unfold register.
  rewrite run_guard by (by rewrite !(proj2 (str_true_spec _))).
  rewrite run_guard by (by apply bool_decide_eq_false).
  rewrite run_get, Hreg. reflexivity.
Qed.

Local Ltac fresh_key :=
  done || (rewrite ?lookup_insert_ne by (intros [=]); apply lookup_empty).

Lemma default_registry_lookup t s ru :
  build_default_runtime_upcaster_registry !! (t, s) = Some ru → default_entry t s ru.
Proof.
  unfold build_default_runtime_upcaster_registry.
  rewrite (register_run "plan") by fresh_key. rewrite (register_run "state") by fresh_key.
  rewrite (register_run "checkpoint") by fresh_key.
  rewrite (register_run "event") by fresh_key.
  rewrite (register_run "authorization") by fresh_key.
  unfold default_entry. intros H.
  repeat (apply lookup_insert_Some in H as [[[= <- <-] <-]|[_ H]]; [by tauto|]).
  exfalso. revert H. apply lookup_empty_Some.
Qed.

Lemma default_entry_target t s ru :
  default_entry t s ru → RUNTIME_CONTRACT_TARGETS t = Some (ru_target_schema ru).
Proof.
  unfold default_entry. intros H.
  repeat (destruct H as [(-> & -> & ->)|H]; [reflexivity|]).
  by destruct H as (-> & -> & ->).
Qed.

(** ** Properties *)

Section properties.
Context `{Digest}.

(** Migration terminates for every registry, also a cyclic one: the loops of
    [upcast] and [migration_path] never exhaust the bound given by the number
    of registered steps. *)
Theorem migration_terminates registry contract_type target_schema source payload :
  is_Some (upcast_loop (loop_fuel registry) registry contract_type target_schema ∅ 0
    source payload) ∧
  is_Some (migration_loop (loop_fuel registry) registry contract_type target_schema ∅
    source).
Proof.
  pose proof (loop_fuel_enough registry).
  split; [apply upcast_loop_total|apply migration_loop_total]; set_solver || done.
Qed.

(** Whatever the registered code does, a payload returned by [upcast] has
    the requested schema. *)
Theorem upcast_reaches_target registry payload contract_type target_schema d :
  upcast registry payload contract_type target_schema = Ok d →
  str_or_default (dget "schema" d) "" = target_schema.
Proof.
  unfold upcast. intros Hup. result_inv.
  destruct (upcast_loop _ _ _ _ _ _ _ _) as [r|] eqn:Hloop; [|done].
  cbn in Hup. subst r. by eapply upcast_loop_target in Hloop.
Qed.

Lemma loading_cases raw t d :
  upcast_runtime_contract_for_loading raw t = Ok d →
  d = raw ∨ ∃ ru, default_entry t (str_or_default (dget "schema" raw) "") ru ∧
  upcast_step ru 0 raw = Ok d.
Proof.
  unfold upcast_runtime_contract_for_loading.
  destruct (RUNTIME_CONTRACT_TARGETS t) as [target|] eqn:Ht; [|done].
  destruct (negb _ || _) eqn:Hsrc; [intros [= ->]; by left|].
  apply orb_false_iff in Hsrc as [Hsrc Hne].
  intros Hl. result_inv. destruct a as [d'|q]; [|done]. injection Hl as ->. right.
  unfold upcast_or_quarantine in Hrun.
  destruct (upcast _ raw t target) as [d'|e] eqn:Hup.
  2:{ destruct (_ || _); [|done]. by result_inv. }
  injection Hrun as ->. unfold upcast in Hup. rewrite Hsrc in Hup.
  cbn [raise_when mbind result_bind] in Hup.
  change (loop_fuel build_default_runtime_upcaster_registry) with 7%nat in Hup.
  cbn [upcast_loop] in Hup. rewrite Hne in Hup.
  rewrite bool_decide_false in Hup by apply not_elem_of_empty.
  destruct (build_default_runtime_upcaster_registry !! _) as [ru|] eqn:Hru; [|done].
  apply default_registry_lookup in Hru. exists ru. split; [done|].
  pose proof (default_entry_target _ _ _ Hru) as Htgt. rewrite Ht in Htgt.
  injection Htgt as ->.
  destruct (upcast_step ru 0 raw) as [next|]; [|done].
  rewrite bool_decide_true in Hup by done. cbn in Hup. congruence.
Qed.
Lemma list_of_cases raw k x :
  list_of raw k = Ok x → ∃ l, x = PList l ∧ (l = [] ∨ iterate (dget k raw) = Ok l).
Proof.
  unfold list_of, py_list, por. intros Hl. result_inv. subst. exists a. split; [done|].
  destruct (truthy (dget k raw)); [by right|left]. by injection Hrun.
Qed.

Lemma dict_of_cases raw k x :
  dict_of raw k = Ok x → ∃ b, x = PDict b ∧ (b = [] ∨ py_dict (dget k raw) = Ok b).
Proof.
  unfold dict_of, por. intros Hl. result_inv. subst. exists a. split; [done|].
  destruct (truthy (dget k raw)); [by right|left]. by injection Hrun.
Qed.

(** Loading an authorization never widens it: rights an old contract does
    not list become empty, listed ones are kept as they are, and every other
    field but the schema is unchanged. *)
Theorem authorization_upcast_never_grants raw d :
  upcast_runtime_contract_for_loading raw "authorization" = Ok d →
  ∀ k, k ≠ "schema" →
  dict_get k d = dict_get k raw ∨
  (k ∈ ["allowed_tools"; "allowed_artifacts"] ∧ ∃ l, dict_get k d = Some (PList l) ∧
    (l = [] ∨ iterate (dget k raw) = Ok l)) ∨
  (k = "budgets" ∧ ∃ b, dict_get k d = Some (PDict b) ∧
    (b = [] ∨ py_dict (dget k raw) = Ok b)).
Proof.
  intros Hl k Hk. apply loading_cases in Hl as [->|(ru & Hru & Hstep)]; [by left|].
  unfold default_entry in Hru.
  destruct Hru as [[? _]|[[? _]|[[? _]|[[? _]|(_ & _ & ->)]]]]; try discriminate.
  apply upcast_step_pure in Hstep. unfold _upcast_authorization_v0 in Hstep. result_inv.
  apply list_of_cases in Hrun as (l1 & -> & H1), Hrun0 as (l2 & -> & H2).
  apply dict_of_cases in Hrun1 as (b & -> & H3). subst d.
  destruct (decide (k = "budgets")) as [->|Hk3].
  { right; right. split; [done|]. exists b. split; [|done]. apply dict_get_set_eq. }
  destruct (decide (k = "allowed_artifacts")) as [->|Hk2].
  { right; left. split; [set_solver|]. exists l2. split; [|done]. unfold dict_update. cbn.
    rewrite dict_get_set_ne by done. apply dict_get_set_eq. }
  destruct (decide (k = "allowed_tools")) as [->|Hk1].
  { right; left. split; [set_solver|]. exists l1. split; [|done]. unfold dict_update. cbn.
    rewrite !dict_get_set_ne by done. apply dict_get_set_eq. }
  left. unfold dict_update. cbn. by rewrite !dict_get_set_ne by done.
Qed.

(** A quarantined contract carries no credential-like value, and the hash of
    the payload as it was received. *)
Theorem quarantine_redacts registry payload contract_type target_schema q :
  upcast_or_quarantine registry payload contract_type target_schema = Ok (inr q) →
  leaks (qc_payload q) = false ∧
  sha256_json (PDict payload) = Ok (qc_payload_hash q) ∧
  qc_source_schema q = str_or_default (dget "schema" payload) "unknown".
Proof.
  unfold upcast_or_quarantine. destruct (upcast _ _ _ _); [done|].
  destruct (_ || _); [|done]. unfold quarantine. intros Hq. result_inv. simplify_eq.
  split_and!; [apply (redact_json_no_leak (PDict payload))|done|done].
Qed.
End properties.

(** *** Witnesses *)

Definition old_authorization : dict :=
  [("schema", PStr "ananta.runtime_authorization.v0"); ("tenant_id", PStr "t");
   ("allowed_tools", PTuple [PStr "bash"])].

Definition loaded_authorization : dict :=
  [("schema", PStr "ananta.runtime_authorization.v1"); ("tenant_id", PStr "t");
   ("allowed_tools", PList [PStr "bash"]); ("allowed_artifacts", PList []);
   ("budgets", PDict [])].

Lemma upcast_reaches_target_witness :
  str_or_default (dget "schema" loaded_authorization) "" = "ananta.runtime_authorization.v1".
Proof.
  apply (upcast_reaches_target build_default_runtime_upcaster_registry old_authorization
    "authorization" "ananta.runtime_authorization.v1" loaded_authorization).
  vm_compute. reflexivity.
Defined.

Lemma authorization_upcast_never_grants_witness :
  @upcast_runtime_contract_for_loading checksum_digest old_authorization "authorization"
    = Ok loaded_authorization ∧
  dict_get "tenant_id" loaded_authorization = dict_get "tenant_id" old_authorization.
Proof.
  assert (@upcast_runtime_contract_for_loading checksum_digest old_authorization
    "authorization" = Ok loaded_authorization) as H by (vm_compute; reflexivity).
  split; [exact H|].
  destruct (@authorization_upcast_never_grants checksum_digest old_authorization
    loaded_authorization H "tenant_id") as [Hk|[[Hk _]|[Hk _]]];
    [discriminate|exact Hk|exfalso; apply list_elem_of_In in Hk; cbn in Hk; intuition discriminate|discriminate Hk].
Defined.

Lemma quarantine_redacts_witness :
  ∃ q, @upcast_or_quarantine checksum_digest ∅
    [("schema", PStr "x.v9"); ("api_key", PStr "k")] "plan" "x.v1" = Ok (inr q) ∧
    leaks (qc_payload q) = false.
Proof.
  destruct (@upcast_or_quarantine checksum_digest ∅
    [("schema", PStr "x.v9"); ("api_key", PStr "k")] "plan" "x.v1") as [[d|q]|e] eqn:H;
    [vm_compute in H; discriminate H| |vm_compute in H; discriminate H].
  exists q. split; [reflexivity|].
  exact (proj1 (@quarantine_redacts checksum_digest ∅ _ "plan" "x.v1" q H)).
Defined.
