(* ===== verification/Plan.v ===== *)
(** * Execution plans (workflow_runtime/execution_plan.py)

    The plan contract: parsing from mappings, every validation rule in the
    order the code reports them, the cycle check (Kahn's algorithm on the
    declared edges), and the plan hash.  The model-routing sub-contract is a
    pydantic model; its validation and its normal form are parameters. *)
From S2P Require Import Prelude PyStr PyVal Digest Serialization SchemaEvolution.

Definition EXECUTION_PLAN_SCHEMA : string := "ananta.execution_plan.v1".
Definition SIDE_EFFECT_CLASSES : list string :=
  ["none"; "read"; "idempotent_write"; "non_idempotent_write"].
Definition CONDITION_OPERATORS : list string :=
  ["always"; "all"; "any"; "not"; "eq"; "ne"; "in"; "exists"].
Definition MERGE_STRATEGIES : list string := ["object-by-node-id"; "ordered-by-node-id"].
Definition MERGE_PARTIAL_FAILURE_POLICIES : list string := ["fail"; "omit"].
Definition JOIN_MODES : list string := ["all"; "any"].
Definition NODE_FAILURE_POLICIES : list string := ["continue"; "fail"].
Definition RESERVED_METADATA_KEYS : list string :=
  ["allowed_tools"; "authorization"; "budgets"; "capabilities"; "policy_version";
   "tenant_id"].

(** The pydantic model of [model_routing_contract.py]. *)
Class ModelRouting := {
  (** [assert_runtime_mapping(value)]: the reason code and detail it raises. *)
  routing_error : pyval → option (string * string);
  (** [from_metadata(metadata)], then [as_metadata()] when it is not [None]. *)
  routing_metadata : dict → result (option pyval);
}.

(** ** Data *)

Record ExecutionBudget := {
  max_attempts : Z;
  timeout_seconds : float;
  max_tokens : option Z;
  max_cost_micros : option Z;
}.

Record ArtifactContract := {
  artifact_id : string;
  media_type : string;
  art_required : bool;
  schema_ref : string;
}.

Record ExecutionGate := {
  gate_id : string;
  gate_type : string;
  required_roles : list string;
  expires_after_seconds : option float;
}.

Record ExecutionNode := {
  node_id : string;
  node_type : string;
  task_kind : string;
  required_capabilities : list string;
  allowed_tools : list string;
  input_artifacts : list string;
  output_artifacts : list string;
  node_gate_id : string;
  side_effect_class : string;
  node_budget : option ExecutionBudget;
  node_metadata : dict;
}.

Record ExecutionEdge := {
  edge_source : string;
  edge_target : string;
  edge_condition : dict;
}.

Record ExecutionPlan := {
  tenant_id : string;
  plan_id : string;
  workflow_id : string;
  policy_version : string;
  nodes : list ExecutionNode;
  edges : list ExecutionEdge;
  capabilities : list string;
  gates : list ExecutionGate;
  artifacts : list ArtifactContract;
  plan_budget : ExecutionBudget;
  plan_metadata : dict;
  plan_schema : string;
}.

(** ** Parsing *)

(** [sorted({...})] *)
Definition sorted_set (l : list string) : list string := sorted_strings (remove_dups l).

(** [_clean_tuple(values)] *)
Definition _clean_tuple (values : pyval) : result (list string) :=
  items ← iterate (por values (PTuple []));
  Ok (sorted_set (filter (λ s, s ≠ "") (map (λ v, strip (py_str v)) items))).

(** [raw.get] needs a mapping. *)
Definition as_mapping (v : pyval) : result dict :=
  match v with PDict d => Ok d | _ => Err (AttributeError "get") end.

Definition optional {A} (f : pyval → result A) (v : pyval) : result (option A) :=
  match v with PNone => Ok None | _ => x ← f v; Ok (Some x) end.

(** [raw.get(k, default)] *)
Definition get_default (k : string) (default : pyval) (raw : dict) : pyval :=
  match dict_get k raw with Some v => v | None => default end.

(** [str(raw.get(a) or raw.get(b) or "").strip()] over the keys in order. *)
Definition first_str (keys : list string) (default : string) (raw : dict) : string :=
  strip (py_str (foldr (λ k v, por (dget k raw) v) (PStr default) keys)).

Definition budget_of_dict (value : dict) : result ExecutionBudget :=
  max_attempts ← py_int (get_default "max_attempts" (PInt 1) value);
  timeout_seconds ← py_float (get_default "timeout_seconds" (PFloat (lit 300 0)) value);
  max_tokens ← optional py_int (dget "max_tokens" value);
  max_cost_micros ← optional py_int (dget "max_cost_micros" value);
  Ok {| max_attempts := max_attempts; timeout_seconds := timeout_seconds;
        max_tokens := max_tokens; max_cost_micros := max_cost_micros |}.

(** [ExecutionBudget.from_mapping(raw)] *)
Definition budget_from_mapping (raw : pyval) : result ExecutionBudget :=
  value ← py_dict (por raw (PDict [])); budget_of_dict value.

Definition artifact_from_mapping (raw : dict) : result ArtifactContract :=
  Ok {| artifact_id := first_str ["artifact_id"; "id"] "" raw;
        media_type := first_str ["media_type"] "application/octet-stream" raw;
        art_required := truthy (get_default "required" (PBool true) raw);
        schema_ref := first_str ["schema_ref"] "" raw |}.

Definition gate_from_mapping (raw : dict) : result ExecutionGate :=
  roles ← iterate (get_default "required_roles" (PList []) raw);
  expires ← optional py_float (dget "expires_after_seconds" raw);
  Ok {| gate_id := first_str ["gate_id"; "id"] "" raw;
        gate_type := first_str ["gate_type"] "approval" raw;
        required_roles :=
          sorted_set (filter (λ s, s ≠ "") (map (λ v, strip (py_str v)) roles));
        expires_after_seconds := expires |}.

Definition edge_from_mapping (raw : dict) : result ExecutionEdge :=
  condition ← py_dict (por (dget "condition" raw) (PDict [("op", PStr "always")]));
  Ok {| edge_source := first_str ["source"; "from"] "" raw;
        edge_target := first_str ["target"; "to"] "" raw;
        edge_condition := condition |}.

Definition budget_to_dict (b : ExecutionBudget) : pyval :=
  PDict [("max_attempts", PInt (max_attempts b));
         ("timeout_seconds", PFloat (timeout_seconds b));
         ("max_tokens", from_option PInt PNone (max_tokens b));
         ("max_cost_micros", from_option PInt PNone (max_cost_micros b))].

Definition strs (l : list string) : pyval := PList (map PStr l).

Definition artifact_to_dict (a : ArtifactContract) : pyval :=
  PDict [("artifact_id", PStr (artifact_id a)); ("media_type", PStr (media_type a));
         ("required", PBool (art_required a)); ("schema_ref", PStr (schema_ref a))].

Definition gate_to_dict (g : ExecutionGate) : pyval :=
  PDict [("gate_id", PStr (gate_id g)); ("gate_type", PStr (gate_type g));
         ("required_roles", strs (required_roles g));
         ("expires_after_seconds", from_option PFloat PNone (expires_after_seconds g))].

Definition edge_to_dict (e : ExecutionEdge) : pyval :=
  PDict [("source", PStr (edge_source e)); ("target", PStr (edge_target e));
         ("condition", PDict (edge_condition e))].

Section with_routing.
Context `{ModelRouting} `{Digest}.

Definition sanitize_model_routing_metadata (metadata : pyval) : result dict :=
  sanitized ← py_dict (por metadata (PDict []));
  if negb (dict_has "model_routing" sanitized) then Ok sanitized
  else
  routing ← routing_metadata sanitized;
  match routing with
  | None => Ok (dict_del "model_routing" sanitized)
  | Some value => Ok (dict_set "model_routing" value sanitized)
  end.

Definition node_from_mapping (raw : dict) : result ExecutionNode :=
  required_capabilities ← _clean_tuple (dget "required_capabilities" raw);
  allowed_tools ← _clean_tuple (dget "allowed_tools" raw);
  input_artifacts ← _clean_tuple (dget "input_artifacts" raw);
  output_artifacts ← _clean_tuple (dget "output_artifacts" raw);
  budget ← optional budget_from_mapping (dget "budget" raw);
  metadata ← sanitize_model_routing_metadata (dget "metadata" raw);
  Ok {| node_id := first_str ["node_id"; "step_id"; "id"] "" raw;
    node_type := first_str ["node_type"] "task" raw;
    task_kind := first_str ["task_kind"] "coding" raw;
    required_capabilities := required_capabilities;
    allowed_tools := allowed_tools;
    input_artifacts := input_artifacts;
    output_artifacts := output_artifacts;
    node_gate_id := first_str ["gate_id"] "" raw;
    side_effect_class := lower (first_str ["side_effect_class"] "none" raw);
    node_budget := budget;
    node_metadata := metadata |}.

Definition node_to_dict (n : ExecutionNode) : result pyval :=
  metadata ← sanitize_model_routing_metadata (PDict (node_metadata n));
  Ok (PDict [
      ("node_id", PStr (node_id n)); ("node_type", PStr (node_type n));
      ("task_kind", PStr (task_kind n));
      ("required_capabilities", strs (required_capabilities n));
      ("allowed_tools", strs (allowed_tools n));
      ("input_artifacts", strs (input_artifacts n));
      ("output_artifacts", strs (output_artifacts n));
      ("gate_id", PStr (node_gate_id n));
      ("side_effect_class", PStr (side_effect_class n));
      ("budget", from_option budget_to_dict PNone (node_budget n));
      ("metadata", PDict metadata)]).

(** [to_dict(include_hash=False)] *)
Definition plan_payload (p : ExecutionPlan) : result dict :=
  nodes ← map_result node_to_dict (nodes p);
  Ok [("schema", PStr (plan_schema p)); ("tenant_id", PStr (tenant_id p));
    ("plan_id", PStr (plan_id p)); ("workflow_id", PStr (workflow_id p));
    ("policy_version", PStr (policy_version p));
    ("nodes", PList nodes);
    ("edges", PList (map edge_to_dict (edges p)));
    ("capabilities", strs (capabilities p));
    ("gates", PList (map gate_to_dict (gates p)));
    ("artifacts", PList (map artifact_to_dict (artifacts p)));
    ("budget", budget_to_dict (plan_budget p));
    ("metadata", PDict (plan_metadata p))].

Definition plan_hash (p : ExecutionPlan) : result string :=
  payload ← plan_payload p; sha256_json (PDict payload).

Definition plan_to_dict (p : ExecutionPlan) : result dict :=
  payload ← plan_payload p;
  h ← sha256_json (PDict payload);
  Ok (dict_set "plan_hash" (PStr h) payload).
End with_routing.

(** ** Validation rules *)

Definition quoted_index (prefix : string) (index : Z) : string :=
  prefix +:+ "[" +:+ z_str index +:+ "]".

Definition when (b : bool) (i : ContractIssue) : list ContractIssue :=
  if b then [i] else [].

Definition issue3 (code path message : string) : ContractIssue :=
  {| ci_code := code; ci_path := path; ci_message := message |}.

Definition budget_validate (b : ExecutionBudget) (path : string) : list ContractIssue :=
  when (max_attempts b <? 1) (issue "budget_max_attempts_invalid" path) ++
  when (float_leb (timeout_seconds b) (S754_zero false)) (issue "budget_timeout_invalid" path) ++
  when (from_option (λ n, n <? 0) false (max_tokens b))
    (issue "budget_max_tokens_invalid" path) ++
  when (from_option (λ n, n <? 0) false (max_cost_micros b))
    (issue "budget_max_cost_invalid" path).

(** [for index, x in enumerate(l)] *)
Fixpoint concat_indexed {A B} (f : Z → A → list B) (index : Z) (l : list A) : list B :=
  match l with
  | [] => []
  | x :: l => f index x ++ concat_indexed f (index + 1) l
  end.

Fixpoint _validate_condition (fuel : nat) (condition : pyval) (path : string)
    : list ContractIssue :=
  match fuel with
  | O => []
  | S fuel =>
      match condition with
      | PDict c =>
          let operator := strip (py_str (por (dget "op" c) (PStr ""))) in
          if bool_decide (operator ∉ CONDITION_OPERATORS)
          then [issue3 "condition_operator_invalid" (path +:+ ".op") operator]
          else if bool_decide (operator ∈ ["all"; "any"]) then
            match dict_get "conditions" c with
            | Some (PList (child :: children)) =>
                concat_indexed (λ index child,
                  _validate_condition fuel child
                    (quoted_index (path +:+ ".conditions") index)) 0 (child :: children)
            | _ => [issue "condition_children_required" (path +:+ ".conditions")]
            end
          else if bool_decide (operator = "not")
          then _validate_condition fuel (dget "condition" c) (path +:+ ".condition")
          else if bool_decide (operator ∈ ["eq"; "ne"; "in"; "exists"]) then
            when (match dict_get "field" c with
                  | Some (PStr s) => negb (str_true (strip s)) | _ => true end)
              (issue "condition_field_required" (path +:+ ".field")) ++
            when (bool_decide (operator ≠ "exists") && negb (dict_has "value" c))
              (issue "condition_value_required" (path +:+ ".value"))
          else []
      | _ => [issue "condition_mapping_required" path]
      end
  end.

(** The nesting of a value bounds the recursion. *)
Fixpoint val_depth (v : pyval) : nat :=
  match v with
  | PList l | PTuple l => S (foldr (λ v n, Nat.max (val_depth v) n) 0%nat l)
  | PDict d => S (foldr (λ kv n, Nat.max (val_depth kv.2) n) 0%nat d)
  | _ => 1
  end.

Definition validate_condition (condition : dict) (path : string) : list ContractIssue :=
  _validate_condition (val_depth (PDict condition)) (PDict condition) path.

Definition _validate_positive_integer (value : pyval) (path code : string)
    : list ContractIssue :=
  when (match value with PInt n => n <? 1 | _ => true end) (issue code path).

Definition _is_non_empty_string (value : pyval) : bool :=
  match value with PStr s => str_true (strip s) | _ => false end.

(** [hash(v)] does not raise. *)
Fixpoint hashable (v : pyval) : bool :=
  match v with
  | PList _ | PDict _ => false
  | PTuple l => forallb hashable l
  | _ => true
  end.

(** [value not in <frozenset of strings>]; an unhashable value raises. *)
Definition not_in_set (value : pyval) (set : list string) : result bool :=
  raise_when (negb (hashable value)) (TypeError "unhashable type") ;;
  Ok (match value with PStr s => bool_decide (s ∉ set) | _ => true end).

Definition check_member (metadata : dict) (key : string) (set : list string)
    (i : ContractIssue) : result (list ContractIssue) :=
  match dict_get key metadata with
  | None => Ok []
  | Some v => b ← not_in_set v set; Ok (when b i)
  end.

Definition present_keys (keys : list string) (metadata : dict) : list string :=
  sorted_set (filter (λ k, is_Some (dict_get k metadata)) keys).

Section with_routing.
Context `{ModelRouting}.

Definition _validate_node_runtime_metadata (node : ExecutionNode) (path : string)
  : result (list ContractIssue) :=
  let metadata := node_metadata node in
  let limit := match dict_get "parallel_limit" metadata with
  | None => []
  | Some v => _validate_positive_integer v (path +:+ ".metadata.parallel_limit")
    "node_parallel_limit_invalid"
  end in
  let group := match dict_get "parallel_group" metadata with
  | None => []
  | Some v => when (negb (_is_non_empty_string v))
    (issue "parallel_group_invalid" (path +:+ ".metadata.parallel_group"))
  end in
  join ← check_member metadata "join_mode" JOIN_MODES
  (issue "join_mode_invalid" (path +:+ ".metadata.join_mode"));
  failure ← check_member metadata "failure_policy" NODE_FAILURE_POLICIES
  (issue "node_failure_policy_invalid" (path +:+ ".metadata.failure_policy"));
  let routing := match dict_get "model_routing" metadata with
  | None => []
  | Some v => from_option
    (λ e, [issue3 e.1 (path +:+ ".metadata.model_routing") e.2]) [] (routing_error v)
  end in
  let merge_fields := present_keys ["merge_strategy"; "partial_failure"] metadata in
  let is_merge := bool_decide (node_type node = "merge") in
  let non_merge := when (negb is_merge && bool_decide (merge_fields ≠ []))
  (issue3 "merge_metadata_on_non_merge_node" (path +:+ ".metadata")
    (PyStr.join "," merge_fields)) in
  merge ← (if is_merge then
    a ← not_in_set (dget "merge_strategy" metadata) MERGE_STRATEGIES;
    b ← not_in_set (get_default "partial_failure" (PStr "fail") metadata)
    MERGE_PARTIAL_FAILURE_POLICIES;
    Ok (when a (issue "merge_strategy_unsupported" (path +:+ ".metadata.merge_strategy")) ++
      when b (issue "merge_partial_failure_policy_invalid"
        (path +:+ ".metadata.partial_failure")))
    else Ok []);
  Ok (limit ++ group ++ join ++ failure ++ routing ++ non_merge ++ merge).
End with_routing.

(** ** Graph *)

Record graph := {
  g_nodes : gset string;
  g_adjacency : gmap string (gset string);
  g_indegree : gmap string Z;
}.

Definition successors (g : graph) (n : string) : gset string :=
  default ∅ (g_adjacency g !! n).
Definition indegree (g : graph) (n : string) : Z := default 0 (g_indegree g !! n).

Definition empty_graph (known : gset string) : graph :=
  {| g_nodes := known; g_adjacency := ∅; g_indegree := ∅ |}.

(** The tail of the loop over the edges. *)
Definition add_edge (g : graph) (e : ExecutionEdge) : graph :=
  let s := edge_source e in let t := edge_target e in
  if bool_decide (s ∈ g_nodes g) && bool_decide (t ∈ g_nodes g)
     && bool_decide (t ∉ successors g s)
  then {| g_nodes := g_nodes g;
          g_adjacency := <[s := {[t]} ∪ successors g s]> (g_adjacency g);
          g_indegree := <[t := indegree g t + 1]> (g_indegree g) |}
  else g.

Definition edge_graph (known : gset string) (es : list ExecutionEdge) : graph :=
  foldl add_edge (empty_graph known) es.

(** [for target in sorted(adjacency[node_id])]: the decremented counts and the
    nodes to enqueue. *)
Fixpoint relax (ind : gmap string Z) (targets : list string)
    : gmap string Z * list string :=
  match targets with
  | [] => (ind, [])
  | t :: targets =>
      let count := default 0 (ind !! t) - 1 in
      let '(ind, ready) := relax (<[t := count]> ind) targets in
      (ind, if count =? 0 then t :: ready else ready)
  end.

(** The [while queue] loop; [None] when the fuel runs out. *)
Fixpoint kahn (fuel : nat) (g : graph) (ind : gmap string Z) (queue : list string)
    (visited : Z) : option Z :=
  match queue with
  | [] => Some visited
  | node :: queue =>
      match fuel with
      | O => None
      | S fuel =>
          let '(ind, ready) := relax ind (sorted_strings (elements (successors g node))) in
          kahn fuel g ind (queue ++ ready) (visited + 1)
      end
  end.

Definition initial_queue (g : graph) : list string :=
  sorted_strings (filter (λ n, indegree g n = 0) (elements (g_nodes g))).

Definition visited_nodes (g : graph) : Z :=
  default 0 (kahn (size (g_nodes g)) g (g_indegree g) (initial_queue g) 0).

(** [len(known_nodes) > 0 and visited != len(known_nodes)] *)
Definition has_cycle (g : graph) : bool :=
  (0 <? Z.of_nat (size (g_nodes g))) &&
  negb (visited_nodes g =? Z.of_nat (size (g_nodes g))).

(** ** Plan validation *)

Definition required_names (p : ExecutionPlan) : list (string * string) :=
  [("tenant_id", tenant_id p); ("plan_id", plan_id p); ("workflow_id", workflow_id p);
   ("policy_version", policy_version p)].

Definition duplicates (ids : list string) : bool :=
  negb (Nat.eqb (length ids) (length (remove_dups ids))).

Definition producers (ns : list ExecutionNode) : list (string * string) :=
  concat (map (λ n, map (λ a, (a, node_id n)) (output_artifacts n)) ns).

Definition producers_of (a : string) (ns : list ExecutionNode) : list string :=
  map snd (filter (λ an, an.1 = a) (producers ns)).

(** [_validate_artifact_contracts], whose first result is the set of ids. *)
Definition _validate_artifact_contracts (arts : list ArtifactContract)
    (ns : list ExecutionNode) : list ContractIssue :=
  let ids := map artifact_id arts in
  when (bool_decide ("" ∈ ids)) (issue "artifact_id_required" "artifacts") ++
  when (duplicates ids) (issue "duplicate_artifact_id" "artifacts") ++
  concat (map (λ a,
    let node_ids := producers_of a ns in
    when (1 <? Z.of_nat (length node_ids))
      (issue3 "artifact_multiple_producers" "nodes"
         (a +:+ ":" +:+ PyStr.join "," (sorted_strings node_ids))))
    (sorted_set (map fst (producers ns)))).

Definition _validate_merge_sources (ns : list ExecutionNode) (es : list ExecutionEdge)
    : list ContractIssue :=
  concat_indexed (λ index n,
    when (bool_decide (node_type n = "merge") &&
          bool_decide (node_id n ∉ map edge_target es))
      (issue "merge_sources_required" (quoted_index "nodes" index))) 0 ns.

Definition _validate_plan_runtime_metadata (metadata : dict) : list ContractIssue :=
  match dict_get "parallel_limit" metadata with
  | None => []
  | Some v => _validate_positive_integer v "metadata.parallel_limit"
                "plan_parallel_limit_invalid"
  end.

(** [str(metadata.get("parallel_group") or "default")] *)
Definition parallel_group (n : ExecutionNode) : string :=
  str_or_default (dget "parallel_group" (node_metadata n)) "default".

Definition group_limits (ns : list ExecutionNode) : list (string * Z) :=
  omap (λ n, match dict_get "parallel_limit" (node_metadata n) with
             | Some (PInt limit) => Some (parallel_group n, limit)
             | _ => None
             end) ns.

Definition _validate_parallel_groups (ns : list ExecutionNode) : list ContractIssue :=
  let limits := group_limits ns in
  concat (map (λ group,
    when (1 <? Z.of_nat (length (remove_dups
            (map snd (filter (λ gl, gl.1 = group) limits)))))
      (issue3 "parallel_group_limit_conflict" "nodes" group))
    (sorted_set (map fst limits))).

Section with_routing.
Context `{ModelRouting}.

Definition validate_node (p : ExecutionPlan) (index : Z) (node : ExecutionNode)
  : result (list ContractIssue) :=
  let path := quoted_index "nodes" index in
  let missing := sorted_set (filter (λ c, c ∉ capabilities p) (required_capabilities node)) in
  let reserved := present_keys RESERVED_METADATA_KEYS (node_metadata node) in
  runtime ← _validate_node_runtime_metadata node path;
  Ok (when (bool_decide (side_effect_class node ∉ SIDE_EFFECT_CLASSES))
    (issue "side_effect_class_invalid" (path +:+ ".side_effect_class")) ++
    when (bool_decide (missing ≠ []))
    (issue3 "capability_not_declared" (path +:+ ".required_capabilities")
      (PyStr.join "," missing)) ++
    when (str_true (node_gate_id node)
      && bool_decide (node_gate_id node ∉ map gate_id (gates p)))
    (issue3 "gate_not_declared" (path +:+ ".gate_id") (node_gate_id node)) ++
    concat (map (λ a, when (bool_decide (a ∉ map artifact_id (artifacts p)))
        (issue3 "artifact_not_declared" path a))
      (input_artifacts node ++ output_artifacts node)) ++
    from_option (λ b, budget_validate b (path +:+ ".budget")) [] (node_budget node) ++
    when (bool_decide (reserved ≠ []))
    (issue3 "reserved_metadata_key" (path +:+ ".metadata") (PyStr.join "," reserved)) ++
    runtime).

Fixpoint validate_nodes (p : ExecutionPlan) (index : Z) (ns : list ExecutionNode)
  : result (list ContractIssue) :=
  match ns with
  | [] => Ok []
  | n :: ns =>
      issues ← validate_node p index n;
      rest ← validate_nodes p (index + 1) ns;
      Ok (issues ++ rest)
  end.

(** The loop over the edges; [seen] is [edge_pairs]. *)
Fixpoint validate_edges (known : list string) (seen : list (string * string)) (index : Z)
  (es : list ExecutionEdge) : list ContractIssue :=
  match es with
  | [] => []
  | e :: es =>
      let path := quoted_index "edges" index in
      let pair := (edge_source e, edge_target e) in
      when (bool_decide (edge_source e ∉ known))
      (issue3 "edge_source_unknown" (path +:+ ".source") (edge_source e)) ++
      when (bool_decide (edge_target e ∉ known))
      (issue3 "edge_target_unknown" (path +:+ ".target") (edge_target e)) ++
      when (bool_decide (edge_source e = edge_target e)) (issue "edge_self_cycle" path) ++
      when (bool_decide (pair ∈ seen)) (issue "duplicate_edge" path) ++
      validate_condition (edge_condition e) (path +:+ ".condition") ++
      validate_edges known (pair :: seen) (index + 1) es
  end.

Definition plan_graph (p : ExecutionPlan) : graph :=
  edge_graph (list_to_set (map node_id (nodes p))) (edges p).

Definition validate (p : ExecutionPlan) : result (list ContractIssue) :=
  let node_ids := map node_id (nodes p) in
  let gate_ids := map gate_id (gates p) in
  let reserved := present_keys RESERVED_METADATA_KEYS (plan_metadata p) in
  node_issues ← validate_nodes p 0 (nodes p);
  Ok (concat (map (λ nv, when (negb (str_true nv.2)) (issue (nv.1 +:+ "_required") nv.1))
      (required_names p)) ++
    when (bool_decide (plan_schema p ≠ EXECUTION_PLAN_SCHEMA))
    (issue "execution_plan_schema_unsupported" "schema") ++
    when (bool_decide (nodes p = [])) (issue "nodes_required" "nodes") ++
    budget_validate (plan_budget p) "budget" ++
    when (bool_decide ("" ∈ node_ids)) (issue "node_id_required" "nodes") ++
    when (duplicates node_ids) (issue "duplicate_node_id" "nodes") ++
    when (bool_decide ("" ∈ gate_ids)) (issue "gate_id_required" "gates") ++
    when (duplicates gate_ids) (issue "duplicate_gate_id" "gates") ++
    _validate_artifact_contracts (artifacts p) (nodes p) ++
    node_issues ++
    validate_edges node_ids [] 0 (edges p) ++
    when (has_cycle (plan_graph p)) (issue "execution_plan_cycle" "edges") ++
    _validate_merge_sources (nodes p) (edges p) ++
    when (bool_decide (reserved ≠ []))
    (issue3 "reserved_metadata_key" "metadata" (PyStr.join "," reserved)) ++
    _validate_plan_runtime_metadata (plan_metadata p) ++
    _validate_parallel_groups (nodes p)).

Definition assert_valid (p : ExecutionPlan) : result unit :=
  issues ← validate p;
  raise_when (bool_decide (issues ≠ [])) (ContractValidationError issues).

Context `{Digest}.

Definition plan_of_mapping (raw : dict) : result ExecutionPlan :=
  nodes ← (vs ← iterate (get_default "nodes" (PList []) raw);
    map_result (λ v, d ← as_mapping v; node_from_mapping d) vs);
  edges ← (vs ← iterate (get_default "edges" (PList []) raw);
    map_result (λ v, d ← as_mapping v; edge_from_mapping d) vs);
  capabilities ← _clean_tuple (dget "capabilities" raw);
  gates ← (vs ← iterate (get_default "gates" (PList []) raw);
    map_result (λ v, d ← as_mapping v; gate_from_mapping d) vs);
  artifacts ← (vs ← iterate (get_default "artifacts" (PList []) raw);
    map_result (λ v, d ← as_mapping v; artifact_from_mapping d) vs);
  budget ← budget_from_mapping (dget "budget" raw);
  metadata ← py_dict (por (dget "metadata" raw) (PDict []));
  Ok {| tenant_id := first_str ["tenant_id"] "" raw;
    plan_id := first_str ["plan_id"] "" raw;
    workflow_id := first_str ["workflow_id"] "" raw;
    policy_version := first_str ["policy_version"] "" raw;
    nodes := nodes; edges := edges; capabilities := capabilities; gates := gates;
    artifacts := artifacts; plan_budget := budget; plan_metadata := metadata;
    plan_schema := str_or_default (dget "schema" raw) EXECUTION_PLAN_SCHEMA |}.

(** [ExecutionPlan.from_mapping(raw, validate=...)] *)
Definition from_mapping (raw : dict) (check : bool) : result ExecutionPlan :=
  raw ← upcast_runtime_contract_for_loading raw "plan";
  plan ← plan_of_mapping raw;
  let provided_hash := strip (str_or_default (dget "plan_hash" raw) "") in
  (if str_true provided_hash then
    h ← plan_hash plan;
    raise_when (bool_decide (provided_hash ≠ h)) (contract_error "execution_plan_hash_mismatch")
    else Ok tt) ;;
  (if check then assert_valid plan else Ok tt) ;;
  Ok plan.
End with_routing.

(** ** A check that reports nothing *)

Lemma when_nil b i : when b i = [] ↔ b = false.
Proof. by destruct b. Qed.
