(* ===== verification/PlanGraph.v ===== *)
(** * The cycle check of execution plans

    Kahn's algorithm as [execution_plan.py] runs it finds a cycle exactly when
    the declared edges between known nodes have one. *)
From S2P Require Import Prelude PyStr PyVal Plan.

Lemma size_insert_fresh (x : string) (X : gset string) :
  x ∉ X → size ({[x]} ∪ X) = S (size X).
Proof.
  intros Hx. rewrite size_union, size_singleton; [done|].
  intros y. rewrite elem_of_singleton. by intros ->.
Qed.

Lemma size_difference_empty (X Y : gset string) : size (X ∖ Y) = 0%nat ↔ X ⊆ Y.
Proof.
  rewrite size_empty_iff. split.
  - intros He x Hx. destruct (decide (x ∈ Y)) as [|Hn]; [done|].
    exfalso. apply (not_elem_of_empty (C:=gset string) x). apply He.
    by apply elem_of_difference.
  - intros Hs x. rewrite elem_of_difference. split; [|by intros ?%not_elem_of_empty].
    intros [Hx Hn]. by apply Hs in Hx.
Qed.

(** ** The graph of the edges *)

Definition edge (g : graph) (u v : string) : Prop := v ∈ successors g u.

#[global] Instance edge_dec g u v : Decision (edge g u v).
Proof. unfold edge. apply _. Defined.

Definition predecessors (g : graph) (v : string) : gset string :=
  filter (λ u, edge g u v) (g_nodes g).

Record graph_ok (g : graph) : Prop := {
  go_nodes : ∀ u v, edge g u v → u ∈ g_nodes g ∧ v ∈ g_nodes g;
  go_indegree : ∀ v, indegree g v = Z.of_nat (size (predecessors g v));
}.

Lemma elem_of_predecessors g u v :
  graph_ok g → u ∈ predecessors g v ↔ edge g u v.
Proof.
  intros Hg. unfold predecessors. rewrite fin_sets.elem_of_filter. split; [tauto|].
  intros He. split; [done|]. by apply (go_nodes g Hg u v).
Qed.

Lemma empty_graph_ok known : graph_ok (empty_graph known).
Proof.
  assert (∀ u v, ¬ edge (empty_graph known) u v) as Hno.
  { intros u v. unfold edge, successors. cbn. rewrite lookup_empty. cbn. set_solver. }
  constructor; [by intros u v ?%Hno|]. intros v. unfold indegree. cbn.
  rewrite lookup_empty. cbn.
  enough (size (predecessors (empty_graph known) v) = 0%nat) by lia.
  apply size_empty_iff. intros u. unfold predecessors.
  rewrite fin_sets.elem_of_filter. split; [|set_solver]. by intros [?%Hno _].
Qed.

(** An edge the code adds, and the ones it ignores. *)
Definition new_edge (g : graph) (e : ExecutionEdge) (u v : string) : Prop :=
  u = edge_source e ∧ v = edge_target e ∧ u ∈ g_nodes g ∧ v ∈ g_nodes g.

Lemma add_edge_nodes g e : g_nodes (add_edge g e) = g_nodes g.
Proof. unfold add_edge. by case_match. Qed.

Lemma add_edge_spec g e u v : edge (add_edge g e) u v ↔ edge g u v ∨ new_edge g e u v.
Proof.
  unfold add_edge, new_edge.
  destruct (bool_decide _ && _ && _) eqn:Hb.
  - rewrite !andb_true_iff, !bool_decide_eq_true in Hb. destruct Hb as [[Hs Ht] Hn].
    unfold edge, successors. cbn.
    destruct (decide (u = edge_source e)) as [->|Hu].
    + rewrite lookup_insert_eq. cbn. set_solver.
    + rewrite lookup_insert_ne by done. naive_solver.
  - split; [by left|]. intros [?|(-> & -> & Hs & Ht)]; [done|].
    rewrite !andb_false_iff, !bool_decide_eq_false in Hb.
    destruct Hb as [[?|?]|Hn]; [done|done|]. by apply dec_stable in Hn.
Qed.

Lemma add_edge_ok g e : graph_ok g → graph_ok (add_edge g e).
Proof.
  intros Hg. pose proof (add_edge_spec g e) as Hspec.
  constructor.
  { intros u v. rewrite add_edge_nodes, Hspec.
    intros [He|(-> & -> & ? & ?)]; [by apply (go_nodes g Hg)|done]. }
  intros v. unfold add_edge in *.
  destruct (bool_decide _ && _ && _) eqn:Hb; [|apply Hg].
  rewrite !andb_true_iff, !bool_decide_eq_true in Hb. destruct Hb as [[Hs Ht] Hn].
  set (g' := {| g_nodes := _ |}) in *.
  assert (∀ u w, u ∈ predecessors g' w ↔
    u ∈ predecessors g w ∨ (u = edge_source e ∧ w = edge_target e)) as Hp.
  { intros u w. unfold predecessors. rewrite !fin_sets.elem_of_filter, Hspec. unfold new_edge.
    change (g_nodes g') with (g_nodes g). naive_solver. }
  unfold indegree. change (g_indegree g') with
    (<[edge_target e := indegree g (edge_target e) + 1]> (g_indegree g)).
  destruct (decide (v = edge_target e)) as [->|Hv].
  - rewrite lookup_insert_eq. cbn. rewrite (go_indegree g Hg).
    assert (predecessors g' (edge_target e) =
      {[edge_source e]} ∪ predecessors g (edge_target e)) as ->
      by (apply set_eq; intros u; rewrite Hp; set_solver).
    rewrite size_insert_fresh; [lia|]. by rewrite elem_of_predecessors.
  - rewrite lookup_insert_ne by done. fold (indegree g v). rewrite (go_indegree g Hg).
    do 2 f_equal. apply set_eq. intros u. rewrite Hp. naive_solver.
Qed.

Lemma edge_graph_spec known es :
  graph_ok (edge_graph known es) ∧ g_nodes (edge_graph known es) = known ∧
  ∀ u v, edge (edge_graph known es) u v ↔
    u ∈ known ∧ v ∈ known ∧ (u, v) ∈ map (λ e, (edge_source e, edge_target e)) es.
Proof.
  unfold edge_graph. induction es as [|e es IH] using rev_ind.
  - split_and!; [apply empty_graph_ok|done|]. intros u v. cbn. unfold edge, successors. cbn.
    rewrite lookup_empty. cbn. set_solver.
  - rewrite foldl_snoc. destruct IH as (Hok & Hn & He). split_and!.
    + by apply add_edge_ok.
    + by rewrite add_edge_nodes.
    + intros u v. rewrite add_edge_spec, He. unfold new_edge. rewrite Hn, map_app.
      rewrite elem_of_app. cbn. rewrite list_elem_of_singleton. naive_solver.
Qed.

(** ** One step of the algorithm *)

Lemma relax_spec ts ind :
  NoDup ts →
  let '(ind', ready) := relax ind ts in
  (∀ v, default 0 (ind' !! v) = default 0 (ind !! v) - (if decide (v ∈ ts) then 1 else 0)) ∧
  ready = filter (λ t, default 0 (ind !! t) - 1 = 0) ts.
Proof.
  revert ind. induction ts as [|t ts IH]; intros ind Hnd.
  { split; [|done]. intros v. rewrite decide_False by apply not_elem_of_nil. lia. }
  inversion_clear Hnd as [|?? Ht Hts]. cbn [relax].
  specialize (IH (<[t := default 0 (ind !! t) - 1]> ind) Hts).
  destruct (relax (<[t := default 0 (ind !! t) - 1]> ind) ts) as [ind' ready].
  destruct IH as [IH1 IH2]. split.
  - intros v. rewrite IH1. destruct (decide (v = t)) as [->|Hv].
    + rewrite lookup_insert_eq, decide_False by done.
      rewrite decide_True by set_solver. cbn. lia.
    + rewrite lookup_insert_ne by done.
      destruct (decide (v ∈ ts)); [rewrite decide_True by set_solver; done|].
      rewrite decide_False by set_solver. done.
  - rewrite filter_cons. assert (ready = filter (λ t, default 0 (ind !! t) - 1 = 0) ts) as Hr.
    { rewrite IH2. apply filter_ext_elem. intros v Hv.
      rewrite lookup_insert_ne by (by intros ->). done. }
    rewrite <- Hr. case_decide as Hd; [by rewrite Hd|].
    by rewrite (proj2 (Z.eqb_neq _ _)).
Qed.

(** ** The loop *)

Record kahn_inv (g : graph) (done queue : list string) (ind : gmap string Z) : Prop := {
  ki_NoDup : NoDup (done ++ queue);
  ki_nodes : ∀ v, v ∈ done ++ queue → v ∈ g_nodes g;
  ki_count : ∀ v, v ∈ g_nodes g →
    default 0 (ind !! v) = Z.of_nat (size (predecessors g v ∖ list_to_set done));
  ki_ready : ∀ v, v ∈ g_nodes g →
    v ∈ done ++ queue ↔ predecessors g v ⊆ list_to_set done;
  ki_acc : ∀ v, v ∈ done → Acc (edge g) v;
}.

Lemma NoDup_sorted_strings l : NoDup l → NoDup (sorted_strings l).
Proof. intros. unfold sorted_strings. by rewrite sort_by_perm. Qed.

Lemma elem_of_sorted_strings x l : x ∈ sorted_strings l ↔ x ∈ l.
Proof. apply elem_of_sort_by. Qed.

Lemma kahn_inv_init g : graph_ok g → kahn_inv g [] (initial_queue g) (g_indegree g).
Proof.
  intros Hg. unfold initial_queue. constructor; cbn.
  - apply NoDup_sorted_strings, NoDup_filter, NoDup_elements.
  - intros v. rewrite elem_of_sorted_strings, list_elem_of_filter, elem_of_elements. tauto.
  - intros v _. rewrite difference_empty_L. apply (go_indegree g Hg).
  - intros v Hv. rewrite elem_of_sorted_strings, list_elem_of_filter, elem_of_elements.
    rewrite (go_indegree g Hg). split.
    + intros [H0 _]. apply size_difference_empty. rewrite difference_empty_L. lia.
    + intros Hsub%size_difference_empty. rewrite difference_empty_L in Hsub. split; [lia|done].
  - set_solver.
Qed.

Section step.
Context (g : graph) (Hg : graph_ok g) (dn : list string) (n : string) (queue : list string)
  (ind : gmap string Z) (Hinv : kahn_inv g dn (n :: queue) ind).

Let targets : list string := sorted_strings (elements (successors g n)).

Lemma elem_of_targets v : v ∈ targets ↔ n ∈ predecessors g v.
Proof using Hg.
  unfold targets. rewrite elem_of_sorted_strings, elem_of_elements.
  by rewrite elem_of_predecessors.
Qed.

Lemma node_fresh : n ∉ dn.
Proof using Hinv.
  destruct Hinv as [Hnd _ _ _ _]. apply NoDup_app in Hnd as (_ & Hdisj & _).
  intros Hn. apply (Hdisj n Hn). left.
Qed.

Lemma node_known : n ∈ g_nodes g.
Proof using Hinv. apply (ki_nodes _ _ _ _ Hinv). apply elem_of_app. right. left. Qed.

Lemma predecessors_done : predecessors g n ⊆ list_to_set dn.
Proof using Hinv.
  apply (ki_ready _ _ _ _ Hinv); [apply node_known|]. apply elem_of_app. right. left.
Qed.

Lemma remaining_split v :
  Z.of_nat (size (predecessors g v ∖ list_to_set (dn ++ [n]))) =
  Z.of_nat (size (predecessors g v ∖ list_to_set dn)) - (if decide (v ∈ targets) then 1 else 0).
Proof using Hg Hinv.
  pose proof node_fresh as Hn. case_decide as Ht.
  - apply elem_of_targets in Ht.
    assert (predecessors g v ∖ list_to_set dn =
        {[n]} ∪ predecessors g v ∖ list_to_set (dn ++ [n])) as ->.
    { apply set_eq. intros u. rewrite elem_of_union, !elem_of_difference, elem_of_singleton,
        !elem_of_list_to_set, elem_of_app, list_elem_of_singleton.
      destruct (decide (u = n)) as [->|]; tauto. }
    rewrite size_insert_fresh; [lia|].
    rewrite elem_of_difference, elem_of_list_to_set, elem_of_app,
      list_elem_of_singleton. tauto.
  - rewrite elem_of_targets in Ht.
    assert (predecessors g v ∖ list_to_set (dn ++ [n]) = predecessors g v ∖ list_to_set dn)
      as ->; [|lia].
    apply set_eq. intros u. rewrite !elem_of_difference, !elem_of_list_to_set, elem_of_app,
      list_elem_of_singleton. destruct (decide (u = n)) as [->|]; tauto.
Qed.

Lemma kahn_inv_step :
  let '(ind', ready) := relax ind targets in kahn_inv g (dn ++ [n]) (queue ++ ready) ind'.
Proof using Hg Hinv.
  assert (NoDup targets) as Hnd by apply NoDup_sorted_strings, NoDup_elements.
  pose proof (relax_spec targets ind Hnd) as Hrelax.
  destruct (relax ind targets) as [ind' ready]. destruct Hrelax as [Hind Hready].
  assert (∀ v, v ∈ targets → v ∈ g_nodes g) as Htn.
  { intros v Hv%elem_of_targets. rewrite elem_of_predecessors in Hv by done.
    by apply (go_nodes g Hg n v). }
  assert (∀ v, v ∈ g_nodes g → default 0 (ind' !! v) =
      Z.of_nat (size (predecessors g v ∖ list_to_set (dn ++ [n])))) as Hcount.
  { intros v Hv. by rewrite Hind, remaining_split, (ki_count _ _ _ _ Hinv v Hv). }
  assert (∀ v, v ∈ ready ↔ v ∈ targets ∧ predecessors g v ⊆ list_to_set (dn ++ [n])) as Hr.
  { intros v. rewrite Hready, list_elem_of_filter. split.
    - intros [H0 Hv]. split; [done|].
      rewrite (ki_count _ _ _ _ Hinv v (Htn v Hv)) in H0.
      pose proof (remaining_split v) as Hs. rewrite decide_True in Hs by done.
      apply size_difference_empty. lia.
    - intros [Hv Hsub]. split; [|done].
      rewrite (ki_count _ _ _ _ Hinv v (Htn v Hv)).
      pose proof (remaining_split v) as Hs. rewrite decide_True in Hs by done.
      apply size_difference_empty in Hsub. lia. }
  assert (∀ v, v ∈ dn ++ n :: queue → v ∉ ready) as Hdisj.
  { intros v Hv Hvr. apply Hr in Hvr as [Ht%elem_of_targets _].
    pose proof (ki_nodes _ _ _ _ Hinv v Hv) as Hvn.
    apply (ki_ready _ _ _ _ Hinv v Hvn) in Hv.
    apply Hv, elem_of_list_to_set in Ht. by apply node_fresh. }
  constructor.
  - rewrite <- (assoc_L (++)), (assoc_L (++) [n]). rewrite (assoc_L (++) dn).
    apply NoDup_app. split_and!; [exact (ki_NoDup _ _ _ _ Hinv)| |].
    + intros v Hv. apply Hdisj. exact Hv.
    + rewrite Hready. by apply NoDup_filter.
  - intros v. rewrite !elem_of_app, list_elem_of_singleton. intros [[Hv| ->]|[Hv|Hv]].
    + apply (ki_nodes _ _ _ _ Hinv). apply elem_of_app. by left.
    + apply node_known.
    + apply (ki_nodes _ _ _ _ Hinv). apply elem_of_app. right. by right.
    + apply Hr in Hv as [Hv _]. by apply Htn.
  - exact Hcount.
  - intros v Hv. split.
    + intros Hin. assert (v ∈ dn ++ n :: queue ∨ v ∈ ready) as [Hq|Hq].
      { rewrite !elem_of_app, list_elem_of_singleton in Hin.
        rewrite elem_of_app, elem_of_cons. tauto. }
      * apply (ki_ready _ _ _ _ Hinv v Hv) in Hq. set_solver.
      * by apply Hr in Hq as [_ ?].
    + intros Hsub. destruct (decide (n ∈ predecessors g v)) as [Hn|Hn].
      * assert (v ∈ ready) by (apply Hr; by rewrite elem_of_targets).
        rewrite !elem_of_app. tauto.
      * assert (v ∈ dn ++ n :: queue) as Hq
          by (apply (ki_ready _ _ _ _ Hinv v Hv); set_solver).
        rewrite elem_of_app, elem_of_cons in Hq. rewrite !elem_of_app, list_elem_of_singleton.
        tauto.
  - intros v. rewrite elem_of_app, list_elem_of_singleton.
    intros [Hv| ->]; [by apply (ki_acc _ _ _ _ Hinv)|]. constructor. intros u Hu.
    apply (ki_acc _ _ _ _ Hinv). rewrite <- (elem_of_predecessors g u n Hg) in Hu.
    apply predecessors_done in Hu. by apply elem_of_list_to_set in Hu.
Qed.
End step.

(** ** The result *)

Lemma length_bounded (l : list string) (X : gset string) :
  NoDup l → (∀ v, v ∈ l → v ∈ X) → (length l ≤ size X)%nat.
Proof.
  intros Hnd Hsub. rewrite <- (size_list_to_set (C:=gset string) l Hnd).
  apply subseteq_size. intros v Hv%elem_of_list_to_set. by apply Hsub.
Qed.

Lemma kahn_inv_length g dn queue ind :
  kahn_inv g dn queue ind → (length dn + length queue ≤ size (g_nodes g))%nat.
Proof.
  intros Hinv. rewrite <- length_app.
  pose proof (ki_NoDup _ _ _ _ Hinv) as Hnd. pose proof (ki_nodes _ _ _ _ Hinv) as Hin.
  exact (length_bounded _ (g_nodes g) Hnd Hin).
Qed.

Lemma kahn_run g fuel dn queue ind :
  graph_ok g → kahn_inv g dn queue ind → (size (g_nodes g) ≤ fuel + length dn)%nat →
  ∃ dn' ind', kahn fuel g ind queue (Z.of_nat (length dn)) = Some (Z.of_nat (length dn')) ∧
    kahn_inv g dn' [] ind'.
Proof.
  intros Hg. revert dn queue ind.
  induction fuel as [|fuel IH]; intros dn [|n queue] ind Hinv Hfuel; cbn [kahn].
  - by exists dn, ind.
  - apply kahn_inv_length in Hinv. cbn in Hinv. lia.
  - by exists dn, ind.
  - pose proof (kahn_inv_step g Hg dn n queue ind Hinv) as Hstep. cbn zeta in Hstep.
    destruct (relax ind (sorted_strings (elements (successors g n)))) as [ind' ready].
    replace (Z.of_nat (length dn) + 1) with (Z.of_nat (length (dn ++ [n])))
      by (rewrite length_app; cbn; lia).
    apply IH; [exact Hstep|]. rewrite length_app. cbn. lia.
Qed.

(** A walk along the edges, backwards. *)
Fixpoint back_walk (g : graph) (v : string) (l : list string) : Prop :=
  match l with [] => True | u :: l => edge g u v ∧ back_walk g u l end.

Lemma back_walk_tc g v l x l' : back_walk g v (l ++ x :: l') → tc (edge g) x v.
Proof.
  revert v. induction l as [|u l IH]; intros v; cbn.
  - intros [He _]. by apply tc_once.
  - intros [He Hw]. eapply tc_r; [by apply IH|done].
Qed.

Lemma back_walk_app g v l1 x l2 :
  back_walk g v (l1 ++ x :: l2) → back_walk g x l2.
Proof.
  revert v. induction l1 as [|u l1 IH]; intros v; cbn; [tauto|].
  intros [_ Hw]. by apply (IH u).
Qed.

(** A finite set where every node has a predecessor contains a cycle. *)
Lemma no_source_cycle g (R : gset string) v :
  (∀ w, w ∈ R → ∃ u, u ∈ R ∧ edge g u w) → v ∈ R → ∃ x, tc (edge g) x x.
Proof.
  intros Hpred Hv.
  assert (∀ n w, w ∈ R → ∃ l, length l = n ∧ back_walk g w l ∧ Forall (.∈ R) l) as Hwalk.
  { induction n as [|n IH]; intros w Hw; [by exists []; split_and!|].
    destruct (Hpred w Hw) as (u & Hu & He).
    destruct (IH u Hu) as (l & Hl & Hb & Hf). exists (u :: l). cbn.
    split_and!; [by f_equal|done|done|by constructor]. }
  destruct (Hwalk (size R) v Hv) as (l & Hl & Hb & Hf).
  assert (¬ NoDup (v :: l)) as Hnd.
  { intros Hnd. apply (length_bounded _ R) in Hnd; [cbn in Hnd; lia|].
    rewrite Forall_forall in Hf. intros w [->|Hw]%elem_of_cons; auto. }
  apply not_NoDup_split in Hnd as (l1 & x & l2 & l3 & Heq). exists x.
  destruct l1 as [|u l1]; cbn in Heq; injection Heq as -> ->.
  - by apply back_walk_tc in Hb.
  - apply back_walk_app in Hb. by apply back_walk_tc in Hb.
Qed.

Lemma visited_nodes_spec g :
  graph_ok g → ∃ dn ind, visited_nodes g = Z.of_nat (length dn) ∧ kahn_inv g dn [] ind.
Proof.
  intros Hg.
  destruct (kahn_run g (size (g_nodes g)) [] (initial_queue g) (g_indegree g))
    as (dn & ind & Hk & Hinv); [done|by apply kahn_inv_init|cbn; lia|].
  exists dn, ind. split; [|done]. unfold visited_nodes.
  change (Z.of_nat (length [])) with 0 in Hk. by rewrite Hk.
Qed.

Lemma has_cycle_spec g : graph_ok g → has_cycle g = true ↔ ∃ v, tc (edge g) v v.
Proof.
  intros Hg. destruct (visited_nodes_spec g Hg) as (dn & ind & Hv & Hinv).
  pose proof (kahn_inv_length _ _ _ _ Hinv) as Hlen. cbn in Hlen.
  unfold has_cycle. rewrite Hv, andb_true_iff, negb_true_iff, Z.ltb_lt, Z.eqb_neq.
  assert (∀ v, v ∈ dn → v ∈ g_nodes g) as Hsub.
  { intros v Hin. apply (ki_nodes _ _ _ _ Hinv). by rewrite app_nil_r. }
  assert (NoDup dn) as Hnd by (pose proof (ki_NoDup _ _ _ _ Hinv) as H; by rewrite app_nil_r in H).
  split.
  - intros [_ Hne].
    destruct (set_choose_or_empty (g_nodes g ∖ list_to_set dn)) as [[v Hvr]|He].
    + apply (no_source_cycle g (g_nodes g ∖ list_to_set dn) v); [|done].
      intros w [Hw Hwd]%elem_of_difference. rewrite elem_of_list_to_set in Hwd.
      destruct (set_choose_or_empty (predecessors g w ∖ list_to_set dn)) as [[u Hu]|He].
      * apply elem_of_difference in Hu as [Hu Hud].
        rewrite elem_of_predecessors in Hu by done. exists u.
        split; [|done]. apply elem_of_difference. split; [|done].
        by apply (go_nodes g Hg u w).
      * exfalso. apply Hwd.
        assert (w ∈ dn ++ []) as Hin; [|by rewrite app_nil_r in Hin].
        apply (ki_ready _ _ _ _ Hinv w Hw). apply size_difference_empty.
        by apply size_empty_iff.
    + exfalso. apply size_empty_iff, size_difference_empty, subseteq_size in He.
      rewrite size_list_to_set in He by done. lia.
  - intros [v Hc].
    assert (v ∈ g_nodes g) as Hvn.
    { destruct (tc_last _ _ _ Hc) as [He|(u & _ & He)];
        by destruct (go_nodes g Hg _ _ He). }
    assert (v ∉ dn) as Hvd.
    { intros Hin. apply (ki_acc _ _ _ _ Hinv) in Hin. by apply (Acc_no_cycle _ _ Hin). }
    assert (length (v :: dn) ≤ size (g_nodes g))%nat as Hlt.
    { apply length_bounded; [by constructor|].
      intros w [->|Hw]%elem_of_cons; [done|by apply Hsub]. }
    cbn in Hlt. lia.
Qed.

(** The edges of a plan between its declared nodes. *)
Definition plan_edge (p : ExecutionPlan) (u v : string) : Prop :=
  u ∈ map node_id (nodes p) ∧ v ∈ map node_id (nodes p) ∧
  (u, v) ∈ map (λ e, (edge_source e, edge_target e)) (edges p).

Lemma plan_graph_edges p u v : edge (plan_graph p) u v ↔ plan_edge p u v.
Proof.
  destruct (edge_graph_spec (list_to_set (map node_id (nodes p))) (edges p)) as (_ & _ & He).
  fold (plan_graph p) in He. rewrite He. unfold plan_edge. set_solver.
Qed.

(** The cycle check finds the cycles of the declared edges. *)
Lemma has_cycle_plan p : has_cycle (plan_graph p) = true ↔ ∃ v, tc (plan_edge p) v v.
Proof.
  destruct (edge_graph_spec (list_to_set (map node_id (nodes p))) (edges p)) as (Hg & _).
  fold (plan_graph p) in Hg. rewrite has_cycle_spec by done.
  split; intros [v Hc]; exists v;
    (eapply tc_congruence with (f := λ x, x); [|exact Hc]); intros; by apply plan_graph_edges.
Qed.

(** C3: the plan validator reports a cycle exactly when the declared edges
    between declared nodes have one (self edges included), and its queue loop
    always ends within one turn per node. *)
Theorem plan_cycle_check_exact p :
  is_Some (kahn (size (g_nodes (plan_graph p))) (plan_graph p)
             (g_indegree (plan_graph p)) (initial_queue (plan_graph p)) 0) ∧
  (has_cycle (plan_graph p) = true ↔ ∃ v, tc (plan_edge p) v v).
Proof.
  destruct (edge_graph_spec (list_to_set (map node_id (nodes p))) (edges p)) as (Hg & _).
  fold (plan_graph p) in Hg. split; [|apply has_cycle_plan].
  destruct (kahn_run (plan_graph p) (size (g_nodes (plan_graph p))) []
    (initial_queue (plan_graph p)) (g_indegree (plan_graph p)) Hg)
    as (dn & ind & Hk & _); [by apply kahn_inv_init|cbn; lia|].
  change (Z.of_nat (length [])) with 0 in Hk. rewrite Hk. eauto.
Qed.
