(* ===== verification/PlanLaws.v ===== *)
(** * What an accepted plan guarantees

    The validator's issue list is empty only for well-formed plans, and a plan
    that arrives with a hash is accepted only under its own hash. *)
From S2P Require Import Prelude PyStr PyVal Digest Serialization SchemaEvolution Plan PlanGraph.

(** *** Enough fuel *)

Lemma depth_elem x l : x ∈ l → (val_depth x < val_depth (PList l))%nat.
Proof.
  induction l as [|y l IH]; [by intros []%elem_of_nil|]. cbn in *.
  intros [->|Hx]%elem_of_cons; [lia|]. specialize (IH Hx). lia.
Qed.

Lemma depth_get k v c : dict_get k c = Some v → (val_depth v < val_depth (PDict c))%nat.
Proof.
  intros Hk%dict_get_elem. cbn. induction c as [|y c IH]; [by apply elem_of_nil in Hk|]. cbn.
  apply elem_of_cons in Hk as [<-|Hk]; [cbn; lia|]. specialize (IH Hk). lia.
Qed.

Lemma depth_pos v : (1 ≤ val_depth v)%nat.
Proof. destruct v; cbn; lia. Qed.

Lemma concat_indexed_ext {A B} (f g : Z → A → list B) l i :
  (∀ j x, x ∈ l → f j x = g j x) → concat_indexed f i l = concat_indexed g i l.
Proof.
  revert i. induction l as [|x l IH]; intros i Hfg; cbn; [done|].
  rewrite Hfg by (by left). f_equal. apply IH. intros j y Hy. apply Hfg. by right.
Qed.

(** Any fuel from the nesting of the condition on gives the same issues, so the
    recursion of [validate_condition] never runs out. *)
Lemma validate_condition_fuel n m v path :
  (val_depth v ≤ n)%nat → (val_depth v ≤ m)%nat →
  _validate_condition n v path = _validate_condition m v path.
Proof.
  revert m v path. induction n as [|n IH]; intros m v path Hn Hm;
    [pose proof (depth_pos v); lia|].
  destruct m as [|m]; [pose proof (depth_pos v); lia|].
  destruct v as [| | | | | | |c]; try done. cbn [_validate_condition].
  case_bool_decide as Hop; [done|]. case_bool_decide.
  - destruct (dict_get "conditions" c) as [cs|] eqn:Hcs; [|done].
    apply depth_get in Hcs. destruct cs as [| | | | |[|x l]| |]; try done.
    apply concat_indexed_ext. intros j y Hy. apply depth_elem in Hy.
    apply IH; lia.
  - case_bool_decide as Hnot; [|done]. destruct (dict_get "condition" c) as [x|] eqn:Hx.
    + unfold dget. rewrite Hx. apply depth_get in Hx. cbn [from_option id]. apply IH; lia.
    + destruct c as [|kv c]; [done|]. unfold dget. rewrite Hx. cbn [from_option id].
      pose proof (depth_pos kv.2). cbn in Hn, Hm. destruct n as [|n], m as [|m]; try lia. done.
Qed.

Lemma sorted_set_nil l : sorted_set l = [] ↔ l = [].
Proof.
  unfold sorted_set, sorted_strings. split; [|by intros ->].
  intros H. apply (f_equal length) in H. rewrite length_sort_by in H.
  apply nil_length_inv in H. destruct l as [|x l]; [done|].
  assert (x ∈ remove_dups (x :: l)) as Hx by (apply elem_of_remove_dups; left).
  rewrite H in Hx. by apply elem_of_nil in Hx.
Qed.

Lemma duplicates_false ids : duplicates ids = false → NoDup ids.
Proof.
  unfold duplicates. rewrite negb_false_iff, Nat.eqb_eq.
  induction ids as [|x ids IH]; [constructor|]. cbn.
  assert (∀ l : list string, (length (remove_dups l) ≤ length l)%nat) as Hle.
  { induction l as [|y l IHl]; cbn; [done|]. destruct (decide_rel _ y l); cbn; lia. }
  pose proof (Hle ids). destruct (decide_rel _ x ids); cbn; [lia|].
  intros [= Heq]. constructor; auto.
Qed.

Lemma concat_nil {A} (ls : list (list A)) : concat ls = [] ↔ Forall (λ l, l = []) ls.
Proof.
  induction ls as [|l ls IH]; cbn; [by split|]. rewrite Forall_cons, <- IH.
  split; [apply app_nil|]. by intros [-> ->].
Qed.

Lemma concat_map_nil {A B} (f : A → list B) l :
  concat (map f l) = [] ↔ ∀ x, x ∈ l → f x = [].
Proof.
  rewrite concat_nil, Forall_forall. setoid_rewrite list_elem_of_fmap. naive_solver.
Qed.

Lemma concat_indexed_nil {A B} (f : Z → A → list B) i l :
  concat_indexed f i l = [] → ∀ x, x ∈ l → ∃ j, f j x = [].
Proof.
  revert i. induction l as [|y l IH]; intros i; cbn; [by intros _ x ?%elem_of_nil|].
  intros [Hy Hl]%app_nil x [->|Hx]%elem_of_cons; eauto.
Qed.

(** What the edges of an accepted plan satisfy. *)
Lemma validate_edges_nil known seen i es :
  validate_edges known seen i es = [] →
  (∀ e, e ∈ es → edge_source e ∈ known ∧ edge_target e ∈ known ∧
     edge_source e ≠ edge_target e ∧ ∃ path, validate_condition (edge_condition e) path = []) ∧
  NoDup (map (λ e, (edge_source e, edge_target e)) es) ∧
  (∀ pair, pair ∈ seen → pair ∉ map (λ e, (edge_source e, edge_target e)) es).
Proof.
  revert seen i. induction es as [|e es IH]; intros seen i H; cbn.
  { split_and!; [by intros ? ?%elem_of_nil|constructor|by intros ? _ ?%elem_of_nil]. }
  cbn in H. repeat match goal with H : _ ++ _ = [] |- _ => apply app_nil in H as [? H] end.
  rewrite !when_nil, !bool_decide_eq_false in *.
  destruct (IH _ _ H) as (Hes & Hnd & Hseen). split_and!.
  - intros e' [->|Hin]%elem_of_cons; [|by apply Hes].
    split_and!; [by apply dec_stable|by apply dec_stable|done|by eauto].
  - constructor; [|done]. apply Hseen. left.
  - intros pair Hp. rewrite not_elem_of_cons. split; [by intros ->|].
    apply Hseen. by right.
Qed.

Section with_routing.
Context `{ModelRouting}.

Record node_valid (p : ExecutionPlan) (n : ExecutionNode) : Prop := {
    nv_side_effect : side_effect_class n ∈ SIDE_EFFECT_CLASSES;
    nv_capabilities : ∀ c, c ∈ required_capabilities n → c ∈ capabilities p;
    nv_gate : node_gate_id n ≠ "" → node_gate_id n ∈ map gate_id (gates p);
    nv_artifacts : ∀ a, a ∈ input_artifacts n ++ output_artifacts n →
    a ∈ map artifact_id (artifacts p);
    nv_metadata : ∀ k, k ∈ RESERVED_METADATA_KEYS → dict_get k (node_metadata n) = None;
    nv_limit : ∀ v, dict_get "parallel_limit" (node_metadata n) = Some v →
    ∃ z, v = PInt z ∧ 1 ≤ z;
    nv_budget : ∀ b, node_budget n = Some b → 1 ≤ max_attempts b;
  }.

Lemma present_keys_nil keys d :
  present_keys keys d = [] → ∀ k, k ∈ keys → dict_get k d = None.
Proof.
  unfold present_keys. intros Hk k Hin. apply (proj1 (sorted_set_nil _)) in Hk.
  destruct (dict_get k d) as [v|] eqn:E; [|done]. exfalso.
  assert (k ∈ filter (λ k, is_Some (dict_get k d)) keys) as Hf
    by (apply list_elem_of_filter; rewrite E; eauto).
  rewrite Hk in Hf. by apply elem_of_nil in Hf.
Qed.

Lemma positive_integer_nil v path code :
  _validate_positive_integer v path code = [] → ∃ z, v = PInt z ∧ 1 ≤ z.
Proof.
  unfold _validate_positive_integer. rewrite when_nil. destruct v; try done.
  rewrite Z.ltb_ge. eauto.
Qed.

Lemma budget_validate_nil b path : budget_validate b path = [] → 1 ≤ max_attempts b.
Proof.
  unfold budget_validate. intros [Hb _]%app_nil. by apply when_nil, Z.ltb_ge in Hb.
Qed.

Lemma runtime_metadata_nil n path :
  _validate_node_runtime_metadata n path = Ok [] →
  ∀ v, dict_get "parallel_limit" (node_metadata n) = Some v → ∃ z, v = PInt z ∧ 1 ≤ z.
Proof.
  unfold _validate_node_runtime_metadata. intros Hr v Hv. rewrite Hv in Hr.
  result_inv. apply app_nil in Hr as [Hr _]. by eapply positive_integer_nil.
Qed.

Lemma validate_node_nil p i n : validate_node p i n = Ok [] → node_valid p n.
Proof.
  unfold validate_node. intros Hn. result_inv.
  repeat match goal with H : _ ++ _ = [] |- _ => apply app_nil in H as [? H] end.
  rewrite !when_nil, !bool_decide_eq_false in *. subst a.
  constructor.
  - by apply dec_stable.
  - intros c Hc. destruct (decide (c ∈ capabilities p)) as [|Hn']; [done|]. exfalso.
    match goal with Hm : ¬ sorted_set _ ≠ [] |- _ => apply dec_stable in Hm; apply (proj1 (sorted_set_nil _)) in Hm;
        assert (c ∈ filter (λ c, c ∉ capabilities p) (required_capabilities n)) as Hf
        by (by apply list_elem_of_filter); rewrite Hm in Hf end.
    by apply elem_of_nil in Hf.
  - intros Hg. match goal with Hm : str_true _ && _ = false |- _ =>
        rewrite (proj2 (str_true_spec _) Hg) in Hm; cbn in Hm;
        apply bool_decide_eq_false in Hm; by apply dec_stable in Hm end.
  - intros a Ha. match goal with Hm : concat (map _ _) = [] |- _ =>
        apply (proj1 (concat_map_nil _ _)) with (x := a) in Hm; [|done];
        apply when_nil, bool_decide_eq_false in Hm; by apply dec_stable in Hm end.
  - apply present_keys_nil. by apply dec_stable.
  - by eapply runtime_metadata_nil.
  - intros b Hb. rewrite Hb in *. by eapply budget_validate_nil.
Qed.

Lemma validate_nodes_nil p i ns : validate_nodes p i ns = Ok [] → ∀ n, n ∈ ns → node_valid p n.
Proof.
  revert i. induction ns as [|n ns IH]; intros i Hv m Hm; [by apply elem_of_nil in Hm|].
  cbn in Hv. result_inv. apply app_nil in Hv as [-> ->].
  apply elem_of_cons in Hm as [->|Hm]; [by eapply validate_node_nil|by eapply IH].
Qed.

Lemma single_producer arts ns a n1 n2 :
  _validate_artifact_contracts arts ns = [] →
  n1 ∈ ns → n2 ∈ ns → a ∈ output_artifacts n1 → a ∈ output_artifacts n2 →
  node_id n1 = node_id n2.
Proof.
  unfold _validate_artifact_contracts. intros Hv Hn1 Hn2 Ha1 Ha2.
  apply app_nil in Hv as [_ Hv]. apply app_nil in Hv as [_ Hv].
  assert (∀ n, n ∈ ns → a ∈ output_artifacts n → (a, node_id n) ∈ producers ns) as Hp.
  { intros n Hn Ha. unfold producers. apply list_elem_of_In, in_concat.
    exists (map (λ a, (a, node_id n)) (output_artifacts n)). split.
    - apply in_map_iff. exists n. split; [done|by apply list_elem_of_In].
    - apply in_map_iff. exists a. split; [done|by apply list_elem_of_In]. }
  rewrite concat_map_nil in Hv. specialize (Hv a). unfold sorted_set in Hv.
  rewrite elem_of_sorted_strings, elem_of_remove_dups in Hv.
  assert (a ∈ map fst (producers ns)) as Hin
    by (apply list_elem_of_fmap; exists (a, node_id n1); split; [done|by apply Hp]).
  specialize (Hv Hin). apply when_nil, Z.ltb_ge in Hv.
  assert (∀ n, n ∈ ns → a ∈ output_artifacts n → node_id n ∈ producers_of a ns) as Hq.
  { intros n Hn Ha. unfold producers_of. apply list_elem_of_fmap.
    exists (a, node_id n). split; [done|]. apply list_elem_of_filter.
    split; [done|by apply Hp]. }
  pose proof (Hq n1 Hn1 Ha1) as Hm1. pose proof (Hq n2 Hn2 Ha2) as Hm2.
  destruct (producers_of a ns) as [|x [|y l]]; cbn in Hv; [|clear Hv|lia].
  - by apply elem_of_nil in Hm1.
  - apply list_elem_of_singleton in Hm1, Hm2. congruence.
Qed.

(** What an accepted plan satisfies. *)
Record plan_valid (p : ExecutionPlan) : Prop := {
    pv_identity : tenant_id p ≠ "" ∧ plan_id p ≠ "" ∧ workflow_id p ≠ "" ∧ policy_version p ≠ "";
    pv_node_ids : nodes p ≠ [] ∧ NoDup (map node_id (nodes p)) ∧ "" ∉ map node_id (nodes p);
    pv_gate_ids : NoDup (map gate_id (gates p));
    pv_artifact_ids : NoDup (map artifact_id (artifacts p));
    pv_nodes : ∀ n, n ∈ nodes p → node_valid p n;
    pv_producers : ∀ a n1 n2, n1 ∈ nodes p → n2 ∈ nodes p → a ∈ output_artifacts n1 →
    a ∈ output_artifacts n2 → n1 = n2;
    pv_edges : ∀ e, e ∈ edges p → edge_source e ∈ map node_id (nodes p) ∧
    edge_target e ∈ map node_id (nodes p) ∧ edge_source e ≠ edge_target e;
    pv_edge_pairs : NoDup (map (λ e, (edge_source e, edge_target e)) (edges p));
    pv_merges : ∀ n, n ∈ nodes p → node_type n = "merge" →
    node_id n ∈ map edge_target (edges p);
    pv_acyclic : ∀ v, ¬ tc (plan_edge p) v v;
    pv_metadata : ∀ k, k ∈ RESERVED_METADATA_KEYS → dict_get k (plan_metadata p) = None;
    pv_limit : ∀ v, dict_get "parallel_limit" (plan_metadata p) = Some v → ∃ z, v = PInt z ∧ 1 ≤ z;
    pv_budget : 1 ≤ max_attempts (plan_budget p);
  }.

Lemma assert_valid_inv p : assert_valid p = Ok tt → plan_valid p.
Proof.
  unfold assert_valid, validate. intros Hv. result_inv. subst.
  apply bool_decide_eq_false, dec_stable in Hv.
  repeat match goal with H : _ ++ _ = [] |- _ => apply app_nil in H as [? H] end.
  rewrite !when_nil, !bool_decide_eq_false in *. subst a0.
  pose proof (duplicates_false (map node_id (nodes p)) ltac:(assumption)) as Hnd.
  match goal with He : validate_edges _ _ _ _ = [] |- _ =>
      destruct (validate_edges_nil _ _ _ _ He) as (Hedges & Hpairs & _) end.
  rewrite !negb_false_iff, !str_true_spec in *.
  match goal with Ha : _validate_artifact_contracts _ _ = [] |- _ =>
      pose proof Ha as Harts; apply app_nil in Harts as [_ Harts]; apply app_nil in Harts as [Harts _];
      apply when_nil, duplicates_false in Harts end.
  constructor; try done; [by apply duplicates_false| | | | | | | |].
  - by eapply validate_nodes_nil.
  - intros a n1 n2 Hn1 Hn2 Ha1 Ha2.
    eapply (NoDup_map_inj node_id); [exact Hnd|done..|by eapply single_producer].
  - intros e He. destruct (Hedges e He) as (? & ? & ? & _). done.
  - intros n Hn Hm.
    match goal with Hc : _validate_merge_sources _ _ = [] |- _ =>
        destruct (concat_indexed_nil _ _ _ Hc n Hn) as [j Hj] end.
    rewrite when_nil, Hm, bool_decide_true in Hj by done.
    by apply bool_decide_eq_false, dec_stable in Hj.
  - intros v Hc. pose proof (has_cycle_plan p) as Hcyc.
    rewrite (proj2 Hcyc (ex_intro _ v Hc)) in *. done.
  - apply present_keys_nil. by apply dec_stable.
  - intros v Hm. match goal with Hx : _validate_plan_runtime_metadata _ = [] |- _ =>
        unfold _validate_plan_runtime_metadata in Hx; rewrite Hm in Hx end. by eapply positive_integer_nil.
  - by eapply budget_validate_nil.
Qed.

(** C1: a plan that passes [assert_valid] is well formed: it is bound to a
    tenant, a workflow and a policy version; node identifiers are unique and not
    empty; every node has a known side-effect class and asks only for declared
    capabilities, gates and artifacts; no metadata key, of a node or of the plan,
    can shadow a contract field; gate and artifact identifiers are unique; each
    artifact has one producer; budgets allow an attempt and parallel limits are
    positive; edges join distinct declared nodes and are not repeated; merges
    have an input; and the dependencies have no cycle. *)
Theorem valid_plan_sound p :
  assert_valid p = Ok tt →
  (tenant_id p ≠ "" ∧ plan_id p ≠ "" ∧ workflow_id p ≠ "" ∧ policy_version p ≠ "") ∧
  (nodes p ≠ [] ∧ NoDup (map node_id (nodes p)) ∧ "" ∉ map node_id (nodes p)) ∧
  (∀ n, n ∈ nodes p → node_valid p n) ∧
  (∀ a n1 n2, n1 ∈ nodes p → n2 ∈ nodes p → a ∈ output_artifacts n1 →
    a ∈ output_artifacts n2 → n1 = n2) ∧
  (∀ e, e ∈ edges p → edge_source e ∈ map node_id (nodes p) ∧
    edge_target e ∈ map node_id (nodes p) ∧ edge_source e ≠ edge_target e) ∧
  NoDup (map (λ e, (edge_source e, edge_target e)) (edges p)) ∧
  (∀ n, n ∈ nodes p → node_type n = "merge" → node_id n ∈ map edge_target (edges p)) ∧
  (∀ v, ¬ tc (plan_edge p) v v) ∧
  (∀ k, k ∈ RESERVED_METADATA_KEYS → dict_get k (plan_metadata p) = None) ∧
  (∀ v, dict_get "parallel_limit" (plan_metadata p) = Some v → ∃ z, v = PInt z ∧ 1 ≤ z) ∧
  NoDup (map gate_id (gates p)) ∧ NoDup (map artifact_id (artifacts p)) ∧
  1 ≤ max_attempts (plan_budget p).
Proof. intros []%assert_valid_inv. done. Qed.

(** ** Hashes *)

Context `{Digest}.

Lemma payload_wf p d : plan_payload p = Ok d → dict_wf d.
Proof.
  unfold plan_payload. intros Hp. result_inv. subst d. unfold dict_wf, dict_keys. cbn.
  apply (bool_decide_unpack _). reflexivity.
Qed.

(** A plan that arrives with a hash is accepted only if it is the hash of
    the plan that was parsed, and accepting it with validation means it is
    valid. *)
Theorem from_mapping_checks_hash raw loaded p check :
  upcast_runtime_contract_for_loading raw "plan" = Ok loaded →
  from_mapping raw check = Ok p →
  let provided := strip (str_or_default (dget "plan_hash" loaded) "") in
  (provided ≠ "" → plan_hash p = Ok provided) ∧
  (check = true → assert_valid p = Ok tt).
Proof.
  unfold from_mapping. intros Hl Hf. rewrite Hl in Hf. cbn [mbind result_bind] in Hf.
  apply result_bind_Ok in Hf as (q & _ & Hf).
  apply result_bind_Ok in Hf as ([] & Hh & Hf).
  apply result_bind_Ok in Hf as ([] & Hc & Hf). injection Hf as ->. split.
  - intros Hne. rewrite (proj2 (str_true_spec _) Hne) in Hh. result_inv.
    apply bool_decide_eq_false, dec_stable in Hh. by rewrite <- Hh in Hrun.
  - intros ->. exact Hc.
Qed.

(** C31: the plan hash binds the plan: two plans with the same hash, whose floats
    are finite and read back from their text ([json_ok]), have the same serialized
    content, in particular the same tenant, policy version and
    capabilities, unless the canonical texts of these two contents clash in the
    hash function. *)
Theorem plan_hash_binds p q d e h :
  plan_payload p = Ok d → plan_payload q = Ok e →
  json_ok (PDict d) = true → json_ok (PDict e) = true →
  plan_hash p = Ok h → plan_hash q = Ok h →
  (norm (PDict d) = norm (PDict e) ∧ tenant_id p = tenant_id q ∧
    policy_version p = policy_version q ∧ capabilities p = capabilities q) ∨
  json_clash (PDict d) (PDict e).
Proof.
  intros Hp Hq Hd He. unfold plan_hash. rewrite Hp, Hq. cbn [mbind result_bind].
  intros H1 H2. destruct (sha256_json_binds _ _ _ Hd He H1 H2) as [Hn|Hc]; [left|by right].
  split; [done|].
  pose proof (payload_wf p d Hp) as Hwd. pose proof (payload_wf q e Hq) as Hwe.
  pose proof (norm_dict_get d e "tenant_id" Hwd Hwe Hn) as Ht.
  pose proof (norm_dict_get d e "policy_version" Hwd Hwe Hn) as Hv.
  pose proof (norm_dict_get d e "capabilities" Hwd Hwe Hn) as Hcap.
  unfold plan_payload in Hp, Hq. result_inv. subst d e. cbn in Ht, Hv, Hcap.
  injection Ht as Ht. injection Hv as Hv. injection Hcap as Hcap.
  split_and!; [done|done|].
  rewrite !map_map in Hcap. revert Hcap. generalize (capabilities p), (capabilities q).
  induction l as [|x l IH]; intros [|y m]; cbn; try done. intros [= -> Hl]. f_equal. auto.
Qed.
End with_routing.

(** ** Witnesses *)

Definition no_routing : ModelRouting :=
  {| routing_error := λ _, None; routing_metadata := λ _, Ok None |}.

Definition sample_raw : dict :=
  [("tenant_id", PStr "tenant"); ("plan_id", PStr "plan"); ("workflow_id", PStr "wf");
   ("policy_version", PStr "p1"); ("capabilities", PList [PStr "code"]);
   ("nodes", PList [PDict [("node_id", PStr "a")];
                    PDict [("node_id", PStr "b"); ("node_type", PStr "merge");
                           ("required_capabilities", PList [PStr "code"]);
                           ("metadata", PDict [("merge_strategy", PStr "ordered-by-node-id")])]]);
   ("edges", PList [PDict [("from", PStr "a"); ("to", PStr "b")]])].

Definition sample_plan : ExecutionPlan :=
  match @plan_of_mapping no_routing sample_raw with
  | Ok p => p
  | Err _ => {| tenant_id := ""; plan_id := ""; workflow_id := ""; policy_version := "";
                nodes := []; edges := []; capabilities := []; gates := []; artifacts := [];
                plan_budget := {| max_attempts := 1; timeout_seconds := lit 0 0;
                                  max_tokens := None; max_cost_micros := None |};
                plan_metadata := []; plan_schema := "" |}
  end.

Lemma valid_plan_sound_witness : ¬ tc (plan_edge sample_plan) "a" "a".
Proof. apply (@valid_plan_sound no_routing sample_plan). vm_compute. reflexivity. Defined.

Lemma from_mapping_checks_hash_witness :
  @assert_valid no_routing sample_plan = Ok tt.
Proof.
  apply (@from_mapping_checks_hash no_routing checksum_digest sample_raw sample_raw sample_plan
    true); vm_compute; reflexivity.
Defined.

Lemma plan_hash_binds_witness :
  ∃ d h, @plan_payload no_routing sample_plan = Ok d ∧
  @plan_hash no_routing checksum_digest sample_plan = Ok h ∧
  (norm (PDict d) = norm (PDict d) ∨ @json_clash checksum_digest (PDict d) (PDict d)).
Proof.
  destruct (@plan_payload no_routing sample_plan) as [d|e] eqn:Hd;
    [|vm_compute in Hd; discriminate Hd].
  destruct (@plan_hash no_routing checksum_digest sample_plan) as [h|e] eqn:Hh;
    [|vm_compute in Hh; discriminate Hh].
  assert (json_ok (PDict d) = true) as Hok.
  { vm_compute in Hd. injection Hd as <-. vm_compute. reflexivity. }
  exists d, h. split; [reflexivity|]. split; [reflexivity|].
  destruct (@plan_hash_binds no_routing checksum_digest sample_plan sample_plan d d h
    Hd Hd Hok Hok Hh Hh) as [[Hn _]|Hc]; [left; exact Hn|right; exact Hc].
Defined.
