(* ===== verification/Parallel.v ===== *)
(** * Bounded fan-out and merges (workflow_runtime/parallel.py)

    Selection of ready nodes within the tenant, worker, plan, capacity and group
    limits, and the deterministic merge of branch results. *)
From S2P Require Import Prelude PyStr PyVal Plan PlanGraph.

(** ** Data *)

Record DelegationCandidate := {
  dc_node_id : string;
  dc_task_kind : string;
  dc_required_capabilities : list string;
  dc_allowed_tools : list string;
}.

Record DelegationBatch := {
  candidates : list DelegationCandidate;
  deferred_node_ids : list string;
  effective_limit : Z;
}.

Record BranchResult := {
  br_node_id : string;
  br_status : string;
  br_value : pyval;
  br_reason_code : string;
}.

Record MergeResult := {
  mr_status : string;
  mr_value : pyval;
  mr_failed_branches : list string;
  mr_reason_code : string;
}.

(** ** Selection *)

Definition node_leb (a b : ExecutionNode) : bool := str_leb (node_id a) (node_id b).

(** [dependencies[node_id]] *)
Definition dependencies (p : ExecutionPlan) (n : string) : gset string :=
  list_to_set (map edge_source (filter (λ e, edge_target e = n) (edges p))).

Definition ready (p : ExecutionPlan) (completed running failed : gset string)
    (n : ExecutionNode) : Prop :=
  node_id n ∉ completed ∪ running ∪ failed ∧
  dependencies p (node_id n) ⊆ completed ∧
  dependencies p (node_id n) ∩ failed = ∅.

#[global] Instance ready_dec p completed running failed n :
  Decision (ready p completed running failed n).
Proof. unfold ready. apply _. Defined.

Definition ready_nodes (p : ExecutionPlan) (completed running failed : gset string)
    : list ExecutionNode :=
  sort_by node_leb (filter (ready p completed running failed) (nodes p)).

(** [{node.node_id: node for node in plan.nodes}] *)
Definition nodes_by_id (p : ExecutionPlan) : gmap string ExecutionNode :=
  foldl (λ m n, <[node_id n := n]> m) ∅ (nodes p).

Definition count (counts : gmap string Z) (group : string) : Z :=
  default 0 (counts !! group).

Definition bump (counts : gmap string Z) (group : string) : gmap string Z :=
  <[group := count counts group + 1]> counts.

(** The counts of the running nodes; a set is iterated in some order. *)
Fixpoint running_counts (by_id : gmap string ExecutionNode) (running : list string)
    (counts : gmap string Z) : result (gmap string Z) :=
  match running with
  | [] => Ok counts
  | id :: running =>
      match by_id !! id with
      | None => Err (KeyError id)
      | Some n => running_counts by_id running (bump counts (parallel_group n))
      end
  end.

Definition group_limit (available : Z) (n : ExecutionNode) : result Z :=
  py_int (por (dget "parallel_limit" (node_metadata n)) (por (PInt available) (PInt 1))).

(** The loop over the candidates. *)
Fixpoint select (available : Z) (cands : list ExecutionNode)
    (selected : list ExecutionNode) (counts : gmap string Z) (deferred : list string)
    : result (list ExecutionNode * list string) :=
  match cands with
  | [] => Ok (selected, deferred)
  | n :: cands =>
      limit ← group_limit available n;
      let group := parallel_group n in
      if (available <=? Z.of_nat (length selected)) || (limit <=? count counts group)
      then select available cands selected counts (deferred ++ [node_id n])
      else select available cands (selected ++ [n]) (bump counts group) deferred
  end.

Definition candidate_of (n : ExecutionNode) : DelegationCandidate :=
  {| dc_node_id := node_id n; dc_task_kind := task_kind n;
     dc_required_capabilities := required_capabilities n;
     dc_allowed_tools := allowed_tools n |}.

(** [capacity] is the answer of the capacity port, when one is given. *)
Definition available_slots (p : ExecutionPlan) (tenant_limit worker_limit : Z)
    (plan_limit capacity : option Z) (running : gset string) : result Z :=
  let raw := dget "parallel_limit" (plan_metadata p) in
  declared ← match raw with PNone => Ok (Z.max tenant_limit worker_limit) | _ => py_int raw end;
  let effective := from_option (Z.min declared) declared plan_limit in
  raise_when (effective <? 1) (ValueError "parallel_limit_invalid") ;;
  let available := Z.min (Z.min effective tenant_limit) worker_limit in
  let available := from_option (λ c, Z.min available (Z.max 0 c)) available capacity in
  Ok (Z.max 0 (available - Z.of_nat (size running))).

Definition select_ready (p : ExecutionPlan) (completed running failed : gset string)
    (tenant_limit worker_limit : Z) (plan_limit capacity : option Z)
    : result DelegationBatch :=
  raise_when ((tenant_limit <? 1) || (worker_limit <? 1)
      || from_option (λ l, l <? 1) false plan_limit)
    (ValueError "parallel_limit_invalid") ;;
  let node_ids : gset string := list_to_set (map node_id (nodes p)) in
  raise_when (negb (bool_decide (completed ∪ running ∪ failed ⊆ node_ids)))
    (ValueError "parallel_state_node_unknown") ;;
  for_each (λ e, raise_when (bool_decide (edge_target e ∉ node_ids)) (KeyError (edge_target e)))
    (edges p) ;;
  let cands := ready_nodes p completed running failed in
  available ← available_slots p tenant_limit worker_limit plan_limit capacity running;
  counts ← running_counts (nodes_by_id p) (elements running) ∅;
  out ← select available cands [] counts [];
  Ok {| candidates := map candidate_of out.1;
        deferred_node_ids := out.2;
        effective_limit := available |}.

(** ** Merge *)

Definition branch_leb (a b : BranchResult) : bool := str_leb (br_node_id a) (br_node_id b).

Definition completed_branch (r : BranchResult) : Prop := br_status r = "completed".
#[global] Instance completed_branch_dec r : Decision (completed_branch r).
Proof. unfold completed_branch. apply _. Defined.

Definition merge (results : list BranchResult) (strategy partial_failure : string)
    : result MergeResult :=
  raise_when (bool_decide (strategy ∉ MERGE_STRATEGIES))
    (ValueError "merge_strategy_unsupported") ;;
  raise_when (bool_decide (partial_failure ∉ MERGE_PARTIAL_FAILURE_POLICIES))
    (ValueError "merge_partial_failure_policy_invalid") ;;
  let ordered := sort_by branch_leb results in
  raise_when (duplicates (map br_node_id ordered)) (ValueError "merge_duplicate_branch") ;;
  let failed := map br_node_id (filter (λ r, ¬ completed_branch r) ordered) in
  if bool_decide (failed ≠ []) && bool_decide (partial_failure = "fail")
  then Ok {| mr_status := "failed"; mr_value := PNone; mr_failed_branches := failed;
             mr_reason_code := "merge_branch_failed" |}
  else
    let successful := filter completed_branch ordered in
    let value :=
      if bool_decide (strategy = "ordered-by-node-id")
      then PList (map br_value successful)
      else PDict (map (λ r, (br_node_id r, br_value r)) successful) in
    Ok {| mr_status := "completed"; mr_value := value; mr_failed_branches := failed;
          mr_reason_code := if bool_decide (failed ≠ []) then "merge_partial"
                            else "merge_complete" |}.

(** ** Laws of the selection loop *)

Lemma count_bump counts g h :
  count (bump counts g) h = count counts h + (if decide (h = g) then 1 else 0).
Proof.
  unfold count, bump. case_decide as H.
  - subst. rewrite lookup_insert_eq. done.
  - rewrite lookup_insert_ne by done. lia.
Qed.

(** How many nodes of a list belong to a group. *)
Definition in_group (g : string) (l : list ExecutionNode) : Z :=
  Z.of_nat (length (filter (λ n, parallel_group n = g) l)).

Lemma in_group_snoc g l n :
  in_group g (l ++ [n]) = in_group g l + (if decide (parallel_group n = g) then 1 else 0).
Proof.
  unfold in_group. rewrite filter_app, length_app, filter_cons, filter_nil.
  case_decide; cbn; lia.
Qed.

(** What a run of the loop adds to [selected] and [deferred]. *)
Lemma select_spec available cands selected counts deferred out :
  select available cands selected counts deferred = Ok out →
  ∃ new late, out = (selected ++ new, deferred ++ late) ∧
    map node_id cands ≡ₚ map node_id new ++ late ∧
    sublist new cands ∧
    (Z.of_nat (length selected) ≤ available → Z.of_nat (length out.1) ≤ available) ∧
    (∀ g limit, (∀ n, n ∈ cands → parallel_group n = g → group_limit available n = Ok limit) →
       count counts g + in_group g new ≤ Z.max limit (count counts g)).
Proof.
  revert selected counts deferred.
  induction cands as [|n cands IH]; intros selected counts deferred; cbn.
  { intros [= <-]. exists [], []. rewrite !app_nil_r. split_and!; try done.
    intros. unfold in_group. cbn. lia. }
  intros H. apply result_bind_Ok in H as (limit & Hlim & H).
  destruct (_ || _) eqn:Hfull.
  - apply IH in H as (new & late & -> & Hperm & Hsub & Hlen & Hgrp).
    exists new, (node_id n :: late). split_and!.
    + by rewrite <- (assoc_L (++)).
    + cbn. by rewrite Hperm, Permutation_middle.
    + by constructor.
    + exact Hlen.
    + intros g lim Hg. apply Hgrp. intros m Hm. apply Hg. by right.
  - apply orb_false_iff in Hfull as [Hav%Z.leb_gt Hcnt%Z.leb_gt].
    apply IH in H as (new & late & -> & Hperm & Hsub & Hlen & Hgrp).
    exists (n :: new), late. split_and!.
    + by rewrite <- (assoc_L (++)).
    + cbn. by rewrite Hperm.
    + by constructor.
    + intros _. apply Hlen. rewrite length_app. cbn. lia.
    + intros g lim Hg. specialize (Hgrp g lim). rewrite count_bump in Hgrp.
      change (n :: new) with ([n] ++ new). unfold in_group in *.
      rewrite filter_app, length_app, filter_cons, filter_nil.
      assert (∀ m, m ∈ cands → parallel_group m = g → group_limit available m = Ok lim) as Hg'
        by (intros m Hm; apply Hg; by right).
      specialize (Hgrp Hg'). destruct (decide (g = parallel_group n)) as [->|Hne].
      * rewrite decide_True by done. cbn. assert (limit = lim) as ->; [|lia].
        assert (Ok limit = Ok lim) as [=]; [|done].
        rewrite <- Hlim. apply Hg; [left|done].
      * rewrite decide_False by done. cbn. lia.
Qed.

Lemma running_counts_spec by_id running counts counts' :
  running_counts by_id running counts = Ok counts' →
  ∀ g, count counts' g = count counts g +
    sum_by (λ id, if decide (parallel_group <$> by_id !! id = Some g) then 1 else 0) running.
Proof.
  revert counts. induction running as [|id running IH]; intros counts; cbn [running_counts].
  { intros [= ->] g. cbn. lia. }
  destruct (by_id !! id) as [n|] eqn:Hn; [|done]. intros H g.
  rewrite (IH _ H g), count_bump, sum_by_cons, Hn. cbn.
  destruct (decide (g = parallel_group n)) as [->|Hne].
  - rewrite decide_True by done. lia.
  - rewrite (decide_False (P := Some (parallel_group n) = Some g)) by congruence. lia.
Qed.

(** The running nodes of a group. *)
Definition running_in_group (p : ExecutionPlan) (g : string) (running : gset string) : Z :=
  sum_by (λ id, if decide (parallel_group <$> nodes_by_id p !! id = Some g) then 1 else 0)
    (elements running).

Lemma available_slots_bounds p tenant worker plan_limit capacity running available :
  available_slots p tenant worker plan_limit capacity running = Ok available →
  0 ≤ available ∧
  (0 < available →
   available + Z.of_nat (size running) ≤ tenant ∧
   available + Z.of_nat (size running) ≤ worker ∧
   (∀ l, plan_limit = Some l → available + Z.of_nat (size running) ≤ l) ∧
   (∀ c, capacity = Some c → available + Z.of_nat (size running) ≤ c) ∧
   (∀ v l, dict_get "parallel_limit" (plan_metadata p) = Some v → v ≠ PNone →
      py_int v = Ok l → available + Z.of_nat (size running) ≤ l)).
Proof.
  unfold available_slots. intros H. apply result_bind_Ok in H as (declared & Hd & H).
  result_inv. apply Z.ltb_ge in Hrun. subst available. split; [apply Z.le_max_l|]. intros Hpos.
  assert (∀ l, plan_limit = Some l → from_option (Z.min declared) declared plan_limit ≤ l)
    as Hpl by (intros l ->; cbn; lia).
  assert (from_option (Z.min declared) declared plan_limit ≤ declared) as Hdl
    by (destruct plan_limit; cbn; lia).
  set (eff := from_option (Z.min declared) declared plan_limit) in *.
  assert (∀ c, capacity = Some c → from_option (λ c, Z.min (Z.min (Z.min eff tenant) worker)
    (Z.max 0 c)) (Z.min (Z.min eff tenant) worker) capacity ≤ Z.max 0 c) as Hcap
    by (intros c ->; cbn; lia).
  assert (from_option (λ c, Z.min (Z.min (Z.min eff tenant) worker) (Z.max 0 c))
    (Z.min (Z.min eff tenant) worker) capacity ≤ Z.min (Z.min eff tenant) worker) as Hle
    by (destruct capacity; cbn; lia).
  set (av := from_option _ _ capacity) in *.
  split_and!; [lia|lia| | |].
  - intros l Hl. specialize (Hpl l Hl). lia.
  - intros c Hc. specialize (Hcap c Hc). lia.
  - intros v l Hv Hne Hl. unfold dget in Hd. rewrite Hv in Hd. cbn in Hd.
    assert (declared = l) as -> by (destruct v; congruence). lia.
Qed.

Lemma elem_of_ready_nodes p completed running failed n :
  n ∈ ready_nodes p completed running failed ↔
  n ∈ nodes p ∧ ready p completed running failed n.
Proof. unfold ready_nodes. rewrite elem_of_sort_by, list_elem_of_filter. tauto. Qed.

(** C28: a selected batch respects every limit at once: with the nodes already
    running it fits the tenant, worker, declared plan, requested plan and
    capacity limits; every selected node is ready (not started, all its
    dependencies completed, none failed); and selected and deferred nodes are
    together exactly the ready nodes, so none is lost or started twice. *)
Theorem fan_out_bounded p completed running failed tenant worker plan_limit capacity batch :
  select_ready p completed running failed tenant worker plan_limit capacity = Ok batch →
  let started := Z.of_nat (length (candidates batch)) in
  let total := started + Z.of_nat (size running) in
  started ≤ effective_limit batch ∧
  (0 < started → total ≤ tenant ∧ total ≤ worker ∧
     (∀ l, plan_limit = Some l → total ≤ l) ∧ (∀ c, capacity = Some c → total ≤ c) ∧
     (∀ l, dict_get "parallel_limit" (plan_metadata p) = Some (PInt l) → total ≤ l)) ∧
  (∀ c, c ∈ candidates batch → ∃ n, n ∈ nodes p ∧ c = candidate_of n ∧
     ready p completed running failed n) ∧
  map node_id (ready_nodes p completed running failed) ≡ₚ
    map dc_node_id (candidates batch) ++ deferred_node_ids batch.
Proof.
  unfold select_ready. intros H. cbn zeta. result_inv.
  apply available_slots_bounds in Hrun2 as [Hpos Hbounds].
  apply select_spec in Hrun4 as (new & late & -> & Hperm & Hsub & Hlen & _).
  cbn in H. subst batch. cbn. rewrite length_map. cbn in Hlen. specialize (Hlen Hpos).
  split_and!; [exact Hlen| | |].
  - intros Hst. destruct Hbounds as (Ht & Hw & Hp & Hc & Hm); [lia|].
    split_and!; [lia|lia| | |].
    + intros l Hl. specialize (Hp l Hl). lia.
    + intros c Hcc. specialize (Hc c Hcc). lia.
    + intros l Hl. specialize (Hm (PInt l) l Hl). assert (PInt l ≠ PNone) as Hne by done.
      specialize (Hm Hne eq_refl). lia.
  - intros c Hc. apply list_elem_of_fmap in Hc as (n & -> & Hn). exists n.
    assert (n ∈ ready_nodes p completed running failed) as Hr
      by (by eapply elem_of_sublist).
    apply elem_of_ready_nodes in Hr as [Hn' Hr]. done.
  - rewrite Hperm. by rewrite map_map.
Qed.

(** A parallel group never exceeds its limit: when every ready node of a
    group declares the limit [limit], the group's running and newly selected
    nodes together stay within it, unless it was already over it. *)
Theorem group_limit_respected p completed running failed tenant worker plan_limit capacity
    batch g limit :
  select_ready p completed running failed tenant worker plan_limit capacity = Ok batch →
  0 < limit →
  (∀ n, n ∈ nodes p → parallel_group n = g →
     dict_get "parallel_limit" (node_metadata n) = Some (PInt limit)) →
  ∃ new, candidates batch = map candidate_of new ∧
    running_in_group p g running + in_group g new ≤
      Z.max limit (running_in_group p g running).
Proof.
  unfold select_ready. intros H Hpos Hlim. result_inv.
  pose proof (running_counts_spec _ _ _ _ Hrun3 g) as Hcnt.
  unfold count at 2 in Hcnt. rewrite lookup_empty in Hcnt. cbn in Hcnt.
  apply select_spec in Hrun4 as (new & late & -> & _ & _ & _ & Hgrp).
  cbn in H. subst batch. exists new. split; [done|].
  rewrite Z.add_0_l in Hcnt. fold (running_in_group p g running) in Hcnt.
  rewrite <- Hcnt. apply Hgrp.
  intros n [Hn _]%elem_of_ready_nodes Hg. unfold group_limit, dget.
  rewrite (Hlim n Hn Hg). cbn. unfold por, truthy.
  destruct (Z.eqb_spec limit 0); [lia|done].
Qed.


(** A merge loses no branch: it completes exactly when every branch completed
    or failures may be omitted; its value then holds the value of every
    completed branch, in node order, and the failed ones are listed. *)
Theorem merge_complete rs strategy partial_failure r :
  merge rs strategy partial_failure = Ok r →
  let failed := filter (λ b, ¬ completed_branch b) rs in
  let done := filter completed_branch rs in
  mr_failed_branches r ≡ₚ map br_node_id failed ∧
  (mr_status r = "completed" ↔ failed = [] ∨ partial_failure = "omit") ∧
  (mr_status r = "completed" → ∃ vs, map br_value done ≡ₚ vs.*2 ∧
     map br_node_id done ≡ₚ vs.*1 ∧
     StronglySorted (λ a b, str_leb a b = true) vs.*1 ∧
     mr_value r = if bool_decide (strategy = "ordered-by-node-id")
                  then PList vs.*2 else PDict vs).
Proof.
  unfold merge. intros H. cbn zeta. result_inv.
  apply bool_decide_eq_false, dec_stable in Hrun0.
  set (ordered := sort_by branch_leb rs) in *.
  assert (ordered ≡ₚ rs) as Hperm by apply sort_by_perm.
  assert (∀ (P : BranchResult → Prop) `{!∀ x, Decision (P x)}, filter P ordered ≡ₚ filter P rs)
    as Hfilter by (intros; by rewrite Hperm).
  assert (map br_node_id (filter (λ b, ¬ completed_branch b) ordered) = [] ↔
    filter (λ b, ¬ completed_branch b) rs = []) as Hnil.
  { rewrite <- !length_zero_iff_nil, length_map. by rewrite (Hfilter _ _). }
  assert (partial_failure = "fail" ∨ partial_failure = "omit") as Hpf
    by (unfold MERGE_PARTIAL_FAILURE_POLICIES in Hrun0; set_solver).
  destruct (_ && _) eqn:Hb.
  - rewrite andb_true_iff, !bool_decide_eq_true in Hb. destruct Hb as [Hne ->].
    injection H as <-. cbn. split_and!.
    + apply Permutation_map, Hfilter.
    + split; [done|]. rewrite <- Hnil. intros [?|?]; done.
    + done.
  - rewrite andb_false_iff, !bool_decide_eq_false in Hb.
    injection H as <-. cbn. split_and!.
    + apply Permutation_map, Hfilter.
    + split; [|done]. intros _. rewrite <- Hnil. destruct Hb as [Hb|Hb].
      * left. by apply dec_stable.
      * right. by destruct Hpf.
    + intros _. exists (map (λ r, (br_node_id r, br_value r)) (filter completed_branch ordered)).
      assert ((map (λ r, (br_node_id r, br_value r)) (filter completed_branch ordered)).*2 =
        map br_value (filter completed_branch ordered)) as E2
        by (rewrite <- list_fmap_compose; done).
      assert ((map (λ r, (br_node_id r, br_value r)) (filter completed_branch ordered)).*1 =
        map br_node_id (filter completed_branch ordered)) as E1
        by (rewrite <- list_fmap_compose; done).
      rewrite E1, E2. split_and!.
      * symmetry. apply Permutation_map, Hfilter.
      * symmetry. apply Permutation_map, Hfilter.
      * assert (StronglySorted (λ a b, branch_leb a b = true) (filter completed_branch ordered))
          as Hs.
        { apply StronglySorted_filter, sort_by_sorted; unfold branch_leb.
          - intros x y z. apply str_leb_trans.
          - intros x y. apply str_leb_total. }
        clear -Hs. induction Hs as [|x l Hl IH Hx]; cbn; constructor; [done|].
        apply Forall_map. exact Hx.
      * done.
Qed.

(** ** Witnesses *)

Definition node (id : string) (metadata : dict) : ExecutionNode :=
  {| node_id := id; node_type := "task"; task_kind := "coding"; required_capabilities := [];
     allowed_tools := []; input_artifacts := []; output_artifacts := [];
     node_gate_id := ""; side_effect_class := "none"; node_budget := None;
     node_metadata := metadata |}.

Definition limited : dict := [("parallel_limit", PInt 1); ("parallel_group", PStr "g")].

Definition fan_out_plan : ExecutionPlan :=
  {| tenant_id := "t"; plan_id := "p"; workflow_id := "w"; policy_version := "1";
     nodes := [node "d" limited; node "a" []; node "c" limited; node "b" []];
     edges := [{| edge_source := "a"; edge_target := "b"; edge_condition := [] |}];
     capabilities := []; gates := []; artifacts := [];
     plan_budget := {| max_attempts := 1; timeout_seconds := lit 300 0;
                       max_tokens := None; max_cost_micros := None |};
     plan_metadata := []; plan_schema := EXECUTION_PLAN_SCHEMA |}.

Definition fan_out_batch : DelegationBatch :=
  {| candidates := map candidate_of [node "b" []; node "c" limited];
     deferred_node_ids := ["d"]; effective_limit := 2 |}.

Lemma fan_out_run :
  select_ready fan_out_plan {["a"]} ∅ ∅ 2 5 None (Some 3) = Ok fan_out_batch.
Proof. vm_compute. reflexivity. Qed.

Lemma fan_out_bounded_witness : Z.of_nat (length (candidates fan_out_batch)) ≤ 2.
Proof.
  apply (fan_out_bounded fan_out_plan {["a"]} ∅ ∅ 2 5 None (Some 3) fan_out_batch).
  exact fan_out_run.
Defined.

Lemma group_limit_respected_witness :
  ∃ new, candidates fan_out_batch = map candidate_of new ∧
    running_in_group fan_out_plan "g" ∅ + in_group "g" new ≤
      Z.max 1 (running_in_group fan_out_plan "g" ∅).
Proof.
  apply (group_limit_respected fan_out_plan {["a"]} ∅ ∅ 2 5 None (Some 3) fan_out_batch "g" 1);
    [exact fan_out_run|lia|].
  intros n Hn Hg. cbn in Hn. repeat (apply elem_of_cons in Hn as [->|Hn]);
    try reflexivity; try discriminate Hg. by apply elem_of_nil in Hn.
Defined.

Definition branches : list BranchResult :=
  [{| br_node_id := "b"; br_status := "completed"; br_value := PInt 2; br_reason_code := "" |};
   {| br_node_id := "a"; br_status := "failed"; br_value := PNone; br_reason_code := "x" |};
   {| br_node_id := "c"; br_status := "completed"; br_value := PInt 3; br_reason_code := "" |}].

Definition merged : MergeResult :=
  {| mr_status := "completed"; mr_value := PList [PInt 2; PInt 3];
     mr_failed_branches := ["a"]; mr_reason_code := "merge_partial" |}.


Lemma merge_complete_witness : mr_failed_branches merged ≡ₚ ["a"].
Proof.
  apply (merge_complete branches "ordered-by-node-id" "omit" merged).
  vm_compute. reflexivity.
Defined.
