(* ===== verification/Events.v ===== *)
(** * Canonical workflow events (workflow_runtime/events.py)

    The event contract: construction, validation, the strict loading of
    transition events with its JSON budget, and the derived identifiers.  Clock
    readings and fresh identifiers are arguments. *)
From S2P Require Import Prelude PyStr PyVal Digest Serialization Identity SchemaEvolution Plan.

Definition CANONICAL_WORKFLOW_EVENT_SCHEMA : string := "ananta.workflow_event.v1".
Definition WORKFLOW_EVENT_TOPIC : string := "workflow.runtime.events".
Definition WORKFLOW_EVENT_COMMIT_INLINE : string := "inline_atomic".
Definition WORKFLOW_EVENT_COMMIT_OUTBOX : string := "transactional_outbox".
Definition WORKFLOW_EVENT_COMMIT_MODES : list string :=
  [WORKFLOW_EVENT_COMMIT_INLINE; WORKFLOW_EVENT_COMMIT_OUTBOX].
Definition _CANONICAL_EVENT_FIELDS : list string :=
  ["schema"; "event_id"; "tenant_id"; "workflow_id"; "run_id"; "step_id"; "attempt";
   "event_type"; "actor"; "correlation_id"; "causation_id"; "sequence"; "dedupe_key";
   "occurred_at"; "payload"].
Definition _MAX_TRANSITION_EVENT_BYTES : Z := 262144.
Definition _MAX_TRANSITION_JSON_DEPTH : Z := 32.
Definition _MAX_TRANSITION_JSON_ITEMS : Z := 10000.

(** ** Data *)

Record CanonicalWorkflowEvent := {
  ev_tenant_id : string;
  ev_workflow_id : string;
  ev_run_id : string;
  ev_event_type : string;
  ev_correlation_id : string;
  ev_causation_id : string;
  ev_dedupe_key : string;
  ev_sequence : Z;
  ev_step_id : string;
  ev_attempt : Z;
  ev_actor : string;
  ev_occurred_at : float;
  ev_payload : dict;
  ev_event_id : string;
  ev_schema : string;
}.

#[global] Instance event_eq_dec : EqDecision CanonicalWorkflowEvent.
Proof. solve_decision. Defined.

Definition set_sequence (e : CanonicalWorkflowEvent) (n : Z) : CanonicalWorkflowEvent :=
  {| ev_tenant_id := ev_tenant_id e; ev_workflow_id := ev_workflow_id e;
     ev_run_id := ev_run_id e; ev_event_type := ev_event_type e;
     ev_correlation_id := ev_correlation_id e; ev_causation_id := ev_causation_id e;
     ev_dedupe_key := ev_dedupe_key e; ev_sequence := n; ev_step_id := ev_step_id e;
     ev_attempt := ev_attempt e; ev_actor := ev_actor e;
     ev_occurred_at := ev_occurred_at e; ev_payload := ev_payload e;
     ev_event_id := ev_event_id e; ev_schema := ev_schema e |}.

(** ** Validation *)

Definition identity_issue (name : string) (value : pyval) : list ContractIssue :=
  match require_canonical_identity value name true DEFAULT_IDENTITY_MAX_LENGTH with
  | Err (IdentityValidationError reason field) => [issue reason field]
  | _ => []
  end.

Definition required_field (name value : string) : list ContractIssue :=
  when (negb (str_true value)) (issue (name +:+ "_required") name).

(** [validate], where the three identities are still arbitrary values. *)
Definition event_issues (tenant workflow run : pyval) (e : CanonicalWorkflowEvent)
    (allow_unsequenced : bool) : list ContractIssue :=
  identity_issue "tenant_id" tenant ++ identity_issue "workflow_id" workflow ++
  identity_issue "run_id" run ++
  required_field "event_type" (ev_event_type e) ++
  required_field "correlation_id" (ev_correlation_id e) ++
  required_field "causation_id" (ev_causation_id e) ++
  required_field "dedupe_key" (ev_dedupe_key e) ++
  required_field "event_id" (ev_event_id e) ++
  when (bool_decide (ev_schema e ≠ CANONICAL_WORKFLOW_EVENT_SCHEMA))
    (issue "workflow_event_schema_unsupported" "schema") ++
  when (ev_sequence e <? (if allow_unsequenced then 0 else 1))
    (issue "sequence_invalid" "sequence") ++
  when (ev_attempt e <? 0) (issue "attempt_invalid" "attempt") ++
  when (float_leb (ev_occurred_at e) (S754_zero false))
    (issue "occurred_at_invalid" "occurred_at").

Definition event_validate (e : CanonicalWorkflowEvent) (allow_unsequenced : bool)
    : list ContractIssue :=
  event_issues (PStr (ev_tenant_id e)) (PStr (ev_workflow_id e)) (PStr (ev_run_id e)) e
    allow_unsequenced.

Definition event_assert_valid (e : CanonicalWorkflowEvent) (allow_unsequenced : bool)
    : result unit :=
  let issues := event_validate e allow_unsequenced in
  raise_when (bool_decide (issues ≠ [])) (ContractValidationError issues).

Definition with_sequence (e : CanonicalWorkflowEvent) (n : Z)
    : result CanonicalWorkflowEvent :=
  let e := set_sequence e n in event_assert_valid e false ;; Ok e.

Definition event_to_dict (e : CanonicalWorkflowEvent) : dict :=
  [("schema", PStr (ev_schema e)); ("event_id", PStr (ev_event_id e));
   ("tenant_id", PStr (ev_tenant_id e)); ("workflow_id", PStr (ev_workflow_id e));
   ("run_id", PStr (ev_run_id e)); ("step_id", PStr (ev_step_id e));
   ("attempt", PInt (ev_attempt e)); ("event_type", PStr (ev_event_type e));
   ("actor", PStr (ev_actor e)); ("correlation_id", PStr (ev_correlation_id e));
   ("causation_id", PStr (ev_causation_id e)); ("sequence", PInt (ev_sequence e));
   ("dedupe_key", PStr (ev_dedupe_key e)); ("occurred_at", PFloat (ev_occurred_at e));
   ("payload", PDict (ev_payload e))].

(** [dict(redact_json(d))] *)
Definition redact_dict (d : dict) : dict :=
  match redact_json (PDict d) with PDict r => r | _ => [] end.

(** [str(actor or "system").strip() or "system"] *)
Definition clean_actor (v : pyval) : string :=
  str_or (strip (str_or_default v "system")) "system".

(** [str(v or "").strip()] *)
Definition clean (v : pyval) : string := strip (str_or_default v "").

Definition as_string (v : pyval) : string := match v with PStr s => s | _ => "" end.

(** [CanonicalWorkflowEvent.build]; [fresh] is the generated identifier and
    [now] the clock, used when the caller gives none.  The identities are
    arbitrary values, strings once they are validated. *)
Definition build (tenant_id workflow_id run_id : pyval)
    (event_type correlation_id causation_id dedupe_key step_id : string) (attempt : Z)
    (actor : string) (payload : dict) (occurred_at : option float)
    (event_id : option string) (fresh : string) (now : float)
    : result CanonicalWorkflowEvent :=
  let resolved_id := str_or (default "" event_id) fresh in
  let e :=
    {| ev_tenant_id := as_string tenant_id; ev_workflow_id := as_string workflow_id;
       ev_run_id := as_string run_id;
       ev_event_type := strip event_type; ev_correlation_id := strip correlation_id;
       ev_causation_id := strip causation_id;
       ev_dedupe_key := strip (str_or dedupe_key resolved_id);
       ev_sequence := 0; ev_step_id := strip step_id; ev_attempt := attempt;
       ev_actor := clean_actor (PStr actor);
       ev_occurred_at := default now occurred_at;
       ev_payload := redact_dict payload; ev_event_id := resolved_id;
       ev_schema := CANONICAL_WORKFLOW_EVENT_SCHEMA |} in
  let issues := event_issues tenant_id workflow_id run_id e true in
  raise_when (bool_decide (issues ≠ [])) (ContractValidationError issues) ;;
  Ok e.

(** The event of a loaded mapping; the three identities are validated as they
    are, so after validation they are strings. *)
Definition event_of_mapping (raw : dict) (now : float) : result CanonicalWorkflowEvent :=
  sequence ← py_int (por (dget "sequence" raw) (PInt 0));
  attempt ← py_int (por (dget "attempt" raw) (PInt 0));
  occurred_at ← py_float (por (por (dget "occurred_at" raw) (dget "timestamp" raw))
                            (PFloat now));
  payload ← py_dict (por (dget "payload" raw) (PDict []));
  let e :=
    {| ev_tenant_id := as_string (dget "tenant_id" raw);
       ev_workflow_id := as_string (dget "workflow_id" raw);
       ev_run_id := as_string (dget "run_id" raw);
       ev_event_type := clean (dget "event_type" raw);
       ev_correlation_id := clean (dget "correlation_id" raw);
       ev_causation_id := clean (dget "causation_id" raw);
       ev_dedupe_key := clean (por (dget "dedupe_key" raw) (dget "event_id" raw));
       ev_sequence := sequence;
       ev_step_id := clean (dget "step_id" raw);
       ev_attempt := attempt;
       ev_actor := clean_actor (dget "actor" raw);
       ev_occurred_at := occurred_at;
       ev_payload := redact_dict payload;
       ev_event_id := clean (dget "event_id" raw);
       ev_schema := str_or_default (dget "schema" raw) CANONICAL_WORKFLOW_EVENT_SCHEMA |} in
  let issues := event_issues (dget "tenant_id" raw) (dget "workflow_id" raw)
                  (dget "run_id" raw) e false in
  raise_when (bool_decide (issues ≠ [])) (ContractValidationError issues) ;;
  Ok e.

Section with_digest.
Context `{Digest}.

(** [CanonicalWorkflowEvent.from_mapping(raw)] *)
Definition event_from_mapping (raw : dict) (now : float) : result CanonicalWorkflowEvent :=
  raw ← upcast_runtime_contract_for_loading raw "event"; event_of_mapping raw now.

(** [_clone_event]; a stored event has its own time, so the clock is not read. *)
Definition _clone_event (e : CanonicalWorkflowEvent) : result CanonicalWorkflowEvent :=
  event_from_mapping (event_to_dict e) (S754_zero false).

Definition content_hash (e : CanonicalWorkflowEvent) : result string :=
  sha256_json (PDict (dict_del "event_id" (dict_del "sequence" (event_to_dict e)))).

Definition event_payload_equal (left right : CanonicalWorkflowEvent) : result bool :=
  a ← canonical_json (PDict (dict_set "sequence" (PInt 0) (event_to_dict left)));
  b ← canonical_json (PDict (dict_set "sequence" (PInt 0) (event_to_dict right)));
  Ok (bool_decide (a = b)).
End with_digest.

(** ** Transition payloads *)

(** The remaining items and bytes of [_TransitionJsonBudget]. *)
Record _TransitionJsonBudget := { remaining_items : Z; remaining_bytes : Z }.

Definition full_budget : _TransitionJsonBudget :=
  {| remaining_items := _MAX_TRANSITION_JSON_ITEMS;
     remaining_bytes := _MAX_TRANSITION_EVENT_BYTES |}.

Definition payload_invalid : exn :=
  OptimisticConcurrencyError "workflow_transition_event_payload_invalid".
Definition payload_too_large : exn :=
  OptimisticConcurrencyError "workflow_transition_event_payload_too_large".

Definition byte_len (s : string) : Z := Z.of_nat (length (utf8 s)).

Definition consume (value : string) : action _TransitionJsonBudget unit :=
  b ← get;
  let items := remaining_items b - 1 in
  lift (raise_when (items <? 0) payload_invalid) ;;
  let bytes := remaining_bytes b - byte_len value in
  put {| remaining_items := items; remaining_bytes := bytes |} ;;
  lift (raise_when (bytes <? 0) payload_too_large).

Fixpoint map_action {S A B} (f : A → action S B) (l : list A) : action S (list B) :=
  match l with
  | [] => mret []
  | x :: l => y ← f x; ys ← map_action f l; mret (y :: ys)
  end.

Definition key_ok (key : string) : bool :=
  str_true key && (str_len key <=? 256) && negb (has_nul key).

(** Values are trees, so the [ancestors] check of the code never fires. *)
Fixpoint _copy_transition_json (value : pyval) (depth : Z)
    : action _TransitionJsonBudget pyval :=
  if _MAX_TRANSITION_JSON_DEPTH <? depth then mthrow payload_invalid
  else
    match value with
    | PStr s => consume s ;; mret (PStr s)
    | PNone | PBool _ | PInt _ => consume "" ;; mret value
    | PFloat x =>
        consume "" ;;
        lift (raise_when (negb (is_finite x)) payload_invalid) ;; mret value
    | PList l | PTuple l =>
        consume "" ;;
        items ← map_action (λ item, _copy_transition_json item (depth + 1)) l;
        mret (PList items)
    | PDict d =>
        consume "" ;;
        items ← map_action (λ kv,
          lift (raise_when (negb (key_ok kv.1)) payload_invalid) ;;
          consume kv.1 ;;
          item ← _copy_transition_json kv.2 (depth + 1);
          mret (kv.1, item)) d;
        mret (PDict items)
    end.

(** [except (OverflowError, TypeError, ValueError, ...)] *)
Definition as_payload_invalid {A} (r : result A) : result A :=
  match r with
  | Err (OptimisticConcurrencyError c) => Err (OptimisticConcurrencyError c)
  | Err e => if is_value_or_type_error e || match e with OverflowError _ => true | _ => false end
             then Err payload_invalid else Err e
  | Ok x => Ok x
  end.

Definition workflow_transition_event_payload_copy (value : pyval) : result dict :=
  copied_encoded ← as_payload_invalid (
    copied ← (_copy_transition_json value 0 full_budget).1;
    match copied with
    | PDict d => encoded ← canonical_json (PDict d); Ok (d, encoded)
    | _ => Err (TypeError "")
    end);
  let '(copied, encoded) := copied_encoded in
  raise_when (_MAX_TRANSITION_EVENT_BYTES <? byte_len encoded) payload_too_large ;;
  a ← canonical_json (redact_json (PDict copied));
  raise_when (bool_decide (a ≠ encoded))
    (OptimisticConcurrencyError "workflow_transition_event_payload_sensitive") ;;
  Ok copied.

(** A string the transition contract accepts as an identifier. *)
Definition _transition_event_identifier (value : pyval) (maximum : Z) (reason : string)
    : result string :=
  let error := ValueError ("workflow_transition_event_" +:+ reason +:+ "_invalid") in
  match value with
  | PStr s =>
      raise_when (negb (str_true s) || bool_decide (s ≠ strip s) || (maximum <? str_len s)
                  || has_nul s) error ;;
      Ok s
  | _ => Err error
  end.

(** A number of the wrong type or range is a [TypeError] inside the code's
    [try] block; every exception but a concurrency error becomes one error. *)
Definition as_record_invalid {A} (r : result A) : result A :=
  match r with
  | Err (OptimisticConcurrencyError c) => Err (OptimisticConcurrencyError c)
  | Err _ => Err (OptimisticConcurrencyError "workflow_transition_event_record_invalid")
  | Ok x => Ok x
  end.

(** [isinstance(v, int)], not a [bool], and at least [minimum] *)
Definition strict_int (v : pyval) (minimum : Z) : result Z :=
  match v with
  | PInt n => raise_when (n <? minimum) (TypeError "") ;; Ok n
  | _ => Err (TypeError "")
  end.

(** A finite positive number that is not a [bool], as a float. *)
Definition strict_time (v : pyval) : result float :=
  match v with
  | PInt _ | PFloat _ =>
      x ← py_float v;
      raise_when (negb (is_finite x) || float_leb x (S754_zero false)) (TypeError "") ;;
      Ok x
  | _ => Err (TypeError "")
  end.

Definition canonical_workflow_event_from_exact_mapping (raw : dict)
    (allow_unsequenced : bool) : result CanonicalWorkflowEvent :=
  as_record_invalid (
    raise_when (negb (bool_decide (sorted_set (dict_keys raw)
                        = sorted_set _CANONICAL_EVENT_FIELDS))) (TypeError "") ;;
    raise_when (negb (py_eqb false (dget "schema" raw) (PStr CANONICAL_WORKFLOW_EVENT_SCHEMA)))
      (TypeError "") ;;
    tenant ← require_canonical_identity (dget "tenant_id" raw) "tenant_id" true
               DEFAULT_IDENTITY_MAX_LENGTH;
    workflow ← require_canonical_identity (dget "workflow_id" raw) "workflow_id" true
               DEFAULT_IDENTITY_MAX_LENGTH;
    run ← require_canonical_identity (dget "run_id" raw) "run_id" true
               DEFAULT_IDENTITY_MAX_LENGTH;
    event_id ← _transition_event_identifier (dget "event_id" raw) 512 "event_id";
    event_type ← _transition_event_identifier (dget "event_type" raw) 512 "event_type";
    actor ← _transition_event_identifier (dget "actor" raw) 512 "actor";
    correlation_id ← _transition_event_identifier (dget "correlation_id" raw) 512
                       "correlation_id";
    causation_id ← _transition_event_identifier (dget "causation_id" raw) 512
                     "causation_id";
    dedupe_key ← _transition_event_identifier (dget "dedupe_key" raw) 512 "dedupe_key";
    step_id ← match dget "step_id" raw with
      | PStr s => raise_when (bool_decide (s ≠ strip s) || (512 <? str_len s) || has_nul s)
                    (TypeError "") ;; Ok s
      | _ => Err (TypeError "")
      end;
    sequence ← strict_int (dget "sequence" raw) (if allow_unsequenced then 0 else 1);
    attempt ← strict_int (dget "attempt" raw) 0;
    occurred_at ← strict_time (dget "occurred_at" raw);
    payload ← workflow_transition_event_payload_copy (dget "payload" raw);
    let e :=
      {| ev_tenant_id := tenant; ev_workflow_id := workflow; ev_run_id := run;
         ev_event_type := event_type; ev_correlation_id := correlation_id;
         ev_causation_id := causation_id; ev_dedupe_key := dedupe_key;
         ev_sequence := sequence; ev_step_id := step_id; ev_attempt := attempt;
         ev_actor := actor; ev_occurred_at := occurred_at; ev_payload := payload;
         ev_event_id := event_id; ev_schema := CANONICAL_WORKFLOW_EVENT_SCHEMA |} in
    event_assert_valid e allow_unsequenced ;;
    text ← canonical_json (PDict (event_to_dict e));
    raw_text ← canonical_json (PDict raw);
    raise_when (bool_decide (text ≠ raw_text)) (TypeError "") ;;
    raise_when (_MAX_TRANSITION_EVENT_BYTES <? byte_len text) payload_too_large ;;
    Ok e).

(** ** Derived identifiers and commit proofs *)

Definition workflow_event_delivery_dedupe_key (e : CanonicalWorkflowEvent) : result string :=
  event_assert_valid e false ;; Ok (ev_run_id e +:+ ":" +:+ ev_dedupe_key e).

Definition unit_separator : string := str1 "031"%char.

Section with_digest.
Context `{Digest}.

Definition workflow_event_outbox_id (e : CanonicalWorkflowEvent) : result string :=
  delivery_key ← workflow_event_delivery_dedupe_key e;
  let framed := PyStr.join unit_separator
  ["wfro"; ev_tenant_id e; WORKFLOW_EVENT_TOPIC; delivery_key] in
  Ok ("wfro-" +:+ hexdigest (utf8 framed)).
End with_digest.

Record WorkflowEventCommitProof := {
  commit_id : string;
  delivery_mode : string;
  cp_tenant_id : string;
  aggregate_id : string;
  topic : string;
  cp_dedupe_key : string;
  created_at : float;
  payload_digest : string;
}.

(** [__post_init__] of a proof whose fields are strings and a float. *)
Definition commit_post_init (c : WorkflowEventCommitProof) : result WorkflowEventCommitProof :=
  require_canonical_identity (PStr (cp_tenant_id c)) "tenant_id" true
    DEFAULT_IDENTITY_MAX_LENGTH ;;
  require_canonical_identity (PStr (aggregate_id c)) "run_id" true
    DEFAULT_IDENTITY_MAX_LENGTH ;;
  raise_when (bool_decide (delivery_mode c ∉ WORKFLOW_EVENT_COMMIT_MODES))
    (OptimisticConcurrencyError "workflow_event_commit_mode_invalid") ;;
  raise_when (bool_decide (topic c ≠ WORKFLOW_EVENT_TOPIC))
    (OptimisticConcurrencyError "workflow_event_commit_topic_conflict") ;;
  _transition_event_identifier (PStr (commit_id c)) 80 "commit_id" ;;
  _transition_event_identifier (PStr (cp_dedupe_key c)) 768 "outbox_dedupe_key" ;;
  raise_when (negb (is_finite (created_at c)) || float_leb (created_at c) (S754_zero false))
    (OptimisticConcurrencyError "workflow_event_commit_timestamp_invalid") ;;
  raise_when (negb (sha256_re (payload_digest c)))
    (OptimisticConcurrencyError "workflow_event_commit_payload_digest_invalid") ;;
  Ok c.

Section with_digest.
Context `{Digest}.

Definition commit_for_event (e : CanonicalWorkflowEvent) (mode : string)
  : result WorkflowEventCommitProof :=
  commit_id ← workflow_event_outbox_id e;
  dedupe_key ← workflow_event_delivery_dedupe_key e;
  digest ← sha256_json (PDict (event_to_dict e));
  commit_post_init
  {| commit_id := commit_id; delivery_mode := mode; cp_tenant_id := ev_tenant_id e;
    aggregate_id := ev_run_id e; topic := WORKFLOW_EVENT_TOPIC;
    cp_dedupe_key := dedupe_key; created_at := ev_occurred_at e;
    payload_digest := digest |}.
End with_digest.

(** [workflow_event_dedupe_read_binding] *)
Definition workflow_event_dedupe_read_binding (tenant_id workflow_id run_id dedupe_key : pyval)
    : result (string * string * string * string) :=
  tenant ← require_canonical_identity tenant_id "tenant_id" true DEFAULT_IDENTITY_MAX_LENGTH;
  workflow ← require_canonical_identity workflow_id "workflow_id" true
               DEFAULT_IDENTITY_MAX_LENGTH;
  run ← require_canonical_identity run_id "run_id" true DEFAULT_IDENTITY_MAX_LENGTH;
  match dedupe_key with
  | PStr s =>
      raise_when (negb (str_true s) || bool_decide (s ≠ strip s) || (512 <? str_len s)
                  || has_nul s) (ValueError "workflow_event_dedupe_key_invalid") ;;
      Ok (tenant, workflow, run, s)
  | _ => Err (ValueError "workflow_event_dedupe_key_invalid")
  end.

Definition workflow_transition_event_observation_binding
    (tenant_id workflow_id run_id dedupe_key event_id : pyval)
    : result (string * string * string * string * string) :=
  binding ← workflow_event_dedupe_read_binding tenant_id workflow_id run_id dedupe_key;
  identity ← _transition_event_identifier event_id 512 "event_id";
  Ok (binding, identity).


(** ** Loading and cloning *)

(** The fields [from_mapping] cleans are clean. *)
Record event_clean (e : CanonicalWorkflowEvent) : Prop := {
  cl_event_type : strip (ev_event_type e) = ev_event_type e;
  cl_correlation : strip (ev_correlation_id e) = ev_correlation_id e;
  cl_causation : strip (ev_causation_id e) = ev_causation_id e;
  cl_dedupe : strip (ev_dedupe_key e) = ev_dedupe_key e;
  cl_event_id : strip (ev_event_id e) = ev_event_id e;
  cl_step : strip (ev_step_id e) = ev_step_id e;
  cl_actor : clean_actor (PStr (ev_actor e)) = ev_actor e;
  cl_payload : redact_dict (ev_payload e) = ev_payload e;
}.

Definition event_ok (e : CanonicalWorkflowEvent) (allow_unsequenced : bool) : Prop :=
  event_validate e allow_unsequenced = [].

Lemma event_assert_valid_Ok e b u : event_assert_valid e b = Ok u ↔ event_ok e b.
Proof.
  unfold event_assert_valid, event_ok. rewrite raise_when_Ok, bool_decide_eq_false.
  split; [apply dec_stable|by intros H Hn].
Qed.

Lemma app_nil_iff {A} (l k : list A) : l ++ k = [] ↔ l = [] ∧ k = [].
Proof. split; [apply app_eq_nil|by intros [-> ->]]. Qed.

Lemma identity_issue_nil name s : identity_issue name (PStr s) = [] ↔
  is_ok (require_canonical_identity (PStr s) name true DEFAULT_IDENTITY_MAX_LENGTH) = true.
Proof.
  unfold identity_issue. destruct (require_canonical_identity _ _ _ _) as [t|e] eqn:He; [done|].
  apply require_canonical_identity_error in He as (suffix & -> & _). done.
Qed.

Lemma event_ok_inv e b :
  event_ok e b ↔
  (∀ name v, (name, v) ∈ [("tenant_id", ev_tenant_id e); ("workflow_id", ev_workflow_id e);
                          ("run_id", ev_run_id e)] → identity_issue name (PStr v) = []) ∧
  (ev_event_type e ≠ "" ∧ ev_correlation_id e ≠ "" ∧ ev_causation_id e ≠ "" ∧
   ev_dedupe_key e ≠ "" ∧ ev_event_id e ≠ "") ∧
  ev_schema e = CANONICAL_WORKFLOW_EVENT_SCHEMA ∧
  (if b then 0 else 1) ≤ ev_sequence e ∧ 0 ≤ ev_attempt e ∧
  float_leb (ev_occurred_at e) (S754_zero false) = false.
Proof.
  unfold event_ok, event_validate, event_issues, required_field.
  rewrite !app_nil_iff, !when_nil, !negb_false_iff, !str_true_spec, bool_decide_eq_false,
    !Z.ltb_ge. setoid_rewrite elem_of_cons. setoid_rewrite elem_of_cons.
  setoid_rewrite list_elem_of_singleton. split.
  - intros (? & ? & ? & ? & ? & ? & ? & ? & Hs & ? & ? & ?).
    split_and!; try done; [|by apply dec_stable].
    by intros name v [[= -> ->]|[[= -> ->]|[= -> ->]]].
  - intros (Hid & (? & ? & ? & ? & ?) & ? & ? & ? & ?). split_and!; auto.
Qed.

(** The event [from_mapping] makes of the dictionary of an event. *)
Definition clean_event (e : CanonicalWorkflowEvent) : CanonicalWorkflowEvent :=
  {| ev_tenant_id := ev_tenant_id e; ev_workflow_id := ev_workflow_id e;
     ev_run_id := ev_run_id e;
     ev_event_type := strip (ev_event_type e); ev_correlation_id := strip (ev_correlation_id e);
     ev_causation_id := strip (ev_causation_id e); ev_dedupe_key := strip (ev_dedupe_key e);
     ev_sequence := ev_sequence e; ev_step_id := strip (ev_step_id e);
     ev_attempt := ev_attempt e; ev_actor := clean_actor (PStr (ev_actor e));
     ev_occurred_at := ev_occurred_at e; ev_payload := redact_dict (ev_payload e);
     ev_event_id := strip (ev_event_id e); ev_schema := ev_schema e |}.

Lemma clean_event_id e : event_clean e → clean_event e = e.
Proof. intros [? ? ? ? ? ? ? ?]. destruct e; unfold clean_event; cbn in *. congruence. Qed.

Lemma redact_dict_eq d : PDict (redact_dict d) = redact_json (PDict d).
Proof. done. Qed.

Lemma redact_dict_idemp d : redact_dict (redact_dict d) = redact_dict d.
Proof.
  enough (PDict (redact_dict (redact_dict d)) = PDict (redact_dict d)) as [= ->] by done.
  rewrite !redact_dict_eq.
  apply redact_json_id; [apply redact_json_no_leak|apply redact_json_no_tuple].
Qed.

Lemma clean_PStr s : clean (PStr s) = strip s.
Proof. unfold clean, str_or_default, por. cbn. destruct s; done. Qed.

Lemma clean_actor_eq s : clean_actor (PStr s) = str_or (strip s) "system".
Proof.
  unfold clean_actor, str_or_default, por. cbn [truthy]. destruct (str_true s) eqn:Hs; [done|].
  apply str_true_false in Hs as ->. done.
Qed.

Lemma clean_actor_idemp s : clean_actor (PStr (clean_actor (PStr s))) = clean_actor (PStr s).
Proof.
  rewrite !clean_actor_eq. unfold str_or. destruct (str_true (strip s)) eqn:Hs; [|done].
  by rewrite strip_idemp, Hs.
Qed.

Lemma clean_event_clean e : event_clean (clean_event e).
Proof.
  split; unfold clean_event; cbn [ev_event_type ev_correlation_id ev_causation_id ev_dedupe_key
    ev_event_id ev_step_id ev_actor ev_payload]; auto using strip_idemp, clean_actor_idemp,
    redact_dict_idemp.
Qed.

Section clone_laws.
Context `{Digest}.

Lemma loading_event_to_dict e :
  ev_schema e = CANONICAL_WORKFLOW_EVENT_SCHEMA →
  upcast_runtime_contract_for_loading (event_to_dict e) "event" = Ok (event_to_dict e).
Proof.
  intros Hs. unfold upcast_runtime_contract_for_loading.
  change (RUNTIME_CONTRACT_TARGETS "event") with (Some CANONICAL_WORKFLOW_EVENT_SCHEMA).
  cbv iota beta zeta.
  replace (str_or_default (dget "schema" (event_to_dict e)) "")
    with CANONICAL_WORKFLOW_EVENT_SCHEMA; [done|].
  change (dget "schema" (event_to_dict e)) with (PStr (ev_schema e)). by rewrite Hs.
Qed.

Lemma por_int n : por (PInt n) (PInt 0) = PInt n.
Proof. unfold por. cbn. by destruct (Z.eqb_spec n 0) as [->|]. Qed.

Lemma positive_truthy x : float_leb x (S754_zero false) = false → truthy (PFloat x) = true.
Proof. by destruct x. Qed.

Lemma as_string_issues e b :
  event_issues (PStr (ev_tenant_id e)) (PStr (ev_workflow_id e)) (PStr (ev_run_id e)) e b
  = event_validate e b.
Proof. done. Qed.

(** What cloning a valid event does. *)
Lemma clone_event_eq e :
  event_ok e false →
  _clone_event e = (event_assert_valid (clean_event e) false ;; Ok (clean_event e)).
Proof.
  intros Hok. apply event_ok_inv in Hok as (_ & (_ & _ & _ & Hd & _) & Hs & _ & _ & Ht).
  unfold _clone_event, event_from_mapping. rewrite loading_event_to_dict by done.
  cbn [mbind result_bind]. unfold event_of_mapping.
  change (dget "sequence" (event_to_dict e)) with (PInt (ev_sequence e)).
  change (dget "attempt" (event_to_dict e)) with (PInt (ev_attempt e)).
  change (dget "occurred_at" (event_to_dict e)) with (PFloat (ev_occurred_at e)).
  change (dget "payload" (event_to_dict e)) with (PDict (ev_payload e)).
  change (dget "dedupe_key" (event_to_dict e)) with (PStr (ev_dedupe_key e)).
  change (dget "event_id" (event_to_dict e)) with (PStr (ev_event_id e)).
  change (dget "event_type" (event_to_dict e)) with (PStr (ev_event_type e)).
  change (dget "correlation_id" (event_to_dict e)) with (PStr (ev_correlation_id e)).
  change (dget "causation_id" (event_to_dict e)) with (PStr (ev_causation_id e)).
  change (dget "step_id" (event_to_dict e)) with (PStr (ev_step_id e)).
  change (dget "actor" (event_to_dict e)) with (PStr (ev_actor e)).
  change (dget "schema" (event_to_dict e)) with (PStr (ev_schema e)).
  change (dget "tenant_id" (event_to_dict e)) with (PStr (ev_tenant_id e)).
  change (dget "workflow_id" (event_to_dict e)) with (PStr (ev_workflow_id e)).
  change (dget "run_id" (event_to_dict e)) with (PStr (ev_run_id e)).
  rewrite !por_int. cbn [py_int mbind result_bind].
  assert (∀ w, por (por (PFloat (ev_occurred_at e)) w) (PFloat (S754_zero false))
      = PFloat (ev_occurred_at e)) as ->
    by (intros w; unfold por; rewrite positive_truthy by done; by rewrite positive_truthy).
  cbn [py_float mbind result_bind].
  assert (py_dict (por (PDict (ev_payload e)) (PDict [])) = Ok (ev_payload e)) as ->
    by (unfold por; cbn; by destruct (ev_payload e)).
  cbn [mbind result_bind].
  assert (por (PStr (ev_dedupe_key e)) (PStr (ev_event_id e)) = PStr (ev_dedupe_key e)) as ->
    by (unfold por; cbn; rewrite (proj2 (str_true_spec _)) by done; done).
  rewrite !clean_PStr.
  assert (str_or_default (PStr (ev_schema e)) CANONICAL_WORKFLOW_EVENT_SCHEMA = ev_schema e) as ->
    by (rewrite Hs; done).
  done.
Qed.

Lemma clone_event_id e : event_ok e false → event_clean e → _clone_event e = Ok e.
Proof.
  intros Hok Hc. rewrite clone_event_eq, clean_event_id by done.
  by rewrite (proj2 (event_assert_valid_Ok e false tt)).
Qed.

Lemma clone_event_Ok e e' :
  event_ok e false → _clone_event e = Ok e' →
  e' = clean_event e ∧ event_ok e' false ∧ event_clean e'.
Proof.
  intros Hok. rewrite clone_event_eq by done. intros Hc. result_inv. subst e'.
  apply event_assert_valid_Ok in Hrun. auto using clean_event_clean.
Qed.

Lemma set_sequence_ok e n : event_ok e true → 1 ≤ n → event_ok (set_sequence e n) false.
Proof. rewrite !event_ok_inv. cbn. tauto. Qed.

Lemma event_ok_weaken e : event_ok e false → event_ok e true.
Proof. rewrite !event_ok_inv. intros (? & ? & ? & ? & ? & ?). split_and!; try done; lia || tauto. Qed.

Lemma set_sequence_clean e n : event_clean e → event_clean (set_sequence e n).
Proof. intros [? ? ? ? ? ? ? ?]. by split. Qed.

Lemma content_hash_set_sequence e n : content_hash (set_sequence e n) = content_hash e.
Proof. done. Qed.

(** Events made by [build] are clean, up to an identifier given by the caller. *)
Lemma build_clean t w r et co ca dk st at' ac pl oc eid fresh now e :
  build t w r et co ca dk st at' ac pl oc eid fresh now = Ok e →
  strip (ev_event_id e) = ev_event_id e → event_clean e ∧ event_ok e true.
Proof.
  unfold build. intros Hb Hid. result_inv. apply bool_decide_eq_false, dec_stable in Hrun.
  match type of Hrun with event_issues _ _ _ ?x _ = _ => set (e0 := x) in * end. subst e.
  split.
  - split; cbn -[redact_dict clean_actor] in *;
      [apply strip_idemp..|exact Hid|apply strip_idemp|apply clean_actor_idemp
      |apply redact_dict_idemp].
  - unfold event_ok, event_validate. rewrite <- Hrun. unfold event_issues.
    assert (∀ name v, identity_issue name v = [] → PStr (as_string v) = v) as Hstr.
    { intros name [] Hi; try done; cbn in Hi. }
    pose proof Hrun as Hrun'. unfold event_issues in Hrun'. rewrite !app_nil_iff in Hrun'.
    destruct Hrun' as (H1 & H2 & H3 & _). cbn [e0 ev_tenant_id ev_workflow_id ev_run_id].
    rewrite (Hstr _ _ H1), (Hstr _ _ H2), (Hstr _ _ H3). done.
Qed.
End clone_laws.
