(* ===== verification/EventPayload.v ===== *)
(** * Transition event payloads (workflow_runtime/events.py)

    What the bounded copy of a transition payload accepts, exactly: the limits
    of _TransitionJsonBudget in terms of the depth, items and bytes of the
    value. *)
From S2P Require Import Prelude PyStr PyVal Digest Serialization Identity SchemaEvolution Plan Events.

(** ** Measures of a value *)

(** The largest [f x]; at least 0. *)
Definition max_by {A} (f : A → Z) (l : list A) : Z := foldr (λ x m, Z.max (f x) m) 0 l.

(** The nesting below a value. *)
Fixpoint json_depth (v : pyval) : Z :=
  match v with
  | PList l | PTuple l => max_by (λ x, 1 + json_depth x) l
  | PDict d => max_by (λ kv, 1 + json_depth kv.2) d
  | _ => 0
  end.

(** Values and keys. *)
Fixpoint json_items (v : pyval) : Z :=
  match v with
  | PList l | PTuple l => 1 + sum_by json_items l
  | PDict d => 1 + sum_by (λ kv, 1 + json_items kv.2) d
  | _ => 1
  end.

(** UTF-8 bytes of strings and keys. *)
Fixpoint json_bytes (v : pyval) : Z :=
  match v with
  | PStr s => byte_len s
  | PList l | PTuple l => sum_by json_bytes l
  | PDict d => sum_by (λ kv, byte_len kv.1 + json_bytes kv.2) d
  | _ => 0
  end.

(** Finite floats and admissible keys. *)
Fixpoint json_valid (v : pyval) : bool :=
  match v with
  | PFloat x => is_finite x
  | PList l | PTuple l => forallb json_valid l
  | PDict d => forallb (λ kv, key_ok kv.1 && json_valid kv.2) d
  | _ => true
  end.

(** The detached copy: tuples become lists. *)
Fixpoint untuple (v : pyval) : pyval :=
  match v with
  | PList l | PTuple l => PList (map untuple l)
  | PDict d => PDict (map (λ kv, (kv.1, untuple kv.2)) d)
  | _ => v
  end.

Lemma max_by_le {A} (f : A → Z) l n : 0 ≤ n → max_by f l ≤ n ↔ Forall (λ x, f x ≤ n) l.
Proof.
  intros Hn. induction l as [|x l IH]; cbn; [by split|].
  rewrite Forall_cons, <- IH, Z.max_lub_iff. done.
Qed.

Lemma max_by_nonneg {A} (f : A → Z) l : 0 ≤ max_by f l.
Proof.
  induction l as [|x l IH]; [done|]. change (0 ≤ Z.max (f x) (max_by f l)). lia.
Qed.

Lemma json_depth_nonneg v : 0 ≤ json_depth v.
Proof. destruct v; cbn; try done; apply max_by_nonneg. Qed.

Lemma byte_len_nonneg s : 0 ≤ byte_len s.
Proof. unfold byte_len. lia. Qed.

Lemma json_items_pos v : 1 ≤ json_items v.
Proof.
  enough (1 ≤ json_items v ∧ 0 ≤ json_items v) by lia.
  induction v as [|b|n|x|s|l IH|l IH|d IH] using pyval_nested_ind; cbn; try done;
    rewrite Forall_forall in IH.
  - assert (0 ≤ sum_by json_items l) by (apply sum_by_nonneg; intros y Hy; by apply IH). lia.
  - assert (0 ≤ sum_by json_items l) by (apply sum_by_nonneg; intros y Hy; by apply IH). lia.
  - assert (0 ≤ sum_by (λ kv : string * pyval, 1 + json_items kv.2) d); [|lia].
    apply sum_by_nonneg. intros kv Hkv. specialize (IH kv Hkv). cbn in *. lia.
Qed.

Lemma json_bytes_nonneg v : 0 ≤ json_bytes v.
Proof.
  induction v as [|b|n|x|s|l IH|l IH|d IH] using pyval_nested_ind; cbn; try done;
    try apply byte_len_nonneg; rewrite Forall_forall in IH; apply sum_by_nonneg; try done.
  intros kv Hkv. specialize (IH kv Hkv). pose proof (byte_len_nonneg kv.1). cbn in *. lia.
Qed.

Lemma byte_len_empty : byte_len "" = 0.
Proof. done. Qed.

Lemma forallb_andb {A} (p q : A → bool) l :
  forallb (λ x, p x && q x) l = true ↔ Forall (λ x, p x = true) l ∧ forallb q l = true.
Proof.
  induction l as [|x l IH]; cbn; [by split|].
  rewrite !andb_true_iff, IH, Forall_cons. tauto.
Qed.

(** ** Metered actions *)

Definition spend (b : _TransitionJsonBudget) (items bytes : Z) : _TransitionJsonBudget :=
  {| remaining_items := remaining_items b - items; remaining_bytes := remaining_bytes b - bytes |}.

(** [m] returns [a] and costs so much exactly when [P] holds and the budget
    suffices. *)
Definition pays {A} (m : action _TransitionJsonBudget A) (P : Prop) (a : A) (items bytes : Z) : Prop :=
  ∀ b r b', 0 ≤ remaining_items b → 0 ≤ remaining_bytes b →
  m b = (Ok r, b') ↔
  P ∧ r = a ∧ items ≤ remaining_items b ∧ bytes ≤ remaining_bytes b ∧ b' = spend b items bytes.

Lemma pays_ret {A} (a : A) : pays (mret a) True a 0 0.
Proof.
  intros [i n] r b' Hi Hn. unfold mret, action_ret, spend. cbn in *. rewrite !Z.sub_0_r.
  naive_solver.
Qed.

Lemma pays_guard c e : pays (lift (raise_when c e)) (c = false) tt 0 0.
Proof.
  intros [i n] [] b' Hi Hn. unfold lift, raise_when, spend. cbn in *. rewrite !Z.sub_0_r.
  destruct c; naive_solver.
Qed.

Lemma pays_consume s : pays (consume s) True tt 1 (byte_len s).
Proof.
  intros [i n] [] b' Hi Hn. unfold consume, spend. cbn in *. pose proof (byte_len_nonneg s).
  unfold_run. unfold raise_when. cbn.
  destruct (Z.ltb_spec (i - 1) 0); cbn; [split; [done|lia]|].
  destruct (Z.ltb_spec (n - byte_len s) 0); cbn; [split; [done|lia]|].
  split; [intros [= <-]; split_and!; done || lia|by intros (_ & _ & _ & _ & ->)].
Qed.

Lemma pays_bind {A B} (m : action _TransitionJsonBudget A) (f : A → action _ B)
    P Q a c i1 n1 i2 n2 :
  0 ≤ i1 → 0 ≤ n1 → 0 ≤ i2 → 0 ≤ n2 →
  pays m P a i1 n1 → pays (f a) Q c i2 n2 → pays (m ≫= f) (P ∧ Q) c (i1 + i2) (n1 + n2).
Proof.
  intros Hi1 Hn1 Hi2 Hn2 Hm Hf b r b' Hi Hn. rewrite action_bind_Ok. split.
  - intros (a' & b1 & Hm' & Hf'). apply Hm in Hm' as (HP & -> & Hi' & Hn' & ->); [|done..].
    apply Hf in Hf' as (HQ & -> & ? & ? & ->); [|cbn; lia..].
    unfold spend in *; cbn in *. split_and!; try done; try lia. f_equal; lia.
  - intros ([HP HQ] & -> & ? & ? & ->). exists a, (spend b i1 n1). split.
    + apply Hm; [done..|]. split_and!; done || lia.
    + apply Hf; [cbn; lia..|]. unfold spend; cbn. split_and!; try done; try lia. f_equal; lia.
Qed.

Lemma pays_iff {A} (m : action _TransitionJsonBudget A) P P' a a' i i' n n' :
  (P ↔ P') → a = a' → i = i' → n = n' → pays m P a i n → pays m P' a' i' n'.
Proof. intros HP -> -> -> Hm b r b' Hi Hn. rewrite <- HP. by apply Hm. Qed.

#[global] Instance pays_proper {A} (m : action _TransitionJsonBudget A) :
  Proper ((↔) ==> (=) ==> (=) ==> (=) ==> (↔)) (pays m).
Proof. intros P Q HPQ a _ <- i _ <- n _ <-. split; by apply pays_iff. Qed.

Lemma pays_throw {A} (e : exn) (P : Prop) (a : A) i n : ¬ P → pays (mthrow e) P a i n.
Proof. intros HP b r b' _ _. split; [done|by intros [? _]]. Qed.

(** Meters a sequence of actions whose steps are known. *)
Ltac meter :=
  first
    [ eassumption | eapply pays_ret | eapply pays_guard | eapply pays_consume
    | eapply pays_bind; cycle 4; [meter | meter | ..];
      try apply byte_len_nonneg; try lia ].

Lemma pays_map {A B} (f : A → action _TransitionJsonBudget B) (P : A → Prop) (g : A → B)
    (ci cn : A → Z) l :
  (∀ x, 0 ≤ ci x) → (∀ x, 0 ≤ cn x) →
  Forall (λ x, pays (f x) (P x) (g x) (ci x) (cn x)) l →
  pays (map_action f l) (Forall P l) (map g l) (sum_by ci l) (sum_by cn l).
Proof.
  intros Hci Hcn. induction 1 as [|x l Hx Hl IH]; cbn [map_action map].
  - eapply (pays_iff _ True); [..|apply pays_ret]; done.
  - assert (0 ≤ sum_by ci l ∧ 0 ≤ sum_by cn l) as [? ?]
      by (split; apply sum_by_nonneg; auto).
    specialize (Hci x). specialize (Hcn x).
    eapply pays_iff; cycle 4; [meter|..]; rewrite ?sum_by_cons; try done; try lia.
    rewrite Forall_cons. tauto.
Qed.

(** ** The copy *)

Definition copy_fits (v : pyval) (depth : Z) : Prop :=
  depth + json_depth v ≤ _MAX_TRANSITION_JSON_DEPTH ∧ json_valid v = true.

(** The action of a value that is not too deep. *)
Lemma copy_unfold v depth :
  depth ≤ _MAX_TRANSITION_JSON_DEPTH →
  _copy_transition_json v depth =
  match v with
  | PStr s => consume s ;; mret (PStr s)
  | PNone | PBool _ | PInt _ => consume "" ;; mret v
  | PFloat x =>
      consume "" ;; lift (raise_when (negb (is_finite x)) payload_invalid) ;; mret v
  | PList l | PTuple l =>
      consume "" ;;
      items ← map_action (λ item, _copy_transition_json item (depth + 1)) l;
      mret (PList items)
  | PDict d =>
      consume "" ;;
      items ← map_action (λ kv,
        lift (raise_when (negb (key_ok kv.1)) payload_invalid) ;;
        consume kv.1 ;;
        item ← _copy_transition_json kv.2 (depth + 1);
        mret (kv.1, item)) d;
      mret (PDict items)
  end.
Proof.
  intros Hd. destruct v; cbn [_copy_transition_json];
    rewrite (proj2 (Z.ltb_ge _ _)) by done; done.
Qed.

Lemma Forall_fits {A} (f : A → pyval) depth l :
  0 ≤ depth ≤ _MAX_TRANSITION_JSON_DEPTH →
  Forall (λ x, copy_fits (f x) (depth + 1)) l ↔
  depth + max_by (λ x, 1 + json_depth (f x)) l ≤ _MAX_TRANSITION_JSON_DEPTH ∧
  forallb (λ x, json_valid (f x)) l = true.
Proof.
  intros Hd.
  assert (depth + max_by (λ x, 1 + json_depth (f x)) l ≤ _MAX_TRANSITION_JSON_DEPTH ↔
    max_by (λ x, 1 + json_depth (f x)) l ≤ _MAX_TRANSITION_JSON_DEPTH - depth) as -> by lia.
  rewrite max_by_le by lia. rewrite forallb_forall. unfold copy_fits.
  rewrite !Forall_forall. setoid_rewrite list_elem_of_In. split.
  - intros H. split; intros x Hx; destruct (H x Hx); [lia|done].
  - intros [H1 H2] x Hx. specialize (H1 x Hx). split; [lia|by apply H2].
Qed.

Lemma copy_list_pays l depth :
  0 ≤ depth ≤ _MAX_TRANSITION_JSON_DEPTH →
  Forall (λ x, pays (_copy_transition_json x (depth + 1)) (copy_fits x (depth + 1))
                 (untuple x) (json_items x) (json_bytes x)) l →
  pays (consume "" ;;
        items ← map_action (λ item, _copy_transition_json item (depth + 1)) l;
        mret (PList items))
    (copy_fits (PList l) depth) (PList (map untuple l))
    (1 + sum_by json_items l) (sum_by json_bytes l).
Proof.
  intros Hd IH.
  assert (∀ x, 0 ≤ json_items x) as Hpos by (intros x; pose proof (json_items_pos x); lia).
  pose proof (pays_map _ _ _ _ _ l Hpos json_bytes_nonneg IH) as Hl.
  rewrite (Forall_fits (λ x, x)) in Hl by lia.
  assert (0 ≤ sum_by json_items l) by (apply sum_by_nonneg; auto).
  assert (0 ≤ sum_by json_bytes l) by (apply sum_by_nonneg; auto using json_bytes_nonneg).
  eapply pays_iff; cycle 4; [meter|..]; try done; try (rewrite ?byte_len_empty; lia).
  unfold copy_fits. cbn [json_depth json_valid]. tauto.
Qed.

Lemma copy_dict_pays d depth :
  0 ≤ depth ≤ _MAX_TRANSITION_JSON_DEPTH →
  Forall (λ kv, pays (_copy_transition_json kv.2 (depth + 1)) (copy_fits kv.2 (depth + 1))
                 (untuple kv.2) (json_items kv.2) (json_bytes kv.2)) d →
  pays (consume "" ;;
        items ← map_action (λ kv,
          lift (raise_when (negb (key_ok kv.1)) payload_invalid) ;;
          consume kv.1 ;;
          item ← _copy_transition_json kv.2 (depth + 1);
          mret (kv.1, item)) d;
        mret (PDict items))
    (copy_fits (PDict d) depth) (PDict (map (λ kv, (kv.1, untuple kv.2)) d))
    (1 + sum_by (λ kv, 1 + json_items kv.2) d)
    (sum_by (λ kv, byte_len kv.1 + json_bytes kv.2) d).
Proof.
  intros Hd IH.
  assert (∀ kv : string * pyval, 0 ≤ 1 + json_items kv.2) as Hpos
    by (intros [k x]; cbn; pose proof (json_items_pos x); lia).
  assert (∀ kv : string * pyval, 0 ≤ byte_len kv.1 + json_bytes kv.2) as Hpos'
    by (intros [k x]; cbn; pose proof (json_bytes_nonneg x); pose proof (byte_len_nonneg k); lia).
  pose proof (pays_map (λ kv,
      lift (raise_when (negb (key_ok kv.1)) payload_invalid) ;;
      consume kv.1 ;;
      item ← _copy_transition_json kv.2 (depth + 1);
      mret (kv.1, item))
    (λ kv, key_ok kv.1 = true ∧ copy_fits kv.2 (depth + 1))
    (λ kv, (kv.1, untuple kv.2)) _ _ d Hpos Hpos') as Hl.
  ospecialize (Hl _).
  { eapply Forall_impl; [exact IH|]. intros [k x] Hx. cbn [fst snd] in *.
    pose proof (json_items_pos x). pose proof (json_bytes_nonneg x).
    pose proof (byte_len_nonneg k).
    eapply pays_iff; cycle 4; [meter|..]; try done; try (rewrite ?byte_len_empty; lia).
    rewrite negb_false_iff. tauto. }
  assert (0 ≤ sum_by (λ kv : string * pyval, 1 + json_items kv.2) d)
    by (apply sum_by_nonneg; auto).
  assert (0 ≤ sum_by (λ kv : string * pyval, byte_len kv.1 + json_bytes kv.2) d)
    by (apply sum_by_nonneg; auto).
  eapply pays_iff; cycle 4; [meter|..]; try done; try (rewrite ?byte_len_empty; lia).
  rewrite Forall_and, (Forall_fits snd) by lia. unfold copy_fits. cbn [json_depth json_valid].
  rewrite forallb_andb. tauto.
Qed.

Lemma copy_pays v : ∀ depth, 0 ≤ depth →
  pays (_copy_transition_json v depth) (copy_fits v depth) (untuple v)
    (json_items v) (json_bytes v).
Proof.
  induction v as [|b|n|x|s|l IH|l IH|d IH] using pyval_nested_ind; intros depth Hdepth;
    (destruct (Z_le_gt_dec depth _MAX_TRANSITION_JSON_DEPTH) as [Hd|Hd];
     [rewrite copy_unfold by done|
      pose proof json_depth_nonneg as Hnn; cbn [_copy_transition_json];
      rewrite (proj2 (Z.ltb_lt _ _)) by lia; apply pays_throw; intros [Hf _];
      match type of Hf with context [json_depth ?w] => specialize (Hnn w) end; lia]).
  (* scalars *)
  1-5: eapply pays_iff; cycle 4; [meter|..]; try done; try (rewrite ?byte_len_empty; lia).
  1-5: try (unfold copy_fits; cbn [json_depth json_valid]; rewrite ?negb_false_iff;
    naive_solver lia).
  - cbn. lia.
  - apply (copy_list_pays l); [done|]. eapply Forall_impl; [exact IH|]. intros x Hx.
    apply Hx. lia.
  - apply (copy_list_pays l); [done|]. eapply Forall_impl; [exact IH|]. intros x Hx.
    apply Hx. lia.
  - apply copy_dict_pays; [done|]. eapply Forall_impl; [exact IH|]. intros x Hx.
    apply Hx. lia.
Qed.

(** ** Redaction and the copy, on canonical texts *)

Lemma norm_untuple v : norm (untuple v) = norm v.
Proof.
  induction v as [|b|n|x|s|l IH|l IH|d IH] using pyval_nested_ind; cbn; try done; f_equal.
  - rewrite map_map. apply map_ext_Forall, IH.
  - rewrite map_map. apply map_ext_Forall, IH.
  - f_equal. rewrite map_map. apply map_ext_Forall.
    eapply Forall_impl; [exact IH|]. intros [k x] Hx. cbn in *. by rewrite Hx.
Qed.

Lemma json_ok_untuple v : json_ok (untuple v) = json_ok v.
Proof. by rewrite <- json_ok_norm, norm_untuple, json_ok_norm. Qed.

Lemma no_tuple_untuple v : no_tuple (untuple v) = true.
Proof.
  induction v as [|b|n|x|s|l IH|l IH|d IH] using pyval_nested_ind; cbn; try done.
  - induction IH as [|x l Hx _ IHl]; cbn; [done|]. by rewrite Hx.
  - induction IH as [|x l Hx _ IHl]; cbn; [done|]. by rewrite Hx.
  - induction IH as [|x l Hx _ IHl]; cbn; [done|]. by rewrite Hx.
Qed.

Lemma existsb_perm {A} (p : A → bool) l1 l2 : l1 ≡ₚ l2 → existsb p l1 = existsb p l2.
Proof. induction 1; cbn; try congruence. by destruct (p x), (p y). Qed.

Lemma existsb_map {A B} (f : A → B) (p : B → bool) (q : A → bool) l :
  Forall (λ x, p (f x) = q x) l → existsb p (map f l) = existsb q l.
Proof. induction 1 as [|x l Hx _ IH]; cbn; [done|]. by rewrite Hx, IH. Qed.

Lemma norm_REDACTED v : bool_decide (norm v = REDACTED) = bool_decide (v = REDACTED).
Proof. by destruct v. Qed.

Lemma leaks_norm v : leaks (norm v) = leaks v.
Proof.
  induction v as [|b|n|x|s|l IH|l IH|d IH] using pyval_nested_ind; cbn; try done.
  - by apply existsb_map.
  - by apply existsb_map.
  - rewrite (existsb_perm _ _ _ (sort_by_perm _ _)). apply existsb_map.
    eapply Forall_impl; [exact IH|]. intros [k x] Hx. cbn in *. by rewrite norm_REDACTED, Hx.
Qed.

Lemma redact_norm v : redact_json (norm v) = norm (redact_json v).
Proof.
  induction v as [|b|n|x|s|l IH|l IH|d IH] using pyval_nested_ind; cbn; try done; f_equal.
  - rewrite !map_map. by apply map_ext_Forall.
  - rewrite !map_map. by apply map_ext_Forall.
  - rewrite <- (sort_by_map _ key_leb key_leb) by done. f_equal. rewrite !map_map.
    apply map_ext_Forall. eapply Forall_impl; [exact IH|]. intros [k x] Hx. cbn in *.
    by destruct (is_sensitive k); [|rewrite Hx].
Qed.

(** A value whose redacted text is its own text has nothing to redact. *)
Lemma norm_redact_leaks v : norm (redact_json v) = norm v ↔ leaks v = false.
Proof.
  split.
  - intros Heq. rewrite <- leaks_norm, <- Heq, <- redact_norm. apply redact_json_no_leak.
  - intros Hl. rewrite <- redact_norm. apply redact_json_id;
      [by rewrite leaks_norm|apply no_tuple_norm].
Qed.

Lemma json_ok_redact v : json_ok v = true → json_ok (redact_json v) = true.
Proof.
  induction v as [|b|n|x|s|l IH|l IH|d IH] using pyval_nested_ind; cbn; try done;
    rewrite !forallb_forall; setoid_rewrite in_map_iff; rewrite Forall_forall in IH.
  - intros Hok x (y & <- & Hy). apply IH; [by apply list_elem_of_In|by apply Hok].
  - intros Hok x (y & <- & Hy). apply IH; [by apply list_elem_of_In|by apply Hok].
  - intros Hok x (y & <- & Hy). cbn. destruct (is_sensitive y.1); [done|].
    apply IH; [by apply list_elem_of_In|by apply Hok].
Qed.

Lemma canonical_json_same v w :
  json_ok v = true → json_ok w = true → canonical_json v = canonical_json w ↔ norm v = norm w.
Proof.
  intros Hv Hw. rewrite !canonical_json_print by done. split; [|by intros ->].
  intros [= Heq]. apply (print_unique (norm v) (printable_norm v Hv) (norm w) "" "");
    [by apply printable_norm|done|done|]. by rewrite Heq.
Qed.

Definition payload_admissible (v : pyval) : Prop :=
  json_depth v ≤ _MAX_TRANSITION_JSON_DEPTH ∧
  json_items v ≤ _MAX_TRANSITION_JSON_ITEMS ∧
  json_bytes v ≤ _MAX_TRANSITION_EVENT_BYTES ∧
  json_valid v = true ∧
  (∃ s, canonical_json v = Ok s ∧ byte_len s ≤ _MAX_TRANSITION_EVENT_BYTES) ∧
  leaks v = false.

Lemma payload_copy_spec v d :
  json_ok v = true →
  workflow_transition_event_payload_copy v = Ok d ↔
  untuple v = PDict d ∧ payload_admissible v.
Proof.
  intros Hok. unfold workflow_transition_event_payload_copy, payload_admissible.
  assert (json_ok (untuple v) = true) as Hok' by by rewrite json_ok_untuple.
  pose proof (copy_pays v 0 (Z.le_refl _) full_budget) as Hpay.
  unfold copy_fits in Hpay. rewrite Z.add_0_l in Hpay.
  assert (canonical_json (untuple v) = canonical_json v) as Htext
    by (apply canonical_json_same; [done..|apply norm_untuple]).
  assert (canonical_json (redact_json (untuple v)) = canonical_json (untuple v)
    ↔ leaks v = false) as Hleak.
  { rewrite canonical_json_same by auto using json_ok_redact.
    rewrite norm_redact_leaks, <- (leaks_norm (untuple v)), norm_untuple. by rewrite leaks_norm. }
  split.
  - intros H. result_inv. destruct a as [copied encoded]. result_inv. subst copied.
    destruct (copied ← _; _) as [p|e] eqn:Hc in Hrun; [|by destruct e].
    injection Hrun as ->. result_inv.
    destruct (_copy_transition_json v 0 full_budget) as [r b'] eqn:Hcopy. cbn in Hrun. subst r.
    destruct (proj1 (Hpay _ _ ltac:(done) ltac:(done)) eq_refl)
      as ([Hdep Hval] & -> & Hit & Hby & _).
    destruct (untuple v) as [| | | | | | |d'] eqn:Hd; try done. result_inv.
    intros ->. subst.
    apply Z.ltb_ge in Hrun0. apply bool_decide_eq_false, dec_stable in Hrun2. subst.
    split; [done|]. rewrite <- Htext. split_and!; try done; [by eexists|].
    apply Hleak. congruence.
  - intros (Hd & Hdep & Hit & Hby & Hval & (s & Hs & Hlen) & Hl).
    assert (_copy_transition_json v 0 full_budget =
      (Ok (untuple v), spend full_budget (json_items v) (json_bytes v))) as ->
      by (apply Hpay; done).
    rewrite Hd in *. cbn [fst mbind result_bind]. rewrite Htext, Hs.
    cbn [mbind result_bind as_payload_invalid].
    rewrite (proj2 (Z.ltb_ge _ _)) by done. cbn [raise_when mbind result_bind].
    rewrite (proj2 Hleak Hl), Htext, Hs. cbn [mbind result_bind].
    by rewrite bool_decide_false by (intros Hn; by apply Hn).
Qed.

(** The transition payload copy accepts exactly the mappings that nest at
    most 32 deep, hold at most 10,000 values and keys and 262,144 bytes of
    text, whose canonical text is at most 262,144 bytes long, with finite
    numbers, admissible keys and no credential-like key; the copy differs from
    the value only in that tuples become lists, so nothing is redacted or
    coerced. *)
Theorem payload_copy_exact v :
  json_ok v = true →
  (is_ok (workflow_transition_event_payload_copy v) = true ↔
   type_of v = TDict ∧ payload_admissible v) ∧
  (∀ d, workflow_transition_event_payload_copy v = Ok d → PDict d = untuple v).
Proof.
  intros Hok. split; [split|].
  - destruct (workflow_transition_event_payload_copy v) as [d|] eqn:Hd; [|done]. intros _.
    apply payload_copy_spec in Hd as [Hd Hadm]; [|done]. split; [|done]. by destruct v.
  - intros [Ht Hadm]. destruct v as [| | | | | | |d]; try done.
    by erewrite (proj2 (payload_copy_spec _ _ Hok)).
  - intros d Hd. by apply payload_copy_spec in Hd as [-> _].
Qed.

(** ** Strict loading *)

Lemma identifier_Ok v m r s :
  _transition_event_identifier v m r = Ok s →
  v = PStr s ∧ s ≠ "" ∧ strip s = s ∧ str_len s ≤ m ∧ has_nul s = false.
Proof.
  unfold _transition_event_identifier. destruct v as [| | | |t| | |]; try done.
  intros H. result_inv. subst t. rewrite !orb_false_iff, negb_false_iff, str_true_spec,
    bool_decide_eq_false, Z.ltb_ge in Hrun. destruct Hrun as [[[? Hs] ?] ?].
  split_and!; try done. symmetry. by apply dec_stable.
Qed.

Lemma identity_Ok v name s :
  require_canonical_identity v name true DEFAULT_IDENTITY_MAX_LENGTH = Ok s → v = PStr s.
Proof.
  destruct v as [| | | |[|c t]| | |]; try done. cbn -[strip str_exists]. intros H.
  result_inv. by subst.
Qed.

Lemma copy_no_tuple v d : workflow_transition_event_payload_copy v = Ok d → json_ok v = true →
  redact_dict d = d.
Proof.
  intros Hc Hok. apply payload_copy_spec in Hc as [Hd Hadm]; [|done].
  enough (PDict (redact_dict d) = PDict d) as [= ->] by done.
  rewrite redact_dict_eq, <- Hd. apply redact_json_id; [|apply no_tuple_untuple].
  rewrite <- leaks_norm, norm_untuple, leaks_norm. by destruct Hadm as (_ & _ & _ & _ & _ & ?).
Qed.

Lemma as_record_invalid_Ok {A} (r : result A) a : as_record_invalid r = Ok a → r = Ok a.
Proof. by destruct r as [|[]]. Qed.

Lemma strict_int_Ok v m n : strict_int v m = Ok n → v = PInt n ∧ m ≤ n.
Proof.
  destruct v; try done. cbn. intros H. result_inv. subst. by apply Z.ltb_ge in Hrun.
Qed.

Lemma json_ok_dget k d : json_ok (PDict d) = true → json_ok (dget k d) = true.
Proof.
  intros Hd. unfold dget. destruct (dict_get k d) as [v|] eqn:Hk; [|done].
  apply dict_get_elem in Hk. cbn in Hd. rewrite forallb_forall in Hd.
  by apply (Hd (k, v)), list_elem_of_In.
Qed.

(** What strict loading found in the mapping. *)
Record exact_fields (raw : dict) (b : bool) (e : CanonicalWorkflowEvent) : Prop := {
  xf_tenant : dget "tenant_id" raw = PStr (ev_tenant_id e);
  xf_workflow : dget "workflow_id" raw = PStr (ev_workflow_id e);
  xf_run : dget "run_id" raw = PStr (ev_run_id e);
  xf_event_id : dget "event_id" raw = PStr (ev_event_id e) ∧ strip (ev_event_id e) = ev_event_id e;
  xf_event_type : dget "event_type" raw = PStr (ev_event_type e) ∧
    strip (ev_event_type e) = ev_event_type e;
  xf_actor : dget "actor" raw = PStr (ev_actor e) ∧ ev_actor e ≠ "" ∧
    strip (ev_actor e) = ev_actor e;
  xf_correlation : dget "correlation_id" raw = PStr (ev_correlation_id e) ∧
    strip (ev_correlation_id e) = ev_correlation_id e;
  xf_causation : dget "causation_id" raw = PStr (ev_causation_id e) ∧
    strip (ev_causation_id e) = ev_causation_id e;
  xf_dedupe : dget "dedupe_key" raw = PStr (ev_dedupe_key e) ∧
    strip (ev_dedupe_key e) = ev_dedupe_key e;
  xf_step : dget "step_id" raw = PStr (ev_step_id e) ∧ strip (ev_step_id e) = ev_step_id e;
  xf_sequence : dget "sequence" raw = PInt (ev_sequence e);
  xf_attempt : dget "attempt" raw = PInt (ev_attempt e);
  xf_time : strict_time (dget "occurred_at" raw) = Ok (ev_occurred_at e);
  xf_payload : workflow_transition_event_payload_copy (dget "payload" raw) = Ok (ev_payload e);
  xf_schema : ev_schema e = CANONICAL_WORKFLOW_EVENT_SCHEMA;
  xf_valid : event_ok e b;
  xf_text : canonical_json (PDict (event_to_dict e)) = canonical_json (PDict raw);
}.

Lemma exact_mapping_fields raw b e :
  canonical_workflow_event_from_exact_mapping raw b = Ok e → exact_fields raw b e.
Proof.
  intros H. unfold canonical_workflow_event_from_exact_mapping in H.
  apply as_record_invalid_Ok in H. result_inv.
  repeat match goal with
  | H : _transition_event_identifier _ _ _ = Ok _ |- _ => apply identifier_Ok in H
  | H : strict_int _ _ = Ok _ |- _ => apply strict_int_Ok in H
  | H : require_canonical_identity _ _ _ _ = Ok _ |- _ => apply identity_Ok in H
  | H : event_assert_valid _ _ = Ok _ |- _ => apply event_assert_valid_Ok in H
  end.
  match goal with Hs : match dget "step_id" raw with _ => _ end = Ok ?s |- _ =>
    assert (dget "step_id" raw = PStr s ∧ strip s = s) as Hstep end.
  { destruct (dget "step_id" raw) as [| | | |s| | |]; try done. result_inv. subst.
    rewrite !orb_false_iff, bool_decide_eq_false in *. split; [done|].
    symmetry. apply dec_stable. tauto. }
  match goal with Ha : bool_decide _ = false |- _ =>
    apply bool_decide_eq_false, dec_stable in Ha end.
  destruct_and!. subst e. split; try done. congruence.
Qed.

Lemma exact_mapping_clean raw b e :
  json_ok (PDict raw) = true →
  canonical_workflow_event_from_exact_mapping raw b = Ok e → event_clean e.
Proof.
  intros Hraw [? ? ? [] [] (? & ? & Ha) [] [] [] [] ? ? ? Hp ? ? ?]%exact_mapping_fields.
  split; try done.
  - rewrite clean_actor_eq, Ha. unfold str_or. by rewrite (proj2 (str_true_spec _)).
  - eapply copy_no_tuple; [exact Hp|by apply json_ok_dget].
Qed.

(** Strict loading of a transition event invents nothing: the event it
    returns has the canonical text of the mapping, is valid, and is already in
    the form the event store keeps, so no default, coercion, redaction or
    upcast took place. *)
Theorem exact_mapping_faithful raw b e :
  json_ok (PDict raw) = true → json_ok (PDict (event_to_dict e)) = true →
  canonical_workflow_event_from_exact_mapping raw b = Ok e →
  norm (PDict (event_to_dict e)) = norm (PDict raw) ∧ event_ok e b ∧ event_clean e ∧
  payload_admissible (dget "payload" raw).
Proof.
  intros Hraw He H. pose proof (exact_mapping_fields raw b e H) as Hf.
  split_and!; [|exact (xf_valid _ _ _ Hf)|exact (exact_mapping_clean raw b e Hraw H)|].
  - apply canonical_json_same; [done..|exact (xf_text _ _ _ Hf)].
  - eapply payload_copy_spec; [by apply json_ok_dget|exact (xf_payload _ _ _ Hf)].
Qed.

(** *** Strict loading of a stored event *)

Lemma untuple_id v : no_tuple v = true → untuple v = v.
Proof.
  induction v as [|b|n|x|s|l IH|l IH|d IH] using pyval_nested_ind; cbn; try done;
    intros Ht; f_equal; induction IH as [|x l Hx _ IHl]; cbn in *; try done;
    apply andb_true_iff in Ht as [Htx Ht]; rewrite IHl by done.
  - by rewrite Hx.
  - destruct x as [k x]. cbn in *. by rewrite Hx.
Qed.

Lemma payload_copy_untuple v d :
  workflow_transition_event_payload_copy v = Ok d → untuple v = PDict d.
Proof.
  unfold workflow_transition_event_payload_copy. intros H. result_inv.
  destruct a as [copied encoded]. result_inv.
  match type of Hrun with as_payload_invalid ?r = _ =>
    destruct r as [p|err] eqn:Hc; [|by destruct err] end.
  injection Hrun as ->. result_inv.
  destruct (_copy_transition_json v 0 full_budget) as [r b'] eqn:Hcopy. cbn in Hrun. subst r.
  pose proof (proj1 (copy_pays v 0 (Z.le_refl _) full_budget _ _ ltac:(done) ltac:(done)) Hcopy)
    as (_ & -> & _).
  destruct (untuple v); try done. result_inv. congruence.
Qed.

(** Strict loading gives a clean event back. *)
Lemma exact_of_event e b c :
  ev_schema e = CANONICAL_WORKFLOW_EVENT_SCHEMA → event_clean e →
  canonical_workflow_event_from_exact_mapping (event_to_dict e) b = Ok c → c = e.
Proof.
  intros Hsch Hcl [Ht Hw Hr [Hi _] [Hy _] [Ha _] [Hc _] [Hk _] [Hd _] [Hs _] Hq Hat Htm Hp Hsc Hok _]
    %exact_mapping_fields.
  change (PStr (ev_tenant_id e) = PStr (ev_tenant_id c)) in Ht.
  change (PStr (ev_workflow_id e) = PStr (ev_workflow_id c)) in Hw.
  change (PStr (ev_run_id e) = PStr (ev_run_id c)) in Hr.
  change (PStr (ev_event_id e) = PStr (ev_event_id c)) in Hi.
  change (PStr (ev_event_type e) = PStr (ev_event_type c)) in Hy.
  change (PStr (ev_actor e) = PStr (ev_actor c)) in Ha.
  change (PStr (ev_correlation_id e) = PStr (ev_correlation_id c)) in Hc.
  change (PStr (ev_causation_id e) = PStr (ev_causation_id c)) in Hk.
  change (PStr (ev_dedupe_key e) = PStr (ev_dedupe_key c)) in Hd.
  change (PStr (ev_step_id e) = PStr (ev_step_id c)) in Hs.
  change (PInt (ev_sequence e) = PInt (ev_sequence c)) in Hq.
  change (PInt (ev_attempt e) = PInt (ev_attempt c)) in Hat.
  change (dget "occurred_at" (event_to_dict e)) with (PFloat (ev_occurred_at e)) in Htm.
  change (dget "payload" (event_to_dict e)) with (PDict (ev_payload e)) in Hp.
  cbn in Htm. result_inv. apply payload_copy_untuple in Hp.
  rewrite untuple_id in Hp.
  2:{ rewrite <- (cl_payload e Hcl), redact_dict_eq. apply redact_json_no_tuple. }
  rewrite <- Hsch in Hsc. clear Hok Hcl Hrun a Hsch. injection Hq as Hq.
  injection Hat as Hat. injection Hp as Hp.
  repeat match goal with Hx : PStr _ = PStr _ |- _ => injection Hx as Hx end.
  destruct e, c; cbn in *; subst. reflexivity.
Qed.

(** ** An example *)

Definition sample_payload : dict := [("count", PInt 3); ("tags", PTuple [PStr "a"; PNone])].

Definition sample_transition : dict :=
  [("schema", PStr CANONICAL_WORKFLOW_EVENT_SCHEMA); ("event_id", PStr "wfe-1");
   ("tenant_id", PStr "t"); ("workflow_id", PStr "w"); ("run_id", PStr "r");
   ("step_id", PStr ""); ("attempt", PInt 0); ("event_type", PStr "workflow.run.started");
   ("actor", PStr "hub"); ("correlation_id", PStr "c"); ("causation_id", PStr "k");
   ("sequence", PInt 1); ("dedupe_key", PStr "d"); ("occurred_at", PFloat (lit 15 (-1)));
   ("payload", PDict sample_payload)].

Example payload_copy_exact_witness :
  json_ok (PDict sample_payload) = true ∧
  payload_admissible (PDict sample_payload).
Proof.
  split; [vm_compute; reflexivity|].
  apply (payload_copy_exact (PDict sample_payload)); vm_compute; reflexivity.
Defined.

Example exact_mapping_faithful_witness :
  is_ok (canonical_workflow_event_from_exact_mapping sample_transition false) = true ∧
  ∀ e, canonical_workflow_event_from_exact_mapping sample_transition false = Ok e →
       event_clean e.
Proof.
  split; [vm_compute; reflexivity|]. intros e He.
  apply (exact_mapping_faithful sample_transition false e); [vm_compute; reflexivity| |exact He].
  assert (match canonical_workflow_event_from_exact_mapping sample_transition false with
    | Ok e => json_ok (PDict (event_to_dict e)) | Err _ => false end = true) as Hj
    by (vm_compute; reflexivity).
  rewrite He in Hj. exact Hj.
Defined.
