(* ===== verification/EventStore.v ===== *)
(** * The in-memory event store (workflow_runtime/events.py)

    InMemoryEventStore: append-only streams per tenant and run, with indexes by
    dedupe key and by event identifier.  The store's RLock makes every method
    one step, so interleavings of threads are sequences of calls. *)
From S2P Require Import Prelude PyStr PyVal Digest Serialization Identity SchemaEvolution Plan Events EventPayload.

(** ** Data *)

Definition run_key : Type := string * string.
Definition event_key : Type := string * string * string.

Record InMemoryEventStore := {
  _events : gmap run_key (list CanonicalWorkflowEvent);
  _dedupe : gmap event_key CanonicalWorkflowEvent;
  _event_ids : gmap event_key CanonicalWorkflowEvent;
}.

Definition empty_event_store : InMemoryEventStore :=
  {| _events := ∅; _dedupe := ∅; _event_ids := ∅ |}.

Definition key_of (e : CanonicalWorkflowEvent) : run_key := (ev_tenant_id e, ev_run_id e).

(** [self._events.get(key, ())] *)
Definition stream (s : InMemoryEventStore) (key : run_key) : list CanonicalWorkflowEvent :=
  default [] (_events s !! key).

(** The three updates of [append]. *)
Definition add_event (key : run_key) (dedupe_key : event_key) (stored : CanonicalWorkflowEvent)
    (s : InMemoryEventStore) : InMemoryEventStore :=
  {| _events := <[key := stream s key ++ [stored]]> (_events s);
     _dedupe := <[dedupe_key := stored]> (_dedupe s);
     _event_ids := <[(key, ev_event_id stored) := stored]> (_event_ids s) |}.

Section with_digest.
Context `{Digest}.

Definition append (e : CanonicalWorkflowEvent) (expected_sequence : Z)
  : action InMemoryEventStore CanonicalWorkflowEvent :=
  lift (event_assert_valid e true) ;;
  let key := key_of e in
  let dedupe_key := (key, ev_dedupe_key e) in
  s ← get;
  match _dedupe s !! dedupe_key with
  | Some duplicate =>
      stored_hash ← lift (content_hash duplicate);
      new_hash ← lift (content_hash e);
      lift (raise_when (bool_decide (stored_hash ≠ new_hash))
        (OptimisticConcurrencyError "dedupe_key_payload_conflict")) ;;
      lift (_clone_event duplicate)
  | None =>
      lift (raise_when (bool_decide (is_Some (_event_ids s !! (key, ev_event_id e))))
        (OptimisticConcurrencyError "event_id_payload_conflict")) ;;
      let current := Z.of_nat (length (stream s key)) in
      lift (raise_when (negb (expected_sequence =? current))
        (OptimisticConcurrencyError
          ("event_sequence_conflict:expected=" +:+ z_str expected_sequence
            +:+ ":actual=" +:+ z_str current))) ;;
      sequenced ← lift (with_sequence e (current + 1));
      stored ← lift (_clone_event sequenced);
      modify (add_event key dedupe_key stored) ;;
      lift (_clone_event stored)
  end.

Definition append_transition_event (e : CanonicalWorkflowEvent) (expected_sequence : Z)
  : action InMemoryEventStore CanonicalWorkflowEvent :=
  stored ← append e expected_sequence;
  same ← lift (event_payload_equal stored e);
  lift (raise_when (negb same)
    (OptimisticConcurrencyError "workflow_transition_event_identity_conflict")) ;;
  mret stored.

Definition list_events (tenant_id run_id : pyval) (after_sequence : Z) (limit : option Z)
  (s : InMemoryEventStore) : result (list CanonicalWorkflowEvent) :=
  tenant ← require_canonical_identity tenant_id "tenant_id" true DEFAULT_IDENTITY_MAX_LENGTH;
  run ← require_canonical_identity run_id "run_id" true DEFAULT_IDENTITY_MAX_LENGTH;
  let values := filter (λ e, after_sequence < ev_sequence e) (stream s (tenant, run)) in
  let values := match limit with
  | Some n => take (Z.to_nat (Z.max 0 n)) values
  | None => values
  end in
  map_result _clone_event values.

Definition assert_workflow_event_dedupe_read_binding (e : CanonicalWorkflowEvent)
  (expected : string * string * string * string) : result unit :=
  raise_when (bool_decide
    ((ev_tenant_id e, ev_workflow_id e, ev_run_id e, ev_dedupe_key e) ≠ expected))
  (OptimisticConcurrencyError "workflow_event_dedupe_binding_conflict").

Definition get_by_dedupe (tenant_id workflow_id run_id dedupe_key : pyval)
  (s : InMemoryEventStore) : result (option CanonicalWorkflowEvent) :=
  binding ← workflow_event_dedupe_read_binding tenant_id workflow_id run_id dedupe_key;
  let '(tenant, workflow, run, dedupe) := binding in
  match _dedupe s !! (tenant, run, dedupe) with
  | None => Ok None
  | Some e =>
      assert_workflow_event_dedupe_read_binding e (tenant, workflow, run, dedupe) ;;
      e ← canonical_workflow_event_from_exact_mapping (event_to_dict e) false;
      Ok (Some e)
  end.
End with_digest.

(** ** Observations *)

Record WorkflowEventIdentityHeadSnapshot := {
  sn_tenant_id : string;
  sn_workflow_id : string;
  sn_run_id : string;
  sn_dedupe_key : string;
  sn_event_id : string;
  sn_delivery_mode : string;
  dedupe_event : option CanonicalWorkflowEvent;
  event_id_event : option CanonicalWorkflowEvent;
  head_event : option CanonicalWorkflowEvent;
  dedupe_commit : option WorkflowEventCommitProof;
  event_id_commit : option WorkflowEventCommitProof;
}.

Definition observation_conflict : exn :=
  OptimisticConcurrencyError "workflow_event_observation_binding_conflict".
Definition head_conflict : exn :=
  OptimisticConcurrencyError "workflow_event_observation_head_conflict".

(** One turn of the cloning loop of [__post_init__]; [role_ok] is the check of
    its role. *)
Definition observe_event (tenant workflow run : string)
    (role_ok : CanonicalWorkflowEvent → bool) (e : option CanonicalWorkflowEvent)
    : result (option CanonicalWorkflowEvent) :=
  match e with
  | None => Ok None
  | Some e =>
      cloned ← canonical_workflow_event_from_exact_mapping (event_to_dict e) false;
      raise_when (bool_decide ((ev_tenant_id cloned, ev_workflow_id cloned, ev_run_id cloned)
                    ≠ (tenant, workflow, run))) observation_conflict ;;
      raise_when (negb (role_ok cloned)) observation_conflict ;;
      Ok (Some cloned)
  end.

Definition after_head (head : CanonicalWorkflowEvent) (e : option CanonicalWorkflowEvent) : bool :=
  match e with Some e => ev_sequence head <? ev_sequence e | None => false end.

Definition commit_bound (sn : WorkflowEventIdentityHeadSnapshot) (tenant run : string)
    (c : option WorkflowEventCommitProof) : result unit :=
  match c with
  | Some c =>
      raise_when (bool_decide (cp_tenant_id c ≠ tenant) || bool_decide (aggregate_id c ≠ run)
                  || bool_decide (delivery_mode c ≠ sn_delivery_mode sn))
        (OptimisticConcurrencyError "workflow_event_commit_binding_conflict")
  | None => Ok tt
  end.

(** [__post_init__] *)
Definition snapshot_post_init (sn : WorkflowEventIdentityHeadSnapshot)
    : result WorkflowEventIdentityHeadSnapshot :=
  expected ← workflow_transition_event_observation_binding (PStr (sn_tenant_id sn))
    (PStr (sn_workflow_id sn)) (PStr (sn_run_id sn)) (PStr (sn_dedupe_key sn))
    (PStr (sn_event_id sn));
  let '(tenant, workflow, run, dedupe, identity) := expected in
  raise_when (bool_decide (sn_delivery_mode sn ∉ WORKFLOW_EVENT_COMMIT_MODES))
    (OptimisticConcurrencyError "workflow_event_observation_mode_invalid") ;;
  de ← observe_event tenant workflow run
         (λ e, bool_decide (ev_dedupe_key e = dedupe)) (dedupe_event sn);
  ie ← observe_event tenant workflow run
         (λ e, bool_decide (ev_event_id e = identity)) (event_id_event sn);
  he ← observe_event tenant workflow run (λ _, true) (head_event sn);
  match he with
  | None => raise_when (bool_decide (is_Some de) || bool_decide (is_Some ie)) head_conflict
  | Some head => raise_when (after_head head de || after_head head ie) head_conflict
  end ;;
  commit_bound sn tenant run (dedupe_commit sn) ;;
  commit_bound sn tenant run (event_id_commit sn) ;;
  Ok {| sn_tenant_id := sn_tenant_id sn; sn_workflow_id := sn_workflow_id sn;
        sn_run_id := sn_run_id sn; sn_dedupe_key := sn_dedupe_key sn;
        sn_event_id := sn_event_id sn; sn_delivery_mode := sn_delivery_mode sn;
        dedupe_event := de; event_id_event := ie; head_event := he;
        dedupe_commit := dedupe_commit sn; event_id_commit := event_id_commit sn |}.

Definition head_sequence (sn : WorkflowEventIdentityHeadSnapshot) : Z :=
  match head_event sn with Some e => ev_sequence e | None => 0 end.

(** [f(x) if x is not None else None] *)
Definition option_result {A B} (f : A → result B) (x : option A) : result (option B) :=
  match x with Some x => y ← f x; Ok (Some y) | None => Ok None end.

Section with_digest.
Context `{Digest}.

Definition observe_transition_event (tenant_id workflow_id run_id dedupe_key event_id : pyval)
  (s : InMemoryEventStore) : result WorkflowEventIdentityHeadSnapshot :=
  binding ← workflow_transition_event_observation_binding tenant_id workflow_id run_id
  dedupe_key event_id;
  let '(tenant, workflow, run, dedupe, identity) := binding in
  let events := stream s (tenant, run) in
  raise_when (existsb (λ e, bool_decide (ev_workflow_id e ≠ workflow)) events)
  observation_conflict ;;
  let de := _dedupe s !! (tenant, run, dedupe) in
  let ie := _event_ids s !! (tenant, run, identity) in
  dc ← option_result (λ e, commit_for_event e WORKFLOW_EVENT_COMMIT_INLINE) de;
  ic ← option_result (λ e, commit_for_event e WORKFLOW_EVENT_COMMIT_INLINE) ie;
  snapshot_post_init
  {| sn_tenant_id := tenant; sn_workflow_id := workflow; sn_run_id := run;
    sn_dedupe_key := dedupe; sn_event_id := identity;
    sn_delivery_mode := WORKFLOW_EVENT_COMMIT_INLINE;
    dedupe_event := de; event_id_event := ie; head_event := last events;
    dedupe_commit := dc; event_id_commit := ic |}.
End with_digest.

(** ** Runs of the store *)

Section store_laws.
Context `{Digest}.

(** The one way [append] changes a store. *)
Record appended (e : CanonicalWorkflowEvent) (n : Z) (s : InMemoryEventStore)
  (stored : CanonicalWorkflowEvent) : Prop := {
    ap_valid : event_ok e true;
    ap_dedupe : _dedupe s !! (key_of e, ev_dedupe_key e) = None;
    ap_event_id : _event_ids s !! (key_of e, ev_event_id e) = None;
    ap_expected : n = Z.of_nat (length (stream s (key_of e)));
    ap_stored : stored = clean_event (set_sequence e (n + 1));
    ap_ok : event_ok stored false;
  }.

Lemma append_cases e n s r s' :
  append e n s = (r, s') →
  s' = s ∨
  ∃ stored, appended e n s stored ∧ r = Ok stored ∧
  s' = add_event (key_of e) (key_of e, ev_dedupe_key e) stored s.
Proof.
  intros Hrun. unfold append in Hrun. run_all Hrun; try by left.
  right. apply event_assert_valid_Ok in Hchk.
  repeat match goal with
    | Hb : raise_when _ _ = Ok _ |- _ => apply raise_when_Ok in Hb
    end.
  match goal with Hb : bool_decide _ = false |- _ => apply bool_decide_eq_false in Hb as Hid end.
  apply eq_None_not_Some in Hid.
  match goal with Hb : negb (_ =? _) = false |- _ =>
      apply negb_false_iff, Z.eqb_eq in Hb as -> end.
  match goal with Hw : with_sequence _ _ = Ok _ |- _ => unfold with_sequence in Hw; result_inv end.
  match goal with Hw : event_assert_valid _ _ = Ok _ |- _ => apply event_assert_valid_Ok in Hw end.
  subst.
  match goal with Hc : _clone_event _ = Ok _ |- _ =>
      apply clone_event_Ok in Hc as (Heq & Hok & Hclean); [|assumption] end.
  eexists. split_and!; [|by apply clone_event_id|reflexivity].
  split; try done.
Qed.

Lemma appended_clean e n s stored : appended e n s stored → event_clean stored.
Proof. intros [_ _ _ _ -> _]. apply clean_event_clean. Qed.

Lemma appended_key e n s stored : appended e n s stored → key_of stored = key_of e.
Proof. by intros [_ _ _ _ -> _]. Qed.

Lemma append_transition_state e n s :
  (append_transition_event e n s).2 = (append e n s).2.
Proof.
  unfold append_transition_event. unfold_run. destruct (append e n s) as [[x|] s']; [|done].
  by destruct (event_payload_equal x e) as [[]|].
Qed.

Lemma stream_add key dk stored s key' :
  stream (add_event key dk stored s) key' =
  if decide (key' = key) then stream s key ++ [stored] else stream s key'.
Proof.
  unfold stream. cbn. case_decide as Hk; [subst; by rewrite lookup_insert_eq|].
  by rewrite lookup_insert_ne by done.
Qed.

(** *** Calls, and the stores they reach *)

Inductive event_op :=
  | OpAppend (e : CanonicalWorkflowEvent) (expected_sequence : Z)
  | OpAppendTransition (e : CanonicalWorkflowEvent) (expected_sequence : Z).

Definition op_event (op : event_op) : CanonicalWorkflowEvent :=
  match op with OpAppend e _ | OpAppendTransition e _ => e end.

Definition run_op (op : event_op) (s : InMemoryEventStore) : InMemoryEventStore :=
  match op with
  | OpAppend e n => (append e n s).2
  | OpAppendTransition e n => (append_transition_event e n s).2
  end.

Lemma run_op_cases op s :
  run_op op s = s ∨
  ∃ n stored, appended (op_event op) n s stored ∧
  run_op op s = add_event (key_of (op_event op))
  (key_of (op_event op), ev_dedupe_key (op_event op)) stored s.
Proof.
  assert (∃ n, run_op op s = (append (op_event op) n s).2) as [n ->].
  { destruct op as [e n|e n]; exists n; [done|apply append_transition_state]. }
  destruct (append (op_event op) n s) as [r s'] eqn:Ha. cbn.
  apply append_cases in Ha as [->|(stored & Ha & _ & ->)]; [by left|right]. eauto.
Qed.

(** Streams hold valid, clean events of their run, numbered 1, 2, 3, ... *)
Definition streams_ok (s : InMemoryEventStore) : Prop :=
  ∀ key i e, stream s key !! i = Some e →
  ev_sequence e = Z.of_nat i + 1 ∧ key_of e = key ∧ event_ok e false ∧ event_clean e.

Lemma streams_ok_step op s : streams_ok s → streams_ok (run_op op s).
Proof.
  intros Hs. destruct (run_op_cases op s) as [->|(n & stored & Ha & ->)]; [done|].
  intros key i e. rewrite stream_add. case_decide as Hk; [|apply Hs]. subst key.
  intros [Hi|[Hlen Hi]]%lookup_app_Some; [by apply Hs|].
  apply list_lookup_singleton_Some in Hi as [Hi <-].
  split_and!; [|by eapply appended_key|apply Ha|by eapply appended_clean].
  rewrite (ap_stored _ _ _ _ Ha), (ap_expected _ _ _ _ Ha). cbn. lia.
Qed.

(** The indexes find only stored events. *)
Definition indexes_sound (s : InMemoryEventStore) : Prop :=
  (∀ key dk e, _dedupe s !! (key, dk) = Some e → e ∈ stream s key) ∧
  (∀ key id e, _event_ids s !! (key, id) = Some e → e ∈ stream s key ∧ ev_event_id e = id).

Lemma elem_of_stream_add key dk stored s key' e :
  e ∈ stream (add_event key dk stored s) key' ↔
  e ∈ stream s key' ∨ (key' = key ∧ e = stored).
Proof.
  rewrite stream_add. case_decide; [|naive_solver]. subst.
  rewrite elem_of_app, list_elem_of_singleton. naive_solver.
Qed.

Lemma indexes_sound_step op s : indexes_sound s → indexes_sound (run_op op s).
Proof.
  intros [Hd Hi]. destruct (run_op_cases op s) as [->|(n & stored & Ha & ->)]; [done|].
  split; intros key k e; rewrite elem_of_stream_add; cbn.
  - intros [[[= <- <-] <-]|[_ Hl]]%lookup_insert_Some; [by right|left; by eapply Hd].
  - intros [[[= <- <-] <-]|[_ Hl]]%lookup_insert_Some; [by split; [right|]|].
    destruct (Hi _ _ _ Hl). by split; [left|].
Qed.

(** *** Calls that pass identifiers in their stored form *)

Definition caller_clean (e : CanonicalWorkflowEvent) : Prop :=
  strip (ev_dedupe_key e) = ev_dedupe_key e ∧ strip (ev_event_id e) = ev_event_id e.

Definition clean_op : Type := { op : event_op | caller_clean (op_event op) }.
Definition run_clean_op (op : clean_op) : InMemoryEventStore → InMemoryEventStore :=
  run_op (`op).

(** The indexes find exactly the stored events, under their own keys. *)
Definition indexes_exact_at (s : InMemoryEventStore) : Prop :=
  ∀ key e, e ∈ stream s key →
  _dedupe s !! (key, ev_dedupe_key e) = Some e ∧ _event_ids s !! (key, ev_event_id e) = Some e.

Lemma indexes_exact_step op s :
  indexes_exact_at s → indexes_exact_at (run_clean_op op s).
Proof.
  intros Hs. destruct op as [op [Hd Hi]]. unfold run_clean_op; cbn.
  destruct (run_op_cases op s) as [->|(n & stored & Ha & ->)]; [done|].
  assert (ev_dedupe_key stored = ev_dedupe_key (op_event op)) as Hsd
    by (rewrite (ap_stored _ _ _ _ Ha); exact Hd).
  assert (ev_event_id stored = ev_event_id (op_event op)) as Hsi
    by (rewrite (ap_stored _ _ _ _ Ha); exact Hi).
  intros key e. rewrite elem_of_stream_add. intros [He|[-> ->]]; cbn.
  - destruct (Hs key e He) as [H1 H2]. rewrite Hsi. split.
    + rewrite lookup_insert_ne; [done|]. intros [= Hk Hk']. subst key.
      pose proof (ap_dedupe _ _ _ _ Ha). congruence.
    + rewrite lookup_insert_ne; [done|]. intros [= Hk Hk']. subst key.
      pose proof (ap_event_id _ _ _ _ Ha). congruence.
  - by rewrite Hsd, !lookup_insert_eq.
Qed.
End store_laws.

(** ** Properties *)

Section properties.
Context `{Digest}.

Definition reachable_store : InMemoryEventStore → Prop :=
  reachable run_op empty_event_store.
Definition reachable_clean : InMemoryEventStore → Prop :=
  reachable run_clean_op empty_event_store.

Lemma stream_empty key : stream empty_event_store key = [].
Proof. unfold stream. cbn. by rewrite lookup_empty. Qed.

Lemma clean_reachable s : reachable_clean s → reachable_store s.
Proof.
  induction 1 as [|s op _ IH]; [constructor|]. exact (reachable_step run_op _ s (`op) IH).
Qed.

Lemma reachable_streams_ok s : reachable_store s → streams_ok s.
Proof.
  apply reachable_invariant; [|apply streams_ok_step].
  intros key i e. by rewrite stream_empty, lookup_nil.
Qed.

Lemma reachable_indexes_sound s : reachable_store s → indexes_sound s.
Proof.
  apply reachable_invariant; [|apply indexes_sound_step].
  split; intros ??? Hl; cbn in Hl; by rewrite lookup_empty in Hl.
Qed.

Lemma reachable_indexes_exact s : reachable_clean s → indexes_exact_at s.
Proof.
  apply reachable_invariant; [|apply indexes_exact_step].
  intros key e. rewrite stream_empty. by intros ?%not_elem_of_nil.
Qed.

Lemma stored_event s key e :
  reachable_store s → e ∈ stream s key →
  key_of e = key ∧ event_ok e false ∧ event_clean e ∧
  1 ≤ ev_sequence e ≤ Z.of_nat (length (stream s key)).
Proof.
  intros Hr He. apply list_elem_of_lookup in He as [i Hi].
  destruct (reachable_streams_ok s Hr key i e Hi) as (-> & ? & ? & ?).
  apply lookup_lt_Some in Hi. split_and!; done || lia.
Qed.

Lemma reachable_dedupe_keyed s key dk e :
  reachable_clean s → _dedupe s !! (key, dk) = Some e → ev_dedupe_key e = dk.
Proof.
  intros Hr. revert key dk e.
  induction Hr as [|s op Hr IH]; intros key dk e; [cbn; by rewrite lookup_empty|].
  destruct op as [op [Hd Hi]]. unfold run_clean_op; cbn.
  destruct (run_op_cases op s) as [->|(n & stored & Ha & ->)]; [apply IH|]. cbn.
  intros [[[= <- <-] <-]|[_ Hl]]%lookup_insert_Some; [|by eapply IH].
  by rewrite (ap_stored _ _ _ _ Ha).
Qed.

(** C33: in every store the calls can reach, each run's stream is numbered
    1, 2, 3, ... without gaps, holds only valid events of that tenant and run in
    their stored form, and the indexes point at stored events only. *)
Theorem streams_gapless s :
  reachable_store s →
  (∀ key, map ev_sequence (stream s key) = seqZ 1 (Z.of_nat (length (stream s key)))) ∧
  (∀ key e, e ∈ stream s key → key_of e = key ∧ event_ok e false ∧ event_clean e) ∧
  indexes_sound s.
Proof.
  intros Hr. split_and!; [|intros key e He; by destruct (stored_event s key e Hr He) as (?&?&?&?)
    |by apply reachable_indexes_sound].
  intros key. change (map ev_sequence) with (fmap (M:=list) ev_sequence).
  apply list_eq. intros i. rewrite list_lookup_fmap.
  destruct (stream s key !! i) as [e|] eqn:Hi; cbn.
  - destruct (reachable_streams_ok s Hr key i e Hi) as (-> & _).
    symmetry. apply lookup_lt_Some in Hi. rewrite lookup_seqZ_lt by lia. f_equal. lia.
  - symmetry. apply lookup_ge_None in Hi. rewrite lookup_seqZ_ge by lia. done.
Qed.

Lemma stream_keys_NoDup {A} (f : CanonicalWorkflowEvent → A) (find : A → option CanonicalWorkflowEvent) s key :
  reachable_store s →
  (∀ e, e ∈ stream s key → find (f e) = Some e) → NoDup (map f (stream s key)).
Proof.
  intros Hr Hfind. change (map f) with (fmap (M:=list) f). apply NoDup_fmap_2_strong.
  - intros x y Hx Hy Heq. pose proof (Hfind x Hx) as H1. rewrite Heq, (Hfind y Hy) in H1.
    by injection H1.
  - apply (NoDup_fmap_1 ev_sequence), NoDup_alt. intros i j z.
    rewrite !list_lookup_fmap. intros Hi Hj.
    destruct (stream s key !! i) as [x|] eqn:Hx; [|done].
    destruct (stream s key !! j) as [y|] eqn:Hy; [|done]. cbn in *.
    destruct (reachable_streams_ok s Hr key i x Hx) as (Hsx & _).
    destruct (reachable_streams_ok s Hr key j y Hy) as (Hsy & _).
    assert (ev_sequence x = ev_sequence y) by congruence. lia.
Qed.

(** When callers pass dedupe keys and event identifiers without surrounding
    space, the indexes find exactly the stored events under their own keys, so
    no two events of a run share a dedupe key or an event identifier. *)
Theorem indexes_exact s :
  reachable_clean s →
  (∀ key dk e, _dedupe s !! (key, dk) = Some e ↔ e ∈ stream s key ∧ ev_dedupe_key e = dk) ∧
  (∀ key id e, _event_ids s !! (key, id) = Some e ↔ e ∈ stream s key ∧ ev_event_id e = id) ∧
  (∀ key, NoDup (map ev_dedupe_key (stream s key)) ∧ NoDup (map ev_event_id (stream s key))).
Proof.
  intros Hr. pose proof (clean_reachable s Hr) as Hr'.
  pose proof (reachable_indexes_exact s Hr) as Hex.
  destruct (reachable_indexes_sound s Hr') as [Hd Hi]. split_and!.
  - intros key dk e. split.
    + intros Hl. split; [by eapply Hd|by eapply reachable_dedupe_keyed].
    + intros [He <-]. by apply Hex.
  - intros key id e. split; [by apply Hi|]. intros [He <-]. by apply Hex.
  - intros key. split.
    + apply (stream_keys_NoDup _ (λ dk, _dedupe s !! (key, dk))); [done|]. intros e He; by apply Hex.
    + apply (stream_keys_NoDup _ (λ id, _event_ids s !! (key, id))); [done|]. intros e He; by apply Hex.
Qed.

(** [append] either raises and leaves the store as it was, or returns an
    event of the run's stream: the stored event of the same dedupe key, nothing
    changing, or a new one at the end of the stream when the expected sequence
    is the stream's length, no other stream changing. *)
Theorem append_outcomes s e n r s' :
  reachable_store s →
  append e n s = (r, s') →
  (∃ err, r = Err err ∧ s' = s) ∨
  (∃ x, r = Ok x ∧ s' = s ∧ x ∈ stream s (key_of e) ∧
    _dedupe s !! (key_of e, ev_dedupe_key e) = Some x) ∨
  (∃ x, r = Ok x ∧ n = Z.of_nat (length (stream s (key_of e))) ∧
    stream s' (key_of e) = stream s (key_of e) ++ [x] ∧
    (∀ key, key ≠ key_of e → stream s' key = stream s key) ∧
    _dedupe s' !! (key_of e, ev_dedupe_key e) = Some x).
Proof.
  intros Hr Ha. pose proof Ha as Hc. apply append_cases in Hc as [->|(x & Hx & -> & ->)].
  - destruct r as [x|err]; [right; left|left; by exists err].
    unfold append in Ha. run_all Ha.
    + match goal with Hl : _dedupe _ !! _ = Some ?d |- _ =>
          pose proof (proj1 (reachable_indexes_sound s Hr) _ _ _ Hl) as Hd;
          destruct (stored_event s _ d Hr Hd) as (_ & Hok & Hcl & _);
          match goal with Hcl' : _clone_event d = Ok _ |- _ =>
            rewrite clone_event_id in Hcl' by done; injection Hcl' as <- end end.
      eauto.
    + exfalso.
      match goal with Hs : add_event _ _ _ _ = _ |- _ =>
          apply (f_equal (λ s, _dedupe s !! (key_of e, ev_dedupe_key e))) in Hs;
          cbn in Hs; rewrite lookup_insert_eq in Hs; congruence end.
  - right; right. exists x. split_and!; [done|apply Hx|..].
    + rewrite stream_add. by rewrite decide_True.
    + intros key Hk. rewrite stream_add. by rewrite decide_False.
    + cbn. by rewrite lookup_insert_eq.
Qed.

(** Retrying an accepted call returns the same event and stores nothing
    more, whatever sequence the retry expects and whatever event identifier it
    carries. *)
Theorem append_retry_idempotent s e n x s' m retry_id :
  event_clean e → is_ok (content_hash e) = true → retry_id ≠ "" →
  append e n s = (Ok x, s') →
  let retry := {| ev_tenant_id := ev_tenant_id e; ev_workflow_id := ev_workflow_id e;
    ev_run_id := ev_run_id e; ev_event_type := ev_event_type e;
    ev_correlation_id := ev_correlation_id e; ev_causation_id := ev_causation_id e;
    ev_dedupe_key := ev_dedupe_key e; ev_sequence := ev_sequence e; ev_step_id := ev_step_id e;
    ev_attempt := ev_attempt e; ev_actor := ev_actor e; ev_occurred_at := ev_occurred_at e;
    ev_payload := ev_payload e; ev_event_id := retry_id; ev_schema := ev_schema e |} in
  append retry m s' = (Ok x, s').
Proof.
  intros Hcl Hh Hid Ha retry.
  assert (content_hash retry = content_hash e) as Hhash by done.
  assert (event_ok e true) as Hok.
  { unfold append in Ha. run_all Ha; by apply event_assert_valid_Ok in Hchk. }
  assert (event_ok retry true) as Hok'.
  { apply event_ok_inv. apply event_ok_inv in Hok. unfold retry. cbn. tauto. }
  assert (∃ d, _dedupe s' !! (key_of e, ev_dedupe_key e) = Some d ∧
      content_hash d = content_hash e ∧ _clone_event d = Ok x) as (d & Hd & Hdh & Hdc).
  { pose proof Ha as Hc. apply append_cases in Hc as [->|(d & Hx & [= ->] & ->)].
    - unfold append in Ha. run_all Ha.
      + match goal with Hr : raise_when _ _ = Ok _ |- _ =>
            apply raise_when_Ok, bool_decide_eq_false, dec_stable in Hr; subst end.
        match goal with H1 : content_hash ?d = _, H2 : content_hash e = _ |- _ =>
            exists d; split_and!; [done|congruence|done] end.
      + match goal with Hs : add_event _ _ _ _ = _ |- _ =>
            apply (f_equal (λ s, _dedupe s !! (key_of e, ev_dedupe_key e))) in Hs;
            cbn in Hs; rewrite lookup_insert_eq in Hs; congruence end.
    - exists d. split_and!; [cbn; by rewrite lookup_insert_eq| |].
      + rewrite (ap_stored _ _ _ _ Hx).
        by rewrite clean_event_id by by apply set_sequence_clean.
      + apply clone_event_id; [apply Hx|by eapply appended_clean]. }
  destruct (content_hash e) as [h|] eqn:He; [|done].
  unfold append. rewrite (run_lift _ tt) by by apply event_assert_valid_Ok.
  cbn zeta. rewrite run_get.
  change (_dedupe s' !! (key_of retry, ev_dedupe_key retry))
    with (_dedupe s' !! (key_of e, ev_dedupe_key e)). rewrite Hd.
  rewrite (run_lift _ h) by done. rewrite (run_lift _ h) by done.
  rewrite run_guard by by apply bool_decide_eq_false; intros Hn.
  unfold lift. by rewrite Hdc.
Qed.

Lemma map_result_clone s key l :
  reachable_store s → (∀ e, e ∈ l → e ∈ stream s key) → map_result _clone_event l = Ok l.
Proof.
  intros Hr Hl. rewrite (map_result_total _ id); [by rewrite map_id|].
  apply Forall_forall. intros e He.
  destruct (stored_event s key e Hr (Hl e He)) as (_ & Hok & Hcl & _).
  by apply clone_event_id.
Qed.

Lemma stream_after s key k :
  reachable_store s → 0 ≤ k →
  filter (λ e, k < ev_sequence e) (stream s key) = drop (Z.to_nat k) (stream s key).
Proof.
  intros Hr Hk. pose proof (reachable_streams_ok s Hr key) as Hseq.
  assert (∀ o l, (∀ i e, l !! i = Some e → ev_sequence e = Z.of_nat o + Z.of_nat i + 1) →
      filter (λ e, k < ev_sequence e) l = drop (Z.to_nat k - o) l) as Hgen.
  { intros o l. revert o. induction l as [|e l IH]; intros o Hl; [by rewrite drop_nil|].
    rewrite filter_cons. pose proof (Hl 0%nat e eq_refl) as He.
    rewrite (IH (S o)) by (intros i e' Hi; rewrite (Hl (S i) e' Hi); lia).
    destruct (decide (k < ev_sequence e)).
    - by replace (Z.to_nat k - o)%nat with 0%nat by lia;
        replace (Z.to_nat k - S o)%nat with 0%nat by lia.
    - by replace (Z.to_nat k - o)%nat with (S (Z.to_nat k - S o)) by lia. }
  rewrite (Hgen 0%nat); [by rewrite Nat.sub_0_r|].
  intros i e Hi. destruct (Hseq i e Hi) as (-> & _). lia.
Qed.

(** Reading a run's events after sequence [k], at most [m] of them, returns
    exactly that slice of the stream, unchanged: pages read one after the other
    miss nothing and repeat nothing. *)
Theorem list_events_pages s t r k m :
  reachable_store s → canonical DEFAULT_IDENTITY_MAX_LENGTH t →
  canonical DEFAULT_IDENTITY_MAX_LENGTH r → 0 ≤ k → 0 ≤ m →
  let page := take (Z.to_nat m) (drop (Z.to_nat k) (stream s (t, r))) in
  list_events (PStr t) (PStr r) k (Some m) s = Ok page ∧
  list_events (PStr t) (PStr r) k None s = Ok (drop (Z.to_nat k) (stream s (t, r))) ∧
  (∀ rest, list_events (PStr t) (PStr r) (k + m) None s = Ok rest →
    page ++ rest = drop (Z.to_nat k) (stream s (t, r))).
Proof.
  intros Hr Ht Hru Hk Hm page.
  assert (∀ k lim, 0 ≤ k → list_events (PStr t) (PStr r) k lim s =
      Ok (match lim with Some n => take (Z.to_nat (Z.max 0 n)) | None => id end
        (drop (Z.to_nat k) (stream s (t, r))))) as Hlist.
  { intros k' lim Hk'. unfold list_events.
    rewrite (require_canonical_identity_ok _ _ _ Ht), (require_canonical_identity_ok _ _ _ Hru).
    cbn [mbind result_bind]. rewrite stream_after by done.
    destruct lim as [n|]; rewrite (map_result_clone s (t, r)); try done.
    - intros e He. eapply elem_of_sublist; [exact He|].
      etrans; [apply sublist_take|apply sublist_drop].
    - intros e He. eapply elem_of_sublist; [exact He|apply sublist_drop]. }
  split_and!.
  - rewrite Hlist by done. by rewrite Z.max_r.
  - by rewrite Hlist.
  - intros rest. rewrite Hlist by lia. intros [= <-]. unfold page, id.
    rewrite Z2Nat.inj_add by done. rewrite <- drop_drop. apply take_drop.
Qed.

(** *** Observations *)

Lemma observe_stored s key tenant workflow run role e o :
  reachable_store s → (∀ x, e = Some x → x ∈ stream s key) →
  observe_event tenant workflow run role e = Ok o → o = e.
Proof.
  intros Hr He Ho. destruct e as [x|]; cbn in Ho; [|congruence].
  destruct (stored_event s key x Hr (He x eq_refl)) as (_ & Hok & Hcl & _).
  apply event_ok_inv in Hok as (_ & _ & Hsch & _). result_inv.
  match goal with Hx : canonical_workflow_event_from_exact_mapping _ _ = Ok _ |- _ =>
      apply exact_of_event in Hx; [|done..]; subst end. done.
Qed.

Lemma observation_binding_Ok t w r d i binding :
  workflow_transition_event_observation_binding (PStr t) (PStr w) (PStr r) (PStr d) (PStr i)
  = Ok binding → binding = (t, w, r, d, i).
Proof.
  unfold workflow_transition_event_observation_binding, workflow_event_dedupe_read_binding.
  intros Hb. result_inv.
  repeat match goal with
    | Hx : _transition_event_identifier _ _ _ = Ok _ |- _ => apply identifier_Ok in Hx
    | Hx : require_canonical_identity _ _ _ _ = Ok _ |- _ => apply identity_Ok in Hx
    end.
  destruct_and!. congruence.
Qed.

Lemma snapshot_post_init_events sn sn' :
  snapshot_post_init sn = Ok sn' →
  let role := observe_event (sn_tenant_id sn) (sn_workflow_id sn) (sn_run_id sn) in
  (∃ p, role p (dedupe_event sn) = Ok (dedupe_event sn')) ∧
  (∃ p, role p (event_id_event sn) = Ok (event_id_event sn')) ∧
  (∃ p, role p (head_event sn) = Ok (head_event sn')).
Proof.
  unfold snapshot_post_init. intros Hsn. result_inv.
  match goal with Hb : workflow_transition_event_observation_binding _ _ _ _ _ = _ |- _ =>
      apply observation_binding_Ok in Hb; subst end.
  result_inv. subst sn'. split_and!; eauto.
Qed.

Lemma stream_last s key e :
  reachable_store s → last (stream s key) = Some e →
  ev_sequence e = Z.of_nat (length (stream s key)).
Proof.
  intros Hr Hl. rewrite last_lookup in Hl. pose proof (lookup_lt_Some _ _ _ Hl).
  destruct (reachable_streams_ok s Hr key _ e Hl) as (-> & _). lia.
Qed.

(** A successful observation of a run is exact: the head is the last event
    and its sequence the length of the stream, the event found by dedupe key
    or identifier is the stored one and [None] only when the stream has none,
    and every event of the stream belongs to the observed workflow. *)
Theorem observation_exact s t w r d i sn :
  reachable_clean s →
  observe_transition_event (PStr t) (PStr w) (PStr r) (PStr d) (PStr i) s = Ok sn →
  head_event sn = last (stream s (t, r)) ∧
  head_sequence sn = Z.of_nat (length (stream s (t, r))) ∧
  (∀ e, dedupe_event sn = Some e ↔ e ∈ stream s (t, r) ∧ ev_dedupe_key e = d) ∧
  (∀ e, event_id_event sn = Some e ↔ e ∈ stream s (t, r) ∧ ev_event_id e = i) ∧
  (∀ e, e ∈ stream s (t, r) → ev_workflow_id e = w).
Proof.
  intros Hr Hobs. pose proof (clean_reachable s Hr) as Hr'.
  destruct (reachable_indexes_sound s Hr') as [Hd Hi].
  pose proof (reachable_indexes_exact s Hr) as Hex.
  unfold observe_transition_event in Hobs. result_inv.
  match goal with Hb : workflow_transition_event_observation_binding _ _ _ _ _ = _ |- _ =>
      apply observation_binding_Ok in Hb; subst end.
  result_inv. apply snapshot_post_init_events in Hobs as ([p1 H1] & [p2 H2] & [p3 H3]).
  cbn [dedupe_event event_id_event head_event] in *.
  apply (observe_stored s (t, r)) in H1; [|done|intros x; apply Hd].
  apply (observe_stored s (t, r)) in H2; [|done|intros x Hx; by eapply Hi].
  apply (observe_stored s (t, r)) in H3; [|done|intros x; apply last_Some_elem_of].
  rewrite H1, H2. split_and!; [done|..].
  - unfold head_sequence. rewrite H3. destruct (last (stream s (t, r))) as [x|] eqn:Hl.
    + by apply stream_last.
    + by apply last_None in Hl as ->.
  - intros e. split; [|by intros [He <-]; apply Hex].
    intros Hl. split; [by eapply Hd|by eapply reachable_dedupe_keyed].
  - intros e. split; [by apply Hi|by intros [He <-]; apply Hex].
  - intros e He. destruct (decide (ev_workflow_id e = w)) as [|Hne]; [done|exfalso].
    assert (existsb (λ e, bool_decide (ev_workflow_id e ≠ w)) (stream s (t, r)) = true)
      by (apply existsb_exists; exists e; split;
        [by apply list_elem_of_In|by apply bool_decide_eq_true]).
    congruence.
Qed.

End properties.

(** ** Examples *)

Definition sample_event (event_id dedupe_key : string) (payload : dict)
    : CanonicalWorkflowEvent :=
  {| ev_tenant_id := "t"; ev_workflow_id := "w"; ev_run_id := "r";
     ev_event_type := "workflow.run.started"; ev_correlation_id := "c";
     ev_causation_id := "k"; ev_dedupe_key := dedupe_key; ev_sequence := 0;
     ev_step_id := ""; ev_attempt := 0; ev_actor := "hub"; ev_occurred_at := lit 15 (-1);
     ev_payload := payload; ev_event_id := event_id;
     ev_schema := CANONICAL_WORKFLOW_EVENT_SCHEMA |}.

Definition sample_call (event_id dedupe_key : string) (payload : dict) (n : Z) : event_op :=
  OpAppend (sample_event event_id dedupe_key payload) n.

Definition run_calls `{Digest} (ops : list event_op) : InMemoryEventStore :=
  foldl (λ s op, run_op op s) empty_event_store ops.

(** Two calls, the second with a stale sequence, and a third. *)
Definition sample_store : InMemoryEventStore :=
  @run_calls checksum_digest
    [sample_call "e1" "d1" [] 0; sample_call "e2" "d2" [] 0;
     OpAppendTransition (sample_event "e3" "d3" [("x", PInt 1)]) 1].

Lemma sample_store_reachable : @reachable_clean checksum_digest sample_store.
Proof.
  unfold sample_store, run_calls. cbn [foldl].
  assert (∀ e n, bool_decide (strip (ev_dedupe_key e) = ev_dedupe_key e) = true →
    bool_decide (strip (ev_event_id e) = ev_event_id e) = true →
    caller_clean (op_event (OpAppend e n)) ∧ caller_clean (op_event (OpAppendTransition e n)))
    as Hc by (intros e n ?%bool_decide_eq_true ?%bool_decide_eq_true; by repeat split).
  assert (∀ s op, reachable_clean s → caller_clean (op_event op) →
    @reachable_clean checksum_digest (run_op op s)) as Hstep
    by (intros s op Hs Hop; exact (reachable_step run_clean_op _ s (exist _ op Hop) Hs)).
  repeat (apply Hstep; [|by apply Hc]). constructor.
Qed.

Definition stored_pairs (s : InMemoryEventStore) (key : run_key) : list (string * Z) :=
  map (λ e, (ev_event_id e, ev_sequence e)) (stream s key).

Example streams_gapless_witness :
  stored_pairs sample_store ("t", "r") = [("e1", 1); ("e3", 2)] ∧ indexes_sound sample_store.
Proof.
  split; [vm_compute; reflexivity|].
  apply (@streams_gapless checksum_digest sample_store).
  apply clean_reachable, sample_store_reachable.
Defined.

Example indexes_exact_witness : NoDup (map ev_dedupe_key (stream sample_store ("t", "r"))).
Proof.
  destruct (@indexes_exact checksum_digest sample_store sample_store_reachable)
    as (_ & _ & Hnd). exact (proj1 (Hnd ("t", "r"))).
Defined.

Definition retry_call : CanonicalWorkflowEvent := sample_event "e4" "d4" [("x", PInt 1)].

Example append_outcomes_witness :
  ∃ r s', @append checksum_digest retry_call 2 sample_store = (r, s') ∧ is_ok r = true ∧
  ((∃ err, r = Err err ∧ s' = sample_store) ∨
   (∃ x, r = Ok x ∧ s' = sample_store ∧ x ∈ stream sample_store (key_of retry_call) ∧
      _dedupe sample_store !! (key_of retry_call, ev_dedupe_key retry_call) = Some x) ∨
   (∃ x, r = Ok x ∧ 2 = Z.of_nat (length (stream sample_store (key_of retry_call))) ∧
      stream s' (key_of retry_call) = stream sample_store (key_of retry_call) ++ [x] ∧
      (∀ key, key ≠ key_of retry_call → stream s' key = stream sample_store key) ∧
      _dedupe s' !! (key_of retry_call, ev_dedupe_key retry_call) = Some x)).
Proof.
  destruct (@append checksum_digest retry_call 2 sample_store) as [r s'] eqn:Ha.
  exists r, s'. split; [done|]. split.
  - assert (is_ok (@append checksum_digest retry_call 2 sample_store).1 = true) as Hok
      by (vm_compute; reflexivity). by rewrite Ha in Hok.
  - apply (@append_outcomes checksum_digest sample_store retry_call 2 r s'); [|exact Ha].
    apply clean_reachable, sample_store_reachable.
Defined.

Lemma sample_event_clean id dk p :
  strip dk = dk → strip id = id → redact_dict p = p → event_clean (sample_event id dk p).
Proof. intros Hd Hi Hp. by split. Qed.

Example append_retry_idempotent_witness :
  ∃ x s', @append checksum_digest retry_call 2 sample_store = (Ok x, s') ∧
  @append checksum_digest (sample_event "e5" "d4" [("x", PInt 1)]) 7 s' = (Ok x, s').
Proof.
  destruct (@append checksum_digest retry_call 2 sample_store) as [[x|err] s'] eqn:Ha.
  - exists x, s'. split; [done|].
    apply (@append_retry_idempotent checksum_digest sample_store retry_call 2 x s' 7 "e5");
      [by apply sample_event_clean|vm_compute; reflexivity|done|exact Ha].
  - assert (is_ok (@append checksum_digest retry_call 2 sample_store).1 = true) as Hok
      by (vm_compute; reflexivity). by rewrite Ha in Hok.
Defined.

Lemma sample_canonical s : bool_decide (s ∈ ["t"; "r"; "w"]) = true → canonical 160 s.
Proof.
  rewrite bool_decide_eq_true. rewrite !elem_of_cons, elem_of_nil.
  by intros [->|[->|[->|[]]]]; split.
Qed.

Example list_events_pages_witness :
  list_events (H := checksum_digest) (PStr "t") (PStr "r") 1 (Some 5) sample_store
  = Ok (drop 1 (stream sample_store ("t", "r"))).
Proof.
  destruct (@list_events_pages checksum_digest sample_store "t" "r" 1 5) as (-> & _);
    [apply clean_reachable, sample_store_reachable|by apply sample_canonical..|done|done|].
  vm_compute. reflexivity.
Defined.

Example observation_exact_witness :
  ∃ sn, @observe_transition_event checksum_digest (PStr "t") (PStr "w") (PStr "r") (PStr "d3")
    (PStr "e9") sample_store = Ok sn ∧ head_sequence sn = 2.
Proof.
  destruct (@observe_transition_event checksum_digest (PStr "t") (PStr "w") (PStr "r")
    (PStr "d3") (PStr "e9") sample_store) as [sn|err] eqn:Hobs.
  - exists sn. split; [done|].
    destruct (@observation_exact checksum_digest sample_store "t" "w" "r" "d3" "e9" sn
      sample_store_reachable Hobs) as (_ & -> & _). vm_compute. reflexivity.
  - assert (is_ok (@observe_transition_event checksum_digest (PStr "t") (PStr "w") (PStr "r")
      (PStr "d3") (PStr "e9") sample_store) = true) as Hok by (vm_compute; reflexivity).
    by rewrite Hobs in Hok.
Defined.

(** [append_transition_event] compares the stored event with the caller's
    only after storing it: an event whose payload holds a credential-like key
    is stored redacted although the call raises. *)
Theorem append_transition_raises_after_store :
  let e := sample_event "e1" "d1" [("api_key", PStr "x")] in
  let out := @append_transition_event checksum_digest e 0 empty_event_store in
  error_of out.1 = Some (OptimisticConcurrencyError "workflow_transition_event_identity_conflict") ∧
  stored_pairs out.2 ("t", "r") = [("e1", 1)].
Proof. split; vm_compute; reflexivity. Qed.

(** An event of [build] with an identifier given by the caller. *)
Definition built (event_id dedupe_key : string) : result CanonicalWorkflowEvent :=
  build (PStr "t") (PStr "w") (PStr "r") "workflow.run.started" "c" "k" dedupe_key "" 0 "hub" []
    (Some (lit 15 (-1))) (Some event_id) "wfe-0" (lit 15 (-1)).

(** [append] looks an event identifier up as the caller wrote it and stores
    it stripped, and [build] keeps the caller's spaces: two different events of
    one run are stored under the same identifier. *)
Theorem event_id_space_duplicates :
  ∃ e1 e2, built " a" "d1" = Ok e1 ∧ built " a" "d2" = Ok e2 ∧
  stored_pairs (@run_calls checksum_digest [OpAppend e1 0; OpAppend e2 1]) ("t", "r")
  = [("a", 1); ("a", 2)].
Proof. do 2 eexists. do 2 (split; [reflexivity|]). vm_compute. reflexivity. Qed.
