(* ===== verification/Retention.v ===== *)
(** * Retention attestations (workflow_runtime/retention.py)

    The payload-free hash chain over the canonical events of a run: the policy,
    the attestation, its construction and its verification. *)
From S2P Require Import Prelude PyStr PyVal Digest Serialization Identity SchemaEvolution Plan Events EventStore.

Definition RETENTION_POLICY_SCHEMA : string := "ananta.workflow_event_retention_policy.v1".
Definition RETENTION_ATTESTATION_SCHEMA : string :=
  "ananta.workflow_event_retention_attestation.v1".

(** ** Data *)

Record WorkflowEventRetentionPolicy := {
  rp_policy_version : string;
  rp_raw_diagnostic_ttl_seconds : Z;
  rp_mode : string;
  rp_redaction_version : string;
  rp_schema : string;
}.

(** An entry of [event_refs]: sequence, event identifier, content hash. *)
Notation event_ref := (Z * string * string)%type.

Record WorkflowEventRetentionAttestation := {
  at_tenant_id : string;
  at_run_id : string;
  at_policy_version : string;
  at_redaction_version : string;
  at_event_count : Z;
  at_first_sequence : Z;
  at_last_sequence : Z;
  at_content_chain_hash : string;
  at_raw_diagnostics_expire_before : float;
  at_event_refs : list event_ref;
  at_schema : string;
}.

Definition policy_assert_valid (p : WorkflowEventRetentionPolicy) : result unit :=
  raise_when (bool_decide (rp_schema p ≠ RETENTION_POLICY_SCHEMA))
    (contract_error "retention_policy_schema_unsupported") ;;
  raise_when (negb (str_true (rp_policy_version p)) || (256 <? str_len (rp_policy_version p)))
    (contract_error "retention_policy_version_invalid") ;;
  raise_when (bool_decide (rp_mode p ≠ "append_only_redacted"))
    (contract_error "canonical_event_purge_forbidden") ;;
  raise_when (negb ((3600 <=? rp_raw_diagnostic_ttl_seconds p)
                    && (rp_raw_diagnostic_ttl_seconds p <=? 31536000)))
    (contract_error "raw_diagnostic_retention_invalid") ;;
  raise_when (negb (str_true (rp_redaction_version p))
              || (128 <? str_len (rp_redaction_version p)))
    (contract_error "retention_redaction_version_invalid").

Definition ref_to_dict (r : event_ref) : pyval :=
  PDict [("sequence", PInt r.1.1); ("event_id", PStr r.1.2); ("content_hash", PStr r.2)].

Definition attestation_to_dict (a : WorkflowEventRetentionAttestation) : dict :=
  [("schema", PStr (at_schema a)); ("tenant_id", PStr (at_tenant_id a));
   ("run_id", PStr (at_run_id a)); ("policy_version", PStr (at_policy_version a));
   ("redaction_version", PStr (at_redaction_version a));
   ("event_count", PInt (at_event_count a)); ("first_sequence", PInt (at_first_sequence a));
   ("last_sequence", PInt (at_last_sequence a));
   ("content_chain_hash", PStr (at_content_chain_hash a));
   ("raw_diagnostics_expire_before", PFloat (at_raw_diagnostics_expire_before a));
   ("event_refs", PList (map ref_to_dict (at_event_refs a)))].

(** ** The service *)

Definition seed_value (p : WorkflowEventRetentionPolicy) (tenant_id run_id : string) : pyval :=
  PDict [("schema", PStr RETENTION_ATTESTATION_SCHEMA); ("tenant_id", PStr tenant_id);
         ("run_id", PStr run_id); ("policy_version", PStr (rp_policy_version p));
         ("redaction_version", PStr (rp_redaction_version p))].

Definition link_value (previous : string) (r : event_ref) : pyval :=
  PDict [("previous", PStr previous); ("sequence", PInt r.1.1); ("event_id", PStr r.1.2);
         ("content_hash", PStr r.2)].

(** [dict(redact_json(event.payload)) != event.payload] *)
Definition unredacted (e : CanonicalWorkflowEvent) : bool :=
  negb (py_eqb true (PDict (redact_dict (ev_payload e))) (PDict (ev_payload e))).

Definition sequence_leb (x y : CanonicalWorkflowEvent) : bool := ev_sequence x <=? ev_sequence y.

(** [float(evaluated_at) - raw_diagnostic_ttl_seconds] *)
Definition expire_before (p : WorkflowEventRetentionPolicy) (evaluated_at : float) : float :=
  float_sub evaluated_at
    (default S754_nan (float_of_int (rp_raw_diagnostic_ttl_seconds p))).

Section with_digest.
Context `{Digest}.

(** The loop of [attest], from the event after [previous_sequence] on: the chain
    hash and the references it appends. *)
Fixpoint attest_events (tenant_id run_id : string) (events : list CanonicalWorkflowEvent)
  (previous_sequence : Z) (chain : string) : result (string * list event_ref) :=
  match events with
  | [] => Ok (chain, [])
  | e :: events =>
      event_assert_valid e false ;;
      raise_when (bool_decide (ev_tenant_id e ≠ tenant_id) || bool_decide (ev_run_id e ≠ run_id))
      (contract_error "retention_event_binding_mismatch") ;;
      raise_when (negb (ev_sequence e =? previous_sequence + 1))
      (contract_error "retention_event_sequence_gap") ;;
      raise_when (unredacted e) (contract_error "retention_unredacted_event_denied") ;;
      hash ← content_hash e;
      let ref := (ev_sequence e, ev_event_id e, hash) in
      chain ← sha256_json (link_value chain ref);
      rest ← attest_events tenant_id run_id events (ev_sequence e) chain;
      Ok (rest.1, ref :: rest.2)
  end.

Definition attest (p : WorkflowEventRetentionPolicy) (tenant_id run_id : string)
  (events : list CanonicalWorkflowEvent) (evaluated_at : float)
  : result WorkflowEventRetentionAttestation :=
  let ordered := sort_by sequence_leb events in
  raise_when (negb (str_true tenant_id) || negb (str_true run_id)
  || float_leb evaluated_at (S754_zero false))
  (contract_error "retention_binding_invalid") ;;
  seed ← sha256_json (seed_value p tenant_id run_id);
  chain_refs ← attest_events tenant_id run_id ordered 0 seed;
  Ok {| at_tenant_id := tenant_id; at_run_id := run_id;
    at_policy_version := rp_policy_version p;
    at_redaction_version := rp_redaction_version p;
    at_event_count := Z.of_nat (length ordered);
    at_first_sequence := default 0 (ev_sequence <$> head ordered);
    at_last_sequence := default 0 (ev_sequence <$> last ordered);
    at_content_chain_hash := chain_refs.1;
    at_raw_diagnostics_expire_before := expire_before p evaluated_at;
    at_event_refs := chain_refs.2;
    at_schema := RETENTION_ATTESTATION_SCHEMA |}.

Definition attestation_verify (p : WorkflowEventRetentionPolicy)
  (a : WorkflowEventRetentionAttestation) (events : list CanonicalWorkflowEvent)
  (evaluated_at : float) : result unit :=
  rebuilt ← attest p (at_tenant_id a) (at_run_id a) events evaluated_at;
  x ← canonical_json (PDict (attestation_to_dict rebuilt));
  y ← canonical_json (PDict (attestation_to_dict a));
  raise_when (bool_decide (x ≠ y)) (contract_error "retention_attestation_mismatch").
End with_digest.

(** ** The hash chain *)

Section retention_laws.
Context `{Digest}.

Fixpoint chain_from (chain : string) (refs : list event_ref) : result string :=
  match refs with
  | [] => Ok chain
  | r :: refs => chain ← sha256_json (link_value chain r); chain_from chain refs
  end.

Lemma chain_from_snoc c refs r :
  chain_from c (refs ++ [r]) = (c ← chain_from c refs; sha256_json (link_value c r)).
Proof.
  revert c. induction refs as [|x refs IH]; intros c; cbn.
  - by destruct (sha256_json (link_value c r)).
  - by destruct (sha256_json (link_value c x)); cbn.
Qed.

Lemma seed_inj p t r p' t' r' :
  norm (seed_value p t r) = norm (seed_value p' t' r') →
  t = t' ∧ r = r' ∧ rp_policy_version p = rp_policy_version p' ∧
  rp_redaction_version p = rp_redaction_version p'.
Proof. intros Heq. cbn in Heq. injection Heq. auto. Qed.

Lemma link_inj c r c' r' : norm (link_value c r) = norm (link_value c' r') → c = c' ∧ r = r'.
Proof.
  destruct r as [[n i] h], r' as [[n' i'] h']. intros Heq. cbn in Heq. injection Heq. naive_solver.
Qed.

Lemma seed_not_link p t r c x : norm (seed_value p t r) ≠ norm (link_value c x).
Proof. intros Heq. cbn in Heq. discriminate Heq. Qed.

Lemma seed_ok p t r : json_ok (seed_value p t r) = true.
Proof. done. Qed.

Lemma link_ok c r : json_ok (link_value c r) = true.
Proof. done. Qed.

Lemma json_hash v : json_ok v = true → ∃ h, sha256_json v = Ok h.
Proof. intros Hv. unfold sha256_json. rewrite canonical_json_print by done. by eexists. Qed.

(** What is hashed along a chain. *)
Fixpoint chain_values (chain : string) (refs : list event_ref) : list pyval :=
  match refs with
  | [] => []
  | r :: refs => link_value chain r ::
    match sha256_json (link_value chain r) with Ok chain => chain_values chain refs | Err _ => [] end
  end.

Lemma chain_values_snoc c refs r d :
  chain_from c refs = Ok d → chain_values c (refs ++ [r]) = chain_values c refs ++ [link_value d r].
Proof.
  revert c. induction refs as [|x refs IH]; intros c; cbn [chain_from chain_values app].
  - intros [= ->]. by destruct (sha256_json _).
  - destruct (sha256_json (link_value c x)) as [c'|]; [|done]. cbn [mbind result_bind].
    intros Hd. by rewrite (IH c' Hd).
Qed.

(** A value hashed for the one list clashes with a value hashed for the other. *)
Definition values_clash (vs ws : list pyval) : Prop := ∃ v w, v ∈ vs ∧ w ∈ ws ∧ json_clash v w.

Lemma values_clash_mono vs ws vs' ws' : vs ⊆ vs' → ws ⊆ ws' → values_clash vs ws → values_clash vs' ws'.
Proof. intros Hv Hw (v & w & ? & ? & ?). exists v, w. auto. Qed.

(** Two chains with the same end are the same chain, or something hashed along
    the one clashes with something hashed along the other. *)
Lemma chain_binds p t r c p' t' r' c' refs refs' h :
  sha256_json (seed_value p t r) = Ok c → sha256_json (seed_value p' t' r') = Ok c' →
  chain_from c refs = Ok h → chain_from c' refs' = Ok h →
  (t = t' ∧ r = r' ∧ rp_policy_version p = rp_policy_version p' ∧
    rp_redaction_version p = rp_redaction_version p' ∧ refs = refs') ∨
  values_clash (seed_value p t r :: chain_values c refs) (seed_value p' t' r' :: chain_values c' refs').
Proof.
  intros Hc Hc'. revert refs' h. induction refs as [|x refs IH] using rev_ind; intros refs' h Hh Hh';
    (destruct refs' as [|x' refs' _] using rev_ind);
    try rewrite chain_from_snoc in Hh; try rewrite chain_from_snoc in Hh';
    cbn [chain_from] in Hh, Hh'; result_inv; subst;
    repeat match goal with Hx : chain_from _ _ = Ok _ |- context [chain_values _ (_ ++ [_])] =>
      rewrite (chain_values_snoc _ _ _ _ Hx) end;
    match goal with H1 : sha256_json ?v = Ok ?a, H2 : sha256_json ?w = Ok ?a |- _ =>
      assert (json_ok v = true ∧ json_ok w = true) as [Hv Hw] by done;
      destruct (sha256_json_binds v w a Hv Hw H1 H2) as [Heq|Hcl]; [|right; exists v, w; set_solver] end.
  - apply seed_inj in Heq. left. naive_solver.
  - by apply seed_not_link in Heq.
  - symmetry in Heq. by apply seed_not_link in Heq.
  - apply link_inj in Heq as [-> ->].
    match goal with H1 : chain_from c refs = Ok _, H2 : chain_from c' refs' = Ok _ |- _ =>
        destruct (IH _ _ H1 H2) as [Heq|Hcl] end; [left; naive_solver|right].
    eapply values_clash_mono; [..|exact Hcl]; set_solver.
Qed.

(** ** What an attestation says *)

Definition referenced (e : CanonicalWorkflowEvent) (r : event_ref) : Prop :=
  r.1 = (ev_sequence e, ev_event_id e) ∧ content_hash e = Ok r.2.

(** The events [attest] accepts after sequence [k]. *)
Definition attestable (t r : string) (k : Z) (l : list CanonicalWorkflowEvent) : Prop :=
  ∀ i e, l !! i = Some e →
  event_ok e false ∧ ev_tenant_id e = t ∧ ev_run_id e = r ∧ ev_sequence e = k + Z.of_nat i + 1 ∧
  unredacted e = false.

Lemma attestable_cons t r k e l :
  attestable t r k (e :: l) ↔
  (event_ok e false ∧ ev_tenant_id e = t ∧ ev_run_id e = r ∧ ev_sequence e = k + 1 ∧
    unredacted e = false) ∧ attestable t r (k + 1) l.
Proof.
  split.
  - intros Hl. split.
    + destruct (Hl 0%nat e eq_refl) as (? & ? & ? & ? & ?). split_and!; try done. lia.
    + intros i x Hx. destruct (Hl (S i) x Hx) as (? & ? & ? & ? & ?). split_and!; try done. lia.
  - intros [(? & ? & ? & ? & ?) Hl] [|i] x Hx.
    + injection Hx as <-. split_and!; try done. lia.
    + destruct (Hl i x Hx) as (? & ? & ? & ? & ?). split_and!; try done. lia.
Qed.

Lemma attest_events_Ok t r l k c c' refs :
  attest_events t r l k c = Ok (c', refs) →
  attestable t r k l ∧ Forall2 referenced l refs ∧ chain_from c refs = Ok c'.
Proof.
  revert k c c' refs. induction l as [|e l IH]; intros k c c' refs; cbn [attest_events].
  - intros [= <- <-]. split_and!; [|constructor|done]. intros i x Hx. done.
  - intros Hl. result_inv. intros <-. subst refs.
    match goal with Hx : event_assert_valid _ _ = Ok _ |- _ => apply event_assert_valid_Ok in Hx end.
    repeat match goal with
      | Hx : _ || _ = false |- _ => apply orb_false_iff in Hx as [? ?]
      | Hx : bool_decide (_ ≠ _) = false |- _ => apply bool_decide_eq_false, dec_stable in Hx
      | Hx : negb _ = false |- _ => apply negb_false_iff in Hx
      | Hx : (_ =? _) = true |- _ => apply Z.eqb_eq in Hx
      end.
    match goal with Hx : attest_events _ _ _ _ _ = Ok ?a |- _ =>
        destruct a as [d refs]; apply IH in Hx as (Hl & Hf & Hch) end. cbn [fst snd].
    split_and!.
    + apply attestable_cons. replace (ev_sequence e) with (k + 1) in Hl by done. done.
    + by constructor.
    + cbn [chain_from]. match goal with Hx : sha256_json _ = Ok _ |- _ => by rewrite Hx end.
Qed.

Lemma attest_Ok p t r l now a :
  attest p t r l now = Ok a →
  let ordered := sort_by sequence_leb l in
  attestable t r 0 ordered ∧ Forall2 referenced ordered (at_event_refs a) ∧
  (∃ c, sha256_json (seed_value p t r) = Ok c ∧
    chain_from c (at_event_refs a) = Ok (at_content_chain_hash a)) ∧
  at_tenant_id a = t ∧ at_run_id a = r ∧ at_policy_version a = rp_policy_version p ∧
  at_redaction_version a = rp_redaction_version p ∧
  at_event_count a = Z.of_nat (length l).
Proof.
  intros Ha ordered. unfold attest in Ha. fold ordered in Ha. result_inv. subst a.
  cbn [at_event_refs at_content_chain_hash at_tenant_id at_run_id at_policy_version
      at_redaction_version at_event_count].
  match goal with Hx : attest_events _ _ _ _ _ = Ok ?x |- _ =>
      destruct x as [c refs]; apply attest_events_Ok in Hx as (Hl & Hf & Hch) end.
  split_and!; try done; [by eexists|]. unfold ordered. by rewrite length_sort_by.
Qed.

(** ** Properties *)

(** The content an event is hashed by. *)
Definition event_content (e : CanonicalWorkflowEvent) : pyval :=
  PDict (dict_del "event_id" (dict_del "sequence" (event_to_dict e))).

(** The same event up to the order of keys in its payload. *)
Definition same_event (x y : CanonicalWorkflowEvent) : Prop :=
  ev_event_id x = ev_event_id y ∧ ev_sequence x = ev_sequence y ∧
  norm (event_content x) = norm (event_content y).

Lemma referenced_same x y r :
  json_ok (event_content x) = true → json_ok (event_content y) = true →
  referenced x r → referenced y r →
  same_event x y ∨ json_clash (event_content x) (event_content y).
Proof.
  intros Hx Hy [Hrx Hcx] [Hry Hcy]. destruct (sha256_json_binds _ _ _ Hx Hy Hcx Hcy); [left|by right].
  rewrite Hrx in Hry. injection Hry as Hs Hi. done.
Qed.

Lemma referenced_all_same xs ys refs :
  (∀ e, e ∈ xs ++ ys → json_ok (event_content e) = true) →
  Forall2 referenced xs refs → Forall2 referenced ys refs →
  Forall2 same_event xs ys ∨ values_clash (map event_content xs) (map event_content ys).
Proof.
  intros Hok Hx. revert ys Hok. induction Hx as [|x r xs refs Hr Hx IH]; intros ys Hok Hy;
    inversion Hy as [|y ? ys' ? Hry Hys]; subst; [by left; constructor|].
  assert (∀ e, e ∈ xs ++ ys' → json_ok (event_content e) = true) as Hok'.
  { intros e [He|He]%elem_of_app; apply Hok, elem_of_app; [left|right]; by right. }
  destruct (referenced_same x y r) as [Hs|Hc]; [apply Hok; set_solver..|done|done| |].
  - destruct (IH ys' Hok' Hys) as [Hf|Hc]; [left; by constructor|right].
    eapply values_clash_mono; [..|exact Hc]; cbn; set_solver.
  - right. exists (event_content x), (event_content y). cbn. set_solver.
Qed.

Lemma attest_events_run t r l k c :
  attestable t r k l → (∀ e, e ∈ l → is_ok (content_hash e) = true) →
  ∃ out, attest_events t r l k c = Ok out.
Proof.
  revert k c. induction l as [|e l IH]; intros k c Hl Hh; [by eexists|].
  apply attestable_cons in Hl as [(Hok & Ht & Hr & Hs & Hu) Hl]. cbn [attest_events].
  rewrite (proj2 (event_assert_valid_Ok e false tt) Hok). cbn [mbind result_bind].
  rewrite Ht, Hr, !bool_decide_false by (intros Hn; by apply Hn). rewrite Hs, Z.eqb_refl, Hu.
  cbn [orb negb raise_when mbind result_bind].
  specialize (Hh e ltac:(left)) as He. destruct (content_hash e) as [h|]; [|done].
  cbn [mbind result_bind].
  destruct (json_hash _ (link_ok c (k + 1, ev_event_id e, h))) as [c' ->].
  cbn [mbind result_bind]. destruct (IH (k + 1) c') as [out Hout]; [done|intros x Hx; apply Hh; by right|].
  rewrite Hout. by eexists.
Qed.

Lemma attestable_sorted t r k l :
  attestable t r k l → StronglySorted (λ x y, sequence_leb x y = true) l.
Proof.
  revert k. induction l as [|e l IH]; intros k Hl; [constructor|].
  apply attestable_cons in Hl as [(_ & _ & _ & Hs & _) Hl]. constructor; [by eapply IH|].
  apply Forall_lookup. intros i x Hx. destruct (Hl i x Hx) as (_ & _ & _ & Hx' & _).
  unfold sequence_leb. apply Z.leb_le. lia.
Qed.

(** The chain hash of an attestation binds everything it attests: two
    attestations with the same chain hash are of the same run, under the same
    policy and redaction versions, and list the same events, or something hashed
    for the one clashes with something hashed for the other. *)
Theorem chain_hash_binds p t r l now a p' t' r' l' now' a' :
  attest p t r l now = Ok a → attest p' t' r' l' now' = Ok a' →
  at_content_chain_hash a = at_content_chain_hash a' →
  ∃ c c', sha256_json (seed_value p t r) = Ok c ∧ sha256_json (seed_value p' t' r') = Ok c' ∧
  ((t = t' ∧ r = r' ∧ rp_policy_version p = rp_policy_version p' ∧
      rp_redaction_version p = rp_redaction_version p' ∧ at_event_refs a = at_event_refs a') ∨
    values_clash (seed_value p t r :: chain_values c (at_event_refs a))
    (seed_value p' t' r' :: chain_values c' (at_event_refs a'))).
Proof.
  intros (_ & Hf & (c & Hc & Hch) & _)%attest_Ok (_ & Hf' & (c' & Hc' & Hch') & _)%attest_Ok Heq.
  rewrite <- Heq in Hch'. exists c, c'. split_and!; [done..|]. by eapply chain_binds.
Qed.

Lemma attestable_perm t r l l' :
  attestable t r 0 (sort_by sequence_leb l) → l' ≡ₚ l →
  sort_by sequence_leb l' = sort_by sequence_leb l.
Proof.
  intros Hl Hp. symmetry. apply sort_by_perm_eq; [| | |by symmetry].
  - unfold sequence_leb. intros x y z. rewrite !Z.leb_le. lia.
  - unfold sequence_leb. intros x y. rewrite !Z.leb_le. lia.
  - intros x y Hx Hy. rewrite <- (sort_by_perm sequence_leb l) in Hx, Hy.
    apply list_elem_of_lookup in Hx as [i Hi], Hy as [j Hj].
    destruct (Hl i x Hi) as (_ & _ & _ & Hsx & _), (Hl j y Hj) as (_ & _ & _ & Hsy & _).
    unfold sequence_leb. rewrite !Z.leb_le. intros Hle1 Hle2.
    assert (i = j) as -> by lia. congruence.
Qed.

Lemma attestation_ok a :
  float_ok (at_raw_diagnostics_expire_before a) = true →
  json_ok (PDict (attestation_to_dict a)) = true.
Proof.
  intros Hf. unfold attestation_to_dict. cbn [json_ok forallb snd andb]. rewrite Hf. cbn [andb].
  rewrite andb_true_r. induction (at_event_refs a); cbn; auto.
Qed.

Lemma attestation_dict_wf a : dict_wf (attestation_to_dict a).
Proof. apply (bool_decide_unpack _). vm_compute. exact I. Qed.

Lemma refs_norm_inj refs refs' :
  norm (PList (map ref_to_dict refs)) = norm (PList (map ref_to_dict refs')) → refs = refs'.
Proof.
  cbn. intros [= Heq]. revert refs' Heq.
  induction refs as [|[[n i] h] refs IH]; intros [|[[n' i'] h'] refs'] Heq; try done.
  cbn in Heq. injection Heq as -> -> -> Heq. f_equal. by apply IH.
Qed.

(** The canonical text of an attestation determines its references. *)
Lemma attestation_text_refs a b x :
  float_ok (at_raw_diagnostics_expire_before a) = true →
  float_ok (at_raw_diagnostics_expire_before b) = true →
  canonical_json (PDict (attestation_to_dict a)) = Ok x →
  canonical_json (PDict (attestation_to_dict b)) = Ok x →
  at_event_refs a = at_event_refs b.
Proof.
  intros Ha Hb Hxa Hxb.
  assert (norm (PDict (attestation_to_dict a)) = norm (PDict (attestation_to_dict b))) as Hn
    by (apply (canonical_text_norm _ _ x); by (try apply attestation_ok)).
  apply (norm_dict_get _ _ "event_refs") in Hn; [|apply attestation_dict_wf..].
  apply refs_norm_inj. by apply (inj Some) in Hn.
Qed.

(** An attestation is accepted, at the time it was made for, for the events it
    was made of, in whatever order they are read back, and for no others: the
    events it is accepted for are the attested ones, with the same content, or
    the contents of an attested and of a submitted event clash in the hash
    function. *)
Theorem retention_verify p t r l now a l' :
  attest p t r l now = Ok a → float_ok (expire_before p now) = true →
  (∀ e, e ∈ l ++ l' → json_ok (event_content e) = true) →
  (l' ≡ₚ l → attestation_verify p a l' now = Ok tt) ∧
  (attestation_verify p a l' now = Ok tt →
    Forall2 same_event (sort_by sequence_leb l) (sort_by sequence_leb l') ∨
    values_clash (map event_content l) (map event_content l')).
Proof.
  intros Ha Hf Hok. pose proof (attest_Ok _ _ _ _ _ _ Ha) as (Hl & Hrefs & _ & Ht & Hr & _).
  assert (∀ l b, attest p t r l now = Ok b → at_raw_diagnostics_expire_before b = expire_before p now) as Hexp.
  { intros k b Hb. unfold attest in Hb. result_inv. by subst b. }
  unfold attestation_verify. rewrite Ht, Hr. split.
  - intros Hp. assert (attest p t r l' now = Ok a) as ->.
    { rewrite <- Ha. unfold attest. by rewrite (attestable_perm _ _ _ _ Hl Hp). }
    cbn [mbind result_bind]. rewrite canonical_json_print by (apply attestation_ok; by rewrite (Hexp l a)).
    cbn [mbind result_bind]. by rewrite bool_decide_false by (intros Hn; by apply Hn).
  - intros Hv. result_inv.
    match goal with Hx : attest p t r l' now = Ok ?b |- _ => rename Hx into Hb end.
    match goal with Hx : bool_decide (_ ≠ _) = false |- _ =>
        apply bool_decide_eq_false, dec_stable in Hx; subst end.
    pose proof (attest_Ok _ _ _ _ _ _ Hb) as (_ & Hrefs' & _).
    erewrite attestation_text_refs in Hrefs'; [|by rewrite (Hexp _ _ Hb)|by rewrite (Hexp _ _ Ha)|done|done].
    destruct (referenced_all_same (sort_by sequence_leb l) (sort_by sequence_leb l') (at_event_refs a))
      as [Hs|Hc]; [|done|done|by left|right].
    + intros e He. apply Hok. by rewrite !sort_by_perm in He.
    + eapply values_clash_mono; [..|exact Hc]; intros v; rewrite !list_elem_of_fmap;
        intros (e & -> & He); exists e; by rewrite sort_by_perm in He.
Qed.

Lemma stored_attestable s t r :
  reachable_store s → (∀ e, e ∈ stream s (t, r) → wf (PDict (ev_payload e))) →
  attestable t r 0 (stream s (t, r)).
Proof.
  intros Hs Hwf i e Hi. destruct (reachable_streams_ok s Hs (t, r) i e Hi) as (Hseq & Hkey & Hok & Hcl).
  injection Hkey as Ht Hr. split_and!; [done|done|done|lia|].
  unfold unredacted. rewrite (cl_payload e Hcl), py_eqb_refl; [done|].
  apply Hwf. by eapply list_elem_of_lookup_2.
Qed.

(** The history of a run can always be attested: for any run of any reachable
    event store whose payloads are JSON dicts, reading it back and attesting it
    succeeds, and the attestation counts and lists every stored event once, in
    sequence. *)
Theorem attest_stored s p t r now :
  reachable_store s → canonical DEFAULT_IDENTITY_MAX_LENGTH t →
  canonical DEFAULT_IDENTITY_MAX_LENGTH r → float_leb now (S754_zero false) = false →
  (∀ e, e ∈ stream s (t, r) →
    wf (PDict (ev_payload e)) ∧ floats_finite (event_content e) = true) →
  ∃ a, (l ← list_events (PStr t) (PStr r) 0 None s; attest p t r l now) = Ok a ∧
  at_event_count a = Z.of_nat (length (stream s (t, r))) ∧
  map fst (at_event_refs a) = map (λ e, (ev_sequence e, ev_event_id e)) (stream s (t, r)).
Proof.
  intros Hs Ht Hr Hnow Hj. destruct (list_events_pages s t r 0 0 Hs Ht Hr) as (_ & -> & _); [lia..|].
  cbn [drop mbind result_bind]. set (l := stream s (t, r)) in *.
  assert (attestable t r 0 l) as Hl by (apply stored_attestable; [done|]; intros e He; by apply Hj).
  assert (sort_by sequence_leb l = l) as Hsort by (by eapply sort_by_id, attestable_sorted).
  assert (∃ a, attest p t r l now = Ok a) as [a Ha].
  { unfold attest. rewrite Hsort.
    rewrite (proj2 (str_true_spec t)), (proj2 (str_true_spec r)), Hnow by (by eapply can_nonempty).
    cbn [negb orb raise_when mbind result_bind].
    destruct (json_hash _ (seed_ok p t r)) as [seed ->]. cbn [mbind result_bind].
    destruct (attest_events_run t r l 0 seed Hl) as [out ->]; [|by eexists].
    intros e He. unfold content_hash, sha256_json. fold (event_content e).
    destruct (canonical_json (event_content e)) eqn:Hc; [done|].
    pose proof (canonical_json_total _ (proj2 (Hj e He))) as Htot. by rewrite Hc in Htot. }
  exists a. split; [done|].
  destruct (attest_Ok _ _ _ _ _ _ Ha) as (_ & Hf & _ & _ & _ & _ & _ & Hcount).
  split; [done|]. rewrite Hsort in Hf. clear -Hf.
  induction Hf as [|e x l refs [Hx _] Hf IH]; [done|]. cbn. by rewrite Hx, IH.
Qed.
End retention_laws.

(** ** Examples *)

Definition sample_policy : WorkflowEventRetentionPolicy :=
  {| rp_policy_version := "p1"; rp_raw_diagnostic_ttl_seconds := 604800;
     rp_mode := "append_only_redacted"; rp_redaction_version := "ananta-redaction-v1";
     rp_schema := RETENTION_POLICY_SCHEMA |}.

Definition attest_sample (l : list CanonicalWorkflowEvent) :
    result WorkflowEventRetentionAttestation :=
  @attest checksum_digest sample_policy "t" "r" l (lit 20000000 (-1)).

Definition sample_events : list CanonicalWorkflowEvent := stream sample_store ("t", "r").

Lemma sample_wf0 : wf (PDict []).
Proof. repeat constructor; set_solver. Qed.

Lemma sample_wf1 : wf (PDict [("x", PInt 1)]).
Proof. repeat constructor; set_solver. Qed.

Example attest_stored_witness :
  ∃ a, (l ← @list_events checksum_digest (PStr "t") (PStr "r") 0 None sample_store;
        attest_sample l) = Ok a ∧ at_event_count a = 2.
Proof.
  destruct (@attest_stored checksum_digest sample_store sample_policy "t" "r" (lit 20000000 (-1)))
    as (a & Ha & Hc & _).
  - apply clean_reachable, sample_store_reachable.
  - apply sample_canonical. reflexivity.
  - apply sample_canonical. reflexivity.
  - vm_compute. reflexivity.
  - assert (Forall (λ e, (ev_payload e = [] ∨ ev_payload e = [("x", PInt 1)]) ∧
      floats_finite (event_content e) = true) (stream sample_store ("t", "r"))) as Hf.
    { apply (bool_decide_unpack _). vm_compute. exact I. }
    intros e He. rewrite Forall_forall in Hf. destruct (Hf e He) as [[Hp|Hp] Hfin]; rewrite Hp.
    + exact (conj sample_wf0 Hfin).
    + exact (conj sample_wf1 Hfin).
  - exists a. split; [exact Ha|]. rewrite Hc. vm_compute. reflexivity.
Defined.

Lemma contents_ok l :
  forallb (λ e, json_ok (event_content e)) l = true →
  ∀ e, e ∈ l → json_ok (event_content e) = true.
Proof. rewrite forallb_forall. intros Hl e He. apply Hl, list_elem_of_In, He. Qed.

Example retention_verify_witness :
  ∃ a, attest_sample sample_events = Ok a ∧
  @attestation_verify checksum_digest sample_policy a (reverse sample_events)
    (lit 20000000 (-1)) = Ok tt.
Proof.
  destruct (attest_sample sample_events) as [a|e] eqn:Ha.
  - exists a. split; [reflexivity|].
    refine (proj1 (@retention_verify checksum_digest sample_policy "t" "r" sample_events
      (lit 20000000 (-1)) a (reverse sample_events) Ha _ _) _).
    + vm_compute. reflexivity.
    + apply contents_ok. vm_compute. reflexivity.
    + apply reverse_Permutation.
  - assert (is_ok (attest_sample sample_events) = true) as Hok by (vm_compute; reflexivity).
    rewrite Ha in Hok. discriminate Hok.
Defined.
