(* ===== verification/Projection.v ===== *)
(** * Run projections and legacy events (workflow_runtime/events.py)

    WorkflowRunProjection, the read model rebuilt from a run's events, and the
    adapter of the older backend events. *)
From S2P Require Import Prelude PyStr PyVal Digest Serialization Identity SchemaEvolution Plan Events EventPayload EventStore.

(** ** The projection *)

Record WorkflowRunProjection := {
  pj_tenant_id : string;
  pj_run_id : string;
  pj_workflow_id : string;
  pj_status : string;
  pj_sequence : Z;
  pj_steps : dict;
  pj_approvals : dict;
  pj_budgets : dict;
  pj_operations : dict;
  _seen_dedupe_keys : gset string;
}.

Definition new_projection (tenant_id run_id : string) : WorkflowRunProjection :=
  {| pj_tenant_id := tenant_id; pj_run_id := run_id; pj_workflow_id := "";
     pj_status := "pending"; pj_sequence := 0; pj_steps := []; pj_approvals := [];
     pj_budgets := []; pj_operations := []; _seen_dedupe_keys := ∅ |}.

(** [event_type.rsplit(".", 1)[-1]] *)
Definition last_part (event_type : string) : string := after_last "."%char event_type.

Definition as_dict (v : pyval) : dict := match v with PDict d => d | _ => [] end.

(** The body of [apply] between the checks and the bookkeeping: the new status,
    steps, approvals, budgets and operations. *)
Definition project (e : CanonicalWorkflowEvent)
    (st : string * dict * dict * dict * dict) : string * dict * dict * dict * dict :=
  let '(status, steps, approvals, budgets, operations) := st in
  let event_type := ev_event_type e in
  let payload := ev_payload e in
  if bool_decide (event_type = "workflow.run.started") then
    ("running", steps, approvals, budgets, operations)
  else if bool_decide (event_type ∈ ["workflow.run.completed"; "workflow.run.failed";
                                     "workflow.run.cancelled"]) then
    (last_part event_type, steps, approvals, budgets, operations)
  else if bool_decide (event_type = "workflow.run.status.changed") then
    let observed_status := lower (clean (dget "status" payload)) in
    (str_or observed_status status, steps, approvals, budgets, operations)
  else if starts_with "workflow.step." event_type && str_true (ev_step_id e) then
    let step := dict_update (as_dict (dget (ev_step_id e) steps))
      [("status", PStr (last_part event_type)); ("attempt", PInt (ev_attempt e));
       ("sequence", PInt (ev_sequence e)); ("payload", PDict payload)] in
    (status, dict_set (ev_step_id e) (PDict step) steps, approvals, budgets, operations)
  else if starts_with "workflow.approval." event_type then
    let gate_id := py_str (por (dget "gate_id" payload) (PStr (ev_step_id e))) in
    let approval := [("status", PStr (last_part event_type)); ("sequence", PInt (ev_sequence e));
                     ("actor", PStr (ev_actor e))] in
    (status, steps,
     if str_true gate_id then dict_set gate_id (PDict approval) approvals else approvals,
     budgets, operations)
  else if bool_decide (event_type = "workflow.budget.updated") then
    (status, steps, approvals, dict_update budgets payload, operations)
  else if starts_with "workflow.side_effect." event_type then
    let operation_id := str_or_default (dget "operation_id" payload) "" in
    let operation := [("status", PStr (last_part event_type)); ("sequence", PInt (ev_sequence e))] in
    (status, steps, approvals, budgets,
     if str_true operation_id then dict_set operation_id (PDict operation) operations
     else operations)
  else st.

Definition advance (e : CanonicalWorkflowEvent) (p : WorkflowRunProjection)
    : WorkflowRunProjection :=
  let '(status, steps, approvals, budgets, operations) :=
    project e (pj_status p, pj_steps p, pj_approvals p, pj_budgets p, pj_operations p) in
  {| pj_tenant_id := pj_tenant_id p; pj_run_id := pj_run_id p;
     pj_workflow_id := ev_workflow_id e; pj_status := status; pj_sequence := ev_sequence e;
     pj_steps := steps; pj_approvals := approvals; pj_budgets := budgets;
     pj_operations := operations;
     _seen_dedupe_keys := {[ev_dedupe_key e]} ∪ _seen_dedupe_keys p |}.

(** [WorkflowRunProjection.apply] *)
Definition apply (e : CanonicalWorkflowEvent) : action WorkflowRunProjection bool :=
  lift (event_assert_valid e false) ;;
  p ← get;
  lift (raise_when (bool_decide (ev_tenant_id e ≠ pj_tenant_id p)
                    || bool_decide (ev_run_id e ≠ pj_run_id p))
          (contract_error "projection_binding_mismatch")) ;;
  if bool_decide (ev_dedupe_key e ∈ _seen_dedupe_keys p) then mret false
  else
    lift (raise_when (negb (ev_sequence e =? pj_sequence p + 1))
            (OptimisticConcurrencyError
              ("projection_sequence_gap:expected=" +:+ z_str (pj_sequence p + 1)
               +:+ ":actual=" +:+ z_str (ev_sequence e)))) ;;
    modify (advance e) ;;
    mret true.

(** [for event in events: projection.apply(event)] *)
Fixpoint apply_all (events : list CanonicalWorkflowEvent) : action WorkflowRunProjection unit :=
  match events with
  | [] => mret tt
  | e :: events => apply e ;; apply_all events
  end.

Definition sequence_leb (x y : CanonicalWorkflowEvent) : bool :=
  ev_sequence x <=? ev_sequence y.

(** [WorkflowRunProjection.rebuild] *)
Definition rebuild (tenant_id run_id : string) (events : list CanonicalWorkflowEvent)
    : result WorkflowRunProjection :=
  let '(r, p) := apply_all (sort_by sequence_leb events) (new_projection tenant_id run_id) in
  r ;; Ok p.

Definition projection_to_dict (p : WorkflowRunProjection) : dict :=
  [("schema", PStr "ananta.workflow_run_projection.v1"); ("tenant_id", PStr (pj_tenant_id p));
   ("run_id", PStr (pj_run_id p)); ("workflow_id", PStr (pj_workflow_id p));
   ("status", PStr (pj_status p)); ("sequence", PInt (pj_sequence p));
   ("steps", PDict (pj_steps p)); ("approvals", PDict (pj_approvals p));
   ("budgets", PDict (pj_budgets p)); ("operations", PDict (pj_operations p))].

(** ** Legacy events *)

(** [int(s, 16)] of hexadecimal digits *)
Definition hex_value (s : string) : Z :=
  foldl (λ n c, 16 * n + (if is_digit_ascii c then code_point c - 48 else code_point c - 87)) 0
    (String.list_ascii_of_string s).

Definition _stable_legacy_timestamp (digest : string) : Z :=
  1700000000 + hex_value (str_take 12 digest) mod 31536000.

Definition replace_char (a b : ascii) (s : string) : string :=
  str_map (λ c, if bool_decide (c = a) then b else c) s.

(** [LegacyWorkflowBackendEventAdapter.adapt] *)
Definition adapt `{Digest} (raw : dict) (tenant_id run_id correlation_id causation_id : string)
    (fresh : string) (now : float) : result CanonicalWorkflowEvent :=
  details ← py_dict (por (dget "details" raw) (PDict []));
  digest ← sha256_json (redact_json (PDict raw));
  let legacy_type := replace_char "_"%char "."%char (strip (str_or_default (dget "event_type" raw) "unknown")) in
  let event_type := if starts_with "workflow." legacy_type then legacy_type
                    else "workflow.legacy." +:+ legacy_type in
  attempt ← py_int (por (dget "attempt" details) (PInt 0));
  stable ← py_float (PInt (_stable_legacy_timestamp digest));
  occurred_at ← py_float (por (por (dget "occurred_at" raw) (dget "timestamp" raw))
                            (PFloat stable));
  build (PStr tenant_id) (dget "workflow_id" raw) (PStr run_id) event_type correlation_id
    causation_id (str_or_default (dget "event_id" raw) digest)
    (str_or_default (dget "step_id" details) "") attempt
    (str_or_default (dget "actor" raw) "system")
    (dict_update [("legacy_status", dget "status" raw)] details)
    (Some occurred_at)
    (Some (str_or_default (dget "event_id" raw) ("wfe-legacy-" +:+ digest))) fresh now.

(** ** Applying one event *)

Definition applicable (e : CanonicalWorkflowEvent) (p : WorkflowRunProjection) : Prop :=
  event_ok e false ∧ ev_tenant_id e = pj_tenant_id p ∧ ev_run_id e = pj_run_id p.

Lemma advance_fields e p :
  pj_tenant_id (advance e p) = pj_tenant_id p ∧ pj_run_id (advance e p) = pj_run_id p ∧
  pj_sequence (advance e p) = ev_sequence e ∧
  _seen_dedupe_keys (advance e p) = {[ev_dedupe_key e]} ∪ _seen_dedupe_keys p.
Proof. unfold advance. by destruct (project _ _) as [[[[]]]]. Qed.

Lemma apply_new e p :
  applicable e p → ev_dedupe_key e ∉ _seen_dedupe_keys p → ev_sequence e = pj_sequence p + 1 →
  apply e p = (Ok true, advance e p).
Proof.
  intros (Hok & Ht & Hr) Hnew Hseq. unfold apply.
  rewrite (run_lift _ tt) by by apply event_assert_valid_Ok. rewrite run_get.
  rewrite run_guard by (rewrite !bool_decide_false by (intros Hn; by apply Hn); done).
  rewrite bool_decide_false by done.
  rewrite run_guard by (rewrite Hseq, Z.eqb_refl; done). done.
Qed.

Lemma apply_seen e p :
  applicable e p → ev_dedupe_key e ∈ _seen_dedupe_keys p → apply e p = (Ok false, p).
Proof.
  intros (Hok & Ht & Hr) Hseen. unfold apply.
  rewrite (run_lift _ tt) by by apply event_assert_valid_Ok. rewrite run_get.
  rewrite run_guard by (rewrite !bool_decide_false by (intros Hn; by apply Hn); done).
  by rewrite bool_decide_true.
Qed.

Lemma apply_all_app l l' p :
  apply_all (l ++ l') p =
  match apply_all l p with (Ok _, p') => apply_all l' p' | (Err e, p') => (Err e, p') end.
Proof.
  revert p. induction l as [|e l IH]; intros p; [done|]. cbn [apply_all app].
  unfold mbind, action_bind. destruct (apply e p) as [[b|err] p']; [|done]. apply IH.
Qed.

(** ** Streams *)

(** A run's stream: numbered 1, 2, 3, ..., with distinct dedupe keys. *)
Record run_stream (t r : string) (l : list CanonicalWorkflowEvent) : Prop := {
  rs_sequence : ∀ i e, l !! i = Some e → ev_sequence e = Z.of_nat i + 1;
  rs_event : ∀ e, e ∈ l → event_ok e false ∧ ev_tenant_id e = t ∧ ev_run_id e = r;
  rs_keys : NoDup (map ev_dedupe_key l);
}.

Lemma run_stream_snoc t r l e : run_stream t r (l ++ [e]) →
  run_stream t r l ∧ ev_sequence e = Z.of_nat (length l) + 1 ∧
  event_ok e false ∧ ev_tenant_id e = t ∧ ev_run_id e = r ∧ ev_dedupe_key e ∉ map ev_dedupe_key l.
Proof.
  intros [Hseq Hev Hkeys]. rewrite map_app in Hkeys.
  apply NoDup_app in Hkeys as (Hl & Hdis & _).
  destruct (Hev e) as (? & ? & ?); [apply elem_of_app; right; by left|].
  split_and!; try done.
  - split; [|intros x Hx; apply Hev, elem_of_app; by left|done].
    intros i x Hi. apply Hseq. by apply lookup_app_l_Some.
  - apply Hseq. by rewrite lookup_app_r, Nat.sub_diag by done.
  - intros Hin. apply (Hdis _ Hin). by left.
Qed.

(** The state after a stream. *)
Lemma apply_all_stream t r l :
  run_stream t r l →
  ∃ p, apply_all l (new_projection t r) = (Ok tt, p) ∧ pj_tenant_id p = t ∧ pj_run_id p = r ∧
  pj_sequence p = Z.of_nat (length l) ∧ _seen_dedupe_keys p = list_to_set (map ev_dedupe_key l).
Proof.
  induction l as [|e l IH] using rev_ind; intros Hl; [by eexists|].
  apply run_stream_snoc in Hl as (Hl & Hseq & Hok & Ht & Hr & Hnew).
  destruct (IH Hl) as (p & Hp & Hpt & Hpr & Hps & Hpk).
  rewrite apply_all_app, Hp. cbn [apply_all]. unfold mbind, action_bind.
  rewrite apply_new; [|by unfold applicable; subst|by rewrite Hpk, elem_of_list_to_set|lia].
  destruct (advance_fields e p) as (H1 & H2 & H3 & H4).
  eexists. split; [done|]. split_and!; try congruence.
  - rewrite H3, length_app. cbn. lia.
  - rewrite H4, Hpk, map_app, list_to_set_app_L. cbn. set_solver.
Qed.

(** At-least-once delivery of a stream: new events arrive in order, and events
    already delivered may arrive again at any time. *)
Inductive delivered : list CanonicalWorkflowEvent → list CanonicalWorkflowEvent → Prop :=
| delivered_nil : delivered [] []
| delivered_new e l d : delivered l d → delivered (l ++ [e]) (d ++ [e])
| delivered_again e l d : e ∈ l → delivered l d → delivered l (d ++ [e]).

Lemma apply_all_delivered t r l d :
  run_stream t r l → delivered l d →
  apply_all d (new_projection t r) = apply_all l (new_projection t r).
Proof.
  intros Hl Hd. induction Hd as [|e l d Hd IH|e l d He Hd IH]; [done|..].
  - rewrite !apply_all_app, IH; [done|]. by apply run_stream_snoc in Hl as [? _].
  - rewrite apply_all_app, IH by done.
    destruct (apply_all_stream t r l Hl) as (p & Hp & Hpt & Hpr & _ & Hpk).
    rewrite Hp. cbn [apply_all]. unfold mbind, action_bind.
    destruct (rs_event t r l Hl e He) as (? & ? & ?).
    rewrite apply_seen; [done|by unfold applicable; subst|].
    rewrite Hpk, elem_of_list_to_set. by apply list_elem_of_fmap_2.
Qed.

(** ** Rebuilding *)

Lemma sequence_leb_trans x y z :
  sequence_leb x y = true → sequence_leb y z = true → sequence_leb x z = true.
Proof. unfold sequence_leb. rewrite !Z.leb_le. lia. Qed.

Lemma sequence_leb_total x y : sequence_leb x y = true ∨ sequence_leb y x = true.
Proof. unfold sequence_leb. rewrite !Z.leb_le. lia. Qed.

Lemma run_stream_sorted t r l : run_stream t r l → sort_by sequence_leb l = l.
Proof.
  intros [Hseq _ _]. apply sort_by_id.
  assert (∀ o, (∀ i e, l !! i = Some e → ev_sequence e = o + Z.of_nat i + 1) →
    StronglySorted (λ x y, sequence_leb x y = true) l) as Hgen.
  { clear Hseq. induction l as [|e l IH]; intros o Hl; constructor.
    - apply (IH (o + 1)). intros i x Hi. rewrite (Hl (S i) x Hi). lia.
    - apply Forall_forall. intros x Hx. apply list_elem_of_lookup in Hx as [i Hi].
      apply Z.leb_le. rewrite (Hl 0%nat e eq_refl), (Hl (S i) x Hi). lia. }
  by apply (Hgen 0).
Qed.

Lemma rebuild_stream t r l :
  run_stream t r l →
  ∃ p, apply_all l (new_projection t r) = (Ok tt, p) ∧ rebuild t r l = Ok p ∧
  pj_sequence p = Z.of_nat (length l) ∧ _seen_dedupe_keys p = list_to_set (map ev_dedupe_key l).
Proof.
  intros Hl. destruct (apply_all_stream t r l Hl) as (p & Hp & _ & _ & Hs & Hk).
  exists p. split; [done|]. split; [|done]. unfold rebuild.
  by rewrite (run_stream_sorted t r l Hl), Hp.
Qed.

Section store.
Context `{Digest}.

Lemma store_run_stream s t r : reachable_clean s → run_stream t r (stream s (t, r)).
Proof.
  intros Hr. pose proof (clean_reachable s Hr) as Hr'. split.
  - intros i e Hi. by apply (reachable_streams_ok s Hr' (t, r)).
  - intros e He. destruct (stored_event s (t, r) e Hr' He) as (Hk & Hok & _).
    unfold key_of in Hk. by injection Hk as <- <-.
  - apply (stream_keys_NoDup _ (λ dk, _dedupe s !! ((t, r), dk))); [done|].
    intros e He. by apply reachable_indexes_exact.
Qed.

(** C34: the projection of a run converges under at-least-once delivery, when
    those who append events pass dedupe keys and event identifiers without outer
    white space ([dedupe_space_breaks_projection] shows what happens otherwise):
    from a new projection, the run's events delivered in order, with any earlier
    events delivered again in between, give without error the same projection
    as a rebuild of the whole stream, at the stream's last sequence. *)
Theorem delivery_converges s t r d :
  reachable_clean s → delivered (stream s (t, r)) d →
  ∃ p, apply_all d (new_projection t r) = (Ok tt, p) ∧ rebuild t r (stream s (t, r)) = Ok p ∧
  pj_sequence p = Z.of_nat (length (stream s (t, r))).
Proof.
  intros Hr Hd. pose proof (store_run_stream s t r Hr) as Hl.
  destruct (rebuild_stream t r _ Hl) as (p & Hp & Hb & Hs & _).
  exists p. by rewrite (apply_all_delivered t r _ d Hl Hd).
Qed.

(** A projection can catch up from any point: reading the events after its
    sequence and applying them gives the rebuild of the whole stream. *)
Theorem catch_up s t r k rest :
  reachable_clean s → canonical DEFAULT_IDENTITY_MAX_LENGTH t →
  canonical DEFAULT_IDENTITY_MAX_LENGTH r → (k ≤ length (stream s (t, r)))%nat →
  ∃ p, rebuild t r (take k (stream s (t, r))) = Ok p ∧
  (list_events (PStr t) (PStr r) (pj_sequence p) None s = Ok rest →
    ∃ q, apply_all rest p = (Ok tt, q) ∧ rebuild t r (stream s (t, r)) = Ok q).
Proof.
  intros Hr Ht Hrun Hk. pose proof (store_run_stream s t r Hr) as Hl.
  assert (run_stream t r (take k (stream s (t, r)))) as Hlk.
  { destruct Hl as [Hseq Hev Hkeys]. split.
    - intros i e Hi. apply Hseq. by apply lookup_take_Some in Hi as [? _].
    - intros e He. apply Hev. eapply elem_of_sublist; [exact He|apply sublist_take].
    - change (map ev_dedupe_key) with (fmap (M:=list) ev_dedupe_key) in *. rewrite fmap_take.
      eapply sublist_NoDup; [exact Hkeys|apply sublist_take]. }
  destruct (rebuild_stream t r _ Hlk) as (p & Hp & Hb & Hs & _).
  exists p. split; [done|]. rewrite Hs, length_take_le by done.
  unfold list_events. rewrite (require_canonical_identity_ok _ _ _ Ht),
    (require_canonical_identity_ok _ _ _ Hrun). cbn [mbind result_bind].
  rewrite stream_after by (by apply clean_reachable || lia). rewrite Nat2Z.id.
  rewrite (map_result_clone s (t, r)); [|by apply clean_reachable|].
  2:{ intros e He. eapply elem_of_sublist; [exact He|apply sublist_drop]. }
  intros [= <-]. destruct (rebuild_stream t r _ Hl) as (q & Hq & Hbq & _).
  exists q. split; [|done]. rewrite <- (take_drop k (stream s (t, r))) in Hq.
  by rewrite apply_all_app, Hp in Hq.
Qed.
End store.

(** A rebuild does not depend on the order in which events with different
    sequences are supplied. *)
Theorem rebuild_order_independent t r l1 l2 :
  NoDup (map ev_sequence l1) → l1 ≡ₚ l2 → rebuild t r l1 = rebuild t r l2.
Proof.
  intros Hnd Hperm. unfold rebuild.
  rewrite (sort_by_perm_eq sequence_leb l1 l2); [done|apply sequence_leb_trans
    |apply sequence_leb_total| |done].
  intros x y Hx Hy. unfold sequence_leb. rewrite !Z.leb_le. intros Hxy Hyx.
  apply list_elem_of_lookup in Hx as [i Hi], Hy as [j Hj].
  change (map ev_sequence) with (fmap (M:=list) ev_sequence) in Hnd.
  assert (i = j) as ->; [|congruence].
  eapply (NoDup_lookup _ i j (ev_sequence x) Hnd).
  - by rewrite list_lookup_fmap, Hi.
  - rewrite list_lookup_fmap, Hj. cbn. f_equal. lia.
Qed.

(** Applying an event either moves the projection to that event's sequence,
    or leaves it exactly as it was: an event already seen is a no-op, and a gap,
    an event of another run and an invalid event raise. *)
Theorem apply_exact e p :
  let out := apply e p in
  (out = (Ok true, advance e p) ∧ applicable e p ∧ ev_sequence e = pj_sequence p + 1 ∧
   ev_dedupe_key e ∉ _seen_dedupe_keys p) ∨
  (out = (Ok false, p) ∧ applicable e p ∧ ev_dedupe_key e ∈ _seen_dedupe_keys p) ∨
  (∃ err, out = (Err err, p) ∧
     (¬ applicable e p ∨
      ev_dedupe_key e ∉ _seen_dedupe_keys p ∧ ev_sequence e ≠ pj_sequence p + 1)).
Proof.
  cbn zeta. destruct (decide (event_ok e false)) as [Hok|Hok].
  2:{ right; right. unfold apply, mbind at 1, action_bind at 1.
      destruct (event_assert_valid e false) as [u|err] eqn:Hv.
      - by apply event_assert_valid_Ok in Hv.
      - exists err. split; [done|]. left. by intros (? & _). }
  destruct (decide (ev_tenant_id e = pj_tenant_id p ∧ ev_run_id e = pj_run_id p))
    as [[Ht Hr]|Hb].
  2:{ right; right. eexists. split; [|left; unfold applicable; tauto]. unfold apply.
      rewrite (run_lift _ tt) by by apply event_assert_valid_Ok. rewrite run_get.
      unfold mbind at 1, action_bind at 1, lift at 1.
      replace (bool_decide _ || bool_decide _) with true; [done|].
      symmetry. apply orb_true_iff. rewrite !bool_decide_eq_true.
      destruct (decide (ev_tenant_id e = pj_tenant_id p)); [right; tauto|by left]. }
  assert (applicable e p) as Ha by done.
  destruct (decide (ev_dedupe_key e ∈ _seen_dedupe_keys p)) as [Hs|Hs].
  { right; left. split; [by apply apply_seen|done]. }
  destruct (decide (ev_sequence e = pj_sequence p + 1)) as [Hq|Hq].
  { left. split; [by apply apply_new|done]. }
  right; right. eexists. split; [|by right]. unfold apply.
  rewrite (run_lift _ tt) by by apply event_assert_valid_Ok. rewrite run_get.
  rewrite run_guard by (rewrite !bool_decide_false by (intros Hn; by apply Hn); done).
  rewrite bool_decide_false by done. apply Z.eqb_neq in Hq. rewrite Hq. done.
Qed.

(** ** Legacy events *)

Lemma dget_perm k d e : dict_wf d → d ≡ₚ e → dget k d = dget k e.
Proof.
  intros Hwf Hp. unfold dget.
  assert (dict_wf e) as Hwf' by (unfold dict_wf, dict_keys in *; by rewrite <- Hp).
  destruct (dict_get k d) as [v|] eqn:Hd.
  - apply dict_get_elem in Hd. rewrite Hp in Hd. by rewrite (dict_get_NoDup k v e Hwf' Hd).
  - destruct (dict_get k e) as [v|] eqn:He; [|done].
    apply dict_get_elem in He. rewrite <- Hp in He.
    rewrite (dict_get_NoDup k v d Hwf He) in Hd. done.
Qed.

Lemma redact_perm d e : d ≡ₚ e → ∃ d' e', redact_json (PDict d) = PDict d' ∧
  redact_json (PDict e) = PDict e' ∧ d' ≡ₚ e' ∧ dict_keys d' = dict_keys d.
Proof.
  intros Hp. do 2 eexists. split; [done|]. split; [done|]. split; [by apply Permutation_map|].
  unfold dict_keys. clear Hp. induction d as [|[k x] d IH]; cbn; [done|]. by rewrite IH.
Qed.

Lemma truthy_text v : json_ok v = true → truthy v = true → py_str v ≠ "".
Proof.
  destruct v as [|[]|n|x|s|l|l|d]; cbn [json_ok truthy py_str py_repr]; try done.
  - intros _ _. apply z_str_nonempty.
  - intros (_ & _ & Hx)%float_ok_spec _. by destruct (float_repr x).
  - intros _. by rewrite str_true_spec.
  - by destruct l as [|y [|]].
Qed.

Lemma or_default_nonempty v s : json_ok v = true → s ≠ "" → str_true (str_or_default v s) = true.
Proof.
  intros Hv Hs. apply str_true_spec. unfold str_or_default, por.
  destruct (truthy v) eqn:Ht; [by apply truthy_text|done].
Qed.

(** Reading a legacy record again gives the identical event, whatever the
    clock, the fresh identifier and the order of the record's keys are, so a
    repeated import of the record is a duplicate and not a second event. *)
Theorem adapt_stable `{Digest} raw raw' t r c k f1 n1 f2 n2 :
  dict_wf raw → json_ok (PDict raw) = true → raw ≡ₚ raw' →
  adapt raw t r c k f1 n1 = adapt raw' t r c k f2 n2.
Proof.
  intros Hwf Hok Hp. unfold adapt. rewrite !(dget_perm _ raw raw' Hwf Hp).
  destruct (redact_perm raw raw' Hp) as (d & d' & Hd & Hd' & Hpd & Hkeys).
  assert (sha256_json (redact_json (PDict raw)) = sha256_json (redact_json (PDict raw')))
    as ->.
  { pose proof (json_ok_redact _ Hok) as Hj. rewrite Hd in Hj. rewrite Hd, Hd'.
    assert (json_ok (PDict d') = true) as Hj'
      by (cbn in *; by rewrite <- (forallb_perm _ _ _ Hpd)).
    unfold sha256_json. rewrite (proj2 (canonical_json_same _ _ Hj Hj')); [done|].
    apply norm_dict_perm; [|done]. unfold dict_wf. by rewrite Hkeys. }
  destruct (py_dict _) as [details|]; [|done]. cbn [mbind result_bind].
  destruct (sha256_json _) as [digest|]; [|done]. cbn [mbind result_bind].
  destruct (py_int _) as [attempt|]; [|done]. cbn [mbind result_bind].
  destruct (py_float (PInt _)) as [stable|]; [|done]. cbn [mbind result_bind].
  destruct (py_float _) as [at'|]; [|done]. cbn [mbind result_bind].
  unfold build. cbn [from_option id]. unfold str_or.
  rewrite (or_default_nonempty (dget "event_id" raw') ("wfe-legacy-" +:+ digest));
    [done| |by intros [=]]. apply json_ok_dget.
  cbn in *. by rewrite <- (forallb_perm _ _ _ Hp).
Qed.

(** ** Examples *)

Definition sample_delivery : list CanonicalWorkflowEvent :=
  match stream sample_store ("t", "r") with
  | [a; b] => [a; a; b; a]
  | _ => []
  end.

Example delivery_converges_witness :
  ∃ p, apply_all sample_delivery (new_projection "t" "r") = (Ok tt, p) ∧ pj_sequence p = 2.
Proof.
  destruct (@delivery_converges checksum_digest sample_store "t" "r" sample_delivery)
    as (p & Hp & _ & Hs); [exact sample_store_reachable| |].
  - unfold sample_delivery. assert (length (stream sample_store ("t", "r")) = 2%nat) as Hlen
      by (vm_compute; reflexivity).
    destruct (stream sample_store ("t", "r")) as [|a [|b [|]]]; try done.
    apply (delivered_again a [a; b] [a; a; b]); [by left|].
    apply (delivered_new b [a] [a; a]), (delivered_again a [a] [a]); [by left|].
    apply (delivered_new a [] []), delivered_nil.
  - exists p. split; [exact Hp|]. rewrite Hs. vm_compute. reflexivity.
Defined.

(** The store tells the dedupe keys d and d after a space apart, and stores both
    stripped: the projection takes the second event for the first and stops at
    the third. *)
Lemma dedupe_space_breaks_projection :
  let s := @run_calls checksum_digest
    [sample_call "e1" "d" [] 0; sample_call "e2" " d" [] 1; sample_call "e3" "x" [] 2] in
  length (stream s ("t", "r")) = 3%nat ∧ is_ok (rebuild "t" "r" (stream s ("t", "r"))) = false.
Proof. split; vm_compute; reflexivity. Qed.

Example catch_up_witness :
  ∃ p q, rebuild "t" "r" (take 1 (stream sample_store ("t", "r"))) = Ok p ∧
  rebuild "t" "r" (stream sample_store ("t", "r")) = Ok q ∧
  apply_all (drop 1 (stream sample_store ("t", "r"))) p = (Ok tt, q).
Proof.
  destruct (@catch_up checksum_digest sample_store "t" "r" 1
    (drop 1 (stream sample_store ("t", "r")))) as (p & Hp & Hq);
    [exact sample_store_reachable|by apply sample_canonical..|vm_compute; lia|].
  assert (match rebuild "t" "r" (take 1 (stream sample_store ("t", "r"))) with
    | Ok p => pj_sequence p | Err _ => 0 end = 1) as Hs by (vm_compute; reflexivity).
  rewrite Hp in Hs. rewrite Hs in Hq. destruct Hq as (q & Hq & Hb).
  - vm_compute. reflexivity.
  - exists p, q. exact (conj Hp (conj Hb Hq)).
Defined.

Example rebuild_order_independent_witness :
  rebuild "t" "r" (stream sample_store ("t", "r"))
  = rebuild "t" "r" (reverse (stream sample_store ("t", "r"))).
Proof.
  apply (rebuild_order_independent "t" "r").
  - apply (bool_decide_unpack _). vm_compute. reflexivity.
  - by rewrite reverse_Permutation.
Defined.

Definition sample_legacy : dict :=
  [("event_type", PStr "task_done"); ("workflow_id", PStr "w"); ("status", PStr "ok");
   ("details", PDict [("attempt", PInt 2)])].

Example adapt_stable_witness :
  @adapt checksum_digest sample_legacy "t" "r" "c" "k" "f1" (lit 1 0)
  = @adapt checksum_digest (reverse sample_legacy) "t" "r" "c" "k" "f2" (lit 2 0).
Proof.
  apply (@adapt_stable checksum_digest).
  - apply (bool_decide_unpack _). vm_compute. reflexivity.
  - vm_compute. reflexivity.
  - by rewrite reverse_Permutation.
Defined.

Example sample_legacy_adapts :
  is_ok (@adapt checksum_digest sample_legacy "t" "r" "c" "k" "f1" (lit 1 0)) = true.
Proof. vm_compute. reflexivity. Qed.
