(* ===== verification/SideEffects.v ===== *)
(** * The side-effect ledger (workflow_runtime/side_effects.py, ananta_contracts)

    Stable operation identifiers, ledger records, their status machine, and
    InMemorySideEffectLedger's operations.  The ledger's RLock makes every
    method one step; the clock is an argument. *)
From S2P Require Import Prelude PyStr PyVal Digest Serialization Identity SchemaEvolution Plan Events.

Definition SIDE_EFFECT_LEDGER_SCHEMA : string := "ananta.side_effect_ledger.v1".
Definition LEDGER_SIDE_EFFECT_CLASSES : list string :=
  ["read"; "idempotent_write"; "non_idempotent_write"].
Definition SIDE_EFFECT_STATUSES : list string :=
  ["planned"; "authorized"; "started"; "completed"; "failed"; "uncertain"; "compensated"].

Definition _TRANSITIONS (status : string) : list string :=
  if bool_decide (status = "planned") then ["authorized"; "failed"]
  else if bool_decide (status = "authorized") then ["started"; "failed"]
  else if bool_decide (status = "started") then ["completed"; "failed"; "uncertain"]
  else if bool_decide (status = "failed") then ["authorized"; "compensated"]
  else if bool_decide (status = "uncertain") then ["completed"; "failed"; "compensated"]
  else if bool_decide (status = "completed") then ["compensated"]
  else [].

(** ** Records *)

Record SideEffectRecord := {
  se_operation_id : string;
  se_tenant_id : string;
  se_workflow_id : string;
  se_run_id : string;
  se_step_id : string;
  se_declared_operation : string;
  se_class : string;
  se_status : string;
  se_revision : Z;
  se_fencing_token : Z;
  se_attempt_id : string;
  se_envelope_id : string;
  se_result_ref : string;
  se_failure_code : string;
  se_updated_at : float;
  se_schema : string;
}.

#[global] Instance record_eq_dec : EqDecision SideEffectRecord.
Proof. solve_decision. Defined.

Record SideEffectClaim := {
  claim_record : SideEffectRecord;
  acquired : bool;
  claim_reason : string;
}.

Definition record_to_dict (r : SideEffectRecord) : dict :=
  [("schema", PStr (se_schema r)); ("operation_id", PStr (se_operation_id r));
   ("tenant_id", PStr (se_tenant_id r)); ("workflow_id", PStr (se_workflow_id r));
   ("run_id", PStr (se_run_id r)); ("step_id", PStr (se_step_id r));
   ("declared_operation", PStr (se_declared_operation r));
   ("side_effect_class", PStr (se_class r)); ("status", PStr (se_status r));
   ("revision", PInt (se_revision r)); ("fencing_token", PInt (se_fencing_token r));
   ("attempt_id", PStr (se_attempt_id r));
   ("authorization_envelope_id", PStr (se_envelope_id r));
   ("result_ref", PStr (se_result_ref r)); ("failure_code", PStr (se_failure_code r));
   ("updated_at", PFloat (se_updated_at r))].

Definition record_binding (r : SideEffectRecord)
    : string * string * string * string * string * string :=
  (se_tenant_id r, se_workflow_id r, se_run_id r, se_step_id r, se_declared_operation r,
   se_class r).

Section with_digest.
Context `{Digest}.

(** [operation_id_for] *)
Definition operation_id_for (tenant_id run_id step_id declared_operation : string)
  : result string :=
  let values := map strip [tenant_id; run_id; step_id; declared_operation] in
  raise_when (existsb (λ v, negb (str_true v)) values)
  (ValueError "operation_binding_required") ;;
  rendered ← canonical_json (PList (map PStr values));
  Ok ("op-" +:+ str_take 32 (hexdigest (utf8 rendered))).

(** [SideEffectRecord.assert_valid] *)
Definition record_assert_valid (r : SideEffectRecord) : result unit :=
  raise_when (existsb (λ v, negb (str_true v))
    [se_operation_id r; se_tenant_id r; se_workflow_id r; se_run_id r; se_step_id r;
      se_declared_operation r; se_class r])
  (ValueError "side_effect_binding_required") ;;
  expected_id ← operation_id_for (se_tenant_id r) (se_run_id r) (se_step_id r)
  (se_declared_operation r);
  raise_when (bool_decide (se_operation_id r ≠ expected_id))
  (ValueError "side_effect_operation_id_invalid") ;;
  raise_when (bool_decide (se_status r ∉ SIDE_EFFECT_STATUSES) || (se_revision r <? 1)
  || (se_fencing_token r <? 0)) (ValueError "side_effect_state_invalid") ;;
  raise_when (bool_decide (se_class r ∉ LEDGER_SIDE_EFFECT_CLASSES))
  (ValueError "side_effect_class_invalid") ;;
  raise_when (bool_decide (se_schema r ≠ SIDE_EFFECT_LEDGER_SCHEMA))
  (ValueError "side_effect_schema_unsupported").

(** [SideEffectRecord.from_mapping] *)
Definition record_from_mapping (raw : dict) : result SideEffectRecord :=
  let text k := str_or_default (dget k raw) "" in
  revision ← py_int (por (dget "revision" raw) (PInt 0));
  fencing_token ← py_int (por (dget "fencing_token" raw) (PInt 0));
  updated_at ← py_float (por (dget "updated_at" raw) (PInt 0));
  let r :=
  {| se_operation_id := text "operation_id"; se_tenant_id := text "tenant_id";
    se_workflow_id := text "workflow_id"; se_run_id := text "run_id";
    se_step_id := text "step_id"; se_declared_operation := text "declared_operation";
    se_class := text "side_effect_class";
    se_status := str_or_default (dget "status" raw) "planned";
    se_revision := revision; se_fencing_token := fencing_token;
    se_attempt_id := text "attempt_id"; se_envelope_id := text "authorization_envelope_id";
    se_result_ref := text "result_ref"; se_failure_code := text "failure_code";
    se_updated_at := updated_at;
    se_schema := str_or_default (dget "schema" raw) SIDE_EFFECT_LEDGER_SCHEMA |} in
  record_assert_valid r ;; Ok r.

(** [_new_record] *)
Definition _new_record (tenant_id workflow_id run_id step_id declared_operation
    side_effect_class : string) (timestamp : float) : result SideEffectRecord :=
  operation_id ← operation_id_for tenant_id run_id step_id declared_operation;
  let r :=
  {| se_operation_id := operation_id; se_tenant_id := strip tenant_id;
    se_workflow_id := strip workflow_id; se_run_id := strip run_id;
    se_step_id := strip step_id; se_declared_operation := strip declared_operation;
    se_class := strip side_effect_class; se_status := "planned"; se_revision := 1;
    se_fencing_token := 0; se_attempt_id := ""; se_envelope_id := "";
    se_result_ref := ""; se_failure_code := ""; se_updated_at := timestamp;
    se_schema := SIDE_EFFECT_LEDGER_SCHEMA |} in
  record_assert_valid r ;; Ok r.

(** What a call asks of [_transition]. *)
Record transition_request := {
    tr_expected_revision : Z;
    tr_fencing_token : Z;
    tr_to_status : string;
    tr_attempt_id : string;
    tr_envelope_id : string;
    tr_result_ref : string;
    tr_failure_code : string;
    tr_require_exact_fence : bool;
  }.

(** The record a transition writes. *)
Definition transitioned (current : SideEffectRecord) (t : transition_request) (now : float)
  : SideEffectRecord :=
  {| se_operation_id := se_operation_id current; se_tenant_id := se_tenant_id current;
    se_workflow_id := se_workflow_id current; se_run_id := se_run_id current;
    se_step_id := se_step_id current;
    se_declared_operation := se_declared_operation current; se_class := se_class current;
    se_status := tr_to_status t; se_revision := se_revision current + 1;
    se_fencing_token := tr_fencing_token t;
    se_attempt_id := str_or (tr_attempt_id t) (se_attempt_id current);
    se_envelope_id := str_or (tr_envelope_id t) (se_envelope_id current);
    se_result_ref := str_or (tr_result_ref t) (se_result_ref current);
    se_failure_code := tr_failure_code t; se_updated_at := now;
    se_schema := se_schema current |}.

Definition _transition (current : SideEffectRecord) (t : transition_request) (now : float)
  : result SideEffectRecord :=
  raise_when (negb (se_revision current =? tr_expected_revision t))
  (OptimisticConcurrencyError
    ("side_effect_revision_conflict:expected=" +:+ z_str (tr_expected_revision t)
      +:+ ":actual=" +:+ z_str (se_revision current))) ;;
  let fence := tr_fencing_token t in
  raise_when ((fence <? se_fencing_token current)
  || tr_require_exact_fence t && negb (fence =? se_fencing_token current))
  (FencingTokenError "side_effect_fencing_token_stale") ;;
  raise_when (bool_decide (tr_to_status t ∉ _TRANSITIONS (se_status current)))
  (InvalidTransitionError ("side_effect_transition_invalid:" +:+ se_status current +:+ ":"
      +:+ tr_to_status t)) ;;
  let updated := transitioned current t now in
  record_assert_valid updated ;; Ok updated.
End with_digest.

(** ** The ledger *)

(** Receipts of authorizations are modelled in SideEffectAuth, which is generic
    in what the ledger operations below leave unchanged. *)
Notation records := (gmap string SideEffectRecord).

Section with_digest.
Context `{Digest}.

Definition plan (tenant_id workflow_id run_id step_id declared_operation
    side_effect_class : string) (now : float) : action records SideEffectRecord :=
  r ← lift (_new_record tenant_id workflow_id run_id step_id declared_operation
    side_effect_class now);
  m ← get;
  match m !! se_operation_id r with
  | Some existing =>
      lift (raise_when (bool_decide (record_binding existing ≠ record_binding r))
        (OptimisticConcurrencyError "operation_id_binding_conflict")) ;;
      mret existing
  | None => modify (<[se_operation_id r := r]>) ;; mret r
  end.

Definition _required (operation_id : string) : action records SideEffectRecord :=
  m ← get;
  match m !! operation_id with
  | Some r => mret r
  | None => mthrow (KeyError "side_effect_operation_not_found")
  end.

Definition _mutate (operation_id : string) (t : transition_request) (now : float)
  : action records SideEffectRecord :=
  current ← _required operation_id;
  updated ← lift (_transition current t now);
  modify (<[operation_id := updated]>) ;; mret updated.

Definition _finish (operation_id : string) (expected_revision fencing_token : Z)
  (attempt_id to_status result_ref failure_code : string) (now : float)
  : action records SideEffectRecord :=
  current ← _required operation_id;
  lift (raise_when (bool_decide (se_attempt_id current ≠ attempt_id))
    (FencingTokenError "side_effect_attempt_mismatch")) ;;
  updated ← lift (_transition current
    {| tr_expected_revision := expected_revision; tr_fencing_token := fencing_token;
      tr_to_status := to_status; tr_attempt_id := attempt_id; tr_envelope_id := "";
      tr_result_ref := result_ref; tr_failure_code := failure_code;
      tr_require_exact_fence := true |} now);
  modify (<[operation_id := updated]>) ;; mret updated.

Definition authorize (operation_id : string) (expected_revision fencing_token : Z)
  (authorization_envelope_id : string) (now : float) : action records SideEffectRecord :=
  lift (raise_when (negb (str_true authorization_envelope_id))
    (ValueError "authorization_envelope_id_required")) ;;
  _mutate operation_id
  {| tr_expected_revision := expected_revision; tr_fencing_token := fencing_token;
    tr_to_status := "authorized"; tr_attempt_id := "";
    tr_envelope_id := authorization_envelope_id; tr_result_ref := "";
    tr_failure_code := ""; tr_require_exact_fence := false |} now.

Definition claim (operation_id : string) (expected_revision fencing_token : Z)
  (attempt_id : string) (now : float) : action records SideEffectClaim :=
  lift (raise_when (negb (str_true attempt_id)) (ValueError "attempt_id_required")) ;;
  current ← _required operation_id;
  if bool_decide (se_status current = "completed") then
  mret {| claim_record := current; acquired := false; claim_reason := "already_completed" |}
  else if bool_decide (se_status current = "started")
  && (se_fencing_token current =? fencing_token)
  && bool_decide (se_attempt_id current = attempt_id) then
  mret {| claim_record := current; acquired := false; claim_reason := "already_claimed" |}
  else
  updated ← lift (_transition current
    {| tr_expected_revision := expected_revision; tr_fencing_token := fencing_token;
      tr_to_status := "started"; tr_attempt_id := attempt_id; tr_envelope_id := "";
      tr_result_ref := ""; tr_failure_code := ""; tr_require_exact_fence := true |} now);
  modify (<[operation_id := updated]>) ;;
  mret {| claim_record := updated; acquired := true; claim_reason := "acquired" |}.

Definition complete (operation_id : string) (expected_revision fencing_token : Z)
  (attempt_id result_ref : string) (now : float) : action records SideEffectRecord :=
  _finish operation_id expected_revision fencing_token attempt_id "completed" result_ref "" now.

Definition fail (operation_id : string) (expected_revision fencing_token : Z)
  (attempt_id failure_code : string) (now : float) : action records SideEffectRecord :=
  _finish operation_id expected_revision fencing_token attempt_id "failed" ""
  (str_or failure_code "operation_failed") now.

Definition mark_uncertain (operation_id : string) (expected_revision fencing_token : Z)
  (attempt_id failure_code : string) (now : float) : action records SideEffectRecord :=
  _finish operation_id expected_revision fencing_token attempt_id "uncertain" "" failure_code now.

Definition reconcile_uncertain (operation_id : string) (expected_revision fencing_token : Z)
  (failure_code : string) (now : float) : action records SideEffectRecord :=
  _mutate operation_id
  {| tr_expected_revision := expected_revision; tr_fencing_token := fencing_token;
    tr_to_status := "uncertain"; tr_attempt_id := ""; tr_envelope_id := "";
    tr_result_ref := ""; tr_failure_code := failure_code;
    tr_require_exact_fence := false |} now.

Definition compensate (operation_id : string) (expected_revision fencing_token : Z)
  (result_ref : string) (now : float) : action records SideEffectRecord :=
  _mutate operation_id
  {| tr_expected_revision := expected_revision; tr_fencing_token := fencing_token;
    tr_to_status := "compensated"; tr_attempt_id := ""; tr_envelope_id := "";
    tr_result_ref := result_ref; tr_failure_code := ""; tr_require_exact_fence := false |} now.

(** [get] *)
Definition get_record (tenant_id operation_id : string) (m : records) : option SideEffectRecord :=
  match m !! operation_id with
  | Some r => if bool_decide (se_tenant_id r = tenant_id) then Some r else None
  | None => None
  end.

(** [side_effect_event] *)
Definition side_effect_event (r : SideEffectRecord) (correlation_id causation_id actor : string)
  (fresh : string) (now : float) : result CanonicalWorkflowEvent :=
  build (PStr (se_tenant_id r)) (PStr (se_workflow_id r)) (PStr (se_run_id r))
  ("workflow.side_effect." +:+ se_status r) correlation_id causation_id
  ("side-effect:" +:+ se_operation_id r +:+ ":" +:+ z_str (se_revision r))
  (se_step_id r) 0 actor
  [("operation_id", PStr (se_operation_id r));
    ("declared_operation", PStr (se_declared_operation r));
    ("side_effect_class", PStr (se_class r)); ("fencing_token", PInt (se_fencing_token r));
    ("attempt_id", PStr (se_attempt_id r)); ("result_ref", PStr (se_result_ref r));
    ("failure_code", PStr (se_failure_code r))]
  (Some (se_updated_at r))
  (Some ("wfe-side-effect-" +:+ se_operation_id r +:+ "-" +:+ z_str (se_revision r)))
  fresh now.
End with_digest.

(** ** Calls and the states they reach *)

Inductive ledger_op :=
| OpPlan (tenant workflow run step operation class : string) (now : float)
| OpAuthorize (id : string) (revision fence : Z) (envelope : string) (now : float)
| OpClaim (id : string) (revision fence : Z) (attempt : string) (now : float)
| OpComplete (id : string) (revision fence : Z) (attempt result_ref : string) (now : float)
| OpFail (id : string) (revision fence : Z) (attempt code : string) (now : float)
| OpMarkUncertain (id : string) (revision fence : Z) (attempt code : string) (now : float)
| OpReconcile (id : string) (revision fence : Z) (code : string) (now : float)
| OpCompensate (id : string) (revision fence : Z) (result_ref : string) (now : float).

Section ledger_laws.
Context `{Digest}.

Definition run_ledger (op : ledger_op) (m : records) : records :=
  match op with
  | OpPlan t w r s o c now => (plan t w r s o c now m).2
  | OpAuthorize id n f e now => (authorize id n f e now m).2
  | OpClaim id n f a now => (claim id n f a now m).2
  | OpComplete id n f a x now => (complete id n f a x now m).2
  | OpFail id n f a c now => (fail id n f a c now m).2
  | OpMarkUncertain id n f a c now => (mark_uncertain id n f a c now m).2
  | OpReconcile id n f c now => (reconcile_uncertain id n f c now m).2
  | OpCompensate id n f x now => (compensate id n f x now m).2
  end.

(** The call acquires a claim on [id]. *)
Definition acquires (id : string) (op : ledger_op) (m : records) : bool :=
  match op with
  | OpClaim id' n f a now =>
      bool_decide (id' = id) &&
      match (claim id' n f a now m).1 with Ok out => acquired out | Err _ => false end
  | _ => false
  end.

(** *** The status machine *)

(** A transition that the code accepts. *)
Record accepted (r : SideEffectRecord) (t : transition_request) (r' : SideEffectRecord) : Prop := {
    ac_revision : se_revision r = tr_expected_revision t;
    ac_fence : se_fencing_token r ≤ tr_fencing_token t;
    ac_exact : tr_require_exact_fence t = true → tr_fencing_token t = se_fencing_token r;
    ac_status : tr_to_status t ∈ _TRANSITIONS (se_status r);
    ac_record : ∃ now, r' = transitioned r t now;
    ac_valid : record_assert_valid r' = Ok tt;
  }.

Lemma transition_Ok r t now r' :
  _transition r t now = Ok r' ↔ accepted r t r' ∧ r' = transitioned r t now.
Proof.
  unfold _transition. split.
  - intros Ht. result_inv. subst r'.
    match goal with Hx : bool_decide _ = false |- _ =>
        apply bool_decide_eq_false, dec_stable in Hx end.
    match goal with Hx : negb _ = false |- _ => apply negb_false_iff, Z.eqb_eq in Hx end.
    match goal with Hx : _ || _ = false |- _ => apply orb_false_iff in Hx as [Hf He] end.
    apply Z.ltb_ge in Hf. apply andb_false_iff in He. rewrite negb_false_iff, Z.eqb_eq in He.
    split; [|done]. split; try done; [destruct He; congruence|eauto|].
    match goal with Hx : record_assert_valid _ = Ok ?u |- _ => by destruct u end.
  - intros [[Hrev Hf He Hst _ Hv] ->]. rewrite Hrev, Z.eqb_refl. cbn [negb raise_when mbind result_bind].
    rewrite (proj2 (Z.ltb_ge _ _)) by done.
    assert (tr_require_exact_fence t && negb (tr_fencing_token t =? se_fencing_token r) = false)
      as -> by (destruct (tr_require_exact_fence t); [rewrite He, Z.eqb_refl|]; done).
    cbn [orb raise_when mbind result_bind]. rewrite bool_decide_false by (intros Hn; by apply Hn).
    cbn [raise_when mbind result_bind]. by rewrite Hv.
Qed.

(** Every call changes at most one record, by an accepted transition, or adds
    one planned record; only a claim on a [claimed] operation starts one. *)
Inductive ledger_change (claimed : string → Prop) (m : records) : records → Prop :=
  | change_none : ledger_change claimed m m
  | change_plan r : m !! se_operation_id r = None → se_status r = "planned" →
  record_assert_valid r = Ok tt → ledger_change claimed m (<[se_operation_id r := r]> m)
  | change_transition id r t r' : m !! id = Some r → accepted r t r' →
  (tr_to_status t = "started" → claimed id) → ledger_change claimed m (<[id := r']> m).

Lemma new_record_Ok t w r s o c now x :
  _new_record t w r s o c now = Ok x → se_status x = "planned" ∧ record_assert_valid x = Ok tt ∧
  record_binding x = (strip t, strip w, strip r, strip s, strip o, strip c) ∧
  operation_id_for t r s o = Ok (se_operation_id x).
Proof.
  unfold _new_record. intros Hx. result_inv. subst x.
  match goal with Hv : record_assert_valid _ = Ok ?u |- _ => by destruct u end.
Qed.

Lemma mutate_change c id t now m :
  tr_to_status t ≠ "started" → ledger_change c m (_mutate id t now m).2.
Proof.
  intros Hto. destruct (_mutate id t now m) as [out m'] eqn:Hrun. cbn.
  unfold _mutate, _required in Hrun. run_all Hrun; try apply change_none.
  match goal with Hx : _transition _ _ _ = Ok _ |- _ => apply transition_Ok in Hx as [Hx _] end.
  by eapply change_transition.
Qed.

Lemma finish_change c id n f a to x e now m :
  to ≠ "started" → ledger_change c m (_finish id n f a to x e now m).2.
Proof.
  intros Hto. destruct (_finish id n f a to x e now m) as [out m'] eqn:Hrun. cbn.
  unfold _finish, _required in Hrun. run_all Hrun; try apply change_none.
  match goal with Hx : _transition _ _ _ = Ok _ |- _ => apply transition_Ok in Hx as [Hx _] end.
  by eapply change_transition.
Qed.

Lemma run_ledger_change op m :
  ledger_change (λ id, acquires id op m = true) m (run_ledger op m).
Proof.
  destruct op; cbn [run_ledger]; try (by apply finish_change); try (by apply mutate_change).
  - match goal with |- ledger_change _ _ ?x.2 => destruct x as [out m'] eqn:Hrun end. cbn.
    unfold plan in Hrun. run_all Hrun; try apply change_none.
    match goal with Hx : _new_record _ _ _ _ _ _ _ = Ok _ |- _ =>
        apply new_record_Ok in Hx as (? & ? & _) end.
    by apply change_plan.
  - unfold authorize. destruct (str_true envelope); [by apply mutate_change|apply change_none].
  - match goal with |- ledger_change _ _ ?x.2 => destruct x as [out m'] eqn:Hrun end. cbn [snd].
    pose proof Hrun as Hclaim. unfold claim, _required in Hrun. run_all Hrun; try apply change_none.
    match goal with Hx : _transition _ _ _ = Ok _ |- _ => apply transition_Ok in Hx as [Hx _] end.
    eapply change_transition; [done..|]. intros _. cbn [acquires].
    by rewrite bool_decide_true, Hclaim.
Qed.

(** ** Invariants *)

Definition reachable_ledger : records → Prop := reachable run_ledger ∅.

(** Records are valid and stored under their own identifier. *)
Definition ledger_ok (m : records) : Prop :=
  ∀ id r, m !! id = Some r → se_operation_id r = id ∧ record_assert_valid r = Ok tt.

Lemma ledger_ok_change c m m' : ledger_change c m m' → ledger_ok m → ledger_ok m'.
Proof.
  intros [|r Hr _ Hv|id r t r' Hr Ha _] Hm; [done|..].
  - intros id' x [[<- <-]|[_ Hx]]%lookup_insert_Some; [done|by apply Hm].
  - intros id' x [[<- <-]|[_ Hx]]%lookup_insert_Some; [|by apply Hm].
    split; [|apply Ha]. destruct (ac_record _ _ _ Ha) as [now ->].
    exact (proj1 (Hm id r Hr)).
Qed.

(** What stays and what grows in a record's life. *)
Record later (r r' : SideEffectRecord) : Prop := {
    la_id : se_operation_id r' = se_operation_id r;
    la_binding : record_binding r' = record_binding r;
    la_fence : se_fencing_token r ≤ se_fencing_token r';
    la_revision : se_revision r ≤ se_revision r';
    la_same : se_revision r' = se_revision r → r' = r;
  }.

#[global] Instance later_refl : Reflexive later.
Proof. intros r. by split. Qed.

#[global] Instance later_trans : Transitive later.
Proof.
  intros r1 r2 r3 [? ? ? ? H12] [? ? ? ? H23]. split; try (etrans; eassumption); try congruence.
  intros Heq. rewrite H23 by lia. apply H12. lia.
Qed.

Lemma accepted_later r t r' : accepted r t r' → later r r'.
Proof.
  intros [Hrev Hf _ _ [now ->] _]. split; try done; cbn; [lia|intros Heq; lia].
Qed.

Definition ledger_later (m m' : records) : Prop :=
  ∀ id r, m !! id = Some r → ∃ r', m' !! id = Some r' ∧ later r r'.

#[global] Instance ledger_later_refl : Reflexive ledger_later.
Proof. intros m id r Hr. by exists r. Qed.

#[global] Instance ledger_later_trans : Transitive ledger_later.
Proof.
  intros m1 m2 m3 H12 H23 id r Hr. destruct (H12 id r Hr) as (r2 & Hr2 & Hl).
  destruct (H23 id r2 Hr2) as (r3 & Hr3 & Hl'). exists r3. split; [done|]. by etrans.
Qed.

Lemma change_later c m m' : ledger_change c m m' → ledger_later m m'.
Proof.
  intros [|r Hr _ _|id r t r' Hr Ha _] id' x Hx; [by exists x|..].
  - exists x. rewrite lookup_insert_ne by congruence. by split.
  - destruct (decide (id' = id)) as [->|Hne].
    + rewrite lookup_insert_eq. exists r'. split; [done|].
      assert (x = r) as -> by congruence. by eapply accepted_later.
    + rewrite lookup_insert_ne by done. by exists x.
Qed.

Lemma reachable_later m m' : reachable run_ledger m m' → ledger_later m m'.
Proof.
  induction 1 as [|m' op _ IH]; [done|]. etrans; [exact IH|].
  eapply change_later, run_ledger_change.
Qed.

Lemma reachable_ledger_ok m : reachable_ledger m → ledger_ok m.
Proof.
  apply reachable_invariant; [by intros id r; rewrite lookup_empty|].
  intros op m0. eapply ledger_ok_change, run_ledger_change.
Qed.
End ledger_laws.

(** ** Properties *)

Section properties.
Context `{Digest}.

(** Whatever calls run between two looks at the ledger, a recorded operation
    keeps its identifier and its binding, its revision and its fencing token
    never go back, and an unchanged revision means an unchanged record; every
    record is valid and found under the identifier of its own binding. *)
Theorem record_history m m' id r :
  reachable_ledger m → reachable run_ledger m m' → m !! id = Some r →
  ∃ r', m' !! id = Some r' ∧ later r r' ∧ se_operation_id r' = id ∧
  record_assert_valid r' = Ok tt.
Proof.
  intros Hm Hr Hid. destruct (reachable_later m m' Hr id r Hid) as (r' & Hr' & Hl).
  exists r'. split; [done|]. split; [done|].
  apply (reachable_ledger_ok m'); [|done]. by eapply reachable_trans.
Qed.

(** *** Claims *)

Lemma claim_acquired id n f a now m out m' :
  claim id n f a now m = (Ok out, m') → acquired out = true →
  ∃ r t, m !! id = Some r ∧ accepted r t (claim_record out) ∧
  tr_expected_revision t = n ∧ tr_fencing_token t = f ∧ tr_attempt_id t = a ∧ a ≠ "" ∧
  tr_to_status t = "started" ∧ tr_require_exact_fence t = true ∧
  m' = <[id := claim_record out]> m.
Proof.
  intros Hrun Hacq. unfold claim, _required in Hrun.
  run_all Hrun; try discriminate.
  match goal with Hx : raise_when (negb _) _ = Ok _ |- _ =>
      apply raise_when_Ok, negb_false_iff, str_true_spec in Hx end.
  match goal with Hx : _transition _ _ _ = Ok _ |- _ => apply transition_Ok in Hx as [Hx _] end.
  by do 2 eexists.
Qed.

Lemma started_from status : "started" ∈ _TRANSITIONS status → status = "authorized".
Proof.
  unfold _TRANSITIONS. repeat case_bool_decide; subst; try done;
    rewrite ?elem_of_cons, ?elem_of_nil; intros Hin; exfalso;
    repeat destruct Hin as [Hin|Hin]; discriminate || done.
Qed.

Lemma record_valid_inv r :
  record_assert_valid r = Ok tt ↔
  existsb (λ v, negb (str_true v))
  [se_operation_id r; se_tenant_id r; se_workflow_id r; se_run_id r; se_step_id r;
    se_declared_operation r; se_class r] = false ∧
  operation_id_for (se_tenant_id r) (se_run_id r) (se_step_id r) (se_declared_operation r)
  = Ok (se_operation_id r) ∧
  se_status r ∈ SIDE_EFFECT_STATUSES ∧ 1 ≤ se_revision r ∧ 0 ≤ se_fencing_token r ∧
  se_class r ∈ LEDGER_SIDE_EFFECT_CLASSES ∧ se_schema r = SIDE_EFFECT_LEDGER_SCHEMA.
Proof.
  unfold record_assert_valid. split.
  - intros Hv. result_inv. subst.
    repeat match goal with Hx : bool_decide (_ ≠ _) = false |- _ =>
        apply bool_decide_eq_false, dec_stable in Hx end.
    match goal with Hx : _ || _ || _ = false |- _ =>
        rewrite !orb_false_iff, bool_decide_eq_false, !Z.ltb_ge in Hx;
        destruct Hx as [[Hst%dec_stable ?] ?] end.
    match goal with Hx : bool_decide (_ ∉ _) = false |- _ =>
        apply bool_decide_eq_false, dec_stable in Hx end.
    split_and!; try done. congruence.
  - intros (H1 & H2 & H3 & H4 & H5 & H6 & H7). rewrite H1, H2.
    cbn [raise_when mbind result_bind].
    rewrite !bool_decide_false by (intros Hn; by apply Hn). cbn [raise_when mbind result_bind orb].
    by rewrite !(proj2 (Z.ltb_ge _ _)) by done.
Qed.

Lemma transition_status from to : to ∈ _TRANSITIONS from → to ∈ SIDE_EFFECT_STATUSES.
Proof.
  unfold _TRANSITIONS, SIDE_EFFECT_STATUSES.
  repeat case_bool_decide; rewrite ?elem_of_cons, ?elem_of_nil; tauto.
Qed.

(** On a valid record the transition is refused only for the reasons the code
    checks. *)
Lemma transition_total r t now :
  record_assert_valid r = Ok tt →
  se_revision r = tr_expected_revision t → se_fencing_token r ≤ tr_fencing_token t →
  (tr_require_exact_fence t = true → tr_fencing_token t = se_fencing_token r) →
  tr_to_status t ∈ _TRANSITIONS (se_status r) →
  _transition r t now = Ok (transitioned r t now).
Proof.
  intros Hv Hrev Hf Hex Hst. apply transition_Ok. split; [|done]. split; try done; [by exists now|].
  apply record_valid_inv. apply record_valid_inv in Hv as (H1 & H2 & H3 & H4 & H5 & H6 & H7).
  cbn [transitioned se_operation_id se_tenant_id se_workflow_id se_run_id se_step_id
      se_declared_operation se_class se_status se_revision se_fencing_token se_schema].
  split_and!; try done; try lia. by eapply transition_status.
Qed.

(** A claim acquires the operation exactly when it is authorized, at the
    expected revision and under the caller's fencing token; the ledger then
    shows the caller's attempt as started, one revision later. *)
Theorem claim_exact m id n f a now r :
  reachable_ledger m → m !! id = Some r →
  let t := {| tr_expected_revision := n; tr_fencing_token := f; tr_to_status := "started";
    tr_attempt_id := a; tr_envelope_id := ""; tr_result_ref := ""; tr_failure_code := "";
    tr_require_exact_fence := true |} in
  ((∃ out, (claim id n f a now m).1 = Ok out ∧ acquired out = true) ↔
    a ≠ "" ∧ se_status r = "authorized" ∧ se_revision r = n ∧ se_fencing_token r = f) ∧
  (a ≠ "" → se_status r = "authorized" → se_revision r = n → se_fencing_token r = f →
    claim id n f a now m =
    (Ok {| claim_record := transitioned r t now; acquired := true; claim_reason := "acquired" |},
      <[id := transitioned r t now]> m)).
Proof.
  intros Hm Hid t. destruct (reachable_ledger_ok m Hm id r Hid) as [_ Hv].
  assert (a ≠ "" → se_status r = "authorized" → se_revision r = n → se_fencing_token r = f →
      claim id n f a now m =
      (Ok {| claim_record := transitioned r t now; acquired := true; claim_reason := "acquired" |},
        <[id := transitioned r t now]> m)) as Hrun.
  { intros Ha Hst Hrev Hf. unfold claim, _required.
    rewrite run_guard by (apply negb_false_iff; by apply str_true_spec).
    unfold mbind at 1, action_bind at 1. rewrite run_get, Hid. cbn [mret action_ret].
    rewrite Hst, (bool_decide_false ("authorized" = "completed")),
      (bool_decide_false ("authorized" = "started")) by done. cbn [andb].
    rewrite (run_lift _ (transitioned r t now)); [done|].
    apply transition_total; try done; cbn; try lia.
    rewrite Hst. apply (bool_decide_unpack _). reflexivity. }
  split; [split|done].
  - intros (out & Hout & Hacq). destruct (claim id n f a now m) as [res m'] eqn:Hc.
    cbn in Hout. subst res.
    destruct (claim_acquired _ _ _ _ _ _ _ _ Hc Hacq)
      as (r0 & t0 & Hr0 & Hac & Hn & Hf & Ha & Hne & Hto & Hex & Hm').
    assert (r0 = r) as -> by congruence.
    destruct Hac as [Hrev Hfe Hexf Hst _ _]. rewrite Hto in Hst.
    apply started_from in Hst. rewrite (Hexf Hex) in Hf. split_and!; try done. congruence.
  - intros (Ha & Hst & Hrev & Hf). rewrite (Hrun Ha Hst Hrev Hf). by eexists.
Qed.

(** Of all claims made with one expected revision of an operation at most
    one is acquired, whatever calls of this file run in between (SideEffectAuth
    counts the claims over authorizations too): two workers racing on the same
    authorization never both get it. *)
Theorem claim_exclusive m id n f a now out m1 m2 f' a' now' out' :
  claim id n f a now m = (Ok out, m1) → acquired out = true →
  reachable run_ledger m1 m2 →
  (claim id n f' a' now' m2).1 = Ok out' → acquired out' = false.
Proof.
  intros Hrun Hacq Hreach Hout.
  destruct (claim_acquired _ _ _ _ _ _ _ _ Hrun Hacq)
    as (r & t & Hr & Hac & Hn & _ & _ & _ & _ & _ & ->).
  destruct (acquired out') eqn:Hacq'; [exfalso|done].
  destruct (claim id n f' a' now' m2) as [res m3] eqn:Hrun2. cbn in Hout. subst res.
  destruct (claim_acquired _ _ _ _ _ _ _ _ Hrun2 Hacq')
    as (r2 & t2 & Hr2 & Hac2 & Hn2 & _ & _ & _ & _ & _ & _).
  destruct (reachable_later _ _ Hreach id (claim_record out)) as (r2' & Hr2' & Hl);
    [by rewrite lookup_insert_eq|].
  assert (r2' = r2) as -> by congruence.
  pose proof (la_revision _ _ Hl) as Hrev. pose proof (ac_revision _ _ _ Hac).
  pose proof (ac_revision _ _ _ Hac2). destruct (ac_record _ _ _ Hac) as [now0 Hrec].
  rewrite Hrec in Hrev. cbn in Hrev. lia.
Qed.

(** *** At most one execution per recorded failure *)

Definition status_of (id : string) (m : records) : string :=
  match m !! id with Some r => se_status r | None => "" end.

(** The call records a failure of [id]. *)
Definition fails (id : string) (op : ledger_op) (m : records) : bool :=
  bool_decide (status_of id (run_ledger op m) = "failed")
  && negb (bool_decide (status_of id m = "failed")).

(** 1 when an attempt was started and its failure is not on record. *)
Definition unresolved (status : string) : Z :=
  if bool_decide (status ∈ ["started"; "completed"; "uncertain"; "compensated"]) then 1 else 0.

Lemma transition_unresolved from to :
  to ∈ _TRANSITIONS from → to ≠ "started" →
  unresolved from ≤ unresolved to + (if bool_decide (to = "failed") then 1 else 0)
  ∧ (to = "failed" → from ≠ "failed").
Proof.
  unfold _TRANSITIONS. intros Hin Hne.
  repeat match type of Hin with context [bool_decide ?P] =>
      destruct (bool_decide_reflect P) as [->|?] end;
    rewrite ?elem_of_cons, ?elem_of_nil in Hin;
    repeat destruct Hin as [->|Hin]; try done; (split; [vm_compute; done|done]).
Qed.

Lemma fails_status id op m :
  (if fails id op m then 1 else 0) =
  if bool_decide (status_of id (run_ledger op m) = "failed")
  then (if bool_decide (status_of id m = "failed") then 0 else 1) else 0.
Proof. unfold fails. by repeat case_bool_decide. Qed.

Lemma step_unresolved id op m :
  unresolved (status_of id m) + (if acquires id op m then 1 else 0) ≤
  (if fails id op m then 1 else 0) + unresolved (status_of id (run_ledger op m)).
Proof.
  rewrite fails_status. destruct (acquires id op m) eqn:Hacq.
  - destruct op as [| |id' n f a now| | | | |]; try discriminate.
    cbn [acquires] in Hacq. apply andb_true_iff in Hacq as [->%bool_decide_eq_true Hacq].
    cbn [run_ledger]. destruct (claim id n f a now m) as [[out|e] m'] eqn:Hrun; [|done].
    destruct (claim_acquired _ _ _ _ _ _ _ _ Hrun Hacq)
      as (r & t & Hr & Hac & _ & _ & _ & _ & Hto & _ & ->).
    pose proof (ac_status _ _ _ Hac) as Hst. rewrite Hto in Hst. apply started_from in Hst.
    destruct (ac_record _ _ _ Hac) as [now' Hrec]. unfold status_of. cbn [snd].
    rewrite Hr, Hst, lookup_insert_eq, Hrec. cbn [transitioned se_status]. by rewrite Hto.
  - pose proof (run_ledger_change op m) as Hc.
    destruct Hc as [|r Hr Hst _|id' r t r' Hr Hac Hto].
    + repeat case_bool_decide; lia.
    + unfold status_of. destruct (decide (id = se_operation_id r)) as [->|Hne].
      * rewrite Hr, lookup_insert_eq, Hst. vm_compute. done.
      * rewrite lookup_insert_ne by done. repeat case_bool_decide; lia.
    + unfold status_of. destruct (decide (id = id')) as [->|Hne].
      2:{ rewrite lookup_insert_ne by done. repeat case_bool_decide; lia. }
      rewrite Hr, lookup_insert_eq. destruct (ac_record _ _ _ Hac) as [now Hrec].
      assert (se_status r' = tr_to_status t) as -> by by rewrite Hrec.
      destruct (transition_unresolved (se_status r) (tr_to_status t)) as [Hw Hf];
        [apply Hac|intros Hs; rewrite (Hto Hs) in Hacq; discriminate|].
      repeat case_bool_decide; try lia. by destruct Hf.
Qed.

Lemma compensated_final id ops m :
  status_of id m = "compensated" → status_of id (run_all_calls run_ledger ops m) = "compensated" ∧
  count_along run_ledger (acquires id) ops m = 0.
Proof.
  revert m. induction ops as [|op ops IH]; intros m Hs; [done|].
  assert (status_of id (run_ledger op m) = "compensated" ∧ acquires id op m = false)
    as [Hs' Hacq].
  { pose proof (step_unresolved id op m) as Hw. rewrite Hs, fails_status in Hw.
    pose proof (run_ledger_change op m) as Hc. unfold status_of in *.
    destruct (m !! id) as [r|] eqn:Hr; [|done].
    assert (∃ r', run_ledger op m !! id = Some r' ∧ se_status r' = "compensated") as (r' & Hr' & Hst).
    { destruct Hc as [|x Hx _ _|id' x t x' Hx Hac _]; [by exists r|..].
      - exists r. rewrite lookup_insert_ne by congruence. done.
      - destruct (decide (id' = id)) as [->|Hne].
        + assert (x = r) as -> by congruence. pose proof (ac_status _ _ _ Hac) as Ht.
          rewrite Hs in Ht. by apply not_elem_of_nil in Ht.
        + exists r. by rewrite lookup_insert_ne. }
    rewrite Hr' in *. split; [done|]. rewrite Hst in Hw. destruct (acquires id op m); [|done].
    vm_compute in Hw. done. }
  destruct (IH _ Hs') as [IH1 IH2]. split; [exact IH1|]. cbn [count_along]. by rewrite Hacq, IH2.
Qed.

Lemma completed_from status : "completed" ∈ _TRANSITIONS status ↔ status ∈ ["started"; "uncertain"].
Proof.
  split.
  - assert ("completed" ∈ _TRANSITIONS status → status = "started" ∨ status = "uncertain") as Hs.
    { unfold _TRANSITIONS. repeat case_bool_decide; subst; auto;
        rewrite ?elem_of_cons, ?elem_of_nil; intros Hin; exfalso;
        repeat destruct Hin as [Hin|Hin]; discriminate || done. }
    rewrite !elem_of_cons. tauto.
  - rewrite !elem_of_cons, elem_of_nil.
    intros [->|[->|[]]]; apply (bool_decide_unpack _); reflexivity.
Qed.

(** A completion is accepted exactly from the attempt on record, at the
    expected revision, under the recorded fencing token, while the attempt is
    started or uncertain: no stale worker can complete another's operation. *)
Theorem complete_exact m id n f a x now r :
  reachable_ledger m → m !! id = Some r →
  is_ok (complete id n f a x now m).1 = true ↔
  se_attempt_id r = a ∧ se_revision r = n ∧ se_fencing_token r = f ∧
  se_status r ∈ ["started"; "uncertain"].
Proof.
  intros Hm Hid. destruct (reachable_ledger_ok m Hm id r Hid) as [_ Hv].
  unfold complete, _finish, _required. unfold mbind at 1, action_bind at 1.
  rewrite run_get, Hid. cbn [mret action_ret].
  match goal with |- context [_transition r ?t now] => set (req := t) end.
  destruct (decide (se_attempt_id r = a)) as [Ha|Ha].
  2:{ split; [|by intros (? & _)]. rewrite bool_decide_true by done. done. }
  rewrite run_guard by (apply bool_decide_eq_false; intros Hn; by apply Hn).
  destruct (_transition r req now) as [r'|e] eqn:Ht.
  - apply transition_Ok in Ht as [[Hrev Hf Hex Hst _ _] _]. split; [intros _|done].
    cbn in *. split_and!; [done|done| |by apply completed_from]. symmetry. by apply Hex.
  - split; [done|]. intros (_ & Hrev & Hf & Hst). exfalso.
    rewrite (transition_total r req now) in Ht; [done|done|done|cbn; lia|done|].
    by apply completed_from.
Qed.

Lemma new_record_time t w r s o c now now' x :
  _new_record t w r s o c now = Ok x →
  ∃ y, _new_record t w r s o c now' = Ok y ∧ se_operation_id y = se_operation_id x ∧
  record_binding y = record_binding x.
Proof.
  unfold _new_record. intros Hx. result_inv. subst x.
  match goal with Hid : operation_id_for _ _ _ _ = Ok _ |- _ => rewrite Hid end.
  cbn [mbind result_bind].
  match goal with Hv : record_assert_valid ?x = Ok _ |- context [record_assert_valid ?y] =>
      change (record_assert_valid y) with (record_assert_valid x); rewrite Hv end.
  by eexists.
Qed.

Lemma plan_run t w r s o c now m x m1 :
  plan t w r s o c now m = (Ok x, m1) ↔
  ∃ new, _new_record t w r s o c now = Ok new ∧
  ((m !! se_operation_id new = Some x ∧ record_binding x = record_binding new ∧ m1 = m) ∨
    (m !! se_operation_id new = None ∧ x = new ∧ m1 = <[se_operation_id new := new]> m)).
Proof.
  unfold plan. split.
  - intros Hrun. run_all Hrun; eexists; (split; [eassumption|]); [left|right]; [|done].
    match goal with Hb : raise_when _ _ = Ok _ |- _ =>
        apply raise_when_Ok, bool_decide_eq_false, dec_stable in Hb end. done.
  - intros (new & Hnew & [(Hl & Hb & ->)|(Hl & -> & ->)]);
      rewrite (run_lift _ new) by done; rewrite run_get, Hl; [|done].
    by rewrite run_guard by (apply bool_decide_eq_false; intros Hn; by apply Hn).
Qed.

(** Planning the same operation again returns the record on the ledger as it
    is now and changes nothing, however far the operation has gone. *)
Theorem plan_idempotent m t w r s o c now x m1 m2 now' :
  reachable_ledger m → plan t w r s o c now m = (Ok x, m1) → reachable run_ledger m1 m2 →
  ∃ y, plan t w r s o c now' m2 = (Ok y, m2) ∧ later x y ∧ m2 !! se_operation_id y = Some y.
Proof.
  intros Hm Hrun Hreach. apply plan_run in Hrun as (new & Hnew & Hcase).
  assert (m1 !! se_operation_id new = Some x ∧ se_operation_id x = se_operation_id new ∧
      record_binding x = record_binding new) as (Hx & Hid & Hb).
  { destruct Hcase as [(Hl & Hb & ->)|(Hl & -> & ->)]; [|by rewrite lookup_insert_eq].
    by destruct (reachable_ledger_ok m Hm _ _ Hl). }
  destruct (reachable_later m1 m2 Hreach _ _ Hx) as (y & Hy & Hl). exists y.
  split; [|split; [done|]].
  - destruct (new_record_time _ _ _ _ _ _ _ now' _ Hnew) as (new' & Hnew' & Hid' & Hb').
    apply plan_run. exists new'. split; [done|]. left. rewrite Hid'. split_and!; try done.
    by rewrite (la_binding _ _ Hl), Hb.
  - by rewrite (la_id _ _ Hl), Hid.
Qed.
End properties.

(** ** Examples *)

(** An operation that was planned, authorized and claimed by worker [a1]. *)
Definition sample_ledger_ops (id : string) : list ledger_op :=
  [OpPlan "t" "w" "r" "s" "send_mail" "non_idempotent_write" (lit 1 0);
   OpAuthorize id 1 3 "env-1" (lit 2 0); OpClaim id 2 3 "a1" (lit 3 0)].

Definition sample_operation_id : string :=
  match @operation_id_for checksum_digest "t" "r" "s" "send_mail" with Ok id => id | Err _ => "" end.

Definition authorized_ledger : records :=
  run_all_calls (@run_ledger checksum_digest) (take 2 (sample_ledger_ops sample_operation_id)) ∅.
Definition claimed_ledger : records :=
  run_all_calls (@run_ledger checksum_digest) (sample_ledger_ops sample_operation_id) ∅.

Lemma authorized_reachable : @reachable_ledger checksum_digest authorized_ledger.
Proof. apply (reachable_foldl run_ledger). Qed.

Lemma claimed_reachable : @reachable_ledger checksum_digest claimed_ledger.
Proof. apply (reachable_foldl run_ledger). Qed.

Lemma claimed_from_authorized :
  reachable (@run_ledger checksum_digest) authorized_ledger claimed_ledger.
Proof.
  exact (reachable_step run_ledger _ authorized_ledger
    (OpClaim sample_operation_id 2 3 "a1" (lit 3 0)) (reachable_init _ _)).
Qed.

Definition authorized_record_view : option (string * Z * Z * string) :=
  (λ r, (se_status r, se_revision r, se_fencing_token r, se_attempt_id r))
    <$> (authorized_ledger !! sample_operation_id).
Definition claimed_record_view : option (string * Z * Z * string) :=
  (λ r, (se_status r, se_revision r, se_fencing_token r, se_attempt_id r))
    <$> (claimed_ledger !! sample_operation_id).

Example sample_ledgers :
  authorized_record_view = Some ("authorized", 2, 3, "") ∧
  claimed_record_view = Some ("started", 3, 3, "a1").
Proof. split; vm_compute; reflexivity. Qed.

Example record_history_witness :
  ∃ r r', authorized_ledger !! sample_operation_id = Some r ∧
  claimed_ledger !! sample_operation_id = Some r' ∧ later r r'.
Proof.
  destruct (authorized_ledger !! sample_operation_id) as [r|] eqn:Hr.
  - destruct (@record_history checksum_digest authorized_ledger claimed_ledger
      sample_operation_id r authorized_reachable claimed_from_authorized Hr)
      as (r' & Hr' & Hl & _). exists r, r'. exact (conj eq_refl (conj Hr' Hl)).
  - assert (is_Some authorized_record_view) as [v Hv]
      by (apply (bool_decide_unpack _); vm_compute; reflexivity).
    unfold authorized_record_view in Hv. rewrite Hr in Hv. discriminate.
Defined.

Example claim_exact_witness :
  ∃ out, (@claim checksum_digest sample_operation_id 2 3 "a2" (lit 4 0) authorized_ledger).1
  = Ok out ∧ acquired out = true.
Proof.
  destruct (authorized_ledger !! sample_operation_id) as [r|] eqn:Hr.
  - apply (proj1 (@claim_exact checksum_digest authorized_ledger sample_operation_id 2 3 "a2"
      (lit 4 0) r authorized_reachable Hr)).
    assert (authorized_record_view = Some ("authorized", 2, 3, "")) as Hv
      by (vm_compute; reflexivity).
    unfold authorized_record_view in Hv. rewrite Hr in Hv. injection Hv as H1 H2 H3 H4.
    split_and!; [discriminate|exact H1|exact H2|exact H3].
  - assert (is_Some authorized_record_view) as [v Hv]
      by (apply (bool_decide_unpack _); vm_compute; reflexivity).
    unfold authorized_record_view in Hv. rewrite Hr in Hv. discriminate.
Defined.

Example complete_exact_witness :
  is_ok (@complete checksum_digest sample_operation_id 3 3 "a1" "ref" (lit 4 0) claimed_ledger).1
  = true.
Proof.
  destruct (claimed_ledger !! sample_operation_id) as [r|] eqn:Hr.
  - apply (@complete_exact checksum_digest claimed_ledger sample_operation_id 3 3 "a1" "ref"
      (lit 4 0) r claimed_reachable Hr).
    assert (claimed_record_view = Some ("started", 3, 3, "a1")) as Hv
      by (vm_compute; reflexivity).
    unfold claimed_record_view in Hv. rewrite Hr in Hv. injection Hv as H1 H2 H3 H4.
    split_and!; [exact H4|exact H2|exact H3|rewrite H1; left].
  - assert (is_Some claimed_record_view) as [v Hv]
      by (apply (bool_decide_unpack _); vm_compute; reflexivity).
    unfold claimed_record_view in Hv. rewrite Hr in Hv. discriminate.
Defined.

(** Two workers race for the authorized operation. *)
Example claim_exclusive_witness :
  ∃ out m1, @claim checksum_digest sample_operation_id 2 3 "a1" (lit 3 0) authorized_ledger
    = (Ok out, m1) ∧ acquired out = true ∧
  ∀ out', (@claim checksum_digest sample_operation_id 2 3 "a2" (lit 4 0) m1).1 = Ok out' →
    acquired out' = false.
Proof.
  destruct (@claim checksum_digest sample_operation_id 2 3 "a1" (lit 3 0) authorized_ledger)
    as [res m1] eqn:Hrun.
  assert (match (@claim checksum_digest sample_operation_id 2 3 "a1" (lit 3 0)
      authorized_ledger).1 with Ok out => acquired out | Err _ => false end = true) as Hacq
    by (vm_compute; reflexivity).
  rewrite Hrun in Hacq. destruct res as [out|e]; [|discriminate].
  exists out, m1. split; [reflexivity|]. split; [exact Hacq|]. intros out' Hout'.
  exact (@claim_exclusive checksum_digest authorized_ledger sample_operation_id 2 3 "a1"
    (lit 3 0) out m1 m1 3 "a2" (lit 4 0) out' Hrun Hacq (reachable_init _ _) Hout').
Defined.

Example plan_idempotent_witness :
  ∃ x y m1, @plan checksum_digest "t" "w" "r" "s" "send_mail" "non_idempotent_write" (lit 1 0) ∅
    = (Ok x, m1) ∧
  @plan checksum_digest "t" "w" "r" "s" "send_mail" "non_idempotent_write" (lit 9 0) m1
    = (Ok y, m1) ∧ later x y.
Proof.
  destruct (@plan checksum_digest "t" "w" "r" "s" "send_mail" "non_idempotent_write" (lit 1 0)
    ∅) as [res m1] eqn:Hrun.
  assert (is_ok (@plan checksum_digest "t" "w" "r" "s" "send_mail" "non_idempotent_write"
    (lit 1 0) ∅).1 = true) as Hok by (vm_compute; reflexivity).
  rewrite Hrun in Hok. destruct res as [x|e]; [|discriminate].
  destruct (@plan_idempotent checksum_digest ∅ "t" "w" "r" "s" "send_mail"
    "non_idempotent_write" (lit 1 0) x m1 m1 (lit 9 0) (reachable_init _ _) Hrun
    (reachable_init _ _)) as (y & Hy & Hl & _).
  exists x, y, m1. exact (conj eq_refl (conj Hy Hl)).
Defined.
