(* ===== verification/SideEffectAuth.v ===== *)
(** * Authorization of transition side effects (workflow_runtime/side_effects.py)

    The atomic authorization of one declared effect: intents, append-only
    receipts, the observation a commit is conditioned on, and the commit of
    InMemorySideEffectLedger.  A receipt repeats the fields of its intent; the
    model keeps them as one record, as the code rebuilds the intent from them. *)
From S2P Require Import Prelude PyStr PyVal Digest Serialization Identity SchemaEvolution Plan Events SideEffects.

Definition INTENT_SCHEMA : string :=
  "ananta.workflow_transition_side_effect_authorization_intent.v1".
Definition RECEIPT_SCHEMA : string :=
  "ananta.workflow_transition_side_effect_authorization_receipt.v1".
Definition FENCE_NAMESPACE : string := "workflow-transition-side-effect-operation-fence.v1".
Definition RECEIPT_NAMESPACE : string :=
  "workflow-transition-side-effect-authorization-receipt.v1".
Definition INTENT_DIGEST_NAMESPACE : string :=
  "workflow-transition-side-effect-operation-intent.v1".
Definition RECEIPT_DIGEST_NAMESPACE : string :=
  "workflow-transition-side-effect-authorization-receipt-digest.v1".
Definition OBSERVATION_DIGEST_NAMESPACE : string :=
  "workflow-transition-side-effect-authorization-observation.v1".
Definition RECORD_DIGEST_NAMESPACE : string :=
  "workflow-transition-side-effect-ledger-record.v1".
Definition WRITE_CLASSES : list string := ["idempotent_write"; "non_idempotent_write"].
Definition _MAX_OPERATION_CHARS : Z := 512.
Definition _MAX_COUNTER : Z := 2 ^ 63 - 1.
Definition _MAX_OPERATION_RECEIPTS : Z := 1000.

(** ** Data *)

Record AuthorizationIntent := {
  in_receipt_id : string;
  in_transition_id : string;
  in_effect_id : string;
  in_runtime_id : string;
  in_tenant_id : string;
  in_workflow_id : string;
  in_run_id : string;
  in_step_id : string;
  in_effect_ordinal : Z;
  in_declared_operation : string;
  in_class : string;
  in_operation_id : string;
  in_operation_payload_digest : string;
  in_operation_intent_digest : string;
  in_operation_fence_id : string;
  in_envelope_id : string;
  in_envelope_digest : string;
  in_attempt_id : string;
  in_fencing_token : Z;
  in_claim_generation : Z;
  in_request_fingerprint : string;
  in_effect_payload_digest : string;
  in_idempotency_key : string;
  in_planned_at : float;
  in_schema : string;
}.

Record AuthorizationReceipt := {
  rc_intent : AuthorizationIntent;
  rc_prior_status : string;
  rc_prior_revision : Z;
  rc_prior_record_digest : string;
  rc_ledger_revision : Z;
  rc_record_digest : string;
  rc_record : SideEffectRecord;
  rc_authorized_at : float;
  rc_digest : string;
  rc_schema : string;
}.

#[global] Instance intent_eq_dec : EqDecision AuthorizationIntent.
Proof. solve_decision. Defined.
#[global] Instance receipt_eq_dec : EqDecision AuthorizationReceipt.
Proof. solve_decision. Defined.

Record AuthorizationObservation := {
  ob_intent : AuthorizationIntent;
  ob_receipt : option AuthorizationReceipt;
  ob_operation_receipts : list AuthorizationReceipt;
  ob_ledger_record : option SideEffectRecord;
  ob_digest : string;
}.

(** The fields an intent and its receipt share. *)
Definition intent_fields (i : AuthorizationIntent) : dict :=
  [("receipt_id", PStr (in_receipt_id i)); ("transition_id", PStr (in_transition_id i));
   ("effect_id", PStr (in_effect_id i)); ("runtime_id", PStr (in_runtime_id i));
   ("tenant_id", PStr (in_tenant_id i)); ("workflow_id", PStr (in_workflow_id i));
   ("run_id", PStr (in_run_id i)); ("step_id", PStr (in_step_id i));
   ("effect_ordinal", PInt (in_effect_ordinal i));
   ("declared_operation", PStr (in_declared_operation i));
   ("side_effect_class", PStr (in_class i)); ("operation_id", PStr (in_operation_id i));
   ("operation_payload_digest", PStr (in_operation_payload_digest i));
   ("operation_intent_digest", PStr (in_operation_intent_digest i));
   ("operation_fence_id", PStr (in_operation_fence_id i));
   ("authorization_envelope_id", PStr (in_envelope_id i));
   ("authorization_envelope_digest", PStr (in_envelope_digest i));
   ("ownership_attempt_id", PStr (in_attempt_id i));
   ("ownership_fencing_token", PInt (in_fencing_token i));
   ("creator_claim_generation", PInt (in_claim_generation i));
   ("transition_request_fingerprint", PStr (in_request_fingerprint i));
   ("effect_payload_digest", PStr (in_effect_payload_digest i));
   ("idempotency_key", PStr (in_idempotency_key i));
   ("planned_at", PFloat (in_planned_at i))].

Definition intent_to_dict (i : AuthorizationIntent) : dict :=
  ("schema", PStr (in_schema i)) :: intent_fields i.

Definition receipt_to_dict (r : AuthorizationReceipt) : dict :=
  ("schema", PStr (rc_schema r)) :: intent_fields (rc_intent r) ++
  [("prior_status", PStr (rc_prior_status r)); ("prior_revision", PInt (rc_prior_revision r));
   ("prior_record_digest", PStr (rc_prior_record_digest r));
   ("authorized_ledger_revision", PInt (rc_ledger_revision r));
   ("authorized_record_digest", PStr (rc_record_digest r));
   ("authorized_record", PDict (record_to_dict (rc_record r)));
   ("authorized_at", PFloat (rc_authorized_at r)); ("receipt_digest", PStr (rc_digest r))].

(** ** Field checks *)

Definition authorization_invalid (reason : string) : exn :=
  ValueError ("workflow_transition_side_effect_authorization_" +:+ reason +:+ "_invalid").

Definition _identity (value reason : string) : result unit :=
  raise_when (negb (identity_re value)) (authorization_invalid reason).

Definition _runtime_identity (value : string) : result unit :=
  _identity value "runtime_id" ;;
  raise_when (64 <? str_len value) (authorization_invalid "runtime_id").

Definition _bounded_text (value : string) (maximum : Z) (reason : string) : result unit :=
  raise_when (negb (str_true value) || bool_decide (value ≠ strip value)
              || (maximum <? str_len value) || has_nul value) (authorization_invalid reason).

Definition _sha256 (value reason : string) : result unit :=
  raise_when (negb (sha256_re value)) (authorization_invalid reason).

Definition _positive_integer (value : Z) (reason : string) : result unit :=
  raise_when ((value <? 1) || (_MAX_COUNTER <? value)) (authorization_invalid reason).

Definition _nonnegative_integer (value : Z) (reason : string) : result unit :=
  raise_when ((value <? 0) || (_MAX_COUNTER <? value)) (authorization_invalid reason).

Definition _positive_timestamp (value : float) (reason : string) : result unit :=
  raise_when (negb (is_finite value) || float_leb value (S754_zero false))
    (authorization_invalid reason).

Definition auth_conflict (reason : string) : exn :=
  OptimisticConcurrencyError ("workflow_transition_side_effect_authorization_" +:+ reason).

Definition nul : string := str1 "000"%char.

Section with_digest.
Context `{Digest}.

Definition _namespaced_digest (namespace : string) (payload : dict) : result string :=
  text ← canonical_json (PDict payload);
  Ok (hexdigest (utf8 (namespace +:+ nul +:+ text))).

Definition operation_intent_digest (i : AuthorizationIntent) : result string :=
  _namespaced_digest INTENT_DIGEST_NAMESPACE
  [("operation_id", PStr (in_operation_id i)); ("tenant_id", PStr (in_tenant_id i));
    ("workflow_id", PStr (in_workflow_id i)); ("run_id", PStr (in_run_id i));
    ("step_id", PStr (in_step_id i));
    ("declared_operation", PStr (in_declared_operation i));
    ("side_effect_class", PStr (in_class i));
    ("operation_payload_digest", PStr (in_operation_payload_digest i))].

Definition operation_fence_id (i : AuthorizationIntent) : result string :=
  digest ← _namespaced_digest FENCE_NAMESPACE
  [("operation_id", PStr (in_operation_id i));
    ("operation_intent_digest", PStr (in_operation_intent_digest i));
    ("ownership_attempt_id", PStr (in_attempt_id i));
    ("ownership_fencing_token", PInt (in_fencing_token i));
    ("authorization_envelope_id", PStr (in_envelope_id i));
    ("authorization_envelope_digest", PStr (in_envelope_digest i))];
  Ok ("wftsf-" +:+ digest).

Definition authorization_receipt_id (i : AuthorizationIntent) : result string :=
  digest ← _namespaced_digest RECEIPT_NAMESPACE
  [("transition_id", PStr (in_transition_id i)); ("effect_id", PStr (in_effect_id i))];
  Ok ("wftsar-" +:+ digest).

(** [_assert_transition_authorization_intent] *)
Definition assert_intent (i : AuthorizationIntent) : result unit :=
  raise_when (bool_decide (in_schema i ≠ INTENT_SCHEMA))
  (ValueError "workflow_transition_side_effect_authorization_intent_schema_unsupported") ;;
  for_each (λ vr, _identity vr.1 vr.2)
  [(in_receipt_id i, "receipt_id"); (in_transition_id i, "transition_id");
    (in_effect_id i, "effect_id"); (in_tenant_id i, "tenant_id");
    (in_workflow_id i, "workflow_id"); (in_run_id i, "run_id"); (in_step_id i, "step_id");
    (in_operation_id i, "operation_id"); (in_operation_fence_id i, "operation_fence_id");
    (in_envelope_id i, "authorization_envelope_id");
    (in_attempt_id i, "ownership_attempt_id")] ;;
  _runtime_identity (in_runtime_id i) ;;
  _bounded_text (in_declared_operation i) _MAX_OPERATION_CHARS "declared_operation" ;;
  raise_when (bool_decide (in_class i ∉ WRITE_CLASSES)) (authorization_invalid "class") ;;
  _positive_integer (in_effect_ordinal i) "effect_ordinal" ;;
  _positive_integer (in_fencing_token i) "ownership_fencing_token" ;;
  _positive_integer (in_claim_generation i) "creator_claim_generation" ;;
  _positive_timestamp (in_planned_at i) "planned_at" ;;
  for_each (λ vr, _sha256 vr.1 vr.2)
  [(in_operation_payload_digest i, "operation_payload_digest");
    (in_operation_intent_digest i, "operation_intent_digest");
    (in_envelope_digest i, "authorization_envelope_digest");
    (in_request_fingerprint i, "transition_request_fingerprint");
    (in_effect_payload_digest i, "effect_payload_digest")] ;;
  expected_operation ← operation_id_for (in_tenant_id i) (in_run_id i) (in_step_id i)
  (in_declared_operation i);
  expected_intent_digest ← operation_intent_digest i;
  expected_fence_id ← operation_fence_id i;
  expected_receipt_id ← authorization_receipt_id i;
  raise_when (bool_decide (in_operation_id i ≠ expected_operation)
  || bool_decide (in_operation_intent_digest i ≠ expected_intent_digest)
  || bool_decide (in_operation_fence_id i ≠ expected_fence_id)
  || bool_decide (in_idempotency_key i ≠ in_operation_fence_id i)
  || bool_decide (in_receipt_id i ≠ expected_receipt_id))
  (ValueError "workflow_transition_side_effect_authorization_intent_binding_invalid").

(** [_side_effect_record_digest] *)
Definition _side_effect_record_digest (r : option SideEffectRecord) : result string :=
  _namespaced_digest RECORD_DIGEST_NAMESPACE
  match r with Some r => record_to_dict r | None => [("state", PStr "absent")] end.

(** [_transition_authorization_receipt_digest] *)
Definition receipt_digest_of (r : AuthorizationReceipt) : result string :=
  _namespaced_digest RECEIPT_DIGEST_NAMESPACE (dict_del "receipt_digest" (receipt_to_dict r)).

(** [SideEffectRecord.from_exact_mapping(record.to_dict())]: the checks of a
    record; its fields are kept as they are. *)
Definition record_assert_exact (r : SideEffectRecord) : result unit :=
  raise_when (existsb has_nul [se_schema r; se_operation_id r; se_tenant_id r;
      se_workflow_id r; se_run_id r; se_step_id r; se_declared_operation r; se_class r;
      se_status r; se_attempt_id r; se_envelope_id r; se_result_ref r; se_failure_code r])
  (ValueError "workflow_transition_side_effect_ledger_record_invalid") ;;
  _positive_integer (se_revision r) "record_revision" ;;
  _nonnegative_integer (se_fencing_token r) "record_fencing_token" ;;
  _positive_timestamp (se_updated_at r) "record_updated_at" ;;
  record_assert_valid r.

Definition record_of_receipt (r : AuthorizationReceipt) : bool :=
  let i := rc_intent r in
  let a := rc_record r in
  bool_decide (se_operation_id a = in_operation_id i)
  && bool_decide (se_tenant_id a = in_tenant_id i)
  && bool_decide (se_workflow_id a = in_workflow_id i)
  && bool_decide (se_run_id a = in_run_id i)
  && bool_decide (se_step_id a = in_step_id i)
  && bool_decide (se_declared_operation a = in_declared_operation i)
  && bool_decide (se_class a = in_class i)
  && bool_decide (se_status a = "authorized")
  && (se_revision a =? rc_ledger_revision r)
  && (se_fencing_token a =? in_fencing_token i)
  && bool_decide (se_envelope_id a = in_envelope_id i)
  && bool_decide (se_attempt_id a = "")
  && bool_decide (se_result_ref a = "")
  && bool_decide (se_failure_code a = "")
  && float_eqb (se_updated_at a) (rc_authorized_at r).

(** [_assert_transition_authorization_receipt], after the receipt's record was
    hydrated; the intent is rebuilt with its own schema. *)
Definition assert_receipt (r : AuthorizationReceipt) : result unit :=
  record_assert_exact (rc_record r) ;;
  assert_intent (rc_intent r) ;;
  raise_when (bool_decide (rc_schema r ≠ RECEIPT_SCHEMA))
  (ValueError "workflow_transition_side_effect_authorization_receipt_schema_unsupported") ;;
  raise_when (bool_decide (rc_prior_status r ∉ ["absent"; "planned"; "failed"]))
  (authorization_invalid "prior_state") ;;
  _nonnegative_integer (rc_prior_revision r) "prior_revision" ;;
  _sha256 (rc_prior_record_digest r) "prior_record_digest" ;;
  _positive_integer (rc_ledger_revision r) "authorized_ledger_revision" ;;
  _sha256 (rc_record_digest r) "authorized_record_digest" ;;
  _sha256 (rc_digest r) "receipt_digest" ;;
  _positive_timestamp (rc_authorized_at r) "authorized_at" ;;
  raise_when (negb (float_eqb (rc_authorized_at r) (in_planned_at (rc_intent r))))
  (authorization_invalid "timestamp") ;;
  let absent := bool_decide (rc_prior_status r = "absent") in
  raise_when (if absent then negb (rc_prior_revision r =? 0) else rc_prior_revision r <? 1)
  (authorization_invalid "prior_state") ;;
  raise_when (negb (rc_ledger_revision r =? if absent then 2 else rc_prior_revision r + 1))
  (authorization_invalid "revision") ;;
  raise_when (negb (record_of_receipt r)) (authorization_invalid "record") ;;
  record_digest ← _side_effect_record_digest (Some (rc_record r));
  raise_when (bool_decide (record_digest ≠ rc_record_digest r))
  (ValueError "workflow_transition_side_effect_authorization_record_digest_mismatch") ;;
  digest ← receipt_digest_of r;
  raise_when (bool_decide (digest ≠ rc_digest r))
  (ValueError "workflow_transition_side_effect_authorization_receipt_digest_mismatch").
End with_digest.

(** ** Observations *)

(** [_transition_authorization_relevant_receipts] *)
Definition alias_of (i : AuthorizationIntent) (r : AuthorizationReceipt) : bool :=
  bool_decide (in_receipt_id (rc_intent r) = in_receipt_id i)
  || bool_decide (in_effect_id (rc_intent r) = in_effect_id i)
  || bool_decide (in_operation_fence_id (rc_intent r) = in_operation_fence_id i).

Definition same_operation (i : AuthorizationIntent) (r : AuthorizationReceipt) : bool :=
  bool_decide (in_operation_id (rc_intent r) = in_operation_id i).

Definition relevant_receipts (i : AuthorizationIntent) (receipts : list AuthorizationReceipt)
    : list AuthorizationReceipt :=
  filter (λ r, same_operation i r || alias_of i r = true) receipts.

(** [_assert_transition_authorization_receipt_matches_intent] *)
Definition receipt_matches_intent (r : AuthorizationReceipt) (i : AuthorizationIntent)
    : result unit :=
  let expected := dict_del "creator_claim_generation" (dict_del "schema" (intent_to_dict i)) in
  let actual := receipt_to_dict r in
  for_each (λ kv, raise_when (negb (py_eqb false (dget kv.1 actual) kv.2))
                    (auth_conflict "receipt_conflict")) expected ;;
  raise_when (in_claim_generation i <? in_claim_generation (rc_intent r))
    (auth_conflict "generation_conflict").

(** [_assert_transition_authorization_operation_history] *)
Definition operation_history (r : AuthorizationReceipt) (i : AuthorizationIntent)
    : result unit :=
  let j := rc_intent r in
  raise_when (bool_decide (in_operation_id j ≠ in_operation_id i)
      || bool_decide (in_operation_intent_digest j ≠ in_operation_intent_digest i)
      || bool_decide (in_operation_payload_digest j ≠ in_operation_payload_digest i)
      || bool_decide (in_tenant_id j ≠ in_tenant_id i)
      || bool_decide (in_workflow_id j ≠ in_workflow_id i)
      || bool_decide (in_run_id j ≠ in_run_id i) || bool_decide (in_step_id j ≠ in_step_id i)
      || bool_decide (in_declared_operation j ≠ in_declared_operation i)
      || bool_decide (in_class j ≠ in_class i)) (auth_conflict "operation_conflict").

(** [_assert_transition_authorization_ledger_binding] *)
Definition ledger_binding (r : SideEffectRecord) (i : AuthorizationIntent) : result unit :=
  raise_when (bool_decide (se_operation_id r ≠ in_operation_id i)
      || bool_decide (se_tenant_id r ≠ in_tenant_id i)
      || bool_decide (se_workflow_id r ≠ in_workflow_id i)
      || bool_decide (se_run_id r ≠ in_run_id i) || bool_decide (se_step_id r ≠ in_step_id i)
      || bool_decide (se_declared_operation r ≠ in_declared_operation i)
      || bool_decide (se_class r ≠ in_class i)) (auth_conflict "ledger_binding_conflict").

(** [_assert_failed_reauthorization] *)
Definition failed_reauthorization (r : SideEffectRecord) (i : AuthorizationIntent)
    (prior_receipts : list AuthorizationReceipt) : result unit :=
  match last prior_receipts with
  | None => Err (auth_conflict "prior_receipt_missing")
  | Some latest =>
      raise_when (bool_decide (se_status r ≠ "failed")
          || negb (se_fencing_token r =? in_fencing_token (rc_intent latest))
          || bool_decide (se_envelope_id r ≠ in_envelope_id (rc_intent latest))
          || negb (str_true (se_attempt_id r))
          || (se_revision r <=? rc_ledger_revision latest)
          || negb (str_true (se_failure_code r))
          || (in_fencing_token i <=? in_fencing_token (rc_intent latest)))
        (auth_conflict "reauthorization_conflict")
  end.

(** [_assert_transition_authorization_current_ledger] *)
Definition current_ledger (r : option SideEffectRecord)
    (receipts : list AuthorizationReceipt) : result unit :=
  match r, last receipts with
  | None, _ => Ok tt
  | Some _, None => Err (IndexError "tuple index out of range")
  | Some r, Some latest =>
      raise_when (se_revision r <? rc_ledger_revision latest)
        (auth_conflict "ledger_revision_regressed") ;;
      raise_when ((se_revision r =? rc_ledger_revision latest)
                  && bool_decide (r ≠ rc_record latest))
        (auth_conflict "ledger_snapshot_conflict")
  end.

Definition _pristine_planned_record (r : SideEffectRecord) : bool :=
  bool_decide (se_status r = "planned") && (se_revision r =? 1) && (se_fencing_token r =? 0)
  && negb (str_true (se_attempt_id r)) && negb (str_true (se_envelope_id r))
  && negb (str_true (se_result_ref r)) && negb (str_true (se_failure_code r)).

(** The order of the operation's receipts: authorized revision, then
    identifier. *)
Definition receipt_leb (x y : AuthorizationReceipt) : bool :=
  (rc_ledger_revision x <? rc_ledger_revision y)
  || (rc_ledger_revision x =? rc_ledger_revision y)
     && str_leb (in_receipt_id (rc_intent x)) (in_receipt_id (rc_intent y)).

(** Consecutive receipts move the revision and the fencing token forward. *)
Fixpoint history_increasing (l : list AuthorizationReceipt) : bool :=
  match l with
  | x :: (y :: _) as l' =>
      (rc_ledger_revision x <? rc_ledger_revision y)
      && (in_fencing_token (rc_intent x) <? in_fencing_token (rc_intent y))
      && history_increasing l'
  | _ => true
  end.

Definition operation_receipts (i : AuthorizationIntent) (receipts : list AuthorizationReceipt)
    : list AuthorizationReceipt :=
  sort_by receipt_leb (filter (λ r, same_operation i r = true) receipts).

Definition option_dict {A} (f : A → dict) (x : option A) : pyval :=
  match x with Some x => PDict (f x) | None => PNone end.

Section with_digest.
Context `{Digest}.

(** [_transition_authorization_observation] *)
Definition observation (i : AuthorizationIntent) (ledger_record : option SideEffectRecord)
  (receipts : list AuthorizationReceipt) : result AuthorizationObservation :=
  raise_when (_MAX_OPERATION_RECEIPTS <? Z.of_nat (length receipts))
  (auth_conflict "history_limit") ;;
  let aliases := filter (λ r, alias_of i r = true) receipts in
  let candidate := head aliases in
  match candidate with
  | Some first => raise_when (existsb (λ r, bool_decide (r ≠ first)) aliases)
    (auth_conflict "alias_conflict")
  | None => Ok tt
  end ;;
  match candidate with Some r => receipt_matches_intent r i | None => Ok tt end ;;
  let history := operation_receipts i receipts in
  for_each (λ r, operation_history r i) history ;;
  raise_when (negb (history_increasing history)) (auth_conflict "history_conflict") ;;
  match ledger_record with Some r => ledger_binding r i | None => Ok tt end ;;
  match candidate, ledger_record with
  | Some _, _ => current_ledger ledger_record history
  | None, None => raise_when (bool_decide (history ≠ [])) (auth_conflict "ledger_missing")
  | None, Some r =>
      if bool_decide (se_status r = "planned") then
      raise_when (bool_decide (history ≠ []) || negb (_pristine_planned_record r))
      (auth_conflict "planned_conflict")
      else if bool_decide (se_status r = "failed") then failed_reauthorization r i history
      else Err (auth_conflict "receipt_missing")
  end ;;
  digest ← _namespaced_digest OBSERVATION_DIGEST_NAMESPACE
  [("intent", PDict (intent_to_dict i)); ("receipt", option_dict receipt_to_dict candidate);
    ("operation_receipts", PList (map (λ r, PDict (receipt_to_dict r)) history));
    ("ledger_record", option_dict record_to_dict ledger_record)];
  Ok {| ob_intent := i; ob_receipt := candidate; ob_operation_receipts := history;
    ob_ledger_record := ledger_record; ob_digest := digest |}.

(** [_new_transition_authorization_receipt] *)
Definition new_receipt (i : AuthorizationIntent) (prior : option SideEffectRecord)
  (authorized : SideEffectRecord) : result AuthorizationReceipt :=
  prior_digest ← _side_effect_record_digest prior;
  record_digest ← _side_effect_record_digest (Some authorized);
  let prior_status := match prior with Some p => se_status p | None => "absent" end in
  let prior_revision := match prior with Some p => se_revision p | None => 0 end in
  let values := dict_update (intent_to_dict i)
  [("schema", PStr RECEIPT_SCHEMA); ("prior_status", PStr prior_status);
    ("prior_revision", PInt prior_revision); ("prior_record_digest", PStr prior_digest);
    ("authorized_ledger_revision", PInt (se_revision authorized));
    ("authorized_record_digest", PStr record_digest);
    ("authorized_record", PDict (record_to_dict authorized));
    ("authorized_at", PFloat (in_planned_at i))] in
  digest ← _namespaced_digest RECEIPT_DIGEST_NAMESPACE values;
  let r := {| rc_intent := i; rc_prior_status := prior_status;
    rc_prior_revision := prior_revision; rc_prior_record_digest := prior_digest;
    rc_ledger_revision := se_revision authorized; rc_record_digest := record_digest;
    rc_record := authorized; rc_authorized_at := in_planned_at i; rc_digest := digest;
    rc_schema := RECEIPT_SCHEMA |} in
  assert_receipt r ;; Ok r.

(** The record an authorization writes. *)
Definition authorized_record_of (i : AuthorizationIntent) (planned : SideEffectRecord)
  : SideEffectRecord :=
  {| se_operation_id := se_operation_id planned; se_tenant_id := se_tenant_id planned;
    se_workflow_id := se_workflow_id planned; se_run_id := se_run_id planned;
    se_step_id := se_step_id planned; se_declared_operation := se_declared_operation planned;
    se_class := se_class planned; se_status := "authorized";
    se_revision := se_revision planned + 1; se_fencing_token := in_fencing_token i;
    se_attempt_id := ""; se_envelope_id := in_envelope_id i; se_result_ref := "";
    se_failure_code := ""; se_updated_at := in_planned_at i; se_schema := se_schema planned |}.

(** [_transition_authorization_commit_values] *)
Definition commit_values (i : AuthorizationIntent) (current : option SideEffectRecord)
  (prior_receipts : list AuthorizationReceipt)
  : result (SideEffectRecord * SideEffectRecord * AuthorizationReceipt) :=
  planned ← match current with
  | Some r => Ok r
  | None => _new_record (in_tenant_id i) (in_workflow_id i) (in_run_id i) (in_step_id i)
    (in_declared_operation i) (in_class i) (in_planned_at i)
  end;
  raise_when (bool_decide (se_status planned ∉ ["planned"; "failed"]))
  (InvalidTransitionError
    "workflow_transition_side_effect_authorization_state_conflict") ;;
  raise_when (bool_decide (se_status planned = "planned")
    && negb (_pristine_planned_record planned))
  (InvalidTransitionError
    "workflow_transition_side_effect_authorization_planned_conflict") ;;
  (if bool_decide (se_status planned = "failed")
    then failed_reauthorization planned i prior_receipts else Ok tt) ;;
  let authorized := authorized_record_of i planned in
  record_assert_valid authorized ;;
  receipt ← new_receipt i (match current with Some _ => Some planned | None => None end) authorized;
  Ok (planned, authorized, receipt).
End with_digest.

(** ** The ledger with its receipts *)

Record InMemorySideEffectLedger := {
  _records : records;
  _transition_authorization_receipts : list (string * AuthorizationReceipt);
}.

Definition empty_side_effect_ledger : InMemorySideEffectLedger :=
  {| _records := ∅; _transition_authorization_receipts := [] |}.

(** An operation of the ledger's records, run on the whole ledger. *)
Definition on_records {A} (m : action records A) : action InMemorySideEffectLedger A := λ s,
  let '(r, m') := m (_records s) in
  (r, {| _records := m';
         _transition_authorization_receipts := _transition_authorization_receipts s |}).

Section with_digest.
Context `{Digest}.

Definition observe_transition_authorization (i : AuthorizationIntent)
  (s : InMemorySideEffectLedger) : result AuthorizationObservation :=
  observation i (_records s !! in_operation_id i)
  (relevant_receipts i (_transition_authorization_receipts s).*2).

(** [authorize_transition_effect]; the fault hooks of the class do nothing. *)
Definition authorize_transition_effect (i : AuthorizationIntent)
  (expected_observation_digest : string)
  : action InMemorySideEffectLedger AuthorizationReceipt :=
  lift (_sha256 expected_observation_digest "expected_observation_digest") ;;
  s ← get;
  ob ← lift (observe_transition_authorization i s);
  match ob_receipt ob with
  | Some receipt => mret receipt
  | None =>
      lift (raise_when (bool_decide (ob_digest ob ≠ expected_observation_digest))
        (auth_conflict "observation_conflict")) ;;
      values ← lift (commit_values i (ob_ledger_record ob) (ob_operation_receipts ob));
      let '(_, authorized, receipt) := values in
      put {| _records := <[in_operation_id i := authorized]> (_records s);
        _transition_authorization_receipts :=
        alist_set (in_receipt_id (rc_intent receipt)) receipt
        (_transition_authorization_receipts s) |} ;;
      mret receipt
  end.
End with_digest.

(** ** Histories *)

(** A later receipt of an operation. *)
Definition after_receipt (x y : AuthorizationReceipt) : Prop :=
  rc_ledger_revision x < rc_ledger_revision y ∧
  in_fencing_token (rc_intent x) < in_fencing_token (rc_intent y).

#[global] Instance after_receipt_trans : Transitive after_receipt.
Proof. unfold after_receipt. intros x y z [? ?] [? ?]. lia. Qed.

Lemma history_increasing_sorted l :
  history_increasing l = true ↔ StronglySorted after_receipt l.
Proof.
  induction l as [|x l IH]; [by split; [constructor|]|]. destruct l as [|y l].
  { split; [by repeat constructor|done]. }
  change (history_increasing (x :: y :: l)) with
    ((rc_ledger_revision x <? rc_ledger_revision y)
     && (in_fencing_token (rc_intent x) <? in_fencing_token (rc_intent y))
     && history_increasing (y :: l)).
  rewrite !andb_true_iff, !Z.ltb_lt, IH. split.
  - intros [Hxy Hl]. constructor; [done|]. constructor; [done|].
    inversion_clear Hl as [|?? _ Hy]. eapply Forall_impl; [exact Hy|]. intros z Hz.
    by etrans.
  - intros Hs. inversion_clear Hs as [|?? Hl Hx]. inversion_clear Hx. done.
Qed.

Lemma receipts_sorted l : StronglySorted after_receipt l → sort_by receipt_leb l = l.
Proof.
  intros Hs. apply sort_by_id. induction Hs as [|x l _ IH Hx]; constructor; [done|].
  eapply Forall_impl; [exact Hx|]. intros y [Hy _]. unfold receipt_leb.
  apply orb_true_iff. left. by apply Z.ltb_lt.
Qed.

Lemma last_filter_elem {A} (l : list A) x : last l = Some x → x ∈ l.
Proof. apply last_Some_elem_of. Qed.

(** The receipts of an operation, in the order they were issued. *)
Definition receipts_of (s : InMemorySideEffectLedger) : list AuthorizationReceipt :=
  (_transition_authorization_receipts s).*2.
Definition issued_for (id : string) (s : InMemorySideEffectLedger) : list AuthorizationReceipt :=
  filter (λ r, in_operation_id (rc_intent r) = id) (receipts_of s).

Lemma operation_receipts_relevant i l :
  operation_receipts i (relevant_receipts i l) =
  sort_by receipt_leb (filter (λ r, in_operation_id (rc_intent r) = in_operation_id i) l).
Proof.
  unfold operation_receipts, relevant_receipts. f_equal. rewrite list_filter_filter.
  apply list_filter_iff. intros r. unfold same_operation. rewrite orb_true_iff, bool_decide_eq_true.
  tauto.
Qed.

Lemma aliases_relevant i l :
  filter (λ r, alias_of i r = true) (relevant_receipts i l) = filter (λ r, alias_of i r = true) l.
Proof.
  unfold relevant_receipts. rewrite list_filter_filter. apply list_filter_iff. intros r.
  rewrite orb_true_iff. tauto.
Qed.

Lemma relevant_one i r : Z.of_nat (length (relevant_receipts i [r])) ≤ _MAX_OPERATION_RECEIPTS.
Proof.
  pose proof (length_filter (λ x, same_operation i x || alias_of i x = true) [r]).
  unfold relevant_receipts, _MAX_OPERATION_RECEIPTS. cbn [length] in *. lia.
Qed.

(** ** Issuing a receipt *)

Section auth_laws.
Context `{Digest}.

(** What an observation checked when it found no receipt of the intent. *)
Record unissued (i : AuthorizationIntent) (s : InMemorySideEffectLedger) : Prop := {
    ui_aliases : ∀ r, r ∈ receipts_of s → alias_of i r = false;
    ui_history : StronglySorted after_receipt (sort_by receipt_leb (issued_for (in_operation_id i) s));
    ui_operation : ∀ r, r ∈ issued_for (in_operation_id i) s → operation_history r i = Ok tt;
    ui_record : ∀ r, _records s !! in_operation_id i = Some r → ledger_binding r i = Ok tt;
  }.

Lemma observation_unissued i s ob :
  observe_transition_authorization i s = Ok ob → ob_receipt ob = None →
  unissued i s ∧ ob_ledger_record ob = _records s !! in_operation_id i ∧
  ob_operation_receipts ob = sort_by receipt_leb (issued_for (in_operation_id i) s) ∧
  match _records s !! in_operation_id i with
  | None => issued_for (in_operation_id i) s = []
  | Some r =>
      (_pristine_planned_record r = true ∧ issued_for (in_operation_id i) s = []) ∨
      (se_status r = "failed" ∧
        failed_reauthorization r i (sort_by receipt_leb (issued_for (in_operation_id i) s)) = Ok tt)
  end.
Proof.
  unfold observe_transition_authorization, observation. fold (receipts_of s).
  rewrite operation_receipts_relevant, aliases_relevant. fold (issued_for (in_operation_id i) s).
  set (hist := sort_by receipt_leb (issued_for (in_operation_id i) s)).
  assert (hist = [] → issued_for (in_operation_id i) s = []) as Hnil.
  { intros Hh. apply length_zero_iff_nil. rewrite <- (length_sort_by receipt_leb).
    fold hist. by rewrite Hh. }
  intros Hob Hcand. result_inv. subst ob. cbn [ob_receipt ob_ledger_record ob_operation_receipts] in *.
  rewrite Hcand in *. apply head_None in Hcand.
  repeat match goal with Hx : negb (history_increasing _) = false |- _ =>
      apply negb_false_iff, history_increasing_sorted in Hx end.
  split_and!; try done.
  - split; [|done|..].
    + intros r Hr. destruct (alias_of i r) eqn:Ha; [|done].
      assert (r ∈ filter (λ r, alias_of i r = true) (receipts_of s)) as Hin
        by by apply list_elem_of_filter.
      rewrite Hcand in Hin. by apply elem_of_nil in Hin.
    + intros r Hr. match goal with Hx : Forall _ hist |- _ =>
          rewrite Forall_forall in Hx; apply Hx end. unfold hist. by rewrite elem_of_sort_by.
    + intros r Hr. rewrite Hr in *. match goal with Hx : ledger_binding _ _ = Ok ?u |- _ =>
          by destruct u end.
  - destruct (_records s !! in_operation_id i) as [r|].
    + match goal with Hx : (if bool_decide (se_status r = "planned") then _ else _) = Ok _ |- _ =>
          rename Hx into Hcase end.
      case_bool_decide as Hp; [left|case_bool_decide as Hf; [right|done]].
      * apply raise_when_Ok, orb_false_iff in Hcase as [Hh Hpr].
        apply bool_decide_eq_false, dec_stable in Hh. apply negb_false_iff in Hpr. auto.
      * split; [done|]. match goal with u : () |- _ => by destruct u end.
    + match goal with Hx : raise_when (bool_decide (hist ≠ [])) _ = Ok _ |- _ =>
          apply raise_when_Ok, bool_decide_eq_false, dec_stable in Hx end. auto.
Qed.

Lemma new_receipt_Ok i prior a r :
  new_receipt i prior a = Ok r →
  assert_receipt r = Ok tt ∧ rc_intent r = i ∧ rc_record r = a ∧
  rc_ledger_revision r = se_revision a ∧
  rc_prior_status r = match prior with Some p => se_status p | None => "absent" end.
Proof.
  unfold new_receipt. intros Hr. result_inv. subst r.
  match goal with Hx : assert_receipt _ = Ok ?u |- _ => destruct u end. done.
Qed.

(** What committing an authorization did. *)
Record issued (i : AuthorizationIntent) (s : InMemorySideEffectLedger)
  (receipt : AuthorizationReceipt) : Prop := {
    is_unissued : unissued i s;
    is_prior : match _records s !! in_operation_id i with
    | None => issued_for (in_operation_id i) s = []
    | Some r =>
        (_pristine_planned_record r = true ∧ issued_for (in_operation_id i) s = []) ∨
        (se_status r = "failed" ∧ failed_reauthorization r i
          (sort_by receipt_leb (issued_for (in_operation_id i) s)) = Ok tt)
    end;
    is_valid : assert_receipt receipt = Ok tt;
    is_intent : rc_intent receipt = i;
    is_revision : rc_ledger_revision receipt = se_revision (rc_record receipt) ∧
    match _records s !! in_operation_id i with
    | Some r => se_revision (rc_record receipt) = se_revision r + 1 ∧
      rc_record receipt = authorized_record_of i r
    | None => True
    end;
    is_record_valid : record_assert_valid (rc_record receipt) = Ok tt;
  }.

Definition add_receipt (receipt : AuthorizationReceipt) (s : InMemorySideEffectLedger)
  : InMemorySideEffectLedger :=
  {| _records := <[in_operation_id (rc_intent receipt) := rc_record receipt]> (_records s);
    _transition_authorization_receipts :=
    alist_set (in_receipt_id (rc_intent receipt)) receipt
    (_transition_authorization_receipts s) |}.

Lemma authorize_cases i d s out s' :
  authorize_transition_effect i d s = (out, s') →
  (s' = s ∧ ∀ r, out = Ok r → ∃ ob, observe_transition_authorization i s = Ok ob ∧
    ob_receipt ob = Some r) ∨
  (∃ r, out = Ok r ∧ issued i s r ∧ s' = add_receipt r s).
Proof.
  unfold authorize_transition_effect. intros Hrun. run_all Hrun; try (by left).
  - left. split; [done|]. intros r [= <-]. eauto.
  - right.
    match goal with Ho : observe_transition_authorization i s = Ok ?ob, Hn : ob_receipt ?ob = None |- _ =>
        destruct (observation_unissued i s ob Ho Hn) as (Hun & Hled & Hhist & Hprior) end.
    match goal with Hc : commit_values _ _ _ = Ok _ |- _ =>
        unfold commit_values in Hc; rewrite Hled in Hc end.
    result_inv.
    intros <- <-.
    match goal with Hx : new_receipt _ _ _ = Ok _ |- _ =>
        apply new_receipt_Ok in Hx as (Hval & Hint & Hrec & Hrev & _) end.
    subst. eexists. split; [reflexivity|]. split; [|unfold add_receipt; by rewrite Hrec].
    split; try done.
    + split; [by rewrite Hrec|]. destruct (_records s !! in_operation_id (rc_intent _)); [|done].
      match goal with Hx : Ok _ = Ok _ |- _ => injection Hx as -> end.
      rewrite Hrec. done.
    + rewrite Hrec. match goal with Hx : record_assert_valid _ = Ok ?u |- _ => by destruct u end.
Qed.

(** *** Valid receipts *)

Record receipt_facts (r : AuthorizationReceipt) : Prop := {
    rf_intent : assert_intent (rc_intent r) = Ok tt;
    rf_id : se_operation_id (rc_record r) = in_operation_id (rc_intent r);
    rf_binding : record_binding (rc_record r) =
    (in_tenant_id (rc_intent r), in_workflow_id (rc_intent r), in_run_id (rc_intent r),
      in_step_id (rc_intent r), in_declared_operation (rc_intent r), in_class (rc_intent r));
    rf_revision : se_revision (rc_record r) = rc_ledger_revision r;
    rf_fence : se_fencing_token (rc_record r) = in_fencing_token (rc_intent r);
    rf_status : se_status (rc_record r) = "authorized";
    rf_finite : is_finite (in_planned_at (rc_intent r)) = true ∧
    is_finite (rc_authorized_at r) = true ∧ is_finite (se_updated_at (rc_record r)) = true;
  }.

Lemma timestamp_finite x reason u : _positive_timestamp x reason = Ok u → is_finite x = true.
Proof.
  unfold _positive_timestamp. intros [Hx _]%raise_when_Ok%orb_false_iff. by apply negb_false_iff.
Qed.

Lemma assert_intent_time i u : assert_intent i = Ok u → is_finite (in_planned_at i) = true.
Proof.
  unfold assert_intent. intros Hi. result_inv.
  match goal with Hx : _positive_timestamp _ _ = Ok _ |- _ => by apply timestamp_finite in Hx end.
Qed.

Lemma assert_receipt_facts r : assert_receipt r = Ok tt → receipt_facts r.
Proof.
  unfold assert_receipt, record_assert_exact. intros Hr. result_inv.
  match goal with Hx : negb (record_of_receipt r) = false |- _ =>
      apply negb_false_iff in Hx; unfold record_of_receipt in Hx;
      rewrite !andb_true_iff, !bool_decide_eq_true, !Z.eqb_eq in Hx end.
  destruct_and!.
  match goal with Hx : assert_intent _ = Ok ?u |- _ => destruct u; rename Hx into Hint end.
  split; try done.
  - unfold record_binding. congruence.
  - pose proof (assert_intent_time _ _ Hint).
    repeat match goal with Hx : _positive_timestamp _ _ = Ok _ |- _ => apply timestamp_finite in Hx end.
    done.
Qed.

Definition op_fields (i : AuthorizationIntent) :=
  (in_operation_id i, in_operation_intent_digest i, in_operation_payload_digest i,
    in_tenant_id i, in_workflow_id i, in_run_id i, in_step_id i, in_declared_operation i,
    in_class i).

Lemma operation_history_Ok r i :
  operation_history r i = Ok tt ↔ op_fields (rc_intent r) = op_fields i.
Proof.
  unfold operation_history, op_fields. rewrite raise_when_Ok, !orb_false_iff, !bool_decide_eq_false.
  split.
  - intros Hx. destruct_and!. repeat match goal with Hy : ¬ (_ ≠ _) |- _ => apply dec_stable in Hy end.
    congruence.
  - intros [= -> -> -> -> -> -> -> -> ->]. split_and!; intros Hn; by apply Hn.
Qed.

(** ** The invariant *)

Record auth_ok (s : InMemorySideEffectLedger) : Prop := {
    so_ledger : ledger_ok (_records s);
    so_keys : ∀ k r, (k, r) ∈ _transition_authorization_receipts s → k = in_receipt_id (rc_intent r);
    so_valid : ∀ r, r ∈ receipts_of s → assert_receipt r = Ok tt;
    so_alias : ∀ r1 r2, r1 ∈ receipts_of s → r2 ∈ receipts_of s →
    alias_of (rc_intent r1) r2 = true → r1 = r2;
    so_history : ∀ id, StronglySorted after_receipt (issued_for id s);
    so_operation : ∀ r1 r2, r1 ∈ receipts_of s → r2 ∈ receipts_of s →
    in_operation_id (rc_intent r1) = in_operation_id (rc_intent r2) →
    op_fields (rc_intent r1) = op_fields (rc_intent r2);
    so_record : ∀ id latest, last (issued_for id s) = Some latest →
    ∃ r, _records s !! id = Some r ∧ later (rc_record latest) r;
  }.

Lemma auth_ok_empty : auth_ok empty_side_effect_ledger.
Proof.
  split.
  - intros id r. cbn. by rewrite lookup_empty.
  - intros k r Hin. by apply elem_of_nil in Hin.
  - intros r Hin. by apply elem_of_nil in Hin.
  - intros r1 r2 Hin. by apply elem_of_nil in Hin.
  - intros id. constructor.
  - intros r1 r2 Hin. by apply elem_of_nil in Hin.
  - done.
Qed.

Lemma auth_ok_records s m :
  auth_ok s → ledger_ok m → ledger_later (_records s) m →
  auth_ok {| _records := m;
    _transition_authorization_receipts := _transition_authorization_receipts s |}.
Proof.
  intros [Hl Hk Hv Ha Hh Ho Hr] Hm Hlater. split; try done.
  intros id latest Hlast. destruct (Hr id latest Hlast) as (r & Hr1 & Hr2).
  destruct (Hlater id r Hr1) as (r' & Hr' & Hlr). exists r'. split; [done|]. by etrans.
Qed.

Lemma receipts_of_add i s r :
  auth_ok s → issued i s r → receipts_of (add_receipt r s) = receipts_of s ++ [r].
Proof.
  intros Hs Hi. unfold receipts_of, add_receipt. cbn.
  rewrite alist_set_new; [by rewrite fmap_app|].
  intros Hin. apply list_elem_of_fmap in Hin as ([k r'] & Hk & Hin). cbn in Hk. subst k.
  pose proof (so_keys s Hs _ _ Hin) as Heq.
  assert (alias_of i r' = false) as Ha.
  { apply (ui_aliases i s (is_unissued _ _ _ Hi)). unfold receipts_of.
    apply list_elem_of_fmap. by exists (in_receipt_id (rc_intent r), r'). }
  unfold alias_of in Ha. rewrite !orb_false_iff, bool_decide_eq_false in Ha.
  destruct Ha as [[Ha _] _]. apply Ha. rewrite <- Heq. by rewrite (is_intent _ _ _ Hi).
Qed.

Lemma issued_for_add i s r id :
  auth_ok s → issued i s r → issued_for id (add_receipt r s) =
  issued_for id s ++ (if decide (in_operation_id i = id) then [r] else []).
Proof.
  intros Hs Hi. unfold issued_for. rewrite (receipts_of_add i) by done.
  rewrite filter_app, filter_cons, filter_nil, (is_intent _ _ _ Hi). done.
Qed.

Lemma issued_after i s r y :
  auth_ok s → issued i s r → last (issued_for (in_operation_id i) s) = Some y →
  after_receipt y r.
Proof.
  intros Hs Hi Hlast. pose proof (is_prior _ _ _ Hi) as Hp.
  rewrite (receipts_sorted _ (so_history s Hs _)) in Hp.
  destruct (is_revision _ _ _ Hi) as [Hrev Hcur].
  destruct (_records s !! in_operation_id i) as [rec|]; [|by rewrite Hp in Hlast].
  destruct Hp as [[_ Hnil]|[_ Hf]]; [by rewrite Hnil in Hlast|].
  unfold failed_reauthorization in Hf. rewrite Hlast in Hf.
  apply raise_when_Ok in Hf. rewrite !orb_false_iff, !Z.leb_gt in Hf.
  destruct Hf as [[[[[[_ _] _] _] Hr] _] Hfe]. destruct Hcur as [Hcur _].
  split; [lia|]. by rewrite (is_intent _ _ _ Hi).
Qed.

Lemma alias_of_sym r1 r2 : alias_of (rc_intent r1) r2 = alias_of (rc_intent r2) r1.
Proof.
  unfold alias_of. f_equal; [f_equal|]; apply bool_decide_ext; split; congruence.
Qed.

Lemma auth_ok_add i s r : auth_ok s → issued i s r → auth_ok (add_receipt r s).
Proof.
  intros Hs Hi. pose proof (assert_receipt_facts r (is_valid _ _ _ Hi)) as Hf.
  pose proof (is_intent _ _ _ Hi) as Hin.
  assert (∀ x, x ∈ receipts_of (add_receipt r s) ↔ x ∈ receipts_of s ∨ x = r) as Helem
    by (intros x; rewrite (receipts_of_add i) by done;
      by rewrite elem_of_app, list_elem_of_singleton).
  assert (∀ x, x ∈ receipts_of s → alias_of i x = false) as Hal
    by apply (ui_aliases i s (is_unissued _ _ _ Hi)).
  split.
  - intros id x. cbn. intros [[<- <-]|[_ Hx]]%lookup_insert_Some; [|by apply (so_ledger s Hs)].
    split; [apply Hf|apply (is_record_valid _ _ _ Hi)].
  - intros k x Hx. assert (k = in_receipt_id (rc_intent x) ∨
        (k, x) ∈ _transition_authorization_receipts s) as [?|Hx'];
      [|done|by apply (so_keys s Hs)].
    unfold add_receipt in Hx. cbn in Hx. apply alist_set_elem in Hx as [[-> ->]|Hx]; auto.
  - intros x [Hx| ->]%Helem; [by apply (so_valid s Hs)|apply (is_valid _ _ _ Hi)].
  - intros r1 r2 [H1| ->]%Helem [H2| ->]%Helem Ha; [by apply (so_alias s Hs)| | |done].
    + specialize (Hal r1 H1). rewrite alias_of_sym, Hin in Ha. congruence.
    + specialize (Hal r2 H2). rewrite Hin in Ha. congruence.
  - intros id. rewrite (issued_for_add i) by done. case_decide as Hid.
    + apply StronglySorted_snoc; [apply _|apply (so_history s Hs)|].
      intros y Hy. subst id. by eapply issued_after.
    + rewrite app_nil_r. apply (so_history s Hs).
  - assert (∀ x, x ∈ receipts_of s → in_operation_id (rc_intent x) = in_operation_id i →
        op_fields (rc_intent x) = op_fields i) as Hop.
    { intros x Hx Hid. apply operation_history_Ok, (ui_operation i s (is_unissued _ _ _ Hi)).
      by apply list_elem_of_filter. }
    intros r1 r2 [H1| ->]%Helem [H2| ->]%Helem Hid; [by apply (so_operation s Hs)| | |done];
      rewrite Hin in *; [by apply Hop|symmetry; by apply Hop].
  - intros id latest. rewrite (issued_for_add i) by done. case_decide as Hid.
    + rewrite last_snoc. intros [= <-]. exists (rc_record r). split; [|done].
      unfold add_receipt. cbn. by rewrite Hin, Hid, lookup_insert_eq.
    + rewrite app_nil_r. intros Hlast. unfold add_receipt. cbn.
      rewrite lookup_insert_ne by congruence. by apply (so_record s Hs).
Qed.
(** ** Calls *)

Inductive effect_op :=
  | OpLedger (op : ledger_op)
  | OpAuthorizeEffect (i : AuthorizationIntent) (expected_digest : string).

Definition run_effect (op : effect_op) (s : InMemorySideEffectLedger) : InMemorySideEffectLedger :=
  match op with
  | OpLedger op =>
      {| _records := run_ledger op (_records s);
        _transition_authorization_receipts := _transition_authorization_receipts s |}
  | OpAuthorizeEffect i d => (authorize_transition_effect i d s).2
  end.

Definition reachable_effects : InMemorySideEffectLedger → Prop :=
  reachable run_effect empty_side_effect_ledger.

Lemma run_effect_cases op s :
  (∃ op', op = OpLedger op' ∧ _transition_authorization_receipts (run_effect op s) =
    _transition_authorization_receipts s ∧
    _records (run_effect op s) = run_ledger op' (_records s)) ∨
  run_effect op s = s ∨
  (∃ i r, issued i s r ∧ run_effect op s = add_receipt r s).
Proof.
  destruct op as [op|i d]; [left; by exists op|right]. cbn [run_effect].
  destruct (authorize_transition_effect i d s) as [out s'] eqn:Hrun. cbn.
  apply authorize_cases in Hrun as [[-> _]|(r & _ & Hi & ->)]; [by left|right; eauto].
Qed.

Lemma auth_ok_step op s : auth_ok s → auth_ok (run_effect op s).
Proof.
  intros Hs. destruct (run_effect_cases op s) as [(op' & -> & _ & _)|[->|(i & r & Hi & ->)]];
    [|done|by eapply auth_ok_add].
  apply auth_ok_records; [done|..].
  - eapply ledger_ok_change; [apply run_ledger_change|apply (so_ledger s Hs)].
  - eapply change_later, run_ledger_change.
Qed.

Lemma reachable_auth_ok s : reachable_effects s → auth_ok s.
Proof. apply reachable_invariant; [apply auth_ok_empty|intros op s'; apply auth_ok_step]. Qed.

Lemma authorize_reachable s i d out s' :
  authorize_transition_effect i d s = (out, s') → reachable run_effect s s'.
Proof.
  intros Hrun. pose proof (reachable_step run_effect s s (OpAuthorizeEffect i d)
      (reachable_init _ _)) as Hstep. cbn [run_effect] in Hstep. by rewrite Hrun in Hstep.
Qed.

(** Receipts are never removed or changed. *)
Lemma receipts_grow s s' :
  auth_ok s → reachable run_effect s s' →
  auth_ok s' ∧ ∀ r, r ∈ receipts_of s → r ∈ receipts_of s'.
Proof.
  intros Hs. induction 1 as [|s' op _ [Hs' IH]]; [done|].
  split; [by apply auth_ok_step|]. intros r Hr. apply IH in Hr.
  destruct (run_effect_cases op s') as [(op' & -> & _ & _)|[->|(i & x & Hi & ->)]]; [done|done|].
  rewrite (receipts_of_add i) by done. apply elem_of_app. by left.
Qed.

(** *** Replays *)

Lemma py_eqb_str s : py_eqb false (PStr s) (PStr s) = true.
Proof. cbn. by apply bool_decide_eq_true. Qed.

Lemma py_eqb_int n : py_eqb false (PInt n) (PInt n) = true.
Proof. cbn. unfold num_eqb, num_compare. by rewrite Z.compare_refl. Qed.

Lemma py_eqb_finite x : is_finite x = true → py_eqb false (PFloat x) (PFloat x) = true.
Proof.
  intros Hx. assert (x ≠ S754_nan) as Hn by by intros ->.
  pose proof (float_eqb_refl x Hn) as Hr. by destruct x.
Qed.

Lemma receipt_dict_wf r : dict_wf (receipt_to_dict r).
Proof. apply (bool_decide_unpack _). reflexivity. Qed.

Lemma receipt_matches_own r :
  is_finite (in_planned_at (rc_intent r)) = true → receipt_matches_intent r (rc_intent r) = Ok tt.
Proof.
  intros Hfin. unfold receipt_matches_intent.
  rewrite (proj2 (for_each_Ok _ _ tt)).
  - cbn [mbind result_bind]. by rewrite Z.ltb_irrefl.
  - apply Forall_forall. intros [k v] Hkv. cbn [fst snd].
    unfold dict_del in Hkv. rewrite !list_elem_of_filter in Hkv. cbn [fst] in Hkv.
    destruct Hkv as (_ & Hk & Hkv). unfold intent_to_dict in Hkv.
    apply elem_of_cons in Hkv as [[= -> _]|Hkv]; [done|].
    unfold dget. rewrite (dict_get_NoDup k v); [|apply receipt_dict_wf|].
    2:{ right. apply elem_of_app. by left. }
    cbn [from_option id]. assert (Forall (λ kv, py_eqb false kv.2 kv.2 = true)
        (intent_fields (rc_intent r))) as Heq.
    { unfold intent_fields.
      repeat (constructor; [first [apply py_eqb_str|apply py_eqb_int|by apply py_eqb_finite]|]).
      constructor. }
    rewrite Forall_forall in Heq. specialize (Heq _ Hkv). cbn [snd] in Heq. by rewrite Heq.
Qed.

Lemma receipt_floats r : receipt_facts r → floats_finite (PDict (receipt_to_dict r)) = true.
Proof.
  intros Hf. destruct (rf_finite _ Hf) as (H1 & H2 & H3).
  unfold receipt_to_dict, intent_fields, record_to_dict. cbn. by rewrite H1, H2, H3.
Qed.

Lemma intent_floats i : is_finite (in_planned_at i) = true →
  floats_finite (PDict (intent_to_dict i)) = true.
Proof. intros Hi. cbn. by rewrite Hi. Qed.

Lemma namespaced_total ns d : floats_finite (PDict d) = true → is_ok (_namespaced_digest ns d) = true.
Proof.
  intros Hd. unfold _namespaced_digest. pose proof (canonical_json_total _ Hd) as Hok.
  by destruct (canonical_json (PDict d)).
Qed.

(** A committed receipt is what every later observation of its intent finds. *)
Lemma observe_issued s r :
  auth_ok s → r ∈ receipts_of s →
  Z.of_nat (length (relevant_receipts (rc_intent r) (receipts_of s))) ≤ _MAX_OPERATION_RECEIPTS →
  (∀ x, _records s !! in_operation_id (rc_intent r) = Some x →
    is_finite (se_updated_at x) = true) →
  ∃ ob, observe_transition_authorization (rc_intent r) s = Ok ob ∧ ob_receipt ob = Some r.
Proof.
  intros Hs Hr Hlen Hclock. set (i := rc_intent r).
  pose proof (assert_receipt_facts r (so_valid s Hs r Hr)) as Hf.
  unfold observe_transition_authorization, observation. fold (receipts_of s).
  rewrite operation_receipts_relevant, aliases_relevant. fold (issued_for (in_operation_id i) s).
  rewrite (receipts_sorted _ (so_history s Hs _)).
  set (hist := issued_for (in_operation_id i) s).
  assert (∀ x, x ∈ hist → x ∈ receipts_of s ∧ in_operation_id (rc_intent x) = in_operation_id i)
    as Hhist by (intros x [? ?]%list_elem_of_filter; done).
  rewrite (proj2 (Z.ltb_ge _ _)) by done. cbn [raise_when mbind result_bind].
  set (aliases := filter (λ x, alias_of i x = true) (receipts_of s)).
  assert (∀ x, x ∈ aliases ↔ x = r) as Hal.
  { intros x. unfold aliases. rewrite list_elem_of_filter. split.
    - intros [Ha Hx]. symmetry. by apply (so_alias s Hs).
    - intros ->. split; [|done]. unfold alias_of, i. by rewrite bool_decide_true. }
  assert (head aliases = Some r) as Hhead.
  { destruct aliases as [|x l]; [exfalso; by apply (not_elem_of_nil r), Hal|].
    cbn. f_equal. apply Hal. by left. }
  rewrite Hhead.
  assert (existsb (λ x, bool_decide (x ≠ r)) aliases = false) as ->.
  { apply not_true_is_false. intros (x & Hx & Hne)%existsb_exists.
    apply bool_decide_eq_true in Hne. apply Hne. apply Hal. by apply list_elem_of_In. }
  cbn [raise_when mbind result_bind].
  assert (receipt_matches_intent r i = Ok tt) as ->
    by (apply receipt_matches_own, (rf_finite _ Hf)).
  cbn [mbind result_bind].
  rewrite (proj2 (for_each_Ok _ _ tt)).
  2:{ apply Forall_forall. intros x Hx. destruct (Hhist x Hx) as [Hx1 Hx2].
    apply operation_history_Ok. by apply (so_operation s Hs). }
  cbn [mbind result_bind]. rewrite (proj2 (history_increasing_sorted hist) (so_history s Hs (in_operation_id i))).
  cbn [negb raise_when mbind result_bind].
  assert (r ∈ hist) as Hrh by (by apply list_elem_of_filter).
  destruct (last hist) as [latest|] eqn:Hlast.
  2:{ apply last_None in Hlast. rewrite Hlast in Hrh. by apply elem_of_nil in Hrh. }
  destruct (so_record s Hs _ _ Hlast) as (x & Hx & Hl). rewrite Hx.
  destruct (Hhist latest (last_filter_elem _ _ Hlast)) as [Hlr Hlid].
  pose proof (assert_receipt_facts latest (so_valid s Hs _ Hlr)) as Hfl.
  pose proof (so_operation s Hs _ _ Hlr Hr Hlid) as Hops. fold i in Hops.
  assert (ledger_binding x i = Ok tt) as ->.
  { pose proof (la_binding _ _ Hl) as Hb. rewrite (rf_binding _ Hfl) in Hb.
    pose proof (la_id _ _ Hl) as Hid. rewrite (rf_id _ Hfl) in Hid.
    unfold record_binding in Hb. unfold op_fields in Hops. injection Hb; injection Hops; intros.
    unfold ledger_binding. rewrite !bool_decide_false; [done|intros Hn; apply Hn; congruence..]. }
  cbn [mbind result_bind]. unfold current_ledger. rewrite Hlast.
  pose proof (la_revision _ _ Hl) as Hrev. rewrite (rf_revision _ Hfl) in Hrev.
  rewrite (proj2 (Z.ltb_ge _ _)) by done. cbn [raise_when mbind result_bind].
  assert ((se_revision x =? rc_ledger_revision latest) && bool_decide (x ≠ rc_record latest) = false)
    as ->.
  { destruct (Z.eqb_spec (se_revision x) (rc_ledger_revision latest)) as [He|]; [|done].
    apply bool_decide_eq_false. intros Hn. apply Hn, (la_same _ _ Hl). by rewrite (rf_revision _ Hfl). }
  cbn [raise_when mbind result_bind].
  match goal with |- context [_namespaced_digest ?ns ?d] =>
      pose proof (namespaced_total ns d) as Hdig; destruct (_namespaced_digest ns d) as [dg|] end.
  - by eexists.
  - exfalso. enough (false = true) by done. apply Hdig.
    pose proof (receipt_floats r Hf) as H1.
    pose proof (intent_floats i (proj1 (rf_finite _ Hf))) as H2.
    change (floats_finite (PDict (intent_to_dict i)) && (floats_finite (PDict (receipt_to_dict r)) &&
          (forallb floats_finite (map (λ x, PDict (receipt_to_dict x)) hist) &&
            (floats_finite (PDict (record_to_dict x)) && true))) = true).
    rewrite H1, H2. cbn [andb]. apply andb_true_iff. split.
    + apply forallb_forall. intros y Hy. apply in_map_iff in Hy as (z & <- & Hz).
      apply list_elem_of_In in Hz. destruct (Hhist z Hz) as [Hz' _].
      apply receipt_floats, assert_receipt_facts, (so_valid s Hs _ Hz').
    + specialize (Hclock x Hx). cbn. by rewrite Hclock.
Qed.

(** An authorization is issued only when no attempt is in flight. *)
Lemma issued_prior_status i s r :
  issued i s r → status_of (in_operation_id i) (_records s) ∈ [""; "planned"; "failed"].
Proof.
  intros Hi. pose proof (is_prior _ _ _ Hi) as Hp. unfold status_of.
  destruct (_records s !! in_operation_id i) as [x|]; [|by left].
  destruct Hp as [[Hp _]|[-> _]]; [|apply (bool_decide_unpack _); reflexivity].
  unfold _pristine_planned_record in Hp. rewrite !andb_true_iff, bool_decide_eq_true in Hp.
  destruct_and!. match goal with Hx : se_status x = _ |- _ => rewrite Hx end.
  apply (bool_decide_unpack _). reflexivity.
Qed.

(** ** Properties *)

(** Authorizing an effect either raises and changes nothing, or returns the
    receipt already issued for it and changes nothing, or issues one receipt:
    then the operation was absent, planned and untouched, or failed under its
    last receipt, the new fencing token is above every earlier one, and the
    ledger record is exactly the authorized record of the receipt. *)
Theorem authorize_outcomes s i d out s' :
  reachable_effects s → authorize_transition_effect i d s = (out, s') →
  (∃ e, out = Err e ∧ s' = s) ∨
  (∃ r, out = Ok r ∧ s' = s ∧ r ∈ receipts_of s ∧ alias_of i r = true) ∨
  (∃ r, out = Ok r ∧ rc_intent r = i ∧ receipts_of s' = receipts_of s ++ [r] ∧
    _records s' = <[in_operation_id i := rc_record r]> (_records s) ∧
    se_status (rc_record r) = "authorized" ∧ se_fencing_token (rc_record r) = in_fencing_token i ∧
    (∀ x, x ∈ issued_for (in_operation_id i) s →
      in_fencing_token (rc_intent x) < in_fencing_token i) ∧
    status_of (in_operation_id i) (_records s) ∈ [""; "planned"; "failed"]).
Proof.
  intros Hr Hrun. pose proof (reachable_auth_ok s Hr) as Hs.
  pose proof Hrun as Hcase. apply authorize_cases in Hcase as [[-> Hout]|(r & -> & Hi & ->)].
  - destruct out as [r|e]; [right; left|left; by exists e].
    destruct (Hout r eq_refl) as (ob & Hob & Hcand). exists r. split; [done|]. split; [done|].
    unfold observe_transition_authorization, observation in Hob. result_inv. subst ob.
    cbn [ob_receipt] in Hcand. rewrite aliases_relevant in Hcand. fold (receipts_of s) in Hcand.
    apply head_Some_elem_of, list_elem_of_filter in Hcand as [Ha Hin]. done.
  - right; right. exists r. pose proof (assert_receipt_facts r (is_valid _ _ _ Hi)) as Hf.
    pose proof (is_intent _ _ _ Hi) as Hin.
    split_and!; [done|done|by eapply receipts_of_add|unfold add_receipt; cbn; by rewrite Hin
      |apply (rf_status _ Hf)|rewrite (rf_fence _ Hf), Hin; done|..].
    + intros x Hx. pose proof (so_history s Hs (in_operation_id i)) as Hsort.
      destruct (last (issued_for (in_operation_id i) s)) as [y|] eqn:Hlast.
      2:{ apply last_None in Hlast. rewrite Hlast in Hx. by apply elem_of_nil in Hx. }
      destruct (issued_after i s r y Hs Hi Hlast) as [_ Hyr]. rewrite Hin in Hyr.
      apply last_Some in Hlast as [l Hl]. rewrite Hl in Hsort, Hx.
      apply elem_of_app in Hx as [Hx|Hx].
      * assert (y ∈ [y]) as Hy by by left.
        pose proof (StronglySorted_app_1_elem_of _ _ _ x y Hsort Hx Hy) as [_ Hxy]. lia.
      * apply list_elem_of_singleton in Hx as ->. done.
    + by apply (issued_prior_status i s r).
Qed.

(** A committed authorization survives the worker that asked for it: however
    many calls run in between, authorizing its intent again returns the very
    receipt and changes nothing, as long as the operation has at most 1,000
    receipts and its record's clock is a number. *)
Theorem authorize_replay s s' r d :
  reachable_effects s → r ∈ receipts_of s → reachable run_effect s s' →
  Z.of_nat (length (relevant_receipts (rc_intent r) (receipts_of s'))) ≤ _MAX_OPERATION_RECEIPTS →
  (∀ x, _records s' !! in_operation_id (rc_intent r) = Some x →
    is_finite (se_updated_at x) = true) →
  sha256_re d = true →
  authorize_transition_effect (rc_intent r) d s' = (Ok r, s').
Proof.
  intros Hs Hr Hreach Hlen Hclock Hd.
  destruct (receipts_grow s s' (reachable_auth_ok s Hs) Hreach) as [Hs' Hgrow].
  destruct (observe_issued s' r Hs' (Hgrow r Hr) Hlen Hclock) as (ob & Hob & Hrc).
  unfold authorize_transition_effect.
  rewrite (run_lift _ tt) by (unfold _sha256; by rewrite Hd).
  rewrite run_get, (run_lift _ ob) by exact Hob. by rewrite Hrc.
Qed.

(** *** At most one execution per recorded failure *)

Definition effect_acquires (id : string) (op : effect_op) (s : InMemorySideEffectLedger) : bool :=
  match op with OpLedger op => acquires id op (_records s) | OpAuthorizeEffect _ _ => false end.

Definition effect_fails (id : string) (op : effect_op) (s : InMemorySideEffectLedger) : bool :=
  match op with OpLedger op => fails id op (_records s) | OpAuthorizeEffect _ _ => false end.

Lemma effect_unresolved id op s :
  unresolved (status_of id (_records s)) + (if effect_acquires id op s then 1 else 0) ≤
  (if effect_fails id op s then 1 else 0) + unresolved (status_of id (_records (run_effect op s))).
Proof.
  destruct op as [op|i d]; [apply step_unresolved|]. cbn [effect_acquires effect_fails].
  destruct (run_effect_cases (OpAuthorizeEffect i d) s) as [(op' & Heq & _)|[->|(j & r & Hi & ->)]];
    [discriminate|lia|].
  unfold add_receipt. cbn [_records]. rewrite (is_intent _ _ _ Hi).
  destruct (decide (id = in_operation_id j)) as [->|Hne].
  - pose proof (issued_prior_status j s r Hi) as Hp. unfold unresolved.
    rewrite (bool_decide_false (status_of _ (_records s) ∈ _)); [case_bool_decide; lia|].
    intros Hn. rewrite !elem_of_cons, elem_of_nil in *. intuition congruence.
  - unfold status_of. rewrite lookup_insert_ne by congruence. lia.
Qed.

(** C27: an effect is executed at most once per recorded failure: in every run of
    ledger calls and authorizations, the claims acquired for an operation are
    at most one more than the failures recorded for it. *)
Theorem at_most_once id ops :
  count_along run_effect (effect_acquires id) ops empty_side_effect_ledger ≤
  1 + count_along run_effect (effect_fails id) ops empty_side_effect_ledger.
Proof.
  pose proof (count_along_potential run_effect (effect_acquires id) (effect_fails id)
      (λ s, unresolved (status_of id (_records s))) ops empty_side_effect_ledger) as Hc.
  ospecialize (Hc _); [intros op s; apply effect_unresolved|]. cbn beta in Hc.
  assert (∀ st, 0 ≤ unresolved st ≤ 1) as Hb by (intros st; unfold unresolved; case_bool_decide; lia).
  pose proof (Hb (status_of id (_records empty_side_effect_ledger))).
  pose proof (Hb (status_of id (_records (run_all_calls run_effect ops empty_side_effect_ledger)))).
  lia.
Qed.
End auth_laws.

(** ** Examples *)

Definition hex64 (c : ascii) : string := foldr (λ _ s, String c s) "" (seq 0 64).

(** The intent to send a mail, with its derived identifiers still to fill in. *)
Definition intent_with (operation digest fence receipt : string) : AuthorizationIntent := {|
  in_receipt_id := receipt; in_transition_id := "tr-1"; in_effect_id := "ef-1";
  in_runtime_id := "rt-1"; in_tenant_id := "t"; in_workflow_id := "w"; in_run_id := "r";
  in_step_id := "s"; in_effect_ordinal := 1; in_declared_operation := "send_mail";
  in_class := "non_idempotent_write"; in_operation_id := operation;
  in_operation_payload_digest := hex64 "a"%char; in_operation_intent_digest := digest;
  in_operation_fence_id := fence; in_envelope_id := "env-1";
  in_envelope_digest := hex64 "b"%char; in_attempt_id := "own-1"; in_fencing_token := 3;
  in_claim_generation := 1; in_request_fingerprint := hex64 "c"%char;
  in_effect_payload_digest := hex64 "d"%char; in_idempotency_key := fence;
  in_planned_at := lit 2 0; in_schema := INTENT_SCHEMA |}.

Definition sample_intent : AuthorizationIntent :=
  let text r := match r with Ok x => x | Err _ => "" end in
  let operation := sample_operation_id in
  let digest := text (@operation_intent_digest checksum_digest (intent_with operation "" "" "")) in
  let fence := text (@operation_fence_id checksum_digest (intent_with operation digest "" "")) in
  let receipt :=
    text (@authorization_receipt_id checksum_digest (intent_with operation digest fence "")) in
  intent_with operation digest fence receipt.

Definition sample_observation_digest : string :=
  match @observe_transition_authorization checksum_digest sample_intent empty_side_effect_ledger with
  | Ok ob => ob_digest ob
  | Err _ => ""
  end.

Definition sample_authorization :=
  @authorize_transition_effect checksum_digest sample_intent sample_observation_digest
    empty_side_effect_ledger.

Example authorize_outcomes_witness :
  ∃ r, sample_authorization.1 = Ok r ∧ rc_intent r = sample_intent ∧
  receipts_of sample_authorization.2 = [r].
Proof.
  destruct sample_authorization as [out s'] eqn:Hrun.
  assert (is_ok sample_authorization.1 = true) as Hok by (vm_compute; reflexivity).
  rewrite Hrun in Hok. cbn [fst snd] in *.
  destruct (@authorize_outcomes checksum_digest empty_side_effect_ledger sample_intent
    sample_observation_digest out s' (reachable_init _ _) Hrun)
    as [(e & -> & _)|[(r & _ & _ & Hin & _)|(r & -> & Hi & Hs & _)]].
  - discriminate Hok.
  - exfalso. exact (not_elem_of_nil _ Hin).
  - exists r. exact (conj eq_refl (conj Hi Hs)).
Defined.

Example authorize_replay_witness :
  ∃ r s, sample_authorization = (Ok r, s) ∧
  @authorize_transition_effect checksum_digest (rc_intent r) (hex64 "e") s = (Ok r, s).
Proof.
  destruct sample_authorization as [out s] eqn:Hrun.
  assert (match sample_authorization.1, receipts_of sample_authorization.2 with
    | Ok r, [r'] => bool_decide (r = r') | _, _ => false end = true) as Hv
    by (vm_compute; reflexivity).
  assert (match _records sample_authorization.2 !! sample_operation_id with
    | Some x => is_finite (se_updated_at x) | None => true end = true) as Hc
    by (vm_compute; reflexivity).
  assert (match sample_authorization.1 with
    | Ok r => bool_decide (in_operation_id (rc_intent r) = sample_operation_id)
    | Err _ => false end = true) as Hid by (vm_compute; reflexivity).
  rewrite Hrun in Hv, Hc, Hid. cbn [fst snd] in Hv, Hc, Hid.
  destruct out as [r|e]; [|discriminate Hv].
  destruct (receipts_of s) as [|r' [|]] eqn:Hs; [discriminate Hv| |discriminate Hv].
  apply bool_decide_eq_true in Hv, Hid. subst r'. exists r, s. split; [reflexivity|].
  assert (r ∈ receipts_of s) as Hin by (rewrite Hs; left).
  pose proof (@authorize_reachable checksum_digest empty_side_effect_ledger sample_intent
    sample_observation_digest (Ok r) s Hrun) as Hreach.
  apply (@authorize_replay checksum_digest s s r (hex64 "e") Hreach Hin (reachable_init _ _)).
  - rewrite Hs. exact (relevant_one (rc_intent r) r).
  - intros x Hx. rewrite Hid in Hx. rewrite Hx in Hc. exact Hc.
  - reflexivity.
Defined.
