(* ===== verification/Ownership.v ===== *)
(** * Execution ownership (workflow_runtime/ownership.py, ananta_contracts/hub_task_gateway.py)

    Run/step leases with fencing tokens, result acknowledgements and the shared
    retry budget: InMemoryExecutionOwnershipStore without the reservations of
    transitions.  The store's RLock makes every method one step; the clock and
    the random part of an attempt identifier are arguments. *)
From S2P Require Import Prelude PyStr PyVal Digest Serialization Identity SchemaEvolution Plan Events.

Definition EXECUTION_OWNERSHIP_SCHEMA : string := "ananta.execution_ownership.v1".
Definition RETRY_BUDGET_SCHEMA : string := "ananta.retry_budget.v1".
Definition OWNERSHIP_STATUSES : list string :=
  ["active"; "completed"; "failed"; "orphaned"; "dead_letter"].
Definition RETRY_CATEGORIES : list string :=
  ["temporal_activity"; "hub_task"; "worker"; "tool"; "provider"].

(** ** Data *)

Record ExecutionOwnership := {
  ow_tenant_id : string;
  ow_workflow_id : string;
  ow_run_id : string;
  ow_step_id : string;
  ow_attempt_id : string;
  ow_owner_id : string;
  ow_fencing_token : Z;
  ow_revision : Z;
  ow_status : string;
  ow_lease_expires_at : float;
  ow_last_heartbeat_at : float;
  ow_result_ack_key : string;
  ow_failure_code : string;
  ow_schema : string;
}.

Record OwnershipClaim := {
  oc_ownership : ExecutionOwnership;
  oc_acquired : bool;
  oc_reason : string;
}.

Record RetryBudgetSnapshot := {
  rb_tenant_id : string;
  rb_run_id : string;
  rb_used : Z;
  rb_maximum : Z;
  rb_schema : string;
}.

Definition remaining (b : RetryBudgetSnapshot) : Z := Z.max 0 (rb_maximum b - rb_used b).

(** [ExecutionOwnership.assert_valid] *)
Definition ownership_assert_valid (o : ExecutionOwnership) : result unit :=
  raise_when (existsb (λ v, negb (str_true v))
      [ow_tenant_id o; ow_workflow_id o; ow_run_id o; ow_step_id o; ow_attempt_id o;
       ow_owner_id o]) (ValueError "execution_ownership_binding_required") ;;
  raise_when (bool_decide (ow_status o ∉ OWNERSHIP_STATUSES))
    (ValueError "execution_ownership_status_invalid") ;;
  raise_when ((ow_fencing_token o <? 1) || (ow_revision o <? 1))
    (ValueError "execution_ownership_fencing_invalid") ;;
  raise_when (bool_decide (ow_schema o ≠ EXECUTION_OWNERSHIP_SCHEMA))
    (ValueError "execution_ownership_schema_unsupported").

(** [ExecutionOwnership.from_mapping] *)
Definition ownership_from_mapping (raw : dict) : result ExecutionOwnership :=
  let text k := str_or_default (dget k raw) "" in
  fencing_token ← py_int (por (dget "fencing_token" raw) (PInt 0));
  revision ← py_int (por (dget "revision" raw) (PInt 0));
  lease_expires_at ← py_float (por (dget "lease_expires_at" raw) (PInt 0));
  last_heartbeat_at ← py_float (por (dget "last_heartbeat_at" raw) (PInt 0));
  let o :=
    {| ow_tenant_id := text "tenant_id"; ow_workflow_id := text "workflow_id";
       ow_run_id := text "run_id"; ow_step_id := text "step_id";
       ow_attempt_id := text "attempt_id"; ow_owner_id := text "owner_id";
       ow_fencing_token := fencing_token; ow_revision := revision;
       ow_status := text "status"; ow_lease_expires_at := lease_expires_at;
       ow_last_heartbeat_at := last_heartbeat_at;
       ow_result_ack_key := text "result_ack_key"; ow_failure_code := text "failure_code";
       ow_schema := str_or_default (dget "schema" raw) EXECUTION_OWNERSHIP_SCHEMA |} in
  ownership_assert_valid o ;; Ok o.

(** [ExecutionOwnership.to_dict] *)
Definition ownership_to_dict (o : ExecutionOwnership) : dict :=
  [("schema", PStr (ow_schema o)); ("tenant_id", PStr (ow_tenant_id o));
   ("workflow_id", PStr (ow_workflow_id o)); ("run_id", PStr (ow_run_id o));
   ("step_id", PStr (ow_step_id o)); ("attempt_id", PStr (ow_attempt_id o));
   ("owner_id", PStr (ow_owner_id o)); ("fencing_token", PInt (ow_fencing_token o));
   ("revision", PInt (ow_revision o)); ("status", PStr (ow_status o));
   ("lease_expires_at", PFloat (ow_lease_expires_at o));
   ("last_heartbeat_at", PFloat (ow_last_heartbeat_at o));
   ("result_ack_key", PStr (ow_result_ack_key o)); ("failure_code", PStr (ow_failure_code o))].

Definition event_suffix (status : string) : result string :=
  if bool_decide (status = "active") then Ok "ownership_claimed"
  else if bool_decide (status = "completed") then Ok "result_acknowledged"
  else if bool_decide (status = "failed") then Ok "attempt_failed"
  else if bool_decide (status = "orphaned") then Ok "orphaned"
  else if bool_decide (status = "dead_letter") then Ok "dead_lettered"
  else Err (KeyError status).

Definition ownership_event (o : ExecutionOwnership) (correlation_id causation_id actor : string)
    (fresh : string) (now : float) : result CanonicalWorkflowEvent :=
  suffix ← event_suffix (ow_status o);
  build (PStr (ow_tenant_id o)) (PStr (ow_workflow_id o)) (PStr (ow_run_id o))
    ("workflow.step." +:+ suffix) correlation_id causation_id
    ("ownership:" +:+ ow_run_id o +:+ ":" +:+ ow_step_id o +:+ ":" +:+ ow_attempt_id o
     +:+ ":" +:+ z_str (ow_revision o))
    (ow_step_id o) (ow_fencing_token o) actor
    [("attempt_id", PStr (ow_attempt_id o)); ("owner_id", PStr (ow_owner_id o));
     ("fencing_token", PInt (ow_fencing_token o));
     ("lease_expires_at", PFloat (ow_lease_expires_at o));
     ("result_ack_key", PStr (ow_result_ack_key o));
     ("failure_code", PStr (ow_failure_code o))]
    (Some (ow_last_heartbeat_at o))
    (Some ("wfe-ownership-" +:+ ow_run_id o +:+ "-" +:+ ow_step_id o +:+ "-"
           +:+ ow_attempt_id o +:+ "-" +:+ z_str (ow_revision o)))
    fresh now.

(** ** The store *)

(** Tenant, run and step. *)
Notation step_key := (string * string * string)%type (only parsing).

Record ExecutionOwnershipStore := {
  _current : gmap (string * string * string) ExecutionOwnership;
  _history : gmap (string * string * string) (list ExecutionOwnership);
  _retry_used : gmap (string * string) Z;
  _retry_maximum : gmap (string * string) Z;
  _retry_ids : gmap (string * string * string) string;
}.

Definition empty_ownership_store : ExecutionOwnershipStore :=
  {| _current := ∅; _history := ∅; _retry_used := ∅; _retry_maximum := ∅; _retry_ids := ∅ |}.

Definition _validate_lease (lease_seconds : float) : result unit :=
  raise_when (float_leb lease_seconds (S754_zero false)) (ValueError "lease_seconds_invalid").

Definition _assert_owner (current : ExecutionOwnership) (attempt_id owner_id : string)
    (fencing_token : Z) : result unit :=
  raise_when (bool_decide (ow_attempt_id current ≠ attempt_id)
              || bool_decide (ow_owner_id current ≠ owner_id)
              || negb (ow_fencing_token current =? fencing_token))
    (FencingTokenError "execution_owner_stale").

Definition _assert_expected_revision (current : ExecutionOwnership) (expected_revision : Z)
    : result unit :=
  raise_when (negb (ow_revision current =? expected_revision))
    (OptimisticConcurrencyError
      ("execution_ownership_revision_conflict:expected=" +:+ z_str expected_revision
       +:+ ":actual=" +:+ z_str (ow_revision current))).

(** The values that bind a call to its attempt. *)
Record owner_values := {
  ov_tenant_id : string;
  ov_run_id : string;
  ov_step_id : string;
  ov_attempt_id : string;
  ov_owner_id : string;
  ov_fencing_token : Z;
  ov_expected_revision : Z;
}.

Definition _save (key : step_key) (value : ExecutionOwnership)
    : action ExecutionOwnershipStore unit :=
  lift (ownership_assert_valid value) ;;
  modify (λ s,
    {| _current := <[key := value]> (_current s);
       _history := <[key := default [] (_history s !! key) ++ [value]]> (_history s);
       _retry_used := _retry_used s; _retry_maximum := _retry_maximum s;
       _retry_ids := _retry_ids s |}).

Definition _owned (v : owner_values)
    : action ExecutionOwnershipStore (step_key * ExecutionOwnership) :=
  let key := (ov_tenant_id v, ov_run_id v, ov_step_id v) in
  s ← get;
  match _current s !! key with
  | None => mthrow (KeyError "execution_ownership_not_found")
  | Some current =>
      lift (_assert_owner current (ov_attempt_id v) (ov_owner_id v) (ov_fencing_token v)) ;;
      mret (key, current)
  end.

Definition retry_snapshot (tenant_id run_id : string) (used maximum : Z) : RetryBudgetSnapshot :=
  {| rb_tenant_id := tenant_id; rb_run_id := run_id; rb_used := used; rb_maximum := maximum;
     rb_schema := RETRY_BUDGET_SCHEMA |}.

Definition consume_retry (tenant_id run_id retry_id category : string) (maximum : Z)
    : action ExecutionOwnershipStore RetryBudgetSnapshot :=
  lift (raise_when ((maximum <? 0) || negb (str_true retry_id)
                    || bool_decide (category ∉ RETRY_CATEGORIES))
          (ValueError "retry_budget_input_invalid")) ;;
  let key := (tenant_id, run_id) in
  let dedupe := (tenant_id, run_id, retry_id) in
  s ← get;
  let current := default 0 (_retry_used s !! key) in
  lift (raise_when (match _retry_maximum s !! key with
                    | Some configured => negb (configured =? maximum) | None => false end)
          (InvalidTransitionError "retry_budget_maximum_mismatch")) ;;
  match _retry_ids s !! dedupe with
  | Some existing =>
      lift (raise_when (bool_decide (existing ≠ category))
              (InvalidTransitionError "retry_budget_retry_id_binding_mismatch")) ;;
      mret (retry_snapshot tenant_id run_id current maximum)
  | None =>
      lift (raise_when (maximum <=? current)
              (InvalidTransitionError "retry_budget_exhausted")) ;;
      modify (λ s,
        {| _current := _current s; _history := _history s;
           _retry_used := <[key := current + 1]> (_retry_used s);
           _retry_maximum := <[key := maximum]> (_retry_maximum s);
           _retry_ids := <[dedupe := category]> (_retry_ids s) |}) ;;
      mret (retry_snapshot tenant_id run_id (current + 1) maximum)
  end.

Definition get_retry_budget (tenant_id run_id : string) (maximum : Z)
    (s : ExecutionOwnershipStore) : result RetryBudgetSnapshot :=
  let used := default 0 (_retry_used s !! (tenant_id, run_id)) in
  raise_when (match _retry_maximum s !! (tenant_id, run_id) with
              | Some configured => negb (configured =? maximum) | None => false end)
    (InvalidTransitionError "retry_budget_maximum_mismatch") ;;
  Ok (retry_snapshot tenant_id run_id used maximum).

(** The lease is held at [now]. *)
Definition live (o : ExecutionOwnership) (now : float) : bool :=
  bool_decide (ow_status o = "active") && float_ltb now (ow_lease_expires_at o).

Definition claimed_ownership (tenant_id workflow_id run_id step_id owner_id attempt_id : string)
    (current : option ExecutionOwnership) (lease_seconds timestamp : float)
    : ExecutionOwnership :=
  {| ow_tenant_id := tenant_id; ow_workflow_id := workflow_id; ow_run_id := run_id;
     ow_step_id := step_id; ow_attempt_id := attempt_id; ow_owner_id := owner_id;
     ow_fencing_token := match current with Some c => ow_fencing_token c + 1 | None => 1 end;
     ow_revision := match current with Some c => ow_revision c + 1 | None => 1 end;
     ow_status := "active"; ow_lease_expires_at := float_add timestamp lease_seconds;
     ow_last_heartbeat_at := timestamp; ow_result_ack_key := ""; ow_failure_code := "";
     ow_schema := EXECUTION_OWNERSHIP_SCHEMA |}.

Definition claim (tenant_id workflow_id run_id step_id owner_id : string)
    (lease_seconds : float) (maximum_retries : Z) (uuid : string) (now : float)
    : action ExecutionOwnershipStore OwnershipClaim :=
  lift (_validate_lease lease_seconds) ;;
  let key := (tenant_id, run_id, step_id) in
  s ← get;
  let current := _current s !! key in
  lift (raise_when (match current with
                    | Some c => bool_decide (ow_workflow_id c ≠ workflow_id) | None => false end)
          (OptimisticConcurrencyError "execution_ownership_workflow_binding_conflict")) ;;
  let unavailable := match current with
    | Some c =>
        if bool_decide (ow_status c = "completed") then Some (c, "already_completed")
        else if live c now then
          Some (c, if bool_decide (ow_owner_id c = owner_id) then "already_owned" else "lease_held")
        else None
    | None => None
    end in
  match unavailable with
  | Some (c, reason) =>
      mret {| oc_ownership := c; oc_acquired := false; oc_reason := reason |}
  | None =>
      let attempt_id := "att-" +:+ uuid in
      match current with
      | Some _ => _ ← consume_retry tenant_id run_id attempt_id "hub_task" maximum_retries;
                  mret tt
      | None => mret tt
      end ;;
      let ownership := claimed_ownership tenant_id workflow_id run_id step_id owner_id
                         attempt_id current lease_seconds now in
      lift (ownership_assert_valid ownership) ;;
      _save key ownership ;;
      mret {| oc_ownership := ownership; oc_acquired := true;
              oc_reason := match current with None => "acquired" | Some _ => "recovered" end |}
  end.

(** [replace(current, revision=current.revision + 1, ...)] *)
Definition updated_ownership (c : ExecutionOwnership)
    (status : string) (lease heartbeat : float) (ack failure : string) : ExecutionOwnership :=
  {| ow_tenant_id := ow_tenant_id c; ow_workflow_id := ow_workflow_id c;
     ow_run_id := ow_run_id c; ow_step_id := ow_step_id c;
     ow_attempt_id := ow_attempt_id c; ow_owner_id := ow_owner_id c;
     ow_fencing_token := ow_fencing_token c; ow_revision := ow_revision c + 1;
     ow_status := status; ow_lease_expires_at := lease; ow_last_heartbeat_at := heartbeat;
     ow_result_ack_key := ack; ow_failure_code := failure; ow_schema := ow_schema c |}.

Definition heartbeat (v : owner_values) (lease_seconds now : float)
    : action ExecutionOwnershipStore ExecutionOwnership :=
  lift (_validate_lease lease_seconds) ;;
  '(key, current) ← _owned v;
  lift (_assert_expected_revision current (ov_expected_revision v)) ;;
  lift (raise_when (bool_decide (ow_status current ≠ "active"))
          (FencingTokenError "heartbeat_owner_no_longer_active")) ;;
  lift (raise_when (float_leb (ow_lease_expires_at current) now)
          (FencingTokenError "ownership_lease_expired")) ;;
  let updated := updated_ownership current (ow_status current) (float_add now lease_seconds) now
                   (ow_result_ack_key current) (ow_failure_code current) in
  _save key updated ;; mret updated.

Definition acknowledge_result (v : owner_values) (result_ack_key : string) (now : float)
    : action ExecutionOwnershipStore ExecutionOwnership :=
  lift (raise_when (negb (str_true result_ack_key)) (ValueError "result_ack_key_required")) ;;
  '(key, current) ← _owned v;
  if bool_decide (ow_status current = "completed")
     && bool_decide (ow_result_ack_key current = result_ack_key) then mret current
  else
    lift (_assert_expected_revision current (ov_expected_revision v)) ;;
    lift (raise_when (bool_decide (ow_status current ≠ "active")
                      || float_leb (ow_lease_expires_at current) now)
            (FencingTokenError "result_owner_not_active")) ;;
    let updated := updated_ownership current "completed" now (ow_last_heartbeat_at current)
                     result_ack_key (ow_failure_code current) in
    _save key updated ;; mret updated.

Definition fail_attempt (v : owner_values) (failure_code : string) (dead_letter : bool)
    (now : float) : action ExecutionOwnershipStore ExecutionOwnership :=
  '(key, current) ← _owned v;
  lift (_assert_expected_revision current (ov_expected_revision v)) ;;
  lift (raise_when (bool_decide (ow_status current ≠ "active"))
          (InvalidTransitionError "failure_requires_active_ownership")) ;;
  lift (raise_when (float_leb (ow_lease_expires_at current) now)
          (FencingTokenError "failure_owner_lease_expired")) ;;
  let updated := updated_ownership current (if dead_letter then "dead_letter" else "failed") now
                   (ow_last_heartbeat_at current) (ow_result_ack_key current)
                   (str_or failure_code "execution_failed") in
  _save key updated ;; mret updated.

Definition reconcile_orphan (tenant_id run_id step_id : string) (now : float)
    : action ExecutionOwnershipStore (option ExecutionOwnership) :=
  let key := (tenant_id, run_id, step_id) in
  s ← get;
  match _current s !! key with
  | None => mret None
  | Some current =>
      if bool_decide (ow_status current ≠ "active") || float_ltb now (ow_lease_expires_at current)
      then mret None
      else
        let updated := updated_ownership current "orphaned" (ow_lease_expires_at current)
                         (ow_last_heartbeat_at current) (ow_result_ack_key current)
                         "lease_expired" in
        _save key updated ;; mret (Some updated)
  end.

(** [get] *)
Definition get_ownership (tenant_id run_id step_id : string) (s : ExecutionOwnershipStore)
    : option ExecutionOwnership := _current s !! (tenant_id, run_id, step_id).

(** ** Calls and the states they reach *)

Inductive ownership_op :=
| OpClaim (tenant workflow run step owner : string) (lease : float) (maximum : Z)
    (uuid : string) (now : float)
| OpHeartbeat (v : owner_values) (lease now : float)
| OpAcknowledge (v : owner_values) (ack : string) (now : float)
| OpFailAttempt (v : owner_values) (code : string) (dead_letter : bool) (now : float)
| OpReconcileOrphan (tenant run step : string) (now : float)
| OpConsumeRetry (tenant run id category : string) (maximum : Z).

Definition run_ownership (op : ownership_op) (s : ExecutionOwnershipStore)
    : ExecutionOwnershipStore :=
  match op with
  | OpClaim t w r st o l m u now => (claim t w r st o l m u now s).2
  | OpHeartbeat v l now => (heartbeat v l now s).2
  | OpAcknowledge v a now => (acknowledge_result v a now s).2
  | OpFailAttempt v c d now => (fail_attempt v c d now s).2
  | OpReconcileOrphan t r st now => (reconcile_orphan t r st now s).2
  | OpConsumeRetry t r i c m => (consume_retry t r i c m s).2
  end.

Definition reachable_ownership : ExecutionOwnershipStore → Prop :=
  reachable run_ownership empty_ownership_store.

(** The records of a step, oldest first. *)
Definition history_of (key : step_key) (s : ExecutionOwnershipStore) : list ExecutionOwnership :=
  default [] (_history s !! key).

Definition key_of (o : ExecutionOwnership) : step_key :=
  (ow_tenant_id o, ow_run_id o, ow_step_id o).

(** *** One record after another *)

(** The attempt a record belongs to. *)
Definition attempt_of (o : ExecutionOwnership) : string * string * Z :=
  (ow_attempt_id o, ow_owner_id o, ow_fencing_token o).

Record successor (c o : ExecutionOwnership) : Prop := {
  sc_key : key_of o = key_of c;
  sc_workflow : ow_workflow_id o = ow_workflow_id c;
  sc_revision : ow_revision o = ow_revision c + 1;
  sc_step : (ow_status c = "active" ∧ attempt_of o = attempt_of c) ∨
            (ow_status o = "active" ∧ ow_fencing_token o = ow_fencing_token c + 1 ∧
             ow_status c ≠ "completed" ∧ ∃ now, live c now = false);
}.

Definition begins (c : option ExecutionOwnership) (o : ExecutionOwnership) : Prop :=
  match c with
  | None => ow_revision o = 1 ∧ ow_fencing_token o = 1 ∧ ow_status o = "active"
  | Some c => successor c o
  end.

(** The effect of a call on the leases. *)
Inductive lease_change (s s' : ExecutionOwnershipStore) : Prop :=
| lease_same : _current s' = _current s → _history s' = _history s → lease_change s s'
| lease_saved key o : begins (_current s !! key) o → key_of o = key →
  ownership_assert_valid o = Ok tt → _current s' = <[key := o]> (_current s) →
  _history s' = <[key := history_of key s ++ [o]]> (_history s) → lease_change s s'.

(** The effect of a call on the retry budgets. *)
Inductive retry_change (s s' : ExecutionOwnershipStore) : Prop :=
| retry_same : _retry_used s' = _retry_used s → _retry_maximum s' = _retry_maximum s →
  _retry_ids s' = _retry_ids s → retry_change s s'
| retry_spent key id category maximum : _retry_ids s !! (key, id) = None →
  default 0 (_retry_used s !! key) < maximum →
  (∀ m, _retry_maximum s !! key = Some m → m = maximum) →
  _retry_used s' = <[key := default 0 (_retry_used s !! key) + 1]> (_retry_used s) →
  _retry_maximum s' = <[key := maximum]> (_retry_maximum s) →
  _retry_ids s' = <[(key, id) := category]> (_retry_ids s) → retry_change s s'.

Lemma consume_retry_run t r id c m s out s' :
  consume_retry t r id c m s = (out, s') →
  _current s' = _current s ∧ _history s' = _history s ∧ retry_change s s' ∧
  ∀ b, out = Ok b → _retry_ids s !! (t, r, id) = None →
    default 0 (_retry_used s' !! (t, r)) = default 0 (_retry_used s !! (t, r)) + 1.
Proof.
  unfold consume_retry. intros Hrun. run_all Hrun; (split; [done|]; split; [done|]);
    (split; [|try discriminate; try (intros b _ Hn; congruence)]); try (by apply retry_same).
  - match goal with Hx : raise_when (_ <=? _) _ = Ok _ |- _ =>
      apply raise_when_Ok, Z.leb_gt in Hx end.
    eapply retry_spent; try done. intros k Hk.
    match goal with Hx : raise_when _ _ = Ok _ |- _ =>
      rewrite Hk in Hx; apply raise_when_Ok, negb_false_iff, Z.eqb_eq in Hx end. done.
  - intros b _ _. cbn. by rewrite lookup_insert_eq.
Qed.

Lemma save_run key o s out s' :
  _save key o s = (out, s') → (s' = s ∧ ∃ e, out = Err e) ∨
  (out = Ok tt ∧ ownership_assert_valid o = Ok tt ∧
   _current s' = <[key := o]> (_current s) ∧
   _history s' = <[key := history_of key s ++ [o]]> (_history s) ∧
   _retry_used s' = _retry_used s ∧ _retry_maximum s' = _retry_maximum s ∧
   _retry_ids s' = _retry_ids s).
Proof.
  unfold _save. intros Hrun. run_all Hrun; [left; eauto|right].
  match goal with Hv : ownership_assert_valid _ = Ok ?u |- _ => by destruct u end.
Qed.

Lemma owned_run v s out s' :
  _owned v s = (out, s') → s' = s ∧ ∀ k c, out = Ok (k, c) →
  k = (ov_tenant_id v, ov_run_id v, ov_step_id v) ∧ _current s !! k = Some c ∧
  attempt_of c = (ov_attempt_id v, ov_owner_id v, ov_fencing_token v).
Proof.
  unfold _owned. intros Hrun. run_all Hrun; (split; [done|]); intros k0 c0 Hkc; simplify_eq.
  split; [done|]. split; [done|].
  match goal with Hx : _assert_owner _ _ _ _ = Ok _ |- _ =>
    unfold _assert_owner in Hx; apply raise_when_Ok in Hx;
    rewrite !orb_false_iff, !bool_decide_eq_false, negb_false_iff, Z.eqb_eq in Hx;
    destruct Hx as [[H1%dec_stable H2%dec_stable] H3] end.
  unfold attempt_of. congruence.
Qed.

(** A call that holds an attempt: it changes nothing and raises, or saves a
    successor of the attempt's active record. *)
Definition owned_step (v : owner_values) {A} (m : action ExecutionOwnershipStore A) : Prop :=
  ∀ s out s', m s = (out, s') →
  let key := (ov_tenant_id v, ov_run_id v, ov_step_id v) in
  s' = s ∨ (retry_change s s' ∧ ∃ c o, _current s !! key = Some c ∧
    ow_status c = "active" ∧
    attempt_of c = (ov_attempt_id v, ov_owner_id v, ov_fencing_token v) ∧
    ow_revision c = ov_expected_revision v ∧
    attempt_of o = attempt_of c ∧ key_of o = key_of c ∧ ow_workflow_id o = ow_workflow_id c ∧
    ow_revision o = ow_revision c + 1 ∧ ownership_assert_valid o = Ok tt ∧
    _current s' = <[key := o]> (_current s) ∧
    _history s' = <[key := history_of key s ++ [o]]> (_history s)).

Lemma expected_revision_Ok c n u : _assert_expected_revision c n = Ok u → ow_revision c = n.
Proof. intros Hx%raise_when_Ok. by apply negb_false_iff, Z.eqb_eq in Hx. Qed.

Lemma active_Ok c e u :
  raise_when (bool_decide (ow_status c ≠ "active")) e = Ok u → ow_status c = "active".
Proof. intros Hx%raise_when_Ok. by apply bool_decide_eq_false, dec_stable in Hx. Qed.

Lemma active_and_Ok c b e u :
  raise_when (bool_decide (ow_status c ≠ "active") || b) e = Ok u → ow_status c = "active".
Proof. intros [Hx _]%raise_when_Ok%orb_false_iff. by apply bool_decide_eq_false, dec_stable in Hx. Qed.

(** Finds the attempt of a run, and splits what follows. *)
Ltac owned_start Hrun :=
  let Ho := fresh "Ho" in
  run_call Hrun as Ho; apply owned_run in Ho as [-> Ho]; simplify_eq; try (by left);
  match type of Ho with ∀ k c, Ok ?x = _ → _ =>
    destruct x as [k c]; destruct (Ho k c eq_refl) as (-> & Hc & Hat); clear Ho end;
  cbn beta iota in Hrun; repeat run_step Hrun; simplify_eq; try (by left).

Ltac owned_finish Hrun :=
  match goal with Hx : _assert_expected_revision _ _ = Ok _ |- _ =>
    apply expected_revision_Ok in Hx end;
  let Hsave := fresh "Hsave" in
  run_call Hrun as Hsave; [simplify_eq|unfold mret, action_ret in Hrun; simplify_eq];
  apply save_run in Hsave as [(-> & ? & ?)|(? & ? & ? & ? & ? & ? & ?)]; simplify_eq;
  try (by left); right; split; [by apply retry_same|]; do 2 eexists; split_and!; try eassumption; try reflexivity.

Lemma heartbeat_step v l now : owned_step v (heartbeat v l now).
Proof.
  intros s out s'. unfold heartbeat. intros Hrun. run_step Hrun; [simplify_eq; by left|].
  owned_start Hrun. owned_finish Hrun.
  by eapply active_Ok.
Qed.

Lemma acknowledge_step v a now : owned_step v (acknowledge_result v a now).
Proof.
  intros s out s'. unfold acknowledge_result. intros Hrun. run_step Hrun; [simplify_eq; by left|].
  owned_start Hrun. owned_finish Hrun. by eapply active_and_Ok.
Qed.

Lemma fail_step v e d now : owned_step v (fail_attempt v e d now).
Proof.
  intros s out s'. unfold fail_attempt. intros Hrun.
  owned_start Hrun. owned_finish Hrun. by eapply active_Ok.
Qed.

(** Every lease is stored under its own step. *)
Definition keyed (s : ExecutionOwnershipStore) : Prop :=
  ∀ k o, _current s !! k = Some o → key_of o = k.

Lemma owned_step_change v {A} (m : action ExecutionOwnershipStore A) s :
  keyed s → owned_step v m → lease_change s (m s).2 ∧ retry_change s (m s).2.
Proof.
  intros Hs Hm. destruct (m s) as [out s'] eqn:Hrun. cbn.
  destruct (Hm s out s' Hrun)
    as [->|(Hr & c & o & Hc & Ha & Hat & _ & Ho & Hk & Hw & Hrev & Hv & H1 & H2)].
  - split; [by apply lease_same|by apply retry_same].
  - split; [|done]. eapply lease_saved; [| |exact Hv|exact H1|exact H2].
    + rewrite Hc. split; try done. by left.
    + rewrite Hk. by apply Hs.
Qed.

(** Why a step cannot be claimed. *)
Definition unavailable (c : ExecutionOwnership) (now : float) : bool :=
  bool_decide (ow_status c = "completed") || live c now.

Record acquisition (t w r st o : string) (l : float) (m : Z) (u : string) (now : float)
    (s : ExecutionOwnershipStore) (x : OwnershipClaim) (s' : ExecutionOwnershipStore) : Prop := {
  aq_acquired : oc_acquired x = true;
  aq_record : oc_ownership x =
    claimed_ownership t w r st o ("att-" +:+ u) (_current s !! (t, r, st)) l now;
  aq_prior : match _current s !! (t, r, st) with
    | None => oc_reason x = "acquired"
    | Some c => oc_reason x = "recovered" ∧ ow_workflow_id c = w ∧ unavailable c now = false ∧
        (_retry_ids s !! (t, r, "att-" +:+ u) = None →
         default 0 (_retry_used s' !! (t, r)) = default 0 (_retry_used s !! (t, r)) + 1)
    end;
  aq_valid : ownership_assert_valid (oc_ownership x) = Ok tt;
  aq_current : _current s' = <[(t, r, st) := oc_ownership x]> (_current s);
  aq_history : _history s' =
    <[(t, r, st) := history_of (t, r, st) s ++ [oc_ownership x]]> (_history s);
  aq_retry : retry_change s s';
}.

Lemma retry_change_ext s s1 s' :
  retry_change s s1 → _retry_used s' = _retry_used s1 → _retry_maximum s' = _retry_maximum s1 →
  _retry_ids s' = _retry_ids s1 → retry_change s s'.
Proof.
  intros [H1 H2 H3|k i c m H1 H2 H3 H4 H5 H6] E1 E2 E3.
  - by apply retry_same; congruence.
  - apply (retry_spent _ _ k i c m); first [assumption|congruence].
Qed.

Lemma claim_run t w r st o l m u now s out s' :
  claim t w r st o l m u now s = (out, s') →
  (_current s' = _current s ∧ _history s' = _history s ∧ retry_change s s' ∧
   ∀ x, out = Ok x → s' = s ∧ oc_acquired x = false ∧
     ∃ c, _current s !! (t, r, st) = Some c ∧ ow_workflow_id c = w ∧ oc_ownership x = c ∧
     unavailable c now = true) ∨
  (∃ x, out = Ok x ∧ acquisition t w r st o l m u now s x s').
Proof.
  assert (retry_change s s) as Hsame by by apply retry_same.
  unfold claim. intros Hrun.
  do 3 (run_step Hrun; simplify_eq; try (by left; split_and!; try done)).
  destruct (_current s !! (t, r, st)) as [c|] eqn:Hc.
  - match goal with Hx : raise_when _ _ = Ok _ |- _ =>
      apply raise_when_Ok, bool_decide_eq_false, dec_stable in Hx; rename Hx into Hw end.
    case_bool_decide as Hst; [|destruct (live c now) eqn:Hlive].
    + run_all Hrun. left. split_and!; try done. intros x [= <-]. split; [done|].
      split; [done|]. exists c. unfold unavailable. by rewrite bool_decide_true.
    + run_all Hrun. left. split_and!; try done. intros x [= <-]. split; [done|].
      split; [done|]. exists c. unfold unavailable. by rewrite Hlive, orb_true_r.
    + run_step Hrun. run_call Hrun as Hretry.
      { simplify_eq. apply consume_retry_run in Hretry as (H1 & H2 & H3 & _). by left. }
      apply consume_retry_run in Hretry as (H1 & H2 & H3 & Hspent).
      run_step Hrun. run_step Hrun; [by simplify_eq; left|].
      run_call Hrun as Hsave;
        apply save_run in Hsave as [(-> & ? & ?)|(? & Hv & H4 & H5 & E1 & E2 & E3)];
        simplify_eq; [by left|].
      unfold mret, action_ret in Hrun. simplify_eq. right. eexists. split; [done|].
      split; cbn; rewrite ?Hc; try done.
      * split_and!; try done; [unfold unavailable; by rewrite bool_decide_false, Hlive|].
        intros Hn. rewrite E1. by eapply Hspent.
      * by rewrite H4, H1.
      * rewrite H5. unfold history_of. by rewrite H2.
      * by eapply retry_change_ext.
  - run_step Hrun. run_step Hrun; [by simplify_eq; left|].
    run_call Hrun as Hsave;
      apply save_run in Hsave as [(-> & ? & ?)|(? & Hv & H4 & H5 & E1 & E2 & E3)];
      simplify_eq; [by left|].
    unfold mret, action_ret in Hrun. simplify_eq. right. eexists. split; [done|].
    split; cbn; rewrite ?Hc; try done. by apply retry_same.
Qed.

Lemma orphan_run t r st now s out s' :
  reconcile_orphan t r st now s = (out, s') → s' = s ∨
  (retry_change s s' ∧ ∃ c, let o := updated_ownership c "orphaned" (ow_lease_expires_at c)
      (ow_last_heartbeat_at c) (ow_result_ack_key c) "lease_expired" in
   _current s !! (t, r, st) = Some c ∧ ow_status c = "active" ∧ live c now = false ∧
   ownership_assert_valid o = Ok tt ∧ _current s' = <[(t, r, st) := o]> (_current s) ∧
   _history s' = <[(t, r, st) := history_of (t, r, st) s ++ [o]]> (_history s)).
Proof.
  unfold reconcile_orphan. intros Hrun. repeat run_step Hrun; simplify_eq; try (by left).
  match goal with Hx : _ || _ = false |- _ =>
    apply orb_false_iff in Hx as [Hx%bool_decide_eq_false%dec_stable Hl] end.
  run_call Hrun as Hsave; [|unfold mret, action_ret in Hrun];
    apply save_run in Hsave as [(-> & ? & ?)|(? & ? & ? & ? & ? & ? & ?)]; simplify_eq;
    try (by left).
  right. split; [by apply retry_same|]. eexists. cbv zeta. split_and!; try done.
  unfold live. by rewrite Hl, andb_false_r.
Qed.

Lemma run_change op s : keyed s → lease_change s (run_ownership op s) ∧
  retry_change s (run_ownership op s).
Proof.
  intros Hs. destruct op; cbn [run_ownership];
    try (eapply owned_step_change; [done|]; first [apply heartbeat_step|apply acknowledge_step
      |apply fail_step]).
  - match goal with |- _ ∧ retry_change _ ?x.2 => destruct x as [out s'] eqn:Hrun end. cbn.
    apply claim_run in Hrun as [(H1 & H2 & H3 & _)|(x & _ & Ha)]; [split; [|done]; by apply lease_same|].
    destruct Ha as [_ Hrec Hprior Hv Hc Hh Hr]. split; [|done].
    eapply lease_saved; [| |exact Hv|exact Hc|exact Hh]; [|by rewrite Hrec].
    destruct (_current s !! _) as [c|] eqn:Hcur; rewrite Hrec; [|done].
    destruct Hprior as (_ & Hw & Hun & _).
    unfold unavailable in Hun. rewrite orb_false_iff, bool_decide_eq_false in Hun.
    destruct Hun as [Hst Hl]. apply Hs in Hcur. split; cbn; try done.
    right. split_and!; try done. by exists now.
  - match goal with |- _ ∧ retry_change _ ?x.2 => destruct x as [out s'] eqn:Hrun end. cbn.
    apply orphan_run in Hrun as [->|(Hr & c & Hc & Ha & _ & Hv & H1 & H2)].
    { split; [by apply lease_same|by apply retry_same]. }
    split; [|done]. eapply lease_saved; [| |exact Hv|exact H1|exact H2].
    + rewrite Hc. split; try done. by left.
    + by apply Hs in Hc.
  - match goal with |- _ ∧ retry_change _ ?x.2 => destruct x as [out s'] eqn:Hrun end. cbn.
    apply consume_retry_run in Hrun as (H1 & H2 & H3 & _). split; [by apply lease_same|done].
Qed.

(** ** Invariants *)

Fixpoint chain (c : option ExecutionOwnership) (l : list ExecutionOwnership) : Prop :=
  match l with
  | [] => True
  | o :: l => begins c o ∧ chain (Some o) l
  end.

Lemma chain_snoc c l o :
  chain c (l ++ [o]) ↔ chain c l ∧ begins (match last l with Some x => Some x | None => c end) o.
Proof.
  revert c. induction l as [|x l IH]; intros c; cbn [app chain last]; [tauto|].
  rewrite IH. destruct l as [|y l]; cbn [last]; [tauto|].
  destruct (last (y :: l)) eqn:Hl; [tauto|]. by apply last_None in Hl.
Qed.

(** The retries charged to a run. *)
Definition retries_of (key : string * string) (s : ExecutionOwnershipStore) : Z :=
  map_sum (λ k _, if bool_decide (k.1 = key) then 1 else 0) (_retry_ids s).

Definition used_of (key : string * string) (s : ExecutionOwnershipStore) : Z :=
  default 0 (_retry_used s !! key).

Record ownership_ok (s : ExecutionOwnershipStore) : Prop := {
  oo_current : ∀ k o, _current s !! k = Some o → key_of o = k ∧ ownership_assert_valid o = Ok tt;
  oo_last : ∀ k, last (history_of k s) = _current s !! k;
  oo_chain : ∀ k, chain None (history_of k s);
  oo_used : ∀ k, used_of k s = retries_of k s;
  oo_maximum : ∀ k, match _retry_maximum s !! k with
    | Some m => used_of k s ≤ m | None => used_of k s = 0 end;
}.

Lemma ownership_ok_keyed s : ownership_ok s → keyed s.
Proof. intros Hs k o Ho. by apply (oo_current s Hs). Qed.

Lemma ownership_ok_empty : ownership_ok empty_ownership_store.
Proof.
  split; try done.
Qed.

Lemma lease_change_ok s s' :
  ownership_ok s → lease_change s s' →
  (∀ k o, _current s' !! k = Some o → key_of o = k ∧ ownership_assert_valid o = Ok tt) ∧
  (∀ k, last (history_of k s') = _current s' !! k) ∧ (∀ k, chain None (history_of k s')).
Proof.
  intros Hs [Hc Hh|key o Hb Hk Hv Hc Hh]; unfold history_of; rewrite Hc, Hh.
  { split_and!; apply Hs. }
  split_and!.
  - intros k x [[<- <-]|[_ Hx]]%lookup_insert_Some; [done|by apply (oo_current s Hs)].
  - intros k. destruct (decide (key = k)) as [->|Hne].
    + rewrite !lookup_insert_eq. cbn [from_option id]. by rewrite last_snoc.
    + rewrite !lookup_insert_ne by done. apply (oo_last s Hs).
  - intros k. destruct (decide (key = k)) as [->|Hne].
    + rewrite lookup_insert_eq. cbn [from_option id]. apply chain_snoc.
      split; [apply (oo_chain s Hs)|]. rewrite (oo_last s Hs). by destruct (_current s !! k).
    + rewrite lookup_insert_ne by done. apply (oo_chain s Hs).
Qed.

Lemma retry_change_ok s s' :
  ownership_ok s → retry_change s s' →
  (∀ k, used_of k s' = retries_of k s') ∧
  (∀ k, match _retry_maximum s' !! k with
    | Some m => used_of k s' ≤ m | None => used_of k s' = 0 end).
Proof.
  intros Hs [H1 H2 H3|key id cat m Hid Hlt Hm H1 H2 H3]; unfold used_of, retries_of;
    rewrite H1, H2, H3; [split; apply Hs|].
  split; intros k.
  - rewrite map_sum_insert_new by done. cbn [fst]. fold (retries_of k s).
    rewrite <- (oo_used s Hs). destruct (decide (key = k)) as [->|Hne].
    + rewrite lookup_insert_eq, bool_decide_true by done. unfold used_of. cbn. lia.
    + rewrite lookup_insert_ne, bool_decide_false by done. done.
  - destruct (decide (key = k)) as [->|Hne].
    + rewrite !lookup_insert_eq. cbn. lia.
    + rewrite !lookup_insert_ne by done. apply (oo_maximum s Hs).
Qed.

(** What a sequence of calls does to the leases and the budgets. *)
Inductive evolves (s : ExecutionOwnershipStore) : ExecutionOwnershipStore → Prop :=
| evolves_refl : evolves s s
| evolves_step s1 s2 : evolves s s1 → lease_change s1 s2 → retry_change s1 s2 → evolves s s2.

Lemma change_ok s s' :
  ownership_ok s → lease_change s s' → retry_change s s' → ownership_ok s'.
Proof.
  intros Hs Hl Hr. destruct (lease_change_ok _ _ Hs Hl) as (? & ? & ?).
  destruct (retry_change_ok _ _ Hs Hr) as (? & ?). by split.
Qed.

Lemma evolves_ok s s' : ownership_ok s → evolves s s' → ownership_ok s'.
Proof. intros Hs. induction 1; [done|]. by eapply change_ok. Qed.

Lemma run_ownership_ok op s : ownership_ok s → ownership_ok (run_ownership op s).
Proof.
  intros Hs. destruct (run_change op s (ownership_ok_keyed s Hs)) as [Hl Hr].
  by eapply change_ok.
Qed.

Lemma reachable_evolves s s' :
  ownership_ok s → reachable run_ownership s s' → evolves s s'.
Proof.
  intros Hs. induction 1 as [|s' op _ IH]; [constructor|].
  destruct (run_change op s' (ownership_ok_keyed s' (evolves_ok s s' Hs IH))).
  by eapply evolves_step.
Qed.

Lemma reachable_ownership_ok s : reachable_ownership s → ownership_ok s.
Proof.
  intros Hr. eapply evolves_ok, reachable_evolves, Hr; apply ownership_ok_empty.
Qed.

(** *** Histories only grow *)

Lemma change_grows s s' key :
  lease_change s s' → history_of key s `prefix_of` history_of key s'.
Proof.
  intros [_ Hh|k o _ _ _ _ Hh]; unfold history_of at 2; rewrite Hh; [done|].
  destruct (decide (k = key)) as [->|Hne].
  - rewrite lookup_insert_eq. cbn. by apply prefix_app_r.
  - by rewrite lookup_insert_ne.
Qed.

Lemma history_grows s s' key : evolves s s' → history_of key s `prefix_of` history_of key s'.
Proof. induction 1 as [|s1 s2 _ IH Hl _]; [done|]. etrans; [exact IH|by apply change_grows]. Qed.

(** [o] belongs to the attempt of [c] or to a later one. *)
Definition not_before (c o : ExecutionOwnership) : Prop :=
  ow_fencing_token c < ow_fencing_token o ∨ attempt_of o = attempt_of c.

#[global] Instance not_before_trans : Transitive not_before.
Proof.
  unfold not_before, attempt_of. intros x y z [H1|H1] [H2|H2]; simplify_eq; [left; lia..|].
  right. congruence.
Qed.

Lemma successor_not_before c o : successor c o → not_before c o.
Proof. intros [_ _ _ [[_ Ha]|(_ & Hf & _)]]; [by right|left; lia]. Qed.

Lemma chain_sorted c l :
  chain c l → StronglySorted not_before l ∧ ∀ x, c = Some x → Forall (not_before x) l.
Proof.
  revert c. induction l as [|o l IH]; intros c; cbn [chain]; [repeat constructor|].
  intros [Hb Hl]. destruct (IH _ Hl) as [Hs Hf]. specialize (Hf o eq_refl).
  split; [by constructor|]. intros x ->. apply successor_not_before in Hb.
  constructor; [done|]. eapply Forall_impl; [exact Hf|]. intros y Hy. by etrans.
Qed.

Lemma chain_lookup c l i o :
  chain c l → l !! i = Some o →
  ow_revision o = match c with Some c => ow_revision c | None => 0 end + 1 + Z.of_nat i.
Proof.
  revert c i. induction l as [|x l IH]; intros c i; [done|]. cbn [chain]. intros [Hb Hl].
  assert (ow_revision x = match c with Some c => ow_revision c | None => 0 end + 1) as Hx
    by (destruct c; [apply Hb|destruct Hb; lia]).
  destruct i as [|i]; cbn; [intros [= <-]; lia|]. intros Ho.
  rewrite (IH (Some x) i Hl Ho), Hx. lia.
Qed.

Lemma chain_next c l i x o :
  chain c l → l !! i = Some x → l !! S i = Some o → successor x o.
Proof.
  revert c i. induction l as [|y l IH]; intros c i; [done|]. cbn [chain]. intros [_ Hl].
  destruct i as [|i]; cbn; [|by apply (IH (Some y))].
  intros [= <-]. destruct l as [|z l]; [done|]. cbn in *. intros [= <-]. apply Hl.
Qed.

(** A later record than every one of the history is of its last attempt. *)
Lemma current_not_before s key c o :
  ownership_ok s → _current s !! key = Some c → o ∈ history_of key s → not_before o c.
Proof.
  intros Hs Hc Ho. destruct (chain_sorted _ _ (oo_chain s Hs key)) as [Hsort _].
  pose proof (oo_last s Hs key) as Hl. rewrite Hc in Hl. apply last_Some in Hl as [l Hl].
  rewrite Hl in Ho, Hsort. apply elem_of_app in Ho as [Ho| ->%list_elem_of_singleton].
  - assert (c ∈ [c]) as Hin by by left. exact (StronglySorted_app_1_elem_of _ _ _ o c Hsort Ho Hin).
  - by right.
Qed.

Lemma owned_stale v s c :
  _current s !! (ov_tenant_id v, ov_run_id v, ov_step_id v) = Some c →
  ow_fencing_token c ≠ ov_fencing_token v →
  _owned v s = (Err (FencingTokenError "execution_owner_stale"), s).
Proof.
  intros Hc Hf. unfold _owned. rewrite run_get, Hc. unfold _assert_owner.
  rewrite (proj2 (Z.eqb_neq _ _)) by done. by rewrite orb_true_r.
Qed.

(** The calls that act for an attempt. *)
Definition refused (v : owner_values) (s : ExecutionOwnershipStore) : Prop :=
  (∀ l now, ∃ e, heartbeat v l now s = (Err e, s)) ∧
  (∀ a now, ∃ e, acknowledge_result v a now s = (Err e, s)) ∧
  (∀ c d now, ∃ e, fail_attempt v c d now s = (Err e, s)).

Lemma owned_stale_refused v s e : _owned v s = (Err e, s) → refused v s.
Proof.
  intros Ho. split_and!; intros.
  - unfold heartbeat. destruct (_validate_lease l) as [u|e'] eqn:Hv; [|by eexists].
    rewrite (run_lift _ u) by done. unfold mbind, action_bind. rewrite Ho. by eexists.
  - unfold acknowledge_result. destruct (str_true a) eqn:Ha; [|by eexists].
    rewrite run_guard by done. unfold mbind, action_bind. rewrite Ho. by eexists.
  - unfold fail_attempt. unfold mbind, action_bind. rewrite Ho. by eexists.
Qed.


Lemma owned_exact v s c :
  _current s !! (ov_tenant_id v, ov_run_id v, ov_step_id v) = Some c →
  attempt_of c = (ov_attempt_id v, ov_owner_id v, ov_fencing_token v) →
  _owned v s = (Ok ((ov_tenant_id v, ov_run_id v, ov_step_id v), c), s).
Proof.
  intros Hc [= Ha Ho Hf]. unfold _owned. rewrite run_get, Hc. unfold _assert_owner.
  rewrite Ha, Ho, Hf, Z.eqb_refl, !bool_decide_false by (intros Hn; by apply Hn). done.
Qed.

Lemma completed_stays s s' key c :
  _current s !! key = Some c → ow_status c = "completed" → evolves s s' →
  _current s' !! key = Some c.
Proof.
  intros Hc Hst. induction 1 as [|s1 s2 _ IH [Hsame _|k o Hb _ _ Hnew _] _]; [done|by rewrite Hsame|].
  rewrite Hnew. destruct (decide (k = key)) as [->|Hne]; [|by rewrite lookup_insert_ne].
  rewrite IH in Hb. destruct (sc_step _ _ Hb) as [[Ha _]|(_ & _ & Hn & _)]; congruence.
Qed.

(** A record of a step's history is not after its current one. *)
Lemma stale_refused s v key o :
  ownership_ok s → (ov_tenant_id v, ov_run_id v, ov_step_id v) = key →
  o ∈ history_of key s → ov_fencing_token v < ow_fencing_token o → refused v s.
Proof.
  intros Hs Hk Ho Hv. destruct (_current s !! key) as [cur|] eqn:Hcur.
  2:{ pose proof (oo_last s Hs key) as Hl. rewrite Hcur in Hl.
      apply last_None in Hl. rewrite Hl in Ho. by apply elem_of_nil in Ho. }
  eapply owned_stale_refused, owned_stale; [by rewrite Hk|].
  destruct (current_not_before s _ cur _ Hs Hcur Ho) as [?|Heq]; [lia|].
  unfold attempt_of in Heq. injection Heq as _ _ Heq. lia.
Qed.

(** A new first token is above every token of the history. *)
Lemma next_fence s key f :
  ownership_ok s → f = match _current s !! key with Some c => ow_fencing_token c + 1 | None => 1 end →
  ∀ c, c ∈ history_of key s → ow_fencing_token c < f.
Proof.
  intros Hs -> c Hc. destruct (_current s !! key) as [cur|] eqn:Hcur.
  - destruct (current_not_before s _ cur c Hs Hcur Hc) as [?|Heq]; [lia|].
    unfold attempt_of in Heq. injection Heq as _ _ ->. lia.
  - pose proof (oo_last s Hs key) as Hl. rewrite Hcur in Hl.
    apply last_None in Hl. rewrite Hl in Hc. by apply elem_of_nil in Hc.
Qed.

Lemma acknowledge_Ok v a now s c s1 :
  acknowledge_result v a now s = (Ok c, s1) →
  str_true a = true ∧ _current s1 !! (ov_tenant_id v, ov_run_id v, ov_step_id v) = Some c ∧
  ow_status c = "completed" ∧ ow_result_ack_key c = a ∧
  attempt_of c = (ov_attempt_id v, ov_owner_id v, ov_fencing_token v).
Proof.
  unfold acknowledge_result. intros Hrun. run_step Hrun; [done|].
  match goal with Hx : raise_when (negb _) _ = Ok _ |- _ =>
    apply raise_when_Ok, negb_false_iff in Hx; split; [exact Hx|] end.
  run_call Hrun as Ho; [done|]. apply owned_run in Ho as [-> Ho].
  match type of Ho with ∀ k c, Ok ?x = _ → _ =>
    destruct x as [k c0]; destruct (Ho k c0 eq_refl) as (-> & Hc & Hat); clear Ho end.
  cbn beta iota in Hrun. run_step Hrun.
  - run_all Hrun. rewrite andb_true_iff, !bool_decide_eq_true in E. by destruct E.
  - do 2 (run_step Hrun; [done|]). run_call Hrun as Hsave; [done|].
    apply save_run in Hsave as [(_ & ? & ?)|(_ & _ & H1 & _)]; [done|].
    unfold mret, action_ret in Hrun. simplify_eq. rewrite H1, lookup_insert_eq. done.
Qed.

(** ** Properties *)

(** The records of a step are one gapless history: revisions count from 1,
    the stored lease is the last record, every record is valid and of the same
    step and workflow, and a record follows another either as an update of its
    active attempt or as a new attempt, with the next fencing token, once the
    lease was over and no result was accepted. *)
Theorem histories_exact s key :
  reachable_ownership s →
  last (history_of key s) = _current s !! key ∧
  (∀ i o, history_of key s !! i = Some o → ow_revision o = Z.of_nat i + 1) ∧
  (∀ i c o, history_of key s !! i = Some c → history_of key s !! S i = Some o → successor c o) ∧
  (∀ o, _current s !! key = Some o → key_of o = key ∧ ownership_assert_valid o = Ok tt).
Proof.
  intros Hs%reachable_ownership_ok. split_and!.
  - apply (oo_last s Hs).
  - intros i o Ho. rewrite (chain_lookup None _ i o (oo_chain s Hs key) Ho). lia.
  - intros i c o. apply (chain_next None), (oo_chain s Hs).
  - intros o. apply (oo_current s Hs).
Qed.

(** *** Retry budgets *)

(** The call gives the run another attempt of a step under a new identifier. *)
Definition recovers (key : string * string) (op : ownership_op) (s : ExecutionOwnershipStore)
    : bool :=
  match op with
  | OpClaim t w r st o l m u now =>
      bool_decide ((t, r) = key) && bool_decide (_retry_ids s !! (t, r, "att-" +:+ u) = None)
      && match (claim t w r st o l m u now s).1 with
         | Ok x => oc_acquired x && bool_decide (oc_reason x = "recovered")
         | Err _ => false
         end
  | _ => false
  end.

Lemma retry_change_used s s' key : retry_change s s' → used_of key s ≤ used_of key s'.
Proof.
  intros [H1 _ _|k id c m _ _ _ H1 _ _]; unfold used_of; rewrite H1; [done|].
  destruct (decide (k = key)) as [->|Hne]; [rewrite lookup_insert_eq|rewrite lookup_insert_ne by done];
    cbn; lia.
Qed.

Lemma recovers_used key op s :
  ownership_ok s →
  used_of key s + (if recovers key op s then 1 else 0) ≤ used_of key (run_ownership op s).
Proof.
  intros Hs. destruct (recovers key op s) eqn:Hrec.
  - destruct op as [t w r st o l m u now| | | | |]; try done. cbn [recovers run_ownership] in *.
    rewrite !andb_true_iff, !bool_decide_eq_true in Hrec. destruct Hrec as [[<- Hid] Hout].
    destruct (claim t w r st o l m u now s) as [[x|e] s'] eqn:Hrun; [|done].
    cbn [fst snd] in *. rewrite andb_true_iff, bool_decide_eq_true in Hout.
    destruct Hout as [Hacq Hreason].
    apply claim_run in Hrun as [(_ & _ & _ & Hno)|(y & [= <-] & Hq)].
    { destruct (Hno x eq_refl) as (_ & Hf & _). congruence. }
    pose proof (aq_prior _ _ _ _ _ _ _ _ _ _ _ _ Hq) as Hp.
    destruct (_current s !! (t, r, st)) as [c|]; [|by rewrite Hp in Hreason].
    destruct Hp as (_ & _ & _ & Hu). unfold used_of. rewrite (Hu Hid). lia.
  - rewrite Z.add_0_r. apply retry_change_used, run_change, ownership_ok_keyed, Hs.
Qed.

(** *** Progress *)

Lemma ownership_valid_inv o :
  ownership_assert_valid o = Ok tt ↔
  existsb (λ v, negb (str_true v))
    [ow_tenant_id o; ow_workflow_id o; ow_run_id o; ow_step_id o; ow_attempt_id o;
     ow_owner_id o] = false ∧
  ow_status o ∈ OWNERSHIP_STATUSES ∧ 1 ≤ ow_fencing_token o ∧ 1 ≤ ow_revision o ∧
  ow_schema o = EXECUTION_OWNERSHIP_SCHEMA.
Proof.
  unfold ownership_assert_valid. split.
  - intros Hv. result_inv.
    match goal with Hx : bool_decide (_ ∉ _) = false |- _ =>
      apply bool_decide_eq_false, dec_stable in Hx end.
    match goal with Hx : _ || _ = false |- _ => rewrite orb_false_iff, !Z.ltb_ge in Hx end.
    apply bool_decide_eq_false, dec_stable in Hv. tauto.
  - intros (H1 & H2 & H3 & H4 & H5). rewrite H1, H5.
    cbn [raise_when mbind result_bind].
    rewrite !bool_decide_false by (intros Hn; by apply Hn). cbn [raise_when mbind result_bind].
    by rewrite !(proj2 (Z.ltb_ge _ _)) by done.
Qed.


Lemma used_nonneg s key : ownership_ok s → 0 ≤ used_of key s.
Proof.
  intros Hs. rewrite (oo_used s Hs). apply sum_by_nonneg. intros x _. case_bool_decide; lia.
Qed.


Lemma consume_exact t r id m s :
  str_true id = true → 0 ≤ used_of (t, r) s < m →
  (∀ m', _retry_maximum s !! (t, r) = Some m' → m' = m) →
  _retry_ids s !! (t, r, id) = None →
  ∃ b s', consume_retry t r id "hub_task" m s = (Ok b, s') ∧ _current s' = _current s ∧
    used_of (t, r) s' = used_of (t, r) s + 1.
Proof.
  intros Hid Hu Hm Hnew. unfold consume_retry.
  rewrite run_guard.
  2:{ rewrite (proj2 (Z.ltb_ge _ _)), Hid by lia. reflexivity. }
  rewrite run_get, run_guard.
  2:{ destruct (_retry_maximum s !! (t, r)) as [m'|]; [|done].
      by rewrite (Hm m'), Z.eqb_refl. }
  rewrite Hnew, run_guard by (apply Z.leb_gt; unfold used_of in Hu; lia).
  do 2 eexists. split; [reflexivity|]. split; [done|].
  unfold used_of. cbn. by rewrite lookup_insert_eq.
Qed.


(** A claim without an owner on a step that could be recovered raises only
    after its retry was charged: the run's budget shrinks although no attempt
    was given out. *)
Theorem claim_spends_then_raises s t w r st l m u now c :
  reachable_ownership s → float_leb l (S754_zero false) = false →
  _current s !! (t, r, st) = Some c → ow_workflow_id c = w → unavailable c now = false →
  used_of (t, r) s < m → (∀ m', _retry_maximum s !! (t, r) = Some m' → m' = m) →
  _retry_ids s !! (t, r, "att-" +:+ u) = None →
  ∃ s', claim t w r st "" l m u now s =
    (Err (ValueError "execution_ownership_binding_required"), s') ∧
  used_of (t, r) s' = used_of (t, r) s + 1 ∧ _current s' = _current s.
Proof.
  intros Hs%reachable_ownership_ok Hl Hc Hw Hun Hu Hm Hid.
  unfold unavailable in Hun. apply orb_false_iff in Hun as [Hst Hlive].
  unfold claim. rewrite (run_lift _ tt) by (unfold _validate_lease; by rewrite Hl).
  rewrite run_get, Hc, run_guard by (apply bool_decide_eq_false; intros Hn; by apply Hn).
  rewrite Hst, Hlive. cbn beta iota zeta.
  assert (str_true ("att-" +:+ u) = true) as Hatt by done.
  destruct (consume_exact t r ("att-" +:+ u) m s Hatt (conj (used_nonneg s (t, r) Hs) Hu) Hm Hid)
    as (b & s1 & Hrun & Hcur & Hused).
  rewrite run_assoc, (run_bind _ _ _ _ _ Hrun), (run_bind _ _ _ tt s1) by done.
  exists s1. split; [|done]. unfold mbind, action_bind, lift, ownership_assert_valid.
  cbn [ow_tenant_id ow_workflow_id ow_run_id ow_step_id ow_attempt_id ow_owner_id
    claimed_ownership existsb str_true].
  assert (existsb (λ v, negb (str_true v)) [t; w; r; st; "att-" +:+ u; ""] = true) as Hx
    by (cbn; by rewrite !orb_true_r).
  cbn in Hx |- *. by rewrite Hx.
Qed.

(** *** The persisted form *)

(** A valid lease is read back from its mapping exactly, except that a
    negative zero time stamp becomes zero. *)
Theorem ownership_roundtrip o :
  ownership_assert_valid o = Ok tt → ow_lease_expires_at o ≠ S754_zero true →
  ow_last_heartbeat_at o ≠ S754_zero true →
  ownership_from_mapping (ownership_to_dict o) = Ok o.
Proof.
  intros Hv Hl Hh. pose proof Hv as Hinv. apply ownership_valid_inv in Hinv as (_ & Hst & Hf & Hr & Hs).
  assert (∀ x, x ≠ S754_zero true → py_float (por (PFloat x) (PInt 0)) = Ok x) as Hfloat.
  { intros [[]| | |s0 m e] Hx; [by destruct Hx|vm_compute; reflexivity|reflexivity..]. }
  assert (∀ n, 1 ≤ n → py_int (por (PInt n) (PInt 0)) = Ok n) as Hint.
  { intros n Hn. unfold por, truthy. by rewrite (proj2 (Z.eqb_neq n 0)) by lia. }
  assert (∀ x, str_or_default (PStr x) "" = x) as Htext by by intros [].
  assert (str_or_default (PStr (ow_schema o)) EXECUTION_OWNERSHIP_SCHEMA = ow_schema o) as Hschema
    by by rewrite Hs.
  assert (∀ k v, (k, v) ∈ ownership_to_dict o → dget k (ownership_to_dict o) = v) as Hget.
  { intros k v Hin. unfold dget. rewrite (dict_get_NoDup k v); [done| |done].
    apply (bool_decide_unpack _). reflexivity. }
  unfold ownership_from_mapping.
  repeat match goal with |- context [dget ?k (ownership_to_dict o)] =>
    erewrite (Hget k) by (unfold ownership_to_dict; repeat (first [left; reflexivity|right])) end.
  rewrite (Hint _ Hf), (Hint _ Hr), (Hfloat _ Hl), (Hfloat _ Hh).
  cbn [mbind result_bind]. rewrite !Htext, Hschema.
  assert (∀ (x : ExecutionOwnership), x = o → (ownership_assert_valid x ;; Ok x) = Ok o) as Hx
    by (intros x ->; by rewrite Hv).
  apply Hx. by destruct o.
Qed.

(** ** Examples *)

Definition sample_claim (owner uuid : string) (now : float) : ownership_op :=
  OpClaim "t" "w" "r" "s" owner (lit 30 0) 2 uuid now.

Definition sample_values (attempt owner : string) (fence revision : Z) : owner_values :=
  {| ov_tenant_id := "t"; ov_run_id := "r"; ov_step_id := "s"; ov_attempt_id := attempt;
     ov_owner_id := owner; ov_fencing_token := fence; ov_expected_revision := revision |}.

(** A worker took the step and failed. *)
Definition failed_store : ExecutionOwnershipStore :=
  run_all_calls run_ownership
    [sample_claim "o1" "1" (lit 1 0);
     OpFailAttempt (sample_values "att-1" "o1" 1 1) "boom" false (lit 2 0)] empty_ownership_store.

Lemma failed_reachable : reachable_ownership failed_store.
Proof. apply (reachable_foldl run_ownership). Qed.

Definition sample_key : string * string * string := ("t", "r", "s").

Definition failed_lease : ExecutionOwnership :=
  updated_ownership
    (claimed_ownership "t" "w" "r" "s" "o1" "att-1" None (lit 30 0) (lit 1 0))
    "failed" (lit 2 0) (lit 1 0) "" "boom".

Lemma failed_current : _current failed_store !! sample_key = Some failed_lease.
Proof. vm_compute. reflexivity. Qed.

Example histories_exact_witness :
  last (history_of sample_key failed_store) = Some failed_lease ∧
  ∀ i o, history_of sample_key failed_store !! i = Some o → ow_revision o = Z.of_nat i + 1.
Proof.
  destruct (histories_exact failed_store sample_key failed_reachable) as (H1 & H2 & _).
  split; [|exact H2]. rewrite H1. exact failed_current.
Defined.


Example claim_spends_then_raises_witness :
  ∃ s', claim "t" "w" "r" "s" "" (lit 30 0) 2 "2" (lit 3 0) failed_store =
    (Err (ValueError "execution_ownership_binding_required"), s') ∧ used_of ("t", "r") s' = 1.
Proof.
  destruct (claim_spends_then_raises failed_store "t" "w" "r" "s" (lit 30 0) 2 "2" (lit 3 0)
    failed_lease failed_reachable) as (s' & Hrun & Hused & _).
  - vm_compute. reflexivity.
  - exact failed_current.
  - reflexivity.
  - vm_compute. reflexivity.
  - vm_compute. reflexivity.
  - intros m Hm. vm_compute in Hm. discriminate Hm.
  - vm_compute. reflexivity.
  - exists s'. split; [exact Hrun|]. rewrite Hused. vm_compute. reflexivity.
Defined.

Example ownership_roundtrip_witness :
  ownership_from_mapping (ownership_to_dict failed_lease) = Ok failed_lease.
Proof.
  apply (ownership_roundtrip failed_lease).
  - vm_compute. reflexivity.
  - vm_compute. discriminate.
  - vm_compute. discriminate.
Defined.
