(* ===== verification/OwnershipReservation.v ===== *)
(** * Reservations of transition effects (workflow_runtime/ownership.py)

    The atomic takeover of a step for one declared effect of a transition:
    deterministic intents, append-only receipts, the observation a commit is
    conditioned on, the historical evidence a replay is answered from, and the
    commit of InMemoryExecutionOwnershipStore.  Records that are already parsed
    pass through [from_exact_mapping] as a check of their fields. *)
From S2P Require Import Prelude PyStr PyVal Digest Serialization Identity SchemaEvolution Plan Events Ownership.

Definition RESERVATION_INTENT_SCHEMA : string :=
  "ananta.workflow_transition_ownership_reservation_intent.v1".
Definition RESERVATION_RECEIPT_SCHEMA : string :=
  "ananta.workflow_transition_ownership_reservation_receipt.v1".
Definition RESERVATION_OBSERVATION_SCHEMA : string :=
  "ananta.workflow_transition_ownership_reservation_observation.v1".
Definition _OWNERSHIP_MAX_COUNTER : Z := 2 ^ 63 - 1.
Definition _OWNERSHIP_MAX_LEGACY_REVISION : Z := 2147483647.
Definition _OWNERSHIP_MAX_RETRIES : Z := 2147483647.
Definition _OWNERSHIP_RETRY_CATEGORY : string := "hub_task".

Definition conflict (reason : string) : exn :=
  ReservationConflict ("workflow_transition_ownership_" +:+ reason).

(** ** Data *)

Record ReservationIntent := {
  ri_receipt_id : string;
  ri_transition_id : string;
  ri_effect_id : string;
  ri_runtime_id : string;
  ri_tenant_id : string;
  ri_workflow_id : string;
  ri_run_id : string;
  ri_step_id : string;
  ri_effect_ordinal : Z;
  ri_intent_digest : string;
  ri_owner_id : string;
  ri_fence_id : string;
  ri_attempt_id : string;
  ri_retry_id : string;
  ri_request_fingerprint : string;
  ri_effect_payload_digest : string;
  ri_idempotency_key : string;
  ri_lease_seconds : float;
  ri_maximum_retries : Z;
  ri_planned_at : float;
  ri_schema : string;
}.

Record RetryConsumption := {
  cs_tenant_id : string;
  cs_run_id : string;
  cs_retry_id : string;
  cs_category : string;
}.

Record ReservationReceipt := {
  rr_intent : ReservationIntent;
  rr_generation : Z;
  rr_prior : option ExecutionOwnership;
  rr_prior_digest : string;
  rr_acquired : ExecutionOwnership;
  rr_acquired_digest : string;
  rr_consumption : option RetryConsumption;
  rr_used_before : Z;
  rr_used_after : Z;
  rr_reserved_at : float;
  rr_digest : string;
  rr_schema : string;
}.

#[global] Instance ownership_eq_dec : EqDecision ExecutionOwnership.
Proof. solve_decision. Defined.
#[global] Instance reservation_intent_eq_dec : EqDecision ReservationIntent.
Proof. solve_decision. Defined.
#[global] Instance consumption_eq_dec : EqDecision RetryConsumption.
Proof. solve_decision. Defined.
#[global] Instance reservation_receipt_eq_dec : EqDecision ReservationReceipt.
Proof. solve_decision. Defined.

Record ReservationObservation := {
  ro_intent : ReservationIntent;
  ro_generation : Z;
  ro_current : option ExecutionOwnership;
  ro_current_history : option ExecutionOwnership;
  ro_acquired_history : option ExecutionOwnership;
  ro_consumption : option RetryConsumption;
  ro_budget : RetryBudgetSnapshot;
  ro_receipt : option ReservationReceipt;
  ro_alias_digests : list string;
  ro_digest : string;
  ro_schema : string;
}.

Record ReservationEvidence := {
  re_intent : ReservationIntent;
  re_receipt : option ReservationReceipt;
  re_prior_history : option ExecutionOwnership;
  re_acquired_history : option ExecutionOwnership;
  re_consumption : option RetryConsumption;
  re_alias_digests : list string;
}.

Definition reservation_intent_to_dict (i : ReservationIntent) : dict :=
  [("schema", PStr (ri_schema i)); ("receipt_id", PStr (ri_receipt_id i));
   ("transition_id", PStr (ri_transition_id i)); ("effect_id", PStr (ri_effect_id i));
   ("runtime_id", PStr (ri_runtime_id i)); ("tenant_id", PStr (ri_tenant_id i));
   ("workflow_id", PStr (ri_workflow_id i)); ("run_id", PStr (ri_run_id i));
   ("step_id", PStr (ri_step_id i)); ("effect_ordinal", PInt (ri_effect_ordinal i));
   ("ownership_intent_digest", PStr (ri_intent_digest i)); ("owner_id", PStr (ri_owner_id i));
   ("operation_fence_id", PStr (ri_fence_id i)); ("attempt_id", PStr (ri_attempt_id i));
   ("retry_id", PStr (ri_retry_id i));
   ("transition_request_fingerprint", PStr (ri_request_fingerprint i));
   ("effect_payload_digest", PStr (ri_effect_payload_digest i));
   ("idempotency_key", PStr (ri_idempotency_key i));
   ("lease_seconds", PFloat (ri_lease_seconds i));
   ("maximum_retries", PInt (ri_maximum_retries i)); ("planned_at", PFloat (ri_planned_at i))].

Definition consumption_to_dict (c : RetryConsumption) : dict :=
  [("tenant_id", PStr (cs_tenant_id c)); ("run_id", PStr (cs_run_id c));
   ("retry_id", PStr (cs_retry_id c)); ("category", PStr (cs_category c))].

Definition dict_or_none {A} (f : A → dict) (x : option A) : pyval :=
  match x with Some x => PDict (f x) | None => PNone end.

(** The values of a receipt without its own digest. *)
Definition receipt_values (r : ReservationReceipt) : dict :=
  [("schema", PStr (rr_schema r)); ("intent", PDict (reservation_intent_to_dict (rr_intent r)));
   ("creator_claim_generation", PInt (rr_generation r));
   ("prior_ownership", dict_or_none ownership_to_dict (rr_prior r));
   ("prior_record_digest", PStr (rr_prior_digest r));
   ("acquired_ownership", PDict (ownership_to_dict (rr_acquired r)));
   ("acquired_record_digest", PStr (rr_acquired_digest r));
   ("retry_consumption", dict_or_none consumption_to_dict (rr_consumption r));
   ("retry_budget_used_before", PInt (rr_used_before r));
   ("retry_budget_used_after", PInt (rr_used_after r));
   ("reserved_at", PFloat (rr_reserved_at r))].

Definition reservation_receipt_to_dict (r : ReservationReceipt) : dict :=
  receipt_values r ++ [("receipt_digest", PStr (rr_digest r))].

(** ** Field checks *)

Definition _ownership_identity (value reason : string) : result unit :=
  raise_when (negb (identity_re value)) (conflict (reason +:+ "_invalid")).

Definition _ownership_sha256 (value reason : string) : result unit :=
  raise_when (negb (sha256_re value)) (conflict (reason +:+ "_invalid")).

Definition _ownership_positive_integer (value : Z) (reason : string) : result unit :=
  raise_when ((value <? 1) || (_OWNERSHIP_MAX_COUNTER <? value)) (conflict (reason +:+ "_invalid")).

Definition _ownership_positive_legacy_counter (value : Z) (reason : string) : result unit :=
  _ownership_positive_integer value reason ;;
  raise_when (_OWNERSHIP_MAX_LEGACY_REVISION <? value) (conflict (reason +:+ "_invalid")).

Definition _ownership_non_negative_integer (value : Z) (reason : string) : result unit :=
  raise_when ((value <? 0) || (_OWNERSHIP_MAX_COUNTER <? value)) (conflict (reason +:+ "_invalid")).

Definition _ownership_retry_maximum (value : Z) : result unit :=
  _ownership_non_negative_integer value "maximum_retries" ;;
  raise_when (_OWNERSHIP_MAX_RETRIES <? value) (conflict "maximum_retries_invalid").

Definition _ownership_exact_positive_float (value : float) (reason : string) : result unit :=
  raise_when (negb (is_finite value) || float_leb value (S754_zero false))
    (conflict (reason +:+ "_invalid")).

Definition _ownership_finite_timestamp (value : float) (reason : string) : result unit :=
  _ownership_exact_positive_float value reason.

Definition _ownership_legacy_text (value reason : string) : result unit :=
  raise_when (negb (str_true value)) (conflict (reason +:+ "_invalid")).

(** [ExecutionOwnership.from_exact_mapping(value.to_dict())]: the checks of a
    record whose fields already have their types. *)
Definition ownership_assert_exact (o : ExecutionOwnership) : result unit :=
  for_each (λ vr, _ownership_legacy_text vr.1 vr.2)
    [(ow_tenant_id o, "tenant_id"); (ow_workflow_id o, "workflow_id"); (ow_run_id o, "run_id");
     (ow_step_id o, "step_id"); (ow_attempt_id o, "attempt_id"); (ow_owner_id o, "owner_id")] ;;
  _ownership_positive_legacy_counter (ow_fencing_token o) "fencing_token" ;;
  _ownership_positive_legacy_counter (ow_revision o) "revision" ;;
  raise_when (bool_decide (ow_status o ∉ OWNERSHIP_STATUSES)) (conflict "status_invalid") ;;
  _ownership_finite_timestamp (ow_lease_expires_at o) "lease_expires_at" ;;
  _ownership_finite_timestamp (ow_last_heartbeat_at o) "last_heartbeat_at" ;;
  raise_when (bool_decide (ow_schema o ≠ EXECUTION_OWNERSHIP_SCHEMA))
    (conflict "schema_unsupported") ;;
  raise_when (bool_decide (ow_status o = "active")
              && (str_true (ow_result_ack_key o) || str_true (ow_failure_code o)))
    (ValueError "execution_ownership_active_terminal_fields_invalid") ;;
  raise_when (bool_decide (ow_status o = "completed")
              && (negb (str_true (ow_result_ack_key o)) || str_true (ow_failure_code o)))
    (ValueError "execution_ownership_completion_fields_invalid") ;;
  raise_when (bool_decide (ow_status o ∈ ["failed"; "orphaned"; "dead_letter"])
              && (negb (str_true (ow_failure_code o)) || str_true (ow_result_ack_key o)))
    (ValueError "execution_ownership_failure_fields_invalid").

(** [_exact_optional_ownership] *)
Definition exact_optional (o : option ExecutionOwnership) : result unit :=
  match o with Some o => ownership_assert_exact o | None => Ok tt end.

(** [WorkflowTransitionOwnershipRetryConsumption.__post_init__] *)
Definition consumption_post_init (c : RetryConsumption) : result unit :=
  _ownership_identity (cs_tenant_id c) "retry_tenant_id" ;;
  _ownership_identity (cs_run_id c) "retry_run_id" ;;
  _ownership_identity (cs_retry_id c) "retry_id" ;;
  raise_when (bool_decide (cs_category c ≠ _OWNERSHIP_RETRY_CATEGORY))
    (conflict "retry_category_invalid").

Section with_digest.
Context `{Digest}.

Definition _ownership_namespaced_digest (value : dict) (namespace : string) : result string :=
  text ← canonical_json (PDict value);
  Ok (hexdigest (utf8 (namespace +:+ str1 "010"%char +:+ text))).

Definition _ownership_opaque_id (prefix : string) (parts : list string) : result string :=
  payload ← canonical_json (PDict [("namespace", PStr prefix); ("parts", PList (map PStr parts))]);
  Ok (prefix +:+ "-" +:+ hexdigest (utf8 payload)).

(** [workflow_transition_ownership_intent_digest] *)
Definition ownership_intent_digest (transition_id runtime_id tenant_id workflow_id run_id
    step_id : string) (effect_ordinal : Z) (lease_seconds : float) (maximum_retries : Z)
  : result string :=
  for_each (λ vr, _ownership_identity vr.1 vr.2)
  [(transition_id, "transition_id"); (runtime_id, "runtime_id"); (tenant_id, "tenant_id");
    (workflow_id, "workflow_id"); (run_id, "run_id"); (step_id, "step_id")] ;;
  _ownership_positive_integer effect_ordinal "effect_ordinal" ;;
  _ownership_exact_positive_float lease_seconds "lease_seconds" ;;
  _ownership_retry_maximum maximum_retries ;;
  _ownership_namespaced_digest
  [("transition_id", PStr transition_id); ("runtime_id", PStr runtime_id);
    ("tenant_id", PStr tenant_id); ("workflow_id", PStr workflow_id); ("run_id", PStr run_id);
    ("step_id", PStr step_id); ("effect_ordinal", PInt effect_ordinal);
    ("lease_seconds", PFloat lease_seconds); ("maximum_retries", PInt maximum_retries)]
  "workflow-transition-ownership-reservation-intent".

(** [workflow_transition_ownership_owner_id] *)
Definition ownership_owner_id (digest : string) : result string :=
  _ownership_sha256 digest "ownership_intent_digest" ;;
  _ownership_opaque_id "wfto" [digest].

(** [workflow_transition_ownership_operation_fence_id] *)
Definition ownership_fence_id (digest owner_id : string) : result string :=
  _ownership_sha256 digest "ownership_intent_digest" ;;
  _ownership_identity owner_id "owner_id" ;;
  _ownership_opaque_id "wftof" [digest; owner_id].

(** [workflow_transition_ownership_attempt_id] *)
Definition ownership_attempt_id (effect_id operation_fence_id : string) : result string :=
  _ownership_identity effect_id "effect_id" ;;
  _ownership_identity operation_fence_id "operation_fence_id" ;;
  _ownership_opaque_id "wfta" [effect_id; operation_fence_id].

(** [workflow_transition_ownership_receipt_id] *)
Definition ownership_receipt_id (transition_id effect_id : string) : result string :=
  _ownership_identity transition_id "transition_id" ;;
  _ownership_identity effect_id "effect_id" ;;
  _ownership_opaque_id "wftor" [transition_id; effect_id].

(** [workflow_transition_ownership_record_digest] *)
Definition ownership_record_digest (o : option ExecutionOwnership) : result string :=
  _ownership_namespaced_digest
  match o with Some o => ownership_to_dict o | None => [("absent", PBool true)] end
  "workflow-transition-ownership-record".

(** [workflow_transition_ownership_receipt_digest] *)
Definition ownership_receipt_digest (r : ReservationReceipt) : result string :=
  _ownership_namespaced_digest (dict_del "receipt_digest" (reservation_receipt_to_dict r))
  "workflow-transition-ownership-reservation-receipt".

(** [WorkflowTransitionOwnershipReservationIntent.__post_init__] *)
Definition intent_post_init (i : ReservationIntent) : result unit :=
  for_each (λ vr, _ownership_identity vr.1 vr.2)
  [(ri_receipt_id i, "receipt_id"); (ri_transition_id i, "transition_id");
    (ri_effect_id i, "effect_id"); (ri_runtime_id i, "runtime_id");
    (ri_tenant_id i, "tenant_id"); (ri_workflow_id i, "workflow_id"); (ri_run_id i, "run_id");
    (ri_step_id i, "step_id"); (ri_owner_id i, "owner_id"); (ri_fence_id i, "operation_fence_id");
    (ri_attempt_id i, "attempt_id"); (ri_retry_id i, "retry_id")] ;;
  _ownership_positive_integer (ri_effect_ordinal i) "effect_ordinal" ;;
  for_each (λ vr, _ownership_sha256 vr.1 vr.2)
  [(ri_intent_digest i, "ownership_intent_digest");
    (ri_request_fingerprint i, "transition_request_fingerprint");
    (ri_effect_payload_digest i, "effect_payload_digest")] ;;
  raise_when (bool_decide (ri_idempotency_key i ≠ ri_fence_id i)
  || bool_decide (ri_retry_id i ≠ ri_fence_id i))
  (conflict "idempotency_binding_invalid") ;;
  _ownership_exact_positive_float (ri_lease_seconds i) "lease_seconds" ;;
  _ownership_retry_maximum (ri_maximum_retries i) ;;
  _ownership_exact_positive_float (ri_planned_at i) "planned_at" ;;
  let lease_expiry := float_add (ri_planned_at i) (ri_lease_seconds i) in
  raise_when (negb (is_finite lease_expiry) || float_leb lease_expiry (ri_planned_at i))
  (conflict "lease_expiry_invalid") ;;
  raise_when (bool_decide (ri_schema i ≠ RESERVATION_INTENT_SCHEMA))
  (conflict "intent_schema_unsupported") ;;
  digest ← ownership_intent_digest (ri_transition_id i) (ri_runtime_id i) (ri_tenant_id i)
  (ri_workflow_id i) (ri_run_id i) (ri_step_id i) (ri_effect_ordinal i)
  (ri_lease_seconds i) (ri_maximum_retries i);
  owner ← ownership_owner_id digest;
  fence ← ownership_fence_id digest owner;
  attempt ← ownership_attempt_id (ri_effect_id i) fence;
  receipt ← ownership_receipt_id (ri_transition_id i) (ri_effect_id i);
  raise_when (bool_decide (ri_intent_digest i ≠ digest) || bool_decide (ri_owner_id i ≠ owner)
  || bool_decide (ri_fence_id i ≠ fence) || bool_decide (ri_attempt_id i ≠ attempt)
  || bool_decide (ri_retry_id i ≠ fence) || bool_decide (ri_receipt_id i ≠ receipt))
  (conflict "intent_binding_invalid").
End with_digest.

(** ** Receipts *)

(** A record of the step the intent asks for. *)
Definition intent_binds (i : ReservationIntent) (o : ExecutionOwnership) : bool :=
  bool_decide (ow_tenant_id o = ri_tenant_id i) && bool_decide (ow_workflow_id o = ri_workflow_id i)
  && bool_decide (ow_run_id o = ri_run_id i) && bool_decide (ow_step_id o = ri_step_id i).

(** A step that may be taken over at [now]. *)
Definition takeover_ok (prior : ExecutionOwnership) (now : float) : bool :=
  bool_decide (ow_status prior ∈ ["active"; "failed"; "orphaned"; "dead_letter"])
  && negb (live prior now).

Definition next_counter (f : ExecutionOwnership → Z) (prior : option ExecutionOwnership) : Z :=
  match prior with Some p => f p + 1 | None => 1 end.

Definition acquisition_invalid (r : ReservationReceipt) : bool :=
  let i := rr_intent r in
  let a := rr_acquired r in
  let reserved := rr_reserved_at r in
  negb (intent_binds i a)
  || bool_decide (ow_attempt_id a ≠ ri_attempt_id i) || bool_decide (ow_owner_id a ≠ ri_owner_id i)
  || bool_decide (ow_status a ≠ "active")
  || negb (ow_revision a =? next_counter ow_revision (rr_prior r))
  || negb (ow_fencing_token a =? next_counter ow_fencing_token (rr_prior r))
  || negb (float_eqb (ow_last_heartbeat_at a) reserved)
  || negb (float_eqb (ow_lease_expires_at a) (float_add reserved (ri_lease_seconds i)))
  || float_leb (ow_lease_expires_at a) reserved
  || str_true (ow_result_ack_key a) || str_true (ow_failure_code a)
  || float_ltb reserved (ri_planned_at i).

Definition retry_invalid (r : ReservationReceipt) : result unit :=
  let i := rr_intent r in
  match rr_prior r with
  | None =>
      raise_when (bool_decide (rr_consumption r ≠ None)
                  || negb (rr_used_before r =? rr_used_after r)) (conflict "initial_retry_invalid")
  | Some _ =>
      raise_when (match rr_consumption r with
        | None => true
        | Some c =>
            bool_decide (cs_tenant_id c ≠ ri_tenant_id i) || bool_decide (cs_run_id c ≠ ri_run_id i)
            || bool_decide (cs_retry_id c ≠ ri_retry_id i)
            || bool_decide (cs_category c ≠ _OWNERSHIP_RETRY_CATEGORY)
            || negb (rr_used_after r =? rr_used_before r + 1)
            || (ri_maximum_retries i <? rr_used_after r)
        end) (conflict "recovery_retry_invalid")
  end.

Section with_digest.
Context `{Digest}.

(** [WorkflowTransitionOwnershipReservationReceipt.__post_init__] *)
Definition receipt_post_init (r : ReservationReceipt) : result unit :=
  let i := rr_intent r in
  _ownership_positive_integer (rr_generation r) "creator_claim_generation" ;;
  exact_optional (rr_prior r) ;;
  ownership_assert_exact (rr_acquired r) ;;
  _ownership_non_negative_integer (rr_used_before r) "retry_budget_used_before" ;;
  _ownership_non_negative_integer (rr_used_after r) "retry_budget_used_after" ;;
  raise_when ((rr_used_after r <? rr_used_before r) || (ri_maximum_retries i <? rr_used_after r))
  (conflict "receipt_retry_budget_invalid") ;;
  _ownership_exact_positive_float (rr_reserved_at r) "reserved_at" ;;
  _ownership_sha256 (rr_prior_digest r) "prior_record_digest" ;;
  _ownership_sha256 (rr_acquired_digest r) "acquired_record_digest" ;;
  _ownership_sha256 (rr_digest r) "receipt_digest" ;;
  raise_when (bool_decide (rr_schema r ≠ RESERVATION_RECEIPT_SCHEMA))
  (conflict "receipt_schema_unsupported") ;;
  prior_digest ← ownership_record_digest (rr_prior r);
  raise_when (bool_decide (rr_prior_digest r ≠ prior_digest)) (conflict "prior_digest_mismatch") ;;
  acquired_digest ← ownership_record_digest (Some (rr_acquired r));
  raise_when (bool_decide (rr_acquired_digest r ≠ acquired_digest))
  (conflict "acquired_digest_mismatch") ;;
  raise_when (match rr_prior r with Some p => negb (intent_binds i p) | None => false end)
  (conflict "prior_binding_invalid") ;;
  raise_when (match rr_prior r with
    | Some p => negb (takeover_ok p (rr_reserved_at r)) | None => false end)
  (conflict "prior_takeover_invalid") ;;
  raise_when (acquisition_invalid r) (conflict "acquisition_invalid") ;;
  retry_invalid r ;;
  digest ← ownership_receipt_digest r;
  raise_when (bool_decide (digest ≠ rr_digest r)) (conflict "receipt_digest_mismatch").

(** [WorkflowTransitionOwnershipReservationReceipt.build] *)
Definition build_receipt (i : ReservationIntent) (generation : Z)
  (prior : option ExecutionOwnership) (acquired : ExecutionOwnership)
  (consumption : option RetryConsumption) (before after : Z) (reserved_at : float)
  : result ReservationReceipt :=
  prior_digest ← ownership_record_digest prior;
  acquired_digest ← ownership_record_digest (Some acquired);
  let r digest := {| rr_intent := i; rr_generation := generation; rr_prior := prior;
    rr_prior_digest := prior_digest; rr_acquired := acquired;
    rr_acquired_digest := acquired_digest; rr_consumption := consumption;
    rr_used_before := before; rr_used_after := after; rr_reserved_at := reserved_at;
    rr_digest := digest; rr_schema := RESERVATION_RECEIPT_SCHEMA |} in
  digest ← _ownership_namespaced_digest (receipt_values (r ""))
  "workflow-transition-ownership-reservation-receipt";
  receipt_post_init (r digest) ;;
  Ok (r digest).
End with_digest.

(** ** Relevant receipts *)

Definition acquired_revision (r : ReservationReceipt) : Z := ow_revision (rr_acquired r).
Definition acquired_fencing_token (r : ReservationReceipt) : Z := ow_fencing_token (rr_acquired r).

Definition candidate_alias (i : ReservationIntent) (r : ReservationReceipt) : bool :=
  let j := rr_intent r in
  bool_decide (ri_receipt_id j = ri_receipt_id i) || bool_decide (ri_effect_id j = ri_effect_id i)
  || bool_decide (ri_fence_id j = ri_fence_id i) || bool_decide (ri_attempt_id j = ri_attempt_id i).

Definition current_alias (current : option ExecutionOwnership) (r : ReservationReceipt) : bool :=
  match current with
  | None => false
  | Some c =>
      let j := rr_intent r in
      bool_decide (ri_attempt_id j = ow_attempt_id c)
      || (bool_decide (ri_tenant_id j = ow_tenant_id c) && bool_decide (ri_run_id j = ow_run_id c)
          && bool_decide (ri_step_id j = ow_step_id c)
          && ((acquired_revision r =? ow_revision c)
              || (acquired_fencing_token r =? ow_fencing_token c)))
  end.

Definition same_scope (i : ReservationIntent) (r : ReservationReceipt) : bool :=
  let j := rr_intent r in
  bool_decide (ri_tenant_id j = ri_tenant_id i) && bool_decide (ri_run_id j = ri_run_id i)
  && bool_decide (ri_step_id j = ri_step_id i).

Definition prospective_alias (i : ReservationIntent) (current : option ExecutionOwnership)
    (include_prospective : bool) (r : ReservationReceipt) : bool :=
  include_prospective && same_scope i r &&
  match current with
  | None => true
  | Some c =>
      let available := (ow_revision c <? _OWNERSHIP_MAX_LEGACY_REVISION)
                       && (ow_fencing_token c <? _OWNERSHIP_MAX_LEGACY_REVISION) in
      available && ((ow_revision c + 1 <=? acquired_revision r)
                    || (ow_fencing_token c + 1 <=? acquired_fencing_token r))
  end.

(** Python compares the identifiers and digests of the receipts. *)
Definition receipt_key_leb (x y : ReservationReceipt) : bool :=
  let a := ri_receipt_id (rr_intent x) in
  let b := ri_receipt_id (rr_intent y) in
  if bool_decide (a = b) then str_leb (rr_digest x) (rr_digest y) else str_leb a b.

(** [_transition_ownership_relevant_receipts] *)
Definition relevant_receipts (i : ReservationIntent) (current : option ExecutionOwnership)
    (receipts : list ReservationReceipt) (include_prospective : bool)
    : result (list ReservationReceipt) :=
  let relevant := filter (λ r, candidate_alias i r || current_alias current r
                               || prospective_alias i current include_prospective r = true) receipts in
  raise_when (16 <? Z.of_nat (length relevant)) (conflict "receipt_alias_limit") ;;
  Ok (sort_by receipt_key_leb relevant).

(** [{receipt.receipt_digest: receipt for receipt in candidates}] *)
Definition by_digest (l : list ReservationReceipt) : list (string * ReservationReceipt) :=
  foldl (λ d r, alist_set (rr_digest r) r d) [] l.

(** ** Observations *)

(** [sorted({value.receipt_digest for value in relevant})] *)
Definition alias_digests (l : list ReservationReceipt) : list string :=
  sorted_set (map rr_digest l).

Definition budget_conflict (i : ReservationIntent) (b : RetryBudgetSnapshot) : bool :=
  bool_decide (rb_tenant_id b ≠ ri_tenant_id i) || bool_decide (rb_run_id b ≠ ri_run_id i)
  || negb (rb_maximum b =? ri_maximum_retries i)
  || (rb_used b <? 0) || (rb_maximum b <? rb_used b).

Section with_digest.
Context `{Digest}.

(** [_ownership_observation_digest] *)
Definition observation_digest (o : ReservationObservation) : result string :=
  _ownership_namespaced_digest
  [("intent", PDict (reservation_intent_to_dict (ro_intent o)));
    ("claim_generation", PInt (ro_generation o));
    ("current", dict_or_none ownership_to_dict (ro_current o));
    ("current_history", dict_or_none ownership_to_dict (ro_current_history o));
    ("acquired_history", dict_or_none ownership_to_dict (ro_acquired_history o));
    ("retry_consumption", dict_or_none consumption_to_dict (ro_consumption o));
    ("retry_budget", PDict
      [("tenant_id", PStr (rb_tenant_id (ro_budget o))); ("run_id", PStr (rb_run_id (ro_budget o)));
        ("used", PInt (rb_used (ro_budget o))); ("maximum", PInt (rb_maximum (ro_budget o)))]);
    ("receipt", dict_or_none reservation_receipt_to_dict (ro_receipt o));
    ("receipt_alias_digests", PList (map PStr (ro_alias_digests o)))]
  "workflow-transition-ownership-reservation-observation".

(** [WorkflowTransitionOwnershipReservationObservation.__post_init__] *)
Definition observation_post_init (o : ReservationObservation) : result unit :=
  _ownership_positive_integer (ro_generation o) "claim_generation" ;;
  raise_when (bool_decide (ro_schema o ≠ RESERVATION_OBSERVATION_SCHEMA))
  (conflict "observation_schema_unsupported") ;;
  exact_optional (ro_current o) ;;
  exact_optional (ro_current_history o) ;;
  exact_optional (ro_acquired_history o) ;;
  raise_when (bool_decide (rb_schema (ro_budget o) ≠ RETRY_BUDGET_SCHEMA)
  || budget_conflict (ro_intent o) (ro_budget o))
  (conflict "observation_budget_invalid") ;;
  raise_when (match ro_receipt o with
    | Some r => bool_decide (rr_intent r ≠ ro_intent o) || (ro_generation o <? rr_generation r)
    | None => false end) (conflict "observation_receipt_invalid") ;;
  raise_when (bool_decide (ro_current o ≠ ro_current_history o))
  (conflict "observation_current_history_invalid") ;;
  match ro_receipt o with
  | None => raise_when (bool_decide (ro_acquired_history o ≠ None) || bool_decide (ro_consumption o ≠ None))
    (conflict "observation_partial")
  | Some r => raise_when (bool_decide (ro_acquired_history o ≠ Some (rr_acquired r))
    || bool_decide (ro_consumption o ≠ rr_consumption r))
    (conflict "observation_evidence_invalid")
  end ;;
  raise_when (bool_decide (ro_alias_digests o ≠ sorted_set (ro_alias_digests o)))
  (conflict "observation_alias_invalid") ;;
  for_each (λ v, _ownership_sha256 v "receipt_alias_digest") (ro_alias_digests o) ;;
  raise_when (match ro_receipt o with
    | None => bool_decide (ro_alias_digests o ≠ [])
    | Some r => bool_decide (rr_digest r ∉ ro_alias_digests o) end)
  (conflict "observation_alias_invalid") ;;
  _ownership_sha256 (ro_digest o) "observation_digest" ;;
  expected ← observation_digest o;
  raise_when (bool_decide (expected ≠ ro_digest o)) (conflict "observation_digest_mismatch").

(** What a receipt of the intent, or its absence, requires of the history. *)
Definition acquired_evidence (i : ReservationIntent) (current : option ExecutionOwnership)
  (history : list ExecutionOwnership) (consumption : option RetryConsumption)
  (receipt : option ReservationReceipt) : result (option ExecutionOwnership) :=
  match receipt with
  | Some r =>
      let matches := filter (λ v, ow_revision v = acquired_revision r) history in
      raise_when (bool_decide (matches ≠ [rr_acquired r])) (conflict "acquired_history_conflict") ;;
      match rr_consumption r with
    | Some c => raise_when (bool_decide (consumption ≠ Some c)) (conflict "retry_consumption_conflict")
    | None => raise_when (bool_decide (consumption ≠ None)) (conflict "retry_consumption_unexpected")
    end ;;
    Ok (Some (rr_acquired r))
  | None =>
      let own v := bool_decide (ow_attempt_id v = ri_attempt_id i)
  || bool_decide (ow_owner_id v = ri_owner_id i) in
    raise_when (bool_decide (consumption ≠ None)) (conflict "retry_without_receipt") ;;
    raise_when (match current with Some c => own c | None => false end)
    (conflict "current_without_receipt") ;;
    raise_when (existsb own history) (conflict "history_without_receipt") ;;
    Ok None
  end.

(** [_transition_ownership_observation] *)
Definition reservation_observation (i : ReservationIntent) (generation : Z)
  (current : option ExecutionOwnership) (history : list ExecutionOwnership)
  (consumption : option RetryConsumption) (budget : RetryBudgetSnapshot)
  (receipts : list ReservationReceipt) : result ReservationObservation :=
  _ownership_positive_integer generation "claim_generation" ;;
  exact_optional current ;;
  for_each ownership_assert_exact history ;;
  raise_when (1000 <? Z.of_nat (length history)) (conflict "history_limit") ;;
  for_each (λ v, raise_when (negb (intent_binds i v)) (conflict "history_binding_conflict")) history ;;
  raise_when (match current with Some c => negb (intent_binds i c) | None => false end)
  (conflict "current_binding_conflict") ;;
  let current_matches := match current with
  | Some c => filter (λ v, ow_revision v = ow_revision c) history | None => [] end in
  raise_when (match current with Some c => bool_decide (current_matches ≠ [c]) | None => false end)
  (conflict "current_history_conflict") ;;
  raise_when (bool_decide (current = None) && bool_decide (history ≠ []))
  (conflict "orphan_history_conflict") ;;
  relevant ← relevant_receipts i current receipts true;
  let candidates := filter (λ r, candidate_alias i r = true) relevant in
  raise_when (existsb (λ r, bool_decide (rr_intent r ≠ i)) candidates)
  (conflict "receipt_alias_conflict") ;;
  let distinct := by_digest candidates in
  raise_when (1 <? Z.of_nat (length distinct)) (conflict "receipt_alias_conflict") ;;
  let receipt := snd <$> head distinct in
  raise_when (existsb (λ r, bool_decide (r ∉ candidates)) relevant)
  (conflict "prospective_receipt_conflict") ;;
  raise_when (match receipt with Some r => generation <? rr_generation r | None => false end)
  (conflict "receipt_generation_conflict") ;;
  raise_when (bool_decide (receipt = None) && existsb (current_alias current) relevant)
  (conflict "current_receipt_conflict") ;;
  acquired_history ← acquired_evidence i current history consumption receipt;
  raise_when (budget_conflict i budget) (conflict "retry_budget_conflict") ;;
  let o digest := {| ro_intent := i; ro_generation := generation; ro_current := current;
    ro_current_history := head current_matches; ro_acquired_history := acquired_history;
    ro_consumption := consumption; ro_budget := budget; ro_receipt := receipt;
    ro_alias_digests := alias_digests relevant; ro_digest := digest;
    ro_schema := RESERVATION_OBSERVATION_SCHEMA |} in
  digest ← observation_digest (o "");
  observation_post_init (o digest) ;;
  Ok (o digest).
End with_digest.

(** ** Historical evidence *)

(** [WorkflowTransitionOwnershipReservationEvidence.__post_init__] *)
Definition evidence_post_init (e : ReservationEvidence) : result unit :=
  exact_optional (re_prior_history e) ;;
  exact_optional (re_acquired_history e) ;;
  raise_when (bool_decide (re_alias_digests e ≠ sorted_set (re_alias_digests e)))
    (conflict "evidence_alias_conflict") ;;
  for_each (λ v, _ownership_sha256 v "receipt_alias_digest") (re_alias_digests e) ;;
  match re_receipt e with
  | None =>
      raise_when (bool_decide (re_prior_history e ≠ None) || bool_decide (re_acquired_history e ≠ None)
                  || bool_decide (re_consumption e ≠ None) || bool_decide (re_alias_digests e ≠ []))
        (conflict "evidence_partial")
  | Some r =>
      raise_when (bool_decide (rr_intent r ≠ re_intent e)) (conflict "evidence_intent_conflict") ;;
      raise_when (bool_decide (re_acquired_history e ≠ Some (rr_acquired r)))
        (conflict "evidence_history_conflict") ;;
      raise_when (bool_decide (re_consumption e ≠ rr_consumption r))
        (conflict "evidence_retry_conflict") ;;
      raise_when (bool_decide (re_prior_history e ≠ rr_prior r)) (conflict "evidence_prior_conflict") ;;
      raise_when (bool_decide (re_alias_digests e ≠ [rr_digest r])) (conflict "evidence_alias_conflict")
  end.

(** The records of an attempt's revision. *)
Definition record_of (o : ExecutionOwnership) (history : list ExecutionOwnership)
    : list ExecutionOwnership :=
  filter (λ v, ow_revision v = ow_revision o ∧ ow_attempt_id v = ow_attempt_id o) history.

(** [_transition_ownership_evidence] *)
Definition reservation_evidence (i : ReservationIntent) (history : list ExecutionOwnership)
    (consumption : option RetryConsumption) (receipts : list ReservationReceipt)
    : result ReservationEvidence :=
  let distinct := by_digest (filter (λ r, candidate_alias i r = true) receipts) in
  match distinct with
  | [] =>
      raise_when (existsb (λ v, bool_decide (ow_attempt_id v = ri_attempt_id i)) history
                  || bool_decide (consumption ≠ None)) (conflict "evidence_partial") ;;
      let e := {| re_intent := i; re_receipt := None; re_prior_history := None;
        re_acquired_history := None; re_consumption := None; re_alias_digests := [] |} in
      evidence_post_init e ;; Ok e
  | [(_, r)] =>
      raise_when (bool_decide (rr_intent r ≠ i)) (conflict "evidence_receipt_conflict") ;;
      for_each ownership_assert_exact history ;;
      let acquired := filter (λ v, ow_revision v = acquired_revision r
                                   ∧ ow_attempt_id v = ri_attempt_id (rr_intent r)) history in
      raise_when (bool_decide (acquired ≠ [rr_acquired r])) (conflict "evidence_history_conflict") ;;
      let prior := match rr_prior r with Some p => record_of p history | None => [] end in
      raise_when (match rr_prior r with Some p => bool_decide (prior ≠ [p]) | None => false end)
        (conflict "evidence_prior_conflict") ;;
      let e := {| re_intent := i; re_receipt := Some r; re_prior_history := head prior;
        re_acquired_history := Some (rr_acquired r); re_consumption := consumption;
        re_alias_digests := [rr_digest r] |} in
      evidence_post_init e ;; Ok e
  | _ => Err (conflict "evidence_receipt_conflict")
  end.

(** ** The values of a commit *)

Definition acquired_of (i : ReservationIntent) (current : option ExecutionOwnership) (now : float)
    : ExecutionOwnership :=
  claimed_ownership (ri_tenant_id i) (ri_workflow_id i) (ri_run_id i) (ri_step_id i)
    (ri_owner_id i) (ri_attempt_id i) current (ri_lease_seconds i) now.

(** A step the intent may take over now. *)
Definition takeover_checks (o : ReservationObservation) (now : float) : result unit :=
  match ro_current o with
  | None => Ok tt
  | Some c =>
      raise_when (bool_decide (ow_status c = "completed")) (conflict "completed_conflict") ;;
      raise_when (live c now) (ReservationHeld "workflow_transition_ownership_lease_held") ;;
      raise_when (bool_decide (ow_status c ∉ ["active"; "failed"; "orphaned"; "dead_letter"]))
        (conflict "takeover_invalid") ;;
      raise_when (bool_decide (ro_current_history o ≠ Some c)) (conflict "current_history_conflict") ;;
      raise_when ((_OWNERSHIP_MAX_LEGACY_REVISION <=? ow_revision c)
                  || (_OWNERSHIP_MAX_LEGACY_REVISION <=? ow_fencing_token c))
        (conflict "counter_exhausted")
  end.

Record reservation_values := {
  rv_acquired : ExecutionOwnership;
  rv_consumption : option RetryConsumption;
  rv_budget : RetryBudgetSnapshot;
  rv_receipt : ReservationReceipt;
}.

Section with_digest.
Context `{Digest}.

(** [_transition_ownership_reservation_values] *)
Definition values_of (o : ReservationObservation) (generation : Z) (expected : string)
  (reserved_at : float) : result reservation_values :=
  _ownership_positive_integer generation "creator_claim_generation" ;;
  _ownership_sha256 expected "expected_observation_digest" ;;
  _ownership_exact_positive_float reserved_at "reserved_at" ;;
  raise_when (negb (ro_generation o =? generation)) (conflict "observation_conflict") ;;
  match ro_receipt o with
  | Some r =>
      raise_when (generation <? rr_generation r) (conflict "receipt_generation_conflict") ;;
      Ok {| rv_acquired := rr_acquired r; rv_consumption := rr_consumption r;
        rv_budget := ro_budget o; rv_receipt := r |}
  | None =>
      let i := ro_intent o in
      raise_when (bool_decide (ro_digest o ≠ expected))
      (ReservationStale "workflow_transition_ownership_observation_stale") ;;
      raise_when (float_ltb reserved_at (ri_planned_at i)) (conflict "reserved_at_invalid") ;;
      takeover_checks o reserved_at ;;
      let before := rb_used (ro_budget o) in
      consumption ← match ro_current o with
    | None => Ok None
    | Some _ =>
        raise_when (ri_maximum_retries i <=? before) (conflict "retry_budget_exhausted") ;;
        let c := {| cs_tenant_id := ri_tenant_id i; cs_run_id := ri_run_id i;
          cs_retry_id := ri_retry_id i; cs_category := _OWNERSHIP_RETRY_CATEGORY |} in
        consumption_post_init c ;; Ok (Some c)
    end;
    let after := match ro_current o with Some _ => before + 1 | None => before end in
    let acquired := acquired_of i (ro_current o) reserved_at in
    raise_when (float_leb (ow_lease_expires_at acquired) reserved_at)
    (conflict "lease_expiry_invalid") ;;
    ownership_assert_exact acquired ;;
    receipt ← build_receipt i generation (ro_current o) acquired consumption before after reserved_at;
    Ok {| rv_acquired := acquired; rv_consumption := consumption;
      rv_budget := retry_snapshot (ri_tenant_id i) (ri_run_id i) after (ri_maximum_retries i);
      rv_receipt := receipt |}
  end.
End with_digest.

(** ** The store with its receipts *)

Record InMemoryExecutionOwnershipStore := {
  _leases : ExecutionOwnershipStore;
  _transition_reservation_receipts : list (string * ReservationReceipt);
}.

Definition empty_reservation_store : InMemoryExecutionOwnershipStore :=
  {| _leases := empty_ownership_store; _transition_reservation_receipts := [] |}.

Definition reservation_key (i : ReservationIntent) : string * string * string :=
  (ri_tenant_id i, ri_run_id i, ri_step_id i).

(** The recorded retry of the intent. *)
Definition recorded_consumption (i : ReservationIntent) (s : ExecutionOwnershipStore)
    : result (option RetryConsumption) :=
  match _retry_ids s !! (ri_tenant_id i, ri_run_id i, ri_retry_id i) with
  | None => Ok None
  | Some category =>
      let c := {| cs_tenant_id := ri_tenant_id i; cs_run_id := ri_run_id i;
        cs_retry_id := ri_retry_id i; cs_category := category |} in
      consumption_post_init c ;; Ok (Some c)
  end.

(** The revisions the receipts speak about. *)
Definition anchor_revisions (receipts : list ReservationReceipt) : list Z :=
  filter (λ n, 0 < n)
    (concat (map (λ r, [acquired_revision r;
                        match rr_prior r with Some p => ow_revision p | None => 0 end]) receipts)).

Definition anchored (i : ReservationIntent) (revisions : list Z)
    (history : list ExecutionOwnership) : list ExecutionOwnership :=
  filter (λ v, ow_revision v ∈ revisions ∨ ow_attempt_id v = ri_attempt_id i) history.

Section with_digest.
Context `{Digest}.

Definition read_transition_reservation_history (i : ReservationIntent)
  (s : InMemoryExecutionOwnershipStore) : result ReservationEvidence :=
  consumption ← recorded_consumption i (_leases s);
  receipts ← relevant_receipts i None (_transition_reservation_receipts s).*2 false;
  let history := anchored i (anchor_revisions receipts) (history_of (reservation_key i) (_leases s)) in
  reservation_evidence i history consumption receipts.

(** [_transition_reservation_observation_unlocked] *)
Definition observe_transition_reservation (i : ReservationIntent) (generation : Z)
  (s : InMemoryExecutionOwnershipStore) : result ReservationObservation :=
  let key := reservation_key i in
  let current := _current (_leases s) !! key in
  let all_history := history_of key (_leases s) in
  relevant ← relevant_receipts i current (_transition_reservation_receipts s).*2 true;
  let revisions := anchor_revisions relevant
  ++ match current with Some c => [ow_revision c] | None => [] end in
  let history := anchored i revisions all_history in
  let history := if bool_decide (current = None) && bool_decide (history = [])
  then match last all_history with Some v => [v] | None => [] end else history in
  consumption ← recorded_consumption i (_leases s);
  let budget_key := (ri_tenant_id i, ri_run_id i) in
  let maximum := default (ri_maximum_retries i) (_retry_maximum (_leases s) !! budget_key) in
  let budget := retry_snapshot (ri_tenant_id i) (ri_run_id i)
  (default 0 (_retry_used (_leases s) !! budget_key)) maximum in
  reservation_observation i generation current history consumption budget relevant.

(** What a commit writes. *)
Definition commit_reservation (i : ReservationIntent) (v : reservation_values)
  (s : InMemoryExecutionOwnershipStore) : result InMemoryExecutionOwnershipStore :=
  let key := reservation_key i in
  let budget_key := (ri_tenant_id i, ri_run_id i) in
  let retry_key := (ri_tenant_id i, ri_run_id i, ri_retry_id i) in
  let l := _leases s in
  raise_when (match rv_consumption v with
    | Some _ => bool_decide (is_Some (_retry_ids l !! retry_key)) | None => false end)
  (conflict "retry_without_receipt") ;;
  let retries {A} (new old : A) := match rv_consumption v with Some _ => new | None => old end in
  Ok {| _leases :=
    {| _current := <[key := rv_acquired v]> (_current l);
      _history := <[key := history_of key l ++ [rv_acquired v]]> (_history l);
      _retry_used := retries (<[budget_key := rb_used (rv_budget v)]> (_retry_used l))
      (_retry_used l);
      _retry_maximum := retries (<[budget_key := rb_maximum (rv_budget v)]> (_retry_maximum l))
      (_retry_maximum l);
      _retry_ids := match rv_consumption v with
      | Some c => <[retry_key := cs_category c]> (_retry_ids l) | None => _retry_ids l end |};
    _transition_reservation_receipts :=
    alist_set (ri_receipt_id (rr_intent (rv_receipt v))) (rv_receipt v)
    (_transition_reservation_receipts s) |}.

(** [reserve_transition_effect]; the fault hooks of the class do nothing. *)
Definition reserve_transition_effect (i : ReservationIntent) (generation : Z)
  (expected_observation_digest : string) (reserved_at : float)
  : action InMemoryExecutionOwnershipStore ReservationReceipt :=
  s ← get;
  evidence ← lift (read_transition_reservation_history i s);
  match re_receipt evidence with
  | Some receipt =>
      lift (raise_when (generation <? rr_generation receipt) (conflict "receipt_generation_conflict")) ;;
      mret receipt
  | None =>
      observation ← lift (observe_transition_reservation i generation s);
      values ← lift (values_of observation generation expected_observation_digest reserved_at);
      match ro_receipt observation with
    | Some receipt => mret receipt
    | None =>
        s' ← lift (commit_reservation i values s);
        put s' ;; mret (rv_receipt values)
    end
  end.
End with_digest.

(** ** Calls and the states they reach *)

(** The receipts, in the order they were issued. *)
Definition receipts_of (s : InMemoryExecutionOwnershipStore) : list ReservationReceipt :=
  (_transition_reservation_receipts s).*2.

Inductive reservation_op :=
| OpLease (op : ownership_op)
| OpReserve (i : ReservationIntent) (generation : Z) (digest : string) (now : float).

Section calls.
Context `{Digest}.

(** An intent exists only if its constructor accepted it. *)
Definition run_reservation (op : reservation_op) (s : InMemoryExecutionOwnershipStore)
  : InMemoryExecutionOwnershipStore :=
  match op with
  | OpLease op => {| _leases := run_ownership op (_leases s);
      _transition_reservation_receipts := _transition_reservation_receipts s |}
  | OpReserve i g d now =>
      match intent_post_init i with
    | Ok _ => (reserve_transition_effect i g d now s).2
    | Err _ => s
    end
  end.

Definition reachable_reservations : InMemoryExecutionOwnershipStore → Prop :=
  reachable run_reservation empty_reservation_store.
End calls.

(** ** Lists of receipts *)

Lemma by_digest_app l m : by_digest (l ++ m) = foldl (λ d r, alist_set (rr_digest r) r d) (by_digest l) m.
Proof. apply foldl_app. Qed.

Lemma by_digest_elem l k r : (k, r) ∈ by_digest l → r ∈ l.
Proof.
  induction l as [|x l IH] using rev_ind; [by intros []%elem_of_nil|].
  rewrite by_digest_app. cbn. intros [[_ ->]|Hin]%alist_set_elem; apply elem_of_app;
    [right; by left|left; auto].
Qed.

Lemma by_digest_nil l : by_digest l = [] → l = [].
Proof.
  destruct l as [|x l] using rev_ind; [done|]. rewrite by_digest_app. cbn.
  destruct (by_digest l) as [|[k y] d]; cbn; [done|]. by case_bool_decide.
Qed.

Lemma by_digest_all l r : l ≠ [] → (∀ x, x ∈ l → x = r) → by_digest l = [(rr_digest r, r)].
Proof.
  induction l as [|x l IH] using rev_ind; [done|]. intros _ Hall. rewrite by_digest_app. cbn.
  rewrite (Hall x) by (apply elem_of_app; right; by left).
  destruct l as [|y l]; [done|]. rewrite IH; [|done|].
  - cbn. by rewrite bool_decide_true.
  - intros z Hz. apply Hall, elem_of_app. by left.
Qed.

Lemma relevant_receipts_Ok i c l b l' :
  relevant_receipts i c l b = Ok l' →
  ∀ r, r ∈ l' ↔ r ∈ l ∧ (candidate_alias i r || current_alias c r || prospective_alias i c b r) = true.
Proof.
  unfold relevant_receipts. intros Hr. result_inv. subst l'. intros r.
  rewrite elem_of_sort_by, list_elem_of_filter. tauto.
Qed.

Lemma filter_unique {A} (P : A → Prop) `{!∀ x, Decision (P x)} l x :
  NoDup l → x ∈ l → P x → (∀ y, y ∈ l → P y → y = x) → filter P l = [x].
Proof.
  intros Hnd Hx HP Hun. induction Hnd as [|y l Hy Hnd IH]; [by apply elem_of_nil in Hx|].
  rewrite filter_cons. destruct (decide (P y)) as [HPy|HPy].
  - assert (y = x) as -> by (apply Hun; [by left|done]). f_equal.
    destruct (filter P l) as [|z l'] eqn:Hf; [done|].
    assert (z ∈ filter P l) as Hz by (rewrite Hf; by left).
    apply list_elem_of_filter in Hz as [HPz Hz].
    assert (z = x) as -> by (apply Hun; [by right|done]). done.
  - apply elem_of_cons in Hx as [->|Hx]; [done|]. apply IH; [done|].
    intros z Hz. apply Hun. by right.
Qed.

(** ** Histories and their revisions *)

Lemma history_revision s key x y :
  ownership_ok s → x ∈ history_of key s → y ∈ history_of key s →
  ow_revision x = ow_revision y → x = y.
Proof.
  intros Hs [i Hi]%list_elem_of_lookup [j Hj]%list_elem_of_lookup Heq.
  pose proof (chain_lookup None _ i x (oo_chain s Hs key) Hi).
  pose proof (chain_lookup None _ j y (oo_chain s Hs key) Hj).
  assert (i = j) as -> by lia. congruence.
Qed.

Lemma history_NoDup s key : ownership_ok s → NoDup (history_of key s).
Proof.
  intros Hs. apply NoDup_alt. intros i j x Hi Hj.
  pose proof (chain_lookup None _ i x (oo_chain s Hs key) Hi).
  pose proof (chain_lookup None _ j x (oo_chain s Hs key) Hj). lia.
Qed.

(** ** Evidence *)

Lemma evidence_receipt i h c l e :
  reservation_evidence i h c l = Ok e →
  match re_receipt e with
  | None => ∀ r, r ∈ l → candidate_alias i r = false
  | Some r => r ∈ l ∧ rr_intent r = i
  end.
Proof.
  unfold reservation_evidence.
  destruct (by_digest (filter (λ r, candidate_alias i r = true) l)) as [|[k r] [|]] eqn:Hd; [| |done].
  - intros He. result_inv. subst e. cbn. intros r Hr. apply by_digest_nil in Hd.
    destruct (candidate_alias i r) eqn:Ha; [|done].
    assert (r ∈ filter (λ r, candidate_alias i r = true) l) as Hin by by apply list_elem_of_filter.
    rewrite Hd in Hin. by apply elem_of_nil in Hin.
  - intros He. result_inv. subst e. cbn.
    assert ((k, r) ∈ by_digest (filter (λ r, candidate_alias i r = true) l)) as Hin
      by (rewrite Hd; by left).
    apply by_digest_elem, list_elem_of_filter in Hin as [_ Hin]. split; [done|].
    match goal with Hx : bool_decide (rr_intent r ≠ i) = false |- _ =>
      by apply bool_decide_eq_false, dec_stable in Hx end.
Qed.

Section reservation_laws.
Context `{Digest}.

Lemma read_history_receipt i s e :
  read_transition_reservation_history i s = Ok e →
  match re_receipt e with
  | None => ∀ r, r ∈ receipts_of s → candidate_alias i r = false
  | Some r => r ∈ receipts_of s ∧ rr_intent r = i
  end.
Proof.
  unfold read_transition_reservation_history. intros He. result_inv.
  match goal with Hx : relevant_receipts _ _ _ _ = Ok _ |- _ =>
      pose proof (relevant_receipts_Ok _ _ _ _ _ Hx) as Hrel end.
  match goal with Hx : reservation_evidence _ _ _ _ = Ok _ |- _ => apply evidence_receipt in Hx end.
  destruct (re_receipt e) as [r|].
  - match goal with Hx : _ ∧ _ |- _ => destruct Hx as [Hr Hi] end. by apply Hrel in Hr as [Hr _].
  - intros r Hr. destruct (candidate_alias i r) eqn:Ha; [|done].
    match goal with Hx : ∀ r, r ∈ ?l → candidate_alias i r = false |- _ =>
        assert (r ∈ l) as Hin by (apply Hrel; by rewrite Ha); specialize (Hx r Hin) end. congruence.
Qed.

(** What a successful observation checked. *)
Lemma observation_Ok i g c h cs b l o :
  reservation_observation i g c h cs b l = Ok o →
  ro_intent o = i ∧ ro_current o = c ∧ ro_consumption o = cs ∧ ro_budget o = b ∧
  budget_conflict i b = false ∧
  (∀ x, c = Some x → intent_binds i x = true ∧ ownership_assert_exact x = Ok tt) ∧
  match ro_receipt o with
  | Some r => r ∈ l ∧ rr_intent r = i
  | None => cs = None
  end.
Proof.
  unfold reservation_observation. intros Ho. result_inv. subst o. cbn.
  split_and!; try done.
  - intros x ->. match goal with Hx : exact_optional (Some x) = Ok ?u |- _ => destruct u; cbn in Hx end.
    match goal with Hx : negb (intent_binds i x) = false |- _ => by apply negb_false_iff in Hx end.
  - match goal with |- context [snd <$> head ?d] => destruct d as [|[k r] d'] eqn:Hd; cbn end.
    + match goal with Hx : acquired_evidence _ _ _ _ _ = Ok _ |- _ =>
          unfold acquired_evidence in Hx; cbn in Hx end.
      result_inv. match goal with Hx : bool_decide (cs ≠ None) = false |- _ =>
          by apply bool_decide_eq_false, dec_stable in Hx end.
    + match type of Hd with by_digest ?f = _ =>
          assert ((k, r) ∈ by_digest f) as Hin by (rewrite Hd; by left) end.
      apply by_digest_elem in Hin. pose proof Hin as Hf. apply list_elem_of_filter in Hin as [_ Hin].
      match goal with Hx : relevant_receipts _ _ _ _ = Ok _ |- _ =>
          pose proof (relevant_receipts_Ok _ _ _ _ _ Hx) as Hrel end.
      apply Hrel in Hin as [Hin _]. split; [done|].
      match goal with Hx : existsb (λ r, bool_decide (rr_intent r ≠ i)) _ = false |- _ =>
          rename Hx into Hex end.
      destruct (decide (rr_intent r = i)) as [|Hne]; [done|exfalso].
      apply not_true_iff_false in Hex. apply Hex, existsb_exists. exists r.
      split; [by apply list_elem_of_In|by apply bool_decide_eq_true].
Qed.

Lemma observe_Ok i g s o :
  observe_transition_reservation i g s = Ok o →
  let c := _current (_leases s) !! reservation_key i in
  let key := (ri_tenant_id i, ri_run_id i) in
  ro_intent o = i ∧ ro_current o = c ∧ rb_used (ro_budget o) = used_of key (_leases s) ∧
  (∀ m, _retry_maximum (_leases s) !! key = Some m → m = ri_maximum_retries i) ∧
  (∀ x, c = Some x → intent_binds i x = true ∧ ownership_assert_exact x = Ok tt) ∧
  match ro_receipt o with
  | Some r => r ∈ receipts_of s ∧ rr_intent r = i
  | None => _retry_ids (_leases s) !! (key, ri_retry_id i) = None
  end.
Proof.
  unfold observe_transition_reservation. intros Ho. result_inv.
  match goal with Hx : relevant_receipts _ _ _ _ = Ok _ |- _ =>
      pose proof (relevant_receipts_Ok _ _ _ _ _ Hx) as Hrel end.
  match goal with Hx : reservation_observation _ _ _ _ _ _ _ = Ok _ |- _ =>
      apply observation_Ok in Hx as (-> & -> & _ & -> & Hb & Hc & Hr) end.
  split_and!; try done.
  - intros m Hm. unfold budget_conflict in Hb. rewrite !orb_false_iff, negb_false_iff, Z.eqb_eq in Hb.
    destruct Hb as [[[[_ _] Hmax] _] _]. cbn in Hmax. rewrite Hm in Hmax. exact Hmax.
  - destruct (ro_receipt o) as [r|].
    + destruct Hr as [Hr ->]. by apply Hrel in Hr as [Hr _].
    + match goal with Hx : recorded_consumption _ _ = Ok _ |- _ =>
          unfold recorded_consumption in Hx; rewrite Hr in Hx; rename Hx into Hcs end.
      destruct (_retry_ids (_leases s) !! _) as [cat|]; [|done]. result_inv. done.
Qed.

(** *** Commits *)

(** What a committed reservation did. *)
Record reserved (i : ReservationIntent) (now : float) (s : InMemoryExecutionOwnershipStore)
  (r : ReservationReceipt) (s' : InMemoryExecutionOwnershipStore) : Prop := {
    rs_fresh : ∀ x, x ∈ receipts_of s → candidate_alias i x = false;
    rs_intent : rr_intent r = i;
    rs_prior : rr_prior r = _current (_leases s) !! reservation_key i;
    rs_acquired : rr_acquired r = acquired_of i (_current (_leases s) !! reservation_key i) now;
    rs_valid : receipt_post_init r = Ok tt;
    rs_current : _current (_leases s') = <[reservation_key i := rr_acquired r]> (_current (_leases s));
    rs_history : _history (_leases s') =
    <[reservation_key i := history_of (reservation_key i) (_leases s) ++ [rr_acquired r]]>
    (_history (_leases s));
    rs_receipts : _transition_reservation_receipts s' =
    alist_set (ri_receipt_id i) r (_transition_reservation_receipts s);
    rs_retry : match _current (_leases s) !! reservation_key i with
    | None => rr_consumption r = None ∧ _retry_used (_leases s') = _retry_used (_leases s) ∧
      _retry_maximum (_leases s') = _retry_maximum (_leases s) ∧
      _retry_ids (_leases s') = _retry_ids (_leases s)
    | Some c =>
        let key := (ri_tenant_id i, ri_run_id i) in
        intent_binds i c = true ∧ unavailable c now = false ∧
        used_of key (_leases s) < ri_maximum_retries i ∧
        _retry_used (_leases s') = <[key := used_of key (_leases s) + 1]> (_retry_used (_leases s)) ∧
        _retry_maximum (_leases s') = <[key := ri_maximum_retries i]> (_retry_maximum (_leases s)) ∧
        _retry_ids (_leases s') = <[(key, ri_retry_id i) := "hub_task"]> (_retry_ids (_leases s))
    end;
    rs_new_id : _retry_ids (_leases s) !! ((ri_tenant_id i, ri_run_id i), ri_retry_id i) = None;
    rs_maximum : ∀ m, _retry_maximum (_leases s) !! (ri_tenant_id i, ri_run_id i) = Some m →
    m = ri_maximum_retries i;
  }.

Lemma build_receipt_Ok i g p a cs b af now r :
  build_receipt i g p a cs b af now = Ok r →
  receipt_post_init r = Ok tt ∧ rr_intent r = i ∧ rr_prior r = p ∧ rr_acquired r = a ∧
  rr_consumption r = cs.
Proof.
  unfold build_receipt. intros Hr. result_inv. subst r.
  match goal with Hx : receipt_post_init _ = Ok ?u |- _ => by destruct u end.
Qed.

Lemma reserve_cases i g d now s out s' :
  reserve_transition_effect i g d now s = (out, s') →
  (s' = s ∧ ∀ r, out = Ok r → r ∈ receipts_of s ∧ rr_intent r = i) ∨
  (∃ r, out = Ok r ∧ reserved i now s r s').
Proof.
  unfold reserve_transition_effect. intros Hrun. repeat run_step Hrun; simplify_eq;
    try (left; split; [done|]; intros x Hx; try discriminate Hx).
  - match goal with Hx : read_transition_reservation_history _ _ = Ok ?e, He : re_receipt ?e = _ |- _ =>
        apply read_history_receipt in Hx; rewrite He in Hx end. by simplify_eq.
  - match goal with Hx : observe_transition_reservation _ _ _ = Ok ?o, Hr : ro_receipt ?o = _ |- _ =>
        apply observe_Ok in Hx as (_ & _ & _ & _ & _ & Hx); rewrite Hr in Hx end. by simplify_eq.
  - right. match goal with Hx : read_transition_reservation_history _ _ = Ok ?e, He : re_receipt ?e = _ |- _ =>
        apply read_history_receipt in Hx; rewrite He in Hx; rename Hx into Hfresh end.
    match goal with Hx : observe_transition_reservation _ _ _ = Ok ?o, Hr : ro_receipt ?o = _ |- _ =>
        apply observe_Ok in Hx as (Hi & Hcur & Hused & Hmax & Hc & Hid); rewrite Hr in Hid;
        rename Hr into Hno end.
    match goal with Hx : values_of _ _ _ _ = Ok _ |- _ =>
        unfold values_of in Hx; rewrite Hno, Hcur, Hi in Hx; rename Hx into Hval end.
    match goal with Hx : commit_reservation _ _ _ = Ok _ |- _ => rename Hx into Hcommit end.
    result_inv. subst.
    match goal with Hx : build_receipt _ _ _ _ _ _ _ _ = Ok _ |- _ =>
        apply build_receipt_Ok in Hx as (Hv & Hint & Hp & Ha & Hcs) end.
    unfold commit_reservation in Hcommit. result_inv. subst s'.
    eexists. split; [reflexivity|]. cbn [rv_receipt].
    match goal with Hx : takeover_checks _ _ = Ok _ |- _ =>
        unfold takeover_checks in Hx; rewrite Hcur in Hx; rename Hx into Htake end.
    split; cbn; rewrite ?Hp, ?Ha, ?Hint; try done.
    destruct (_current (_leases s) !! reservation_key (ro_intent a0)) as [c|] eqn:Hc0;
      result_inv; subst; cbn;
      match goal with Hx : _ = rr_consumption _ |- _ => rewrite <- Hx end; cbn; [|done].
    destruct (Hc c eq_refl) as [Hbind _].
    split_and!; try done; [| |by rewrite Hused..].
    + unfold unavailable. match goal with Hx : live c now = false |- _ => rewrite Hx, orb_false_r end.
      done.
    + match goal with Hx : (_ <=? rb_used _) = false |- _ => apply Z.leb_gt in Hx end. lia.
Qed.

(** *** Valid receipts *)

Lemma exact_valid o u : ownership_assert_exact o = Ok u → ownership_assert_valid o = Ok tt.
Proof.
  unfold ownership_assert_exact, _ownership_positive_legacy_counter, _ownership_positive_integer.
  intros He. result_inv. apply ownership_valid_inv.
  repeat match goal with
    | Hx : Forall _ _ |- _ => rewrite !Forall_cons in Hx; destruct_and! Hx
    | Hx : _ ∧ _ |- _ => destruct Hx
    | Hx : _ || _ = false |- _ => apply orb_false_iff in Hx as [??]
    | Hx : (_ <? _) = false |- _ => apply Z.ltb_ge in Hx
    | Hx : _ ∧ bool_decide _ = false |- _ => destruct Hx
    end.
  repeat match goal with Hx : _ownership_legacy_text _ _ = Ok _ |- _ =>
      unfold _ownership_legacy_text in Hx; apply raise_when_Ok in Hx; cbn in Hx end.
  repeat match goal with
    | Hx : bool_decide (_ ∉ _) = false |- _ => apply bool_decide_eq_false, dec_stable in Hx
    | Hx : bool_decide (_ ≠ _) = false |- _ => apply bool_decide_eq_false, dec_stable in Hx
    end.
  split_and!; try done. cbn. by rewrite !orb_false_iff.
Qed.

Record receipt_ok (r : ReservationReceipt) : Prop := {
    rk_prior : ∀ p, rr_prior r = Some p → intent_binds (rr_intent r) p = true ∧
    ownership_assert_exact p = Ok tt;
    rk_acquired : intent_binds (rr_intent r) (rr_acquired r) = true ∧
    ownership_assert_exact (rr_acquired r) = Ok tt;
    rk_attempt : ow_attempt_id (rr_acquired r) = ri_attempt_id (rr_intent r);
    rk_digest : sha256_re (rr_digest r) = true;
    rk_retry : rr_consumption r = match rr_prior r with
    | None => None
    | Some _ => Some {| cs_tenant_id := ri_tenant_id (rr_intent r);
        cs_run_id := ri_run_id (rr_intent r); cs_retry_id := ri_retry_id (rr_intent r);
        cs_category := _OWNERSHIP_RETRY_CATEGORY |}
    end;
  }.

Lemma receipt_post_init_ok r : receipt_post_init r = Ok tt → receipt_ok r.
Proof.
  unfold receipt_post_init. intros Hr. result_inv.
  match goal with Hx : acquisition_invalid r = false |- _ =>
      unfold acquisition_invalid in Hx; rewrite !orb_false_iff in Hx; destruct_and! Hx end.
  split.
  - intros p Hp. rewrite Hp in *.
    match goal with Hx : exact_optional (Some p) = Ok ?u |- _ => destruct u; split; [|exact Hx] end.
    match goal with Hx : negb (intent_binds _ p) = false |- _ => by apply negb_false_iff in Hx end.
  - match goal with Hx : ownership_assert_exact (rr_acquired r) = Ok ?u |- _ =>
        destruct u; split; [|exact Hx] end.
    match goal with Hx : negb (intent_binds _ _) = false |- _ => by apply negb_false_iff in Hx end.
  - match goal with Hx : bool_decide (ow_attempt_id _ ≠ _) = false |- _ =>
        by apply bool_decide_eq_false, dec_stable in Hx end.
  - match goal with Hx : _ownership_sha256 (rr_digest r) _ = Ok _ |- _ =>
        unfold _ownership_sha256 in Hx; apply raise_when_Ok in Hx; by apply negb_false_iff in Hx end.
  - match goal with Hx : retry_invalid r = Ok _ |- _ => unfold retry_invalid in Hx; rename Hx into Hre end.
    destruct (rr_prior r) as [p|]; apply raise_when_Ok in Hre.
    + destruct (rr_consumption r) as [[ct cr ci cc]|]; [|done]. cbn in Hre.
      rewrite !orb_false_iff, !bool_decide_eq_false in Hre. destruct_and! Hre.
      repeat match goal with Hx : ¬ (_ ≠ _) |- _ => apply dec_stable in Hx end. by subst.
    + apply orb_false_iff in Hre as [Hx _]. by apply bool_decide_eq_false, dec_stable in Hx.
Qed.

Lemma intent_binds_key i o : intent_binds i o = true → key_of o = reservation_key i ∧
  ow_workflow_id o = ri_workflow_id i.
Proof.
  unfold intent_binds, key_of, reservation_key. rewrite !andb_true_iff, !bool_decide_eq_true.
  intros [[[? ?] ?] ?]. split; congruence.
Qed.

(** *** The invariant *)

Lemma reserved_changes i now s r s' :
  ownership_ok (_leases s) → reserved i now s r s' →
  lease_change (_leases s) (_leases s') ∧ retry_change (_leases s) (_leases s').
Proof.
  intros Hs Hr. pose proof (receipt_post_init_ok r (rs_valid _ _ _ _ _ Hr)) as Hk.
  destruct (rk_acquired r Hk) as [Hbind Hex]. rewrite (rs_intent _ _ _ _ _ Hr) in Hbind.
  pose proof (rs_retry _ _ _ _ _ Hr) as Hretry.
  split.
  - eapply lease_saved; [| |exact (exact_valid _ _ Hex)|exact (rs_current _ _ _ _ _ Hr)
      |exact (rs_history _ _ _ _ _ Hr)]; [|by apply intent_binds_key].
    rewrite (rs_acquired _ _ _ _ _ Hr).
    destruct (_current (_leases s) !! reservation_key i) as [c|] eqn:Hc; [|done].
    destruct Hretry as (Hcb & Hun & _). apply intent_binds_key in Hcb as [Hck Hcw].
    unfold unavailable in Hun. rewrite orb_false_iff, bool_decide_eq_false in Hun.
    split; cbn; [by rewrite Hck|by rewrite Hcw|done|]. right. split_and!; try done; try apply Hun.
    exists now. apply Hun.
  - destruct (_current (_leases s) !! reservation_key i) as [c|].
    2:{ destruct Hretry as (_ & ? & ? & ?). by apply retry_same. }
    destruct Hretry as (_ & _ & Hlt & H1 & H2 & H3).
    eapply (retry_spent _ _ (ri_tenant_id i, ri_run_id i) (ri_retry_id i) "hub_task"
        (ri_maximum_retries i)); try done; [apply (rs_new_id _ _ _ _ _ Hr)|apply (rs_maximum _ _ _ _ _ Hr)].
Qed.

Record reservation_ok (s : InMemoryExecutionOwnershipStore) : Prop := {
    vo_leases : ownership_ok (_leases s);
    vo_keys : ∀ k r, (k, r) ∈ _transition_reservation_receipts s → k = ri_receipt_id (rr_intent r);
    vo_nodup : NoDup (_transition_reservation_receipts s).*1;
    vo_valid : ∀ r, r ∈ receipts_of s → receipt_ok r ∧ intent_post_init (rr_intent r) = Ok tt;
    vo_alias : ∀ r1 r2, r1 ∈ receipts_of s → r2 ∈ receipts_of s →
    candidate_alias (rr_intent r1) r2 = true → r1 = r2;
    vo_acquired : ∀ r, r ∈ receipts_of s →
    rr_acquired r ∈ history_of (reservation_key (rr_intent r)) (_leases s);
    vo_prior : ∀ r p, r ∈ receipts_of s → rr_prior r = Some p →
    p ∈ history_of (reservation_key (rr_intent r)) (_leases s) ∧
    _retry_ids (_leases s) !! ((ri_tenant_id (rr_intent r), ri_run_id (rr_intent r)),
      ri_retry_id (rr_intent r)) = Some "hub_task";
  }.

Lemma reservation_ok_empty : reservation_ok empty_reservation_store.
Proof.
  split; cbn; [apply ownership_ok_empty|intros k r []%elem_of_nil|constructor|..];
    unfold receipts_of; cbn; intros r; try (by intros []%elem_of_nil);
    by intros r2 []%elem_of_nil.
Qed.

Lemma retry_ids_stay s s' k c :
  retry_change s s' → _retry_ids s !! k = Some c → _retry_ids s' !! k = Some c.
Proof.
  intros [_ _ H3|key id cat m Hn _ _ _ _ H3] Hk; rewrite H3; [done|].
  rewrite lookup_insert_ne; [done|congruence].
Qed.

Lemma reservation_ok_leases s l :
  reservation_ok s → lease_change (_leases s) l → retry_change (_leases s) l →
  reservation_ok {| _leases := l;
    _transition_reservation_receipts := _transition_reservation_receipts s |}.
Proof.
  intros [Hl Hk Hnd Hv Ha Hacq Hp] Hc Hr. split; try done; cbn.
  - by eapply change_ok.
  - intros r Hin. eapply elem_of_prefix; [by apply Hacq|by apply change_grows].
  - intros r p Hin Hpr. destruct (Hp r p Hin Hpr) as [H1 H2]. split; [|by eapply retry_ids_stay].
    eapply elem_of_prefix; [exact H1|by apply change_grows].
Qed.

Lemma candidate_alias_id i x : ri_receipt_id (rr_intent x) = ri_receipt_id i → candidate_alias i x = true.
Proof. intros Hx. unfold candidate_alias. by rewrite bool_decide_true. Qed.

Lemma candidate_alias_sym r1 r2 :
  candidate_alias (rr_intent r1) r2 = candidate_alias (rr_intent r2) r1.
Proof.
  unfold candidate_alias. repeat (f_equal; try (apply bool_decide_ext; split; congruence)).
Qed.

Lemma reserved_receipts i now s r s' :
  reservation_ok s → reserved i now s r s' →
  (_transition_reservation_receipts s').*1 = (_transition_reservation_receipts s).*1 ++ [ri_receipt_id i] ∧
  ri_receipt_id i ∉ (_transition_reservation_receipts s).*1 ∧
  _transition_reservation_receipts s' = _transition_reservation_receipts s ++ [(ri_receipt_id i, r)].
Proof.
  intros Hs Hr. rewrite (rs_receipts _ _ _ _ _ Hr).
  assert (ri_receipt_id i ∉ (_transition_reservation_receipts s).*1) as Hn.
  { intros Hin. apply list_elem_of_fmap in Hin as ([k x] & Hk & Hin). cbn in Hk.
    pose proof (vo_keys s Hs k x Hin) as Hkx.
    assert (x ∈ receipts_of s) as Hx
      by (unfold receipts_of; apply list_elem_of_fmap; by exists (k, x)).
    pose proof (rs_fresh _ _ _ _ _ Hr x Hx) as Hf.
    rewrite candidate_alias_id in Hf; [done|congruence]. }
  rewrite alist_set_new by done. by rewrite fmap_app.
Qed.

Lemma reservation_ok_add i now s r s' :
  reservation_ok s → intent_post_init i = Ok tt → reserved i now s r s' → reservation_ok s'.
Proof.
  intros Hs Hi Hr. destruct (reserved_changes i now s r s' (vo_leases s Hs) Hr) as [Hl Hre].
  destruct (reserved_receipts i now s r s' Hs Hr) as (Hkeys & Hn & Hrec).
  pose proof (receipt_post_init_ok r (rs_valid _ _ _ _ _ Hr)) as Hk.
  pose proof (rs_intent _ _ _ _ _ Hr) as Hint.
  assert (∀ x, x ∈ receipts_of s' ↔ x ∈ receipts_of s ∨ x = r) as Helem.
  { intros x. unfold receipts_of. rewrite Hrec, fmap_app, elem_of_app. cbn.
    by rewrite list_elem_of_singleton. }
  split.
  - by eapply change_ok; [apply (vo_leases s Hs)|..].
  - intros k x. rewrite Hrec, elem_of_app, list_elem_of_singleton. intros [Hx|[= -> ->]];
      [by apply (vo_keys s Hs)|by rewrite Hint].
  - rewrite Hkeys. apply NoDup_app. split; [apply (vo_nodup s Hs)|]. split; [|apply NoDup_singleton].
    intros k Hin ->%list_elem_of_singleton. done.
  - intros x [Hx| ->]%Helem; [by apply (vo_valid s Hs)|by rewrite Hint].
  - intros r1 r2 [H1| ->]%Helem [H2| ->]%Helem Ha; [by apply (vo_alias s Hs)| | |done].
    + rewrite candidate_alias_sym, Hint in Ha. by rewrite (rs_fresh _ _ _ _ _ Hr) in Ha.
    + rewrite Hint in Ha. by rewrite (rs_fresh _ _ _ _ _ Hr) in Ha.
  - intros x [Hx| ->]%Helem.
    + eapply elem_of_prefix; [by apply (vo_acquired s Hs)|by apply change_grows].
    + rewrite Hint. unfold history_of. rewrite (rs_history _ _ _ _ _ Hr), lookup_insert_eq. cbn.
      apply elem_of_app. right. by left.
  - intros x p [Hx| ->]%Helem Hp.
    + destruct (vo_prior s Hs x p Hx Hp) as [H1 H2]. split; [|by eapply retry_ids_stay].
      eapply elem_of_prefix; [exact H1|by apply change_grows].
    + rewrite Hint. rewrite (rs_prior _ _ _ _ _ Hr) in Hp. split.
      * eapply elem_of_prefix; [|by apply change_grows].
        apply last_Some_elem_of. by rewrite (oo_last _ (vo_leases s Hs)).
      * pose proof (rs_retry _ _ _ _ _ Hr) as Hretry. rewrite Hp in Hretry.
        destruct Hretry as (_ & _ & _ & _ & _ & ->). apply lookup_insert_eq.
Qed.

Lemma run_reservation_step op s :
  reservation_ok s → reservation_ok (run_reservation op s) ∧
  evolves (_leases s) (_leases (run_reservation op s)) ∧
  ∀ r, r ∈ receipts_of s → r ∈ receipts_of (run_reservation op s).
Proof.
  intros Hs. destruct op as [op|i g d now]; cbn [run_reservation].
  - destruct (run_change op (_leases s) (ownership_ok_keyed _ (vo_leases s Hs))) as [Hl Hr].
    split; [by apply reservation_ok_leases|]. split; [|done]. cbn.
    eapply evolves_step; [apply evolves_refl|exact Hl|exact Hr].
  - destruct (intent_post_init i) as [[]|e] eqn:Hi; [|split; [done|split; [constructor|done]]].
    destruct (reserve_transition_effect i g d now s) as [out s'] eqn:Hrun. cbn.
    apply reserve_cases in Hrun as [[-> _]|(r & _ & Hr)]; [split; [done|split; [constructor|done]]|].
    split; [by eapply reservation_ok_add|].
    destruct (reserved_changes i now s r s' (vo_leases s Hs) Hr) as [Hl Hre]. split.
    + eapply evolves_step; [apply evolves_refl|exact Hl|exact Hre].
    + intros x Hx. destruct (reserved_receipts i now s r s' Hs Hr) as (_ & _ & Hrec).
      unfold receipts_of. rewrite Hrec, fmap_app. apply elem_of_app. by left.
Qed.

Lemma evolves_trans s1 s2 s3 : evolves s1 s2 → evolves s2 s3 → evolves s1 s3.
Proof. intros H1. induction 1; [done|by eapply evolves_step]. Qed.

Lemma reservations_evolve s s' :
  reservation_ok s → reachable run_reservation s s' →
  reservation_ok s' ∧ evolves (_leases s) (_leases s') ∧
  ∀ r, r ∈ receipts_of s → r ∈ receipts_of s'.
Proof.
  intros Hs. induction 1 as [|s' op _ (Hs' & He & Hr)]; [split; [done|split; [constructor|done]]|].
  destruct (run_reservation_step op s' Hs') as (H1 & H2 & H3).
  split; [done|]. split; [by eapply evolves_trans|auto].
Qed.

Lemma reachable_reservation_ok s : reachable_reservations s → reservation_ok s.
Proof. intros Hs. by apply (reservations_evolve _ _ reservation_ok_empty Hs). Qed.

(** *** Replays *)

Lemma receipts_NoDup s : reservation_ok s → NoDup (receipts_of s).
Proof.
  intros Hs. apply NoDup_alt. intros i j x Hi Hj. unfold receipts_of in *.
  apply list_lookup_fmap_Some in Hi as ([k1 x1] & -> & Hi).
  apply list_lookup_fmap_Some in Hj as ([k2 x2] & Heq & Hj). cbn in Heq. subst x2.
  pose proof (vo_keys s Hs _ _ (list_elem_of_lookup_2 _ _ _ Hi)).
  pose proof (vo_keys s Hs _ _ (list_elem_of_lookup_2 _ _ _ Hj)). cbn in *.
  apply (NoDup_lookup _ i j k1 (vo_nodup s Hs)); rewrite list_lookup_fmap, ?Hi, ?Hj; cbn; congruence.
Qed.

Lemma intent_identities i :
  intent_post_init i = Ok tt →
  identity_re (ri_tenant_id i) = true ∧ identity_re (ri_run_id i) = true ∧
  identity_re (ri_retry_id i) = true.
Proof.
  unfold intent_post_init. intros Hi. result_inv.
  match goal with Hx : Forall _ [(ri_receipt_id i, _); _; _; _; _; _; _; _; _; _; _; _] |- _ =>
      rename Hx into Hids end.
  rewrite !Forall_cons in Hids. unfold _ownership_identity in Hids. cbn [fst snd] in Hids.
  destruct_and! Hids.
  split_and!; match goal with
    | Hx : raise_when (negb (identity_re ?x)) _ = Ok _ |- identity_re ?x = true =>
      apply raise_when_Ok in Hx; by apply negb_false_iff in Hx end.
Qed.

Lemma recorded_consumption_own s r :
  reservation_ok s → r ∈ receipts_of s →
  (rr_prior r = None →
    _retry_ids (_leases s) !! ((ri_tenant_id (rr_intent r), ri_run_id (rr_intent r)),
      ri_retry_id (rr_intent r)) = None) →
  recorded_consumption (rr_intent r) (_leases s) = Ok (rr_consumption r).
Proof.
  intros Hs Hr Hnone. destruct (vo_valid s Hs r Hr) as [Hk Hi].
  destruct (intent_identities _ Hi) as (H1 & H2 & H3).
  rewrite (rk_retry r Hk). unfold recorded_consumption.
  destruct (rr_prior r) as [p|] eqn:Hp; [|by rewrite Hnone].
  destruct (vo_prior s Hs r p Hr Hp) as [_ ->].
  unfold consumption_post_init, _ownership_identity. cbn [cs_tenant_id cs_run_id cs_retry_id cs_category].
  by rewrite H1, H2, H3.
Qed.

Lemma relevant_own s r :
  reservation_ok s → r ∈ receipts_of s →
  relevant_receipts (rr_intent r) None (receipts_of s) false = Ok [r].
Proof.
  intros Hs Hr. unfold relevant_receipts.
  rewrite (filter_unique _ (receipts_of s) r); [done|by apply receipts_NoDup|done|..].
  - by rewrite candidate_alias_id.
  - intros y Hy Ha. symmetry. apply (vo_alias s Hs); [done..|].
    rewrite !orb_true_iff in Ha. destruct Ha as [[Ha|Ha]|Ha]; [done|discriminate Ha|].
    unfold prospective_alias in Ha. discriminate Ha.
Qed.

(** The records a receipt anchors are the acquired one, its predecessor, and
    those of its attempt. *)
Lemma anchored_own s r v :
  reservation_ok s → r ∈ receipts_of s →
  v ∈ anchored (rr_intent r) (anchor_revisions [r]) (history_of (reservation_key (rr_intent r)) (_leases s)) →
  v = rr_acquired r ∨ rr_prior r = Some v ∨ ow_attempt_id v = ri_attempt_id (rr_intent r).
Proof.
  intros Hs Hr [[Hrev|Hatt] Hv]%list_elem_of_filter; [|by right; right].
  unfold anchor_revisions in Hrev. cbn [map concat app] in Hrev.
  apply list_elem_of_filter in Hrev as [Hpos Hrev].
  apply elem_of_cons in Hrev as [Hrev|Hrev%list_elem_of_singleton].
  - left. eapply history_revision; [apply (vo_leases s Hs)|exact Hv|by apply (vo_acquired s Hs)|done].
  - right; left. destruct (rr_prior r) as [p|] eqn:Hp; [|lia]. f_equal. symmetry.
    eapply history_revision; [apply (vo_leases s Hs)|exact Hv|by apply (vo_prior s Hs r p)|done].
Qed.

Lemma exact_revision o u : ownership_assert_exact o = Ok u → 1 ≤ ow_revision o.
Proof. intros Ho%exact_valid%ownership_valid_inv. lia. Qed.

Lemma sorted_set_one x : sorted_set [x] = [x].
Proof. reflexivity. Qed.

Lemma evidence_post_init_own r :
  receipt_ok r →
  evidence_post_init {| re_intent := rr_intent r; re_receipt := Some r;
    re_prior_history := rr_prior r; re_acquired_history := Some (rr_acquired r);
    re_consumption := rr_consumption r; re_alias_digests := [rr_digest r] |} = Ok tt.
Proof.
  intros Hk. unfold evidence_post_init.
  cbn [re_prior_history re_acquired_history re_alias_digests re_receipt re_intent re_consumption].
  assert (exact_optional (rr_prior r) = Ok tt) as ->.
  { destruct (rr_prior r) as [p|] eqn:Hp; [by apply (rk_prior r Hk)|done]. }
  cbn [exact_optional mbind result_bind]. rewrite (proj2 (rk_acquired r Hk)), sorted_set_one.
  cbn [for_each]. unfold _ownership_sha256. rewrite (rk_digest r Hk).
  by rewrite !bool_decide_false by (intros Hn; by apply Hn).
Qed.

(** A committed receipt is what the history answers from then on. *)
Lemma read_history_own s r :
  reservation_ok s → r ∈ receipts_of s →
  (∀ v, v ∈ history_of (reservation_key (rr_intent r)) (_leases s) →
    ow_attempt_id v = ri_attempt_id (rr_intent r) → ownership_assert_exact v = Ok tt) →
  (rr_prior r = None →
    _retry_ids (_leases s) !! ((ri_tenant_id (rr_intent r), ri_run_id (rr_intent r)),
      ri_retry_id (rr_intent r)) = None) →
  ∃ e, read_transition_reservation_history (rr_intent r) s = Ok e ∧ re_receipt e = Some r.
Proof.
  intros Hs Hr Hexact Hnone.
  destruct (vo_valid s Hs r Hr) as [Hk Hi]. destruct (rk_acquired r Hk) as [Hb Hea].
  unfold read_transition_reservation_history. fold (receipts_of s).
  rewrite (recorded_consumption_own s r), (relevant_own s r) by done. cbn [mbind result_bind].
  set (i := rr_intent r) in *. set (key := reservation_key i) in *. set (h := anchored i (anchor_revisions [r]) (history_of key (_leases s))).
  unfold reservation_evidence.
  rewrite filter_cons, decide_True, filter_nil by by apply candidate_alias_id.
  change (by_digest [r]) with [(rr_digest r, r)]. cbv iota beta.
  rewrite (bool_decide_false (rr_intent r ≠ i)) by (intros Hn; by apply Hn).
  cbn [raise_when mbind result_bind].
  assert (∀ v, v ∈ h → v ∈ history_of key (_leases s)) as Hsub by by intros v [_ ?]%list_elem_of_filter.
  assert (NoDup h) as Hnd by (apply NoDup_filter, history_NoDup, (vo_leases s Hs)).
  rewrite (proj2 (for_each_Ok _ _ tt)).
  2:{ apply Forall_forall. intros v Hv. pose proof (Hsub v Hv) as Hin.
    destruct (anchored_own s r v Hs Hr Hv) as [->|[Hp|Ha]]; [done|by apply (rk_prior r Hk)|].
    by apply Hexact. }
  cbn [mbind result_bind].
  rewrite (filter_unique _ h (rr_acquired r)); [|done|..].
  2:{ apply list_elem_of_filter. split; [right; apply (rk_attempt r Hk)|by apply (vo_acquired s Hs)]. }
  2:{ split; [done|apply (rk_attempt r Hk)]. }
  2:{ intros y Hy [Hrev _]. eapply history_revision; [apply (vo_leases s Hs)|by apply Hsub
      |by apply (vo_acquired s Hs)|done]. }
  rewrite (bool_decide_false ([rr_acquired r] ≠ [rr_acquired r])) by (intros Hn; by apply Hn).
  cbn [raise_when mbind result_bind].
  assert (match rr_prior r with Some p => record_of p h | None => [] end =
      match rr_prior r with Some p => [p] | None => [] end) as ->.
  { destruct (rr_prior r) as [p|] eqn:Hp; [|done]. unfold record_of.
    destruct (vo_prior s Hs r p Hr Hp) as [Hin _]. destruct (rk_prior r Hk p Hp) as [_ Hep].
    apply filter_unique; [done| |done|].
    - apply list_elem_of_filter. split; [left|done]. unfold anchor_revisions. cbn [map concat app].
      apply list_elem_of_filter. split; [by eapply exact_revision in Hep; lia|].
      rewrite Hp. right. by left.
    - intros y Hy [Hrev _]. eapply history_revision; [apply (vo_leases s Hs)|by apply Hsub|exact Hin|done]. }
  pose proof (evidence_post_init_own r Hk) as Hpost. fold i in Hpost.
  destruct (rr_prior r) as [p|] eqn:Hp; cbn [head raise_when mbind result_bind].
  - rewrite (bool_decide_false ([p] ≠ [p])) by (intros Hn; by apply Hn).
    cbn [raise_when mbind result_bind]. rewrite Hpost. by eexists.
  - rewrite Hpost. by eexists.
Qed.

Lemma reserve_reachable s i g d now :
  reachable_reservations s → intent_post_init i = Ok tt →
  reachable_reservations (reserve_transition_effect i g d now s).2.
Proof.
  intros Hs Hi. pose proof (reachable_step run_reservation _ s (OpReserve i g d now) Hs) as Hstep.
  cbn [run_reservation] in Hstep. by rewrite Hi in Hstep.
Qed.

(** ** Properties *)

(** C9: reserving a step for an effect either raises and changes nothing, or
    returns the receipt already issued for the intent and changes nothing, or
    issues one receipt: then the step was free or its attempt was over without
    a result, its history grows by the acquired record under the next fencing
    token, which is above all earlier ones, and a recovery costs exactly one
    retry within the run's budget. *)
Theorem reserve_outcomes s i g d now out s' :
  reachable_reservations s → intent_post_init i = Ok tt →
  reserve_transition_effect i g d now s = (out, s') →
  let key := reservation_key i in
  let budget := (ri_tenant_id i, ri_run_id i) in
  let current := _current (_leases s) !! key in
  (∃ e, out = Err e ∧ s' = s) ∨
  (∃ r, out = Ok r ∧ s' = s ∧ r ∈ receipts_of s ∧ rr_intent r = i) ∨
  (∃ r, out = Ok r ∧ rr_intent r = i ∧ rr_prior r = current ∧
    receipts_of s' = receipts_of s ++ [r] ∧
    history_of key (_leases s') = history_of key (_leases s) ++ [rr_acquired r] ∧
    _current (_leases s') !! key = Some (rr_acquired r) ∧
    rr_acquired r = acquired_of i current now ∧
    (∀ c, c ∈ history_of key (_leases s) → ow_fencing_token c < ow_fencing_token (rr_acquired r)) ∧
    match current with
    | None => used_of budget (_leases s') = used_of budget (_leases s)
    | Some c => unavailable c now = false ∧
      used_of budget (_leases s') = used_of budget (_leases s) + 1 ∧
      used_of budget (_leases s') ≤ ri_maximum_retries i
    end).
Proof.
  intros Hs%reachable_reservation_ok Hi Hrun key budget current.
  apply reserve_cases in Hrun as [[-> Hout]|(r & -> & Hr)].
  - destruct out as [r|e]; [right; left|left; by exists e]. exists r.
    destruct (Hout r eq_refl). done.
  - right; right. exists r. destruct (reserved_receipts i now s r s' Hs Hr) as (_ & _ & Hrec).
    pose proof (rs_acquired _ _ _ _ _ Hr) as Hacq. pose proof (rs_retry _ _ _ _ _ Hr) as Hretry.
    split_and!; try done.
    + apply (rs_intent _ _ _ _ _ Hr).
    + apply (rs_prior _ _ _ _ _ Hr).
    + unfold receipts_of. by rewrite Hrec, fmap_app.
    + unfold history_of at 1. by rewrite (rs_history _ _ _ _ _ Hr), lookup_insert_eq.
    + by rewrite (rs_current _ _ _ _ _ Hr), lookup_insert_eq.
    + apply next_fence; [apply (vo_leases s Hs)|]. by rewrite Hacq.
    + unfold current, key, budget in *. clear current key budget.
      destruct (_current (_leases s) !! reservation_key i) as [c|].
      * destruct Hretry as (_ & Hun & Hlt & Hu & _). unfold used_of in *.
        rewrite Hu, lookup_insert_eq. cbn. split; [done|]. split; [done|lia].
      * destruct Hretry as (_ & Hu & _). unfold used_of. by rewrite Hu.
Qed.

(** A committed reservation survives the worker that asked for it: however
    many calls run in between, takeovers of the step included, reserving its
    intent again returns the very receipt and changes nothing, as long as the
    records of its attempt carry finite positive times and, for a reservation
    that cost no retry, nobody charged one under its identifier. *)
Theorem reserve_replay s s' r g d now :
  reachable_reservations s → r ∈ receipts_of s → reachable run_reservation s s' →
  rr_generation r ≤ g →
  (∀ v, v ∈ history_of (reservation_key (rr_intent r)) (_leases s') →
    ow_attempt_id v = ri_attempt_id (rr_intent r) → ownership_assert_exact v = Ok tt) →
  (rr_prior r = None →
    _retry_ids (_leases s') !! ((ri_tenant_id (rr_intent r), ri_run_id (rr_intent r)),
      ri_retry_id (rr_intent r)) = None) →
  reserve_transition_effect (rr_intent r) g d now s' = (Ok r, s').
Proof.
  intros Hs Hr Hreach Hg Hexact Hnone.
  destruct (reservations_evolve s s' (reachable_reservation_ok s Hs) Hreach) as (Hs' & _ & Hgrow).
  destruct (read_history_own s' r Hs' (Hgrow r Hr) Hexact Hnone) as (e & He & Hrc).
  unfold reserve_transition_effect. rewrite run_get, (run_lift _ e) by exact He. rewrite Hrc.
  by rewrite run_guard by by apply Z.ltb_ge.
Qed.

(** C10: a reservation fences off every earlier attempt of its step: from its commit on, whatever leases and reservations
    follow, every heartbeat, result or failure sent under a token of an earlier
    record raises and changes nothing. *)
Theorem reservation_fences s i g d now r s1 s2 c v :
  reachable_reservations s → intent_post_init i = Ok tt →
  reserve_transition_effect i g d now s = (Ok r, s1) → r ∉ receipts_of s →
  reachable run_reservation s1 s2 →
  c ∈ history_of (reservation_key i) (_leases s) →
  (ov_tenant_id v, ov_run_id v, ov_step_id v) = reservation_key i →
  ov_fencing_token v = ow_fencing_token c →
  refused v (_leases s2).
Proof.
  intros Hs%reachable_reservation_ok Hi Hrun Hnew Hreach Hc Hkey Hv.
  apply reserve_cases in Hrun as [[_ Hout]|(r' & [= <-] & Hr)].
  { destruct (Hout r eq_refl). done. }
  pose proof (reservation_ok_add i now s r s1 Hs Hi Hr) as Hs1.
  destruct (reservations_evolve s1 s2 Hs1 Hreach) as (Hs2 & Hev & _).
  apply (stale_refused (_leases s2) v (reservation_key i) (rr_acquired r));
    [apply (vo_leases s2 Hs2)|done| |].
  - eapply elem_of_prefix; [|by apply history_grows]. unfold history_of.
    rewrite (rs_history _ _ _ _ _ Hr), lookup_insert_eq. cbn. apply elem_of_app. right. by left.
  - rewrite Hv. apply (next_fence (_leases s) (reservation_key i)); [apply (vo_leases s Hs)| |done].
    by rewrite (rs_acquired _ _ _ _ _ Hr).
Qed.
End reservation_laws.

(** ** Examples *)

(** The intent of a step, its derived identifiers computed as its constructor
    recomputes them. *)
Definition sample_reservation_intent (workflow : string) : ReservationIntent :=
  let text r := match r with Ok x => x | Err _ => "" end in
  let digest := text (@ownership_intent_digest checksum_digest "tr" "rt" "t" workflow "r" "s" 1
                        (lit 30 0) 2) in
  let owner := text (@ownership_owner_id checksum_digest digest) in
  let fence := text (@ownership_fence_id checksum_digest digest owner) in
  {| ri_receipt_id := text (@ownership_receipt_id checksum_digest "tr" "ef");
     ri_transition_id := "tr"; ri_effect_id := "ef"; ri_runtime_id := "rt"; ri_tenant_id := "t";
     ri_workflow_id := workflow; ri_run_id := "r"; ri_step_id := "s"; ri_effect_ordinal := 1;
     ri_intent_digest := digest; ri_owner_id := owner; ri_fence_id := fence;
     ri_attempt_id := text (@ownership_attempt_id checksum_digest "ef" fence);
     ri_retry_id := fence; ri_request_fingerprint := digest; ri_effect_payload_digest := digest;
     ri_idempotency_key := fence; ri_lease_seconds := lit 30 0; ri_maximum_retries := 2;
     ri_planned_at := lit 1 0; ri_schema := RESERVATION_INTENT_SCHEMA |}.

(** A step whose first attempt failed. *)
Definition failed_reservations : InMemoryExecutionOwnershipStore :=
  run_all_calls (@run_reservation checksum_digest)
    [OpLease (sample_claim "o1" "1" (lit 1 0));
     OpLease (OpFailAttempt (sample_values "att-1" "o1" 1 1) "boom" false (lit 2 0))]
    empty_reservation_store.

Definition observed_digest (o : result ReservationObservation) : string :=
  match o with Ok o => ro_digest o | Err _ => "" end.

Definition sample_reservation_digest : string :=
  observed_digest (@observe_transition_reservation checksum_digest
    (sample_reservation_intent "w") 1 failed_reservations).

Definition sample_reservation :=
  @reserve_transition_effect checksum_digest (sample_reservation_intent "w") 1
    sample_reservation_digest (lit 3 0) failed_reservations.

Lemma failed_reservations_reachable : @reachable_reservations checksum_digest failed_reservations.
Proof. apply (reachable_foldl (@run_reservation checksum_digest)). Qed.

Lemma sample_intent_valid :
  @intent_post_init checksum_digest (sample_reservation_intent "w") = Ok tt.
Proof. vm_compute. reflexivity. Qed.

Example reserve_outcomes_witness :
  ∃ r, sample_reservation.1 = Ok r ∧ receipts_of sample_reservation.2 = [r] ∧
  rr_prior r = Some failed_lease ∧ used_of ("t", "r") (_leases sample_reservation.2) = 1.
Proof.
  destruct sample_reservation as [out s'] eqn:Hrun.
  assert (match sample_reservation.1 with Ok _ => true | Err _ => false end = true) as Hok
    by (vm_compute; reflexivity).
  assert (used_of ("t", "r") (_leases sample_reservation.2) = 1) as Hused
    by (vm_compute; reflexivity).
  rewrite Hrun in Hok. rewrite Hrun in Hused. cbn [fst snd] in *.
  destruct (@reserve_outcomes checksum_digest failed_reservations (sample_reservation_intent "w")
    1 sample_reservation_digest (lit 3 0) out s' failed_reservations_reachable sample_intent_valid Hrun)
    as [(e & -> & _)|[(r & _ & _ & Hin & _)|(r & -> & _ & Hp & Hs & _)]].
  - discriminate Hok.
  - exfalso. exact (not_elem_of_nil _ Hin).
  - exists r. split_and!; [reflexivity|exact Hs| |exact Hused].
    rewrite Hp. vm_compute. reflexivity.
Defined.

(** Asked again, the reservation answers with its receipt. *)
Example reserve_replay_witness :
  ∃ r s, sample_reservation = (Ok r, s) ∧
  @reserve_transition_effect checksum_digest (rr_intent r) 1 "" (lit 90 0) s = (Ok r, s).
Proof.
  destruct sample_reservation as [out s] eqn:Hrun.
  assert (match sample_reservation.1, receipts_of sample_reservation.2 with
          | Ok r, [x] => bool_decide (r = x) && (rr_generation r <=? 1) &&
              bool_decide (is_Some (rr_prior r)) &&
              forallb (λ v, is_ok (ownership_assert_exact v))
                (history_of (reservation_key (rr_intent r)) (_leases sample_reservation.2))
          | _, _ => false end = true) as Hv by (vm_compute; reflexivity).
  rewrite Hrun in Hv. cbn [fst snd] in Hv. destruct out as [r|e]; [|discriminate Hv].
  destruct (receipts_of s) as [|x [|]] eqn:Hs; [discriminate Hv| |discriminate Hv].
  apply andb_true_iff in Hv as [[[Hx%bool_decide_eq_true Hg%Z.leb_le]%andb_true_iff
    Hp%bool_decide_eq_true]%andb_true_iff Hall].
  exists r, s. split; [reflexivity|].
  assert (@reachable_reservations checksum_digest s) as Hreach.
  { pose proof (@reserve_reachable checksum_digest failed_reservations
      (sample_reservation_intent "w") 1 sample_reservation_digest (lit 3 0)
      failed_reservations_reachable sample_intent_valid) as Hstep.
    fold sample_reservation in Hstep. rewrite Hrun in Hstep. exact Hstep. }
  apply (@reserve_replay checksum_digest s s r 1 "" (lit 90 0) Hreach).
  - rewrite Hs, Hx. left.
  - apply reachable_init.
  - exact Hg.
  - intros v Hv _. rewrite forallb_forall in Hall. apply list_elem_of_In in Hv.
    specialize (Hall v Hv). destruct (ownership_assert_exact v) as [[]|e]; [reflexivity|].
    discriminate Hall.
  - intros Hn. rewrite Hn in Hp. destruct Hp as [? Hp]. discriminate Hp.
Defined.

(** The failed worker's token no longer counts. *)
Example reservation_fences_witness :
  ∃ r s, sample_reservation = (Ok r, s) ∧ refused (sample_values "att-1" "o1" 1 2) (_leases s).
Proof.
  destruct sample_reservation as [out s] eqn:Hrun.
  assert (match sample_reservation.1 with Ok _ => true | Err _ => false end = true) as Hok
    by (vm_compute; reflexivity).
  rewrite Hrun in Hok. cbn [fst] in Hok. destruct out as [r|e]; [|discriminate Hok].
  exists r, s. split; [reflexivity|].
  apply (@reservation_fences checksum_digest failed_reservations (sample_reservation_intent "w")
    1 sample_reservation_digest (lit 3 0) r s s failed_lease (sample_values "att-1" "o1" 1 2)
    failed_reservations_reachable sample_intent_valid Hrun).
  - exact (not_elem_of_nil _).
  - apply reachable_init.
  - apply (bool_decide_unpack _). vm_compute. exact I.
  - reflexivity.
  - reflexivity.
Defined.
