(* ===== verification/OwnershipLaws.v ===== *)
(** * What leases and reservations guarantee together (workflow_runtime/ownership.py)

    Claims, heartbeats, results, failures and reservations change one store.
    The theorems quantify over sequences of all of its calls, the ones that
    raise included. *)
From S2P Require Import Prelude PyStr PyVal Digest Serialization Identity SchemaEvolution Plan Events Ownership OwnershipReservation.

(** The store after a call on its leases. *)
Definition with_leases (l : ExecutionOwnershipStore) (s : InMemoryExecutionOwnershipStore)
    : InMemoryExecutionOwnershipStore :=
  {| _leases := l; _transition_reservation_receipts := _transition_reservation_receipts s |}.

Section ownership_laws.
Context `{Digest}.

(** What every later store keeps of the leases a call left. *)
Lemma later_leases op s l s2 :
  reachable_reservations s → run_ownership op (_leases s) = l →
  reachable run_reservation (with_leases l s) s2 → ownership_ok (_leases s2) ∧ evolves l (_leases s2).
Proof.
  intros Hs <- Hreach. apply reachable_reservation_ok in Hs.
  pose proof (proj1 (run_reservation_step (OpLease op) s Hs)) as Hs1. cbn [run_reservation] in Hs1.
  destruct (reservations_evolve _ s2 Hs1 Hreach) as (Hs2 & Hev & _).
  split; [apply (vo_leases s2 Hs2)|exact Hev].
Qed.

(** C5: an acquired claim fences off every earlier attempt of the step: its token
    is above all of theirs, and from then on, whatever leases and reservations
    follow, a heartbeat, a result or a failure sent under an earlier token raises
    and changes nothing. *)
Theorem claim_fences s t w r st o l m u now x l1 :
  reachable_reservations s → claim t w r st o l m u now (_leases s) = (Ok x, l1) →
  oc_acquired x = true →
  (∀ c, c ∈ history_of (t, r, st) (_leases s) →
    ow_fencing_token c < ow_fencing_token (oc_ownership x)) ∧
  ∀ s2 c v, reachable run_reservation (with_leases l1 s) s2 → c ∈ history_of (t, r, st) (_leases s) →
  (ov_tenant_id v, ov_run_id v, ov_step_id v) = (t, r, st) →
  ov_fencing_token v = ow_fencing_token c → refused v (_leases s2).
Proof.
  intros Hs Hrun Hacq. pose proof (vo_leases s (reachable_reservation_ok s Hs)) as Hl.
  pose proof Hrun as Hcase. apply claim_run in Hcase as [(_ & _ & _ & Hno)|(y & [= <-] & Ha)].
  { destruct (Hno x eq_refl) as (_ & Hf & _). congruence. }
  assert (∀ c, c ∈ history_of (t, r, st) (_leases s) → ow_fencing_token c < ow_fencing_token (oc_ownership x))
    as Hfence.
  { apply next_fence; [done|]. by rewrite (aq_record _ _ _ _ _ _ _ _ _ _ _ _ Ha). }
  split; [exact Hfence|]. intros s2 c v Hreach Hc Hk Hv.
  destruct (later_leases (OpClaim t w r st o l m u now) s l1 s2 Hs) as [Hs2 Hev];
    [by cbn; rewrite Hrun|done|].
  apply (stale_refused (_leases s2) v (t, r, st) (oc_ownership x)); [done..| |].
  - eapply elem_of_prefix; [|by apply history_grows]. unfold history_of at 1.
    rewrite (aq_history _ _ _ _ _ _ _ _ _ _ _ _ Ha), lookup_insert_eq. cbn.
    apply elem_of_app. right. by left.
  - specialize (Hfence c Hc). lia.
Qed.

(** C6: an accepted result is final: from the acknowledgement on, whatever leases
    and reservations follow, the step keeps that very record, every claim is
    answered with it and not acquired, and repeating the acknowledgement returns
    it, all without a change. *)
Theorem result_final s v a now c l1 s2 :
  reachable_reservations s → acknowledge_result v a now (_leases s) = (Ok c, l1) →
  reachable run_reservation (with_leases l1 s) s2 →
  let key := (ov_tenant_id v, ov_run_id v, ov_step_id v) in
  _current (_leases s2) !! key = Some c ∧ ow_status c = "completed" ∧ ow_result_ack_key c = a ∧
  (∀ now', acknowledge_result v a now' (_leases s2) = (Ok c, _leases s2)) ∧
  (∀ o l m u now' x l3, claim (ov_tenant_id v) (ow_workflow_id c) (ov_run_id v) (ov_step_id v)
    o l m u now' (_leases s2) = (Ok x, l3) →
    oc_acquired x = false ∧ oc_ownership x = c ∧ l3 = _leases s2).
Proof.
  intros Hs Hrun Hreach key. pose proof Hrun as Hack.
  apply acknowledge_Ok in Hack as (Ha & Hc & Hst & Hkey & Hat).
  destruct (later_leases (OpAcknowledge v a now) s l1 s2 Hs) as [_ Hev]; [by cbn; rewrite Hrun|done|].
  pose proof (completed_stays l1 (_leases s2) _ c Hc Hst Hev) as Hc2.
  split_and!; [done|done|done|..].
  - intros now'. unfold acknowledge_result. rewrite run_guard by by rewrite Ha.
    unfold mbind, action_bind. rewrite (owned_exact v (_leases s2) c Hc2 Hat).
    by rewrite Hst, Hkey, !bool_decide_true.
  - intros o l m u now' x l3 Hclaim. apply claim_run in Hclaim as [(_ & _ & _ & Hno)|(y & _ & Hq)].
    + destruct (Hno x eq_refl) as (-> & Hf & c' & Hc' & _ & -> & _).
      split; [done|]. split; [|done].
      pose proof (eq_trans (eq_sym Hc') Hc2) as Heq. by injection Heq.
    + exfalso. pose proof (aq_prior _ _ _ _ _ _ _ _ _ _ _ _ Hq) as Hp.
      rewrite Hc2 in Hp. destruct Hp as (_ & _ & Hun & _). unfold unavailable in Hun.
      by rewrite bool_decide_true in Hun.
Qed.

(** ** Retry budgets *)

(** The call gives the run another attempt of a step: a claim that recovers it
    under a new identifier, or a reservation that takes a step over. *)
Definition recovers_step (key : string * string) (op : reservation_op)
  (s : InMemoryExecutionOwnershipStore) : bool :=
  match op with
  | OpLease op => recovers key op (_leases s)
  | OpReserve i g d now =>
      bool_decide ((ri_tenant_id i, ri_run_id i) = key) && is_ok (intent_post_init i)
      && match (reserve_transition_effect i g d now s).1 with
    | Ok r => bool_decide (r ∉ receipts_of s) && bool_decide (rr_prior r ≠ None)
    | Err _ => false
    end
  end.

Lemma recovers_step_used key op s :
  reservation_ok s →
  used_of key (_leases s) + (if recovers_step key op s then 1 else 0) ≤
  used_of key (_leases (run_reservation op s)).
Proof.
  intros Hs. destruct op as [op|i g d now]; [apply recovers_used, (vo_leases s Hs)|].
  cbn [recovers_step run_reservation]. destruct (intent_post_init i) as [[]|e] eqn:Hi;
    cbn [is_ok]; [|rewrite andb_false_r; cbn; lia].
  destruct (reserve_transition_effect i g d now s) as [out s'] eqn:Hrun. cbn [fst snd].
  apply reserve_cases in Hrun as [[-> Hout]|(r & -> & Hr)].
  - destruct out as [r|e]; [|rewrite andb_false_r; lia]. destruct (Hout r eq_refl) as [Hin _].
    rewrite (bool_decide_false (r ∉ receipts_of s)) by auto. cbn [andb]. rewrite andb_false_r. lia.
  - destruct (reserved_changes i now s r s' (vo_leases s Hs) Hr) as [_ Hchange].
    pose proof (retry_change_used _ _ key Hchange) as Hle.
    destruct (bool_decide_reflect ((ri_tenant_id i, ri_run_id i) = key)) as [<-|]; cbn [andb]; [|lia].
    destruct (bool_decide_reflect (rr_prior r ≠ None)) as [Hp|]; [|rewrite andb_false_r; lia].
    rewrite (rs_prior _ _ _ _ _ Hr) in Hp. pose proof (rs_retry _ _ _ _ _ Hr) as Hretry.
    destruct (_current (_leases s) !! reservation_key i) as [c|]; [|done].
    destruct Hretry as (_ & _ & _ & Hu & _). unfold used_of at 2. rewrite Hu, lookup_insert_eq. cbn.
    case_match; lia.
Qed.

(** C7: the retries of a run are one shared budget: in every sequence of leases
    and reservations the further attempts given to the steps of a run are at
    most the retries charged to it, these are exactly the identifiers recorded
    for it, and they never exceed the maximum fixed by the first charge. *)
Theorem retries_bounded key ops :
  let s := run_all_calls run_reservation ops empty_reservation_store in
  count_along run_reservation (recovers_step key) ops empty_reservation_store ≤ used_of key (_leases s) ∧
  used_of key (_leases s) = retries_of key (_leases s) ∧
  match _retry_maximum (_leases s) !! key with
  | Some m => used_of key (_leases s) ≤ m
  | None => used_of key (_leases s) = 0
  end.
Proof.
  intros s. assert (reservation_ok s) as Hs
    by exact (reachable_reservation_ok s (reachable_foldl run_reservation _ ops)).
  split_and!; [|apply (vo_leases s Hs)|apply (vo_leases s Hs)].
  exact (count_along_growth run_reservation (recovers_step key) (λ s, used_of key (_leases s))
      reservation_ok ops empty_reservation_store reservation_ok_empty
      (λ op s Hs, proj1 (run_reservation_step op s Hs)) (recovers_step_used key)).
Qed.
End ownership_laws.

(** ** Examples *)

(** The second worker's claim fences off the first one. *)
Example claim_fences_witness :
  ∃ x l1, claim "t" "w" "r" "s" "o2" (lit 30 0) 2 "2" (lit 3 0) (_leases failed_reservations) = (Ok x, l1) ∧
  refused (sample_values "att-1" "o1" 1 2) l1.
Proof.
  destruct (claim "t" "w" "r" "s" "o2" (lit 30 0) 2 "2" (lit 3 0) (_leases failed_reservations))
    as [out l1] eqn:Hrun.
  assert (match (claim "t" "w" "r" "s" "o2" (lit 30 0) 2 "2" (lit 3 0) (_leases failed_reservations)).1 with
    | Ok x => oc_acquired x | Err _ => false end = true) as Hacq by (vm_compute; reflexivity).
  rewrite Hrun in Hacq. destruct out as [x|e]; [|discriminate Hacq].
  exists x, l1. split; [reflexivity|].
  apply (proj2 (@claim_fences checksum_digest failed_reservations "t" "w" "r" "s" "o2" (lit 30 0) 2 "2"
    (lit 3 0) x l1 failed_reservations_reachable Hrun Hacq) (with_leases l1 failed_reservations)
    failed_lease (sample_values "att-1" "o1" 1 2) (reachable_init _ _)).
  - apply (bool_decide_unpack _). vm_compute. exact I.
  - reflexivity.
  - reflexivity.
Defined.

(** A worker took the step and finished it. *)
Definition active_reservations : InMemoryExecutionOwnershipStore :=
  run_all_calls (@run_reservation checksum_digest) [OpLease (sample_claim "o1" "1" (lit 1 0))]
    empty_reservation_store.

Lemma active_reachable : @reachable_reservations checksum_digest active_reservations.
Proof. apply (reachable_foldl (@run_reservation checksum_digest)). Qed.

Example result_final_witness :
  ∃ c l1, acknowledge_result (sample_values "att-1" "o1" 1 1) "ack" (lit 2 0)
    (_leases active_reservations) = (Ok c, l1) ∧
  _current l1 !! sample_key = Some c ∧ ow_status c = "completed".
Proof.
  destruct (acknowledge_result (sample_values "att-1" "o1" 1 1) "ack" (lit 2 0)
    (_leases active_reservations)) as [out l1] eqn:Hrun.
  assert (is_ok (acknowledge_result (sample_values "att-1" "o1" 1 1) "ack" (lit 2 0)
    (_leases active_reservations)).1 = true) as Hok by (vm_compute; reflexivity).
  rewrite Hrun in Hok. destruct out as [c|e]; [|discriminate Hok].
  destruct (@result_final checksum_digest active_reservations (sample_values "att-1" "o1" 1 1) "ack"
    (lit 2 0) c l1 (with_leases l1 active_reservations) active_reachable Hrun (reachable_init _ _))
    as (Hc & Hst & _).
  exists c, l1. exact (conj eq_refl (conj Hc Hst)).
Defined.
