(* ===== verification/ProviderBudgets.v ===== *)
(** * Provider budgets (workflow_runtime/provider_budgets.py)

    The hub's aggregate provider budgets: idempotent reservations against a
    per-run aggregate, an optional second (scoped) aggregate and an optional
    profile-attempt counter, all in one critical section.  [usage] objects are
    mutated in place by the code; the two aggregates of a call are never the
    same object because [scope_id] must differ from [run_id]. *)
From S2P Require Import Prelude PyStr.

(** ** Data *)

Record ProviderBudgetLimits := {
  maximum_attempts : Z;
  maximum_tokens : Z;
  maximum_cost_micros : Z;
}.

Record ProviderAttemptScope := {
  pas_scope_id : string;
  pas_maximum_attempts : Z;
}.

Record ProviderProfileAttemptReservation := {
  par_current : ProviderAttemptScope;
  par_reservation_id : string;
  par_predecessors : list ProviderAttemptScope;
}.

Record ProviderScopedBudgetReservation := {
  psb_scope_id : string;
  psb_limits : ProviderBudgetLimits;
}.

Record ProviderBudgetSnapshot := {
  snap_tenant_id : string;
  snap_run_id : string;
  snap_policy_version : string;
  snap_attempts : Z;
  snap_tokens : Z;
  snap_cost_micros : Z;
  snap_limits : ProviderBudgetLimits;
  snap_reservation_id : string;
  snap_reserved_tokens : Z;
  snap_reserved_cost_micros : Z;
  snap_reconciled : bool;
  snap_reason_code : string;
  snap_profile_attempts : option Z;
  snap_profile_maximum_attempts : option Z;
  snap_scoped_tokens : option Z;
  snap_scoped_cost_micros : option Z;
  snap_scoped_budget_overrun : bool;
}.

Record _Usage := {
  u_limits : ProviderBudgetLimits;
  u_attempts : Z;
  u_tokens : Z;
  u_cost_micros : Z;
}.

Record _Reservation := {
  r_policy_version : string;
  r_reserved_tokens : Z;
  r_reserved_cost_micros : Z;
  r_actual_total_tokens : option Z;
}.

Record _ProfileAttemptUsage := {
  pu_maximum : Z;
  pu_used : Z;
}.

#[global] Instance ProviderBudgetLimits_eq_dec : EqDecision ProviderBudgetLimits.
Proof. solve_decision. Defined.

Record InMemoryProviderBudgetStore := {
  _usage : gmap (string * string * string) _Usage;
  _reservations : gmap (string * string * string) _Reservation;
  _profile_attempt_usage : gmap (string * string) _ProfileAttemptUsage;
  _profile_attempt_reservations : gset (string * string * string);
}.

Definition empty_store : InMemoryProviderBudgetStore :=
  {| _usage := ∅; _reservations := ∅; _profile_attempt_usage := ∅;
     _profile_attempt_reservations := ∅ |}.

(** ** Validation *)

Definition limits_assert_valid (l : ProviderBudgetLimits) : result unit :=
  raise_when ((maximum_attempts l <? 0)
      || (Z.min (maximum_tokens l) (maximum_cost_micros l) <? 0))
    (ProviderBudgetError "provider_budget_limits_invalid").

(** [not value or len(value) > 256 or NUL in value] *)
Definition bad_identifier (value : string) : bool :=
  negb (str_true value) || (256 <? str_len value) || has_nul value.

Definition scope_assert_valid (s : ProviderAttemptScope) : result unit :=
  raise_when (bad_identifier (pas_scope_id s) || (pas_maximum_attempts s <? 1))
    (ProviderBudgetError "provider_attempt_scope_invalid").

Fixpoint assert_predecessors (seen : list string) (ps : list ProviderAttemptScope)
    : result unit :=
  match ps with
  | [] => Ok tt
  | p :: ps =>
      scope_assert_valid p ;;
      raise_when (bool_decide (pas_scope_id p ∈ seen))
        (ProviderBudgetError "provider_attempt_scope_duplicate") ;;
      assert_predecessors (pas_scope_id p :: seen) ps
  end.

Definition profile_assert_valid (p : ProviderProfileAttemptReservation) : result unit :=
  scope_assert_valid (par_current p) ;;
  raise_when (bad_identifier (par_reservation_id p))
    (ProviderBudgetError "provider_attempt_reservation_invalid") ;;
  assert_predecessors [pas_scope_id (par_current p)] (par_predecessors p).

Definition scoped_assert_valid (b : ProviderScopedBudgetReservation) : result unit :=
  raise_when (bad_identifier (psb_scope_id b))
    (ProviderBudgetError "provider_scoped_budget_invalid") ;;
  limits_assert_valid (psb_limits b).

Definition _validate_binding (tenant_id run_id policy_version reservation_id : string)
    : result unit :=
  raise_when
    (existsb bad_identifier [tenant_id; run_id; policy_version; reservation_id])
    (ProviderBudgetError "provider_budget_binding_invalid").

Definition _validate_reservation (limits : ProviderBudgetLimits)
    (reserved_tokens reserved_cost_micros : Z) : result unit :=
  limits_assert_valid limits ;;
  raise_when (Z.min reserved_tokens reserved_cost_micros <? 0)
    (ProviderBudgetError "provider_budget_reservation_invalid").

Definition _assert_capacity (usage : _Usage) (reserved_tokens reserved_cost_micros : Z)
    : result unit :=
  let l := u_limits usage in
  raise_when (negb (maximum_attempts l =? 0)
      && (maximum_attempts l <=? u_attempts usage))
    (ProviderBudgetError "provider_retry_budget_exceeded") ;;
  raise_when (negb (maximum_tokens l =? 0)
      && (maximum_tokens l <? u_tokens usage + reserved_tokens))
    (ProviderBudgetError "provider_token_budget_exceeded") ;;
  raise_when (negb (maximum_cost_micros l =? 0)
      && (maximum_cost_micros l <? u_cost_micros usage + reserved_cost_micros))
    (ProviderBudgetError "provider_cost_budget_exceeded").

Definition _assert_reservation_binding (reservation : _Reservation)
    (policy_version : string) (reserved_tokens reserved_cost_micros : Z) : result unit :=
  raise_when (negb (bool_decide (r_policy_version reservation = policy_version))
      || negb (r_reserved_tokens reservation =? reserved_tokens)
      || negb (r_reserved_cost_micros reservation =? reserved_cost_micros))
    (ProviderBudgetError "provider_budget_reservation_binding_mismatch").

Definition _assert_scoped_budget_replay
    (scoped_budget : option ProviderScopedBudgetReservation)
    (usage : option _Usage) (reservation : option _Reservation)
    (policy_version : string) (reserved_tokens reserved_cost_micros : Z) : result unit :=
  let mismatch := ProviderBudgetError "provider_budget_atomic_binding_mismatch" in
  match scoped_budget with
  | None =>
      match usage, reservation with
      | None, None => Ok tt
      | _, _ => Err mismatch
      end
  | Some b =>
      match usage, reservation with
      | Some u, Some r =>
          if bool_decide (u_limits u = psb_limits b)
          then _assert_reservation_binding r policy_version
                 reserved_tokens reserved_cost_micros
          else Err mismatch
      | None, None => Err (ProviderBudgetError "provider_scoped_budget_migration_required")
      | _, _ => Err mismatch
      end
  end.

Definition over (maximum value : Z) : bool := negb (maximum =? 0) && (maximum <? value).

Definition _snapshot (tenant_id run_id policy_version reservation_id : string)
    (usage : _Usage) (reservation : _Reservation)
    (profile_usage : option _ProfileAttemptUsage) (scoped_usage : option _Usage)
    : ProviderBudgetSnapshot :=
  let overrun := over (maximum_tokens (u_limits usage)) (u_tokens usage) in
  let scoped_overrun :=
    match scoped_usage with
    | None => false
    | Some su =>
        over (maximum_tokens (u_limits su)) (u_tokens su)
        || over (maximum_cost_micros (u_limits su)) (u_cost_micros su)
    end in
  let reconciled := bool_decide (is_Some (r_actual_total_tokens reservation)) in
  {| snap_tenant_id := tenant_id;
     snap_run_id := run_id;
     snap_policy_version := policy_version;
     snap_attempts := u_attempts usage;
     snap_tokens := u_tokens usage;
     snap_cost_micros := u_cost_micros usage;
     snap_limits := u_limits usage;
     snap_reservation_id := reservation_id;
     snap_reserved_tokens := r_reserved_tokens reservation;
     snap_reserved_cost_micros := r_reserved_cost_micros reservation;
     snap_reconciled := reconciled;
     snap_reason_code :=
       if scoped_overrun then "provider_scoped_budget_overrun_recorded"
       else if overrun then "provider_budget_overrun_recorded"
       else if reconciled then "provider_budget_reconciled"
       else "provider_budget_reserved";
     snap_profile_attempts := pu_used <$> profile_usage;
     snap_profile_maximum_attempts := pu_maximum <$> profile_usage;
     snap_scoped_tokens := u_tokens <$> scoped_usage;
     snap_scoped_cost_micros := u_cost_micros <$> scoped_usage;
     snap_scoped_budget_overrun := scoped_overrun |}.

(** ** Profile attempts *)

Fixpoint assert_predecessors_used (s : InMemoryProviderBudgetStore)
    (tenant_id : string) (ps : list ProviderAttemptScope) : result unit :=
  match ps with
  | [] => Ok tt
  | p :: ps =>
      let usage := _profile_attempt_usage s !! (tenant_id, pas_scope_id p) in
      let used := from_option pu_used 0 usage in
      raise_when
        (match usage with
         | Some u => negb (pu_maximum u =? pas_maximum_attempts p)
         | None => false
         end) (ProviderBudgetError "retry_budget_maximum_mismatch") ;;
      raise_when (negb (used =? pas_maximum_attempts p))
        (ProviderBudgetError "provider_attempt_plan_sequence_denied") ;;
      assert_predecessors_used s tenant_id ps
  end.

Definition _assert_profile_attempt_capacity (s : InMemoryProviderBudgetStore)
    (tenant_id : string) (profile_attempt : option ProviderProfileAttemptReservation)
    : result (option _ProfileAttemptUsage) :=
  match profile_attempt with
  | None => Ok None
  | Some p =>
      assert_predecessors_used s tenant_id (par_predecessors p) ;;
      let scope := pas_scope_id (par_current p) in
      let maximum := pas_maximum_attempts (par_current p) in
      let usage := _profile_attempt_usage s !! (tenant_id, scope) in
      raise_when
        (match usage with Some u => negb (pu_maximum u =? maximum) | None => false end)
        (ProviderBudgetError "retry_budget_maximum_mismatch") ;;
      raise_when
        (bool_decide ((tenant_id, scope, par_reservation_id p)
           ∈ _profile_attempt_reservations s))
        (ProviderBudgetError "provider_budget_atomic_binding_mismatch") ;;
      raise_when
        (match usage with Some u => maximum <=? pu_used u | None => false end)
        (ProviderBudgetError "provider_retry_budget_exceeded") ;;
      Ok usage
  end.

Definition _profile_attempt_for_replay (s : InMemoryProviderBudgetStore)
    (tenant_id : string) (profile_attempt : option ProviderProfileAttemptReservation)
    : result (option _ProfileAttemptUsage) :=
  match profile_attempt with
  | None => Ok None
  | Some p =>
      let scope := pas_scope_id (par_current p) in
      let usage := _profile_attempt_usage s !! (tenant_id, scope) in
      raise_when
        (match usage with
         | None => true
         | Some u => negb (pu_maximum u =? pas_maximum_attempts (par_current p))
         end
         || negb (bool_decide ((tenant_id, scope, par_reservation_id p)
              ∈ _profile_attempt_reservations s)))
        (ProviderBudgetError "provider_budget_atomic_binding_mismatch") ;;
      Ok usage
  end.

(** [profile_attempt.assert_valid()], [scoped_budget.assert_valid()] and the
    check that the scoped aggregate is another one than the run's. *)
Definition assert_call (run_id : string)
    (profile_attempt : option ProviderProfileAttemptReservation)
    (scoped_budget : option ProviderScopedBudgetReservation) : result unit :=
  from_option profile_assert_valid (Ok tt) profile_attempt ;;
  match scoped_budget with
  | None => Ok tt
  | Some b =>
      scoped_assert_valid b ;;
      raise_when (bool_decide (psb_scope_id b = run_id))
        (ProviderBudgetError "provider_scoped_budget_invalid")
  end.

(** ** State updates *)

Definition new_usage (limits : ProviderBudgetLimits) : _Usage :=
  {| u_limits := limits; u_attempts := 0; u_tokens := 0; u_cost_micros := 0 |}.

Definition charge (usage : _Usage) (tokens cost : Z) : _Usage :=
  {| u_limits := u_limits usage;
     u_attempts := u_attempts usage + 1;
     u_tokens := u_tokens usage + tokens;
     u_cost_micros := u_cost_micros usage + cost |}.

Definition settle (usage : _Usage) (actual reserved : Z) : _Usage :=
  {| u_limits := u_limits usage;
     u_attempts := u_attempts usage;
     u_tokens := Z.max 0 (u_tokens usage + actual - reserved);
     u_cost_micros := u_cost_micros usage |}.

Definition set_actual (r : _Reservation) (actual : Z) : _Reservation :=
  {| r_policy_version := r_policy_version r;
     r_reserved_tokens := r_reserved_tokens r;
     r_reserved_cost_micros := r_reserved_cost_micros r;
     r_actual_total_tokens := Some actual |}.

Definition put_entry (s : InMemoryProviderBudgetStore)
    (usage_key reservation_key : string * string * string)
    (usage : _Usage) (reservation : _Reservation) : InMemoryProviderBudgetStore :=
  {| _usage := <[usage_key := usage]> (_usage s);
     _reservations := <[reservation_key := reservation]> (_reservations s);
     _profile_attempt_usage := _profile_attempt_usage s;
     _profile_attempt_reservations := _profile_attempt_reservations s |}.

Definition put_profile (s : InMemoryProviderBudgetStore) (tenant_id : string)
    (p : ProviderProfileAttemptReservation) (usage : _ProfileAttemptUsage)
    : InMemoryProviderBudgetStore :=
  let scope := pas_scope_id (par_current p) in
  {| _usage := _usage s;
     _reservations := _reservations s;
     _profile_attempt_usage :=
       <[(tenant_id, scope) := usage]> (_profile_attempt_usage s);
     _profile_attempt_reservations :=
       {[(tenant_id, scope, par_reservation_id p)]} ∪ _profile_attempt_reservations s |}.

(** ** Operations *)

Section operations.
Context (tenant_id run_id policy_version reservation_id : string).

Definition scoped_lookup {V} (m : gmap (string * string * string) V) (last : string)
  (scoped_budget : option ProviderScopedBudgetReservation) : option V :=
  b ← scoped_budget; m !! (tenant_id, psb_scope_id b, last).

Definition reserve (limits : ProviderBudgetLimits)
  (reserved_tokens reserved_cost_micros : Z)
  (profile_attempt : option ProviderProfileAttemptReservation)
  (scoped_budget : option ProviderScopedBudgetReservation)
  : action InMemoryProviderBudgetStore ProviderBudgetSnapshot :=
  lift (_validate_binding tenant_id run_id policy_version reservation_id) ;;
  lift (_validate_reservation limits reserved_tokens reserved_cost_micros) ;;
  lift (assert_call run_id profile_attempt scoped_budget) ;;
  s ← get;
  let usage := _usage s !! (tenant_id, run_id, policy_version) in
  lift (raise_when
    (match usage with
      | Some u => negb (bool_decide (u_limits u = limits)) | None => false end)
    (ProviderBudgetError "provider_budget_limits_mismatch")) ;;
  let scoped_usage := scoped_lookup (_usage s) policy_version scoped_budget in
  lift (raise_when
    (match scoped_usage, scoped_budget with
      | Some u, Some b => negb (bool_decide (u_limits u = psb_limits b))
      | _, _ => false end)
    (ProviderBudgetError "provider_budget_limits_mismatch")) ;;
  let existing := _reservations s !! (tenant_id, run_id, reservation_id) in
  let scoped_existing := scoped_lookup (_reservations s) reservation_id scoped_budget in
  match existing with
  | Some existing =>
      match usage with
    | None => mthrow (ProviderBudgetError "provider_budget_aggregate_missing")
    | Some usage =>
        lift (_assert_reservation_binding existing policy_version
          reserved_tokens reserved_cost_micros) ;;
        lift (_assert_scoped_budget_replay scoped_budget scoped_usage
          scoped_existing policy_version
          reserved_tokens reserved_cost_micros) ;;
        profile_usage ← lift (_profile_attempt_for_replay s tenant_id profile_attempt);
        mret (_snapshot tenant_id run_id policy_version reservation_id
          usage existing profile_usage scoped_usage)
    end
  | None =>
      lift (raise_when (bool_decide (is_Some scoped_existing))
        (ProviderBudgetError "provider_budget_atomic_binding_mismatch")) ;;
      profile_usage ← lift (_assert_profile_attempt_capacity s tenant_id profile_attempt);
      let usage := default (new_usage limits) usage in
      lift (_assert_capacity usage reserved_tokens reserved_cost_micros) ;;
      let candidate_scoped_usage :=
      b ← scoped_budget; Some (default (new_usage (psb_limits b)) scoped_usage) in
      lift (from_option
        (λ u, _assert_capacity u reserved_tokens reserved_cost_micros)
        (Ok tt) candidate_scoped_usage) ;;
      let reservation :=
      {| r_policy_version := policy_version;
        r_reserved_tokens := reserved_tokens;
        r_reserved_cost_micros := reserved_cost_micros;
        r_actual_total_tokens := None |} in
      let usage := charge usage reserved_tokens reserved_cost_micros in
      let scoped_usage :=
      (λ u, charge u reserved_tokens reserved_cost_micros)
      <$> candidate_scoped_usage in
      let profile_usage :=
      p ← profile_attempt;
      let u := default {| pu_maximum := pas_maximum_attempts (par_current p);
        pu_used := 0 |} profile_usage in
      Some {| pu_maximum := pu_maximum u; pu_used := pu_used u + 1 |} in
      modify (λ s, put_entry s (tenant_id, run_id, policy_version)
        (tenant_id, run_id, reservation_id) usage reservation) ;;
      match scoped_budget, scoped_usage with
    | Some b, Some u =>
        modify (λ s, put_entry s (tenant_id, psb_scope_id b, policy_version)
          (tenant_id, psb_scope_id b, reservation_id) u reservation)
    | _, _ => mret tt
    end ;;
    match profile_attempt, profile_usage with
    | Some p, Some u => modify (λ s, put_profile s tenant_id p u)
    | _, _ => mret tt
    end ;;
    mret (_snapshot tenant_id run_id policy_version reservation_id
      usage reservation profile_usage scoped_usage)
  end.

Definition reconcile (actual_total_tokens : Z)
  (profile_attempt : option ProviderProfileAttemptReservation)
  (scoped_budget : option ProviderScopedBudgetReservation)
  : action InMemoryProviderBudgetStore ProviderBudgetSnapshot :=
  lift (_validate_binding tenant_id run_id policy_version reservation_id) ;;
  lift (raise_when (actual_total_tokens <? 0)
    (ProviderBudgetError "provider_budget_actual_tokens_invalid")) ;;
  lift (assert_call run_id profile_attempt scoped_budget) ;;
  s ← get;
  match _usage s !! (tenant_id, run_id, policy_version),
    _reservations s !! (tenant_id, run_id, reservation_id) with
  | Some usage, Some reservation =>
      lift (raise_when
        (negb (bool_decide (r_policy_version reservation = policy_version)))
        (ProviderBudgetError "provider_budget_reservation_binding_mismatch")) ;;
      let scoped_usage := scoped_lookup (_usage s) policy_version scoped_budget in
      let scoped_reservation :=
      scoped_lookup (_reservations s) reservation_id scoped_budget in
      lift (_assert_scoped_budget_replay scoped_budget scoped_usage
        scoped_reservation policy_version
        (r_reserved_tokens reservation) (r_reserved_cost_micros reservation)) ;;
      profile_usage ← lift (_profile_attempt_for_replay s tenant_id profile_attempt);
      match r_actual_total_tokens reservation with
    | Some actual =>
        lift (raise_when (negb (actual =? actual_total_tokens))
          (ProviderBudgetError "provider_budget_reconciliation_conflict")) ;;
        lift (raise_when
          (match scoped_reservation with
          | Some r => negb (bool_decide
              (r_actual_total_tokens r = Some actual_total_tokens))
          | None => false end)
        (ProviderBudgetError "provider_budget_reconciliation_conflict")) ;;
      mret (_snapshot tenant_id run_id policy_version reservation_id
        usage reservation profile_usage scoped_usage)
    | None =>
        let usage := settle usage actual_total_tokens (r_reserved_tokens reservation) in
        let reservation := set_actual reservation actual_total_tokens in
        modify (λ s, put_entry s (tenant_id, run_id, policy_version)
          (tenant_id, run_id, reservation_id) usage reservation) ;;
        match scoped_budget, scoped_usage, scoped_reservation with
      | Some b, Some su, Some sr =>
          lift (raise_when (bool_decide (is_Some (r_actual_total_tokens sr)))
            (ProviderBudgetError "provider_budget_atomic_binding_mismatch")) ;;
          let su := settle su actual_total_tokens (r_reserved_tokens sr) in
          modify (λ s, put_entry s (tenant_id, psb_scope_id b, policy_version)
            (tenant_id, psb_scope_id b, reservation_id) su
            (set_actual sr actual_total_tokens)) ;;
          mret (_snapshot tenant_id run_id policy_version reservation_id
            usage reservation profile_usage (Some su))
      | _, _, _ =>
          mret (_snapshot tenant_id run_id policy_version reservation_id
            usage reservation profile_usage scoped_usage)
      end
    end
  | _, _ => mthrow (ProviderBudgetError "provider_budget_reservation_not_found")
  end.
End operations.

(** ** What a run of [reserve] does

    Either nothing (a replay, or any error) or all of its updates at once. *)

Definition fresh_reservation (policy_version : string) (tokens cost : Z) : _Reservation :=
  {| r_policy_version := policy_version; r_reserved_tokens := tokens;
     r_reserved_cost_micros := cost; r_actual_total_tokens := None |}.

Definition entry_after (s : InMemoryProviderBudgetStore) (tenant_id scope_id
    policy_version reservation_id : string) (limits : ProviderBudgetLimits)
    (tokens cost : Z) : InMemoryProviderBudgetStore :=
  put_entry s (tenant_id, scope_id, policy_version) (tenant_id, scope_id, reservation_id)
    (charge (default (new_usage limits)
               (_usage s !! (tenant_id, scope_id, policy_version))) tokens cost)
    (fresh_reservation policy_version tokens cost).

Definition profile_used_after (s : InMemoryProviderBudgetStore) (t : string)
    (p : ProviderProfileAttemptReservation) : _ProfileAttemptUsage :=
  let u := default {| pu_maximum := pas_maximum_attempts (par_current p);
                      pu_used := 0 |}
             (_profile_attempt_usage s !! (t, pas_scope_id (par_current p))) in
  {| pu_maximum := pu_maximum u; pu_used := pu_used u + 1 |}.

Definition profile_after (s : InMemoryProviderBudgetStore) (tenant_id : string)
    (profile_attempt : option ProviderProfileAttemptReservation)
    : InMemoryProviderBudgetStore :=
  match profile_attempt with
  | None => s
  | Some p => put_profile s tenant_id p (profile_used_after s tenant_id p)
  end.

Definition reserve_after (s : InMemoryProviderBudgetStore)
    (tenant_id run_id policy_version reservation_id : string)
    (limits : ProviderBudgetLimits) (tokens cost : Z)
    (profile_attempt : option ProviderProfileAttemptReservation)
    (scoped_budget : option ProviderScopedBudgetReservation)
    : InMemoryProviderBudgetStore :=
  let s1 := entry_after s tenant_id run_id policy_version reservation_id
              limits tokens cost in
  let s2 := match scoped_budget with
            | None => s1
            | Some b => entry_after s1 tenant_id (psb_scope_id b) policy_version
                          reservation_id (psb_limits b) tokens cost
            end in
  profile_after s2 tenant_id profile_attempt.

(** The snapshot [reserve] returns for a reservation it admits. *)
Definition admitted_snapshot (s : InMemoryProviderBudgetStore)
    (t r pv rid : string) (l : ProviderBudgetLimits) (tk c : Z)
    (p : option ProviderProfileAttemptReservation)
    (b : option ProviderScopedBudgetReservation) : ProviderBudgetSnapshot :=
  _snapshot t r pv rid
    (charge (default (new_usage l) (_usage s !! (t, r, pv))) tk c)
    (fresh_reservation pv tk c)
    (p ≫= λ p, Some (profile_used_after s t p))
    (b ≫= λ b, Some (charge (default (new_usage (psb_limits b))
       (_usage s !! (t, psb_scope_id b, pv))) tk c)).

(** The facts [reserve] has checked when it admits a new reservation. *)
Record admitted (s : InMemoryProviderBudgetStore)
    (tenant_id run_id policy_version reservation_id : string)
    (limits : ProviderBudgetLimits) (tokens cost : Z)
    (profile_attempt : option ProviderProfileAttemptReservation)
    (scoped_budget : option ProviderScopedBudgetReservation) : Prop := {
  adm_fresh : _reservations s !! (tenant_id, run_id, reservation_id) = None;
  adm_values : 0 ≤ tokens ∧ 0 ≤ cost;
  adm_limits : limits_assert_valid limits = Ok tt;
  adm_same_limits : ∀ u, _usage s !! (tenant_id, run_id, policy_version) = Some u →
    u_limits u = limits;
  adm_capacity : _assert_capacity (default (new_usage limits)
    (_usage s !! (tenant_id, run_id, policy_version))) tokens cost = Ok tt;
  adm_scoped : ∀ b, scoped_budget = Some b →
    psb_scope_id b ≠ run_id ∧ limits_assert_valid (psb_limits b) = Ok tt ∧
    _reservations s !! (tenant_id, psb_scope_id b, reservation_id) = None ∧
    (∀ u, _usage s !! (tenant_id, psb_scope_id b, policy_version) = Some u →
      u_limits u = psb_limits b) ∧
    _assert_capacity (default (new_usage (psb_limits b))
      (_usage s !! (tenant_id, psb_scope_id b, policy_version))) tokens cost = Ok tt;
  adm_profile : ∃ u, _assert_profile_attempt_capacity s tenant_id profile_attempt = Ok u;
  adm_profile_valid : ∀ p, profile_attempt = Some p → profile_assert_valid p = Ok tt;
}.

Lemma entry_after_lookup_ne s t r pv rid l tk c k :
  k ≠ (t, r, pv) → _usage (entry_after s t r pv rid l tk c) !! k = _usage s !! k.
Proof. intros. cbn. by rewrite lookup_insert_ne. Qed.

Lemma profile_of_capacity s t p u :
  _assert_profile_attempt_capacity s t (Some p) = Ok u →
  u = _profile_attempt_usage s !! (t, pas_scope_id (par_current p)).
Proof. cbn. intros H. result_inv. by subst. Qed.

Lemma validate_reservation_Ok l tk c u :
  _validate_reservation l tk c = Ok u →
  limits_assert_valid l = Ok tt ∧ 0 ≤ tk ∧ 0 ≤ c.
Proof.
  unfold _validate_reservation. intros H. result_inv. destruct a.
  apply Z.ltb_ge in H. split; [done|lia].
Qed.

Lemma assert_call_Ok r p b u :
  assert_call r p b = Ok u →
  (∀ q, p = Some q → profile_assert_valid q = Ok tt) ∧
  (∀ c, b = Some c → psb_scope_id c ≠ r ∧ limits_assert_valid (psb_limits c) = Ok tt).
Proof.
  unfold assert_call. intros H. result_inv. destruct a. split.
  - intros q ->. done.
  - intros c ->. result_inv. unfold scoped_assert_valid in *. result_inv.
    destruct a. by apply bool_decide_eq_false in H.
Qed.

Section reserve_run.
Context (t r pv rid : string) (l : ProviderBudgetLimits) (tk c : Z)
  (p : option ProviderProfileAttemptReservation)
  (b : option ProviderScopedBudgetReservation).

Lemma reserve_run s res s' :
  reserve t r pv rid l tk c p b s = (res, s') →
  (s' = s ∧ ((∃ e, res = Err e) ∨ is_Some (_reservations s !! (t, r, rid)))) ∨
  (s' = reserve_after s t r pv rid l tk c p b ∧
    admitted s t r pv rid l tk c p b ∧
    res = Ok (admitted_snapshot s t r pv rid l tk c p b)).
Proof.
  unfold reserve. intros H. run_all H;
    try (left; by eauto); right.
  all: repeat match goal with
    | E : _ ≫= _ = Some _ |- _ => cbn in E; injection E as <-
    | E : _ <$> _ = Some _ |- _ => cbn in E; injection E as <-
    end; try discriminate.
  all: unfold reserve_after, admitted_snapshot, profile_after, profile_used_after;
    try match goal with Hp : _assert_profile_attempt_capacity _ _ (Some _) = Ok _ |- _ =>
      pose proof (profile_of_capacity _ _ _ _ Hp) as -> end;
    (split; [|split; [|reflexivity]]).
  all: match goal with
    | Hc : assert_call _ _ _ = Ok _ |- _ => apply assert_call_Ok in Hc as [Hprof Hsc] end.
  all: try (destruct (Hsc _ eq_refl) as [Hne Hl]).
  all: try (unfold entry_after; rewrite ?entry_after_lookup_ne by naive_solver; cbn;
      rewrite ?lookup_insert_ne by naive_solver; reflexivity).
  all: match goal with Hv : _validate_reservation _ _ _ = Ok _ |- _ =>
      apply validate_reservation_Ok in Hv as (Hlim & Htk & Hcost) end.
  all: result_inv; repeat match goal with u : unit |- _ => destruct u end.
  all: constructor; try done; eauto.
  all: try (intros u Hu; match goal with
      | Hm : match _ !! (t, r, pv) with _ => _ end = false |- _ =>
        rewrite Hu in Hm; by apply negb_false_iff, bool_decide_eq_true in Hm end).
  all: intros sb [= <-]; split_and!; try done.
  all: try (match goal with Hs : bool_decide (is_Some _) = false |- _ =>
        cbn in Hs; apply bool_decide_eq_false, eq_None_not_Some in Hs; exact Hs end).
  all: intros u Hu; match goal with
    | Hm : match scoped_lookup _ _ _ _ with _ => _ end = false |- _ =>
      cbn in Hm; rewrite Hu in Hm; by apply negb_false_iff, bool_decide_eq_true in Hm
    end.
Qed.
End reserve_run.

(** ** What a run of [reconcile] does *)

Definition settle_after (s : InMemoryProviderBudgetStore) (t scope pv rid : string)
    (u : _Usage) (r : _Reservation) (actual : Z) : InMemoryProviderBudgetStore :=
  put_entry s (t, scope, pv) (t, scope, rid)
    (settle u actual (r_reserved_tokens r)) (set_actual r actual).

(** An open reservation of [scope] and its aggregate. *)
Record open_entry (s : InMemoryProviderBudgetStore) (t scope pv rid : string)
    (u : _Usage) (r : _Reservation) : Prop := {
  oe_usage : _usage s !! (t, scope, pv) = Some u;
  oe_reservation : _reservations s !! (t, scope, rid) = Some r;
  oe_policy : r_policy_version r = pv;
  oe_open : r_actual_total_tokens r = None;
}.

Lemma scoped_replay_Some b u r pv tk c x :
  _assert_scoped_budget_replay (Some b) (Some u) (Some r) pv tk c = Ok x →
  r_policy_version r = pv.
Proof.
  cbn. case_bool_decide; [|done]. unfold _assert_reservation_binding. intros H'.
  result_inv. rewrite !orb_false_iff, negb_false_iff, bool_decide_eq_true in H'. tauto.
Qed.

Lemma scoped_replay_cases b u r pv tk c x :
  _assert_scoped_budget_replay b u r pv tk c = Ok x →
  (b = None ∧ u = None ∧ r = None) ∨
  (∃ sb su sr, b = Some sb ∧ u = Some su ∧ r = Some sr ∧ r_policy_version sr = pv).
Proof.
  destruct b as [sb|], u as [su|], r as [sr|]; cbn; try done; try (left; done).
  intros H. right. exists sb, su, sr. split_and!; try done.
  by apply (scoped_replay_Some sb su sr pv tk c x).
Qed.

Section reconcile_run.
Context (t r pv rid : string) (actual : Z)
  (p : option ProviderProfileAttemptReservation)
  (b : option ProviderScopedBudgetReservation).

Lemma reconcile_run s res s' :
  reconcile t r pv rid actual p b s = (res, s') →
  s' = s ∨
  (0 ≤ actual ∧ ∃ u rv, open_entry s t r pv rid u rv ∧
    ((s' = settle_after s t r pv rid u rv actual ∧
        ((b = None ∧ ∃ snap, res = Ok snap) ∨
          (b ≠ None ∧
            res = Err (ProviderBudgetError "provider_budget_atomic_binding_mismatch")))) ∨
      (∃ sb u2 rv2, b = Some sb ∧ psb_scope_id sb ≠ r ∧
        open_entry s t (psb_scope_id sb) pv rid u2 rv2 ∧ (∃ snap, res = Ok snap) ∧
        s' = settle_after (settle_after s t r pv rid u rv actual)
        t (psb_scope_id sb) pv rid u2 rv2 actual))).
Proof.
  unfold reconcile. intros H. run_all H; try (left; reflexivity); right.
  all: match goal with Hc : assert_call _ _ _ = Ok _ |- _ =>
      apply assert_call_Ok in Hc as [_ Hsc] end.
  all: repeat match goal with Hb : raise_when _ _ = Ok _ |- _ =>
      apply raise_when_Ok in Hb end.
  all: match goal with Hb : _assert_scoped_budget_replay _ _ _ _ _ _ = Ok _ |- _ =>
      apply scoped_replay_cases in Hb
      as [(Hb1 & Hb2 & Hb3)|(sb & su & sr & Hb1 & Hb2 & Hb3 & Hb4)] end;
    simplify_eq/=; try congruence.
  all: match goal with Ha : (?x <? 0) = false |- _ => apply Z.ltb_ge in Ha end.
  all: match goal with Hp : negb (bool_decide (r_policy_version _ = _)) = false |- _ =>
      apply negb_false_iff, bool_decide_eq_true in Hp end.
  all: split; [done|].
  all: match goal with Hu : _usage _ !! (t, r, _) = Some ?u,
      Hr : _reservations _ !! (t, r, _) = Some ?rv |- _ => exists u, rv end.
  all: split; [by constructor|].
  all: first
    [ solve [left; split; [done|left; by eauto]]
    | solve [left; split; [done|right; split; [done|]];
        unfold raise_when in *; case_match; congruence]
    | right; exists sb, su, sr; split_and!; [done|by apply Hsc| |by eauto|done] ].
  constructor; try done.
  by destruct (r_actual_total_tokens sr).
Qed.
End reconcile_run.

(** ** The accounting invariant *)

(** The tokens a reservation counts for: what it used once it is reconciled,
    what it reserved until then. *)
Definition effective_tokens (r : _Reservation) : Z :=
  default (r_reserved_tokens r) (r_actual_total_tokens r).

(** What the actual use of a reservation exceeded it by. *)
Definition overrun (r : _Reservation) : Z :=
  Z.max 0 (effective_tokens r - r_reserved_tokens r).

(** [f] summed over the reservations charged to the aggregate [k]. *)
Definition weight (f : _Reservation → Z) (k rk : string * string * string)
    (r : _Reservation) : Z :=
  if decide (rk.1 = k.1 ∧ r_policy_version r = k.2) then f r else 0.

Definition total (f : _Reservation → Z) (s : InMemoryProviderBudgetStore)
    (k : string * string * string) : Z :=
  map_sum (weight f k) (_reservations s).

(** An aggregate equals the sum of its reservations and respects its limits
    (0 means unlimited); only reconciled overruns exceed the token limit. *)
Record usage_ok (s : InMemoryProviderBudgetStore) (k : string * string * string)
    (u : _Usage) : Prop := {
  uo_limits : limits_assert_valid (u_limits u) = Ok tt;
  uo_attempts : u_attempts u = total (λ _, 1) s k;
  uo_tokens : u_tokens u = total effective_tokens s k;
  uo_cost : u_cost_micros u = total r_reserved_cost_micros s k;
  uo_max_attempts : maximum_attempts (u_limits u) ≠ 0 →
    u_attempts u ≤ maximum_attempts (u_limits u);
  uo_max_cost : maximum_cost_micros (u_limits u) ≠ 0 →
    u_cost_micros u ≤ maximum_cost_micros (u_limits u);
  uo_max_tokens : maximum_tokens (u_limits u) ≠ 0 →
    u_tokens u ≤ maximum_tokens (u_limits u) + total overrun s k;
}.

Record reservation_ok (s : InMemoryProviderBudgetStore) (rk : string * string * string)
    (r : _Reservation) : Prop := {
  ro_tokens : 0 ≤ r_reserved_tokens r;
  ro_cost : 0 ≤ r_reserved_cost_micros r;
  ro_actual : ∀ a, r_actual_total_tokens r = Some a → 0 ≤ a;
  ro_usage : is_Some (_usage s !! (rk.1, r_policy_version r));
}.

Definition entries_ok (s : InMemoryProviderBudgetStore) : Prop :=
  (∀ k u, _usage s !! k = Some u → usage_ok s k u) ∧
  (∀ rk r, _reservations s !! rk = Some r → reservation_ok s rk r).

Definition profile_members (s : InMemoryProviderBudgetStore) (k : string * string)
    : gset (string * string * string) :=
  filter (λ e, e.1 = k) (_profile_attempt_reservations s).

Lemma elem_of_profile_members s k e :
  e ∈ profile_members s k ↔ e.1 = k ∧ e ∈ _profile_attempt_reservations s.
Proof. unfold profile_members. by rewrite fin_sets.elem_of_filter. Qed.

(** A profile's counter is the number of its reservations and never exceeds
    the profile's maximum. *)
Definition profiles_ok (s : InMemoryProviderBudgetStore) : Prop :=
  (∀ k u, _profile_attempt_usage s !! k = Some u →
     pu_used u = Z.of_nat (size (profile_members s k)) ∧ pu_used u ≤ pu_maximum u) ∧
  (∀ e, e ∈ _profile_attempt_reservations s → is_Some (_profile_attempt_usage s !! e.1)).

Definition store_ok (s : InMemoryProviderBudgetStore) : Prop :=
  entries_ok s ∧ profiles_ok s.

Lemma weight_nonneg f k rk r : 0 ≤ f r → 0 ≤ weight f k rk r.
Proof. unfold weight. case_decide; lia. Qed.

Lemma effective_nonneg s rk r : reservation_ok s rk r → 0 ≤ effective_tokens r.
Proof.
  intros [H1 H2 H3 H4]. unfold effective_tokens.
  destruct (r_actual_total_tokens r); cbn; auto.
Qed.

(** The aggregate of a key no reservation is charged to is zero. *)
Lemma total_unused f s k :
  (∀ rk r, _reservations s !! rk = Some r → reservation_ok s rk r) →
  _usage s !! k = None → total f s k = 0.
Proof.
  intros Hr Hk. unfold total, map_sum.
  assert (∀ l, (∀ kv, kv ∈ l → _reservations s !! kv.1 = Some kv.2) →
    sum_by (λ kv, weight f k kv.1 kv.2) l = 0) as Hl.
  { induction l as [|[rk r] l IH]; intros Hin; [done|]. rewrite sum_by_cons, IH.
    - cbn. unfold weight. case_decide as Hd; [|lia]. destruct Hd as [H1 H2].
      destruct (ro_usage _ _ _ (Hr rk r (Hin (rk, r) ltac:(left)))) as [u Hu].
      rewrite H1, H2 in Hu. destruct k as [[??]?]. cbn in *. congruence.
    - intros kv ?. apply Hin. by right. }
  apply Hl. intros [rk r]. by rewrite elem_of_map_to_list.
Qed.

(** Charging one aggregate and recording the reservation keeps the sums. *)
Lemma entries_ok_charge s t r pv rid l tk c :
  entries_ok s → 0 ≤ tk → 0 ≤ c →
  _reservations s !! (t, r, rid) = None →
  limits_assert_valid l = Ok tt →
  (∀ u, _usage s !! (t, r, pv) = Some u → u_limits u = l) →
  _assert_capacity (default (new_usage l) (_usage s !! (t, r, pv))) tk c = Ok tt →
  entries_ok (entry_after s t r pv rid l tk c).
Proof.
  intros [Hu Hr] Htk Hc Hfresh Hl Hsame Hcap.
  assert (∀ f k, total f (entry_after s t r pv rid l tk c) k =
    weight f k (t, r, rid) (fresh_reservation pv tk c) + total f s k) as Htot
    by (intros; by apply map_sum_insert_new).
  assert (∀ f k, k ≠ (t, r, pv) → weight f k (t, r, rid) (fresh_reservation pv tk c) = 0)
    as Hne.
  { intros f [[kt kr] kp] Hk. unfold weight. rewrite decide_False; [done|].
    cbn. naive_solver. }
  assert (∀ f, weight f (t, r, pv) (t, r, rid) (fresh_reservation pv tk c) =
    f (fresh_reservation pv tk c)) as Heq.
  { intros f. unfold weight. by rewrite decide_True. }
  split.
  - intros k u Hk. destruct (decide (k = (t, r, pv))) as [->|Hkne].
    + cbn in Hk. rewrite lookup_insert_eq in Hk. injection Hk as <-.
      set (u0 := default (new_usage l) (_usage s !! (t, r, pv))) in *.
      assert (u_limits u0 = l) as Hul.
      { subst u0. destruct (_usage s !! (t, r, pv)) eqn:E; cbn; auto. }
      assert (u_attempts u0 = total (λ _, 1) s (t, r, pv) ∧
        u_tokens u0 = total effective_tokens s (t, r, pv) ∧
        u_cost_micros u0 = total r_reserved_cost_micros s (t, r, pv) ∧
        0 ≤ total overrun s (t, r, pv)) as (Ha & Ht & Hco & Hov).
      { split_and!.
        4:{ apply sum_by_nonneg. intros [rk r'] _. apply weight_nonneg.
            unfold overrun. lia. }
        all: subst u0; destruct (_usage s !! (t, r, pv)) eqn:E; cbn;
          [by apply Hu|]; by rewrite total_unused. }
      unfold _assert_capacity in Hcap. result_inv.
      rewrite Hul in *.
      constructor; cbn; rewrite ?Htot, ?Heq, ?Hul; cbn; try done; try lia.
      intros Hm. unfold overrun at 1; cbn. lia.
    + rewrite entry_after_lookup_ne in Hk by done. destruct (Hu k u Hk).
      constructor; rewrite ?Htot, ?Hne by done; try done; try lia.
  - intros rk r'. cbn. rewrite lookup_insert_Some. intros [[<- <-]|[Hrk Hin]].
    + constructor; cbn; try lia; [done|]. rewrite lookup_insert_eq. eauto.
    + destruct (Hr _ _ Hin). constructor; try done. cbn.
      rewrite lookup_insert_is_Some'. by right.
Qed.

Lemma total_effective_reserved s k :
  (∀ rk r, _reservations s !! rk = Some r → reservation_ok s rk r) →
  total effective_tokens s k ≤
    total effective_tokens s k + total overrun s k.
Proof.
  intros _. enough (0 ≤ total overrun s k) by lia.
  apply sum_by_nonneg. intros [rk r'] _. apply weight_nonneg. unfold overrun. lia.
Qed.

(** Replacing the reserved tokens of an open reservation by the actual ones
    keeps the sums: the clamp at zero of the code never bites. *)
Lemma entries_ok_settle s t r pv rid u rv actual :
  entries_ok s → 0 ≤ actual → open_entry s t r pv rid u rv →
  entries_ok (settle_after s t r pv rid u rv actual).
Proof.
  intros [Hu Hr] Hact [Husage Hres Hpol Hopen].
  assert (∀ f k, total f (settle_after s t r pv rid u rv actual) k =
    weight f k (t, r, rid) (set_actual rv actual) - weight f k (t, r, rid) rv
    + total f s k) as Htot by (intros; by apply map_sum_insert_old).
  assert (∀ f k, k ≠ (t, r, pv) → ∀ v, r_policy_version v = pv →
    weight f k (t, r, rid) v = 0) as Hne.
  { intros f [[kt kr] kp] Hk v Hv. unfold weight. rewrite decide_False; [done|].
    cbn. intros [??]. apply Hk. congruence. }
  assert (∀ f v, r_policy_version v = pv → weight f (t, r, pv) (t, r, rid) v = f v) as Heq.
  { intros f v Hv. unfold weight. by rewrite decide_True. }
  destruct (Hr _ _ Hres) as [Hr1 Hr2 _ _].
  assert (effective_tokens rv ≤ total effective_tokens s (t, r, pv)) as Hle.
  { rewrite <- (Heq effective_tokens rv) by done.
    apply (map_sum_lookup_le (weight effective_tokens (t, r, pv))); [|done].
    intros k v Hv. eapply weight_nonneg, effective_nonneg, Hr, Hv. }
  assert (effective_tokens rv = r_reserved_tokens rv) as Heff
    by (unfold effective_tokens; by rewrite Hopen).
  split.
  - intros k u' Hk. destruct (decide (k = (t, r, pv))) as [->|Hkne].
    + cbn in Hk. rewrite lookup_insert_eq in Hk. injection Hk as <-.
      destruct (Hu _ _ Husage).
      constructor; rewrite ?Htot, ?Heq by done; cbn; try done; try lia.
      intros Hm. unfold overrun at 1 2. cbn. lia.
    + cbn in Hk. rewrite lookup_insert_ne in Hk by done. destruct (Hu k u' Hk).
      constructor; rewrite ?Htot, ?Hne by done; try done; try lia.
  - intros rk r'. cbn. rewrite lookup_insert_Some. intros [[<- <-]|[Hrk Hin]].
    + constructor; cbn; try lia; [intros a [= <-]; lia|].
      rewrite Hpol, lookup_insert_eq. eauto.
    + destruct (Hr _ _ Hin). constructor; try done. cbn.
      rewrite lookup_insert_is_Some'. by right.
Qed.

Lemma entries_ok_profile s t p : entries_ok s → entries_ok (profile_after s t p).
Proof.
  destruct p as [p|]; [|done]. intros [Hu Hr]. split.
  - intros k u Hk. by destruct (Hu k u Hk); constructor.
  - intros k u Hk. by destruct (Hr k u Hk); constructor.
Qed.

Lemma reserve_entries_ok t r pv rid l tk c p b :
  preserves entries_ok (reserve t r pv rid l tk c p b).
Proof.
  intros s Hs. destruct (reserve t r pv rid l tk c p b s) as [res s'] eqn:H. cbn.
  apply reserve_run in H as [[-> _]|(-> & [Hfr [Htk Hc] Hl Hsame Hcap Hscoped _ _] & _)];
    [done|].
  apply entries_ok_profile.
  assert (entries_ok (entry_after s t r pv rid l tk c)) by (by apply entries_ok_charge).
  destruct b as [b|]; [|done].
  destruct (Hscoped b eq_refl) as (Hne & Hl2 & Hfr2 & Hsame2 & Hcap2).
  apply entries_ok_charge; try done;
    rewrite ?entry_after_lookup_ne by naive_solver; try done.
  cbn. rewrite lookup_insert_ne; naive_solver.
Qed.

Lemma reconcile_entries_ok t r pv rid actual p b :
  preserves entries_ok (reconcile t r pv rid actual p b).
Proof.
  intros s Hs. destruct (reconcile t r pv rid actual p b s) as [res s'] eqn:H. cbn.
  apply reconcile_run in H as [->|(Hact & u & rv & Ho & [[-> _]
    |(sb & u2 & rv2 & -> & Hne & Ho2 & _ & ->)])]; [done|by apply entries_ok_settle|].
  apply entries_ok_settle; [by apply entries_ok_settle|done|].
  destruct Ho2. constructor; try done; cbn; rewrite lookup_insert_ne; naive_solver.
Qed.

(** *** Profile attempts *)

Lemma profiles_ok_frame s s' :
  _profile_attempt_usage s' = _profile_attempt_usage s →
  _profile_attempt_reservations s' = _profile_attempt_reservations s →
  profiles_ok s → profiles_ok s'.
Proof.
  intros H1 H2. unfold profiles_ok, profile_members. by rewrite H1, H2.
Qed.

Definition profile_room (s : InMemoryProviderBudgetStore) (t : string)
    (p : ProviderProfileAttemptReservation) : Prop :=
  (t, pas_scope_id (par_current p), par_reservation_id p)
    ∉ _profile_attempt_reservations s ∧
  ∀ v, _profile_attempt_usage s !! (t, pas_scope_id (par_current p)) = Some v →
    pu_used v < pas_maximum_attempts (par_current p) ∧
    pu_maximum v = pas_maximum_attempts (par_current p).

Lemma capacity_profile s t p u :
  _assert_profile_attempt_capacity s t (Some p) = Ok u → profile_room s t p.
Proof.
  cbn. intros H. result_inv. apply bool_decide_eq_false in Hrun1.
  split; [done|]. intros v Hv. rewrite Hv in *.
  rewrite ?negb_false_iff in *. apply Z.eqb_eq in Hrun0. lia.
Qed.

Lemma profiles_ok_profile s t p :
  profile_assert_valid p = Ok tt → profile_room s t p →
  profiles_ok s → profiles_ok (profile_after s t (Some p)).
Proof.
  intros Hval [Hfresh Hcap] [Hu Hr]. unfold profile_assert_valid, scope_assert_valid in Hval.
  result_inv. apply orb_false_iff in Hrun as [_ Hmax%Z.ltb_ge].
  set (key := (t, pas_scope_id (par_current p))) in *.
  assert (∀ k, k ≠ key → profile_members (profile_after s t (Some p)) k =
    profile_members s k) as Hne.
  { intros k Hk. apply set_eq; intros e. rewrite !elem_of_profile_members. cbn.
    rewrite elem_of_union, elem_of_singleton. split; [|tauto].
    intros [<- [->|?]]; [by destruct Hk|done]. }
  assert (size (profile_members (profile_after s t (Some p)) key) =
    S (size (profile_members s key))) as Hsz.
  { assert (profile_members (profile_after s t (Some p)) key =
      {[ (key, par_reservation_id p) ]} ∪ profile_members s key) as ->.
    { apply set_eq; intros e. rewrite elem_of_union, !elem_of_profile_members. cbn.
      rewrite elem_of_union, !elem_of_singleton. fold key. split; [tauto|].
      intros [->|He]; [by split; [|left]|tauto]. }
    rewrite size_union, size_singleton; [done|].
    intros e. rewrite elem_of_singleton, elem_of_profile_members. intros -> [_ ?]. done. }
  split.
  - intros k v. destruct (decide (k = key)) as [->|Hk].
    + rewrite Hsz. cbn. fold key. rewrite lookup_insert_eq. intros [= <-].
      unfold profile_used_after. fold key. cbn.
      destruct (_profile_attempt_usage s !! key) as [v|] eqn:Hv; cbn.
      * destruct (Hu _ _ Hv). destruct (Hcap v eq_refl). lia.
      * enough (size (profile_members s key) = 0%nat) by lia.
        apply size_empty_iff. intros e. split; [|set_solver].
        intros [He1 He2]%elem_of_profile_members. apply Hr in He2. rewrite He1, Hv in He2.
        by destruct He2.
    + rewrite Hne by done. cbn. fold key. rewrite lookup_insert_ne by done. by apply Hu.
  - intros e. cbn. fold key. rewrite elem_of_union, elem_of_singleton.
    rewrite lookup_insert_is_Some'. intros [->|He]; [by left|right; by apply Hr].
Qed.

Lemma reserve_profiles_ok t r pv rid l tk c p b :
  preserves profiles_ok (reserve t r pv rid l tk c p b).
Proof.
  intros s Hs. destruct (reserve t r pv rid l tk c p b s) as [res s'] eqn:H. cbn.
  apply reserve_run in H as [[-> _]|(-> & [_ _ _ _ _ _ [u Hcap] Hval] & _)]; [done|].
  unfold reserve_after. destruct p as [p|].
  - apply capacity_profile in Hcap.
    apply profiles_ok_profile; [by apply Hval|by destruct b|by destruct b].
  - destruct b; exact Hs.
Qed.

Lemma reconcile_profiles_ok t r pv rid actual p b :
  preserves profiles_ok (reconcile t r pv rid actual p b).
Proof.
  intros s Hs. destruct (reconcile t r pv rid actual p b s) as [res s'] eqn:H. cbn.
  apply reconcile_run in H as [->|(Hact & u & rv & Ho & [[-> _]
    |(sb & u2 & rv2 & -> & Hne & Ho2 & _ & ->)])]; [done|exact Hs|exact Hs].
Qed.

(** *** Every sequence of calls, whether they return or raise *)

Inductive call : Type :=
| Reserve (tenant_id run_id policy_version reservation_id : string)
    (limits : ProviderBudgetLimits) (tokens cost : Z)
    (profile : option ProviderProfileAttemptReservation)
    (scoped : option ProviderScopedBudgetReservation)
| Reconcile (tenant_id run_id policy_version reservation_id : string) (actual : Z)
    (profile : option ProviderProfileAttemptReservation)
    (scoped : option ProviderScopedBudgetReservation).

Definition run_call (op : call) (s : InMemoryProviderBudgetStore)
    : InMemoryProviderBudgetStore :=
  match op with
  | Reserve t r pv rid l tk c p b => (reserve t r pv rid l tk c p b s).2
  | Reconcile t r pv rid a p b => (reconcile t r pv rid a p b s).2
  end.

Lemma store_ok_reachable s : reachable run_call empty_store s → store_ok s.
Proof.
  apply reachable_invariant.
  - split; (split; [intros ?? Hk; cbn in Hk; by rewrite lookup_empty in Hk|]).
    + intros ?? Hk; cbn in Hk; by rewrite lookup_empty in Hk.
    + intros e He. set_solver.
  - intros [t r pv rid l tk c p b|t r pv rid a p b] s' [H1 H2]; split.
    + by apply (reserve_entries_ok t r pv rid l tk c p b).
    + by apply (reserve_profiles_ok t r pv rid l tk c p b).
    + by apply (reconcile_entries_ok t r pv rid a p b).
    + by apply (reconcile_profiles_ok t r pv rid a p b).
Qed.

(** ** Replays *)

Lemma assert_reservation_binding_same pv tk c :
  _assert_reservation_binding (fresh_reservation pv tk c) pv tk c = Ok tt.
Proof.
  unfold _assert_reservation_binding. cbn. by rewrite bool_decide_true, !Z.eqb_refl.
Qed.

Lemma scoped_budget_replay_fresh b u pv tk c :
  u_limits u = psb_limits b →
  _assert_scoped_budget_replay (Some b) (Some u) (Some (fresh_reservation pv tk c))
    pv tk c = Ok tt.
Proof.
  intros Hu. cbn. rewrite bool_decide_true by done. apply assert_reservation_binding_same.
Qed.

(** The entries a fresh admission leaves, as the next call reads them. *)
Lemma reserve_after_reads s t r pv rid l tk c p b :
  admitted s t r pv rid l tk c p b →
  let s' := reserve_after s t r pv rid l tk c p b in
  _usage s' !! (t, r, pv) =
    Some (charge (default (new_usage l) (_usage s !! (t, r, pv))) tk c) ∧
  _reservations s' !! (t, r, rid) = Some (fresh_reservation pv tk c) ∧
  scoped_lookup t (_usage s') pv b =
    b ≫= (λ b, Some (charge (default (new_usage (psb_limits b))
                        (_usage s !! (t, psb_scope_id b, pv))) tk c)) ∧
  scoped_lookup t (_reservations s') rid b =
    b ≫= (λ _, Some (fresh_reservation pv tk c)).
Proof.
  intros [_ _ _ _ _ Hsc _ _]. cbn zeta. unfold reserve_after, profile_after.
  destruct b as [b|]; [destruct (Hsc b eq_refl) as [Hne _]|]; destruct p; cbn;
    rewrite ?lookup_insert_eq; split_and!; try done;
    rewrite ?lookup_insert_ne by congruence; rewrite ?lookup_insert_eq; try done.
Qed.

Lemma profile_after_replay s t r pv rid l tk c p b :
  admitted s t r pv rid l tk c p b →
  let s' := reserve_after s t r pv rid l tk c p b in
  _profile_attempt_for_replay s' t p =
    Ok (p ≫= λ p, _profile_attempt_usage s' !! (t, pas_scope_id (par_current p))).
Proof.
  intros [_ _ _ _ _ _ [u Hcap] _]. destruct p as [p|]; [|done].
  apply capacity_profile in Hcap as [_ Hcap]. cbn.
  rewrite !lookup_insert_eq. cbn.
  replace (_profile_attempt_usage (match b with Some _ => _ | None => _ end))
    with (_profile_attempt_usage s) by by destruct b.
  rewrite bool_decide_true by set_solver.
  unfold profile_used_after.
  destruct (_profile_attempt_usage s !! _) as [v|] eqn:Hv; cbn.
  - destruct (Hcap v eq_refl) as [_ ->]. by rewrite Z.eqb_refl.
  - by rewrite Z.eqb_refl.
Qed.

Section reserve_replay.
Context (t r pv rid : string) (l : ProviderBudgetLimits) (tk c : Z)
  (p : option ProviderProfileAttemptReservation)
  (b : option ProviderScopedBudgetReservation).

(** The checks of a call that do not read the store. *)
Lemma reserve_valid s snap s' :
  reserve t r pv rid l tk c p b s = (Ok snap, s') →
  _validate_binding t r pv rid = Ok tt ∧ _validate_reservation l tk c = Ok tt ∧
  assert_call r p b = Ok tt.
Proof.
  unfold reserve. intros H.
  run_step H; [done|]. run_step H; [done|]. run_step H; [done|].
  by destruct a, a0, a1.
Qed.

Lemma reserve_after_replays s :
  _validate_binding t r pv rid = Ok tt → _validate_reservation l tk c = Ok tt →
  assert_call r p b = Ok tt → admitted s t r pv rid l tk c p b →
  let s' := reserve_after s t r pv rid l tk c p b in
  reserve t r pv rid l tk c p b s' = (Ok (admitted_snapshot s t r pv rid l tk c p b), s').
Proof.
  intros H1 H2 H3 Hadm s'.
  destruct (reserve_after_reads s t r pv rid l tk c p b Hadm) as (R1 & R2 & R3 & R4).
  pose proof (profile_after_replay s t r pv rid l tk c p b Hadm) as R5.
  cbn zeta in R1, R2, R3, R4, R5. fold s' in R1, R2, R3, R4, R5.
  assert (p ≫= (λ p, _profile_attempt_usage s' !! (t, pas_scope_id (par_current p))) =
      p ≫= (λ p, Some (profile_used_after s t p))) as R6.
  { subst s'. destruct p as [q|]; [|done]. cbn. rewrite lookup_insert_eq.
    unfold profile_used_after. by destruct b. }
  destruct Hadm as [_ _ _ Hsame _ Hsc _ _].
  assert (∀ l' k, (∀ u, _usage s !! k = Some u → u_limits u = l') →
      u_limits (default (new_usage l') (_usage s !! k)) = l') as Hlim.
  { intros l' k Hk. destruct (_usage s !! k); cbn; auto. }
  unfold reserve. rewrite (run_lift _ _ _ _ H1), (run_lift _ _ _ _ H2),
    (run_lift _ _ _ _ H3), run_get. cbn zeta. rewrite R1, R2, R3, R4.
  rewrite run_guard by (cbn; by rewrite Hlim, bool_decide_true).
  rewrite run_guard.
  2:{ destruct b as [sb|]; [|done]. destruct (Hsc sb eq_refl) as (_ & _ & _ & Hs & _).
    cbn. by rewrite Hlim, bool_decide_true. }
  rewrite (run_lift _ tt) by apply assert_reservation_binding_same.
  rewrite (run_lift _ tt).
  2:{ destruct b as [sb|]; [|done]. destruct (Hsc sb eq_refl) as (_ & _ & _ & Hs & _).
    apply scoped_budget_replay_fresh. cbn. by rewrite Hlim. }
  by rewrite (run_lift _ _ _ _ R5), R6.
Qed.

(** A reservation is idempotent: the same call after one that
    returned, returns the same receipt and changes nothing, so a retried
    provider call is charged once, in the run's aggregate, in the scoped
    aggregate and in the profile's attempt counter. *)
Theorem reserve_replay_idempotent s snap s' :
  reserve t r pv rid l tk c p b s = (Ok snap, s') →
  reserve t r pv rid l tk c p b s' = (Ok snap, s').
Proof.
  intros H. pose proof (reserve_valid _ _ _ H) as (H1 & H2 & H3).
  pose proof (reserve_run t r pv rid l tk c p b _ _ _ H)
    as [[-> _]|(-> & Hadm & [= ->])]; [exact H|by apply reserve_after_replays].
Qed.
End reserve_replay.

(** ** Properties *)

Lemma assert_predecessors_used_Ok s t ps x :
  assert_predecessors_used s t ps = Ok x →
  Forall (λ q, from_option pu_used 0 (_profile_attempt_usage s !! (t, pas_scope_id q))
               = pas_maximum_attempts q) ps.
Proof.
  induction ps as [|q ps IH]; [constructor|]. cbn. intros H. result_inv.
  constructor; [|by apply IH]. by apply negb_false_iff, Z.eqb_eq in Hrun0.
Qed.

(** C2: after any sequence of [reserve] and [reconcile] calls, also failing
    ones, every aggregate's counters are exactly the sums over the reservations
    charged to it (the clamp at zero in [reconcile] never loses tokens); its
    attempts and cost never exceed their configured maxima, and its tokens
    exceed theirs at most by what reconciled calls really used beyond their
    reservation. *)
Theorem budget_aggregates_exact_and_bounded s k u :
  reachable run_call empty_store s → _usage s !! k = Some u →
  u_attempts u = total (λ _, 1) s k ∧
  u_tokens u = total effective_tokens s k ∧
  u_cost_micros u = total r_reserved_cost_micros s k ∧
  (maximum_attempts (u_limits u) ≠ 0 → u_attempts u ≤ maximum_attempts (u_limits u)) ∧
  (maximum_cost_micros (u_limits u) ≠ 0 →
    u_cost_micros u ≤ maximum_cost_micros (u_limits u)) ∧
  (maximum_tokens (u_limits u) ≠ 0 →
    u_tokens u ≤ maximum_tokens (u_limits u) + total overrun s k).
Proof.
  intros [[Hu _] _]%store_ok_reachable Hk. destruct (Hu k u Hk); auto 10.
Qed.

(** C30: [reserve] is all or nothing: a call that raises leaves the store as it
    was, and one that admits a new reservation charges the run, the scoped
    aggregate and the profile in one step, with capacity left in both
    aggregates, and only when every earlier profile of the plan is exhausted. *)
Theorem reserve_all_or_nothing t r pv rid l tk c p b s :
  match reserve t r pv rid l tk c p b s with
  | (Err _, s') => s' = s
  | (Ok _, s') =>
      _reservations s !! (t, r, rid) = None →
      s' = reserve_after s t r pv rid l tk c p b ∧
      _assert_capacity (default (new_usage l) (_usage s !! (t, r, pv))) tk c = Ok tt ∧
      (∀ sb, b = Some sb → _assert_capacity (default (new_usage (psb_limits sb))
         (_usage s !! (t, psb_scope_id sb, pv))) tk c = Ok tt) ∧
      ∀ pa, p = Some pa →
        Forall (λ q, from_option pu_used 0
                       (_profile_attempt_usage s !! (t, pas_scope_id q))
                     = pas_maximum_attempts q) (par_predecessors pa)
  end.
Proof.
  destruct (reserve t r pv rid l tk c p b s) as [[snap|e] s'] eqn:H;
    apply reserve_run in H as [[-> [[? ?]|[? Hin]]]|(-> & Hadm & Hres)]; try done.
  - by rewrite Hin.
  - destruct Hadm as [_ _ _ _ Hcap Hsc [u Hp] _]. intros _.
    split; [done|]. split; [done|]. split; [by intros sb ?; apply Hsc|].
    intros pa ->. cbn in Hp. result_inv. by eapply assert_predecessors_used_Ok.
Qed.

(** A profile's attempt counter is the number of its distinct reservations
    and never exceeds the maximum the profile was opened with. *)
Theorem profile_attempts_bounded s k u :
  reachable run_call empty_store s → _profile_attempt_usage s !! k = Some u →
  pu_used u = Z.of_nat (size (profile_members s k)) ∧ pu_used u ≤ pu_maximum u.
Proof. intros [_ [Hu _]]%store_ok_reachable Hk. by apply Hu. Qed.

(** *** Witnesses *)

Module example.
Definition limits : ProviderBudgetLimits :=
{| maximum_attempts := 2; maximum_tokens := 100; maximum_cost_micros := 50 |}.
Definition profile : ProviderProfileAttemptReservation :=
{| par_current := {| pas_scope_id := "profile-a"; pas_maximum_attempts := 2 |};
par_reservation_id := "call-1"; par_predecessors := [] |}.
Definition budget : ProviderScopedBudgetReservation :=
{| psb_scope_id := "scope"; psb_limits := limits |}.
(** One call of run "run" in the scope "scope". *)
Definition first : call :=
Reserve "tenant" "run" "p1" "call-1" limits 60 20 (Some profile) (Some budget).
Definition charged : InMemoryProviderBudgetStore := run_call first empty_store.
(** The scope reconciles the call as if it were its own run. *)
Definition half_settled : InMemoryProviderBudgetStore :=
run_call (Reconcile "tenant" "scope" "p1" "call-1" 80 None None) charged.
End example.

Lemma budget_aggregates_exact_and_bounded_witness :
  60 = total effective_tokens example.charged ("tenant", "scope", "p1")%string.
Proof.
  assert (∃ u, _usage example.charged !! ("tenant", "scope", "p1")%string = Some u ∧
    u_tokens u = 60) as (u & Hu & Ht) by (eexists; split; vm_compute; reflexivity).
  rewrite <- Ht.
  apply (budget_aggregates_exact_and_bounded example.charged
    ("tenant", "scope", "p1")%string u); [|exact Hu].
  apply (reachable_step run_call empty_store empty_store example.first). constructor.
Defined.

Lemma profile_attempts_bounded_witness :
  1 ≤ 2.
Proof.
  assert (∃ u, _profile_attempt_usage example.charged !!
    ("tenant", "profile-a")%string = Some u ∧ pu_used u = 1 ∧ pu_maximum u = 2)
    as (u & Hu & Ht & Hm) by (eexists; split_and!; vm_compute; reflexivity).
  rewrite <- Ht, <- Hm.
  apply (profile_attempts_bounded example.charged
    ("tenant", "profile-a")%string u); [|exact Hu].
  apply (reachable_step run_call empty_store empty_store example.first). constructor.
Defined.

Lemma reserve_replay_idempotent_witness :
  ∃ snap s', reserve "tenant" "run" "p1" "call-1" example.limits 60 20
    (Some example.profile) (Some example.budget) s' = (Ok snap, s').
Proof.
  destruct (reserve "tenant" "run" "p1" "call-1" example.limits 60 20
    (Some example.profile) (Some example.budget) empty_store) as [res s'] eqn:H.
  assert (is_ok res = true) as Hok.
  { change res with (res, s').1. rewrite <- H. vm_compute. reflexivity. }
  destruct res as [snap|e]; [|discriminate Hok]. exists snap, s'.
  exact (reserve_replay_idempotent "tenant" "run" "p1" "call-1" example.limits 60 20
    (Some example.profile) (Some example.budget) empty_store snap s' H).
Defined.

(** [reconcile] is not all or nothing: when the scoped reservation of a
    call is already settled, it settles the run's reservation and then raises
    the atomic-binding error, leaving the run's aggregate changed. *)
Theorem reconcile_raises_after_update :
  ∃ s, reachable run_call empty_store s ∧
  ∃ s', reconcile "tenant" "run" "p1" "call-1" 70 (Some example.profile)
          (Some example.budget) s =
        (Err (ProviderBudgetError "provider_budget_atomic_binding_mismatch"), s') ∧
    u_tokens <$> _usage s !! ("tenant", "run", "p1")%string = Some 60 ∧
    u_tokens <$> _usage s' !! ("tenant", "run", "p1")%string = Some 70 ∧
    u_tokens <$> _usage s' !! ("tenant", "scope", "p1")%string = Some 80.
Proof.
  exists example.half_settled. split.
  - apply (reachable_step run_call empty_store example.charged
      (Reconcile "tenant" "scope" "p1" "call-1" 80 None None)).
    apply (reachable_step run_call empty_store empty_store example.first). constructor.
  - eexists. split; [apply surjective_pairing_eq; vm_compute; reflexivity|].
    split_and!; vm_compute; reflexivity.
Qed.
