(* ===== verification/ProviderBinding.v ===== *)
(** * Provider bindings (ananta_contracts/provider_execution.py)

    The hub's portable provider decisions: the binding with its derived
    identifier, its profile form, the authorization a worker receives and the
    entries of an attempt plan.  The endpoint normalizer is a parameter: it
    parses URLs and addresses with urllib and ipaddress, and it is used only
    through its answer, [None] when it raises [ValueError]. *)
From S2P Require Import Prelude PyStr PyVal Digest.

Definition PROVIDER_EXECUTION_BINDING_SCHEMA : string := "ananta.provider-execution-binding.v1".

(** [_IDENTIFIER]: [[A-Za-z0-9][A-Za-z0-9_.:/@+-]{0,255}]. *)
Definition provider_char (c : ascii) : bool :=
  is_alnum_ascii c || bool_decide (c ∈ ["_"; "."; ":"; "/"; "@"; "+"; "-"]%char).

Definition _IDENTIFIER (s : string) : bool :=
  match s with
  | EmptyString => false
  | String c s' => is_alnum_ascii c && str_forall provider_char s' && (str_len s' <=? 255)
  end.

Definition binding_prefix : string := "provider-binding:".

(** [_BINDING_ID]: [provider-binding:[a-f0-9]{64}]. *)
Definition _BINDING_ID (s : string) : bool :=
  match strip_prefix binding_prefix s with Some digest => sha256_re digest | None => false end.

(** ** Data *)

Record ProviderExecutionBinding := {
  pb_provider_id : string;
  pb_model_id : string;
  pb_source : string;
  pb_reason_code : string;
  pb_endpoint_identity : string;
  pb_schema : string;
}.

Record ProviderProfileExecutionBinding := {
  pp_profile_id : string;
  pp_binding : ProviderExecutionBinding;
}.

Record ProviderBindingAuthorization := {
  ba_binding_id : string;
  ba_provider_id : string;
  ba_model_id : string;
  ba_endpoint_identity : string;
}.

Record ProviderProfileAttemptPlanEntry := {
  pe_profile_id : string;
  pe_binding_id : string;
  pe_provider_id : string;
  pe_model_id : string;
  pe_maximum_attempts : Z;
  pe_endpoint_identity : string;
}.

#[global] Instance execution_binding_eq_dec : EqDecision ProviderExecutionBinding.
Proof. solve_decision. Defined.
#[global] Instance binding_authorization_eq_dec : EqDecision ProviderBindingAuthorization.
Proof. solve_decision. Defined.
#[global] Instance plan_entry_eq_dec : EqDecision ProviderProfileAttemptPlanEntry.
Proof. solve_decision. Defined.

Definition binding_error (reason : string) : exn := ProviderExecutionBindingError reason.

(** [str(raw.get(k) or "").strip()] *)
Definition stripped (k : string) (raw : dict) : string := strip (str_or_default (dget k raw) "").

Section with_endpoints.
Context `{Digest} (normalize_endpoint : string → string → option string).

(** The endpoint of a binding is its own normal form. *)
Definition check_endpoint (provider_id endpoint invalid not_canonical : string) : result unit :=
  if str_true endpoint then
  match normalize_endpoint provider_id endpoint with
  | None => Err (binding_error invalid)
  | Some normalized =>
      raise_when (bool_decide (normalized ≠ endpoint)) (binding_error not_canonical)
  end
  else Ok tt.

(** *** ProviderExecutionBinding *)

Definition binding_id (b : ProviderExecutionBinding) : string :=
  let values := [pb_schema b; pb_provider_id b; pb_model_id b; pb_source b; pb_reason_code b] in
  let values :=
  if str_true (pb_endpoint_identity b) then values ++ [pb_endpoint_identity b] else values in
  binding_prefix +:+ hexdigest (utf8 (PyStr.join (str1 "000"%char) values)).

Definition binding_validate (b : ProviderExecutionBinding) : result unit :=
  raise_when (bool_decide (pb_schema b ≠ PROVIDER_EXECUTION_BINDING_SCHEMA))
  (binding_error "provider_binding_schema_unsupported") ;;
  for_each (λ v, raise_when (negb (_IDENTIFIER v)) (binding_error "provider_binding_invalid"))
  [pb_provider_id b; pb_model_id b; pb_source b; pb_reason_code b] ;;
  raise_when (bool_decide (lower (pb_model_id b) ∈ ["auto"; "default"; "none"; "null"]))
  (binding_error "provider_model_not_resolved") ;;
  check_endpoint (pb_provider_id b) (pb_endpoint_identity b)
  "provider_endpoint_identity_invalid" "provider_endpoint_identity_not_canonical".

Definition binding_from_mapping (raw : pyval) : result ProviderExecutionBinding :=
  match raw with
  | PDict raw =>
      let b := {|
        pb_provider_id := lower (stripped "provider_id" raw);
        pb_model_id := stripped "model_id" raw;
        pb_source := stripped "source" raw;
        pb_reason_code := stripped "reason_code" raw;
        pb_endpoint_identity := stripped "endpoint_identity" raw;
        pb_schema := stripped "schema" raw |} in
      binding_validate b ;;
      let supplied_id := stripped "binding_id" raw in
      raise_when (str_true supplied_id && bool_decide (supplied_id ≠ binding_id b))
      (binding_error "provider_binding_id_mismatch") ;;
      Ok b
  | _ => Err (binding_error "provider_binding_required")
  end.

(** The optional last entry of a serialized binding. *)
Definition endpoint_entry (endpoint : string) : dict :=
  if str_true endpoint then [("endpoint_identity", PStr endpoint)] else [].

Definition binding_to_dict (b : ProviderExecutionBinding) : result dict :=
  binding_validate b ;;
  Ok ([("schema", PStr (pb_schema b)); ("binding_id", PStr (binding_id b));
      ("provider_id", PStr (pb_provider_id b)); ("model_id", PStr (pb_model_id b));
      ("source", PStr (pb_source b)); ("reason_code", PStr (pb_reason_code b))]
    ++ endpoint_entry (pb_endpoint_identity b)).

(** *** ProviderProfileExecutionBinding *)

Definition profile_binding_validate (p : ProviderProfileExecutionBinding) : result unit :=
  raise_when (negb (_IDENTIFIER (pp_profile_id p))) (binding_error "provider_profile_id_invalid") ;;
  binding_validate (pp_binding p).

Definition profile_binding_from_mapping (raw : pyval) : result ProviderProfileExecutionBinding :=
  match raw with
  | PDict raw =>
      b ← binding_from_mapping (dget "binding" raw);
      let p := {| pp_profile_id := stripped "profile_id" raw; pp_binding := b |} in
      profile_binding_validate p ;; Ok p
  | _ => Err (binding_error "provider_profile_binding_required")
  end.

Definition profile_binding_to_dict (p : ProviderProfileExecutionBinding) : result dict :=
  profile_binding_validate p ;;
  b ← binding_to_dict (pp_binding p);
  Ok [("profile_id", PStr (pp_profile_id p)); ("binding", PDict b)].

(** *** ProviderBindingAuthorization *)

Definition authorization_validate (a : ProviderBindingAuthorization) : result unit :=
  raise_when (negb (_BINDING_ID (ba_binding_id a)))
  (binding_error "provider_authorization_binding_id_invalid") ;;
  raise_when (negb (_IDENTIFIER (ba_provider_id a)) || negb (_IDENTIFIER (ba_model_id a)))
  (binding_error "provider_authorization_binding_invalid") ;;
  raise_when (bool_decide (ba_provider_id a ≠ lower (ba_provider_id a)))
  (binding_error "provider_authorization_provider_not_canonical") ;;
  check_endpoint (ba_provider_id a) (ba_endpoint_identity a)
  "provider_authorization_endpoint_invalid" "provider_authorization_endpoint_not_canonical".

Definition from_binding (b : ProviderExecutionBinding) : result ProviderBindingAuthorization :=
  binding_validate b ;;
  let a := {| ba_binding_id := binding_id b; ba_provider_id := pb_provider_id b;
    ba_model_id := pb_model_id b; ba_endpoint_identity := pb_endpoint_identity b |} in
  authorization_validate a ;; Ok a.

Definition authorization_from_mapping (raw : pyval) : result ProviderBindingAuthorization :=
  match raw with
  | PDict raw =>
      let a := {| ba_binding_id := stripped "binding_id" raw;
        ba_provider_id := stripped "provider_id" raw;
        ba_model_id := stripped "model_id" raw;
        ba_endpoint_identity := stripped "endpoint_identity" raw |} in
      authorization_validate a ;; Ok a
  | _ => Err (binding_error "provider_authorization_binding_required")
  end.

Definition authorization_to_dict (a : ProviderBindingAuthorization) : result dict :=
  authorization_validate a ;;
  Ok ([("binding_id", PStr (ba_binding_id a)); ("provider_id", PStr (ba_provider_id a));
      ("model_id", PStr (ba_model_id a))] ++ endpoint_entry (ba_endpoint_identity a)).

(** *** ProviderProfileAttemptPlanEntry *)

Definition binding_authorization (e : ProviderProfileAttemptPlanEntry)
  : ProviderBindingAuthorization :=
  {| ba_binding_id := pe_binding_id e; ba_provider_id := pe_provider_id e;
    ba_model_id := pe_model_id e; ba_endpoint_identity := pe_endpoint_identity e |}.

Definition entry_validate (e : ProviderProfileAttemptPlanEntry) : result unit :=
  raise_when (negb (_IDENTIFIER (pe_profile_id e)))
  (binding_error "provider_attempt_plan_profile_invalid") ;;
  authorization_validate (binding_authorization e) ;;
  raise_when (negb ((1 <=? pe_maximum_attempts e) && (pe_maximum_attempts e <=? 33)))
  (binding_error "provider_attempt_plan_limit_invalid").

Definition from_profile_binding (p : ProviderProfileExecutionBinding) (maximum_attempts : Z)
  : result ProviderProfileAttemptPlanEntry :=
  profile_binding_validate p ;;
  let b := pp_binding p in
  let e := {| pe_profile_id := pp_profile_id p; pe_binding_id := binding_id b;
    pe_provider_id := pb_provider_id b; pe_model_id := pb_model_id b;
    pe_maximum_attempts := maximum_attempts;
    pe_endpoint_identity := pb_endpoint_identity b |} in
  entry_validate e ;; Ok e.

Definition entry_from_mapping (raw : pyval) : result ProviderProfileAttemptPlanEntry :=
  match raw with
  | PDict raw =>
      maximum ← match py_int (dget "maximum_attempts" raw) with
    | Err e => Err (if is_value_or_type_error e
        then binding_error "provider_attempt_plan_entry_invalid" else e)
    | Ok n => Ok n
    end;
    let e := {| pe_profile_id := stripped "profile_id" raw;
      pe_binding_id := stripped "binding_id" raw;
      pe_provider_id := stripped "provider_id" raw;
      pe_model_id := stripped "model_id" raw;
      pe_maximum_attempts := maximum;
      pe_endpoint_identity := stripped "endpoint_identity" raw |} in
    entry_validate e ;; Ok e
  | _ => Err (binding_error "provider_attempt_plan_entry_required")
  end.

Definition entry_to_dict (e : ProviderProfileAttemptPlanEntry) : result dict :=
  entry_validate e ;;
  Ok ([("profile_id", PStr (pe_profile_id e)); ("binding_id", PStr (pe_binding_id e));
      ("provider_id", PStr (pe_provider_id e)); ("model_id", PStr (pe_model_id e));
      ("maximum_attempts", PInt (pe_maximum_attempts e))]
    ++ endpoint_entry (pe_endpoint_identity e)).
End with_endpoints.

(** ** Identifiers *)

Lemma provider_identifier_char c : is_alnum_ascii c = true → provider_char c = true.
Proof. unfold provider_char. by intros ->. Qed.

Lemma identifier_chars s : _IDENTIFIER s = true → str_forall provider_char s = true ∧ s ≠ "".
Proof.
  destruct s as [|c s]; [done|]. cbn. rewrite !andb_true_iff. intros [[Hc Hs] _].
  by rewrite str_forall_String, Hs, provider_identifier_char.
Qed.

Definition is_nul (c : ascii) : bool := code_point c =? 0.

(** What an identifier's characters are not. *)
Lemma provider_char_spec c : provider_char c = true → is_space c = false ∧ is_nul c = false.
Proof.
  pose proof (all_chars_spec (λ c, negb (provider_char c) || negb (is_space c) && negb (is_nul c))
    eq_refl c) as Hc. cbn beta in Hc. intros Hp. rewrite Hp in Hc. cbn in Hc.
  by rewrite andb_true_iff, !negb_true_iff in Hc.
Qed.

Lemma hex_provider_char c : hex_char c = true → provider_char c = true.
Proof.
  pose proof (all_chars_spec (λ c, negb (hex_char c) || provider_char c) eq_refl c) as Hc.
  cbn beta in Hc. intros Hp. by rewrite Hp in Hc.
Qed.

Lemma identifier_strip s : _IDENTIFIER s = true → strip s = s.
Proof.
  intros [Hs _]%identifier_chars. apply strip_no_space.
  eapply str_forall_impl; [|exact Hs]. intros c Hc. by apply negb_true_iff, provider_char_spec.
Qed.

Lemma binding_id_inv s : _BINDING_ID s = true → ∃ h, s = binding_prefix +:+ h ∧ sha256_re h = true.
Proof.
  unfold _BINDING_ID. destruct (strip_prefix binding_prefix s) as [h|] eqn:Hp; [|done].
  apply strip_prefix_spec in Hp. by exists h.
Qed.

Lemma binding_id_strip s : _BINDING_ID s = true → strip s = s ∧ s ≠ "".
Proof.
  intros (h & -> & Hh)%binding_id_inv. split; [|done]. apply strip_no_space.
  rewrite str_forall_app. apply andb_true_iff. split; [by vm_compute|].
  unfold sha256_re in Hh. apply andb_true_iff in Hh as [_ Hh].
  eapply str_forall_impl; [|exact Hh]. intros c Hc.
  by apply negb_true_iff, provider_char_spec, hex_provider_char.
Qed.

Lemma binding_id_valid `{Digest} b : _BINDING_ID (binding_id b) = true.
Proof.
  unfold _BINDING_ID, binding_id. rewrite (proj2 (strip_prefix_spec _ _ _) eq_refl).
  apply hexdigest_re.
Qed.

(** ** Joined words *)

Definition nul : string := str1 "000"%char.
Definition no_nul (s : string) : bool := str_forall (λ c, negb (is_nul c)) s.
Definition framed (l : list string) (rest : string) : string :=
  foldr (λ x s, nul +:+ x +:+ s) rest l.

Lemma nul_cons s : nul +:+ s = String "000"%char s.
Proof. done. Qed.

(** What may follow a word: nothing, or the separator. *)
Definition boundary (s : string) : bool := head_is (λ c, negb (is_nul c)) s.

Lemma framed_boundary l rest : boundary rest = false → boundary (framed l rest) = false.
Proof. by destruct l. Qed.

Lemma framed_unique l l' r r' :
  length l = length l' → (∀ x, x ∈ l ++ l' → no_nul x = true) →
  boundary r = false → boundary r' = false → framed l r = framed l' r' → l = l' ∧ r = r'.
Proof.
  revert l'. induction l as [|x l IH]; intros [|y l'] Hlen Hw Hr Hr'; try discriminate Hlen; [done|].
  cbn [framed foldr]. rewrite !nul_cons. intros [= Heq].
  destruct (span_unique (λ c, negb (is_nul c)) x y (framed l r) (framed l' r'))
    as [-> Hrest]; try done.
  - apply Hw. by left.
  - apply Hw, elem_of_app. right. by left.
  - by apply framed_boundary.
  - by apply framed_boundary.
  - destruct (IH l') as [-> ->]; try done; [by injection Hlen|].
    intros z [Hz|Hz]%elem_of_app; apply Hw, elem_of_app; [left|right]; by right.
Qed.

Lemma identifier_no_nul s : _IDENTIFIER s = true → no_nul s = true.
Proof.
  intros [Hs _]%identifier_chars. eapply str_forall_impl; [|exact Hs].
  intros c Hc. by apply negb_true_iff, provider_char_spec.
Qed.

(** ** Serialized fields *)

Lemma stripped_str k d s : dict_get k d = Some (PStr s) → stripped k d = strip s.
Proof.
  intros Hk. unfold stripped, dget. rewrite Hk. unfold str_or_default, por. cbn [from_option id truthy].
  destruct (str_true s) eqn:Hs; [done|]. apply str_true_false in Hs as ->. done.
Qed.

Lemma stripped_absent k d : dict_get k d = None → stripped k d = "".
Proof. intros Hk. unfold stripped, dget. by rewrite Hk. Qed.

Lemma stripped_endpoint d endpoint :
  strip endpoint = endpoint →
  dict_get "endpoint_identity" d = dict_get "endpoint_identity" (endpoint_entry endpoint) →
  stripped "endpoint_identity" d = endpoint.
Proof.
  intros Hs Hd. unfold endpoint_entry in Hd. destruct (str_true endpoint) eqn:He; cbn in Hd.
  - by rewrite (stripped_str _ _ _ Hd).
  - apply str_true_false in He as ->. by apply stripped_absent.
Qed.

Section laws.
Context `{Digest} (normalize_endpoint : string → string → option string).

Notation authorization_validate := (authorization_validate normalize_endpoint).
Notation binding_validate := (binding_validate normalize_endpoint).
Notation entry_validate := (entry_validate normalize_endpoint).

(** The fields of a valid authorization survive [strip]. *)
Lemma authorization_valid_inv a u :
  authorization_validate a = Ok u →
  strip (ba_binding_id a) = ba_binding_id a ∧ strip (ba_provider_id a) = ba_provider_id a ∧
  strip (ba_model_id a) = ba_model_id a ∧ lower (ba_provider_id a) = ba_provider_id a.
Proof.
  unfold ProviderBinding.authorization_validate. intros Hv. result_inv.
  repeat match goal with
    | Hx : _ || _ = false |- _ => apply orb_false_iff in Hx as [? ?]
    | Hx : negb _ = false |- _ => apply negb_false_iff in Hx
    | Hx : bool_decide (_ ≠ _) = false |- _ => apply bool_decide_eq_false, dec_stable in Hx
    end.
  split_and!; [by apply binding_id_strip|by apply identifier_strip..|done].
Qed.

Definition binding_words (b : ProviderExecutionBinding) : list string :=
  [pb_provider_id b; pb_model_id b; pb_source b; pb_reason_code b].

Lemma binding_valid_inv b u :
  binding_validate b = Ok u →
  pb_schema b = PROVIDER_EXECUTION_BINDING_SCHEMA ∧
  (∀ w, w ∈ binding_words b → _IDENTIFIER w = true).
Proof.
  unfold ProviderBinding.binding_validate. intros Hv. result_inv.
  match goal with Hx : bool_decide (_ ≠ _) = false |- _ =>
      apply bool_decide_eq_false, dec_stable in Hx end.
  split; [done|]. match goal with Hx : Forall _ _ |- _ => rewrite Forall_forall in Hx; rename Hx into Hf end.
  intros w Hw. specialize (Hf w Hw). cbn beta in Hf. result_inv. by apply negb_false_iff.
Qed.

(** The text that is hashed to the identifier. *)
Definition binding_digest_text (b : ProviderExecutionBinding) : string :=
  PyStr.join nul ([pb_schema b; pb_provider_id b; pb_model_id b; pb_source b; pb_reason_code b]
    ++ if str_true (pb_endpoint_identity b) then [pb_endpoint_identity b] else []).

Lemma binding_digest_framed b :
  binding_digest_text b = pb_schema b +:+ framed (binding_words b)
  (if str_true (pb_endpoint_identity b) then nul +:+ pb_endpoint_identity b else "").
Proof.
  unfold binding_digest_text. rewrite <- app_comm_cons, join_cons. f_equal.
  unfold join_tail, binding_words, framed.
  rewrite foldr_app. destruct (str_true (pb_endpoint_identity b)); [|done].
  cbn [foldr]. by rewrite str_app_nil.
Qed.

Lemma binding_id_text b : binding_id b = binding_prefix +:+ hexdigest (utf8 (binding_digest_text b)).
Proof.
  unfold binding_id, binding_digest_text. fold nul. destruct (str_true (pb_endpoint_identity b)); [done|].
  by rewrite app_nil_r.
Qed.

(** A binding identifier binds the whole decision: two valid bindings with
    one identifier agree on provider, model, source, reason and endpoint, or
    their own texts clash in the hash function. *)
Theorem binding_id_binds b b' :
  binding_validate b = Ok tt → binding_validate b' = Ok tt →
  binding_id b = binding_id b' →
  b = b' ∨ clash (utf8 (binding_digest_text b)) (utf8 (binding_digest_text b')).
Proof.
  intros [Hs Hw]%binding_valid_inv [Hs' Hw']%binding_valid_inv.
  rewrite !binding_id_text. intros Heq%str_app_inj.
  destruct (decide (binding_digest_text b = binding_digest_text b')) as [Htext|Hne]; [left|right].
  2: { split; [by intros ?%utf8_inj|exact Heq]. }
  rewrite !binding_digest_framed, Hs, Hs' in Htext.
  apply str_app_inj in Htext. apply framed_unique in Htext as [Hwords Hend].
  - unfold binding_words in Hwords. injection Hwords as ? ? ? ?.
    destruct b as [? ? ? ? e s], b' as [? ? ? ? e' s']; cbn in *; subst. f_equal.
    destruct (str_true e) eqn:He, (str_true e') eqn:He'.
    * by apply str_app_inj in Hend.
    * discriminate Hend.
    * discriminate Hend.
    * apply str_true_false in He as ->. by apply str_true_false in He' as ->.
  - done.
  - intros x [Hx|Hx]%elem_of_app; by apply identifier_no_nul; auto.
  - by destruct (str_true (pb_endpoint_identity b)).
  - by destruct (str_true (pb_endpoint_identity b')).
Qed.

(** What the hub writes for a worker is what the worker reads: a provider
    authorization or an entry of an attempt plan that can be serialized is
    rebuilt from its mapping, field by field. *)
Lemma authorization_roundtrip a e :
  strip (ba_endpoint_identity a) = ba_endpoint_identity a →
  strip (pe_endpoint_identity e) = pe_endpoint_identity e →
  (∀ d, authorization_to_dict normalize_endpoint a = Ok d →
    authorization_from_mapping normalize_endpoint (PDict d) = Ok a) ∧
  (∀ d, entry_to_dict normalize_endpoint e = Ok d →
    entry_from_mapping normalize_endpoint (PDict d) = Ok e).
Proof.
  intros Ha He. split; intros d Hd.
  - unfold authorization_to_dict in Hd. result_inv. subst d.
    match goal with Hx : authorization_validate a = Ok ?u |- _ => destruct u; rename Hx into Hv end.
    destruct (authorization_valid_inv _ _ Hv) as (Hb & Hp & Hm & _).
    unfold authorization_from_mapping. cbv beta iota zeta. rewrite (stripped_endpoint _ (ba_endpoint_identity a)) by done.
    rewrite !(stripped_str "binding_id" _ (ba_binding_id a)),
      (stripped_str "provider_id" _ (ba_provider_id a)),
      (stripped_str "model_id" _ (ba_model_id a)) by done.
    rewrite Hb, Hp, Hm. destruct a; cbn [ba_binding_id ba_provider_id ba_model_id
        ba_endpoint_identity] in *. by rewrite Hv.
  - unfold entry_to_dict in Hd. result_inv. subst d.
    match goal with Hx : entry_validate e = Ok ?u |- _ => destruct u; rename Hx into Hv end.
    pose proof Hv as Hv'. unfold ProviderBinding.entry_validate in Hv'. result_inv.
    match goal with Hx : authorization_validate _ = Ok _ |- _ =>
        destruct (authorization_valid_inv _ _ Hx) as (Hb & Hp & Hm & _) end.
    match goal with Hx : negb (_IDENTIFIER _) = false |- _ =>
        apply negb_false_iff, identifier_strip in Hx end.
    unfold entry_from_mapping. cbv beta iota zeta. rewrite (stripped_endpoint _ (pe_endpoint_identity e)) by done.
    rewrite (stripped_str "profile_id" _ (pe_profile_id e)),
      (stripped_str "binding_id" _ (pe_binding_id e)),
      (stripped_str "provider_id" _ (pe_provider_id e)),
      (stripped_str "model_id" _ (pe_model_id e)) by done.
    unfold binding_authorization in Hb, Hp, Hm. cbn [ba_binding_id ba_provider_id ba_model_id] in *.
    match goal with Hx : strip (pe_profile_id e) = _ |- _ => rewrite Hx end. rewrite Hb, Hp, Hm.
    change (dget "maximum_attempts" _) with (PInt (pe_maximum_attempts e)).
    cbn [py_int mbind result_bind].
    destruct e; cbn [pe_profile_id pe_binding_id pe_provider_id pe_model_id pe_maximum_attempts
        pe_endpoint_identity] in *. by rewrite Hv.
Qed.
End laws.

(** ** Examples *)

Definition no_endpoints (provider endpoint : string) : option string := None.

Definition sample_binding : ProviderExecutionBinding :=
  {| pb_provider_id := "ollama"; pb_model_id := "qwen2.5:7b"; pb_source := "profile";
     pb_reason_code := "profile_default"; pb_endpoint_identity := "";
     pb_schema := PROVIDER_EXECUTION_BINDING_SCHEMA |}.

Example binding_id_binds_witness :
  sample_binding = sample_binding ∨ @clash checksum_digest
    (utf8 (binding_digest_text sample_binding)) (utf8 (binding_digest_text sample_binding)).
Proof.
  apply (@binding_id_binds checksum_digest no_endpoints sample_binding sample_binding);
    reflexivity.
Defined.
