(* ===== verification/KeyRing.v ===== *)
(** * Signing keys (workflow_runtime/security.py)

    HMAC-SHA256, the HMAC key ring with rotation and revocation, and the
    interface [KeyRing] the signed contracts are verified against. *)
From S2P Require Import Prelude PyStr PyVal Digest Serialization.

(** ** HMAC (RFC 2104 on a hash with 64-byte blocks) *)

Definition hex_value (c : ascii) : Z :=
  let n := code_point c in if n <? 58 then n - 48 else n - 87.

(** The bytes written by a hexadecimal digest. *)
Fixpoint unhex (s : string) : list Z :=
  match s with
  | String a (String b s) => (16 * hex_value a + hex_value b) :: unhex s
  | _ => []
  end.

Section hmac.
Context `{Digest}.

Definition block_key (key : list Z) : list Z :=
  let key := if 64 <? Z.of_nat (length key) then unhex (hexdigest key) else key in
  key ++ replicate (64 - length key) 0.

Definition masked (mask : Z) (key : list Z) : list Z := map (Z.lxor mask) (block_key key).

Definition hmac_hexdigest (key message : list Z) : string :=
  hexdigest (masked 92 key ++ unhex (hexdigest (masked 54 key ++ message))).

(** [_signature] *)
Definition _signature (key : list Z) (namespace : string) (payload : dict) : result string :=
  text ← canonical_json (PDict payload);
  Ok (hmac_hexdigest key (utf8 (namespace +:+ str1 "010"%char +:+ text))).
End hmac.

(** RFC 4231, test cases 2 and 6. *)
Example hmac_rfc4231_2 :
  @hmac_hexdigest sha256_digest (utf8 "Jefe") (utf8 "what do ya want for nothing?") =
  "5bdcc146bf60754e6a042426089575c75a003f089d2739839dec58b964ec3843".
Proof. vm_compute. reflexivity. Qed.

Example hmac_rfc4231_6 :
  @hmac_hexdigest sha256_digest (replicate 131 170)
    (utf8 "Test Using Larger Than Block-Size Key - Hash Key First") =
  "60e431591ee0b67f0d8a26aacbf5b77f8e0bc6213728c5140546040f0ee37f54".
Proof. vm_compute. reflexivity. Qed.

(** ** The interface *)

(** What a signed contract needs of a key ring: an active key, signatures under
    it, that what was signed is accepted unless the contract is revoked, that
    nothing is accepted for a revoked contract, and that the order of a payload's
    keys does not matter. *)
Class KeyRing (K : Type) := {
  active_key_id : K → string;
  signature_algorithm : K → string;
  ring_sign : K → string → dict → string → result (string * string);
  ring_verify : K → string → dict → string → string → string → result unit;
  contract_revoked : K → string → bool;
  verify_signed : ∀ k namespace payload key_id key_id' signature contract_id,
    ring_sign k namespace payload key_id = Ok (key_id', signature) →
    contract_revoked k contract_id = false →
    ring_verify k namespace payload key_id' signature contract_id = Ok tt;
  sign_active : ∀ k namespace payload key_id signature,
    ring_sign k namespace payload (active_key_id k) = Ok (key_id, signature) →
    key_id = active_key_id k;
  verify_revoked : ∀ k namespace payload key_id signature contract_id,
    contract_revoked k contract_id = true →
    is_ok (ring_verify k namespace payload key_id signature contract_id) = false;
  verify_key_order : ∀ k namespace payload payload' key_id signature contract_id,
    dict_wf payload → payload ≡ₚ payload' →
    ring_verify k namespace payload key_id signature contract_id =
    ring_verify k namespace payload' key_id signature contract_id;
  algorithm_normal : ∀ k, lower (strip (signature_algorithm k)) = signature_algorithm k;
}.

(** [except RuntimeAuthorizationCryptoError] of [_sign_contract] and
    [_verify_contract]. *)
Definition as_signature_error {A} (r : result A) : result A :=
  match r with
  | Err (RuntimeAuthorizationCryptoError c) => Err (SignatureValidationError c)
  | r => r
  end.

Definition _sign_contract `{KeyRing K} (k : K) (namespace : string) (payload : dict)
    (key_id : string) : result (string * string) :=
  as_signature_error (ring_sign k namespace payload key_id).

Definition _verify_contract `{KeyRing K} (k : K) (namespace : string) (payload : dict)
    (key_id signature contract_id : string) : result unit :=
  as_signature_error (ring_verify k namespace payload key_id signature contract_id).

(** ** The HMAC key ring *)

Record HmacKeyRing := {
  _keys : gmap string (list Z);
  _active_key_id : string;
  _revoked_keys : gset string;
  _revoked_contracts : gset string;
}.

(** [HmacKeyRing(keys, active_key_id=...)]; a text key is given as its bytes. *)
Definition hmac_key_ring (keys : gmap string (list Z)) (active : string) : result HmacKeyRing :=
  raise_when (bool_decide (keys !! active = None)) (ValueError "active_signing_key_missing") ;;
  raise_when (existsb (λ kv, Z.of_nat (length kv.2) <? 16) (map_to_list keys))
    (ValueError "signing_key_too_short") ;;
  Ok {| _keys := keys; _active_key_id := active; _revoked_keys := ∅; _revoked_contracts := ∅ |}.

Definition rotate (key_id : string) (key : list Z) : action HmacKeyRing unit :=
  lift (raise_when (Z.of_nat (length key) <? 16) (ValueError "signing_key_too_short")) ;;
  modify (λ k, {| _keys := <[key_id := key]> (_keys k); _active_key_id := key_id;
    _revoked_keys := _revoked_keys k; _revoked_contracts := _revoked_contracts k |}).

Definition revoke_key (key_id : string) : action HmacKeyRing unit :=
  modify (λ k, {| _keys := _keys k; _active_key_id := _active_key_id k;
    _revoked_keys := {[key_id]} ∪ _revoked_keys k; _revoked_contracts := _revoked_contracts k |}).

Definition revoke_contract (contract_id : string) : action HmacKeyRing unit :=
  modify (λ k, {| _keys := _keys k; _active_key_id := _active_key_id k;
    _revoked_keys := _revoked_keys k;
    _revoked_contracts := {[contract_id]} ∪ _revoked_contracts k |}).

(** [hmac.compare_digest] of two strings refuses characters that are not ASCII. *)
Definition compare_digest (a b : string) : result bool :=
  raise_when (negb (str_forall (λ c, code_point c <? 128) (a +:+ b)))
    (TypeError "comparing strings with non-ASCII characters is not supported") ;;
  Ok (bool_decide (a = b)).

Section ring.
Context `{Digest}.

Definition hmac_sign (k : HmacKeyRing) (namespace : string) (payload : dict) (key_id : string)
  : result (string * string) :=
  let selected := str_or key_id (_active_key_id k) in
  raise_when (bool_decide (selected ∈ _revoked_keys k))
  (SignatureValidationError "active_signing_key_revoked") ;;
  match _keys k !! selected with
  | None => Err (SignatureValidationError "signing_key_unknown")
  | Some key => signature ← _signature key namespace payload; Ok (selected, signature)
  end.

Definition hmac_verify (k : HmacKeyRing) (namespace : string) (payload : dict)
  (key_id signature contract_id : string) : result unit :=
  raise_when (bool_decide (contract_id ∈ _revoked_contracts k))
  (SignatureValidationError "signed_contract_revoked") ;;
  raise_when (bool_decide (key_id ∈ _revoked_keys k))
  (SignatureValidationError "signing_key_revoked") ;;
  match _keys k !! key_id with
  | None => Err (SignatureValidationError "signing_key_unknown")
  | Some key =>
      expected ← _signature key namespace payload;
      same ← compare_digest expected signature;
      raise_when (negb same) (SignatureValidationError "signature_invalid")
  end.

Lemma hex_ascii s : sha256_re s = true → str_forall (λ c, code_point c <? 128) s = true.
Proof.
  unfold sha256_re. intros [_ Hs]%andb_true_iff. eapply str_forall_impl; [|exact Hs].
  intros c. pose proof (all_chars_spec (λ c, negb (hex_char c) || (code_point c <? 128)) eq_refl c)
    as Hc. cbn beta in Hc. intros Hp. by rewrite Hp in Hc.
Qed.

Lemma signature_ascii key namespace payload signature :
  _signature key namespace payload = Ok signature → sha256_re signature = true.
Proof. unfold _signature. intros Hs. result_inv. subst signature. apply hexdigest_re. Qed.

Lemma compare_digest_refl s : sha256_re s = true → compare_digest s s = Ok true.
Proof.
  intros Hs%hex_ascii. unfold compare_digest. rewrite str_forall_app, Hs. cbn.
  by rewrite bool_decide_true.
Qed.

Lemma hmac_verify_signed k namespace payload key_id key_id' signature contract_id :
  hmac_sign k namespace payload key_id = Ok (key_id', signature) →
  bool_decide (contract_id ∈ _revoked_contracts k) = false →
  hmac_verify k namespace payload key_id' signature contract_id = Ok tt.
Proof.
  unfold hmac_sign. intros Hs Hc. result_inv.
  destruct (_keys k !! str_or key_id (_active_key_id k)) as [key|] eqn:Hkey; result_inv.
  intros <-. subst signature.
  match goal with Hx : bool_decide (_ ∈ _revoked_keys k) = false |- _ => rename Hx into Hr end.
  unfold hmac_verify. rewrite Hc, Hr, Hkey. cbn [raise_when mbind result_bind].
  match goal with Hx : _signature _ _ _ = Ok _ |- _ => rewrite Hx; apply signature_ascii in Hx end.
  cbn [mbind result_bind]. by rewrite compare_digest_refl.
Qed.

Lemma hmac_verify_revoked k namespace payload key_id signature contract_id :
  bool_decide (contract_id ∈ _revoked_contracts k) = true →
  is_ok (hmac_verify k namespace payload key_id signature contract_id) = false.
Proof. intros Hc. unfold hmac_verify. by rewrite Hc. Qed.

Lemma hmac_verify_key_order k namespace payload payload' key_id signature contract_id :
  dict_wf payload → payload ≡ₚ payload' →
  hmac_verify k namespace payload key_id signature contract_id =
  hmac_verify k namespace payload' key_id signature contract_id.
Proof.
  intros Hwf Hp. unfold hmac_verify, _signature. by rewrite (canonical_json_perm payload payload').
Qed.

Lemma hmac_sign_active k namespace payload key_id signature :
  hmac_sign k namespace payload (_active_key_id k) = Ok (key_id, signature) →
  key_id = _active_key_id k.
Proof.
  unfold hmac_sign. intros Hs. result_inv. destruct (_keys k !! _) as [key|]; result_inv.
  intros <-. unfold str_or. by destruct (str_true (_active_key_id k)).
Qed.

#[global] Instance hmac_ring : KeyRing HmacKeyRing := {
    active_key_id := _active_key_id;
    signature_algorithm _ := "hmac-sha256";
    ring_sign := hmac_sign;
    ring_verify := hmac_verify;
    contract_revoked k contract_id := bool_decide (contract_id ∈ _revoked_contracts k);
    verify_signed := hmac_verify_signed;
    sign_active := hmac_sign_active;
    verify_revoked := hmac_verify_revoked;
    verify_key_order := hmac_verify_key_order;
    algorithm_normal _ := eq_refl;
  }.
End ring.

(** ** What a signature binds *)

Lemma hex_value_bound c : hex_char c = true → 0 ≤ hex_value c < 16.
Proof.
  pose proof (all_chars_spec (λ c, negb (hex_char c) || (0 <=? hex_value c) && (hex_value c <? 16))
    eq_refl c) as Hc. cbn beta in Hc. intros Hp. rewrite Hp in Hc. cbn in Hc. lia.
Qed.

Lemma hex_value_inj c d : hex_char c = true → hex_char d = true → hex_value c = hex_value d → c = d.
Proof.
  intros Hc Hd Hv. apply code_point_inj. unfold hex_value in Hv.
  pose proof (all_chars_spec (λ c, negb (hex_char c) || (48 <=? code_point c) && (code_point c <? 58)
    || (97 <=? code_point c) && (code_point c <? 103)) eq_refl) as Hr. cbn beta in Hr.
  pose proof (Hr c) as H1. pose proof (Hr d) as H2. rewrite Hc in H1. rewrite Hd in H2.
  cbn in H1, H2. repeat case_match; lia.
Qed.

Lemma unhex_inj s t :
  str_forall hex_char s = true → str_forall hex_char t = true →
  String.length s = String.length t → Nat.Even (String.length s) → unhex s = unhex t → s = t.
Proof.
  remember (String.length s) as n eqn:Hn. revert s t Hn.
  induction n as [n IH] using lt_wf_ind. intros [|a [|b s]] [|c [|d t]] Hn Hs Ht Hlen Hev Heq;
    try done; try (subst n; cbn in Hlen; lia); try (subst n; cbn in Hev; by destruct Hev; lia).
  rewrite !str_forall_String, !andb_true_iff in Hs, Ht.
  destruct Hs as (Ha & Hb & Hs), Ht as (Hc & Hd & Ht). cbn [unhex] in Heq. injection Heq as Hv Hr.
  pose proof (hex_value_bound _ Ha). pose proof (hex_value_bound _ Hb).
  pose proof (hex_value_bound _ Hc). pose proof (hex_value_bound _ Hd).
  assert (a = c) as -> by (apply hex_value_inj; [done..|lia]).
  assert (b = d) as -> by (apply hex_value_inj; [done..|lia]).
  do 2 f_equal. subst n. cbn in Hlen, Hev. apply (IH (String.length s)); try done; [cbn; lia|lia|].
  destruct Hev as [m Hm]. exists (m - 1)%nat. lia.
Qed.

Section ring_laws.
Context `{Digest}.

Lemma digest_unhex_inj x y : unhex (hexdigest x) = unhex (hexdigest y) → hexdigest x = hexdigest y.
Proof.
  pose proof (hexdigest_re x) as Hx. pose proof (hexdigest_re y) as Hy. unfold sha256_re, str_len in *.
  apply andb_true_iff in Hx as [Hlx%Z.eqb_eq Hx], Hy as [Hly%Z.eqb_eq Hy].
  apply unhex_inj; [done..|lia|]. exists 32%nat. lia.
Qed.

(** What the HMAC of a message hashes, inside and outside. *)
Definition inner_text (key message : list Z) : list Z := masked 54 key ++ message.
Definition outer_text (key message : list Z) : list Z :=
  masked 92 key ++ unhex (hexdigest (inner_text key message)).

(** These two messages clash under the key, inside the HMAC or outside. *)
Definition hmac_clash (key m m' : list Z) : Prop :=
  clash (inner_text key m) (inner_text key m') ∨ clash (outer_text key m) (outer_text key m').

(** Two messages with one HMAC under a key are equal, or clash under it. *)
Lemma hmac_inj key m m' : hmac_hexdigest key m = hmac_hexdigest key m' → m = m' ∨ hmac_clash key m m'.
Proof.
  intros Heq. change (hexdigest (outer_text key m) = hexdigest (outer_text key m')) in Heq.
  destruct (decide (m = m')) as [->|Hne]; [by left|right].
  destruct (decide (unhex (hexdigest (inner_text key m)) = unhex (hexdigest (inner_text key m'))))
    as [Hin|Hout]; [left|right]; (split; [|done || by apply digest_unhex_inj]).
  - by intros ?%(inj (masked 54 key ++.)).
  - by intros ?%(inj (masked 92 key ++.)).
Qed.

Definition one_line (s : string) : bool := str_forall (λ c, negb (code_point c =? 10)) s.

(** The text that is signed. *)
Definition signed_text (namespace : string) (payload : dict) : result (list Z) :=
  text ← canonical_json (PDict payload);
  Ok (utf8 (namespace +:+ str1 "010"%char +:+ text)).

(** The texts of these two payloads clash under the key. *)
Definition signature_clash (key : list Z) (namespace : string) (payload : dict)
  (namespace' : string) (payload' : dict) : Prop :=
  ∃ m m', signed_text namespace payload = Ok m ∧ signed_text namespace' payload' = Ok m' ∧
  hmac_clash key m m'.

(** The same under the ring's key of this name. *)
Definition ring_clash (k : HmacKeyRing) (key_id namespace : string) (payload : dict)
  (namespace' : string) (payload' : dict) : Prop :=
  ∃ key, _keys k !! key_id = Some key ∧ signature_clash key namespace payload namespace' payload'.

(** A signature under a key is one of a single namespace and payload. *)
Lemma signature_inj key namespace payload namespace' payload' signature :
  one_line namespace = true → one_line namespace' = true →
  json_ok (PDict payload) = true → json_ok (PDict payload') = true →
  _signature key namespace payload = Ok signature →
  _signature key namespace' payload' = Ok signature →
  (namespace = namespace' ∧ norm (PDict payload) = norm (PDict payload')) ∨
  signature_clash key namespace payload namespace' payload'.
Proof.
  unfold _signature. intros Hn Hn' Hp Hp' Hs Hs'.
  apply result_bind_Ok in Hs as (x & Hx & Hs), Hs' as (x' & Hx' & Hs').
  injection Hs as <-. injection Hs' as Hs'. symmetry in Hs'. apply hmac_inj in Hs' as [Htext|Hc].
  2: { right. unfold signature_clash, signed_text. rewrite Hx, Hx'. by do 2 eexists. }
  left. apply utf8_inj in Htext.
  apply (span_unique (λ c, negb (code_point c =? 10))) in Htext as [-> Htext]; [|done..].
  split; [done|]. apply str_app_inj in Htext.
  eapply canonical_text_norm; [done..| |]; [done|by rewrite Htext].
Qed.

(** ** Calls on a ring *)

Inductive ring_op :=
  | OpRotate (key_id : string) (key : list Z)
  | OpRevokeKey (key_id : string)
  | OpRevokeContract (contract_id : string).

Definition run_ring (op : ring_op) (k : HmacKeyRing) : HmacKeyRing :=
  match op with
  | OpRotate key_id key => (rotate key_id key k).2
  | OpRevokeKey key_id => (revoke_key key_id k).2
  | OpRevokeContract contract_id => (revoke_contract contract_id k).2
  end.

Lemma run_ring_revoked op k :
  _revoked_keys k ⊆ _revoked_keys (run_ring op k) ∧
  _revoked_contracts k ⊆ _revoked_contracts (run_ring op k).
Proof.
  destruct op as [id key|id|id]; cbn; [|set_solver..].
  unfold rotate, raise_when. by destruct (Z.of_nat (length key) <? 16).
Qed.

Lemma reachable_revoked k k' :
  reachable run_ring k k' →
  _revoked_keys k ⊆ _revoked_keys k' ∧ _revoked_contracts k ⊆ _revoked_contracts k'.
Proof.
  induction 1 as [|k' op Hr [IH1 IH2]]; [done|].
  destruct (run_ring_revoked op k'). split; by etrans.
Qed.

Lemma hmac_verify_Ok k namespace payload key_id signature contract_id :
  hmac_verify k namespace payload key_id signature contract_id = Ok tt ↔
  contract_id ∉ _revoked_contracts k ∧ key_id ∉ _revoked_keys k ∧
  ∃ key, _keys k !! key_id = Some key ∧ _signature key namespace payload = Ok signature.
Proof.
  unfold hmac_verify. split.
  - intros Hv. result_inv. destruct (_keys k !! key_id) as [key|]; [|done]. result_inv.
    repeat match goal with Hx : bool_decide _ = false |- _ => apply bool_decide_eq_false in Hx end.
    split_and!; [done..|]. exists key. split; [done|].
    match goal with Hx : compare_digest _ _ = Ok _ |- _ =>
        unfold compare_digest in Hx; result_inv end.
    apply negb_false_iff in Hv. subst.
    match goal with Hx : bool_decide (_ = _) = true |- _ => by apply bool_decide_eq_true in Hx as <- end.
  - intros (Hc & Hk & key & Hkey & Hs). rewrite !bool_decide_false by done. rewrite Hkey, Hs.
    cbn [raise_when mbind result_bind].
    by rewrite compare_digest_refl by (by eapply signature_ascii).
Qed.

(** What one key signed once is one payload in one namespace. *)
Lemma verify_unique k namespace payload contract_id namespace' payload' contract_id' key_id signature :
  one_line namespace = true → one_line namespace' = true →
  json_ok (PDict payload) = true → json_ok (PDict payload') = true →
  hmac_verify k namespace payload key_id signature contract_id = Ok tt →
  hmac_verify k namespace' payload' key_id signature contract_id' = Ok tt →
  (namespace = namespace' ∧ norm (PDict payload) = norm (PDict payload')) ∨
  ring_clash k key_id namespace payload namespace' payload'.
Proof.
  rewrite !hmac_verify_Ok. intros Hn Hn' Hp Hp' (_ & _ & key & Hkey & Hs) (_ & _ & key' & Hkey' & Hs').
  rewrite Hkey in Hkey'. injection Hkey' as <-.
  destruct (signature_inj key namespace payload namespace' payload' signature) as [?|Hc]; [done..|by left|].
  right. by exists key.
Qed.

(** The key ring accepts exactly the signatures of its keys: verification
    succeeds when neither the contract nor the key is revoked and the signature
    is the one the ring's key gives, revocation is final whatever rotations
    follow, and one signature is accepted for one namespace and one payload
    only, unless the two signed texts clash in the hash function. *)
Theorem ring_verify_exact k namespace payload key_id signature contract_id :
  (hmac_verify k namespace payload key_id signature contract_id = Ok tt ↔
    contract_id ∉ _revoked_contracts k ∧ key_id ∉ _revoked_keys k ∧
    ∃ key, _keys k !! key_id = Some key ∧ _signature key namespace payload = Ok signature) ∧
  (∀ k', reachable run_ring k k' →
    contract_id ∈ _revoked_contracts k ∨ key_id ∈ _revoked_keys k →
    is_ok (hmac_verify k' namespace payload key_id signature contract_id) = false) ∧
  (∀ namespace' payload' contract_id',
    one_line namespace = true → one_line namespace' = true →
    json_ok (PDict payload) = true → json_ok (PDict payload') = true →
    hmac_verify k namespace payload key_id signature contract_id = Ok tt →
    hmac_verify k namespace' payload' key_id signature contract_id' = Ok tt →
    (namespace = namespace' ∧ norm (PDict payload) = norm (PDict payload')) ∨
    ring_clash k key_id namespace payload namespace' payload').
Proof.
  split; [apply hmac_verify_Ok|]. split.
  - intros k' [Hk Hc]%reachable_revoked Hrev. destruct (hmac_verify k' _ _ _ _ _) as [[]|] eqn:Hv; [|done].
    apply hmac_verify_Ok in Hv as (Hc' & Hk' & _). destruct Hrev as [Hr|Hr]; [apply Hc in Hr|apply Hk in Hr]; done.
  - intros namespace' payload' contract_id'. apply verify_unique.
Qed.
End ring_laws.

(** ** Examples *)

Definition sample_ring : HmacKeyRing :=
  {| _keys := {["k1" := utf8 "0123456789abcdef"]}; _active_key_id := "k1";
     _revoked_keys := ∅; _revoked_contracts := ∅ |}.

Definition sample_signature : string :=
  match @_signature checksum_digest (utf8 "0123456789abcdef") "ns" [("x", PInt 1)] with
  | Ok s => s
  | Err _ => ""
  end.

Example ring_verify_exact_witness :
  @hmac_sign checksum_digest sample_ring "ns" [("x", PInt 1)] "" = Ok ("k1", sample_signature) ∧
  @hmac_verify checksum_digest sample_ring "ns" [("x", PInt 1)] "k1" sample_signature "c" = Ok tt.
Proof.
  split; [vm_compute; reflexivity|].
  apply (proj1 (@ring_verify_exact checksum_digest sample_ring "ns" [("x", PInt 1)] "k1"
    sample_signature "c")).
  split_and!.
  - apply (bool_decide_unpack _). vm_compute. exact I.
  - apply (bool_decide_unpack _). vm_compute. exact I.
  - exists (utf8 "0123456789abcdef"). split; vm_compute; reflexivity.
Defined.
