(* ===== verification/Envelope.v ===== *)
(** * Authorization envelopes (workflow_runtime/security.py)

    The data of the envelope a worker receives from the hub: its fields and
    their normal forms, the structure every envelope is checked for, its loading
    and its serialization.  What a hub writes, a worker reads ([envelope_load]). *)
From S2P Require Import Prelude PyStr PyVal Digest Serialization SchemaEvolution Plan ProviderBinding.

Definition AUTHORIZATION_ENVELOPE_SCHEMA : string := "ananta.runtime_authorization.v1".

Record RuntimeAuthorizationEnvelope := {
  en_envelope_id : string;
  en_tenant_id : string;
  en_workflow_id : string;
  en_run_id : string;
  en_step_id : string;
  en_plan_hash : string;
  en_policy_version : string;
  en_allowed_tools : list string;
  en_allowed_artifacts : list string;
  en_budgets : dict;
  en_issued_at : float;
  en_expires_at : float;
  en_nonce : string;
  en_key_id : string;
  en_signature : string;
  en_bindings : list ProviderBindingAuthorization;
  en_attempt_plan : list ProviderProfileAttemptPlanEntry;
  en_schema : string;
}.

(** [replace(envelope, key_id=..., signature=...)] *)
Definition with_signature (e : RuntimeAuthorizationEnvelope) (key_id signature : string)
    : RuntimeAuthorizationEnvelope :=
  {| en_envelope_id := en_envelope_id e; en_tenant_id := en_tenant_id e;
     en_workflow_id := en_workflow_id e; en_run_id := en_run_id e; en_step_id := en_step_id e;
     en_plan_hash := en_plan_hash e; en_policy_version := en_policy_version e;
     en_allowed_tools := en_allowed_tools e; en_allowed_artifacts := en_allowed_artifacts e;
     en_budgets := en_budgets e; en_issued_at := en_issued_at e;
     en_expires_at := en_expires_at e; en_nonce := en_nonce e; en_key_id := key_id;
     en_signature := signature; en_bindings := en_bindings e;
     en_attempt_plan := en_attempt_plan e; en_schema := en_schema e |}.

(** ** Normal forms of the fields *)

(** [_clean_tuple] of strings. *)
Definition clean_strings (values : list string) : list string :=
  sorted_set (filter (λ s, s ≠ "") (map strip values)).

Definition budget_invalid : exn := contract_error "authorization_budget_invalid".

Definition is_number (v : pyval) : bool :=
  match v with PInt _ | PFloat _ => true | _ => false end.

(** The loop of [_normalize_budgets]. *)
Fixpoint normalize_entries (values normalized : dict) : result dict :=
  match values with
  | [] => Ok normalized
  | (raw_name, v) :: values =>
      let name := strip raw_name in
      raise_when (negb (str_true name) || negb (is_number v)) budget_invalid ;;
      normalize_entries values (dict_set name v normalized)
  end.

Definition _normalize_budgets (values : dict) : result dict :=
  normalized ← normalize_entries values [];
  Ok (sort_by key_leb normalized).

(** A provider entry is given as an object or as a mapping to load. *)
Inductive given (A : Type) :=
| Object (a : A)
| Mapping (raw : pyval).
Arguments Object {A}.
Arguments Mapping {A}.

Definition as_contract_error {A} (r : result A) : result A :=
  match r with
  | Err (ProviderExecutionBindingError c) => Err (contract_error c)
  | r => r
  end.

Definition load {A} (from_mapping : pyval → result A) (x : given A) : result A :=
  match x with Object a => Ok a | Mapping raw => from_mapping raw end.

(** [sorted(values, key=lambda item: (binding_id, provider_id, model_id))] *)
Definition binding_leb (x y : ProviderBindingAuthorization) : bool :=
  if bool_decide (ba_binding_id x = ba_binding_id y) then
    if bool_decide (ba_provider_id x = ba_provider_id y) then str_leb (ba_model_id x) (ba_model_id y)
    else str_leb (ba_provider_id x) (ba_provider_id y)
  else str_leb (ba_binding_id x) (ba_binding_id y).

Section envelopes.
Context `{Digest} (normalize_endpoint : string → string → option string).

Notation authorization_validate := (authorization_validate normalize_endpoint).
Notation entry_validate := (entry_validate normalize_endpoint).

Fixpoint load_bindings (seen : list string) (raw : list (given ProviderBindingAuthorization))
  : result (list ProviderBindingAuthorization) :=
  match raw with
  | [] => Ok []
  | x :: raw =>
      a ← as_contract_error (load (authorization_from_mapping normalize_endpoint) x);
      as_contract_error (authorization_validate a) ;;
      raise_when (bool_decide (ba_binding_id a ∈ seen))
      (contract_error "authorization_provider_binding_duplicate") ;;
      rest ← load_bindings (ba_binding_id a :: seen) raw;
      Ok (a :: rest)
  end.

(** [_normalize_provider_bindings] of a sequence. *)
Definition _normalize_provider_bindings (raw : list (given ProviderBindingAuthorization))
  : result (list ProviderBindingAuthorization) :=
  values ← load_bindings [] raw;
  Ok (sort_by binding_leb values).

Fixpoint load_entries (seen_profiles seen_bindings : list string)
  (raw : list (given ProviderProfileAttemptPlanEntry))
  : result (list ProviderProfileAttemptPlanEntry) :=
  match raw with
  | [] => Ok []
  | x :: raw =>
      e ← as_contract_error (load (entry_from_mapping normalize_endpoint) x);
      as_contract_error (entry_validate e) ;;
      raise_when (bool_decide (pe_profile_id e ∈ seen_profiles)
    || bool_decide (pe_binding_id e ∈ seen_bindings))
    (contract_error "authorization_provider_attempt_plan_duplicate") ;;
    rest ← load_entries (pe_profile_id e :: seen_profiles) (pe_binding_id e :: seen_bindings) raw;
    Ok (e :: rest)
  end.

(** [_normalize_provider_attempt_plan] of a sequence. *)
Definition _normalize_provider_attempt_plan (raw : list (given ProviderProfileAttemptPlanEntry))
  : result (list ProviderProfileAttemptPlanEntry) := load_entries [] [] raw.

(** The elements of a sequence argument. *)
Definition sequence_of {A} (v : pyval) (reason : string) : result (list (given A)) :=
  match v with
  | PNone => Ok []
  | PList l | PTuple l => Ok (map Mapping l)
  | _ => Err (contract_error reason)
  end.

(** ** Structure *)

Definition required_bindings (e : RuntimeAuthorizationEnvelope) : list string :=
  [en_envelope_id e; en_tenant_id e; en_workflow_id e; en_run_id e; en_step_id e;
    en_plan_hash e; en_policy_version e; en_nonce e].

Definition negative (v : pyval) : bool :=
  match num_of v with Some n => num_ltb n (Dyadic 0 0) | None => false end.

(** [{item.binding_id: f(item) for item in l}] *)
Definition keyed {A} (key : A → string) (f : A → ProviderBindingAuthorization) (l : list A)
  : list (string * ProviderBindingAuthorization) :=
  foldl (λ d x, alist_set (key x) (f x) d) [] l.

Definition alist_get {V} (k : string) (l : list (string * V)) : option V :=
  snd <$> List.find (λ kv, bool_decide (kv.1 = k)) l.

Definition plan_mismatch (allowed planned : list (string * ProviderBindingAuthorization)) : bool :=
  bool_decide (allowed = [])
  || bool_decide (sorted_set planned.*1 ≠ sorted_set allowed.*1)
  || existsb (λ kv, bool_decide (alist_get kv.1 allowed ≠ Some kv.2)) planned.

Definition check_attempt_plan (e : RuntimeAuthorizationEnvelope) : result unit :=
  match en_attempt_plan e with
  | [] => Ok tt
  | plan =>
      raise_when (plan_mismatch (keyed ba_binding_id id (en_bindings e))
        (keyed pe_binding_id binding_authorization plan))
      (contract_error "authorization_provider_attempt_plan_binding_mismatch") ;;
      let mismatch := contract_error "authorization_provider_attempt_plan_budget_mismatch" in
      match dget "provider_attempts" (en_budgets e) with
    | PNone | PBool _ => Err mismatch
    | raw_maximum =>
        maximum ← py_int raw_maximum;
        raise_when (negb (maximum =? sum_by pe_maximum_attempts plan)) mismatch
    end
  end.

Definition envelope_assert_structure (e : RuntimeAuthorizationEnvelope) : result unit :=
  raise_when (existsb (λ v, negb (str_true v)) (required_bindings e))
  (contract_error "authorization_binding_required") ;;
  raise_when (bool_decide (en_schema e ≠ AUTHORIZATION_ENVELOPE_SCHEMA))
  (contract_error "authorization_schema_unsupported") ;;
  raise_when (float_leb (en_expires_at e) (en_issued_at e))
  (contract_error "authorization_expiry_invalid") ;;
  raise_when (existsb (λ kv, negative kv.2) (en_budgets e)) budget_invalid ;;
  raise_when (8 <? Z.of_nat (length (en_bindings e)))
  (contract_error "authorization_provider_binding_limit_exceeded") ;;
  raise_when (8 <? Z.of_nat (length (en_attempt_plan e)))
  (contract_error "authorization_provider_attempt_plan_limit_exceeded") ;;
  or_raise (for_each authorization_validate (en_bindings e) ;;
    for_each entry_validate (en_attempt_plan e))
  (contract_error "authorization_provider_binding_invalid") ;;
  check_attempt_plan e.

(** ** Serialization *)

Definition optional_entry (k : string) (l : list pyval) : dict :=
  match l with [] => [] | _ => [(k, PList l)] end.

Definition envelope_to_dict (e : RuntimeAuthorizationEnvelope) : result dict :=
  bindings ← map_result (authorization_to_dict normalize_endpoint) (en_bindings e);
  plan ← map_result (entry_to_dict normalize_endpoint) (en_attempt_plan e);
  Ok ([("schema", PStr (en_schema e)); ("envelope_id", PStr (en_envelope_id e));
      ("tenant_id", PStr (en_tenant_id e)); ("workflow_id", PStr (en_workflow_id e));
      ("run_id", PStr (en_run_id e)); ("step_id", PStr (en_step_id e));
      ("plan_hash", PStr (en_plan_hash e)); ("policy_version", PStr (en_policy_version e));
      ("allowed_tools", PList (map PStr (en_allowed_tools e)));
      ("allowed_artifacts", PList (map PStr (en_allowed_artifacts e)));
      ("budgets", PDict (en_budgets e)); ("issued_at", PFloat (en_issued_at e));
      ("expires_at", PFloat (en_expires_at e)); ("nonce", PStr (en_nonce e));
      ("key_id", PStr (en_key_id e)); ("signature", PStr (en_signature e))]
    ++ optional_entry "allowed_provider_bindings" (map PDict bindings)
    ++ optional_entry "provider_attempt_plan" (map PDict plan)).

(** [to_dict(redacted=True)] *)
Definition envelope_to_dict_redacted (e : RuntimeAuthorizationEnvelope) : result dict :=
  d ← envelope_to_dict e;
  Ok (dict_set "signature" (PStr "[REDACTED]") (dict_set "nonce" (PStr "[REDACTED]") d)).

Definition envelope_signing_payload (e : RuntimeAuthorizationEnvelope) : result dict :=
  d ← envelope_to_dict e; Ok (dict_del "signature" d).

Definition envelope_from_mapping (raw : dict) : result RuntimeAuthorizationEnvelope :=
  raw ← upcast_runtime_contract_for_loading raw "authorization";
  let text k := str_or_default (dget k raw) "" in
  allowed_tools ← _clean_tuple (dget "allowed_tools" raw);
  allowed_artifacts ← _clean_tuple (dget "allowed_artifacts" raw);
  budgets ← py_dict (por (dget "budgets" raw) (PDict []));
  budgets ← _normalize_budgets budgets;
  issued_at ← py_float (por (dget "issued_at" raw) (PInt 0));
  expires_at ← py_float (por (dget "expires_at" raw) (PInt 0));
  raw_bindings ← sequence_of (por (dget "allowed_provider_bindings" raw) (PTuple []))
  "authorization_provider_bindings_invalid";
  bindings ← _normalize_provider_bindings raw_bindings;
  raw_plan ← sequence_of (por (dget "provider_attempt_plan" raw) (PTuple []))
  "authorization_provider_attempt_plan_invalid";
  plan ← _normalize_provider_attempt_plan raw_plan;
  Ok {| en_envelope_id := text "envelope_id"; en_tenant_id := text "tenant_id";
    en_workflow_id := text "workflow_id"; en_run_id := text "run_id";
    en_step_id := text "step_id"; en_plan_hash := text "plan_hash";
    en_policy_version := text "policy_version"; en_allowed_tools := allowed_tools;
    en_allowed_artifacts := allowed_artifacts; en_budgets := budgets;
    en_issued_at := issued_at; en_expires_at := expires_at; en_nonce := text "nonce";
    en_key_id := text "key_id"; en_signature := text "signature";
    en_bindings := bindings; en_attempt_plan := plan;
    en_schema := str_or_default (dget "schema" raw) AUTHORIZATION_ENVELOPE_SCHEMA |}.
End envelopes.

(** ** Normal forms are stable *)

Lemma remove_dups_NoDup {A} `{EqDecision A} (l : list A) : NoDup l → remove_dups l = l.
Proof.
  induction 1 as [|x l Hx Hl IH]; [done|]. cbn. rewrite IH. by case_decide.
Qed.

Lemma filter_all {A} (P : A → Prop) `{!∀ x, Decision (P x)} (l : list A) :
  Forall P l → filter P l = l.
Proof. induction 1 as [|x l Hx Hl IH]; [done|]. by rewrite filter_cons_True, IH. Qed.

Lemma sorted_strings_sorted l :
  StronglySorted (λ a b, str_leb a b = true) (sorted_strings l).
Proof. apply sort_by_sorted; [apply str_leb_trans|apply str_leb_total]. Qed.

Lemma sorted_set_idemp l : sorted_set (sorted_set l) = sorted_set l.
Proof.
  unfold sorted_set. rewrite (remove_dups_NoDup (sorted_strings _)).
  - apply sort_by_id, sorted_strings_sorted.
  - unfold sorted_strings. rewrite sort_by_perm. apply NoDup_remove_dups.
Qed.

Lemma elem_of_sorted_set l x : x ∈ sorted_set l ↔ x ∈ l.
Proof. unfold sorted_set, sorted_strings. by rewrite sort_by_perm, elem_of_remove_dups. Qed.

Lemma clean_strings_elem l x : x ∈ clean_strings l → x ≠ "" ∧ strip x = x.
Proof.
  intros Hx. apply elem_of_sorted_set, list_elem_of_filter in Hx as [Hne Hx]. split; [done|].
  apply list_elem_of_fmap in Hx as (y & -> & _). apply strip_idemp.
Qed.

Lemma clean_strings_idemp l : clean_strings (clean_strings l) = clean_strings l.
Proof.
  unfold clean_strings at 1. rewrite (map_ext_in _ id).
  - rewrite map_id, filter_all; [apply sorted_set_idemp|].
    apply Forall_forall. intros x Hx. by apply (clean_strings_elem l x).
  - intros x Hx. apply (clean_strings_elem l x). by apply list_elem_of_In.
Qed.

Lemma py_str_clean_tuple l : _clean_tuple (PList (map PStr l)) = Ok (clean_strings l).
Proof.
  assert (map (λ v, strip (py_str v)) (map PStr l) = map strip l) as Hm by by rewrite map_map.
  unfold _clean_tuple, clean_strings. destruct l as [|x l]; [done|].
  cbn [map por truthy iterate mbind result_bind] in *. by rewrite Hm.
Qed.

(** A dict of budgets in normal form. *)
Definition budget_entry (kv : string * pyval) : Prop :=
  kv.1 ≠ "" ∧ strip kv.1 = kv.1 ∧ is_number kv.2 = true.

Lemma dict_set_fresh k v d : k ∉ dict_keys d → dict_set k v d = d ++ [(k, v)].
Proof.
  induction d as [|[k' v'] d IH]; [done|]. cbn. rewrite not_elem_of_cons. intros [Hne Hk].
  rewrite bool_decide_false by done. by rewrite IH.
Qed.

Lemma dict_set_Forall (P : string * pyval → Prop) k v d :
  P (k, v) → Forall P d → Forall P (dict_set k v d).
Proof.
  intros Hp. induction 1 as [|[k' v'] d Hx Hd IH]; cbn; [by repeat constructor|].
  case_bool_decide; subst; by constructor.
Qed.

Lemma normalize_entries_Ok l acc d :
  normalize_entries l acc = Ok d → Forall budget_entry acc → dict_wf acc →
  Forall budget_entry d ∧ dict_wf d.
Proof.
  revert acc. induction l as [|[k v] l IH]; intros acc; cbn [normalize_entries].
  - by intros [= ->].
  - intros Hd Ha Hwf. result_inv.
    match goal with Hx : _ || _ = false |- _ =>
      apply orb_false_iff in Hx as [Hk%negb_false_iff Hv%negb_false_iff] end.
    apply IH in Hd; [done| |by apply dict_set_wf].
    apply dict_set_Forall; [|done]. split_and!; [by apply str_true_spec|apply strip_idemp|done].
Qed.

Lemma normalize_entries_run l acc :
  Forall budget_entry l → NoDup (dict_keys (acc ++ l)) →
  normalize_entries l acc = Ok (acc ++ l).
Proof.
  revert acc. induction l as [|[k v] l IH]; intros acc Hl Hnd; cbn [normalize_entries];
    [by rewrite app_nil_r|].
  apply Forall_cons in Hl as [(Hk & Hs & Hv) Hl]. cbn [fst snd] in *.
  rewrite Hs, (proj2 (str_true_spec k) Hk), Hv. cbn [negb orb raise_when mbind result_bind].
  assert (k ∉ dict_keys acc) as Hfresh.
  { unfold dict_keys in *. rewrite fmap_app in Hnd. apply NoDup_app in Hnd as (_ & Hdis & _).
    intros Hin. apply (Hdis k Hin). left. }
  rewrite dict_set_fresh, IH; [by rewrite <- app_assoc|done|by rewrite <- app_assoc|done].
Qed.

Lemma budgets_normal l d :
  _normalize_budgets l = Ok d → _normalize_budgets d = Ok d.
Proof.
  unfold _normalize_budgets. intros Hd. result_inv. subst d.
  match goal with Hx : normalize_entries l [] = Ok ?n |- _ =>
    rename n into m; apply normalize_entries_Ok in Hx as [Hf Hwf]; [|constructor|constructor] end.
  assert (sort_by key_leb m ≡ₚ m) as Hp by apply sort_by_perm.
  rewrite normalize_entries_run.
  - cbn [app mbind result_bind]. f_equal. apply sort_by_id, sort_by_sorted.
    + intros x y z. apply str_leb_trans.
    + intros x y. apply str_leb_total.
  - by rewrite Hp.
  - cbn [app]. unfold dict_keys. by rewrite Hp.
Qed.

Lemma binding_leb_trans x y z :
  binding_leb x y = true → binding_leb y z = true → binding_leb x z = true.
Proof.
  unfold binding_leb. intros Hxy Hyz.
  repeat case_bool_decide; try congruence; try (by eapply str_leb_trans).
  all: repeat match goal with
  | H1 : str_leb ?a ?b = true, H2 : str_leb ?b ?a = true |- _ =>
      pose proof (str_leb_antisym _ _ H1 H2); congruence
  | H : ?a = ?b |- _ => first [rewrite H in *|rewrite <- H in *]; clear H
  end.
Qed.

Lemma binding_leb_total x y : binding_leb x y = true ∨ binding_leb y x = true.
Proof.
  unfold binding_leb. repeat case_bool_decide; try congruence; apply str_leb_total.
Qed.

Lemma sort_bindings_idemp l : sort_by binding_leb (sort_by binding_leb l) = sort_by binding_leb l.
Proof. apply sort_by_id, sort_by_sorted; [apply binding_leb_trans|apply binding_leb_total]. Qed.

Lemma as_contract_error_Ok {A} (r : result A) a : as_contract_error r = Ok a ↔ r = Ok a.
Proof. by destruct r as [|[]]. Qed.

Section provider_lists.
Context `{Digest} (normalize_endpoint : string → string → option string).

Notation authorization_validate := (authorization_validate normalize_endpoint).
Notation entry_validate := (entry_validate normalize_endpoint).
Notation load_bindings := (load_bindings normalize_endpoint).
Notation load_entries := (load_entries normalize_endpoint).

Lemma load_bindings_Ok seen raw l :
  load_bindings seen raw = Ok l →
  Forall (λ a, authorization_validate a = Ok tt) l ∧ NoDup (map ba_binding_id l) ∧
  (∀ x, x ∈ seen → x ∉ map ba_binding_id l).
Proof.
  revert seen l. induction raw as [|x raw IH]; intros seen l; cbn [Envelope.load_bindings].
  - intros [= <-]. split_and!; [constructor|constructor|]. intros x _ []%elem_of_nil.
  - intros Hl. result_inv. subst l.
    repeat match goal with Hx : as_contract_error _ = Ok _ |- _ => rewrite as_contract_error_Ok in Hx end.
    repeat match goal with u : unit |- _ => destruct u end.
    match goal with Hx : bool_decide _ = false |- _ => apply bool_decide_eq_false in Hx end.
    match goal with Hx : load_bindings _ _ = Ok _ |- _ => apply IH in Hx as (Hf & Hnd & Hs) end.
    split_and!.
    + by constructor.
    + cbn. constructor; [|done]. apply Hs. by left.
    + intros y Hy. cbn. rewrite not_elem_of_cons. split; [by intros ->|]. apply Hs. by right.
Qed.

Lemma load_bindings_run seen raw l :
  Forall2 (λ x a, load (authorization_from_mapping normalize_endpoint) x = Ok a) raw l →
  Forall (λ a, authorization_validate a = Ok tt) l → NoDup (map ba_binding_id l) →
  (∀ x, x ∈ seen → x ∉ map ba_binding_id l) → load_bindings seen raw = Ok l.
Proof.
  intros Hl. revert seen. induction Hl as [|x a raw l Hx Hl IH]; intros seen Hv Hnd Hs; [done|].
  apply Forall_cons in Hv as [Ha Hv]. apply NoDup_cons in Hnd as [Hfresh Hnd].
  cbn [Envelope.load_bindings]. rewrite Hx. cbn [as_contract_error mbind result_bind].
  rewrite Ha. cbn [as_contract_error mbind result_bind].
  rewrite bool_decide_false by (intros Hin; apply (Hs _ Hin); by left).
  cbn [raise_when mbind result_bind]. rewrite IH; [done|done|done|].
  intros y [->|Hy]%elem_of_cons; [done|]. intros Hin. apply (Hs y Hy). by right.
Qed.

Lemma load_entries_Ok seen seen' raw l :
  load_entries seen seen' raw = Ok l →
  Forall (λ e, entry_validate e = Ok tt) l ∧ NoDup (map pe_profile_id l) ∧
  NoDup (map pe_binding_id l) ∧ (∀ x, x ∈ seen → x ∉ map pe_profile_id l) ∧
  (∀ x, x ∈ seen' → x ∉ map pe_binding_id l).
Proof.
  revert seen seen' l. induction raw as [|x raw IH]; intros seen seen' l; cbn [Envelope.load_entries].
  - intros [= <-]. split_and!; [constructor..| |]; intros x _ []%elem_of_nil.
  - intros Hl. result_inv. subst l.
    repeat match goal with Hx : as_contract_error _ = Ok _ |- _ => rewrite as_contract_error_Ok in Hx end.
    repeat match goal with u : unit |- _ => destruct u end.
    match goal with Hx : _ || _ = false |- _ =>
        apply orb_false_iff in Hx as [Hp%bool_decide_eq_false Hb%bool_decide_eq_false] end.
    match goal with Hx : load_entries _ _ _ = Ok _ |- _ =>
        apply IH in Hx as (Hf & Hnd & Hnd' & Hs & Hs') end.
    split_and!.
    + by constructor.
    + cbn. constructor; [|done]. apply Hs. by left.
    + cbn. constructor; [|done]. apply Hs'. by left.
    + intros y Hy. cbn. rewrite not_elem_of_cons. split; [by intros ->|]. apply Hs. by right.
    + intros y Hy. cbn. rewrite not_elem_of_cons. split; [by intros ->|]. apply Hs'. by right.
Qed.

Lemma load_entries_run seen seen' raw l :
  Forall2 (λ x e, load (entry_from_mapping normalize_endpoint) x = Ok e) raw l →
  Forall (λ e, entry_validate e = Ok tt) l → NoDup (map pe_profile_id l) →
  NoDup (map pe_binding_id l) → (∀ x, x ∈ seen → x ∉ map pe_profile_id l) →
  (∀ x, x ∈ seen' → x ∉ map pe_binding_id l) → load_entries seen seen' raw = Ok l.
Proof.
  intros Hl. revert seen seen'.
  induction Hl as [|x e raw l Hx Hl IH]; intros seen seen' Hv Hnd Hnd' Hs Hs'; [done|].
  apply Forall_cons in Hv as [He Hv]. apply NoDup_cons in Hnd as [Hf Hnd].
  apply NoDup_cons in Hnd' as [Hf' Hnd'].
  cbn [Envelope.load_entries]. rewrite Hx. cbn [as_contract_error mbind result_bind].
  rewrite He. cbn [as_contract_error mbind result_bind].
  rewrite !bool_decide_false by
    (intros Hin; first [apply (Hs _ Hin)|apply (Hs' _ Hin)]; by left).
  cbn [orb raise_when mbind result_bind]. rewrite IH; try done.
  - intros y [->|Hy]%elem_of_cons; [done|]. intros Hin. apply (Hs y Hy). by right.
  - intros y [->|Hy]%elem_of_cons; [done|]. intros Hin. apply (Hs' y Hy). by right.
Qed.
End provider_lists.

(** ** Issued envelopes *)

Lemma loading_current `{Digest} d contract_type target :
  RUNTIME_CONTRACT_TARGETS contract_type = Some target → dget "schema" d = PStr target →
  upcast_runtime_contract_for_loading d contract_type = Ok d.
Proof.
  intros Ht Hd. unfold upcast_runtime_contract_for_loading. rewrite Ht, Hd.
  unfold str_or_default, por. cbn [truthy]. destruct (str_true target) eqn:Hs.
  - cbn [py_str]. by rewrite bool_decide_true, orb_true_r.
  - apply str_true_false in Hs as ->. done.
Qed.

Lemma text_of s : str_or_default (PStr s) "" = s.
Proof.
  unfold str_or_default, por. cbn [truthy]. destruct (str_true s) eqn:Hs; [done|].
  by apply str_true_false in Hs as ->.
Qed.

Section envelope_laws.
Context `{Digest} (normalize_endpoint : string → string → option string).
(** The normalizer returns URLs, which have no outer white space. *)
Context (endpoint_stripped : ∀ provider endpoint url,
    normalize_endpoint provider endpoint = Some url → strip url = url).

Notation authorization_validate := (authorization_validate normalize_endpoint).
Notation entry_validate := (entry_validate normalize_endpoint).

Lemma valid_endpoint a u : authorization_validate a = Ok u →
  strip (ba_endpoint_identity a) = ba_endpoint_identity a.
Proof.
  unfold ProviderBinding.authorization_validate. intros Hv. result_inv.
  unfold check_endpoint in Hv. destruct (str_true (ba_endpoint_identity a)) eqn:He.
  - destruct (normalize_endpoint _ _) as [url|] eqn:Hn; [|done]. result_inv.
    apply bool_decide_eq_false, dec_stable in Hv as <-. by eapply endpoint_stripped.
  - by apply str_true_false in He as ->.
Qed.

Lemma valid_entry e u : entry_validate e = Ok u →
  strip (pe_endpoint_identity e) = pe_endpoint_identity e.
Proof.
  unfold ProviderBinding.entry_validate. intros Hv. result_inv.
  match goal with Hx : authorization_validate _ = Ok _ |- _ => apply valid_endpoint in Hx end.
  done.
Qed.

(** An envelope whose fields are in normal form. *)
Record envelope_normal (e : RuntimeAuthorizationEnvelope) : Prop := {
    nr_tools : clean_strings (en_allowed_tools e) = en_allowed_tools e;
    nr_artifacts : clean_strings (en_allowed_artifacts e) = en_allowed_artifacts e;
    nr_budgets : _normalize_budgets (en_budgets e) = Ok (en_budgets e);
    nr_bindings : Forall (λ a, authorization_validate a = Ok tt) (en_bindings e);
    nr_binding_ids : NoDup (map ba_binding_id (en_bindings e));
    nr_sorted : sort_by binding_leb (en_bindings e) = en_bindings e;
    nr_plan : Forall (λ x, entry_validate x = Ok tt) (en_attempt_plan e);
    nr_profiles : NoDup (map pe_profile_id (en_attempt_plan e));
    nr_plan_ids : NoDup (map pe_binding_id (en_attempt_plan e));
    nr_schema : en_schema e = AUTHORIZATION_ENVELOPE_SCHEMA;
  }.

Lemma dicts_load {A} (to_dict : A → result dict) (from_mapping : pyval → result A) l ds :
  (∀ a d, a ∈ l → to_dict a = Ok d → from_mapping (PDict d) = Ok a) →
  map_result to_dict l = Ok ds →
  Forall2 (λ x a, load from_mapping x = Ok a) (map Mapping (map PDict ds)) l.
Proof.
  intros Hl Hds. apply map_result_Ok in Hds. revert Hl.
  induction Hds as [|a d l ds Hd Hds IH]; intros Hl; cbn; constructor.
  - apply Hl; [by left|done].
  - apply IH. intros b x Hb. apply Hl. by right.
Qed.

Lemma sequence_entry {A} k k' l rest reason :
  k' ≠ k → sequence_of (A:=A) (por (dget k (optional_entry k (map PDict l) ++
        optional_entry k' rest)) (PTuple [])) reason = Ok (map Mapping (map PDict l)).
Proof.
  intros Hne. destruct l as [|x l]; cbn.
  - destruct rest as [|y rest]; [done|]. unfold dget. cbn. by rewrite bool_decide_false.
  - unfold dget. cbn. by rewrite bool_decide_true.
Qed.

Lemma sequence_last {A} k k' l first reason :
  k' ≠ k → sequence_of (A:=A) (por (dget k (optional_entry k' first ++
        optional_entry k (map PDict l))) (PTuple [])) reason = Ok (map Mapping (map PDict l)).
Proof.
  intros Hne. rewrite <- (app_nil_r (optional_entry k _)).
  assert (dget k (optional_entry k' first ++ optional_entry k (map PDict l) ++ []) =
      dget k (optional_entry k (map PDict l) ++ optional_entry k' [])) as ->.
  { destruct first as [|y first]; [done|]. unfold dget. cbn. by rewrite bool_decide_false. }
  by apply sequence_entry.
Qed.

Lemma por_dict d : por (PDict d) (PDict []) = PDict d.
Proof. by destruct d. Qed.

Lemma load_valid_binding a d : authorization_validate a = Ok tt →
  authorization_to_dict normalize_endpoint a = Ok d →
  authorization_from_mapping normalize_endpoint (PDict d) = Ok a.
Proof.
  intros Hv Hd. refine (proj1 (authorization_roundtrip normalize_endpoint a
        {| pe_profile_id := ""; pe_binding_id := ""; pe_provider_id := ""; pe_model_id := "";
          pe_maximum_attempts := 0; pe_endpoint_identity := "" |} _ eq_refl) d Hd).
  by eapply valid_endpoint.
Qed.

Lemma load_valid_entry e d : entry_validate e = Ok tt →
  entry_to_dict normalize_endpoint e = Ok d →
  entry_from_mapping normalize_endpoint (PDict d) = Ok e.
Proof.
  intros Hv Hd. refine (proj2 (authorization_roundtrip normalize_endpoint
        (binding_authorization e) e _ _) d Hd); by apply (valid_entry e tt).
Qed.

Lemma envelope_eta e : e = {|
    en_envelope_id := en_envelope_id e; en_tenant_id := en_tenant_id e;
    en_workflow_id := en_workflow_id e; en_run_id := en_run_id e; en_step_id := en_step_id e;
    en_plan_hash := en_plan_hash e; en_policy_version := en_policy_version e;
    en_allowed_tools := en_allowed_tools e; en_allowed_artifacts := en_allowed_artifacts e;
    en_budgets := en_budgets e; en_issued_at := en_issued_at e; en_expires_at := en_expires_at e;
    en_nonce := en_nonce e; en_key_id := en_key_id e; en_signature := en_signature e;
    en_bindings := en_bindings e; en_attempt_plan := en_attempt_plan e; en_schema := en_schema e |}.
Proof. by destruct e. Qed.

(** What a hub writes, a worker reads. *)
Lemma envelope_load e d :
  envelope_normal e → en_issued_at e ≠ S754_zero true → en_expires_at e ≠ S754_zero true →
  envelope_to_dict normalize_endpoint e = Ok d →
  envelope_from_mapping normalize_endpoint d = Ok e.
Proof.
  intros Hn Hi Hx Hd. unfold envelope_to_dict in Hd. result_inv.
  match goal with H1 : map_result (authorization_to_dict _) _ = Ok ?bs,
      H2 : map_result (entry_to_dict _) _ = Ok ?es |- _ =>
      rename bs into bs', es into es', H1 into Hbs, H2 into Hes end.
  unfold envelope_from_mapping.
  rewrite (loading_current d "authorization" AUTHORIZATION_ENVELOPE_SCHEMA); [|done|].
  2:{ subst d. change (PStr (en_schema e) = PStr AUTHORIZATION_ENVELOPE_SCHEMA).
    by rewrite (nr_schema e Hn). }
  cbn [mbind result_bind]. cbv zeta. subst d.
  change (dget "allowed_tools" _) with (PList (map PStr (en_allowed_tools e))).
  change (dget "allowed_artifacts" _) with (PList (map PStr (en_allowed_artifacts e))).
  change (dget "budgets" _) with (PDict (en_budgets e)).
  change (dget "issued_at" _) with (PFloat (en_issued_at e)).
  change (dget "expires_at" _) with (PFloat (en_expires_at e)).
  change (dget "allowed_provider_bindings" _) with (dget "allowed_provider_bindings"
      (optional_entry "allowed_provider_bindings" (map PDict bs') ++
        optional_entry "provider_attempt_plan" (map PDict es'))).
  change (dget "provider_attempt_plan" _) with (dget "provider_attempt_plan"
      (optional_entry "allowed_provider_bindings" (map PDict bs') ++
        optional_entry "provider_attempt_plan" (map PDict es'))).
  rewrite !py_str_clean_tuple, (nr_tools e Hn), (nr_artifacts e Hn). cbn [mbind result_bind].
  rewrite por_dict. cbn [py_dict mbind result_bind]. rewrite (nr_budgets e Hn).
  assert (∀ x, x ≠ S754_zero true → py_float (por (PFloat x) (PInt 0)) = Ok x) as Hf
    by (by intros [[]| | |]).
  rewrite (Hf _ Hi), (Hf _ Hx). cbn [mbind result_bind].
  rewrite sequence_entry, sequence_last by done. cbn [mbind result_bind].
  unfold _normalize_provider_bindings, _normalize_provider_attempt_plan.
  rewrite (load_bindings_run normalize_endpoint [] _ (en_bindings e)).
  - cbn [mbind result_bind]. rewrite (nr_sorted e Hn).
    rewrite (load_entries_run normalize_endpoint [] [] _ (en_attempt_plan e)).
    + cbn [mbind result_bind]. f_equal.
      etrans; [|symmetry; apply envelope_eta]. f_equal; try exact (text_of _).
      change (dget "schema" _) with (PStr (en_schema e)). by rewrite (nr_schema e Hn).
    + eapply dicts_load; [|exact Hes]. intros a d Ha. apply load_valid_entry.
      by apply (proj1 (Forall_forall _ _) (nr_plan e Hn)).
    + apply (nr_plan e Hn).
    + apply (nr_profiles e Hn).
    + apply (nr_plan_ids e Hn).
    + intros x []%elem_of_nil.
    + intros x []%elem_of_nil.
  - eapply dicts_load; [|exact Hbs]. intros a d Ha. apply load_valid_binding.
    by apply (proj1 (Forall_forall _ _) (nr_bindings e Hn)).
  - apply (nr_bindings e Hn).
  - apply (nr_binding_ids e Hn).
  - intros x []%elem_of_nil.
Qed.
End envelope_laws.

(** ** What a payload determines *)

Lemma budgets_norm b : _normalize_budgets b = Ok b → norm (PDict b) = PDict b.
Proof.
  unfold _normalize_budgets. intros Hb. result_inv.
  match goal with Hx : normalize_entries _ _ = Ok ?m, Hs : sort_by _ ?m = _ |- _ =>
    apply normalize_entries_Ok in Hx as [Hf _]; [|constructor|constructor]; rename m into n, Hs into Heq end.
  assert (Forall budget_entry b) as Hn by by rewrite <- Heq, sort_by_perm.
  cbn [norm]. rewrite (map_ext_in _ id), map_id.
  - f_equal. apply sort_by_id. rewrite <- Heq. apply sort_by_sorted.
    + intros x y z. apply str_leb_trans.
    + intros x y. apply str_leb_total.
  - intros [k v] Hin%list_elem_of_In. apply (proj1 (Forall_forall _ _) Hn) in Hin as (_ & _ & Hv).
    by destruct v.
Qed.

(** The fields of two dicts with one normal form. *)
Ltac norm_field Hd Hd' Hn k :=
  let Hk := fresh "Hk" in
  pose proof (norm_dict_get _ _ k Hd Hd' Hn) as Hk; try (injection Hk as Hk).

Ltac norm_fields Hd Hd' Hn keys :=
  lazymatch keys with
  | (?ks, ?k) => norm_fields Hd Hd' Hn ks; norm_field Hd Hd' Hn k
  | ?k => norm_field Hd Hd' Hn k
  end.

Section unique.
Context `{Digest} (normalize_endpoint : string → string → option string).

Lemma endpoint_unique s s' :
  norm <$> dict_get "endpoint_identity" (endpoint_entry s) =
  norm <$> dict_get "endpoint_identity" (endpoint_entry s') → s = s'.
Proof. destruct s, s'; try done. by intros [= -> ->]. Qed.

Lemma concrete_wf (d : dict) s :
  bool_decide (NoDup (dict_keys d ++ ["endpoint_identity"])) = true → dict_wf (d ++ endpoint_entry s).
Proof.
  intros Hd%bool_decide_eq_true. unfold dict_wf, dict_keys. rewrite fmap_app.
  destruct s; [by apply NoDup_app in Hd as [Hd _]; rewrite app_nil_r|done].
Qed.

Lemma binding_unique a a' d d' :
  authorization_to_dict normalize_endpoint a = Ok d →
  authorization_to_dict normalize_endpoint a' = Ok d' →
  norm (PDict d) = norm (PDict d') → a = a'.
Proof.
  unfold authorization_to_dict. intros Hd Hd' Hn. result_inv. subst d d'.
  pose proof (concrete_wf [("binding_id", PStr (ba_binding_id a));
        ("provider_id", PStr (ba_provider_id a)); ("model_id", PStr (ba_model_id a))]
      (ba_endpoint_identity a) eq_refl) as Hw.
  pose proof (concrete_wf [("binding_id", PStr (ba_binding_id a'));
        ("provider_id", PStr (ba_provider_id a')); ("model_id", PStr (ba_model_id a'))]
      (ba_endpoint_identity a') eq_refl) as Hw'.
  norm_fields Hw Hw' Hn ("binding_id", "provider_id", "model_id", "endpoint_identity").
  destruct a, a'. cbn in *. apply endpoint_unique in Hk2. congruence.
Qed.

Lemma entry_unique e e' d d' :
  entry_to_dict normalize_endpoint e = Ok d → entry_to_dict normalize_endpoint e' = Ok d' →
  norm (PDict d) = norm (PDict d') → e = e'.
Proof.
  unfold entry_to_dict. intros Hd Hd' Hn. result_inv. subst d d'.
  pose proof (concrete_wf [("profile_id", PStr (pe_profile_id e)); ("binding_id", PStr (pe_binding_id e));
        ("provider_id", PStr (pe_provider_id e)); ("model_id", PStr (pe_model_id e));
        ("maximum_attempts", PInt (pe_maximum_attempts e))] (pe_endpoint_identity e) eq_refl) as Hw.
  pose proof (concrete_wf [("profile_id", PStr (pe_profile_id e')); ("binding_id", PStr (pe_binding_id e'));
        ("provider_id", PStr (pe_provider_id e')); ("model_id", PStr (pe_model_id e'));
        ("maximum_attempts", PInt (pe_maximum_attempts e'))] (pe_endpoint_identity e') eq_refl) as Hw'.
  norm_fields Hw Hw' Hn ("profile_id", "binding_id", "provider_id", "model_id", "maximum_attempts",
      "endpoint_identity").
  destruct e, e'. cbn in *. apply endpoint_unique in Hk4. congruence.
Qed.

Lemma dicts_unique {A} (to_dict : A → result dict) l l' ds ds' :
  (∀ a a' d d', to_dict a = Ok d → to_dict a' = Ok d' → norm (PDict d) = norm (PDict d') → a = a') →
  map_result to_dict l = Ok ds → map_result to_dict l' = Ok ds' →
  map norm (map PDict ds) = map norm (map PDict ds') → l = l'.
Proof.
  intros Hu Hl Hl'. apply map_result_Ok in Hl, Hl'. revert l' ds' Hl'.
  induction Hl as [|a d l ds Hd Hl IH]; intros l' ds' Hl' Heq; destruct Hl' as [|a' d' l' ds' Hd' Hl'];
    try done.
  cbn [map] in Heq. injection Heq as Heq Hds. f_equal; [|by eapply IH].
  eapply Hu; [done..|]. cbn [norm]. by rewrite Heq.
Qed.

(** The signing payload of an envelope is a dict with distinct keys. *)
Lemma signing_payload_wf e d : envelope_signing_payload normalize_endpoint e = Ok d → dict_wf d.
Proof.
  unfold envelope_signing_payload, envelope_to_dict. intros Hd. result_inv. subst.
  unfold dict_wf, dict_keys. apply (bool_decide_unpack _).
  repeat match goal with Hx : map_result _ _ = Ok ?l |- _ => clear Hx; destruct l end;
    reflexivity.
Qed.

Lemma strings_unique l l' : map norm (map PStr l) = map norm (map PStr l') → l = l'.
Proof.
  revert l'. induction l as [|x l IH]; intros [|y l']; cbn; try done.
  intros [= -> Hl]. f_equal. auto.
Qed.

Lemma dict_get_del k k' d : k ≠ k' → dict_get k (dict_del k' d) = dict_get k d.
Proof.
  intros Hk. induction d as [|[k0 v] d IH]; [done|]. unfold dict_del, dict in *.
  destruct (decide (k0 = k')) as [->|Hne].
  - rewrite filter_cons_False by (intros Hx; by apply Hx). cbn [dict_get]. by rewrite bool_decide_false.
  - rewrite filter_cons_True by done. cbn [dict_get]. by rewrite IH.
Qed.

Lemma optional_unique k k' l l' rest rest' :
  k ≠ k' →
  norm <$> dict_get k (optional_entry k l ++ optional_entry k' rest) =
  norm <$> dict_get k (optional_entry k l' ++ optional_entry k' rest') →
  map norm l = map norm l'.
Proof.
  intros Hk. assert (∀ rest, dict_get k (optional_entry k' rest) = None) as Hr.
  { intros [|x m]; cbn; [done|]. by rewrite bool_decide_false. }
  destruct l as [|x l], l' as [|y l']; cbn; rewrite ?bool_decide_true by done; rewrite ?Hr; try done.
  by intros [= -> ->].
Qed.

Lemma optional_skip k k' l rest :
  k ≠ k' → dict_get k (optional_entry k' l ++ rest) = dict_get k rest.
Proof. intros Hk. destruct l as [|x l]; cbn; [done|]. by rewrite bool_decide_false. Qed.

Lemma optional_last k k' l l' first first' :
  k ≠ k' →
  norm <$> dict_get k (optional_entry k' first ++ optional_entry k l) =
  norm <$> dict_get k (optional_entry k' first' ++ optional_entry k l') →
  map norm l = map norm l'.
Proof.
  intros Hk. rewrite !optional_skip by done.
  rewrite <- (app_nil_r (optional_entry k l)), <- (app_nil_r (optional_entry k l')).
  by apply (optional_unique k k' l l' [] []).
Qed.

(** An envelope is determined by the payload its signature covers. *)
Lemma payload_unique e e' d d' :
  envelope_normal normalize_endpoint e → envelope_normal normalize_endpoint e' →
  envelope_signing_payload normalize_endpoint e = Ok d →
  envelope_signing_payload normalize_endpoint e' = Ok d' →
  norm (PDict d) = norm (PDict d') → en_signature e = en_signature e' → e = e'.
Proof.
  intros Hne Hne' Hd Hd' Hn Hs. pose proof (signing_payload_wf _ _ Hd) as Hw. pose proof (signing_payload_wf _ _ Hd') as Hw'.
  unfold envelope_signing_payload, envelope_to_dict in Hd, Hd'. result_inv.
  match goal with Hb : map_result (authorization_to_dict _) (en_bindings e) = Ok ?bs,
      Hb' : map_result (authorization_to_dict _) (en_bindings e') = Ok ?bs',
      Hp : map_result (entry_to_dict _) (en_attempt_plan e) = Ok ?es,
      Hp' : map_result (entry_to_dict _) (en_attempt_plan e') = Ok ?es' |- _ =>
      rename bs into bs1, bs' into bs2, es into es1, es' into es2, Hb into Hb1, Hb' into Hb2,
      Hp into Hp1, Hp' into Hp2 end.
  subst.
  norm_fields Hw Hw' Hn ("schema", "envelope_id", "tenant_id", "workflow_id", "run_id", "step_id",
      "plan_hash", "policy_version", "allowed_tools", "allowed_artifacts", "budgets", "issued_at",
      "expires_at", "nonce", "key_id", "allowed_provider_bindings", "provider_attempt_plan").
  rewrite !dict_get_del in Hk14, Hk15 by done.
  apply (optional_unique "allowed_provider_bindings" "provider_attempt_plan" _ _
      (map PDict es1) (map PDict es2)) in Hk14; [|done].
  apply (optional_last "provider_attempt_plan" "allowed_provider_bindings" _ _
      (map PDict bs1) (map PDict bs2)) in Hk15; [|done].
  apply (dicts_unique _ _ _ _ _ binding_unique Hb1 Hb2) in Hk14.
  apply (dicts_unique _ _ _ _ _ entry_unique Hp1 Hp2) in Hk15.
  apply strings_unique in Hk7, Hk8.
  pose proof (budgets_norm _ (nr_budgets _ _ Hne)) as Hbu.
  pose proof (budgets_norm _ (nr_budgets _ _ Hne')) as Hbu'.
  assert (PDict (en_budgets e) = PDict (en_budgets e')) as [= Hbud].
  { rewrite <- Hbu, <- Hbu'. exact (f_equal PDict Hk9). }
  clear Hn Hw Hw' Hne Hne' Hbu Hbu' Hk9.
  rewrite (envelope_eta e), (envelope_eta e'). f_equal; assumption.
Qed.
End unique.
