(* ===== verification/Authorization.v ===== *)
(** * Authorization (workflow_runtime/security.py)

    Issuing and verifying envelopes against a key ring, used through its
    interface, the replay protection, and the local scope gate
    [AuthorizationVerifier].  Clock readings and fresh identifiers are
    arguments. *)
From S2P Require Import Prelude PyStr PyVal Digest Serialization Plan ProviderBinding KeyRing Envelope.

Section signed.
Context `{Digest} (normalize_endpoint : string → string → option string) `{KeyRing K}.

(** [RuntimeAuthorizationEnvelope.issue]; [fresh_id] and [fresh_nonce] are the
    generated identifiers, used when the caller gives none. *)
Definition envelope_issue (ring : K) (tenant_id workflow_id run_id step_id plan_hash
    policy_version : string) (allowed_tools allowed_artifacts : list string)
  (bindings : list (given ProviderBindingAuthorization))
  (attempt_plan : list (given ProviderProfileAttemptPlanEntry)) (budgets : dict)
  (ttl_seconds now : float) (envelope_id nonce : option string) (fresh_id fresh_nonce : string)
  : result RuntimeAuthorizationEnvelope :=
  raise_when (float_leb ttl_seconds (S754_zero false))
  (contract_error "authorization_ttl_invalid") ;;
  budgets ← _normalize_budgets budgets;
  bindings ← _normalize_provider_bindings normalize_endpoint bindings;
  plan ← _normalize_provider_attempt_plan normalize_endpoint attempt_plan;
  let unsigned := {|
    en_envelope_id := str_or (default "" envelope_id) fresh_id;
    en_tenant_id := strip tenant_id; en_workflow_id := strip workflow_id;
    en_run_id := strip run_id; en_step_id := strip step_id; en_plan_hash := strip plan_hash;
    en_policy_version := strip policy_version;
    en_allowed_tools := clean_strings allowed_tools;
    en_allowed_artifacts := clean_strings allowed_artifacts; en_budgets := budgets;
    en_issued_at := now; en_expires_at := float_add now ttl_seconds;
    en_nonce := str_or (default "" nonce) fresh_nonce; en_key_id := ""; en_signature := "";
    en_bindings := bindings; en_attempt_plan := plan;
    en_schema := AUTHORIZATION_ENVELOPE_SCHEMA |} in
  envelope_assert_structure normalize_endpoint unsigned ;;
  let key_id := active_key_id ring in
  payload ← envelope_signing_payload normalize_endpoint (with_signature unsigned key_id "");
  signed ← _sign_contract ring AUTHORIZATION_ENVELOPE_SCHEMA payload key_id;
  Ok (with_signature unsigned signed.1 signed.2).

(** What a verifier expects an envelope to be bound to. *)
Record expected_bindings := {
    ex_tenant_id : string;
    ex_workflow_id : string;
    ex_run_id : string;
    ex_step_id : string;
    ex_plan_hash : string;
    ex_policy_version : string;
  }.

Definition envelope_bindings (e : RuntimeAuthorizationEnvelope) : expected_bindings :=
  {| ex_tenant_id := en_tenant_id e; ex_workflow_id := en_workflow_id e; ex_run_id := en_run_id e;
    ex_step_id := en_step_id e; ex_plan_hash := en_plan_hash e;
    ex_policy_version := en_policy_version e |}.

(** The comparisons of [verify], in its order. *)
Definition check_bindings (e : RuntimeAuthorizationEnvelope) (x : expected_bindings)
  : result unit :=
  for_each (λ nav, raise_when (bool_decide (nav.1.2 ≠ nav.2))
    (SignatureValidationError ("authorization_" +:+ nav.1.1 +:+ "_mismatch")))
  [("tenant_id", en_tenant_id e, ex_tenant_id x);
    ("workflow_id", en_workflow_id e, ex_workflow_id x); ("run_id", en_run_id e, ex_run_id x);
    ("step_id", en_step_id e, ex_step_id x); ("plan_hash", en_plan_hash e, ex_plan_hash x);
    ("policy_version", en_policy_version e, ex_policy_version x)].

Definition envelope_verify (ring : K) (e : RuntimeAuthorizationEnvelope) (x : expected_bindings)
  (now : float) : result unit :=
  envelope_assert_structure normalize_endpoint e ;;
  check_bindings e x ;;
  raise_when (float_ltb now (en_issued_at e))
  (SignatureValidationError "authorization_not_yet_valid") ;;
  raise_when (float_leb (en_expires_at e) now) (SignatureValidationError "authorization_expired") ;;
  payload ← envelope_signing_payload normalize_endpoint e;
  _verify_contract ring AUTHORIZATION_ENVELOPE_SCHEMA payload (en_key_id e) (en_signature e)
  (en_envelope_id e).

(** ** Replay protection *)

(** [InMemoryReplayNonceStore._values]: the expiry of each consumed nonce. *)
Notation nonce_store := (gmap (string * string) float).

(** [InMemoryReplayNonceStore.consume], at the reading [clock] of its clock. *)
Definition consume (tenant_id nonce : string) (expires_at clock : float)
  : action nonce_store bool :=
  modify (filter (λ kv, float_ltb clock kv.2 = true)) ;;
  values ← get;
  if bool_decide (is_Some (values !! (tenant_id, nonce))) then mret false
  else modify (<[(tenant_id, nonce) := expires_at]>) ;; mret true.

(** ** The scope gate *)

Record authorize_request := {
    rq_expected : expected_bindings;
    rq_tool : string;
    rq_artifact : string;
    rq_requested_budget : dict;
    rq_consume_nonce : bool;
    rq_writing : bool;
    rq_hub_revalidator : option (RuntimeAuthorizationEnvelope → bool);
  }.

Definition check_budget (e : RuntimeAuthorizationEnvelope) (requested : dict) : result unit :=
  requested ← _normalize_budgets requested;
  for_each (λ nv, raise_when
    (match dict_get nv.1 (en_budgets e) with
      | None => true
      | Some limit =>
          match num_of nv.2, num_of limit with
        | Some v, Some l => num_ltb l v
        | _, _ => false
        end
      end) (SignatureValidationError "authorization_budget_exceeded")) requested.

Definition check_scope (e : RuntimeAuthorizationEnvelope) (r : authorize_request) : result unit :=
  raise_when (str_true (rq_tool r) && bool_decide (rq_tool r ∉ en_allowed_tools e))
  (SignatureValidationError "authorization_tool_denied") ;;
  raise_when (str_true (rq_artifact r) && bool_decide (rq_artifact r ∉ en_allowed_artifacts e))
  (SignatureValidationError "authorization_artifact_denied") ;;
  check_budget e (rq_requested_budget r).

(** [AuthorizationVerifier.authorize]; the state is the verifier's nonce store,
    when it has one.  [now] is the time the envelope is verified at and [clock]
    the later reading of the nonce store. *)
Definition authorize (ring : K) (e : RuntimeAuthorizationEnvelope) (r : authorize_request)
  (now clock : float) : action (option nonce_store) unit :=
  lift (envelope_verify ring e (rq_expected r) now) ;;
  lift (check_scope e r) ;;
  (if rq_consume_nonce r then
    store ← get;
    match store with
    | None => mthrow (SignatureValidationError "authorization_replay_store_required")
    | Some values =>
        let '(fresh, values) := consume (en_tenant_id e) (en_nonce e) (en_expires_at e) clock values in
        put (Some values) ;;
        fresh ← lift fresh;
        lift (raise_when (negb fresh) (SignatureValidationError "authorization_replay_detected"))
    end
    else mret tt) ;;
  (if rq_writing r then
    lift (raise_when (match rq_hub_revalidator r with
        | Some revalidate => negb (revalidate e)
        | None => true
        end) (SignatureValidationError "authorization_hub_revalidation_failed"))
    else mret tt).
End signed.

(** ** Verification *)

Section verification.
Context `{Digest} (normalize_endpoint : string → string → option string) `{KeyRing K}.

Notation envelope_verify := (envelope_verify normalize_endpoint).
Notation envelope_signing_payload := (envelope_signing_payload normalize_endpoint).

Lemma as_signature_error_Ok {A} (r : result A) a : as_signature_error r = Ok a ↔ r = Ok a.
Proof. by destruct r as [|[]]. Qed.

Lemma check_bindings_Ok e x u : check_bindings e x = Ok u ↔ x = envelope_bindings e.
Proof.
  unfold check_bindings. rewrite for_each_Ok, !Forall_cons. cbn [fst snd].
  setoid_rewrite raise_when_Ok. setoid_rewrite bool_decide_eq_false. split.
  - intros (H1 & H2 & H3 & H4 & H5 & H6 & _).
    apply dec_stable in H1, H2, H3, H4, H5, H6. destruct x; cbn in *. by subst.
  - intros ->. cbn. by repeat split; auto.
Qed.

(** The checks of [verify], all of which it takes. *)
Record verified (ring : K) (e : RuntimeAuthorizationEnvelope) (x : expected_bindings)
  (now : float) : Prop := {
    vf_structure : envelope_assert_structure normalize_endpoint e = Ok tt;
    vf_bindings : x = envelope_bindings e;
    vf_started : float_ltb now (en_issued_at e) = false;
    vf_expiry : float_leb (en_expires_at e) now = false;
    vf_signature : ∃ payload, envelope_signing_payload e = Ok payload ∧
    ring_verify ring AUTHORIZATION_ENVELOPE_SCHEMA payload (en_key_id e) (en_signature e)
    (en_envelope_id e) = Ok tt;
  }.

Lemma verify_exact ring e x now : envelope_verify ring e x now = Ok tt ↔ verified ring e x now.
Proof.
  unfold Authorization.envelope_verify, _verify_contract. split.
  - intros Hv. result_inv. rewrite as_signature_error_Ok in Hv.
    repeat match goal with u : unit |- _ => destruct u end.
    match goal with Hx : check_bindings _ _ = Ok _ |- _ => rewrite check_bindings_Ok in Hx end.
    constructor; eauto.
  - intros [Hs Hb Hst He (payload & Hp & Hv)]. rewrite Hs. cbn [mbind result_bind].
    rewrite (proj2 (check_bindings_Ok e x tt) Hb), Hst, He. cbn [raise_when mbind result_bind].
    rewrite Hp. cbn [mbind result_bind]. by rewrite as_signature_error_Ok.
Qed.

Lemma verified_not_revoked ring e x now :
  verified ring e x now → contract_revoked ring (en_envelope_id e) = false.
Proof.
  intros [_ _ _ _ (payload & _ & Hv)]. apply not_true_iff_false. intros Hr.
  eapply verify_revoked in Hr. by rewrite Hv in Hr.
Qed.
End verification.

(** ** Issuing *)

Section issuing.
Context `{Digest} (normalize_endpoint : string → string → option string) `{KeyRing K}.
Context (endpoint_stripped : ∀ provider endpoint url,
    normalize_endpoint provider endpoint = Some url → strip url = url).

Notation envelope_verify := (envelope_verify normalize_endpoint).
Notation envelope_signing_payload := (envelope_signing_payload normalize_endpoint).

Lemma signing_payload_signature e key s s' :
  envelope_signing_payload (with_signature e key s) =
  envelope_signing_payload (with_signature e key s').
Proof.
  unfold Envelope.envelope_signing_payload, envelope_to_dict. cbn [with_signature en_bindings en_attempt_plan].
  destruct (map_result _ (en_bindings e)) as [bs|]; [|done]. cbn [mbind result_bind].
  by destruct (map_result _ (en_attempt_plan e)) as [es|].
Qed.

Lemma issue_Ok ring tenant workflow run step hash policy tools artifacts bindings plan budgets
  ttl now id nonce fresh_id fresh_nonce e :
  envelope_issue normalize_endpoint ring tenant workflow run step hash policy tools artifacts
  bindings plan budgets ttl now id nonce fresh_id fresh_nonce = Ok e →
  envelope_normal normalize_endpoint e ∧
  envelope_assert_structure normalize_endpoint e = Ok tt ∧
  ∃ payload, envelope_signing_payload e = Ok payload ∧
  ring_sign ring AUTHORIZATION_ENVELOPE_SCHEMA payload (active_key_id ring) =
  Ok (en_key_id e, en_signature e).
Proof.
  unfold envelope_issue. intros He. result_inv.
  match goal with Hx : _sign_contract _ _ _ _ = Ok ?x |- _ =>
      unfold _sign_contract in Hx; rewrite as_signature_error_Ok in Hx;
      destruct x as [key signature]; pose proof (sign_active _ _ _ _ _ Hx) as Hkey end.
  match goal with Hx : _normalize_provider_bindings _ _ = Ok _ |- _ =>
      unfold _normalize_provider_bindings in Hx; result_inv end.
  match goal with Hx : load_bindings _ _ _ = Ok _ |- _ =>
      apply load_bindings_Ok in Hx as (Hbv & Hbn & _) end.
  match goal with Hx : _normalize_provider_attempt_plan _ _ = Ok _ |- _ =>
      unfold _normalize_provider_attempt_plan in Hx;
      apply load_entries_Ok in Hx as (Hev & Hep & Heb & _) end.
  match goal with Hx : _normalize_budgets _ = Ok _ |- _ => apply budgets_normal in Hx end.
  match goal with Hx : envelope_assert_structure _ _ = Ok ?u |- _ => destruct u end.
  subst. cbn [fst snd]. split; [|split].
  - constructor; cbn; try done; try apply clean_strings_idemp.
    + by rewrite sort_by_perm.
    + by rewrite sort_by_perm.
    + apply sort_bindings_idemp.
  - assumption.
  - eexists. split; [|eassumption]. by rewrite <- (signing_payload_signature _ _ "").
Qed.

(** C14: what the hub issues, a worker reads back from the wire as it was, and
    accepts exactly for the run, step, plan and policy it was issued for, inside
    its time window, and only while the contract is not revoked. *)
Theorem issue_roundtrip ring tenant workflow run step hash policy tools artifacts bindings plan
  budgets ttl now id nonce fresh_id fresh_nonce e d x time :
  envelope_issue normalize_endpoint ring tenant workflow run step hash policy tools artifacts
  bindings plan budgets ttl now id nonce fresh_id fresh_nonce = Ok e →
  envelope_to_dict normalize_endpoint e = Ok d →
  en_issued_at e ≠ S754_zero true → en_expires_at e ≠ S754_zero true →
  envelope_from_mapping normalize_endpoint d = Ok e ∧
  (envelope_verify ring e x time = Ok tt ↔
    x = envelope_bindings e ∧ float_ltb time (en_issued_at e) = false ∧
    float_leb (en_expires_at e) time = false ∧ contract_revoked ring (en_envelope_id e) = false).
Proof using endpoint_stripped.
  intros (Hn & Hs & payload & Hp & Hsign)%issue_Ok Hd Hi Hx. split; [by eapply envelope_load|].
  rewrite verify_exact. split.
  - intros Hv. pose proof (verified_not_revoked _ _ _ _ _ Hv). by destruct Hv.
  - intros (Hb & Hst & He & Hr). constructor; [done..|]. exists payload. split; [done|].
    by eapply verify_signed.
Qed.
End issuing.

(** The envelopes a key ring accepts under one signature are one envelope. *)
Section unforgeable.
Context `{Digest} (normalize_endpoint : string → string → option string).

(** C13: a signature binds the whole envelope: two loaded envelopes the ring
    accepts with the same key and signature, whose floats are finite and read
    back from their text ([json_ok]), agree in every field, unless their own
    signed texts clash in the hash function; no tool, artifact, budget, binding
    or date can be changed under it. *)
Theorem accepted_envelope_unique (ring : HmacKeyRing) e e' x x' now now' d d' :
  envelope_normal normalize_endpoint e → envelope_normal normalize_endpoint e' →
  envelope_signing_payload normalize_endpoint e = Ok d → json_ok (PDict d) = true →
  envelope_signing_payload normalize_endpoint e' = Ok d' → json_ok (PDict d') = true →
  envelope_verify normalize_endpoint ring e x now = Ok tt →
  envelope_verify normalize_endpoint ring e' x' now' = Ok tt →
  en_key_id e = en_key_id e' → en_signature e = en_signature e' →
  e = e' ∨ ring_clash ring (en_key_id e) AUTHORIZATION_ENVELOPE_SCHEMA d AUTHORIZATION_ENVELOPE_SCHEMA d'.
Proof.
  intros Hn Hn' Hd Hok Hd' Hok' Hv Hv' Hk Hs.
  apply verify_exact in Hv as [_ _ _ _ (p & Hp & Hv)]. apply verify_exact in Hv' as [_ _ _ _ (p' & Hp' & Hv')].
  rewrite Hd in Hp. injection Hp as <-. rewrite Hd' in Hp'. injection Hp' as <-.
  rewrite <- Hk, <- Hs in Hv'.
  apply (verify_unique ring AUTHORIZATION_ENVELOPE_SCHEMA d (en_envelope_id e)) in Hv' as [[_ Heq]|];
    [left|by right|done..].
  by eapply payload_unique.
Qed.
End unforgeable.

(** ** The gate *)

Section gate.
Context `{Digest} (normalize_endpoint : string → string → option string) `{KeyRing K}.

Notation authorize := (authorize normalize_endpoint).
Notation nonce_store := (gmap (string * string) float).

Definition unexpired (clock : float) (values : nonce_store) : nonce_store :=
  filter (λ kv, float_ltb clock kv.2 = true) values.

Lemma unexpired_lookup clock values k t :
  unexpired clock values !! k = Some t ↔ values !! k = Some t ∧ float_ltb clock t = true.
Proof. unfold unexpired. by rewrite map_lookup_filter_Some. Qed.

Lemma consume_run tenant nonce expires clock values :
  consume tenant nonce expires clock values =
  match unexpired clock values !! (tenant, nonce) with
  | Some _ => (Ok false, unexpired clock values)
  | None => (Ok true, <[(tenant, nonce) := expires]> (unexpired clock values))
  end.
Proof.
  unfold consume. rewrite run_modify, run_get. fold (unexpired clock values).
  by destruct (unexpired clock values !! _).
Qed.

(** Everything the gate asks for, the nonce apart. *)
Record authorized (ring : K) (e : RuntimeAuthorizationEnvelope) (r : authorize_request)
  (now : float) : Prop := {
    au_verified : verified normalize_endpoint ring e (rq_expected r) now;
    au_tool : rq_tool r = "" ∨ rq_tool r ∈ en_allowed_tools e;
    au_artifact : rq_artifact r = "" ∨ rq_artifact r ∈ en_allowed_artifacts e;
    au_budget : ∃ requested, _normalize_budgets (rq_requested_budget r) = Ok requested ∧
    ∀ name v, (name, v) ∈ requested → ∃ limit, dict_get name (en_budgets e) = Some limit ∧
    ∀ n l, num_of v = Some n → num_of limit = Some l → num_ltb l n = false;
    au_revalidated : rq_writing r = true →
    ∃ revalidate, rq_hub_revalidator r = Some revalidate ∧ revalidate e = true;
  }.

Lemma scope_check s (l : list string) :
  str_true s && bool_decide (s ∉ l) = false ↔ s = "" ∨ s ∈ l.
Proof.
  rewrite andb_false_iff, str_true_false, bool_decide_eq_false. split; intros [Hs|Hs]; auto.
  right. by apply dec_stable.
Qed.

Lemma check_budget_Ok e requested u :
  check_budget e requested = Ok u ↔
  ∃ l, _normalize_budgets requested = Ok l ∧
  ∀ name v, (name, v) ∈ l → ∃ limit, dict_get name (en_budgets e) = Some limit ∧
  ∀ n m, num_of v = Some n → num_of limit = Some m → num_ltb m n = false.
Proof.
  unfold check_budget. rewrite result_bind_Ok. split; intros (l & Hl & Hf); exists l; split; auto.
  - rewrite for_each_Ok, Forall_forall in Hf. intros name v Hin. apply Hf in Hin.
    rewrite raise_when_Ok in Hin. cbn [fst snd] in Hin.
    destruct (dict_get name (en_budgets e)) as [limit|]; [|done]. exists limit. split; [done|].
    intros n m Hn Hm. by rewrite Hn, Hm in Hin.
  - rewrite for_each_Ok, Forall_forall. intros [name v] Hin. apply Hf in Hin as (limit & Hl' & Hb).
    rewrite raise_when_Ok. cbn [fst snd]. rewrite Hl'.
    destruct (num_of v) as [n|] eqn:Hn, (num_of limit) as [m|] eqn:Hm; try done. by apply Hb.
Qed.

Lemma check_scope_Ok e r u :
  check_scope e r = Ok u ↔
  (rq_tool r = "" ∨ rq_tool r ∈ en_allowed_tools e) ∧
  (rq_artifact r = "" ∨ rq_artifact r ∈ en_allowed_artifacts e) ∧
  check_budget e (rq_requested_budget r) = Ok tt.
Proof.
  unfold check_scope. destruct u. rewrite <- !scope_check. split.
  - intros Hs. result_inv. done.
  - intros (Ht & Ha & Hb). by rewrite Ht, Ha.
Qed.

(** What the gate does with the nonce. *)
Definition spends (e : RuntimeAuthorizationEnvelope) (r : authorize_request) (clock : float)
  (store store' : option nonce_store) : Prop :=
  if rq_consume_nonce r then
  ∃ values, store = Some values ∧ unexpired clock values !! (en_tenant_id e, en_nonce e) = None ∧
  store' = Some (<[(en_tenant_id e, en_nonce e) := en_expires_at e]> (unexpired clock values))
  else store' = store.

Definition revalidated (e : RuntimeAuthorizationEnvelope) (r : authorize_request) : bool :=
  negb (rq_writing r) ||
  match rq_hub_revalidator r with Some revalidate => revalidate e | None => false end.

Lemma revalidated_true e r :
  revalidated e r = true ↔ (rq_writing r = true →
    ∃ revalidate, rq_hub_revalidator r = Some revalidate ∧ revalidate e = true).
Proof.
  unfold revalidated. destruct (rq_writing r), (rq_hub_revalidator r) as [f|]; naive_solver.
Qed.

Lemma authorize_run ring e r now clock store :
  envelope_verify normalize_endpoint ring e (rq_expected r) now = Ok tt →
  check_scope e r = Ok tt →
  authorize ring e r now clock store =
  (if rq_consume_nonce r then
    match store with
    | None => (Err (SignatureValidationError "authorization_replay_store_required"), store)
    | Some values =>
        match unexpired clock values !! (en_tenant_id e, en_nonce e) with
      | Some _ => (Err (SignatureValidationError "authorization_replay_detected"),
          Some (unexpired clock values))
      | None =>
          (raise_when (negb (revalidated e r))
            (SignatureValidationError "authorization_hub_revalidation_failed"),
            Some (<[(en_tenant_id e, en_nonce e) := en_expires_at e]> (unexpired clock values)))
      end
    end
    else (raise_when (negb (revalidated e r))
      (SignatureValidationError "authorization_hub_revalidation_failed"), store)).
Proof.
  intros Hv Hs. unfold Authorization.authorize.
  rewrite (run_lift _ _ _ _ Hv), (run_lift _ _ _ _ Hs). unfold revalidated.
  destruct (rq_consume_nonce r).
  - rewrite run_assoc, run_get. destruct store as [values|]; [|done]. rewrite consume_run.
    destruct (unexpired clock values !! _); [done|].
    by destruct (rq_writing r); [destruct (rq_hub_revalidator r) as [f|]; [destruct (f e)|]|].
  - by destruct (rq_writing r); [destruct (rq_hub_revalidator r) as [f|]; [destruct (f e)|]|].
Qed.

Lemma authorized_iff ring e r now :
  authorized ring e r now ↔
  envelope_verify normalize_endpoint ring e (rq_expected r) now = Ok tt ∧
  check_scope e r = Ok tt ∧ revalidated e r = true.
Proof.
  rewrite verify_exact, check_scope_Ok, check_budget_Ok, revalidated_true. split.
  - by intros [].
  - intros (? & (? & ? & ?) & ?). by constructor.
Qed.

Lemma authorize_Ok ring e r now clock store store' :
  authorize ring e r now clock store = (Ok tt, store') ↔
  authorized ring e r now ∧ spends e r clock store store'.
Proof.
  rewrite authorized_iff. split.
  - intros Ha. assert (envelope_verify normalize_endpoint ring e (rq_expected r) now = Ok tt) as Hv.
    { unfold Authorization.authorize in Ha. run_step Ha; [done|]. by destruct a. }
    assert (check_scope e r = Ok tt) as Hs.
    { unfold Authorization.authorize in Ha. rewrite (run_lift _ _ _ _ Hv) in Ha.
      run_step Ha; [done|]. by destruct a. }
    rewrite authorize_run in Ha by done. unfold spends.
    destruct (rq_consume_nonce r); [destruct store as [values|]; [|done];
        destruct (unexpired clock values !! _) eqn:Hl; [done|]|];
      destruct (revalidated e r); try done; injection Ha as <-; eauto 10.
  - intros [(Hv & Hs & Hr) Hsp]. rewrite authorize_run by done. unfold spends in Hsp. rewrite Hr.
    destruct (rq_consume_nonce r); [destruct Hsp as (values & -> & -> & ->)|rewrite Hsp]; done.
Qed.

(** C11: the gate lets a call through exactly when the envelope is signed by an
    unrevoked key for this run, step, plan and policy and is inside its time
    window, the tool, the artifact and every requested budget are within what
    it allows, a write was confirmed by the hub, and a nonce to be consumed is
    not in the store, where it then is. *)
Theorem authorize_exact ring e r now clock store store' :
  (authorize ring e r now clock store = (Ok tt, store') ↔
    authorized ring e r now ∧ spends e r clock store store') ∧
  (contract_revoked ring (en_envelope_id e) = true →
    is_ok (authorize ring e r now clock store).1 = false).
Proof.
  split; [apply authorize_Ok|]. intros Hr.
  destruct (authorize ring e r now clock store) as [[[]|] s] eqn:Ha; [|done].
  apply authorize_Ok in Ha as [[Hv _ _ _ _] _]. apply verified_not_revoked in Hv. congruence.
Qed.

(** *** Calls on one gate *)

Record gate_call := {
    gc_ring : K;
    gc_envelope : RuntimeAuthorizationEnvelope;
    gc_request : authorize_request;
    gc_now : float;
    gc_clock : float;
  }.

Definition run_gate (c : gate_call) (store : option nonce_store) : option nonce_store :=
  (authorize (gc_ring c) (gc_envelope c) (gc_request c) (gc_now c) (gc_clock c) store).2.

(** The nonce is in the store, with its expiry. *)
Definition spent (key : string * string) (expires : float) (store : option nonce_store) : Prop :=
  ∃ values, store = Some values ∧ values !! key = Some expires.

Lemma authorize_store ring e r now clock store :
  (authorize ring e r now clock store).2 = store ∨
  ∃ values, store = Some values ∧
  ((authorize ring e r now clock store).2 = Some (unexpired clock values) ∨
    unexpired clock values !! (en_tenant_id e, en_nonce e) = None ∧
    (authorize ring e r now clock store).2 =
    Some (<[(en_tenant_id e, en_nonce e) := en_expires_at e]> (unexpired clock values))).
Proof.
  destruct (envelope_verify normalize_endpoint ring e (rq_expected r) now) as [[]|er] eqn:Hv.
  2:{ left. unfold Authorization.authorize. unfold mbind at 1, action_bind at 1. unfold lift at 1.
    by rewrite Hv. }
  destruct (check_scope e r) as [[]|er] eqn:Hs.
  2:{ left. unfold Authorization.authorize. rewrite (run_lift _ _ _ _ Hv).
    unfold mbind at 1, action_bind at 1. unfold lift at 1. by rewrite Hs. }
  rewrite authorize_run by done. destruct (rq_consume_nonce r); [|by left].
  destruct store as [values|]; [|by left]. right. exists values. split; [done|].
  destruct (unexpired clock values !! _) eqn:Hl; [by left|by right].
Qed.

Lemma run_gate_spent c key expires store :
  float_ltb (gc_clock c) expires = true → spent key expires store →
  spent key expires (run_gate c store).
Proof.
  intros Hc (values & -> & Hk). unfold run_gate.
  destruct (authorize_store (gc_ring c) (gc_envelope c) (gc_request c) (gc_now c) (gc_clock c)
      (Some values)) as [->|(v & [= <-] & [->|[Hn ->]])]; [by exists values| |].
  - exists (unexpired (gc_clock c) values). split; [done|]. by apply unexpired_lookup.
  - eexists. split; [done|]. assert (unexpired (gc_clock c) values !! key = Some expires) as Hl
      by by apply unexpired_lookup.
    by rewrite lookup_insert_ne by congruence.
Qed.

(** C12: no replay: once a call has consumed the nonce of an envelope, every later
    call that has to consume the same tenant's nonce is refused, whatever
    envelopes, keys and requests the calls between used, as long as the store's
    clock has not reached the envelope's expiry. *)
Theorem nonce_accepted_once ring e r now clock store store' calls c :
  authorize ring e r now clock store = (Ok tt, store') → rq_consume_nonce r = true →
  Forall (λ c, float_ltb (gc_clock c) (en_expires_at e) = true) (calls ++ [c]) →
  en_tenant_id (gc_envelope c) = en_tenant_id e → en_nonce (gc_envelope c) = en_nonce e →
  rq_consume_nonce (gc_request c) = true →
  is_ok (authorize (gc_ring c) (gc_envelope c) (gc_request c) (gc_now c) (gc_clock c)
    (run_all_calls run_gate calls store')).1 = false.
Proof.
  intros [_ Hsp]%authorize_Ok Hcn [Hcalls Hc]%Forall_app Ht Hn Hr.
  unfold spends in Hsp. rewrite Hcn in Hsp. destruct Hsp as (values & -> & _ & ->).
  assert (spent (en_tenant_id e, en_nonce e) (en_expires_at e)
      (Some (<[(en_tenant_id e, en_nonce e) := en_expires_at e]> (unexpired clock values)))) as Hs
    by (eexists; split; [done|]; apply lookup_insert_eq).
  revert Hs. generalize (Some (<[(en_tenant_id e, en_nonce e) := en_expires_at e]> (unexpired clock values))).
  induction Hcalls as [|c0 calls Hc0 Hcalls IH]; intros store' Hs.
  - cbn. destruct Hs as (v & -> & Hv).
    destruct (authorize (gc_ring c) _ _ _ _ (Some v)) as [[[]|] s] eqn:Ha; [|done].
    apply authorize_Ok in Ha as [_ Ha]. unfold spends in Ha. rewrite Hr, Ht, Hn in Ha.
    destruct Ha as (v' & [= <-] & Hnone & _). apply Forall_cons in Hc as [Hc _].
    assert (unexpired (gc_clock c) v !! (en_tenant_id e, en_nonce e) = Some (en_expires_at e)) as Hl
      by (apply unexpired_lookup; split; [exact Hv|exact Hc]).
    rewrite Hl in Hnone. discriminate Hnone.
  - apply IH. by apply run_gate_spent.
Qed.
End gate.

(** ** Examples *)

Definition sample_binding_id : string :=
  "provider-binding:0123456789abcdef0123456789abcdef0123456789abcdef0123456789abcdef".

Definition sample_envelope : RuntimeAuthorizationEnvelope :=
  match @envelope_issue no_endpoints HmacKeyRing (@hmac_ring checksum_digest)
    sample_ring " tenant" "wf" "run" "step" "hash" "p1" ["write"; "read "; "read"] ["out"]
    [Object {| ba_binding_id := sample_binding_id; ba_provider_id := "ollama";
               ba_model_id := "m"; ba_endpoint_identity := "" |}]
    [Object {| pe_profile_id := "fast"; pe_binding_id := sample_binding_id;
               pe_provider_id := "ollama"; pe_model_id := "m"; pe_maximum_attempts := 2;
               pe_endpoint_identity := "" |}]
    [("tokens", PInt 100); ("provider_attempts", PInt 2)] (lit 9 0) (lit 1 0) (Some "rae-1")
    (Some "n1") "" "" with
  | Ok e => e
  | Err x => {| en_envelope_id := exn_message x; en_tenant_id := ""; en_workflow_id := ""; en_run_id := "";
      en_step_id := ""; en_plan_hash := ""; en_policy_version := ""; en_allowed_tools := [];
      en_allowed_artifacts := []; en_budgets := []; en_issued_at := lit 0 0;
      en_expires_at := lit 0 0; en_nonce := ""; en_key_id := ""; en_signature := "";
      en_bindings := []; en_attempt_plan := []; en_schema := "" |}
  end.

(** The key ring of the examples, over the checksum. *)
Notation sample_hmac := (@hmac_ring checksum_digest).
Notation sample_store := (gmap (string * string) float).

Definition sample_request : authorize_request :=
  {| rq_expected := envelope_bindings sample_envelope; rq_tool := "read"; rq_artifact := "out";
     rq_requested_budget := [("tokens", PInt 60)]; rq_consume_nonce := true; rq_writing := true;
     rq_hub_revalidator := Some (λ _, true) |}.

(** One call of the gate at the times [now] and [clock]. *)
Definition sample_authorize (now clock : float) (store : option sample_store)
    : result unit * option sample_store :=
  @authorize no_endpoints HmacKeyRing sample_hmac sample_ring sample_envelope sample_request now
    clock store.

Definition sample_key : string * string := (en_tenant_id sample_envelope, en_nonce sample_envelope).

(** The store after the first call. *)
Definition sample_spent : option sample_store :=
  Some (<[sample_key := en_expires_at sample_envelope]> (unexpired (lit 93 (-1)) ∅)).

Lemma no_endpoints_stripped provider endpoint url :
  no_endpoints provider endpoint = Some url → strip url = url.
Proof. by intros [=]. Qed.

Definition sample_payload : dict :=
  match @envelope_to_dict no_endpoints sample_envelope with Ok d => d | Err _ => [] end.

Definition sample_signing_payload : dict :=
  match @envelope_signing_payload no_endpoints sample_envelope with Ok d => d | Err _ => [] end.

Lemma sample_accepted :
  @envelope_verify no_endpoints HmacKeyRing sample_hmac sample_ring sample_envelope
    (envelope_bindings sample_envelope) (lit 95 (-1)) = Ok tt.
Proof. vm_compute. reflexivity. Qed.

Lemma issue_roundtrip_witness :
  @envelope_from_mapping checksum_digest no_endpoints sample_payload = Ok sample_envelope ∧
  @envelope_verify no_endpoints HmacKeyRing sample_hmac sample_ring sample_envelope
    (envelope_bindings sample_envelope) (lit 95 (-1)) = Ok tt.
Proof.
  split; [|exact sample_accepted].
  apply (proj1 (@issue_roundtrip checksum_digest no_endpoints HmacKeyRing sample_hmac
    no_endpoints_stripped sample_ring " tenant" "wf" "run" "step" "hash" "p1"
    ["write"; "read "; "read"] ["out"]
    [Object {| ba_binding_id := sample_binding_id; ba_provider_id := "ollama";
               ba_model_id := "m"; ba_endpoint_identity := "" |}]
    [Object {| pe_profile_id := "fast"; pe_binding_id := sample_binding_id;
               pe_provider_id := "ollama"; pe_model_id := "m"; pe_maximum_attempts := 2;
               pe_endpoint_identity := "" |}]
    [("tokens", PInt 100); ("provider_attempts", PInt 2)] (lit 9 0) (lit 1 0) (Some "rae-1")
    (Some "n1") "" "" sample_envelope sample_payload (envelope_bindings sample_envelope)
    (lit 95 (-1)) ltac:(vm_compute; reflexivity) ltac:(vm_compute; reflexivity)
    ltac:(vm_compute; discriminate) ltac:(vm_compute; discriminate))).
Defined.

Lemma sample_issued :
  @envelope_issue no_endpoints HmacKeyRing sample_hmac
    sample_ring " tenant" "wf" "run" "step" "hash" "p1" ["write"; "read "; "read"] ["out"]
    [Object {| ba_binding_id := sample_binding_id; ba_provider_id := "ollama";
               ba_model_id := "m"; ba_endpoint_identity := "" |}]
    [Object {| pe_profile_id := "fast"; pe_binding_id := sample_binding_id;
               pe_provider_id := "ollama"; pe_model_id := "m"; pe_maximum_attempts := 2;
               pe_endpoint_identity := "" |}]
    [("tokens", PInt 100); ("provider_attempts", PInt 2)] (lit 9 0) (lit 1 0) (Some "rae-1")
    (Some "n1") "" "" = Ok sample_envelope.
Proof. vm_compute. reflexivity. Qed.

Lemma accepted_envelope_unique_witness :
  sample_envelope = sample_envelope ∨ @ring_clash checksum_digest sample_ring "k1"
    AUTHORIZATION_ENVELOPE_SCHEMA sample_signing_payload AUTHORIZATION_ENVELOPE_SCHEMA
    sample_signing_payload.
Proof.
  assert (envelope_normal no_endpoints sample_envelope) as Hn
    by exact (proj1 (issue_Ok _ _ _ _ _ _ _ _ _ _ _ _ _ _ _ _ _ _ _ _ sample_issued)).
  apply (@accepted_envelope_unique checksum_digest no_endpoints sample_ring sample_envelope
    sample_envelope (envelope_bindings sample_envelope) (envelope_bindings sample_envelope)
    (lit 95 (-1)) (lit 95 (-1)) sample_signing_payload sample_signing_payload Hn Hn);
    [vm_compute; reflexivity..|exact sample_accepted|exact sample_accepted|reflexivity|reflexivity].
Defined.

Lemma sample_authorized now :
  @envelope_verify no_endpoints HmacKeyRing sample_hmac sample_ring sample_envelope
    (envelope_bindings sample_envelope) now = Ok tt →
  @authorized no_endpoints HmacKeyRing sample_hmac sample_ring sample_envelope sample_request now.
Proof.
  intros Hv. apply authorized_iff. split; [exact Hv|]. split; vm_compute; reflexivity.
Qed.

(** The first call of the examples goes through. *)
Lemma sample_first : sample_authorize (lit 92 (-1)) (lit 93 (-1)) (Some ∅) = (Ok tt, sample_spent).
Proof.
  apply (authorize_Ok no_endpoints (H0:=sample_hmac)). split.
  - apply sample_authorized. vm_compute. reflexivity.
  - exists ∅. split; [reflexivity|]. split; [|reflexivity].
    unfold unexpired. rewrite map_filter_empty. apply lookup_empty.
Qed.

Lemma nonce_accepted_once_witness :
  sample_authorize (lit 92 (-1)) (lit 93 (-1)) (Some ∅) = (Ok tt, sample_spent) ∧
  is_ok (@authorize no_endpoints HmacKeyRing sample_hmac sample_ring sample_envelope sample_request
    (lit 94 (-1)) (lit 95 (-1))
    (run_all_calls (@run_gate no_endpoints HmacKeyRing sample_hmac) [] sample_spent)).1 = false.
Proof.
  split; [exact sample_first|].
  pose proof (@nonce_accepted_once no_endpoints HmacKeyRing sample_hmac sample_ring sample_envelope
    sample_request (lit 92 (-1)) (lit 93 (-1)) (Some ∅) sample_spent []
    {| gc_ring := sample_ring; gc_envelope := sample_envelope; gc_request := sample_request;
       gc_now := lit 94 (-1); gc_clock := lit 95 (-1) |}) as Hn.
  specialize (Hn sample_first eq_refl). cbn [gc_ring gc_envelope gc_request gc_now gc_clock] in Hn.
  apply Hn; [|reflexivity|reflexivity|reflexivity].
  constructor; [vm_compute; reflexivity|constructor].
Defined.

(** The store forgets a nonce once its own clock reaches the expiry, and that
    clock is read after the envelope was found unexpired: a call that starts
    just before the expiry and reaches the store after it is let through a
    second time. *)
Lemma replay_after_purge :
  sample_authorize (lit 92 (-1)) (lit 93 (-1)) (Some ∅) = (Ok tt, sample_spent) ∧
  ∃ store, sample_authorize (lit 95 (-1)) (lit 100 (-1)) sample_spent = (Ok tt, store).
Proof.
  split; [exact sample_first|]. eexists.
  apply (authorize_Ok no_endpoints (H0:=sample_hmac)). split.
  - apply sample_authorized. vm_compute. reflexivity.
  - eexists. split; [reflexivity|]. split; [|reflexivity].
    apply eq_None_not_Some. intros [t [Ht Hc]%unexpired_lookup].
    rewrite lookup_insert_eq in Ht. apply (inj Some) in Ht as <-. vm_compute in Hc. discriminate Hc.
Qed.
