(* ===== verification/Checkpoint.v ===== *)
(** * Workflow states and signed checkpoints (workflow_runtime/security.py)

    The state a runtime hands back to the hub, without secrets, and the signed
    checkpoint that carries it: issuing, loading, verification with a lower
    bound on the fencing token, and what a signature binds. *)
From S2P Require Import Prelude PyStr PyVal Digest Serialization SchemaEvolution Plan KeyRing Envelope Authorization.

Definition WORKFLOW_STATE_SCHEMA : string := "ananta.workflow_state.v1".
Definition SIGNED_CHECKPOINT_SCHEMA : string := "ananta.workflow_checkpoint.v1".

(** ** States *)

Record WorkflowState := {
  ws_business_data : dict;
  ws_runtime_metadata : dict;
  ws_secret_refs : list string;
  ws_artifact_refs : list string;
  ws_open_gates : list string;
  ws_schema : string;
}.

Definition assert_safe (s : WorkflowState) : result unit :=
  raise_when (bool_decide (ws_schema s ≠ WORKFLOW_STATE_SCHEMA))
    (contract_error "workflow_state_schema_unsupported") ;;
  raise_when (contains_sensitive_keys (PDict (ws_business_data s))
              || contains_sensitive_keys (PDict (ws_runtime_metadata s)))
    (contract_error "workflow_state_embedded_secret_denied") ;;
  raise_when (existsb (λ v, negb (str_true (strip v)))
                (ws_secret_refs s ++ ws_artifact_refs s ++ ws_open_gates s))
    (contract_error "workflow_state_empty_reference") ;;
  raise_when (existsb (λ reference, negb (contains "://" reference)) (ws_secret_refs s))
    (contract_error "workflow_state_secret_reference_invalid").

Definition state_to_dict (s : WorkflowState) : result dict :=
  assert_safe s ;;
  Ok [("schema", PStr (ws_schema s));
      ("business_data", redact_json (PDict (ws_business_data s)));
      ("runtime_metadata", redact_json (PDict (ws_runtime_metadata s)));
      ("secret_refs", PList (map PStr (ws_secret_refs s)));
      ("artifact_refs", PList (map PStr (ws_artifact_refs s)));
      ("open_gates", PList (map PStr (ws_open_gates s)))].

Definition state_from_mapping `{Digest} (raw : dict) : result WorkflowState :=
  raw ← upcast_runtime_contract_for_loading raw "state";
  business_data ← py_dict (por (dget "business_data" raw) (PDict []));
  runtime_metadata ← py_dict (por (dget "runtime_metadata" raw) (PDict []));
  secret_refs ← _clean_tuple (dget "secret_refs" raw);
  artifact_refs ← _clean_tuple (dget "artifact_refs" raw);
  open_gates ← _clean_tuple (dget "open_gates" raw);
  let state := {| ws_business_data := business_data; ws_runtime_metadata := runtime_metadata;
                  ws_secret_refs := secret_refs; ws_artifact_refs := artifact_refs;
                  ws_open_gates := open_gates;
                  ws_schema := str_or_default (dget "schema" raw) WORKFLOW_STATE_SCHEMA |} in
  assert_safe state ;;
  Ok state.

(** ** Checkpoints *)

Record SignedCheckpoint := {
  cp_checkpoint_id : string;
  cp_tenant_id : string;
  cp_workflow_id : string;
  cp_run_id : string;
  cp_task_id : string;
  cp_plan_hash : string;
  cp_policy_version : string;
  cp_runtime_id : string;
  cp_runtime_version : string;
  cp_state : WorkflowState;
  cp_revision : Z;
  cp_fencing_token : Z;
  cp_created_at : float;
  cp_key_id : string;
  cp_signature : string;
  cp_schema : string;
}.

(** [replace(unsigned, key_id=key_id, signature=signature)] *)
Definition checkpoint_with_signature (c : SignedCheckpoint) (key_id signature : string)
    : SignedCheckpoint :=
  {| cp_checkpoint_id := cp_checkpoint_id c; cp_tenant_id := cp_tenant_id c;
     cp_workflow_id := cp_workflow_id c; cp_run_id := cp_run_id c; cp_task_id := cp_task_id c;
     cp_plan_hash := cp_plan_hash c; cp_policy_version := cp_policy_version c;
     cp_runtime_id := cp_runtime_id c; cp_runtime_version := cp_runtime_version c;
     cp_state := cp_state c; cp_revision := cp_revision c;
     cp_fencing_token := cp_fencing_token c; cp_created_at := cp_created_at c;
     cp_key_id := key_id; cp_signature := signature; cp_schema := cp_schema c |}.

Definition checkpoint_required (c : SignedCheckpoint) : list string :=
  [cp_checkpoint_id c; cp_tenant_id c; cp_workflow_id c; cp_run_id c; cp_task_id c;
   cp_plan_hash c; cp_policy_version c; cp_runtime_id c; cp_runtime_version c; cp_key_id c].

Definition checkpoint_assert_structure (c : SignedCheckpoint) : result unit :=
  raise_when (bool_decide (cp_schema c ≠ SIGNED_CHECKPOINT_SCHEMA))
    (contract_error "checkpoint_schema_unsupported") ;;
  raise_when (existsb (λ v, negb (str_true v)) (checkpoint_required c))
    (contract_error "checkpoint_binding_required") ;;
  raise_when ((cp_revision c <? 1) || (cp_fencing_token c <? 1)
              || float_leb (cp_created_at c) (S754_zero false))
    (contract_error "checkpoint_revision_or_fencing_invalid") ;;
  assert_safe (cp_state c).

Definition checkpoint_to_dict (c : SignedCheckpoint) : result dict :=
  state ← state_to_dict (cp_state c);
  Ok [("schema", PStr (cp_schema c)); ("checkpoint_id", PStr (cp_checkpoint_id c));
      ("tenant_id", PStr (cp_tenant_id c)); ("workflow_id", PStr (cp_workflow_id c));
      ("run_id", PStr (cp_run_id c)); ("task_id", PStr (cp_task_id c));
      ("plan_hash", PStr (cp_plan_hash c)); ("policy_version", PStr (cp_policy_version c));
      ("runtime_id", PStr (cp_runtime_id c)); ("runtime_version", PStr (cp_runtime_version c));
      ("state", PDict state); ("revision", PInt (cp_revision c));
      ("fencing_token", PInt (cp_fencing_token c)); ("created_at", PFloat (cp_created_at c));
      ("key_id", PStr (cp_key_id c)); ("signature", PStr (cp_signature c))].

(** [to_dict(redacted=True)] *)
Definition checkpoint_to_dict_redacted (c : SignedCheckpoint) : result dict :=
  d ← checkpoint_to_dict c; Ok (dict_set "signature" (PStr "[REDACTED]") d).

Definition checkpoint_signing_payload (c : SignedCheckpoint) : result dict :=
  d ← checkpoint_to_dict c; Ok (dict_del "signature" d).

Definition checkpoint_from_mapping `{Digest} (raw : dict) : result SignedCheckpoint :=
  raw ← upcast_runtime_contract_for_loading raw "checkpoint";
  let text k := str_or_default (dget k raw) "" in
  state ← py_dict (por (dget "state" raw) (PDict []));
  state ← state_from_mapping state;
  revision ← py_int (por (dget "revision" raw) (PInt 0));
  fencing_token ← py_int (por (dget "fencing_token" raw) (PInt 0));
  created_at ← py_float (por (dget "created_at" raw) (PInt 0));
  Ok {| cp_checkpoint_id := text "checkpoint_id"; cp_tenant_id := text "tenant_id";
        cp_workflow_id := text "workflow_id"; cp_run_id := text "run_id";
        cp_task_id := text "task_id"; cp_plan_hash := text "plan_hash";
        cp_policy_version := text "policy_version"; cp_runtime_id := text "runtime_id";
        cp_runtime_version := text "runtime_version"; cp_state := state;
        cp_revision := revision; cp_fencing_token := fencing_token; cp_created_at := created_at;
        cp_key_id := text "key_id"; cp_signature := text "signature";
        cp_schema := str_or_default (dget "schema" raw) SIGNED_CHECKPOINT_SCHEMA |}.

(** [SignedCheckpoint.issue]; [fresh_id] is the generated identifier. *)
Definition checkpoint_issue `{KeyRing K} (ring : K) (tenant_id workflow_id run_id task_id plan_hash
  policy_version runtime_id runtime_version : string) (state : WorkflowState)
  (revision fencing_token : Z) (now : float) (checkpoint_id : option string) (fresh_id : string)
  : result SignedCheckpoint :=
  assert_safe state ;;
  let unsigned := {|
    cp_checkpoint_id := str_or (default "" checkpoint_id) fresh_id; cp_tenant_id := strip tenant_id;
    cp_workflow_id := strip workflow_id; cp_run_id := strip run_id; cp_task_id := strip task_id;
    cp_plan_hash := strip plan_hash; cp_policy_version := strip policy_version;
    cp_runtime_id := strip runtime_id; cp_runtime_version := strip runtime_version;
    cp_state := state; cp_revision := revision; cp_fencing_token := fencing_token;
    cp_created_at := now; cp_key_id := active_key_id ring; cp_signature := "";
    cp_schema := SIGNED_CHECKPOINT_SCHEMA |} in
  checkpoint_assert_structure unsigned ;;
  payload ← checkpoint_signing_payload unsigned;
  signed ← _sign_contract ring SIGNED_CHECKPOINT_SCHEMA payload (cp_key_id unsigned);
  Ok (checkpoint_with_signature unsigned signed.1 signed.2).

(** What a verifier expects a checkpoint to be bound to. *)
Record checkpoint_expected := {
  cx_tenant_id : string;
  cx_workflow_id : string;
  cx_run_id : string;
  cx_task_id : string;
  cx_plan_hash : string;
  cx_policy_version : string;
}.

Definition checkpoint_bindings (c : SignedCheckpoint) : checkpoint_expected :=
  {| cx_tenant_id := cp_tenant_id c; cx_workflow_id := cp_workflow_id c; cx_run_id := cp_run_id c;
     cx_task_id := cp_task_id c; cx_plan_hash := cp_plan_hash c;
     cx_policy_version := cp_policy_version c |}.

Definition check_checkpoint (c : SignedCheckpoint) (x : checkpoint_expected) : result unit :=
  for_each (λ nav, raise_when (bool_decide (nav.1.2 ≠ nav.2))
      (SignatureValidationError ("checkpoint_" +:+ nav.1.1 +:+ "_mismatch")))
    [("tenant_id", cp_tenant_id c, cx_tenant_id x);
     ("workflow_id", cp_workflow_id c, cx_workflow_id x); ("run_id", cp_run_id c, cx_run_id x);
     ("task_id", cp_task_id c, cx_task_id x); ("plan_hash", cp_plan_hash c, cx_plan_hash x);
     ("policy_version", cp_policy_version c, cx_policy_version x)].

Definition checkpoint_verify `{KeyRing K} (ring : K) (c : SignedCheckpoint)
  (x : checkpoint_expected) (min_fencing_token : Z) : result unit :=
  checkpoint_assert_structure c ;;
  check_checkpoint c x ;;
  raise_when (cp_fencing_token c <? min_fencing_token)
    (SignatureValidationError "checkpoint_fencing_token_stale") ;;
  payload ← checkpoint_signing_payload c;
  _verify_contract ring SIGNED_CHECKPOINT_SCHEMA payload (cp_key_id c) (cp_signature c)
    (cp_checkpoint_id c).

(** ** States are read back *)

(** A state as a runtime builds it: JSON data and references in normal form. *)
Record state_normal (s : WorkflowState) : Prop := {
  sn_safe : assert_safe s = Ok tt;
  sn_business : wf (PDict (ws_business_data s)) ∧ no_tuple (PDict (ws_business_data s)) = true;
  sn_metadata : wf (PDict (ws_runtime_metadata s)) ∧
    no_tuple (PDict (ws_runtime_metadata s)) = true;
  sn_secrets : clean_strings (ws_secret_refs s) = ws_secret_refs s;
  sn_artifacts : clean_strings (ws_artifact_refs s) = ws_artifact_refs s;
  sn_gates : clean_strings (ws_open_gates s) = ws_open_gates s;
}.

(** JSON data without credentials is what its redaction gives. *)
Lemma redact_plain d :
  wf (PDict d) → no_tuple (PDict d) = true → contains_sensitive_keys (PDict d) = false →
  redact_json (PDict d) = PDict d.
Proof.
  intros Hw Ht Hs. apply redact_json_id; [|done].
  assert (contains_sensitive_keys (PDict d) = negb (py_eqb true (redact_json (PDict d)) (PDict d)))
    as Hc by done.
  rewrite Hc, redact_py_eqb, negb_involutive in Hs; done.
Qed.

Lemma safe_inv s u : assert_safe s = Ok u →
  ws_schema s = WORKFLOW_STATE_SCHEMA ∧
  contains_sensitive_keys (PDict (ws_business_data s)) = false ∧
  contains_sensitive_keys (PDict (ws_runtime_metadata s)) = false.
Proof.
  unfold assert_safe. intros Hs. result_inv.
  match goal with Hx : _ || _ = false |- _ => apply orb_false_iff in Hx as [? ?] end.
  match goal with Hx : bool_decide _ = false |- _ =>
    apply bool_decide_eq_false, dec_stable in Hx end. done.
Qed.

Lemma normal_redacted s : state_normal s →
  redact_json (PDict (ws_business_data s)) = PDict (ws_business_data s) ∧
  redact_json (PDict (ws_runtime_metadata s)) = PDict (ws_runtime_metadata s).
Proof.
  intros [Hs [Hb Hb'] [Hm Hm'] _ _ _]. apply safe_inv in Hs as (_ & Hsb & Hsm).
  split; by apply redact_plain.
Qed.

Lemma state_eta s : s = {| ws_business_data := ws_business_data s;
  ws_runtime_metadata := ws_runtime_metadata s; ws_secret_refs := ws_secret_refs s;
  ws_artifact_refs := ws_artifact_refs s; ws_open_gates := ws_open_gates s;
  ws_schema := ws_schema s |}.
Proof. by destruct s. Qed.

Lemma state_load `{Digest} s d :
  state_normal s → state_to_dict s = Ok d → state_from_mapping d = Ok s.
Proof.
  intros Hn Hd. destruct (normal_redacted s Hn) as [Hb Hm].
  destruct Hn as [Hs _ _ Hsec Hart Hgat]. destruct (safe_inv _ _ Hs) as (Hsch & _ & _).
  unfold state_to_dict in Hd. rewrite Hs, Hb, Hm in Hd. cbn [mbind result_bind] in Hd.
  injection Hd as <-. unfold state_from_mapping.
  rewrite (loading_current _ "state" WORKFLOW_STATE_SCHEMA); [|done|].
  2:{ rewrite <- Hsch. reflexivity. }
  cbn [mbind result_bind].
  change (dget "business_data" _) with (PDict (ws_business_data s)).
  change (dget "runtime_metadata" _) with (PDict (ws_runtime_metadata s)).
  change (dget "secret_refs" _) with (PList (map PStr (ws_secret_refs s))).
  change (dget "artifact_refs" _) with (PList (map PStr (ws_artifact_refs s))).
  change (dget "open_gates" _) with (PList (map PStr (ws_open_gates s))).
  change (dget "schema" _) with (PStr (ws_schema s)).
  rewrite !por_dict, !py_str_clean_tuple, Hsec, Hart, Hgat. cbn [py_dict mbind result_bind].
  assert (str_or_default (PStr (ws_schema s)) WORKFLOW_STATE_SCHEMA = ws_schema s) as ->
    by by rewrite Hsch.
  cbv zeta. rewrite <- state_eta. by rewrite Hs.
Qed.

(** ** Checkpoints are read back *)

Lemma checkpoint_eta c : c = {|
  cp_checkpoint_id := cp_checkpoint_id c; cp_tenant_id := cp_tenant_id c;
  cp_workflow_id := cp_workflow_id c; cp_run_id := cp_run_id c; cp_task_id := cp_task_id c;
  cp_plan_hash := cp_plan_hash c; cp_policy_version := cp_policy_version c;
  cp_runtime_id := cp_runtime_id c; cp_runtime_version := cp_runtime_version c;
  cp_state := cp_state c; cp_revision := cp_revision c; cp_fencing_token := cp_fencing_token c;
  cp_created_at := cp_created_at c; cp_key_id := cp_key_id c; cp_signature := cp_signature c;
  cp_schema := cp_schema c |}.
Proof. by destruct c. Qed.

Lemma structure_inv c u : checkpoint_assert_structure c = Ok u →
  cp_schema c = SIGNED_CHECKPOINT_SCHEMA ∧ 1 ≤ cp_revision c ∧ 1 ≤ cp_fencing_token c ∧
  float_leb (cp_created_at c) (S754_zero false) = false ∧ assert_safe (cp_state c) = Ok tt.
Proof.
  unfold checkpoint_assert_structure. intros Hs. result_inv. destruct u.
  match goal with Hx : _ || _ || _ = false |- _ =>
    apply orb_false_iff in Hx as [[Hr%Z.ltb_ge Hf%Z.ltb_ge]%orb_false_iff Hc] end.
  match goal with Hx : bool_decide _ = false |- _ =>
    apply bool_decide_eq_false, dec_stable in Hx end. done.
Qed.

Lemma truthy_int n : 1 ≤ n → py_int (por (PInt n) (PInt 0)) = Ok n.
Proof. intros Hn. unfold por. cbn [truthy]. by rewrite (proj2 (Z.eqb_neq n 0)) by lia. Qed.

Lemma positive_float x :
  float_leb x (S754_zero false) = false → py_float (por (PFloat x) (PInt 0)) = Ok x.
Proof. by destruct x as [[]| | |]. Qed.

Lemma checkpoint_load `{Digest} c d :
  checkpoint_assert_structure c = Ok tt → state_normal (cp_state c) →
  checkpoint_to_dict c = Ok d → checkpoint_from_mapping d = Ok c.
Proof.
  intros (Hsch & Hr & Hf & Ht & _)%structure_inv Hn Hd. unfold checkpoint_to_dict in Hd. result_inv.
  match goal with Hx : state_to_dict _ = Ok ?x |- _ =>
    rename x into sd; apply (state_load _ _ Hn) in Hx; rename Hx into Hload end.
  subst d. unfold checkpoint_from_mapping.
  rewrite (loading_current _ "checkpoint" SIGNED_CHECKPOINT_SCHEMA); [|done|].
  2:{ rewrite <- Hsch. reflexivity. }
  cbn [mbind result_bind]. cbv zeta.
  change (dget "state" _) with (PDict sd).
  change (dget "revision" _) with (PInt (cp_revision c)).
  change (dget "fencing_token" _) with (PInt (cp_fencing_token c)).
  change (dget "created_at" _) with (PFloat (cp_created_at c)).
  rewrite por_dict. cbn [py_dict mbind result_bind]. rewrite Hload. cbn [mbind result_bind].
  rewrite !truthy_int by done. cbn [mbind result_bind]. rewrite positive_float by done.
  cbn [mbind result_bind]. f_equal.
  etrans; [|symmetry; apply checkpoint_eta]. f_equal; try exact (text_of _).
  change (dget "schema" _) with (PStr (cp_schema c)). by rewrite Hsch.
Qed.

(** ** Verification *)

Section verification.
Context `{KeyRing K}.

Lemma check_checkpoint_Ok c x u : check_checkpoint c x = Ok u ↔ x = checkpoint_bindings c.
Proof.
  unfold check_checkpoint. rewrite for_each_Ok, !Forall_cons. cbn [fst snd].
  setoid_rewrite raise_when_Ok. setoid_rewrite bool_decide_eq_false. split.
  - intros (H1 & H2 & H3 & H4 & H5 & H6 & _).
    apply dec_stable in H1, H2, H3, H4, H5, H6. destruct x; cbn in *. by subst.
  - intros ->. cbn. by repeat split; auto.
Qed.

(** The checks of [verify], all of which it takes. *)
Record accepted (ring : K) (c : SignedCheckpoint) (x : checkpoint_expected) (m : Z) : Prop := {
    ac_structure : checkpoint_assert_structure c = Ok tt;
    ac_bindings : x = checkpoint_bindings c;
    ac_fencing : m ≤ cp_fencing_token c;
    ac_signature : ∃ payload, checkpoint_signing_payload c = Ok payload ∧
    ring_verify ring SIGNED_CHECKPOINT_SCHEMA payload (cp_key_id c) (cp_signature c)
    (cp_checkpoint_id c) = Ok tt;
  }.

Lemma checkpoint_verify_exact ring c x m :
  checkpoint_verify ring c x m = Ok tt ↔ accepted ring c x m.
Proof.
  unfold checkpoint_verify, _verify_contract. split.
  - intros Hv. result_inv. rewrite as_signature_error_Ok in Hv.
    repeat match goal with u : unit |- _ => destruct u end.
    match goal with Hx : check_checkpoint _ _ = Ok _ |- _ => rewrite check_checkpoint_Ok in Hx end.
    match goal with Hx : (_ <? _) = false |- _ => apply Z.ltb_ge in Hx end.
    constructor; eauto.
  - intros [Hs Hb Hf (payload & Hp & Hv)]. rewrite Hs. cbn [mbind result_bind].
    rewrite (proj2 (check_checkpoint_Ok c x tt) Hb), (proj2 (Z.ltb_ge _ _) Hf).
    cbn [raise_when mbind result_bind]. rewrite Hp. cbn [mbind result_bind].
    by rewrite as_signature_error_Ok.
Qed.

Lemma checkpoint_payload_signature c key s s' :
  checkpoint_signing_payload (checkpoint_with_signature c key s) =
  checkpoint_signing_payload (checkpoint_with_signature c key s').
Proof.
  unfold checkpoint_signing_payload, checkpoint_to_dict. cbn [checkpoint_with_signature cp_state].
  by destruct (state_to_dict (cp_state c)).
Qed.

Lemma checkpoint_issue_Ok ring tenant workflow run task hash policy runtime version state revision
  fence now id fresh c :
  checkpoint_issue ring tenant workflow run task hash policy runtime version state revision fence
  now id fresh = Ok c →
  cp_state c = state ∧ checkpoint_assert_structure c = Ok tt ∧
  ∃ payload, checkpoint_signing_payload c = Ok payload ∧
  ring_sign ring SIGNED_CHECKPOINT_SCHEMA payload (active_key_id ring) =
  Ok (cp_key_id c, cp_signature c).
Proof.
  unfold checkpoint_issue. intros Hc. result_inv.
  match goal with Hx : _sign_contract _ _ _ _ = Ok ?x |- _ =>
      unfold _sign_contract in Hx; rewrite as_signature_error_Ok in Hx; cbn [cp_key_id] in Hx;
      destruct x as [key signature]; pose proof (sign_active _ _ _ _ _ Hx) as Hkey end.
  match goal with Hx : checkpoint_assert_structure _ = Ok ?u |- _ => destruct u end.
  subst. cbn [fst snd]. split; [done|]. split; [assumption|].
  eexists. split; [|eassumption]. by rewrite <- (checkpoint_payload_signature _ _ "").
Qed.
End verification.

(** C15: a checkpoint the hub issues is accepted exactly for the run, task, plan
    and policy it was issued for, under a fencing token not older than the one
    required, while it is not revoked; and it is read back from storage as it
    was, with its state, when the state is in normal form: it holds JSON data
    without tuples and without credentials, and its references are sorted and
    free of duplicates and outer white space ([checkpoint_refs_reordered] shows
    what happens to others). *)
Theorem checkpoint_roundtrip `{Digest} `{KeyRing K} (ring : K) tenant workflow run task hash policy
    runtime version state revision fence now id fresh c :
  checkpoint_issue ring tenant workflow run task hash policy runtime version state revision fence
    now id fresh = Ok c →
  (∀ x m, checkpoint_verify ring c x m = Ok tt ↔
   x = checkpoint_bindings c ∧ m ≤ cp_fencing_token c ∧
   contract_revoked ring (cp_checkpoint_id c) = false) ∧
  (state_normal state → ∃ d, checkpoint_to_dict c = Ok d ∧ checkpoint_from_mapping d = Ok c).
Proof.
  intros (Hst & Hs & payload & Hp & Hsign)%checkpoint_issue_Ok. subst state. split.
  - intros x m. rewrite checkpoint_verify_exact. split.
    + intros [_ Hb Hf (p & _ & Hv)]. split_and!; [done..|].
      apply not_true_iff_false. intros Hr. eapply verify_revoked in Hr. by rewrite Hv in Hr.
    + intros (Hb & Hf & Hr). constructor; [done..|]. exists payload. split; [done|].
      by eapply verify_signed.
  - intros Hn. destruct (checkpoint_to_dict c) as [d|e] eqn:Hd.
    + exists d. split; [done|]. by eapply checkpoint_load.
    + exfalso. unfold checkpoint_signing_payload in Hp. by rewrite Hd in Hp.
Qed.

(** ** What a checkpoint's signature binds *)

(** The same state, up to the order in which its dicts were filled. *)
Record same_state (s s' : WorkflowState) : Prop := {
  ss_business : norm (PDict (ws_business_data s)) = norm (PDict (ws_business_data s'));
  ss_metadata : norm (PDict (ws_runtime_metadata s)) = norm (PDict (ws_runtime_metadata s'));
  ss_secrets : ws_secret_refs s = ws_secret_refs s';
  ss_artifacts : ws_artifact_refs s = ws_artifact_refs s';
  ss_gates : ws_open_gates s = ws_open_gates s';
}.

Lemma state_unique s s' d d' :
  state_normal s → state_normal s' → state_to_dict s = Ok d → state_to_dict s' = Ok d' →
  norm (PDict d) = norm (PDict d') → same_state s s'.
Proof.
  intros [Hb Hm]%normal_redacted [Hb' Hm']%normal_redacted Hd Hd' Hn.
  unfold state_to_dict in Hd, Hd'. rewrite Hb, Hm in Hd. rewrite Hb', Hm' in Hd'. result_inv. subst d d'.
  match type of Hn with norm (PDict ?d) = norm (PDict ?d') =>
    assert (dict_wf d) as Hw by (apply (bool_decide_unpack _); reflexivity);
    assert (dict_wf d') as Hw' by (apply (bool_decide_unpack _); reflexivity) end.
  norm_fields Hw Hw' Hn ("business_data", "runtime_metadata", "secret_refs", "artifact_refs",
    "open_gates").
  constructor; [exact (f_equal PDict Hk)|exact (f_equal PDict Hk0)| | |]; by apply strings_unique.
Qed.

Lemma checkpoint_unique c c' d d' :
  cp_schema c = cp_schema c' → state_normal (cp_state c) → state_normal (cp_state c') →
  checkpoint_signing_payload c = Ok d → checkpoint_signing_payload c' = Ok d' →
  norm (PDict d) = norm (PDict d') →
  same_state (cp_state c) (cp_state c') ∧ checkpoint_bindings c = checkpoint_bindings c' ∧
  cp_checkpoint_id c = cp_checkpoint_id c' ∧ cp_runtime_id c = cp_runtime_id c' ∧
  cp_runtime_version c = cp_runtime_version c' ∧ cp_revision c = cp_revision c' ∧
  cp_fencing_token c = cp_fencing_token c' ∧ cp_created_at c = cp_created_at c'.
Proof.
  intros Hsch Hs Hs' Hd Hd' Hn. unfold checkpoint_signing_payload, checkpoint_to_dict in Hd, Hd'.
  result_inv. subst.
  match goal with Hx : state_to_dict (cp_state c) = Ok ?x, Hx' : state_to_dict (cp_state c') = Ok ?x' |- _ =>
    rename x into sd, x' into sd', Hx into Hsd, Hx' into Hsd' end.
  match type of Hn with norm (PDict ?d) = norm (PDict ?d') =>
    assert (dict_wf d) as Hw by (apply (bool_decide_unpack _); reflexivity);
    assert (dict_wf d') as Hw' by (apply (bool_decide_unpack _); reflexivity) end.
  norm_fields Hw Hw' Hn ("state", "checkpoint_id", "tenant_id", "workflow_id", "run_id", "task_id",
    "plan_hash", "policy_version", "runtime_id", "runtime_version", "revision", "fencing_token",
    "created_at").
  split; [by apply (state_unique _ _ sd sd'); [..|exact (f_equal PDict Hk)]|].
  unfold checkpoint_bindings. split_and!; try done. congruence.
Qed.

(** A signature binds the whole checkpoint: two checkpoints the ring accepts
    with the same key and signature carry the same identifiers, revision,
    fencing token and state, and no signature is accepted both for a checkpoint
    and for an authorization envelope, unless the two signed texts clash. *)
Theorem checkpoint_signature_binds `{Digest} (ring : HmacKeyRing) c x m d :
  checkpoint_verify ring c x m = Ok tt → state_normal (cp_state c) →
  checkpoint_signing_payload c = Ok d → json_ok (PDict d) = true →
  (∀ c' x' m' d', checkpoint_verify ring c' x' m' = Ok tt → state_normal (cp_state c') →
   checkpoint_signing_payload c' = Ok d' → json_ok (PDict d') = true →
   cp_key_id c = cp_key_id c' → cp_signature c = cp_signature c' →
   same_state (cp_state c) (cp_state c') ∧ checkpoint_bindings c = checkpoint_bindings c' ∧
   cp_checkpoint_id c = cp_checkpoint_id c' ∧ cp_runtime_id c = cp_runtime_id c' ∧
   cp_runtime_version c = cp_runtime_version c' ∧ cp_revision c = cp_revision c' ∧
   cp_fencing_token c = cp_fencing_token c' ∧ cp_created_at c = cp_created_at c' ∨
   ring_clash ring (cp_key_id c) SIGNED_CHECKPOINT_SCHEMA d SIGNED_CHECKPOINT_SCHEMA d') ∧
  (∀ normalize_endpoint e x' now d', envelope_verify normalize_endpoint ring e x' now = Ok tt →
   envelope_signing_payload normalize_endpoint e = Ok d' → json_ok (PDict d') = true →
   cp_key_id c = en_key_id e → cp_signature c = en_signature e →
   ring_clash ring (cp_key_id c) SIGNED_CHECKPOINT_SCHEMA d AUTHORIZATION_ENVELOPE_SCHEMA d').
Proof.
  intros [Hst _ _ (p & Hp & Hv)]%checkpoint_verify_exact Hn Hd Hok.
  rewrite Hd in Hp. injection Hp as <-. split.
  - intros c' x' m' d' [Hst' _ _ (p & Hp & Hv')]%checkpoint_verify_exact Hn' Hd' Hok' Hk Hs.
    rewrite Hd' in Hp. injection Hp as <-. rewrite <- Hk, <- Hs in Hv'.
    apply (verify_unique ring SIGNED_CHECKPOINT_SCHEMA d (cp_checkpoint_id c)) in Hv'
      as [[_ Heq]|]; [left|by right|done..].
    apply structure_inv in Hst as (Hsch & _), Hst' as (Hsch' & _).
    apply (checkpoint_unique c c' d d'); [congruence|done..].
  - intros ne e x' now d' [_ _ _ _ (p & Hp & Hv')]%verify_exact Hd' Hok' Hk Hs.
    rewrite Hd' in Hp. injection Hp as <-. rewrite <- Hk, <- Hs in Hv'.
    by apply (verify_unique ring SIGNED_CHECKPOINT_SCHEMA d (cp_checkpoint_id c)) in Hv'
      as [[? _]|]; [| |done..].
Qed.

(** ** Examples *)

Definition sample_state : WorkflowState :=
  {| ws_business_data := [("order", PInt 7); ("items", PList [PStr "a"; PStr "b"])];
     ws_runtime_metadata := [("cursor", PDict [("step", PStr "s1")])];
     ws_secret_refs := ["vault://db"]; ws_artifact_refs := ["a1"; "a2"]; ws_open_gates := ["review"];
     ws_schema := WORKFLOW_STATE_SCHEMA |}.

Definition sample_checkpoint : SignedCheckpoint :=
  match @checkpoint_issue HmacKeyRing sample_hmac sample_ring "tenant" "wf" "run" "task" "hash" "p1"
    "native" "1.2" sample_state 3 5 (lit 9 0) (Some "wfc-1") "" with
  | Ok c => c
  | Err _ => {| cp_checkpoint_id := ""; cp_tenant_id := ""; cp_workflow_id := ""; cp_run_id := "";
      cp_task_id := ""; cp_plan_hash := ""; cp_policy_version := ""; cp_runtime_id := "";
      cp_runtime_version := ""; cp_state := sample_state; cp_revision := 0; cp_fencing_token := 0;
      cp_created_at := lit 0 0; cp_key_id := ""; cp_signature := ""; cp_schema := "" |}
  end.

Definition sample_checkpoint_payload : dict :=
  match checkpoint_signing_payload sample_checkpoint with Ok d => d | Err _ => [] end.

Lemma sample_state_normal : state_normal sample_state.
Proof.
  constructor; [vm_compute; reflexivity| | |vm_compute; reflexivity..].
  - split; [repeat constructor; set_solver|reflexivity].
  - split; [repeat constructor; set_solver|reflexivity].
Qed.

Lemma sample_checkpoint_state : cp_state sample_checkpoint = sample_state.
Proof. vm_compute. reflexivity. Qed.

Lemma sample_checkpoint_accepted :
  @checkpoint_verify HmacKeyRing sample_hmac sample_ring sample_checkpoint
    (checkpoint_bindings sample_checkpoint) 4 = Ok tt.
Proof. vm_compute. reflexivity. Qed.

Notation sample_issued state := (@checkpoint_issue HmacKeyRing sample_hmac sample_ring "tenant" "wf"
  "run" "task" "hash" "p1" "native" "1.2" state 3 5 (lit 9 0) (Some "wfc-1") "").

Lemma checkpoint_roundtrip_witness :
  sample_issued sample_state = Ok sample_checkpoint ∧
  ∃ d, checkpoint_to_dict sample_checkpoint = Ok d ∧
    @checkpoint_from_mapping checksum_digest d = Ok sample_checkpoint.
Proof.
  assert (sample_issued sample_state = Ok sample_checkpoint) as Hc by (vm_compute; reflexivity).
  split; [exact Hc|].
  exact (proj2 (@checkpoint_roundtrip checksum_digest HmacKeyRing sample_hmac sample_ring "tenant"
    "wf" "run" "task" "hash" "p1" "native" "1.2" sample_state 3 5 (lit 9 0) (Some "wfc-1") ""
    sample_checkpoint Hc) sample_state_normal).
Defined.

(** The same state with its artifact references in the order of their making. *)
Definition unsorted_state : WorkflowState :=
  {| ws_business_data := []; ws_runtime_metadata := []; ws_secret_refs := [];
     ws_artifact_refs := ["b"; "a"]; ws_open_gates := []; ws_schema := WORKFLOW_STATE_SCHEMA |}.

(** [issue] signs the references of a state as they are, and loading sorts them:
    such a checkpoint is accepted before it is stored and no longer after. *)
Lemma checkpoint_refs_reordered :
  match sample_issued unsorted_state with
  | Err _ => False
  | Ok c =>
      @checkpoint_verify HmacKeyRing sample_hmac sample_ring c (checkpoint_bindings c) 4 = Ok tt ∧
      match (d ← checkpoint_to_dict c; @checkpoint_from_mapping checksum_digest d) with
      | Err _ => False
      | Ok c' => ws_artifact_refs (cp_state c') = ["a"; "b"] ∧
          is_ok (@checkpoint_verify HmacKeyRing sample_hmac sample_ring c' (checkpoint_bindings c) 4) = false
      end
  end.
Proof. vm_compute. repeat split; reflexivity. Qed.

Lemma checkpoint_signature_binds_witness :
  same_state (cp_state sample_checkpoint) (cp_state sample_checkpoint) ∨
  @ring_clash checksum_digest sample_ring (cp_key_id sample_checkpoint) SIGNED_CHECKPOINT_SCHEMA
    sample_checkpoint_payload SIGNED_CHECKPOINT_SCHEMA sample_checkpoint_payload.
Proof.
  assert (state_normal (cp_state sample_checkpoint)) as Hn
    by (rewrite sample_checkpoint_state; exact sample_state_normal).
  assert (checkpoint_signing_payload sample_checkpoint = Ok sample_checkpoint_payload) as Hd
    by (vm_compute; reflexivity).
  assert (json_ok (PDict sample_checkpoint_payload) = true) as Hok by (vm_compute; reflexivity).
  pose proof (proj1 (@checkpoint_signature_binds checksum_digest sample_ring sample_checkpoint
    (checkpoint_bindings sample_checkpoint) 4 sample_checkpoint_payload sample_checkpoint_accepted
    Hn Hd Hok)) as Hb.
  destruct (Hb sample_checkpoint (checkpoint_bindings sample_checkpoint) 4 sample_checkpoint_payload
    sample_checkpoint_accepted Hn Hd Hok eq_refl eq_refl) as [Hs|Hc];
    [left; exact (proj1 Hs)|right; exact Hc].
Defined.
