(* ===== verification/Streaming.v ===== *)
(** * Event streaming (workflow_runtime/streaming.py)

    Bounded pages over a workflow's history, with opaque cursors: the request
    and its checks, the cursor, the frame of a raw event, the wait for new
    events and the page.  The history, the clocks and the client's connection
    are inputs; a client that follows the cursors sees every event once. *)
From Stdlib Require Import DecimalPos DecimalZ DecimalString.
From S2P Require Import Prelude PyStr PyVal Serialization Events.

(** ** Decimal text *)

Lemma digits_value_acc u p :
  digits_value (Zpos p) (NilEmpty.string_of_uint u) = Some (Zpos (Pos.of_uint_acc u p)).
Proof.
  revert p. induction u as [|u IH|u IH|u IH|u IH|u IH|u IH|u IH|u IH|u IH|u IH]; intros p; [done|..].
  all: cbn [NilEmpty.string_of_uint digits_value Pos.of_uint_acc]; rewrite <- IH.
  all: match goal with |- context [code_point ?c] =>
         let v := eval vm_compute in (code_point c) in change (code_point c) with v end.
  all: change (is_digit_ascii _) with true; cbv iota; f_equal; lia.
Qed.

Lemma digits_value_zero u :
  digits_value 0 (NilEmpty.string_of_uint u) = Some (Z.of_N (Pos.of_uint u)).
Proof.
  induction u as [|u IH|u IH|u IH|u IH|u IH|u IH|u IH|u IH|u IH|u IH]; [done|exact IH|..].
  all: exact (digits_value_acc u _).
Qed.

Lemma z_str_digits n : 0 ≤ n → digits (z_str n) = Some n.
Proof.
  intros Hn. unfold z_str. destruct n as [|p|p]; [done| |lia]. cbn [Z.to_int].
  pose proof (digits_value_zero (Pos.to_uint p)) as Hd. rewrite Unsigned.of_to in Hd.
  pose proof (Unsigned.to_uint_nonnil p) as Hnil.
  destruct (Pos.to_uint p) as [|u|u|u|u|u|u|u|u|u|u]; [done|..]; exact Hd.
Qed.

Lemma z_str_isdigit n : 0 ≤ n → str_forall is_digit_ascii (z_str n) = true ∧ z_str n ≠ "".
Proof.
  intros Hn. split; [|apply z_str_nonempty].
  assert (∀ u, str_forall is_digit_ascii (NilEmpty.string_of_uint u) = true) as Hu.
  { induction u; [done|..]; cbn -[str_forall]; by rewrite str_forall_String, IHu. }
  unfold z_str. destruct n as [|p|p]; [done| |lia]. cbn [Z.to_int NilZero.string_of_int].
  destruct (Pos.to_uint p) eqn:Hp; [done|..]; rewrite <- Hp; cbn -[str_forall]; rewrite Hp; apply Hu.
Qed.

(** ** Constants *)

Definition WORKFLOW_STREAM_REQUEST_SCHEMA : string := "ananta.workflow_stream_request.v1".
Definition WORKFLOW_STREAM_FRAME_SCHEMA : string := "ananta.workflow_stream_frame.v1".
Definition WORKFLOW_STREAM_BATCH_SCHEMA : string := "ananta.workflow_stream_batch.v1".

Definition CANONICAL_STREAM_EVENT_TYPES : list string :=
  ["workflow.token.delta"; "workflow.tool.started"; "workflow.tool.completed";
   "workflow.tool.failed"; "workflow.node.started"; "workflow.node.completed";
   "workflow.node.failed"; "workflow.approval.requested"; "workflow.approval.approved";
   "workflow.approval.rejected"; "workflow.budget.updated"; "workflow.status.updated";
   "workflow.run.started"; "workflow.run.completed"; "workflow.run.failed";
   "workflow.run.cancelled"; "workflow.stream.heartbeat"; "workflow.stream.backpressure"].

Definition _LEGACY_TYPES : list (string * string) :=
  [("workflow_started", "workflow.run.started"); ("workflow_completed", "workflow.run.completed");
   ("workflow_failed", "workflow.run.failed"); ("workflow_cancelled", "workflow.run.cancelled");
   ("step_started", "workflow.node.started"); ("step_completed", "workflow.node.completed");
   ("step_failed", "workflow.node.failed"); ("approval_requested", "workflow.approval.requested");
   ("signal:approve", "workflow.approval.approved");
   ("signal:reject", "workflow.approval.rejected"); ("budget_updated", "workflow.budget.updated");
   ("token", "workflow.token.delta"); ("tool_started", "workflow.tool.started");
   ("tool_completed", "workflow.tool.completed"); ("tool_failed", "workflow.tool.failed")].

Definition stream_prefixes : list string :=
  ["workflow.token."; "workflow.tool."; "workflow.node."; "workflow.approval.";
   "workflow.budget."; "workflow.status."; "workflow.run."; "workflow.step."].

(** ** Cursors *)

Definition _encode_cursor (offset : Z) : string := "v1:" +:+ z_str (Z.max 0 offset).

(** [s.partition(":")] *)
Fixpoint partition_colon (s : string) : string * bool * string :=
  match s with
  | EmptyString => ("", false, "")
  | String c s =>
      if bool_decide (c = ":"%char) then ("", true, s)
      else let '(before, found, after) := partition_colon s in (String c before, found, after)
  end.

Definition isdigit (s : string) : bool := str_true s && str_forall is_digit_unicode s.

Definition MAXIMUM_OFFSET : Z := 10000000.

Definition _decode_cursor (cursor : string) : result Z :=
  if str_true cursor then
    let '(prefix, separator, raw_offset) := partition_colon cursor in
    raise_when (negb separator || bool_decide (prefix ≠ "v1") || negb (isdigit raw_offset))
      (StreamError "workflow_stream_cursor_invalid") ;;
    offset ← py_int (PStr raw_offset);
    raise_when (MAXIMUM_OFFSET <? offset) (StreamError "workflow_stream_cursor_invalid") ;;
    Ok offset
  else Ok 0.

(** ** Requests *)

Record WorkflowStreamRequest := {
  sq_workflow_id : string;
  sq_after_cursor : string;
  sq_max_events : Z;
  sq_wait_seconds : float;
  sq_heartbeat_seconds : float;
  sq_schema : string;
}.

(** [try: convert(value) except (TypeError, ValueError)] *)
Definition stream_number {A} (convert : pyval → result A) (value : pyval) (default : A) : result A :=
  match value with
  | PNone => Ok default
  | PBool _ => Err (StreamError "workflow_stream_number_invalid")
  | _ =>
      match convert value with
      | Err e => Err (if is_value_or_type_error e
                      then StreamError "workflow_stream_number_invalid" else e)
      | r => r
      end
  end.

Definition _integer : pyval → Z → result Z := stream_number py_int.
Definition _number : pyval → float → result float := stream_number py_float.

Definition request_validate (q : WorkflowStreamRequest) : result unit :=
  raise_when (bool_decide (sq_schema q ≠ WORKFLOW_STREAM_REQUEST_SCHEMA))
    (StreamError "workflow_stream_schema_unsupported") ;;
  raise_when (negb (str_true (sq_workflow_id q)) || (160 <? str_len (sq_workflow_id q)))
    (StreamError "workflow_stream_workflow_id_invalid") ;;
  _decode_cursor (sq_after_cursor q) ;;
  raise_when (negb ((1 <=? sq_max_events q) && (sq_max_events q <=? 256)))
    (StreamError "workflow_stream_max_events_invalid") ;;
  raise_when (negb (float_leb (lit 0 0) (sq_wait_seconds q)
                    && float_leb (sq_wait_seconds q) (lit 30 0)))
    (StreamError "workflow_stream_wait_invalid") ;;
  raise_when (negb (float_leb (lit 1 0) (sq_heartbeat_seconds q)
                    && float_leb (sq_heartbeat_seconds q) (lit 30 0)))
    (StreamError "workflow_stream_heartbeat_invalid").

Definition request_keys : list string :=
  ["schema"; "workflow_id"; "after_cursor"; "max_events"; "wait_seconds"; "heartbeat_seconds"].

Definition request_from_mapping (raw : dict) : result WorkflowStreamRequest :=
  raise_when (existsb (λ k, bool_decide (k ∉ request_keys)) (dict_keys raw))
    (StreamError "workflow_stream_unknown_field") ;;
  max_events ← _integer (dget "max_events" raw) 128;
  wait_seconds ← _number (dget "wait_seconds" raw) (lit 0 0);
  heartbeat_seconds ← _number (dget "heartbeat_seconds" raw) (lit 15 0);
  let request := {|
    sq_workflow_id := strip (str_or_default (dget "workflow_id" raw) "");
    sq_after_cursor := strip (str_or_default (dget "after_cursor" raw) "");
    sq_max_events := max_events; sq_wait_seconds := wait_seconds;
    sq_heartbeat_seconds := heartbeat_seconds;
    sq_schema := str_or_default (dget "schema" raw) "" |} in
  request_validate request ;;
  Ok request.

(** ** Frames and batches *)

Record WorkflowStreamFrame := {
  fr_event_type : string;
  fr_workflow_id : string;
  fr_cursor : string;
  fr_event_id : string;
  fr_occurred_at : float;
  fr_run_id : string;
  fr_step_id : string;
  fr_payload : dict;
}.

Definition frame_to_dict (f : WorkflowStreamFrame) : dict :=
  [("schema", PStr WORKFLOW_STREAM_FRAME_SCHEMA); ("event_type", PStr (fr_event_type f));
   ("workflow_id", PStr (fr_workflow_id f)); ("run_id", PStr (fr_run_id f));
   ("step_id", PStr (fr_step_id f)); ("cursor", PStr (fr_cursor f));
   ("event_id", PStr (fr_event_id f)); ("occurred_at", PFloat (fr_occurred_at f));
   ("payload", PDict (fr_payload f))].

Record WorkflowStreamBatch := {
  sb_frames : list WorkflowStreamFrame;
  sb_next_cursor : string;
  sb_has_more : bool;
}.

Definition batch_to_dict (b : WorkflowStreamBatch) : dict :=
  [("schema", PStr WORKFLOW_STREAM_BATCH_SCHEMA);
   ("frames", PList (map (λ f, PDict (frame_to_dict f)) (sb_frames b)));
   ("next_cursor", PStr (sb_next_cursor b)); ("has_more", PBool (sb_has_more b))].

Definition _canonical_event_type (raw_type : string) : string :=
  if bool_decide (raw_type ∈ CANONICAL_STREAM_EVENT_TYPES) then raw_type
  else if existsb (λ p, starts_with p raw_type) stream_prefixes then str_take 128 raw_type
  else default "workflow.status.updated"
         (snd <$> List.find (λ kv, bool_decide (kv.1 = raw_type)) _LEGACY_TYPES).

(** The payload of a frame: redacted, with the type it came from, and bounded. *)
Definition frame_payload (raw : dict) (raw_type event_type : string) : dict :=
  let raw_payload :=
    match dget "payload" raw with
    | PDict d => d
    | _ => match dget "details" raw with PDict d => d | _ => [] end
    end in
  let payload := redact_dict raw_payload in
  let payload :=
    if bool_decide (event_type = "workflow.status.updated") && str_true raw_type
    then dict_set "source_event_type" (PStr (str_take 128 raw_type)) payload else payload in
  let rendered_size := Z.of_nat (length (utf8 (py_str (PDict payload)))) in
  if 64 * 1024 <? rendered_size
  then [("reason_code", PStr "workflow_stream_payload_redacted");
        ("original_size_bytes", PInt rendered_size)]
  else payload.

(** [_frame]; [clock] is the reading of the clock, used when the event has no
    time of its own. *)
Definition _frame (clock : float) (workflow_id : string) (raw : pyval) (position : Z)
  : result WorkflowStreamFrame :=
  match raw with
  | PDict raw =>
      let raw_type := strip (str_or_default (dget "event_type" raw) "") in
      let event_type := _canonical_event_type raw_type in
      let payload := frame_payload raw raw_type event_type in
      occurred_at ← py_float
        (por (por (dget "occurred_at" raw) (dget "timestamp" raw)) (PFloat clock));
      Ok {| fr_event_type := event_type; fr_workflow_id := workflow_id;
            fr_cursor := _encode_cursor position;
            fr_event_id := str_take 256
              (str_or_default (dget "event_id" raw) ("stream:" +:+ z_str position));
            fr_occurred_at := occurred_at;
            fr_run_id := str_take 160 (str_or_default (dget "run_id" raw) "");
            fr_step_id := str_take 160
              (str_or_default (por (dget "step_id" raw) (dget "step_id" payload)) "");
            fr_payload := payload |}
  | _ => Err (StreamError "workflow_stream_event_invalid")
  end.

(** ** Pages *)

Definition heartbeat_frame (q : WorkflowStreamRequest) (offset : Z) (now : float)
  : WorkflowStreamFrame :=
  {| fr_event_type := "workflow.stream.heartbeat"; fr_workflow_id := sq_workflow_id q;
     fr_cursor := _encode_cursor offset; fr_event_id := "heartbeat:" +:+ z_str offset;
     fr_occurred_at := now; fr_run_id := ""; fr_step_id := "";
     fr_payload := [("retry_after_seconds", PFloat (sq_heartbeat_seconds q))] |}.

Definition backpressure_frame (q : WorkflowStreamRequest) (next_offset remaining : Z) (now : float)
  : WorkflowStreamFrame :=
  {| fr_event_type := "workflow.stream.backpressure"; fr_workflow_id := sq_workflow_id q;
     fr_cursor := _encode_cursor next_offset;
     fr_event_id := "backpressure:" +:+ z_str next_offset;
     fr_occurred_at := now; fr_run_id := ""; fr_step_id := "";
     fr_payload := [("remaining_events", PInt remaining)] |}.

(** [enumerate]d frames of the selected events; [clock] gives the reading of the
    clock for the frame at a position. *)
Fixpoint event_frames (clock : Z → float) (workflow_id : string) (offset : Z) (selected : list pyval)
  : result (list WorkflowStreamFrame) :=
  match selected with
  | [] => Ok []
  | raw :: selected =>
      f ← _frame (clock (offset + 1)) workflow_id raw (offset + 1);
      fs ← event_frames clock workflow_id (offset + 1) selected;
      Ok (f :: fs)
  end.

(** The page of [read] once the events are there. *)
Definition page (clock : Z → float) (q : WorkflowStreamRequest) (offset : Z) (events : list pyval)
  : result WorkflowStreamBatch :=
  raise_when (Z.of_nat (length events) <? offset) (StreamError "workflow_stream_cursor_ahead") ;;
  let available := drop (Z.to_nat offset) events in
  let selected := take (Z.to_nat (sq_max_events q)) available in
  frames ← event_frames clock (sq_workflow_id q) offset selected;
  let next_offset := offset + Z.of_nat (length selected) in
  let has_more := bool_decide (length selected < length available)%nat in
  let frames :=
    match frames with
    | [] => [heartbeat_frame q offset (clock offset)]
    | _ => frames ++
        if has_more
        then [backpressure_frame q next_offset
                (Z.of_nat (length available) - Z.of_nat (length selected)) (clock (next_offset + 1))]
        else []
    end in
  Ok {| sb_frames := frames; sb_next_cursor := _encode_cursor next_offset; sb_has_more := has_more |}.

(** *** Waiting *)

(** [min(a, b)] and [max(a, b)] *)
Definition py_min (a b : float) : float := if float_ltb b a then b else a.
Definition py_max (a b : float) : float := if float_ltb a b then b else a.

(** [poll_interval_seconds] of the constructor. *)
Definition poll_interval (seconds : float) : float := py_max (lit 1 (-2)) (py_min seconds (lit 1 0)).

(** One turn of the waiting loop: the clock read by its condition, whether the
    client has gone, the clock read for the sleep, and the history after it. *)
Record poll := {
  pl_time : float;
  pl_disconnected : bool;
  pl_before_sleep : float;
  pl_events : list pyval;
}.

(** The loop over the turns the environment offers: the answer with the sleeps
    taken, or [None] when it is still waiting after the last turn. *)
Fixpoint wait_loop (interval deadline : float) (offset : Z) (events : list pyval)
  (polls : list poll) (sleeps : list float) : option (result (list pyval) * list float) :=
  match polls with
  | [] => None
  | p :: polls =>
      if float_ltb (pl_time p) deadline then
        if pl_disconnected p then Some (Err (StreamError "workflow_stream_disconnected"), sleeps)
        else
          let sleeps := sleeps ++ [py_min interval
            (py_max (lit 0 0) (float_sub deadline (pl_before_sleep p)))] in
          let events := pl_events p in
          if Z.of_nat (length events) <? offset
          then Some (Err (StreamError "workflow_stream_cursor_ahead"), sleeps)
          else if offset <? Z.of_nat (length events) then Some (Ok events, sleeps)
          else wait_loop interval deadline offset events polls sleeps
      else Some (Ok events, sleeps)
  end.

Definition _wait_for_events (interval : float) (q : WorkflowStreamRequest) (offset : Z)
  (events : list pyval) (start : float) (polls : list poll)
  : option (result (list pyval) * list float) :=
  if Z.of_nat (length events) <? offset
  then Some (Err (StreamError "workflow_stream_cursor_ahead"), [])
  else if (offset <? Z.of_nat (length events)) || float_leb (sq_wait_seconds q) (lit 0 0)
  then Some (Ok events, [])
  else
    let wait_limit := py_min (sq_wait_seconds q) (sq_heartbeat_seconds q) in
    wait_loop interval (float_add start wait_limit) offset events polls [].

(** [WorkflowStreamService.read]: [events] is the history at the call, [start]
    the reading the deadline is computed from, [polls] the turns of the wait. *)
Definition read (interval : float) (clock : Z → float) (q : WorkflowStreamRequest)
  (events : list pyval) (start : float) (polls : list poll)
  : option (result WorkflowStreamBatch * list float) :=
  match request_validate q ;; _decode_cursor (sq_after_cursor q) with
  | Err e => Some (Err e, [])
  | Ok offset =>
      '(events, sleeps) ← _wait_for_events interval q offset events start polls;
      Some (events ← events; page clock q offset events, sleeps)
  end.

(** ** Cursors are read back *)

Lemma partition_prefix s : partition_colon ("v1:" +:+ s) = ("v1", true, s).
Proof. done. Qed.

Lemma digit_unicode s : str_forall is_digit_ascii s = true → str_forall is_digit_unicode s = true.
Proof.
  apply str_forall_impl. intros c Hc. unfold is_digit_unicode. by rewrite Hc.
Qed.

Lemma py_int_z_str n : 0 ≤ n → py_int (PStr (z_str n)) = Ok n.
Proof.
  intros Hn. destruct (z_str_isdigit n Hn) as [Hd Hne]. cbn [py_int].
  by rewrite strip_digits, digits_unsigned, z_str_digits.
Qed.

Lemma decode_encode n :
  0 ≤ n → _decode_cursor (_encode_cursor n) =
    if MAXIMUM_OFFSET <? n then Err (StreamError "workflow_stream_cursor_invalid") else Ok n.
Proof.
  intros Hn. unfold _decode_cursor, _encode_cursor. rewrite Z.max_r by done.
  change (str_true ("v1:" +:+ z_str n)) with true. cbv iota. rewrite partition_prefix.
  destruct (z_str_isdigit n Hn) as [Hd Hne].
  unfold isdigit. rewrite (proj2 (str_true_spec _) Hne), digit_unicode by done.
  cbn [negb andb orb bool_decide raise_when mbind result_bind].
  rewrite py_int_z_str by done. cbn [mbind result_bind]. by destruct (MAXIMUM_OFFSET <? n).
Qed.

(** ** Pages *)

Lemma event_frames_Ok clock w offset sel fs :
  event_frames clock w offset sel = Ok fs →
  length fs = length sel ∧
  ∀ i f, fs !! i = Some f → ∃ raw, sel !! i = Some raw ∧
    _frame (clock (offset + Z.of_nat i + 1)) w raw (offset + Z.of_nat i + 1) = Ok f.
Proof.
  revert offset fs. induction sel as [|raw sel IH]; intros offset fs; cbn [event_frames].
  - intros [= <-]. by split.
  - intros Hf. result_inv. subst fs.
    match goal with Hx : event_frames _ _ _ _ = Ok _ |- _ => apply IH in Hx as [Hlen Hrest] end.
    split; [cbn; by rewrite Hlen|]. intros [|i] f'; cbn.
    + intros [= <-]. exists raw. split; [done|]. by replace (offset + Z.of_nat 0 + 1) with (offset + 1) by lia.
    + intros (raw' & Hr & Hf')%Hrest. exists raw'. split; [done|].
      by replace (offset + Z.of_nat (S i) + 1) with (offset + 1 + Z.of_nat i + 1) by lia.
Qed.

(** A page: some events, then a heartbeat when there are none or a mark when
    more are left. *)
Definition page_of (w : string) (part : list WorkflowStreamFrame) (b : WorkflowStreamBatch) : Prop :=
  match part with
  | [] => ∃ q o now, sq_workflow_id q = w ∧ sb_frames b = [heartbeat_frame q o now] ∧
            sb_has_more b = false
  | _ => if sb_has_more b
         then ∃ q n r now, sq_workflow_id q = w ∧
                sb_frames b = part ++ [backpressure_frame q n r now]
         else sb_frames b = part
  end.

Lemma page_Ok clock q (offset : nat) events b :
  1 ≤ sq_max_events q → page clock q (Z.of_nat offset) events = Ok b →
  ∃ part, page_of (sq_workflow_id q) part b ∧
    length part = (Z.to_nat (sq_max_events q) `min` (length events - offset))%nat ∧
    (offset + length part ≤ length events)%nat ∧
    (∀ i f, part !! i = Some f → ∃ raw t, events !! (offset + i)%nat = Some raw ∧
      _frame t (sq_workflow_id q) raw (Z.of_nat (offset + i) + 1) = Ok f) ∧
    sb_next_cursor b = _encode_cursor (Z.of_nat (offset + length part)) ∧
    (sb_has_more b = true ↔ (offset + length part < length events)%nat).
Proof.
  intros Hmax. unfold page. rewrite Nat2Z.id. intros Hb. result_inv.
  match goal with Hx : event_frames _ _ _ _ = Ok ?fs |- _ =>
    rename fs into part; apply event_frames_Ok in Hx as [Hlen Hpart] end.
  match goal with Hx : (_ <? _) = false |- _ => apply Z.ltb_ge in Hx end.
  rewrite length_take, length_drop in *.
  set (m := Z.to_nat (sq_max_events q)) in *. assert (1 ≤ m)%nat by lia.
  exists part. subst b. cbn [sb_frames sb_next_cursor sb_has_more]. split_and!.
  - unfold page_of. cbn [sb_frames sb_next_cursor sb_has_more]. destruct part as [|f part].
    + cbn in Hlen. eexists q, _, _. split; [done|]. split; [done|]. apply bool_decide_eq_false. lia.
    + case_bool_decide; [by eexists q, _, _, _|by rewrite app_nil_r].
  - lia.
  - lia.
  - intros i f (raw & Hr & Hf)%Hpart. exists raw, (clock (Z.of_nat offset + Z.of_nat i + 1)).
    apply lookup_take_Some in Hr as [Hr _]. rewrite lookup_drop in Hr. split; [done|].
    by rewrite Nat2Z.inj_add.
  - by rewrite Hlen, Nat2Z.inj_add.
  - rewrite bool_decide_eq_true. lia.
Qed.

(** ** Waiting *)

Definition snapshots (events : list pyval) (polls : list poll) : list (list pyval) :=
  events :: map pl_events polls.

Lemma wait_loop_Ok interval deadline offset events polls sleeps evs sleeps' :
  wait_loop interval deadline offset events polls sleeps = Some (Ok evs, sleeps') →
  evs ∈ snapshots events polls.
Proof.
  revert events sleeps. induction polls as [|p polls IH]; intros events sleeps; cbn [wait_loop]; [done|].
  destruct (float_ltb _ _); [|intros [= <- _]; by left].
  destruct (pl_disconnected p); [done|]. case_match; [done|].
  case_match; [intros [= <- _]; right; by left|]. intros Hw%IH. by right.
Qed.

Lemma wait_loop_stops interval deadline offset events polls sleeps :
  Exists (λ p, float_ltb (pl_time p) deadline = false) polls →
  is_Some (wait_loop interval deadline offset events polls sleeps).
Proof.
  intros Hp. revert events sleeps. induction Hp as [p polls Hp|p polls Hp IH]; intros events sleeps;
    cbn [wait_loop]; [by rewrite Hp|].
  repeat (case_match; [done|]). repeat case_match; by try apply IH.
Qed.

Lemma read_Ok interval clock q events start polls b sleeps :
  read interval clock q events start polls = Some (Ok b, sleeps) →
  request_validate q = Ok tt ∧
  ∃ offset evs, _decode_cursor (sq_after_cursor q) = Ok offset ∧ evs ∈ snapshots events polls ∧
    page clock q offset evs = Ok b.
Proof.
  unfold read. destruct (request_validate q) as [[]|] eqn:Hv; [|done]. cbn [mbind result_bind].
  destruct (_decode_cursor _) as [offset|]; [|done]. unfold _wait_for_events.
  destruct (_ <? offset); [intros [= Hx]; discriminate Hx|].
  destruct (_ || _).
  - cbn [mbind option_bind result_bind]. intros [= Hb _]. split; [done|]. exists offset, events.
    split_and!; [done|by left|done].
  - destruct (wait_loop _ _ _ _ _ _) as [[r sl]|] eqn:Hw; [|done]. cbn [mbind option_bind].
    intros [= Hb _]. destruct r as [evs|]; [|done]. split; [done|]. exists offset, evs.
    split_and!; [done|by eapply wait_loop_Ok|done].
Qed.

(** ** A client that follows the cursors *)

Record stream_call := {
  sc_max_events : Z;
  sc_wait_seconds : float;
  sc_heartbeat_seconds : float;
  sc_interval : float;
  sc_clock : Z → float;
  sc_events : list pyval;
  sc_start : float;
  sc_polls : list poll;
}.

Definition request_at (w cursor : string) (c : stream_call) : WorkflowStreamRequest :=
  {| sq_workflow_id := w; sq_after_cursor := cursor; sq_max_events := sc_max_events c;
     sq_wait_seconds := sc_wait_seconds c; sq_heartbeat_seconds := sc_heartbeat_seconds c;
     sq_schema := WORKFLOW_STREAM_REQUEST_SCHEMA |}.

(** The batches of calls that each resume at the cursor of the previous one, and
    the last cursor, when every call answers with a batch. *)
Fixpoint follow (w : string) (calls : list stream_call) (cursor : string)
  : option (list WorkflowStreamBatch * string) :=
  match calls with
  | [] => Some ([], cursor)
  | c :: calls =>
      match read (sc_interval c) (sc_clock c) (request_at w cursor c) (sc_events c) (sc_start c)
              (sc_polls c) with
      | Some (Ok b, _) =>
          '(bs, last) ← follow w calls (sb_next_cursor b);
          Some (b :: bs, last)
      | _ => None
      end
  end.

Definition seen (c : stream_call) : list (list pyval) := snapshots (sc_events c) (sc_polls c).

Lemma validate_max q : request_validate q = Ok tt → 1 ≤ sq_max_events q ≤ 256.
Proof.
  unfold request_validate. intros Hv. result_inv.
  match goal with Hx : negb ((1 <=? _) && _) = false |- _ =>
    apply negb_false_iff, andb_true_iff in Hx as [?%Z.leb_le ?%Z.leb_le]; lia end.
Qed.

(** The frames that carry events: the [i]-th is the one of event [k + i]. *)
Definition delivers (w : string) (history : list pyval) (k : nat) (fs : list WorkflowStreamFrame)
    : Prop :=
  ∀ i f, fs !! i = Some f → ∃ raw t, history !! (k + i)%nat = Some raw ∧
    _frame t w raw (Z.of_nat (k + i) + 1) = Ok f.

Lemma delivers_app w history k fs gs :
  delivers w history k fs → delivers w history (k + length fs) gs → delivers w history k (fs ++ gs).
Proof.
  intros Hf Hg i f. rewrite lookup_app_Some. intros [Hi|[Hle Hi]]; [by apply Hf|].
  apply Hg in Hi as (raw & t & Hr & Hi). exists raw, t.
  replace (k + i)%nat with (k + length fs + (i - length fs))%nat by lia. done.
Qed.

Lemma follow_cons w c calls cursor bs last_cursor :
  follow w (c :: calls) cursor = Some (bs, last_cursor) →
  ∃ b sleeps bs', read (sc_interval c) (sc_clock c) (request_at w cursor c) (sc_events c)
      (sc_start c) (sc_polls c) = Some (Ok b, sleeps) ∧
    bs = b :: bs' ∧ follow w calls (sb_next_cursor b) = Some (bs', last_cursor).
Proof.
  cbn [follow]. destruct (read _ _ _ _ _ _) as [[[b|] sl]|]; [|done|done].
  destruct (follow w calls (sb_next_cursor b)) as [[bs' cur]|] eqn:Hf; [|done].
  intros [= <- <-]. by exists b, sl, bs'.
Qed.

Lemma call_page w cursor c b sleeps (k : nat) history :
  read (sc_interval c) (sc_clock c) (request_at w cursor c) (sc_events c) (sc_start c) (sc_polls c) =
    Some (Ok b, sleeps) →
  _decode_cursor cursor = Ok (Z.of_nat k) →
  (∀ evs, evs ∈ seen c → evs `prefix_of` history) →
  ∃ part, page_of w part b ∧ (length part ≤ 256)%nat ∧ delivers w history k part ∧
    sb_next_cursor b = _encode_cursor (Z.of_nat (k + length part)) ∧
    (sb_has_more b = false → ∃ evs, evs ∈ seen c ∧ length evs = (k + length part)%nat).
Proof.
  intros (Hv & o & evs & Ho & Hin & Hp)%read_Ok Hk Hh. cbn [request_at sq_after_cursor] in Ho.
  rewrite Hk in Ho. injection Ho as <-. apply validate_max in Hv.
  apply page_Ok in Hp as (part & Hpart & Hlen & Hle & Hd & Hnext & Hmore); [|lia].
  exists part. cbn [request_at sq_workflow_id sq_max_events] in *. split_and!; [done|lia| |done|].
  - intros i f (raw & t & Hr & Hf)%Hd. exists raw, t. split; [|done].
    eapply prefix_lookup_Some; [done|]. by apply Hh.
  - intros Hm. exists evs. split; [done|].
    destruct (decide (k + length part < length evs)%nat) as [Hlt|]; [|lia].
    apply Hmore in Hlt. congruence.
Qed.

(** C35: resuming a stream loses nothing and repeats nothing: whatever page sizes
    and waits a client chooses and however the history grows meanwhile, the
    batches it gets by following the cursors hold, besides heartbeats and
    back-pressure marks, exactly the frames of the events from its first cursor
    on, in order and each once; its last cursor stands after them, and a last
    batch without more means it has everything the history held. *)
Theorem follow_exactly_once w calls cursor (k : nat) history bs last_cursor :
  follow w calls cursor = Some (bs, last_cursor) →
  _decode_cursor cursor = Ok (Z.of_nat k) →
  (∀ c evs, c ∈ calls → evs ∈ seen c → evs `prefix_of` history) →
  ∃ parts, Forall2 (page_of w) parts bs ∧ Forall (λ part, length part ≤ 256)%nat parts ∧
    delivers w history k (concat parts) ∧
    (last_cursor = if bool_decide (bs = []) then cursor
                   else _encode_cursor (Z.of_nat (k + length (concat parts)))) ∧
    (∀ b, last bs = Some b → sb_has_more b = false →
      ∃ c evs, c ∈ calls ∧ evs ∈ seen c ∧ length evs = (k + length (concat parts))%nat).
Proof.
  revert cursor k bs. induction calls as [|c calls IH]; intros cursor k bs.
  - cbn [follow]. intros [= <- <-] _ _. exists []. split_and!; [constructor|constructor| |done|done].
    intros i f Hi. discriminate Hi.
  - intros (b & sl & bs' & Hr & -> & Hf)%follow_cons Hk Hh.
    destruct (call_page w cursor c b sl k history Hr Hk) as (part & Hp & Hl & Hd & Hn & Hm);
      [intros evs He; apply (Hh c evs); [by left|done]|].
    destruct calls as [|c' calls'].
    + injection Hf as <- <-. exists [part]. cbn [concat]. rewrite app_nil_r.
      split_and!; [by constructor; [|constructor]|by constructor; [|constructor]|done|done|].
      intros b' [= <-] (evs & He & Hlen)%Hm. exists c, evs. split; [by left|done].
    + destruct (_decode_cursor (sb_next_cursor b)) as [n|e] eqn:Hdec.
      2:{ apply follow_cons in Hf as (b' & sl' & bs1 & Hr' & _).
          apply read_Ok in Hr' as (_ & o & _ & Ho & _). cbn [request_at sq_after_cursor] in Ho.
          congruence. }
      rewrite Hn, decode_encode in Hdec by lia. destruct (_ <? _) eqn:Hmax; [done|].
      injection Hdec as <-.
      destruct (IH (sb_next_cursor b) (k + length part)%nat bs' Hf) as
        (parts & Hps & Hls & Hds & Hlast & Hmore).
      { rewrite Hn, decode_encode by lia. by rewrite Hmax. }
      { intros c0 evs Hc0. apply Hh. by right. }
      exists (part :: parts). cbn [concat]. rewrite length_app, Nat.add_assoc.
      split_and!; [by constructor|by constructor|by apply delivers_app| |].
      * destruct bs' as [|b' bs']; [|exact Hlast].
        by apply follow_cons in Hf as (b' & sl' & bs1 & _ & [=] & _).
      * intros b' Hb' Hmo. destruct bs' as [|b1 bs1].
        { by apply follow_cons in Hf as (b1 & sl' & bs1 & _ & [=] & _). }
        destruct (Hmore b' Hb' Hmo) as (c0 & evs & Hc0 & He & Hlen). exists c0, evs.
        split; [by right|done].
Qed.

(** ** Waiting is bounded *)

Lemma num_ltb_leb x y : num_ltb x y = true → num_leb x y = true.
Proof. unfold num_ltb, num_leb. by destruct (num_compare x y) as [[]|]. Qed.

Lemma num_ltb_defined x y : num_ltb x y = true → x ≠ NaN ∧ y ≠ NaN.
Proof. unfold num_ltb, num_compare. by destruct x, y. Qed.

Lemma num_not_ltb x y : x ≠ NaN → y ≠ NaN → num_ltb x y = false → num_leb y x = true.
Proof.
  unfold num_leb, num_ltb, num_compare. destruct x as [m1 e1|b1|], y as [m2 e2|b2|]; try done.
  - intros _ _. rewrite (Z.min_comm e2 e1), (Z.compare_antisym (m1 * _)). by destruct (_ ?= _).
  - by destruct b2.
  - by destruct b1.
  - by destruct b1, b2.
Qed.

(** [max(a, min(x, b))] lies between [a] and [b], whatever [x] is. *)
Lemma clamp_bounds a b x :
  float_leb a b = true → float_leb a a = true → float_leb b b = true →
  float_leb a (py_max a (py_min x b)) = true ∧ float_leb (py_max a (py_min x b)) b = true.
Proof.
  intros Hab Ha Hb. unfold py_max, py_min, float_ltb, float_leb in *.
  destruct (num_ltb (num_of_float b) (num_of_float x)) eqn:Hx.
  - destruct (num_ltb (num_of_float a) (num_of_float b)) eqn:Hl; [split; [by apply num_ltb_leb|done]|].
    split; done.
  - destruct (num_ltb (num_of_float a) (num_of_float x)) eqn:Hl; [|split; done].
    split; [by apply num_ltb_leb|]. apply num_ltb_defined in Hl as [_ Hxn].
    apply num_not_ltb; [|done|done]. intros Hbn. by rewrite Hbn in Hb.
Qed.

(** [min(interval, max(0, x))] lies between [0] and the interval. *)
Lemma sleep_bounds i z x :
  float_leb z i = true → float_leb z z = true → float_leb i i = true →
  float_leb z (py_min i (py_max z x)) = true ∧ float_leb (py_min i (py_max z x)) i = true.
Proof.
  intros Hzi Hz Hi. unfold py_max, py_min, float_ltb, float_leb in *.
  destruct (num_ltb (num_of_float z) (num_of_float x)) eqn:Hx.
  - destruct (num_ltb (num_of_float x) (num_of_float i)) eqn:Hl; [|done].
    split; by apply num_ltb_leb.
  - destruct (num_ltb (num_of_float z) (num_of_float i)) eqn:Hl; done.
Qed.

Definition sleeps_ok (interval : float) (sleeps : list float) : Prop :=
  Forall (λ s, float_leb (lit 0 0) s = true ∧ float_leb s interval = true) sleeps.

Lemma wait_loop_sleeps interval deadline offset events polls sleeps r sleeps' :
  float_leb (lit 0 0) interval = true → float_leb interval interval = true →
  wait_loop interval deadline offset events polls sleeps = Some (r, sleeps') →
  sleeps_ok interval sleeps →
  sleeps_ok interval sleeps' ∧ (length sleeps' ≤ length sleeps + length polls)%nat.
Proof.
  intros H0 Hi. revert events sleeps. induction polls as [|p polls IH]; intros events sleeps;
    cbn [wait_loop]; [done|].
  destruct (float_ltb _ _); [|intros [= _ <-]; cbn; split; [done|lia]].
  destruct (pl_disconnected p); [intros [= _ <-]; cbn; split; [done|lia]|].
  intros Hw Hs. set (s := py_min interval _) in Hw.
  assert (sleeps_ok interval (sleeps ++ [s])) as Hs'.
  { apply Forall_app. split; [done|]. constructor; [|constructor]. by apply sleep_bounds. }
  cbn [length]. case_match; [injection Hw as _ <-; rewrite length_app; cbn; split; [done|lia]|].
  case_match; [injection Hw as _ <-; rewrite length_app; cbn; split; [done|lia]|].
  apply IH in Hw as [Hw Hl]; [|done]. rewrite length_app in Hl. cbn in Hl. split; [done|lia].
Qed.

Lemma interval_bounds seconds :
  float_leb (lit 1 (-2)) (poll_interval seconds) = true ∧
  float_leb (poll_interval seconds) (lit 1 0) = true.
Proof. apply clamp_bounds; vm_compute; reflexivity. Qed.

Lemma interval_valid seconds :
  float_leb (lit 0 0) (poll_interval seconds) = true ∧
  float_leb (poll_interval seconds) (poll_interval seconds) = true.
Proof.
  assert (poll_interval seconds = lit 1 (-2) ∨
    float_ltb (lit 1 (-2)) (poll_interval seconds) = true) as [->|Hl].
  - unfold poll_interval. set (m := py_min seconds (lit 1 0)). unfold py_max.
    destruct (float_ltb (lit 1 (-2)) m) eqn:Hm; [by right|by left].
  - split; vm_compute; reflexivity.
  - unfold float_leb, float_ltb in *. generalize dependent (num_of_float (poll_interval seconds)).
    intros n Hn. unfold num_ltb, num_leb, num_compare in *. destruct n as [m e|s|]; [| |done].
    + split; [|by rewrite Z.compare_refl].
      destruct (num_of_float (lit 1 (-2))) as [m1 e1| |] eqn:H1; try (vm_compute in H1; discriminate H1).
      assert (num_of_float (lit 0 0) = Dyadic 0 0) as -> by (vm_compute; reflexivity).
      assert (0 < m1) by (vm_compute in H1; injection H1 as <- <-; done).
      destruct (m1 * 2 ^ (e1 - Z.min e1 e) ?= m * 2 ^ (e - Z.min e1 e)) eqn:Hc; try done.
      apply Z.compare_lt_iff in Hc.
      assert (∀ k, 0 ≤ k → 0 < 2 ^ k) as Hpow by (intros k Hk; by apply Z.pow_pos_nonneg).
      pose proof (Hpow (e1 - Z.min e1 e) ltac:(lia)). pose proof (Hpow (e - Z.min e1 e) ltac:(lia)).
      pose proof (Hpow (e - Z.min 0 e) ltac:(lia)). clear Hpow H1.
      assert (0 < m).
      { apply (Z.mul_pos_cancel_r _ (2 ^ (e - Z.min e1 e))); [done|].
        etrans; [|exact Hc]. by apply Z.mul_pos_pos. }
      rewrite Z.mul_0_l. pose proof (Z.mul_pos_pos m (2 ^ (e - Z.min 0 e)) ltac:(lia) ltac:(lia)).
      by rewrite (proj2 (Z.compare_lt_iff _ _)).
    + assert (num_of_float (lit 0 0) = Dyadic 0 0) as -> by (vm_compute; reflexivity).
      assert (∃ m e, num_of_float (lit 1 (-2)) = Dyadic m e) as (m & e & He)
        by (eexists _, _; vm_compute; reflexivity).
      rewrite He in Hn. by destruct s.
Qed.

(** A waiting read ends: the poll interval is between 10 ms and 1 s whatever
    was configured, no sleep is negative or longer than it, there is at most
    one per turn, and the read answers by the first turn whose clock has
    reached the deadline. *)
Theorem wait_bounded seconds q offset events start polls :
  let interval := poll_interval seconds in
  float_leb (lit 1 (-2)) interval = true ∧ float_leb interval (lit 1 0) = true ∧
  (∀ r sleeps, _wait_for_events interval q offset events start polls = Some (r, sleeps) →
    sleeps_ok interval sleeps ∧ (length sleeps ≤ length polls)%nat) ∧
  (Exists (λ p, float_ltb (pl_time p)
      (float_add start (py_min (sq_wait_seconds q) (sq_heartbeat_seconds q))) = false) polls →
    is_Some (_wait_for_events interval q offset events start polls)).
Proof.
  intros interval. destruct (interval_bounds seconds) as [Hlo Hhi].
  destruct (interval_valid seconds) as [H0 Hi].
  split_and!; [done|done| |].
  - intros r sleeps. unfold _wait_for_events. case_match; [intros [= _ <-]; split; [constructor|cbn; lia]|].
    case_match; [intros [= _ <-]; split; [constructor|cbn; lia]|].
    intros Hw. by apply wait_loop_sleeps in Hw; [|done|done|constructor].
  - intros Hp. unfold _wait_for_events. do 2 (case_match; [done|]). by apply wait_loop_stops.
Qed.

(** ** Examples *)

Definition sample_history : list pyval :=
  [PDict [("event_type", PStr "step_started"); ("occurred_at", PInt 5)];
   PDict [("event_type", PStr "workflow.token.delta"); ("payload", PDict [("text", PStr "a")])];
   PDict [("event_type", PStr "custom"); ("details", PDict [("api_key", PStr "k")])]].

Definition sample_call (events : list pyval) : stream_call :=
  {| sc_max_events := 2; sc_wait_seconds := lit 0 0; sc_heartbeat_seconds := lit 15 0;
     sc_interval := poll_interval (lit 1 (-1)); sc_clock := λ _, lit 9 0; sc_events := events;
     sc_start := lit 0 0; sc_polls := [] |}.

Definition sample_calls : list stream_call :=
  [sample_call (take 2 sample_history); sample_call sample_history; sample_call sample_history].

Definition sample_batches : list WorkflowStreamBatch :=
  match follow "wf" sample_calls "" with Some (bs, _) => bs | None => [] end.

Lemma follow_exactly_once_witness :
  ∃ parts, Forall2 (page_of "wf") parts sample_batches ∧ delivers "wf" sample_history 0 (concat parts).
Proof.
  destruct (follow_exactly_once "wf" sample_calls "" 0 sample_history sample_batches "v1:3")
    as (parts & Hp & _ & Hd & _).
  - vm_compute. reflexivity.
  - reflexivity.
  - intros c evs Hc He.
    assert (sc_events c `prefix_of` sample_history ∧ sc_polls c = []) as [Hpre Hn].
    { unfold sample_calls in Hc. rewrite !elem_of_cons in Hc.
      destruct Hc as [->|[->|[->|Hc]]]; [split; [|reflexivity]..|by apply elem_of_nil in Hc].
      - exists (drop 2 sample_history). reflexivity.
      - exists []. reflexivity.
      - exists []. reflexivity. }
    unfold seen, snapshots in He. rewrite Hn in He. apply list_elem_of_singleton in He as ->. exact Hpre.
  - exists parts. split; [exact Hp|exact Hd].
Defined.

(** [str.isdigit] accepts a superscript that [int] refuses: the cursor raises
    the bare [ValueError] of [int] and not the reason code of the stream. *)
Lemma cursor_superscript :
  _decode_cursor ("v1:" +:+ str1 "178"%char) = Err (ValueError "invalid literal for int()").
Proof. vm_compute. reflexivity. Qed.

(** JSON's [1e999] is an infinity, which [int] refuses with an [OverflowError]
    that the conversion does not catch. *)
Lemma infinite_page_size :
  request_from_mapping [("schema", PStr WORKFLOW_STREAM_REQUEST_SCHEMA); ("workflow_id", PStr "w");
    ("max_events", PFloat (S754_infinity false))] =
  Err (OverflowError "cannot convert float infinity to integer").
Proof. vm_compute. reflexivity. Qed.
