(* ===== verification/Slots.v ===== *)
(** * Exclusive slots (the shape of queue_reservations.py and checkpoint_bindings.py)

    Both authorities grant one receipt per effect under three indexes: by
    effect, by operation fence, and by the resource that may be granted once.
    The store, its claim and its laws are here, over the interface [Slot] of a
    receipt; the two authorities instantiate them. *)
From S2P Require Import Prelude PyStr PyVal Digest Serialization.

(** ** Checks and digests both modules declare *)

Definition _MAX_COUNTER : Z := 2147483647.

Section checks.
(** The name of the contract in its reason codes. *)
Variable contract : string.

Definition slot_error (reason : string) : exn :=
  ReservationError ("workflow_transition_" +:+ contract +:+ "_" +:+ reason +:+ "_invalid").

Definition slot_conflict (reason : string) : exn :=
  ReservationConflict ("workflow_transition_" +:+ contract +:+ "_" +:+ reason +:+ "_conflict").

Definition _identity (value reason : string) : result unit :=
  raise_when (negb (identity_re value)) (slot_error reason).

Definition _sha256 (value reason : string) : result unit :=
  raise_when (negb (sha256_re value)) (slot_error reason).

Definition _positive_integer (value : Z) (reason : string) : result unit :=
  raise_when ((value <=? 0) || (_MAX_COUNTER <? value)) (slot_error reason).

Definition _retry_maximum (value : Z) : result unit :=
  raise_when ((value <? 0) || (_MAX_COUNTER <? value)) (slot_error "maximum_retries").

Definition _positive_float (value : float) (reason : string) : result unit :=
  raise_when (negb (is_finite value) || float_leb value (S754_zero false)) (slot_error reason).
End checks.

Section digests.
Context `{Digest}.

Definition _namespaced_digest (values : dict) (namespace : string) : result string :=
  framed ← canonical_json (PDict [("namespace", PStr namespace); ("values", PDict values)]);
  Ok (hexdigest (utf8 framed)).

Definition _opaque_id (prefix : string) (parts : list string) : result string :=
  framed ← canonical_json (PDict [("parts", PList (map PStr parts)); ("prefix", PStr prefix)]);
  Ok (prefix +:+ "-" +:+ str_take 40 (hexdigest (utf8 framed))).
End digests.

(** ** The store *)

Notation effect_key := (string * string * string)%type.

(** What the store needs of a receipt: the effect it was granted to (tenant, run
    and effect), its operation fence and the resource it grants; a resource
    belongs to one run. *)
Class Slot (R X : Type) := {
  slot_key : R → effect_key;
  slot_fence : R → string;
  slot_resource : R → X;
  slot_scope : X → string * string;
  slot_scoped : ∀ r, slot_scope (slot_resource r) = (slot_key r).1;
}.

Record SlotStore (R X : Type) `{Countable X} := {
  _by_effect : gmap effect_key R;
  _by_fence : gmap string string;
  _by_resource : gmap X string;
  _revision : Z;
}.
Arguments _by_effect {_ _ _ _}.
Arguments _by_fence {_ _ _ _}.
Arguments _by_resource {_ _ _ _}.
Arguments _revision {_ _ _ _}.

Definition empty_slots {R X} `{Countable X} : SlotStore R X :=
  {| _by_effect := ∅; _by_fence := ∅; _by_resource := ∅; _revision := 0 |}.

Section store.
Context {R X : Type} `{Countable X} `{!Slot R X}.

Definition bump (s : SlotStore R X) : SlotStore R X :=
  {| _by_effect := _by_effect s; _by_fence := _by_fence s; _by_resource := _by_resource s;
    _revision := _revision s + 1 |}.

Definition record_slot (key : effect_key) (fence : string) (resource : X) (receipt : R)
  (s : SlotStore R X) : SlotStore R X :=
  {| _by_effect := <[key := receipt]> (_by_effect s);
    _by_fence := <[fence := key.2]> (_by_fence s);
    _by_resource := <[resource := key.2]> (_by_resource s);
    _revision := _revision s |}.

(** A name that another effect holds. *)
Definition taken (owner : option string) (effect_id : string) : bool :=
  match owner with Some o => bool_decide (o ≠ effect_id) | None => false end.

(** The grant: an effect that has its receipt gets it again under the same
    fence; otherwise the fence and the resource must be free, the revision moves,
    and the receipt [build] makes at it is recorded. *)
Definition claim_slot (contract : string) (key : effect_key) (fence : string) (resource : X)
  (resource_reason : string) (build : Z → result R) : action (SlotStore R X) R :=
  s ← get;
  match _by_effect s !! key with
  | Some existing =>
      lift (raise_when (bool_decide (slot_fence existing ≠ fence)) (slot_conflict contract "fence")) ;;
      mret existing
  | None =>
      lift (raise_when (taken (_by_fence s !! fence) key.2) (slot_conflict contract "fence")) ;;
      lift (raise_when (taken (_by_resource s !! resource) key.2)
        (slot_conflict contract resource_reason)) ;;
      modify bump ;;
      receipt ← lift (build (_revision s + 1));
      modify (record_slot key fence resource receipt) ;;
      mret receipt
  end.

(** ** Outcomes *)

Definition builds (key : effect_key) (fence : string) (resource : X) (build : Z → result R) : Prop :=
  ∀ n r, build n = Ok r → slot_key r = key ∧ slot_fence r = fence ∧ slot_resource r = resource.

Lemma claim_slot_cases contract key fence resource reason build s out s' :
  claim_slot contract key fence resource reason build s = (out, s') →
  match out with
  | Ok r =>
      (_by_effect s !! key = Some r ∧ slot_fence r = fence ∧ s' = s) ∨
      (_by_effect s !! key = None ∧ taken (_by_fence s !! fence) key.2 = false ∧
        taken (_by_resource s !! resource) key.2 = false ∧ build (_revision s + 1) = Ok r ∧
        s' = record_slot key fence resource r (bump s))
  | Err _ => s' = s ∨ s' = bump s
  end.
Proof.
  unfold claim_slot. intros Hc. run_step Hc. destruct (_by_effect s !! key) as [r|] eqn:Hk.
  - run_all Hc; [by left|]. left. split_and!; [done| |done].
    apply raise_when_Ok, bool_decide_eq_false in Hchk. by apply dec_stable.
  - run_all Hc; [by left|by left|by right|]. right.
    repeat match goal with Hx : raise_when _ _ = Ok _ |- _ => apply raise_when_Ok in Hx end.
    done.
Qed.

Lemma claim_slot_again contract key fence resource reason build s r :
  _by_effect s !! key = Some r →
  claim_slot contract key fence resource reason build s =
  (if bool_decide (slot_fence r ≠ fence) then Err (slot_conflict contract "fence") else Ok r, s).
Proof.
  intros Hk. unfold claim_slot. rewrite run_get, Hk. by case_bool_decide.
Qed.

(** The first grant of a store. *)
Lemma claim_slot_empty contract key fence resource reason (build : Z → result R) :
  claim_slot contract key fence resource reason build empty_slots =
  match build 1 with
  | Ok r => (Ok r, record_slot key fence resource r (bump empty_slots))
  | Err e => (Err e, bump empty_slots)
  end.
Proof.
  unfold claim_slot. rewrite run_get. cbn [_by_effect _by_fence _by_resource _revision empty_slots].
  rewrite !lookup_empty. unfold taken. rewrite !run_guard by reflexivity. rewrite run_modify.
  change (0 + 1) with 1. by destruct (build 1).
Qed.

(** ** Runs of claims *)

Record slot_op := {
    op_contract : string;
    op_key : effect_key;
    op_fence : string;
    op_resource : X;
    op_reason : string;
    op_build : Z → result R;
    op_builds : builds op_key op_fence op_resource op_build;
  }.

Definition run_slot (op : slot_op) (s : SlotStore R X) : SlotStore R X :=
  (claim_slot (op_contract op) (op_key op) (op_fence op) (op_resource op) (op_reason op)
    (op_build op) s).2.

(** The indexes name the effect of every receipt. *)
Definition slots_ok (s : SlotStore R X) : Prop :=
  ∀ k r, _by_effect s !! k = Some r → slot_key r = k ∧
  _by_fence s !! slot_fence r = Some k.2 ∧ _by_resource s !! slot_resource r = Some k.2.

Lemma taken_false owner e o : taken owner e = false → owner = Some o → o = e.
Proof. intros Ht ->. cbn in Ht. by apply bool_decide_eq_false, dec_stable in Ht. Qed.

Lemma slots_ok_step op s : slots_ok s → slots_ok (run_slot op s).
Proof.
  intros Hs. unfold run_slot. destruct (claim_slot _ _ _ _ _ _ s) as [out s'] eqn:Hc. cbn [snd].
  apply claim_slot_cases in Hc. destruct out as [r|e]; [|by destruct Hc as [->| ->]].
  destruct Hc as [(_ & _ & ->)|(Hk & Hf & Hx & Hb & ->)]; [done|].
  apply (op_builds op) in Hb as (Hrk & Hrf & Hrx). intros k r'. cbn.
  destruct (decide (k = op_key op)) as [->|Hne].
  - rewrite lookup_insert_eq. intros [= <-]. rewrite Hrf, Hrx, !lookup_insert_eq. done.
  - rewrite lookup_insert_ne by done. intros (Hk' & Hf' & Hx')%Hs. split; [done|]. split.
    + destruct (decide (op_fence op = slot_fence r')) as [Heq|]; [|by rewrite lookup_insert_ne].
      rewrite <- Heq in *. rewrite lookup_insert_eq. f_equal. symmetry.
      exact (taken_false _ _ _ Hf Hf').
    + destruct (decide (op_resource op = slot_resource r')) as [Heq|]; [|by rewrite lookup_insert_ne].
      rewrite <- Heq in *. rewrite lookup_insert_eq. f_equal. symmetry.
      exact (taken_false _ _ _ Hx Hx').
Qed.

Lemma reachable_slots_ok s : reachable run_slot empty_slots s → slots_ok s.
Proof.
  apply reachable_invariant; [|intros op t; apply slots_ok_step].
  intros k r Hk. cbn in Hk. by rewrite lookup_empty in Hk.
Qed.

(** A receipt stays. *)
Lemma slot_final s s' k r :
  reachable run_slot s s' → _by_effect s !! k = Some r → _by_effect s' !! k = Some r.
Proof.
  intros Hr Hk. induction Hr as [|s' op Hr IH]; [done|]. unfold run_slot.
  destruct (claim_slot _ _ _ _ _ _ s') as [out s2] eqn:Hc. cbn [snd].
  apply claim_slot_cases in Hc. destruct out as [r'|e]; [|by destruct Hc as [->| ->]].
  destruct Hc as [(_ & _ & ->)|(Hnone & _ & _ & _ & ->)]; [done|]. cbn.
  rewrite lookup_insert_ne; [done|]. congruence.
Qed.

(** One receipt per resource. *)
Lemma slot_once s k k' r r' :
  slots_ok s → _by_effect s !! k = Some r → _by_effect s !! k' = Some r' →
  slot_resource r = slot_resource r' → k = k' ∧ r = r'.
Proof.
  intros Hs Hk Hk' Hx. destruct (Hs k r Hk) as (Hrk & _ & Hrx).
  destruct (Hs k' r' Hk') as (Hrk' & _ & Hrx'). rewrite Hx, Hrx' in Hrx. injection Hrx as He.
  pose proof (slot_scoped r) as Hsc. pose proof (slot_scoped r') as Hsc'.
  rewrite Hx, Hsc', Hrk, Hrk' in Hsc.
  assert (k = k') as <- by (destruct k as [k e], k' as [k' e']; cbn in *; congruence).
  split; [done|congruence].
Qed.
End store.
