(* ===== verification/QueueReservations.v ===== *)
(** * Queue reservations (workflow_runtime/queue_reservations.py)

    Exactly one task-queue slot per transition effect: intents, receipts with
    their digest, identifiers, and the in-memory authority as an instance of the
    exclusive slots. *)
From S2P Require Import Prelude PyStr PyVal Digest Serialization Slots.

Definition QUEUE_RESERVATION_RECEIPT_SCHEMA : string :=
  "ananta.workflow_transition_queue_reservation_receipt.v1".

Definition queue_contract : string := "queue_reservation".

(** ** Data *)

Record QueueReservationIntent := {
  qi_transition_id : string;
  qi_effect_id : string;
  qi_runtime_id : string;
  qi_tenant_id : string;
  qi_workflow_id : string;
  qi_run_id : string;
  qi_step_id : string;
  qi_task_id : string;
  qi_effect_ordinal : Z;
  qi_queue_intent_digest : string;
  qi_operation_fence_id : string;
  qi_attempt_id : string;
  qi_receipt_id : string;
  qi_maximum_retries : Z;
  qi_planned_at : float;
}.

Record QueueReservationReceipt := {
  qr_schema : string;
  qr_receipt_id : string;
  qr_transition_id : string;
  qr_effect_id : string;
  qr_operation_fence_id : string;
  qr_attempt_id : string;
  qr_task_id : string;
  qr_tenant_id : string;
  qr_workflow_id : string;
  qr_run_id : string;
  qr_runtime_id : string;
  qr_step_id : string;
  qr_queue_intent_digest : string;
  qr_reservation_record_digest : string;
  qr_creator_claim_generation : Z;
  qr_reserved_revision : Z;
  qr_maximum_retries : Z;
  qr_retry_consumed : bool;
  qr_planned_at : float;
  qr_reserved_at : float;
  qr_receipt_digest : string;
}.

Record QueueReservationObservation := {
  qo_receipt : option QueueReservationReceipt;
  qo_head_revision : Z;
}.

(** [__post_init__] of the intent *)
Definition queue_intent_post_init (i : QueueReservationIntent) : result unit :=
  for_each (λ vr, _identity queue_contract vr.1 vr.2)
    [(qi_transition_id i, "transition_id"); (qi_effect_id i, "effect_id");
     (qi_runtime_id i, "runtime_id"); (qi_tenant_id i, "tenant_id");
     (qi_workflow_id i, "workflow_id"); (qi_run_id i, "run_id"); (qi_step_id i, "step_id");
     (qi_task_id i, "task_id"); (qi_operation_fence_id i, "operation_fence_id");
     (qi_attempt_id i, "attempt_id"); (qi_receipt_id i, "receipt_id")] ;;
  _sha256 queue_contract (qi_queue_intent_digest i) "queue_intent_digest" ;;
  _positive_integer queue_contract (qi_effect_ordinal i) "effect_ordinal" ;;
  _retry_maximum queue_contract (qi_maximum_retries i) ;;
  _positive_float queue_contract (qi_planned_at i) "planned_at".

Definition queue_intent_to_dict (i : QueueReservationIntent) : dict :=
  [("attempt_id", PStr (qi_attempt_id i)); ("effect_id", PStr (qi_effect_id i));
   ("effect_ordinal", PInt (qi_effect_ordinal i)); ("maximum_retries", PInt (qi_maximum_retries i));
   ("operation_fence_id", PStr (qi_operation_fence_id i)); ("planned_at", PFloat (qi_planned_at i));
   ("queue_intent_digest", PStr (qi_queue_intent_digest i)); ("receipt_id", PStr (qi_receipt_id i));
   ("run_id", PStr (qi_run_id i)); ("runtime_id", PStr (qi_runtime_id i));
   ("step_id", PStr (qi_step_id i)); ("task_id", PStr (qi_task_id i));
   ("tenant_id", PStr (qi_tenant_id i)); ("transition_id", PStr (qi_transition_id i));
   ("workflow_id", PStr (qi_workflow_id i))].

(** [__post_init__] of the receipt *)
Definition queue_receipt_post_init (r : QueueReservationReceipt) : result unit :=
  raise_when (bool_decide (qr_schema r ≠ QUEUE_RESERVATION_RECEIPT_SCHEMA))
    (slot_error queue_contract "schema") ;;
  for_each (λ vr, _identity queue_contract vr.1 vr.2)
    [(qr_receipt_id r, "receipt_id"); (qr_transition_id r, "transition_id");
     (qr_effect_id r, "effect_id"); (qr_operation_fence_id r, "operation_fence_id");
     (qr_attempt_id r, "attempt_id"); (qr_task_id r, "task_id"); (qr_tenant_id r, "tenant_id");
     (qr_workflow_id r, "workflow_id"); (qr_run_id r, "run_id"); (qr_runtime_id r, "runtime_id");
     (qr_step_id r, "step_id")] ;;
  _sha256 queue_contract (qr_queue_intent_digest r) "queue_intent_digest" ;;
  _sha256 queue_contract (qr_reservation_record_digest r) "reservation_record_digest" ;;
  _positive_integer queue_contract (qr_creator_claim_generation r) "creator_claim_generation" ;;
  _positive_integer queue_contract (qr_reserved_revision r) "reserved_revision" ;;
  _retry_maximum queue_contract (qr_maximum_retries r) ;;
  _positive_float queue_contract (qr_planned_at r) "planned_at" ;;
  _positive_float queue_contract (qr_reserved_at r) "reserved_at" ;;
  raise_when (float_ltb (qr_reserved_at r) (qr_planned_at r)) (slot_error queue_contract "clock") ;;
  if str_true (qr_receipt_digest r)
  then _sha256 queue_contract (qr_receipt_digest r) "receipt_digest" else Ok tt.

Definition queue_receipt_to_dict (r : QueueReservationReceipt) : dict :=
  [("attempt_id", PStr (qr_attempt_id r));
   ("creator_claim_generation", PInt (qr_creator_claim_generation r));
   ("effect_id", PStr (qr_effect_id r)); ("maximum_retries", PInt (qr_maximum_retries r));
   ("operation_fence_id", PStr (qr_operation_fence_id r)); ("planned_at", PFloat (qr_planned_at r));
   ("queue_intent_digest", PStr (qr_queue_intent_digest r));
   ("receipt_digest", PStr (qr_receipt_digest r)); ("receipt_id", PStr (qr_receipt_id r));
   ("reservation_record_digest", PStr (qr_reservation_record_digest r));
   ("reserved_at", PFloat (qr_reserved_at r)); ("reserved_revision", PInt (qr_reserved_revision r));
   ("retry_consumed", PBool (qr_retry_consumed r)); ("run_id", PStr (qr_run_id r));
   ("runtime_id", PStr (qr_runtime_id r)); ("schema", PStr (qr_schema r));
   ("step_id", PStr (qr_step_id r)); ("task_id", PStr (qr_task_id r));
   ("tenant_id", PStr (qr_tenant_id r)); ("transition_id", PStr (qr_transition_id r));
   ("workflow_id", PStr (qr_workflow_id r))].

Definition queue_observation_post_init (o : QueueReservationObservation) : result unit :=
  raise_when (qo_head_revision o <? 0) (slot_error queue_contract "head").

Section with_digests.
Context `{Digest}.

(** [with_digest] *)
Definition queue_with_digest (r : QueueReservationReceipt) : result QueueReservationReceipt :=
  digest ← _namespaced_digest (dict_del "receipt_digest" (queue_receipt_to_dict r))
  "workflow-transition-queue-reservation-receipt";
  let signed := {|
    qr_schema := qr_schema r; qr_receipt_id := qr_receipt_id r;
    qr_transition_id := qr_transition_id r; qr_effect_id := qr_effect_id r;
    qr_operation_fence_id := qr_operation_fence_id r; qr_attempt_id := qr_attempt_id r;
    qr_task_id := qr_task_id r; qr_tenant_id := qr_tenant_id r;
    qr_workflow_id := qr_workflow_id r; qr_run_id := qr_run_id r;
    qr_runtime_id := qr_runtime_id r; qr_step_id := qr_step_id r;
    qr_queue_intent_digest := qr_queue_intent_digest r;
    qr_reservation_record_digest := qr_reservation_record_digest r;
    qr_creator_claim_generation := qr_creator_claim_generation r;
    qr_reserved_revision := qr_reserved_revision r; qr_maximum_retries := qr_maximum_retries r;
    qr_retry_consumed := qr_retry_consumed r; qr_planned_at := qr_planned_at r;
    qr_reserved_at := qr_reserved_at r; qr_receipt_digest := digest |} in
  queue_receipt_post_init signed ;;
  Ok signed.

(** [workflow_transition_queue_intent_digest] *)
Definition queue_intent_digest (transition_id runtime_id tenant_id workflow_id run_id step_id
    task_id : string) (effect_ordinal maximum_retries : Z) : result string :=
  _positive_integer queue_contract effect_ordinal "effect_ordinal" ;;
  _retry_maximum queue_contract maximum_retries ;;
  for_each (λ vr, _identity queue_contract vr.1 vr.2)
  [(run_id, "run_id"); (runtime_id, "runtime_id"); (step_id, "step_id"); (task_id, "task_id");
    (tenant_id, "tenant_id"); (transition_id, "transition_id"); (workflow_id, "workflow_id")] ;;
  _namespaced_digest
  [("effect_ordinal", PInt effect_ordinal); ("maximum_retries", PInt maximum_retries);
    ("run_id", PStr run_id); ("runtime_id", PStr runtime_id); ("step_id", PStr step_id);
    ("task_id", PStr task_id); ("tenant_id", PStr tenant_id);
    ("transition_id", PStr transition_id); ("workflow_id", PStr workflow_id)]
  "workflow-transition-queue-reservation-intent".

(** [workflow_transition_queue_operation_fence_id] *)
Definition queue_operation_fence_id (digest : string) : result string :=
  _sha256 queue_contract digest "queue_intent_digest" ;;
  _opaque_id "wftqf" [digest].

(** [workflow_transition_queue_attempt_id] *)
Definition queue_attempt_id (effect_id operation_fence_id : string) : result string :=
  _identity queue_contract effect_id "effect_id" ;;
  _identity queue_contract operation_fence_id "operation_fence_id" ;;
  _opaque_id "wftqa" [effect_id; operation_fence_id].

(** [workflow_transition_queue_receipt_id] *)
Definition queue_receipt_id (transition_id effect_id : string) : result string :=
  _identity queue_contract transition_id "transition_id" ;;
  _identity queue_contract effect_id "effect_id" ;;
  _opaque_id "wftqr" [transition_id; effect_id].

(** [workflow_transition_queue_record_digest] *)
Definition queue_record_digest (value : option dict) : result string :=
  _namespaced_digest (default [("absent", PBool true)] value) "workflow-transition-queue-record".

(** ** The authority *)

#[global] Instance queue_slot : Slot QueueReservationReceipt (string * string * string) := {
    slot_key r := (qr_tenant_id r, qr_run_id r, qr_effect_id r);
    slot_fence := qr_operation_fence_id;
    slot_resource r := (qr_tenant_id r, qr_run_id r, qr_task_id r);
    slot_scope := fst;
    slot_scoped r := eq_refl;
  }.

Notation store := (SlotStore QueueReservationReceipt (string * string * string)).

Definition observe_transition_queue_reservation (tenant_id run_id effect_id : string)
  : action store QueueReservationObservation :=
  lift (_identity queue_contract tenant_id "tenant_id" ;;
    _identity queue_contract run_id "run_id" ;;
    _identity queue_contract effect_id "effect_id") ;;
  s ← get;
  let observation := {| qo_receipt := _by_effect s !! (tenant_id, run_id, effect_id);
    qo_head_revision := _revision s |} in
  lift (queue_observation_post_init observation) ;;
  mret observation.

(** The receipt of a new reservation at a revision of the store. *)
Definition queue_receipt (i : QueueReservationIntent) (generation : Z) (moment : float)
  (revision : Z) : result QueueReservationReceipt :=
  record_digest ← queue_record_digest
  (Some [("task_id", PStr (qi_task_id i)); ("revision", PInt revision)]);
  let receipt := {|
    qr_schema := QUEUE_RESERVATION_RECEIPT_SCHEMA; qr_receipt_id := qi_receipt_id i;
    qr_transition_id := qi_transition_id i; qr_effect_id := qi_effect_id i;
    qr_operation_fence_id := qi_operation_fence_id i; qr_attempt_id := qi_attempt_id i;
    qr_task_id := qi_task_id i; qr_tenant_id := qi_tenant_id i;
    qr_workflow_id := qi_workflow_id i; qr_run_id := qi_run_id i;
    qr_runtime_id := qi_runtime_id i; qr_step_id := qi_step_id i;
    qr_queue_intent_digest := qi_queue_intent_digest i;
    qr_reservation_record_digest := record_digest; qr_creator_claim_generation := generation;
    qr_reserved_revision := revision; qr_maximum_retries := qi_maximum_retries i;
    qr_retry_consumed := false; qr_planned_at := qi_planned_at i; qr_reserved_at := moment;
    qr_receipt_digest := "" |} in
  queue_receipt_post_init receipt ;;
  queue_with_digest receipt.

Definition reserve_transition_queue_slot (i : QueueReservationIntent) (claim_generation : Z)
  (reserved_at : float) : action store QueueReservationReceipt :=
  lift (_positive_integer queue_contract claim_generation "claim_generation" ;;
    _positive_float queue_contract reserved_at "reserved_at") ;;
  claim_slot queue_contract (qi_tenant_id i, qi_run_id i, qi_effect_id i) (qi_operation_fence_id i)
  (qi_tenant_id i, qi_run_id i, qi_task_id i) "task" (queue_receipt i claim_generation reserved_at).

(** ** One slot per effect and per task *)

Record queue_op := {
    qp_intent : QueueReservationIntent;
    qp_generation : Z;
    qp_reserved_at : float;
  }.

Definition run_queue (op : queue_op) (s : store) : store :=
  (reserve_transition_queue_slot (qp_intent op) (qp_generation op) (qp_reserved_at op) s).2.

Lemma queue_receipt_builds i g t :
  builds (qi_tenant_id i, qi_run_id i, qi_effect_id i) (qi_operation_fence_id i)
  (qi_tenant_id i, qi_run_id i, qi_task_id i) (queue_receipt i g t).
Proof.
  intros n r. unfold queue_receipt, queue_with_digest. intros Hr. result_inv. by subst r.
Qed.

Definition queue_slot_op (op : queue_op) : slot_op :=
  {| op_contract := queue_contract;
    op_builds := queue_receipt_builds (qp_intent op) (qp_generation op) (qp_reserved_at op);
    op_reason := "task" |}.

(** The checks on a call's own arguments. *)
Definition queue_call_valid (generation : Z) (moment : float) : result unit :=
  _positive_integer queue_contract generation "claim_generation" ;;
  _positive_float queue_contract moment "reserved_at".

Lemma queue_reserve_run i g t s :
  reserve_transition_queue_slot i g t s =
  match queue_call_valid g t with
  | Ok _ => claim_slot queue_contract (qi_tenant_id i, qi_run_id i, qi_effect_id i)
    (qi_operation_fence_id i) (qi_tenant_id i, qi_run_id i, qi_task_id i) "task"
    (queue_receipt i g t) s
  | Err e => (Err e, s)
  end.
Proof.
  unfold reserve_transition_queue_slot, queue_call_valid.
  by destruct (_positive_integer queue_contract g "claim_generation") as [[]|];
    [destruct (_positive_float queue_contract t "reserved_at") as [[]|]|].
Qed.

Lemma run_queue_slot op s : run_queue op s = s ∨ run_queue op s = run_slot (queue_slot_op op) s.
Proof.
  unfold run_queue. rewrite queue_reserve_run. destruct (queue_call_valid _ _) as [[]|e]; [by right|by left].
Qed.

Lemma reachable_queue s0 s : reachable run_queue s0 s → reachable run_slot s0 s.
Proof.
  induction 1 as [|s op Hr IH]; [constructor|].
  destruct (run_queue_slot op s) as [->| ->]; [done|by constructor].
Qed.

Lemma reserve_Ok i g t s r s' :
  reserve_transition_queue_slot i g t s = (Ok r, s') →
  _by_effect s' !! (qi_tenant_id i, qi_run_id i, qi_effect_id i) = Some r ∧
  reachable run_queue s s'.
Proof.
  intros Hr. pose proof (reachable_step_many run_queue s
      {| qp_intent := i; qp_generation := g; qp_reserved_at := t |}) as Hs.
  unfold run_queue in Hs. cbn [qp_intent qp_generation qp_reserved_at] in Hs. rewrite Hr in Hs.
  split; [|done]. rewrite queue_reserve_run in Hr. destruct (queue_call_valid g t); [|done].
  apply claim_slot_cases in Hr as [(Hk & _ & ->)|(_ & _ & _ & _ & ->)]; [done|].
  apply lookup_insert_eq.
Qed.

(** A transition effect reserves one slot, once: the receipt it got stays its
    receipt whatever calls follow, a worker that crashed gets the same one again
    under its fence and another fence is refused, and whoever reserves the same
    task of the run gets this receipt or nothing. *)
Theorem queue_slot_once s i g t r s1 s2 :
  reachable run_queue empty_slots s →
  reserve_transition_queue_slot i g t s = (Ok r, s1) → reachable run_queue s1 s2 →
  _by_effect s2 !! (qi_tenant_id i, qi_run_id i, qi_effect_id i) = Some r ∧
  (∀ i' g' t', (qi_tenant_id i', qi_run_id i', qi_effect_id i') =
    (qi_tenant_id i, qi_run_id i, qi_effect_id i) → queue_call_valid g' t' = Ok tt →
    reserve_transition_queue_slot i' g' t' s2 =
    (if bool_decide (qr_operation_fence_id r ≠ qi_operation_fence_id i')
      then Err (slot_conflict queue_contract "fence") else Ok r, s2)) ∧
  (∀ i' g' t' r' s3, reserve_transition_queue_slot i' g' t' s2 = (Ok r', s3) →
    (qr_tenant_id r', qr_run_id r', qr_task_id r') = (qr_tenant_id r, qr_run_id r, qr_task_id r) →
    r' = r).
Proof.
  intros Hs [Hk Hs1]%reserve_Ok Hs2.
  apply (slot_final _ s2) in Hk; [|by apply reachable_queue]. split; [done|]. split.
  - intros i' g' t' Hkey Hv. rewrite queue_reserve_run, Hv, Hkey.
    exact (claim_slot_again _ _ _ _ _ _ _ _ Hk).
  - intros i' g' t' r' s3 [Hk' Hs3]%reserve_Ok Hx.
    apply (slot_final _ s3) in Hk; [|by apply reachable_queue].
    assert (slots_ok s3) as Hok.
    { apply reachable_slots_ok, reachable_queue.
      eapply reachable_trans; [|done]. eapply reachable_trans; [|done]. by eapply reachable_trans. }
    exact (proj2 (slot_once s3 _ _ r' r Hok Hk' Hk Hx)).
Qed.
End with_digests.

(** ** Examples *)

Definition sample_queue_intent : QueueReservationIntent :=
  {| qi_transition_id := "tr1"; qi_effect_id := "ef1"; qi_runtime_id := "native";
     qi_tenant_id := "tenant"; qi_workflow_id := "wf"; qi_run_id := "run"; qi_step_id := "step";
     qi_task_id := "task"; qi_effect_ordinal := 1;
     qi_queue_intent_digest := "0123456789abcdef0123456789abcdef0123456789abcdef0123456789abcdef";
     qi_operation_fence_id := "fence"; qi_attempt_id := "at1"; qi_receipt_id := "rc1";
     qi_maximum_retries := 2; qi_planned_at := lit 8 0 |}.

Notation sample_queue := (SlotStore QueueReservationReceipt (string * string * string)).

(** A store with one reservation. *)
Definition sample_reserve (t : float) (s : sample_queue) : result QueueReservationReceipt * sample_queue :=
  @reserve_transition_queue_slot checksum_digest sample_queue_intent 1 t s.

Definition receipt_or_none (receipt : result QueueReservationReceipt) : QueueReservationReceipt :=
  match receipt with
  | Ok r => r
  | Err _ => {| qr_schema := ""; qr_receipt_id := ""; qr_transition_id := ""; qr_effect_id := "";
      qr_operation_fence_id := ""; qr_attempt_id := ""; qr_task_id := ""; qr_tenant_id := "";
      qr_workflow_id := ""; qr_run_id := ""; qr_runtime_id := ""; qr_step_id := "";
      qr_queue_intent_digest := ""; qr_reservation_record_digest := "";
      qr_creator_claim_generation := 0; qr_reserved_revision := 0; qr_maximum_retries := 0;
      qr_retry_consumed := false; qr_planned_at := lit 0 0; qr_reserved_at := lit 0 0;
      qr_receipt_digest := "" |}
  end.

Definition sample_slot : QueueReservationReceipt :=
  receipt_or_none (@queue_receipt checksum_digest sample_queue_intent 1 (lit 9 0) 1).

Lemma sample_slot_built : @queue_receipt checksum_digest sample_queue_intent 1 (lit 9 0) 1 = Ok sample_slot.
Proof. vm_compute. reflexivity. Qed.

Definition sample_reserved : sample_queue :=
  record_slot ("tenant", "run", "ef1") "fence" ("tenant", "run", "task") sample_slot (bump empty_slots).

Lemma sample_queue_run : sample_reserve (lit 9 0) empty_slots = (Ok sample_slot, sample_reserved).
Proof.
  unfold sample_reserve. rewrite queue_reserve_run.
  replace (queue_call_valid 1 (lit 9 0)) with (@Ok unit tt) by (vm_compute; reflexivity).
  rewrite claim_slot_empty.
  by rewrite sample_slot_built.
Qed.

Lemma queue_slot_once_witness :
  @reserve_transition_queue_slot checksum_digest sample_queue_intent 7 (lit 11 0) sample_reserved =
  (Ok sample_slot, sample_reserved).
Proof.
  destruct (@queue_slot_once checksum_digest empty_slots sample_queue_intent 1 (lit 9 0) sample_slot
    sample_reserved sample_reserved (reachable_init _ _) sample_queue_run (reachable_init _ _))
    as (_ & Hagain & _).
  rewrite (Hagain sample_queue_intent 7 (lit 11 0)); [reflexivity|reflexivity|].
  vm_compute. reflexivity.
Defined.

(** The revision moves before the receipt is checked: a reservation that is
    refused because its clock is behind the plan moves the head all the same. *)
Lemma refused_reservation_moves_head :
  sample_reserve (lit 7 0) empty_slots =
  (Err (slot_error queue_contract "clock"), bump empty_slots).
Proof.
  unfold sample_reserve. rewrite queue_reserve_run.
  replace (queue_call_valid 1 (lit 7 0)) with (@Ok unit tt) by (vm_compute; reflexivity).
  rewrite claim_slot_empty.
  replace (queue_receipt _ _ _ _) with
    (@Err QueueReservationReceipt (slot_error queue_contract "clock")) by (vm_compute; reflexivity).
  reflexivity.
Qed.
