(* ===== verification/CheckpointBindings.v ===== *)
(** * Checkpoint bindings (workflow_runtime/checkpoint_bindings.py)

    Which checkpoint revision a transition effect advanced against: intents,
    receipts with their digest, identifiers, and the in-memory authority as an
    instance of the exclusive slots. *)
From S2P Require Import Prelude PyStr PyVal Digest Serialization Slots.

Definition CHECKPOINT_BINDING_RECEIPT_SCHEMA : string :=
  "ananta.workflow_transition_checkpoint_binding_receipt.v1".

Definition binding_contract : string := "checkpoint_binding".

(** ** Data *)

Record CheckpointBindingIntent := {
  ci_transition_id : string;
  ci_effect_id : string;
  ci_runtime_id : string;
  ci_tenant_id : string;
  ci_workflow_id : string;
  ci_run_id : string;
  ci_step_id : string;
  ci_task_id : string;
  ci_effect_ordinal : Z;
  ci_checkpoint_intent_digest : string;
  ci_operation_fence_id : string;
  ci_attempt_id : string;
  ci_receipt_id : string;
  ci_expected_revision : Z;
  ci_planned_at : float;
}.

Record CheckpointBindingReceipt := {
  cr_schema : string;
  cr_receipt_id : string;
  cr_transition_id : string;
  cr_effect_id : string;
  cr_operation_fence_id : string;
  cr_attempt_id : string;
  cr_checkpoint_id : string;
  cr_task_id : string;
  cr_tenant_id : string;
  cr_workflow_id : string;
  cr_run_id : string;
  cr_runtime_id : string;
  cr_step_id : string;
  cr_checkpoint_intent_digest : string;
  cr_checkpoint_digest : string;
  cr_creator_claim_generation : Z;
  cr_bound_revision : Z;
  cr_bound_fencing_token : Z;
  cr_planned_at : float;
  cr_bound_at : float;
  cr_receipt_digest : string;
}.

Record CheckpointBindingObservation := {
  co_receipt : option CheckpointBindingReceipt;
  co_head_revision : Z;
}.

(** The checkpoint a call has read and binds. *)
Record bound_checkpoint := {
  bc_checkpoint_id : string;
  bc_checkpoint_digest : string;
  bc_bound_revision : Z;
  bc_bound_fencing_token : Z;
}.

(** [__post_init__] of the intent *)
Definition binding_intent_post_init (i : CheckpointBindingIntent) : result unit :=
  for_each (λ vr, _identity binding_contract vr.1 vr.2)
    [(ci_transition_id i, "transition_id"); (ci_effect_id i, "effect_id");
     (ci_runtime_id i, "runtime_id"); (ci_tenant_id i, "tenant_id");
     (ci_workflow_id i, "workflow_id"); (ci_run_id i, "run_id"); (ci_step_id i, "step_id");
     (ci_task_id i, "task_id"); (ci_operation_fence_id i, "operation_fence_id");
     (ci_attempt_id i, "attempt_id"); (ci_receipt_id i, "receipt_id")] ;;
  _sha256 binding_contract (ci_checkpoint_intent_digest i) "checkpoint_intent_digest" ;;
  _positive_integer binding_contract (ci_effect_ordinal i) "effect_ordinal" ;;
  _positive_integer binding_contract (ci_expected_revision i) "expected_revision" ;;
  _positive_float binding_contract (ci_planned_at i) "planned_at".

(** [__post_init__] of the receipt *)
Definition binding_receipt_post_init (r : CheckpointBindingReceipt) : result unit :=
  raise_when (bool_decide (cr_schema r ≠ CHECKPOINT_BINDING_RECEIPT_SCHEMA))
    (slot_error binding_contract "schema") ;;
  for_each (λ vr, _identity binding_contract vr.1 vr.2)
    [(cr_receipt_id r, "receipt_id"); (cr_transition_id r, "transition_id");
     (cr_effect_id r, "effect_id"); (cr_operation_fence_id r, "operation_fence_id");
     (cr_attempt_id r, "attempt_id"); (cr_checkpoint_id r, "checkpoint_id");
     (cr_task_id r, "task_id"); (cr_tenant_id r, "tenant_id"); (cr_workflow_id r, "workflow_id");
     (cr_run_id r, "run_id"); (cr_runtime_id r, "runtime_id"); (cr_step_id r, "step_id")] ;;
  _sha256 binding_contract (cr_checkpoint_intent_digest r) "checkpoint_intent_digest" ;;
  _sha256 binding_contract (cr_checkpoint_digest r) "checkpoint_digest" ;;
  _positive_integer binding_contract (cr_creator_claim_generation r) "creator_claim_generation" ;;
  _positive_integer binding_contract (cr_bound_revision r) "bound_revision" ;;
  _positive_integer binding_contract (cr_bound_fencing_token r) "bound_fencing_token" ;;
  _positive_float binding_contract (cr_planned_at r) "planned_at" ;;
  _positive_float binding_contract (cr_bound_at r) "bound_at" ;;
  raise_when (float_ltb (cr_bound_at r) (cr_planned_at r)) (slot_error binding_contract "clock") ;;
  if str_true (cr_receipt_digest r)
  then _sha256 binding_contract (cr_receipt_digest r) "receipt_digest" else Ok tt.

Definition binding_receipt_to_dict (r : CheckpointBindingReceipt) : dict :=
  [("attempt_id", PStr (cr_attempt_id r)); ("bound_at", PFloat (cr_bound_at r));
   ("bound_fencing_token", PInt (cr_bound_fencing_token r));
   ("bound_revision", PInt (cr_bound_revision r));
   ("checkpoint_digest", PStr (cr_checkpoint_digest r));
   ("checkpoint_id", PStr (cr_checkpoint_id r));
   ("checkpoint_intent_digest", PStr (cr_checkpoint_intent_digest r));
   ("creator_claim_generation", PInt (cr_creator_claim_generation r));
   ("effect_id", PStr (cr_effect_id r)); ("operation_fence_id", PStr (cr_operation_fence_id r));
   ("planned_at", PFloat (cr_planned_at r)); ("receipt_digest", PStr (cr_receipt_digest r));
   ("receipt_id", PStr (cr_receipt_id r)); ("run_id", PStr (cr_run_id r));
   ("runtime_id", PStr (cr_runtime_id r)); ("schema", PStr (cr_schema r));
   ("step_id", PStr (cr_step_id r)); ("task_id", PStr (cr_task_id r));
   ("tenant_id", PStr (cr_tenant_id r)); ("transition_id", PStr (cr_transition_id r));
   ("workflow_id", PStr (cr_workflow_id r))].

Definition binding_observation_post_init (o : CheckpointBindingObservation) : result unit :=
  raise_when (co_head_revision o <? 0) (slot_error binding_contract "head").

Section with_digests.
Context `{Digest}.

(** [with_digest] *)
Definition binding_with_digest (r : CheckpointBindingReceipt) : result CheckpointBindingReceipt :=
  digest ← _namespaced_digest (dict_del "receipt_digest" (binding_receipt_to_dict r))
  "workflow-transition-checkpoint-binding-receipt";
  let signed := {|
    cr_schema := cr_schema r; cr_receipt_id := cr_receipt_id r;
    cr_transition_id := cr_transition_id r; cr_effect_id := cr_effect_id r;
    cr_operation_fence_id := cr_operation_fence_id r; cr_attempt_id := cr_attempt_id r;
    cr_checkpoint_id := cr_checkpoint_id r; cr_task_id := cr_task_id r;
    cr_tenant_id := cr_tenant_id r; cr_workflow_id := cr_workflow_id r; cr_run_id := cr_run_id r;
    cr_runtime_id := cr_runtime_id r; cr_step_id := cr_step_id r;
    cr_checkpoint_intent_digest := cr_checkpoint_intent_digest r;
    cr_checkpoint_digest := cr_checkpoint_digest r;
    cr_creator_claim_generation := cr_creator_claim_generation r;
    cr_bound_revision := cr_bound_revision r; cr_bound_fencing_token := cr_bound_fencing_token r;
    cr_planned_at := cr_planned_at r; cr_bound_at := cr_bound_at r; cr_receipt_digest := digest |} in
  binding_receipt_post_init signed ;;
  Ok signed.

(** [workflow_transition_checkpoint_intent_digest] *)
Definition checkpoint_intent_digest (transition_id runtime_id tenant_id workflow_id run_id step_id
    task_id : string) (effect_ordinal expected_revision : Z) : result string :=
  _positive_integer binding_contract effect_ordinal "effect_ordinal" ;;
  _positive_integer binding_contract expected_revision "expected_revision" ;;
  for_each (λ vr, _identity binding_contract vr.1 vr.2)
  [(run_id, "run_id"); (runtime_id, "runtime_id"); (step_id, "step_id"); (task_id, "task_id");
    (tenant_id, "tenant_id"); (transition_id, "transition_id"); (workflow_id, "workflow_id")] ;;
  _namespaced_digest
  [("effect_ordinal", PInt effect_ordinal); ("expected_revision", PInt expected_revision);
    ("run_id", PStr run_id); ("runtime_id", PStr runtime_id); ("step_id", PStr step_id);
    ("task_id", PStr task_id); ("tenant_id", PStr tenant_id);
    ("transition_id", PStr transition_id); ("workflow_id", PStr workflow_id)]
  "workflow-transition-checkpoint-binding-intent".

(** [workflow_transition_checkpoint_operation_fence_id] *)
Definition checkpoint_operation_fence_id (digest : string) : result string :=
  _sha256 binding_contract digest "checkpoint_intent_digest" ;;
  _opaque_id "wftcf" [digest].

(** [workflow_transition_checkpoint_attempt_id] *)
Definition checkpoint_attempt_id (effect_id operation_fence_id : string) : result string :=
  _identity binding_contract effect_id "effect_id" ;;
  _identity binding_contract operation_fence_id "operation_fence_id" ;;
  _opaque_id "wftca" [effect_id; operation_fence_id].

(** [workflow_transition_checkpoint_receipt_id] *)
Definition checkpoint_receipt_id (transition_id effect_id : string) : result string :=
  _identity binding_contract transition_id "transition_id" ;;
  _identity binding_contract effect_id "effect_id" ;;
  _opaque_id "wftcr" [transition_id; effect_id].

(** [workflow_transition_checkpoint_digest] *)
Definition checkpoint_digest (value : option dict) : result string :=
  _namespaced_digest (default [("absent", PBool true)] value) "workflow-transition-checkpoint-record".

(** ** The authority *)

#[global] Instance binding_slot : Slot CheckpointBindingReceipt (string * string * string * Z) := {
    slot_key r := (cr_tenant_id r, cr_run_id r, cr_effect_id r);
    slot_fence := cr_operation_fence_id;
    slot_resource r := (cr_tenant_id r, cr_run_id r, cr_task_id r, cr_bound_revision r);
    slot_scope x := x.1.1;
    slot_scoped r := eq_refl;
  }.

Notation store := (SlotStore CheckpointBindingReceipt (string * string * string * Z)).

Definition observe_transition_checkpoint_binding (tenant_id run_id effect_id : string)
  : action store CheckpointBindingObservation :=
  lift (_identity binding_contract tenant_id "tenant_id" ;;
    _identity binding_contract run_id "run_id" ;;
    _identity binding_contract effect_id "effect_id") ;;
  s ← get;
  let observation := {| co_receipt := _by_effect s !! (tenant_id, run_id, effect_id);
    co_head_revision := _revision s |} in
  lift (binding_observation_post_init observation) ;;
  mret observation.

(** The receipt of a new binding. *)
Definition binding_receipt (i : CheckpointBindingIntent) (b : bound_checkpoint) (generation : Z)
  (bound_at : float) : result CheckpointBindingReceipt :=
  _identity binding_contract (bc_checkpoint_id b) "checkpoint_id" ;;
  _sha256 binding_contract (bc_checkpoint_digest b) "checkpoint_digest" ;;
  _positive_integer binding_contract generation "claim_generation" ;;
  _positive_integer binding_contract (bc_bound_revision b) "bound_revision" ;;
  _positive_integer binding_contract (bc_bound_fencing_token b) "bound_fencing_token" ;;
  _positive_float binding_contract bound_at "bound_at" ;;
  let receipt := {|
    cr_schema := CHECKPOINT_BINDING_RECEIPT_SCHEMA; cr_receipt_id := ci_receipt_id i;
    cr_transition_id := ci_transition_id i; cr_effect_id := ci_effect_id i;
    cr_operation_fence_id := ci_operation_fence_id i; cr_attempt_id := ci_attempt_id i;
    cr_checkpoint_id := bc_checkpoint_id b; cr_task_id := ci_task_id i;
    cr_tenant_id := ci_tenant_id i; cr_workflow_id := ci_workflow_id i; cr_run_id := ci_run_id i;
    cr_runtime_id := ci_runtime_id i; cr_step_id := ci_step_id i;
    cr_checkpoint_intent_digest := ci_checkpoint_intent_digest i;
    cr_checkpoint_digest := bc_checkpoint_digest b; cr_creator_claim_generation := generation;
    cr_bound_revision := bc_bound_revision b; cr_bound_fencing_token := bc_bound_fencing_token b;
    cr_planned_at := ci_planned_at i; cr_bound_at := bound_at; cr_receipt_digest := "" |} in
  binding_receipt_post_init receipt ;;
  binding_with_digest receipt.

Definition bind_transition_checkpoint (i : CheckpointBindingIntent) (b : bound_checkpoint)
  (claim_generation : Z) (bound_at : float) : action store CheckpointBindingReceipt :=
  claim_slot binding_contract (ci_tenant_id i, ci_run_id i, ci_effect_id i) (ci_operation_fence_id i)
  (ci_tenant_id i, ci_run_id i, ci_task_id i, bc_bound_revision b) "revision"
  (λ _, binding_receipt i b claim_generation bound_at).

(** ** One checkpoint per effect, one effect per revision *)

Record binding_op := {
    bp_intent : CheckpointBindingIntent;
    bp_checkpoint : bound_checkpoint;
    bp_generation : Z;
    bp_bound_at : float;
  }.

Definition run_binding (op : binding_op) (s : store) : store :=
  (bind_transition_checkpoint (bp_intent op) (bp_checkpoint op) (bp_generation op)
    (bp_bound_at op) s).2.

Lemma binding_receipt_builds i b g t :
  builds (ci_tenant_id i, ci_run_id i, ci_effect_id i) (ci_operation_fence_id i)
  (ci_tenant_id i, ci_run_id i, ci_task_id i, bc_bound_revision b) (λ _, binding_receipt i b g t).
Proof.
  intros n r. unfold binding_receipt, binding_with_digest. intros Hr. result_inv. by subst r.
Qed.

Definition binding_slot_op (op : binding_op) : slot_op :=
  {| op_contract := binding_contract;
    op_builds := binding_receipt_builds (bp_intent op) (bp_checkpoint op) (bp_generation op)
    (bp_bound_at op);
    op_reason := "revision" |}.

Lemma reachable_binding s0 s : reachable run_binding s0 s → reachable run_slot s0 s.
Proof.
  induction 1 as [|s op Hr IH]; [constructor|].
  exact (reachable_step run_slot s0 s (binding_slot_op op) IH).
Qed.

Lemma bind_Ok i b g t s r s' :
  bind_transition_checkpoint i b g t s = (Ok r, s') →
  _by_effect s' !! (ci_tenant_id i, ci_run_id i, ci_effect_id i) = Some r ∧
  reachable run_binding s s'.
Proof.
  intros Hr. pose proof (reachable_step_many run_binding s
      {| bp_intent := i; bp_checkpoint := b; bp_generation := g; bp_bound_at := t |}) as Hs.
  unfold run_binding in Hs. cbn [bp_intent bp_checkpoint bp_generation bp_bound_at] in Hs.
  rewrite Hr in Hs. split; [|done].
  apply claim_slot_cases in Hr as [(Hk & _ & ->)|(_ & _ & _ & _ & ->)]; [done|].
  apply lookup_insert_eq.
Qed.

(** A transition effect binds one checkpoint, once: whatever happens after, a
    retry under its fence gets the same receipt, with the revision and digest
    first bound and not those current by then, another fence is refused, and
    whoever binds the same revision of the task gets this receipt or nothing. *)
Theorem binding_once s i b g t r s1 s2 :
  reachable run_binding empty_slots s →
  bind_transition_checkpoint i b g t s = (Ok r, s1) → reachable run_binding s1 s2 →
  _by_effect s2 !! (ci_tenant_id i, ci_run_id i, ci_effect_id i) = Some r ∧
  (∀ i' b' g' t', (ci_tenant_id i', ci_run_id i', ci_effect_id i') =
    (ci_tenant_id i, ci_run_id i, ci_effect_id i) →
    bind_transition_checkpoint i' b' g' t' s2 =
    (if bool_decide (cr_operation_fence_id r ≠ ci_operation_fence_id i')
      then Err (slot_conflict binding_contract "fence") else Ok r, s2)) ∧
  (∀ i' b' g' t' r' s3, bind_transition_checkpoint i' b' g' t' s2 = (Ok r', s3) →
    (cr_tenant_id r', cr_run_id r', cr_task_id r', cr_bound_revision r') =
    (cr_tenant_id r, cr_run_id r, cr_task_id r, cr_bound_revision r) → r' = r).
Proof.
  intros Hs [Hk Hs1]%bind_Ok Hs2.
  apply (slot_final _ s2) in Hk; [|by apply reachable_binding]. split; [done|]. split.
  - intros i' b' g' t' Hkey. unfold bind_transition_checkpoint. rewrite Hkey.
    exact (claim_slot_again _ _ _ _ _ _ _ _ Hk).
  - intros i' b' g' t' r' s3 [Hk' Hs3]%bind_Ok Hx.
    apply (slot_final _ s3) in Hk; [|by apply reachable_binding].
    assert (slots_ok s3) as Hok.
    { apply reachable_slots_ok, reachable_binding.
      eapply reachable_trans; [|done]. eapply reachable_trans; [|done]. by eapply reachable_trans. }
    exact (proj2 (slot_once s3 _ _ r' r Hok Hk' Hk Hx)).
Qed.
End with_digests.

(** ** Examples *)

Definition sample_digest64 : string :=
  "0123456789abcdef0123456789abcdef0123456789abcdef0123456789abcdef".

Definition sample_binding_intent : CheckpointBindingIntent :=
  {| ci_transition_id := "tr1"; ci_effect_id := "ef1"; ci_runtime_id := "native";
     ci_tenant_id := "tenant"; ci_workflow_id := "wf"; ci_run_id := "run"; ci_step_id := "step";
     ci_task_id := "task"; ci_effect_ordinal := 1;
     ci_checkpoint_intent_digest := sample_digest64;
     ci_operation_fence_id := "fence"; ci_attempt_id := "at1"; ci_receipt_id := "rc1";
     ci_expected_revision := 3; ci_planned_at := lit 8 0 |}.

Definition sample_bound (revision : Z) : bound_checkpoint :=
  {| bc_checkpoint_id := "wfc-1"; bc_checkpoint_digest := sample_digest64;
     bc_bound_revision := revision; bc_bound_fencing_token := 5 |}.

Notation sample_bindings := (SlotStore CheckpointBindingReceipt (string * string * string * Z)).

Definition binding_or_none (receipt : result CheckpointBindingReceipt) : CheckpointBindingReceipt :=
  match receipt with
  | Ok r => r
  | Err _ => {| cr_schema := ""; cr_receipt_id := ""; cr_transition_id := ""; cr_effect_id := "";
      cr_operation_fence_id := ""; cr_attempt_id := ""; cr_checkpoint_id := ""; cr_task_id := "";
      cr_tenant_id := ""; cr_workflow_id := ""; cr_run_id := ""; cr_runtime_id := "";
      cr_step_id := ""; cr_checkpoint_intent_digest := ""; cr_checkpoint_digest := "";
      cr_creator_claim_generation := 0; cr_bound_revision := 0; cr_bound_fencing_token := 0;
      cr_planned_at := lit 0 0; cr_bound_at := lit 0 0; cr_receipt_digest := "" |}
  end.

Definition sample_bound_receipt : CheckpointBindingReceipt :=
  binding_or_none (@binding_receipt checksum_digest sample_binding_intent (sample_bound 3) 1 (lit 9 0)).

Lemma sample_binding_built :
  @binding_receipt checksum_digest sample_binding_intent (sample_bound 3) 1 (lit 9 0) =
  Ok sample_bound_receipt.
Proof. vm_compute. reflexivity. Qed.

Definition sample_bound_store : sample_bindings :=
  record_slot ("tenant", "run", "ef1") "fence" ("tenant", "run", "task", 3) sample_bound_receipt
    (bump empty_slots).

Lemma sample_bind_run :
  @bind_transition_checkpoint checksum_digest sample_binding_intent (sample_bound 3) 1 (lit 9 0)
    empty_slots = (Ok sample_bound_receipt, sample_bound_store).
Proof. unfold bind_transition_checkpoint. by rewrite claim_slot_empty, sample_binding_built. Qed.

Lemma binding_once_witness :
  @bind_transition_checkpoint checksum_digest sample_binding_intent (sample_bound 4) 7 (lit 11 0)
    sample_bound_store = (Ok sample_bound_receipt, sample_bound_store).
Proof.
  destruct (@binding_once checksum_digest empty_slots sample_binding_intent (sample_bound 3) 1
    (lit 9 0) sample_bound_receipt sample_bound_store sample_bound_store (reachable_init _ _)
    sample_bind_run (reachable_init _ _)) as (_ & Hagain & _).
  rewrite (Hagain sample_binding_intent (sample_bound 4) 7 (lit 11 0)); reflexivity.
Defined.
