(* ===== verification/LegacyRequest.v ===== *)
(** * Workflow requests and their adapter (workflow_backend.py, execution_plan.py)

    The older request contract [WorkflowRequest], and the adapter that turns a
    request into an execution plan. *)
From S2P Require Import Prelude PyStr PyVal Digest Serialization Plan PlanGraph PlanLaws Envelope.

Definition WORKFLOW_REQUEST_SCHEMA : string := "ananta.workflow_request.v1".

(** ** Requests *)

Record WorkflowStepRequest := {
  st_step_id : string;
  st_title : string;
  st_task_kind : string;
  st_role : string;
  st_depends_on : list string;
  st_gate : bool;
  st_allowed_tools : list string;
  st_policy_scope : dict;
  st_input_artifacts : list string;
  st_output_artifacts : list string;
  st_metadata : dict;
}.

Record WorkflowRequest := {
  wr_workflow_id : string;
  wr_workflow_type : string;
  wr_goal_id : string;
  wr_plan_id : string;
  wr_blueprint_id : string;
  wr_blueprint_version : string;
  wr_steps : list WorkflowStepRequest;
  wr_allowed_tools : list string;
  wr_policy_scope : dict;
  wr_input_artifacts : list string;
  wr_correlation_id : string;
  wr_requested_by : string;
  wr_metadata : dict;
}.

(** [raw.get(a) or raw.get(b) or default] over the keys in order. *)
Definition first_of (keys : list string) (default : pyval) (raw : dict) : pyval :=
  foldr (λ k v, por (dget k raw) v) default keys.

(** [tuple(str(v).strip() for v in list(values) if str(v).strip())] *)
Definition stripped_items (values : pyval) : result (list string) :=
  items ← iterate values;
  Ok (filter (λ s, s ≠ "") (map (λ v, strip (py_str v)) items)).

(** [WorkflowStepRequest.from_mapping(raw)] *)
Definition step_from_mapping (raw : dict) : result WorkflowStepRequest :=
  let step_id := first_str ["step_id"; "id"] "" raw in
  raise_when (negb (str_true step_id)) (ValueError "workflow step requires step_id") ;;
  depends_on ← stripped_items (first_of ["depends_on"] (PList []) raw);
  allowed_tools ← stripped_items (first_of ["allowed_tools"] (PList []) raw);
  policy_scope ← py_dict (first_of ["policy_scope"; "policyScope"] (PDict []) raw);
  input_artifacts ← stripped_items (first_of ["input_artifacts"; "consumes"] (PList []) raw);
  output_artifacts ← stripped_items (first_of ["output_artifacts"; "produces"] (PList []) raw);
  metadata ← py_dict (first_of ["metadata"] (PDict []) raw);
  Ok {| st_step_id := step_id;
    st_title := first_str ["title"; "label"] step_id raw;
    st_task_kind := str_or (first_str ["task_kind"; "kind"] "coding" raw) "coding";
    st_role := first_str ["role"; "role_name"] "" raw;
    st_depends_on := depends_on;
    st_gate := truthy (get_default "gate" (PBool false) raw);
    st_allowed_tools := allowed_tools; st_policy_scope := policy_scope;
    st_input_artifacts := input_artifacts; st_output_artifacts := output_artifacts;
    st_metadata := metadata |}.

Definition step_to_dict (s : WorkflowStepRequest) : dict :=
  [("step_id", PStr (st_step_id s)); ("title", PStr (st_title s));
   ("task_kind", PStr (st_task_kind s)); ("role", PStr (st_role s));
   ("depends_on", strs (st_depends_on s)); ("gate", PBool (st_gate s));
   ("allowed_tools", strs (st_allowed_tools s)); ("policy_scope", PDict (st_policy_scope s));
   ("input_artifacts", strs (st_input_artifacts s));
   ("output_artifacts", strs (st_output_artifacts s)); ("metadata", PDict (st_metadata s))].

(** [WorkflowRequest.from_mapping(raw)]; [fresh_workflow] and
    [fresh_correlation] are the generated identifiers. *)
Definition request_of_mapping (fresh_workflow fresh_correlation : string) (raw : dict)
  : result WorkflowRequest :=
  let workflow_id := first_str ["workflow_id"; "workflowId"] "" raw in
  steps ← iterate (first_of ["steps"] (PList []) raw);
  steps ← map_result (λ v, d ← as_mapping v; step_from_mapping d) steps;
  allowed_tools ← stripped_items (first_of ["allowed_tools"; "allowedTools"] (PList []) raw);
  policy_scope ← py_dict (first_of ["policy_scope"; "policyScope"] (PDict []) raw);
  input_artifacts ← stripped_items (first_of ["input_artifacts"; "inputArtifacts"] (PList []) raw);
  metadata ← py_dict (first_of ["metadata"] (PDict []) raw);
  Ok {| wr_workflow_id := str_or workflow_id fresh_workflow;
    wr_workflow_type := str_or (first_str ["workflow_type"; "workflowType"] "custom" raw) "custom";
    wr_goal_id := first_str ["goal_id"; "goalId"] "" raw;
    wr_plan_id := first_str ["plan_id"; "planId"] "" raw;
    wr_blueprint_id := first_str ["blueprint_id"; "blueprintId"] "" raw;
    wr_blueprint_version := first_str ["blueprint_version"; "blueprintVersion"] "" raw;
    wr_steps := steps; wr_allowed_tools := allowed_tools; wr_policy_scope := policy_scope;
    wr_input_artifacts := input_artifacts;
    wr_correlation_id := first_str ["correlation_id"; "correlationId"] fresh_correlation raw;
    wr_requested_by := str_or (first_str ["requested_by"; "requestedBy"] "hub" raw) "hub";
    wr_metadata := metadata |}.

Definition request_to_dict (r : WorkflowRequest) : dict :=
  [("schema", PStr WORKFLOW_REQUEST_SCHEMA); ("workflow_id", PStr (wr_workflow_id r));
   ("workflow_type", PStr (wr_workflow_type r)); ("goal_id", PStr (wr_goal_id r));
   ("plan_id", PStr (wr_plan_id r)); ("blueprint_id", PStr (wr_blueprint_id r));
   ("blueprint_version", PStr (wr_blueprint_version r));
   ("steps", PList (map (λ s, PDict (step_to_dict s)) (wr_steps r)));
   ("allowed_tools", strs (wr_allowed_tools r)); ("policy_scope", PDict (wr_policy_scope r));
   ("input_artifacts", strs (wr_input_artifacts r));
   ("correlation_id", PStr (wr_correlation_id r)); ("requested_by", PStr (wr_requested_by r));
   ("metadata", PDict (wr_metadata r))].

(** The errors of one step in [validate]. *)
Definition step_errors (r : WorkflowRequest) (known : list string) (s : WorkflowStepRequest)
  : list string :=
  map (λ dep, "unknown_dependency:" +:+ st_step_id s +:+ ":" +:+ dep)
    (filter (λ dep, dep ∉ known) (st_depends_on s)) ++
  (if negb (truthy (PDict (dict_update (wr_policy_scope r) (st_policy_scope s))))
   then ["policy_scope_required:" +:+ st_step_id s] else []).

(** [WorkflowRequest.validate()] *)
Definition request_errors (r : WorkflowRequest) : list string :=
  let ids := map st_step_id (wr_steps r) in
  (if negb (str_true (wr_workflow_id r)) then ["workflow_id_required"] else []) ++
  (if bool_decide (wr_steps r = []) then ["steps_required"] else []) ++
  (if duplicates ids then ["duplicate_step_id"] else []) ++
  concat (map (step_errors r ids) (wr_steps r)).

(** ** Signals and events *)

Definition WORKFLOW_EVENT_SCHEMA : string := "ananta.workflow_backend_event.v1".

Record WorkflowSignal := {
  sg_name : string;
  sg_payload : dict;
  sg_actor : string;
  sg_timestamp : float;
}.

(** [WorkflowSignal.from_mapping(raw)], at the time [now]. *)
Definition signal_from_mapping (now : float) (raw : dict) : result WorkflowSignal :=
  payload ← py_dict (first_of ["payload"] (PDict []) raw);
  Ok {| sg_name := first_str ["name"; "signal"] "" raw; sg_payload := payload;
        sg_actor := str_or (first_str ["actor"] "system" raw) "system"; sg_timestamp := now |}.

(** [workflow_backend_event(...)]; [hex16] is the generated part of the event
    identifier. *)
Definition workflow_backend_event (hex16 : string) (now : float)
  (workflow_id event_type status actor : string) (details : dict) : dict :=
  [("schema", PStr WORKFLOW_EVENT_SCHEMA); ("event_id", PStr ("wfe-" +:+ hex16));
   ("workflow_id", PStr workflow_id); ("event_type", PStr event_type); ("status", PStr status);
   ("actor", PStr actor); ("details", PDict details); ("timestamp", PFloat now)].

(** ** The adapter *)

Definition _legacy_side_effect_class (metadata : dict) : string :=
  let value := lower (first_str ["side_effect_class"; "activity_class"] "none" metadata) in
  if bool_decide (value ∈ SIDE_EFFECT_CLASSES) then value else "none".

(** [str(x or "").strip()[:160]] *)
Definition bounded_text (v : pyval) : string := str_take 160 (strip (str_or_default v "")).

(** [bounded] *)
Definition bounded_scope (candidate : dict) (tenant_id workflow_id : string) : dict :=
  let profile_id := bounded_text (dget "profile_id" candidate) in
  [("project_id", PStr (bounded_text (dget "project_id" candidate)));
   ("tenant_id", PStr (str_take 160 (strip tenant_id))); ("profile_id", PStr profile_id);
   ("workflow_id", PStr (if str_true profile_id then str_take 160 (strip workflow_id) else ""))].

Definition _legacy_rollout_scope (metadata : dict) (tenant_id workflow_id : string) : dict :=
  let scope candidate :=
    [("workflow_rollout_scope", PDict (bounded_scope candidate tenant_id workflow_id))] in
  match dget "workflow_rollout_scope" metadata with
  | PDict raw => scope raw
  | _ =>
      if truthy (dget "project_id" metadata) then
        scope [("project_id", dget "project_id" metadata);
               ("profile_id", por (dget "runtime_profile_id" metadata)
                                (dget "profile_id" metadata))]
      else []
  end.

Section adapter.
Context `{ModelRouting} `{Digest}.

(** The node of a step. *)
Definition step_node (s : WorkflowStepRequest) : result ExecutionNode :=
  let step_id := strip (st_step_id s) in
  let metadata := st_metadata s in
  model_routing ← routing_metadata metadata;
  required_capabilities ← _clean_tuple (dget "required_capabilities" metadata);
  scope_hash ← sha256_json (redact_json (PDict (st_policy_scope s)));
  metadata_hash ← sha256_json (redact_json (PDict metadata));
  Ok {| node_id := step_id; node_type := "task"; task_kind := str_or (st_task_kind s) "coding";
    required_capabilities := required_capabilities;
    allowed_tools := clean_strings (st_allowed_tools s);
    input_artifacts := clean_strings (st_input_artifacts s);
    output_artifacts := clean_strings (st_output_artifacts s);
    node_gate_id := if st_gate s then "gate:" +:+ step_id else "";
    side_effect_class := _legacy_side_effect_class metadata;
    node_budget := None;
    node_metadata :=
    [("legacy_role", PStr (st_role s)); ("legacy_policy_scope_hash", PStr scope_hash);
      ("legacy_metadata_hash", PStr metadata_hash);
      ("declared_operation",
        PStr (py_str (first_of ["operation_name"; "declared_operation"] (PStr "") metadata)))]
    ++ match model_routing with Some v => [("model_routing", v)] | None => [] end |}.

(** The gates, edges and artifacts the loop over the steps collects. *)
Definition step_gates (n : ExecutionNode) : list ExecutionGate :=
  if str_true (node_gate_id n) then
  [{| gate_id := node_gate_id n; gate_type := "approval"; required_roles := [];
      expires_after_seconds := None |}]
  else [].

Definition step_edges (s : WorkflowStepRequest) : list ExecutionEdge :=
  map (λ dependency, {| edge_source := dependency; edge_target := strip (st_step_id s);
      edge_condition := [("op", PStr "always")] |}) (st_depends_on s).

Definition default_artifact (value : string) : ArtifactContract :=
  {| artifact_id := value; media_type := "application/octet-stream"; art_required := true;
    schema_ref := "" |}.

(** [WorkflowRequestExecutionPlanAdapter.adapt(request, ...)] *)
Definition adapt (request : WorkflowRequest) (tenant_id policy_version : string)
  (default_budget : option ExecutionBudget) : result ExecutionPlan :=
  let metadata := wr_metadata request in
  let legacy_budget := dget "execution_budget" metadata in
  raise_when (match legacy_budget with PNone | PDict _ => false | _ => true end)
  (ValueError "legacy_execution_budget_invalid") ;;
  resolved_budget ← match default_budget with
  | Some b => Ok b
  | None => budget_from_mapping legacy_budget
  end;
  declared ← _clean_tuple (dget "capabilities" metadata);
  nodes ← map_result step_node (wr_steps request);
  request_hash ← sha256_json (redact_json (PDict (request_to_dict request)));
  let artifact_ids :=
  wr_input_artifacts request ++ concat (map (λ n, input_artifacts n ++ output_artifacts n) nodes) in
  let plan := {|
    tenant_id := strip tenant_id;
    plan_id := strip (str_or (wr_plan_id request) (wr_workflow_id request));
    workflow_id := strip (wr_workflow_id request); policy_version := strip policy_version;
    nodes := nodes; edges := concat (map step_edges (wr_steps request));
    capabilities := sorted_set (declared ++ concat (map required_capabilities nodes));
    gates := concat (map step_gates nodes);
    artifacts := map default_artifact (sorted_set artifact_ids);
    plan_budget := resolved_budget;
    plan_metadata :=
    [("adapted_from", PStr "ananta.workflow_request.v1"); ("legacy_request_hash", PStr request_hash)]
    ++ _legacy_rollout_scope metadata (strip tenant_id) (strip (wr_workflow_id request));
    plan_schema := EXECUTION_PLAN_SCHEMA |} in
  assert_valid plan ;;
  Ok plan.
End adapter.

(** ** The adapter keeps the request *)

Section adapter_laws.
Context `{ModelRouting} `{Digest}.

(** [b] waits for [a] in the request. *)
Definition step_edge (r : WorkflowRequest) (a b : string) : Prop :=
  ∃ s, s ∈ wr_steps r ∧ strip (st_step_id s) = b ∧ a ∈ st_depends_on s.

(** A capability the request declares, or one of its steps asks for. *)
Definition asked_capability (r : WorkflowRequest) (c : string) : Prop :=
  (∃ l, _clean_tuple (dget "capabilities" (wr_metadata r)) = Ok l ∧ c ∈ l) ∨
  (∃ s l, s ∈ wr_steps r ∧
    _clean_tuple (dget "required_capabilities" (st_metadata s)) = Ok l ∧ c ∈ l).

(** The node [n] of [p] is what the step [s] asks for. *)
Record adapted_step (p : ExecutionPlan) (s : WorkflowStepRequest) (n : ExecutionNode) : Prop := {
    as_id : node_id n = strip (st_step_id s);
    as_tools : allowed_tools n = clean_strings (st_allowed_tools s);
    as_inputs : input_artifacts n = clean_strings (st_input_artifacts s);
    as_outputs : output_artifacts n = clean_strings (st_output_artifacts s);
    as_capabilities :
    _clean_tuple (dget "required_capabilities" (st_metadata s)) = Ok (required_capabilities n);
    as_class : side_effect_class n = _legacy_side_effect_class (st_metadata s);
    as_gated : st_gate s = true →
    {| gate_id := node_gate_id n; gate_type := "approval"; required_roles := [];
      expires_after_seconds := None |} ∈ gates p ∧ node_gate_id n = "gate:" +:+ node_id n;
    as_open : st_gate s = false → node_gate_id n = "";
  }.

Lemma step_node_Ok s n p :
  step_node s = Ok n → (∀ g, g ∈ step_gates n → g ∈ gates p) → adapted_step p s n.
Proof.
  unfold step_node. intros (routing & _ & Hn)%result_bind_Ok Hg.
  apply result_bind_Ok in Hn as (required & Hr & Hn).
  apply result_bind_Ok in Hn as (scope & _ & Hn). apply result_bind_Ok in Hn as (meta & _ & Hn).
  injection Hn as <-. destruct (st_gate s) eqn:Hs; constructor; try reflexivity; try exact Hr;
    rewrite Hs; try done.
  intros _. split; [|reflexivity]. apply Hg. unfold step_gates. cbn [node_gate_id].
  change (str_true ("gate:" +:+ _)) with true. by left.
Qed.

Lemma Forall2_impl_in {A B} (P Q : A → B → Prop) l k :
  Forall2 P l k → (∀ x y, x ∈ l → y ∈ k → P x y → Q x y) → Forall2 Q l k.
Proof.
  induction 1 as [|x y l k Hxy _ IH]; intros Hq; constructor; [apply Hq; [by left..|done]|].
  apply IH. intros x' y' Hx Hy. apply Hq; by right.
Qed.

Lemma elem_concat_map {A B} (f : A → list B) l y : y ∈ concat (map f l) ↔ ∃ x, x ∈ l ∧ y ∈ f x.
Proof.
  induction l as [|x l IH]; cbn.
  - split; [by intros ?%elem_of_nil|by intros (x & ?%elem_of_nil & _)].
  - rewrite elem_of_app, IH. setoid_rewrite elem_of_cons. naive_solver.
Qed.

Lemma adapt_inv r tenant policy budget p :
  adapt r tenant policy budget = Ok p →
  ∃ declared ns,
  _clean_tuple (dget "capabilities" (wr_metadata r)) = Ok declared ∧
  Forall2 (λ s n, step_node s = Ok n) (wr_steps r) ns ∧
  assert_valid p = Ok tt ∧ nodes p = ns ∧ edges p = concat (map step_edges (wr_steps r)) ∧
  gates p = concat (map step_gates ns) ∧
  capabilities p = sorted_set (declared ++ concat (map required_capabilities ns)) ∧
  tenant_id p = strip tenant ∧ policy_version p = strip policy ∧
  workflow_id p = strip (wr_workflow_id r) ∧
  ∃ h, plan_metadata p =
  [("adapted_from", PStr "ananta.workflow_request.v1"); ("legacy_request_hash", PStr h)] ++
  _legacy_rollout_scope (wr_metadata r) (strip tenant) (strip (wr_workflow_id r)).
Proof.
  unfold adapt. intros ([] & _ & Hp)%result_bind_Ok.
  apply result_bind_Ok in Hp as (resolved & _ & Hp).
  apply result_bind_Ok in Hp as (declared & Hd & Hp). apply result_bind_Ok in Hp as (ns & Hn & Hp).
  apply result_bind_Ok in Hp as (h & _ & Hp). cbv zeta in Hp.
  apply result_bind_Ok in Hp as ([] & Hv & Hp). injection Hp as <-.
  apply map_result_Ok in Hn. exists declared, ns.
  split_and!; [exact Hd|exact Hn|exact Hv|reflexivity..|]. by exists h.
Qed.

Lemma step_edges_pairs r :
  map (λ e, (edge_source e, edge_target e)) (concat (map step_edges (wr_steps r))) =
  concat (map (λ s, map (λ d, (d, strip (st_step_id s))) (st_depends_on s)) (wr_steps r)).
Proof. rewrite concat_map, map_map. unfold step_edges. by setoid_rewrite map_map. Qed.

Lemma adapt_edges r tenant policy budget p a b :
  adapt r tenant policy budget = Ok p → plan_edge p a b ↔ step_edge r a b.
Proof.
  intros (declared & ns & _ & _ & Hv & _ & He & _)%adapt_inv.
  apply assert_valid_inv in Hv. unfold plan_edge.
  assert ((a, b) ∈ map (λ e, (edge_source e, edge_target e)) (edges p) ↔ step_edge r a b) as Hpair.
  { rewrite He, step_edges_pairs, elem_concat_map. unfold step_edge.
    setoid_rewrite list_elem_of_fmap. naive_solver. }
  split; [intros (_ & _ & Hp); by apply Hpair|]. intros Hs. apply Hpair in Hs as Hp.
  apply list_elem_of_fmap in Hp as (e & [= -> ->] & Hin).
  destruct (pv_edges _ Hv e Hin) as (Hsrc & Htgt & _).
  split; [done|]. split; [done|]. apply list_elem_of_fmap. by exists e.
Qed.

Lemma scope_get d scope :
  dict_get "workflow_rollout_scope" [("workflow_rollout_scope", PDict d)] = Some (PDict scope) →
  scope = d.
Proof. by intros [= <-]. Qed.

Lemma rollout_tenant metadata tenant workflow scope :
  dict_get "workflow_rollout_scope" (_legacy_rollout_scope metadata tenant workflow) = Some (PDict scope) →
  dget "tenant_id" scope = PStr (str_take 160 (strip tenant)).
Proof.
  unfold _legacy_rollout_scope. intros Hs.
  assert (∃ candidate, scope = bounded_scope candidate tenant workflow) as [candidate ->]; [|reflexivity].
  destruct (dget "workflow_rollout_scope" metadata);
    try (destruct (truthy _); [|discriminate Hs]); apply scope_get in Hs; eauto.
Qed.

Lemma step_node_capabilities s n :
  step_node s = Ok n →
  _clean_tuple (dget "required_capabilities" (st_metadata s)) = Ok (required_capabilities n).
Proof.
  unfold step_node. intros (routing & _ & Hn)%result_bind_Ok.
  apply result_bind_Ok in Hn as (required & Hr & Hn).
  apply result_bind_Ok in Hn as (scope & _ & Hn). apply result_bind_Ok in Hn as (meta & _ & Hn).
  injection Hn as <-. exact Hr.
Qed.

Lemma asked_steps steps ns c :
  Forall2 (λ s n, step_node s = Ok n) steps ns →
  (∃ n, n ∈ ns ∧ c ∈ required_capabilities n) ↔
  (∃ s l, s ∈ steps ∧
    _clean_tuple (dget "required_capabilities" (st_metadata s)) = Ok l ∧ c ∈ l).
Proof.
  induction 1 as [|s n steps ns Hs%step_node_capabilities _ IH].
  - split; [by intros (n & ?%elem_of_nil & _)|by intros (s & l & ?%elem_of_nil & _)].
  - setoid_rewrite elem_of_cons. split.
    + intros (m & [->|Hm] & Hc); [by exists s, (required_capabilities n); auto|].
      destruct (proj1 IH) as (s' & l & Hin & Hl & Hcl); [by exists m|]. exists s', l. auto.
    + intros (s' & l & [->|Hin] & Hl & Hc).
      * exists n. split; [by left|]. rewrite Hs in Hl. by injection Hl as <-.
      * destruct (proj2 IH) as (m & Hm & Hcm); [by exists s', l|]. exists m. auto.
Qed.

(** C36: a workflow request of the older contract becomes a valid plan that runs
    exactly its steps in their order, each with the tools, artifacts and
    capabilities the step names and behind an approval gate when the step has
    one; a step waits for exactly the steps it depends on, so the dependencies
    of an adapted request have no cycle; the plan declares no capability that
    was not asked for; and its tenant and policy are the hub's, in its rollout
    scope too, whatever the request's metadata says. *)
Theorem adapt_exact r tenant policy budget p :
  adapt r tenant policy budget = Ok p →
  plan_valid p ∧ tenant_id p = strip tenant ∧ policy_version p = strip policy ∧
  Forall2 (adapted_step p) (wr_steps r) (nodes p) ∧
  (∀ a b, plan_edge p a b ↔ step_edge r a b) ∧ (∀ b, ¬ tc (step_edge r) b b) ∧
  (∀ c, c ∈ capabilities p ↔ asked_capability r c) ∧
  (∀ scope, dict_get "workflow_rollout_scope" (plan_metadata p) = Some (PDict scope) →
    dget "tenant_id" scope = PStr (str_take 160 (strip tenant))).
Proof.
  intros Ha. pose proof (λ a b, adapt_edges _ _ _ _ _ a b Ha) as Hedges.
  apply adapt_inv in Ha as (declared & ns & Hd & Hn & Hv & Hns & _ & Hg & Hc & Ht & Hp & _ & h & Hm).
  apply assert_valid_inv in Hv. subst ns. split_and!; [exact Hv|exact Ht|exact Hp| |exact Hedges| | |].
  - apply (Forall2_impl_in _ _ _ _ Hn). intros s n _ Hin Hs.
    apply step_node_Ok; [done|]. intros g Hgn. rewrite Hg. apply elem_concat_map. eauto.
  - intros b Hb. apply (pv_acyclic _ Hv b). refine (tc_congruence (λ x, x) (plan_edge p) b b _ Hb).
    intros x y. apply Hedges.
  - intros c. rewrite Hc, elem_of_sorted_set, elem_of_app, elem_concat_map. unfold asked_capability.
    rewrite (asked_steps (wr_steps r) (nodes p)) by done.
    rewrite Hd. split; [intros [Hl|Hs]; [left; by exists declared|by right]|].
    intros [(l & [= <-] & Hl)|Hs]; [by left|by right].
  - intros scope. rewrite Hm. intros Hs. rewrite <- (strip_idemp tenant).
    apply (rollout_tenant (wr_metadata r) (strip tenant) (strip (wr_workflow_id r))). exact Hs.
Qed.
End adapter_laws.

(** ** Examples *)

Definition sample_request_mapping : dict :=
  [("workflow_id", PStr "wf");
   ("steps", PList
      [PDict [("id", PStr "draft"); ("allowed_tools", PList [PStr "write"; PStr " read "]);
              ("produces", PList [PStr "text"]);
              ("metadata", PDict [("required_capabilities", PList [PStr "code"]);
                                  ("activity_class", PStr "non_idempotent")])];
       PDict [("step_id", PStr "review"); ("gate", PBool true); ("depends_on", PList [PStr "draft"]);
              ("consumes", PList [PStr "text"])]]);
   ("metadata", PDict [("capabilities", PList [PStr "plan"]); ("project_id", PStr "p7")])].

Definition empty_request : WorkflowRequest :=
  {| wr_workflow_id := ""; wr_workflow_type := ""; wr_goal_id := ""; wr_plan_id := "";
     wr_blueprint_id := ""; wr_blueprint_version := ""; wr_steps := []; wr_allowed_tools := [];
     wr_policy_scope := []; wr_input_artifacts := []; wr_correlation_id := "";
     wr_requested_by := ""; wr_metadata := [] |}.

Definition sample_workflow_request : WorkflowRequest :=
  match request_of_mapping "wf-1" "c-1" sample_request_mapping with
  | Ok r => r
  | Err _ => empty_request
  end.

Definition sample_adapted : ExecutionPlan :=
  match @adapt no_routing checksum_digest sample_workflow_request " tenant" "p1" None with
  | Ok p => p
  | Err _ => sample_plan
  end.

Lemma adapt_exact_witness :
  @adapt no_routing checksum_digest sample_workflow_request " tenant" "p1" None = Ok sample_adapted ∧
  plan_edge sample_adapted "draft" "review".
Proof.
  assert (@adapt no_routing checksum_digest sample_workflow_request " tenant" "p1" None =
    Ok sample_adapted) as Ha by (vm_compute; reflexivity).
  split; [exact Ha|].
  apply (@adapt_exact no_routing checksum_digest sample_workflow_request " tenant" "p1" None
    sample_adapted Ha).
  eexists. split; [right; left|]. split; [reflexivity|left].
Defined.

(** A step may declare the activity class under which the Temporal backend runs
    it.  The adapter reads it as a side-effect class, knows none of its four
    values, and takes each for a step without side effects. *)
Lemma activity_class_lost :
  Forall (λ c, _legacy_side_effect_class [("activity_class", PStr c)] = "none")
    ["read_only"; "idempotent"; "non_idempotent"; "long_running"] ∧
  map side_effect_class (nodes sample_adapted) = ["none"; "none"].
Proof. split; [repeat constructor|vm_compute; reflexivity]. Qed.

(** [validate] does not look for cycles: a request it finds nothing wrong with
    may still have no plan. *)
Lemma request_may_not_adapt :
  let r := {| wr_workflow_id := "wf"; wr_workflow_type := "custom"; wr_goal_id := "";
     wr_plan_id := ""; wr_blueprint_id := ""; wr_blueprint_version := "";
     wr_steps := [{| st_step_id := "a"; st_title := "a"; st_task_kind := "coding"; st_role := "";
       st_depends_on := ["b"]; st_gate := false; st_allowed_tools := []; st_policy_scope := [("x", PInt 1)];
       st_input_artifacts := []; st_output_artifacts := []; st_metadata := [] |};
       {| st_step_id := "b"; st_title := "b"; st_task_kind := "coding"; st_role := "";
       st_depends_on := ["a"]; st_gate := false; st_allowed_tools := []; st_policy_scope := [("x", PInt 1)];
       st_input_artifacts := []; st_output_artifacts := []; st_metadata := [] |}];
     wr_allowed_tools := []; wr_policy_scope := []; wr_input_artifacts := []; wr_correlation_id := "c";
     wr_requested_by := "hub"; wr_metadata := [] |} in
  request_errors r = [] ∧ is_ok (@adapt no_routing checksum_digest r "t" "p" None) = false.
Proof. split; vm_compute; reflexivity. Qed.
