(* ===== verification/Invocation.v ===== *)
(** * Provider invocation contexts (ananta_contracts/provider_invocation.py)

    What a provider call carries from the hub to a worker: whose run it is, the
    binding it was given, its budgets and limits.  The normal form of an
    endpoint is a parameter, as in the bindings. *)
From S2P Require Import Prelude PyStr PyVal Digest Serialization Plan ProviderBinding.

Definition PROVIDER_INVOCATION_CONTEXT_SCHEMA : string := "ananta.provider-invocation-context.v1".
Definition PROVIDER_BUDGET_DECISION_SCHEMA : string := "ananta.provider-budget-decision.v1".

(** [_PROVIDER_CALL_ID]: [[A-Za-z0-9][A-Za-z0-9_.:/@+-]{0,159}]. *)
Definition _PROVIDER_CALL_ID (s : string) : bool :=
  match s with
  | EmptyString => false
  | String c s' => is_alnum_ascii c && str_forall provider_char s' && (str_len s' <=? 159)
  end.

Record ProviderInvocationContext := {
  pc_tenant_id : string;
  pc_run_id : string;
  pc_policy_version : string;
  pc_prompt_version : string;
  pc_workflow_id : string;
  pc_correlation_id : string;
  pc_external_egress_allowed : bool;
  pc_secret_refs : list string;
  pc_max_attempts : Z;
  pc_max_total_tokens : Z;
  pc_max_cost_micros : Z;
  pc_deadline_epoch_seconds : option float;
  pc_max_completion_tokens_per_call : Z;
  pc_estimated_cost_micros_per_1000_tokens : Z;
  pc_cache_enabled : bool;
  pc_require_hub_provider_budget : bool;
  pc_require_hub_provider_attempt_budget : bool;
  pc_require_hub_retry_budget : bool;
  pc_combined_retry_maximum : Z;
  pc_retry_attempt : Z;
  pc_retry_id : string;
  pc_step_id : string;
  pc_plan_hash : string;
  pc_authorization_envelope : dict;
  pc_attempt_id : string;
  pc_fencing_token : Z;
  pc_provider_profile_id : string;
  pc_selected_provider_id : string;
  pc_selected_model_id : string;
  pc_provider_binding_id : string;
  pc_provider_endpoint_identity : string;
  pc_provider_transport_mode : string;
  pc_provider_decision_reason : string;
  pc_provider_call_id : string;
  pc_schema : string;
}.

Record ProviderBudgetDecision := {
  bd_allowed : bool;
  bd_reason_code : string;
  bd_attempts : Z;
  bd_reserved_tokens : Z;
  bd_reserved_cost_micros : Z;
  bd_schema : string;
}.

(** The policy of calls that are not bound to a workflow. *)
Definition legacy_compatible : ProviderInvocationContext :=
  {| pc_tenant_id := "legacy-system"; pc_run_id := "legacy-unbound";
     pc_policy_version := "legacy-provider-policy-v1"; pc_prompt_version := "legacy-prompt-v1";
     pc_workflow_id := ""; pc_correlation_id := ""; pc_external_egress_allowed := true;
     pc_secret_refs := []; pc_max_attempts := 64; pc_max_total_tokens := 0; pc_max_cost_micros := 0;
     pc_deadline_epoch_seconds := None; pc_max_completion_tokens_per_call := 0;
     pc_estimated_cost_micros_per_1000_tokens := 0; pc_cache_enabled := false;
     pc_require_hub_provider_budget := false; pc_require_hub_provider_attempt_budget := false;
     pc_require_hub_retry_budget := false; pc_combined_retry_maximum := 0; pc_retry_attempt := 0;
     pc_retry_id := ""; pc_step_id := ""; pc_plan_hash := ""; pc_authorization_envelope := [];
     pc_attempt_id := ""; pc_fencing_token := 0; pc_provider_profile_id := "";
     pc_selected_provider_id := ""; pc_selected_model_id := ""; pc_provider_binding_id := "";
     pc_provider_endpoint_identity := ""; pc_provider_transport_mode := "";
     pc_provider_decision_reason := ""; pc_provider_call_id := "";
     pc_schema := PROVIDER_INVOCATION_CONTEXT_SCHEMA |}.

(** [from_value] of a mapping. *)
Definition context_of_mapping (raw : dict) : result ProviderInvocationContext :=
  let flag k := truthy (get_default k (PBool false) raw) in
  let number k d := py_int (get_default k (PInt d) raw) in
  secret_refs ← iterate (get_default "secret_refs" (PTuple []) raw);
  max_attempts ← number "max_attempts" 1;
  max_total_tokens ← number "max_total_tokens" 0;
  max_cost_micros ← number "max_cost_micros" 0;
  deadline ← optional py_float (dget "deadline_epoch_seconds" raw);
  max_completion ← number "max_completion_tokens_per_call" 0;
  estimated_cost ← number "estimated_cost_micros_per_1000_tokens" 0;
  combined_retry_maximum ← number "combined_retry_maximum" 0;
  retry_attempt ← number "retry_attempt" 0;
  envelope ← py_dict (por (dget "authorization_envelope" raw) (PDict []));
  fencing_token ← py_int (por (dget "fencing_token" raw) (PInt 0));
  Ok {| pc_tenant_id := stripped "tenant_id" raw; pc_run_id := stripped "run_id" raw;
    pc_policy_version := stripped "policy_version" raw;
    pc_prompt_version := stripped "prompt_version" raw;
    pc_workflow_id := stripped "workflow_id" raw; pc_correlation_id := stripped "correlation_id" raw;
    pc_external_egress_allowed := flag "external_egress_allowed";
    pc_secret_refs := map py_str secret_refs; pc_max_attempts := max_attempts;
    pc_max_total_tokens := max_total_tokens; pc_max_cost_micros := max_cost_micros;
    pc_deadline_epoch_seconds := deadline; pc_max_completion_tokens_per_call := max_completion;
    pc_estimated_cost_micros_per_1000_tokens := estimated_cost;
    pc_cache_enabled := flag "cache_enabled";
    pc_require_hub_provider_budget := flag "require_hub_provider_budget";
    pc_require_hub_provider_attempt_budget := flag "require_hub_provider_attempt_budget";
    pc_require_hub_retry_budget := flag "require_hub_retry_budget";
    pc_combined_retry_maximum := combined_retry_maximum; pc_retry_attempt := retry_attempt;
    pc_retry_id := stripped "retry_id" raw; pc_step_id := stripped "step_id" raw;
    pc_plan_hash := stripped "plan_hash" raw; pc_authorization_envelope := envelope;
    pc_attempt_id := stripped "attempt_id" raw; pc_fencing_token := fencing_token;
    pc_provider_profile_id := stripped "provider_profile_id" raw;
    pc_selected_provider_id := stripped "selected_provider_id" raw;
    pc_selected_model_id := stripped "selected_model_id" raw;
    pc_provider_binding_id := stripped "provider_binding_id" raw;
    pc_provider_endpoint_identity := stripped "provider_endpoint_identity" raw;
    pc_provider_transport_mode := stripped "provider_transport_mode" raw;
    pc_provider_decision_reason := stripped "provider_decision_reason" raw;
    pc_provider_call_id := stripped "provider_call_id" raw;
    pc_schema := strip (str_or_default (dget "schema" raw) PROVIDER_INVOCATION_CONTEXT_SCHEMA) |}.

(** [ProviderInvocationContext.from_value(value)] of a value that is not a
    context already. *)
Definition context_from_value (value : pyval) : result ProviderInvocationContext :=
  match value with
  | PNone => Ok legacy_compatible
  | PDict raw => context_of_mapping raw
  | _ => Err (ProviderInvocationBlocked "provider_context_invalid")
  end.

Section with_endpoints.
Context (normalize_endpoint : string → string → option string).

Definition check_context_endpoint (c : ProviderInvocationContext) : result unit :=
  if str_true (pc_provider_endpoint_identity c) then
  raise_when (negb (str_true (pc_selected_provider_id c)))
  (ProviderInvocationBlocked "provider_endpoint_binding_incomplete") ;;
  match normalize_endpoint (pc_selected_provider_id c) (pc_provider_endpoint_identity c) with
  | None => Err (ProviderInvocationBlocked "provider_endpoint_identity_invalid")
  | Some normalized =>
      raise_when (bool_decide (normalized ≠ pc_provider_endpoint_identity c))
      (ProviderInvocationBlocked "provider_endpoint_identity_not_canonical")
  end
  else Ok tt.

(** The call is bound to a provider, a model and a binding by the hub. *)
Definition selection_bound (c : ProviderInvocationContext) : bool :=
  str_true (pc_selected_provider_id c) && str_true (pc_selected_model_id c)
  && str_true (pc_provider_binding_id c)
  && bool_decide (pc_provider_transport_mode c = "hub_bound")
  && str_true (pc_provider_decision_reason c).

(** The call is bound to a step of a run. *)
Definition hub_bound (c : ProviderInvocationContext) : bool :=
  str_true (pc_workflow_id c) && str_true (pc_step_id c) && str_true (pc_plan_hash c)
  && truthy (PDict (pc_authorization_envelope c)) && str_true (pc_attempt_id c)
  && negb (pc_fencing_token c <? 1).

(** [ProviderInvocationContext.assert_valid()] *)
Definition context_assert_valid (c : ProviderInvocationContext) : result unit :=
  let blocked b reason := raise_when b (ProviderInvocationBlocked reason) in
  blocked (bool_decide (pc_schema c ≠ PROVIDER_INVOCATION_CONTEXT_SCHEMA))
  "provider_context_schema_unsupported" ;;
  blocked (negb (str_true (pc_tenant_id c)) || negb (str_true (pc_run_id c)))
  "provider_context_binding_missing" ;;
  blocked (negb (str_true (pc_policy_version c)) || negb (str_true (pc_prompt_version c)))
  "provider_context_version_missing" ;;
  blocked (pc_max_attempts c <? 1) "provider_retry_budget_invalid" ;;
  blocked (Z.min (Z.min (pc_max_total_tokens c) (pc_max_cost_micros c))
    (Z.min (pc_max_completion_tokens_per_call c)
      (pc_estimated_cost_micros_per_1000_tokens c)) <? 0)
  "provider_budget_invalid" ;;
  blocked ((pc_retry_attempt c <? 0) || (pc_combined_retry_maximum c <? 0))
  "provider_combined_retry_budget_invalid" ;;
  blocked (pc_require_hub_retry_budget c && (pc_combined_retry_maximum c <? 1))
  "provider_combined_retry_budget_required" ;;
  blocked ((0 <? pc_retry_attempt c) && pc_require_hub_retry_budget c
    && negb (str_true (pc_retry_id c)))
  "provider_retry_id_required" ;;
  blocked (negb (Bool.eqb (str_true (pc_selected_provider_id c)) (str_true (pc_selected_model_id c))))
  "provider_selection_binding_incomplete" ;;
  check_context_endpoint c ;;
  blocked (bool_decide (pc_provider_transport_mode c ∉ [""; "legacy"; "none"; "hub_bound"]))
  "provider_transport_mode_invalid" ;;
  blocked (str_true (pc_provider_call_id c) && negb (_PROVIDER_CALL_ID (pc_provider_call_id c)))
  "provider_call_id_invalid" ;;
  blocked (pc_require_hub_provider_budget c && negb (selection_bound c))
  "provider_selection_binding_required" ;;
  blocked (pc_require_hub_provider_attempt_budget c
    && (negb (pc_require_hub_provider_budget c) || negb (str_true (pc_provider_profile_id c))))
  "provider_attempt_budget_binding_required" ;;
  blocked (bool_decide (pc_provider_transport_mode c = "none")
    && (str_true (pc_selected_provider_id c) || str_true (pc_selected_model_id c)
    || pc_require_hub_provider_budget c))
  "provider_transport_binding_mismatch" ;;
  blocked ((pc_require_hub_retry_budget c || pc_require_hub_provider_budget c)
    && negb (hub_bound c))
  "provider_hub_binding_required".

(** [for_attempt(attempt, retry_id=...)] *)
Definition for_attempt (attempt : Z) (retry_id : string) (c : ProviderInvocationContext)
  : ProviderInvocationContext :=
  {| pc_tenant_id := pc_tenant_id c; pc_run_id := pc_run_id c;
    pc_policy_version := pc_policy_version c; pc_prompt_version := pc_prompt_version c;
    pc_workflow_id := pc_workflow_id c; pc_correlation_id := pc_correlation_id c;
    pc_external_egress_allowed := pc_external_egress_allowed c;
    pc_secret_refs := pc_secret_refs c; pc_max_attempts := pc_max_attempts c;
    pc_max_total_tokens := pc_max_total_tokens c; pc_max_cost_micros := pc_max_cost_micros c;
    pc_deadline_epoch_seconds := pc_deadline_epoch_seconds c;
    pc_max_completion_tokens_per_call := pc_max_completion_tokens_per_call c;
    pc_estimated_cost_micros_per_1000_tokens := pc_estimated_cost_micros_per_1000_tokens c;
    pc_cache_enabled := pc_cache_enabled c;
    pc_require_hub_provider_budget := pc_require_hub_provider_budget c;
    pc_require_hub_provider_attempt_budget := pc_require_hub_provider_attempt_budget c;
    pc_require_hub_retry_budget := pc_require_hub_retry_budget c;
    pc_combined_retry_maximum := pc_combined_retry_maximum c;
    pc_retry_attempt := Z.max 0 attempt; pc_retry_id := strip retry_id;
    pc_step_id := pc_step_id c; pc_plan_hash := pc_plan_hash c;
    pc_authorization_envelope := pc_authorization_envelope c; pc_attempt_id := pc_attempt_id c;
    pc_fencing_token := pc_fencing_token c; pc_provider_profile_id := pc_provider_profile_id c;
    pc_selected_provider_id := pc_selected_provider_id c;
    pc_selected_model_id := pc_selected_model_id c;
    pc_provider_binding_id := pc_provider_binding_id c;
    pc_provider_endpoint_identity := pc_provider_endpoint_identity c;
    pc_provider_transport_mode := pc_provider_transport_mode c;
    pc_provider_decision_reason := pc_provider_decision_reason c;
    pc_provider_call_id := pc_provider_call_id c; pc_schema := pc_schema c |}.

(** [replace(self, provider_call_id=...)] *)
Definition with_call_id (call_id : string) (c : ProviderInvocationContext)
  : ProviderInvocationContext :=
  {| pc_tenant_id := pc_tenant_id c; pc_run_id := pc_run_id c;
    pc_policy_version := pc_policy_version c; pc_prompt_version := pc_prompt_version c;
    pc_workflow_id := pc_workflow_id c; pc_correlation_id := pc_correlation_id c;
    pc_external_egress_allowed := pc_external_egress_allowed c;
    pc_secret_refs := pc_secret_refs c; pc_max_attempts := pc_max_attempts c;
    pc_max_total_tokens := pc_max_total_tokens c; pc_max_cost_micros := pc_max_cost_micros c;
    pc_deadline_epoch_seconds := pc_deadline_epoch_seconds c;
    pc_max_completion_tokens_per_call := pc_max_completion_tokens_per_call c;
    pc_estimated_cost_micros_per_1000_tokens := pc_estimated_cost_micros_per_1000_tokens c;
    pc_cache_enabled := pc_cache_enabled c;
    pc_require_hub_provider_budget := pc_require_hub_provider_budget c;
    pc_require_hub_provider_attempt_budget := pc_require_hub_provider_attempt_budget c;
    pc_require_hub_retry_budget := pc_require_hub_retry_budget c;
    pc_combined_retry_maximum := pc_combined_retry_maximum c;
    pc_retry_attempt := pc_retry_attempt c; pc_retry_id := pc_retry_id c;
    pc_step_id := pc_step_id c; pc_plan_hash := pc_plan_hash c;
    pc_authorization_envelope := pc_authorization_envelope c; pc_attempt_id := pc_attempt_id c;
    pc_fencing_token := pc_fencing_token c; pc_provider_profile_id := pc_provider_profile_id c;
    pc_selected_provider_id := pc_selected_provider_id c;
    pc_selected_model_id := pc_selected_model_id c;
    pc_provider_binding_id := pc_provider_binding_id c;
    pc_provider_endpoint_identity := pc_provider_endpoint_identity c;
    pc_provider_transport_mode := pc_provider_transport_mode c;
    pc_provider_decision_reason := pc_provider_decision_reason c;
    pc_provider_call_id := call_id; pc_schema := pc_schema c |}.

(** [for_provider_call(provider_call_id)] *)
Definition for_provider_call (provider_call_id : string) (c : ProviderInvocationContext)
  : result ProviderInvocationContext :=
  let value := with_call_id (strip provider_call_id) c in
  context_assert_valid value ;;
  Ok value.
End with_endpoints.
