(* ===== verification/NativeGraph.v ===== *)
(** * Native node commands (workflow_runtime/native_graph_contracts.py)

    The wire contracts of one node of a plan, handed by the hub to the native
    graph runtime: the command, with the authorization envelope, the provider
    bindings and the invocation contexts it carries, and the result that comes
    back. *)
From S2P Require Import Prelude PyStr PyVal Digest Serialization SchemaEvolution Plan ProviderBinding Envelope Invocation.

Definition NATIVE_NODE_COMMAND_SCHEMA : string := "ananta.native_node_command.v1".
Definition NATIVE_NODE_RESULT_SCHEMA : string := "ananta.native_node_result.v1".

Definition reason_char (c : ascii) : bool :=
  is_alnum_ascii c || bool_decide (c ∈ ["_"; "."; ":"; ","; "-"]%char).

Definition is_letter (c : ascii) : bool := is_upper_ascii c || is_lower_ascii c.

(** [_REASON_CODE]: [[A-Za-z][A-Za-z0-9_.:,-]{0,159}]. *)
Definition _REASON_CODE (s : string) : bool :=
  match s with
  | EmptyString => false
  | String c s' => is_letter c && str_forall reason_char s' && (str_len s' <=? 159)
  end.

(** ** Data *)

Record NativeNodeCommand := {
  nn_command_id : string;
  nn_control_task_id : string;
  nn_tenant_id : string;
  nn_workflow_id : string;
  nn_run_id : string;
  nn_plan_hash : string;
  nn_policy_version : string;
  nn_node : ExecutionNode;
  nn_authorization : RuntimeAuthorizationEnvelope;
  nn_attempt_id : string;
  nn_fencing_token : Z;
  nn_input_data : dict;
  nn_artifact_refs : list (string * string);
  nn_operation_id : string;
  nn_side_effect_revision : Z;
  nn_provider_binding : option ProviderExecutionBinding;
  nn_primary_profile_id : string;
  nn_profile_bindings : list ProviderProfileExecutionBinding;
  nn_attempt_plan : list ProviderProfileAttemptPlanEntry;
  nn_maximum_attempts : Z;
  nn_provider_context : dict;
  nn_contexts : list (string * dict);
  nn_schema : string;
}.

Record NativeNodeResult := {
  nr_result_id : string;
  nr_command_id : string;
  nr_hub_task_id : string;
  nr_tenant_id : string;
  nr_workflow_id : string;
  nr_run_id : string;
  nr_node_id : string;
  nr_attempt_id : string;
  nr_fencing_token : Z;
  nr_status : string;
  nr_output_data : dict;
  nr_artifact_refs : list (string * string);
  nr_budget_usage : dict;
  nr_reason_code : string;
  nr_side_effect_status : string;
  nr_schema : string;
}.

Record HubTaskReceipt := {
  tr_hub_task_id : string;
  tr_command_id : string;
  tr_accepted : bool;
  tr_reason_code : string;
}.

Definition native_node_requires_provider (node : ExecutionNode) : bool :=
  let metadata := node_metadata node in
  let mode := lower (strip (str_or_default (dget "provider_transport" metadata) "")) in
  bool_decide (mode = "required")
  || match dget "provider_required" metadata with PBool true => true | _ => false end
  || existsb (λ c, bool_decide (c ∈ ["llm"; "model_inference"; "text_generation"]))
       (required_capabilities node).

(** ** The provider part of a command *)

(** [except ProviderInvocationBlocked as exc: raise ValueError(exc.reason_code)] *)
Definition as_value_error {A} (r : result A) : result A :=
  match r with
  | Err (ProviderInvocationBlocked c) => Err (ValueError c)
  | r => r
  end.

(** [a == b] on optional floats; [same] as in [py_eqb]. *)
Definition deadline_eqb (same : bool) (a b : option float) : bool :=
  match a, b with
  | None, None => true
  | Some x, Some y => py_eqb same (PFloat x) (PFloat y)
  | _, _ => false
  end.

(** The comparisons of [_assert_same_provider_scope]. *)
Definition scope_eqb (same : bool) (p c : ProviderInvocationContext) : bool :=
  bool_decide (pc_tenant_id p = pc_tenant_id c)
  && bool_decide (pc_run_id p = pc_run_id c)
  && bool_decide (pc_workflow_id p = pc_workflow_id c)
  && bool_decide (pc_step_id p = pc_step_id c)
  && bool_decide (pc_plan_hash p = pc_plan_hash c)
  && bool_decide (pc_attempt_id p = pc_attempt_id c)
  && bool_decide (pc_fencing_token p = pc_fencing_token c)
  && bool_decide (pc_policy_version p = pc_policy_version c)
  && bool_decide (pc_prompt_version p = pc_prompt_version c)
  && bool_decide (pc_correlation_id p = pc_correlation_id c)
  && bool_decide (pc_external_egress_allowed p = pc_external_egress_allowed c)
  && bool_decide (pc_secret_refs p = pc_secret_refs c)
  && bool_decide (pc_max_attempts p = pc_max_attempts c)
  && bool_decide (pc_max_total_tokens p = pc_max_total_tokens c)
  && bool_decide (pc_max_cost_micros p = pc_max_cost_micros c)
  && deadline_eqb false (pc_deadline_epoch_seconds p) (pc_deadline_epoch_seconds c)
  && bool_decide (pc_max_completion_tokens_per_call p = pc_max_completion_tokens_per_call c)
  && bool_decide (pc_estimated_cost_micros_per_1000_tokens p = pc_estimated_cost_micros_per_1000_tokens c)
  && bool_decide (pc_cache_enabled p = pc_cache_enabled c)
  && bool_decide (pc_require_hub_retry_budget p = pc_require_hub_retry_budget c)
  && bool_decide (pc_require_hub_provider_attempt_budget p = pc_require_hub_provider_attempt_budget c)
  && bool_decide (pc_combined_retry_maximum p = pc_combined_retry_maximum c)
  && bool_decide (pc_retry_attempt p = pc_retry_attempt c)
  && bool_decide (pc_retry_id p = pc_retry_id c)
  && py_eqb same (PDict (pc_authorization_envelope p)) (PDict (pc_authorization_envelope c)).

(** [p == c] of two contexts, every field. *)
Definition context_eqb (same : bool) (p c : ProviderInvocationContext) : bool :=
  bool_decide (pc_tenant_id p = pc_tenant_id c)
  && bool_decide (pc_run_id p = pc_run_id c)
  && bool_decide (pc_policy_version p = pc_policy_version c)
  && bool_decide (pc_prompt_version p = pc_prompt_version c)
  && bool_decide (pc_workflow_id p = pc_workflow_id c)
  && bool_decide (pc_correlation_id p = pc_correlation_id c)
  && bool_decide (pc_external_egress_allowed p = pc_external_egress_allowed c)
  && bool_decide (pc_secret_refs p = pc_secret_refs c)
  && bool_decide (pc_max_attempts p = pc_max_attempts c)
  && bool_decide (pc_max_total_tokens p = pc_max_total_tokens c)
  && bool_decide (pc_max_cost_micros p = pc_max_cost_micros c)
  && deadline_eqb same (pc_deadline_epoch_seconds p) (pc_deadline_epoch_seconds c)
  && bool_decide (pc_max_completion_tokens_per_call p = pc_max_completion_tokens_per_call c)
  && bool_decide (pc_estimated_cost_micros_per_1000_tokens p = pc_estimated_cost_micros_per_1000_tokens c)
  && bool_decide (pc_cache_enabled p = pc_cache_enabled c)
  && bool_decide (pc_require_hub_provider_budget p = pc_require_hub_provider_budget c)
  && bool_decide (pc_require_hub_provider_attempt_budget p = pc_require_hub_provider_attempt_budget c)
  && bool_decide (pc_require_hub_retry_budget p = pc_require_hub_retry_budget c)
  && bool_decide (pc_combined_retry_maximum p = pc_combined_retry_maximum c)
  && bool_decide (pc_retry_attempt p = pc_retry_attempt c)
  && bool_decide (pc_retry_id p = pc_retry_id c)
  && bool_decide (pc_step_id p = pc_step_id c)
  && bool_decide (pc_plan_hash p = pc_plan_hash c)
  && py_eqb same (PDict (pc_authorization_envelope p)) (PDict (pc_authorization_envelope c))
  && bool_decide (pc_attempt_id p = pc_attempt_id c)
  && bool_decide (pc_fencing_token p = pc_fencing_token c)
  && bool_decide (pc_provider_profile_id p = pc_provider_profile_id c)
  && bool_decide (pc_selected_provider_id p = pc_selected_provider_id c)
  && bool_decide (pc_selected_model_id p = pc_selected_model_id c)
  && bool_decide (pc_provider_binding_id p = pc_provider_binding_id c)
  && bool_decide (pc_provider_endpoint_identity p = pc_provider_endpoint_identity c)
  && bool_decide (pc_provider_transport_mode p = pc_provider_transport_mode c)
  && bool_decide (pc_provider_decision_reason p = pc_provider_decision_reason c)
  && bool_decide (pc_provider_call_id p = pc_provider_call_id c)
  && bool_decide (pc_schema p = pc_schema c).

Definition _assert_same_provider_scope (same : bool) (p c : ProviderInvocationContext) : result unit :=
  raise_when (negb (scope_eqb same p c))
    (ValueError "native_provider_profile_context_scope_mismatch").

Definition _profile_binding_items (raw : pyval) : result (list pyval) :=
  match raw with
  | PNone => Ok []
  | PList l | PTuple l => Ok l
  | _ => Err (ValueError "provider_profile_bindings_invalid")
  end.

(** The mappings of [_profile_context_items], by their keys. *)
Definition _profile_context_items (raw : pyval) : result (list (string * dict)) :=
  let invalid := ValueError "provider_profile_contexts_invalid" in
  match raw with
  | PNone => Ok []
  | PDict d =>
      raise_when (8 <? Z.of_nat (length d)) invalid ;;
      map_result (λ kv, match kv.2 with PDict item => Ok (kv.1, item) | _ => Err invalid end) d
  | _ => Err invalid
  end.

Section native.
Context `{ModelRouting} `{Digest} (normalize_endpoint : string → string → option string).
(** Whether equal positions of two compared values hold the same NaN object. *)
Context (same : bool).

(** The dict of bindings by profile. *)
Fixpoint collect_bindings (bindings : list (string * ProviderExecutionBinding))
  (items : list ProviderProfileExecutionBinding)
  : result (list (string * ProviderExecutionBinding)) :=
  match items with
  | [] => Ok bindings
  | item :: items =>
      profile_binding_validate normalize_endpoint item ;;
      raise_when (bool_decide (pp_profile_id item ∈ bindings.*1))
      (ValueError "provider_profile_binding_duplicate") ;;
      collect_bindings (bindings ++ [(pp_profile_id item, pp_binding item)]) items
  end.

(** An entry of the attempt plan names the binding of its profile. *)
Definition check_plan_entry (bindings : list (string * ProviderExecutionBinding))
  (item : ProviderProfileAttemptPlanEntry) : result unit :=
  entry_validate normalize_endpoint item ;;
  raise_when
  (match alist_get (pe_profile_id item) bindings with
    | None => true
    | Some b =>
        bool_decide (pe_binding_id item ≠ binding_id b)
    || bool_decide (pe_provider_id item ≠ pb_provider_id b)
    || bool_decide (pe_model_id item ≠ pb_model_id b)
    || bool_decide (pe_endpoint_identity item ≠ pb_endpoint_identity b)
    end) (ValueError "provider_attempt_plan_binding_mismatch").

Definition load_context (raw : dict) : result ProviderInvocationContext :=
  as_value_error (
    context ← context_from_value (PDict raw);
    context_assert_valid normalize_endpoint context ;;
    Ok context).

(** The primary context carries the command's own scope. *)
Definition check_primary (c : NativeNodeCommand) (primary : ProviderInvocationContext)
  : result unit :=
  let mismatch := ValueError "native_provider_context_scope_mismatch" in
  raise_when
  (bool_decide (pc_tenant_id primary ≠ nn_tenant_id c)
  || bool_decide (pc_workflow_id primary ≠ nn_workflow_id c)
  || bool_decide (pc_run_id primary ≠ nn_run_id c)
  || bool_decide (pc_step_id primary ≠ node_id (nn_node c))
  || bool_decide (pc_plan_hash primary ≠ nn_plan_hash c)
  || bool_decide (pc_policy_version primary ≠ nn_policy_version c)
  || bool_decide (pc_attempt_id primary ≠ nn_attempt_id c)
  || negb (pc_fencing_token primary =? nn_fencing_token c)) mismatch ;;
  envelope ← envelope_to_dict normalize_endpoint (nn_authorization c);
  raise_when
  (negb (py_eqb same (PDict (pc_authorization_envelope primary)) (PDict envelope))
  || negb (pc_retry_attempt primary =? 0) || str_true (pc_retry_id primary)
  || negb (pc_max_attempts primary =? nn_maximum_attempts c)
  || bool_decide (pc_provider_profile_id primary ≠ nn_primary_profile_id c)
  || negb (pc_require_hub_provider_attempt_budget primary)
  || pc_require_hub_retry_budget primary
  || negb (pc_combined_retry_maximum primary =? 0)) mismatch.

(** The context of one profile calls the profile's binding and nothing else. *)
Definition check_profile_context (primary : ProviderInvocationContext)
  (profile_id : string) (b : ProviderExecutionBinding) (raw : dict)
  : result ProviderInvocationContext :=
  context ← load_context raw;
  raise_when
  (bool_decide (pc_selected_provider_id context ≠ pb_provider_id b)
  || bool_decide (pc_selected_model_id context ≠ pb_model_id b)
  || bool_decide (pc_provider_binding_id context ≠ binding_id b)
  || bool_decide (pc_provider_endpoint_identity context ≠ pb_endpoint_identity b)
  || bool_decide (pc_provider_profile_id context ≠ profile_id)
  || negb (pc_require_hub_provider_budget context)
  || bool_decide (pc_provider_transport_mode context ≠ "hub_bound"))
  (ValueError "native_provider_profile_binding_mismatch") ;;
  _assert_same_provider_scope same primary context ;;
  Ok context.

(** [_assert_provider_profiles_valid] *)
Definition assert_provider_profiles_valid (c : NativeNodeCommand) : result unit :=
  let items := nn_profile_bindings c in
  raise_when (8 <? Z.of_nat (length items)) (ValueError "provider_profile_binding_limit_exceeded") ;;
  if bool_decide (items = []) then
  raise_when (str_true (nn_primary_profile_id c) || bool_decide (nn_attempt_plan c ≠ [])
  || truthy (PDict (nn_provider_context c)) || bool_decide (nn_contexts c ≠ [])
  || negb (nn_maximum_attempts c =? 0))
  (ValueError "native_provider_profile_transport_unbound")
  else
  raise_when (bool_decide (nn_provider_binding c = None) || negb (str_true (nn_primary_profile_id c)))
  (ValueError "provider_primary_profile_binding_missing") ;;
  raise_when
  (negb (Nat.eqb (length (nn_attempt_plan c)) (length items))
  || negb (sum_by pe_maximum_attempts (nn_attempt_plan c) =? nn_maximum_attempts c)
  || negb ((Z.of_nat (length items) <=? nn_maximum_attempts c)
      && (nn_maximum_attempts c <=? 33)))
  (ValueError "provider_profile_retry_budget_invalid") ;;
  bindings ← collect_bindings [] items;
  raise_when (bool_decide (alist_get (nn_primary_profile_id c) bindings ≠ nn_provider_binding c))
  (ValueError "provider_primary_profile_binding_mismatch") ;;
  raise_when (bool_decide (map pe_profile_id (nn_attempt_plan c) ≠ map pp_profile_id items))
  (ValueError "provider_attempt_plan_order_mismatch") ;;
  for_each (check_plan_entry bindings) (nn_attempt_plan c) ;;
  authorizations ← map_result (λ item, from_binding normalize_endpoint (pp_binding item)) items;
  raise_when
  (bool_decide (en_bindings (nn_authorization c) ≠ sort_by binding_leb authorizations)
  || bool_decide (en_attempt_plan (nn_authorization c) ≠ nn_attempt_plan c))
  (ValueError "native_provider_authorization_mismatch") ;;
  raise_when (bool_decide (sorted_set (nn_contexts c).*1 ≠ sorted_set bindings.*1))
  (ValueError "native_provider_profile_contexts_mismatch") ;;
  primary ← load_context (nn_provider_context c);
  check_primary c primary ;;
  parsed ← map_result (λ kb,
    context ← check_profile_context primary kb.1 kb.2 (default [] (alist_get kb.1 (nn_contexts c)));
    Ok (kb.1, context)) bindings;
  raise_when (negb (match alist_get (nn_primary_profile_id c) parsed with
      | Some context => context_eqb same context primary
      | None => false
      end))
  (ValueError "native_primary_provider_context_mismatch").

(** ** The command *)

Definition command_required (c : NativeNodeCommand) : list string :=
  [nn_command_id c; nn_control_task_id c; nn_tenant_id c; nn_workflow_id c; nn_run_id c;
    nn_plan_hash c; nn_policy_version c; node_id (nn_node c); nn_attempt_id c].

(** [NativeNodeCommand.assert_valid()] *)
Definition node_command_assert_valid (c : NativeNodeCommand) : result unit :=
  raise_when (existsb (λ v, negb (str_true v)) (command_required c))
  (ValueError "native_node_command_binding_required") ;;
  raise_when (bool_decide (nn_schema c ≠ NATIVE_NODE_COMMAND_SCHEMA))
  (ValueError "native_node_command_schema_unsupported") ;;
  raise_when (nn_fencing_token c <? 1) (ValueError "native_node_command_fencing_invalid") ;;
  raise_when (contains_sensitive_keys (PDict (nn_input_data c)))
  (ValueError "native_node_command_embedded_secret_denied") ;;
  raise_when (native_node_requires_provider (nn_node c) && bool_decide (nn_provider_binding c = None))
  (ValueError "native_node_provider_binding_required") ;;
  match nn_provider_binding c with
  | Some b => binding_validate normalize_endpoint b
  | None => Ok tt
  end ;;
  assert_provider_profiles_valid c ;;
  if bool_decide (side_effect_class (nn_node c) ∈ ["none"; "read"]) then
  raise_when (str_true (nn_operation_id c) || negb (nn_side_effect_revision c =? 0))
  (ValueError "native_node_command_unexpected_side_effect")
  else
  raise_when (negb (str_true (nn_operation_id c)) || (nn_side_effect_revision c <? 2))
  (ValueError "native_node_command_side_effect_authorization_required").

(** [{str(key): str(item) for key, item in dict(value or {}).items()}] *)
Definition text_items (value : pyval) : result (list (string * string)) :=
  d ← py_dict (por value (PDict []));
  Ok (map (λ kv, (kv.1, py_str kv.2)) d).

(** [NativeNodeCommand.from_mapping(raw)] *)
Definition node_command_from_mapping (raw : dict) : result NativeNodeCommand :=
  let text k := str_or_default (dget k raw) "" in
  let number k := py_int (por (dget k raw) (PInt 0)) in
  node ← py_dict (por (dget "node" raw) (PDict []));
  node ← node_from_mapping node;
  authorization ← py_dict (por (dget "authorization" raw) (PDict []));
  authorization ← envelope_from_mapping normalize_endpoint authorization;
  fencing_token ← number "fencing_token";
  input_data ← py_dict (por (dget "input_data" raw) (PDict []));
  artifact_refs ← text_items (dget "artifact_refs" raw);
  revision ← number "side_effect_revision";
  binding ← optional (binding_from_mapping normalize_endpoint) (dget "provider_binding" raw);
  items ← _profile_binding_items (dget "provider_profile_bindings" raw);
  profile_bindings ← map_result (profile_binding_from_mapping normalize_endpoint) items;
  items ← _profile_binding_items (dget "provider_attempt_plan" raw);
  attempt_plan ← map_result (entry_from_mapping normalize_endpoint) items;
  maximum_attempts ← number "provider_maximum_attempts";
  context ← py_dict (por (dget "provider_context" raw) (PDict []));
  contexts ← _profile_context_items (dget "provider_contexts_by_profile_id" raw);
  let value := {|
    nn_command_id := text "command_id"; nn_control_task_id := text "control_task_id";
    nn_tenant_id := text "tenant_id"; nn_workflow_id := text "workflow_id";
    nn_run_id := text "run_id"; nn_plan_hash := text "plan_hash";
    nn_policy_version := text "policy_version"; nn_node := node; nn_authorization := authorization;
    nn_attempt_id := text "attempt_id"; nn_fencing_token := fencing_token;
    nn_input_data := input_data; nn_artifact_refs := artifact_refs;
    nn_operation_id := text "operation_id"; nn_side_effect_revision := revision;
    nn_provider_binding := binding; nn_primary_profile_id := stripped "primary_profile_id" raw;
    nn_profile_bindings := profile_bindings; nn_attempt_plan := attempt_plan;
    nn_maximum_attempts := maximum_attempts; nn_provider_context := context;
    nn_contexts := contexts;
    nn_schema := str_or_default (dget "schema" raw) NATIVE_NODE_COMMAND_SCHEMA |} in
  node_command_assert_valid value ;;
  Ok value.

(** [dict(sorted(items))], as [f] writes the values. *)
Definition sorted_entries {A} (f : A → pyval) (l : list (string * A)) : pyval :=
  PDict (map (λ kv, (kv.1, f kv.2)) (sort_by (λ a b, str_leb a.1 b.1) l)).

(** [NativeNodeCommand.to_dict(redacted=...)] *)
Definition node_command_to_dict (redacted : bool) (c : NativeNodeCommand) : result dict :=
  node_command_assert_valid c ;;
  node ← node_to_dict (nn_node c);
  authorization ← (if redacted then envelope_to_dict_redacted normalize_endpoint (nn_authorization c)
    else envelope_to_dict normalize_endpoint (nn_authorization c));
  input_data ← py_dict (redact_json (PDict (nn_input_data c)));
  binding ← match nn_provider_binding c with
  | Some b => d ← binding_to_dict normalize_endpoint b; Ok (PDict d)
  | None => Ok PNone
  end;
  profile_bindings ← map_result (profile_binding_to_dict normalize_endpoint) (nn_profile_bindings c);
  attempt_plan ← map_result (entry_to_dict normalize_endpoint) (nn_attempt_plan c);
  Ok [("schema", PStr (nn_schema c)); ("command_id", PStr (nn_command_id c));
    ("control_task_id", PStr (nn_control_task_id c)); ("tenant_id", PStr (nn_tenant_id c));
    ("workflow_id", PStr (nn_workflow_id c)); ("run_id", PStr (nn_run_id c));
    ("plan_hash", PStr (nn_plan_hash c)); ("policy_version", PStr (nn_policy_version c));
    ("node", node); ("authorization", PDict authorization);
    ("attempt_id", PStr (nn_attempt_id c)); ("fencing_token", PInt (nn_fencing_token c));
    ("input_data", PDict input_data);
    ("artifact_refs", sorted_entries PStr (nn_artifact_refs c));
    ("operation_id", PStr (nn_operation_id c));
    ("side_effect_revision", PInt (nn_side_effect_revision c)); ("provider_binding", binding);
    ("primary_profile_id", PStr (nn_primary_profile_id c));
    ("provider_profile_bindings", PList (map PDict profile_bindings));
    ("provider_attempt_plan", PList (map PDict attempt_plan));
    ("provider_maximum_attempts", PInt (nn_maximum_attempts c));
    ("provider_context", PDict (nn_provider_context c));
    ("provider_contexts_by_profile_id", sorted_entries PDict (nn_contexts c))].
End native.

(** ** The result *)

Definition result_required (r : NativeNodeResult) : list string :=
  [nr_result_id r; nr_command_id r; nr_hub_task_id r; nr_tenant_id r; nr_workflow_id r;
   nr_run_id r; nr_node_id r; nr_attempt_id r].

(** [NativeNodeResult.assert_valid()] *)
Definition node_result_assert_valid (r : NativeNodeResult) : result unit :=
  raise_when (existsb (λ v, negb (str_true v)) (result_required r))
    (ValueError "native_node_result_binding_required") ;;
  raise_when (bool_decide (nr_schema r ≠ NATIVE_NODE_RESULT_SCHEMA))
    (ValueError "native_node_result_schema_unsupported") ;;
  raise_when (bool_decide (nr_status r ∉ ["completed"; "failed"; "cancelled"]))
    (ValueError "native_node_result_status_invalid") ;;
  raise_when (nr_fencing_token r <? 1) (ValueError "native_node_result_fencing_invalid") ;;
  raise_when (contains_sensitive_keys (PDict (nr_output_data r)))
    (ValueError "native_node_result_embedded_secret_denied") ;;
  raise_when (str_true (nr_reason_code r) && negb (_REASON_CODE (nr_reason_code r)))
    (ValueError "native_node_result_reason_code_invalid") ;;
  raise_when (existsb (λ kv, negb (is_number kv.2) || negative kv.2) (nr_budget_usage r))
    (ValueError "native_node_result_budget_invalid").

(** [NativeNodeResult.from_mapping(raw)] *)
Definition node_result_from_mapping (raw : dict) : result NativeNodeResult :=
  let text k := str_or_default (dget k raw) "" in
  fencing_token ← py_int (por (dget "fencing_token" raw) (PInt 0));
  output_data ← py_dict (por (dget "output_data" raw) (PDict []));
  artifact_refs ← text_items (dget "artifact_refs" raw);
  budget_usage ← py_dict (por (dget "budget_usage" raw) (PDict []));
  let value := {|
    nr_result_id := text "result_id"; nr_command_id := text "command_id";
    nr_hub_task_id := text "hub_task_id"; nr_tenant_id := text "tenant_id";
    nr_workflow_id := text "workflow_id"; nr_run_id := text "run_id"; nr_node_id := text "node_id";
    nr_attempt_id := text "attempt_id"; nr_fencing_token := fencing_token;
    nr_status := text "status"; nr_output_data := output_data; nr_artifact_refs := artifact_refs;
    nr_budget_usage := budget_usage; nr_reason_code := text "reason_code";
    nr_side_effect_status := text "side_effect_status";
    nr_schema := str_or_default (dget "schema" raw) NATIVE_NODE_RESULT_SCHEMA |} in
  node_result_assert_valid value ;;
  Ok value.

(** [NativeNodeResult.to_dict()] *)
Definition node_result_to_dict (r : NativeNodeResult) : result dict :=
  node_result_assert_valid r ;;
  output_data ← py_dict (redact_json (PDict (nr_output_data r)));
  Ok [("schema", PStr (nr_schema r)); ("result_id", PStr (nr_result_id r));
      ("command_id", PStr (nr_command_id r)); ("hub_task_id", PStr (nr_hub_task_id r));
      ("tenant_id", PStr (nr_tenant_id r)); ("workflow_id", PStr (nr_workflow_id r));
      ("run_id", PStr (nr_run_id r)); ("node_id", PStr (nr_node_id r));
      ("attempt_id", PStr (nr_attempt_id r)); ("fencing_token", PInt (nr_fencing_token r));
      ("status", PStr (nr_status r)); ("output_data", PDict output_data);
      ("artifact_refs", sorted_entries PStr (nr_artifact_refs r));
      ("budget_usage", sorted_entries id (nr_budget_usage r));
      ("reason_code", PStr (nr_reason_code r));
      ("side_effect_status", PStr (nr_side_effect_status r))].
