(* ===== verification/NativeLaws.v ===== *)
(** * What a native node command confines a worker to

    A command that passes its validation grants nothing beyond the envelope it
    carries: every provider call it lets a worker make is bound to a provider
    the envelope allows and to the step the command is for. *)
From S2P Require Import Prelude PyStr PyVal Digest Serialization Plan PlanLaws ProviderBinding Envelope Invocation NativeGraph.

(** Turns the negated guards of a validation into facts. *)
Ltac guards :=
  repeat match goal with
  | H : _ || _ = false |- _ => apply orb_false_iff in H as [? H]
  | H : _ && _ = true |- _ => apply andb_true_iff in H as [? H]
  | H : negb _ = false |- _ => apply negb_false_iff in H
  | H : negb _ = true |- _ => apply negb_true_iff in H
  | H : bool_decide (_ ≠ _) = false |- _ => apply bool_decide_eq_false, dec_stable in H
  | H : bool_decide (_ = _) = true |- _ => apply bool_decide_eq_true in H
  | H : (_ =? _) = true |- _ => apply Z.eqb_eq in H
  | H : Nat.eqb _ _ = true |- _ => apply Nat.eqb_eq in H
  end.

Section laws.
Context `{ModelRouting} `{Digest} (normalize_endpoint : string → string → option string) (same : bool).

Notation loaded_context := (load_context normalize_endpoint).
Notation node_command_valid := (node_command_assert_valid normalize_endpoint same).

Definition profile_entry (p : ProviderProfileExecutionBinding) : string * ProviderExecutionBinding :=
  (pp_profile_id p, pp_binding p).

Lemma collect_bindings_Ok acc items bindings :
  collect_bindings normalize_endpoint acc items = Ok bindings →
  bindings = acc ++ map profile_entry items.
Proof.
  revert acc. induction items as [|item items IH]; intros acc Hc; cbn in Hc.
  - injection Hc as <-. by rewrite app_nil_r.
  - apply result_bind_Ok in Hc as ([] & _ & Hc). apply result_bind_Ok in Hc as ([] & _ & Hc).
    rewrite (IH _ Hc). by rewrite <- app_assoc.
Qed.

Lemma from_binding_Ok b a :
  from_binding normalize_endpoint b = Ok a →
  a = {| ba_binding_id := binding_id b; ba_provider_id := pb_provider_id b;
    ba_model_id := pb_model_id b; ba_endpoint_identity := pb_endpoint_identity b |}.
Proof.
  unfold from_binding. intros ([] & _ & Ha)%result_bind_Ok.
  apply result_bind_Ok in Ha as ([] & _ & Ha). by injection Ha as <-.
Qed.

(** What a context that shares the scope of the primary one is bound to. *)
Lemma scope_eqb_fields p c :
  scope_eqb same p c = true →
  pc_tenant_id p = pc_tenant_id c ∧ pc_run_id p = pc_run_id c ∧
  pc_workflow_id p = pc_workflow_id c ∧ pc_step_id p = pc_step_id c ∧
  pc_plan_hash p = pc_plan_hash c ∧ pc_attempt_id p = pc_attempt_id c ∧
  pc_fencing_token p = pc_fencing_token c ∧ pc_policy_version p = pc_policy_version c ∧
  pc_max_attempts p = pc_max_attempts c ∧ pc_retry_attempt p = pc_retry_attempt c ∧
  py_eqb same (PDict (pc_authorization_envelope p)) (PDict (pc_authorization_envelope c)) = true.
Proof.
  unfold scope_eqb. intros Hs. rewrite !andb_true_iff in Hs. rewrite !bool_decide_eq_true in Hs.
  destruct_and! Hs. by split_and!.
Qed.

Lemma alist_get_elem {V} k (l : list (string * V)) v : alist_get k l = Some v → (k, v) ∈ l.
Proof.
  unfold alist_get. destruct (List.find _ l) as [[k' x]|] eqn:Hf; [|done]. cbn. intros [= ->].
  apply List.find_some in Hf as [Hin Hk]. apply bool_decide_eq_true in Hk. cbn in Hk. subst k'.
  by apply list_elem_of_In.
Qed.

(** The call a context of profile [id] makes is one the command [c] is for. *)
Record confined_call (c : NativeNodeCommand) (id : string) (context : ProviderInvocationContext)
  : Prop := {
    cf_profile : id ∈ map pp_profile_id (nn_profile_bindings c) ∧ pc_provider_profile_id context = id;
    cf_allowed :
    {| ba_binding_id := pc_provider_binding_id context;
      ba_provider_id := pc_selected_provider_id context;
      ba_model_id := pc_selected_model_id context;
      ba_endpoint_identity := pc_provider_endpoint_identity context |}
    ∈ en_bindings (nn_authorization c);
    cf_transport : pc_provider_transport_mode context = "hub_bound" ∧
    pc_require_hub_provider_budget context = true;
    cf_scope :
    pc_tenant_id context = nn_tenant_id c ∧ pc_workflow_id context = nn_workflow_id c ∧
    pc_run_id context = nn_run_id c ∧ pc_step_id context = node_id (nn_node c) ∧
    pc_plan_hash context = nn_plan_hash c ∧ pc_policy_version context = nn_policy_version c ∧
    pc_attempt_id context = nn_attempt_id c ∧ pc_fencing_token context = nn_fencing_token c;
    cf_attempts : pc_max_attempts context = nn_maximum_attempts c ∧ pc_retry_attempt context = 0;
  }.

Lemma check_primary_Ok c primary u :
  check_primary normalize_endpoint same c primary = Ok u →
  pc_tenant_id primary = nn_tenant_id c ∧ pc_workflow_id primary = nn_workflow_id c ∧
  pc_run_id primary = nn_run_id c ∧ pc_step_id primary = node_id (nn_node c) ∧
  pc_plan_hash primary = nn_plan_hash c ∧ pc_policy_version primary = nn_policy_version c ∧
  pc_attempt_id primary = nn_attempt_id c ∧ pc_fencing_token primary = nn_fencing_token c ∧
  pc_retry_attempt primary = 0 ∧ pc_max_attempts primary = nn_maximum_attempts c.
Proof.
  unfold check_primary. cbv zeta. intros ([] & Hc%raise_when_Ok & Hp)%result_bind_Ok.
  apply result_bind_Ok in Hp as (envelope & _ & Hp%raise_when_Ok). guards. by split_and!.
Qed.

Lemma check_profile_context_Ok primary id b raw context :
  check_profile_context normalize_endpoint same primary id b raw = Ok context →
  loaded_context raw = Ok context ∧ scope_eqb same primary context = true ∧
  pc_selected_provider_id context = pb_provider_id b ∧
  pc_selected_model_id context = pb_model_id b ∧ pc_provider_binding_id context = binding_id b ∧
  pc_provider_endpoint_identity context = pb_endpoint_identity b ∧
  pc_provider_profile_id context = id ∧ pc_require_hub_provider_budget context = true ∧
  pc_provider_transport_mode context = "hub_bound".
Proof.
  unfold check_profile_context. intros (ctx & Hl & Hc)%result_bind_Ok.
  apply result_bind_Ok in Hc as ([] & Hb%raise_when_Ok & Hc).
  apply result_bind_Ok in Hc as ([] & Hs & Hc). injection Hc as <-.
  unfold _assert_same_provider_scope in Hs. apply raise_when_Ok in Hs. guards. by split_and!.
Qed.

(** The parts of [_assert_provider_profiles_valid] for a command with profiles. *)
Lemma profiles_valid_inv c u :
  assert_provider_profiles_valid normalize_endpoint same c = Ok u → nn_profile_bindings c ≠ [] →
  ∃ authorizations primary,
  nn_provider_binding c ≠ None ∧
  sum_by pe_maximum_attempts (nn_attempt_plan c) = nn_maximum_attempts c ∧
  nn_maximum_attempts c ≤ 33 ∧
  map_result (λ item, from_binding normalize_endpoint (pp_binding item)) (nn_profile_bindings c)
  = Ok authorizations ∧
  en_bindings (nn_authorization c) = sort_by binding_leb authorizations ∧
  en_attempt_plan (nn_authorization c) = nn_attempt_plan c ∧
  map pe_profile_id (nn_attempt_plan c) = map pp_profile_id (nn_profile_bindings c) ∧
  (∀ id, id ∈ (nn_contexts c).*1 ↔ id ∈ map pp_profile_id (nn_profile_bindings c)) ∧
  loaded_context (nn_provider_context c) = Ok primary ∧
  check_primary normalize_endpoint same c primary = Ok tt ∧
  (∀ item, item ∈ nn_profile_bindings c → ∃ context,
    check_profile_context normalize_endpoint same primary (pp_profile_id item) (pp_binding item)
    (default [] (alist_get (pp_profile_id item) (nn_contexts c))) = Ok context) ∧
  ∃ item context, item ∈ nn_profile_bindings c ∧ pp_profile_id item = nn_primary_profile_id c ∧
  check_profile_context normalize_endpoint same primary (pp_profile_id item) (pp_binding item)
  (default [] (alist_get (pp_profile_id item) (nn_contexts c))) = Ok context ∧
  context_eqb same context primary = true.
Proof.
  unfold assert_provider_profiles_valid. intros ([] & _ & Hv)%result_bind_Ok Hne.
  rewrite bool_decide_eq_false_2 in Hv by done.
  apply result_bind_Ok in Hv as ([] & Hb%raise_when_Ok & Hv).
  apply result_bind_Ok in Hv as ([] & Hn%raise_when_Ok & Hv).
  apply result_bind_Ok in Hv as (bindings & Hcollect & Hv). apply collect_bindings_Ok in Hcollect.
  apply result_bind_Ok in Hv as ([] & _ & Hv).
  apply result_bind_Ok in Hv as ([] & Horder%raise_when_Ok & Hv).
  apply result_bind_Ok in Hv as ([] & _ & Hv).
  apply result_bind_Ok in Hv as (authorizations & Ha & Hv).
  apply result_bind_Ok in Hv as ([] & He%raise_when_Ok & Hv).
  apply result_bind_Ok in Hv as ([] & Hk%raise_when_Ok & Hv).
  apply result_bind_Ok in Hv as (primary & Hload & Hv).
  apply result_bind_Ok in Hv as ([] & Hp & Hv).
  apply result_bind_Ok in Hv as (parsed & Hparsed & Heq%raise_when_Ok).
  exists authorizations, primary. apply orb_false_iff in Hb as [Hb _]. guards.
  apply bool_decide_eq_false in Hb. subst bindings. cbn [app] in *.
  split_and!; try done; [lia| | |].
  - intros id. rewrite <- (elem_of_sorted_set (nn_contexts c).*1), Hk, elem_of_sorted_set.
    change ((map profile_entry ?l).*1) with (map fst (map profile_entry (nn_profile_bindings c))).
    by rewrite map_map.
  - intros item Hin. apply map_result_elem with (x := profile_entry item) in Hparsed as (y & Hy & _).
    + apply result_bind_Ok in Hy as (context & Hy & _). by exists context.
    + by apply list_elem_of_fmap_2.
  - destruct (alist_get (nn_primary_profile_id c) parsed) as [context|] eqn:Hget; [|done].
    apply alist_get_elem in Hget. apply map_result_Ok in Hparsed.
    apply list_elem_of_lookup in Hget as [k Hat].
    destruct (Forall2_lookup_r _ _ _ _ _ Hparsed Hat) as (kb & Hkb & Hy).
    apply list_elem_of_lookup_2, list_elem_of_fmap in Hkb as (item & -> & Hin).
    apply result_bind_Ok in Hy as (context' & Hy & [= Hid ->]). by exists item, context.
Qed.

(** A context that is checked against a primary one of the command's scope. *)
Lemma checked_confined c primary item raw context authorizations :
  map_result (λ item, from_binding normalize_endpoint (pp_binding item)) (nn_profile_bindings c)
  = Ok authorizations →
  en_bindings (nn_authorization c) = sort_by binding_leb authorizations →
  check_primary normalize_endpoint same c primary = Ok tt → item ∈ nn_profile_bindings c →
  check_profile_context normalize_endpoint same primary (pp_profile_id item) (pp_binding item) raw
  = Ok context → confined_call c (pp_profile_id item) context.
Proof.
  intros Ha He Hp Hin (_ & Hs & H1 & H2 & H3 & H4 & H5 & H6 & H7)%check_profile_context_Ok.
  apply scope_eqb_fields in Hs as (S1 & S2 & S3 & S4 & S5 & S6 & S7 & S8 & S9 & S10 & _).
  apply check_primary_Ok in Hp as (P1 & P2 & P3 & P4 & P5 & P6 & P7 & P8 & P9 & P10).
  constructor; [by split; [by apply list_elem_of_fmap_2|]| |done| |].
  - destruct (map_result_elem _ _ _ item Ha Hin) as (a & Hb & Hmem). apply from_binding_Ok in Hb.
    rewrite He, sort_by_perm. rewrite H1, H2, H3, H4, <- Hb. exact Hmem.
  - split_and!; congruence.
  - split; congruence.
Qed.

(** An equal context is as confined. *)
Lemma confined_eqb c id context primary :
  confined_call c id context → context_eqb same context primary = true → confined_call c id primary.
Proof.
  unfold context_eqb. intros [C1 C2 C3 C4 C5] He. rewrite !andb_true_iff, !bool_decide_eq_true in He.
  destruct_and! He.
  repeat match goal with H : _ context = _ primary |- _ => rewrite H in *; clear H end.
  by constructor.
Qed.

(** A command without profiles carries no context. *)
Lemma no_profiles c :
  assert_provider_profiles_valid normalize_endpoint same c = Ok tt → nn_profile_bindings c = [] →
  nn_provider_context c = [] ∧ nn_contexts c = [].
Proof.
  unfold assert_provider_profiles_valid. intros ([] & _ & Hv)%result_bind_Ok Hnil.
  rewrite Hnil in Hv. apply raise_when_Ok in Hv. cbn [bool_decide] in Hv.
  apply orb_false_iff in Hv as [Hv _]. apply orb_false_iff in Hv as [Hv Hc].
  apply orb_false_iff in Hv as [_ Hp]. guards.
  split; [|done]. by destruct (nn_provider_context c).
Qed.

Lemma confined c id raw :
  assert_provider_profiles_valid normalize_endpoint same c = Ok tt →
  alist_get id (nn_contexts c) = Some raw →
  ∃ context, loaded_context raw = Ok context ∧ confined_call c id context.
Proof.
  intros Hv Hraw. assert (id ∈ (nn_contexts c).*1) as Hid
    by by apply alist_get_elem, (list_elem_of_fmap_2 fst) in Hraw.
  destruct (decide (nn_profile_bindings c = [])) as [Hnil|Hne].
  { exfalso. apply no_profiles in Hv as [_ Hv]; [|done]. rewrite Hv in Hid. by apply elem_of_nil in Hid. }
  destruct (profiles_valid_inv c tt Hv Hne)
    as (authorizations & primary & _ & _ & _ & Ha & He & _ & _ & Hkeys & _ & Hp & Hctx & _).
  apply Hkeys in Hid as Hprofile. apply list_elem_of_fmap in Hprofile as (item & -> & Hin).
  destruct (Hctx item Hin) as (context & Hc). rewrite Hraw in Hc. cbn [default from_option id] in Hc.
  exists context. split; [by apply check_profile_context_Ok in Hc as [Hl _]|]. by eapply checked_confined.
Qed.

Lemma primary_confined c :
  assert_provider_profiles_valid normalize_endpoint same c = Ok tt → nn_profile_bindings c ≠ [] →
  ∃ context, loaded_context (nn_provider_context c) = Ok context ∧
  confined_call c (nn_primary_profile_id c) context.
Proof.
  intros Hv Hne. destruct (profiles_valid_inv c tt Hv Hne)
    as (authorizations & primary & _ & _ & _ & Ha & He & _ & _ & _ & Hl & Hp & _ & item & context & Hin & <- & Hc & Heq).
  exists primary. split; [done|]. eapply confined_eqb; [|done]. by eapply checked_confined.
Qed.

(** C16: a native node command that passes its validation confines the worker:
    every invocation context it carries, those of its profiles and the primary
    one, calls a provider, model and endpoint its envelope allows, in the tenant,
    run, step, plan, attempt and fencing token of the command, and without
    profiles it carries none; its attempts are the envelope's and at most 33; a
    node that needs a provider has one; and it carries an authorized operation
    exactly when its node has side effects. *)
Theorem node_command_confined c :
  node_command_valid c = Ok tt →
  (∀ id raw, alist_get id (nn_contexts c) = Some raw →
    ∃ context, loaded_context raw = Ok context ∧ confined_call c id context) ∧
  (nn_profile_bindings c ≠ [] → ∃ context, loaded_context (nn_provider_context c) = Ok context ∧
    confined_call c (nn_primary_profile_id c) context) ∧
  (nn_profile_bindings c = [] → nn_provider_context c = [] ∧ nn_contexts c = []) ∧
  (nn_profile_bindings c ≠ [] →
    en_attempt_plan (nn_authorization c) = nn_attempt_plan c ∧
    map pe_profile_id (nn_attempt_plan c) = map pp_profile_id (nn_profile_bindings c) ∧
    sum_by pe_maximum_attempts (en_attempt_plan (nn_authorization c)) = nn_maximum_attempts c ∧
    nn_maximum_attempts c ≤ 33) ∧
  (native_node_requires_provider (nn_node c) = true → nn_provider_binding c ≠ None) ∧
  (if bool_decide (side_effect_class (nn_node c) ∈ ["none"; "read"])
    then nn_operation_id c = "" ∧ nn_side_effect_revision c = 0
    else nn_operation_id c ≠ "" ∧ 2 ≤ nn_side_effect_revision c).
Proof.
  unfold node_command_assert_valid. intros ([] & _ & Hv)%result_bind_Ok.
  apply result_bind_Ok in Hv as ([] & _ & Hv). apply result_bind_Ok in Hv as ([] & _ & Hv).
  apply result_bind_Ok in Hv as ([] & _ & Hv).
  apply result_bind_Ok in Hv as ([] & Hneed%raise_when_Ok & Hv).
  apply result_bind_Ok in Hv as ([] & _ & Hv). apply result_bind_Ok in Hv as ([] & Hp & Hv).
  split_and!.
  - intros id raw. by apply confined.
  - by apply primary_confined.
  - by apply no_profiles.
  - intros Hne. destruct (profiles_valid_inv c tt Hp Hne)
      as (authorizations & primary & _ & Hsum & Hmax & _ & _ & Hplan & Horder & _).
    rewrite Hplan. done.
  - intros Hr. rewrite Hr in Hneed. cbn [andb] in Hneed. by apply bool_decide_eq_false in Hneed.
  - case_bool_decide; apply raise_when_Ok in Hv; apply orb_false_iff in Hv as [Ho Hr]; guards.
    + apply str_true_false in Ho. done.
    + apply str_true_spec in Ho. split; [done|lia].
Qed.
End laws.

(** ** Examples *)

Notation native_valid := (@node_command_assert_valid checksum_digest no_endpoints false).

Definition native_envelope : RuntimeAuthorizationEnvelope :=
  {| en_envelope_id := "rae-1"; en_tenant_id := "tenant"; en_workflow_id := "wf";
     en_run_id := "run"; en_step_id := "write"; en_plan_hash := "hash"; en_policy_version := "p1";
     en_allowed_tools := ["edit"]; en_allowed_artifacts := [];
     en_budgets := [("provider_attempts", PInt 2)]; en_issued_at := lit 1 0;
     en_expires_at := lit 9 0; en_nonce := "n1"; en_key_id := "k1"; en_signature := "s";
     en_bindings := [{| ba_binding_id := @binding_id checksum_digest sample_binding;
       ba_provider_id := "ollama"; ba_model_id := "qwen2.5:7b"; ba_endpoint_identity := "" |}];
     en_attempt_plan := [{| pe_profile_id := "fast";
       pe_binding_id := @binding_id checksum_digest sample_binding; pe_provider_id := "ollama";
       pe_model_id := "qwen2.5:7b"; pe_maximum_attempts := 2; pe_endpoint_identity := "" |}];
     en_schema := AUTHORIZATION_ENVELOPE_SCHEMA |}.

Definition native_context : dict :=
  [("tenant_id", PStr "tenant"); ("run_id", PStr "run"); ("workflow_id", PStr "wf");
   ("policy_version", PStr "p1"); ("prompt_version", PStr "v1"); ("max_attempts", PInt 2);
   ("require_hub_provider_budget", PBool true); ("require_hub_provider_attempt_budget", PBool true);
   ("step_id", PStr "write"); ("plan_hash", PStr "hash");
   ("authorization_envelope", PDict
      match envelope_to_dict no_endpoints native_envelope with Ok d => d | Err _ => [] end);
   ("attempt_id", PStr "a1"); ("fencing_token", PInt 3); ("provider_profile_id", PStr "fast");
   ("selected_provider_id", PStr "ollama"); ("selected_model_id", PStr "qwen2.5:7b");
   ("provider_binding_id", PStr (@binding_id checksum_digest sample_binding));
   ("provider_transport_mode", PStr "hub_bound"); ("provider_decision_reason", PStr "profile")].

Definition native_command : NativeNodeCommand :=
  {| nn_command_id := "c1"; nn_control_task_id := "t1"; nn_tenant_id := "tenant";
     nn_workflow_id := "wf"; nn_run_id := "run"; nn_plan_hash := "hash"; nn_policy_version := "p1";
     nn_node := {| node_id := "write"; node_type := "task"; task_kind := "coding";
       required_capabilities := ["llm"]; allowed_tools := ["edit"]; input_artifacts := [];
       output_artifacts := []; node_gate_id := ""; side_effect_class := "idempotent_write";
       node_budget := None; node_metadata := [] |};
     nn_authorization := native_envelope; nn_attempt_id := "a1"; nn_fencing_token := 3;
     nn_input_data := [("file", PStr "a.py")]; nn_artifact_refs := []; nn_operation_id := "op";
     nn_side_effect_revision := 2; nn_provider_binding := Some sample_binding;
     nn_primary_profile_id := "fast";
     nn_profile_bindings := [{| pp_profile_id := "fast"; pp_binding := sample_binding |}];
     nn_attempt_plan := en_attempt_plan native_envelope; nn_maximum_attempts := 2;
     nn_provider_context := native_context; nn_contexts := [("fast", native_context)];
     nn_schema := NATIVE_NODE_COMMAND_SCHEMA |}.

Lemma node_command_confined_witness :
  native_valid native_command = Ok tt ∧
  ∃ context, load_context no_endpoints native_context = Ok context ∧
    confined_call native_command "fast" context.
Proof.
  assert (native_valid native_command = Ok tt) as Hv by (vm_compute; reflexivity).
  split; [exact Hv|].
  apply (proj1 (@node_command_confined checksum_digest no_endpoints false native_command Hv)).
  vm_compute. reflexivity.
Defined.

(** The validation reads the envelope's scope only through the contexts: a
    command without provider profiles may carry the envelope of another tenant,
    run or step, which only the gate refuses later. *)
Lemma envelope_scope_unchecked :
  let c := {| nn_command_id := "c1"; nn_control_task_id := "t1"; nn_tenant_id := "other";
     nn_workflow_id := "wf2"; nn_run_id := "run2"; nn_plan_hash := "hash2"; nn_policy_version := "p2";
     nn_node := {| node_id := "read"; node_type := "task"; task_kind := "coding";
       required_capabilities := []; allowed_tools := []; input_artifacts := [];
       output_artifacts := []; node_gate_id := ""; side_effect_class := "none";
       node_budget := None; node_metadata := [] |};
     nn_authorization := native_envelope; nn_attempt_id := "a1"; nn_fencing_token := 3;
     nn_input_data := []; nn_artifact_refs := []; nn_operation_id := "";
     nn_side_effect_revision := 0; nn_provider_binding := None; nn_primary_profile_id := "";
     nn_profile_bindings := []; nn_attempt_plan := []; nn_maximum_attempts := 0;
     nn_provider_context := []; nn_contexts := []; nn_schema := NATIVE_NODE_COMMAND_SCHEMA |} in
  native_valid c = Ok tt ∧ en_tenant_id (nn_authorization c) ≠ nn_tenant_id c.
Proof. split; [vm_compute; reflexivity|discriminate]. Qed.
