(* ===== verification/CommandContract.v ===== *)
(** * The neutral command contract (ananta_contracts/temporal_workflow.py)

    The part of the Temporal transport contracts that signed commands are built
    on: wire numbers, bounded mappings, the semantic payload digest, and the
    structural validation of a command. *)
From S2P Require Import Prelude PyStr PyVal Digest Serialization Plan Events KeyRing Envelope.

Definition LEGACY_COMMAND_SCHEMA : string := "ananta.workflow_command.v2".
Definition COMMAND_SCHEMA : string := "ananta.workflow_command.v3".
Definition _COMMAND_SIGNATURE_ALGORITHMS : list string := ["ed25519"; "hmac-sha256"].
Definition _COMMAND_SEMANTIC_PAYLOAD_SCHEMA : string :=
  "ananta.workflow-command-semantic-payload.v1".
Definition _COMMAND_MAX_SAFE_INTEGER : Z := 9007199254740991.
Definition _SENSITIVE_KEYS : list string :=
  ["api_key"; "authorization"; "cookie"; "credential"; "password"; "private_key"; "prompt";
   "raw_content"; "secret"; "token"].
Definition _SAFE_TOKEN_KEYS : list string :=
  ["cached_tokens"; "fencing_token"; "input_tokens"; "max_tokens"; "output_tokens";
   "reasoning_tokens"; "token_count"; "token_usage"].

(** ** Wire numbers *)

(** [x.is_integer()] *)
Definition float_is_integer (x : float) : bool :=
  match x with
  | S754_zero _ => true
  | S754_finite _ m e => (0 <=? e) || (Zpos m mod 2 ^ (- e) =? 0)
  | _ => false
  end.

Definition _bounded_integer (value : pyval) (minimum maximum : Z) (reason_code : string)
    : result Z :=
  normalized ← or_raise
    match value with
    | PFloat x => raise_when (negb (is_finite x && float_is_integer x)) (ValueError "") ;; py_int value
    | PInt _ | PStr _ => py_int value
    | _ => Err (TypeError "")
    end (TemporalContractError reason_code);
  raise_when (negb ((minimum <=? normalized) && (normalized <=? maximum)))
    (TemporalContractError reason_code) ;;
  Ok normalized.

Definition _bounded_float (value : pyval) (minimum maximum : float) (reason_code : string)
    : result float :=
  normalized ← or_raise
    match value with
    | PInt _ | PFloat _ | PStr _ => py_float value
    | _ => Err (TypeError "")
    end (TemporalContractError reason_code);
  raise_when (negb (is_finite normalized && (float_leb minimum normalized
                                             && float_leb normalized maximum)))
    (TemporalContractError reason_code) ;;
  Ok normalized.

(** [float(_COMMAND_MAX_SAFE_INTEGER)], which is exact. *)
Definition max_timestamp : float := lit _COMMAND_MAX_SAFE_INTEGER 0.

Definition parse_timestamp (value : pyval) (reason_code : string) : result float :=
  _bounded_float value (S754_zero false) max_timestamp reason_code.

Definition parse_issued_at (value : pyval) : result float :=
  parse_timestamp value "invalid_command_issued_at".

Definition parse_revision (value : pyval) : result Z :=
  _bounded_integer value 0 _COMMAND_MAX_SAFE_INTEGER "invalid_command_revision".

Definition _workflow_command_numeric_fields (raw : dict) : result (Z * float * float) :=
  expected_revision ← parse_revision (dget "expected_revision" raw);
  issued_at ← parse_issued_at (dget "issued_at" raw);
  expires_at ← parse_timestamp (dget "expires_at" raw) "invalid_command_expires_at";
  raise_when (float_leb expires_at issued_at) (TemporalContractError "invalid_command_expiry") ;;
  Ok (expected_revision, issued_at, expires_at).

(** ** Identifiers, sequences and mappings *)

Definition identifier_char (c : ascii) : bool :=
  is_alnum_ascii c || bool_decide (c ∈ ["_"; "."; ":"; "/"; "-"]%char).

(** [_IDENTIFIER_RE.fullmatch] *)
Definition _IDENTIFIER_RE (s : string) : bool :=
  match s with
  | String c rest => is_alnum_ascii c && str_forall identifier_char rest && (str_len rest <=? 255)
  | EmptyString => false
  end.

Definition hex_any_case (c : ascii) : bool := hex_char (lower_char c).

(** [re.fullmatch(r"[a-fA-F0-9]{64}", s)] *)
Definition hex64 (s : string) : bool := (str_len s =? 64) && str_forall hex_any_case s.

(** [_DIGEST_RE.fullmatch] *)
Definition _DIGEST_RE (s : string) : bool :=
  hex64 (match strip_prefix "sha256:" s with Some rest => rest | None => s end).

Definition _identifier (value : string) : result string :=
  let normalized := strip value in
  raise_when (negb (_IDENTIFIER_RE normalized)) (TemporalContractError "invalid_identifier") ;;
  Ok normalized.

(** The loop of [_bounded_strings] over identifiers. *)
Fixpoint collect_identifiers (normalized : list string) (values : list pyval)
    : result (list string) :=
  match values with
  | [] => Ok normalized
  | item :: values =>
      let text := strip (str_or_default item "") in
      if str_true text then
        text ← _identifier text;
        collect_identifiers
          (if bool_decide (text ∈ normalized) then normalized else normalized ++ [text]) values
      else collect_identifiers normalized values
  end.

Definition _bounded_strings (value : pyval) (maximum : Z) : result (list string) :=
  match value with
  | PNone => Ok []
  | PList l | PTuple l =>
      normalized ← collect_identifiers [] l;
      raise_when (maximum <? Z.of_nat (length normalized))
        (TemporalContractError "sequence_too_large") ;;
      Ok normalized
  | _ => Err (TemporalContractError "invalid_sequence")
  end.

(** [json.dumps(value, sort_keys=True, separators=(",", ":"))], which writes
    every float, with the quoting of text that [ensure_ascii] chooses. *)
Fixpoint json_text (quote : string → string) (value : pyval) : string :=
  match value with
  | PNone => "null"
  | PBool b => if b then "true" else "false"
  | PInt n => z_str n
  | PFloat S754_nan => "NaN"
  | PFloat (S754_infinity negative) => if negative then "-Infinity" else "Infinity"
  | PFloat x => float_repr x
  | PStr s => quote s
  | PList l | PTuple l => "[" +:+ join "," (map (json_text quote) l) +:+ "]"
  | PDict d =>
      "{" +:+ join "," (sort_by key_leb
        (map (λ kv, (kv.1, quote kv.1 +:+ ":" +:+ json_text quote kv.2)) d)).*2 +:+ "}"
  end.

(** ... with [ensure_ascii=False] *)
Definition json_dumps : pyval → string := json_text json_string.

Definition _mapping (value : pyval) (maximum_bytes : Z) : result dict :=
  match value with
  | PNone => Ok []
  | PDict payload =>
      raise_when (maximum_bytes <? byte_len (json_dumps value))
        (TemporalContractError "mapping_too_large") ;;
      Ok payload
  | _ => Err (TemporalContractError "invalid_mapping")
  end.

Definition _is_sensitive_key (value : string) : bool :=
  let normalized := lower (strip value) in
  bool_decide (normalized ∉ _SAFE_TOKEN_KEYS) &&
  existsb (λ part, bool_decide (normalized = part) || ends_with ("_" +:+ part) normalized
                   || starts_with (part +:+ "_") normalized) _SENSITIVE_KEYS.

Fixpoint _contains_sensitive_keys (value : pyval) : bool :=
  match value with
  | PDict d => existsb (λ kv, _is_sensitive_key (lower (strip kv.1))
                              || _contains_sensitive_keys kv.2) d
  | PList l | PTuple l => existsb _contains_sensitive_keys l
  | _ => false
  end.

(** ** Signatures *)

Definition _valid_hmac_signature (value : string) : bool := hex64 value.

Definition base64_char (c : ascii) : bool :=
  is_alnum_ascii c || bool_decide (c ∈ ["+"; "/"]%char).

(** Strict base64 of 64 bytes: 86 digits and two pads. *)
Definition _valid_ed25519_signature (value : string) : bool :=
  (str_len value =? 88) && str_forall base64_char (str_take 86 value) && ends_with "==" value.

(** ** Commands *)

Inductive WorkflowCommandType :=
| APPROVE | REJECT | EDIT | REQUEST_CHANGES | PAUSE | RESUME | CANCEL | RETRY | PARAMETER_UPDATE.

Definition command_types : list WorkflowCommandType :=
  [APPROVE; REJECT; EDIT; REQUEST_CHANGES; PAUSE; RESUME; CANCEL; RETRY; PARAMETER_UPDATE].

(** [command_type.value] *)
Definition type_value (t : WorkflowCommandType) : string :=
  match t with
  | APPROVE => "approve" | REJECT => "reject" | EDIT => "edit"
  | REQUEST_CHANGES => "request_changes" | PAUSE => "pause" | RESUME => "resume"
  | CANCEL => "cancel" | RETRY => "retry" | PARAMETER_UPDATE => "parameter_update"
  end.

(** [WorkflowCommandType(value)] *)
Definition command_type_of (value : string) : result WorkflowCommandType :=
  match filter (λ t, type_value t = value) command_types with
  | t :: _ => Ok t
  | [] => Err (TemporalContractError "invalid_command_type")
  end.

Record WorkflowCommand := {
  wk_command_id : string;
  wk_command_type : WorkflowCommandType;
  wk_tenant_id : string;
  wk_workflow_id : string;
  wk_run_id : string;
  wk_step_id : string;
  wk_checkpoint_id : string;
  wk_expected_revision : Z;
  wk_plan_hash : string;
  wk_policy_version : string;
  wk_actor_id : string;
  wk_actor_roles : list string;
  wk_payload : dict;
  wk_issued_at : float;
  wk_expires_at : float;
  wk_nonce : string;
  wk_signature_algorithm : string;
  wk_key_id : string;
  wk_payload_digest : string;
  wk_signature : string;
  wk_schema : string;
}.

Definition _workflow_command_semantic_payload (raw : dict) : result dict :=
  let text k := PStr (str_or_default (dget k raw) "") in
  expected_revision ← parse_revision (dget "expected_revision" raw);
  actor_roles ← py_list (por (dget "actor_roles" raw) (PTuple []));
  payload ← py_dict (por (dget "payload" raw) (PDict []));
  Ok [("schema", PStr _COMMAND_SEMANTIC_PAYLOAD_SCHEMA); ("command_id", text "command_id");
      ("command_type", text "command_type"); ("tenant_id", text "tenant_id");
      ("workflow_id", text "workflow_id"); ("run_id", text "run_id");
      ("step_id", text "step_id"); ("checkpoint_id", text "checkpoint_id");
      ("expected_revision", PInt expected_revision); ("plan_hash", text "plan_hash");
      ("policy_version", text "policy_version"); ("actor_id", text "actor_id");
      ("actor_roles", actor_roles); ("payload", PDict payload)].

(** The entries of [to_dict] that the hub's and the neutral command share. *)
Definition authority_entries (schema algorithm digest : string) : dict :=
  if bool_decide (schema = COMMAND_SCHEMA)
  then [("signature_algorithm", PStr algorithm); ("payload_digest", PStr digest)] else [].

Definition command_dict (c : WorkflowCommand) : dict :=
  [("schema", PStr (wk_schema c)); ("command_id", PStr (wk_command_id c));
   ("command_type", PStr (type_value (wk_command_type c))); ("tenant_id", PStr (wk_tenant_id c));
   ("workflow_id", PStr (wk_workflow_id c)); ("run_id", PStr (wk_run_id c));
   ("step_id", PStr (wk_step_id c)); ("checkpoint_id", PStr (wk_checkpoint_id c));
   ("expected_revision", PInt (wk_expected_revision c)); ("plan_hash", PStr (wk_plan_hash c));
   ("policy_version", PStr (wk_policy_version c)); ("actor_id", PStr (wk_actor_id c));
   ("actor_roles", strs (wk_actor_roles c)); ("payload", PDict (wk_payload c));
   ("issued_at", PFloat (wk_issued_at c)); ("expires_at", PFloat (wk_expires_at c));
   ("nonce", PStr (wk_nonce c)); ("key_id", PStr (wk_key_id c));
   ("signature", PStr (wk_signature c))]
  ++ authority_entries (wk_schema c) (wk_signature_algorithm c) (wk_payload_digest c).

(** [to_dict(redacted=True)] *)
Definition command_dict_redacted (c : WorkflowCommand) : dict :=
  dict_set "signature" (PStr "[REDACTED]") (dict_set "nonce" (PStr "[REDACTED]") (command_dict c)).

(** [signing_payload()] of the neutral command. *)
Definition neutral_signing_payload (c : WorkflowCommand) : dict :=
  dict_del "signature" (command_dict c).

Section digest.
Context `{Digest}.

Definition _workflow_command_payload_digest (raw : dict) : result string :=
  canonical ← or_raise
  (semantic ← _workflow_command_semantic_payload raw; canonical_json (PDict semantic))
  (TemporalContractError "invalid_command_payload_digest");
  Ok ("sha256:" +:+ hexdigest (utf8 canonical)).

(** [__post_init__], on fields that are text and numbers already. *)
Definition command_post_init (c : WorkflowCommand) : result unit :=
  raise_when (bool_decide (wk_schema c ∉ [LEGACY_COMMAND_SCHEMA; COMMAND_SCHEMA]))
  (TemporalContractError "unsupported_command_schema") ;;
  for_each (λ value, _identifier value ;; Ok tt)
  [wk_command_id c; wk_tenant_id c; wk_workflow_id c; wk_run_id c; wk_step_id c;
    wk_checkpoint_id c; wk_policy_version c; wk_actor_id c; wk_nonce c; wk_key_id c] ;;
  raise_when (negb (_DIGEST_RE (wk_plan_hash c))) (TemporalContractError "invalid_plan_hash") ;;
  _workflow_command_numeric_fields
  [("expected_revision", PInt (wk_expected_revision c)); ("issued_at", PFloat (wk_issued_at c));
    ("expires_at", PFloat (wk_expires_at c))] ;;
  _bounded_strings (strs (wk_actor_roles c)) 64 ;;
  _mapping (PDict (wk_payload c)) 65536 ;;
  raise_when (_contains_sensitive_keys (PDict (wk_payload c)))
  (TemporalContractError "embedded_secret_denied") ;;
  (if bool_decide (type_value (wk_command_type c) ∈ ["edit"; "request_changes"]) then
    raise_when (negb (truthy (por (dget "plan_ref" (wk_payload c))
          (dget "replacement_plan" (wk_payload c)))))
    (TemporalContractError "plan_edit_required") ;;
    raise_when (negb (_DIGEST_RE (str_or_default (dget "replacement_plan_hash" (wk_payload c)) "")))
    (TemporalContractError "replacement_plan_hash_required")
    else Ok tt) ;;
  if bool_decide (wk_schema c = LEGACY_COMMAND_SCHEMA) then
  raise_when (str_true (wk_signature_algorithm c) || str_true (wk_payload_digest c))
  (TemporalContractError "legacy_command_authority_fields_forbidden") ;;
  raise_when (negb (_valid_hmac_signature (wk_signature c)
    || _valid_ed25519_signature (wk_signature c)))
  (TemporalContractError "invalid_command_signature")
  else
  raise_when (bool_decide (wk_signature_algorithm c ∉ _COMMAND_SIGNATURE_ALGORITHMS))
  (TemporalContractError "unsupported_command_signature_algorithm") ;;
  expected ← _workflow_command_payload_digest (command_dict c);
  same ← compare_digest (wk_payload_digest c) expected;
  raise_when (negb same) (TemporalContractError "invalid_command_payload_digest") ;;
  raise_when (negb (if bool_decide (wk_signature_algorithm c = "ed25519")
      then _valid_ed25519_signature (wk_signature c)
      else _valid_hmac_signature (wk_signature c)))
  (TemporalContractError "invalid_command_signature").

(** [WorkflowCommand.from_mapping(raw)] *)
Definition neutral_from_mapping (raw : dict) : result WorkflowCommand :=
  let text k := str_or_default (dget k raw) "" in
  numbers ← _workflow_command_numeric_fields raw;
  command_type ← command_type_of (text "command_type");
  actor_roles ← _bounded_strings (dget "actor_roles" raw) 64;
  payload ← _mapping (dget "payload" raw) 65536;
  let command := {|
    wk_command_id := text "command_id"; wk_command_type := command_type;
    wk_tenant_id := text "tenant_id"; wk_workflow_id := text "workflow_id";
    wk_run_id := text "run_id"; wk_step_id := text "step_id";
    wk_checkpoint_id := text "checkpoint_id"; wk_expected_revision := numbers.1.1;
    wk_plan_hash := text "plan_hash"; wk_policy_version := text "policy_version";
    wk_actor_id := text "actor_id"; wk_actor_roles := actor_roles; wk_payload := payload;
    wk_issued_at := numbers.1.2; wk_expires_at := numbers.2; wk_nonce := text "nonce";
    wk_signature_algorithm := lower (strip (text "signature_algorithm"));
    wk_key_id := text "key_id"; wk_payload_digest := text "payload_digest";
    wk_signature := text "signature"; wk_schema := text "schema" |} in
  command_post_init command ;;
  Ok command.

(** [WorkflowCommand.unsigned_v3_mapping] *)
Definition unsigned_v3_mapping (command_id command_type tenant_id workflow_id run_id step_id
    checkpoint_id : string) (expected_revision : pyval) (plan_hash policy_version actor_id : string)
  (actor_roles : list string) (payload : dict) (issued_at expires_at : float)
  (nonce signature_algorithm key_id : string) : result dict :=
  command_type ← command_type_of command_type;
  numbers ← _workflow_command_numeric_fields
  [("expected_revision", expected_revision); ("issued_at", PFloat issued_at);
    ("expires_at", PFloat expires_at)];
  payload ← _mapping (PDict payload) 65536;
  let mapping :=
  [("schema", PStr COMMAND_SCHEMA); ("command_id", PStr command_id);
    ("command_type", PStr (type_value command_type)); ("tenant_id", PStr tenant_id);
    ("workflow_id", PStr workflow_id); ("run_id", PStr run_id); ("step_id", PStr step_id);
    ("checkpoint_id", PStr checkpoint_id); ("expected_revision", PInt numbers.1.1);
    ("plan_hash", PStr plan_hash); ("policy_version", PStr policy_version);
    ("actor_id", PStr actor_id); ("actor_roles", strs actor_roles); ("payload", PDict payload);
    ("issued_at", PFloat numbers.1.2); ("expires_at", PFloat numbers.2);
    ("nonce", PStr nonce);
    ("signature_algorithm", PStr (lower (strip signature_algorithm)));
    ("key_id", PStr key_id)] in
  digest ← _workflow_command_payload_digest mapping;
  Ok (mapping ++ [("payload_digest", PStr digest)]).
End digest.
