(* ===== verification/Commands.v ===== *)
(** * Signed commands (workflow_runtime/commands.py)

    Issuing, loading, verifying and spending once the signed commands by which
    operators approve, edit, pause or retry a run. *)
From S2P Require Import Prelude PyStr PyVal Digest Serialization Plan Events KeyRing Envelope Authorization CommandContract.

Definition WORKFLOW_COMMAND_SCHEMA : string := COMMAND_SCHEMA.
Definition WORKFLOW_COMMAND_TYPES : list string := map type_value command_types.

Record SignedWorkflowCommand := {
  cm_command_id : string;
  cm_command_type : string;
  cm_tenant_id : string;
  cm_workflow_id : string;
  cm_run_id : string;
  cm_step_id : string;
  cm_checkpoint_id : string;
  cm_expected_revision : Z;
  cm_plan_hash : string;
  cm_policy_version : string;
  cm_actor_id : string;
  cm_actor_roles : list string;
  cm_payload : dict;
  cm_issued_at : float;
  cm_expires_at : float;
  cm_nonce : string;
  cm_key_id : string;
  cm_signature : string;
  cm_signature_algorithm : string;
  cm_payload_digest : string;
  cm_schema : string;
}.

Definition _hub_contract_reason (reason_code : string) : string :=
  default reason_code (alist_get reason_code
    [("unsupported_command_schema", "workflow_command_schema_unsupported");
     ("invalid_command_type", "workflow_command_type_unsupported");
     ("invalid_command_revision", "workflow_command_revision_invalid");
     ("invalid_command_issued_at", "workflow_command_expiry_invalid");
     ("invalid_command_expires_at", "workflow_command_expiry_invalid");
     ("invalid_command_expiry", "workflow_command_expiry_invalid");
     ("invalid_command_signature", "workflow_command_signature_invalid");
     ("embedded_secret_denied", "workflow_command_embedded_secret_denied");
     ("mapping_too_large", "workflow_command_payload_too_large");
     ("plan_edit_required", "workflow_command_plan_edit_required");
     ("replacement_plan_hash_required", "workflow_command_replacement_plan_hash_required")]).

(** [except TemporalContractError] *)
Definition as_hub_error {A} (r : result A) : result A :=
  match r with
  | Err (TemporalContractError c) => Err (contract_error (_hub_contract_reason c))
  | r => r
  end.

Definition signed_to_dict (c : SignedWorkflowCommand) : dict :=
  [("schema", PStr (cm_schema c)); ("command_id", PStr (cm_command_id c));
   ("command_type", PStr (cm_command_type c)); ("tenant_id", PStr (cm_tenant_id c));
   ("workflow_id", PStr (cm_workflow_id c)); ("run_id", PStr (cm_run_id c));
   ("step_id", PStr (cm_step_id c)); ("checkpoint_id", PStr (cm_checkpoint_id c));
   ("expected_revision", PInt (cm_expected_revision c)); ("plan_hash", PStr (cm_plan_hash c));
   ("policy_version", PStr (cm_policy_version c)); ("actor_id", PStr (cm_actor_id c));
   ("actor_roles", strs (cm_actor_roles c)); ("payload", PDict (cm_payload c));
   ("issued_at", PFloat (cm_issued_at c)); ("expires_at", PFloat (cm_expires_at c));
   ("nonce", PStr (cm_nonce c)); ("key_id", PStr (cm_key_id c));
   ("signature", PStr (cm_signature c))]
  ++ authority_entries (cm_schema c) (cm_signature_algorithm c) (cm_payload_digest c).

(** [to_dict(redacted=True)] *)
Definition signed_to_dict_redacted (c : SignedWorkflowCommand) : result dict :=
  payload ← py_dict (redact_json (PDict (cm_payload c)));
  Ok (dict_set "signature" (PStr "[REDACTED]") (dict_set "nonce" (PStr "[REDACTED]")
        (dict_set "payload" (PDict payload) (signed_to_dict c)))).

Definition command_signing_payload (c : SignedWorkflowCommand) : dict :=
  dict_del "signature" (signed_to_dict c).

Definition required_fields (c : SignedWorkflowCommand) : list string :=
  [cm_command_id c; cm_command_type c; cm_tenant_id c; cm_workflow_id c; cm_run_id c;
   cm_step_id c; cm_checkpoint_id c; cm_plan_hash c; cm_policy_version c; cm_actor_id c;
   cm_nonce c; cm_key_id c].

(** The plan edit of a command that replaces the plan. *)
Definition check_plan_edit (c : SignedWorkflowCommand) : result unit :=
  if bool_decide (cm_command_type c ∈ ["edit"; "request_changes"]) then
    raise_when (negb (truthy (por (dget "plan_ref" (cm_payload c))
                                (dget "replacement_plan" (cm_payload c)))))
      (contract_error "workflow_command_plan_edit_required") ;;
    raise_when (negb (hex64 (str_or_default (dget "replacement_plan_hash" (cm_payload c)) "")))
      (contract_error "workflow_command_replacement_plan_hash_required")
  else Ok tt.

Section commands.
Context `{Digest}.

Definition computed_payload_digest (c : SignedWorkflowCommand) : result string :=
  _workflow_command_payload_digest (signed_to_dict c).

(** The authority fields: none in a legacy command, else a known algorithm and
    the digest of the semantic payload. *)
Definition check_authority (c : SignedWorkflowCommand) : result unit :=
  if bool_decide (cm_schema c = LEGACY_COMMAND_SCHEMA) then
  raise_when (str_true (cm_signature_algorithm c) || str_true (cm_payload_digest c))
  (contract_error "legacy_command_authority_fields_forbidden")
  else
  raise_when (bool_decide (cm_signature_algorithm c ∉ ["ed25519"; "hmac-sha256"]))
  (contract_error "unsupported_command_signature_algorithm") ;;
  computed ← computed_payload_digest c;
  same ← compare_digest (cm_payload_digest c) computed;
  raise_when (negb same) (contract_error "invalid_command_payload_digest").

Definition check_signature_form (c : SignedWorkflowCommand) : result unit :=
  raise_when (negb
    (if bool_decide (cm_signature_algorithm c = "ed25519")
    || bool_decide (cm_schema c = LEGACY_COMMAND_SCHEMA)
      && negb (_valid_hmac_signature (cm_signature c))
      then _valid_ed25519_signature (cm_signature c)
      else _valid_hmac_signature (cm_signature c)))
  (contract_error "workflow_command_signature_invalid").

Definition command_assert_structure (c : SignedWorkflowCommand) : result unit :=
  raise_when (bool_decide (cm_schema c ∉ [LEGACY_COMMAND_SCHEMA; WORKFLOW_COMMAND_SCHEMA]))
  (contract_error "workflow_command_schema_unsupported") ;;
  raise_when (existsb (λ v, negb (str_true v)) (required_fields c))
  (contract_error "workflow_command_binding_required") ;;
  raise_when (bool_decide (cm_command_type c ∉ WORKFLOW_COMMAND_TYPES))
  (contract_error "workflow_command_type_unsupported") ;;
  raise_when (cm_expected_revision c <? 0) (contract_error "workflow_command_revision_invalid") ;;
  raise_when (float_leb (cm_expires_at c) (cm_issued_at c))
  (contract_error "workflow_command_expiry_invalid") ;;
  raise_when (contains_sensitive_keys (PDict (cm_payload c)))
  (contract_error "workflow_command_embedded_secret_denied") ;;
  text ← canonical_json (PDict (cm_payload c));
  raise_when (65536 <? byte_len text) (contract_error "workflow_command_payload_too_large") ;;
  check_plan_edit c ;;
  check_authority c ;;
  check_signature_form c.

(** [SignedWorkflowCommand.from_mapping(raw)] *)
Definition command_from_mapping (raw : dict) : result SignedWorkflowCommand :=
  let text k := str_or_default (dget k raw) "" in
  numbers ← as_hub_error (_workflow_command_numeric_fields raw);
  actor_roles ← _clean_tuple (dget "actor_roles" raw);
  payload ← py_dict (por (dget "payload" raw) (PDict []));
  let command := {|
    cm_command_id := text "command_id"; cm_command_type := strip (text "command_type");
    cm_tenant_id := text "tenant_id"; cm_workflow_id := text "workflow_id";
    cm_run_id := text "run_id"; cm_step_id := text "step_id";
    cm_checkpoint_id := text "checkpoint_id"; cm_expected_revision := numbers.1.1;
    cm_plan_hash := text "plan_hash"; cm_policy_version := text "policy_version";
    cm_actor_id := text "actor_id"; cm_actor_roles := actor_roles; cm_payload := payload;
    cm_issued_at := numbers.1.2; cm_expires_at := numbers.2; cm_nonce := text "nonce";
    cm_key_id := text "key_id"; cm_signature := text "signature";
    cm_signature_algorithm := lower (strip (text "signature_algorithm"));
    cm_payload_digest := text "payload_digest";
    cm_schema := str_or_default (dget "schema" raw) LEGACY_COMMAND_SCHEMA |} in
  command_assert_structure command ;;
  Ok command.

(** [to_contract] *)
Definition to_contract (c : SignedWorkflowCommand) : result WorkflowCommand :=
  neutral_from_mapping (signed_to_dict c).

Context `{KeyRing K}.

(** [SignedWorkflowCommand.issue]; [fresh_id] and [fresh_nonce] are the
    generated identifiers. *)
Definition command_issue (ring : K) (command_type tenant_id workflow_id run_id step_id
    checkpoint_id : string) (expected_revision : pyval) (plan_hash policy_version actor_id : string)
  (actor_roles : list string) (payload : dict) (ttl_seconds : float) (now : pyval)
  (command_id nonce : option string) (fresh_id fresh_nonce : string)
  : result SignedWorkflowCommand :=
  raise_when (float_leb ttl_seconds (S754_zero false))
  (contract_error "workflow_command_ttl_invalid") ;;
  as_signature_error (as_hub_error (
      timestamp ← parse_issued_at now;
      let key_id := active_key_id ring in
      unsigned ← unsigned_v3_mapping (str_or (default "" command_id) fresh_id) (strip command_type)
      (strip tenant_id) (strip workflow_id) (strip run_id) (strip step_id) (strip checkpoint_id)
      expected_revision (strip plan_hash) (strip policy_version) (strip actor_id)
      (clean_strings actor_roles) payload timestamp (float_add timestamp ttl_seconds)
      (str_or (default "" nonce) fresh_nonce) (signature_algorithm ring) key_id;
      signed ← ring_sign ring WORKFLOW_COMMAND_SCHEMA unsigned key_id;
      raise_when (bool_decide (signed.1 ≠ key_id))
      (SignatureValidationError "workflow_command_signing_key_changed") ;;
      command_from_mapping (dict_set "signature" (PStr signed.2) unsigned))).

(** What a verifier expects a command to be bound to. *)
Record command_expected := {
    ce_tenant_id : string;
    ce_workflow_id : string;
    ce_run_id : string;
    ce_step_id : string;
    ce_checkpoint_id : string;
    ce_expected_revision : Z;
    ce_plan_hash : string;
    ce_policy_version : string;
  }.

Definition command_bindings (c : SignedWorkflowCommand) : command_expected :=
  {| ce_tenant_id := cm_tenant_id c; ce_workflow_id := cm_workflow_id c; ce_run_id := cm_run_id c;
    ce_step_id := cm_step_id c; ce_checkpoint_id := cm_checkpoint_id c;
    ce_expected_revision := cm_expected_revision c; ce_plan_hash := cm_plan_hash c;
    ce_policy_version := cm_policy_version c |}.

(** The comparisons of [verify], in its order; values are compared as text. *)
Definition check_command_bindings (c : SignedWorkflowCommand) (x : command_expected)
  : result unit :=
  for_each (λ nav, raise_when (bool_decide (nav.1.2 ≠ nav.2))
    (SignatureValidationError ("workflow_command_" +:+ nav.1.1 +:+ "_mismatch")))
  [("tenant_id", cm_tenant_id c, ce_tenant_id x);
    ("workflow_id", cm_workflow_id c, ce_workflow_id x); ("run_id", cm_run_id c, ce_run_id x);
    ("step_id", cm_step_id c, ce_step_id x);
    ("checkpoint_id", cm_checkpoint_id c, ce_checkpoint_id x);
    ("expected_revision", z_str (cm_expected_revision c), z_str (ce_expected_revision x));
    ("plan_hash", cm_plan_hash c, ce_plan_hash x);
    ("policy_version", cm_policy_version c, ce_policy_version x)].

Definition command_verify (ring : K) (c : SignedWorkflowCommand) (x : command_expected)
  (now : float) : result unit :=
  check_command_bindings c x ;;
  raise_when (float_ltb now (cm_issued_at c))
  (SignatureValidationError "workflow_command_not_yet_valid") ;;
  raise_when (float_leb (cm_expires_at c) now)
  (SignatureValidationError "workflow_command_expired") ;;
  raise_when (str_true (cm_signature_algorithm c)
    && bool_decide (cm_signature_algorithm c ≠ signature_algorithm ring))
  (SignatureValidationError "workflow_command_signature_algorithm_mismatch") ;;
  as_signature_error (ring_verify ring (cm_schema c) (command_signing_payload c) (cm_key_id c)
    (cm_signature c) (cm_command_id c)) ;;
  command_assert_structure c.

(** [WorkflowCommandVerifier.verify_persisted] *)
Definition verify_persisted (ring : K) (c : SignedWorkflowCommand) (x : command_expected)
  : result unit := command_verify ring c x (cm_issued_at c).

(** [WorkflowCommandVerifier.verify_once] on the verifier's nonce store, whose
    clock then reads [clock]. *)
Definition verify_once (ring : K) (c : SignedWorkflowCommand) (x : command_expected)
  (now clock : float) : action (gmap (string * string) float) unit :=
  lift (command_verify ring c x now) ;;
  fresh ← Authorization.consume (cm_tenant_id c) (cm_nonce c) (cm_expires_at c) clock;
  lift (raise_when (negb fresh) (SignatureValidationError "workflow_command_replay_detected")).

(** [WorkflowCommandIssuer(key_ring, ttl_seconds=...).issue], at the reading
    [now] of its clock. *)
Definition issuer_issue (ring : K) (ttl_seconds now : float) (command_id command_type tenant_id
    workflow_id run_id step_id checkpoint_id : string) (expected_revision : pyval)
  (plan_hash policy_version actor_id : string) (actor_roles : list string) (payload : dict)
  (fresh_id fresh_nonce : string) : result SignedWorkflowCommand :=
  raise_when (float_leb ttl_seconds (S754_zero false)) (ValueError "workflow_command_ttl_invalid") ;;
  command_issue ring command_type tenant_id workflow_id run_id step_id checkpoint_id
  expected_revision plan_hash policy_version actor_id actor_roles payload ttl_seconds
  (PFloat now) (Some command_id) None fresh_id fresh_nonce.
End commands.

(** ** Numbers *)

Definition numbers_ok (n : Z) (issued expires : float) : Prop :=
  0 ≤ n ≤ _COMMAND_MAX_SAFE_INTEGER ∧
  (is_finite issued = true ∧ float_leb (S754_zero false) issued = true ∧
    float_leb issued max_timestamp = true) ∧
  (is_finite expires = true ∧ float_leb (S754_zero false) expires = true ∧
    float_leb expires max_timestamp = true) ∧
  float_leb expires issued = false.

Lemma bounded_float_Ok v reason x :
  parse_timestamp v reason = Ok x →
  is_finite x = true ∧ float_leb (S754_zero false) x = true ∧ float_leb x max_timestamp = true.
Proof.
  unfold parse_timestamp, _bounded_float. intros Hx. result_inv. subst.
  match goal with Hb : negb _ = false |- _ => apply negb_false_iff in Hb end.
  repeat match goal with Hb : _ && _ = true |- _ => apply andb_prop in Hb as [? ?] end. done.
Qed.

Lemma bounded_float_run x reason :
  is_finite x = true ∧ float_leb (S754_zero false) x = true ∧ float_leb x max_timestamp = true →
  parse_timestamp (PFloat x) reason = Ok x.
Proof.
  intros (Hf & Hl & Hu). unfold parse_timestamp, _bounded_float. cbn [py_float or_raise mbind result_bind].
  by rewrite Hf, Hl, Hu.
Qed.

Lemma bounded_integer_Ok v lo hi reason n :
  _bounded_integer v lo hi reason = Ok n → lo ≤ n ≤ hi.
Proof. unfold _bounded_integer. intros Hn. result_inv. subst. lia. Qed.

Lemma numeric_fields_Ok raw n issued expires :
  _workflow_command_numeric_fields raw = Ok (n, issued, expires) → numbers_ok n issued expires.
Proof.
  unfold _workflow_command_numeric_fields. intros (m & Hm & Hr)%result_bind_Ok.
  apply result_bind_Ok in Hr as (i & Hi & Hr). apply result_bind_Ok in Hr as (e & He & Hr).
  apply result_bind_Ok in Hr as ([] & Hlt & Hr). injection Hr as <- <- <-.
  apply raise_when_Ok in Hlt.
  split; [by eapply bounded_integer_Ok|]. split; [by eapply bounded_float_Ok|].
  split; [by eapply bounded_float_Ok|done].
Qed.

Lemma numeric_fields_run raw n issued expires :
  dget "expected_revision" raw = PInt n → dget "issued_at" raw = PFloat issued →
  dget "expires_at" raw = PFloat expires → numbers_ok n issued expires →
  _workflow_command_numeric_fields raw = Ok (n, issued, expires).
Proof.
  intros Hn Hi He (Hb & Hbi & Hbe & Hlt). unfold _workflow_command_numeric_fields.
  rewrite Hn, Hi, He. unfold parse_issued_at. rewrite !bounded_float_run by done.
  unfold parse_revision, _bounded_integer. cbn [py_int or_raise mbind result_bind].
  assert ((0 <=? n) && (n <=? _COMMAND_MAX_SAFE_INTEGER) = true) as -> by lia.
  cbn [negb raise_when mbind result_bind]. by rewrite Hlt.
Qed.

Lemma as_hub_error_Ok {A} (r : result A) a : as_hub_error r = Ok a ↔ r = Ok a.
Proof. by destruct r as [|[]]. Qed.

(** ** Loading *)

Section loading.
Context `{Digest}.

(** A command as it is loaded. *)
Record command_normal (c : SignedWorkflowCommand) : Prop := {
    cn_numbers : numbers_ok (cm_expected_revision c) (cm_issued_at c) (cm_expires_at c);
    cn_roles : clean_strings (cm_actor_roles c) = cm_actor_roles c;
    cn_structure : command_assert_structure c = Ok tt;
  }.

Lemma clean_tuple_strings v l : _clean_tuple v = Ok l → clean_strings l = l.
Proof.
  unfold _clean_tuple. intros Hl. result_inv. subst.
  rewrite <- (map_map py_str strip). apply clean_strings_idemp.
Qed.

(** The parts of the structure that fix how a field is written. *)
Lemma command_structure_inv c u :
  command_assert_structure c = Ok u →
  cm_command_type c ∈ WORKFLOW_COMMAND_TYPES ∧ float_leb (cm_expires_at c) (cm_issued_at c) = false ∧
  (cm_schema c = LEGACY_COMMAND_SCHEMA ∧ cm_signature_algorithm c = "" ∧ cm_payload_digest c = "" ∨
    cm_schema c = WORKFLOW_COMMAND_SCHEMA ∧ cm_signature_algorithm c ∈ ["ed25519"; "hmac-sha256"] ∧
    computed_payload_digest c = Ok (cm_payload_digest c)).
Proof.
  unfold command_assert_structure. intros Hs. result_inv.
  repeat match goal with Hx : bool_decide _ = false |- _ =>
      apply bool_decide_eq_false, dec_stable in Hx end.
  split; [done|]. split; [done|].
  match goal with Hx : check_authority _ = _ |- _ => rename Hx into Ha end.
  match goal with Hx : cm_schema c ∈ _ |- _ => rename Hx into Hschema end.
  unfold check_authority in Ha. case_bool_decide as Hl; [left|right]; result_inv.
  - match goal with Hx : _ || _ = false |- _ =>
        apply orb_false_iff in Hx as [H1%str_true_false H2%str_true_false] end. done.
  - apply elem_of_cons in Hschema as [Hc|Hc]; [done|]. apply list_elem_of_singleton in Hc.
    match goal with Hx : compare_digest _ _ = Ok _ |- _ =>
        unfold compare_digest in Hx; result_inv end.
    repeat match goal with Hx : bool_decide _ = false |- _ =>
        apply bool_decide_eq_false, dec_stable in Hx end.
    match goal with Hx : negb ?b = false |- _ => apply negb_false_iff in Hx; subst b end.
    match goal with Hx : bool_decide (_ = _) = true |- _ => apply bool_decide_eq_true in Hx; rewrite Hx end.
    done.
Qed.

Lemma command_type_stripped t : t ∈ WORKFLOW_COMMAND_TYPES → strip t = t.
Proof.
  assert (Forall (λ t, strip t = t) WORKFLOW_COMMAND_TYPES) as Hall
    by (apply (bool_decide_unpack _); vm_compute; exact I).
  rewrite Forall_forall in Hall. apply Hall.
Qed.

Lemma loaded_normal raw c : command_from_mapping raw = Ok c → command_normal c.
Proof.
  unfold command_from_mapping. intros (((n & i) & e) & Hn & Hc)%result_bind_Ok.
  apply result_bind_Ok in Hc as (roles & Hr & Hc). apply result_bind_Ok in Hc as (payload & _ & Hc).
  apply result_bind_Ok in Hc as ([] & Hs & Hc). apply as_hub_error_Ok, numeric_fields_Ok in Hn.
  apply clean_tuple_strings in Hr. injection Hc as <-. by constructor.
Qed.

Lemma command_eta c : c = {|
    cm_command_id := cm_command_id c; cm_command_type := cm_command_type c;
    cm_tenant_id := cm_tenant_id c; cm_workflow_id := cm_workflow_id c; cm_run_id := cm_run_id c;
    cm_step_id := cm_step_id c; cm_checkpoint_id := cm_checkpoint_id c;
    cm_expected_revision := cm_expected_revision c; cm_plan_hash := cm_plan_hash c;
    cm_policy_version := cm_policy_version c; cm_actor_id := cm_actor_id c;
    cm_actor_roles := cm_actor_roles c; cm_payload := cm_payload c; cm_issued_at := cm_issued_at c;
    cm_expires_at := cm_expires_at c; cm_nonce := cm_nonce c; cm_key_id := cm_key_id c;
    cm_signature := cm_signature c; cm_signature_algorithm := cm_signature_algorithm c;
    cm_payload_digest := cm_payload_digest c; cm_schema := cm_schema c |}.
Proof. by destruct c. Qed.

(** Loading what [to_dict] wrote, as far as the validation. *)
Lemma command_load_run c :
  numbers_ok (cm_expected_revision c) (cm_issued_at c) (cm_expires_at c) →
  clean_strings (cm_actor_roles c) = cm_actor_roles c → strip (cm_command_type c) = cm_command_type c →
  lower (strip (str_or_default (dget "signature_algorithm" (signed_to_dict c)) "")) =
  cm_signature_algorithm c →
  str_or_default (dget "payload_digest" (signed_to_dict c)) "" = cm_payload_digest c →
  str_or_default (PStr (cm_schema c)) LEGACY_COMMAND_SCHEMA = cm_schema c →
  command_from_mapping (signed_to_dict c) = (command_assert_structure c ;; Ok c).
Proof.
  intros Hn Hr Ht Ha Hd Hschema.
  unfold command_from_mapping. rewrite (numeric_fields_run (signed_to_dict c) _ _ _ eq_refl eq_refl eq_refl Hn).
  cbn [as_hub_error mbind result_bind fst snd]. rewrite Ha, Hd.
  change (dget "command_id" _) with (PStr (cm_command_id c)).
  change (dget "command_type" _) with (PStr (cm_command_type c)).
  change (dget "tenant_id" _) with (PStr (cm_tenant_id c)).
  change (dget "workflow_id" _) with (PStr (cm_workflow_id c)).
  change (dget "run_id" _) with (PStr (cm_run_id c)).
  change (dget "step_id" _) with (PStr (cm_step_id c)).
  change (dget "checkpoint_id" _) with (PStr (cm_checkpoint_id c)).
  change (dget "plan_hash" _) with (PStr (cm_plan_hash c)).
  change (dget "policy_version" _) with (PStr (cm_policy_version c)).
  change (dget "actor_id" _) with (PStr (cm_actor_id c)).
  change (dget "actor_roles" _) with (PList (map PStr (cm_actor_roles c))).
  change (dget "payload" _) with (PDict (cm_payload c)).
  change (dget "nonce" _) with (PStr (cm_nonce c)).
  change (dget "key_id" _) with (PStr (cm_key_id c)).
  change (dget "signature" _) with (PStr (cm_signature c)).
  change (dget "schema" _) with (PStr (cm_schema c)).
  rewrite !text_of, Hschema, py_str_clean_tuple, por_dict, Hr, Ht. cbn [py_dict mbind result_bind].
  cbv zeta. by rewrite <- command_eta.
Qed.

(** The authority fields of a v3 command are written. *)
Lemma authority_v3 c :
  cm_schema c = WORKFLOW_COMMAND_SCHEMA →
  dget "signature_algorithm" (signed_to_dict c) = PStr (cm_signature_algorithm c) ∧
  dget "payload_digest" (signed_to_dict c) = PStr (cm_payload_digest c).
Proof.
  intros Hs. unfold signed_to_dict, authority_entries. rewrite Hs.
  change (bool_decide (WORKFLOW_COMMAND_SCHEMA = COMMAND_SCHEMA)) with true. done.
Qed.

Lemma command_load c : command_normal c → command_from_mapping (signed_to_dict c) = Ok c.
Proof.
  intros [Hn Hr Hs]. pose proof (command_structure_inv c tt Hs) as (Ht & _ & Hcase).
  rewrite command_load_run; [by rewrite Hs|done|done|by apply command_type_stripped|..];
    destruct Hcase as [(Hv & Ha & Hd)|(Hv & Ha & _)].
  - unfold signed_to_dict, authority_entries. by rewrite Hv, Ha.
  - rewrite (proj1 (authority_v3 c Hv)), text_of.
    apply elem_of_cons in Ha as [->|Ha]; [done|]. by apply list_elem_of_singleton in Ha as ->.
  - unfold signed_to_dict, authority_entries. by rewrite Hv, Hd.
  - by rewrite (proj2 (authority_v3 c Hv)), text_of.
  - by rewrite Hv.
  - by rewrite Hv.
Qed.

(** Loading does not depend on the order of the fields. *)
Lemma command_load_perm d d' :
  dict_wf d → d ≡ₚ d' → command_from_mapping d = command_from_mapping d'.
Proof.
  intros Hwf Hp.
  assert (∀ k, dget k d = dget k d') as Hk by (intros k; unfold dget; by rewrite (dict_get_perm d d')).
  unfold command_from_mapping, _workflow_command_numeric_fields. by rewrite !Hk.
Qed.
End loading.

(** ** The order of the fields *)

Section order.
Context (c : SignedWorkflowCommand) (Hschema : cm_schema c = WORKFLOW_COMMAND_SCHEMA).

Definition common_entries : dict :=
  [("schema", PStr WORKFLOW_COMMAND_SCHEMA); ("command_id", PStr (cm_command_id c));
    ("command_type", PStr (cm_command_type c)); ("tenant_id", PStr (cm_tenant_id c));
    ("workflow_id", PStr (cm_workflow_id c)); ("run_id", PStr (cm_run_id c));
    ("step_id", PStr (cm_step_id c)); ("checkpoint_id", PStr (cm_checkpoint_id c));
    ("expected_revision", PInt (cm_expected_revision c)); ("plan_hash", PStr (cm_plan_hash c));
    ("policy_version", PStr (cm_policy_version c)); ("actor_id", PStr (cm_actor_id c));
    ("actor_roles", strs (cm_actor_roles c)); ("payload", PDict (cm_payload c));
    ("issued_at", PFloat (cm_issued_at c)); ("expires_at", PFloat (cm_expires_at c));
    ("nonce", PStr (cm_nonce c))].

Definition algorithm_entry : string * pyval :=
  ("signature_algorithm", PStr (cm_signature_algorithm c)).
Definition key_entry : string * pyval := ("key_id", PStr (cm_key_id c)).
Definition digest_entry : string * pyval := ("payload_digest", PStr (cm_payload_digest c)).
Definition signature_entry : string * pyval := ("signature", PStr (cm_signature c)).

(** The mapping that is signed, in the order it is built. *)
Definition unsigned_entries : dict :=
  common_entries ++ [algorithm_entry; key_entry; digest_entry].

Lemma signed_entries :
  signed_to_dict c = common_entries ++ [key_entry; signature_entry; algorithm_entry; digest_entry].
Proof using Hschema.
  unfold signed_to_dict, authority_entries. rewrite Hschema.
  change (bool_decide (WORKFLOW_COMMAND_SCHEMA = COMMAND_SCHEMA)) with true. reflexivity.
Qed.

Lemma signing_entries :
  command_signing_payload c = common_entries ++ [key_entry; algorithm_entry; digest_entry].
Proof using Hschema. unfold command_signing_payload. rewrite signed_entries. reflexivity. Qed.

Lemma signed_wf : dict_wf (unsigned_entries ++ [signature_entry]).
Proof. unfold dict_wf. apply (bool_decide_unpack _). reflexivity. Qed.

Lemma unsigned_wf : dict_wf unsigned_entries.
Proof. unfold dict_wf. apply (bool_decide_unpack _). reflexivity. Qed.

Lemma unsigned_signing : unsigned_entries ≡ₚ command_signing_payload c.
Proof using Hschema. rewrite signing_entries. apply Permutation_app_head, perm_swap. Qed.

Lemma unsigned_signed : unsigned_entries ++ [signature_entry] ≡ₚ signed_to_dict c.
Proof using Hschema.
  rewrite signed_entries. unfold unsigned_entries. rewrite <- app_assoc. apply Permutation_app_head.
  cbn [app]. rewrite perm_swap. apply perm_skip.
  apply Permutation_sym, (Permutation_cons_append [algorithm_entry; digest_entry]).
Qed.
End order.

(** ** Issuing and verifying *)

Section issuing.
Context `{Digest} `{KeyRing K}.

Lemma check_command_bindings_Ok c x u :
  check_command_bindings c x = Ok u ↔ x = command_bindings c.
Proof.
  unfold check_command_bindings. rewrite for_each_Ok, !Forall_cons. cbn [fst snd].
  setoid_rewrite raise_when_Ok. setoid_rewrite bool_decide_eq_false. split.
  - intros (H1 & H2 & H3 & H4 & H5 & H6 & H7 & H8 & _).
    apply dec_stable in H1, H2, H3, H4, H5, H6, H7, H8. apply z_str_inj in H6.
    destruct x; cbn in *. by subst.
  - intros ->. cbn. by repeat split; auto.
Qed.

(** The checks of [verify], all of which it takes. *)
Record command_verified (ring : K) (c : SignedWorkflowCommand) (x : command_expected)
  (now : float) : Prop := {
    vc_bindings : x = command_bindings c;
    vc_started : float_ltb now (cm_issued_at c) = false;
    vc_expiry : float_leb (cm_expires_at c) now = false;
    vc_algorithm : cm_signature_algorithm c = "" ∨
    cm_signature_algorithm c = signature_algorithm ring;
    vc_signature : ring_verify ring (cm_schema c) (command_signing_payload c) (cm_key_id c)
    (cm_signature c) (cm_command_id c) = Ok tt;
    vc_structure : command_assert_structure c = Ok tt;
  }.

Lemma command_verify_exact ring c x now :
  command_verify ring c x now = Ok tt ↔ command_verified ring c x now.
Proof.
  unfold command_verify. split.
  - intros ([] & Hb & Hv)%result_bind_Ok. apply result_bind_Ok in Hv as ([] & Hst & Hv).
    apply result_bind_Ok in Hv as ([] & Hex & Hv). apply result_bind_Ok in Hv as ([] & Halg & Hv).
    apply result_bind_Ok in Hv as ([] & Hsig & Hv). rewrite as_signature_error_Ok in Hsig.
    rewrite check_command_bindings_Ok in Hb. apply raise_when_Ok in Hst, Hex, Halg.
    constructor; try done. apply andb_false_iff in Halg as [Ha|Ha].
    + left. by apply str_true_false.
    + right. by apply bool_decide_eq_false, dec_stable in Ha.
  - intros [Hb Hst Hex Ha Hs Hv]. rewrite (proj2 (check_command_bindings_Ok c x tt) Hb), Hst, Hex.
    cbn [raise_when mbind result_bind].
    assert (str_true (cm_signature_algorithm c)
        && bool_decide (cm_signature_algorithm c ≠ signature_algorithm ring) = false) as ->.
    { destruct Ha as [->| ->]; [done|]. by rewrite bool_decide_false, andb_false_r by auto. }
    cbn [raise_when mbind result_bind]. rewrite Hs. exact Hv.
Qed.

Lemma command_not_revoked ring c x now :
  command_verified ring c x now → contract_revoked ring (cm_command_id c) = false.
Proof.
  intros [_ _ _ _ Hv _]. apply not_true_iff_false. intros Hr.
  eapply verify_revoked in Hr. by rewrite Hv in Hr.
Qed.

Lemma command_type_of_Ok s t : command_type_of s = Ok t → s = type_value t ∧ strip s = s.
Proof.
  unfold command_type_of. destruct (filter _ command_types) as [|t' l] eqn:Hf; [done|].
  intros [= ->]. assert (t ∈ filter (λ t, type_value t = s) command_types) as Hin
    by (rewrite Hf; by left).
  apply list_elem_of_filter in Hin as [<- _]. split; [done|]. by destruct t.
Qed.

(** The signed text of an issued command is its signing payload. *)
Lemma command_issue_Ok ring command_type tenant workflow run step checkpoint revision hash policy
  actor roles payload ttl now id nonce fresh_id fresh_nonce c :
  command_issue ring command_type tenant workflow run step checkpoint revision hash policy actor
  roles payload ttl now id nonce fresh_id fresh_nonce = Ok c →
  command_normal c ∧ cm_schema c = WORKFLOW_COMMAND_SCHEMA ∧
  cm_signature_algorithm c = signature_algorithm ring ∧
  ∃ unsigned, dict_wf unsigned ∧ unsigned ≡ₚ command_signing_payload c ∧
  ring_sign ring WORKFLOW_COMMAND_SCHEMA unsigned (active_key_id ring) =
  Ok (cm_key_id c, cm_signature c).
Proof.
  unfold command_issue. intros ([] & _ & Hc)%result_bind_Ok.
  rewrite as_signature_error_Ok, as_hub_error_Ok in Hc.
  apply result_bind_Ok in Hc as (timestamp & _ & Hc). apply result_bind_Ok in Hc as (unsigned & Hu & Hc).
  apply result_bind_Ok in Hc as ([key signature] & Hsign & Hc).
  apply result_bind_Ok in Hc as ([] & Hkey & Hc). cbn [fst snd] in *.
  apply raise_when_Ok, bool_decide_eq_false, dec_stable in Hkey. subst key.
  pose proof (loaded_normal _ _ Hc) as Hnormal.
  unfold unsigned_v3_mapping in Hu. apply result_bind_Ok in Hu as (t & Ht & Hu).
  apply result_bind_Ok in Hu as (((n & i) & e) & Hn & Hu). apply numeric_fields_Ok in Hn.
  apply result_bind_Ok in Hu as (p & _ & Hu). apply result_bind_Ok in Hu as (digest & _ & Hu).
  cbn [fst snd] in Hu. rewrite algorithm_normal in Hu.
  set (c0 := {| cm_command_id := str_or (default "" id) fresh_id; cm_command_type := type_value t;
        cm_tenant_id := strip tenant; cm_workflow_id := strip workflow; cm_run_id := strip run;
        cm_step_id := strip step; cm_checkpoint_id := strip checkpoint; cm_expected_revision := n;
        cm_plan_hash := strip hash; cm_policy_version := strip policy; cm_actor_id := strip actor;
        cm_actor_roles := clean_strings roles; cm_payload := p; cm_issued_at := i; cm_expires_at := e;
        cm_nonce := str_or (default "" nonce) fresh_nonce; cm_key_id := active_key_id ring;
        cm_signature := signature; cm_signature_algorithm := signature_algorithm ring;
        cm_payload_digest := digest; cm_schema := WORKFLOW_COMMAND_SCHEMA |}).
  assert (unsigned = unsigned_entries c0) as -> by (injection Hu as <-; reflexivity).
  assert (dict_set "signature" (PStr signature) (unsigned_entries c0) =
      unsigned_entries c0 ++ [signature_entry c0]) as Hset by reflexivity.
  assert (cm_schema c0 = WORKFLOW_COMMAND_SCHEMA) as Hschema by reflexivity.
  rewrite Hset, (command_load_perm _ (signed_to_dict c0)) in Hc;
    [|apply signed_wf|by apply unsigned_signed].
  destruct (authority_v3 c0 Hschema) as [Ha Hd].
  rewrite command_load_run in Hc.
  - apply result_bind_Ok in Hc as ([] & _ & Hc). injection Hc as <-.
    split_and!; [exact Hnormal|reflexivity|reflexivity|].
    exists (unsigned_entries c0). split_and!; [apply unsigned_wf|by apply unsigned_signing|exact Hsign].
  - exact Hn.
  - apply clean_strings_idemp.
  - by destruct t.
  - rewrite Ha, text_of. apply algorithm_normal.
  - by rewrite Hd, text_of.
  - reflexivity.
Qed.

(** C37: an issued command survives the wire and is accepted exactly where it is
    meant to be: the mapping it is sent as loads back to it, and a verifier with
    the issuer's key ring accepts it exactly for its tenant, workflow, run, step,
    checkpoint, revision, plan and policy, between its issue and its expiry, and
    only while it is not revoked; replay from the outbox drops the dates and
    nothing else. *)
Theorem command_roundtrip ring command_type tenant workflow run step checkpoint revision hash policy
  actor roles payload ttl now id nonce fresh_id fresh_nonce c x time :
  command_issue ring command_type tenant workflow run step checkpoint revision hash policy actor
  roles payload ttl now id nonce fresh_id fresh_nonce = Ok c →
  command_from_mapping (signed_to_dict c) = Ok c ∧
  (command_verify ring c x time = Ok tt ↔
    x = command_bindings c ∧ float_ltb time (cm_issued_at c) = false ∧
    float_leb (cm_expires_at c) time = false ∧ contract_revoked ring (cm_command_id c) = false) ∧
  (verify_persisted ring c x = Ok tt ↔
    x = command_bindings c ∧ contract_revoked ring (cm_command_id c) = false).
Proof.
  intros (Hn & Hs & Ha & unsigned & Hwf & Hp & Hsign)%command_issue_Ok.
  split; [by apply command_load|].
  assert (∀ x time, command_verify ring c x time = Ok tt ↔
      x = command_bindings c ∧ float_ltb time (cm_issued_at c) = false ∧
      float_leb (cm_expires_at c) time = false ∧ contract_revoked ring (cm_command_id c) = false) as Hv.
  { intros y u. rewrite command_verify_exact. split.
    - intros Hv. pose proof (command_not_revoked _ _ _ _ Hv). by destruct Hv.
    - intros (Hb & Hst & Hex & Hr). constructor; [done..|by right| |apply (cn_structure _ Hn)].
      rewrite Hs, <- (verify_key_order ring _ unsigned) by done. by eapply verify_signed. }
  split; [apply Hv|]. unfold verify_persisted. rewrite Hv.
  pose proof (command_structure_inv _ _ (cn_structure _ Hn)) as (_ & Hexp & _).
  assert (float_ltb (cm_issued_at c) (cm_issued_at c) = false) as Hlt.
  { unfold float_ltb, num_ltb, num_compare. destruct (num_of_float (cm_issued_at c)) as [m k|[]|];
      [by rewrite Z.compare_refl|done..]. }
  naive_solver.
Qed.

(** ** Spending a command *)

Notation nonce_store := (gmap (string * string) float).

Record command_call := {
    cc_ring : K;
    cc_command : SignedWorkflowCommand;
    cc_expected : command_expected;
    cc_now : float;
    cc_clock : float;
  }.

(** The nonce store of a verifier after a call of [verify_once]. *)
Definition run_command (v : command_call) (store : nonce_store) : nonce_store :=
  (verify_once (cc_ring v) (cc_command v) (cc_expected v) (cc_now v) (cc_clock v) store).2.

Lemma verify_once_run ring c x now clock store :
  verify_once ring c x now clock store =
  match command_verify ring c x now with
  | Err e => (Err e, store)
  | Ok _ =>
      match unexpired clock store !! (cm_tenant_id c, cm_nonce c) with
    | Some _ => (Err (SignatureValidationError "workflow_command_replay_detected"),
        unexpired clock store)
    | None => (Ok tt, <[(cm_tenant_id c, cm_nonce c) := cm_expires_at c]> (unexpired clock store))
    end
  end.
Proof.
  unfold verify_once. unfold mbind at 1, action_bind at 1, lift at 1.
  destruct (command_verify ring c x now) as [[]|e]; [|done].
  unfold mbind, action_bind. rewrite consume_run.
  by destruct (unexpired clock store !! _).
Qed.

Lemma run_command_keeps v store key expires :
  float_ltb (cc_clock v) expires = true → store !! key = Some expires →
  run_command v store !! key = Some expires.
Proof.
  intros Hc Hk. unfold run_command. rewrite verify_once_run.
  destruct (command_verify _ _ _ _); [|done].
  assert (unexpired (cc_clock v) store !! key = Some expires) as Hu by by apply unexpired_lookup.
  destruct (unexpired (cc_clock v) store !! (cm_tenant_id _, _)) eqn:Hn; [done|].
  cbn. rewrite lookup_insert_ne; [done|]. intros Heq. rewrite Heq in Hn. congruence.
Qed.

Lemma run_commands_keep calls store key expires :
  Forall (λ v, float_ltb (cc_clock v) expires = true) calls → store !! key = Some expires →
  run_all_calls run_command calls store !! key = Some expires.
Proof.
  intros Hc. revert store. induction Hc as [|v calls Hv _ IH]; intros store Hk; [exact Hk|].
  apply IH. by apply run_command_keeps.
Qed.

(** C38: a command is spent once: after [verify_once] accepted it, every later
    submission under the same tenant and nonce is refused and changes no live
    entry, whatever was submitted in between and whoever signed it, as long as
    the store's clock has not reached the command's expiry. *)
Theorem command_once ring c x now clock store store' calls v :
  verify_once ring c x now clock store = (Ok tt, store') →
  Forall (λ v, float_ltb (cc_clock v) (cm_expires_at c) = true) (calls ++ [v]) →
  cm_tenant_id (cc_command v) = cm_tenant_id c → cm_nonce (cc_command v) = cm_nonce c →
  let later := run_all_calls run_command calls store' in
  is_ok (verify_once (cc_ring v) (cc_command v) (cc_expected v) (cc_now v) (cc_clock v) later).1
  = false ∧
  later !! (cm_tenant_id c, cm_nonce c) = Some (cm_expires_at c).
Proof.
  rewrite verify_once_run. intros Hfirst [Hcalls Hv]%Forall_app Ht Hn later.
  destruct (command_verify ring c x now); [|done].
  destruct (unexpired clock store !! _); [done|]. injection Hfirst as <-.
  assert (later !! (cm_tenant_id c, cm_nonce c) = Some (cm_expires_at c)) as Hlater.
  { apply run_commands_keep; [done|apply lookup_insert_eq]. }
  split; [|done]. rewrite verify_once_run. destruct (command_verify _ _ _ _); [|done].
  apply Forall_cons in Hv as [Hv _]. rewrite Ht, Hn.
  assert (unexpired (cc_clock v) later !! (cm_tenant_id c, cm_nonce c) = Some (cm_expires_at c)) as Hu
    by by apply unexpired_lookup.
  by rewrite Hu.
Qed.
End issuing.

(** ** What a signature binds *)

Section unforgeable.
Context `{Digest}.

(** The wire form of a loaded command has distinct keys. *)
Lemma signing_wf c u : command_assert_structure c = Ok u → dict_wf (command_signing_payload c).
Proof.
  intros (_ & _ & [(Hs & _)|(Hs & _)])%command_structure_inv.
  - unfold command_signing_payload, signed_to_dict, authority_entries. rewrite Hs.
    apply (bool_decide_unpack _). reflexivity.
  - unfold dict_wf, dict_keys. rewrite <- (unsigned_signing c Hs). apply unsigned_wf.
Qed.

(** Two commands that differ at most in the spelling of their payload: its key
    order, and tuples for lists. *)
Definition without_payload (c : SignedWorkflowCommand) : SignedWorkflowCommand :=
  {| cm_command_id := cm_command_id c; cm_command_type := cm_command_type c;
    cm_tenant_id := cm_tenant_id c; cm_workflow_id := cm_workflow_id c; cm_run_id := cm_run_id c;
    cm_step_id := cm_step_id c; cm_checkpoint_id := cm_checkpoint_id c;
    cm_expected_revision := cm_expected_revision c; cm_plan_hash := cm_plan_hash c;
    cm_policy_version := cm_policy_version c; cm_actor_id := cm_actor_id c;
    cm_actor_roles := cm_actor_roles c; cm_payload := []; cm_issued_at := cm_issued_at c;
    cm_expires_at := cm_expires_at c; cm_nonce := cm_nonce c; cm_key_id := cm_key_id c;
    cm_signature := cm_signature c; cm_signature_algorithm := cm_signature_algorithm c;
    cm_payload_digest := cm_payload_digest c; cm_schema := cm_schema c |}.

Definition same_command (c c' : SignedWorkflowCommand) : Prop :=
  without_payload c = without_payload c' ∧
  norm (PDict (cm_payload c)) = norm (PDict (cm_payload c')).

Lemma authority_unique c c' :
  command_assert_structure c = Ok tt → command_assert_structure c' = Ok tt →
  cm_schema c = cm_schema c' →
  (∀ k, norm <$> dict_get k (command_signing_payload c) =
    norm <$> dict_get k (command_signing_payload c')) →
  cm_signature_algorithm c = cm_signature_algorithm c' ∧ cm_payload_digest c = cm_payload_digest c'.
Proof.
  intros (_ & _ & Hc)%command_structure_inv (_ & _ & Hc')%command_structure_inv Hs Hk.
  destruct Hc as [(Hl & Ha & Hd)|(Hl & _ & _)], Hc' as [(Hl' & Ha' & Hd')|(Hl' & _ & _)];
    try (exfalso; rewrite Hl, Hl' in Hs; discriminate Hs).
  - rewrite Ha, Hd, Ha', Hd'. done.
  - pose proof (Hk "signature_algorithm") as H1. pose proof (Hk "payload_digest") as H2.
    rewrite (signing_entries c Hl), (signing_entries c' Hl') in H1, H2.
    injection H1 as H1. injection H2 as H2. done.
Qed.

Lemma command_payload_unique c c' :
  command_assert_structure c = Ok tt → command_assert_structure c' = Ok tt →
  norm (PDict (command_signing_payload c)) = norm (PDict (command_signing_payload c')) →
  cm_signature c = cm_signature c' → same_command c c'.
Proof.
  intros Hc Hc' Hn Hsig. pose proof (signing_wf _ _ Hc) as Hw. pose proof (signing_wf _ _ Hc') as Hw'.
  assert (∀ k, norm <$> dict_get k (command_signing_payload c) =
      norm <$> dict_get k (command_signing_payload c')) as Hget by (intros k; by apply norm_dict_get).
  assert (cm_schema c = cm_schema c') as Hschema
    by (pose proof (Hget "schema") as Hk; by injection Hk).
  destruct (authority_unique c c' Hc Hc' Hschema Hget) as [Halg Hdig].
  norm_fields Hw Hw' Hn ("command_id", "command_type", "tenant_id", "workflow_id", "run_id",
      "step_id", "checkpoint_id", "expected_revision", "plan_hash", "policy_version", "actor_id",
      "actor_roles", "issued_at", "expires_at", "nonce", "key_id").
  pose proof (Hget "payload") as Hpay. clear Hget Hn Hw Hw' Hc Hc'.
  match goal with Hr : map norm _ = map norm _ |- _ => apply strings_unique in Hr end.
  split; [unfold without_payload; f_equal; assumption|]. exact (inj Some _ _ Hpay).
Qed.

(** C39: a signature binds the whole command: two loaded commands a key ring
    accepts under one key and signature, whose floats are finite and read back
    from their text ([json_ok]), have the same identifiers, actor, roles,
    dates, nonce, revision and plan, and the same payload, unless their own
    signed texts clash in the hash function. *)
Theorem accepted_command_unique (ring : HmacKeyRing) c c' x x' now now' :
  json_ok (PDict (command_signing_payload c)) = true →
  json_ok (PDict (command_signing_payload c')) = true →
  command_verify ring c x now = Ok tt → command_verify ring c' x' now' = Ok tt →
  cm_key_id c = cm_key_id c' → cm_signature c = cm_signature c' →
  same_command c c' ∨ ring_clash ring (cm_key_id c) (cm_schema c) (command_signing_payload c)
  (cm_schema c') (command_signing_payload c').
Proof.
  intros Hok Hok' [_ _ _ _ Hv Hs]%command_verify_exact [_ _ _ _ Hv' Hs']%command_verify_exact Hk Hsig.
  rewrite <- Hk, <- Hsig in Hv'.
  assert (∀ c, command_assert_structure c = Ok tt → one_line (cm_schema c) = true) as Hline.
  { intros d (_ & _ & [[-> _]|[-> _]])%command_structure_inv; reflexivity. }
  destruct (verify_unique ring (cm_schema c) (command_signing_payload c) (cm_command_id c)
      (cm_schema c') (command_signing_payload c') (cm_command_id c') (cm_key_id c) (cm_signature c))
    as [[_ Hn]|Hcol]; [by apply Hline|by apply Hline|done..| |by right].
  left. by apply command_payload_unique.
Qed.
End unforgeable.
