(* ===== verification/CommandSamples.v ===== *)
(** * Sample commands

    The theorems on signed commands at a concrete command, issued by a key ring
    over the checksum, and what loading does with a digest that is not ASCII. *)
From S2P Require Import Prelude PyStr PyVal Digest Serialization Plan Events KeyRing Envelope Authorization CommandContract Commands.

Notation sample_issue := (@command_issue checksum_digest HmacKeyRing sample_hmac sample_ring
  " retry " "tenant" "wf" "run" "step" "cp" (PStr "3") "hash" "p1" "ops" ["operator"; " admin "]
  [("reason", PStr "timeout")] (lit 300 0) (PInt 9) (Some "wcmd-1") None "wcmd-2" "n1").

Definition empty_command (reason : string) : SignedWorkflowCommand :=
  {| cm_command_id := reason; cm_command_type := ""; cm_tenant_id := ""; cm_workflow_id := "";
     cm_run_id := ""; cm_step_id := ""; cm_checkpoint_id := ""; cm_expected_revision := 0;
     cm_plan_hash := ""; cm_policy_version := ""; cm_actor_id := ""; cm_actor_roles := [];
     cm_payload := []; cm_issued_at := lit 0 0; cm_expires_at := lit 0 0; cm_nonce := "";
     cm_key_id := ""; cm_signature := ""; cm_signature_algorithm := ""; cm_payload_digest := "";
     cm_schema := "" |}.

Definition sample_command : SignedWorkflowCommand :=
  match sample_issue with Ok c => c | Err e => empty_command (exn_message e) end.

Lemma sample_command_issued : sample_issue = Ok sample_command.
Proof. vm_compute. reflexivity. Qed.

Lemma sample_command_accepted :
  @command_verify checksum_digest HmacKeyRing sample_hmac sample_ring sample_command
    (command_bindings sample_command) (lit 10 0) = Ok tt.
Proof. vm_compute. reflexivity. Qed.

Lemma command_roundtrip_witness :
  sample_issue = Ok sample_command ∧
  @command_from_mapping checksum_digest (signed_to_dict sample_command) = Ok sample_command.
Proof.
  split; [exact sample_command_issued|].
  exact (proj1 (@command_roundtrip checksum_digest HmacKeyRing sample_hmac sample_ring
    " retry " "tenant" "wf" "run" "step" "cp" (PStr "3") "hash" "p1" "ops" ["operator"; " admin "]
    [("reason", PStr "timeout")] (lit 300 0) (PInt 9) (Some "wcmd-1") None "wcmd-2" "n1"
    sample_command (command_bindings sample_command) (lit 10 0) sample_command_issued)).
Defined.

Lemma accepted_command_unique_witness :
  same_command sample_command sample_command ∨ @ring_clash checksum_digest sample_ring
    (cm_key_id sample_command) (cm_schema sample_command) (command_signing_payload sample_command)
    (cm_schema sample_command) (command_signing_payload sample_command).
Proof.
  apply (@accepted_command_unique checksum_digest sample_ring sample_command sample_command
    (command_bindings sample_command) (command_bindings sample_command) (lit 10 0) (lit 10 0));
    [vm_compute; reflexivity|vm_compute; reflexivity|exact sample_command_accepted
    |exact sample_command_accepted|reflexivity|reflexivity].
Defined.

(** The nonce store after the command was spent. *)
Definition sample_spent_nonces : gmap (string * string) float :=
  <[(cm_tenant_id sample_command, cm_nonce sample_command) := cm_expires_at sample_command]>
    (unexpired (lit 10 0) ∅).

Notation sample_once := (@verify_once checksum_digest HmacKeyRing sample_hmac sample_ring
  sample_command (command_bindings sample_command)).

Lemma sample_spends : sample_once (lit 10 0) (lit 10 0) ∅ = (Ok tt, sample_spent_nonces).
Proof.
  rewrite verify_once_run, sample_command_accepted. unfold unexpired at 1.
  by rewrite map_filter_empty, lookup_empty.
Qed.

Lemma command_once_witness :
  sample_once (lit 10 0) (lit 10 0) ∅ = (Ok tt, sample_spent_nonces) ∧
  is_ok (sample_once (lit 11 0) (lit 11 0) sample_spent_nonces).1 = false.
Proof.
  split; [exact sample_spends|].
  pose proof (@command_once checksum_digest HmacKeyRing sample_hmac sample_ring sample_command
    (command_bindings sample_command) (lit 10 0) (lit 10 0) ∅ sample_spent_nonces []
    {| cc_ring := sample_ring; cc_command := sample_command;
       cc_expected := command_bindings sample_command; cc_now := lit 11 0; cc_clock := lit 11 0 |}
    sample_spends) as Honce.
  cbn [cc_ring cc_command cc_expected cc_now cc_clock] in Honce.
  refine (proj1 (Honce _ eq_refl eq_refl)).
  constructor; [vm_compute; reflexivity|constructor].
Defined.

(** The digest of a submitted command is compared with [hmac.compare_digest],
    which refuses text that is not ASCII: the command is answered with a
    [TypeError] and not with a [ContractValidationError]. *)
Lemma non_ascii_digest_uncaught :
  ∃ e, @command_from_mapping checksum_digest
    (dict_set "payload_digest" (PStr (String (ascii_of_nat 233) "")) (signed_to_dict sample_command))
    = Err (TypeError e).
Proof. eexists. vm_compute. reflexivity. Qed.

(** The wire form of the runtime-neutral contract is narrower than the hub's:
    the sample is a valid hub command and has no neutral form, since its plan
    hash is no digest. *)
Lemma neutral_contract_narrower :
  @command_assert_structure checksum_digest sample_command = Ok tt ∧
  @to_contract checksum_digest sample_command = Err (TemporalContractError "invalid_plan_hash").
Proof. split; vm_compute; reflexivity. Qed.
