(* ===== verification/TemporalContracts.v ===== *)
(** * Temporal transport contracts (ananta_contracts/temporal_workflow.py)

    What crosses the boundary between the hub and the Temporal worker, apart
    from commands: the reference to an authorization envelope, the steps and the
    input of a workflow, the input and the result of an activity, and what the
    worker reports. *)
From S2P Require Import Prelude PyStr PyVal Digest Serialization Plan ProviderBinding Envelope SideEffects CommandContract.

Definition WORKFLOW_INPUT_SCHEMA : string := "ananta.temporal-workflow-input.v1".
Definition WORKFLOW_STEP_SCHEMA : string := "ananta.temporal-workflow-step.v1".
Definition ACTIVITY_INPUT_SCHEMA : string := "ananta.temporal-activity-input.v1".
Definition ACTIVITY_RESULT_SCHEMA : string := "ananta.temporal-activity-result.v1".
Definition COMMAND_RESULT_SCHEMA : string := "ananta.temporal-workflow-command-result.v2".
Definition COMMAND_AUTHORITY_RESULT_SCHEMA : string := "ananta.temporal-command-authority-result.v1".
Definition STATUS_SCHEMA : string := "ananta.temporal-workflow-status.v1".
Definition PROBE_SCHEMA : string := "ananta.temporal-probe.v1".
Definition ARTIFACT_REFERENCE_SCHEMA : string := "ananta.artifact-reference.v1".

Definition temporal_error (reason_code : string) : exn := TemporalContractError reason_code.
Definition refuse_when (b : bool) (reason_code : string) : result unit :=
  raise_when b (temporal_error reason_code).

Definition has_nul (s : string) : bool := negb (no_nul s).

(** A sequence that is not text. *)
Definition raw_sequence (v : pyval) (reason_code : string) : result (list pyval) :=
  match v with
  | PList l | PTuple l => Ok l
  | _ => Err (temporal_error reason_code)
  end.

Definition _bounded_contract_items (value : pyval) (maximum : Z) : result (list pyval) :=
  match value with
  | PNone => Ok []
  | _ =>
      items ← raw_sequence value "invalid_sequence";
      refuse_when (maximum <? Z.of_nat (length items)) "sequence_too_large" ;;
      Ok items
  end.

(** [_identifier] of each value, for its check only. *)
Definition check_identifiers (values : list string) : result unit :=
  for_each (λ value, _identifier value ;; Ok tt) values.

(** ** Phases and classes *)

Inductive WorkflowPhase :=
| CREATED | RUNNING | PAUSED | WAITING_APPROVAL | COMPLETED | FAILED | CANCELLED.

Inductive ActivityClass := READ_ONLY | IDEMPOTENT | NON_IDEMPOTENT | LONG_RUNNING.

Definition activity_classes : list ActivityClass :=
  [READ_ONLY; IDEMPOTENT; NON_IDEMPOTENT; LONG_RUNNING].

(** [activity_class.value] *)
Definition class_value (c : ActivityClass) : string :=
  match c with
  | READ_ONLY => "read_only" | IDEMPOTENT => "idempotent"
  | NON_IDEMPOTENT => "non_idempotent" | LONG_RUNNING => "long_running"
  end.

(** [ActivityClass(value)] *)
Definition activity_class_of (value : string) : result ActivityClass :=
  match filter (λ c, class_value c = value) activity_classes with
  | c :: _ => Ok c
  | [] => Err (temporal_error "invalid_activity_class")
  end.

(** ** Artifact references *)

Record ArtifactReference := {
  ar_artifact_id : string;
  ar_kind : string;
  ar_digest : string;
  ar_schema : string;
}.

Definition artifact_post_init (a : ArtifactReference) : result ArtifactReference :=
  check_identifiers [ar_artifact_id a; ar_kind a] ;;
  refuse_when (str_true (ar_digest a) && negb (_DIGEST_RE (ar_digest a))) "invalid_artifact_digest" ;;
  Ok a.

(** [ArtifactReference.from_mapping(raw)] *)
Definition reference_from_mapping (raw : pyval) : result ArtifactReference :=
  match raw with
  | PStr s =>
      artifact_post_init {| ar_artifact_id := s; ar_kind := "workflow_artifact"; ar_digest := "";
                            ar_schema := ARTIFACT_REFERENCE_SCHEMA |}
  | PDict raw =>
      artifact_post_init {|
        ar_artifact_id := str_or_default (por (dget "artifact_id" raw) (dget "id" raw)) "";
        ar_kind := str_or_default (dget "kind" raw) "workflow_artifact";
        ar_digest := str_or_default (dget "digest" raw) "";
        ar_schema := str_or_default (dget "schema" raw) ARTIFACT_REFERENCE_SCHEMA |}
  | _ => Err (temporal_error "invalid_artifact_reference")
  end.

Definition reference_to_dict (a : ArtifactReference) : dict :=
  [("artifact_id", PStr (ar_artifact_id a)); ("kind", PStr (ar_kind a));
   ("digest", PStr (ar_digest a)); ("schema", PStr (ar_schema a))].

(** ** Envelope references *)

Record AuthorizationEnvelopeRef := {
  er_envelope_id : string;
  er_tenant_id : string;
  er_workflow_id : string;
  er_run_id : string;
  er_step_id : string;
  er_plan_hash : string;
  er_policy_version : string;
  er_allowed_tools : list string;
  er_allowed_artifacts : list string;
  er_budgets : dict;
  er_issued_at : float;
  er_expires_at : float;
  er_nonce : string;
  er_key_id : string;
  er_signature : string;
  er_bindings : list ProviderBindingAuthorization;
  er_attempt_plan : list ProviderProfileAttemptPlanEntry;
  er_schema : string;
}.

Section with_endpoints.
Context `{Digest} (normalize_endpoint : string → string → option string).

(** The attempt plan covers exactly the allowed bindings, within its budget. *)
Definition check_ref_plan (r : AuthorizationEnvelopeRef) : result unit :=
  match er_attempt_plan r with
  | [] => Ok tt
  | plan =>
      let allowed := keyed ba_binding_id id (er_bindings r) in
      let planned := keyed pe_binding_id binding_authorization plan in
      refuse_when
      (bool_decide (sorted_set allowed.*1 ≠ sorted_set planned.*1)
    || existsb (λ kv, bool_decide (alist_get kv.1 allowed ≠ Some kv.2)) planned
    || negb (py_eqb false (dget "provider_attempts" (er_budgets r))
        (PInt (sum_by pe_maximum_attempts plan))))
    "invalid_provider_attempt_plan"
  end.

(** [AuthorizationEnvelopeRef.__post_init__] *)
Definition ref_post_init (r : AuthorizationEnvelopeRef) : result AuthorizationEnvelopeRef :=
  refuse_when (bool_decide (er_schema r ≠ AUTHORIZATION_ENVELOPE_SCHEMA))
  "unsupported_authorization_schema" ;;
  check_identifiers [er_envelope_id r; er_tenant_id r; er_workflow_id r; er_run_id r;
    er_step_id r; er_policy_version r; er_nonce r; er_key_id r] ;;
  refuse_when (negb (_DIGEST_RE (er_plan_hash r))) "invalid_plan_hash" ;;
  refuse_when (float_leb (er_issued_at r) (S754_zero false)
  || float_leb (er_expires_at r) (er_issued_at r)) "invalid_authorization_expiry" ;;
  refuse_when (negb (str_true (er_signature r)) || (4096 <? str_len (er_signature r))
  || has_nul (er_signature r)) "invalid_authorization_signature" ;;
  _bounded_strings (strs (er_allowed_tools r)) 128 ;;
  _bounded_strings (strs (er_allowed_artifacts r)) 128 ;;
  budgets ← _mapping (PDict (er_budgets r)) 8192;
  refuse_when (existsb (λ kv, negb (str_true (strip kv.1)) || negb (is_number kv.2) || negative kv.2)
    budgets) "invalid_authorization_budget" ;;
  refuse_when ((8 <? Z.of_nat (length (er_bindings r)))
  || (8 <? Z.of_nat (length (er_attempt_plan r)))) "invalid_provider_authorization" ;;
  or_raise (for_each (authorization_validate normalize_endpoint) (er_bindings r) ;;
    for_each (entry_validate normalize_endpoint) (er_attempt_plan r))
  (temporal_error "invalid_provider_authorization") ;;
  check_ref_plan r ;;
  Ok r.

(** [AuthorizationEnvelopeRef.from_mapping(raw)] *)
Definition ref_from_mapping (raw : pyval) : result AuthorizationEnvelopeRef :=
  match raw with
  | PDict raw =>
      let text k := str_or_default (dget k raw) "" in
      tools ← _bounded_strings (dget "allowed_tools" raw) 128;
      artifacts ← _bounded_strings (dget "allowed_artifacts" raw) 128;
      budgets ← _mapping (dget "budgets" raw) 8192;
      issued_at ← py_float (por (dget "issued_at" raw) (PInt 0));
      expires_at ← py_float (por (dget "expires_at" raw) (PInt 0));
      items ← _bounded_contract_items (dget "allowed_provider_bindings" raw) 8;
      bindings ← map_result (authorization_from_mapping normalize_endpoint) items;
      items ← _bounded_contract_items (dget "provider_attempt_plan" raw) 8;
      plan ← map_result (entry_from_mapping normalize_endpoint) items;
      ref_post_init {|
        er_envelope_id := text "envelope_id"; er_tenant_id := text "tenant_id";
        er_workflow_id := text "workflow_id"; er_run_id := text "run_id";
        er_step_id := text "step_id"; er_plan_hash := text "plan_hash";
        er_policy_version := text "policy_version"; er_allowed_tools := tools;
        er_allowed_artifacts := artifacts; er_budgets := budgets; er_issued_at := issued_at;
        er_expires_at := expires_at; er_nonce := text "nonce"; er_key_id := text "key_id";
        er_signature := text "signature"; er_bindings := bindings; er_attempt_plan := plan;
        er_schema := text "schema" |}
  | _ => Err (temporal_error "authorization_required")
  end.

(** [AuthorizationEnvelopeRef.to_dict()] *)
Definition envelope_ref_to_dict (r : AuthorizationEnvelopeRef) : result dict :=
  bindings ← map_result (authorization_to_dict normalize_endpoint) (er_bindings r);
  plan ← map_result (entry_to_dict normalize_endpoint) (er_attempt_plan r);
  Ok ([("envelope_id", PStr (er_envelope_id r)); ("tenant_id", PStr (er_tenant_id r));
      ("workflow_id", PStr (er_workflow_id r)); ("run_id", PStr (er_run_id r));
      ("step_id", PStr (er_step_id r)); ("plan_hash", PStr (er_plan_hash r));
      ("policy_version", PStr (er_policy_version r)); ("allowed_tools", strs (er_allowed_tools r));
      ("allowed_artifacts", strs (er_allowed_artifacts r)); ("budgets", PDict (er_budgets r));
      ("issued_at", PFloat (er_issued_at r)); ("expires_at", PFloat (er_expires_at r));
      ("nonce", PStr (er_nonce r)); ("key_id", PStr (er_key_id r));
      ("signature", PStr (er_signature r))]
    ++ optional_entry "allowed_provider_bindings" (map PDict bindings)
    ++ optional_entry "provider_attempt_plan" (map PDict plan)
    ++ [("schema", PStr (er_schema r))]).

(** [validate_binding] *)
Definition validate_binding (r : AuthorizationEnvelopeRef)
  (tenant_id workflow_id run_id step_id plan_hash : string) : result unit :=
  refuse_when
  (bool_decide ([er_tenant_id r; er_workflow_id r; er_run_id r; er_step_id r; er_plan_hash r]
      ≠ [tenant_id; workflow_id; run_id; step_id; plan_hash]))
  "authorization_binding_mismatch".

(** ** Steps *)

Record TemporalWorkflowStep := {
    ts_step_id : string;
    ts_title : string;
    ts_operation_id : string;
    ts_authorization : AuthorizationEnvelopeRef;
    ts_depends_on : list string;
    ts_artifact_refs : list ArtifactReference;
    ts_activity_class : ActivityClass;
    ts_gate : bool;
    ts_task_kind : string;
    ts_required_capabilities : list string;
    ts_node_type : string;
    ts_parallel_group : string;
    ts_merge_strategy : string;
    ts_partial_failure : string;
    ts_schema : string;
  }.

(** What [__post_init__] of steps and of activity inputs checks of the kind of
    a node; [merge_check] is what a merge needs besides its strategy. *)
Definition check_node_type (node_type : string) : result unit :=
  refuse_when (bool_decide (node_type ∉ ["task"; "merge"; "checkpoint"; "component"]))
  "invalid_step_node_type".

Definition check_partial_failure (partial_failure : string) : result unit :=
  refuse_when (bool_decide (partial_failure ∉ ["fail"; "omit"])) "invalid_partial_failure_policy".

Definition check_merge (node_type merge_strategy partial_failure : string) (merge_check : result unit)
  : result unit :=
  if bool_decide (node_type = "merge") then
  refuse_when (bool_decide (merge_strategy ∉ ["ordered_artifact_refs"; "object_by_step_id"]))
  "invalid_merge_strategy" ;;
  merge_check
  else
  refuse_when (str_true merge_strategy) "merge_strategy_requires_merge_step" ;;
  refuse_when (bool_decide (partial_failure ≠ "fail")) "partial_failure_requires_merge_step".

(** [TemporalWorkflowStep.__post_init__] *)
Definition step_post_init (s : TemporalWorkflowStep) : result TemporalWorkflowStep :=
  refuse_when (bool_decide (ts_schema s ≠ WORKFLOW_STEP_SCHEMA)) "unsupported_step_schema" ;;
  check_identifiers [ts_step_id s; ts_operation_id s; ts_task_kind s] ;;
  refuse_when (negb (str_true (ts_title s)) || (512 <? str_len (ts_title s)) || has_nul (ts_title s))
  "invalid_step_title" ;;
  _bounded_strings (strs (ts_depends_on s)) 128 ;;
  _bounded_strings (strs (ts_required_capabilities s)) 128 ;;
  check_node_type (ts_node_type s) ;;
  check_identifiers [ts_parallel_group s] ;;
  check_partial_failure (ts_partial_failure s) ;;
  check_merge (ts_node_type s) (ts_merge_strategy s) (ts_partial_failure s)
  (refuse_when (bool_decide (ts_depends_on s = [])) "merge_dependencies_required") ;;
  Ok s.

(** [TemporalWorkflowStep.from_mapping(raw, ...)] *)
Definition temporal_step_from_mapping (tenant_id workflow_id run_id plan_hash : string)
  (inherited_authorization : pyval) (raw : pyval) : result TemporalWorkflowStep :=
  match raw with
  | PDict raw =>
      step_id ← _identifier (str_or_default (por (dget "step_id" raw) (dget "id" raw)) "");
      operation_id ←
      (if str_true (stripped "operation_id" raw) then Ok (stripped "operation_id" raw)
        else operation_id_for tenant_id run_id step_id "hub_task");
      authorization ← ref_from_mapping (por (dget "authorization_envelope" raw) inherited_authorization);
      validate_binding authorization tenant_id workflow_id run_id step_id plan_hash ;;
      activity_class ← activity_class_of
      (first_str ["activity_class"; "side_effect_class"] "long_running" raw);
      raw_artifacts ← raw_sequence
      (por (dget "artifact_refs" raw) (por (dget "input_artifacts" raw) (PTuple [])))
      "invalid_artifact_references";
      depends_on ← _bounded_strings (dget "depends_on" raw) 128;
      artifact_refs ← map_result reference_from_mapping raw_artifacts;
      required_capabilities ← _bounded_strings (dget "required_capabilities" raw) 128;
      step_post_init {|
        ts_step_id := step_id; ts_title := first_str ["title"; "label"] step_id raw;
        ts_operation_id := operation_id; ts_authorization := authorization;
        ts_depends_on := depends_on; ts_artifact_refs := artifact_refs;
        ts_activity_class := activity_class;
        ts_gate := truthy (get_default "gate" (PBool false) raw);
        ts_task_kind := first_str ["task_kind"] "coding" raw;
        ts_required_capabilities := required_capabilities;
        ts_node_type := first_str ["node_type"] "task" raw;
        ts_parallel_group := first_str ["parallel_group"] "default" raw;
        ts_merge_strategy := first_str ["merge_strategy"] "" raw;
        ts_partial_failure := first_str ["partial_failure"] "fail" raw;
        ts_schema := str_or_default (dget "schema" raw) WORKFLOW_STEP_SCHEMA |}
  | _ => Err (temporal_error "invalid_workflow_step")
  end.

Definition temporal_step_to_dict (s : TemporalWorkflowStep) : result dict :=
  authorization ← envelope_ref_to_dict (ts_authorization s);
  Ok [("step_id", PStr (ts_step_id s)); ("title", PStr (ts_title s));
    ("operation_id", PStr (ts_operation_id s)); ("authorization_envelope", PDict authorization);
    ("depends_on", strs (ts_depends_on s));
    ("artifact_refs", PList (map (λ a, PDict (reference_to_dict a)) (ts_artifact_refs s)));
    ("activity_class", PStr (class_value (ts_activity_class s))); ("gate", PBool (ts_gate s));
    ("task_kind", PStr (ts_task_kind s));
    ("required_capabilities", strs (ts_required_capabilities s));
    ("node_type", PStr (ts_node_type s)); ("parallel_group", PStr (ts_parallel_group s));
    ("merge_strategy", PStr (ts_merge_strategy s));
    ("partial_failure", PStr (ts_partial_failure s)); ("schema", PStr (ts_schema s))].

(** ** The input of a workflow *)

Record AnantaWorkflowInput := {
    wi_tenant_id : string;
    wi_workflow_id : string;
    wi_run_id : string;
    wi_correlation_id : string;
    wi_plan_hash : string;
    wi_policy_version : string;
    wi_steps : list TemporalWorkflowStep;
    wi_retry_budget_remaining : Z;
    wi_retry_budget_maximum : option Z;
    wi_mutable_parameters : list string;
    wi_parameters : dict;
    wi_max_parallel_steps : Z;
    wi_tenant_parallel_limit : Z;
    wi_worker_parallel_limit : Z;
    wi_max_history_events : Z;
    wi_max_state_bytes : Z;
    wi_schema : string;
  }.

(** Dependencies refer to earlier steps. *)
Fixpoint check_step_order (known : list string) (steps : list TemporalWorkflowStep) : result unit :=
  match steps with
  | [] => Ok tt
  | s :: steps =>
      refuse_when (existsb (λ d, bool_decide (d ∉ known)) (ts_depends_on s)) "invalid_step_order" ;;
      check_step_order (ts_step_id s :: known) steps
  end.

(** The maximum of a retry budget, which defaults to what remains. *)
Definition retry_maximum (remaining : Z) (maximum : option Z) : result Z :=
  let maximum := default remaining maximum in
  refuse_when (negb ((remaining <=? maximum) && (maximum <=? 1000)))
  "invalid_retry_budget_maximum" ;;
  Ok maximum.

Definition with_retry_maximum (maximum : Z) (i : AnantaWorkflowInput) : AnantaWorkflowInput :=
  {| wi_tenant_id := wi_tenant_id i; wi_workflow_id := wi_workflow_id i; wi_run_id := wi_run_id i;
    wi_correlation_id := wi_correlation_id i; wi_plan_hash := wi_plan_hash i;
    wi_policy_version := wi_policy_version i; wi_steps := wi_steps i;
    wi_retry_budget_remaining := wi_retry_budget_remaining i;
    wi_retry_budget_maximum := Some maximum; wi_mutable_parameters := wi_mutable_parameters i;
    wi_parameters := wi_parameters i; wi_max_parallel_steps := wi_max_parallel_steps i;
    wi_tenant_parallel_limit := wi_tenant_parallel_limit i;
    wi_worker_parallel_limit := wi_worker_parallel_limit i;
    wi_max_history_events := wi_max_history_events i; wi_max_state_bytes := wi_max_state_bytes i;
    wi_schema := wi_schema i |}.

Definition within (lo hi n : Z) : bool := (lo <=? n) && (n <=? hi).

(** [AnantaWorkflowInput.__post_init__] *)
Definition input_post_init (i : AnantaWorkflowInput) : result AnantaWorkflowInput :=
  refuse_when (bool_decide (wi_schema i ≠ WORKFLOW_INPUT_SCHEMA))
  "unsupported_workflow_input_schema" ;;
  check_identifiers [wi_tenant_id i; wi_workflow_id i; wi_run_id i; wi_correlation_id i;
    wi_policy_version i] ;;
  refuse_when (negb (_DIGEST_RE (wi_plan_hash i))) "invalid_plan_hash" ;;
  refuse_when (bool_decide (wi_steps i = []) || (1000 <? Z.of_nat (length (wi_steps i))))
  "invalid_steps" ;;
  refuse_when (duplicates (map ts_step_id (wi_steps i))) "duplicate_step_id" ;;
  check_step_order [] (wi_steps i) ;;
  refuse_when (negb (within 0 1000 (wi_retry_budget_remaining i))) "invalid_retry_budget" ;;
  maximum ← retry_maximum (wi_retry_budget_remaining i) (wi_retry_budget_maximum i);
  _bounded_strings (strs (wi_mutable_parameters i)) 64 ;;
  parameters ← _mapping (PDict (wi_parameters i)) 32768;
  refuse_when (_contains_sensitive_keys (PDict parameters)) "embedded_secret_denied" ;;
  refuse_when (existsb (λ k, bool_decide (k ∉ wi_mutable_parameters i)) (dict_keys parameters))
  "immutable_parameter" ;;
  refuse_when (existsb (λ n, negb (within 1 128 n))
    [wi_max_parallel_steps i; wi_tenant_parallel_limit i; wi_worker_parallel_limit i])
  "invalid_parallel_limit" ;;
  refuse_when (negb (within 100 1000000 (wi_max_history_events i))) "invalid_history_limit" ;;
  refuse_when (negb (within 16384 16777216 (wi_max_state_bytes i))) "invalid_state_limit" ;;
  Ok (with_retry_maximum maximum i).

(** [v if isinstance(v, Mapping) else {}] *)
Definition mapping_or_empty (v : pyval) : dict := match v with PDict d => d | _ => [] end.

(** [AnantaWorkflowInput.from_mapping(raw, runtime_run_id=...)] *)
Definition input_from_mapping (runtime_run_id : string) (raw : pyval) : result AnantaWorkflowInput :=
  match raw with
  | PDict raw =>
      let number k d := py_int (get_default k (PInt d) raw) in
      let metadata := mapping_or_empty (dget "metadata" raw) in
      let policy_scope := mapping_or_empty (dget "policy_scope" raw) in
      let tenant_id := str_or_default (por (dget "tenant_id" raw)
        (por (dget "tenant_id" metadata) (dget "tenant_id" policy_scope))) "" in
      let workflow_id := str_or_default (dget "workflow_id" raw) "" in
      let run_id := str_or_default (por (dget "run_id" raw) (PStr runtime_run_id)) "" in
      let plan_hash := str_or_default (por (dget "plan_hash" raw) (dget "plan_hash" metadata)) "" in
      let policy_version := str_or_default
      (por (dget "policy_version" raw) (dget "policy_version" metadata)) "" in
      let inherited := match dget "authorization_envelope" raw with PDict d => PDict d | _ => PNone end in
      raw_steps ← raw_sequence (dget "steps" raw) "invalid_steps";
      steps ← map_result (temporal_step_from_mapping tenant_id workflow_id run_id plan_hash inherited)
      raw_steps;
      remaining ← number "retry_budget_remaining" 0;
      maximum ← py_int (get_default "retry_budget_maximum"
        (get_default "retry_budget_remaining" (PInt 0) raw) raw);
      mutable_parameters ← _bounded_strings (dget "mutable_parameters" raw) 64;
      parameters ← _mapping (dget "parameters" raw) 32768;
      max_parallel_steps ← number "max_parallel_steps" 1;
      tenant_parallel_limit ← number "tenant_parallel_limit" 1;
      worker_parallel_limit ← number "worker_parallel_limit" 1;
      max_history_events ← number "max_history_events" 20000;
      max_state_bytes ← number "max_state_bytes" 512000;
      input_post_init {|
        wi_tenant_id := tenant_id; wi_workflow_id := workflow_id; wi_run_id := run_id;
        wi_correlation_id := str_or_default (dget "correlation_id" raw) "";
        wi_plan_hash := plan_hash; wi_policy_version := policy_version; wi_steps := steps;
        wi_retry_budget_remaining := remaining; wi_retry_budget_maximum := Some maximum;
        wi_mutable_parameters := mutable_parameters; wi_parameters := parameters;
        wi_max_parallel_steps := max_parallel_steps;
        wi_tenant_parallel_limit := tenant_parallel_limit;
        wi_worker_parallel_limit := worker_parallel_limit;
        wi_max_history_events := max_history_events; wi_max_state_bytes := max_state_bytes;
        wi_schema := str_or_default (dget "schema" raw) WORKFLOW_INPUT_SCHEMA |}
  | _ => Err (temporal_error "invalid_workflow_input")
  end.

Definition optional_int (n : option Z) : pyval := from_option PInt PNone n.

Definition input_to_dict (i : AnantaWorkflowInput) : result dict :=
  steps ← map_result temporal_step_to_dict (wi_steps i);
  Ok [("schema", PStr (wi_schema i)); ("tenant_id", PStr (wi_tenant_id i));
    ("workflow_id", PStr (wi_workflow_id i)); ("run_id", PStr (wi_run_id i));
    ("correlation_id", PStr (wi_correlation_id i)); ("plan_hash", PStr (wi_plan_hash i));
    ("policy_version", PStr (wi_policy_version i)); ("steps", PList (map PDict steps));
    ("retry_budget_remaining", PInt (wi_retry_budget_remaining i));
    ("retry_budget_maximum", optional_int (wi_retry_budget_maximum i));
    ("mutable_parameters", strs (wi_mutable_parameters i)); ("parameters", PDict (wi_parameters i));
    ("max_parallel_steps", PInt (wi_max_parallel_steps i));
    ("tenant_parallel_limit", PInt (wi_tenant_parallel_limit i));
    ("worker_parallel_limit", PInt (wi_worker_parallel_limit i));
    ("max_history_events", PInt (wi_max_history_events i));
    ("max_state_bytes", PInt (wi_max_state_bytes i))].

(** ** Activities *)

Record StepActivityInput := {
    si_tenant_id : string;
    si_workflow_id : string;
    si_run_id : string;
    si_correlation_id : string;
    si_step_id : string;
    si_operation_id : string;
    si_plan_hash : string;
    si_task_kind : string;
    si_authorization : AuthorizationEnvelopeRef;
    si_artifact_refs : list ArtifactReference;
    si_required_capabilities : list string;
    si_activity_class : ActivityClass;
    si_retry_budget_remaining : Z;
    si_retry_budget_maximum : option Z;
    si_parameters : dict;
    si_node_type : string;
    si_parallel_group : string;
    si_merge_strategy : string;
    si_partial_failure : string;
    si_schema : string;
  }.

Definition with_activity_maximum (maximum : Z) (s : StepActivityInput) : StepActivityInput :=
  {| si_tenant_id := si_tenant_id s; si_workflow_id := si_workflow_id s; si_run_id := si_run_id s;
    si_correlation_id := si_correlation_id s; si_step_id := si_step_id s;
    si_operation_id := si_operation_id s; si_plan_hash := si_plan_hash s;
    si_task_kind := si_task_kind s; si_authorization := si_authorization s;
    si_artifact_refs := si_artifact_refs s; si_required_capabilities := si_required_capabilities s;
    si_activity_class := si_activity_class s;
    si_retry_budget_remaining := si_retry_budget_remaining s;
    si_retry_budget_maximum := Some maximum; si_parameters := si_parameters s;
    si_node_type := si_node_type s; si_parallel_group := si_parallel_group s;
    si_merge_strategy := si_merge_strategy s; si_partial_failure := si_partial_failure s;
    si_schema := si_schema s |}.

(** [StepActivityInput.__post_init__] *)
Definition activity_post_init (s : StepActivityInput) : result StepActivityInput :=
  refuse_when (bool_decide (si_schema s ≠ ACTIVITY_INPUT_SCHEMA)) "unsupported_activity_input_schema" ;;
  check_identifiers [si_tenant_id s; si_workflow_id s; si_run_id s; si_correlation_id s;
    si_step_id s; si_operation_id s; si_task_kind s] ;;
  refuse_when (negb (_DIGEST_RE (si_plan_hash s))) "invalid_plan_hash" ;;
  validate_binding (si_authorization s) (si_tenant_id s) (si_workflow_id s) (si_run_id s)
  (si_step_id s) (si_plan_hash s) ;;
  _mapping (PDict (si_parameters s)) 32768 ;;
  refuse_when (_contains_sensitive_keys (PDict (si_parameters s))) "embedded_secret_denied" ;;
  refuse_when (si_retry_budget_remaining s <? 0) "invalid_retry_budget" ;;
  maximum ← retry_maximum (si_retry_budget_remaining s) (si_retry_budget_maximum s);
  check_node_type (si_node_type s) ;;
  check_identifiers [si_parallel_group s] ;;
  check_partial_failure (si_partial_failure s) ;;
  check_merge (si_node_type s) (si_merge_strategy s) (si_partial_failure s) (Ok tt) ;;
  Ok (with_activity_maximum maximum s).

(** [StepActivityInput.from_mapping(raw)] *)
Definition activity_from_mapping (raw : pyval) : result StepActivityInput :=
  match raw with
  | PDict raw =>
      let text k := str_or_default (dget k raw) "" in
      raw_artifacts ← match dget "artifact_refs" raw with
    | PNone => Ok []
    | v => raw_sequence v "invalid_artifact_references"
    end;
    activity_class ← activity_class_of (text "activity_class");
    remaining ← match py_int (get_default "retry_budget_remaining" (PInt 0) raw) with
    | Err e => Err (if is_value_or_type_error e then temporal_error "invalid_retry_budget"
        else e)
    | r => r
    end;
    authorization ← ref_from_mapping (dget "authorization_envelope" raw);
    artifact_refs ← map_result reference_from_mapping raw_artifacts;
    required_capabilities ← _bounded_strings (dget "required_capabilities" raw) 128;
    maximum ← py_int (get_default "retry_budget_maximum" (PInt remaining) raw);
    parameters ← _mapping (dget "parameters" raw) 32768;
    activity_post_init {|
      si_tenant_id := text "tenant_id"; si_workflow_id := text "workflow_id";
      si_run_id := text "run_id"; si_correlation_id := text "correlation_id";
      si_step_id := text "step_id"; si_operation_id := text "operation_id";
      si_plan_hash := text "plan_hash"; si_task_kind := text "task_kind";
      si_authorization := authorization; si_artifact_refs := artifact_refs;
      si_required_capabilities := required_capabilities; si_activity_class := activity_class;
      si_retry_budget_remaining := remaining; si_retry_budget_maximum := Some maximum;
      si_parameters := parameters; si_node_type := first_str ["node_type"] "task" raw;
      si_parallel_group := first_str ["parallel_group"] "default" raw;
      si_merge_strategy := first_str ["merge_strategy"] "" raw;
      si_partial_failure := first_str ["partial_failure"] "fail" raw;
      si_schema := text "schema" |}
  | _ => Err (temporal_error "invalid_activity_input")
  end.

Definition activity_to_dict (s : StepActivityInput) : result dict :=
  authorization ← envelope_ref_to_dict (si_authorization s);
  Ok [("tenant_id", PStr (si_tenant_id s)); ("workflow_id", PStr (si_workflow_id s));
    ("run_id", PStr (si_run_id s)); ("correlation_id", PStr (si_correlation_id s));
    ("step_id", PStr (si_step_id s)); ("operation_id", PStr (si_operation_id s));
    ("plan_hash", PStr (si_plan_hash s)); ("task_kind", PStr (si_task_kind s));
    ("authorization_envelope", PDict authorization);
    ("artifact_refs", PList (map (λ a, PDict (reference_to_dict a)) (si_artifact_refs s)));
    ("required_capabilities", strs (si_required_capabilities s));
    ("activity_class", PStr (class_value (si_activity_class s)));
    ("retry_budget_remaining", PInt (si_retry_budget_remaining s));
    ("retry_budget_maximum", optional_int (si_retry_budget_maximum s));
    ("parameters", PDict (si_parameters s)); ("node_type", PStr (si_node_type s));
    ("parallel_group", PStr (si_parallel_group s)); ("merge_strategy", PStr (si_merge_strategy s));
    ("partial_failure", PStr (si_partial_failure s)); ("schema", PStr (si_schema s))].
End with_endpoints.

Record StepActivityResult := {
  sr_operation_id : string;
  sr_status : string;
  sr_hub_task_id : string;
  sr_artifact_refs : list ArtifactReference;
  sr_canonical_event_refs : list string;
  sr_attempt : Z;
  sr_reason_code : string;
  sr_schema : string;
}.

(** [StepActivityResult.__post_init__] *)
Definition activity_result_post_init (r : StepActivityResult) : result StepActivityResult :=
  refuse_when (bool_decide (sr_schema r ≠ ACTIVITY_RESULT_SCHEMA)) "unsupported_activity_result_schema" ;;
  check_identifiers [sr_operation_id r] ;;
  (if str_true (sr_hub_task_id r) then check_identifiers [sr_hub_task_id r] else Ok tt) ;;
  refuse_when (bool_decide (sr_status r ∉ ["completed"; "failed"; "cancelled"; "uncertain"]))
    "invalid_activity_status" ;;
  refuse_when (negb (within 1 1000 (sr_attempt r))) "invalid_activity_attempt" ;;
  _bounded_strings (strs (sr_canonical_event_refs r)) 128 ;;
  refuse_when (256 <? str_len (sr_reason_code r)) "invalid_reason_code" ;;
  Ok r.

(** [StepActivityResult.from_mapping(raw)] *)
Definition activity_result_from_mapping (raw : pyval) : result StepActivityResult :=
  match raw with
  | PDict raw =>
      let text k := str_or_default (dget k raw) "" in
      raw_artifacts ← raw_sequence (por (dget "artifact_refs" raw) (PTuple []))
        "invalid_artifact_references";
      artifact_refs ← map_result reference_from_mapping raw_artifacts;
      event_refs ← _bounded_strings (dget "canonical_event_refs" raw) 128;
      attempt ← py_int (por (dget "attempt" raw) (PInt 1));
      activity_result_post_init {|
        sr_operation_id := text "operation_id"; sr_status := text "status";
        sr_hub_task_id := text "hub_task_id"; sr_artifact_refs := artifact_refs;
        sr_canonical_event_refs := event_refs; sr_attempt := attempt;
        sr_reason_code := text "reason_code"; sr_schema := text "schema" |}
  | _ => Err (temporal_error "invalid_activity_result")
  end.

Definition activity_result_to_dict (r : StepActivityResult) : dict :=
  [("schema", PStr (sr_schema r)); ("operation_id", PStr (sr_operation_id r));
   ("status", PStr (sr_status r)); ("hub_task_id", PStr (sr_hub_task_id r));
   ("artifact_refs", PList (map (λ a, PDict (reference_to_dict a)) (sr_artifact_refs r)));
   ("canonical_event_refs", strs (sr_canonical_event_refs r)); ("attempt", PInt (sr_attempt r));
   ("reason_code", PStr (sr_reason_code r))].

(** ** Reports *)

Record WorkflowCommandAuthorityResult := {
  ca_accepted : bool;
  ca_command_id : string;
  ca_payload_digest : string;
  ca_signature_algorithm : string;
  ca_key_id : string;
  ca_reason_code : string;
  ca_schema : string;
}.

(** [re.fullmatch(r"sha256:[a-f0-9]{64}", s)] *)
Definition prefixed_sha256 (s : string) : bool :=
  match strip_prefix "sha256:" s with Some digest => sha256_re digest | None => false end.

(** [re.fullmatch(r"[a-z][a-z0-9_]{0,255}", s)] *)
Definition stable_reason (s : string) : bool :=
  match s with
  | EmptyString => false
  | String c s' =>
      is_lower_ascii c &&
      str_forall (λ c, is_lower_ascii c || is_digit_ascii c || bool_decide (c = "_"%char)) s'
      && (str_len s' <=? 255)
  end.

(** [WorkflowCommandAuthorityResult.__post_init__] *)
Definition authority_post_init (r : WorkflowCommandAuthorityResult)
  : result WorkflowCommandAuthorityResult :=
  refuse_when (bool_decide (ca_schema r ≠ COMMAND_AUTHORITY_RESULT_SCHEMA))
    "command_authority_result_schema_unsupported" ;;
  refuse_when
    (if ca_accepted r then
       negb (_IDENTIFIER_RE (ca_command_id r)) || negb (prefixed_sha256 (ca_payload_digest r))
       || bool_decide (ca_signature_algorithm r ≠ "ed25519")
       || negb (_IDENTIFIER_RE (ca_key_id r)) || str_true (ca_reason_code r)
     else negb (stable_reason (ca_reason_code r))) "command_authority_result_invalid" ;;
  Ok r.

(** [WorkflowCommandAuthorityResult.from_mapping(raw)] *)
Definition authority_from_mapping (raw : pyval) : result WorkflowCommandAuthorityResult :=
  match raw with
  | PDict raw =>
      let text k := str_or_default (dget k raw) "" in
      authority_post_init {|
        ca_accepted := match dget "accepted" raw with PBool true => true | _ => false end;
        ca_command_id := text "command_id"; ca_payload_digest := text "payload_digest";
        ca_signature_algorithm := text "signature_algorithm"; ca_key_id := text "key_id";
        ca_reason_code := text "reason_code"; ca_schema := text "schema" |}
  | _ => Err (temporal_error "command_authority_result_invalid")
  end.

Definition authority_to_dict (r : WorkflowCommandAuthorityResult) : dict :=
  [("accepted", PBool (ca_accepted r)); ("command_id", PStr (ca_command_id r));
   ("payload_digest", PStr (ca_payload_digest r));
   ("signature_algorithm", PStr (ca_signature_algorithm r)); ("key_id", PStr (ca_key_id r));
   ("reason_code", PStr (ca_reason_code r)); ("schema", PStr (ca_schema r))].

Record WorkflowCommandResult := {
  wx_command_id : string;
  wx_accepted : bool;
  wx_revision : Z;
  wx_status : string;
  wx_reason_code : string;
  wx_schema : string;
}.

Definition command_result_to_dict (r : WorkflowCommandResult) : dict :=
  [("command_id", PStr (wx_command_id r)); ("accepted", PBool (wx_accepted r));
   ("revision", PInt (wx_revision r)); ("status", PStr (wx_status r));
   ("reason_code", PStr (wx_reason_code r)); ("schema", PStr (wx_schema r))].

(** [_redact] of a value that is not under a sensitive key. *)
Fixpoint redact_value (value : pyval) : pyval :=
  match value with
  | PDict d =>
      PDict (sort_by key_leb (map (λ kv,
        (kv.1, if _is_sensitive_key (lower (strip kv.1)) then PStr "[REDACTED]"
               else redact_value kv.2)) d))
  | PList l | PTuple l => PList (take 128 (map redact_value l))
  | PStr s => PStr (str_take 512 s)
  | v => v
  end.

(** [redact_mapping(value)] *)
Definition redact_mapping (value : dict) : pyval := redact_value (PDict value).

Record WorkflowStatus := {
  wu_workflow_id : string;
  wu_run_id : string;
  wu_status : string;
  wu_revision : Z;
  wu_current_step_id : string;
  wu_completed_step_ids : list string;
  wu_retry_budget_remaining : Z;
  wu_checkpoint_ref : string;
  wu_open_gates : list string;
  wu_reason_code : string;
  wu_parameters : dict;
  wu_plan_hash : string;
  wu_plan_revision : Z;
  wu_plan_ref : string;
  wu_active_step_ids : list string;
  wu_failed_step_ids : list string;
  wu_schema : string;
}.

Definition status_to_dict (s : WorkflowStatus) : dict :=
  [("schema", PStr (wu_schema s)); ("workflow_id", PStr (wu_workflow_id s));
   ("run_id", PStr (wu_run_id s)); ("status", PStr (wu_status s)); ("revision", PInt (wu_revision s));
   ("current_step_id", PStr (wu_current_step_id s));
   ("completed_step_ids", strs (wu_completed_step_ids s));
   ("retry_budget_remaining", PInt (wu_retry_budget_remaining s));
   ("checkpoint_ref", PStr (wu_checkpoint_ref s)); ("open_gates", strs (wu_open_gates s));
   ("reason_code", PStr (wu_reason_code s)); ("parameters", redact_mapping (wu_parameters s));
   ("plan_hash", PStr (wu_plan_hash s)); ("plan_revision", PInt (wu_plan_revision s));
   ("plan_ref", PStr (wu_plan_ref s)); ("active_step_ids", strs (wu_active_step_ids s));
   ("failed_step_ids", strs (wu_failed_step_ids s))].

Record ProbeRequest := {
  pr_request_id : string;
  pr_value : string;
  pr_schema : string;
}.

(** [ProbeRequest.__post_init__] *)
Definition probe_post_init (p : ProbeRequest) : result ProbeRequest :=
  refuse_when (bool_decide (pr_schema p ≠ PROBE_SCHEMA)) "unsupported_probe_schema" ;;
  check_identifiers [pr_request_id p] ;;
  refuse_when ((128 <? str_len (pr_value p)) || has_nul (pr_value p)) "invalid_probe_value" ;;
  Ok p.
