(* ===== verification/TemporalLaws.v ===== *)
(** * The Temporal boundary

    An envelope the hub signed reaches the worker and comes back with the same
    signed payload, and an input that loads is an ordered, bounded workflow whose
    steps are all authorized for it. *)
From S2P Require Import Prelude PyStr PyVal Digest Serialization Plan PlanLaws ProviderBinding KeyRing Envelope SideEffects Authorization CommandContract TemporalContracts.

Lemma NoDup_sorted_set l : NoDup (sorted_set l).
Proof. unfold sorted_set, sorted_strings. rewrite sort_by_perm. apply NoDup_remove_dups. Qed.

Lemma temporal_identifier_Ok s t : _identifier s = Ok t → t = strip s.
Proof. unfold _identifier. intros ([] & _ & Ht)%result_bind_Ok. by injection Ht as <-. Qed.

Lemma collect_identifiers_Ok acc l l' :
  NoDup (acc ++ l) → Forall (λ s, s ≠ "" ∧ strip s = s) l →
  collect_identifiers acc (map PStr l) = Ok l' → l' = acc ++ l.
Proof.
  revert acc. induction l as [|x l IH]; intros acc Hnd Hl; cbn [map collect_identifiers].
  - intros [= <-]. by rewrite app_nil_r.
  - apply Forall_cons in Hl as [[Hne Hs] Hl]. rewrite text_of, Hs. cbv zeta.
    rewrite (proj2 (str_true_spec x) Hne). intros (t & Ht%temporal_identifier_Ok & Hc)%result_bind_Ok.
    rewrite Hs in Ht. subst t. assert (x ∉ acc) as Hx.
    { apply NoDup_app in Hnd as (_ & Hd & _). intros Hin. apply (Hd x Hin). by left. }
    rewrite bool_decide_eq_false_2 in Hc by done. apply IH in Hc; [|by rewrite <- app_assoc|done].
    by rewrite <- app_assoc in Hc.
Qed.

(** A list in normal form is read as it is. *)
Lemma bounded_strings_normal l maximum l' :
  clean_strings l = l → _bounded_strings (PList (map PStr l)) maximum = Ok l' → l' = l.
Proof.
  intros Hl. unfold _bounded_strings. intros (normalized & Hn & Hr)%result_bind_Ok.
  apply result_bind_Ok in Hr as ([] & _ & Hr). injection Hr as <-.
  apply (collect_identifiers_Ok []) in Hn; [done|rewrite <- Hl; apply NoDup_sorted_set|].
  apply Forall_forall. intros x Hx. apply (clean_strings_elem l). by rewrite Hl.
Qed.

Lemma mapping_Ok d maximum e : _mapping (PDict d) maximum = Ok e → e = d.
Proof. unfold _mapping. intros ([] & _ & He)%result_bind_Ok. by injection He as <-. Qed.

Lemma timestamp_read x : x ≠ S754_zero true → py_float (por (PFloat x) (PInt 0)) = Ok x.
Proof. by destruct x as [[]| | |]. Qed.

Section envelopes.
Context `{Digest} (normalize_endpoint : string → string → option string).
Context (endpoint_stripped : ∀ provider endpoint url,
    normalize_endpoint provider endpoint = Some url → strip url = url).

Notation er_load := (ref_from_mapping normalize_endpoint).
Notation er_write := (envelope_ref_to_dict normalize_endpoint).

Lemma ref_post_init_Ok r r' : ref_post_init normalize_endpoint r = Ok r' → r' = r.
Proof.
  unfold ref_post_init. intros ([] & _ & Hr)%result_bind_Ok.
  do 4 apply result_bind_Ok in Hr as ([] & _ & Hr).
  do 2 apply result_bind_Ok in Hr as (? & _ & Hr).
  apply result_bind_Ok in Hr as (budgets & _ & Hr).
  do 4 apply result_bind_Ok in Hr as ([] & _ & Hr). by injection Hr.
Qed.

Lemma items_first k k' l rest maximum items :
  k' ≠ k →
  _bounded_contract_items (dget k (optional_entry k (map PDict l) ++ optional_entry k' rest)) maximum
  = Ok items → items = map PDict l.
Proof.
  intros Hne. destruct l as [|x l]; cbn.
  - destruct rest as [|y rest]; [by intros [= <-]|]. unfold dget. cbn.
    rewrite bool_decide_false by done. by intros [= <-].
  - unfold dget. cbn. rewrite bool_decide_true by done. cbn.
    intros ([] & _ & Hi)%result_bind_Ok. by injection Hi as <-.
Qed.

Lemma items_last k k' l first maximum items :
  k' ≠ k →
  _bounded_contract_items (dget k (optional_entry k' first ++ optional_entry k (map PDict l))) maximum
  = Ok items → items = map PDict l.
Proof.
  intros Hne. rewrite <- (app_nil_r (optional_entry k _)).
  assert (dget k (optional_entry k' first ++ optional_entry k (map PDict l) ++ []) =
      dget k (optional_entry k (map PDict l) ++ optional_entry k' [])) as ->.
  { destruct first as [|y first]; [done|]. unfold dget. cbn. by rewrite bool_decide_false. }
  by apply items_first.
Qed.

(** Reading back what was written, item by item. *)
Lemma items_read {A} (to_dict : A → result dict) (from_mapping : pyval → result A) l ds l' :
  (∀ a d, a ∈ l → to_dict a = Ok d → from_mapping (PDict d) = Ok a) →
  map_result to_dict l = Ok ds → map_result from_mapping (map PDict ds) = Ok l' → l' = l.
Proof.
  intros Hl Hds Hl'. apply map_result_Ok in Hds, Hl'. revert Hl l' Hl'.
  induction Hds as [|a d l ds Hd Hds IH]; intros Hl l' Hl'; inversion Hl'; subst; [done|].
  match goal with Hx : from_mapping (PDict d) = Ok _ |- _ =>
      rewrite (Hl a d) in Hx by (done || by left); injection Hx as <- end.
  f_equal. apply IH; [|done]. intros b e Hb. apply Hl. by right.
Qed.

Definition ref_of (e : RuntimeAuthorizationEnvelope) : AuthorizationEnvelopeRef :=
  {| er_envelope_id := en_envelope_id e; er_tenant_id := en_tenant_id e;
    er_workflow_id := en_workflow_id e; er_run_id := en_run_id e; er_step_id := en_step_id e;
    er_plan_hash := en_plan_hash e; er_policy_version := en_policy_version e;
    er_allowed_tools := en_allowed_tools e; er_allowed_artifacts := en_allowed_artifacts e;
    er_budgets := en_budgets e; er_issued_at := en_issued_at e; er_expires_at := en_expires_at e;
    er_nonce := en_nonce e; er_key_id := en_key_id e; er_signature := en_signature e;
    er_bindings := en_bindings e; er_attempt_plan := en_attempt_plan e; er_schema := en_schema e |}.

(** A reference read from a hub envelope holds the envelope's fields. *)
Lemma ref_read e d r :
  envelope_normal normalize_endpoint e →
  en_issued_at e ≠ S754_zero true → en_expires_at e ≠ S754_zero true →
  envelope_to_dict normalize_endpoint e = Ok d → er_load (PDict d) = Ok r → r = ref_of e.
Proof.
  intros Hn Hi Hx Hd. unfold envelope_to_dict in Hd.
  apply result_bind_Ok in Hd as (bs & Hbs & Hd). apply result_bind_Ok in Hd as (es & Hes & Hd).
  injection Hd as <-. unfold ref_from_mapping. cbv zeta.
  change (dget "allowed_tools" _) with (PList (map PStr (en_allowed_tools e))).
  change (dget "allowed_artifacts" _) with (PList (map PStr (en_allowed_artifacts e))).
  change (dget "budgets" _) with (PDict (en_budgets e)).
  change (dget "issued_at" _) with (PFloat (en_issued_at e)).
  change (dget "expires_at" _) with (PFloat (en_expires_at e)).
  change (dget "allowed_provider_bindings" _) with (dget "allowed_provider_bindings"
      (optional_entry "allowed_provider_bindings" (map PDict bs) ++
        optional_entry "provider_attempt_plan" (map PDict es))).
  change (dget "provider_attempt_plan" _) with (dget "provider_attempt_plan"
      (optional_entry "allowed_provider_bindings" (map PDict bs) ++
        optional_entry "provider_attempt_plan" (map PDict es))).
  intros (tools & Ht & Hr)%result_bind_Ok.
  apply bounded_strings_normal in Ht as ->; [|apply (nr_tools _ _ Hn)].
  apply result_bind_Ok in Hr as (arts & Ha & Hr).
  apply bounded_strings_normal in Ha as ->; [|apply (nr_artifacts _ _ Hn)].
  apply result_bind_Ok in Hr as (budgets & Hb & Hr). apply mapping_Ok in Hb as ->.
  rewrite !timestamp_read in Hr by done. cbn [mbind result_bind] in Hr.
  apply result_bind_Ok in Hr as (items & Hitems & Hr).
  apply items_first in Hitems as ->; [|done].
  apply result_bind_Ok in Hr as (bindings & Hbind & Hr).
  apply (items_read (authorization_to_dict normalize_endpoint) _ (en_bindings e)) in Hbind as ->;
    [|intros a d Hin; apply load_valid_binding; [done|];
      by apply (proj1 (Forall_forall _ _) (nr_bindings _ _ Hn))|done].
  apply result_bind_Ok in Hr as (items & Hitems & Hr).
  apply items_last in Hitems as ->; [|done].
  apply result_bind_Ok in Hr as (plan & Hplan & Hr).
  apply (items_read (entry_to_dict normalize_endpoint) _ (en_attempt_plan e)) in Hplan as ->;
    [|intros a d Hin; apply load_valid_entry; [done|];
      by apply (proj1 (Forall_forall _ _) (nr_plan _ _ Hn))|done].
  apply ref_post_init_Ok in Hr as ->. unfold ref_of. f_equal; exact (text_of _).
Qed.

Lemma ref_written e d :
  envelope_to_dict normalize_endpoint e = Ok d → ∃ d', er_write (ref_of e) = Ok d' ∧ d ≡ₚ d'.
Proof.
  unfold envelope_to_dict, envelope_ref_to_dict. intros (bs & Hbs & Hd)%result_bind_Ok.
  apply result_bind_Ok in Hd as (es & Hes & Hd). injection Hd as <-.
  cbn [er_bindings er_attempt_plan ref_of]. rewrite Hbs. cbn [mbind result_bind]. rewrite Hes.
  eexists. split; [reflexivity|]. cbn [app].
  etrans; [apply Permutation_cons_append|]. cbn [app]. rewrite <- app_assoc. reflexivity.
Qed.

Lemma payload_of_wf e d : envelope_to_dict normalize_endpoint e = Ok d → dict_wf (dict_del "signature" d).
Proof.
  intros Hd. apply (signing_payload_wf normalize_endpoint e). unfold envelope_signing_payload.
  by rewrite Hd.
Qed.

(** What the hub signs survives the Temporal boundary: the reference a worker
    reads from a hub envelope, written back, is the envelope's own mapping up to
    the order of its fields, so every key ring verifies its signature exactly
    when it verifies the hub's. *)
Theorem envelope_transparent `{KeyRing K} (ring : K) e d r :
  envelope_normal normalize_endpoint e →
  en_issued_at e ≠ S754_zero true → en_expires_at e ≠ S754_zero true →
  envelope_to_dict normalize_endpoint e = Ok d → er_load (PDict d) = Ok r →
  ∃ d', er_write r = Ok d' ∧ d ≡ₚ d' ∧
  ∀ namespace key_id signature contract_id,
  ring_verify ring namespace (dict_del "signature" d') key_id signature contract_id =
  ring_verify ring namespace (dict_del "signature" d) key_id signature contract_id.
Proof.
  intros Hn Hi Hx Hd Hr. apply (ref_read e d r Hn Hi Hx Hd) in Hr as ->.
  destruct (ref_written e d Hd) as (d' & Hw & Hp). exists d'. split; [done|]. split; [done|].
  intros namespace key_id signature contract_id. symmetry. apply verify_key_order.
  - by eapply payload_of_wf.
  - unfold dict_del. by rewrite Hp.
Qed.
End envelopes.

(** ** Workflow inputs *)

Section inputs.
Context `{Digest} (normalize_endpoint : string → string → option string).

Notation input_load := (input_from_mapping normalize_endpoint).

(** The step is authorized for its own place in the workflow. *)
Definition step_bound (i : AnantaWorkflowInput) (s : TemporalWorkflowStep) : Prop :=
  let a := ts_authorization s in
  er_tenant_id a = wi_tenant_id i ∧ er_workflow_id a = wi_workflow_id i ∧
  er_run_id a = wi_run_id i ∧ er_step_id a = ts_step_id s ∧ er_plan_hash a = wi_plan_hash i.

Lemma check_merge_Ok node_type strategy partial merge_check :
  check_merge node_type strategy partial merge_check = Ok tt →
  (node_type = "merge" → merge_check = Ok tt) ∧ (node_type ≠ "merge" → strategy = "" ∧ partial = "fail").
Proof.
  unfold check_merge, refuse_when. case_bool_decide as Hm; intros ([] & Hs%raise_when_Ok & Hr)%result_bind_Ok.
  - by split.
  - split; [done|]. intros _. apply raise_when_Ok, bool_decide_eq_false, dec_stable in Hr.
    split; [by apply str_true_false|done].
Qed.

Lemma step_post_init_Ok s s' :
  step_post_init s = Ok s' →
  s' = s ∧ (ts_node_type s = "merge" → ts_depends_on s ≠ []).
Proof.
  unfold step_post_init. intros ([] & _ & Hs)%result_bind_Ok.
  do 2 apply result_bind_Ok in Hs as ([] & _ & Hs). do 2 apply result_bind_Ok in Hs as (? & _ & Hs).
  do 3 apply result_bind_Ok in Hs as ([] & _ & Hs).
  apply result_bind_Ok in Hs as ([] & Hm & Hs). injection Hs as <-. split; [done|].
  intros Ht. apply check_merge_Ok in Hm as [Hm _]. apply Hm in Ht.
  unfold refuse_when in Ht. by apply raise_when_Ok, bool_decide_eq_false in Ht.
Qed.

(** A step as it is read: authorized for its place, and fed when it merges. *)
Lemma temporal_step_Ok tenant workflow run hash inherited raw s :
  temporal_step_from_mapping normalize_endpoint tenant workflow run hash inherited raw = Ok s →
  [er_tenant_id (ts_authorization s); er_workflow_id (ts_authorization s);
    er_run_id (ts_authorization s); er_step_id (ts_authorization s);
    er_plan_hash (ts_authorization s)] = [tenant; workflow; run; ts_step_id s; hash] ∧
  (ts_node_type s = "merge" → ts_depends_on s ≠ []).
Proof.
  unfold temporal_step_from_mapping. destruct raw; try done.
  intros (step_id & _ & Hs)%result_bind_Ok. apply result_bind_Ok in Hs as (operation & _ & Hs).
  apply result_bind_Ok in Hs as (a & _ & Hs). apply result_bind_Ok in Hs as ([] & Hb & Hs).
  unfold validate_binding, refuse_when in Hb. apply raise_when_Ok, bool_decide_eq_false, dec_stable in Hb.
  apply result_bind_Ok in Hs as (cls & _ & Hs). apply result_bind_Ok in Hs as (items & _ & Hs).
  apply result_bind_Ok in Hs as (deps & _ & Hs). apply result_bind_Ok in Hs as (refs & _ & Hs).
  apply result_bind_Ok in Hs as (caps & _ & Hs). apply step_post_init_Ok in Hs as [-> Hm].
  split; [exact Hb|exact Hm].
Qed.

(** Dependencies of a step at position [k] are steps at earlier positions. *)
Lemma step_order_Ok known steps u k s d :
  check_step_order known steps = Ok u → steps !! k = Some s → d ∈ ts_depends_on s →
  d ∈ known ∨ ∃ j s', (j < k)%nat ∧ steps !! j = Some s' ∧ ts_step_id s' = d.
Proof.
  revert known k. induction steps as [|s0 steps IH]; intros known k Hc Hk Hd; [done|].
  cbn in Hc. unfold refuse_when in Hc.
  apply result_bind_Ok in Hc as ([] & Ho%raise_when_Ok & Hc). destruct k as [|k].
  - injection Hk as ->. left. apply not_true_iff_false in Ho.
    destruct (decide (d ∈ known)) as [|Hn]; [done|]. destruct Ho. apply existsb_exists.
    exists d. split; [by apply list_elem_of_In|]. by apply bool_decide_eq_true.
  - destruct (IH _ k Hc Hk Hd) as [Hin|(j & s' & Hj & Hs' & Hid)].
    + apply elem_of_cons in Hin as [->|Hin]; [|by left]. right. exists 0%nat, s0. split; [lia|done].
    + right. exists (S j), s'. split; [lia|done].
Qed.

Lemma within_spec lo hi n : negb (within lo hi n) = false → lo ≤ n ≤ hi.
Proof. unfold within. lia. Qed.

(** What validation makes of an input. *)
Record input_ok (i : AnantaWorkflowInput) : Prop := {
    io_unique : NoDup (map ts_step_id (wi_steps i));
    io_length : (1 ≤ length (wi_steps i) ≤ 1000)%nat;
    io_steps : ∀ s, s ∈ wi_steps i → step_bound i s ∧ (ts_node_type s = "merge" → ts_depends_on s ≠ []);
    io_order : ∀ k s d, wi_steps i !! k = Some s → d ∈ ts_depends_on s →
    ∃ j s', (j < k)%nat ∧ wi_steps i !! j = Some s' ∧ ts_step_id s' = d;
    io_retry : ∃ maximum, wi_retry_budget_maximum i = Some maximum ∧
    0 ≤ wi_retry_budget_remaining i ≤ maximum ∧ maximum ≤ 1000;
    io_parameters : ∀ k, k ∈ dict_keys (wi_parameters i) → k ∈ wi_mutable_parameters i;
    io_parallel : 1 ≤ wi_max_parallel_steps i ≤ 128 ∧ 1 ≤ wi_tenant_parallel_limit i ≤ 128 ∧
    1 ≤ wi_worker_parallel_limit i ≤ 128;
    io_history : 100 ≤ wi_max_history_events i ≤ 1000000;
  }.

Lemma input_loaded run_id raw i : input_load run_id raw = Ok i → input_ok i.
Proof.
  unfold input_from_mapping. destruct raw as [| | | | | | |raw]; try done. cbv zeta.
  intros (items & _ & Hi)%result_bind_Ok. apply result_bind_Ok in Hi as (steps & Hsteps & Hi).
  do 9 apply result_bind_Ok in Hi as (? & _ & Hi).
  match type of Hi with input_post_init ?x = _ => remember x as i0 eqn:Hi0 end.
  assert (∀ s, s ∈ wi_steps i0 → step_bound i0 s ∧ (ts_node_type s = "merge" → ts_depends_on s ≠ []))
    as Hbound.
  { intros s Hs. subst i0. cbn [wi_steps] in Hs. apply map_result_Ok in Hsteps.
    apply list_elem_of_lookup in Hs as [k Hs]. destruct (Forall2_lookup_r _ _ _ _ _ Hsteps Hs) as (v & _ & Hv).
    apply temporal_step_Ok in Hv as [Hb Hm]. injection Hb as H1 H2 H3 H4 H5. by split. }
  clear Hi0 Hsteps. unfold input_post_init, refuse_when in Hi.
  do 3 apply result_bind_Ok in Hi as ([] & _ & Hi).
  apply result_bind_Ok in Hi as ([] & Hlen%raise_when_Ok & Hi).
  apply result_bind_Ok in Hi as ([] & Hdup%raise_when_Ok & Hi).
  apply result_bind_Ok in Hi as ([] & Horder & Hi).
  apply result_bind_Ok in Hi as ([] & Hretry%raise_when_Ok & Hi).
  apply result_bind_Ok in Hi as (maximum & Hmax & Hi).
  apply result_bind_Ok in Hi as (? & _ & Hi).
  apply result_bind_Ok in Hi as (parameters & Hp%mapping_Ok & Hi).
  apply result_bind_Ok in Hi as ([] & _ & Hi).
  apply result_bind_Ok in Hi as ([] & Hmut%raise_when_Ok & Hi).
  apply result_bind_Ok in Hi as ([] & Hpar%raise_when_Ok & Hi).
  apply result_bind_Ok in Hi as ([] & Hhist%raise_when_Ok & Hi).
  apply result_bind_Ok in Hi as ([] & _ & Hi). injection Hi as <-. subst parameters.
  unfold retry_maximum, refuse_when in Hmax.
  apply result_bind_Ok in Hmax as ([] & Hm%raise_when_Ok & Hmax). injection Hmax as <-.
  apply within_spec in Hretry. apply orb_false_iff in Hlen as [Hne Hlen].
  apply within_spec in Hhist. cbn [existsb] in Hpar. rewrite !orb_false_iff in Hpar.
  destruct Hpar as (?%within_spec & ?%within_spec & ?%within_spec & _).
  apply bool_decide_eq_false in Hne. constructor.
  - by apply duplicates_false.
  - cbn [with_retry_maximum wi_steps]. destruct (wi_steps i0); [done|]. cbn [length] in *. apply Z.ltb_ge in Hlen. clear -Hlen. split; [lia|]. lia.
  - exact Hbound.
  - intros k s d Hk Hd. cbn [with_retry_maximum wi_steps] in *.
    destruct (step_order_Ok _ _ _ _ _ _ Horder Hk Hd) as [Hin|Hj]; [by apply elem_of_nil in Hin|done].
  - eexists. split; [reflexivity|]. cbn. lia.
  - intros k Hk. cbn in *. apply not_true_iff_false in Hmut.
    destruct (decide (k ∈ wi_mutable_parameters i0)) as [|Hn]; [done|]. destruct Hmut.
    apply existsb_exists. exists k. split; [by apply list_elem_of_In|by apply bool_decide_eq_true].
  - done.
  - done.
Qed.

(** C40: an input that loads is a workflow the worker can run without asking the
    hub again: its steps have distinct identifiers, each is authorized for this
    tenant, workflow, run and plan and for that very step, and waits only for
    steps before it, so they can run in the order they are listed; merges have
    an input; the retry budget that remains is within its maximum; and every
    parameter was declared mutable. *)
Theorem workflow_input_sound run_id raw i :
  input_load run_id raw = Ok i →
  NoDup (map ts_step_id (wi_steps i)) ∧ (1 ≤ length (wi_steps i) ≤ 1000)%nat ∧
  (∀ s, s ∈ wi_steps i → step_bound i s ∧ (ts_node_type s = "merge" → ts_depends_on s ≠ [])) ∧
  (∀ k s d, wi_steps i !! k = Some s → d ∈ ts_depends_on s →
    ∃ j s', (j < k)%nat ∧ wi_steps i !! j = Some s' ∧ ts_step_id s' = d) ∧
  (∃ maximum, wi_retry_budget_maximum i = Some maximum ∧
    0 ≤ wi_retry_budget_remaining i ≤ maximum ∧ maximum ≤ 1000) ∧
  (∀ k, k ∈ dict_keys (wi_parameters i) → k ∈ wi_mutable_parameters i).
Proof.
  intros Hi. apply input_loaded in Hi as [? [] ? ? ? ? ? ?]. by split_and!.
Qed.
End inputs.

(** ** Examples *)

Definition temporal_hash : string :=
  "0123456789abcdef0123456789abcdef0123456789abcdef0123456789abcdef".

(** The envelope of the step [step]. *)
Definition temporal_envelope (step : string) : RuntimeAuthorizationEnvelope :=
  {| en_envelope_id := "rae-1"; en_tenant_id := "tenant"; en_workflow_id := "wf";
     en_run_id := "run"; en_step_id := step; en_plan_hash := temporal_hash;
     en_policy_version := "p1"; en_allowed_tools := ["read"; "write"];
     en_allowed_artifacts := ["out"];
     en_budgets := [("provider_attempts", PInt 2); ("tokens", PInt 100)];
     en_issued_at := lit 1 0; en_expires_at := lit 9 0; en_nonce := "n1"; en_key_id := "k1";
     en_signature := "signature";
     en_bindings := [{| ba_binding_id := sample_binding_id; ba_provider_id := "ollama";
       ba_model_id := "m"; ba_endpoint_identity := "" |}];
     en_attempt_plan := [{| pe_profile_id := "fast"; pe_binding_id := sample_binding_id;
       pe_provider_id := "ollama"; pe_model_id := "m"; pe_maximum_attempts := 2;
       pe_endpoint_identity := "" |}];
     en_schema := AUTHORIZATION_ENVELOPE_SCHEMA |}.

Definition temporal_envelope_dict (step : string) : dict :=
  match envelope_to_dict no_endpoints (temporal_envelope step) with Ok d => d | Err _ => [] end.

Lemma temporal_envelope_normal : envelope_normal no_endpoints (temporal_envelope "a").
Proof.
  constructor; try (vm_compute; reflexivity); try (apply Forall_singleton; vm_compute; reflexivity);
    apply NoDup_singleton.
Qed.

Lemma envelope_transparent_witness :
  ∃ r d', ref_from_mapping no_endpoints (PDict (temporal_envelope_dict "a")) = Ok r ∧
    envelope_ref_to_dict no_endpoints r = Ok d' ∧ temporal_envelope_dict "a" ≡ₚ d'.
Proof.
  assert (ref_from_mapping no_endpoints (PDict (temporal_envelope_dict "a")) =
    Ok (ref_of (temporal_envelope "a"))) as Hr by (vm_compute; reflexivity).
  destruct (@envelope_transparent no_endpoints no_endpoints_stripped HmacKeyRing sample_hmac sample_ring
    (temporal_envelope "a") (temporal_envelope_dict "a") (ref_of (temporal_envelope "a"))
    temporal_envelope_normal ltac:(discriminate) ltac:(discriminate)
    ltac:(vm_compute; reflexivity) Hr) as (d' & Hw & Hp & _).
  exists (ref_of (temporal_envelope "a")), d'. split_and!; [exact Hr|exact Hw|exact Hp].
Defined.

Definition temporal_step (step : string) (deps : list string) : pyval :=
  PDict [("step_id", PStr step); ("depends_on", strs deps);
         ("authorization_envelope", PDict (temporal_envelope_dict step))].

Definition temporal_input : pyval :=
  PDict [("tenant_id", PStr "tenant"); ("workflow_id", PStr "wf"); ("run_id", PStr "run");
         ("correlation_id", PStr "c1"); ("plan_hash", PStr temporal_hash);
         ("policy_version", PStr "p1");
         ("steps", PList [temporal_step "a" []; temporal_step "b" ["a"]]);
         ("retry_budget_remaining", PInt 2); ("mutable_parameters", PList [PStr "depth"]);
         ("parameters", PDict [("depth", PInt 3)])].

Lemma workflow_input_sound_witness :
  ∃ i, @input_from_mapping checksum_digest no_endpoints "" temporal_input = Ok i ∧
    NoDup (map ts_step_id (wi_steps i)).
Proof.
  destruct (@input_from_mapping checksum_digest no_endpoints "" temporal_input) as [i|e] eqn:Hi;
    [|exfalso; vm_compute in Hi; discriminate Hi].
  exists i. split; [reflexivity|].
  apply (@workflow_input_sound checksum_digest no_endpoints "" temporal_input i Hi).
Defined.

(** [_identifier] checks an identifier without its outer white space, and the
    contracts keep it as it was given. *)
Lemma identifier_spaces_kept :
  let p := {| pr_request_id := " r "; pr_value := "probe"; pr_schema := PROBE_SCHEMA |} in
  probe_post_init p = Ok p.
Proof. vm_compute. reflexivity. Qed.
