(* ===== verification/Records.v ===== *)
(** * Updating one field of a record

    [s <| f := v |>] is the record [s] with [v] in its field [f], for a record
    type that declares its eta expansion. *)
From S2P Require Import Prelude.

(** The eta expansion of a record type: its constructor on its projections. *)
Class Rebuild (R : Type) := rebuild : R → R.

(** What replaces a field by a function of it. *)
Class Setter {R T : Type} (field : R → T) := set_field : (T → T) → R → R.
#[global] Hint Mode Setter - - ! : typeclass_instances.

(** Abstracting the projection from the eta expansion gives the setter. *)
Ltac find_setter :=
  lazymatch goal with
  | |- @Setter ?R ?T ?field =>
      let instance := constr:(_ : Rebuild R) in
      let eta := eval hnf in (@rebuild R instance) in
      lazymatch eval pattern field in eta with
      | ?build _ =>
          let setter := eval cbv beta in (λ (f : T → T), build (λ r, f (field r))) in
          exact setter
      end
  end.
#[global] Hint Extern 0 (Setter _) => find_setter : typeclass_instances.

Declare Scope record_scope.
Notation "s <| f := v |>" := (set_field (field := f) (λ _, v) s)
  (at level 12, f at next level, left associativity, format "s  <| f  :=  v |>") : record_scope.
Notation "s <| f ::= g |>" := (set_field (field := f) g s)
  (at level 12, f at next level, left associativity, format "s  <| f  ::=  g |>") : record_scope.
#[global] Open Scope record_scope.
