(* ===== verification/RetryProfiles.v ===== *)
(** * Retry profiles of activities (worker/temporal/retry_profiles.py)

    The bounded retry and timeout options an activity of each class is started
    with, within the retry budget the hub left. *)
From S2P Require Import Prelude PyStr PyVal Digest Serialization Plan TemporalContracts.

Record ActivityRetryProfile := {
  rp_activity_class : ActivityClass;
  rp_schedule_to_close_seconds : Z;
  rp_start_to_close_seconds : Z;
  rp_heartbeat_seconds : option Z;
  rp_initial_interval_seconds : Z;
  rp_maximum_interval_seconds : Z;
  rp_backoff_coefficient : float;
  rp_maximum_attempts : Z;
}.

#[global] Instance ActivityClass_eq_dec : EqDecision ActivityClass.
Proof. solve_decision. Defined.

(** [a <= b <= c] *)
Definition ordered (a b c : Z) : bool := (a <=? b) && (b <=? c).

(** [ActivityRetryProfile.validate] *)
Definition profile_validate (p : ActivityRetryProfile) : result unit :=
  raise_when (negb (ordered 1 (rp_maximum_attempts p) 20)) (ValueError "attempts") ;;
  raise_when (negb (ordered 1 (rp_initial_interval_seconds p) (rp_maximum_interval_seconds p)
                    && (rp_maximum_interval_seconds p <=? 3600))) (ValueError "intervals") ;;
  raise_when (negb (float_leb (lit 1 0) (rp_backoff_coefficient p)
                    && float_leb (rp_backoff_coefficient p) (lit 10 0))) (ValueError "backoff") ;;
  raise_when (negb (ordered 1 (rp_start_to_close_seconds p) (rp_schedule_to_close_seconds p)
                    && (rp_schedule_to_close_seconds p <=? 86400))) (ValueError "timeouts") ;;
  raise_when (match rp_heartbeat_seconds p with
              | Some n => negb ((1 <=? n) && (n <? rp_start_to_close_seconds p))
              | None => false
              end) (ValueError "heartbeat") ;;
  raise_when (bool_decide (rp_activity_class p = NON_IDEMPOTENT)
              && negb (rp_maximum_attempts p =? 1)) (ValueError "non_idempotent") ;;
  raise_when (bool_decide (rp_activity_class p = LONG_RUNNING)
              && bool_decide (rp_heartbeat_seconds p = None)) (ValueError "long_running").

(** The keyword arguments of [start_activity]; durations are in seconds, and
    the cancellation type is the same for every activity. *)
Record ActivityOptions := {
  op_schedule_to_close_timeout : Z;
  op_start_to_close_timeout : Z;
  op_initial_interval : Z;
  op_backoff_coefficient : float;
  op_maximum_interval : Z;
  op_maximum_attempts : Z;
  op_heartbeat_timeout : option Z;
}.

(** [ActivityRetryProfile.temporal_options(retry_budget_remaining=...)] *)
Definition temporal_options (p : ActivityRetryProfile) (retry_budget_remaining : Z)
    : result ActivityOptions :=
  profile_validate p ;;
  let budget_attempts := Z.max 1 (Z.min (retry_budget_remaining + 1) (rp_maximum_attempts p)) in
  let budget_attempts :=
    if bool_decide (rp_activity_class p = NON_IDEMPOTENT) then 1 else budget_attempts in
  Ok {| op_schedule_to_close_timeout := rp_schedule_to_close_seconds p;
        op_start_to_close_timeout := rp_start_to_close_seconds p;
        op_initial_interval := rp_initial_interval_seconds p;
        op_backoff_coefficient := rp_backoff_coefficient p;
        op_maximum_interval := rp_maximum_interval_seconds p;
        op_maximum_attempts := budget_attempts;
        op_heartbeat_timeout := rp_heartbeat_seconds p |}.

(** [_PROFILES[activity_class]] *)
Definition _PROFILES (activity_class : ActivityClass) : ActivityRetryProfile :=
  match activity_class with
  | READ_ONLY =>
      {| rp_activity_class := READ_ONLY; rp_schedule_to_close_seconds := 120;
         rp_start_to_close_seconds := 30; rp_heartbeat_seconds := None;
         rp_initial_interval_seconds := 1; rp_maximum_interval_seconds := 10;
         rp_backoff_coefficient := lit 2 0; rp_maximum_attempts := 5 |}
  | IDEMPOTENT =>
      {| rp_activity_class := IDEMPOTENT; rp_schedule_to_close_seconds := 600;
         rp_start_to_close_seconds := 300; rp_heartbeat_seconds := Some 30;
         rp_initial_interval_seconds := 2; rp_maximum_interval_seconds := 30;
         rp_backoff_coefficient := lit 2 0; rp_maximum_attempts := 3 |}
  | NON_IDEMPOTENT =>
      {| rp_activity_class := NON_IDEMPOTENT; rp_schedule_to_close_seconds := 600;
         rp_start_to_close_seconds := 300; rp_heartbeat_seconds := Some 30;
         rp_initial_interval_seconds := 1; rp_maximum_interval_seconds := 1;
         rp_backoff_coefficient := lit 1 0; rp_maximum_attempts := 1 |}
  | LONG_RUNNING =>
      {| rp_activity_class := LONG_RUNNING; rp_schedule_to_close_seconds := 86400;
         rp_start_to_close_seconds := 3600; rp_heartbeat_seconds := Some 20;
         rp_initial_interval_seconds := 5; rp_maximum_interval_seconds := 60;
         rp_backoff_coefficient := lit 2 0; rp_maximum_attempts := 3 |}
  end.

(** [retry_profile_for(activity_class)] *)
Definition retry_profile_for (activity_class : ActivityClass) : result ActivityRetryProfile :=
  profile_validate (_PROFILES activity_class) ;;
  Ok (_PROFILES activity_class).

Definition validate_all_retry_profiles : result unit :=
  for_each (λ c, profile_validate (_PROFILES c)) activity_classes.

(** [redacted_heartbeat_details] *)
Definition redacted_heartbeat_details (operation_id hub_task_id checkpoint_ref stage : string)
    : dict :=
  [("schema", PStr "ananta.temporal-heartbeat.v1");
   ("operation_id", PStr (str_take 256 operation_id));
   ("hub_task_id", PStr (str_take 256 hub_task_id));
   ("checkpoint_ref", PStr (str_take 512 checkpoint_ref));
   ("stage", PStr (str_take 128 (str_or stage "waiting_for_hub")))].

(** ** Laws *)

(** Every profile of the table is valid. *)
Lemma profile_valid c : profile_validate (_PROFILES c) = Ok tt.
Proof. destruct c; vm_compute; reflexivity. Qed.

Lemma profiles_valid : validate_all_retry_profiles = Ok tt.
Proof. apply for_each_Ok, Forall_forall. intros c _. apply profile_valid. Qed.

Lemma profile_total c : retry_profile_for c = Ok (_PROFILES c).
Proof. unfold retry_profile_for. by rewrite profile_valid. Qed.

(** The options of an activity: finite, within the budget the hub left, and one
    attempt only for what may not run twice. *)
Definition options_bounded (c : ActivityClass) (remaining : Z) (o : ActivityOptions) : Prop :=
  1 ≤ op_maximum_attempts o ≤ 20 ∧
  (0 ≤ remaining → op_maximum_attempts o ≤ remaining + 1) ∧
  op_maximum_attempts o ≤ rp_maximum_attempts (_PROFILES c) ∧
  (c = NON_IDEMPOTENT → op_maximum_attempts o = 1) ∧
  1 ≤ op_start_to_close_timeout o ≤ op_schedule_to_close_timeout o ≤ 86400 ∧
  (c = LONG_RUNNING → is_Some (op_heartbeat_timeout o)).

Lemma options_total c remaining :
  ∃ o, temporal_options (_PROFILES c) remaining = Ok o ∧ options_bounded c remaining o.
Proof.
  unfold temporal_options. rewrite profile_valid. cbn [mbind result_bind]. eexists.
  split; [reflexivity|]. unfold options_bounded.
  destruct c; cbn [rp_activity_class rp_maximum_attempts rp_start_to_close_seconds
    rp_schedule_to_close_seconds rp_heartbeat_seconds op_maximum_attempts op_start_to_close_timeout
    op_schedule_to_close_timeout op_heartbeat_timeout _PROFILES];
    try rewrite bool_decide_eq_true_2 by done; try rewrite bool_decide_eq_false_2 by done;
    split_and!; try done; try lia; intros _; by eexists.
Qed.
