(* ===== verification/Reasons.v ===== *)
(** * Reason codes of the Temporal contracts

    A result that is refused is refused for a reason: no TemporalContractError
    of the activity result's parser has an empty reason code. *)
From S2P Require Import Prelude PyStr PyVal Digest Serialization Plan Envelope CommandContract TemporalContracts.

(** Every TemporalContractError of the result has a reason code. *)
Definition named {A} (r : result A) : Prop := ∀ code, r = Err (TemporalContractError code) → code ≠ "".

Create HintDb named.

Lemma named_Ok {A} (a : A) : named (Ok a).
Proof. done. Qed.

Lemma named_error {A} code : str_true code = true → named (Err (temporal_error code) : result A).
Proof. intros Hc code' [= <-]. by apply str_true_spec. Qed.

Lemma named_bind {A B} (r : result A) (f : A → result B) :
  named r → (∀ a, named (f a)) → named (r ≫= f).
Proof.
  intros Hr Hf code. destruct r as [a|e]; cbn; [apply Hf|]. intros [= ->]. by apply Hr.
Qed.

Lemma named_refuse b code : str_true code = true → named (refuse_when b code).
Proof. intros Hc. destruct b; [by apply named_error|done]. Qed.

Lemma named_raise b code : str_true code = true → named (raise_when b (TemporalContractError code)).
Proof. apply named_refuse. Qed.

Lemma named_for_each {A} (f : A → result unit) l : (∀ a, named (f a)) → named (for_each f l).
Proof. intros Hf. induction l as [|a l IH]; [done|]. by apply named_bind. Qed.

Lemma named_map_result {A B} (f : A → result B) l : (∀ a, named (f a)) → named (map_result f l).
Proof.
  intros Hf. induction l as [|a l IH]; [done|]. cbn. apply named_bind; [done|]. intros b.
  by apply named_bind.
Qed.

#[export] Hint Resolve named_Ok named_refuse named_raise named_error named_bind named_for_each
  named_map_result : named.

Lemma named_py_int v : named (py_int v).
Proof.
  intros code. unfold py_int. by repeat (case_match; try done).
Qed.

Lemma named_identifier s : named (_identifier s).
Proof. unfold _identifier. auto with named. Qed.

Lemma named_check_identifiers l : named (check_identifiers l).
Proof.
  apply named_for_each. intros s. apply named_bind; [apply named_identifier|auto with named].
Qed.

Lemma named_collect values normalized : named (collect_identifiers normalized values).
Proof.
  revert normalized. induction values as [|v values IH]; intros normalized; cbn; [done|].
  case_match; [|done]. apply named_bind; [apply named_identifier|done].
Qed.

Lemma named_bounded_strings v maximum : named (_bounded_strings v maximum).
Proof.
  unfold _bounded_strings. destruct v; try (by apply named_error); [done|..];
    (apply named_bind; [apply named_collect|]; intros ids; apply named_bind; auto with named).
Qed.

Lemma named_reference raw : named (reference_from_mapping raw).
Proof.
  assert (∀ a, named (artifact_post_init a)) as Hp.
  { intros a. unfold artifact_post_init. apply named_bind; [apply named_check_identifiers|].
    intros _. apply named_bind; auto with named. }
  unfold reference_from_mapping. destruct raw; auto with named.
Qed.

Lemma named_sequence v code : str_true code = true → named (raw_sequence v code).
Proof. intros Hc. unfold raw_sequence. destruct v; auto with named. Qed.

Lemma named_result r : named (activity_result_post_init r).
Proof.
  unfold activity_result_post_init. apply named_bind; [by apply named_refuse|]. intros _.
  apply named_bind; [apply named_check_identifiers|]. intros _.
  apply named_bind; [case_match; [apply named_check_identifiers|done]|]. intros _.
  apply named_bind; [by apply named_refuse|]. intros _. apply named_bind; [by apply named_refuse|].
  intros _. apply named_bind; [apply named_bounded_strings|]. intros _.
  apply named_bind; [by apply named_refuse|done].
Qed.

(** A result that does not parse has a reason. *)
Lemma named_activity_result raw : named (activity_result_from_mapping raw).
Proof.
  unfold activity_result_from_mapping. destruct raw as [| | | | | | |d]; try (by apply named_error).
  cbv zeta. apply named_bind; [by apply named_sequence|]. intros items.
  apply named_bind; [apply named_map_result, named_reference|]. intros refs.
  apply named_bind; [apply named_bounded_strings|]. intros events.
  apply named_bind; [apply named_py_int|]. intros attempt. apply named_result.
Qed.
