(* ===== verification/ProbeWorkflows.v ===== *)
(** * Probe workflows (worker/temporal/workflows.py)

    The two workflows that check a Temporal installation: one calls the probe
    activity, the other waits over a restart until it is released. *)
From S2P Require Import Prelude Records PyStr PyVal TemporalContracts.

(** [{str(key): str(value) for key, value in dict(result).items()}], for what
    the probe activity returned. *)
Definition probe_result (result : dict) : list (string * string) :=
  map (λ kv, (kv.1, py_str kv.2)) result.

(** The attributes of [TemporalRecoveryProbeWorkflow]. *)
Record RecoveryProbe := {
  rw_request_id : string;
  rw_value : string;
  rw_run_id : string;
  rw_released : bool;
  rw_rejected_release_count : Z;
}.

#[global] Instance RecoveryProbe_rebuild : Rebuild RecoveryProbe := λ s,
  {| rw_request_id := rw_request_id s; rw_value := rw_value s; rw_run_id := rw_run_id s;
     rw_released := rw_released s; rw_rejected_release_count := rw_rejected_release_count s |}.

Definition new_probe : RecoveryProbe :=
  {| rw_request_id := ""; rw_value := ""; rw_run_id := ""; rw_released := false;
     rw_rejected_release_count := 0 |}.

(** [run] up to its wait, in the run [run_id] of the engine. *)
Definition probe_started (request : ProbeRequest) (run_id : string) (s : RecoveryProbe) : RecoveryProbe :=
  s <| rw_request_id := pr_request_id request |> <| rw_value := pr_value request |>
    <| rw_run_id := run_id |>.

Definition probe_state (status : string) (s : RecoveryProbe) : dict :=
  [("schema", PStr "ananta.temporal-recovery-probe.v1"); ("status", PStr status);
   ("request_id", PStr (rw_request_id s)); ("value", PStr (rw_value s));
   ("run_id", PStr (rw_run_id s));
   ("rejected_release_count", PInt (rw_rejected_release_count s))].

(** What [run] returns once its condition holds. *)
Definition probe_finished (s : RecoveryProbe) : option dict :=
  if rw_released s then Some (probe_state "completed" s) else None.

Definition recovery_state (s : RecoveryProbe) : dict :=
  probe_state (if rw_released s then "released" else "waiting") s.

(** The signal [release]. *)
Definition release (request_id : string) (s : RecoveryProbe) : RecoveryProbe :=
  if bool_decide (request_id ≠ rw_request_id s) then s <| rw_rejected_release_count ::= Z.succ |>
  else s <| rw_released := true |>.

Definition run_releases (ids : list string) (s : RecoveryProbe) : RecoveryProbe :=
  foldl (λ s request_id, release request_id s) s ids.

Definition mismatches (request_id : string) (ids : list string) : Z :=
  Z.of_nat (length (filter (λ k, k ≠ request_id) ids)).

(** After its start a probe is released by the first signal with its request
    identifier, and counts every other signal. *)
Lemma run_releases_spec ids s :
  let s' := run_releases ids s in
  rw_request_id s' = rw_request_id s ∧
  rw_released s' = rw_released s || bool_decide (rw_request_id s ∈ ids) ∧
  rw_rejected_release_count s' = rw_rejected_release_count s + mismatches (rw_request_id s) ids.
Proof.
  cbv zeta. unfold mismatches. revert s. induction ids as [|k ids IH]; intros s.
  { cbn. rewrite orb_false_r. split_and!; [done|done|lia]. }
  change (run_releases (k :: ids) s) with (run_releases ids (release k s)).
  destruct (IH (release k s)) as (H1 & H2 & H3). rewrite H1, H2, H3. clear.
  assert (rw_request_id (release k s) = rw_request_id s) as -> by (unfold release; by case_match).
  split; [done|]. unfold release. rewrite filter_cons. destruct (decide (k = rw_request_id s)) as [->|Hk].
  - rewrite bool_decide_eq_false_2 by tauto. rewrite (bool_decide_eq_true_2 (_ ∈ _ :: _)) by set_solver.
    rewrite decide_False by tauto. cbn. by rewrite orb_true_r.
  - rewrite bool_decide_eq_true_2, decide_True by done. cbn. split; [|lia].
    f_equal. apply bool_decide_ext. set_solver.
Qed.
