(* ===== verification/Workflow.v ===== *)
(** * The state of a Temporal workflow (worker/temporal/workflows.py)

    AnantaWorkflow keeps the technical state of one run: its phase, revision and
    checkpoint, the steps that are done, the gates that are approved, the
    commands that were applied, and its budgets.  This file holds the state and
    the operations that do not wait; WorkflowRun holds the coroutine that does. *)
From S2P Require Import Prelude Records PyStr PyVal Digest Serialization Plan Envelope CommandContract TemporalContracts RetryProfiles.

#[global] Instance WorkflowPhase_eq_dec : EqDecision WorkflowPhase.
Proof. solve_decision. Defined.
#[global] Instance WorkflowCommandType_eq_dec : EqDecision WorkflowCommandType.
Proof. solve_decision. Defined.

(** [phase.value] *)
Definition phase_value (p : WorkflowPhase) : string :=
  match p with
  | CREATED => "created" | RUNNING => "running" | PAUSED => "paused"
  | WAITING_APPROVAL => "waiting_approval" | COMPLETED => "completed"
  | FAILED => "failed" | CANCELLED => "cancelled"
  end.

(** A character with [ensure_ascii=True]. *)
Definition ascii_char (c : ascii) : string :=
  let n := code_point c in
  if n <? 127 then escape_char c
  else "\u00" +:+ str1 (hex_digit (n / 16)) +:+ str1 (hex_digit (n mod 16)).

Fixpoint ascii_escape (s : string) : string :=
  match s with
  | EmptyString => ""
  | String c s => ascii_char c +:+ ascii_escape s
  end.

Definition ascii_string (s : string) : string :=
  String quote_char (ascii_escape s +:+ str1 quote_char).

(** [json.dumps(value, sort_keys=True, separators=(",", ":")).encode("utf-8")] *)
Definition json_ascii : pyval → string := json_text ascii_string.

(** What a workflow asks the engine to do, and what it answers callers. *)
Inductive engine_call :=
| StartActivity (step : TemporalWorkflowStep) (activity_id : string) (request : dict)
    (options : ActivityOptions)
| CancelActivity (step_id : string)
| CommandApplied (command : WorkflowCommand) (result : WorkflowCommandResult)
| CommandAnswered (result : WorkflowCommandResult)
| UpdateFailed (type : string).

(** The attributes of [AnantaWorkflow], and the calls it made on the engine. *)
Record AnantaWorkflow := {
  aw_input : option AnantaWorkflowInput;
  aw_phase : WorkflowPhase;
  aw_phase_before_pause : WorkflowPhase;
  aw_revision : Z;
  aw_current_step_id : string;
  aw_completed_step_ids : list string;
  aw_open_gates : list string;
  aw_approved_gates : gset string;
  aw_processed_command_ids : gmap string WorkflowCommandResult;
  aw_processed_command_payload_digests : gmap string string;
  aw_command_authority_enabled : bool;
  aw_parameters : dict;
  aw_retry_budget_remaining : Z;
  aw_retry_budget_maximum : Z;
  aw_checkpoint_ref : string;
  aw_effective_plan_hash : string;
  aw_plan_revision : Z;
  aw_plan_ref : string;
  aw_reason_code : string;
  aw_history_event_estimate : Z;
  aw_state_bytes_estimate : Z;
  aw_artifact_refs : list string;
  aw_artifacts_by_step : gmap string (list ArtifactReference);
  aw_failed_step_ids : list (string * string);
  aw_active_activity : option string;
  aw_active_activities : list string;
  aw_calls : list engine_call;
}.

#[global] Instance AnantaWorkflow_rebuild : Rebuild AnantaWorkflow := λ s,
  {| aw_input := aw_input s; aw_phase := aw_phase s;
     aw_phase_before_pause := aw_phase_before_pause s; aw_revision := aw_revision s;
     aw_current_step_id := aw_current_step_id s;
     aw_completed_step_ids := aw_completed_step_ids s; aw_open_gates := aw_open_gates s;
     aw_approved_gates := aw_approved_gates s;
     aw_processed_command_ids := aw_processed_command_ids s;
     aw_processed_command_payload_digests := aw_processed_command_payload_digests s;
     aw_command_authority_enabled := aw_command_authority_enabled s;
     aw_parameters := aw_parameters s;
     aw_retry_budget_remaining := aw_retry_budget_remaining s;
     aw_retry_budget_maximum := aw_retry_budget_maximum s;
     aw_checkpoint_ref := aw_checkpoint_ref s;
     aw_effective_plan_hash := aw_effective_plan_hash s;
     aw_plan_revision := aw_plan_revision s; aw_plan_ref := aw_plan_ref s;
     aw_reason_code := aw_reason_code s;
     aw_history_event_estimate := aw_history_event_estimate s;
     aw_state_bytes_estimate := aw_state_bytes_estimate s;
     aw_artifact_refs := aw_artifact_refs s; aw_artifacts_by_step := aw_artifacts_by_step s;
     aw_failed_step_ids := aw_failed_step_ids s; aw_active_activity := aw_active_activity s;
     aw_active_activities := aw_active_activities s; aw_calls := aw_calls s |}.

(** [AnantaWorkflow()] *)
Definition new_workflow : AnantaWorkflow :=
  {| aw_input := None; aw_phase := CREATED; aw_phase_before_pause := RUNNING; aw_revision := 0;
     aw_current_step_id := ""; aw_completed_step_ids := []; aw_open_gates := [];
     aw_approved_gates := ∅; aw_processed_command_ids := ∅;
     aw_processed_command_payload_digests := ∅; aw_command_authority_enabled := false;
     aw_parameters := []; aw_retry_budget_remaining := 0; aw_retry_budget_maximum := 0;
     aw_checkpoint_ref := ""; aw_effective_plan_hash := ""; aw_plan_revision := 1;
     aw_plan_ref := ""; aw_reason_code := ""; aw_history_event_estimate := 0;
     aw_state_bytes_estimate := 0; aw_artifact_refs := []; aw_artifacts_by_step := ∅;
     aw_failed_step_ids := []; aw_active_activity := None; aw_active_activities := [];
     aw_calls := [] |}.

Definition call (c : engine_call) (s : AnantaWorkflow) : AnantaWorkflow :=
  s <| aw_calls ::= λ l, l ++ [c] |>.

(** [self._phase in {CANCELLED, FAILED}], and with [COMPLETED]. *)
Definition stopped (s : AnantaWorkflow) : bool := bool_decide (aw_phase s ∈ [CANCELLED; FAILED]).
Definition terminal (s : AnantaWorkflow) : bool :=
  bool_decide (aw_phase s ∈ [COMPLETED; FAILED; CANCELLED]).

(** ** Status and transitions *)

Definition workflow_id_of (s : AnantaWorkflow) : string :=
  from_option wi_workflow_id "uninitialized" (aw_input s).
Definition run_id_of (s : AnantaWorkflow) : string :=
  from_option wi_run_id "uninitialized" (aw_input s).

Definition _status (s : AnantaWorkflow) : WorkflowStatus :=
  {| wu_workflow_id := workflow_id_of s; wu_run_id := run_id_of s;
     wu_status := phase_value (aw_phase s); wu_revision := aw_revision s;
     wu_current_step_id := aw_current_step_id s;
     wu_completed_step_ids := aw_completed_step_ids s;
     wu_retry_budget_remaining := aw_retry_budget_remaining s;
     wu_checkpoint_ref := aw_checkpoint_ref s; wu_open_gates := aw_open_gates s;
     wu_reason_code := aw_reason_code s; wu_parameters := aw_parameters s;
     wu_plan_hash := aw_effective_plan_hash s; wu_plan_revision := aw_plan_revision s;
     wu_plan_ref := aw_plan_ref s;
     wu_active_step_ids := sorted_strings (aw_active_activities s);
     wu_failed_step_ids := sorted_strings (aw_failed_step_ids s).*1;
     wu_schema := STATUS_SCHEMA |}.

Definition checkpoint_at (workflow_id : string) (revision : Z) : string :=
  "temporal:" +:+ workflow_id +:+ ":" +:+ z_str revision.

Definition _refresh_checkpoint_ref (s : AnantaWorkflow) : AnantaWorkflow :=
  s <| aw_checkpoint_ref := checkpoint_at (workflow_id_of s) (aw_revision s) |>.

(** [self._revision += 1; self._refresh_checkpoint_ref()] *)
Definition advance (s : AnantaWorkflow) : AnantaWorkflow :=
  _refresh_checkpoint_ref (s <| aw_revision ::= Z.succ |>).

Definition note_events (n : Z) (s : AnantaWorkflow) : AnantaWorkflow :=
  s <| aw_history_event_estimate ::= Z.add n |>.

Definition _transition (phase : WorkflowPhase) (s : AnantaWorkflow) : AnantaWorkflow :=
  if bool_decide (phase = aw_phase s) then s
  else note_events 1 (advance (s <| aw_phase := phase |>)).

Definition _fail (reason_code : string) (s : AnantaWorkflow) : AnantaWorkflow :=
  _transition FAILED (s <| aw_reason_code := str_take 256 (str_or reason_code "workflow_failed") |>).

Definition _within_limits (s : AnantaWorkflow) : bool * AnantaWorkflow :=
  match aw_input s with
  | None => (true, s)
  | Some i =>
      if wi_max_history_events i <? aw_history_event_estimate s
      then (false, _fail "history_limit_exceeded" s)
      else
        let s := s <| aw_state_bytes_estimate :=
                        str_len (json_ascii (PDict (status_to_dict (_status s)))) |> in
        if wi_max_state_bytes i <? aw_state_bytes_estimate s
        then (false, _fail "state_limit_exceeded" s)
        else (true, s)
  end.

Definition check_limits (s : AnantaWorkflow) : AnantaWorkflow := (_within_limits s).2.

(** [query_limit_evidence] *)
Definition query_limit_evidence (s : AnantaWorkflow) : dict :=
  let limit_reason :=
    bool_decide (aw_reason_code s ∈ ["history_limit_exceeded"; "state_limit_exceeded"]) in
  [("schema", PStr "ananta.temporal-limit-evidence.v1");
   ("history_event_estimate", PInt (aw_history_event_estimate s));
   ("history_limit_events", PInt (from_option wi_max_history_events 0 (aw_input s)));
   ("state_bytes_estimate", PInt (aw_state_bytes_estimate s));
   ("state_limit_bytes", PInt (from_option wi_max_state_bytes 0 (aw_input s)));
   ("failed_closed", PBool (limit_reason && bool_decide (aw_phase s = FAILED)));
   ("continue_as_new_required", PBool limit_reason);
   ("reason_code", PStr (if limit_reason then aw_reason_code s else ""))].

(** ** Steps *)

Definition completed (s : AnantaWorkflow) (step_id : string) : bool :=
  bool_decide (step_id ∈ aw_completed_step_ids s).
Definition failed (s : AnantaWorkflow) (step_id : string) : bool :=
  bool_decide (step_id ∈ (aw_failed_step_ids s).*1).

(** A merge that may leave out inputs that failed. *)
Definition omits (step : TemporalWorkflowStep) : bool :=
  bool_decide (ts_node_type step = "merge") && bool_decide (ts_partial_failure step = "omit").

Definition _dependencies_resolved (s : AnantaWorkflow) (step : TemporalWorkflowStep) : bool :=
  if omits step then forallb (λ d, completed s d || failed s d) (ts_depends_on step)
  else forallb (completed s) (ts_depends_on step).

Definition consumers (i : AnantaWorkflowInput) (step_id : string) : list TemporalWorkflowStep :=
  filter (λ step, step_id ∈ ts_depends_on step) (wi_steps i).

Definition _failure_is_omittable (i : AnantaWorkflowInput) (step_id : string) : bool :=
  negb (bool_decide (consumers i step_id = [])) && forallb omits (consumers i step_id).

Definition artifact_key (a : ArtifactReference) : string * string * string :=
  (ar_artifact_id a, ar_kind a, ar_digest a).

(** The order of tuples of text. *)
Definition artifact_leb (a b : ArtifactReference) : bool :=
  if bool_decide (ar_artifact_id a = ar_artifact_id b)
  then if bool_decide (ar_kind a = ar_kind b) then str_leb (ar_digest a) (ar_digest b)
       else str_leb (ar_kind a) (ar_kind b)
  else str_leb (ar_artifact_id a) (ar_artifact_id b).

Definition sorted_artifacts : list ArtifactReference → list ArtifactReference :=
  sort_by artifact_leb.

(** [by_id.setdefault(artifact.artifact_id, artifact)] for each artifact. *)
Definition first_by_id (l : list ArtifactReference) : list (string * ArtifactReference) :=
  foldl (λ by_id a, if bool_decide (ar_artifact_id a ∈ by_id.*1) then by_id
                    else by_id ++ [(ar_artifact_id a, a)]) [] l.

(** The artifacts a step is given: its own, then those of its dependencies. *)
Definition _activity_artifacts (s : AnantaWorkflow) (step : TemporalWorkflowStep)
    : list ArtifactReference :=
  let values := ts_artifact_refs step
    ++ flat_map (λ d, sorted_artifacts (default [] (aw_artifacts_by_step s !! d))) (ts_depends_on step) in
  (sort_by key_leb (first_by_id values)).*2.

Definition append_new (l : list string) (x : string) : list string :=
  if bool_decide (x ∈ l) then l else l ++ [x].

(** The budget a result of the given attempt leaves. *)
Definition spend_attempts (attempt : Z) (s : AnantaWorkflow) : AnantaWorkflow :=
  note_events (6 + Z.max 0 (attempt - 1) * 3)
    (s <| aw_retry_budget_remaining ::= λ r, Z.max 0 (r - Z.max 0 (attempt - 1)) |>).

(** The reason of a result that is not [completed]. *)
Definition result_reason (result : StepActivityResult) : string :=
  str_or (sr_reason_code result) ("activity_" +:+ sr_status result).

Definition complete_step (step : TemporalWorkflowStep) (result : StepActivityResult)
    (s : AnantaWorkflow) : AnantaWorkflow :=
  let artifacts := sorted_artifacts (sr_artifact_refs result) in
  let s := s <| aw_artifacts_by_step ::= λ m, <[ts_step_id step := artifacts]> m |> in
  let s := s <| aw_artifact_refs ::= λ l, foldl append_new l (map ar_artifact_id artifacts) |> in
  let s := s <| aw_completed_step_ids ::= λ l, l ++ [ts_step_id step] |> in
  check_limits (advance s).

(** The answer is empty, or the reason of a failure. *)
Definition _record_activity_result (step : TemporalWorkflowStep) (result : StepActivityResult)
    (s : AnantaWorkflow) : string * AnantaWorkflow :=
  let s := spend_attempts (sr_attempt result) s in
  if bool_decide (sr_operation_id result ≠ ts_operation_id step)
  then ("activity_operation_binding_mismatch", s)
  else if bool_decide (sr_status result ≠ "completed") then (result_reason result, s)
  else ("", complete_step step result s).

Definition _record_omitted_failure (step : TemporalWorkflowStep) (reason_code : string)
    (s : AnantaWorkflow) : AnantaWorkflow :=
  let s := s <| aw_failed_step_ids ::= alist_set (ts_step_id step) (str_take 256 reason_code) |> in
  check_limits (note_events 1 (advance s)).
