(* ===== verification/WorkflowCommands.v ===== *)
(** * Commands of a Temporal workflow (worker/temporal/workflows.py)

    Validating and applying the commands that reach a workflow as updates and
    signals.  An update that names a command waits for the command authority
    between its two halves; other handlers may run meanwhile. *)
From S2P Require Import Prelude Records PyStr PyVal Digest Serialization Plan Envelope CommandContract TemporalContracts RetryProfiles Workflow.

Definition HUB_SIGNED_COMMAND_PATCH_ID : string := "ananta-hub-signed-workflow-command-v2".

(** The index of the first step; a workflow that started has one. *)
Definition first_step_id (i : AnantaWorkflowInput) : result string :=
  match wi_steps i with
  | step :: _ => Ok (ts_step_id step)
  | [] => Err (IndexError "tuple index out of range")
  end.

(** [self._current_step_id or self._input.steps[0].step_id] *)
Definition current_step (s : AnantaWorkflow) (i : AnantaWorkflowInput) : result string :=
  if str_true (aw_current_step_id s) then Ok (aw_current_step_id s) else first_step_id i.

(** The bindings of a command, each with the value it has to have. *)
Definition command_bindings_of (s : AnantaWorkflow) (i : AnantaWorkflowInput) (current : string)
    (c : WorkflowCommand) : list (string * string * string) :=
  [("tenant_id", wk_tenant_id c, wi_tenant_id i); ("workflow_id", wk_workflow_id c, wi_workflow_id i);
   ("run_id", wk_run_id c, wi_run_id i); ("step_id", wk_step_id c, current);
   ("checkpoint_id", wk_checkpoint_id c, aw_checkpoint_ref s);
   ("plan_hash", wk_plan_hash c, aw_effective_plan_hash s);
   ("policy_version", wk_policy_version c, wi_policy_version i)].

Definition in_phase (s : AnantaWorkflow) (phases : list WorkflowPhase) : bool :=
  bool_decide (aw_phase s ∈ phases).

(** What a command of each type needs of the state. *)
Definition check_command_type (s : AnantaWorkflow) (i : AnantaWorkflowInput) (current : string)
    (c : WorkflowCommand) : result unit :=
  match wk_command_type c with
  | APPROVE | REJECT =>
      refuse_when (negb (in_phase s [WAITING_APPROVAL]) || bool_decide (current ∉ aw_open_gates s))
        "approval_gate_not_open"
  | PAUSE =>
      refuse_when (negb (in_phase s [RUNNING; WAITING_APPROVAL])) "workflow_not_pausable"
  | RESUME =>
      refuse_when (negb (in_phase s [PAUSED])) "workflow_not_paused" ;;
      refuse_when (bool_decide (aw_reason_code s = "plan_reauthorization_required"))
        "plan_reauthorization_required"
  | PARAMETER_UPDATE =>
      match dget "parameters" (wk_payload c) with
      | PDict (kv :: d) =>
          refuse_when (existsb (λ k, bool_decide (k ∉ wi_mutable_parameters i)) (dict_keys (kv :: d)))
            "immutable_parameter" ;;
          refuse_when (32768 <? str_len (json_ascii (PDict (dict_update (aw_parameters s) (kv :: d)))))
            "parameter_update_too_large"
      | _ => Err (temporal_error "parameter_update_required")
      end
  | EDIT | REQUEST_CHANGES =>
      refuse_when (bool_decide (is_Some (aw_active_activity s))
                   || negb (bool_decide (aw_active_activities s = []))) "plan_edit_activity_running"
  | CANCEL | RETRY => Ok tt
  end.

(** [_validate_command], at the workflow's time [now]. *)
Definition _validate_command (s : AnantaWorkflow) (c : WorkflowCommand) (now : float)
    : result unit :=
  match aw_input s with
  | None => Err (temporal_error "workflow_not_started")
  | Some i =>
      refuse_when (1000 <=? Z.of_nat (size (aw_processed_command_ids s))) "command_limit_exceeded" ;;
      refuse_when (negb (wk_expected_revision c =? aw_revision s)) "stale_workflow_revision" ;;
      refuse_when (bool_decide (wk_command_type c = RETRY)) "temporal_retry_unsupported" ;;
      refuse_when (bool_decide (wk_command_type c ∈ [EDIT; REQUEST_CHANGES]))
        "temporal_plan_edit_unsupported" ;;
      refuse_when (terminal s) "workflow_terminal" ;;
      current ← current_step s i;
      for_each (λ nav, refuse_when (bool_decide (nav.1.2 ≠ nav.2))
                         ("command_" +:+ nav.1.1 +:+ "_mismatch")) (command_bindings_of s i current c) ;;
      refuse_when (float_ltb now (wk_issued_at c) || float_leb (wk_expires_at c) now)
        "command_expired" ;;
      check_command_type s i current c
  end.

Definition cancel_activities (s : AnantaWorkflow) : AnantaWorkflow :=
  let s := match aw_active_activity s with Some step => call (CancelActivity step) s | None => s end in
  foldl (λ s step, call (CancelActivity step) s) s (aw_active_activities s).

(** [target if target in {RUNNING, WAITING_APPROVAL} else RUNNING] *)
Definition resume_target (s : AnantaWorkflow) : WorkflowPhase :=
  match aw_phase_before_pause s with
  | WAITING_APPROVAL => WAITING_APPROVAL
  | _ => RUNNING
  end.

Definition pause (s : AnantaWorkflow) : AnantaWorkflow :=
  _transition PAUSED (s <| aw_phase_before_pause := aw_phase s |>).

Definition cancel (reason : string) (s : AnantaWorkflow) : AnantaWorkflow :=
  cancel_activities (_transition CANCELLED s <| aw_reason_code := str_take 256 reason |>).

(** The plan edit of a command; [_validate_command] lets none through. *)
Definition edit_plan (payload : dict) : action AnantaWorkflow unit :=
  match dict_get "replacement_plan_hash" payload with
  | None => mthrow (KeyError "replacement_plan_hash")
  | Some hash =>
      modify (λ s, s <| aw_effective_plan_hash := py_str hash |>
                     <| aw_plan_ref := str_take 256 (str_or_default (dget "plan_ref" payload) "inline-plan") |>
                     <| aw_plan_revision ::= Z.succ |>) ;;
      modify pause ;;
      modify (λ s, s <| aw_reason_code := "plan_reauthorization_required" |>)
  end.

(** The part of [_apply_command] that depends on the type. *)
Definition command_effect (c : WorkflowCommand) : action AnantaWorkflow unit :=
  match wk_command_type c with
  | APPROVE => modify (λ s, s <| aw_approved_gates ::= λ g, {[aw_current_step_id s]} ∪ g |>)
  | REJECT => modify (_fail "approval_rejected")
  | PAUSE => modify pause
  | RESUME => modify (λ s, _transition (resume_target s) s)
  | CANCEL => modify (cancel (str_or_default (dget "reason" (wk_payload c)) "cancel_requested"))
  | PARAMETER_UPDATE =>
      updates ← lift (py_dict (por (dget "parameters" (wk_payload c)) (PDict [])));
      modify (λ s, s <| aw_parameters ::= λ p, dict_update p updates |>)
  | EDIT | REQUEST_CHANGES => edit_plan (wk_payload c)
  | RETRY => mret tt
  end.

Definition command_result (c : WorkflowCommand) (s : AnantaWorkflow) : WorkflowCommandResult :=
  {| wx_command_id := wk_command_id c; wx_accepted := true; wx_revision := aw_revision s;
     wx_status := phase_value (aw_phase s); wx_reason_code := "";
     wx_schema := COMMAND_RESULT_SCHEMA |}.

(** The end of [_apply_command]: what is kept of the command. *)
Definition keep_command (c : WorkflowCommand) (result : WorkflowCommandResult) (s : AnantaWorkflow)
    : AnantaWorkflow :=
  call (CommandApplied c result)
    (s <| aw_processed_command_ids ::= λ m, <[wk_command_id c := result]> m |>).

Definition _apply_command (c : WorkflowCommand) : action AnantaWorkflow WorkflowCommandResult :=
  modify (λ s, s <| aw_reason_code := "" |>) ;;
  command_effect c ;;
  modify (λ s, note_events 2 (advance s)) ;;
  s ← get;
  modify (keep_command c (command_result c s)) ;;
  modify check_limits ;;
  mret (command_result c s).

(** ** Updates *)

Definition _rejected_command_result (raw : dict) (reason_code : string) (s : AnantaWorkflow)
    : WorkflowCommandResult :=
  {| wx_command_id := str_take 256 (str_or_default (dget "command_id" raw) "");
     wx_accepted := false; wx_revision := aw_revision s; wx_status := phase_value (aw_phase s);
     wx_reason_code := str_or reason_code "workflow_command_rejected";
     wx_schema := COMMAND_RESULT_SCHEMA |}.

Definition answer (result : WorkflowCommandResult) : action AnantaWorkflow unit :=
  modify (call (CommandAnswered result)).

(** The [except TemporalContractError] of an update. *)
Definition answer_or_reject (raw : dict) (m : action AnantaWorkflow WorkflowCommandResult)
    : action AnantaWorkflow unit := λ s,
  match m s with
  | (Ok result, s) => answer result s
  | (Err (TemporalContractError code), s) => answer (_rejected_command_result raw code s) s
  | (Err e, s) => (Err e, s)
  end.

Definition keep_digest (c : WorkflowCommand) (digest : string) (s : AnantaWorkflow)
    : AnantaWorkflow :=
  s <| aw_processed_command_payload_digests ::= λ m, <[wk_command_id c := digest]> m |>.

Section updates.
Context `{Digest} (patched : string → bool).

(** [WorkflowCommand.from_mapping(raw)] *)
Definition command_from_raw (raw : pyval) : result WorkflowCommand :=
  match raw with
  | PDict raw => neutral_from_mapping raw
  | _ => Err (temporal_error "invalid_command")
  end.

Definition payload_digest_of (c : WorkflowCommand) : result string :=
  _workflow_command_payload_digest (command_dict c).

Definition _apply_legacy_replay_command (c : WorkflowCommand) (now : float)
  : action AnantaWorkflow WorkflowCommandResult :=
  s ← get;
  match aw_processed_command_ids s !! wk_command_id c with
  | Some duplicate => mret duplicate
  | None =>
      lift (_validate_command s c now) ;;
      result ← _apply_command c;
      digest ← lift (payload_digest_of c);
      modify (keep_digest c digest) ;;
      mret result
  end.

(** The update [command] up to its first wait: the command that is now with the
    authority, or nothing when the update is answered.  The validator refuses
    what is not an object. *)
Definition command_received (raw : dict) (replaying : bool) (now : float)
  : action AnantaWorkflow (option WorkflowCommand) := λ s,
  match neutral_from_mapping raw with
  | Ok c =>
      if aw_command_authority_enabled s then (Ok (Some c), s)
      else (answer_or_reject raw
        (if replaying then _apply_legacy_replay_command c now
          else mthrow (temporal_error "temporal_command_authority_migration_required")) ;;
        mret None) s
  | Err (TemporalContractError code) =>
      (answer (_rejected_command_result raw code s) ;; mret None) s
  | Err e => (Err e, s)
  end.

(** What the second half of [_verify_command_authority] makes of the reply. *)
Inductive authority_decision :=
  | AuthorityAccepted (result : WorkflowCommandAuthorityResult)
  | AuthorityRejected (reason_code : string)
  | AuthorityUnusable (type : string).

Definition authority_binding_mismatch : authority_decision :=
  AuthorityUnusable "temporal-command-authority-result-binding-mismatch".

(** The reply is about this very command. *)
Definition authority_bound (c : WorkflowCommand) (r : WorkflowCommandAuthorityResult)
  : result bool :=
  if bool_decide (ca_command_id r ≠ wk_command_id c) then Ok false
  else
  digest ← payload_digest_of c;
  Ok (bool_decide (ca_payload_digest r = digest)
    && bool_decide (ca_signature_algorithm r = str_or (wk_signature_algorithm c) "ed25519")
    && bool_decide (ca_key_id r = wk_key_id c)).

Definition authority_decide (c : WorkflowCommand) (raw_result : pyval)
  : result authority_decision :=
  match authority_from_mapping raw_result with
  | Err (TemporalContractError code) =>
      Ok (AuthorityUnusable ("temporal-command-authority-result-invalid:" +:+ code))
  | Err e => Err e
  | Ok r =>
      bound ← authority_bound c r;
      Ok (if negb bound then authority_binding_mismatch
        else if negb (ca_accepted r) then AuthorityRejected (ca_reason_code r)
        else AuthorityAccepted r)
  end.

(** The rest of the update once the authority accepted the command. *)
Definition apply_authorized (c : WorkflowCommand) (authority : WorkflowCommandAuthorityResult)
  (now : float) : action AnantaWorkflow WorkflowCommandResult :=
  s ← get;
  match aw_processed_command_ids s !! wk_command_id c with
  | Some duplicate =>
      let expected := default "" (aw_processed_command_payload_digests s !! wk_command_id c) in
      lift (refuse_when (negb (str_true expected)
      || bool_decide (expected ≠ ca_payload_digest authority))
      "command_duplicate_payload_mismatch") ;;
    mret duplicate
  | None =>
      lift (_validate_command s c now) ;;
      result ← _apply_command c;
      modify (keep_digest c (ca_payload_digest authority)) ;;
      mret result
  end.

(** The update [command] after its wait; the authority did not answer when there
    is no reply. *)
Definition authority_replied (raw : dict) (c : WorkflowCommand) (reply : option pyval) (now : float)
  : action AnantaWorkflow unit :=
  match reply with
  | None => modify (call (UpdateFailed "activity_error"))
  | Some raw_result =>
      match authority_decide c raw_result with
    | Ok (AuthorityUnusable type) => modify (call (UpdateFailed type))
    | Ok (AuthorityRejected code) => answer_or_reject raw (mthrow (temporal_error code))
    | Ok (AuthorityAccepted authority) => answer_or_reject raw (apply_authorized c authority now)
    | Err e => answer_or_reject raw (mthrow e)
    end
  end.

(** ** Signals *)

Definition note_reason (reason_code : string) (s : AnantaWorkflow) : AnantaWorkflow :=
  s <| aw_reason_code := reason_code |>.

(** The body of [_apply_signal] before hub-signed commands. *)
Definition apply_unsigned_signal (raw : pyval) (expected : WorkflowCommandType) (now : float)
  : action AnantaWorkflow unit :=
  c ← lift (command_from_raw raw);
  lift (refuse_when (bool_decide (wk_command_type c ≠ expected)) "command_type_mismatch") ;;
  s ← get;
  if bool_decide (is_Some (aw_processed_command_ids s !! wk_command_id c)) then mret tt
  else lift (_validate_command s c now) ;; _apply_command c ;; mret tt.

Definition _apply_signal (raw : pyval) (expected : WorkflowCommandType) (now : float)
  : action AnantaWorkflow unit := λ s,
  if patched HUB_SIGNED_COMMAND_PATCH_ID then (Ok tt, note_reason "direct_signal_forbidden" s)
  else
  match apply_unsigned_signal raw expected now s with
  | (Err (TemporalContractError code), s) => (Ok tt, note_reason ("signal_rejected:" +:+ code) s)
  | out => out
  end.
End updates.
