(* ===== verification/WorkflowRun.v ===== *)
(** * The coroutine of a Temporal workflow (worker/temporal/workflows.py)

    [AnantaWorkflow.run] as a machine: between two waits a coroutine runs
    without interruption, so a run is a sequence of events, each of which lets
    one coroutine go on from where it waits.  The engine chooses the events; the
    theorems hold for every sequence. *)
From S2P Require Import Prelude Records PyStr PyVal Digest Serialization Plan Envelope CommandContract TemporalContracts RetryProfiles Workflow WorkflowCommands.

Definition BOUNDED_PARALLEL_PATCH_ID : string := "ananta-workflow-bounded-parallel-v1".
Definition COMMAND_AUTHORITY_PATCH_ID : string := "ananta-workflow-command-authority-v3".

(** How a started activity ends: with a result, with [ActivityError], or with
    [CancelledError]. *)
Inductive activity_reply :=
| ActivityResult (raw : pyval)
| ActivityError
| ActivityCancelled.

(** What [_execute_batch] keeps of an activity. *)
Inductive outcome :=
| Got (result : StepActivityResult)
| Lost (error : string).

(** Where the coroutine [run] waits, and how it ended.  In [Awaiting] the
    activities of the list are started and the first of them is awaited; a
    legacy state is one of [_run_legacy_sequential].  An exception that nothing
    catches fails the workflow task, and the workflow is [Stuck]. *)
Inductive main_state :=
| NotStarted
| Resuming (remaining : gset string)
| AtGate (remaining : gset string) (step : TemporalWorkflowStep)
| Awaiting (remaining : gset string) (step : TemporalWorkflowStep)
    (started : list TemporalWorkflowStep) (outcomes : list (TemporalWorkflowStep * outcome))
| LegacyResuming (step : TemporalWorkflowStep) (rest : list TemporalWorkflowStep)
| LegacyAtGate (step : TemporalWorkflowStep) (rest : list TemporalWorkflowStep)
| LegacyAwaiting (step : TemporalWorkflowStep) (rest : list TemporalWorkflowStep)
| Returned (status : dict)
| Aborted
| Stuck (e : exn).

Definition id_set (ids : list string) : gset string := list_to_set ids.

(** Executing nothing but changes of state. *)
Notation "'do' f ; m" := (modify f ;; m) (at level 60, f at next level, m at level 200).

(** ** The end of [run] *)

Definition return_status : action AnantaWorkflow main_state :=
  s ← get; mret (Returned (status_to_dict (_status s))).

Definition close (s : AnantaWorkflow) : AnantaWorkflow :=
  let s := s <| aw_current_step_id := "" |> <| aw_open_gates := [] |> in
  if stopped s then s else _transition COMPLETED s.

Definition leave : action AnantaWorkflow main_state := do close; return_status.

(** [assert self._input is not None], which holds once [run] started. *)
Definition the_input : action AnantaWorkflow AnantaWorkflowInput :=
  s ← get;
  match aw_input s with Some i => mret i | None => mthrow (TypeError "AssertionError") end.

Definition open_gate (step : TemporalWorkflowStep) (s : AnantaWorkflow) : AnantaWorkflow :=
  _transition WAITING_APPROVAL (s <| aw_open_gates := [ts_step_id step] |>).

(** After the wait for an approval. *)
Definition close_gate (s : AnantaWorkflow) : AnantaWorkflow :=
  let s := s <| aw_open_gates := [] |> in
  if stopped s then s else _transition RUNNING s.

Definition gate_closed (s : AnantaWorkflow) (step : TemporalWorkflowStep) : bool :=
  ts_gate step && bool_decide (ts_step_id step ∉ aw_approved_gates s).

Definition activity_id_of (step : TemporalWorkflowStep) : string :=
  "ananta:" +:+ ts_step_id step +:+ ":" +:+ ts_operation_id step.

Section run.
Context `{Digest} (normalize_endpoint : string → string → option string).
Context (patched : string → bool) (info_workflow_id : string) (record_compatibility_patch : bool).

(** ** Starting activities *)

(** The input of the activity of [step]; [artifacts] and the four last fields
    differ between the two schedulers. *)
Definition activity_input (s : AnantaWorkflow) (i : AnantaWorkflowInput)
  (step : TemporalWorkflowStep) (artifacts : list ArtifactReference)
  (node_type parallel_group merge_strategy partial_failure : string) : result StepActivityInput :=
  activity_post_init {|
    si_tenant_id := wi_tenant_id i; si_workflow_id := wi_workflow_id i; si_run_id := wi_run_id i;
    si_correlation_id := wi_correlation_id i; si_step_id := ts_step_id step;
    si_operation_id := ts_operation_id step; si_plan_hash := wi_plan_hash i;
    si_task_kind := ts_task_kind step; si_authorization := ts_authorization step;
    si_artifact_refs := artifacts; si_required_capabilities := ts_required_capabilities step;
    si_activity_class := ts_activity_class step;
    si_retry_budget_remaining := aw_retry_budget_remaining s;
    si_retry_budget_maximum := Some (aw_retry_budget_maximum s);
    si_parameters := aw_parameters s; si_node_type := node_type;
    si_parallel_group := parallel_group; si_merge_strategy := merge_strategy;
    si_partial_failure := partial_failure; si_schema := ACTIVITY_INPUT_SCHEMA |}.

Definition _activity_request (s : AnantaWorkflow) (i : AnantaWorkflowInput)
  (step : TemporalWorkflowStep) : result StepActivityInput :=
  activity_input s i step (_activity_artifacts s step) (ts_node_type step) (ts_parallel_group step)
  (ts_merge_strategy step) (ts_partial_failure step).

(** The request of the sequential scheduler. *)
Definition legacy_request (s : AnantaWorkflow) (i : AnantaWorkflowInput)
  (step : TemporalWorkflowStep) : result StepActivityInput :=
  activity_input s i step (ts_artifact_refs step) "task" "default" "" "fail".

(** [workflow.start_activity] with the request and the retry profile of a step. *)
Definition start_call (s : AnantaWorkflow) (step : TemporalWorkflowStep)
  (request : result StepActivityInput) : result engine_call :=
  request ← request;
  profile ← retry_profile_for (ts_activity_class step);
  options ← temporal_options profile (aw_retry_budget_remaining s);
  request ← activity_to_dict normalize_endpoint request;
  Ok (StartActivity step (activity_id_of step) request options).

(** [self._revision += 1; ...; self._history_event_estimate += 1] *)
Definition enter_step (s : AnantaWorkflow) : AnantaWorkflow := note_events 1 (advance s).

(** One round of the loop that starts a batch; false when it breaks. *)
Definition start_step (i : AnantaWorkflowInput) (step : TemporalWorkflowStep)
  : action AnantaWorkflow bool :=
  do enter_step;
  s ← get;
  let '(ok, s) := _within_limits s in
  put s ;;
  if ok then
  started ← lift (start_call s step (_activity_request s i step));
  do (λ s, call started s <| aw_active_activities ::= λ l, append_new l (ts_step_id step) |>);
  mret true
  else mret false.

Fixpoint start_batch (i : AnantaWorkflowInput) (batch : list TemporalWorkflowStep)
  : action AnantaWorkflow (list TemporalWorkflowStep) :=
  match batch with
  | [] => mret []
  | step :: batch =>
      ok ← start_step i step;
      if (ok : bool) then started ← start_batch i batch; mret (step :: started) else mret []
  end.

(** ** Settling a batch *)

(** A failure that no consumer omits is fatal; the first one counts. *)
Definition note_failure (i : AnantaWorkflowInput) (step : TemporalWorkflowStep) (reason : string)
  (acc : string * AnantaWorkflow) : string * AnantaWorkflow :=
  if _failure_is_omittable i (ts_step_id step)
  then (acc.1, _record_omitted_failure step reason acc.2)
  else (str_or acc.1 reason, acc.2).

Definition settle (i : AnantaWorkflowInput) (acc : string * AnantaWorkflow)
  (o : TemporalWorkflowStep * outcome) : string * AnantaWorkflow :=
  match o.2 with
  | Lost error => note_failure i o.1 error (acc.1, acc.2 <| aw_retry_budget_remaining := 0 |>)
  | Got result =>
      let '(failure, s) := _record_activity_result o.1 result acc.2 in
      if str_true failure then note_failure i o.1 failure (acc.1, s) else (acc.1, s)
  end.

Definition settle_batch (i : AnantaWorkflowInput) (outcomes : list (TemporalWorkflowStep * outcome))
  (s : AnantaWorkflow) : AnantaWorkflow :=
  let '(fatal_reason, s) := foldl (settle i) ("", s) outcomes in
  let s := if str_true fatal_reason && negb (bool_decide (aw_phase s = CANCELLED))
  then _fail fatal_reason s else s in
  s <| aw_current_step_id := "" |>.

(** ** [_run_bounded_dag] *)

(** [while remaining and self._phase not in {CANCELLED, FAILED}] *)
Definition loop_head (remaining : gset string) : action AnantaWorkflow main_state :=
  s ← get;
  if bool_decide (remaining = ∅) || stopped s then leave else mret (Resuming remaining).

(** The rest of the loop's body once a batch is done. *)
Definition batch_done (remaining : gset string)
  (outcomes : list (TemporalWorkflowStep * outcome)) : action AnantaWorkflow main_state :=
  i ← the_input;
  do (settle_batch i outcomes);
  s ← get;
  loop_head (remaining ∖ id_set (aw_completed_step_ids s) ∖ id_set (aw_failed_step_ids s).*1).

Definition _execute_batch (i : AnantaWorkflowInput) (remaining : gset string)
  (batch : list TemporalWorkflowStep) : action AnantaWorkflow main_state :=
  match batch with
  | [] =>
      do (_fail "parallel_batch_empty");
      s ← get;
      loop_head (remaining ∖ id_set (aw_completed_step_ids s) ∖ id_set (aw_failed_step_ids s).*1)
  | first :: _ =>
      do (λ s, s <| aw_current_step_id := ts_step_id first |>);
      started ← start_batch i batch;
      match started with
    | step :: started => mret (Awaiting remaining step started [])
    | [] => batch_done remaining []
    end
  end.

Definition ready_steps (s : AnantaWorkflow) (i : AnantaWorkflowInput) (remaining : gset string)
  : list TemporalWorkflowStep :=
  filter (λ step, ts_step_id step ∈ remaining ∧ _dependencies_resolved s step = true) (wi_steps i).

Definition parallel_limit (i : AnantaWorkflowInput) : Z :=
  Z.min (wi_max_parallel_steps i) (Z.min (wi_tenant_parallel_limit i) (wi_worker_parallel_limit i)).

(** The ready steps of the first one's group, within the limits. *)
Definition batch_of (i : AnantaWorkflowInput) (first : TemporalWorkflowStep)
  (ready : list TemporalWorkflowStep) : list TemporalWorkflowStep :=
  take (Z.to_nat (parallel_limit i))
  (filter (λ step, ts_parallel_group step = ts_parallel_group first) ready).

(** The body of the loop after the wait for a pause to end. *)
Definition dag_turn (remaining : gset string) : action AnantaWorkflow main_state :=
  i ← the_input;
  s ← get;
  if stopped s then leave
  else
  let ready := ready_steps s i remaining in
  match ready with
  | [] => do (_fail "dependency_not_completed"); leave
  | first :: _ =>
      match filter (λ step, gate_closed s step = true) ready with
    | step :: _ =>
        do (λ s, open_gate step (s <| aw_current_step_id := ts_step_id step |>));
        mret (AtGate remaining step)
    | [] => _execute_batch i remaining (batch_of i first ready)
    end
  end.

(** The end of [_wait_for_gate], and the next round of the loop. *)
Definition gate_passed (remaining : gset string) : action AnantaWorkflow main_state :=
  do close_gate; loop_head remaining.

Definition outcome_of (reply : activity_reply) : result outcome :=
  match reply with
  | ActivityError => Ok (Lost "activity_retry_exhausted")
  | ActivityCancelled => Ok (Lost "activity_cancelled")
  | ActivityResult raw =>
      match activity_result_from_mapping raw with
    | Ok result => Ok (Got result)
    | Err (TemporalContractError code) => Ok (Lost code)
    | Err e => Err e
    end
  end.

Definition release_activity (step : TemporalWorkflowStep) (s : AnantaWorkflow) : AnantaWorkflow :=
  s <| aw_active_activities ::= filter (λ k, k ≠ ts_step_id step) |>.

(** The awaited activity ends; the next one is awaited, or the batch is done. *)
Definition activity_ended (remaining : gset string) (step : TemporalWorkflowStep)
  (started : list TemporalWorkflowStep) (outcomes : list (TemporalWorkflowStep * outcome))
  (reply : activity_reply) : action AnantaWorkflow main_state :=
  do (release_activity step);
  o ← lift (outcome_of reply);
  match started with
  | next :: started => mret (Awaiting remaining next started (outcomes ++ [(step, o)]))
  | [] => batch_done remaining (outcomes ++ [(step, o)])
  end.

(** ** [_run_legacy_sequential] *)

Definition legacy_head (steps : list TemporalWorkflowStep) : action AnantaWorkflow main_state :=
  s ← get;
  match steps with
  | [] => leave
  | step :: rest => if stopped s then leave else mret (LegacyResuming step rest)
  end.

Definition legacy_start (step : TemporalWorkflowStep) (rest : list TemporalWorkflowStep)
  : action AnantaWorkflow main_state :=
  i ← the_input;
  s ← get;
  started ← lift (start_call s step (legacy_request s i step));
  do (λ s, call started s <| aw_active_activity := Some (ts_step_id step) |>);
  mret (LegacyAwaiting step rest).

Definition legacy_turn (step : TemporalWorkflowStep) (rest : list TemporalWorkflowStep)
  : action AnantaWorkflow main_state :=
  s ← get;
  if stopped s then leave
  else if negb (forallb (completed s) (ts_depends_on step))
  then do (_fail "dependency_not_completed"); leave
  else
  do (λ s, enter_step (s <| aw_current_step_id := ts_step_id step |>));
  s ← get;
  let '(ok, s) := _within_limits s in
  put s ;;
  if negb ok then leave
  else if gate_closed s step then do (open_gate step); mret (LegacyAtGate step rest)
  else legacy_start step rest.

Definition legacy_gate_passed (step : TemporalWorkflowStep) (rest : list TemporalWorkflowStep)
  : action AnantaWorkflow main_state :=
  do close_gate;
  s ← get;
  if stopped s then leave else legacy_start step rest.

(** The state after a result of the sequential scheduler, and whether its loop
    goes on. *)
Definition legacy_record (step : TemporalWorkflowStep) (result : StepActivityResult)
  (s : AnantaWorkflow) : bool * AnantaWorkflow :=
  let s := spend_attempts (sr_attempt result) s in
  if bool_decide (sr_operation_id result ≠ ts_operation_id step)
  then (false, _fail "activity_operation_binding_mismatch" s)
  else
  let s := s <| aw_artifact_refs ::=
  λ l, foldl append_new l (map ar_artifact_id (sr_artifact_refs result)) |> in
  if bool_decide (sr_status result ≠ "completed") then (false, _fail (result_reason result) s)
  else _within_limits (advance (s <| aw_completed_step_ids ::= λ l, l ++ [ts_step_id step] |>)).

Definition legacy_ended (step : TemporalWorkflowStep) (rest : list TemporalWorkflowStep)
  (reply : activity_reply) : action AnantaWorkflow main_state :=
  do (λ s, s <| aw_active_activity := None |>);
  match reply with
  | ActivityCancelled => mret Aborted
  | ActivityError =>
      do (λ s, let s := s <| aw_retry_budget_remaining := 0 |> in
        if bool_decide (aw_phase s = CANCELLED) then s else _fail "activity_retry_exhausted" s);
      leave
  | ActivityResult raw =>
      match activity_result_from_mapping raw with
    | Err (TemporalContractError code) => do (_fail code); leave
    | Err e => mthrow e
    | Ok result =>
        s ← get;
        let '(go, s) := legacy_record step result s in
        put s ;;
        if go then legacy_head rest else leave
    end
  end.

(** ** [run] *)

Definition reject_input (reason_code : string) (s : AnantaWorkflow) : AnantaWorkflow :=
  s <| aw_phase := FAILED |> <| aw_reason_code := reason_code |>.

(** The attributes that an input sets. *)
Definition take_input (i : AnantaWorkflowInput) (s : AnantaWorkflow) : AnantaWorkflow :=
  _transition RUNNING (s
    <| aw_command_authority_enabled := record_compatibility_patch && patched COMMAND_AUTHORITY_PATCH_ID |>
    <| aw_parameters := wi_parameters i |>
    <| aw_effective_plan_hash := wi_plan_hash i |>
    <| aw_retry_budget_remaining := wi_retry_budget_remaining i |>
    <| aw_retry_budget_maximum := default 0 (wi_retry_budget_maximum i) |>).

Definition run_started (raw : pyval) : action AnantaWorkflow main_state :=
  match input_from_mapping normalize_endpoint "" raw with
  | Err (TemporalContractError code) => do (reject_input code); return_status
  | Err e => mthrow e
  | Ok i =>
      do (λ s, s <| aw_input := Some i |>);
      if bool_decide (wi_workflow_id i ≠ info_workflow_id)
      then do (reject_input "temporal_workflow_id_mismatch"); return_status
      else
      do (take_input i);
      if patched BOUNDED_PARALLEL_PATCH_ID then loop_head (id_set (map ts_step_id (wi_steps i)))
      else legacy_head (wi_steps i)
  end.

(** ** Events *)

Inductive event :=
  | RunStarted (raw : pyval)
  | Woken
  | ActivityEnded (reply : activity_reply)
  | CommandReceived (raw : dict) (replaying : bool) (now : float)
  | AuthorityReplied (update : nat) (reply : option pyval) (now : float)
  | SignalReceived (raw : pyval) (expected : WorkflowCommandType) (now : float).

(** A workflow, its coroutine [run], and the updates that wait for the command
    authority. *)
Record Run := {
    run_self : AnantaWorkflow;
    run_main : main_state;
    run_updates : list (dict * WorkflowCommand);
  }.

Definition new_run : Run := {| run_self := new_workflow; run_main := NotStarted; run_updates := [] |}.

(** What the coroutine does on an event, when it waits for it: a condition has
    to hold for the coroutine to wake. *)
Definition main_move (s : AnantaWorkflow) (m : main_state) (e : event)
  : option (action AnantaWorkflow main_state) :=
  let paused := bool_decide (aw_phase s = PAUSED) in
  let waiting step := bool_decide (ts_step_id step ∉ aw_approved_gates s) && negb (stopped s) in
  match e, m with
  | RunStarted raw, NotStarted => Some (run_started raw)
  | Woken, Resuming remaining => if paused then None else Some (dag_turn remaining)
  | Woken, AtGate remaining step => if waiting step then None else Some (gate_passed remaining)
  | ActivityEnded reply, Awaiting remaining step started outcomes =>
      Some (activity_ended remaining step started outcomes reply)
  | Woken, LegacyResuming step rest => if paused then None else Some (legacy_turn step rest)
  | Woken, LegacyAtGate step rest => if waiting step then None else Some (legacy_gate_passed step rest)
  | ActivityEnded reply, LegacyAwaiting step rest => Some (legacy_ended step rest reply)
  | _, _ => None
  end.

(** What a handler does on an event, and the update it leaves waiting. *)
Definition handler_move (updates : list (dict * WorkflowCommand)) (e : event)
  : option (action AnantaWorkflow (list (dict * WorkflowCommand))) :=
  match e with
  | CommandReceived raw replaying now => Some (
      waiting ← command_received raw replaying now;
      mret (updates ++ match waiting with Some c => [(raw, c)] | None => [] end))
  | AuthorityReplied k reply now =>
      match updates !! k with
    | Some (raw, c) => Some (authority_replied raw c reply now ;; mret (delete k updates))
    | None => None
    end
  | SignalReceived raw expected now => Some (_apply_signal patched raw expected now ;; mret updates)
  | _ => None
  end.

(** Nothing runs once the workflow returned, was aborted or is stuck. *)
Definition ended (m : main_state) : bool :=
  match m with Returned _ | Aborted | Stuck _ => true | _ => false end.

Definition run_event (e : event) (r : Run) : Run :=
  if ended (run_main r) then r
  else
  match main_move (run_self r) (run_main r) e, handler_move (run_updates r) e with
  | Some m, _ =>
      match m (run_self r) with
    | (Ok main, s) => {| run_self := s; run_main := main; run_updates := run_updates r |}
    | (Err e, s) => {| run_self := s; run_main := Stuck e; run_updates := run_updates r |}
    end
  | None, Some h =>
      match h (run_self r) with
    | (Ok updates, s) => {| run_self := s; run_main := run_main r; run_updates := updates |}
    | (Err e, s) => {| run_self := s; run_main := Stuck e; run_updates := run_updates r |}
    end
  | None, None => r
  end.

(** The runs that some sequence of events leads to. *)
Definition reachable_run (r : Run) : Prop := reachable run_event new_run r.
End run.
