(* ===== verification/WorkflowFrame.v ===== *)
(** * What the operations of a Temporal workflow leave alone

    Relations between the states before and after an operation: [quiet] for the
    bookkeeping of phase, revision, checkpoint and limits, [noted] for answers to
    callers, [applied] for one command, and [handler_effect] for everything a
    handler can do while the coroutine [run] waits. *)
From S2P Require Import Prelude Records PyStr PyVal Digest Serialization Plan Envelope CommandContract TemporalContracts RetryProfiles Workflow WorkflowCommands WorkflowRun.

Create HintDb workflow.

(** ** Bookkeeping *)

(** The state without the fields that bookkeeping changes. *)
Definition erase (s : AnantaWorkflow) : AnantaWorkflow :=
  s <| aw_phase := CREATED |> <| aw_revision := 0 |> <| aw_checkpoint_ref := "" |>
    <| aw_reason_code := "" |> <| aw_history_event_estimate := 0 |>
    <| aw_state_bytes_estimate := 0 |>.

(** The checkpoint names the revision. *)
Definition checked (s : AnantaWorkflow) : Prop :=
  aw_checkpoint_ref s = checkpoint_at (workflow_id_of s) (aw_revision s).

Record quiet (s s' : AnantaWorkflow) : Prop := {
  qt_erase : erase s' = erase s;
  qt_revision : aw_revision s ≤ aw_revision s';
  qt_checked : checked s → checked s';
}.

Lemma quiet_refl s : quiet s s.
Proof. by constructor. Qed.

Lemma quiet_trans s1 s2 s3 : quiet s1 s2 → quiet s2 s3 → quiet s1 s3.
Proof. intros [E1 R1 C1] [E2 R2 C2]. constructor; [congruence|lia|auto]. Qed.

#[global] Instance quiet_preorder : PreOrder quiet.
Proof. split; [exact quiet_refl|exact quiet_trans]. Qed.

(** A field that bookkeeping does not change. *)
Lemma quiet_field {T} (f : AnantaWorkflow → T) s s' :
  (∀ s, f (erase s) = f s) → quiet s s' → f s' = f s.
Proof. intros Hf [He _ _]. by rewrite <- (Hf s'), He, Hf. Qed.

Lemma quiet_input s s' : quiet s s' → aw_input s' = aw_input s.
Proof. by apply quiet_field. Qed.
Lemma quiet_calls s s' : quiet s s' → aw_calls s' = aw_calls s.
Proof. by apply quiet_field. Qed.

(** Changing erased fields other than the revision and the checkpoint. *)
Lemma quiet_same s s' :
  erase s' = erase s → aw_revision s' = aw_revision s → aw_checkpoint_ref s' = aw_checkpoint_ref s →
  quiet s s'.
Proof.
  intros He Hr Hc. constructor; [done|lia|]. unfold checked, workflow_id_of.
  rewrite Hr, Hc. assert (aw_input s' = aw_input s) as -> by exact (f_equal aw_input He). done.
Qed.

Lemma checked_advance s : checked (advance s).
Proof. done. Qed.

Lemma quiet_advance s : quiet s (advance s).
Proof. constructor; [done|cbn; lia|intros _; apply checked_advance]. Qed.

Lemma quiet_events n s : quiet s (note_events n s).
Proof. by apply quiet_same. Qed.

Lemma quiet_reason r s : quiet s (s <| aw_reason_code := r |>).
Proof. by apply quiet_same. Qed.

Lemma quiet_transition p s : quiet s (_transition p s).
Proof.
  unfold _transition. case_bool_decide; [reflexivity|].
  transitivity (s <| aw_phase := p |>); [by apply quiet_same|].
  transitivity (advance (s <| aw_phase := p |>)); [apply quiet_advance|apply quiet_events].
Qed.

Lemma transition_phase p s : aw_phase (_transition p s) = p.
Proof. unfold _transition. by case_bool_decide as Hp; [rewrite Hp|]. Qed.

Lemma quiet_fail r s : quiet s (_fail r s).
Proof. etransitivity; [apply quiet_reason|apply quiet_transition]. Qed.

Lemma fail_phase r s : aw_phase (_fail r s) = FAILED.
Proof. apply transition_phase. Qed.

Lemma within_limits_run s ok s' :
  _within_limits s = (ok, s') →
  quiet s s' ∧ aw_phase s' = if ok then aw_phase s else FAILED.
Proof.
  unfold _within_limits. destruct (aw_input s) as [i|]; [|by intros [= <- <-]].
  case_match; [intros [= <- <-]; split; [apply quiet_fail|apply fail_phase]|].
  cbv zeta. set (s1 := s <| aw_state_bytes_estimate := _ |>).
  assert (quiet s s1) as Hs1 by by apply quiet_same.
  case_match; intros [= <- <-]; [|by split].
  split; [by etransitivity; [|apply quiet_fail]|apply fail_phase].
Qed.

Lemma quiet_limits s : quiet s (check_limits s).
Proof.
  unfold check_limits. destruct (_within_limits s) as [ok s'] eqn:Hs.
  by apply within_limits_run in Hs as [? _].
Qed.

Lemma limits_phase s : aw_phase (check_limits s) = aw_phase s ∨ aw_phase (check_limits s) = FAILED.
Proof.
  unfold check_limits. destruct (_within_limits s) as [ok s'] eqn:Hs.
  apply within_limits_run in Hs as [_ Hp]. cbn [snd]. rewrite Hp. destruct ok; auto.
Qed.

#[export] Hint Resolve quiet_refl quiet_advance quiet_events quiet_reason quiet_transition
  quiet_fail quiet_limits : workflow.

Lemma stopped_spec s : stopped s = true ↔ aw_phase s = CANCELLED ∨ aw_phase s = FAILED.
Proof. unfold stopped. rewrite bool_decide_eq_true. set_solver. Qed.

Lemma stopped_failed s : aw_phase s = FAILED → stopped s = true.
Proof. rewrite stopped_spec. auto. Qed.

Lemma limits_stopped s : stopped s = true → stopped (check_limits s) = true.
Proof. rewrite !stopped_spec. destruct (limits_phase s) as [->| ->]; auto. Qed.

(** ** The calls on the engine *)

Definition start_of (c : engine_call) : option TemporalWorkflowStep :=
  match c with StartActivity step _ _ _ => Some step | _ => None end.

(** The steps whose activities were started, in order. *)
Definition starts (l : list engine_call) : list TemporalWorkflowStep := omap start_of l.
Definition start_ids (l : list engine_call) : list string := map ts_step_id (starts l).

Lemma starts_app l1 l2 : starts (l1 ++ l2) = starts l1 ++ starts l2.
Proof. apply omap_app. Qed.

Lemma start_ids_app l1 l2 : start_ids (l1 ++ l2) = start_ids l1 ++ start_ids l2.
Proof. unfold start_ids. by rewrite starts_app, map_app. Qed.

Definition is_answer (c : engine_call) : Prop :=
  match c with CommandAnswered _ | UpdateFailed _ => True | _ => False end.
Definition is_cancel (c : engine_call) : Prop :=
  match c with CancelActivity _ => True | _ => False end.

(** ** Answers *)

Definition erase_notes (s : AnantaWorkflow) : AnantaWorkflow :=
  s <| aw_reason_code := "" |> <| aw_processed_command_payload_digests := ∅ |> <| aw_calls := [] |>.

(** The state changed in its reason code, the digests of commands and answers. *)
Record noted (s s' : AnantaWorkflow) : Prop := {
  nt_erase : erase_notes s' = erase_notes s;
  nt_calls : ∃ new, aw_calls s' = aw_calls s ++ new ∧ Forall is_answer new;
}.

Lemma noted_same s s' : erase_notes s' = erase_notes s → aw_calls s' = aw_calls s → noted s s'.
Proof. intros He Hc. split; [done|]. exists []. by rewrite app_nil_r. Qed.

Lemma noted_refl s : noted s s.
Proof. by apply noted_same. Qed.

Lemma noted_trans s1 s2 s3 : noted s1 s2 → noted s2 s3 → noted s1 s3.
Proof.
  intros [E1 (l1 & C1 & F1)] [E2 (l2 & C2 & F2)]. split; [congruence|].
  exists (l1 ++ l2). rewrite C2, C1, app_assoc. split; [done|]. by apply Forall_app.
Qed.

Lemma noted_call c s : is_answer c → noted s (call c s).
Proof. intros Hc. split; [done|]. exists [c]. split; [done|]. by constructor. Qed.

Lemma noted_field {T} (f : AnantaWorkflow → T) s s' :
  (∀ s, f (erase_notes s) = f s) → noted s s' → f s' = f s.
Proof. intros Hf [He _]. by rewrite <- (Hf s'), He, Hf. Qed.

(** ** One command *)

Record valid_command (s : AnantaWorkflow) (c : WorkflowCommand) (now : float)
    (i : AnantaWorkflowInput) (current : string) : Prop := {
  vd_input : aw_input s = Some i;
  vd_revision : wk_expected_revision c = aw_revision s;
  vd_type : wk_command_type c ∉ [RETRY; EDIT; REQUEST_CHANGES];
  vd_open : terminal s = false;
  vd_current : current_step s i = Ok current;
  vd_bindings : [wk_tenant_id c; wk_workflow_id c; wk_run_id c; wk_step_id c; wk_checkpoint_id c;
                 wk_plan_hash c; wk_policy_version c] =
    [wi_tenant_id i; wi_workflow_id i; wi_run_id i; current; aw_checkpoint_ref s;
     aw_effective_plan_hash s; wi_policy_version i];
  vd_dates : float_ltb now (wk_issued_at c) = false ∧ float_leb (wk_expires_at c) now = false;
  vd_check : check_command_type s i current c = Ok tt;
}.

Lemma bindings_Ok s i current c u :
  for_each (λ nav, refuse_when (bool_decide (nav.1.2 ≠ nav.2))
              ("command_" +:+ nav.1.1 +:+ "_mismatch")) (command_bindings_of s i current c) = Ok u →
  [wk_tenant_id c; wk_workflow_id c; wk_run_id c; wk_step_id c; wk_checkpoint_id c;
   wk_plan_hash c; wk_policy_version c] =
  [wi_tenant_id i; wi_workflow_id i; wi_run_id i; current; aw_checkpoint_ref s;
   aw_effective_plan_hash s; wi_policy_version i].
Proof.
  rewrite for_each_Ok. unfold command_bindings_of, refuse_when. rewrite !Forall_cons. cbn [fst snd].
  setoid_rewrite raise_when_Ok. setoid_rewrite bool_decide_eq_false.
  intros (H1 & H2 & H3 & H4 & H5 & H6 & H7 & _).
  apply dec_stable in H1, H2, H3, H4, H5, H6, H7. congruence.
Qed.

Lemma validate_command_Ok s c now :
  _validate_command s c now = Ok tt → ∃ i current, valid_command s c now i current.
Proof.
  unfold _validate_command, refuse_when. destruct (aw_input s) as [i|] eqn:Hi; [|done].
  intros ([] & _ & Hv)%result_bind_Ok. apply result_bind_Ok in Hv as ([] & Hr%raise_when_Ok & Hv).
  apply result_bind_Ok in Hv as ([] & Ht%raise_when_Ok & Hv).
  apply result_bind_Ok in Hv as ([] & He%raise_when_Ok & Hv).
  apply result_bind_Ok in Hv as ([] & Hopen%raise_when_Ok & Hv).
  apply result_bind_Ok in Hv as (current & Hc & Hv).
  apply result_bind_Ok in Hv as ([] & Hb%bindings_Ok & Hv).
  apply result_bind_Ok in Hv as ([] & Hd%raise_when_Ok & Hv).
  exists i, current. apply bool_decide_eq_false in Ht, He. apply orb_false_iff in Hd.
  constructor; try done.
  - apply negb_false_iff, Z.eqb_eq in Hr. done.
  - set_solver.
Qed.

(** What a command that passes validation does, before the bookkeeping. *)
Definition effect_of (c : WorkflowCommand) (s : AnantaWorkflow) : AnantaWorkflow :=
  match wk_command_type c with
  | APPROVE => s <| aw_approved_gates ::= λ g, {[aw_current_step_id s]} ∪ g |>
  | REJECT => _fail "approval_rejected" s
  | PAUSE => pause s
  | RESUME => _transition (resume_target s) s
  | CANCEL => cancel (str_or_default (dget "reason" (wk_payload c)) "cancel_requested") s
  | PARAMETER_UPDATE =>
      s <| aw_parameters ::= λ p, dict_update p (mapping_or_empty (dget "parameters" (wk_payload c))) |>
  | _ => s
  end.

Lemma effect_run s s0 c i current :
  wk_command_type c ∉ [RETRY; EDIT; REQUEST_CHANGES] → check_command_type s i current c = Ok tt →
  command_effect c s0 = (Ok tt, effect_of c s0).
Proof.
  intros Ht Hc. unfold command_effect, effect_of, check_command_type in *.
  destruct (wk_command_type c); try done; try (by destruct Ht; set_solver).
  destruct (dget "parameters" (wk_payload c)) as [| | | | | | |[|kv d]]; done.
Qed.

(** The phase a command leads to, unless a limit fails the workflow. *)
Definition effect_phase (c : WorkflowCommand) (s : AnantaWorkflow) : WorkflowPhase :=
  match wk_command_type c with
  | REJECT => FAILED
  | PAUSE => PAUSED
  | RESUME => resume_target s
  | CANCEL => CANCELLED
  | _ => aw_phase s
  end.

(** The state without what a command changes. *)
Definition erase_command (s : AnantaWorkflow) : AnantaWorkflow :=
  erase s <| aw_phase_before_pause := CREATED |> <| aw_approved_gates := ∅ |>
    <| aw_processed_command_ids := ∅ |> <| aw_parameters := [] |> <| aw_calls := [] |>.

Record applied (s : AnantaWorkflow) (c : WorkflowCommand) (r : WorkflowCommandResult)
    (s' : AnantaWorkflow) : Prop := {
  ap_erase : erase_command s' = erase_command s;
  ap_revision : aw_revision s < wx_revision r ≤ aw_revision s';
  ap_checked : checked s';
  ap_result : wx_command_id r = wk_command_id c ∧ wx_accepted r = true;
  ap_processed :
    aw_processed_command_ids s' = <[wk_command_id c := r]> (aw_processed_command_ids s);
  ap_approved : aw_approved_gates s' =
    if bool_decide (wk_command_type c = APPROVE)
    then {[aw_current_step_id s]} ∪ aw_approved_gates s else aw_approved_gates s;
  ap_calls : ∃ cancels, Forall is_cancel cancels ∧
    aw_calls s' = aw_calls s ++ cancels ++ [CommandApplied c r];
  ap_phase : aw_phase s' = effect_phase c s ∨ aw_phase s' = FAILED;
  ap_before : aw_phase_before_pause s' =
    if bool_decide (wk_command_type c = PAUSE) then aw_phase s else aw_phase_before_pause s;
}.

(** The effect of a command, field by field. *)
Record effected (s : AnantaWorkflow) (c : WorkflowCommand) (s' : AnantaWorkflow) : Prop := {
  ef_erase : erase_command s' = erase_command s;
  ef_revision : aw_revision s ≤ aw_revision s';
  ef_processed : aw_processed_command_ids s' = aw_processed_command_ids s;
  ef_approved : aw_approved_gates s' =
    if bool_decide (wk_command_type c = APPROVE)
    then {[aw_current_step_id s]} ∪ aw_approved_gates s else aw_approved_gates s;
  ef_calls : ∃ cancels, Forall is_cancel cancels ∧ aw_calls s' = aw_calls s ++ cancels;
  ef_phase : aw_phase s' = effect_phase c s;
  ef_before : aw_phase_before_pause s' =
    if bool_decide (wk_command_type c = PAUSE) then aw_phase s else aw_phase_before_pause s;
}.

Lemma cancel_calls_run l s :
  foldl (λ s step, call (CancelActivity step) s) s l =
  s <| aw_calls ::= λ calls, calls ++ map CancelActivity l |>.
Proof.
  revert s. induction l as [|x l IH]; intros s; cbn [foldl map].
  - destruct s. unfold set_field. cbn. by rewrite app_nil_r.
  - rewrite IH. destruct s. unfold call, set_field. cbn. by rewrite <- app_assoc.
Qed.

(** A change of phase is the whole effect. *)
Lemma effected_transition s s' c :
  quiet s s' → aw_phase s' = effect_phase c s → wk_command_type c ∉ [APPROVE; PAUSE] → effected s c s'.
Proof.
  intros [He Hr _] Hp Hc.
  assert (∀ t, t ∈ [APPROVE; PAUSE] → bool_decide (wk_command_type c = t) = false) as Ht
    by (intros t Hin; apply bool_decide_eq_false_2; intros Heq; apply Hc; by rewrite Heq).
  constructor; [| | | | |done|]; rewrite ?(Ht APPROVE), ?(Ht PAUSE) by set_solver.
  - unfold erase_command. by rewrite He.
  - done.
  - exact (f_equal aw_processed_command_ids He).
  - exact (f_equal aw_approved_gates He).
  - exists []. split; [done|]. rewrite app_nil_r. exact (f_equal aw_calls He).
  - exact (f_equal aw_phase_before_pause He).
Qed.

Lemma effected_pause s c : wk_command_type c = PAUSE → effected s c (pause s).
Proof.
  intros Hc. unfold pause. set (s1 := s <| aw_phase_before_pause := aw_phase s |>).
  destruct (quiet_transition PAUSED s1) as [He Hr _].
  constructor; rewrite ?Hc; rewrite ?bool_decide_eq_true_2, ?bool_decide_eq_false_2 by done.
  - unfold erase_command. by rewrite He.
  - done.
  - exact (f_equal aw_processed_command_ids He).
  - exact (f_equal aw_approved_gates He).
  - exists []. split; [done|]. rewrite app_nil_r. exact (f_equal aw_calls He).
  - rewrite transition_phase. unfold effect_phase. by rewrite Hc.
  - exact (f_equal aw_phase_before_pause He).
Qed.

(** The handles that a cancellation cancels. *)
Definition cancels (s : AnantaWorkflow) : list engine_call :=
  match aw_active_activity s with Some step => [CancelActivity step] | None => [] end
  ++ map CancelActivity (aw_active_activities s).

Lemma cancel_activities_run s :
  cancel_activities s = s <| aw_calls ::= λ calls, calls ++ cancels s |>.
Proof.
  unfold cancel_activities, cancels. rewrite cancel_calls_run.
  destruct (aw_active_activity s) as [x|]; [|done].
  destruct s. unfold call, set_field. cbn. by rewrite <- app_assoc.
Qed.

Lemma effected_cancel s c reason : wk_command_type c = CANCEL → effected s c (cancel reason s).
Proof.
  intros Hc. unfold cancel. rewrite cancel_activities_run.
  set (s1 := _transition CANCELLED s <| aw_reason_code := str_take 256 reason |>).
  assert (quiet s s1) as [He Hr _] by (etransitivity; [apply quiet_transition|apply quiet_reason]).
  constructor; rewrite ?Hc; rewrite ?bool_decide_eq_false_2 by done.
  - unfold erase_command. change (erase (s1 <| aw_calls ::= _ |>)) with
      (erase s1 <| aw_calls ::= λ calls, calls ++ cancels s1 |>). by rewrite He.
  - exact Hr.
  - exact (f_equal aw_processed_command_ids He).
  - exact (f_equal aw_approved_gates He).
  - assert (aw_calls s1 = aw_calls s) as Hcalls by exact (f_equal aw_calls He).
    exists (cancels s1). split; [|exact (f_equal (λ l, l ++ cancels s1) Hcalls)].
    apply Forall_app. split; [by destruct (aw_active_activity s1); repeat constructor|].
    apply Forall_map, Forall_true. done.
  - unfold effect_phase. rewrite Hc. exact (transition_phase CANCELLED s).
  - exact (f_equal aw_phase_before_pause He).
Qed.

Lemma effect_of_effected s c :
  wk_command_type c ∉ [RETRY; EDIT; REQUEST_CHANGES] → effected s c (effect_of c s).
Proof.
  intros Ht. unfold effect_of. destruct (wk_command_type c) eqn:Hc; try (by destruct Ht; set_solver).
  - constructor; rewrite ?Hc; try done; [by exists []; rewrite app_nil_r|].
    unfold effect_phase. by rewrite Hc.
  - apply effected_transition; [apply quiet_fail| |rewrite Hc; set_solver].
    unfold effect_phase. by rewrite Hc, fail_phase.
  - by apply effected_pause.
  - apply effected_transition; [apply quiet_transition| |rewrite Hc; set_solver].
    unfold effect_phase. by rewrite Hc, transition_phase.
  - by apply effected_cancel.
  - constructor; rewrite ?Hc; try done; [by exists []; rewrite app_nil_r|].
    unfold effect_phase. by rewrite Hc.
Qed.

(** A command that passes validation is applied. *)
Lemma apply_command_run s c now i current :
  valid_command s c now i current →
  ∃ r s', _apply_command c s = (Ok r, s') ∧ applied s c r s'.
Proof.
  intros [Hi _ Ht _ _ _ _ Hc]. unfold _apply_command. rewrite run_modify.
  set (s0 := s <| aw_reason_code := "" |>).
  rewrite (run_bind _ _ _ _ _ (effect_run s s0 c i current Ht Hc)).
  destruct (effect_of_effected s0 c Ht) as [He Hr Hp Ha (cs & Hcs & Hcalls) Hph Hb].
  set (s1 := effect_of c s0) in *. rewrite run_modify, run_get, !run_modify.
  set (s2 := note_events 2 (advance s1)). set (r := command_result c s2).
  exists r, (check_limits (keep_command c r s2)). split; [done|].
  destruct (quiet_limits (keep_command c r s2)) as [Hle Hlr Hlc].
  constructor; try done.
  - change (erase_command s1 = erase_command s) in He. rewrite <- He. unfold erase_command.
    rewrite Hle. done.
  - cbn in Hlr |- *. change (aw_revision s0) with (aw_revision s) in Hr. lia.
  - by apply Hlc.
  - rewrite (f_equal aw_processed_command_ids Hle : aw_processed_command_ids (check_limits _) = _).
    cbn. by rewrite Hp.
  - rewrite (f_equal aw_approved_gates Hle : aw_approved_gates (check_limits _) = _).
    cbn. exact Ha.
  - exists cs. split; [done|]. rewrite (f_equal aw_calls Hle : aw_calls (check_limits _) = _).
    cbn. rewrite Hcalls. cbn. by rewrite <- app_assoc.
  - destruct (limits_phase (keep_command c r s2)) as [Hl|Hl]; [left|by right]. rewrite Hl. exact Hph.
  - rewrite (f_equal aw_phase_before_pause Hle : aw_phase_before_pause (check_limits _) = _).
    cbn. exact Hb.
Qed.

(** ** Handlers *)

(** What a handler does while the coroutine waits: nothing but notes and
    answers, or one command that passed validation and was not applied before. *)
Inductive handler_effect (s : AnantaWorkflow) : AnantaWorkflow → Prop :=
| effect_noted s' : noted s s' → handler_effect s s'
| effect_applied c now i current r s1 s' :
    valid_command s c now i current → aw_processed_command_ids s !! wk_command_id c = None →
    applied s c r s1 → noted s1 s' → handler_effect s s'.

Lemma handler_noted s s1 s2 : handler_effect s s1 → noted s1 s2 → handler_effect s s2.
Proof.
  intros [s' Hn|c now i current r s' s'' Hv Hp Ha Hn] Hn'.
  - apply effect_noted. by eapply noted_trans.
  - eapply effect_applied; [done..|]. by eapply noted_trans.
Qed.

Lemma handler_refl s : handler_effect s s.
Proof. apply effect_noted, noted_refl. Qed.

Lemma noted_reason r s : noted s (note_reason r s).
Proof. by apply noted_same. Qed.

Lemma noted_digest c d s : noted s (keep_digest c d s).
Proof. by apply noted_same. Qed.

(** An action with such effects only, whether it returns or raises. *)
Definition handles {A} (m : action AnantaWorkflow A) : Prop :=
  ∀ s out s', m s = (out, s') → handler_effect s s'.

Lemma handles_answer result : handles (answer result).
Proof. intros s out s' [= <- <-]. apply effect_noted, noted_call. done. Qed.

Lemma handles_throw {A} (e : exn) : handles (mthrow e : action AnantaWorkflow A).
Proof. intros s out s' [= <- <-]. apply handler_refl. Qed.

(** A handler that goes on with notes only. *)
Lemma handles_bind {A B} (m : action AnantaWorkflow A) (f : A → action AnantaWorkflow B) :
  handles m → (∀ a s out s', f a s = (out, s') → noted s s') → handles (m ≫= f).
Proof.
  intros Hm Hf s out s'. unfold mbind, action_bind. destruct (m s) as [[a|e] s1] eqn:Hs.
  - intros Ho%Hf. eapply handler_noted; [by eapply Hm|done].
  - intros [= <- <-]. by eapply Hm.
Qed.

Lemma handles_return {A B} (m : action AnantaWorkflow A) (b : A → B) :
  handles m → handles (m ≫= λ a, mret (b a)).
Proof. intros Hm. apply handles_bind; [done|]. intros a s out s' [= <- <-]. apply noted_refl. Qed.

Lemma handles_reject raw m : handles m → handles (answer_or_reject raw m).
Proof.
  intros Hm s out s'. unfold answer_or_reject. destruct (m s) as [r s1] eqn:Hs. apply Hm in Hs.
  destruct r as [result|e]; [intros [= <- <-]; eapply handler_noted; [done|by apply noted_call]|].
  destruct e; intros [= <- <-]; try done. eapply handler_noted; [done|by apply noted_call].
Qed.

(** Validating and applying a command that is new. *)
Lemma handles_apply {A} c now (f : WorkflowCommandResult → action AnantaWorkflow A) s out s' :
  aw_processed_command_ids s !! wk_command_id c = None →
  (∀ r s out s', f r s = (out, s') → noted s s') →
  (lift (_validate_command s c now) ;; result ← _apply_command c; f result) s = (out, s') →
  handler_effect s s'.
Proof.
  intros Hnew Hf. unfold mbind at 1, action_bind at 1, lift.
  destruct (_validate_command s c now) as [[]|e] eqn:Hv; [|intros [= <- <-]; apply handler_refl].
  apply validate_command_Ok in Hv as (i & current & Hv).
  destruct (apply_command_run s c now i current Hv) as (r & s1 & Hr & Ha).
  rewrite (run_bind _ _ _ _ _ Hr). intros Hs'%Hf. by eapply effect_applied.
Qed.

Section handlers.
Context `{Digest} (patched : string → bool).

Lemma handles_legacy c now : handles (_apply_legacy_replay_command c now).
Proof.
  intros s out s'. unfold _apply_legacy_replay_command. rewrite run_get.
  destruct (aw_processed_command_ids s !! wk_command_id c) eqn:Hp;
    [intros [= <- <-]; apply handler_refl|].
  apply handles_apply; [done|]. clear. intros r s out s'. unfold mbind, action_bind, lift.
  destruct (payload_digest_of c); intros [= <- <-]; [apply noted_digest|apply noted_refl].
Qed.

Lemma handles_authorized c authority now : handles (apply_authorized c authority now).
Proof.
  intros s out s'. unfold apply_authorized. rewrite run_get.
  destruct (aw_processed_command_ids s !! wk_command_id c) eqn:Hp.
  - unfold mbind, action_bind, lift. destruct (refuse_when _ _); intros [= <- <-]; apply handler_refl.
  - apply handles_apply; [done|]. clear. intros r s out s' [= <- <-]. apply noted_digest.
Qed.

Lemma handles_received raw replaying now : handles (command_received raw replaying now).
Proof.
  intros s out s'. unfold command_received. destruct (neutral_from_mapping raw) as [c|e].
  - destruct (aw_command_authority_enabled s); [intros [= <- <-]; apply handler_refl|].
    apply handles_return, handles_reject. destruct replaying; [apply handles_legacy|apply handles_throw].
  - destruct e; try (intros [= <- <-]; apply handler_refl).
    apply handles_return, handles_answer.
Qed.

Lemma handles_replied raw c reply now : handles (authority_replied raw c reply now).
Proof.
  assert (∀ type, handles (modify (call (UpdateFailed type)))) as Hfailed.
  { intros type s out s' [= <- <-]. by apply effect_noted, noted_call. }
  unfold authority_replied. destruct reply as [raw_result|]; [|apply Hfailed].
  destruct (authority_decide c raw_result) as [[authority|code|type]|e]; [| |apply Hfailed|];
    apply handles_reject; [apply handles_authorized|apply handles_throw..].
Qed.

Lemma handles_unsigned raw expected now : handles (apply_unsigned_signal raw expected now).
Proof.
  intros s out s'. unfold apply_unsigned_signal, mbind at 1, action_bind at 1, lift at 1.
  destruct (command_from_raw raw) as [c|e]; [|intros [= <- <-]; apply handler_refl].
  unfold mbind at 1, action_bind at 1, lift at 1.
  destruct (refuse_when _ _) as [[]|e]; [|intros [= <- <-]; apply handler_refl].
  rewrite run_get. destruct (aw_processed_command_ids s !! wk_command_id c) eqn:Hp.
  - rewrite bool_decide_eq_true_2 by done. intros [= <- <-]. apply handler_refl.
  - rewrite bool_decide_eq_false_2 by (by intros []). apply handles_apply; [done|].
    clear. intros r s out s' [= <- <-]. apply noted_refl.
Qed.

Lemma handles_signal raw expected now : handles (_apply_signal patched raw expected now).
Proof.
  intros s out s'. unfold _apply_signal. case_match.
  { intros [= <- <-]. apply effect_noted, noted_reason. }
  destruct (apply_unsigned_signal raw expected now s) as [r s1] eqn:Hr. apply handles_unsigned in Hr.
  destruct r as [[]|e]; [by intros [= <- <-]|].
  destruct e; intros [= <- <-]; try done. eapply handler_noted; [done|apply noted_reason].
Qed.

Lemma handler_move_effect updates e h s out s' :
  handler_move patched updates e = Some h → h s = (out, s') → handler_effect s s'.
Proof.
  intros Hh Hs. revert Hs. revert s out s'. change (handles h).
  destruct e as [| | |raw replaying now|k reply now|raw expected now]; try done; cbn in Hh.
  - injection Hh as <-. apply handles_return, handles_received.
  - destruct (updates !! k) as [[raw c]|]; [|done]. injection Hh as <-.
    apply handles_return, handles_replied.
  - injection Hh as <-. apply handles_return, handles_signal.
Qed.
End handlers.
