(* ===== verification/WorkflowInv.v ===== *)
(** * Invariants of a Temporal workflow

    [calls_ok] is what every call on the engine satisfies with respect to the
    calls before it; [common] is the invariant of the state that makes it so,
    whatever handlers do while the coroutine waits. *)
From S2P Require Import Prelude Records PyStr PyVal Digest Serialization Plan Envelope CommandContract TemporalContracts TemporalLaws RetryProfiles Workflow WorkflowCommands WorkflowRun WorkflowFrame.

(** An approval of the step [g] was applied. *)
Definition approved_in (l : list engine_call) (g : string) : Prop :=
  ∃ c r, CommandApplied c r ∈ l ∧ wk_command_type c = APPROVE ∧ wk_step_id c = g.

(** A command that stops the workflow was applied. *)
Definition stopped_in (l : list engine_call) : Prop :=
  ∃ c r, CommandApplied c r ∈ l ∧ wk_command_type c ∈ [CANCEL; REJECT].

(** An activity may start after the calls [l]. *)
Record start_ok (i : AnantaWorkflowInput) (l : list engine_call) (step : TemporalWorkflowStep)
    (options : ActivityOptions) : Prop := {
  so_step : step ∈ wi_steps i;
  so_once : ts_step_id step ∉ start_ids l;
  so_dependencies : ∀ d, d ∈ ts_depends_on step → d ∈ start_ids l;
  so_gate : ts_gate step = true → approved_in l (ts_step_id step);
  so_stopped : ¬ stopped_in l;
  so_options : options_bounded (ts_activity_class step) (wi_retry_budget_remaining i) options;
}.

(** A command is applied at the revision it names, and once. *)
Record command_ok (i : AnantaWorkflowInput) (l : list engine_call) (c : WorkflowCommand)
    (r : WorkflowCommandResult) : Prop := {
  ck_bindings : [wk_tenant_id c; wk_workflow_id c; wk_run_id c; wk_plan_hash c; wk_policy_version c] =
    [wi_tenant_id i; wi_workflow_id i; wi_run_id i; wi_plan_hash i; wi_policy_version i];
  ck_checkpoint :
    wk_checkpoint_id c = checkpoint_at (wi_workflow_id i) (wk_expected_revision c);
  ck_type : wk_command_type c ∉ [RETRY; EDIT; REQUEST_CHANGES];
  ck_revision : wk_expected_revision c < wx_revision r;
  ck_before : ∀ c' r', CommandApplied c' r' ∈ l →
    wx_revision r' ≤ wk_expected_revision c ∧ wk_command_id c' ≠ wk_command_id c;
}.

Definition call_ok (i : AnantaWorkflowInput) (l : list engine_call) (c : engine_call) : Prop :=
  match c with
  | StartActivity step activity_id _ options =>
      activity_id = activity_id_of step ∧ start_ok i l step options
  | CommandApplied c r => command_ok i l c r
  | _ => True
  end.

(** Every call, with respect to the calls before it. *)
Definition calls_ok (i : AnantaWorkflowInput) (l : list engine_call) : Prop :=
  ∀ l1 c l2, l = l1 ++ c :: l2 → call_ok i l1 c.

Lemma calls_ok_nil i : calls_ok i [].
Proof. by intros [] ???. Qed.

Lemma calls_ok_snoc i l c : calls_ok i l → call_ok i l c → calls_ok i (l ++ [c]).
Proof.
  intros Hl Hc l1 c' l2. destruct l2 as [|x l2 _] using rev_ind; intros Heq.
  - by apply app_inj_tail in Heq as [-> ->].
  - rewrite app_comm_cons, app_assoc in Heq. apply app_inj_tail in Heq as [-> _]. by eapply Hl.
Qed.

(** Calls that are no start and no command. *)
Definition is_other (c : engine_call) : Prop := is_answer c ∨ is_cancel c.

Lemma calls_ok_other i l new : calls_ok i l → Forall is_other new → calls_ok i (l ++ new).
Proof.
  intros Hl. induction new as [|c new IH] using rev_ind; [by rewrite app_nil_r|].
  rewrite Forall_app, Forall_singleton, app_assoc. intros [Hnew Hc].
  apply calls_ok_snoc; [by apply IH|]. by destruct c as [| | | |], Hc.
Qed.

Lemma other_starts new : Forall is_other new → starts new = [].
Proof. induction 1 as [|c new Hc _ IH]; [done|]. by destruct c as [| | | |], Hc. Qed.

Lemma other_applied new c r : Forall is_other new → CommandApplied c r ∉ new.
Proof. rewrite Forall_forall. intros Hnew [[]|[]]%Hnew. Qed.

Lemma other_start new step activity_id request options :
  Forall is_other new → StartActivity step activity_id request options ∉ new.
Proof. rewrite Forall_forall. intros Hnew [[]|[]]%Hnew. Qed.

Lemma approved_app l new g : approved_in l g → approved_in (l ++ new) g.
Proof. intros (c & r & Hc & Ht & Hg). exists c, r. split_and!; [by apply elem_of_app; left|done..]. Qed.

Lemma answers_other new : Forall is_answer new → Forall is_other new.
Proof. intros Hn. apply (Forall_impl _ _ _ Hn). by left. Qed.
Lemma cancels_other new : Forall is_cancel new → Forall is_other new.
Proof. intros Hn. apply (Forall_impl _ _ _ Hn). by right. Qed.

(** ** The invariant *)

Record common (i : AnantaWorkflowInput) (s : AnantaWorkflow) : Prop := {
  cm_ok : input_ok i;
  cm_input : aw_input s = Some i;
  cm_checked : checked s;
  cm_hash : aw_effective_plan_hash s = wi_plan_hash i;
  cm_retry : 0 ≤ aw_retry_budget_remaining s ≤ wi_retry_budget_remaining i;
  cm_calls : calls_ok i (aw_calls s);
  cm_applied : ∀ c r, CommandApplied c r ∈ aw_calls s →
    wx_revision r ≤ aw_revision s ∧ is_Some (aw_processed_command_ids s !! wk_command_id c);
  cm_approved : ∀ g, g ∈ aw_approved_gates s → approved_in (aw_calls s) g;
  cm_stopped : stopped_in (aw_calls s) → stopped s = true;
  cm_done : ∀ d, completed s d = true ∨ failed s d = true → d ∈ start_ids (aw_calls s);
  cm_omitted : ∀ d, failed s d = true → _failure_is_omittable i d = true;
  cm_gates : aw_open_gates s = [] ∨ aw_open_gates s = [aw_current_step_id s];
  cm_ready : ∀ step activity_id request options,
    StartActivity step activity_id request options ∈ aw_calls s →
    ∀ d, d ∈ ts_depends_on step → completed s d = true ∨ failed s d = true;
}.

(** Bookkeeping keeps the invariant when it does not restart the workflow. *)
Lemma common_quiet i s s' :
  quiet s s' → (stopped s = true → stopped s' = true) → common i s → common i s'.
Proof.
  intros [He Hr Hc] Hs [Hok Hi Hch Hh Hre Hca Hap Hg Hst Hd Ho Hgt Hrd].
  assert (∀ {T} (f : AnantaWorkflow → T), (∀ s, f (erase s) = f s) → f s' = f s) as Hf
    by (intros T f Hf; by rewrite <- (Hf s'), He, Hf).
  assert (∀ d, completed s' d = completed s d) as Hcd
    by (intros d; unfold completed; by rewrite (Hf _ aw_completed_step_ids)).
  assert (∀ d, failed s' d = failed s d) as Hfd
    by (intros d; unfold failed; by rewrite (Hf _ aw_failed_step_ids)).
  constructor; rewrite ?(Hf _ aw_input), ?(Hf _ aw_effective_plan_hash),
    ?(Hf _ aw_retry_budget_remaining), ?(Hf _ aw_calls), ?(Hf _ aw_processed_command_ids),
    ?(Hf _ aw_approved_gates), ?(Hf _ aw_open_gates), ?(Hf _ aw_current_step_id) by done; auto.
  - intros c r Hin. destruct (Hap c r Hin). split; [lia|done].
  - intros d. rewrite Hcd, Hfd. auto.
  - intros d. rewrite Hfd. auto.
  - intros step activity_id request options Hin d. rewrite Hcd, Hfd. by eapply Hrd.
Qed.

Lemma common_noted i s s' : noted s s' → common i s → common i s'.
Proof.
  intros [He (new & Hn & Ha%answers_other)] [Hok Hi Hch Hh Hre Hca Hap Hg Hst Hd Ho Hgt Hrd].
  assert (∀ {T} (f : AnantaWorkflow → T), (∀ s, f (erase_notes s) = f s) → f s' = f s) as Hf
    by (intros T f Hf; by rewrite <- (Hf s'), He, Hf).
  assert (start_ids (aw_calls s') = start_ids (aw_calls s)) as Hst'.
  { rewrite Hn, start_ids_app. unfold start_ids at 2. rewrite other_starts by done. by rewrite app_nil_r. }
  assert (∀ c r, CommandApplied c r ∈ aw_calls s' → CommandApplied c r ∈ aw_calls s) as Hin.
  { intros c r. rewrite Hn, elem_of_app. intros [?|Hin]; [done|]. by apply other_applied in Hin. }
  constructor; try done.
  - by rewrite (Hf _ aw_input).
  - unfold checked, workflow_id_of. by rewrite (Hf _ aw_input), (Hf _ aw_revision), (Hf _ aw_checkpoint_ref).
  - by rewrite (Hf _ aw_effective_plan_hash).
  - by rewrite (Hf _ aw_retry_budget_remaining).
  - rewrite Hn. by apply calls_ok_other.
  - intros c r Hc%Hin%Hap. by rewrite (Hf _ aw_revision), (Hf _ aw_processed_command_ids).
  - intros g. rewrite (Hf _ aw_approved_gates), Hn by done. intros ?%Hg. by apply approved_app.
  - intros (c & r & Hc%Hin & Ht). unfold stopped. rewrite (Hf _ aw_phase) by done. apply Hst. by exists c, r.
  - intros d. unfold completed, failed. rewrite Hst', (Hf _ aw_completed_step_ids), (Hf _ aw_failed_step_ids) by done.
    apply Hd.
  - intros d. unfold failed. rewrite (Hf _ aw_failed_step_ids) by done. apply Ho.
  - by rewrite (Hf _ aw_open_gates), (Hf _ aw_current_step_id).
  - intros step activity_id request options. rewrite Hn, elem_of_app. intros [Hs|Hs] d Hdep.
    + unfold completed, failed. rewrite (Hf _ aw_completed_step_ids), (Hf _ aw_failed_step_ids) by done.
      by eapply Hrd.
    + by apply other_start in Hs.
Qed.

(** The gate a command approves is the one it names. *)
Lemma approve_current s c now i current :
  common i s → valid_command s c now i current → wk_command_type c = APPROVE →
  wk_step_id c = aw_current_step_id s.
Proof.
  intros Hcm Hv Ht. pose proof (vd_check _ _ _ _ _ Hv) as Hc. unfold check_command_type, refuse_when in Hc.
  rewrite Ht in Hc. apply raise_when_Ok, orb_false_iff in Hc as [_ Hc].
  apply bool_decide_eq_false, dec_stable in Hc. pose proof (vd_bindings _ _ _ _ _ Hv) as Hb.
  injection Hb as _ _ _ -> _ _ _. destruct (cm_gates _ _ Hcm) as [Hg|Hg]; rewrite Hg in Hc; set_solver.
Qed.

(** What is left of a state after a command. *)
Lemma applied_field {T} (f : AnantaWorkflow → T) s c r s' :
  (∀ s, f (erase_command s) = f s) → applied s c r s' → f s' = f s.
Proof. intros Hf Ha. by rewrite <- (Hf s'), (ap_erase _ _ _ _ Ha), Hf. Qed.

Lemma applied_calls s c r s' :
  applied s c r s' → ∃ cancels, Forall is_other cancels ∧
    aw_calls s' = (aw_calls s ++ cancels) ++ [CommandApplied c r].
Proof.
  intros Ha. destruct (ap_calls _ _ _ _ Ha) as (cs & Hcs & Hc). exists cs.
  split; [by apply cancels_other|]. by rewrite Hc, app_assoc.
Qed.

Lemma applied_start_ids s c r s' :
  applied s c r s' → start_ids (aw_calls s') = start_ids (aw_calls s).
Proof.
  intros (cs & Hcs & ->)%applied_calls. rewrite !start_ids_app. unfold start_ids at 2 3.
  rewrite other_starts by done. by rewrite !app_nil_r.
Qed.

Lemma command_ok_applied i s c now current r s' :
  common i s → valid_command s c now i current → aw_processed_command_ids s !! wk_command_id c = None →
  applied s c r s' → ∀ cs, Forall is_other cs → command_ok i (aw_calls s ++ cs) c r.
Proof.
  intros Hcm Hv Hnew Ha cs Hcs. pose proof (vd_bindings _ _ _ _ _ Hv) as Hb.
  pose proof (vd_revision _ _ _ _ _ Hv) as Hr. destruct (ap_revision _ _ _ _ Ha) as [Hr1 _].
  constructor; [| |apply (vd_type _ _ _ _ _ Hv)|lia|].
  - rewrite (cm_hash _ _ Hcm) in Hb. congruence.
  - rewrite Hr. pose proof (cm_checked _ _ Hcm) as Hc. unfold checked, workflow_id_of in Hc.
    rewrite (cm_input _ _ Hcm) in Hc. cbn in Hc. rewrite <- Hc. congruence.
  - intros c' r' [Hin|Hin]%elem_of_app; [|by apply other_applied in Hin].
    destruct (cm_applied _ _ Hcm _ _ Hin) as [Hle [x Hx]]. split; [lia|].
    intros Heq. rewrite Heq in Hx. congruence.
Qed.

Lemma common_applied i s c now current r s' :
  valid_command s c now i current → aw_processed_command_ids s !! wk_command_id c = None →
  applied s c r s' → common i s → common i s'.
Proof.
  intros Hv Hnew Ha Hcm. pose proof Hcm as [Hok Hi Hch Hh Hre Hca Hap Hg Hst Hd Ho Hgt Hrd].
  destruct (applied_calls _ _ _ _ Ha) as (cs & Hcs & Hcalls).
  pose proof (ap_revision _ _ _ _ Ha) as [Hr1 Hr2].
  assert (∀ c' r', CommandApplied c' r' ∈ aw_calls s' →
      CommandApplied c' r' ∈ aw_calls s ∨ (c' = c ∧ r' = r)) as Hin.
  { intros c' r'. rewrite Hcalls, !elem_of_app, list_elem_of_singleton.
    intros [[?|Hin]|[= -> ->]]; [by left|by apply other_applied in Hin|by right]. }
  constructor; try done.
  - by rewrite (applied_field aw_input _ _ _ _ (λ _, eq_refl) Ha).
  - apply (ap_checked _ _ _ _ Ha).
  - by rewrite (applied_field aw_effective_plan_hash _ _ _ _ (λ _, eq_refl) Ha).
  - by rewrite (applied_field aw_retry_budget_remaining _ _ _ _ (λ _, eq_refl) Ha).
  - rewrite Hcalls. apply calls_ok_snoc; [by apply calls_ok_other|]. by eapply command_ok_applied.
  - intros c' r' [Hc|[-> ->]]%Hin; rewrite (ap_processed _ _ _ _ Ha).
    + destruct (Hap _ _ Hc) as [Hle Hs]. split; [lia|].
      destruct (decide (wk_command_id c = wk_command_id c')) as [Heq|Hne].
      * rewrite Heq. by rewrite lookup_insert_eq.
      * by rewrite lookup_insert_ne.
    + split; [lia|]. by rewrite lookup_insert_eq.
  - intros g. rewrite (ap_approved _ _ _ _ Ha), Hcalls, <- app_assoc. case_bool_decide as Ht.
    + rewrite elem_of_union, elem_of_singleton. intros [->|Hin']; [|by apply approved_app, Hg].
      exists c, r. split_and!; [set_solver|done|]. by eapply approve_current.
    + intros Hin'. by apply approved_app, Hg.
  - intros (c' & r' & [Hc|[-> ->]]%Hin & Ht).
    + assert (stopped s = true) as Hs by (apply Hst; by exists c', r').
      pose proof (vd_open _ _ _ _ _ Hv) as Hopen. apply stopped_spec in Hs. unfold terminal in Hopen.
      apply bool_decide_eq_false in Hopen. destruct Hopen. destruct Hs as [-> | ->]; set_solver.
    + apply stopped_spec. destruct (ap_phase _ _ _ _ Ha) as [Hp|Hp]; [|by right]. rewrite Hp.
      unfold effect_phase. apply elem_of_cons in Ht as [->|Ht%list_elem_of_singleton]; [by left|].
      rewrite Ht. by right.
  - intros d. rewrite (applied_start_ids _ _ _ _ Ha). unfold completed, failed.
    rewrite (applied_field aw_completed_step_ids _ _ _ _ (λ _, eq_refl) Ha).
    rewrite (applied_field aw_failed_step_ids _ _ _ _ (λ _, eq_refl) Ha). apply Hd.
  - intros d. unfold failed.
    rewrite (applied_field aw_failed_step_ids _ _ _ _ (λ _, eq_refl) Ha). apply Ho.
  - rewrite (applied_field aw_open_gates _ _ _ _ (λ _, eq_refl) Ha).
    by rewrite (applied_field aw_current_step_id _ _ _ _ (λ _, eq_refl) Ha).
  - intros step activity_id request options. rewrite Hcalls, !elem_of_app, list_elem_of_singleton.
    intros [[Hs|Hs]|Hs] d Hdep; [|by apply other_start in Hs|discriminate Hs]. unfold completed, failed.
    rewrite (applied_field aw_completed_step_ids _ _ _ _ (λ _, eq_refl) Ha).
    rewrite (applied_field aw_failed_step_ids _ _ _ _ (λ _, eq_refl) Ha). by eapply Hrd.
Qed.

Lemma valid_input s c now i i' current :
  common i s → valid_command s c now i' current → valid_command s c now i current.
Proof.
  intros Hcm Hv. assert (i' = i) as <-; [|done].
  pose proof (vd_input _ _ _ _ _ Hv). pose proof (cm_input _ _ Hcm). congruence.
Qed.

(** Handlers keep the invariant. *)
Lemma common_handler i s s' : handler_effect s s' → common i s → common i s'.
Proof.
  intros [s1 Hn|c now i' current r s1 s2 Hv Hnew Ha Hn] Hcm; [by eapply common_noted|].
  eapply common_noted; [done|]. eapply common_applied; [|done..]. by eapply valid_input.
Qed.

(** What a handler leaves to the coroutine. *)
Record shared (s s' : AnantaWorkflow) : Prop := {
  sh_input : aw_input s' = aw_input s;
  sh_completed : aw_completed_step_ids s' = aw_completed_step_ids s;
  sh_failed : aw_failed_step_ids s' = aw_failed_step_ids s;
  sh_current : aw_current_step_id s' = aw_current_step_id s;
  sh_gates : aw_open_gates s' = aw_open_gates s;
  sh_starts : start_ids (aw_calls s') = start_ids (aw_calls s);
  sh_approved : aw_approved_gates s ⊆ aw_approved_gates s';
  sh_retry : aw_retry_budget_remaining s' = aw_retry_budget_remaining s;
}.

Lemma shared_noted s s' : noted s s' → shared s s'.
Proof.
  intros Hn. destruct (nt_calls _ _ Hn) as (new & Hc & Ha%answers_other).
  assert (∀ {T} (f : AnantaWorkflow → T), (∀ s, f (erase_notes s) = f s) → f s' = f s) as Hf
    by (intros T f Hf; by apply (noted_field f)).
  constructor; try (by apply Hf).
  - rewrite Hc, start_ids_app. unfold start_ids at 2. rewrite other_starts by done. by rewrite app_nil_r.
  - by rewrite (Hf _ aw_approved_gates).
Qed.

Lemma shared_applied s c r s' : applied s c r s' → shared s s'.
Proof.
  intros Ha.
  assert (∀ {T} (f : AnantaWorkflow → T), (∀ s, f (erase_command s) = f s) → f s' = f s) as Hf
    by (intros T f Hf; by apply (applied_field f s c r)).
  constructor; try (by apply Hf); [by eapply applied_start_ids|].
  rewrite (ap_approved _ _ _ _ Ha). case_bool_decide; set_solver.
Qed.

Lemma shared_trans s1 s2 s3 : shared s1 s2 → shared s2 s3 → shared s1 s3.
Proof. intros [] []. constructor; congruence || set_solver. Qed.

Lemma shared_handler s s' : handler_effect s s' → shared s s'.
Proof.
  intros [s1 Hn|c now i' current r s1 s2 Hv Hnew Ha Hn]; [by apply shared_noted|].
  eapply shared_trans; [by eapply shared_applied|by apply shared_noted].
Qed.
