(* ===== verification/WorkflowSteps.v ===== *)
(** * The scheduler of a Temporal workflow

    What each move of the coroutine [run] does to the steps: which are done,
    which run, which remain, for the bounded and for the sequential scheduler. *)
From S2P Require Import Prelude Records PyStr PyVal Digest Serialization Plan Envelope CommandContract TemporalContracts TemporalLaws RetryProfiles Workflow WorkflowCommands WorkflowRun WorkflowFrame WorkflowInv.

Definition step_ids (i : AnantaWorkflowInput) : list string := map ts_step_id (wi_steps i).

(** A step that completed, or failed and was left out. *)
Definition done_step (s : AnantaWorkflow) (d : string) : bool := completed s d || failed s d.

Lemma done_step_spec s d :
  done_step s d = true ↔ d ∈ aw_completed_step_ids s ∨ d ∈ (aw_failed_step_ids s).*1.
Proof. unfold done_step, completed, failed. by rewrite orb_true_iff, !bool_decide_eq_true. Qed.

(** ** Changes of single fields *)

Lemma common_current i s current gates :
  gates = [] ∨ gates = [current] → common i s →
  common i (s <| aw_current_step_id := current |> <| aw_open_gates := gates |>).
Proof. intros Hg []. by constructor. Qed.

Lemma common_idle i s current :
  aw_open_gates s = [] → common i s → common i (s <| aw_current_step_id := current |>).
Proof. intros Hg []. constructor; try done. by left. Qed.

Lemma common_ungated i s : common i s → common i (s <| aw_open_gates := [] |>).
Proof. intros []. constructor; try done. by left. Qed.

Lemma common_gate i s : common i s → common i (s <| aw_open_gates := [aw_current_step_id s] |>).
Proof. intros []. constructor; try done. by right. Qed.

Lemma common_retry i s g :
  (∀ r, 0 ≤ r → 0 ≤ g r ≤ r) → common i s → common i (s <| aw_retry_budget_remaining ::= g |>).
Proof.
  intros Hg [? ? ? ? Hr ? ? ? ? ? ? ? ?]. constructor; try done. cbn.
  pose proof (Hg (aw_retry_budget_remaining s)). lia.
Qed.

Lemma common_active i s g : common i s → common i (s <| aw_active_activities ::= g |>).
Proof. intros []. by constructor. Qed.

Lemma common_active_one i s a : common i s → common i (s <| aw_active_activity := a |>).
Proof. intros []. by constructor. Qed.

Lemma common_artifacts i s g h :
  common i s → common i (s <| aw_artifacts_by_step ::= g |> <| aw_artifact_refs ::= h |>).
Proof. intros []. by constructor. Qed.

Lemma common_refs i s h : common i s → common i (s <| aw_artifact_refs ::= h |>).
Proof. intros []. by constructor. Qed.

Lemma common_completed i s d :
  d ∈ start_ids (aw_calls s) → common i s → common i (s <| aw_completed_step_ids ::= λ l, l ++ [d] |>).
Proof.
  intros Hd [? ? ? ? ? ? ? ? ? Hdone ? ? Hrd]. constructor; try done.
  - intros x. unfold completed. cbn. rewrite bool_decide_eq_true, elem_of_app, list_elem_of_singleton.
    intros [[Hx| ->]|Hx]; [apply Hdone; left; by apply bool_decide_eq_true|done|apply Hdone; by right].
  - intros step activity_id request options Hs x Hx.
    destruct (Hrd _ _ _ _ Hs x Hx) as [Hc|Hf]; [left|by right].
    unfold completed in *. cbn. rewrite bool_decide_eq_true in *. set_solver.
Qed.

Lemma alist_set_keys {V} k (v : V) l x : x ∈ (alist_set k v l).*1 ↔ x = k ∨ x ∈ l.*1.
Proof.
  induction l as [|[k' v'] l IH]; cbn; [set_solver|].
  case_bool_decide as Hk; cbn; rewrite !elem_of_cons; [subst|rewrite IH]; naive_solver.
Qed.

Lemma common_failed i s d reason :
  d ∈ start_ids (aw_calls s) → _failure_is_omittable i d = true → common i s →
  common i (s <| aw_failed_step_ids ::= alist_set d reason |>).
Proof.
  intros Hd Ho [? ? ? ? ? ? ? ? ? Hdone Hom ? Hrd]. constructor; try done.
  - intros x [Hx|Hx]; [apply Hdone; by left|]. unfold failed in Hx. cbn in Hx.
    apply bool_decide_eq_true, alist_set_keys in Hx as [->|Hx]; [done|].
    apply Hdone. right. by apply bool_decide_eq_true.
  - intros x Hx. unfold failed in Hx. cbn in Hx.
    apply bool_decide_eq_true, alist_set_keys in Hx as [->|Hx]; [done|].
    apply Hom. by apply bool_decide_eq_true.
  - intros step activity_id request options Hs x Hx.
    destruct (Hrd _ _ _ _ Hs x Hx) as [Hc|Hf]; [by left|right].
    unfold failed in *. cbn. rewrite bool_decide_eq_true in *. apply alist_set_keys. by right.
Qed.

Lemma common_started i s step activity_id request options :
  stopped s = false → call_ok i (aw_calls s) (StartActivity step activity_id request options) →
  (∀ d, d ∈ ts_depends_on step → done_step s d = true) →
  common i s → common i (call (StartActivity step activity_id request options) s).
Proof.
  intros Hs Hc Hdep [? ? ? ? ? Hca Hap Hg Hst Hdone ? ? Hrd].
  assert (∀ c r, CommandApplied c r ∈ aw_calls s ++ [StartActivity step activity_id request options] →
      CommandApplied c r ∈ aw_calls s) as Hin by (intros c r; rewrite elem_of_app; set_solver).
  constructor; try done.
  - by apply calls_ok_snoc.
  - intros c r Hcr%Hin. by apply Hap.
  - intros g Hg'. by apply approved_app, Hg.
  - intros (c & r & Hcr%Hin & Ht). apply Hst. by exists c, r.
  - intros d Hd%Hdone.
    change (d ∈ start_ids (aw_calls s ++ [StartActivity step activity_id request options])).
    rewrite start_ids_app, elem_of_app. by left.
  - intros x a q o [Hx|Hx%list_elem_of_singleton]%elem_of_app; [by eapply Hrd|].
    injection Hx as -> _ _ _. intros d Hd%Hdep. by apply orb_true_iff in Hd.
Qed.

(** ** Moves on the steps *)

(** A change that starts nothing and leaves the gates as they are; [d] is done
    after it when [b] holds. *)
Record progress (s s' : AnantaWorkflow) (d : string) (b : bool) : Prop := {
  pg_calls : aw_calls s' = aw_calls s;
  pg_gates : aw_open_gates s' = aw_open_gates s;
  pg_approved : aw_approved_gates s' = aw_approved_gates s;
  pg_stopped : stopped s = true → stopped s' = true;
  pg_done : ∀ x, done_step s' x = done_step s x || (b && bool_decide (x = d));
}.

Lemma progress_quiet s s' d :
  quiet s s' → (stopped s = true → stopped s' = true) → progress s s' d false.
Proof.
  intros [He _ _] Hs. constructor; try done.
  - exact (f_equal aw_calls He).
  - exact (f_equal aw_open_gates He).
  - exact (f_equal aw_approved_gates He).
  - intros x. rewrite orb_false_r. unfold done_step, completed, failed.
    assert (aw_completed_step_ids s' = aw_completed_step_ids s) as -> by exact (f_equal aw_completed_step_ids He).
    assert (aw_failed_step_ids s' = aw_failed_step_ids s) as -> by exact (f_equal aw_failed_step_ids He). done.
Qed.

Lemma progress_trans s1 s2 s3 d b c :
  progress s1 s2 d b → progress s2 s3 d c → progress s1 s3 d (b || c).
Proof.
  intros [C1 G1 A1 S1 D1] [C2 G2 A2 S2 D2]. constructor; [congruence..|auto|].
  intros x. rewrite D2, D1. destruct (done_step s1 x), b, c, (bool_decide (x = d)); done.
Qed.

(** Bookkeeping that does not restart the workflow. *)
Definition settles (s s' : AnantaWorkflow) : Prop :=
  quiet s s' ∧ (stopped s = true → stopped s' = true).

Lemma settles_trans s1 s2 s3 : settles s1 s2 → settles s2 s3 → settles s1 s3.
Proof. intros [? ?] [? ?]. split; [by etransitivity|auto]. Qed.

Lemma settles_advance s : settles s (advance s).
Proof. split; [apply quiet_advance|done]. Qed.
Lemma settles_events n s : settles s (note_events n s).
Proof. split; [apply quiet_events|done]. Qed.
Lemma settles_limits s : settles s (check_limits s).
Proof. split; [apply quiet_limits|apply limits_stopped]. Qed.
Lemma settles_fail r s : settles s (_fail r s).
Proof. split; [apply quiet_fail|intros _; apply stopped_failed, fail_phase]. Qed.

Lemma progress_settles s s' d : settles s s' → progress s s' d false.
Proof. intros []. by apply progress_quiet. Qed.

Lemma common_settles i s s' : settles s s' → common i s → common i s'.
Proof. intros []. by apply common_quiet. Qed.

Section outcomes.
Context (i : AnantaWorkflowInput).

(** Completing a step that was started. *)
Lemma complete_step_progress step result s :
  ts_step_id step ∈ start_ids (aw_calls s) → common i s →
  common i (complete_step step result s) ∧
  progress s (complete_step step result s) (ts_step_id step) true.
Proof.
  intros Hd Hcm. unfold complete_step. cbv zeta.
  set (s1 := s <| aw_artifacts_by_step ::= _ |> <| aw_artifact_refs ::= _ |>).
  set (s2 := s1 <| aw_completed_step_ids ::= _ |>).
  assert (settles s2 (check_limits (advance s2))) as Hs
    by (eapply settles_trans; [apply settles_advance|apply settles_limits]).
  split.
  - apply (common_settles i s2 _ Hs). apply common_completed; [done|]. by apply common_artifacts.
  - apply (progress_trans s s2 _ _ true false); [|by apply progress_settles].
    constructor; try done. intros x. unfold done_step, completed, failed. cbn.
    rewrite (bool_decide_ext (x ∈ aw_completed_step_ids s ++ [ts_step_id step])
        (x ∈ aw_completed_step_ids s ∨ x = ts_step_id step)) by set_solver.
    rewrite bool_decide_or. by destruct (bool_decide _), (bool_decide _), (bool_decide _).
Qed.

Lemma omitted_progress step reason s :
  ts_step_id step ∈ start_ids (aw_calls s) → _failure_is_omittable i (ts_step_id step) = true →
  common i s →
  common i (_record_omitted_failure step reason s) ∧
  progress s (_record_omitted_failure step reason s) (ts_step_id step) true.
Proof.
  intros Hd Ho Hcm. unfold _record_omitted_failure. cbv zeta.
  set (s1 := s <| aw_failed_step_ids ::= _ |>).
  assert (settles s1 (check_limits (note_events 1 (advance s1)))) as Hs
    by (eapply settles_trans; [eapply settles_trans; [apply settles_advance|apply settles_events]|apply settles_limits]).
  split.
  - apply (common_settles i s1 _ Hs). by apply common_failed.
  - apply (progress_trans s s1 _ _ true false); [|by apply progress_settles].
    constructor; try done. intros x. unfold done_step, completed, failed. cbn.
    rewrite (bool_decide_ext (x ∈ (alist_set (ts_step_id step) (str_take 256 reason) (aw_failed_step_ids s)).*1)
        (x ∈ (aw_failed_step_ids s).*1 ∨ x = ts_step_id step)) by (rewrite alist_set_keys; naive_solver).
    rewrite bool_decide_or. by destruct (bool_decide _), (bool_decide _), (bool_decide _).
Qed.

Lemma spend_progress attempt s d :
  common i s → common i (spend_attempts attempt s) ∧ progress s (spend_attempts attempt s) d false.
Proof.
  intros Hcm. unfold spend_attempts. split.
  - eapply common_settles; [apply settles_events|]. apply common_retry; [|done]. intros r Hr. lia.
  - constructor; try done. intros x. by rewrite orb_false_r.
Qed.

(** A reason is known for every loss. *)
Definition reasoned (o : outcome) : Prop := match o with Lost e => e ≠ "" | Got _ => True end.

Lemma note_failure_progress step reason fatal s fatal' s' :
  ts_step_id step ∈ start_ids (aw_calls s) → reason ≠ "" → common i s →
  note_failure i step reason (fatal, s) = (fatal', s') →
  common i s' ∧ (fatal ≠ "" → fatal' ≠ "") ∧
  ∃ b, progress s s' (ts_step_id step) b ∧ (fatal' = "" → b = true).
Proof.
  intros Hd Hr Hcm. unfold note_failure. cbn [fst snd].
  destruct (_failure_is_omittable i (ts_step_id step)) eqn:Ho; intros [= <- <-].
  - destruct (omitted_progress step reason s Hd Ho Hcm). split_and!; [done..|]. by exists true.
  - assert (str_or fatal reason ≠ "") as Hf
      by (unfold str_or; destruct (str_true fatal) eqn:Ht; [by apply str_true_spec|done]).
    split_and!; [done..|]. exists false. split; [|done]. by apply progress_quiet.
Qed.

Lemma settle_progress step o fatal s fatal' s' :
  ts_step_id step ∈ start_ids (aw_calls s) → reasoned o → common i s →
  settle i (fatal, s) (step, o) = (fatal', s') →
  common i s' ∧ (fatal ≠ "" → fatal' ≠ "") ∧
  ∃ b, progress s s' (ts_step_id step) b ∧ (fatal' = "" → b = true).
Proof.
  intros Hd Ho Hcm. unfold settle. destruct o as [result|error]; cbn [fst snd].
  - unfold _record_activity_result. cbv zeta.
    destruct (spend_progress (sr_attempt result) s (ts_step_id step) Hcm) as [Hcs Hps].
    set (s1 := spend_attempts (sr_attempt result) s) in *.
    assert (ts_step_id step ∈ start_ids (aw_calls s1)) as Hd1 by by rewrite (pg_calls _ _ _ _ Hps).
    assert (∀ reason, reason ≠ "" → note_failure i step reason (fatal, s1) = (fatal', s') →
        common i s' ∧ (fatal ≠ "" → fatal' ≠ "") ∧
        ∃ b, progress s s' (ts_step_id step) b ∧ (fatal' = "" → b = true)) as Hfail.
    { intros reason Hr Hn. destruct (note_failure_progress _ _ _ _ _ _ Hd1 Hr Hcs Hn) as (? & ? & b & Hb & ?).
      split_and!; [done..|]. exists b. split; [|done]. by apply (progress_trans s s1 s' _ false b). }
    case_bool_decide as Hop; [by apply Hfail|]. case_bool_decide as Hst.
    + destruct (str_true (result_reason result)) eqn:Hr; [apply Hfail; by apply str_true_spec|].
      exfalso. apply str_true_false in Hr. unfold result_reason, str_or in Hr.
      destruct (str_true (sr_reason_code result)) eqn:Ht; [by rewrite Hr in Ht|done].
    + change (str_true "") with false. cbv iota. intros [= <- <-].
      destruct (complete_step_progress step result s1 Hd1 Hcs). split_and!; [done..|].
      exists true. split; [|done]. by apply (progress_trans s s1 _ _ false true).
  - set (s1 := s <| aw_retry_budget_remaining := 0 |>). intros Hn.
    assert (common i s1) as Hcm1 by (apply (common_retry i s (λ _, 0)); [lia|done]).
    destruct (note_failure_progress step error fatal s1 fatal' s' Hd Ho Hcm1 Hn) as (? & ? & b & Hb & ?).
    split_and!; [done..|]. exists b. split; [|done]. apply (progress_trans s s1 s' _ false b); [|done].
    constructor; try done. intros x. by rewrite orb_false_r.
Qed.
End outcomes.

(** ** Settling a batch *)

(** What settling the outcomes [l] does: nothing starts, and unless it stops the
    workflow every step of the batch is done. *)
Record settled (s s' : AnantaWorkflow) (l : list string) : Prop := {
  sd_calls : aw_calls s' = aw_calls s;
  sd_gates : aw_open_gates s' = aw_open_gates s;
  sd_approved : aw_approved_gates s' = aw_approved_gates s;
  sd_stopped : stopped s = true → stopped s' = true;
  sd_kept : ∀ x, done_step s x = true → done_step s' x = true;
  sd_new : ∀ x, done_step s' x = true → done_step s x = true ∨ x ∈ l;
}.

Lemma settled_progress s s1 s' d l b :
  progress s s1 d b → settled s1 s' l → settled s s' (d :: l).
Proof.
  intros [C1 G1 A1 S1 D1] [C2 G2 A2 S2 K N]. constructor; [congruence..|auto| |].
  - intros x Hx. apply K. by rewrite D1, Hx.
  - intros x [Hx|Hx]%N; [|by right; right]. rewrite D1 in Hx. apply orb_true_iff in Hx as [Hx|Hx]; [by left|].
    apply andb_true_iff in Hx as [_ Hx%bool_decide_eq_true]. right. subst. by left.
Qed.

Section batches.
Context (i : AnantaWorkflowInput).

Lemma settle_all outcomes fatal s fatal' s' :
  Forall (λ o, ts_step_id o.1 ∈ start_ids (aw_calls s) ∧ reasoned o.2) outcomes → common i s →
  foldl (settle i) (fatal, s) outcomes = (fatal', s') →
  common i s' ∧ settled s s' (map (λ o, ts_step_id o.1) outcomes) ∧
  (fatal' = "" → fatal = "" ∧ ∀ o, o ∈ outcomes → done_step s' (ts_step_id o.1) = true).
Proof.
  revert fatal s. induction outcomes as [|[step o] outcomes IH]; intros fatal s Hout Hcm; cbn [foldl map].
  { intros [= <- <-]. split_and!; [done|by constructor; auto|]. intros ->. split; [done|].
    by intros o ?%elem_of_nil. }
  apply Forall_cons in Hout as [[Hd Ho] Hout]. cbn [fst snd] in *.
  destruct (settle i (fatal, s) (step, o)) as [fatal1 s1] eqn:Hs1.
  destruct (settle_progress i step o fatal s fatal1 s1 Hd Ho Hcm Hs1) as (Hcm1 & Hf1 & b & Hb & Hd1).
  intros Hl. destruct (IH fatal1 s1) as (Hcm' & Hset & Hdone); [|done..|].
  { by rewrite (pg_calls _ _ _ _ Hb). }
  split_and!; [done|by eapply settled_progress|]. intros Hf. destruct (Hdone Hf) as [Hf0 Hall].
  split; [destruct (decide (fatal = "")); [done|by destruct Hf1]|].
  intros o' [->|Hin]%elem_of_cons; [|by apply Hall]. apply (sd_kept _ _ _ Hset). cbn.
  rewrite (pg_done _ _ _ _ Hb), (Hd1 Hf0), bool_decide_eq_true_2 by done. by rewrite orb_true_r.
Qed.

Lemma settle_batch_post outcomes s :
  Forall (λ o, ts_step_id o.1 ∈ start_ids (aw_calls s) ∧ reasoned o.2) outcomes →
  aw_open_gates s = [] → common i s →
  common i (settle_batch i outcomes s) ∧
  settled s (settle_batch i outcomes s) (map (λ o, ts_step_id o.1) outcomes) ∧
  (stopped (settle_batch i outcomes s) = true ∨
    ∀ o, o ∈ outcomes → done_step (settle_batch i outcomes s) (ts_step_id o.1) = true).
Proof.
  intros Hout Hg Hcm. unfold settle_batch.
  destruct (foldl (settle i) ("", s) outcomes) as [fatal s1] eqn:Hl.
  destruct (settle_all _ _ _ _ _ Hout Hcm Hl) as (Hcm1 & Hset & Hdone).
  set (s2 := if str_true fatal && _ then _ else s1).
  assert (settles s1 s2) as Hs2
    by (subst s2; case_match; [apply settles_fail|split; [reflexivity|done]]).
  pose proof (progress_settles _ _ "" Hs2) as Hp.
  assert (aw_open_gates s2 = []) as Hg2
    by by rewrite (pg_gates _ _ _ _ Hp), (sd_gates _ _ _ Hset).
  split; [apply common_idle; [done|by eapply common_settles]|].
  destruct Hp as [Cp Gp Ap Sp Dp], Hset as [Cs Gs As Ss Ks Ns]. split.
  - constructor; [by rewrite <- Cs|by rewrite <- Gs|by rewrite <- As|by intros; apply Sp, Ss| |].
    + intros x Hx. change (done_step s2 x = true). rewrite Dp, (Ks x Hx). done.
    + intros x Hx. change (done_step s2 x = true) in Hx. rewrite Dp, orb_false_r in Hx. by apply Ns.
  - destruct (decide (fatal = "")) as [Hf|Hf].
    + right. intros o Ho. change (done_step s2 (ts_step_id o.1) = true). rewrite Dp, orb_false_r.
      by apply Hdone.
    + left. change (stopped s2 = true). subst s2. rewrite (proj2 (str_true_spec fatal) Hf). cbn [andb].
      destruct (bool_decide_reflect (aw_phase s1 = CANCELLED)) as [Hc|Hc]; cbn [negb].
      * apply stopped_spec. by left.
      * apply stopped_failed, fail_phase.
Qed.
End batches.

(** ** The steps that remain *)

(** [flight] are the steps whose activities run; the done ones and they are all
    that was ever started. *)
Record steps_ok (i : AnantaWorkflowInput) (s : AnantaWorkflow) (remaining : gset string)
    (flight : list string) : Prop := {
  sk_remaining : ∀ d, d ∈ remaining ↔ d ∈ step_ids i ∧ done_step s d = false;
  sk_starts : ∀ d, d ∈ start_ids (aw_calls s) ↔ done_step s d = true ∨ d ∈ flight;
  sk_flight : NoDup flight;
  sk_inside : ∀ d, d ∈ flight → d ∈ remaining;
}.

Lemma steps_ok_ext i s s' remaining flight :
  (∀ d, done_step s' d = done_step s d) → start_ids (aw_calls s') = start_ids (aw_calls s) →
  steps_ok i s remaining flight → steps_ok i s' remaining flight.
Proof. intros Hd Hs [R S N I]. constructor; [..|done|done]; intros d; rewrite ?Hs, Hd; auto. Qed.

Lemma steps_ok_progress i s s' x remaining flight :
  progress s s' x false → steps_ok i s remaining flight → steps_ok i s' remaining flight.
Proof.
  intros [C _ _ _ D]. apply steps_ok_ext; [|by rewrite C]. intros d. by rewrite D, orb_false_r.
Qed.

Lemma shared_done s s' d : shared s s' → done_step s' d = done_step s d.
Proof. intros [_ Hc Hf _ _ _ _ _]. unfold done_step, completed, failed. by rewrite Hc, Hf. Qed.

Lemma steps_ok_shared i s s' remaining flight :
  shared s s' → steps_ok i s remaining flight → steps_ok i s' remaining flight.
Proof. intros Hs. apply steps_ok_ext; [intros d; by apply shared_done|apply (sh_starts _ _ Hs)]. Qed.

(** Everything of the batch is done. *)
Lemma steps_ok_settled i s s' remaining flight :
  settled s s' flight → (∀ d, d ∈ flight → done_step s' d = true) →
  steps_ok i s remaining flight →
  steps_ok i s' (remaining ∖ id_set (aw_completed_step_ids s') ∖ id_set (aw_failed_step_ids s').*1) [].
Proof.
  intros [C _ _ _ K N] Hall [R S ND I].
  assert (∀ d, done_step s' d = true ↔ done_step s d = true ∨ d ∈ flight) as Hdone
    by (intros d; split; [apply N|intros [?|?]; auto]).
  constructor; [| |constructor|by intros d ?%elem_of_nil].
  - intros d. unfold id_set. rewrite !elem_of_difference, !elem_of_list_to_set, R.
    rewrite <- !not_true_iff_false. pose proof (done_step_spec s' d) as Hd. split.
    + intros [[[Hi Hn] Hc] Hf]. split; [done|]. by intros [?|?]%Hd.
    + intros [Hi Hn]. rewrite Hd in Hn. split; [split; [split; [done|]|]|]; try tauto.
      intros Hs%K. by apply Hn, Hd.
  - intros d. rewrite C, S, Hdone. split; [by left|]. intros [?|?%elem_of_nil]; done.
Qed.

(** ** Starting activities *)

(** What the steps of a batch have in common. *)
Record startable (i : AnantaWorkflowInput) (s : AnantaWorkflow) (step : TemporalWorkflowStep) : Prop := {
  sa_step : step ∈ wi_steps i;
  sa_dependencies : ∀ d, d ∈ ts_depends_on step → done_step s d = true;
  sa_gate : gate_closed s step = false;
}.

Lemma resolved_done s step d :
  _dependencies_resolved s step = true → d ∈ ts_depends_on step → done_step s d = true.
Proof.
  unfold _dependencies_resolved, done_step. intros Hr Hd. apply list_elem_of_In in Hd.
  case_match; rewrite forallb_forall in Hr; apply Hr in Hd; [done|]. by rewrite Hd.
Qed.

Lemma startable_ext i s s' step :
  (∀ d, done_step s' d = done_step s d) → aw_approved_gates s' = aw_approved_gates s →
  startable i s step → startable i s' step.
Proof.
  intros Hd Ha [? Hdep Hg]. constructor; [done| |].
  - intros d Hin. rewrite Hd. by apply Hdep.
  - unfold gate_closed in *. by rewrite Ha.
Qed.

Lemma startable_quiet i s s' step : quiet s s' → startable i s step → startable i s' step.
Proof.
  intros [He _ _]. apply startable_ext; [|exact (f_equal aw_approved_gates He)].
  intros d. unfold done_step, completed, failed.
  assert (aw_completed_step_ids s' = aw_completed_step_ids s) as -> by exact (f_equal aw_completed_step_ids He).
  assert (aw_failed_step_ids s' = aw_failed_step_ids s) as -> by exact (f_equal aw_failed_step_ids He). done.
Qed.

Lemma options_weaken c r r' o : 0 ≤ r ≤ r' → options_bounded c r o → options_bounded c r' o.
Proof.
  unfold options_bounded. intros Hr (? & Hb & ? & ? & ?). split_and!; try tauto; try lia.
Qed.

(** A step that can start satisfies what a start has to. *)
Lemma startable_start_ok i s remaining flight step o :
  common i s → steps_ok i s remaining flight → stopped s = false → startable i s step →
  ts_step_id step ∈ remaining → ts_step_id step ∉ flight →
  options_bounded (ts_activity_class step) (aw_retry_budget_remaining s) o →
  start_ok i (aw_calls s) step o.
Proof.
  intros Hcm [R S _ _] Hs [Hin Hdep Hg] Hr Hf Ho. constructor; [done| | | | |].
  - rewrite S. apply R in Hr as [_ Hr]. intros [Hd|Hd]; [congruence|done].
  - intros d Hd%Hdep. apply S. by left.
  - intros Ht. apply (cm_approved _ _ Hcm). unfold gate_closed in Hg. rewrite Ht in Hg.
    by apply bool_decide_eq_false, dec_stable in Hg.
  - intros Hst%(cm_stopped _ _ Hcm). congruence.
  - eapply options_weaken; [|done]. apply (cm_retry _ _ Hcm).
Qed.

Section starting.
Context `{Digest} (normalize_endpoint : string → string → option string).
Context (i : AnantaWorkflowInput).

Lemma start_call_Ok s step request c :
  start_call normalize_endpoint s step request = Ok c →
  ∃ d o, c = StartActivity step (activity_id_of step) d o ∧
  options_bounded (ts_activity_class step) (aw_retry_budget_remaining s) o.
Proof.
  unfold start_call. intros (q & _ & Hc)%result_bind_Ok. rewrite profile_total in Hc.
  cbn [mbind result_bind] in Hc. apply result_bind_Ok in Hc as (o & Ho & Hc).
  apply result_bind_Ok in Hc as (d & _ & Hc). injection Hc as <-. exists d, o. split; [done|].
  destruct (options_total (ts_activity_class step) (aw_retry_budget_remaining s)) as (o' & Ho' & Hb).
  congruence.
Qed.

(** The state after an activity was started. *)
Lemma started_post s remaining flight step c g :
  common i s → steps_ok i s remaining flight → stopped s = false → startable i s step →
  ts_step_id step ∈ remaining → ts_step_id step ∉ flight →
  start_call normalize_endpoint s step g = Ok c →
  common i (call c s) ∧ steps_ok i (call c s) remaining (flight ++ [ts_step_id step]) ∧
  stopped (call c s) = false.
Proof.
  intros Hcm Hsk Hs Hst Hr Hf (d & o & -> & Ho)%start_call_Ok. split_and!; [| |done].
  - apply common_started; [done| |apply Hst|done]. split; [done|]. by eapply startable_start_ok.
  - destruct Hsk as [R S N I]. constructor.
    + exact R.
    + intros x. change (aw_calls (call _ s)) with (aw_calls s ++ [StartActivity step (activity_id_of step) d o]).
      rewrite start_ids_app, !elem_of_app, S. change (done_step (call _ s) x) with (done_step s x).
      change (start_ids [StartActivity step (activity_id_of step) d o]) with [ts_step_id step]. tauto.
    + apply NoDup_app. split_and!; [done| |apply NoDup_singleton].
      intros x Hx ->%list_elem_of_singleton. done.
    + intros x [Hx| ->%list_elem_of_singleton]%elem_of_app; [by apply I|done].
Qed.

(** Entering a step: the limits stop the workflow, or it goes on. *)
Lemma enter_step_facts s ok s' :
  common i s → stopped s = false → _within_limits (enter_step s) = (ok, s') →
  common i s' ∧ settles s s' ∧ stopped s' = negb ok.
Proof.
  intros Hcm Hs Hl. pose proof (within_limits_run _ _ _ Hl) as [Hq Hp].
  assert (settles s (enter_step s)) as H1
    by (eapply settles_trans; [apply settles_advance|apply settles_events]).
  assert (settles s s') as H2 by (split; [etransitivity; [apply H1|done]|congruence]).
  split_and!; [by eapply common_settles|done|].
  destruct ok; [unfold stopped in *; by rewrite Hp|by apply stopped_failed].
Qed.

(** One round of the loop that starts a batch. *)
Definition step_post (s s' : AnantaWorkflow) (remaining : gset string) (flight : list string)
  (step : TemporalWorkflowStep) (out : result bool) : Prop :=
  common i s' ∧ aw_open_gates s' = [] ∧ aw_approved_gates s' = aw_approved_gates s ∧
  (∀ x, startable i s x → startable i s' x) ∧
  match out with
  | Ok true => steps_ok i s' remaining (flight ++ [ts_step_id step]) ∧ stopped s' = false
  | Ok false => steps_ok i s' remaining flight ∧ stopped s' = true
  | Err _ => True
  end.

Lemma start_step_post step s remaining flight out s' :
  common i s → steps_ok i s remaining flight → stopped s = false → aw_open_gates s = [] →
  startable i s step → ts_step_id step ∈ remaining → ts_step_id step ∉ flight →
  start_step normalize_endpoint i step s = (out, s') → step_post s s' remaining flight step out.
Proof.
  intros Hcm Hsk Hs Hg Hst Hr Hf. unfold start_step. rewrite run_modify, run_get.
  destruct (_within_limits (enter_step s)) as [ok s2] eqn:Hl.
  destruct (enter_step_facts s ok s2 Hcm Hs Hl) as (Hcm2 & H2 & Hs2).
  unfold mbind at 1, action_bind at 1, put.
  pose proof (progress_settles _ _ "" H2) as Hp2.
  assert (aw_open_gates s2 = []) as Hg2 by by rewrite (pg_gates _ _ _ _ Hp2).
  assert (steps_ok i s2 remaining flight) as Hsk2 by by apply (steps_ok_progress i s s2 "").
  pose proof (pg_approved _ _ _ _ Hp2) as Ha2.
  assert (∀ x, startable i s x → startable i s2 x) as Hsa by (intros x; apply startable_quiet, H2).
  destruct ok; [|by intros [= <- <-]].
  unfold mbind at 1, action_bind at 1, lift.
  destruct (start_call normalize_endpoint s2 step _) as [c|e] eqn:Hc; intros [= <- <-]; [|done].
  destruct (started_post s2 remaining flight step c _ Hcm2 Hsk2 Hs2 (Hsa _ Hst) Hr Hf Hc)
    as (Hcm3 & Hsk3 & Hs3).
  split_and!; [by apply common_active|done|by destruct c| |by apply (steps_ok_ext i (call c s2))|done].
  intros x Hx%Hsa. by apply (startable_ext i s2).
Qed.

Definition batch_post (s s' : AnantaWorkflow) (remaining : gset string) (flight : list string)
  (batch : list TemporalWorkflowStep) (out : result (list TemporalWorkflowStep)) : Prop :=
  common i s' ∧ aw_open_gates s' = [] ∧ aw_approved_gates s' = aw_approved_gates s ∧
  match out with
  | Ok started => steps_ok i s' remaining (flight ++ map ts_step_id started) ∧
    started `prefix_of` batch ∧ (started = batch ∨ stopped s' = true)
  | Err _ => True
  end.

Lemma start_batch_post batch s remaining flight out s' :
  common i s → steps_ok i s remaining flight → stopped s = false → aw_open_gates s = [] →
  Forall (λ step, startable i s step ∧ ts_step_id step ∈ remaining) batch →
  NoDup (flight ++ map ts_step_id batch) →
  start_batch normalize_endpoint i batch s = (out, s') →
  batch_post s s' remaining flight batch out.
Proof.
  revert s flight out s'. induction batch as [|step batch IH];
    intros s flight out s' Hcm Hsk Hs Hg Hb Hnd; cbn [start_batch].
  { intros [= <- <-]. split_and!; [done..| |done|by left]. by rewrite app_nil_r. }
  apply Forall_cons in Hb as [[Hst Hr] Hb].
  assert (ts_step_id step ∉ flight) as Hf.
  { apply NoDup_app in Hnd as (_ & Hd & _). intros Hin. apply (Hd _ Hin). cbn. by left. }
  unfold mbind at 1, action_bind at 1.
  destruct (start_step normalize_endpoint i step s) as [r s1] eqn:H1.
  destruct (start_step_post _ _ _ _ _ _ Hcm Hsk Hs Hg Hst Hr Hf H1) as (Hcm1 & Hg1 & Ha1 & Hsa & Hpost).
  destruct r as [[]|e]; [|intros [= <- <-]; split_and!; try done|by intros [= <- <-]].
  - destruct Hpost as [Hsk1 Hs1]. unfold mbind at 1, action_bind at 1.
    destruct (start_batch normalize_endpoint i batch s1) as [r s2] eqn:Hrest.
    apply (IH s1 (flight ++ [ts_step_id step])) in Hrest; [|done..| |by rewrite <- app_assoc].
    + destruct r as [started|e]; intros [= <- <-];
        [|destruct Hrest as (? & ? & ? & _); split_and!; [done..|congruence|done]].
      destruct Hrest as (? & ? & ? & Hsk2 & Hpre & Hall). split_and!; [done..|congruence| |by apply prefix_cons|].
      * by rewrite <- app_assoc in Hsk2.
      * destruct Hall as [->|?]; [by left|by right].
    + eapply Forall_impl; [exact Hb|]. intros x [Hx ?]. split; [by apply Hsa|done].
  - rewrite app_nil_r. by destruct Hpost.
  - apply prefix_nil.
  - right. by destruct Hpost.
Qed.
End starting.
