(* ===== verification/WorkflowDistance.v ===== *)
(** * How far a Temporal workflow is from its end

    A bound on the moves the coroutine [run] still makes: every move lowers it,
    and no command, signal or reply raises it. *)
From S2P Require Import Prelude Records PyStr PyVal Digest Serialization Plan Envelope CommandContract TemporalContracts TemporalLaws RetryProfiles Workflow WorkflowCommands WorkflowRun WorkflowFrame WorkflowInv WorkflowSteps.

Definition closed_gates (i : AnantaWorkflowInput) (s : AnantaWorkflow) (remaining : gset string)
    : list TemporalWorkflowStep :=
  filter (λ step, ts_step_id step ∈ remaining ∧ gate_closed s step = true) (wi_steps i).

(** The closed gates but the one of [step]. *)
Definition other_gates (i : AnantaWorkflowInput) (s : AnantaWorkflow) (remaining : gset string)
    (step : TemporalWorkflowStep) : list TemporalWorkflowStep :=
  filter (λ x, ts_step_id x ≠ ts_step_id step) (closed_gates i s remaining).

Definition len {A} (l : list A) : Z := Z.of_nat (length l).

(** Every move makes this smaller, and no handler makes it larger. *)
Definition distance (i : AnantaWorkflowInput) (s : AnantaWorkflow) (m : main_state) : Z :=
  match m with
  | Resuming remaining => 2 * Z.of_nat (size remaining) + 2 * len (closed_gates i s remaining) + 1
  | AtGate remaining step =>
      2 * Z.of_nat (size remaining) + 2 * len (other_gates i s remaining step) + 2
  | Awaiting remaining step started outcomes =>
      2 * (Z.of_nat (size remaining) - len outcomes - len (step :: started))
      + 2 * len (closed_gates i s remaining) + 1 + len (step :: started)
  | LegacyResuming _ rest => 3 * len rest + 3
  | LegacyAtGate _ rest => 3 * len rest + 2
  | LegacyAwaiting _ rest => 3 * len rest + 1
  | NotStarted | Returned _ | Aborted | Stuck _ => 0
  end.

Lemma closed_gates_mono i s s' remaining remaining' :
  aw_approved_gates s ⊆ aw_approved_gates s' → remaining' ⊆ remaining →
  closed_gates i s' remaining' `sublist_of` closed_gates i s remaining.
Proof.
  intros Ha Hr. unfold closed_gates. induction (wi_steps i) as [|x l IH]; [done|].
  rewrite !filter_cons. destruct (decide (_ ∈ remaining' ∧ _)) as [[Hx Hc]|Hn].
  - rewrite decide_True; [by apply sublist_skip|]. split; [set_solver|]. unfold gate_closed in *.
    apply andb_true_iff in Hc as [-> Hc%bool_decide_eq_true]. cbn. apply bool_decide_eq_true. set_solver.
  - case_decide; [by apply sublist_cons|done].
Qed.

Lemma sublist_len {A} (l k : list A) : l `sublist_of` k → len l ≤ len k.
Proof. intros Hl. unfold len. apply sublist_length in Hl. lia. Qed.

Lemma sublist_filter_mono {A} (P : A → Prop) `{!∀ x, Decision (P x)} (l k : list A) :
  l `sublist_of` k → filter P l `sublist_of` filter P k.
Proof.
  induction 1 as [|x l k _ IH|x l k _ IH]; [done|..]; rewrite !filter_cons; case_decide; try done.
  - by apply sublist_skip.
  - by apply sublist_cons.
Qed.

Lemma closed_gates_len i s s' remaining remaining' :
  aw_approved_gates s ⊆ aw_approved_gates s' → remaining' ⊆ remaining →
  len (closed_gates i s' remaining') ≤ len (closed_gates i s remaining).
Proof. intros. by apply sublist_len, closed_gates_mono. Qed.

Lemma other_gates_len i s s' remaining step :
  aw_approved_gates s ⊆ aw_approved_gates s' →
  len (other_gates i s' remaining step) ≤ len (other_gates i s remaining step).
Proof. intros. by apply sublist_len, sublist_filter_mono, closed_gates_mono. Qed.

(** The gate of [step] counts while it is closed. *)
Lemma other_gates_less i s remaining step :
  step ∈ closed_gates i s remaining →
  len (other_gates i s remaining step) + 1 ≤ len (closed_gates i s remaining).
Proof.
  intros Hin. unfold other_gates, len.
  pose proof (length_filter_lt (λ x, ts_step_id x ≠ ts_step_id step) _ step Hin ltac:(naive_solver)). lia.
Qed.

(** An approved gate is not counted. *)
Lemma closed_gates_approved i s s' remaining step :
  ts_step_id step ∈ aw_approved_gates s' → aw_approved_gates s' = aw_approved_gates s →
  len (closed_gates i s' remaining) ≤ len (other_gates i s remaining step).
Proof.
  intros Hs Ha. assert (∀ x, gate_closed s' x = gate_closed s x) as Hg
    by (intros x; unfold gate_closed; by rewrite Ha).
  apply sublist_len. unfold other_gates, closed_gates.
  induction (wi_steps i) as [|x l IH]; [done|]. rewrite !filter_cons.
  case_decide as H1; rewrite Hg in H1; case_decide as H2; try done.
  rewrite filter_cons_True; [by apply sublist_skip|]. intros Heq. destruct H2 as [_ H2].
  unfold gate_closed in H2. apply andb_true_iff in H2 as [_ H2%bool_decide_eq_true].
  rewrite Heq, <- Ha in H2. done.
Qed.
