(* ===== verification/WorkflowMoves.v ===== *)
(** * The moves of the coroutine [run]

    Every move of the coroutine keeps the invariant of the state and leads to a
    place whose own invariant [main_inv] holds; so do the handlers that run
    while it waits.  Hence every run satisfies [run_inv]. *)
From S2P Require Import Prelude Records PyStr PyVal Digest Serialization Plan Envelope CommandContract TemporalContracts TemporalLaws Reasons RetryProfiles Workflow WorkflowCommands WorkflowRun WorkflowFrame WorkflowInv WorkflowSteps WorkflowDistance.

(** The workflow ended, and its steps are done when it completed. *)
Definition finished (i : AnantaWorkflowInput) (s : AnantaWorkflow) (status : dict) : Prop :=
  status = status_to_dict (_status s) ∧
  (stopped s = true ∨
   aw_phase s = COMPLETED ∧ ∀ d, d ∈ step_ids i → done_step s d = true).

(** The steps of the sequential scheduler from [step] on. *)
Record legacy_ok (i : AnantaWorkflowInput) (s : AnantaWorkflow) (step : TemporalWorkflowStep)
    (rest : list TemporalWorkflowStep) (flight : list string) : Prop := {
  lg_suffix : ∃ before, wi_steps i = before ++ step :: rest;
  lg_steps : steps_ok i s (id_set (map ts_step_id (step :: rest))) flight;
}.

Definition main_inv (i : AnantaWorkflowInput) (s : AnantaWorkflow) (m : main_state) : Prop :=
  match m with
  | NotStarted => False
  | Resuming remaining => aw_open_gates s = [] ∧ remaining ≠ ∅ ∧ steps_ok i s remaining []
  | AtGate remaining step =>
      aw_open_gates s = [ts_step_id step] ∧ aw_current_step_id s = ts_step_id step ∧
      steps_ok i s remaining [] ∧ step ∈ wi_steps i ∧ ts_step_id step ∈ remaining
  | Awaiting remaining step started outcomes =>
      aw_open_gates s = [] ∧ Forall (λ o, reasoned o.2) outcomes ∧
      steps_ok i s remaining (map (λ o, ts_step_id o.1) outcomes ++ map ts_step_id (step :: started))
  | LegacyResuming step rest => aw_open_gates s = [] ∧ legacy_ok i s step rest []
  | LegacyAtGate step rest =>
      aw_open_gates s = [ts_step_id step] ∧ aw_current_step_id s = ts_step_id step ∧
      legacy_ok i s step rest [] ∧ (∀ d, d ∈ ts_depends_on step → done_step s d = true)
  | LegacyAwaiting step rest => aw_open_gates s = [] ∧ legacy_ok i s step rest [ts_step_id step]
  | Returned status => finished i s status
  | Aborted | Stuck _ => True
  end.

(** Handlers keep the coroutine's place. *)
Lemma main_inv_shared i s s' m :
  ended m = false → shared s s' → main_inv i s m → main_inv i s' m.
Proof.
  intros Hm Hs. pose proof (sh_gates _ _ Hs) as Hg. pose proof (sh_current _ _ Hs) as Hc.
  pose proof (λ R f, steps_ok_shared i s s' R f Hs) as Hsk.
  destruct m; try done; cbn [main_inv]; rewrite ?Hg, ?Hc.
  - intros (? & ? & ?). auto.
  - intros (? & ? & ? & ?). auto.
  - intros (? & ? & ?). auto.
  - intros (? & [? ?]). split; [done|]. constructor; auto.
  - intros (? & ? & [? ?] & Hd). split_and!; [done..|constructor; auto|].
    intros d Hin. rewrite (shared_done s s' d Hs). by apply Hd.
  - intros (? & [? ?]). split; [done|]. constructor; auto.
Qed.

(** What a move has to lead to, at most [n] from the end. *)
Definition post (i : AnantaWorkflowInput) (n : Z) (p : result main_state * AnantaWorkflow) : Prop :=
  common i p.2 ∧
  match p.1 with Ok m => main_inv i p.2 m ∧ distance i p.2 m ≤ n | Err _ => True end.

Lemma post_intro i n s m : common i s → main_inv i s m → distance i s m ≤ n →
  post i n ((mret m : action AnantaWorkflow main_state) s).
Proof. done. Qed.

Definition all_done (i : AnantaWorkflowInput) (s : AnantaWorkflow) : Prop :=
  ∀ d, d ∈ step_ids i → done_step s d = true.

Lemma settles_transition p s : stopped s = false → settles s (_transition p s).
Proof. intros Hs. split; [apply quiet_transition|congruence]. Qed.

Lemma settles_done s s' d : settles s s' → done_step s' d = done_step s d.
Proof. intros Hs. by rewrite (pg_done _ _ _ _ (progress_settles _ _ "" Hs)), orb_false_r. Qed.

Lemma steps_ok_settles i s s' remaining flight :
  settles s s' → steps_ok i s remaining flight → steps_ok i s' remaining flight.
Proof. intros Hs. by apply (steps_ok_progress i s s' ""), progress_settles. Qed.

Lemma settles_gates s s' : settles s s' → aw_open_gates s' = aw_open_gates s.
Proof. intros Hs. apply (pg_gates _ _ _ _ (progress_settles _ _ "" Hs)). Qed.

(** [run] ends when it is stopped or everything is done. *)
Lemma leave_post i n s :
  0 ≤ n → common i s → stopped s = true ∨ all_done i s → post i n (leave s).
Proof.
  intros Hn Hcm Hs. unfold leave, return_status. rewrite run_modify, run_get. unfold post. cbn [fst snd mret action_ret].
  set (s1 := s <| aw_current_step_id := "" |> <| aw_open_gates := [] |>).
  assert (common i s1) as Hcm1 by by apply common_current; [left|].
  unfold close. fold s1. cbv zeta. destruct (stopped s1) eqn:H1.
  - split; [done|]. split; [|done]. split; [done|]. by left.
  - assert (settles s1 (_transition COMPLETED s1)) as Hst by by apply settles_transition.
    split; [by eapply common_settles|]. split; [|done]. split; [done|]. right.
    split; [apply transition_phase|].
    intros d Hd. rewrite (settles_done s1 _ d Hst). destruct Hs as [Hs|Hs]; [|by apply Hs].
    exfalso. change (stopped s = false) in H1. congruence.
Qed.

Lemma loop_head_post i n s remaining :
  0 ≤ n → common i s → aw_open_gates s = [] →
  stopped s = true ∨ (steps_ok i s remaining [] ∧ distance i s (Resuming remaining) ≤ n) →
  post i n (loop_head remaining s).
Proof.
  intros Hn Hcm Hg Hs. unfold loop_head. rewrite run_get.
  destruct (bool_decide_reflect (remaining = ∅)) as [Hr|Hr]; cbn [orb].
  - apply leave_post; [done..|]. destruct Hs as [Hs|[[R _ _ _] _]]; [by left|right].
    intros d Hd. destruct (done_step s d) eqn:Hds; [done|]. exfalso.
    assert (d ∈ remaining) as Hin by by apply R. subst. by apply elem_of_empty in Hin.
  - destruct (stopped s) eqn:Hst; [apply leave_post; auto|]. destruct Hs as [|[Hs Hd]]; [done|]. by split.
Qed.

Section moves.
Context `{Digest} (normalize_endpoint : string → string → option string).
Context (patched : string → bool) (info_workflow_id : string) (record_compatibility_patch : bool).
Context (i : AnantaWorkflowInput).

Lemma the_input_run {B} (f : AnantaWorkflowInput → action AnantaWorkflow B) s :
  common i s → (the_input ≫= f) s = f i s.
Proof.
  intros Hcm. unfold the_input. rewrite run_assoc, run_get. by rewrite (cm_input _ _ Hcm).
Qed.

(** The steps of a batch that is done no longer remain. *)
Lemma settled_size s s' remaining flight :
  steps_ok i s remaining flight → (∀ d, d ∈ flight → done_step s' d = true) →
  Z.of_nat (size (remaining ∖ id_set (aw_completed_step_ids s') ∖ id_set (aw_failed_step_ids s').*1))
  ≤ Z.of_nat (size remaining) - len flight.
Proof.
  intros [_ _ Hnd Hin] Hall. unfold len. rewrite <- (size_list_to_set (C := gset string) flight) by done.
  set (rest := remaining ∖ _ ∖ _). enough (size (rest ∪ list_to_set flight) ≤ size remaining)%nat as Hs.
  { rewrite size_union in Hs; [lia|]. intros d Hd Hf%elem_of_list_to_set. apply Hall, done_step_spec in Hf.
    subst rest. unfold id_set in Hd. set_solver. }
  apply subseteq_size. intros d [Hd|Hd%elem_of_list_to_set]%elem_of_union; [|by apply Hin].
  subst rest. set_solver.
Qed.

Lemma batch_done_post n s remaining outcomes :
  0 ≤ n → common i s → aw_open_gates s = [] → Forall (λ o, reasoned o.2) outcomes →
  (steps_ok i s remaining (map (λ o, ts_step_id o.1) outcomes) ∧
    2 * (Z.of_nat (size remaining) - len outcomes) + 2 * len (closed_gates i s remaining) + 1 ≤ n) ∨
  (outcomes = [] ∧ stopped s = true) →
  post i n (batch_done remaining outcomes s).
Proof.
  intros Hn Hcm Hg Hr Hsk. unfold batch_done. rewrite the_input_run, run_modify, run_get by done.
  destruct (settle_batch_post i outcomes s) as (Hcm' & Hset & Hend); [|done..|].
  { apply Forall_forall. intros o Ho. split; [|by apply (proj1 (Forall_forall _ _) Hr)].
    destruct Hsk as [[[_ S _ _] _]|[-> _]]; [|by apply elem_of_nil in Ho].
    apply S. right. apply list_elem_of_fmap. by exists o. }
  apply loop_head_post; [done..|by rewrite (sd_gates _ _ _ Hset)|].
  destruct Hend as [Hend|Hend]; [by left|]. destruct Hsk as [[Hsk Hd]|[-> Hs]].
  - right. assert (∀ d, d ∈ map (λ o, ts_step_id o.1) outcomes →
        done_step (settle_batch i outcomes s) d = true) as Hall
      by (intros d (o & -> & Ho)%list_elem_of_fmap; by apply Hend).
    split; [by eapply steps_ok_settled|]. pose proof (settled_size _ _ _ _ Hsk Hall) as Hsz.
    unfold len in Hsz at 1. rewrite length_map in Hsz. fold (len outcomes) in Hsz. cbn [distance].
    pose proof (closed_gates_len i s (settle_batch i outcomes s) remaining
        (remaining ∖ id_set (aw_completed_step_ids (settle_batch i outcomes s))
          ∖ id_set (aw_failed_step_ids (settle_batch i outcomes s)).*1)
        ltac:(by rewrite (sd_approved _ _ _ Hset)) ltac:(set_solver)). lia.
  - left. by apply (sd_stopped _ _ _ Hset).
Qed.

(** The first ready step is in its own batch. *)
Lemma batch_not_empty first ready :
  input_ok i → batch_of i first (first :: ready) ≠ [].
Proof.
  intros [_ _ _ _ _ _ Hp _]. unfold batch_of. rewrite filter_cons_True by done.
  assert (∃ n, Z.to_nat (parallel_limit i) = S n) as [n ->]; [|done].
  exists (pred (Z.to_nat (parallel_limit i))). unfold parallel_limit. lia.
Qed.

Lemma execute_batch_post n s remaining batch :
  2 * Z.of_nat (size remaining) + 2 * len (closed_gates i s remaining) ≤ n →
  common i s → aw_open_gates s = [] → steps_ok i s remaining [] → stopped s = false →
  batch ≠ [] → NoDup (map ts_step_id batch) →
  Forall (λ step, startable i s step ∧ ts_step_id step ∈ remaining) batch →
  post i n (_execute_batch normalize_endpoint i remaining batch s).
Proof.
  intros Hn Hcm Hg Hsk Hs Hne Hnd Hb. unfold _execute_batch. destruct batch as [|first batch]; [done|].
  rewrite run_modify. set (s1 := s <| aw_current_step_id := ts_step_id first |>).
  unfold mbind at 1, action_bind at 1.
  destruct (start_batch normalize_endpoint i (first :: batch) s1) as [out s2] eqn:Hst.
  assert (0 ≤ n) as Hn0 by (unfold len in Hn; lia).
  assert (batch_post i s1 s2 remaining [] (first :: batch) out) as (Hcm2 & Hg2 & Ha2 & Hout).
  { eapply start_batch_post; [| | | | | |exact Hst]; try done.
    - by apply common_idle.
    - by apply (steps_ok_ext i s).
    - eapply Forall_impl; [exact Hb|]. intros x [Hx ?]. split; [by apply (startable_ext i s)|done]. }
  destruct out as [started|e]; [|by split]. destruct Hout as (Hsk2 & Hpre & Hall). cbn [app] in Hsk2.
  destruct started as [|step started].
  2: { apply post_intro; [done|by split_and!|]. cbn [distance]. unfold len in *. cbn [length] in *.
    pose proof (closed_gates_len i s s2 remaining remaining ltac:(by rewrite Ha2) ltac:(done)).
    unfold len in *. lia. }
  apply batch_done_post; [done..|constructor|]. right. split; [done|].
  destruct Hall as [Hall|Hall]; [done|by destruct Hall].
Qed.

(** A step that can be chosen is ready. *)
Lemma ready_spec s remaining step :
  step ∈ ready_steps s i remaining ↔
  ts_step_id step ∈ remaining ∧ _dependencies_resolved s step = true ∧ step ∈ wi_steps i.
Proof. unfold ready_steps. rewrite list_elem_of_filter. tauto. Qed.

(** A step whose inputs are done is ready: a failed input has only consumers
    that omit it. *)
Lemma resolved_when_done s step :
  common i s → step ∈ wi_steps i → (∀ d, d ∈ ts_depends_on step → done_step s d = true) →
  _dependencies_resolved s step = true.
Proof.
  intros Hcm Hin Hd. unfold _dependencies_resolved. destruct (omits step) eqn:Ho.
  - apply forallb_forall. intros d Hx%list_elem_of_In. by apply Hd.
  - apply forallb_forall. intros d Hx%list_elem_of_In. apply Hd in Hx as Hdone.
    unfold done_step in Hdone. apply orb_true_iff in Hdone as [Hc|Hf]; [done|]. exfalso.
    apply (cm_omitted _ _ Hcm) in Hf. unfold _failure_is_omittable in Hf.
    apply andb_true_iff in Hf as [_ Hf]. rewrite forallb_forall in Hf.
    assert (omits step = true); [|congruence]. apply Hf, list_elem_of_In.
    unfold consumers. by apply list_elem_of_filter.
Qed.

(** While steps remain and none runs, one of them is ready. *)
Lemma ready_exists s remaining :
  common i s → steps_ok i s remaining [] → remaining ≠ ∅ → ready_steps s i remaining ≠ [].
Proof.
  intros Hcm [R _ _ _] Hne. pose proof (cm_ok _ _ Hcm) as Hok.
  assert (∃ k step, wi_steps i !! k = Some step ∧ ts_step_id step ∈ remaining ∧
      ∀ j step', (j < k)%nat → wi_steps i !! j = Some step' → ts_step_id step' ∉ remaining)
    as (k & step & Hk & Hr & Hfirst).
  { apply set_choose_L in Hne as [d Hd]. assert (Exists (λ step, ts_step_id step ∈ remaining) (wi_steps i)) as He.
    { apply R in Hd as Hd'. destruct Hd' as [(step & -> & Hs)%list_elem_of_fmap _].
      apply Exists_exists. eauto. }
    clear R Hd. generalize (wi_steps i) He. clear He. intros l. induction l as [|x l IH]; [by inversion 1|].
    intros He. destruct (decide (ts_step_id x ∈ remaining)) as [Hx|Hx].
    - exists 0%nat, x. split_and!; [done..|]. intros j step' Hj. lia.
    - destruct IH as (k & step & Hk & Hr & Hf); [by apply Exists_cons in He as [?|?]|].
      exists (S k), step. split_and!; [done..|]. intros [|j] step' Hj Hs; [by injection Hs as <-|].
      apply (Hf j); [lia|done]. }
  intros Hnil. assert (step ∈ ready_steps s i remaining) as Hin; [|rewrite Hnil in Hin; by apply elem_of_nil in Hin].
  apply ready_spec. assert (step ∈ wi_steps i) as Hs by by eapply list_elem_of_lookup_2.
  split_and!; [done| |done]. apply resolved_when_done; [done..|]. intros d Hd.
  destruct (io_order _ Hok _ _ _ Hk Hd) as (j & step' & Hj & Hs' & <-).
  destruct (done_step s (ts_step_id step')) eqn:Hn; [done|]. exfalso. apply (Hfirst j step' Hj Hs'), R.
  split; [|done]. apply list_elem_of_fmap. exists step'. split; [done|by eapply list_elem_of_lookup_2].
Qed.

(** The steps of a batch: ready, open, and different. *)
Lemma batch_startable s remaining first rest :
  common i s → ready_steps s i remaining = first :: rest →
  filter (λ step, gate_closed s step = true) (first :: rest) = [] →
  Forall (λ step, startable i s step ∧ ts_step_id step ∈ remaining) (batch_of i first (first :: rest)) ∧
  NoDup (map ts_step_id (batch_of i first (first :: rest))).
Proof.
  intros Hcm Hready Hgated. split.
  - unfold batch_of. apply Forall_take, Forall_forall. intros step [_ Hin]%list_elem_of_filter.
    assert (gate_closed s step = false) as Hg.
    { destruct (gate_closed s step) eqn:Hg; [|done]. exfalso.
      assert (step ∈ filter (λ step, gate_closed s step = true) (first :: rest)) as Hf
        by by apply list_elem_of_filter.
      rewrite Hgated in Hf. by apply elem_of_nil in Hf. }
    rewrite <- Hready in Hin. apply ready_spec in Hin as (Hr & Hd & Hs). split; [|done].
    constructor; [done| |done]. intros d. by apply resolved_done.
  - assert (batch_of i first (first :: rest) `sublist_of` wi_steps i) as Hsub.
    { unfold batch_of. rewrite <- Hready. unfold ready_steps. etrans; [apply sublist_take|].
      etrans; apply sublist_filter. }
    eapply sublist_NoDup; [apply (io_unique _ (cm_ok _ _ Hcm))|]. by apply fmap_sublist.
Qed.

(** Opening the gate of the current step. *)
Lemma open_gate_facts s step :
  aw_current_step_id s = ts_step_id step → common i s → stopped s = false →
  common i (open_gate step s) ∧ aw_open_gates (open_gate step s) = [ts_step_id step] ∧
  aw_current_step_id (open_gate step s) = ts_step_id step ∧
  aw_approved_gates (open_gate step s) = aw_approved_gates s ∧
  aw_calls (open_gate step s) = aw_calls s ∧
  ∀ d, done_step (open_gate step s) d = done_step s d.
Proof.
  intros Hc Hcm Hs. unfold open_gate. rewrite <- Hc.
  set (s1 := s <| aw_open_gates := [aw_current_step_id s] |>).
  assert (settles s1 (_transition WAITING_APPROVAL s1)) as Hst by by apply settles_transition.
  split_and!; [eapply common_settles; [done|by apply common_gate]|by rewrite (settles_gates _ _ Hst)|..].
  - exact (f_equal aw_current_step_id (qt_erase _ _ (proj1 Hst))).
  - exact (f_equal aw_approved_gates (qt_erase _ _ (proj1 Hst))).
  - exact (f_equal aw_calls (qt_erase _ _ (proj1 Hst))).
  - intros d. exact (settles_done s1 _ d Hst).
Qed.

Lemma dag_turn_post s remaining :
  common i s → main_inv i s (Resuming remaining) →
  post i (distance i s (Resuming remaining) - 1) (dag_turn normalize_endpoint remaining s).
Proof.
  intros Hcm (Hg & Hne & Hsk). assert (0 ≤ distance i s (Resuming remaining) - 1) as Hn
    by (cbn [distance]; unfold len; lia). unfold dag_turn. rewrite the_input_run, run_get by done. cbv zeta.
  destruct (stopped s) eqn:Hs; [apply leave_post; auto|].
  pose proof (ready_exists s remaining Hcm Hsk Hne) as Hready.
  destruct (ready_steps s i remaining) as [|first rest] eqn:Hr; [done|].
  destruct (filter _ (first :: rest)) as [|step steps] eqn:Hgated.
  - destruct (batch_startable s remaining first rest Hcm Hr Hgated).
    apply execute_batch_post; try done; [cbn [distance]; lia|]. apply batch_not_empty, (cm_ok _ _ Hcm).
  - assert (step ∈ first :: rest ∧ gate_closed s step = true) as [Hin Hclosed].
    { assert (step ∈ filter (λ step, gate_closed s step = true) (first :: rest)) as Hf
        by (rewrite Hgated; by left). apply list_elem_of_filter in Hf. tauto. }
    rewrite <- Hr in Hin. apply ready_spec in Hin as (Hrem & _ & Hstep).
    rewrite run_modify. set (s0 := s <| aw_current_step_id := ts_step_id step |>).
    assert (common i s0) as Hcm0 by by apply common_idle.
    destruct (open_gate_facts s0 step eq_refl Hcm0 Hs) as (Hcm1 & Hg1 & Hc1 & Ha1 & Hk1 & Hd1).
    apply post_intro; [done|split_and!; [done..| |done|done]|].
    + by apply (steps_ok_ext i s); [exact Hd1|exact (f_equal start_ids Hk1)|].
    + assert (step ∈ closed_gates i s remaining) as Hcl by by apply list_elem_of_filter.
      pose proof (other_gates_less i s remaining step Hcl).
      pose proof (other_gates_len i s (open_gate step s0) remaining step ltac:(by rewrite Ha1)).
      cbn [distance]. lia.
Qed.

(** After the wait for an approval. *)
Lemma close_gate_facts s :
  common i s → common i (close_gate s) ∧ aw_open_gates (close_gate s) = [] ∧
  settles (s <| aw_open_gates := [] |>) (close_gate s).
Proof.
  intros Hcm. unfold close_gate. cbv zeta. set (s1 := s <| aw_open_gates := [] |>).
  assert (settles s1 (if stopped s1 then s1 else _transition RUNNING s1)) as Hs.
  { destruct (stopped s1) eqn:Hs; [by split|by apply settles_transition]. }
  assert (common i s1) as Hcm1 by by apply common_ungated.
  split_and!; [by eapply common_settles|by rewrite (settles_gates _ _ Hs)|done].
Qed.

Lemma close_gate_steps s remaining flight :
  common i s → steps_ok i s remaining flight → steps_ok i (close_gate s) remaining flight.
Proof.
  intros Hcm Hsk. destruct (close_gate_facts s Hcm) as (_ & _ & Hs).
  apply (steps_ok_settles _ _ _ _ _ Hs). by apply (steps_ok_ext i s).
Qed.

Lemma gate_passed_post s remaining step :
  common i s → main_inv i s (AtGate remaining step) →
  stopped s = true ∨ ts_step_id step ∈ aw_approved_gates s →
  post i (distance i s (AtGate remaining step) - 1) (gate_passed remaining s).
Proof.
  intros Hcm (_ & _ & Hsk & _) Hw. unfold gate_passed. rewrite run_modify.
  destruct (close_gate_facts s Hcm) as (Hc & Hg & Hs).
  assert (aw_approved_gates (close_gate s) = aw_approved_gates s) as Ha
    by exact (f_equal aw_approved_gates (qt_erase _ _ (proj1 Hs))).
  apply loop_head_post; [cbn [distance]; unfold len; lia|done..|].
  destruct Hw as [Hw|Hw]; [left; by apply (proj2 Hs)|right]. split; [by apply close_gate_steps|].
  pose proof (closed_gates_approved i s (close_gate s) remaining step ltac:(by rewrite Ha) Ha).
  cbn [distance]. lia.
Qed.

Lemma outcome_reasoned reply o : outcome_of reply = Ok o → reasoned o.
Proof.
  destruct reply as [raw| |]; [|by intros [= <-]..]. unfold outcome_of.
  pose proof (named_activity_result raw) as Hn.
  destruct (activity_result_from_mapping raw) as [result|e]; [by intros [= <-]|].
  destruct e; try done. intros [= <-]. by apply Hn.
Qed.

Lemma flight_size s remaining flight :
  steps_ok i s remaining flight → len flight ≤ Z.of_nat (size remaining).
Proof.
  intros [_ _ Hnd Hin]. unfold len. rewrite <- (size_list_to_set (C := gset string) flight) by done.
  apply inj_le, subseteq_size. intros d Hd%elem_of_list_to_set. by apply Hin.
Qed.

Lemma activity_ended_post s remaining step started outcomes reply :
  common i s → main_inv i s (Awaiting remaining step started outcomes) →
  post i (distance i s (Awaiting remaining step started outcomes) - 1)
  (activity_ended remaining step started outcomes reply s).
Proof.
  intros Hcm (Hg & Ho & Hsk). pose proof (flight_size _ _ _ Hsk) as Hsz. unfold activity_ended. rewrite run_modify.
  set (s1 := release_activity step s). assert (common i s1) as Hcm1 by by apply common_active.
  assert (aw_open_gates s1 = []) as Hg1 by done.
  unfold mbind at 1, action_bind at 1, lift.
  destruct (outcome_of reply) as [o|e] eqn:Hr; [|by split]. apply outcome_reasoned in Hr.
  assert (Forall (λ o, reasoned o.2) (outcomes ++ [(step, o)])) as Ho1
    by (apply Forall_app; split; [done|by apply Forall_singleton]).
  apply (steps_ok_ext i s s1) in Hsk; [|done..].
  assert (closed_gates i s1 remaining = closed_gates i s remaining) as Hcl by done.
  unfold len in Hsz. rewrite length_app, !length_map in Hsz.
  destruct started as [|next started]; cbn [length] in Hsz.
  - apply batch_done_post; [cbn [distance]; unfold len; cbn [length]; lia|done..|].
    left. split; [by rewrite map_app|]. rewrite Hcl. cbn [distance]. unfold len.
    rewrite length_app. cbn [length]. lia.
  - apply post_intro; [done|..].
    + split_and!; [done..|]. rewrite map_app, <- app_assoc. exact Hsk.
    + cbn [distance]. rewrite Hcl. unfold len. rewrite length_app. cbn [length]. lia.
Qed.

(** ** The sequential scheduler *)

Lemma legacy_flight s step rest flight s' :
  (∀ R f, steps_ok i s R f → steps_ok i s' R f) →
  legacy_ok i s step rest flight → legacy_ok i s' step rest flight.
Proof. intros Hsk [? ?]. constructor; auto. Qed.

Lemma legacy_start_post n s step rest :
  3 * len rest + 1 ≤ n → common i s → aw_open_gates s = [] → legacy_ok i s step rest [] → stopped s = false →
  startable i s step → post i n (legacy_start normalize_endpoint step rest s).
Proof.
  intros Hn Hcm Hg [Hsuf Hsk] Hs Hst. unfold legacy_start. rewrite the_input_run, run_get by done.
  unfold mbind at 1, action_bind at 1, lift.
  destruct (start_call normalize_endpoint s step _) as [c|e] eqn:Hc; [|by split].
  rewrite run_modify.
  assert (ts_step_id step ∈ id_set (map ts_step_id (step :: rest))) as Hin
    by (apply elem_of_list_to_set; by left).
  destruct (started_post normalize_endpoint i s _ [] step c _ Hcm Hsk Hs Hst Hin
      (not_elem_of_nil _) Hc) as (Hcm1 & Hsk1 & _).
  apply post_intro; [by apply common_active_one| |done]. split; [done|]. constructor; [done|].
  by apply (steps_ok_ext i (call c s)).
Qed.

Lemma startable_step s step rest :
  wi_steps i = rest → step ∈ rest → (∀ d, d ∈ ts_depends_on step → done_step s d = true) →
  gate_closed s step = false → startable i s step.
Proof. intros <- ? ? ?. by constructor. Qed.

Lemma completed_done s step :
  forallb (completed s) (ts_depends_on step) = true →
  ∀ d, d ∈ ts_depends_on step → done_step s d = true.
Proof.
  rewrite forallb_forall. intros Hd d Hin%list_elem_of_In. unfold done_step. by rewrite (Hd d Hin).
Qed.

Lemma legacy_turn_post s step rest :
  common i s → main_inv i s (LegacyResuming step rest) →
  post i (distance i s (LegacyResuming step rest) - 1) (legacy_turn normalize_endpoint step rest s).
Proof.
  intros Hcm [Hg Hlg]. assert (0 ≤ distance i s (LegacyResuming step rest) - 1) as Hn
    by (cbn [distance]; unfold len; lia). unfold legacy_turn. rewrite run_get.
  destruct (stopped s) eqn:Hs; [apply leave_post; auto|].
  destruct (forallb (completed s) (ts_depends_on step)) eqn:Hd; cbn [negb].
  2: { rewrite run_modify. apply leave_post; [done|by eapply common_settles; [apply settles_fail|]|].
    left. apply stopped_failed, fail_phase. }
  rewrite run_modify, run_get. set (s0 := s <| aw_current_step_id := ts_step_id step |>).
  destruct (_within_limits (enter_step s0)) as [ok s2] eqn:Hl.
  assert (common i s0) as Hcm0 by by apply common_idle.
  destruct (enter_step_facts i s0 ok s2 Hcm0 Hs Hl) as (Hcm2 & H2 & Hs2).
  unfold mbind at 1, action_bind at 1, put.
  destruct ok; cbn [negb]; [|apply leave_post; [done..|by left]].
  assert (aw_open_gates s2 = []) as Hg2 by by rewrite (settles_gates _ _ H2).
  assert (legacy_ok i s2 step rest []) as Hlg2.
  { eapply legacy_flight; [|exact Hlg]. intros R f Hsk. apply (steps_ok_settles _ _ _ _ _ H2).
    by apply (steps_ok_ext i s). }
  assert (∀ d, d ∈ ts_depends_on step → done_step s2 d = true) as Hdone.
  { intros d Hin. rewrite (settles_done _ _ d H2). by apply (completed_done s step). }
  destruct (gate_closed s2 step) eqn:Hgc.
  - assert (aw_current_step_id s2 = ts_step_id step) as Hc
      by exact (f_equal aw_current_step_id (qt_erase _ _ (proj1 H2))).
    rewrite run_modify. destruct (open_gate_facts s2 step Hc Hcm2 Hs2) as (Hcm3 & Hg3 & Hc3 & _ & Hk3 & Hd3).
    apply post_intro; [done|split_and!; [done..| |]|cbn [distance]; lia].
    + apply (legacy_flight s2); [|done]. intros R f. apply steps_ok_ext; [exact Hd3|exact (f_equal start_ids Hk3)].
    + intros d Hin. rewrite Hd3. by apply Hdone.
  - apply legacy_start_post; try done; [cbn [distance]; lia|]. destruct Hlg2 as [[before Hb] _].
    apply (startable_step s2 step _ Hb); [set_solver|done..].
Qed.

Lemma legacy_gate_post s step rest :
  common i s → main_inv i s (LegacyAtGate step rest) →
  stopped s = true ∨ ts_step_id step ∈ aw_approved_gates s →
  post i (distance i s (LegacyAtGate step rest) - 1)
  (legacy_gate_passed normalize_endpoint step rest s).
Proof.
  intros Hcm (_ & _ & Hlg & Hd) Hw. unfold legacy_gate_passed. rewrite run_modify, run_get.
  destruct (close_gate_facts s Hcm) as (Hcm1 & Hg1 & Hs1).
  assert (0 ≤ distance i s (LegacyAtGate step rest) - 1) as Hn by (cbn [distance]; unfold len; lia).
  destruct (stopped (close_gate s)) eqn:Hst; [apply leave_post; auto|].
  assert (aw_approved_gates (close_gate s) = aw_approved_gates s) as Ha
    by exact (f_equal aw_approved_gates (qt_erase _ _ (proj1 Hs1))).
  apply legacy_start_post; try done; [cbn [distance]; lia|..].
  - eapply legacy_flight; [|exact Hlg]. intros R f. by apply close_gate_steps.
  - destruct Hlg as [[before Hb] _]. apply (startable_step _ step _ Hb); [set_solver| |].
    + intros d Hin. rewrite (settles_done _ _ d Hs1). by apply Hd.
    + unfold gate_closed. rewrite Ha. destruct Hw as [Hw|Hw]; [|by rewrite bool_decide_eq_false_2, andb_false_r by auto].
      pose proof (proj2 Hs1 Hw). congruence.
Qed.

(** The steps that remain once the first one is done. *)
Lemma legacy_next s s' step rest :
  input_ok i → legacy_ok i s step rest [ts_step_id step] →
  progress s s' (ts_step_id step) true →
  steps_ok i s' (id_set (map ts_step_id rest)) [].
Proof.
  intros Hok [[before Hb] [R S _ _]] [C _ _ _ D].
  assert (ts_step_id step ∉ map ts_step_id rest) as Hn.
  { pose proof (io_unique _ Hok) as Hu. rewrite Hb, map_app in Hu. apply NoDup_app in Hu as (_ & _ & Hu).
    by apply NoDup_cons in Hu as [Hu _]. }
  constructor; [| |constructor|by intros d ?%elem_of_nil].
  - intros d. pose proof (R d) as Rd. unfold id_set in *. rewrite elem_of_list_to_set in *. cbn in Rd.
    rewrite elem_of_cons in Rd. rewrite D. cbn. rewrite orb_false_iff, bool_decide_eq_false. split.
    + intros Hd. assert (d ∈ step_ids i ∧ done_step s d = false) as [? ?] by (apply Rd; by right).
      split_and!; [done..|]. by intros ->.
    + intros (Hi & Hds & Hne). assert (d = ts_step_id step ∨ d ∈ map ts_step_id rest) as [?|?]
        by by apply Rd. all: done.
  - intros d. rewrite C, S, D. cbn. rewrite orb_true_iff, bool_decide_eq_true, list_elem_of_singleton.
    split; [by left|intros [?|?%elem_of_nil]; done].
Qed.

Lemma legacy_head_post n s step rest :
  3 * len rest ≤ n → common i s → aw_open_gates s = [] →
  (∃ before, wi_steps i = before ++ step :: rest) → steps_ok i s (id_set (map ts_step_id rest)) [] →
  post i n (legacy_head rest s).
Proof.
  intros Hl Hcm Hg [before Hb] Hsk. unfold legacy_head. rewrite run_get. destruct rest as [|next rest].
  - apply leave_post; [done..|]. right. intros d Hd. destruct (done_step s d) eqn:Hn; [done|]. exfalso.
    assert (d ∈ id_set (map ts_step_id [])) as Hin by by apply (sk_remaining _ _ _ _ Hsk).
    by apply elem_of_empty in Hin.
  - destruct (stopped s) eqn:Hs; [apply leave_post; auto; unfold len in Hl; lia|]. apply post_intro; [done| |
        unfold len in *; cbn [distance length] in *; unfold len; lia]. split; [done|].
    constructor; [|done]. exists (before ++ [step]). by rewrite <- app_assoc.
Qed.

(** A result of the sequential scheduler. *)
Lemma legacy_record_facts s step result go s' :
  ts_step_id step ∈ start_ids (aw_calls s) → common i s → legacy_record step result s = (go, s') →
  common i s' ∧ aw_open_gates s' = aw_open_gates s ∧
  (if go then progress s s' (ts_step_id step) true else stopped s' = true).
Proof.
  intros Hd Hcm. unfold legacy_record. cbv zeta.
  destruct (spend_progress i (sr_attempt result) s (ts_step_id step) Hcm) as [Hcs Hps].
  set (s1 := spend_attempts (sr_attempt result) s) in *.
  assert (∀ reason s2, common i s2 → aw_open_gates s2 = aw_open_gates s →
      (false, _fail reason s2) = (go, s') →
      common i s' ∧ aw_open_gates s' = aw_open_gates s ∧
      (if go then progress s s' (ts_step_id step) true else stopped s' = true)) as Hfail.
  { intros reason s2 Hcm2 Hg2 [= <- <-]. split_and!; [by eapply common_settles; [apply settles_fail|]| |].
    - by rewrite (settles_gates _ _ (settles_fail reason s2)).
    - apply stopped_failed, fail_phase. }
  case_bool_decide as Hop; [by apply Hfail|].
  set (s2 := s1 <| aw_artifact_refs ::= _ |>). assert (common i s2) as Hcm2 by by apply common_refs.
  case_bool_decide as Hstat; [by apply Hfail|].
  set (s3 := s2 <| aw_completed_step_ids ::= _ |>).
  destruct (_within_limits (advance s3)) as [ok s4] eqn:Hl. pose proof (within_limits_run _ _ _ Hl) as [Hq Hp].
  assert (common i s3) as Hcm3 by by apply common_completed.
  assert (settles s3 s4) as Hs4.
  { split; [etransitivity; [apply quiet_advance|done]|]. intros Hs.
    destruct ok; [unfold stopped in *; by rewrite Hp|by apply stopped_failed]. }
  intros [= <- <-]. split_and!; [by eapply common_settles|by rewrite (settles_gates _ _ Hs4)|].
  destruct ok; [|by apply stopped_failed].
  apply (progress_trans s s1 s4 _ false true); [done|].
  apply (progress_trans s1 s3 s4 _ true false); [|by apply progress_settles].
  constructor; try done. intros x. unfold done_step, completed, failed. cbn.
  rewrite (bool_decide_ext (x ∈ aw_completed_step_ids s ++ [ts_step_id step])
      (x ∈ aw_completed_step_ids s ∨ x = ts_step_id step)) by set_solver.
  rewrite bool_decide_or. by destruct (bool_decide _), (bool_decide _), (bool_decide _).
Qed.

Lemma legacy_ended_post s step rest reply :
  common i s → main_inv i s (LegacyAwaiting step rest) →
  post i (distance i s (LegacyAwaiting step rest) - 1) (legacy_ended step rest reply s).
Proof.
  intros Hcm [Hg Hlg]. assert (0 ≤ distance i s (LegacyAwaiting step rest) - 1) as Hn
    by (cbn [distance]; unfold len; lia). unfold legacy_ended. rewrite run_modify.
  set (s1 := s <| aw_active_activity := None |>). assert (common i s1) as Hcm1 by by apply common_active_one.
  assert (∀ s2, common i s2 → aw_phase s2 = CANCELLED ∨ aw_phase s2 = FAILED →
      post i (distance i s (LegacyAwaiting step rest) - 1) (leave s2)) as Hleave
    by (intros s2 ? Hp; apply leave_post; [done..|left; by apply stopped_spec]).
  destruct reply as [raw| |]; [| |by split].
  - destruct (activity_result_from_mapping raw) as [result|e].
    + rewrite run_get. destruct (legacy_record step result s1) as [go s2] eqn:Hl.
      unfold mbind at 1, action_bind at 1, put.
      destruct (legacy_record_facts s1 step result go s2) as (Hcm2 & Hg2 & Hgo); [|done..|].
      { destruct Hlg as [_ [_ S _ _]]. apply S. right. by left. }
      destruct go; [|by apply leave_post; [done..|left]].
      apply (legacy_head_post _ s2 step); [cbn [distance]; lia|done|by rewrite Hg2|apply (lg_suffix _ _ _ _ _ Hlg)|].
      apply (legacy_next s1 s2 step); [apply (cm_ok _ _ Hcm)| |done].
      eapply legacy_flight; [|exact Hlg]. intros R f. by apply steps_ok_ext.
    + destruct e; try by split. rewrite run_modify.
      apply Hleave; [by eapply common_settles; [apply settles_fail|]|right; apply fail_phase].
  - rewrite run_modify. set (s2 := s1 <| aw_retry_budget_remaining := 0 |>).
    assert (common i s2) as Hcm2 by (apply (common_retry i s1 (λ _, 0)); [lia|done]). cbv zeta.
    destruct (bool_decide_reflect (aw_phase s2 = CANCELLED)); [apply Hleave; [done|by left]|].
    apply Hleave; [by eapply common_settles; [apply settles_fail|]|right; apply fail_phase].
Qed.
End moves.

(** ** Starting, and every run *)

(** Before [run] starts, handlers leave notes only. *)
Definition fresh (s : AnantaWorkflow) : Prop := noted new_workflow s.

Lemma fresh_calls s : fresh s → Forall is_answer (aw_calls s).
Proof. intros [_ (new & -> & Hn)]. done. Qed.

(** Nothing was started and no command applied. *)
Definition inert (s : AnantaWorkflow) : Prop := Forall is_answer (aw_calls s).

Lemma inert_calls_ok i s : inert s → calls_ok i (aw_calls s).
Proof.
  intros Hs. change (calls_ok i ([] ++ aw_calls s)).
  apply calls_ok_other; [apply calls_ok_nil|by apply answers_other].
Qed.

Section runs.
Context `{Digest} (normalize_endpoint : string → string → option string).
Context (patched : string → bool) (info_workflow_id : string) (record_compatibility_patch : bool).

Notation move := (main_move normalize_endpoint patched info_workflow_id record_compatibility_patch).
Notation run_event' := (run_event normalize_endpoint patched info_workflow_id record_compatibility_patch).
Notation reachable' :=
  (reachable_run normalize_endpoint patched info_workflow_id record_compatibility_patch).

Lemma take_input_common i s :
  fresh s → input_ok i →
  common i (take_input patched record_compatibility_patch i (s <| aw_input := Some i |>)).
Proof.
  intros Hf Hok. pose proof (fresh_calls s Hf) as Hcalls.
  assert (∀ {T} (f : AnantaWorkflow → T), (∀ s, f (erase_notes s) = f s) → f s = f new_workflow) as Hn
    by (intros T f Hx; by apply (noted_field f)).
  unfold take_input. set (s1 := s <| aw_input := _ |> <| aw_command_authority_enabled := _ |>
      <| aw_parameters := _ |> <| aw_effective_plan_hash := _ |> <| aw_retry_budget_remaining := _ |>
      <| aw_retry_budget_maximum := _ |>).
  assert (_transition RUNNING s1 = note_events 1 (advance (s1 <| aw_phase := RUNNING |>))) as ->.
  { unfold _transition. rewrite bool_decide_eq_false_2; [done|].
    change (aw_phase s1) with (aw_phase s). by rewrite (Hn _ aw_phase). }
  constructor; try done.
  - destruct (io_retry _ Hok) as (maximum & _ & Hr & _). cbn. lia.
  - by apply inert_calls_ok.
  - intros c r Hin. apply (proj1 (Forall_forall _ _) Hcalls) in Hin. done.
  - intros g. change (g ∈ aw_approved_gates s → approved_in (aw_calls s) g).
    rewrite (Hn _ aw_approved_gates) by done. by intros ?%elem_of_empty.
  - intros (c & r & Hin & _). by apply (proj1 (Forall_forall _ _) Hcalls) in Hin.
  - intros d Hd. exfalso. change (completed s d = true ∨ failed s d = true) in Hd.
    unfold completed, failed in Hd. rewrite (Hn _ aw_completed_step_ids), (Hn _ aw_failed_step_ids) in Hd by done.
    rewrite !bool_decide_eq_true in Hd. cbn in Hd. set_solver.
  - intros d Hd. exfalso. change (failed s d = true) in Hd. unfold failed in Hd.
    rewrite (Hn _ aw_failed_step_ids), bool_decide_eq_true in Hd by done. cbn in Hd. set_solver.
  - left. change (aw_open_gates s = []). by rewrite (Hn _ aw_open_gates).
  - intros step activity_id request options Hin. by apply (proj1 (Forall_forall _ _) Hcalls) in Hin.
Qed.

(** Nothing is done at the start. *)
Lemma take_input_steps i s :
  fresh s →
  steps_ok i (take_input patched record_compatibility_patch i (s <| aw_input := Some i |>))
  (id_set (step_ids i)) [] ∧
  aw_open_gates (take_input patched record_compatibility_patch i (s <| aw_input := Some i |>)) = [].
Proof.
  intros Hf. pose proof (fresh_calls s Hf) as Hcalls.
  assert (∀ {T} (f : AnantaWorkflow → T), (∀ s, f (erase_notes s) = f s) → f s = f new_workflow) as Hn
    by (intros T f Hx; by apply (noted_field f)).
  unfold take_input. set (s1 := s <| aw_input := _ |> <| aw_command_authority_enabled := _ |>
      <| aw_parameters := _ |> <| aw_effective_plan_hash := _ |> <| aw_retry_budget_remaining := _ |>
      <| aw_retry_budget_maximum := _ |>).
  pose proof (quiet_transition RUNNING s1) as Hq.
  assert (∀ d, done_step (_transition RUNNING s1) d = false) as Hd.
  { intros d. apply not_true_iff_false. rewrite done_step_spec.
    rewrite (quiet_field aw_completed_step_ids _ _ (λ _, eq_refl) Hq).
    rewrite (quiet_field aw_failed_step_ids _ _ (λ _, eq_refl) Hq).
    change (aw_completed_step_ids s1) with (aw_completed_step_ids s).
    change (aw_failed_step_ids s1) with (aw_failed_step_ids s).
    rewrite (Hn _ aw_completed_step_ids), (Hn _ aw_failed_step_ids) by done. cbn. set_solver. }
  split.
  - constructor; [| |constructor|by intros d ?%elem_of_nil].
    + intros d. rewrite Hd. unfold id_set. rewrite elem_of_list_to_set. tauto.
    + intros d. rewrite Hd, (quiet_calls _ _ Hq). change (aw_calls s1) with (aw_calls s).
      unfold start_ids. rewrite other_starts by by apply answers_other. cbn. set_solver.
  - rewrite (quiet_field aw_open_gates _ _ (λ _, eq_refl) Hq).
    change (aw_open_gates s1) with (aw_open_gates s). by rewrite (Hn _ aw_open_gates).
Qed.

(** A run that never took its input. *)
Definition refused (s : AnantaWorkflow) (m : main_state) : Prop :=
  ended m = true ∧ inert s ∧
  ∀ status, m = Returned status → aw_phase s = FAILED ∧ status = status_to_dict (_status s).

Lemma refused_returned s : inert s → aw_phase s = FAILED → refused s (Returned (status_to_dict (_status s))).
Proof. intros Hi Hp. split_and!; [done|done|]. by intros status [= <-]. Qed.

Lemma run_started_post raw s out s' :
  fresh s →
  run_started normalize_endpoint patched info_workflow_id record_compatibility_patch raw s = (out, s') →
  (∃ i, common i s' ∧ match out with Ok m => main_inv i s' m | Err _ => True end) ∨
  match out with Ok m => refused s' m | Err _ => inert s' end.
Proof.
  intros Hf. pose proof (fresh_calls s Hf) as Hcalls. unfold run_started.
  destruct (input_from_mapping normalize_endpoint "" raw) as [i|e] eqn:Hi.
  - apply input_loaded in Hi. rewrite run_modify. case_bool_decide as Hw.
    + rewrite run_modify. intros [= <- <-]. right. by apply refused_returned.
    + rewrite run_modify. pose proof (take_input_common i s Hf Hi) as Hcm.
      destruct (take_input_steps i s Hf) as [Hsk Hg].
      set (s1 := take_input _ _ i _) in *. intros Hrun. left. exists i.
      assert (∃ n, post i n (out, s')) as [n [Hp1 Hp2]];
        [|split; [done|by destruct out; [destruct Hp2|]]].
      rewrite <- Hrun. case_match.
      * eexists. apply loop_head_post; [| |done|right; split; [done|reflexivity]]; [|done].
        cbn [distance]. unfold len. lia.
      * unfold legacy_head. rewrite run_get. destruct (wi_steps i) as [|step rest] eqn:Hsteps.
        { pose proof (io_length _ Hi) as Hl. rewrite Hsteps in Hl. cbn in Hl. lia. }
        destruct (stopped s1) eqn:Hs; [exists 0; apply leave_post; auto; done|].
        eexists. apply post_intro; [done| |reflexivity]. split; [done|].
        constructor; [by exists []|]. unfold step_ids in Hsk. by rewrite Hsteps in Hsk.
  - destruct e; try (intros [= <- <-]; right; exact Hcalls).
    rewrite run_modify. intros [= <- <-]. right. by apply refused_returned.
Qed.

(** The invariant of a run. *)
Definition run_inv (r : Run) : Prop :=
  match run_main r with
  | NotStarted => fresh (run_self r)
  | m => (∃ i, common i (run_self r) ∧ main_inv i (run_self r) m) ∨ refused (run_self r) m
  end.

(** A gate that no longer waits. *)
Lemma wait_over s step :
  bool_decide (ts_step_id step ∉ aw_approved_gates s) && negb (stopped s) = false →
  stopped s = true ∨ ts_step_id step ∈ aw_approved_gates s.
Proof.
  intros [Hw|Hw]%andb_false_iff; [right|left].
  - by apply bool_decide_eq_false, dec_stable in Hw.
  - by apply negb_false_iff in Hw.
Qed.

Lemma main_move_post i s m e move_ :
  common i s → main_inv i s m → m ≠ NotStarted → move s m e = Some move_ →
  post i (distance i s m - 1) (move_ s).
Proof.
  intros Hcm Hm Hn Hmove. destruct e as [raw| |reply|raw replaying now|k reply now|raw expected now], m;
    cbn in Hmove; try done; try (case_match; [done|]); injection Hmove as <-.
  - by apply dag_turn_post.
  - apply gate_passed_post; [done..|by apply wait_over].
  - by apply legacy_turn_post.
  - apply legacy_gate_post; [done..|by apply wait_over].
  - by apply activity_ended_post.
  - by apply legacy_ended_post.
Qed.

Lemma run_event_inv e r : run_inv r → run_inv (run_event' e r).
Proof.
  intros Hr. unfold run_event. destruct (ended (run_main r)) eqn:He; [done|].
  assert (run_main r = NotStarted ∧ fresh (run_self r) ∨
      run_main r ≠ NotStarted ∧ ∃ i, common i (run_self r) ∧ main_inv i (run_self r) (run_main r)) as Hcase.
  { unfold run_inv, refused in Hr. destruct (run_main r); try done; [by left|..];
      right; (split; [done|]); destruct Hr as [|[? _]]; done. }
  destruct (move (run_self r) (run_main r) e) as [m|] eqn:Hm.
  - destruct (m (run_self r)) as [out s'] eqn:Hout. destruct Hcase as [[Hn Hf]|[Hn (i & Hcm & Hi)]].
    + rewrite Hn in Hm. destruct e; try done. injection Hm as <-.
      pose proof (run_started_post _ _ _ _ Hf Hout) as Hp.
      destruct out as [m|ex]; unfold run_inv; cbn [run_main run_self].
      * destruct Hp as [(i & Hcm & Hi)|Hp]; [|by destruct m; try (by right); destruct Hp].
        destruct m; try done; left; by exists i.
      * destruct Hp as [(i & Hcm & _)|Hp]; [left; by exists i|by right].
    + pose proof (main_move_post _ _ _ _ _ Hcm Hi Hn Hm) as Hp. rewrite Hout in Hp.
      destruct Hp as [Hcm' Hi']. cbn [fst snd] in *.
      destruct out as [m'|ex]; unfold run_inv; cbn [run_main run_self]; [|left; by exists i].
      destruct Hi' as [Hi' _]. destruct m'; try done; left; by exists i.
  - destruct (handler_move patched (run_updates r) e) as [h|] eqn:Hh; [|done].
    destruct (h (run_self r)) as [out s'] eqn:Hout.
    pose proof (handler_move_effect patched _ _ _ _ _ _ Hh Hout) as Heff.
    destruct Hcase as [[Hn Hf]|[Hn (i & Hcm & Hi)]].
    + assert (fresh s') as Hf'.
      { destruct Heff as [s1 Hnote|c now i current rr s1 s2 Hv _ _ _]; [by eapply noted_trans|].
        pose proof (vd_input _ _ _ _ _ Hv) as Hin.
        by rewrite (noted_field aw_input _ _ (λ _, eq_refl) Hf) in Hin. }
      destruct out as [u|ex]; unfold run_inv; cbn [run_main run_self]; [by rewrite Hn|].
      right. split_and!; [done|by apply fresh_calls|done].
    + pose proof (common_handler _ _ _ Heff Hcm) as Hcm'.
      destruct out as [u|ex]; unfold run_inv; cbn [run_main run_self].
      * apply (main_inv_shared i _ s') in Hi; [|done|by apply shared_handler].
        destruct (run_main r); try done; left; by exists i.
      * left. by exists i.
Qed.

Lemma reachable_inv r : reachable' r → run_inv r.
Proof.
  apply reachable_invariant; [apply noted_refl|]. intros e s. apply run_event_inv.
Qed.
End runs.
