(* ===== verification/WorkflowAuthority.v ===== *)
(** * Commands need the hub's authority

    In a workflow that records the patches of the command authority, nothing but
    the accepting reply of the authority applies a command: the coroutine
    [run], direct signals and every other handler leave the applied commands
    alone. *)
From S2P Require Import Prelude Records PyStr PyVal Digest Serialization Plan Envelope CommandContract TemporalContracts TemporalLaws Reasons RetryProfiles Workflow WorkflowCommands WorkflowRun WorkflowFrame WorkflowInv WorkflowSteps WorkflowDistance WorkflowMoves.

Definition applied_of (c : engine_call) : option (WorkflowCommand * WorkflowCommandResult) :=
  match c with CommandApplied c result => Some (c, result) | _ => None end.

(** The commands that were applied, in order. *)
Definition commands (s : AnantaWorkflow) : list (WorkflowCommand * WorkflowCommandResult) :=
  omap applied_of (aw_calls s).

Lemma commands_spec s c result : CommandApplied c result ∈ aw_calls s ↔ (c, result) ∈ commands s.
Proof.
  unfold commands. rewrite list_elem_of_omap. split; [intros Hin; by eexists|].
  intros (x & Hx & Hc). destruct x; try done. by injection Hc as -> ->.
Qed.

(** Neither the commands nor the authority of the workflow changed. *)
Record uncommanded (s s' : AnantaWorkflow) : Prop := {
  uc_commands : commands s' = commands s;
  uc_authority : aw_command_authority_enabled s' = aw_command_authority_enabled s;
}.

#[global] Instance uncommanded_preorder : PreOrder uncommanded.
Proof. split; [done|]. intros s1 s2 s3 [] []. constructor; congruence. Qed.

Lemma uncommanded_same s s' :
  aw_calls s' = aw_calls s → aw_command_authority_enabled s' = aw_command_authority_enabled s →
  uncommanded s s'.
Proof. intros Hc Ha. constructor; [unfold commands; by rewrite Hc|done]. Qed.

Lemma uncommanded_quiet s s' : quiet s s' → uncommanded s s'.
Proof.
  intros Hq. apply uncommanded_same; [by apply quiet_calls|].
  by apply (quiet_field aw_command_authority_enabled _ _ (λ _, eq_refl) Hq).
Qed.

Lemma uncommanded_call c s : applied_of c = None → uncommanded s (call c s).
Proof.
  intros Hc. constructor; [|done]. unfold commands. cbn. rewrite omap_app. cbn. rewrite Hc.
  apply app_nil_r.
Qed.

Lemma uncommanded_noted s s' : noted s s' → uncommanded s s'.
Proof.
  intros Hn. constructor; [|by apply (noted_field aw_command_authority_enabled _ _ (λ _, eq_refl) Hn)].
  destruct (nt_calls _ _ Hn) as (new & Hc & Ha). unfold commands. rewrite Hc, omap_app.
  assert (omap applied_of new = []) as ->; [|apply app_nil_r].
  clear Hc. induction Ha as [|x l Hx _ IH]; [done|]. by destruct x.
Qed.

(** ** The coroutine applies no command *)

Record keeps_commands {A} (m : action AnantaWorkflow A) : Prop := {
  keeps_run : ∀ s, uncommanded s (m s).2;
}.

Lemma keeps_bind {A B} (m : action AnantaWorkflow A) (f : A → action AnantaWorkflow B) :
  keeps_commands m → (∀ a, keeps_commands (f a)) → keeps_commands (m ≫= f).
Proof.
  intros [Hm] Hf. constructor. intros s. unfold mbind, action_bind. pose proof (Hm s) as Hs.
  destruct (m s) as [[a|e] s1]; [|exact Hs]. etransitivity; [exact Hs|apply Hf].
Qed.

Lemma keeps_ret {A} (a : A) : keeps_commands (mret a : action AnantaWorkflow A).
Proof. done. Qed.
Lemma keeps_throw {A} (e : exn) : keeps_commands (mthrow e : action AnantaWorkflow A).
Proof. done. Qed.
Lemma keeps_get : keeps_commands (get : action AnantaWorkflow AnantaWorkflow).
Proof. done. Qed.
Lemma keeps_lift {A} (r : result A) : keeps_commands (lift r : action AnantaWorkflow A).
Proof. done. Qed.
Lemma keeps_modify (f : AnantaWorkflow → AnantaWorkflow) :
  (∀ s, uncommanded s (f s)) → keeps_commands (modify f).
Proof. intros Hf. constructor. intros s. apply Hf. Qed.

(** The state is read and replaced. *)
Lemma keeps_get_bind {A} (f : AnantaWorkflow → action AnantaWorkflow A) :
  (∀ s, uncommanded s (f s s).2) → keeps_commands (get ≫= f).
Proof. intros Hf. constructor. intros s. rewrite run_get. apply Hf. Qed.

Lemma uncommanded_limits s : uncommanded s (_within_limits s).2.
Proof. apply uncommanded_quiet, quiet_limits. Qed.

(** The coroutine looks at its limits and goes on. *)
Lemma keeps_limits {A} (f : bool → AnantaWorkflow → action AnantaWorkflow A) :
  (∀ ok s, keeps_commands (f ok s)) →
  keeps_commands (s ← get; let '(ok, s) := _within_limits s in put s ;; f ok s).
Proof.
  intros Hf. apply keeps_get_bind. intros s. pose proof (uncommanded_limits s) as Hl.
  destruct (_within_limits s) as [ok s1]. unfold mbind, action_bind, put.
  etransitivity; [exact Hl|apply (Hf ok)].
Qed.

Create HintDb uncommanded.
#[export] Hint Resolve keeps_ret keeps_throw keeps_get keeps_lift : uncommanded.

Ltac keeps :=
  repeat first
    [ match goal with |- ∀ _, _ => intro end
    | solve [auto with uncommanded]
    | apply keeps_limits
    | apply keeps_bind
    | apply keeps_modify
    | apply uncommanded_quiet; solve [auto with workflow]
    | apply uncommanded_same; reflexivity
    | case_match ].

Lemma keeps_the_input : keeps_commands the_input.
Proof. unfold the_input. keeps. Qed.

Lemma uncommanded_fail reason s : uncommanded s (_fail reason s).
Proof. keeps. Qed.
Lemma uncommanded_transition p s : uncommanded s (_transition p s).
Proof. keeps. Qed.

#[export] Hint Resolve keeps_the_input uncommanded_fail uncommanded_transition : uncommanded.

(** Changing fields first. *)
Lemma uncommanded_set s s' s'' :
  uncommanded s' s'' → aw_calls s' = aw_calls s →
  aw_command_authority_enabled s' = aw_command_authority_enabled s → uncommanded s s''.
Proof. intros Hs Hc Ha. transitivity s'; [by apply uncommanded_same|done]. Qed.

Lemma keeps_leave : keeps_commands leave.
Proof.
  unfold leave, return_status. keeps. unfold close. cbv zeta.
  case_match; [by apply uncommanded_same|]. by eapply uncommanded_set; [apply uncommanded_transition|..].
Qed.

Lemma uncommanded_close_gate s : uncommanded s (close_gate s).
Proof.
  unfold close_gate. cbv zeta.
  case_match; [by apply uncommanded_same|]. by eapply uncommanded_set; [apply uncommanded_transition|..].
Qed.

Lemma uncommanded_open_gate step s : uncommanded s (open_gate step s).
Proof. by eapply uncommanded_set; [apply uncommanded_transition|..]. Qed.

#[export] Hint Resolve keeps_leave uncommanded_close_gate uncommanded_open_gate : uncommanded.

Lemma keeps_loop_head remaining : keeps_commands (loop_head remaining).
Proof. unfold loop_head. keeps. Qed.
Lemma keeps_legacy_head steps : keeps_commands (legacy_head steps).
Proof. unfold legacy_head. keeps. Qed.

#[export] Hint Resolve keeps_loop_head keeps_legacy_head : uncommanded.

Section moves.
Context `{Digest} (normalize_endpoint : string → string → option string).

Lemma start_call_started s step request c :
  start_call normalize_endpoint s step request = Ok c → applied_of c = None.
Proof.
  unfold start_call. intros (r & _ & Hc)%result_bind_Ok. apply result_bind_Ok in Hc as (p & _ & Hc).
  apply result_bind_Ok in Hc as (o & _ & Hc). by apply result_bind_Ok in Hc as (d & _ & [= <-]).
Qed.

(** Starting an activity and noting it. *)
Lemma keeps_start {A} s0 step request (note : AnantaWorkflow → AnantaWorkflow)
  (f : action AnantaWorkflow A) :
  (∀ s, uncommanded s (note s)) → keeps_commands f →
  keeps_commands (started ← lift (start_call normalize_endpoint s0 step request);
    do (λ s, note (call started s)); f).
Proof.
  intros Hn [Hf]. constructor. intros s. unfold mbind at 1, action_bind at 1, lift.
  destruct (start_call _ s0 step _) as [c|e] eqn:Hc; [|done]. apply start_call_started in Hc.
  rewrite run_modify. etransitivity; [by apply uncommanded_call|]. etransitivity; [apply Hn|apply Hf].
Qed.

Lemma keeps_start_step i step : keeps_commands (start_step normalize_endpoint i step).
Proof.
  unfold start_step. apply keeps_bind; [keeps|]. intros _. apply keeps_limits. intros [] s; [|keeps].
  apply (keeps_start s step _ (λ s', s' <| aw_active_activities ::= _ |>)); [|keeps].
  intros s'. by apply uncommanded_same.
Qed.

Lemma keeps_legacy_start step rest : keeps_commands (legacy_start normalize_endpoint step rest).
Proof.
  unfold legacy_start. apply keeps_bind; [keeps|]. intros i. apply keeps_bind; [keeps|]. intros s.
  apply (keeps_start s step _ (λ s', s' <| aw_active_activity := _ |>)); [|keeps].
  intros s'. by apply uncommanded_same.
Qed.

#[local] Hint Resolve keeps_start_step keeps_legacy_start : uncommanded.

Lemma keeps_start_batch i batch : keeps_commands (start_batch normalize_endpoint i batch).
Proof. induction batch as [|step batch IH]; cbn [start_batch]; keeps. Qed.

#[local] Hint Resolve keeps_start_batch : uncommanded.

Lemma uncommanded_complete step result s : uncommanded s (complete_step step result s).
Proof.
  unfold complete_step. cbv zeta. etransitivity; [|apply uncommanded_quiet, quiet_limits].
  etransitivity; [|apply uncommanded_quiet, quiet_advance]. by apply uncommanded_same.
Qed.

Lemma uncommanded_note i step reason acc : uncommanded acc.2 (note_failure i step reason acc).2.
Proof.
  unfold note_failure, _record_omitted_failure. cbv zeta. case_match; [|done]. cbn [snd].
  etransitivity; [|apply uncommanded_quiet, quiet_limits].
  etransitivity; [|apply uncommanded_quiet, quiet_events].
  etransitivity; [|apply uncommanded_quiet, quiet_advance]. by apply uncommanded_same.
Qed.

Lemma uncommanded_settle i acc o : uncommanded acc.2 (settle i acc o).2.
Proof.
  destruct acc as [reason s], o as [step [result|error]]; unfold settle; cbn [fst snd].
  - destruct (_record_activity_result step result s) as [failure s1] eqn:Hr.
    assert (uncommanded s s1) as Hs.
    { unfold _record_activity_result in Hr. cbv zeta in Hr. repeat case_bool_decide;
        injection Hr as _ <-; try by apply uncommanded_same.
      etransitivity; [|apply uncommanded_complete]. by apply uncommanded_same. }
    case_match; [|done]. etransitivity; [exact Hs|apply (uncommanded_note i step failure (reason, s1))].
  - eapply uncommanded_set; [apply (uncommanded_note i step error)|reflexivity..].
Qed.

Lemma uncommanded_settle_batch i outcomes s : uncommanded s (settle_batch i outcomes s).
Proof.
  unfold settle_batch. assert (uncommanded s (foldl (settle i) ("", s) outcomes).2) as Hs.
  { induction outcomes as [|o outcomes IH] using rev_ind; [done|]. rewrite foldl_app.
    etransitivity; [exact IH|apply uncommanded_settle]. }
  destruct (foldl _ _ _) as [reason s1]. cbn [snd] in Hs. etransitivity; [exact Hs|]. cbv zeta.
  set (s2 := if _ && _ then _ else _). assert (uncommanded s1 s2) as Hs2
    by (subst s2; case_match; [apply uncommanded_fail|done]).
  etransitivity; [exact Hs2|by apply uncommanded_same].
Qed.

#[local] Hint Resolve uncommanded_settle_batch : uncommanded.

Lemma keeps_batch_done remaining outcomes : keeps_commands (batch_done remaining outcomes).
Proof. unfold batch_done. keeps. Qed.

#[local] Hint Resolve keeps_batch_done : uncommanded.

Lemma keeps_execute_batch i remaining batch :
  keeps_commands (_execute_batch normalize_endpoint i remaining batch).
Proof. unfold _execute_batch. keeps. Qed.

#[local] Hint Resolve keeps_execute_batch : uncommanded.

Lemma keeps_dag_turn remaining : keeps_commands (dag_turn normalize_endpoint remaining).
Proof.
  unfold dag_turn. keeps. eapply uncommanded_set; [apply uncommanded_open_gate|reflexivity..].
Qed.

Lemma keeps_legacy_turn step rest : keeps_commands (legacy_turn normalize_endpoint step rest).
Proof. unfold legacy_turn. keeps. Qed.

Lemma uncommanded_legacy_record step result s : uncommanded s (legacy_record step result s).2.
Proof.
  unfold legacy_record. cbv zeta. repeat case_bool_decide; cbn [snd].
  - eapply uncommanded_set; [apply uncommanded_fail|reflexivity..].
  - eapply uncommanded_set; [apply uncommanded_fail|reflexivity..].
  - etransitivity; [|apply uncommanded_limits].
    etransitivity; [|apply uncommanded_quiet, quiet_advance]. by apply uncommanded_same.
Qed.

Lemma keeps_activity_ended remaining step started outcomes reply :
  keeps_commands (activity_ended remaining step started outcomes reply).
Proof. unfold activity_ended. keeps. Qed.

Lemma keeps_gate_passed remaining : keeps_commands (gate_passed remaining).
Proof. unfold gate_passed. keeps. Qed.

Lemma keeps_legacy_gate_passed step rest :
  keeps_commands (legacy_gate_passed normalize_endpoint step rest).
Proof. unfold legacy_gate_passed. keeps. Qed.

Lemma keeps_legacy_ended step rest reply : keeps_commands (legacy_ended step rest reply).
Proof.
  unfold legacy_ended. apply keeps_bind; [keeps|]. intros _. destruct reply as [raw| |]; [|keeps..].
  - destruct (activity_result_from_mapping raw) as [result|e]; [|keeps].
    apply keeps_get_bind. intros s. pose proof (uncommanded_legacy_record step result s) as Hr.
    destruct (legacy_record step result s) as [go s1]. unfold mbind, action_bind, put.
    etransitivity; [exact Hr|]. apply keeps_run. keeps.
  - etransitivity; [|apply uncommanded_fail]. by apply uncommanded_same.
Qed.
End moves.

(** ** The handlers *)

Section handlers.
Context `{Digest} (patched : string → bool).

Lemma uncommanded_effect s s' :
  handler_effect s s' → aw_command_authority_enabled s' = aw_command_authority_enabled s.
Proof.
  intros [s1 Hn|c now i current r s1 s2 _ _ Ha Hn]; [by apply uncommanded_noted|].
  rewrite (uc_authority _ _ (uncommanded_noted _ _ Hn)).
  by apply (applied_field aw_command_authority_enabled _ _ _ _ (λ _, eq_refl) Ha).
Qed.

Lemma applied_commands s c r s' : applied s c r s' → commands s' = commands s ++ [(c, r)].
Proof.
  intros Ha. destruct (ap_calls _ _ _ _ Ha) as (cs & Hcs & Hc). unfold commands. rewrite Hc, !omap_app.
  assert (omap applied_of cs = []) as ->; [|done].
  clear Hc. induction Hcs as [|x l Hx _ IH]; [done|]. by destruct x.
Qed.

Lemma authorized_commands c authority now s out s' :
  apply_authorized c authority now s = (out, s') →
  commands s' = commands s ∨ ∃ result, commands s' = commands s ++ [(c, result)] ∧
  _validate_command s c now = Ok tt ∧ aw_processed_command_ids s !! wk_command_id c = None.
Proof.
  unfold apply_authorized. rewrite run_get. destruct (aw_processed_command_ids s !! wk_command_id c).
  { unfold mbind, action_bind, lift. destruct (refuse_when _ _); intros [= <- <-]; by left. }
  unfold mbind at 1, action_bind at 1, lift.
  destruct (_validate_command s c now) as [[]|e] eqn:Hvalid; [|intros [= <- <-]; by left].
  pose proof Hvalid as (i & current & Hv)%validate_command_Ok.
  destruct (apply_command_run s c now i current Hv) as (r & s1 & Hr & Ha).
  rewrite (run_bind _ _ _ _ _ Hr), run_modify. intros [= <- <-]. right. exists r.
  split; [|done].
  rewrite <- (applied_commands _ _ _ _ Ha). apply (uc_commands s1), uncommanded_noted, noted_digest.
Qed.

Lemma answer_or_reject_commands raw m s out s1 out' s' :
  m s = (out, s1) → answer_or_reject raw m s = (out', s') → commands s' = commands s1.
Proof.
  unfold answer_or_reject. intros ->. assert (∀ result, commands (call (CommandAnswered result) s1) = commands s1) as Ha
    by (intros result; by apply (uc_commands s1), uncommanded_call).
  destruct out as [result|e]; [|destruct e]; intros [= <- <-]; done || apply Ha.
Qed.

(** Only an accepting reply about [c] applies it. *)
Lemma replied_commands raw c reply now s out s' :
  authority_replied raw c reply now s = (out, s') →
  commands s' = commands s ∨ ∃ value authority result,
  reply = Some value ∧ authority_decide c value = Ok (AuthorityAccepted authority) ∧
  commands s' = commands s ++ [(c, result)] ∧
  _validate_command s c now = Ok tt ∧ aw_processed_command_ids s !! wk_command_id c = None.
Proof.
  assert (∀ type, commands (call (UpdateFailed type) s) = commands s) as Hfailed
    by (intros type; by apply (uc_commands s), uncommanded_call).
  assert (∀ e : exn, answer_or_reject raw (mthrow e) s = (out, s') → commands s' = commands s) as Hthrow.
  { intros e Ho. eapply answer_or_reject_commands; [|exact Ho]. reflexivity. }
  unfold authority_replied. destruct reply as [value|]; [|intros [= <- <-]; left; apply Hfailed].
  destruct (authority_decide c value) as [[authority|code|type]|e] eqn:Hd;
    [|intros Ho; left; by eapply Hthrow|intros [= <- <-]; left; apply Hfailed|intros Ho; left; by eapply Hthrow].
  destruct (apply_authorized c authority now s) as [out1 s1] eqn:Hs. intros Ho.
  rewrite (answer_or_reject_commands _ _ _ _ _ _ _ Hs Ho).
  apply authorized_commands in Hs as [Hs|(result & Hs & ? & ?)]; [by left|right].
  by exists value, authority, result.
Qed.

(** What an accepting reply says. *)
Lemma decide_accepted c value authority :
  authority_decide c value = Ok (AuthorityAccepted authority) →
  authority_from_mapping value = Ok authority ∧ ca_accepted authority = true ∧
  ca_command_id authority = wk_command_id c ∧ payload_digest_of c = Ok (ca_payload_digest authority) ∧
  ca_signature_algorithm authority = str_or (wk_signature_algorithm c) "ed25519" ∧
  ca_key_id authority = wk_key_id c.
Proof.
  unfold authority_decide. destruct (authority_from_mapping value) as [r|e]; [|by destruct e].
  intros (bound & Hb & Hd)%result_bind_Ok. destruct bound; [|done]. cbn [negb] in Hd.
  destruct (ca_accepted r) eqn:Ha; [|done]. injection Hd as <-.
  unfold authority_bound in Hb. case_bool_decide as Hid; [done|].
  apply result_bind_Ok in Hb as (digest & Hp & Hb). injection Hb as Hb.
  rewrite !andb_true_iff, !bool_decide_eq_true in Hb. destruct Hb as [[Hdig ?] ?].
  split_and!; try done. by rewrite Hdig.
Qed.
End handlers.

Section runs.
Context `{Digest} (normalize_endpoint : string → string → option string).
Context (patched : string → bool) (info_workflow_id : string).

Notation move := (main_move normalize_endpoint patched info_workflow_id true).
Notation event_run := (run_event normalize_endpoint patched info_workflow_id true).

Lemma main_move_commands s m e move_ : move s m e = Some move_ → m ≠ NotStarted → keeps_commands move_.
Proof.
  intros Hm Hn. destruct e as [raw| |reply|raw replaying now|k reply now|raw expected now], m;
    cbn in Hm; try done; try (case_match; [done|]); injection Hm as <-;
    auto using keeps_dag_turn, keeps_gate_passed, keeps_legacy_turn, keeps_legacy_gate_passed,
    keeps_activity_ended, keeps_legacy_ended.
Qed.

(** The workflow asks the authority from its start on. *)
Lemma run_started_authority raw s :
  patched COMMAND_AUTHORITY_PATCH_ID = true →
  commands (run_started normalize_endpoint patched info_workflow_id true raw s).2 = commands s ∧
  ∀ m, (run_started normalize_endpoint patched info_workflow_id true raw s).1 = Ok m → ended m = false →
  aw_command_authority_enabled (run_started normalize_endpoint patched info_workflow_id true raw s).2 = true.
Proof.
  intros Hp. unfold run_started. destruct (input_from_mapping _ _ raw) as [i|e].
  2: { destruct e; (split; [done|]); intros m Hm He; try done. by injection Hm as <-. }
  rewrite !run_modify. case_bool_decide.
  { split; [done|]. intros m Hm He. by injection Hm as <-. }
  rewrite !run_modify.
  set (s1 := take_input _ _ _ _). assert (commands s1 = commands s ∧ aw_command_authority_enabled s1 = true) as [Hc Ha].
  { subst s1. unfold take_input. set (s1 := s <| aw_input := _ |> <| aw_command_authority_enabled := _ |>
        <| aw_parameters := _ |> <| aw_effective_plan_hash := _ |> <| aw_retry_budget_remaining := _ |>
        <| aw_retry_budget_maximum := _ |>).
    destruct (uncommanded_transition RUNNING s1) as [-> ->]. by split. }
  assert (∀ m : action AnantaWorkflow main_state, keeps_commands m →
      commands (m s1).2 = commands s ∧ aw_command_authority_enabled (m s1).2 = true) as Hk.
  { intros m [Hm]. destruct (Hm s1) as [-> ->]. by split. }
  case_match.
  - destruct (Hk _ (keeps_loop_head (id_set (map ts_step_id (wi_steps i))))). by split.
  - destruct (Hk _ (keeps_legacy_head (wi_steps i))). by split.
Qed.

(** The authority is asked once the coroutine started, and until it ended. *)
Definition authority_inv (r : Run) : Prop :=
  run_main r = NotStarted ∧ fresh (run_self r) ∨
  ended (run_main r) = true ∨ aw_command_authority_enabled (run_self r) = true.

Context (authority_patched : patched COMMAND_AUTHORITY_PATCH_ID = true).
Context (signed_patched : patched HUB_SIGNED_COMMAND_PATCH_ID = true).

(** The event is an accepting reply of the authority about the command [c], which
    is valid in the state of the workflow and new to it. *)
Definition authorizes (e : event) (r : Run) (c : WorkflowCommand) : Prop :=
  ∃ k value now raw authority, e = AuthorityReplied k (Some value) now ∧
  run_updates r !! k = Some (raw, c) ∧ authority_from_mapping value = Ok authority ∧
  ca_accepted authority = true ∧ ca_command_id authority = wk_command_id c ∧
  payload_digest_of c = Ok (ca_payload_digest authority) ∧
  ca_signature_algorithm authority = str_or (wk_signature_algorithm c) "ed25519" ∧
  ca_key_id authority = wk_key_id c ∧
  _validate_command (run_self r) c now = Ok tt ∧
  aw_processed_command_ids (run_self r) !! wk_command_id c = None.

Lemma handler_commands r e h out s' :
  handler_move patched (run_updates r) e = Some h → h (run_self r) = (out, s') →
  aw_command_authority_enabled (run_self r) = true →
  commands s' = commands (run_self r) ∨
  ∃ c result, commands s' = commands (run_self r) ++ [(c, result)] ∧ authorizes e r c.
Proof.
  intros Hh Hs Ha. destruct e as [| | |raw replaying now|k reply now|raw expected now]; try done; cbn in Hh.
  - injection Hh as <-. left. revert Hs. unfold command_received, mbind at 1, action_bind at 1. rewrite Ha.
    destruct (neutral_from_mapping raw) as [c|e]; [by intros [= <- <-]|].
    destruct e; intros [= <- <-]; try done. by apply (uc_commands (run_self r)), uncommanded_call.
  - destruct (run_updates r !! k) as [[raw c]|] eqn:Hk; [|done]. injection Hh as <-.
    unfold mbind, action_bind in Hs.
    destruct (authority_replied raw c reply now (run_self r)) as [out1 s1] eqn:Hr.
    assert (s' = s1) as -> by (by destruct out1; injection Hs).
    apply replied_commands in Hr as [Hr|(value & authority & result & -> & Hd & Hc & ? & ?)]; [by left|right].
    exists c, result. split; [done|]. apply decide_accepted in Hd as (? & ? & ? & ? & ? & ?).
    by exists k, value, now, raw, authority.
  - injection Hh as <-. left. unfold _apply_signal, mbind, action_bind in Hs. rewrite signed_patched in Hs.
    injection Hs as _ <-. apply (uc_commands (run_self r)), uncommanded_noted, noted_reason.
Qed.

(** Before the start nothing is applied. *)
Lemma fresh_handler s s' : fresh s → handler_effect s s' → fresh s' ∧ commands s' = commands s.
Proof.
  intros Hf [s1 Hn|c now i current rr s1 s2 Hv _ _ _].
  - split; [by eapply noted_trans|by apply uc_commands, uncommanded_noted].
  - pose proof (vd_input _ _ _ _ _ Hv) as Hin. by rewrite (noted_field aw_input _ _ (λ _, eq_refl) Hf) in Hin.
Qed.

(** What an event does to the commands. *)
Definition step_commands (e : event) (r r' : Run) : Prop :=
  commands (run_self r') = commands (run_self r) ∨
  ∃ c result, commands (run_self r') = commands (run_self r) ++ [(c, result)] ∧ authorizes e r c.

Lemma move_authority r e m :
  authority_inv r → ended (run_main r) = false → move (run_self r) (run_main r) e = Some m →
  authority_inv (event_run e r) ∧ step_commands e r (event_run e r).
Proof.
  intros Hi He Hm. unfold run_event. rewrite He, Hm.
  assert (commands (m (run_self r)).2 = commands (run_self r) ∧
      ∀ x, (m (run_self r)).1 = Ok x → ended x = false →
      aw_command_authority_enabled (m (run_self r)).2 = true) as [Hc Ha].
  { assert (run_main r = NotStarted ∨ run_main r ≠ NotStarted) as [Hn|Hn] by (destruct (run_main r); auto).
    - rewrite Hn in Hm. destruct e; try done. injection Hm as <-. by apply run_started_authority.
    - destruct (main_move_commands _ _ _ _ Hm Hn) as [Hk]. destruct (Hk (run_self r)) as [Hc Ha].
      split; [done|]. intros x _ _. rewrite Ha. destruct Hi as [[? _]|[?|?]]; [done|congruence|done]. }
  destruct (m (run_self r)) as [[x|ex] s']; cbn [fst snd] in *; (split; [right|by left]); [|by left].
  cbn [run_main run_self]. destruct (ended x) eqn:Hex; [by left|right]. by apply (Ha x).
Qed.

Lemma event_authority r e :
  authority_inv r → authority_inv (event_run e r) ∧ step_commands e r (event_run e r).
Proof.
  intros Hi. destruct (ended (run_main r)) eqn:He.
  { unfold run_event. rewrite He. split; [done|by left]. }
  destruct (move (run_self r) (run_main r) e) as [m|] eqn:Hm; [by eapply move_authority|].
  unfold run_event. rewrite He, Hm.
  destruct (handler_move patched (run_updates r) e) as [h|] eqn:Hh; [|split; [done|by left]].
  destruct (h (run_self r)) as [out s'] eqn:Hout.
  pose proof (handler_move_effect patched _ _ _ _ _ _ Hh Hout) as Heff.
  destruct Hi as [[Hn Hf]|[Hi|Ha]]; [|congruence|].
  - destruct (fresh_handler _ _ Hf Heff) as [Hf' Hc].
    destruct out; (split; [|by left]); [by left|by right; left].
  - pose proof (handler_commands _ _ _ _ _ Hh Hout Ha) as Hc. apply uncommanded_effect in Heff.
    rewrite Ha in Heff. by destruct out; split; [right; right|..|right; left|].
Qed.

Lemma events_authority events : authority_inv (run_all_calls event_run events new_run).
Proof.
  induction events as [|e events IH] using rev_ind; [left; split; [done|apply noted_refl]|].
  unfold run_all_calls in *. rewrite foldl_app. by apply event_authority.
Qed.

(** C22: nothing but the hub's authority makes a workflow obey.  In a run of the
    current workflow class whose two command patches (signed commands, command
    authority) are set, as they are for every new run, and whatever events
    arrive, a command is only ever applied at the moment a reply of the authority
    arrives that parses, accepts, and names this very command by its identifier,
    the digest of its payload, its signature algorithm and its key; and at that
    moment the command passes [_validate_command] on the state the workflow has
    then, and was not applied before. *)
Theorem commands_authorized events c result :
  CommandApplied c result ∈ aw_calls (run_self (run_all_calls event_run events new_run)) →
  ∃ before e after, events = before ++ e :: after ∧
  authorizes e (run_all_calls event_run before new_run) c.
Proof.
  intros Hin%commands_spec. induction events as [|e events IH] using rev_ind; [by apply elem_of_nil in Hin|].
  unfold run_all_calls in Hin. rewrite foldl_app in Hin. cbn [foldl] in Hin.
  fold (run_all_calls event_run events new_run) in Hin.
  destruct (event_authority _ e (events_authority events)) as [_ [Hs|(c' & r' & Hs & Ha)]];
    rewrite Hs in Hin.
  - destruct (IH Hin) as (before & e' & after & -> & Ha). exists before, e', (after ++ [e]).
    by rewrite <- app_assoc.
  - apply elem_of_app in Hin as [Hin|[= -> ->]%list_elem_of_singleton].
    + destruct (IH Hin) as (before & e' & after & -> & Ha'). exists before, e', (after ++ [e]).
      by rewrite <- app_assoc.
    + by exists events, e, [].
Qed.
End runs.
