(* ===== verification/WorkflowLaws.v ===== *)
(** * What every run of a Temporal workflow satisfies

    The theorems quantify over all sequences of events: the replies of
    activities, the commands and signals that callers send at any moment, and
    the moments the engine wakes the workflow. *)
From S2P Require Import Prelude Records PyStr PyVal Digest Serialization Plan Envelope CommandContract TemporalContracts TemporalLaws RetryProfiles Workflow WorkflowCommands WorkflowRun WorkflowFrame WorkflowInv WorkflowSteps WorkflowDistance WorkflowMoves.

Section laws.
Context `{Digest} (normalize_endpoint : string → string → option string).
Context (patched : string → bool) (info_workflow_id : string) (record_compatibility_patch : bool).

Notation move := (main_move normalize_endpoint patched info_workflow_id record_compatibility_patch).
Notation event_run := (run_event normalize_endpoint patched info_workflow_id record_compatibility_patch).
Notation reached := (reachable_run normalize_endpoint patched info_workflow_id record_compatibility_patch).

(** A call that is no answer is the call of a run with a valid input. *)
Lemma call_sound r l1 c l2 :
  reached r → aw_calls (run_self r) = l1 ++ c :: l2 → ¬ is_answer c →
  ∃ i, common i (run_self r) ∧ call_ok i l1 c.
Proof.
  intros Hr%reachable_inv Hl Hc. unfold run_inv in Hr.
  assert (∀ l, Forall is_answer l → aw_calls (run_self r) = l → False) as Hinert.
  { intros l Hf Heq. rewrite Hl in Heq. subst l. apply Hc. rewrite Forall_forall in Hf. apply Hf. set_solver. }
  assert ((∃ i, common i (run_self r)) ∨ inert (run_self r)) as [[i Hcm]|Hi].
  { destruct (run_main r); [right; by apply fresh_calls|..];
      destruct Hr as [(i & Hcm & _)|(_ & Hi & _)]; [left; by exists i|by right|..];
      first [left; by exists i|by right]. }
  - exists i. split; [done|]. by apply (cm_calls _ _ Hcm _ _ _ Hl).
  - exfalso. by eapply Hinert.
Qed.

(** Every consumer of a failure that is left out is a merge that omits failures. *)
Lemma omitted_consumer i d x :
  _failure_is_omittable i d = true → x ∈ wi_steps i → d ∈ ts_depends_on x →
  ts_node_type x = "merge" ∧ ts_partial_failure x = "omit".
Proof.
  unfold _failure_is_omittable. intros [_ Ho]%andb_true_iff Hx Hdep. rewrite forallb_forall in Ho.
  assert (omits x = true) as Hom.
  { apply Ho, list_elem_of_In. unfold consumers. by apply list_elem_of_filter. }
  unfold omits in Hom. by apply andb_true_iff in Hom as [?%bool_decide_eq_true ?%bool_decide_eq_true].
Qed.

Lemma dependency_done i s step activity_id request options d :
  common i s → StartActivity step activity_id request options ∈ aw_calls s → step ∈ wi_steps i →
  d ∈ ts_depends_on step →
  d ∈ aw_completed_step_ids s ∨
  d ∈ (aw_failed_step_ids s).*1 ∧ ts_node_type step = "merge" ∧ ts_partial_failure step = "omit".
Proof.
  intros Hcm Hin Hi Hd. destruct (cm_ready _ _ Hcm _ _ _ _ Hin d Hd) as [Hc|Hf]; [left|right].
  - unfold completed in Hc. by apply bool_decide_eq_true in Hc.
  - split; [unfold failed in Hf; by apply bool_decide_eq_true in Hf|].
    eapply omitted_consumer; [|done..]. by apply (cm_omitted _ _ Hcm).
Qed.

(** C21: the scheduler starts only what may run, whatever commands, signals and
    replies arrive and when: an activity is started for a step of the input, at
    most once, after the activities of its dependencies, each of which has
    completed in every state from the start on, or has failed and the step is a
    merge that omits failures; for a gated step only after an approve command
    that names the step, this tenant, workflow, run, plan and policy was applied;
    never after a cancel or a reject was applied; and with at most one attempt
    more than the retry budget of the input, at most as many as the profile of
    its activity class has, and one only for a step that may not run twice. *)
Theorem starts_sound r l1 step activity_id request options l2 :
  reached r → aw_calls (run_self r) = l1 ++ StartActivity step activity_id request options :: l2 →
  ∃ i, aw_input (run_self r) = Some i ∧ step ∈ wi_steps i ∧ ts_step_id step ∉ start_ids l1 ∧
  (∀ d, d ∈ ts_depends_on step → d ∈ start_ids l1 ∧
    (d ∈ aw_completed_step_ids (run_self r) ∨
      d ∈ (aw_failed_step_ids (run_self r)).*1 ∧
      ts_node_type step = "merge" ∧ ts_partial_failure step = "omit")) ∧
  (ts_gate step = true → ∃ c result, CommandApplied c result ∈ l1 ∧ wk_command_type c = APPROVE ∧
    [wk_step_id c; wk_tenant_id c; wk_workflow_id c; wk_run_id c; wk_plan_hash c; wk_policy_version c] =
    [ts_step_id step; wi_tenant_id i; wi_workflow_id i; wi_run_id i; wi_plan_hash i; wi_policy_version i]) ∧
  (∀ c result, CommandApplied c result ∈ l1 → wk_command_type c ∉ [CANCEL; REJECT]) ∧
  1 ≤ op_maximum_attempts options ≤ 1 + wi_retry_budget_remaining i ∧
  op_maximum_attempts options ≤ rp_maximum_attempts (_PROFILES (ts_activity_class step)) ∧
  (ts_activity_class step = NON_IDEMPOTENT → op_maximum_attempts options = 1).
Proof.
  intros Hr Hl. destruct (call_sound r l1 _ l2 Hr Hl) as (i & Hcm & _ & Hs); [by intros []|].
  exists i. destruct Hs as [Hin Hon Hdep Hgate Hstop (Hb & Hrem & Hcls & Hone & _)].
  pose proof (cm_retry _ _ Hcm).
  split_and!; try done; try lia; [by apply (cm_input _ _ Hcm)|..].
  - intros d Hd. split; [by apply Hdep|]. eapply (dependency_done i); [done| |done..].
    rewrite Hl. apply elem_of_app. right. by left.
  - intros Hg. destruct (Hgate Hg) as (c & result & Hc & Ht & Hid). exists c, result.
    split_and!; [done..|]. apply list_elem_of_split in Hc as Hsplit. destruct Hsplit as (k1 & k2 & ->).
    rewrite <- app_assoc in Hl. pose proof (cm_calls _ _ Hcm _ _ _ Hl) as [Hbind _ _ _ _]. congruence.
  - intros c result Hc Ht. apply Hstop. by exists c, result.
Qed.

(** C23: commands are applied in a line: an applied command names this tenant,
    workflow, run, plan and policy, and the checkpoint of the revision it
    expects; it leads to a later revision, and the commands applied before it led
    to revisions no later than the one it expects, so no two commands are applied
    at one revision; no command identifier is applied twice; and retries and plan
    edits are never applied. *)
Theorem commands_linear r l1 c result l2 :
  reached r → aw_calls (run_self r) = l1 ++ CommandApplied c result :: l2 →
  ∃ i, aw_input (run_self r) = Some i ∧
  [wk_tenant_id c; wk_workflow_id c; wk_run_id c; wk_plan_hash c; wk_policy_version c] =
  [wi_tenant_id i; wi_workflow_id i; wi_run_id i; wi_plan_hash i; wi_policy_version i] ∧
  wk_checkpoint_id c = checkpoint_at (wi_workflow_id i) (wk_expected_revision c) ∧
  wk_expected_revision c < wx_revision result ≤ aw_revision (run_self r) ∧
  (∀ c' result', CommandApplied c' result' ∈ l1 →
    wk_expected_revision c' < wx_revision result' ≤ wk_expected_revision c ∧
    wk_command_id c' ≠ wk_command_id c) ∧
  wk_command_type c ∉ [RETRY; EDIT; REQUEST_CHANGES].
Proof.
  intros Hr Hl. destruct (call_sound r l1 _ l2 Hr Hl) as (i & Hcm & Hc); [by intros []|].
  exists i. destruct Hc as [Hb Hck Ht Hrev Hbefore].
  assert (CommandApplied c result ∈ aw_calls (run_self r)) as Hin by (rewrite Hl; set_solver).
  destruct (cm_applied _ _ Hcm _ _ Hin) as [Hle _].
  split_and!; try done; [apply (cm_input _ _ Hcm)|]. intros c' result' Hc'.
  destruct (Hbefore _ _ Hc') as [? ?]. split; [|done]. split; [|done].
  apply list_elem_of_split in Hc' as (k1 & k2 & ->). rewrite <- app_assoc in Hl.
  by pose proof (cm_calls _ _ Hcm _ _ _ Hl) as [_ _ _ ? _].
Qed.

(** ** How a run ends *)

(** A run whose coroutine took the input [i]. *)
Definition live (i : AnantaWorkflowInput) (r : Run) : Prop :=
  ended (run_main r) = true ∨
  common i (run_self r) ∧ main_inv i (run_self r) (run_main r).

Definition left (i : AnantaWorkflowInput) (r : Run) : Z := distance i (run_self r) (run_main r).

Lemma started_live i r :
  reached r → run_main r ≠ NotStarted → aw_input (run_self r) = Some i → live i r.
Proof.
  intros Hr%reachable_inv Hn Hi. unfold run_inv in Hr.
  assert ((∃ i, common i (run_self r) ∧ main_inv i (run_self r) (run_main r)) ∨
      refused (run_self r) (run_main r)) as [(i' & Hcm & Hm)|(He & _)]
    by (destruct (run_main r); done || exact Hr); [right|by left].
  assert (i' = i) as <-; [|done]. pose proof (cm_input _ _ Hcm). congruence.
Qed.

Lemma distance_shared i s s' m : shared s s' → distance i s' m ≤ distance i s m.
Proof.
  intros Hs. pose proof (sh_approved _ _ Hs) as Ha.
  pose proof (λ R, closed_gates_len i s s' R R Ha ltac:(done)) as Hc.
  pose proof (λ R step, other_gates_len i s s' R step Ha) as Ho.
  destruct m; cbn [distance]; try done.
  - pose proof (Hc remaining). lia.
  - pose proof (Ho remaining step). lia.
  - pose proof (Hc remaining). lia.
Qed.

(** While it is not at its end it has moves left. *)
Lemma distance_positive i s m : main_inv i s m → ended m = false → 1 ≤ distance i s m.
Proof.
  intros Hm He. destruct m; try done; cbn [distance]; unfold len in *; try lia.
  destruct Hm as (_ & _ & Hsk). apply flight_size in Hsk. unfold len in Hsk.
  rewrite length_app, !length_map in Hsk. cbn [length] in *. lia.
Qed.

Lemma distance_ended i s m : ended m = true → distance i s m = 0.
Proof. by destruct m. Qed.

Lemma distance_bound i s m :
  common i s → main_inv i s m → distance i s m ≤ 4 * len (wi_steps i) + 2.
Proof.
  intros Hcm Hm. assert (∀ remaining, len (closed_gates i s remaining) ≤ len (wi_steps i)) as Hc
    by (intros; apply sublist_len, sublist_filter).
  assert (∀ remaining step, len (other_gates i s remaining step) ≤ len (wi_steps i)) as Ho.
  { intros. etrans; [apply sublist_len, sublist_filter|apply Hc]. }
  assert (∀ remaining flight, steps_ok i s remaining flight →
      Z.of_nat (size remaining) ≤ len (wi_steps i)) as Hr.
  { intros remaining flight [R _ _ _]. unfold len.
    rewrite <- (length_map ts_step_id (wi_steps i)).
    rewrite <- (size_list_to_set (C := gset string) (map ts_step_id (wi_steps i)))
      by apply (io_unique _ (cm_ok _ _ Hcm)).
    apply inj_le, subseteq_size. intros d Hd%R. apply elem_of_list_to_set, Hd. }
  assert (∀ step rest flight, legacy_ok i s step rest flight → len rest + 1 ≤ len (wi_steps i)) as Hl.
  { intros step rest flight [[before ->] _]. unfold len. rewrite length_app. cbn [length]. lia. }
  assert (0 ≤ len (wi_steps i)) by (unfold len; lia).
  destruct m; cbn [distance main_inv] in *; try lia.
  - destruct Hm as (_ & _ & Hsk). pose proof (Hc remaining). apply Hr in Hsk. lia.
  - destruct Hm as (_ & _ & Hsk & _). pose proof (Ho remaining step). apply Hr in Hsk. lia.
  - destruct Hm as (_ & _ & Hsk). pose proof (Hc remaining). apply Hr in Hsk. unfold len in *. lia.
  - destruct Hm as (_ & Hlg). apply Hl in Hlg. lia.
  - destruct Hm as (_ & _ & Hlg & _). apply Hl in Hlg. lia.
  - destruct Hm as (_ & Hlg). apply Hl in Hlg. lia.
Qed.

(** The coroutine moves on the event. *)
Definition moves (e : event) (r : Run) : bool :=
  negb (ended (run_main r)) && bool_decide (is_Some (move (run_self r) (run_main r) e)).

Lemma live_step i e r :
  live i r → live i (event_run e r) ∧ left i (event_run e r) + (if moves e r then 1 else 0) ≤ left i r.
Proof.
  intros Hl. unfold moves, run_event. destruct (ended (run_main r)) eqn:He; cbn [negb andb].
  { split; [done|]. lia. }
  destruct Hl as [Hl|[Hcm Hm]]; [congruence|].
  pose proof (distance_positive i _ _ Hm He) as Hpos. unfold left.
  destruct (move (run_self r) (run_main r) e) as [m|] eqn:Hmove.
  - rewrite bool_decide_eq_true_2 by done.
    assert (run_main r ≠ NotStarted) as Hn by (intros Heq; by rewrite Heq in Hm).
    pose proof (main_move_post _ _ _ _ _ _ _ _ _ Hcm Hm Hn Hmove) as Hp.
    destruct (m (run_self r)) as [[m'|ex] s'] eqn:Hrun; destruct Hp as [Hcm' Hp];
      cbn [fst snd run_self run_main] in *.
    + destruct Hp as [Hm' Hd]. split; [by right|]. lia.
    + split; [by left|]. cbn [distance]. lia.
  - rewrite bool_decide_eq_false_2 by (by intros []).
    destruct (handler_move patched (run_updates r) e) as [h|] eqn:Hh; [|split; [by right|lia]].
    destruct (h (run_self r)) as [out s'] eqn:Hout.
    pose proof (handler_move_effect patched _ _ _ _ _ _ Hh Hout) as Heff.
    pose proof (shared_handler _ _ Heff) as Hs.
    destruct out as [u|ex]; cbn [run_self run_main].
    + split; [right; split; [by eapply common_handler|by eapply main_inv_shared]|].
      pose proof (distance_shared i _ _ (run_main r) Hs). lia.
    + split; [by left|]. cbn [distance]. lia.
Qed.

Lemma left_nonneg i r : live i r → 0 ≤ left i r.
Proof.
  intros [He|[_ Hm]]; unfold left; [by rewrite distance_ended|].
  destruct (ended (run_main r)) eqn:He; [by rewrite distance_ended|].
  pose proof (distance_positive i _ _ Hm He). lia.
Qed.

Lemma left_bound i r : live i r → left i r ≤ 4 * len (wi_steps i) + 2.
Proof.
  intros [He|[Hcm Hm]]; unfold left; [rewrite distance_ended by done; unfold len; lia|].
  by apply distance_bound.
Qed.

(** C24: a workflow ends: once it started, its coroutine makes at most four moves
    per step and two more, in every sequence of events, however long; no command,
    signal or reply makes it run again. *)
Theorem run_bounded i r events :
  reached r → run_main r ≠ NotStarted → aw_input (run_self r) = Some i →
  count_along event_run moves events r ≤ 4 * Z.of_nat (length (wi_steps i)) + 2.
Proof.
  intros Hr Hn Hi. pose proof (started_live i r Hr Hn Hi) as Hl.
  assert (live i (run_all_calls event_run events r)) as Hend.
  { clear Hr Hn Hi. revert r Hl. induction events as [|e events IH]; intros r Hl; [done|].
    apply IH. by apply live_step. }
  pose proof (count_along_growth event_run moves (λ r, - left i r) (live i) events r Hl) as Hc.
  pose proof (left_nonneg i _ Hend). pose proof (left_bound i r Hl). unfold len in *.
  enough (- left i r + count_along event_run moves events r ≤
      - left i (run_all_calls event_run events r)) by lia.
  apply Hc; [intros e s Hs; by apply live_step|]. intros e s Hs.
  destruct (live_step i e s Hs) as [_ ?]. lia.
Qed.

(** The coroutine ended or waits for an operator: for a pause to end, or for the
    approval of a gate. *)
Definition waits (r : Run) : bool :=
  ended (run_main r) ||
  match run_main r with
  | Resuming _ | LegacyResuming _ _ => bool_decide (aw_phase (run_self r) = PAUSED)
  | AtGate _ step | LegacyAtGate step _ =>
      bool_decide (ts_step_id step ∉ aw_approved_gates (run_self r)) && negb (stopped (run_self r))
  | _ => false
  end.

(** The engine wakes the coroutine and delivers the reply of an activity. *)
Definition engine_round (r : Run) (reply : activity_reply) : Run :=
  event_run (ActivityEnded reply) (event_run Woken r).

Lemma waits_still r reply : waits r = true → engine_round r reply = r.
Proof.
  intros Hw. assert (∀ e, e = Woken ∨ e = ActivityEnded reply → event_run e r = r) as Hs.
  { intros e He. unfold run_event. destruct (ended (run_main r)) eqn:Hend; [done|].
    unfold waits in Hw. rewrite Hend in Hw. cbn [orb] in Hw.
    assert (move (run_self r) (run_main r) e = None) as ->; [|by destruct He as [-> | ->]].
    destruct He as [-> | ->], (run_main r); try done; cbn [main_move]; by rewrite Hw. }
  unfold engine_round. rewrite !Hs; auto.
Qed.

(** A round that is not waited for moves the coroutine. *)
Lemma round_moves r reply :
  run_main r ≠ NotStarted → waits r = false →
  moves Woken r = true ∨ event_run Woken r = r ∧ moves (ActivityEnded reply) r = true.
Proof.
  intros Hn Hw. unfold waits in Hw. apply orb_false_iff in Hw as [He Hw]. unfold moves, run_event.
  rewrite He. cbn [negb andb]. destruct (run_main r); try done; cbn [main_move].
  all: try (left; rewrite Hw; by apply bool_decide_eq_true).
  all: right; split; [done|by apply bool_decide_eq_true].
Qed.

Lemma round_less i r reply :
  live i r → run_main r ≠ NotStarted → waits r = false → left i (engine_round r reply) + 1 ≤ left i r.
Proof.
  intros Hl Hn Hw. unfold engine_round. destruct (live_step i Woken r Hl) as [Hl1 H1].
  destruct (live_step i (ActivityEnded reply) _ Hl1) as [_ H2].
  destruct (round_moves r reply Hn Hw) as [Hm|[Heq Hm]].
  - rewrite Hm in H1. destruct (moves _ _) in H2; lia.
  - rewrite Heq in *. rewrite Hm in H2. destruct (moves _ _) in H1; lia.
Qed.

(** C25: the scheduler has no deadlock: after as many rounds of waking and of
    activity replies as it has moves (four per step and two more), whatever the
    replies are, a started workflow has ended (it returned, was aborted, or is
    stuck on an error that nothing catches) or waits for an operator, who paused
    it or has to approve a gate; it never waits for a step that cannot become
    ready. *)
Theorem run_settles i r replies :
  reached r → run_main r ≠ NotStarted → aw_input (run_self r) = Some i →
  4 * Z.of_nat (length (wi_steps i)) + 2 ≤ Z.of_nat (length replies) →
  waits (foldl engine_round r replies) = true.
Proof.
  intros Hr Hn Hi Hlen. pose proof (started_live i r Hr Hn Hi) as Hl.
  pose proof (left_bound i r Hl) as Hb. assert (left i r ≤ Z.of_nat (length replies)) as Hle
    by (unfold len in *; lia).
  assert (∀ r e, live i r → run_main r ≠ NotStarted → run_main (event_run e r) ≠ NotStarted) as Hstarted.
  { intros r0 e Hl0 Hn0 Heq. destruct (live_step i e r0 Hl0) as [[He|[_ Hm]] _]; rewrite Heq in *; done. }
  clear Hr Hi Hlen Hb. revert r Hl Hn Hle.
  induction replies as [|reply replies IH]; intros r Hl Hn Hle; cbn [foldl].
  - destruct (waits r) eqn:Hw; [done|]. exfalso.
    pose proof (round_less i r ActivityError Hl Hn Hw) as Hless.
    assert (live i (engine_round r ActivityError)) as Hl2 by (unfold engine_round; by apply live_step, live_step).
    pose proof (left_nonneg i _ Hl2). cbn [length] in Hle. lia.
  - destruct (waits r) eqn:Hw.
    + rewrite (waits_still r reply Hw). clear IH Hle. induction replies as [|x replies IH]; [done|].
      cbn [foldl]. by rewrite (waits_still r x Hw).
    + apply IH.
      * unfold engine_round. by apply live_step, live_step.
      * unfold engine_round. destruct (live_step i Woken r Hl) as [Hl1 _]. by apply Hstarted, Hstarted.
      * pose proof (round_less i r reply Hl Hn Hw). cbn [length] in Hle. lia.
Qed.

(** C26: what a workflow reports when it returns is final and true: it is its
    own status, no event changes the workflow any more, and it is completed,
    failed or cancelled; a completed one has finished every step of its input:
    each completed, or failed and was left out by merges that omit failures,
    which are all its consumers, of which there is one at least. *)
Theorem completed_exact i r status :
  reached r → aw_input (run_self r) = Some i → run_main r = Returned status →
  status = status_to_dict (_status (run_self r)) ∧ (∀ e, event_run e r = r) ∧
  aw_phase (run_self r) ∈ [COMPLETED; FAILED; CANCELLED] ∧
  (aw_phase (run_self r) = COMPLETED →
    ∀ step, step ∈ wi_steps i →
    ts_step_id step ∈ aw_completed_step_ids (run_self r) ∨
    ts_step_id step ∈ (aw_failed_step_ids (run_self r)).*1 ∧
    consumers i (ts_step_id step) ≠ [] ∧
    ∀ x, x ∈ wi_steps i → ts_step_id step ∈ ts_depends_on x →
    ts_node_type x = "merge" ∧ ts_partial_failure x = "omit").
Proof.
  intros Hr%reachable_inv Hi Hm. unfold run_inv in Hr. rewrite Hm in Hr.
  assert (∀ e, event_run e r = r) as Hfinal by (intros e; unfold run_event; by rewrite Hm).
  destruct Hr as [(i' & Hcm & Hst & Hend)|(_ & _ & Hf)].
  2: { destruct (Hf status eq_refl) as [Hp ->]. rewrite Hp. split_and!; try done. set_solver. }
  assert (i' = i) as -> by (pose proof (cm_input _ _ Hcm); congruence).
  split; [done|]. split; [done|].
  destruct Hend as [[Hp|Hp]%stopped_spec|[Hp Hall]]; [rewrite Hp; split; [set_solver|done]..|].
  rewrite Hp. split; [set_solver|]. intros _ step Hin.
  assert (done_step (run_self r) (ts_step_id step) = true) as Hd
    by (apply Hall, list_elem_of_fmap; by exists step).
  pose proof Hd as [Hc|Hf]%done_step_spec; [by left|right].
  assert (failed (run_self r) (ts_step_id step) = true) as Ho%(cm_omitted _ _ Hcm)
    by by apply bool_decide_eq_true.
  split_and!; [done| |by intros x; apply omitted_consumer].
  unfold _failure_is_omittable in Ho. apply andb_true_iff in Ho as [Hne _].
  by apply negb_true_iff, bool_decide_eq_false in Hne.
Qed.
End laws.
