(* ===== verification/WorkflowSamples.v ===== *)
(** * Sample runs of a Temporal workflow

    The theorems about runs at a workflow of two steps, the first one behind a
    gate; and runs that show what the code does not mean to do. *)
From S2P Require Import Prelude Records PyStr PyVal Digest Serialization Plan ProviderBinding KeyRing Envelope Authorization CommandContract TemporalContracts TemporalLaws RetryProfiles Workflow WorkflowCommands WorkflowRun WorkflowFrame WorkflowInv WorkflowSteps WorkflowDistance WorkflowMoves WorkflowAuthority WorkflowLaws.

Definition sample_step (step : string) (deps : list string) (gate : bool) : pyval :=
  PDict [("step_id", PStr step); ("operation_id", PStr ("op-" +:+ step)); ("gate", PBool gate);
         ("depends_on", strs deps); ("authorization_envelope", PDict (temporal_envelope_dict step))].

Definition sample_input (steps : list pyval) : pyval :=
  PDict [("tenant_id", PStr "tenant"); ("workflow_id", PStr "wf"); ("run_id", PStr "run");
         ("correlation_id", PStr "c1"); ("plan_hash", PStr temporal_hash);
         ("policy_version", PStr "p1"); ("steps", PList steps);
         ("retry_budget_remaining", PInt 2); ("max_history_events", PInt 100)].

(** A command of the hub, signed for the given revision and step. *)
Definition sample_unsigned (type : string) (revision : Z) (step : string) : dict :=
  match @unsigned_v3_mapping checksum_digest ("wcmd-" +:+ type) type "tenant" "wf" "run" step
      (checkpoint_at "wf" revision) (PInt revision) temporal_hash "p1" "ops" ["operator"] []
      (lit 1 0) (lit 9 0) "nonce" "ed25519" "key-1" with
  | Ok d => d
  | Err _ => []
  end.

Fixpoint repeated (n : nat) (s : string) : string :=
  match n with O => "" | S n => s +:+ repeated n s end.

Definition sample_request (type : string) (revision : Z) (step : string) : dict :=
  sample_unsigned type revision step ++ [("signature", PStr (repeated 86 "A" +:+ "=="))].

(** The authority accepts the command. *)
Definition sample_reply (request : dict) : pyval :=
  PDict [("accepted", PBool true); ("command_id", dget "command_id" request);
         ("payload_digest", dget "payload_digest" request); ("signature_algorithm", PStr "ed25519");
         ("key_id", PStr "key-1"); ("schema", PStr COMMAND_AUTHORITY_RESULT_SCHEMA)].

(** The update with the command, and the reply of the authority. *)
Definition commanded_by (request : dict) : list event :=
  [CommandReceived request false (lit 2 0); AuthorityReplied 0 (Some (sample_reply request)) (lit 2 0)].

Definition sample_result (step : string) (attempt : Z) : activity_reply :=
  ActivityResult (PDict [("operation_id", PStr ("op-" +:+ step)); ("status", PStr "completed");
    ("hub_task_id", PStr ("task-" +:+ step)); ("attempt", PInt attempt);
    ("schema", PStr ACTIVITY_RESULT_SCHEMA)]).

Notation sample_event := (@run_event checksum_digest no_endpoints (λ _, true) "wf" true).
Notation sample_events events := (run_all_calls sample_event events new_run).

(** The workflow up to its gate, its approval, and the rest. *)
Definition sample_opening : list event :=
  [RunStarted (sample_input [sample_step "a" [] true; sample_step "b" ["a"] false]); Woken].
Definition sample_approved : list event :=
  sample_opening ++ commanded_by (sample_request "approve" 2 "a").
Definition sample_finished : list event :=
  sample_approved ++ [Woken; Woken; ActivityEnded (sample_result "a" 1); Woken;
    ActivityEnded (sample_result "b" 2)].

Notation sample_reached events :=
  (reachable_foldl sample_event new_run events : reachable_run no_endpoints (λ _, true) "wf" true (sample_events events)).

Definition input_of (r : Run) : AnantaWorkflowInput → Prop := λ i, aw_input (run_self r) = Some i.

(** The call at a place of the history. *)
Lemma call_split r k c :
  aw_calls (run_self r) !! k = Some c →
  aw_calls (run_self r) = take k (aw_calls (run_self r)) ++ c :: drop (S k) (aw_calls (run_self r)).
Proof. intros Hc. symmetry. by apply take_drop_middle. Qed.

Definition starts_step (c : engine_call) : string := from_option ts_step_id "" (start_of c).
Definition applied_id (c : engine_call) : string :=
  from_option (λ p, wk_command_id p.1) "" (applied_of c).

Lemma starts_sound_witness :
  ∃ step activity_id request options l1 l2,
    aw_calls (run_self (sample_events sample_finished)) =
      l1 ++ StartActivity step activity_id request options :: l2 ∧
    starts_step (StartActivity step activity_id request options) = "a" ∧
    1 ≤ op_maximum_attempts options.
Proof.
  set (r := sample_events sample_finished).
  assert (starts_step <$> aw_calls (run_self r) !! 2%nat = Some "a") as Ha by (vm_compute; reflexivity).
  destruct (aw_calls (run_self r) !! 2%nat) as [c|] eqn:Hc; [|discriminate Ha]. injection Ha as Ha.
  apply call_split in Hc. destruct c as [step activity_id request options| | | |]; try discriminate Ha.
  destruct (@starts_sound checksum_digest no_endpoints (λ _, true) "wf" true r _ step activity_id request
    options _ (sample_reached sample_finished) Hc) as (i & _ & _ & _ & _ & _ & _ & Hb & _).
  exists step, activity_id, request, options. eexists _, _. split_and!; [exact Hc|exact Ha|apply Hb].
Defined.

Lemma commands_linear_witness :
  ∃ c result l2, aw_calls (run_self (sample_events sample_approved)) = CommandApplied c result :: l2 ∧
    wk_checkpoint_id c = checkpoint_at (wk_workflow_id c) (wk_expected_revision c).
Proof.
  set (r := sample_events sample_approved).
  assert (applied_id <$> aw_calls (run_self r) !! 0%nat = Some "wcmd-approve") as Ha
    by (vm_compute; reflexivity).
  destruct (aw_calls (run_self r) !! 0%nat) as [c|] eqn:Hc; [|discriminate Ha]. injection Ha as Ha.
  apply call_split in Hc. destruct c as [| |c result| |]; try discriminate Ha.
  destruct (@commands_linear checksum_digest no_endpoints (λ _, true) "wf" true r _ c result
    _ (sample_reached sample_approved) Hc) as (i & _ & Hb & Hk & _).
  exists c, result. eexists. split; [exact Hc|]. injection Hb as _ -> _ _ _. exact Hk.
Defined.

Lemma commands_authorized_witness :
  ∃ c before e after, wk_command_id c = "wcmd-approve" ∧ sample_approved = before ++ e :: after ∧
    @authorizes checksum_digest e (sample_events before) c.
Proof.
  set (r := sample_events sample_approved).
  assert (applied_id <$> aw_calls (run_self r) !! 0%nat = Some "wcmd-approve") as Ha
    by (vm_compute; reflexivity).
  destruct (aw_calls (run_self r) !! 0%nat) as [c|] eqn:Hc; [|discriminate Ha]. injection Ha as Ha.
  apply list_elem_of_lookup_2 in Hc. destruct c as [| |c result| |]; try discriminate Ha.
  exists c. destruct (@commands_authorized checksum_digest no_endpoints (λ _, true) "wf" eq_refl eq_refl
    sample_approved c result Hc) as (before & e & after & Heq & Hau).
  exists before, e, after. split_and!; [exact Ha|exact Heq|exact Hau].
Defined.

Notation sample_opened := (sample_events [RunStarted (sample_input
  [sample_step "a" [] true; sample_step "b" ["a"] false])]).

Definition started (r : Run) : bool := match run_main r with NotStarted => false | _ => true end.

Lemma started_spec r : started r = true → run_main r ≠ NotStarted.
Proof. unfold started. by intros Hs Heq; rewrite Heq in Hs. Qed.

Definition step_count (r : Run) : Z :=
  from_option (λ i, Z.of_nat (length (wi_steps i))) (-1) (aw_input (run_self r)).

Lemma input_counted r n :
  0 ≤ n → step_count r = n → ∃ i, aw_input (run_self r) = Some i ∧ Z.of_nat (length (wi_steps i)) = n.
Proof.
  unfold step_count. destruct (aw_input (run_self r)) as [i|]; intros; [by exists i|]. cbn in *. lia.
Qed.

Lemma run_bounded_witness :
  count_along sample_event (@moves checksum_digest no_endpoints (λ _, true) "wf" true) (drop 1 sample_finished) sample_opened
  ≤ 10.
Proof.
  destruct (input_counted sample_opened 2) as (i & Hi & Hn); [lia|vm_compute; reflexivity|].
  assert (run_main sample_opened ≠ NotStarted) as Hs by (apply started_spec; vm_compute; reflexivity).
  pose proof (@run_bounded checksum_digest no_endpoints (λ _, true) "wf" true i sample_opened
    (drop 1 sample_finished) (sample_reached _) Hs Hi) as Hb.
  rewrite Hn in Hb. exact Hb.
Defined.

Lemma run_settles_witness :
  waits (foldl (@engine_round checksum_digest no_endpoints (λ _, true) "wf" true) sample_opened
    (repeat ActivityError 10)) = true.
Proof.
  destruct (input_counted sample_opened 2) as (i & Hi & Hn); [lia|vm_compute; reflexivity|].
  assert (run_main sample_opened ≠ NotStarted) as Hs by (apply started_spec; vm_compute; reflexivity).
  pose proof (@run_settles checksum_digest no_endpoints (λ _, true) "wf" true i sample_opened
    (repeat ActivityError 10) (sample_reached _) Hs Hi) as Hw.
  rewrite Hn in Hw. apply Hw. discriminate.
Defined.

Definition returned (r : Run) : bool := match run_main r with Returned _ => true | _ => false end.

Lemma returned_spec r : returned r = true → ∃ status, run_main r = Returned status.
Proof. unfold returned. destruct (run_main r) as [| | | | | | |status| |]; intros; by eauto. Qed.

Definition phase_named (p : string) (r : Run) : bool :=
  bool_decide (phase_value (aw_phase (run_self r)) = p).

Lemma phase_completed r : phase_named "completed" r = true → aw_phase (run_self r) = COMPLETED.
Proof. unfold phase_named. rewrite bool_decide_eq_true. by destruct (aw_phase (run_self r)). Qed.

Lemma completed_exact_witness :
  ∃ i, aw_input (run_self (sample_events sample_finished)) = Some i ∧
    ∀ step, step ∈ wi_steps i →
      ts_step_id step ∈ aw_completed_step_ids (run_self (sample_events sample_finished)) ∨
      consumers i (ts_step_id step) ≠ [].
Proof.
  destruct (input_counted (sample_events sample_finished) 2) as (i & Hi & _); [lia|vm_compute; reflexivity|].
  destruct (returned_spec (sample_events sample_finished)) as [status Hm]; [vm_compute; reflexivity|].
  assert (phase_named "completed" (sample_events sample_finished) = true) as Hp by (vm_compute; reflexivity).
  exists i. split; [exact Hi|].
  destruct (@completed_exact checksum_digest no_endpoints (λ _, true) "wf" true i
    (sample_events sample_finished) status (sample_reached sample_finished) Hi Hm) as (_ & _ & _ & Hd).
  intros step Hin. destruct (Hd (phase_completed _ Hp) step Hin) as [Hs|(_ & Hs & _)]; [left|right]; exact Hs.
Defined.

(** ** What the code does not mean to do *)

Definition ungated : list event :=
  [RunStarted (sample_input [sample_step "a" [] false; sample_step "b" ["a"] false]); Woken].

Definition cancelled_run : list event := ungated ++ commanded_by (sample_request "cancel" 2 "a").

(** A cancelled workflow turns into a failed one when its last activity reports
    enough attempts: [_within_limits] does not look at the phase. *)
Example cancelled_run_fails :
  map (λ events, phase_value (aw_phase (run_self (sample_events events))))
    [ungated; cancelled_run; cancelled_run ++ [ActivityEnded (sample_result "a" 40)]]
  = ["running"; "cancelled"; "failed"].
Proof. vm_compute. reflexivity. Qed.

(** A direct signal is refused, and replaces the reason of a cancelled run. *)
Example signal_replaces_reason :
  map (λ events, aw_reason_code (run_self (sample_events events)))
    [cancelled_run; cancelled_run ++ [SignalReceived PNone APPROVE (lit 2 0)]]
  = ["cancel_requested"; "direct_signal_forbidden"].
Proof. vm_compute. reflexivity. Qed.

(** A pause that is accepted after the approval and before the workflow wakes up
    is lost: the workflow runs on, and starts the activity. *)
Definition paused_after_approval : list event :=
  sample_approved ++ commanded_by (sample_request "pause" 3 "a").

Example pause_is_lost :
  map (λ events, (phase_value (aw_phase (run_self (sample_events events))),
                  aw_active_activities (run_self (sample_events events))))
    [paused_after_approval; paused_after_approval ++ [Woken; Woken]]
  = [("paused", []); ("running", ["a"])].
Proof. vm_compute. reflexivity. Qed.

Definition stuck (r : Run) : bool := match run_main r with Stuck _ => true | _ => false end.

(** A result whose attempt is not a number raises an error that nothing catches:
    the workflow task fails, again and again. *)
Definition garbled_result : activity_reply :=
  ActivityResult (PDict [("operation_id", PStr "op-a"); ("status", PStr "completed");
    ("attempt", PStr "x"); ("schema", PStr ACTIVITY_RESULT_SCHEMA)]).

Example garbled_result_sticks : stuck (sample_events (ungated ++ [ActivityEnded garbled_result])) = true.
Proof. vm_compute. reflexivity. Qed.

(** A workflow identity may have 256 characters, and a checkpoint of it has more
    than an identifier may have, so no command can name it. *)
Example long_workflow_has_no_commands :
  let w := repeated 256 "w" in
  is_ok (_identifier w) = true ∧ is_ok (_identifier (checkpoint_at w 1)) = false.
Proof. vm_compute. split; reflexivity. Qed.
