(* ===== verification/Components.v ===== *)
(** * Workflow components (workflow_runtime/components.py)

    Versioned, reusable plans: their contract, their registry, and the checks at
    the boundary of a compiled component.  The compiler is in ComponentCompiler.
    JSON Schema validation is a library the code calls: whether a schema is
    accepted and which violations a value has are parameters. *)
From S2P Require Import Prelude PyStr PyVal Digest Serialization SchemaEvolution Plan.

Definition WORKFLOW_COMPONENT_SCHEMA : string := "ananta.workflow_component.v1".
Definition COMPILED_COMPONENT_OUTPUT_SCHEMA_KEY : string := "component_output_schema".
Definition COMPILED_COMPONENT_ARTIFACT_CONTRACT_KEY : string := "component_artifact_contract".

(** ** Versions *)

(** [0|[1-9][0-9]*] *)
Definition numeral (s : string) : bool :=
  match s with
  | "0" => true
  | String "0" _ => false
  | _ => str_true s && str_forall is_digit_ascii s
  end.

(** [_SEMVER.fullmatch(s)] *)
Definition _SEMVER (s : string) : bool :=
  match split_on "." s with
  | [major; minor; patch] => numeral major && numeral minor && numeral patch
  | _ => false
  end.

Definition _version_tuple (value : string) : result (Z * Z * Z) :=
  raise_when (negb (_SEMVER value)) (ValueError "workflow_component_version_invalid") ;;
  groups ← map_result (λ g, py_int (PStr g)) (split_on "." value);
  match groups with
  | [major; minor; patch] => Ok (major, minor, patch)
  | _ => Err (ValueError "workflow_component_version_invalid")
  end.

(** [a <= b] on tuples. *)
Definition version_leb (a b : Z * Z * Z) : bool :=
  match Z.compare a.1.1 b.1.1, Z.compare a.1.2 b.1.2 with
  | Lt, _ => true
  | Gt, _ => false
  | Eq, Lt => true
  | Eq, Gt => false
  | Eq, Eq => a.2 <=? b.2
  end.

(** ** JSON Schema *)

(** A step of [error.path]: the key of an object or the index of an array. *)
Inductive path_item := Key (k : string) | Index (i : Z).

Record violation := { v_path : list path_item; v_json_path : string }.

Class JsonSchema := {
  (** [Draft202012Validator.check_schema(schema)] *)
  check_schema : dict → result unit;
  (** [Draft202012Validator(schema).iter_errors(value)] *)
  iter_errors : dict → pyval → result (list violation);
}.

(** [a <= b] on lists.  Paths into one value have keys and indexes at the same
    positions wherever they agree so far. *)
Fixpoint path_leb (a b : list path_item) : bool :=
  match a, b with
  | [], _ => true
  | _ :: _, [] => false
  | Key k :: a, Key l :: b => if bool_decide (k = l) then path_leb a b else str_leb k l
  | Index i :: a, Index j :: b => if i =? j then path_leb a b else i <? j
  | Key _ :: _, Index _ :: _ => true
  | Index _ :: _, Key _ :: _ => false
  end.

Definition sorted_errors (errors : list violation) : list violation :=
  sort_by (λ a b, path_leb (v_path a) (v_path b)) errors.

Section schema.
Context `{JsonSchema}.

(** Raises with the first violation. *)
Definition validate_value (schema : dict) (code : string) (value : pyval) : result unit :=
  errors ← iter_errors schema value;
  match sorted_errors errors with
  | [] => Ok tt
  | first :: _ => Err (ValueError (code +:+ ":" +:+ v_json_path first))
  end.
End schema.

(** ** The component contract *)

Record WorkflowComponent := {
  wc_component_id : string;
  wc_version : string;
  wc_policy_version : string;
  wc_plan : ExecutionPlan;
  wc_input_schema : dict;
  wc_output_schema : dict;
  wc_input_artifacts : list string;
  wc_output_artifacts : list string;
  wc_required_capabilities : list string;
  wc_allowed_tools : list string;
  wc_compatible_versions : list string;
  wc_artifact_contract : dict;
  wc_schema : string;
}.

Definition any_object : pyval := PDict [("type", PStr "object")].

(** [bool(set(l) - set(declared))] *)
Definition any_missing (l declared : list string) : bool :=
  negb (forallb (λ x, bool_decide (x ∈ declared)) l).

Definition used_tools (ns : list ExecutionNode) : list string := concat (map allowed_tools ns).

Section component.
Context `{JsonSchema}.

Definition component_assert_valid (c : WorkflowComponent) : result unit :=
  let plan := wc_plan c in
  raise_when (bool_decide (wc_schema c ≠ WORKFLOW_COMPONENT_SCHEMA))
  (ValueError "workflow_component_schema_unsupported") ;;
  raise_when (negb (str_true (wc_component_id c)) || negb (_SEMVER (wc_version c))
  || negb (str_true (wc_policy_version c)))
  (ValueError "workflow_component_identity_invalid") ;;
  for_each (λ compatible, raise_when (negb (_SEMVER compatible))
    (ValueError "workflow_component_compatible_version_invalid"))
  (wc_compatible_versions c) ;;
  check_schema (wc_input_schema c) ;;
  check_schema (wc_output_schema c) ;;
  (if truthy (PDict (wc_artifact_contract c))
    then check_schema (wc_artifact_contract c) else Ok tt) ;;
  raise_when (any_missing (wc_input_artifacts c ++ wc_output_artifacts c)
    (map artifact_id (artifacts plan)))
  (ValueError "workflow_component_interface_artifact_unknown") ;;
  raise_when (any_missing (wc_required_capabilities c) (capabilities plan))
  (ValueError "workflow_component_capability_not_declared") ;;
  raise_when (any_missing (used_tools (nodes plan)) (wc_allowed_tools c))
  (ValueError "workflow_component_tool_not_declared") ;;
  raise_when (bool_decide (policy_version plan ≠ wc_policy_version c))
  (ValueError "workflow_component_policy_mismatch").

Definition validate_input (c : WorkflowComponent) (value : pyval) : result unit :=
  validate_value (wc_input_schema c) "workflow_component_input_invalid" value.

Definition validate_output (c : WorkflowComponent) (value : pyval) : result unit :=
  validate_value (wc_output_schema c) "workflow_component_output_invalid" value.

Definition validate_compiled_component_output (n : ExecutionNode) (value : pyval) : result unit :=
  match dget COMPILED_COMPONENT_OUTPUT_SCHEMA_KEY (node_metadata n) with
  | PNone => Ok tt
  | PDict schema => validate_value schema "workflow_component_output_invalid" value
  | _ => Err (ValueError "workflow_component_compiled_output_schema_invalid")
  end.

Context `{ModelRouting} `{Digest}.

Definition component_from_mapping (raw : dict) : result WorkflowComponent :=
  plan ← (d ← py_dict (por (dget "plan" raw) (PDict [])); from_mapping d true);
  input_schema ← py_dict (por (dget "input_schema" raw) any_object);
  output_schema ← py_dict (por (dget "output_schema" raw) any_object);
  input_artifacts ← _clean_tuple (dget "input_artifacts" raw);
  output_artifacts ← _clean_tuple (dget "output_artifacts" raw);
  required_capabilities ← _clean_tuple (dget "required_capabilities" raw);
  allowed_tools ← _clean_tuple (dget "allowed_tools" raw);
  compatible_versions ← _clean_tuple (dget "compatible_versions" raw);
  artifact_contract ← py_dict (por (dget "artifact_contract" raw) (PDict []));
  let component := {|
    wc_component_id := first_str ["component_id"] "" raw;
    wc_version := first_str ["version"] "" raw;
    wc_policy_version := first_str ["policy_version"] "" raw;
    wc_plan := plan;
    wc_input_schema := input_schema;
    wc_output_schema := output_schema;
    wc_input_artifacts := input_artifacts;
    wc_output_artifacts := output_artifacts;
    wc_required_capabilities := required_capabilities;
    wc_allowed_tools := allowed_tools;
    wc_compatible_versions := compatible_versions;
    wc_artifact_contract := artifact_contract;
    wc_schema := str_or_default (dget "schema" raw) WORKFLOW_COMPONENT_SCHEMA |} in
  component_assert_valid component ;;
  Ok component.

Definition component_to_dict (c : WorkflowComponent) : result dict :=
  plan ← plan_to_dict (wc_plan c);
  Ok [("schema", PStr (wc_schema c)); ("component_id", PStr (wc_component_id c));
    ("version", PStr (wc_version c)); ("policy_version", PStr (wc_policy_version c));
    ("plan", PDict plan);
    ("input_schema", PDict (wc_input_schema c));
    ("output_schema", PDict (wc_output_schema c));
    ("input_artifacts", strs (wc_input_artifacts c));
    ("output_artifacts", strs (wc_output_artifacts c));
    ("required_capabilities", strs (wc_required_capabilities c));
    ("allowed_tools", strs (wc_allowed_tools c));
    ("compatible_versions", strs (wc_compatible_versions c));
    ("artifact_contract", PDict (wc_artifact_contract c))].
End component.

(** ** The registry *)

Notation component_key := (string * string)%type (only parsing).
Notation WorkflowComponentRegistry := (gmap component_key WorkflowComponent).

Definition key_of (c : WorkflowComponent) : component_key := (wc_component_id c, wc_version c).

(** The components registered under the identifier that declare the version. *)
Definition compatible (registry : WorkflowComponentRegistry) (component_id version : string)
    : list WorkflowComponent :=
  map snd (filter (λ kc : component_key * WorkflowComponent,
      kc.1.1 = component_id ∧ version ∈ wc_compatible_versions kc.2) (map_to_list registry)).

Definition resolve (registry : WorkflowComponentRegistry) (component_id version : string)
    : result WorkflowComponent :=
  match registry !! (component_id, version) with
  | Some exact => Ok exact
  | None =>
      match compatible registry component_id version with
      | [c] => Ok c
      | _ => Err (KeyError "workflow_component_version_not_found")
      end
  end.

(** The versions of an identifier, sorted by [_version_tuple]. *)
Definition versions (registry : WorkflowComponentRegistry) (component_id : string)
    : result (list string) :=
  let registered := map snd (filter (λ k : component_key, k.1 = component_id)
                               (map fst (map_to_list registry))) in
  keyed ← map_result (λ v, t ← _version_tuple v; Ok (t, v)) registered;
  Ok (map snd (sort_by (λ a b, version_leb a.1 b.1) keyed)).

Section registry.
Context `{JsonSchema} `{ModelRouting} `{Digest}.

(** [same]: the component is the very object registered before, which only
    matters for a NaN inside it. *)
Definition register (same : bool) (c : WorkflowComponent)
  : action WorkflowComponentRegistry unit :=
  lift (component_assert_valid c) ;;
  components ← get;
  match components !! key_of c with
  | Some existing =>
      d ← lift (component_to_dict existing);
      e ← lift (component_to_dict c);
      lift (raise_when (negb (py_eqb same (PDict d) (PDict e)))
        (ValueError "workflow_component_version_conflict"))
  | None => mret tt
  end ;;
  modify <[key_of c := c]>.
End registry.

(** ** Equal dicts *)

Lemma py_eqb_get same d e k v :
  py_eqb same (PDict d) (PDict e) = true → dict_get k d = Some v →
  ∃ w, dict_get k e = Some w ∧ py_eqb same v w = true.
Proof.
  cbn [py_eqb]. intros [_ Hall]%andb_prop Hk. rewrite forallb_forall in Hall.
  apply dict_get_elem, list_elem_of_In in Hk. specialize (Hall _ Hk). cbn in Hall.
  destruct (dict_get k e) as [w|]; [eauto|done].
Qed.

Lemma py_eqb_string same s v : py_eqb same (PStr s) v = true → v = PStr s.
Proof. destruct v; cbn; try done. by intros ->%bool_decide_eq_true. Qed.

Lemma py_eqb_strs same l m : py_eqb same (strs l) (strs m) = true → l = m.
Proof.
  unfold strs. cbn [py_eqb]. revert m.
  induction l as [|x l IH]; intros [|y m]; cbn; try done.
  intros [->%bool_decide_eq_true Hl]%andb_prop. f_equal. by apply IH.
Qed.

Lemma any_missing_false l declared : any_missing l declared = false ↔ ∀ x, x ∈ l → x ∈ declared.
Proof.
  unfold any_missing. rewrite negb_false_iff, forallb_forall.
  setoid_rewrite bool_decide_eq_true. by setoid_rewrite <- list_elem_of_In.
Qed.

(** ** What a registry promises *)

Section laws.
Context `{JsonSchema}.

(** What a valid component declares. *)
Record component_valid (c : WorkflowComponent) : Prop := {
    cv_identity : wc_component_id c ≠ "" ∧ _SEMVER (wc_version c) = true;
    cv_capabilities : ∀ x, x ∈ wc_required_capabilities c → x ∈ capabilities (wc_plan c);
    cv_tools : ∀ n x, n ∈ nodes (wc_plan c) → x ∈ allowed_tools n → x ∈ wc_allowed_tools c;
    cv_policy : policy_version (wc_plan c) = wc_policy_version c;
  }.

Lemma component_assert_valid_inv c : component_assert_valid c = Ok tt → component_valid c.
Proof.
  unfold component_assert_valid. intros Hv. result_inv.
  rewrite any_missing_false in *. rewrite !bool_decide_eq_false in *.
  repeat match goal with H : _ || _ = false |- _ => apply orb_false_iff in H as [? ?] end.
  constructor.
  - split; [by apply str_true_spec, negb_false_iff|by apply negb_false_iff].
  - done.
  - intros n x Hn Hx. match goal with Ht : ∀ x, x ∈ used_tools _ → _ |- _ => apply Ht end.
    unfold used_tools. apply list_elem_of_In, in_concat. exists (allowed_tools n).
    split; [|by apply list_elem_of_In]. apply in_map, list_elem_of_In, Hn.
  - by apply dec_stable.
Qed.

(** Every entry is filed under its own key, and valid. *)
Definition registry_ok (registry : WorkflowComponentRegistry) : Prop :=
  ∀ k c, registry !! k = Some c → key_of c = k ∧ component_valid c.

Lemma elem_of_compatible registry component_id version c :
  c ∈ compatible registry component_id version →
  ∃ k, registry !! k = Some c ∧ k.1 = component_id ∧ version ∈ wc_compatible_versions c.
Proof.
  unfold compatible. intros ([k c'] & -> & Hf)%list_elem_of_fmap.
  apply list_elem_of_filter in Hf as [[Hk Hv] Hin]. exists k.
  by apply elem_of_map_to_list in Hin.
Qed.

(** What [resolve] returns is registered, has the identifier asked for, and has
    the version asked for or declares itself compatible with it. *)
Lemma resolve_Ok registry component_id version c :
  registry_ok registry → resolve registry component_id version = Ok c →
  component_valid c ∧ registry !! key_of c = Some c ∧ wc_component_id c = component_id ∧
  (wc_version c = version ∨ version ∈ wc_compatible_versions c).
Proof.
  intros Hok. unfold resolve.
  destruct (registry !! (component_id, version)) as [exact|] eqn:He.
  - intros [= ->]. destruct (Hok _ _ He) as [Hk Hc]. unfold key_of in *.
    split; [done|]. rewrite Hk. injection Hk as <- <-. by split_and!; [..|left].
  - destruct (compatible registry component_id version) as [|c' [|]] eqn:Hc; try done.
    intros [= ->]. destruct (elem_of_compatible registry component_id version c) as (k & Hk & Hid & Hv).
    { rewrite Hc. by left. }
    destruct (Hok _ _ Hk) as [<- Hcv]. by split_and!; [..|right].
Qed.

Context `{ModelRouting} `{Digest}.

(** A call of [register] changes nothing, or files a valid component under a key
    that was free or held an equal component. *)
Lemma component_register_run same c s r s' :
  register same c s = (r, s') →
  (is_ok r = false ∧ s' = s) ∨
  (r = Ok tt ∧ s' = <[key_of c := c]> s ∧ component_valid c ∧
    ∀ existing, s !! key_of c = Some existing →
    ∃ d e, component_to_dict existing = Ok d ∧ component_to_dict c = Ok e ∧
    py_eqb same (PDict d) (PDict e) = true).
Proof.
  unfold register. intros Hr. unfold_run.
  destruct (component_assert_valid c) as [[]|] eqn:Hv; [|left; by injection Hr as <- <-].
  apply component_assert_valid_inv in Hv.
  destruct (s !! key_of c) as [existing|].
  - destruct (component_to_dict existing) as [d|] eqn:Hd; [|left; by injection Hr as <- <-].
    destruct (component_to_dict c) as [e|] eqn:He; [|left; by injection Hr as <- <-].
    destruct (py_eqb same (PDict d) (PDict e)) eqn:Heq; cbn in Hr;
      [|left; by injection Hr as <- <-].
    right. injection Hr as <- <-. split_and!; try done. intros ? [= <-]. by exists d, e.
  - right. injection Hr as <- <-. split_and!; done.
Qed.

(** The registry after a call, whatever the call answers. *)
Definition run_register (call : bool * WorkflowComponent) (s : WorkflowComponentRegistry)
  : WorkflowComponentRegistry := (register call.1 call.2 s).2.

Lemma run_register_cases call s :
  run_register call s = s ∨
  (run_register call s = <[key_of call.2 := call.2]> s ∧ component_valid call.2 ∧
    ∀ existing, s !! key_of call.2 = Some existing →
    ∃ d e, component_to_dict existing = Ok d ∧ component_to_dict call.2 = Ok e ∧
    py_eqb call.1 (PDict d) (PDict e) = true).
Proof.
  unfold run_register. destruct (register call.1 call.2 s) as [r s'] eqn:Hr.
  apply component_register_run in Hr as [[_ ->]|(_ & -> & Hv & He)]; auto.
Qed.

Lemma reachable_registry_ok s : reachable run_register ∅ s → registry_ok s.
Proof.
  intros Hr. eapply reachable_invariant; [| |exact Hr]; [by intros ? ? ?|].
  intros call t Hok. destruct (run_register_cases call t) as [->|(-> & Hv & _)]; [done|].
  intros k c. destruct (decide (k = key_of call.2)) as [->|Hne].
  - rewrite lookup_insert_eq. by intros [= <-].
  - rewrite lookup_insert_ne by done. apply Hok.
Qed.

(** Two components under one key that a registry takes for the same. *)
Record same_version (c c' : WorkflowComponent) : Prop := {
    sv_plan_hash : plan_hash (wc_plan c) = plan_hash (wc_plan c');
    sv_policy_version : wc_policy_version c = wc_policy_version c';
    sv_tools : wc_allowed_tools c = wc_allowed_tools c';
    sv_capabilities : wc_required_capabilities c = wc_required_capabilities c';
    sv_input_artifacts : wc_input_artifacts c = wc_input_artifacts c';
    sv_output_artifacts : wc_output_artifacts c = wc_output_artifacts c';
    sv_compatible : wc_compatible_versions c = wc_compatible_versions c';
  }.

#[global] Instance same_version_preorder : PreOrder same_version.
Proof.
  split; [by constructor|]. intros x y z [] []. constructor; etransitivity; eassumption.
Qed.

Lemma plan_to_dict_hash p d :
  plan_to_dict p = Ok d → ∃ h, plan_hash p = Ok h ∧ dict_get "plan_hash" d = Some (PStr h).
Proof.
  unfold plan_to_dict, plan_hash. intros Hd. result_inv. subst d. rewrite Hrun. cbn [mbind result_bind].
  eexists. split; [eassumption|]. apply dict_get_set_eq.
Qed.

Lemma equal_components same c c' d e :
  component_to_dict c = Ok d → component_to_dict c' = Ok e →
  py_eqb same (PDict d) (PDict e) = true → same_version c c'.
Proof.
  unfold component_to_dict. intros (p & Hp & Hd)%result_bind_Ok (p' & Hp' & He)%result_bind_Ok Heq.
  injection Hd as Hd. injection He as He.
  assert (∀ k v w, dict_get k d = Some v → dict_get k e = Some w → py_eqb same v w = true) as Hk.
  { intros k v w Hv Hw. destruct (py_eqb_get _ _ _ _ _ Heq Hv) as (w' & Hw' & ?). congruence. }
  clear Heq. destruct (plan_to_dict_hash _ _ Hp) as (h & Hh & Hph).
  destruct (plan_to_dict_hash _ _ Hp') as (h' & Hh' & Hph').
  pose proof (Hk "plan" (PDict p) (PDict p')) as Hplan.
  pose proof (Hk "policy_version" (PStr (wc_policy_version c)) (PStr (wc_policy_version c'))) as Hpv.
  pose proof (Hk "allowed_tools" (strs (wc_allowed_tools c)) (strs (wc_allowed_tools c'))) as Ht.
  pose proof (Hk "required_capabilities" (strs (wc_required_capabilities c))
      (strs (wc_required_capabilities c'))) as Hc.
  pose proof (Hk "input_artifacts" (strs (wc_input_artifacts c)) (strs (wc_input_artifacts c'))) as Hi.
  pose proof (Hk "output_artifacts" (strs (wc_output_artifacts c))
      (strs (wc_output_artifacts c'))) as Ho.
  pose proof (Hk "compatible_versions" (strs (wc_compatible_versions c))
      (strs (wc_compatible_versions c'))) as Hcv.
  clear Hk. subst d e.
  specialize (Hplan eq_refl eq_refl). specialize (Hpv eq_refl eq_refl).
  specialize (Ht eq_refl eq_refl). specialize (Hc eq_refl eq_refl).
  specialize (Hi eq_refl eq_refl). specialize (Ho eq_refl eq_refl).
  specialize (Hcv eq_refl eq_refl).
  constructor; try (eapply py_eqb_strs; eassumption).
  - destruct (py_eqb_get _ _ _ _ _ Hplan Hph) as (w & Hw & Heq). rewrite Hph' in Hw.
    apply (inj Some) in Hw. subst w. apply py_eqb_string in Heq. injection Heq as ->. congruence.
  - apply py_eqb_string in Hpv. by injection Hpv as ->.
Qed.

Lemma run_register_keeps call s k c :
  registry_ok s → s !! k = Some c → ∃ c', run_register call s !! k = Some c' ∧ same_version c c'.
Proof.
  intros Hok Hk. destruct (run_register_cases call s) as [->|(-> & _ & Heq)]; [by exists c|].
  destruct (decide (k = key_of call.2)) as [->|Hne].
  - exists call.2. rewrite lookup_insert_eq. split; [done|].
    destruct (Heq c Hk) as (d & e & Hd & He & Hde). by eapply equal_components.
  - exists c. by rewrite lookup_insert_ne.
Qed.

(** A registered version is immutable: whatever is registered after it, its
    identifier and version keep resolving to a valid component with that
    identifier and version, the same plan hash, policy, tools, capabilities,
    interface and compatibility, so registering it again with any of them
    changed fails. *)
Theorem version_immutable s s' component_id version c :
  reachable run_register ∅ s → reachable run_register s s' →
  s !! (component_id, version) = Some c →
  ∃ c', resolve s' component_id version = Ok c' ∧ component_valid c' ∧
  key_of c' = (component_id, version) ∧ same_version c c'.
Proof.
  intros Hs Hs' Hc. pose proof (reachable_registry_ok s Hs) as Hok.
  assert (registry_ok s' ∧ ∃ c', s' !! (component_id, version) = Some c' ∧ same_version c c')
    as (Hok' & c' & Hc' & Hsame).
  { eapply (reachable_invariant run_register s (λ t, registry_ok t ∧
          ∃ c', t !! (component_id, version) = Some c' ∧ same_version c c')); [| |exact Hs'].
    - split; [done|]. by exists c.
    - intros call t (Ht & c1 & Hc1 & Hs1). split.
      + intros k d. destruct (run_register_cases call t) as [->|(-> & Hv & _)]; [apply Ht|].
        destruct (decide (k = key_of call.2)) as [->|Hne].
        * rewrite lookup_insert_eq. by intros [= <-].
        * rewrite lookup_insert_ne by done. apply Ht.
      + destruct (run_register_keeps call t _ _ Ht Hc1) as (c2 & Hc2 & H2). exists c2.
        split; [done|]. by etransitivity. }
  exists c'. destruct (Hok' _ _ Hc') as [Hk Hv].
  unfold resolve. by rewrite Hc'.
Qed.
End laws.

(** ** Versions are ordered numerically *)

Lemma numeral_int s : numeral s = true → ∃ n, py_int (PStr s) = Ok n.
Proof.
  intros Hn.
  assert (str_true s = true ∧ str_forall is_digit_ascii s = true) as [Ht Hd].
  { destruct s as [|c s]; [done|]. destruct (decide (c = "0"%char)) as [->|Hc].
    - destruct s; done.
    - assert (numeral (String c s) = str_true (String c s) && str_forall is_digit_ascii (String c s))
        as Heq; [|by rewrite Heq in Hn; apply andb_prop in Hn].
      destruct c as [[] [] [] [] [] [] [] []]; try done; by destruct s. }
  apply py_int_digits; [done|by apply str_true_spec].
Qed.

Lemma version_tuple_total v : _SEMVER v = true → ∃ t, _version_tuple v = Ok t.
Proof.
  intros Hv. unfold _version_tuple. rewrite Hv. cbn [negb raise_when mbind result_bind].
  unfold _SEMVER in Hv. destruct (split_on "." v) as [|a [|b [|c []]]]; try done.
  apply andb_prop in Hv as [[Ha Hb]%andb_prop Hc].
  apply numeral_int in Ha as [x Hx], Hb as [y Hy], Hc as [z Hz].
  cbn [map_result]. rewrite Hx, Hy, Hz. cbn. eauto.
Qed.

Lemma version_leb_trans a b c :
  version_leb a b = true → version_leb b c = true → version_leb a c = true.
Proof.
  destruct a as [[a1 a2] a3], b as [[b1 b2] b3], c as [[c1 c2] c3]. unfold version_leb. cbn.
  repeat match goal with |- context [Z.compare ?x ?y] => destruct (Z.compare_spec x y) end;
    try done; try lia; rewrite ?Z.leb_le; lia.
Qed.

Lemma version_leb_total a b : version_leb a b = true ∨ version_leb b a = true.
Proof.
  destruct a as [[a1 a2] a3], b as [[b1 b2] b3]. unfold version_leb. cbn.
  repeat match goal with |- context [Z.compare ?x ?y] => destruct (Z.compare_spec x y) end;
    try lia; rewrite ?Z.leb_le; lia.
Qed.

(** [versions] lists exactly the registered versions of an identifier, each
    once, in numeric order (1.10.0 after 1.9.0). *)
Theorem versions_exact `{JsonSchema} registry component_id :
  registry_ok registry →
  ∃ l, versions registry component_id = Ok l ∧ NoDup l ∧
    (∀ v, v ∈ l ↔ is_Some (registry !! (component_id, v))) ∧
    ∃ ts, Forall2 (λ v t, _version_tuple v = Ok t) l ts ∧
      StronglySorted (λ a b, version_leb a b = true) ts.
Proof.
  intros Hok. unfold versions.
  set (registered := map snd (filter _ _)).
  assert (∀ v, v ∈ registered ↔ is_Some (registry !! (component_id, v))) as Helem.
  { intros v. unfold registered. change (@map) with (λ A B, @fmap list _ A B). cbn beta.
    rewrite list_elem_of_fmap. split.
    - intros ([id v'] & -> & [Hid Hin]%list_elem_of_filter). cbn in Hid. subst id.
      apply list_elem_of_fmap in Hin as ([k c] & Hk & Hin). cbn in *. subst k.
      apply elem_of_map_to_list in Hin. eauto.
    - intros [c Hc]. exists (component_id, v). split; [done|]. apply list_elem_of_filter.
      split; [done|]. apply list_elem_of_fmap. exists (component_id, v, c).
      split; [done|]. by apply elem_of_map_to_list. }
  assert (NoDup registered) as Hnd.
  { unfold registered. change (@map) with (λ A B, @fmap list _ A B). cbn beta.
    eapply (NoDup_fmap_2_strong snd).
    - intros [i v] [j w] [Hi _]%list_elem_of_filter [Hj _]%list_elem_of_filter. cbn in *. congruence.
    - apply NoDup_filter, NoDup_fst_map_to_list. }
  clearbody registered.
  assert (∃ keyed, map_result (λ v, t ← _version_tuple v; Ok (t, v)) registered = Ok keyed ∧
    map snd keyed = registered ∧ ∀ t v, (t, v) ∈ keyed → _version_tuple v = Ok t)
    as (keyed & -> & Hsnd & Hkeyed).
  { assert (∀ v, v ∈ registered → ∃ t, _version_tuple v = Ok t) as Htot.
    { intros v Hv. apply Helem in Hv as [c Hc]. destruct (Hok _ _ Hc) as [Hk [[_ Hs] _ _ _]].
      injection Hk as _ Hk. rewrite Hk in Hs. by apply version_tuple_total. }
    clear -Htot. induction registered as [|v l IH]; [exists []; split_and!; [done..|]|].
    - by intros t v ?%elem_of_nil.
    - destruct (Htot v ltac:(by left)) as [t Ht]. destruct IH as (keyed & Hk & Hsnd & Hin).
      { intros w Hw. apply Htot. by right. }
      exists ((t, v) :: keyed). cbn. rewrite Ht. cbn. rewrite Hk. cbn. rewrite Hsnd.
      split_and!; [done..|]. intros t' v' [[= -> ->]|?]%elem_of_cons; auto. }
  cbn [mbind result_bind].
  set (sorted := sort_by _ keyed).
  assert (sorted ≡ₚ keyed) as Hperm by apply sort_by_perm.
  assert (StronglySorted (λ a b : Z * Z * Z * string, version_leb a.1 b.1 = true) sorted) as Hsort.
  { apply sort_by_sorted; [intros x y z; apply version_leb_trans|intros x y; apply version_leb_total]. }
  clearbody sorted. exists (map snd sorted). split; [done|].
  assert (map snd sorted ≡ₚ registered) as Hp by (rewrite <- Hsnd; by apply Permutation_map).
  split; [by rewrite Hp|]. split; [intros v; by rewrite Hp|].
  exists (map fst sorted). split.
  - apply Forall2_fmap_l with (f := snd), Forall2_fmap_r with (f := fst), Forall_Forall2_diag.
    apply Forall_forall. intros [t v] Hin. apply Hkeyed. by rewrite <- Hperm.
  - clear -Hsort. induction Hsort as [|x l Hl IH Hx]; cbn; constructor; [done|].
    apply Forall_map. eapply Forall_impl; [exact Hx|]. done.
Qed.
