(* ===== verification/ComponentCompiler.v ===== *)
(** * The component compiler (workflow_runtime/components.py)

    [WorkflowComponentCompiler] replaces every component node of a plan by the
    compiled plan of its component, renamed under the node's identifier. *)
From S2P Require Import Prelude PyStr PyVal Digest Serialization SchemaEvolution Plan PlanGraph PlanLaws Components.

(** ** Fragments *)

Record _Fragment := {
  fr_nodes : list ExecutionNode;
  fr_edges : list ExecutionEdge;
  fr_entries : list string;
  fr_exits : list string;
}.

(** [{f(x): x for x in l}] *)
Definition dict_by {A} (f : A → string) (l : list A) : gmap string A :=
  foldl (λ m x, <[f x := x]> m) ∅ l.

(** [dict(zip(l, m, strict=True))] *)
Definition zip_strict (l m : list string) : result (gmap string string) :=
  raise_when (negb (Nat.eqb (length l) (length m)))
    (ValueError "zip() argument 2 has another length than argument 1") ;;
  Ok (foldl (λ d kv, <[kv.1 := kv.2]> d) ∅ (zip l m)).

(** [{x: prefix + x for x in ids}[key]] *)
Definition prefixed (prefix : string) (ids : list string) (key : string) : result string :=
  if bool_decide (key ∈ ids) then Ok (prefix +:+ key) else Err (KeyError key).

(** How often [id] occurs at an end of the edges: [indegree] and [outdegree],
    whose keys are those looked up for the edges before. *)
Definition degree (ends : list string) (id : string) : Z :=
  Z.of_nat (length (filter (λ x, x = id) ends)).

Definition artifact_name (interface : gmap string string) (prefix value : string) : string :=
  default (prefix +:+ value) (interface !! value).

Definition exit_ids (p : ExecutionPlan) : list string :=
  filter (λ id, id ∉ map edge_source (edges p)) (map node_id (nodes p)).

(** [f"{placeholder.node_id}/"] *)
Definition prefix_of (placeholder : ExecutionNode) : string := node_id placeholder +:+ "/".

Definition component_metadata (placeholder : ExecutionNode) (c : WorkflowComponent)
    (is_exit : bool) (metadata : dict) : dict :=
  dict_update
    (dict_update metadata
       [("component_id", PStr (wc_component_id c));
        ("component_version", PStr (wc_version c));
        ("component_instance", PStr (node_id placeholder))])
    (if is_exit
     then [(COMPILED_COMPONENT_OUTPUT_SCHEMA_KEY, PDict (wc_output_schema c));
           (COMPILED_COMPONENT_ARTIFACT_CONTRACT_KEY, PDict (wc_artifact_contract c))]
     else []).

Definition prefix_node (placeholder : ExecutionNode) (c : WorkflowComponent)
    (compiled : ExecutionPlan) (interface : gmap string string) (n : ExecutionNode)
    : ExecutionNode :=
  let prefix := prefix_of placeholder in
  let is_exit := bool_decide (node_id n ∈ exit_ids compiled) in
  {| node_id := prefix +:+ node_id n;
     node_type := node_type n;
     task_kind := task_kind n;
     required_capabilities := required_capabilities n;
     allowed_tools := allowed_tools n;
     input_artifacts := map (artifact_name interface prefix) (input_artifacts n);
     output_artifacts := map (artifact_name interface prefix) (output_artifacts n);
     node_gate_id := if bool_decide (node_gate_id n ∈ map gate_id (gates compiled))
                     then prefix +:+ node_gate_id n else "";
     side_effect_class := side_effect_class n;
     node_budget := node_budget n;
     node_metadata := component_metadata placeholder c is_exit (node_metadata n) |}.

Definition prefix_edge (prefix : string) (ids : list string) (e : ExecutionEdge)
    : result ExecutionEdge :=
  source ← prefixed prefix ids (edge_source e);
  target ← prefixed prefix ids (edge_target e);
  Ok {| edge_source := source; edge_target := target; edge_condition := edge_condition e |}.

Definition rename_artifact (name : string) (a : ArtifactContract) : ArtifactContract :=
  {| artifact_id := name; media_type := media_type a; art_required := art_required a;
     schema_ref := schema_ref a |}.

Definition rename_gate (name : string) (g : ExecutionGate) : ExecutionGate :=
  {| gate_id := name; gate_type := gate_type g; required_roles := required_roles g;
     expires_after_seconds := expires_after_seconds g |}.

Definition _prefix_component (placeholder : ExecutionNode) (c : WorkflowComponent)
    (compiled : ExecutionPlan)
    : result (_Fragment * list ArtifactContract * list ExecutionGate) :=
  let prefix := prefix_of placeholder in
  let ids := map node_id (nodes compiled) in
  input_map ← zip_strict (wc_input_artifacts c) (input_artifacts placeholder);
  output_map ← zip_strict (wc_output_artifacts c) (output_artifacts placeholder);
  let interface := output_map ∪ input_map in
  edges' ← map_result (prefix_edge prefix ids) (edges compiled);
  let without (ends : list string) :=
    map (λ id, prefix +:+ id) (filter (λ id, degree ends id = 0) ids) in
  Ok ({| fr_nodes := map (prefix_node placeholder c compiled interface) (nodes compiled);
         fr_edges := edges';
         fr_entries := without (map edge_target (edges compiled));
         fr_exits := without (map edge_source (edges compiled)) |},
      map (λ a, rename_artifact (artifact_name interface prefix (artifact_id a)) a)
        (filter (λ a, interface !! artifact_id a = None) (artifacts compiled)),
      map (λ g, rename_gate (prefix +:+ gate_id g) g) (gates compiled)).

(** ** Component nodes *)

Definition _component_reference (n : ExecutionNode) : result (option (string * string)) :=
  if bool_decide (node_type n ≠ "component") then Ok None
  else match dict_get "component" (node_metadata n) with
  | Some (PDict raw) =>
      let component_id := first_str ["id"; "component_id"] "" raw in
      let version := first_str ["version"] "" raw in
      raise_when (negb (str_true component_id) || negb (_SEMVER version))
        (ValueError "workflow_component_reference_invalid") ;;
      Ok (Some (component_id, version))
  | _ => Err (ValueError "workflow_component_reference_required")
  end.

Definition _assert_narrowing (p : ExecutionPlan) (placeholder : ExecutionNode)
    (c : WorkflowComponent) : result unit :=
  raise_when (bool_decide (wc_policy_version c ≠ policy_version p))
    (ValueError "workflow_component_policy_escalation") ;;
  raise_when (any_missing (wc_required_capabilities c) (capabilities p))
    (ValueError "workflow_component_capability_escalation") ;;
  raise_when (any_missing (wc_allowed_tools c) (allowed_tools placeholder))
    (ValueError "workflow_component_tool_escalation") ;;
  raise_when (str_true (node_gate_id placeholder))
    (ValueError "workflow_component_placeholder_gate_unsupported") ;;
  raise_when (negb (Nat.eqb (length (wc_input_artifacts c)) (length (input_artifacts placeholder))))
    (ValueError "workflow_component_input_artifact_mismatch") ;;
  raise_when (negb (Nat.eqb (length (wc_output_artifacts c))
                      (length (output_artifacts placeholder))))
    (ValueError "workflow_component_output_artifact_mismatch").

(** ** Expansion *)

(** The local variables of [_compile]'s loop over the nodes. *)
Record expansion := {
  ex_fragments : gmap string _Fragment;
  ex_artifacts : gmap string ArtifactContract;
  ex_gates : gmap string ExecutionGate;
  ex_component_versions : dict;
}.

Definition initial_expansion (p : ExecutionPlan) : expansion :=
  {| ex_fragments := ∅;
     ex_artifacts := dict_by artifact_id (artifacts p);
     ex_gates := dict_by gate_id (gates p);
     ex_component_versions := [] |}.

#[global] Instance ArtifactContract_eq_dec : EqDecision ArtifactContract.
Proof. solve_decision. Defined.

(** [g == h]; [same]: equal expiries that are NaN are one object. *)
Definition gate_eqb (same : bool) (g h : ExecutionGate) : bool :=
  bool_decide (gate_id g = gate_id h) && bool_decide (gate_type g = gate_type h)
  && bool_decide (required_roles g = required_roles h)
  && py_eqb same (from_option PFloat PNone (expires_after_seconds g))
       (from_option PFloat PNone (expires_after_seconds h)).

(** [for x in l: if id(x) in d and d[id(x)] != x: raise; d[id(x)] = x] *)
Definition merge_named {A} (name : A → string) (eqb : A → A → bool) (code : string)
    (d : gmap string A) (x : A) : result (gmap string A) :=
  raise_when (match d !! name x with Some y => negb (eqb y x) | None => false end)
    (ValueError code) ;;
  Ok (<[name x := x]> d).

Definition merge_artifact : gmap string ArtifactContract → ArtifactContract →
    result (gmap string ArtifactContract) :=
  merge_named artifact_id (λ a b, bool_decide (a = b)) "workflow_component_artifact_conflict".

Definition merge_gate (same : bool) : gmap string ExecutionGate → ExecutionGate →
    result (gmap string ExecutionGate) :=
  merge_named gate_id (gate_eqb same) "workflow_component_gate_conflict".

(** The values of a dict in the order of its sorted keys. *)
Definition sorted_values {A} (d : gmap string A) : list A :=
  omap (λ key, d !! key) (sorted_strings (map fst (map_to_list d))).

(** [dict(sorted(d.items()))] *)
Definition sorted_items (d : dict) : dict := sort_by (λ a b, str_leb a.1 b.1) d.

Definition fragment_of (s : expansion) (id : string) : result _Fragment :=
  match ex_fragments s !! id with Some f => Ok f | None => Err (KeyError id) end.

(** The edges a root edge stands for: from every exit to every entry. *)
Definition join_fragments (e : ExecutionEdge) (source target : _Fragment) : list ExecutionEdge :=
  concat (map (λ x, map (λ y,
    {| edge_source := x; edge_target := y; edge_condition := edge_condition e |})
    (fr_entries target)) (fr_exits source)).

Definition cross_edges (s : expansion) (e : ExecutionEdge) : result (list ExecutionEdge) :=
  source ← fragment_of s (edge_source e);
  target ← fragment_of s (edge_target e);
  Ok (join_fragments e source target).

Section compiler.
Context `{JsonSchema} `{ModelRouting}.

(** The part of [_compile] after its loop. *)
Definition assemble (p : ExecutionPlan) (s : expansion) : result ExecutionPlan :=
  fragments ← map_result (λ n, fragment_of s (node_id n)) (nodes p);
  crossing ← map_result (cross_edges s) (edges p);
  let metadata := match ex_component_versions s with
  | [] => plan_metadata p
  | versions => dict_set "compiled_components" (PDict (sorted_items versions)) (plan_metadata p)
  end in
  let compiled := {|
    tenant_id := tenant_id p;
    plan_id := plan_id p;
    workflow_id := workflow_id p;
    policy_version := policy_version p;
    nodes := concat (map fr_nodes fragments);
    edges := concat (map fr_edges fragments) ++ concat crossing;
    capabilities := capabilities p;
    gates := sorted_values (ex_gates s);
    artifacts := sorted_values (ex_artifacts s);
    plan_budget := plan_budget p;
    plan_metadata := metadata;
    plan_schema := EXECUTION_PLAN_SCHEMA |} in
  assert_valid compiled ;;
  Ok compiled.

Definition single_fragment (n : ExecutionNode) : _Fragment :=
  {| fr_nodes := [n]; fr_edges := []; fr_entries := [node_id n]; fr_exits := [node_id n] |}.

Context (registry : WorkflowComponentRegistry) (max_depth : Z) (same : bool).

(** One turn of the loop; [rec] is [_compile]. *)
Definition expand_node
  (rec : list component_key → ExecutionPlan → result ExecutionPlan)
  (stack : list component_key) (p : ExecutionPlan) (s : expansion) (n : ExecutionNode)
  : result expansion :=
  reference ← _component_reference n;
  match reference with
  | None =>
      Ok {| ex_fragments := <[node_id n := single_fragment n]> (ex_fragments s);
        ex_artifacts := ex_artifacts s; ex_gates := ex_gates s;
        ex_component_versions := ex_component_versions s |}
  | Some (component_id, version) =>
      c ← resolve registry component_id version;
      raise_when (bool_decide (key_of c ∈ stack))
      (ValueError "workflow_component_recursive_cycle") ;;
      raise_when (max_depth <=? Z.of_nat (length stack))
      (ValueError "workflow_component_depth_exceeded") ;;
      _assert_narrowing p n c ;;
      input ← py_dict (por (dget "component_input" (node_metadata n)) (PDict []));
      validate_input c (PDict input) ;;
      nested ← rec (stack ++ [key_of c]) (wc_plan c);
      '(fragment, extra_artifacts, extra_gates) ← _prefix_component n c nested;
      artifacts ← fold_result merge_artifact (ex_artifacts s) extra_artifacts;
      gates ← fold_result (merge_gate same) (ex_gates s) extra_gates;
      Ok {| ex_fragments := <[node_id n := fragment]> (ex_fragments s);
        ex_artifacts := artifacts; ex_gates := gates;
        ex_component_versions :=
        dict_set (node_id n) (PStr (wc_component_id c +:+ "@" +:+ wc_version c))
        (ex_component_versions s) |}
  end.

(** The recursion is as deep as the stack grows: [max_depth] turns, and one that
    raises (compile_fuel). *)
Fixpoint _compile (fuel : nat) (stack : list component_key) (p : ExecutionPlan)
  : result ExecutionPlan :=
  match fuel with
  | O => Err (OverflowError "fuel")
  | S fuel =>
      s ← fold_result (expand_node (_compile fuel) stack p) (initial_expansion p) (nodes p);
      assemble p s
  end.

Definition compile (p : ExecutionPlan) : result ExecutionPlan :=
  raise_when (max_depth <? 1) (ValueError "workflow_component_depth_invalid") ;;
  assert_valid p ;;
  _compile (S (Z.to_nat max_depth)) [] p.
End compiler.
