(* ===== verification/ComponentLaws.v ===== *)
(** * What the component compiler promises

    Termination, the shape of a compiled plan, and that compiling neither drops
    a step or its gate, nor changes the order of steps, nor grants anything. *)
From S2P Require Import Prelude PyStr PyVal Digest Serialization SchemaEvolution Plan PlanGraph PlanLaws Components ComponentCompiler.

(** ** Lists of lists *)

Lemma elem_of_concat_map {A B} (f : A → list B) l y :
  y ∈ concat (map f l) ↔ ∃ x, x ∈ l ∧ y ∈ f x.
Proof.
  rewrite !list_elem_of_In, in_concat. setoid_rewrite in_map_iff.
  setoid_rewrite list_elem_of_In. naive_solver.
Qed.

Lemma NoDup_concat_map_inj {A B} (f : A → list B) l a b y :
  NoDup (concat (map f l)) → a ∈ l → b ∈ l → y ∈ f a → y ∈ f b → a = b.
Proof.
  induction l as [|x l IH]; cbn; [by intros _ ?%elem_of_nil|].
  intros (_ & Hdisj & Hnd)%NoDup_app Ha Hb Hya Hyb.
  apply elem_of_cons in Ha as [->|Ha], Hb as [->|Hb]; [done| | |by apply IH].
  - destruct (Hdisj y Hya). apply elem_of_concat_map. by exists b.
  - destruct (Hdisj y Hyb). apply elem_of_concat_map. by exists a.
Qed.

Lemma NoDup_concat_map {A B} (f : A → list B) l :
  NoDup (concat (map f l)) → (∀ x, x ∈ l → f x ≠ []) → NoDup l.
Proof.
  induction l as [|x l IH]; cbn; intros Hnd Hne; [constructor|].
  apply NoDup_app in Hnd as (_ & Hdisj & Hnd). constructor.
  - intros Hx. pose proof (Hne x ltac:(by left)) as Hfx.
    destruct (f x) as [|y ys] eqn:Hf; [done|].
    apply (Hdisj y); [by left|]. apply elem_of_concat_map. exists x. rewrite Hf. split; [done|by left].
  - apply IH; [done|]. intros y Hy. apply Hne. by right.
Qed.

Lemma fold_result_ext {S A} (f g : S → A → result S) s l :
  (∀ s x, f s x = g s x) → fold_result f s l = fold_result g s l.
Proof.
  intros Hfg. revert s. induction l as [|x l IH]; intros s; cbn; [done|].
  rewrite Hfg. destruct (g s x); cbn; [apply IH|done].
Qed.

(** ** Termination *)

Section compiler.
Context `{JsonSchema} `{ModelRouting}.
Context (registry : WorkflowComponentRegistry) (max_depth : Z) (same : bool).

Notation expand_node := (expand_node registry max_depth same).
Notation _compile := (_compile registry max_depth same).
Notation compile := (compile registry max_depth same).

Lemma expand_node_ext rec rec' stack p s n :
  (Z.of_nat (length stack) < max_depth →
    ∀ k q, rec (stack ++ [k]) q = rec' (stack ++ [k]) q) →
  expand_node rec stack p s n = expand_node rec' stack p s n.
Proof.
  intros Heq. unfold ComponentCompiler.expand_node.
  destruct (_component_reference n) as [[[id version]|]|]; cbn; [|done..].
  destruct (resolve registry id version) as [c|]; cbn; [|done].
  destruct (raise_when (bool_decide (key_of c ∈ stack)) _); cbn; [|done].
  destruct (Z.leb_spec max_depth (Z.of_nat (length stack))); cbn; [done|].
  by rewrite Heq by done.
Qed.

(** C20: the compiler ends: its recursion is never deeper than [max_depth] below
    the root, whatever the registry holds (components that contain each other
    included), so the fuel [compile] runs with and any larger fuel give the
    same answer. *)
Theorem compile_fuel p fuel :
  (S (Z.to_nat max_depth) ≤ fuel)%nat →
  _compile fuel [] p = _compile (S (Z.to_nat max_depth)) [] p.
Proof.
  intros Hf.
  assert (∀ n m stack q, (S (Z.to_nat max_depth) ≤ n + length stack)%nat →
      (S (Z.to_nat max_depth) ≤ m + length stack)%nat → (1 ≤ n)%nat → (1 ≤ m)%nat →
      _compile n stack q = _compile m stack q) as Hgen; [|apply Hgen; cbn; lia].
  clear. induction n as [|n IH]; intros [|m] stack q Hn Hm Hn1 Hm1; [lia..|].
  cbn [ComponentCompiler._compile].
  rewrite (fold_result_ext _ (expand_node (_compile m) stack q)); [done|].
  intros s node. apply expand_node_ext. intros Hlen k r.
  apply IH; rewrite ?length_app; cbn; lia.
Qed.

(** ** Fragments *)

Lemma component_reference_None n : _component_reference n = Ok None ↔ node_type n ≠ "component".
Proof.
  unfold _component_reference. case_bool_decide as Ht; [done|]. split; [|done].
  destruct (dict_get "component" (node_metadata n)) as [[]|]; try done.
  destruct (raise_when _ _); done.
Qed.

Lemma degree_zero ends id : degree ends id = 0 ↔ id ∉ ends.
Proof.
  unfold degree. split.
  - intros Hz Hin. assert (id ∈ filter (λ x, x = id) ends) as Hf by by apply list_elem_of_filter.
    destruct (filter _ ends); [by apply elem_of_nil in Hf|cbn in Hz; lia].
  - intros Hid. assert (filter (λ x, x = id) ends = []) as ->; [|done].
    destruct (filter _ ends) as [|x l] eqn:Hf; [done|].
    assert (x ∈ filter (λ x, x = id) ends) as Hx by (rewrite Hf; by left).
    apply list_elem_of_filter in Hx as [-> Hx]. done.
Qed.

Definition edge_pairs (es : list ExecutionEdge) : list (string * string) :=
  map (λ e, (edge_source e, edge_target e)) es.

Definition rename_edge (prefix : string) (e : ExecutionEdge) : ExecutionEdge :=
  {| edge_source := prefix +:+ edge_source e; edge_target := prefix +:+ edge_target e;
    edge_condition := edge_condition e |}.

Definition entry_ids (p : ExecutionPlan) : list string :=
  filter (λ id, id ∉ map edge_target (edges p)) (map node_id (nodes p)).

Lemma prefix_edges_Ok prefix ids es es' :
  map_result (prefix_edge prefix ids) es = Ok es' → es' = map (rename_edge prefix) es.
Proof.
  rewrite map_result_Ok. induction 1 as [|e e' es es' He _ IH]; [done|]. cbn. f_equal; [|done].
  unfold prefix_edge, prefixed in He. result_inv.
  case_bool_decide; [|done]. case_bool_decide; [|done]. result_inv. subst. done.
Qed.

(** The fragment, the artifacts and the gates of a component node. *)
Lemma prefix_component_Ok n c compiled F extra_artifacts extra_gates :
  _prefix_component n c compiled = Ok (F, extra_artifacts, extra_gates) →
  (∃ interface, fr_nodes F = map (prefix_node n c compiled interface) (nodes compiled) ∧
    ∀ a b, interface !! a = Some b → b ∈ input_artifacts n ++ output_artifacts n) ∧
  fr_edges F = map (rename_edge (prefix_of n)) (edges compiled) ∧
  fr_entries F = map (λ id, prefix_of n +:+ id) (entry_ids compiled) ∧
  fr_exits F = map (λ id, prefix_of n +:+ id) (exit_ids compiled) ∧
  extra_gates = map (λ g, rename_gate (prefix_of n +:+ gate_id g) g) (gates compiled).
Proof.
  unfold _prefix_component. intros Hp.
  apply result_bind_Ok in Hp as (ins & Hins & Hp). apply result_bind_Ok in Hp as (outs & Houts & Hp).
  apply result_bind_Ok in Hp as (es & Hes & Hp). injection Hp as <- _ <-.
  cbn [fr_nodes fr_edges fr_entries fr_exits]. apply prefix_edges_Ok in Hes.
  assert (∀ l m d, zip_strict l m = Ok d → ∀ a b, d !! a = Some b → b ∈ m) as Hzip.
  { clear. intros l m d Hz. unfold zip_strict in Hz. result_inv. subst d.
    intros x y. assert (∀ (kvs : list (string * string)) (d : gmap string string),
        foldl (λ d kv, <[kv.1:=kv.2]> d) d kvs !! x = Some y → d !! x = Some y ∨ y ∈ kvs.*2) as Hf.
    { induction kvs as [|[k v] kvs IH]; intros d; cbn; [by left|]. intros [Hd|Hin]%IH.
      - destruct (decide (k = x)) as [->|Hne].
        + rewrite lookup_insert_eq in Hd. injection Hd as ->. right. by left.
        + rewrite lookup_insert_ne in Hd by done. by left.
      - right. by right. }
    intros [Hd|Hin]%Hf; [by rewrite lookup_empty in Hd|].
    apply list_elem_of_fmap in Hin as ([z w] & -> & Hin). by apply elem_of_zip_r in Hin. }
  split_and!; [|done| | |done].
  - exists (outs ∪ ins). split; [done|]. intros a b. rewrite lookup_union_Some_raw.
    intros [Ho|[_ Hi]]; apply elem_of_app; [right|left]; eapply Hzip; eassumption.
  - f_equal. apply filter_ext_elem. intros id _. apply degree_zero.
  - f_equal. apply filter_ext_elem. intros id _. apply degree_zero.
Qed.

(** An exit node of a compiled component checks the component's output schema. *)
Lemma exit_checks_output n c compiled interface m value :
  node_id m ∈ exit_ids compiled →
  validate_compiled_component_output (prefix_node n c compiled interface m) value =
  validate_output c value.
Proof.
  intros Hm. unfold validate_compiled_component_output, prefix_node, component_metadata.
  cbn [node_metadata]. rewrite bool_decide_true by done. unfold dict_update at 1. cbn [foldl fst snd].
  unfold dget. rewrite dict_get_set_ne, dict_get_set_eq by done. done.
Qed.

(** ** Gates *)

(** Two gates that ask for the same thing, whatever they are called. *)
Definition same_gate (g h : ExecutionGate) : Prop :=
  gate_type g = gate_type h ∧ required_roles g = required_roles h.

#[local] Instance same_gate_equivalence : Equivalence same_gate.
Proof.
  unfold same_gate. split; [done|by intros ? ? [-> ->]|].
  intros ? ? ? [-> ->] [-> ->]. done.
Qed.

(** A gate dict that answers for a gate, under a name. *)
Definition answers (d : gmap string ExecutionGate) (name : string) (g : ExecutionGate) : Prop :=
  ∃ g', d !! name = Some g' ∧ same_gate g g'.

Definition named_gates (d : gmap string ExecutionGate) : Prop :=
  ∀ name g, d !! name = Some g → gate_id g = name.

Lemma merge_gate_Ok d g d' :
  named_gates d → merge_gate same d g = Ok d' →
  named_gates d' ∧ answers d' (gate_id g) g ∧ ∀ name h, answers d name h → answers d' name h.
Proof.
  unfold merge_gate, merge_named. intros Hd Hm. result_inv. subst d'.
  assert (∀ h, d !! gate_id g = Some h → same_gate h g) as Hsame.
  { intros h Hh. rewrite Hh in *. unfold gate_eqb in *.
    match goal with Hb : negb _ = false |- _ => apply negb_false_iff in Hb end.
    repeat match goal with Hb : _ && _ = true |- _ => apply andb_prop in Hb as [Hb ?] end.
    rewrite bool_decide_eq_true in *. done. }
  split_and!.
  - intros name h. destruct (decide (name = gate_id g)) as [->|Hne];
      [rewrite lookup_insert_eq; by intros [= ->]|rewrite lookup_insert_ne by done; apply Hd].
  - exists g. by rewrite lookup_insert_eq.
  - intros name h (h' & Hh' & Hs). destruct (decide (name = gate_id g)) as [->|Hne].
    + exists g. rewrite lookup_insert_eq. split; [done|]. etransitivity; [done|by apply Hsame].
    + exists h'. by rewrite lookup_insert_ne.
Qed.

Lemma merge_gates_Ok gs d d' :
  named_gates d → fold_result (merge_gate same) d gs = Ok d' →
  named_gates d' ∧ (∀ g, g ∈ gs → answers d' (gate_id g) g) ∧
  ∀ name h, answers d name h → answers d' name h.
Proof.
  revert d. induction gs as [|g gs IH]; intros d Hd; cbn.
  { intros [= <-]. split_and!; [done| |done]. by intros g ?%elem_of_nil. }
  intros (d1 & H1 & Hr)%result_bind_Ok. apply merge_gate_Ok in H1 as (Hd1 & Hg & Hkeep); [|done].
  destruct (IH d1 Hd1 Hr) as (Hd' & Hgs & Hkeep'). split_and!; [done| |by auto].
  intros h [->|Hh]%elem_of_cons; auto.
Qed.

Lemma dict_by_gates gs :
  named_gates (dict_by gate_id gs) ∧
  ∀ name, name ∈ map gate_id gs →
  ∃ g, g ∈ gs ∧ gate_id g = name ∧ dict_by gate_id gs !! name = Some g.
Proof.
  unfold dict_by. induction gs as [|g gs IH] using rev_ind; cbn.
  { split; [by intros ? ? ?|]. by intros ? ?%elem_of_nil. }
  rewrite foldl_app. cbn. set (d := foldl _ ∅ gs) in *. destruct IH as [Hn Hin]. split.
  - intros name h. destruct (decide (name = gate_id g)) as [->|Hne];
      [rewrite lookup_insert_eq; by intros [= ->]|rewrite lookup_insert_ne by done; apply Hn].
  - intros name. rewrite map_app, elem_of_app. intros Hname.
    destruct (decide (name = gate_id g)) as [->|Hne].
    + exists g. rewrite lookup_insert_eq. split; [|done]. apply elem_of_app. right. by left.
    + destruct Hname as [Hname|Hname%list_elem_of_singleton]; [|done].
      destruct (Hin name Hname) as (h & Hh & Hid & Hd). exists h.
      rewrite lookup_insert_ne by done. split_and!; [|done..]. apply elem_of_app. by left.
Qed.

(** ** The loop *)

Section pass.
Context (rec : list component_key → ExecutionPlan → result ExecutionPlan).
Context (stack : list component_key) (p : ExecutionPlan).

(** The fragment of a node, and the gates it brings. *)
Inductive fragment_for (n : ExecutionNode) : _Fragment → list ExecutionGate → Prop :=
  | plain_fragment : node_type n ≠ "component" → fragment_for n (single_fragment n) []
  | component_fragment id version c nested F extra_artifacts extra_gates :
  _component_reference n = Ok (Some (id, version)) →
  resolve registry id version = Ok c →
  _assert_narrowing p n c = Ok tt →
  rec (stack ++ [key_of c]) (wc_plan c) = Ok nested →
  _prefix_component n c nested = Ok (F, extra_artifacts, extra_gates) →
  fragment_for n F extra_gates.

Lemma fragment_plain n F extra_gates :
  fragment_for n F extra_gates → node_type n ≠ "component" → F = single_fragment n.
Proof.
  intros [|? ? ? ? ? ? ? Href] Ht; [done|]. apply component_reference_None in Ht. congruence.
Qed.

Lemma fragment_opened n F extra_gates id version :
  fragment_for n F extra_gates → _component_reference n = Ok (Some (id, version)) →
  ∃ c nested extra_artifacts, resolve registry id version = Ok c ∧
  _assert_narrowing p n c = Ok tt ∧ rec (stack ++ [key_of c]) (wc_plan c) = Ok nested ∧
  _prefix_component n c nested = Ok (F, extra_artifacts, extra_gates).
Proof.
  intros [Ht|? ? ? ? ? ? ? Href] Href'; [apply component_reference_None in Ht; congruence|].
  rewrite Href in Href'. injection Href' as -> ->. eauto 10.
Qed.

Record expanded (seen : list ExecutionNode) (s : expansion) : Prop := {
    xp_fragment : ∀ id F, ex_fragments s !! id = Some F →
    ∃ n extra_gates, n ∈ seen ∧ node_id n = id ∧ fragment_for n F extra_gates ∧
    ∀ g, g ∈ extra_gates → answers (ex_gates s) (gate_id g) g;
    xp_named : named_gates (ex_gates s);
    xp_gates : ∀ name, name ∈ map gate_id (gates p) →
    ∃ g, g ∈ gates p ∧ gate_id g = name ∧ answers (ex_gates s) name g;
  }.

Lemma initial_expanded : expanded [] (initial_expansion p).
Proof.
  destruct (dict_by_gates (gates p)) as [Hn Hg]. constructor; [by intros ? ? ?|done|].
  intros name Hname. destruct (Hg name Hname) as (g & Hin & Hid & Hd). exists g.
  split_and!; [done..|]. by exists g.
Qed.

Lemma expand_node_expanded seen s n s' :
  expanded seen s → expand_node rec stack p s n = Ok s' → expanded (seen ++ [n]) s'.
Proof.
  intros [Hfrag Hnamed Hgates] He. unfold ComponentCompiler.expand_node in He.
  apply result_bind_Ok in He as (reference & Href & He).
  assert (∀ F extra_gates gs, fragment_for n F extra_gates → named_gates gs →
      (∀ g, g ∈ extra_gates → answers gs (gate_id g) g) →
      (∀ name h, answers (ex_gates s) name h → answers gs name h) →
      ∀ arts vs, expanded (seen ++ [n]) {| ex_fragments := <[node_id n := F]> (ex_fragments s);
        ex_artifacts := arts; ex_gates := gs; ex_component_versions := vs |}) as Hstep.
  { intros F extra_gates gs HF Hgs Hextra Hkeep arts vs. constructor; cbn; [|done|].
    - intros id F'. destruct (decide (id = node_id n)) as [->|Hne].
      + rewrite lookup_insert_eq. intros [= <-]. exists n, extra_gates.
        split_and!; [|done..]. apply elem_of_app. right. by left.
      + rewrite lookup_insert_ne by done. intros (m & gates' & Hm & Hid & Hf & Ha)%Hfrag.
        exists m, gates'. split_and!; [apply elem_of_app; by left|done..|]. auto.
    - intros name (g & Hg & Hid & Ha)%Hgates. exists g. auto. }
  destruct reference as [[id version]|].
  - apply result_bind_Ok in He as (c & Hc & He).
    do 2 apply result_bind_Ok in He as ([] & _ & He).
    apply result_bind_Ok in He as ([] & Hnarrow & He).
    apply result_bind_Ok in He as (input & _ & He).
    apply result_bind_Ok in He as ([] & _ & He).
    apply result_bind_Ok in He as (nested & Hnested & He).
    apply result_bind_Ok in He as ([[F extra_artifacts] extra_gates] & HF & He).
    apply result_bind_Ok in He as (arts & _ & He).
    apply result_bind_Ok in He as (gs & Hgs & He). injection He as <-.
    apply merge_gates_Ok in Hgs as (Hn' & Hx & Hk); [|done].
    apply (Hstep _ extra_gates); [|done..]. eapply component_fragment; eassumption.
  - injection He as <-. apply (Hstep _ []); [|done| |done].
    + constructor. by apply component_reference_None.
    + by intros g ?%elem_of_nil.
Qed.

Lemma loop_expanded s :
  fold_result (expand_node rec stack p) (initial_expansion p) (nodes p) = Ok s →
  expanded (nodes p) s.
Proof.
  apply (fold_result_ind _ expanded); [apply initial_expanded|].
  intros seen n rest t t' _. apply expand_node_expanded.
Qed.

(** ** The compiled plan *)

Definition no_fragment : _Fragment :=
  {| fr_nodes := []; fr_edges := []; fr_entries := []; fr_exits := [] |}.

(** [q] is [p] with every node replaced by its fragment. *)
Record compiled_from (frag : string → _Fragment) (q : ExecutionPlan) : Prop := {
    cf_valid : plan_valid q;
    cf_ids : NoDup (map node_id (nodes p));
    cf_nodes : nodes q = concat (map (λ n, fr_nodes (frag (node_id n))) (nodes p));
    cf_edges : edges q = concat (map (λ n, fr_edges (frag (node_id n))) (nodes p)) ++
    concat (map (λ e, join_fragments e (frag (edge_source e)) (frag (edge_target e))) (edges p));
    cf_ends : ∀ e, e ∈ edges p →
    edge_source e ∈ map node_id (nodes p) ∧ edge_target e ∈ map node_id (nodes p);
    cf_fragment : ∀ n, n ∈ nodes p → ∃ extra_gates,
    fragment_for n (frag (node_id n)) extra_gates ∧
    ∀ g, g ∈ extra_gates → ∃ g', g' ∈ gates q ∧ gate_id g' = gate_id g ∧ same_gate g g';
    cf_gates : ∀ name, name ∈ map gate_id (gates p) → ∃ g g', g ∈ gates p ∧ gate_id g = name ∧
    g' ∈ gates q ∧ gate_id g' = name ∧ same_gate g g';
    cf_bounds : tenant_id q = tenant_id p ∧ policy_version q = policy_version p ∧
    capabilities q = capabilities p ∧ plan_budget q = plan_budget p;
  }.

Lemma elem_of_sorted_values {A} (d : gmap string A) key x :
  d !! key = Some x → x ∈ sorted_values d.
Proof.
  intros Hd. apply list_elem_of_omap. exists key. split; [|done].
  apply elem_of_sorted_strings, list_elem_of_fmap. exists (key, x).
  split; [done|]. by apply elem_of_map_to_list.
Qed.

Lemma fragments_Ok {A B C} (f : A → result B) (g : B → C) (h : A → C) l bs :
  (∀ a b, f a = Ok b → g b = h a) → map_result f l = Ok bs → map g bs = map h l.
Proof.
  intros Hf. rewrite map_result_Ok. induction 1 as [|a b l bs Hab _ IH]; cbn; [done|].
  by rewrite IH, (Hf a b Hab).
Qed.

Context (rec_valid : ∀ k q q', rec k q = Ok q' → plan_valid q').

Lemma fragment_nonempty n F extra_gates : fragment_for n F extra_gates → fr_nodes F ≠ [].
Proof using rec_valid.
  intros [|id version c nested F' ? ? _ _ _ Hn Hp]; [done|].
  apply prefix_component_Ok in Hp as ((interface & -> & _) & _).
  apply rec_valid in Hn as [_ (Hne & _) _ _ _ _ _ _ _ _]. by destruct (nodes nested).
Qed.

Lemma assemble_Ok s q :
  expanded (nodes p) s → assemble p s = Ok q →
  compiled_from (λ id, default no_fragment (ex_fragments s !! id)) q.
Proof using rec_valid.
  intros [Hfrag Hnamed Hgates] Ha. unfold assemble in Ha.
  apply result_bind_Ok in Ha as (Fs & HFs & Ha). apply result_bind_Ok in Ha as (cs & Hcs & Ha).
  apply result_bind_Ok in Ha as ([] & Hv & Ha). injection Ha as <-.
  apply assert_valid_inv in Hv. set (frag := λ id, default no_fragment (ex_fragments s !! id)).
  assert (∀ n F, fragment_of s (node_id n) = Ok F → F = frag (node_id n)) as Hof.
  { intros n F. unfold fragment_of, frag. destruct (_ !! node_id n); cbn; congruence. }
  assert (∀ B (g : _Fragment → B), map g Fs = map (λ n, g (frag (node_id n))) (nodes p)) as Hmap.
  { intros B g. eapply fragments_Ok; [|exact HFs]. intros n F HF. by rewrite (Hof n F HF). }
  assert (∀ id F, fragment_of s id = Ok F → id ∈ map node_id (nodes p)) as Hknown.
  { intros id F. unfold fragment_of. destruct (_ !! id) as [F'|] eqn:HF; [|done]. intros _.
    destruct (Hfrag _ _ HF) as (m & _ & Hm & <- & _). apply list_elem_of_fmap. by exists m. }
  assert (∀ n, n ∈ nodes p → ∃ m extra_gates, m ∈ nodes p ∧ node_id m = node_id n ∧
      fragment_for m (frag (node_id n)) extra_gates ∧
      ∀ g, g ∈ extra_gates → answers (ex_gates s) (gate_id g) g) as Hall.
  { intros n Hn. destruct (map_result_elem _ _ _ _ HFs Hn) as (F & HF & _).
    rewrite <- (Hof n F HF). unfold fragment_of in HF.
    destruct (_ !! node_id n) as [F'|] eqn:HF'; [|done]. injection HF as <-.
    destruct (Hfrag _ _ HF') as (m & gs & ? & ? & ? & ?). by exists m, gs. }
  assert (∀ name g, answers (ex_gates s) name g →
      ∃ g', g' ∈ sorted_values (ex_gates s) ∧ gate_id g' = name ∧ same_gate g g') as Hans.
  { intros name g (g' & Hg' & Hs). exists g'. split_and!; [|by apply Hnamed|done].
    by eapply elem_of_sorted_values. }
  pose proof (pv_node_ids _ Hv) as (_ & Hids & _). cbn [nodes] in Hids.
  rewrite Hmap, concat_map, map_map in Hids.
  assert (NoDup (map node_id (nodes p))) as Hnd.
  { apply (NoDup_concat_map (λ id, map node_id (fr_nodes (frag id)))); [by rewrite map_map|].
    intros id (n & -> & Hn)%list_elem_of_fmap. destruct (Hall n Hn) as (m & gs & _ & _ & HF & _).
    apply fragment_nonempty in HF. by destruct (fr_nodes (frag (node_id n))). }
  constructor; try done; cbn [nodes edges gates].
  - by rewrite Hmap.
  - rewrite Hmap. f_equal. f_equal. rewrite <- (map_id cs).
    eapply fragments_Ok; [|exact Hcs]. intros e es. unfold cross_edges, fragment_of, frag.
    destruct (_ !! edge_source e); cbn; [|done]. destruct (_ !! edge_target e); cbn; [|done].
    by intros [= <-].
  - intros e He. destruct (map_result_elem _ _ _ _ Hcs He) as (es & Hes & _).
    unfold cross_edges in Hes. result_inv. split; eapply Hknown; eassumption.
  - intros n Hn. destruct (Hall n Hn) as (m & gs & Hm & Hid & HF & Hg). exists gs.
    assert (m = n) as ->; [|split; [done|]; by auto].
    by eapply (NoDup_map_inj node_id).
  - intros name (g & Hg & Hid & Ha)%Hgates. destruct (Hans name g Ha) as (g' & ? & ? & ?).
    by exists g, g'.
Qed.
End pass.

Lemma compile_valid fuel stack p q : _compile fuel stack p = Ok q → plan_valid q.
Proof.
  destruct fuel as [|fuel]; [done|]. cbn. intros (s & _ & Ha)%result_bind_Ok.
  unfold assemble in Ha. apply result_bind_Ok in Ha as (? & _ & Ha).
  apply result_bind_Ok in Ha as (? & _ & Ha). apply result_bind_Ok in Ha as ([] & Hv & Ha).
  injection Ha as <-. by apply assert_valid_inv.
Qed.

Lemma compile_step fuel stack p q :
  _compile fuel stack p = Ok q →
  ∃ fuel' frag, fuel = S fuel' ∧ compiled_from (_compile fuel') stack p frag q.
Proof.
  destruct fuel as [|fuel]; [done|]. cbn. intros (s & Hs & Ha)%result_bind_Ok.
  exists fuel. eexists. split; [done|]. eapply assemble_Ok; [|by apply loop_expanded|exact Ha].
  intros k r r'. apply compile_valid.
Qed.

(** ** Every step, and nothing else *)

(** The steps of a plan once its components are opened: [leaf p x owner n] says
    that the path [x] leads to the step [n] of the plan [owner], which is [p] or
    the plan of a component in it, at any depth. *)
Inductive leaf : ExecutionPlan → string → ExecutionPlan → ExecutionNode → Prop :=
  | leaf_here p n : n ∈ nodes p → node_type n ≠ "component" → leaf p (node_id n) p n
  | leaf_inside p n id version c x owner m :
  n ∈ nodes p → _component_reference n = Ok (Some (id, version)) →
  resolve registry id version = Ok c →
  leaf (wc_plan c) x owner m → leaf p (prefix_of n +:+ x) owner m.

(** What a compiled step keeps of the step it comes from. *)
Record same_step (n m : ExecutionNode) : Prop := {
    ss_type : node_type n = node_type m;
    ss_kind : task_kind n = task_kind m;
    ss_capabilities : required_capabilities n = required_capabilities m;
    ss_tools : allowed_tools n = allowed_tools m;
    ss_side_effects : side_effect_class n = side_effect_class m;
    ss_budget : node_budget n = node_budget m;
  }.

(** A step is gated in [q] the way [n] is gated in [owner]. *)
Definition keeps_gate (owner : ExecutionPlan) (n : ExecutionNode) (q : ExecutionPlan)
  (m : ExecutionNode) : Prop :=
  node_gate_id n ∈ map gate_id (gates owner) → ∃ g g', g ∈ gates owner ∧
  gate_id g = node_gate_id n ∧ g' ∈ gates q ∧ gate_id g' = node_gate_id m ∧ same_gate g g'.

Lemma prefix_node_keeps n c compiled interface m q :
  (∀ g, g ∈ gates compiled →
    ∃ g', g' ∈ gates q ∧ gate_id g' = prefix_of n +:+ gate_id g ∧ same_gate g g') →
  same_step m (prefix_node n c compiled interface m) ∧
  ∀ owner l, keeps_gate owner l compiled m →
  keeps_gate owner l q (prefix_node n c compiled interface m).
Proof.
  intros Hgates. split; [done|]. intros owner l Hkeep Hl.
  destruct (Hkeep Hl) as (g & g1 & Hg & Hid & Hg1 & Hid1 & Hs).
  destruct (Hgates g1 Hg1) as (g' & Hg' & Hid' & Hs'). exists g, g'.
  split_and!; [done..| |by etransitivity]. cbn. rewrite Hid', Hid1, bool_decide_true; [done|].
  rewrite <- Hid1. apply list_elem_of_fmap. by exists g1.
Qed.

(** The gates of a compiled component are gates of the plan it is part of. *)
Lemma prefixed_gates n F extra_gates c nested extra_artifacts q :
  (∀ g, g ∈ extra_gates → ∃ g', g' ∈ gates q ∧ gate_id g' = gate_id g ∧ same_gate g g') →
  _prefix_component n c nested = Ok (F, extra_artifacts, extra_gates) →
  ∀ g, g ∈ gates nested → ∃ g', g' ∈ gates q ∧ gate_id g' = prefix_of n +:+ gate_id g ∧ same_gate g g'.
Proof.
  intros Hextra (_ & _ & _ & _ & ->)%prefix_component_Ok g Hg.
  destruct (Hextra (rename_gate (prefix_of n +:+ gate_id g) g)) as (g' & ? & ? & ?).
  { apply list_elem_of_fmap. by exists g. }
  by exists g'.
Qed.

Lemma compile_steps fuel stack p q :
  _compile fuel stack p = Ok q →
  (∀ m, m ∈ nodes q → ∃ owner n, leaf p (node_id m) owner n) ∧
  (∀ x owner n, leaf p x owner n →
    ∃ m, m ∈ nodes q ∧ node_id m = x ∧ same_step n m ∧ keeps_gate owner n q m).
Proof.
  revert stack p q. induction fuel as [|fuel IH]; intros stack p q Hc; [done|].
  destruct (compile_step _ _ _ _ Hc) as (fuel' & frag & [= <-] & Hf). clear Hc. split.
  - intros m. rewrite (cf_nodes _ _ _ _ _ Hf). intros (n & Hn & Hm)%elem_of_concat_map.
    destruct (cf_fragment _ _ _ _ _ Hf n Hn) as (gs & HF & _).
    destruct HF as [Ht|id version c nested F arts gs Href Hres _ Hnest Hp].
    + apply list_elem_of_singleton in Hm as ->. exists p, n. by constructor.
    + apply prefix_component_Ok in Hp as ((interface & HF & _) & _). rewrite HF in Hm.
      apply list_elem_of_fmap in Hm as (m1 & -> & Hm1).
      destruct (proj1 (IH _ _ _ Hnest) m1 Hm1) as (owner & l & Hl). exists owner, l.
      by eapply leaf_inside.
  - intros x owner l Hl. destruct Hl as [p n Hn Ht|p n id version c x owner l Hn Href Hres Hl].
    + destruct (cf_fragment _ _ _ _ _ Hf n Hn) as (gs & HF & _). exists n.
      apply fragment_plain in HF as HF; [|done]. split_and!; [|done..|].
      * rewrite (cf_nodes _ _ _ _ _ Hf). apply elem_of_concat_map. exists n.
        split; [done|]. rewrite HF. by left.
      * intros Hg. destruct (cf_gates _ _ _ _ _ Hf _ Hg) as (g & g' & ? & ? & ? & ? & ?).
        by exists g, g'.
    + destruct (cf_fragment _ _ _ _ _ Hf n Hn) as (gs & HF & Hgs).
      destruct (fragment_opened _ _ _ _ _ _ _ _ HF Href) as (c' & nested & arts & Hres' & _ & Hnest & Hp).
      rewrite Hres in Hres'. injection Hres' as <-.
      destruct (proj2 (IH _ _ _ Hnest) _ _ _ Hl) as (m & Hm & <- & Hsame & Hkeep).
      pose proof (prefixed_gates _ _ _ _ _ _ _ Hgs Hp) as Hgates.
      apply prefix_component_Ok in Hp as ((interface & Hnodes & _) & _).
      exists (prefix_node n c nested interface m). split_and!; [|done| |].
      * rewrite (cf_nodes _ _ _ _ _ Hf). apply elem_of_concat_map. exists n.
        split; [done|]. rewrite Hnodes. apply list_elem_of_fmap. by exists m.
      * destruct Hsame. by constructor.
      * by apply (proj2 (prefix_node_keeps n c nested interface m q Hgates)).
Qed.

Lemma compile_Ok p q :
  compile p = Ok q → plan_valid p ∧ _compile (S (Z.to_nat max_depth)) [] p = Ok q.
Proof.
  unfold ComponentCompiler.compile. intros ([] & _ & Hc)%result_bind_Ok.
  apply result_bind_Ok in Hc as ([] & Hv & Hc). by apply assert_valid_inv in Hv.
Qed.

(** C19: a compiled plan has exactly the steps its components stand for: every
    compiled node is a step of the plan or, under its path, of a component in
    it, and every such step is there, with its type, kind, capabilities, tools,
    side-effect class and budget unchanged; a step that was gated still is, by a
    gate of the same type that asks the same roles. *)
Theorem compile_steps_exact p q :
  compile p = Ok q →
  (∀ m, m ∈ nodes q → ∃ owner n, leaf p (node_id m) owner n) ∧
  (∀ x owner n, leaf p x owner n →
    ∃ m, m ∈ nodes q ∧ node_id m = x ∧ same_step n m ∧ keeps_gate owner n q m).
Proof. intros [_ Hc]%compile_Ok. by eapply compile_steps. Qed.

(** ** Nothing is granted *)

(** What a compiled node may use, against the node it stands under. *)
Record within (n m : ExecutionNode) : Prop := {
    wi_tools : ∀ t, t ∈ allowed_tools m → t ∈ allowed_tools n;
    wi_origin : m = n ∨ node_type n = "component" ∧
    (∃ x, node_id m = prefix_of n +:+ x) ∧
    ∀ a, a ∈ input_artifacts m ++ output_artifacts m →
    a ∈ input_artifacts n ++ output_artifacts n ∨ ∃ x, a = prefix_of n +:+ x;
  }.

Lemma artifact_name_within n interface a :
  (∀ x y, interface !! x = Some y → y ∈ input_artifacts n ++ output_artifacts n) →
  artifact_name interface (prefix_of n) a ∈ input_artifacts n ++ output_artifacts n ∨
  ∃ x, artifact_name interface (prefix_of n) a = prefix_of n +:+ x.
Proof.
  intros Hi. unfold artifact_name. destruct (interface !! a) as [b|] eqn:Ha; cbn; [left|right]; eauto.
Qed.

Lemma narrowing_tools p n c t :
  _assert_narrowing p n c = Ok tt → t ∈ wc_allowed_tools c → t ∈ allowed_tools n.
Proof.
  unfold _assert_narrowing. intros Hn. result_inv. rewrite any_missing_false in *. auto.
Qed.

Lemma compile_narrows fuel stack p q m :
  registry_ok registry → _compile fuel stack p = Ok q → m ∈ nodes q →
  node_type m ≠ "component" ∧ ∃ n, n ∈ nodes p ∧ within n m.
Proof.
  intros Hok. revert stack p q m. induction fuel as [|fuel IH]; intros stack p q m Hc; [done|].
  destruct (compile_step _ _ _ _ Hc) as (fuel' & frag & [= <-] & Hf). clear Hc.
  rewrite (cf_nodes _ _ _ _ _ Hf). intros (n & Hn & Hm)%elem_of_concat_map.
  destruct (cf_fragment _ _ _ _ _ Hf n Hn) as (gs & HF & _).
  destruct HF as [Ht|id version c nested F arts gs Href Hres Hnarrow Hnest Hp].
  { apply list_elem_of_singleton in Hm as ->. split; [done|]. exists n. split; [done|].
    constructor; auto. }
  apply prefix_component_Ok in Hp as ((interface & HF & Hi) & _). rewrite HF in Hm.
  apply list_elem_of_fmap in Hm as (m1 & -> & Hm1).
  destruct (IH _ _ _ _ Hnest Hm1) as (Ht & n1 & Hn1 & Hw). split; [done|]. exists n.
  split; [done|]. constructor.
  - intros t Htool. eapply narrowing_tools; [done|].
    destruct (resolve_Ok _ _ _ _ Hok Hres) as (Hv & _).
    eapply (cv_tools _ Hv); [exact Hn1|]. by apply (wi_tools _ _ Hw).
  - right. split_and!.
    + destruct (decide (node_type n = "component")) as [|Hne]; [done|].
      apply component_reference_None in Hne. congruence.
    + by eexists.
    + intros a [Ha|Ha]%elem_of_app; apply list_elem_of_fmap in Ha as (b & -> & _);
        by apply artifact_name_within.
Qed.

Context `{Digest}.

(** C18: components narrow and never grant: the plan compiled against a registry
    any calls of [register] built passes validation, has the tenant, policy
    version, capabilities and budget of the source plan and no component node
    left; each of its nodes is a node of the source or lies under one component
    node of it, uses no tool that node was not allowed, asks no capability the
    plan does not declare, and touches no artifact but those of that node and
    those under its path. *)
Theorem compile_no_escalation p q :
  reachable run_register ∅ registry → compile p = Ok q →
  plan_valid q ∧
  (tenant_id q = tenant_id p ∧ policy_version q = policy_version p ∧
    capabilities q = capabilities p ∧ plan_budget q = plan_budget p) ∧
  ∀ m, m ∈ nodes q → node_type m ≠ "component" ∧
  (∀ c, c ∈ required_capabilities m → c ∈ capabilities p) ∧
  ∃ n, n ∈ nodes p ∧ within n m.
Proof.
  intros Hreg%reachable_registry_ok [_ Hc]%compile_Ok. pose proof (compile_valid _ _ _ _ Hc) as Hv.
  destruct (compile_step _ _ _ _ Hc) as (fuel & frag & _ & Hf). pose proof (cf_bounds _ _ _ _ _ Hf) as Hb.
  split_and!; [done|apply Hb..|]. intros m Hm.
  destruct (compile_narrows _ _ _ _ _ Hreg Hc Hm) as [Ht Hn]. split_and!; [done| |done].
  destruct Hb as (_ & _ & <- & _). by apply (nv_capabilities _ _ (pv_nodes _ Hv m Hm)).
Qed.
End compiler.
