(* ===== verification/ComponentOrder.v ===== *)
(** * The component compiler keeps the order of steps

    Two steps of different nodes of a plan depend on each other in the compiled
    plan exactly when their nodes do in the source. *)
From S2P Require Import Prelude PyStr PyVal Digest Serialization SchemaEvolution Plan PlanGraph PlanLaws Components ComponentCompiler ComponentLaws.

(** ** Entries and exits *)

Lemma tc_flip {A} (R : relation A) x y : tc (flip R) x y → tc R y x.
Proof.
  induction 1 as [x y Hxy|x y z Hxy _ IH]; [by apply tc_once|]. eapply tc_r; [exact IH|exact Hxy].
Qed.

Lemma rtc_flip {A} (R : relation A) x y : rtc (flip R) x y → rtc R y x.
Proof. induction 1 as [|x y z Hxy _ IH]; [done|]. by eapply rtc_r. Qed.

(** Following a relation inside a finite set that has no cycle ends where there
    is no next step. *)
Lemma acyclic_end {A} (R : relation A) (l : list A) x :
  (∀ a b, R a b → b ∈ l) → (∀ a, ¬ tc R a a) → (∀ a, Decision (red R a)) →
  ∃ y, rtc R x y ∧ nf R y.
Proof.
  intros Hfin Hacyc Hdec. apply sn_wn, tc_finite_sn; [exact Hacyc|].
  exists l. intros y Hy. apply tc_last in Hy as [Hy|(z & _ & Hy)]; eauto.
Qed.

Section valid.
Context (p : ExecutionPlan) (Hp : plan_valid p).

Lemma plan_edge_pair u v : plan_edge p u v ↔ (u, v) ∈ edge_pairs (edges p).
Proof using Hp.
  unfold plan_edge, edge_pairs. split; [tauto|]. intros Hin. split_and!; [| |done];
    apply list_elem_of_fmap in Hin as (e & [= -> ->] & He); apply (pv_edges _ Hp e He).
Qed.

Lemma red_source u : red (plan_edge p) u ↔ u ∈ map edge_source (edges p).
Proof using Hp.
  unfold red. setoid_rewrite plan_edge_pair. unfold edge_pairs. split.
  - intros (v & Hv). apply list_elem_of_fmap in Hv as (e & [= -> ->] & He).
    apply list_elem_of_fmap. by exists e.
  - intros (e & -> & He)%list_elem_of_fmap. exists (edge_target e).
    apply list_elem_of_fmap. by exists e.
Qed.

Lemma red_target u : red (flip (plan_edge p)) u ↔ u ∈ map edge_target (edges p).
Proof using Hp.
  unfold red, flip. setoid_rewrite plan_edge_pair. unfold edge_pairs. split.
  - intros (v & Hv). apply list_elem_of_fmap in Hv as (e & [= -> ->] & He).
    apply list_elem_of_fmap. by exists e.
  - intros (e & -> & He)%list_elem_of_fmap. exists (edge_source e).
    apply list_elem_of_fmap. by exists e.
Qed.

(** From every node a path leads to a node without successors, and to every node
    one leads from a node without predecessors. *)
Lemma reaches_exit u :
  u ∈ map node_id (nodes p) → ∃ v, v ∈ exit_ids p ∧ rtc (plan_edge p) u v.
Proof using Hp.
  intros Hu. destruct (acyclic_end (plan_edge p) (map node_id (nodes p)) u) as (v & Hv & Hnf).
  - by intros a b (_ & Hb & _).
  - apply (pv_acyclic _ Hp).
  - intros a. destruct (decide (a ∈ map edge_source (edges p))); [left|right]; by rewrite red_source.
  - exists v. split; [|done]. unfold exit_ids. apply list_elem_of_filter. split.
    + rewrite <- red_source. exact Hnf.
    + apply rtc_inv_r in Hv as [->|(w & _ & Hw)]; [done|]. apply Hw.
Qed.

Lemma reached_from_entry u :
  u ∈ map node_id (nodes p) → ∃ v, v ∈ entry_ids p ∧ rtc (plan_edge p) v u.
Proof using Hp.
  intros Hu. destruct (acyclic_end (flip (plan_edge p)) (map node_id (nodes p)) u) as (v & Hv & Hnf).
  - by intros a b (Hb & _).
  - intros a Ha. apply (pv_acyclic _ Hp a), tc_flip, Ha.
  - intros a. destruct (decide (a ∈ map edge_target (edges p))); [left|right]; by rewrite red_target.
  - exists v. split; [|by apply rtc_flip]. unfold entry_ids. apply list_elem_of_filter. split.
    + rewrite <- red_target. exact Hnf.
    + apply rtc_inv_r in Hv as [->|(w & _ & Hw)]; [done|]. apply Hw.
Qed.
End valid.

(** ** Fragments *)

Definition fragment_ids (F : _Fragment) : list string := map node_id (fr_nodes F).

(** A fragment is entered at its entries and left at its exits, and its edges
    stay inside it. *)
Record fragment_ok (F : _Fragment) : Prop := {
  fo_edges : ∀ x y, (x, y) ∈ edge_pairs (fr_edges F) → x ∈ fragment_ids F ∧ y ∈ fragment_ids F;
  fo_entries : ∀ x, x ∈ fr_entries F → x ∈ fragment_ids F;
  fo_exits : ∀ x, x ∈ fr_exits F → x ∈ fragment_ids F;
  fo_to_exit : ∀ x, x ∈ fragment_ids F →
    ∃ y, y ∈ fr_exits F ∧ rtc (λ x y, (x, y) ∈ edge_pairs (fr_edges F)) x y;
  fo_from_entry : ∀ x, x ∈ fragment_ids F →
    ∃ y, y ∈ fr_entries F ∧ rtc (λ x y, (x, y) ∈ edge_pairs (fr_edges F)) y x;
  fo_nonempty : fragment_ids F ≠ [];
}.

Lemma single_fragment_ok n : fragment_ok (single_fragment n).
Proof.
  constructor; cbn; try done.
  - by intros x y ?%elem_of_nil.
  - intros x ->%list_elem_of_singleton. exists (node_id n). split; [by left|done].
  - intros x ->%list_elem_of_singleton. exists (node_id n). split; [by left|done].
Qed.

Lemma prefixed_fragment_ok n c nested F extra_artifacts extra_gates :
  plan_valid nested → _prefix_component n c nested = Ok (F, extra_artifacts, extra_gates) →
  fragment_ok F.
Proof.
  intros Hv ((interface & Hn & _) & He & Hen & Hex & _)%prefix_component_Ok.
  assert (fragment_ids F = map (λ id, prefix_of n +:+ id) (map node_id (nodes nested))) as Hids.
  { unfold fragment_ids. by rewrite Hn, !map_map. }
  assert (∀ x y, plan_edge nested x y →
    (prefix_of n +:+ x, prefix_of n +:+ y) ∈ edge_pairs (fr_edges F)) as Hedge.
  { intros x y. rewrite plan_edge_pair by done. rewrite He. unfold edge_pairs. rewrite map_map.
    intros (e & [= -> ->] & Hin)%list_elem_of_fmap. apply list_elem_of_fmap. by exists e. }
  constructor.
  - intros x y. rewrite He, Hids. unfold edge_pairs. rewrite map_map.
    intros (e & [= -> ->] & Hin)%list_elem_of_fmap. destruct (pv_edges _ Hv e Hin) as (? & ? & _).
    split; apply list_elem_of_fmap; eauto.
  - intros x. rewrite Hen, Hids. intros (id & -> & Hin)%list_elem_of_fmap.
    apply list_elem_of_filter in Hin as [_ Hin]. apply list_elem_of_fmap. eauto.
  - intros x. rewrite Hex, Hids. intros (id & -> & Hin)%list_elem_of_fmap.
    apply list_elem_of_filter in Hin as [_ Hin]. apply list_elem_of_fmap. eauto.
  - intros x. rewrite Hids, Hex. intros (id & -> & Hin)%list_elem_of_fmap.
    destruct (reaches_exit nested Hv id Hin) as (y & Hy & Hpath). exists (prefix_of n +:+ y).
    split; [apply list_elem_of_fmap; eauto|]. by eapply (rtc_congruence (λ id, prefix_of n +:+ id)).
  - intros x. rewrite Hids, Hen. intros (id & -> & Hin)%list_elem_of_fmap.
    destruct (reached_from_entry nested Hv id Hin) as (y & Hy & Hpath). exists (prefix_of n +:+ y).
    split; [apply list_elem_of_fmap; eauto|]. by eapply (rtc_congruence (λ id, prefix_of n +:+ id)).
  - rewrite Hids. destruct (pv_node_ids _ Hv) as (Hne & _). by destruct (nodes nested).
Qed.

(** ** Order *)

Section order.
Context `{JsonSchema} `{ModelRouting}.
Context (registry : WorkflowComponentRegistry) (max_depth : Z) (same : bool).

Section compiled.
Context (rec : list component_key → ExecutionPlan → result ExecutionPlan).
Context (rec_valid : ∀ k r r', rec k r = Ok r' → plan_valid r').
Context (stack : list component_key) (p q : ExecutionPlan) (frag : string → _Fragment).
Context (Hf : compiled_from registry rec stack p frag q).

Notation step F := (λ x y, (x, y) ∈ edge_pairs (fr_edges F)).

Lemma compiled_fragment u : u ∈ map node_id (nodes p) → fragment_ok (frag u).
Proof using Hf rec_valid.
  intros (n & -> & Hn)%list_elem_of_fmap.
  destruct (cf_fragment _ _ _ _ _ _ Hf n Hn) as (gs & HF & _).
  destruct HF as [|? ? ? ? ? ? ? _ _ _ Hrec Hpre]; [apply single_fragment_ok|].
  eapply prefixed_fragment_ok; [|exact Hpre]. by eapply rec_valid.
Qed.

Lemma compiled_ids :
  map node_id (nodes q) = concat (map (λ n, fragment_ids (frag (node_id n))) (nodes p)).
Proof using Hf. by rewrite (cf_nodes _ _ _ _ _ _ Hf), concat_map, map_map. Qed.

Lemma compiled_id u x : u ∈ map node_id (nodes p) → x ∈ fragment_ids (frag u) → x ∈ map node_id (nodes q).
Proof using Hf.
  intros (n & -> & Hn)%list_elem_of_fmap Hx. rewrite compiled_ids. apply elem_of_concat_map. eauto.
Qed.

(** A compiled node lies in one fragment. *)
Lemma one_fragment u v x :
  u ∈ map node_id (nodes p) → v ∈ map node_id (nodes p) →
  x ∈ fragment_ids (frag u) → x ∈ fragment_ids (frag v) → u = v.
Proof using Hf.
  intros Hu Hv. pose proof (pv_node_ids _ (cf_valid _ _ _ _ _ _ Hf)) as (_ & Hnd & _).
  rewrite compiled_ids in Hnd. apply (NoDup_concat_map_inj (λ u, fragment_ids (frag u)) (map node_id (nodes p))); [|done..].
  by rewrite map_map.
Qed.

Lemma compiled_edge x y :
  plan_edge q x y ↔
  (∃ u, u ∈ map node_id (nodes p) ∧ step (frag u) x y) ∨
  (∃ u v, plan_edge p u v ∧ x ∈ fr_exits (frag u) ∧ y ∈ fr_entries (frag v)).
Proof using Hf.
  rewrite plan_edge_pair by apply (cf_valid _ _ _ _ _ _ Hf). unfold edge_pairs at 1.
  rewrite (cf_edges _ _ _ _ _ _ Hf), map_app, elem_of_app.
  rewrite !concat_map, !map_map, !elem_of_concat_map.
  assert (∀ e, (x, y) ∈ map (λ e, (edge_source e, edge_target e))
      (join_fragments e (frag (edge_source e)) (frag (edge_target e))) ↔
      x ∈ fr_exits (frag (edge_source e)) ∧ y ∈ fr_entries (frag (edge_target e))) as Hjoin.
  { intros e. unfold join_fragments. rewrite concat_map, map_map, elem_of_concat_map. split.
    - intros (a & Ha & Hxy). rewrite map_map in Hxy. cbn in Hxy.
      apply list_elem_of_fmap in Hxy as (b & [= -> ->] & Hb). done.
    - intros [Hx Hy]. exists x. split; [done|]. rewrite map_map. cbn.
      apply list_elem_of_fmap. by exists y. }
  setoid_rewrite Hjoin. f_equiv.
  - split.
    + intros (n & Hn & Hxy). exists (node_id n). split; [apply list_elem_of_fmap; eauto|done].
    + intros (u & (n & -> & Hn)%list_elem_of_fmap & Hxy). by exists n.
  - split.
    + intros (e & He & Hx & Hy). exists (edge_source e), (edge_target e). split_and!; [|done..].
      destruct (cf_ends _ _ _ _ _ _ Hf e He). split_and!; [done..|]. apply list_elem_of_fmap. eauto.
    + intros (u & v & (_ & _ & Huv) & Hx & Hy).
      apply list_elem_of_fmap in Huv as (e & [= -> ->] & He). eauto.
Qed.

(** A path of the compiled plan stays in a fragment or follows a path of the
    source. *)
Lemma compiled_path x y :
  tc (plan_edge q) x y → ∀ u v, u ∈ map node_id (nodes p) → v ∈ map node_id (nodes p) →
  x ∈ fragment_ids (frag u) → y ∈ fragment_ids (frag v) → u = v ∨ tc (plan_edge p) u v.
Proof using Hf rec_valid.
  assert (∀ x y, plan_edge q x y → ∀ u, u ∈ map node_id (nodes p) → x ∈ fragment_ids (frag u) →
      ∃ w, w ∈ map node_id (nodes p) ∧ y ∈ fragment_ids (frag w) ∧ (u = w ∨ plan_edge p u w)) as Hstep.
  { intros a b Hab u Hu Ha. apply compiled_edge in Hab as [(w & Hw & Hab)|(w & z & Hwz & Hx & Hy)].
    - destruct (fo_edges _ (compiled_fragment w Hw) a b Hab) as [Ha' Hb].
      rewrite (one_fragment u w a) by done. eauto.
    - destruct Hwz as (Hw & Hz & Hwz). pose proof (fo_exits _ (compiled_fragment w Hw) a Hx) as Ha'.
      pose proof (fo_entries _ (compiled_fragment z Hz) b Hy) as Hb.
      rewrite (one_fragment u w a) by done. exists z. split_and!; [done..|]. right. done. }
  induction 1 as [x y Hxy|x y z Hxy _ IH]; intros u v Hu Hv Hx Hy.
  - destruct (Hstep x y Hxy u Hu Hx) as (w & Hw & Hyw & Huw).
    rewrite (one_fragment v w y) by done. destruct Huw as [->|Huw]; [by left|right; by apply tc_once].
  - destruct (Hstep x y Hxy u Hu Hx) as (w & Hw & Hyw & Huw).
    destruct (IH w v Hw Hv Hyw Hy) as [->|Hwv]; destruct Huw as [->|Huw]; auto;
      right; [by apply tc_once|by eapply tc_l].
Qed.

Lemma fragment_path u x y :
  u ∈ map node_id (nodes p) → rtc (step (frag u)) x y → rtc (plan_edge q) x y.
Proof using Hf.
  intros Hu. induction 1 as [|x y z Hxy _ IH]; [done|]. eapply rtc_l; [|exact IH].
  apply compiled_edge. left. eauto.
Qed.

(** Everything of a node comes before everything of the nodes that depend on it. *)
Lemma source_path u v :
  tc (plan_edge p) u v → ∀ x y, x ∈ fragment_ids (frag u) → y ∈ fragment_ids (frag v) →
  tc (plan_edge q) x y.
Proof using Hf rec_valid.
  assert (∀ u v x y, plan_edge p u v → x ∈ fragment_ids (frag u) → y ∈ fragment_ids (frag v) →
      tc (plan_edge q) x y) as Hedge.
  { intros a b x y (Ha & Hb & Hab) Hx Hy.
    destruct (fo_to_exit _ (compiled_fragment a Ha) x Hx) as (x' & Hx' & Hpx).
    destruct (fo_from_entry _ (compiled_fragment b Hb) y Hy) as (y' & Hy' & Hpy).
    eapply tc_rtc_l; [eapply fragment_path; [exact Ha|exact Hpx]|].
    eapply tc_rtc_r; [|eapply fragment_path; [exact Hb|exact Hpy]].
    apply tc_once, compiled_edge. right. exists a, b. done. }
  induction 1 as [u v Huv|u v w Huv _ IH]; intros x y Hx Hy; [by eapply Hedge|].
  pose proof Huv as (_ & Hv & _). pose proof (fo_nonempty _ (compiled_fragment v Hv)) as Hne.
  destruct (fragment_ids (frag v)) as [|z l] eqn:Hz; [done|].
  etransitivity; [eapply (Hedge u v x z Huv Hx)|apply IH]; rewrite ?Hz; by (done || left).
Qed.
End compiled.

Notation compile := (compile registry max_depth same).

(** C17: compiling keeps the order of steps exactly: the compiled plan consists of
    one non-empty run of nodes per node of the source, in its order, the node
    itself unless it is a component, and else nodes under its path; a step of
    one run precedes a step of another exactly when the one source node precedes
    the other, so nothing starts before all of what it depends on, and no new
    dependency appears. *)
Theorem compile_order_exact p q :
  compile p = Ok q →
  ∃ run : string → list string,
  map node_id (nodes q) = concat (map (λ n, run (node_id n)) (nodes p)) ∧
  (∀ n, n ∈ nodes p → run (node_id n) ≠ [] ∧
    (node_type n ≠ "component" → run (node_id n) = [node_id n]) ∧
    (node_type n = "component" → ∀ x, x ∈ run (node_id n) → ∃ y, x = prefix_of n +:+ y)) ∧
  ∀ n m x y, n ∈ nodes p → m ∈ nodes p → n ≠ m → x ∈ run (node_id n) → y ∈ run (node_id m) →
  tc (plan_edge q) x y ↔ tc (plan_edge p) (node_id n) (node_id m).
Proof.
  intros [Hv Hc]%compile_Ok. destruct (compile_step _ _ _ _ _ _ _ Hc) as (fuel & frag & _ & Hf).
  pose proof (compile_valid registry max_depth same fuel) as Hrec.
  exists (λ u, fragment_ids (frag u)). split; [by eapply compiled_ids|].
  assert (∀ n, n ∈ nodes p → node_id n ∈ map node_id (nodes p)) as Hid
    by (intros n Hn; apply list_elem_of_fmap; eauto).
  split.
  - intros n Hn. pose proof (compiled_fragment _ Hrec _ _ _ _ Hf _ (Hid n Hn)) as Hok.
    split; [apply (fo_nonempty _ Hok)|].
    destruct (cf_fragment _ _ _ _ _ _ Hf n Hn) as (gs & HF & _). split.
    + intros Ht. by rewrite (fragment_plain _ _ _ _ _ _ _ HF Ht).
    + intros Ht x Hx. destruct HF as [|? ? ? ? ? ? ? _ _ _ _ Hp]; [done|].
      apply prefix_component_Ok in Hp as ((interface & HF & _) & _). unfold fragment_ids in Hx.
      rewrite HF, map_map in Hx. apply list_elem_of_fmap in Hx as (m & -> & _). by eexists.
  - intros n m x y Hn Hm Hne Hx Hy. split; [|intros Hnm; by eapply source_path].
    intros Hxy. destruct (compiled_path _ Hrec _ _ _ _ Hf x y Hxy (node_id n) (node_id m))
      as [Heq|]; auto.
    destruct Hne. by apply (NoDup_map_inj node_id (nodes p)); [apply (pv_node_ids _ Hv)|..].
Qed.
End order.
