(* ===== verification/ComponentSamples.v ===== *)
(** * Components: concrete runs

    Two components, one of them inside the other, and the witnesses and limits
    of the component theorems. *)
From S2P Require Import Prelude PyStr PyVal Digest Serialization SchemaEvolution Plan PlanGraph PlanLaws Components ComponentCompiler ComponentLaws ComponentOrder.

(** A schema language with one keyword: the object must have the key that
    [required] names. *)
Definition required_schema : JsonSchema := {|
  check_schema := λ _, Ok tt;
  iter_errors := λ schema value, Ok
    match dict_get "required" schema, value with
    | Some (PStr key), PDict d =>
        if dict_has key d then [] else [{| v_path := []; v_json_path := "$" |}]
    | _, _ => []
    end |}.

Definition sample_budget : ExecutionBudget :=
  {| max_attempts := 1; timeout_seconds := lit 300 0; max_tokens := None; max_cost_micros := None |}.

Definition sample_node (id kind gate effect : string) (outputs : list string)
    (budget : option ExecutionBudget) (metadata : dict) : ExecutionNode :=
  {| node_id := id; node_type := kind; task_kind := "coding"; required_capabilities := [];
     allowed_tools := ["editor"]; input_artifacts := []; output_artifacts := outputs;
     node_gate_id := gate; side_effect_class := effect; node_budget := budget;
     node_metadata := metadata |}.

Definition sample_edge (source target : string) : ExecutionEdge :=
  {| edge_source := source; edge_target := target; edge_condition := [("op", PStr "always")] |}.

Definition sample_gate : ExecutionGate :=
  {| gate_id := "approve"; gate_type := "approval"; required_roles := ["operator"];
     expires_after_seconds := None |}.

Definition sample_artifact (id : string) : ArtifactContract :=
  {| artifact_id := id; media_type := "text/plain"; art_required := true; schema_ref := "" |}.

Definition component_plan (id : string) (ns : list ExecutionNode) (es : list ExecutionEdge)
    (gs : list ExecutionGate) (arts : list string) : ExecutionPlan :=
  {| tenant_id := "tenant"; plan_id := id; workflow_id := "wf"; policy_version := "p1";
     nodes := ns; edges := es; capabilities := []; gates := gs;
     artifacts := map sample_artifact arts; plan_budget := sample_budget; plan_metadata := [];
     plan_schema := EXECUTION_PLAN_SCHEMA |}.

Definition sample_component (id : string) (plan : ExecutionPlan) (output_schema : dict)
    : WorkflowComponent :=
  {| wc_component_id := id; wc_version := "1.0.0"; wc_policy_version := "p1"; wc_plan := plan;
     wc_input_schema := []; wc_output_schema := output_schema; wc_input_artifacts := [];
     wc_output_artifacts := ["out"]; wc_required_capabilities := [];
     wc_allowed_tools := ["editor"]; wc_compatible_versions := []; wc_artifact_contract := [];
     wc_schema := WORKFLOW_COMPONENT_SCHEMA |}.

Definition component_node (id component : string) (outputs : list string)
    (budget : option ExecutionBudget) : ExecutionNode :=
  sample_node id "component" "" "none" outputs budget
    [("component", PDict [("id", PStr component); ("version", PStr "1.0.0")])].

(** A draft, then a review behind a gate that writes the output. *)
Definition summarizer : WorkflowComponent :=
  sample_component "summarizer"
    (component_plan "summary"
       [sample_node "draft" "task" "" "none" [] None [];
        sample_node "review" "task" "approve" "non_idempotent_write" ["out"] None []]
       [sample_edge "draft" "review"] [sample_gate] ["out"])
    [("required", PStr "summary")].

(** A component that is nothing but the summarizer. *)
Definition report : WorkflowComponent :=
  sample_component "report"
    (component_plan "report" [component_node "summarize" "summarizer" ["out"] None] [] [] ["out"])
    [].

Definition root_plan (component : string) : ExecutionPlan :=
  component_plan "root"
    [sample_node "first" "task" "" "none" [] None [];
     component_node "reuse" component ["final"] (Some sample_budget)]
    [sample_edge "first" "reuse"] [] ["final"].

Definition sample_registry : WorkflowComponentRegistry :=
  @run_register required_schema no_routing checksum_digest (false, report)
    (@run_register required_schema no_routing checksum_digest (false, summarizer) ∅).

Notation sample_compile := (@compile required_schema no_routing sample_registry 8 false).

Example sample_nodes :
  (q ← sample_compile (root_plan "report"); Ok (map node_id (nodes q), map (λ e, (edge_source e, edge_target e)) (edges q), map gate_id (gates q), map node_gate_id (nodes q)))
  = Ok (["first"; "reuse/summarize/draft"; "reuse/summarize/review"],
        [("reuse/summarize/draft", "reuse/summarize/review");
         ("first", "reuse/summarize/draft")],
        ["reuse/summarize/approve"], ["";"";"reuse/summarize/approve"]).
Proof. vm_compute. reflexivity. Qed.

Definition compiled (component : string) : ExecutionPlan :=
  match sample_compile (root_plan component) with Ok q => q | Err _ => root_plan component end.

Lemma sample_compiles component :
  component ∈ ["summarizer"; "report"] →
  sample_compile (root_plan component) = Ok (compiled component).
Proof.
  intros [->|[->|[]%elem_of_nil]%elem_of_cons]%elem_of_cons; vm_compute; reflexivity.
Qed.

Lemma sample_reachable :
  reachable (@run_register required_schema no_routing checksum_digest) ∅ sample_registry.
Proof. apply reachable_step, reachable_step, reachable_init. Qed.

Lemma sample_registered : sample_registry !! ("summarizer", "1.0.0") = Some summarizer.
Proof. vm_compute. reflexivity. Qed.

(** ** Limits *)

(** The outermost component of an exit node wins: inside [report] nothing holds
    the summarizer to its own output schema. *)
Lemma nested_output_schema_lost :
  ∃ n, n ∈ nodes (compiled "report") ∧
    node_id n = "reuse/summarize/review" ∧
    @validate_compiled_component_output required_schema n (PDict []) = Ok tt ∧
    @validate_output required_schema summarizer (PDict []) =
      Err (ValueError "workflow_component_output_invalid:$").
Proof.
  destruct (nodes (compiled "report")) as [|a [|b [|c l]]] eqn:Hn; vm_compute in Hn; [discriminate Hn..|].
  injection Hn as _ _ Hc _. exists c. rewrite <- Hc. split_and!; [|vm_compute; reflexivity..].
  right. right. left.
Qed.

(** What a component node says about effects and budget binds nothing under it:
    a node of class "none" with a budget becomes one that writes and has none. *)
Lemma placeholder_limits_dropped :
  ∃ n m, n ∈ nodes (root_plan "summarizer") ∧ m ∈ nodes (compiled "summarizer") ∧
    within n m ∧ side_effect_class n = "none" ∧ side_effect_class m = "non_idempotent_write" ∧
    node_budget n = Some sample_budget ∧ node_budget m = None.
Proof.
  destruct (nodes (compiled "summarizer")) as [|a [|b [|c l]]] eqn:Hn; vm_compute in Hn; [discriminate Hn..|].
  injection Hn as _ _ Hc _. exists (component_node "reuse" "summarizer" ["final"] (Some sample_budget)), c.
  rewrite <- Hc. split_and!; try reflexivity; [right; left|right; right; left|].
  constructor; [done|]. right. split_and!; [done|by exists "review"|]. cbn. auto.
Qed.

(** ** Witnesses *)

Lemma version_immutable_witness :
  ∃ c, resolve sample_registry "summarizer" "1.0.0" = Ok c ∧ key_of c = ("summarizer", "1.0.0").
Proof.
  destruct (@version_immutable required_schema no_routing checksum_digest sample_registry
    sample_registry "summarizer" "1.0.0" summarizer sample_reachable (reachable_init _ _)
    sample_registered) as (c & Hc & _ & Hk & _).
  by exists c.
Defined.

Lemma compile_fuel_witness :
  @_compile required_schema no_routing sample_registry 8 false 100 [] (root_plan "report") =
  Ok (compiled "report").
Proof.
  rewrite (@compile_fuel required_schema no_routing sample_registry 8 false (root_plan "report") 100);
    [vm_compute; reflexivity|cbn; lia].
Defined.

Lemma compile_steps_exact_witness :
  ∃ m, m ∈ nodes (compiled "report") ∧ node_id m = "first".
Proof.
  destruct (@compile_steps_exact required_schema no_routing sample_registry 8 false
    (root_plan "report") (compiled "report")) as [_ Hleaf].
  - apply sample_compiles. right. left.
  - destruct (Hleaf "first" (root_plan "report") (sample_node "first" "task" "" "none" [] None []))
      as (m & Hm & Hid & _); [|by exists m].
    apply (leaf_here sample_registry (root_plan "report") (sample_node "first" "task" "" "none" [] None []));
      [left|done].
Defined.

Lemma compile_no_escalation_witness :
  plan_valid (compiled "report") ∧ policy_version (compiled "report") = "p1".
Proof.
  destruct (@compile_no_escalation required_schema no_routing sample_registry 8 false checksum_digest
    (root_plan "report") (compiled "report") sample_reachable) as (Hv & (_ & Hp & _) & _).
  - apply sample_compiles. right. left.
  - split; [exact Hv|exact Hp].
Defined.

Lemma compile_order_exact_witness :
  ∃ run : string → list string,
    map node_id (nodes (compiled "report")) = run "first" ++ run "reuse" ++ [] ∧
    run "first" = ["first"].
Proof.
  destruct (@compile_order_exact required_schema no_routing sample_registry 8 false
    (root_plan "report") (compiled "report")) as (run & Hids & Hrun & _).
  - apply sample_compiles. right. left.
  - exists run. split; [exact Hids|].
    destruct (Hrun (sample_node "first" "task" "" "none" [] None [])) as (_ & Hp & _); [left|].
    by apply Hp.
Defined.
